(* ===== verification/_CoqProject ===== *)
-Q . S2P
Prelude.v
Io.v
Base64.v
Json.v
ElementsAcList.v
ElementsAc.v
ElementsControl.v
ElementsImage.v
ElementsWtp.v
ElementsWtpDesc.v
Elements80211a.v
Elements80211b.v
Element.v
Termination.v
ElementProps.v
Header.v
HeaderProps.v
CapwapList.v
CapwapArray.v
CapwapHash.v
CapwapHashSpec.v
CapwapHashDelete.v
Bitfield.v
Timeout.v
TimeoutSpec.v
HashProps.v
Tx.v
TxSpec.v
Rx.v
RxSpec.v
Packet.v
PacketInv.v
Validate.v
PacketSpec.v
DecodeSpec.v
Message.v
FragmentSpec.v
TransportProps.v
PacketProps.v
Ieee80211.v
Ieee80211Frame.v
Ieee80211Spec.v
Ieee80211FrameSpec.v
Ieee80211Props.v
AcJson.v
AcJsonProps.v
AcWorld.v
AcWlans.v
AcIeee80211.v
AcInv.v
AcStation.v
AcNetwork.v
AcFrame.v
AcDispatch.v
AcProps.v
AcSession.v
AcActions.v
AcDfaJoin.v
AcDfaConfigure.v
AcRun.v
AcController.v
AcBackendThread.v
AcBackendThreadSpec.v
AcDataChannel.v
AcSessionSpec.v
AcSessionTotal.v
AcSessionMessage.v
AcSessionWlan.v
AcSessionProps.v
AcAnswerProps.v
AcBackendProps.v
AcEventProps.v
KmodCapwap.v
KmodCapwapSpec.v
KmodReassembly.v
KmodForward.v
KmodSession.v
KmodLists.v
KmodSessionSpec.v
KmodProps.v
