(* ===== verification/Prelude.v ===== *)
(** * smartcapwap: the protocol library, the access controller and its kernel module

    This library models smartcapwap, the CAPWAP access controller of the
    repository (paths below are relative to src/smartcapwap/src): the protocol
    library common/, the 802.11 frames common/binding/ieee80211/, and the
    controller ac/: its wireless networks and stations, its sessions with their
    state machine, discovery, the data channels, and the back end with its
    documents and events; and the kernel module kmod/, which carries the data of
    the stations.  The rest of the repository is firmware packaging, a wireless
    driver, vendored tools and user interface.

    ** The program and its model

    A control message is a CAPWAP header, a control header and a list of
    message elements.  The sender builds the header
    ([capwap_header_*], common/capwap_protocol.c), opens a transmission manager
    ([capwap_packet_txmng_*]), adds elements, each written by the [create]
    callback of its kind (common/capwap_element_*.c) through a table of write
    functions, and takes the fragments out.  The receiver checks each packet
    ([capwap_sanity_check]), collects fragments in a reception manager
    ([capwap_packet_rxmng_*]), decodes the elements with the [parse] callbacks
    through a table of read functions ([capwap_parsing_packet],
    common/capwap_element.c), and checks that the mandatory ones are there
    ([capwap_validate_parsed_packet]).

    - Prelude: bytes, fixed-width integers, network byte order, C strings,
      tactics and hint databases; constants of common/capwap_rfc.h.
    - Io: the interface between elements and managers (the two tables of
      function pointers of common/capwap_element.h).  A [create] is the list of
      the calls it makes; a [parse] is a program over the read calls.
      [WriterLaws] and [ReaderRefines] state what a manager promises, [Codec]
      and [ChecksAsserts] what an element promises.
    - ElementsAcList, ElementsAc, ElementsControl, ElementsImage, ElementsWtp,
      ElementsWtpDesc, Elements80211a, Elements80211b: one
      Module per message element, 80 in all, each with its Record, [create],
      [parsing], [clone] where the source has one that is not a plain copy, the
      assertions of [create], the well-formed values [wf], and the instances of
      [Codec] and [ChecksAsserts].
    - Element: the kinds, the operations of each kind and the three dispatch
      tables of common/capwap_element.c; the laws of the elements, uniformly.
    - Termination: the parse callbacks return on every input, but two.
    - Header: the header buffer with its bit fields and the operations on it.
    - Tx, TxSpec: the transmission manager; its abstract view [tx_view] of a
      message in one fragment, and the proof that it is a writer.
    - Rx, RxSpec: the reception manager; the relation [rx_stream] with a flat
      stream of bytes, and the proof that it is a reader.
    - Packet, PacketInv, PacketSpec, DecodeSpec: message types, decoding, its
      typing invariant, its inverse, and its behaviour on arbitrary packets.
      Validate: the mandatory elements, and their table as a specification.
    - Message: a message of one fragment end to end.  FragmentSpec: messages of
      several fragments.
    - ElementProps, HeaderProps, TransportProps, PacketProps: the theorems,
      each with a concrete instance where it has hypotheses.

    The containers and timers of common/ carry the state of the controller.

    - CapwapList: doubly linked lists (common/capwap_list.c) on a memory of
      items, with the sequence they represent.  CapwapArray: growing arrays
      (common/capwap_array.c).
    - CapwapHash, CapwapHashSpec, CapwapHashDelete: hash tables whose buckets
      are AVL trees (common/capwap_hash.c); a pointer to an item is a cursor, so
      that the parent links can be followed; buckets as sorted sequences.
      [HashOps] and [HashLaws] are the callbacks of a table and what they owe.
      CapwapHashDelete ends with what a table promises its clients about a key
      that is alone in its bucket; the timers and the stations are proved against
      it.
    - Bitfield: sets of small integers in words of 32 bits.
    - Timeout, TimeoutSpec: timers (common/capwap_timeout.c).
    - HashProps: the theorems about containers and timers.

    - Ieee80211, Ieee80211Frame: information elements, rates, addresses, names,
      association identifiers, and the frames that are sent
      (common/binding/ieee80211/ieee80211.c).  Ieee80211Spec,
      Ieee80211FrameSpec: frames as a header and a sequence of elements.
      Ieee80211Props: the theorems.

    Each radio access point has a session in the controller.  The session knows
    the networks of its radios and the stations on them; the controller knows
    which session is the authority of each station.  Frames of stations come
    from the radios ([ac_ieee80211_packet]); authentication creates a station
    and starts its timer, association gives it an identifier and asks the radio
    to serve it, and a station that shows up in another session is deleted from
    the old one by a notice between the sessions.

    - AcWorld: the [world] of a session - radios, networks, stations, the two
      hash tables, the timers, and the list [out] of what was sent - and the
      state-and-failure monad [M] its operations run in.
    - AcWlans: ac/ac_wlans.c, every operation.  AcIeee80211:
      ac/ac_ieee80211_data.c, every handler, the answers of a radio about a
      station (ac/ac_dfa_run.c) and the notice of a station that roams
      (ac/ac_session.c).
    - AcInv: the weakest precondition [wp] of a program of [M] - it has a result,
      and the result satisfies a predicate - with its rules, and the invariant
      [world_ok].  AcStation, AcNetwork, AcFrame, AcDispatch: the specification of
      each operation.
    - AcProps: the theorems.

    A session is a thread.  The main thread gives it the packets of its WTP, the
    kernel module and other threads queue actions for it, and in each turn of its
    loop it takes an action, or a packet, or runs a timer that expired.  A packet
    is decrypted, collected and decoded, and the message goes to the handler of
    the state: a WTP joins, is configured, reports its radios, and runs once its
    data channel is alive.  At each stage the back end, a service that is asked
    with documents in JSON and Base 64, decides.

    - Base64: the coder and the decoder of ac/ac_soap.c.  Json: documents as
      json-c keeps them, and MAC addresses as text.  AcJson: the 802.11 elements
      in documents (ac/ac_80211_json.c and ac_80211_json_*.c), one section per
      kind.  AcJsonProps: the theorems.
    - AcSession: the session [ac_session_t] (ac/ac_session.h), its timers, queues
      and kept messages, the change of state and the end of a session
      (ac/ac_session.c), and the class [Environment] of what happens outside.
      AcActions: documents in answers, addresses as text, and the actions
      (ac/ac_session.c).
    - AcDfaJoin, AcDfaConfigure, AcRun: the handlers of the states
      (ac/ac_dfa_*.c); the first of them also has the encrypted channel around
      wolfSSL (common/capwap_dtls.c), the last the reception of packets, the turn
      of the thread, its beginning and its end ([ac_session_run]), and the step
      relation [session_step]: a turn, or a packet, an action or the request to
      end from another thread.
    - AcController: the main thread (ac/ac_execute.c) - dispatch of packets,
      creation of sessions - and discovery (ac/ac_discovery.c); and a controller,
      a back end and a WTP as concrete functions, with the session they make, up to
      the Run state, which the instances of the theorems use.
    - AcSessionSpec: partial correctness of programs on a session ([wlp]), and
      what every operation keeps or reaches, which gives the transitions.
      AcSessionTotal: the operations that end a session or send a request, with
      their results.  AcSessionMessage: a message from the queue to its handler.
      AcSessionWlan: the request for a network and its answer.
    - AcSessionProps, AcAnswerProps, AcBackendProps: the theorems.

    The back end is polled by a thread of its own, which shares a lock and the
    identifier of its session with the threads of the WTPs: it joins one of the
    configured back ends, waits for events, turns each into an action of a
    session or of the whole controller, reports whether the event could be
    parsed, and moves to the next back end when the present one fails.

    - AcBackendThread: the thread (ac/ac_backend.c), its lock, the messages it
      sends and the events it parses, over the class [Transport] of the requests
      that fail or are answered, and the step relation [backend_step]: the
      thread, a session that asks a request under the lock, the main thread that
      stops it.  AcBackendThreadSpec: the invariant [backend_inv] of that
      relation, and the specification of joining, of the change of back end and
      of the events.
    - AcDataChannel: what the controller does with the configuration it gets from
      the back end (ac/ac_execute.c) - the message queue of the main thread, and
      the data channels made, changed and removed through the class
      [Interfaces] of the kernel module.  AcEventProps: the theorems of the back
      end and of the data channels.

    The kernel module has the data channel of every session.  The controller sets
    a session up by a netlink command; the first keep-alive of the WTP gives it its
    address and starts it.  From then on packets of the WTP are found by their
    address, reassembled when they are fragments, and taken apart: frames of
    stations go to another WTP, to the interface of the station, or, when they are
    management frames, to the controller.  Frames from an interface go to the WTP
    of the station, or to all of a VLAN, in fragments when they are too long.
    Packets are handled by one thread for each processor.

    - KmodCapwap: kmod/capwap.c - fragments, keep-alives, conversion of frames,
      reception and sending - over the classes [KernelEnv] and [Linux80211] of what
      the kernel gives, and [Dependent], the functions that capwap.c calls and the
      rest of the module implements.  KmodCapwapSpec: the invariant of the queues
      of fragments.  KmodReassembly: fragments in any order.  KmodForward: what is
      sent, and the conversion of frames there and back.
    - KmodSession: kmod/capwap_private.c, station.c and iface.c, the addresses of
      socket.c and the commands of netlinkapp.c; the instance [kmod_dependent]; the
      step relation [kmod_step].  Objects are behind pointers, and the lists of the
      kernel are kept as the previous and the next node of each node, so that a
      list that is damaged, or an object that is used after it was freed, is seen.
    - KmodLists: rings of nodes, and the chains of a hash table, for any table
      ([TableLaws]).  KmodSessionSpec: the invariant [sessions_ok], operation by
      operation.  KmodProps: the theorems.

    ** Conventions

    A C byte is a [Z] in [0, 256); a buffer is a [list Z].  Integers keep their
    C width: every store into an [unsigned short] or [uint16_t] is written with
    the wrap-around [wrap16], and likewise for the other widths.  The host is
    little-endian, which matters only for the bit fields of the header and for
    [SET_FRAGMENT_OFFSET_HEADER].  Memory that was allocated and not written
    holds an arbitrary byte, the class [Indeterminate].  An [ASSERT] of an
    element or of a writer is a boolean function next to the operation; the
    theorems say who establishes it.  Elsewhere a failed assertion, a null or
    dangling pointer and an access outside a buffer are the absence of a result,
    [None].  A linked list that is only appended to and walked is a [list]; the
    pointers into it are positions.  The stations and networks of a session are
    told by their addresses instead of by pointers; an address that is not there
    is a dangling pointer.

    Loops that the data drive are [Fixpoint]s with fuel, and [None] when it runs
    out.  The fuel of a parse callback bounds the turns of its loops, and one
    more than the number of bytes ahead is enough, since each turn consumes a
    byte ([Termination.parse_ends]); the address lists count down a 16-bit
    counter, and 65536 more is enough whenever the loop ends at all
    ([DecodeSpec.parse_kind_ends], [DecodeSpec.stuck_parse]).  The loop that
    writes a block gets one more turn than the block has bytes; the reader of
    information elements one turn per byte.  A search of a hash table that ends
    at all ends within 3 turns ([enough]); an insertion takes at most two turns
    per item.  The loops that empty a network and a radio need as many turns as
    there are stations and networks ([crowd_ok], [radios_ok]).  A session has one
    fuel for all its loops; the theorems that a turn has a result ask for [enough]
    and for more than the bytes of the message, the invariants hold for any fuel,
    as a turn without a result is no step.

    A session is a value, and its operations run in the state-and-failure monad
    [MS].  What it does outside - packets sent, requests to the back end, calls
    of the kernel module and of wolfSSL - is appended to its [log], and the
    answers of the [Environment] are arbitrary functions of the log so far, so a
    theorem holds for every behaviour of the outside.  A turn of the thread is
    one step: the session's lock protects its queues, and what other threads do
    to them is done between two turns.  Effects of networks and stations ([out])
    are delivered at the end of the operation that has them.  The sessions of
    other WTPs are seen as the list [other_sessions] of their identifiers.
    Whether [char] is signed is the class [CharSign].

    In the kernel module pointers are numbers that are never used twice, objects
    are in finite maps, and touching an object or a node that is not there is a
    failure.  Its operations run in the monad [KM]; what it sends and tells is in
    its [km_log], and the answers of the kernel are functions of the log.  The
    loops over a list or a chain get as many turns as there are nodes or objects
    ([KmodLists.ring_size], [size_bound]), the loop of [sc_capwap_forwarddata] one
    per byte, the loop over the elements of a keep-alive one per byte left.  The
    list operations and constants of the Linux kernel are written out as its
    headers document them.

    ** What the theorems show

    Elements: for each of the kinds [parse] inverts [create] and consumes
    exactly the bytes of the element, [clone] preserves the encoding, [create]
    respects the assertions of the writers, what [parse] accepts can be sent
    again (five kinds excepted, listed in [parse_establishes_asserts]), and the
    dispatch tables are injective.  Three kinds have no such law because the
    code contradicts it: 802.11 Statistics (a null block is written), Update
    Station QoS (15 bytes written, 14 accepted) and WTP Timestamp (the
    microseconds are shifted).
    Header: the fields and the optional parts are read back as they were set,
    the header invariant is preserved, and one order of the operations is shown
    to corrupt the wireless information.
    Managers: the writer appends exactly the bytes of the calls while they fit,
    the reader delivers the concatenation of the payloads; a block larger than
    the room left is truncated, and only some messages of several fragments are
    reassembled.
    Messages: a message of one fragment is decoded to the elements it was built
    from; decoding any packet yields well-typed elements and ends, but for
    malformed address lists, on which it loops for ever; validation is
    equivalent to a table of requirements.
    Containers: a linked list refines a sequence; arrays keep their items; a
    hash table is a finite map whose buckets stay balanced under insertion, and
    a search below the second level of a bucket never ends.  Timers: the list
    and the table of timers agree, every timer fires, and the list is not always
    in the order of expiry.
    802.11: the reader of elements accepts exactly the well-formed sequences and
    finds their elements, frames are read back, identifiers are allocated
    smallest first.
    Stations: a session stays consistent whatever frames arrive; the effect of
    authentication, association, roaming, expiry of a timer and deletion of a
    network is stated for each; two requests that are refused are shown to be
    served nonetheless.
    Sessions: in every run the state moves as the diagram allows; a session past
    Join was authorised, one that runs has its data channel and was confirmed;
    it is in the list of the controller exactly until it is torn down.  A
    message reaches its handler with the elements that were sent; a repeated
    request gets the kept answer; an echo is answered, a request is sent again
    four times, a session that is asked to end does; a network is added from the
    action to the answer.  Two messages are shown to make the controller follow
    a null pointer.
    Controller and back end: packets go to the session of their sender, sessions
    are bounded and have distinct addresses; discovery is answered; documents
    and the elements in them are read back; a text without its padding overruns
    its buffer, and a radio number out of range the array of radios.
    Back end thread: in every interleaving the identifier of the session is read
    and written under the lock until the thread is told to end, and the end of
    the thread is shown to write it without the lock; when no back end answers,
    all of them are tried; the configuration of the answer reaches the kernel
    module; an event that adds a network becomes the action and the request to
    the WTP.  The events that are answered by the wrong message are shown too: an
    event that waits for its answer is completed by an Echo Request, and the
    event that closes a session is always cancelled.

    Kernel module: fragments that the module sends are reassembled in any order
    into the packet they were cut from; reassembly stays within its buffers and
    queues whatever arrives; in every reachable state the sessions are in exactly
    the lists and chains they belong to; a keep-alive starts its session and both
    lookups find it; frames between stations of two WTPs are forwarded.  Three
    faults are shown: Ethernet frames that are marked as 802.11 frames, frames with
    a VLAN tag that are looked up under another address, and a list of stations
    that keeps the ones that were freed.

    The theorems about stations assume what makes the searches of the hash
    tables end: that no two stations of a session, or of the controller, share a
    bucket ([world_ok], [room]) and that a timer index below 128 is free
    ([timers_free]).  They also assume that 5 bytes can be read after a received
    frame ([frame_ok]: the reader looks at the first bytes of a vendor element
    without checking its length) and that an uninitialised length is 0.  Whether
    the kernel module sends a frame is a parameter, any function of the number of
    the frame.

    ** What is not modelled, and what comes next

    Memory release ([*_free]), logging and the failure of allocation are left
    out: they do not influence the results.  Reads outside the buffer of a
    received packet are not modelled: [fragment_ok] states the bounds that
    [capwap_sanity_check] establishes.  The locks of the controller's table are
    left out, each use of the table being one step, and so is the interleaving
    of threads inside a turn; the count of the references to a session is not
    kept.  wolfSSL, json-c's parser and printer, the resolver, the kernel and the
    back end are parameters, and so is the kernel module for the controller.  In the
    kernel module an operation under the update lock is one step, the counters of
    the interfaces are left out, and the encoding of netlink messages and the
    creation of sockets are input and output.  HTTP and XML in ac/ac_soap.c, the netlink
    messages of ac/ac_kmod.c, the sockets, polling, signals and the configuration
    file of the main thread (ac/ac_execute.c, ac/ac.c) are input and output.  The
    events and locks of common/ are wrappers of pthread calls. *)
From stdpp Require Export base list list_numbers.
From Stdlib Require Export ZArith Lia.
#[global] Open Scope Z_scope.

(** ** Machine integers *)

Definition wrap8 (x : Z) : Z := x mod 256.
Definition wrap16 (x : Z) : Z := x mod 65536.
Definition wrap32 (x : Z) : Z := x mod 4294967296.

(** The width of [unsigned long] depends on the target. *)
Class Target := { ulong_bits : Z; ulong_min : 32 <= ulong_bits }.
Definition wrap_ulong `{Target} (x : Z) : Z := x mod 2 ^ ulong_bits.

(** A target with 64-bit [unsigned long]. *)
Program Definition lp64 : Target := {| ulong_bits := 64 |}.
Next Obligation. lia. Qed.

(** Conversion to [int]. *)
Definition to_int (x : Z) : Z := (x + 2147483648) mod 4294967296 - 2147483648.

Declare Scope capwap_scope.
Delimit Scope capwap_scope with capwap.
#[global] Open Scope capwap_scope.

Abbreviation is_u8 x := (0 <= x < 256).
Abbreviation is_u16 x := (0 <= x < 65536).
Abbreviation is_u32 x := (0 <= x < 4294967296).

(** Length of a buffer as a C integer. *)
Abbreviation zlen l := (Z.of_nat (length l)).

(** A buffer of bytes. *)
Definition bytes_ok (bs : list Z) : Prop := Forall (fun b => is_u8 b) bs.

#[export] Instance bytes_ok_dec bs : Decision (bytes_ok bs) := _.

(** Proves a decidable fact about closed terms. *)
Ltac by_computation := apply (bool_decide_unpack _); vm_compute; exact I.

(** ** Network byte order

    [htons]/[htonl] followed by a copy of the variable's memory puts the most
    significant byte first, on either host endianness. *)
Definition be16 (x : Z) : list Z := [wrap8 (x / 256); wrap8 x].

Definition be32 (x : Z) : list Z :=
  [wrap8 (x / 16777216); wrap8 (x / 65536); wrap8 (x / 256); wrap8 x].

Definition val16 (b1 b0 : Z) : Z := b1 * 256 + b0.

Definition val32 (b3 b2 b1 b0 : Z) : Z :=
  ((b3 * 256 + b2) * 256 + b1) * 256 + b0.

(** ** Tactics *)

(** Arithmetic with the width wrappers unfolded. *)
Ltac width := unfold wrap8, wrap16, wrap32, val16, val32 in *;
  try (Z.div_mod_to_equations; lia).

Create Rewrite HintDb capwap_bool.
#[export] Hint Rewrite orb_true_iff orb_false_iff andb_true_iff andb_false_iff
  negb_true_iff negb_false_iff Z.ltb_lt Z.ltb_ge Z.leb_le Z.leb_gt Z.eqb_eq Z.eqb_neq
  Nat.ltb_lt Nat.ltb_ge Nat.leb_le Nat.leb_gt Nat.eqb_eq Nat.eqb_neq : capwap_bool.

(** Boolean tests as propositions. *)
Ltac bools := autorewrite with capwap_bool in *.

(** The bind of options, computed. *)
Ltac obind := cbv beta iota delta [mbind option_bind].

(** Splits conjunctions of tests that hold. *)
Ltac split_andb :=
  repeat match goal with
    | H : _ && _ = true |- _ => apply andb_true_iff in H as [? ?]
    | H : negb _ = true |- _ => apply negb_true_iff in H
    | H : negb _ = false |- _ => apply negb_false_iff in H
    end.

(** Decide the outermost boolean test of the goal by linear arithmetic. *)
Ltac decide_if :=
  match goal with
  | |- context [if ?b then _ else _] =>
      let E := fresh in
      first [ assert (b = false) as E by (autorewrite with capwap_bool; lia); rewrite E; clear E
            | assert (b = true) as E by (autorewrite with capwap_bool; lia); rewrite E; clear E ]
  end.

Create HintDb capwap.
Create Rewrite HintDb capwap_len.

(** ** Lemmas on byte strings *)

Lemma wrap8_range x : is_u8 (wrap8 x).
Proof. unfold wrap8. apply Z.mod_pos_bound. lia. Qed.

Lemma wrap8_small x : is_u8 x -> wrap8 x = x.
Proof. apply Z.mod_small. Qed.

Lemma wrap16_range x : is_u16 (wrap16 x).
Proof. unfold wrap16. apply Z.mod_pos_bound. lia. Qed.

Lemma wrap16_small x : is_u16 x -> wrap16 x = x.
Proof. apply Z.mod_small. Qed.

Lemma wrap32_small x : is_u32 x -> wrap32 x = x.
Proof. apply Z.mod_small. Qed.

Lemma wrap_ulong_small `{Target} x : is_u32 x -> wrap_ulong x = x.
Proof.
  intros. apply Z.mod_small. pose proof (Z.pow_le_mono_r 2 32 ulong_bits eq_refl ulong_min). lia.
Qed.

Lemma to_int_small x : -2147483648 <= x < 2147483648 -> to_int x = x.
Proof. intros. unfold to_int. rewrite Z.mod_small; lia. Qed.

(** Masking with [2^n - 1] keeps a value that fits. *)
Lemma land_mask x m n : m = Z.ones n -> 0 <= n -> 0 <= x <= m -> Z.land x m = x.
Proof.
  intros -> Hn Hx. rewrite Z.land_ones by lia. apply Z.mod_small.
  rewrite Z.ones_equiv in Hx. lia.
Qed.

Lemma length_be16 x : length (be16 x) = 2%nat.
Proof. reflexivity. Qed.

Lemma length_be32 x : length (be32 x) = 4%nat.
Proof. reflexivity. Qed.

Lemma val16_be16 x : is_u16 x -> val16 (wrap8 (x / 256)) (wrap8 x) = x.
Proof. intros. width. Qed.

Lemma val32_be32 x :
  is_u32 x ->
  val32 (wrap8 (x / 16777216)) (wrap8 (x / 65536)) (wrap8 (x / 256)) (wrap8 x) = x.
Proof. intros. width. Qed.

Lemma be16_val16 b1 b0 : is_u8 b1 -> is_u8 b0 -> be16 (val16 b1 b0) = [b1; b0].
Proof. intros. unfold be16. repeat f_equal; width. Qed.

Lemma be32_val32 b3 b2 b1 b0 :
  is_u8 b3 -> is_u8 b2 -> is_u8 b1 -> is_u8 b0 ->
  be32 (val32 b3 b2 b1 b0) = [b3; b2; b1; b0].
Proof. intros. unfold be32. repeat f_equal; width. Qed.

Lemma val16_range b1 b0 : is_u8 b1 -> is_u8 b0 -> is_u16 (val16 b1 b0).
Proof. unfold val16. lia. Qed.

Lemma val32_range b3 b2 b1 b0 :
  is_u8 b3 -> is_u8 b2 -> is_u8 b1 -> is_u8 b0 -> is_u32 (val32 b3 b2 b1 b0).
Proof. unfold val32. lia. Qed.

Lemma bytes_ok_app a b : bytes_ok (a ++ b) <-> bytes_ok a /\ bytes_ok b.
Proof. apply Forall_app. Qed.

Lemma bytes_ok_take n a : bytes_ok a -> bytes_ok (take n a).
Proof. apply Forall_take. Qed.

Lemma bytes_ok_drop n a : bytes_ok a -> bytes_ok (drop n a).
Proof. apply Forall_drop. Qed.

Lemma be16_ok x : bytes_ok (be16 x).
Proof. repeat constructor; apply wrap8_range. Qed.

Lemma be32_ok x : bytes_ok (be32 x).
Proof. repeat constructor; apply wrap8_range. Qed.

#[export] Hint Resolve wrap8_range wrap16_range be16_ok be32_ok
  bytes_ok_take bytes_ok_drop val16_range val32_range : capwap.
#[export] Hint Rewrite @length_app @length_cons @length_nil length_be16 length_be32
  Nat2Z.inj_add Nat2Z.inj_succ Nat2Z.inj_0 Z.add_0_r Nat.add_0_r : capwap_len.
#[export] Hint Rewrite <- Z.add_1_r : capwap_len.

(** Lengths as integers, then linear arithmetic. *)
Ltac len := autorewrite with capwap_len in *; simpl length in *; try lia.

(** ** C strings

    A [char*] is a buffer; [strlen] counts the bytes before the first NUL. *)
Fixpoint strlen (s : list Z) : nat :=
  match s with
  | [] => 0
  | c :: s => if c =? 0 then 0 else S (strlen s)
  end.

(** The characters of a C string, without its terminator. *)
Definition cstr (s : list Z) : list Z := take (strlen s) s.

(** A string that can be stored: non-zero bytes. *)
Definition chars_ok (s : list Z) : Prop := Forall (fun c => 0 < c < 256) s.

Lemma strlen_terminated s rest : chars_ok s -> strlen (s ++ 0 :: rest) = length s.
Proof.
  induction 1 as [|c s Hc _ IH]; [done|].
  simpl. decide_if. by rewrite IH.
Qed.

Lemma cstr_terminated s rest : chars_ok s -> cstr (s ++ 0 :: rest) = s.
Proof. intros H. unfold cstr. rewrite strlen_terminated by done. by rewrite take_app_length. Qed.

(** A buffer that ends with a NUL holds a string shorter than the buffer. *)
Lemma strlen_snoc (s : list Z) : (strlen (s ++ [0%Z]) <= length s)%nat.
Proof. induction s as [|c s IH]; simpl; [lia|]. destruct (c =? 0); lia. Qed.

Lemma chars_bytes s : chars_ok s -> bytes_ok s.
Proof. intros H. eapply Forall_impl; [exact H|]. simpl. lia. Qed.

#[export] Hint Resolve chars_bytes : capwap.

(** [capwap_duplicate_string] (src/common/capwap.c) copies up to the NUL. *)
Definition capwap_duplicate_string (s : list Z) : list Z := cstr s ++ [0].

Lemma duplicate_terminated s : chars_ok s -> capwap_duplicate_string (s ++ [0]) = s ++ [0].
Proof. intros. unfold capwap_duplicate_string. by rewrite cstr_terminated. Qed.

(** Exposes the characters of a stored string. *)
Tactic Notation "destruct_string" ident(s) :=
  match goal with
  | H : exists x, _ = x ++ [0] /\ chars_ok x /\ _ |- _ =>
      destruct H as (s & -> & ? & ?);
      rewrite ?(cstr_terminated s []) in * by assumption
  end.

(** ** Constants of the protocol *)

(** Constants and validity tests of src/common/capwap_rfc.h that the message
    elements and the packet managers share. *)
Definition MACADDRESS_NONE_LENGTH : Z := 0.
Definition MACADDRESS_EUI48_LENGTH : Z := 6.
Definition MACADDRESS_EUI64_LENGTH : Z := 8.

Definition IS_VALID_MACADDRESS_LENGTH (x : Z) : bool :=
  (x =? MACADDRESS_EUI48_LENGTH) || (x =? MACADDRESS_EUI64_LENGTH).

Definition RADIOID_MAX_COUNT : Z := 31.
Definition IS_VALID_RADIOID (x : Z) : bool := (1 <=? x) && (x <=? RADIOID_MAX_COUNT).

Definition WLANID_MAX_COUNT : Z := 16.
Definition IS_VALID_WLANID (x : Z) : bool := (1 <=? x) && (x <=? WLANID_MAX_COUNT).

(** Sizes of C objects that are copied as they are. *)
Definition sizeof_in_addr : Z := 4.
Definition sizeof_in6_addr : Z := 16.

Create HintDb capwap_rfc.
#[export] Hint Unfold MACADDRESS_EUI48_LENGTH MACADDRESS_EUI64_LENGTH
  IS_VALID_MACADDRESS_LENGTH RADIOID_MAX_COUNT IS_VALID_RADIOID
  WLANID_MAX_COUNT IS_VALID_WLANID sizeof_in_addr sizeof_in6_addr : capwap_rfc.

Ltac rfc := autounfold with capwap_rfc in *.
