(* ===== verification/Io.v ===== *)
(** The read/write interface between the message elements and the packet
    managers ([capwap_write_message_elements_ops] and
    [capwap_read_message_elements_ops] of src/common/capwap_element.h).

    A [create] callback only issues write calls and ignores what they return,
    so it is the list of the calls it makes.  A [parse] callback reads and
    branches on what it read, so it is a program over the five read calls.
    Both are run against any implementation of the interface; the promise of
    an implementation is a refinement of the flat byte streams defined here,
    and the clients' theorems are proved against those streams. *)
From S2P Require Import Prelude.

(** ** Writing *)

(** A write function returns a count; it is [None] when one of its assertions
    fails. *)
Class WriteOps (H : Type) := {
  write_u8 : H -> Z -> option (Z * H);
  write_u16 : H -> Z -> option (Z * H);
  write_u32 : H -> Z -> option (Z * H);
  write_block : H -> list Z -> option (Z * H)
}.

(** One call through the table of write functions; [WriteNull n] is
    [write_block(handle, NULL, n)]. *)
Inductive wcall :=
| WriteU8 (x : Z)
| WriteU16 (x : Z)
| WriteU32 (x : Z)
| WriteBlock (bs : list Z)
| WriteNull (n : Z).

(** [None]: an assertion fails; [data != NULL] does for a null block. *)
Definition exec_call `{WriteOps H} (h : H) (c : wcall) : option H :=
  match c with
  | WriteU8 x => snd <$> write_u8 h x
  | WriteU16 x => snd <$> write_u16 h x
  | WriteU32 x => snd <$> write_u32 h x
  | WriteBlock bs => snd <$> write_block h bs
  | WriteNull _ => None
  end.

Fixpoint exec `{WriteOps H} (h : H) (cs : list wcall) : option H :=
  match cs with
  | [] => Some h
  | c :: cs => h' ← exec_call h c; exec h' cs
  end.

(** The assertions at the head of the write functions:
    [data != NULL] and [length > 0]. *)
Definition call_asserts (c : wcall) : bool :=
  match c with
  | WriteU8 _ | WriteU16 _ | WriteU32 _ => true
  | WriteBlock bs => 0 <? zlen bs
  | WriteNull _ => false
  end.

(** The bytes a call stands for on the wire. *)
Definition call_bytes (c : wcall) : list Z :=
  match c with
  | WriteU8 x => [wrap8 x]
  | WriteU16 x => be16 x
  | WriteU32 x => be32 x
  | WriteBlock bs => bs
  | WriteNull _ => []
  end.

Definition wire (cs : list wcall) : list Z := concat (map call_bytes cs).
Arguments wire : simpl never.

(** What a writer promises: while the bytes fit in [w_room], every call that
    passes its assertions appends exactly its bytes to what was written. *)
Class WriterLaws (H : Type) `{WriteOps H} := {
  w_ok : H -> Prop;
  w_room : H -> nat;
  w_written : H -> list Z;
  w_call : forall h c,
    w_ok h -> call_asserts c = true -> (length (call_bytes c) <= w_room h)%nat ->
    exists h', exec_call h c = Some h' /\ w_ok h' /\
      w_written h' = w_written h ++ call_bytes c /\
      w_room h' = (w_room h - length (call_bytes c))%nat
}.

Lemma wire_app a b : wire (a ++ b) = wire a ++ wire b.
Proof. unfold wire. by rewrite map_app, concat_app. Qed.

Lemma wire_cons c cs : wire (c :: cs) = call_bytes c ++ wire cs.
Proof. done. Qed.

Lemma wire_nil : wire [] = [].
Proof. done. Qed.

#[export] Hint Rewrite wire_app wire_cons wire_nil : capwap_len.

Lemma exec_app `{WriteOps H} (h : H) a b : exec h (a ++ b) = exec h a ≫= fun h1 => exec h1 b.
Proof.
  revert h. induction a as [|c a IH]; intros h; [done|]. cbn.
  destruct (exec_call h c); [|done]. apply IH.
Qed.

Lemma exec_written `{WriterLaws H} (cs : list wcall) (h : H) :
  w_ok h -> forallb call_asserts cs = true -> (length (wire cs) <= w_room h)%nat ->
  exists h', exec h cs = Some h' /\ w_ok h' /\
    w_written h' = w_written h ++ wire cs /\
    w_room h' = (w_room h - length (wire cs))%nat.
Proof.
  revert h. induction cs as [|c cs IH]; intros h Hok Ha Hroom.
  - exists h. rewrite wire_nil, app_nil_r. cbn. repeat split; [done..|lia].
  - cbn in Ha. split_andb. rewrite wire_cons, length_app in *.
    destruct (w_call h c Hok) as (h1 & E1 & Hok' & Hw & Hr); [done|lia|].
    destruct (IH h1 Hok') as (h2 & E2 & ? & Hw' & Hr'); [done|lia|].
    exists h2. cbn [exec]. rewrite E1. cbn.
    rewrite Hw', Hw, Hr', Hr, <- app_assoc. repeat split; [done..|lia].
Qed.

(** ** Reading *)

(** A failing [read_u*] returns -1 and leaves the destination untouched; it is
    [None] here.  [read_block] returns the bytes it copied; it is [None] when
    its assertion [length > 0] fails. *)
Class ReadOps (H : Type) := {
  read_ready : H -> Z;
  read_u8 : H -> option Z * H;
  read_u16 : H -> option Z * H;
  read_u32 : H -> option Z * H;
  read_block : H -> Z -> option (list Z * H)
}.

Inductive parser (A : Type) : Type :=
| Ret (a : A)
| OutOfFuel
| ReadReady (k : Z -> parser A)
| ReadU8 (k : option Z -> parser A)
| ReadU16 (k : option Z -> parser A)
| ReadU32 (k : option Z -> parser A)
| ReadBlock (n : Z) (k : list Z -> parser A).
Arguments Ret {A} _.
Arguments OutOfFuel {A}.
Arguments ReadReady {A} _.
Arguments ReadU8 {A} _.
Arguments ReadU16 {A} _.
Arguments ReadU32 {A} _.
Arguments ReadBlock {A} _ _.

#[export] Instance parser_ret : MRet parser := @Ret.

#[export] Instance parser_bind : MBind parser :=
  fun A B f =>
    fix bind (p : parser A) : parser B :=
      match p with
      | Ret a => f a
      | OutOfFuel => OutOfFuel
      | ReadReady k => ReadReady (fun x => bind (k x))
      | ReadU8 k => ReadU8 (fun x => bind (k x))
      | ReadU16 k => ReadU16 (fun x => bind (k x))
      | ReadU32 k => ReadU32 (fun x => bind (k x))
      | ReadBlock n k => ReadBlock n (fun x => bind (k x))
      end.

#[export] Instance parser_fmap : FMap parser := fun A B f p => p ≫= fun a => mret (f a).

(** How a computation ends: with a value, at an assertion that fails, or not
    within the fuel given to its loops. *)
Inductive outcome (A : Type) : Type :=
| Done (a : A)
| Asserted
| Looping.
Arguments Done {A} _.
Arguments Asserted {A}.
Arguments Looping {A}.

#[export] Instance outcome_ret : MRet outcome := @Done.
#[export] Instance outcome_bind : MBind outcome := fun A B f x =>
  match x with Done a => f a | Asserted => Asserted | Looping => Looping end.

Ltac outcome := cbv beta iota delta [mbind outcome_bind].

(** For callers that need the value. *)
Definition value_of {A} (x : outcome A) : option A :=
  match x with Done a => Some a | _ => None end.

Lemma value_of_done {A} (x : outcome A) a : value_of x = Some a <-> x = Done a.
Proof. destruct x; naive_solver. Qed.

(** Running a parse callback on a reader. *)
Fixpoint run {H} `{ReadOps H} {A} (p : parser A) (h : H) : outcome (A * H) :=
  match p with
  | Ret a => Done (a, h)
  | OutOfFuel => Looping
  | ReadReady k => run (k (read_ready h)) h
  | ReadU8 k => let '(x, h') := read_u8 h in run (k x) h'
  | ReadU16 k => let '(x, h') := read_u16 h in run (k x) h'
  | ReadU32 k => let '(x, h') := read_u32 h in run (k x) h'
  | ReadBlock n k =>
      match read_block h n with Some (bs, h') => run (k bs) h' | None => Asserted end
  end.

(** Memory from [capwap_alloc] that was not written yet holds some byte. *)
Class Indeterminate := { indet : Z; indet_u8 : is_u8 indet }.

(** Memory that happens to hold zeros. *)
Program Definition zero_memory : Indeterminate := {| indet := 0 |}.
Next Obligation. lia. Qed.

Section Calls.
Context {I : Indeterminate}.

(** [func->read_ready(handle)] *)
Definition p_ready : parser Z := ReadReady Ret.

(** [func->read_u8(handle, &x)] where [x] held [old]: on a short read the
    variable keeps its value. *)
Definition p_u8 (old : Z) : parser Z := ReadU8 (fun o => Ret (default old o)).
Definition p_u16 (old : Z) : parser Z := ReadU16 (fun o => Ret (default old o)).
Definition p_u32 (old : Z) : parser Z := ReadU32 (fun o => Ret (default old o)).

(** Memory obtained with [capwap_alloc(n)], and memory cleared by [memset]. *)
Definition fresh (n : Z) : list Z := replicate (Z.to_nat n) indet.
Definition zeros (n : Z) : list Z := replicate (Z.to_nat n) 0.

(** [func->read_block(handle, buffer, n)] into a buffer of [n] bytes that
    held [old]: a short read leaves the tail of the buffer untouched. *)
Definition p_block (old : list Z) : parser (list Z) :=
  ReadBlock (zlen old) (fun bs => Ret (bs ++ drop (length bs) old)).

(** The loops that read the cells of an array one by one. *)
Fixpoint p_u8s (old : list Z) : parser (list Z) :=
  match old with
  | [] => mret []
  | o :: old => x ← p_u8 o; xs ← p_u8s old; mret (x :: xs)
  end.
Fixpoint p_u16s (old : list Z) : parser (list Z) :=
  match old with
  | [] => mret []
  | o :: old => x ← p_u16 o; xs ← p_u16s old; mret (x :: xs)
  end.
Fixpoint p_u32s (old : list Z) : parser (list Z) :=
  match old with
  | [] => mret []
  | o :: old => x ← p_u32 o; xs ← p_u32s old; mret (x :: xs)
  end.

End Calls.

(** ** The flat stream: the reference reader

    [st_bytes] is what is left of the packet body, [st_allowed] the packet
    manager's [readerpacketallowed], an [unsigned short].  Note that a budget
    of zero does not limit a read, and that the budget then wraps around. *)
Record stream := Stream { st_allowed : Z; st_bytes : list Z }.

Definition stream_limit (n allowed : Z) : Z :=
  if 0 <? allowed then Z.min n allowed else n.

Definition stream_read (s : stream) (n : Z) : list Z * stream :=
  let m := Z.to_nat (stream_limit (wrap16 n) (st_allowed s)) in
  let got := take m (st_bytes s) in
  (got, Stream (wrap16 (st_allowed s - zlen got)) (drop m (st_bytes s))).

(** [read_block]: its length is an [unsigned short], and asserted not to be 0. *)
Definition stream_block (s : stream) (n : Z) : option (list Z * stream) :=
  if wrap16 n =? 0 then None else Some (stream_read s n).

Definition as_u8 (bs : list Z) : option Z :=
  match bs with [b0] => Some b0 | _ => None end.
Definition as_u16 (bs : list Z) : option Z :=
  match bs with [b1; b0] => Some (val16 b1 b0) | _ => None end.
Definition as_u32 (bs : list Z) : option Z :=
  match bs with [b3; b2; b1; b0] => Some (val32 b3 b2 b1 b0) | _ => None end.

#[export] Instance stream_ops : ReadOps stream := {
  read_ready s := match st_bytes s with [] => 0 | _ => st_allowed s end;
  read_u8 s := let '(bs, s') := stream_read s 1 in (as_u8 bs, s');
  read_u16 s := let '(bs, s') := stream_read s 2 in (as_u16 bs, s');
  read_u32 s := let '(bs, s') := stream_read s 4 in (as_u32 bs, s');
  read_block := stream_block
}.

(** What a reader promises: related to a stream, every call answers as the
    stream does and stays related to it. *)
Class ReaderRefines (H : Type) `{ReadOps H} (R : H -> stream -> Prop) := {
  rr_ready : forall h s, R h s -> read_ready h = read_ready s;
  rr_u8 : forall h s, R h s ->
    (read_u8 h).1 = (read_u8 s).1 /\ R (read_u8 h).2 (read_u8 s).2;
  rr_u16 : forall h s, R h s ->
    (read_u16 h).1 = (read_u16 s).1 /\ R (read_u16 h).2 (read_u16 s).2;
  rr_u32 : forall h s, R h s ->
    (read_u32 h).1 = (read_u32 s).1 /\ R (read_u32 h).2 (read_u32 s).2;
  rr_block : forall h s n, R h s ->
    match read_block h n, read_block s n with
    | Some (bs, h'), Some (bs', s') => bs = bs' /\ R h' s'
    | None, None => True
    | _, _ => False
    end
}.

(** A parse callback run on a refining reader ends as on the stream. *)
Definition same_end {A H} (R : H -> stream -> Prop)
    (x : outcome (A * H)) (y : outcome (A * stream)) : Prop :=
  match x, y with
  | Done (a, h), Done (b, s) => a = b /\ R h s
  | Asserted, Asserted | Looping, Looping => True
  | _, _ => False
  end.

Lemma run_refines `{ReaderRefines H R} {A} (p : parser A) (h : H) (s : stream) :
  R h s -> same_end R (run p h) (run p s).
Proof.
  revert h s. induction p as [a| |k IH|k IH|k IH|k IH|n k IH]; intros h s HR; cbn [run].
  - done.
  - done.
  - rewrite (rr_ready h s HR). by apply IH.
  - destruct (rr_u8 h s HR), (read_u8 h), (read_u8 s); cbn in *; subst. by apply IH.
  - destruct (rr_u16 h s HR), (read_u16 h), (read_u16 s); cbn in *; subst. by apply IH.
  - destruct (rr_u32 h s HR), (read_u32 h), (read_u32 s); cbn in *; subst. by apply IH.
  - pose proof (rr_block h s n HR) as HB.
    destruct (read_block h n) as [[]|], (read_block s n) as [[]|]; try done.
    destruct HB as [-> HB]. by apply IH.
Qed.

(** ** Executing reads on a stream that holds enough bytes *)

Lemma run_bind {H} `{ReadOps H} {A B} (p : parser A) (f : A -> parser B) (h : H) :
  run (p ≫= f) h = run p h ≫= fun '(a, h') => run (f a) h'.
Proof.
  unfold mbind at 1. revert h.
  induction p as [a| |k IH|k IH|k IH|k IH|n k IH]; intros h; cbn [run parser_bind]; try done.
  - destruct (read_u8 h); apply IH.
  - destruct (read_u16 h); apply IH.
  - destruct (read_u32 h); apply IH.
  - destruct (read_block h n) as [[]|]; [apply IH|done].
Qed.

Lemma run_bind_some {H} `{ReadOps H} {A B} (p : parser A) (f : A -> parser B) (h h' : H) a :
  run p h = Done (a, h') -> run (p ≫= f) h = run (f a) h'.
Proof. intros E. by rewrite run_bind, E. Qed.

Lemma run_bind_inv {H} `{ReadOps H} {A B} (p : parser A) (f : A -> parser B) (h : H) r :
  run (p ≫= f) h = Done r -> exists a h', run p h = Done (a, h') /\ run (f a) h' = Done r.
Proof. rewrite run_bind. destruct (run p h) as [[a h']| |]; [|done..]. intros E. by exists a, h'. Qed.

Lemma run_bind_fmap {H} `{ReadOps H} {A B C} (p : parser A) (f : A -> B) (g : B -> parser C) (h : H) :
  run ((f <$> p) ≫= g) h = run (p ≫= fun a => g (f a)) h.
Proof.
  unfold fmap, parser_fmap. rewrite !run_bind. by destruct (run p h) as [[a h']| |].
Qed.

Lemma stream_read_app n xs rest a :
  zlen xs = n -> n <= a < 65536 ->
  stream_read (Stream a (xs ++ rest)) n = (xs, Stream (a - n) rest).
Proof.
  intros <- Ha. unfold stream_read, stream_limit. cbn [st_allowed st_bytes].
  rewrite wrap16_small by lia.
  assert (Hm : Z.to_nat (if 0 <? a then Z.min (zlen xs) a else zlen xs) = length xs).
  { destruct (0 <? a); lia. }
  rewrite Hm, take_app_length, drop_app_length.
  by rewrite wrap16_small by lia.
Qed.

Section Steps.
Context {I : Indeterminate} {A : Type}.

Lemma run_mret (a : A) (s : stream) : run (mret a) s = Done (a, s).
Proof. done. Qed.

Lemma run_bind_mret {B} (b : B) (k : B -> parser A) (s : stream) :
  run (mret b ≫= k) s = run (k b) s.
Proof. done. Qed.

Lemma run_ready (k : Z -> parser A) a bs :
  0 <= a <= zlen bs ->
  run (p_ready ≫= k) (Stream a bs) = run (k a) (Stream a bs).
Proof.
  intros Ha. unfold p_ready, mbind. cbn. destruct bs as [|b bs]; [|done].
  simpl in Ha. by replace a with 0 by lia.
Qed.

Lemma run_u8 old (k : Z -> parser A) x a s :
  is_u8 x -> 1 <= a < 65536 ->
  run (p_u8 old ≫= k) (Stream a ([wrap8 x] ++ s)) = run (k x) (Stream (a - 1) s).
Proof.
  intros Hx Ha. unfold p_u8, mbind. cbn [parser_bind run read_u8 stream_ops].
  rewrite (stream_read_app 1 [wrap8 x]) by (simpl; lia). cbn.
  by rewrite wrap8_small.
Qed.

Lemma run_u16 old (k : Z -> parser A) x a s :
  is_u16 x -> 2 <= a < 65536 ->
  run (p_u16 old ≫= k) (Stream a (be16 x ++ s)) = run (k x) (Stream (a - 2) s).
Proof.
  intros Hx Ha. unfold p_u16, mbind. cbn [parser_bind run read_u16 stream_ops].
  rewrite (stream_read_app 2 (be16 x)) by (simpl; lia). cbn.
  by rewrite val16_be16.
Qed.

Lemma run_u32 old (k : Z -> parser A) x a s :
  is_u32 x -> 4 <= a < 65536 ->
  run (p_u32 old ≫= k) (Stream a (be32 x ++ s)) = run (k x) (Stream (a - 4) s).
Proof.
  intros Hx Ha. unfold p_u32, mbind. cbn [parser_bind run read_u32 stream_ops].
  rewrite (stream_read_app 4 (be32 x)) by (simpl; lia). cbn.
  by rewrite val32_be32.
Qed.

Lemma run_block old (k : list Z -> parser A) xs a s :
  zlen xs = zlen old -> 0 < zlen xs <= a -> a < 65536 ->
  run (p_block old ≫= k) (Stream a (xs ++ s)) = run (k xs) (Stream (a - zlen xs) s).
Proof.
  intros Hn Hp Ha. unfold p_block, mbind. cbn [parser_bind run read_block stream_ops].
  unfold stream_block. rewrite wrap16_small by lia. replace (zlen old =? 0) with false by lia.
  rewrite (stream_read_app (zlen old) xs), Hn by lia. cbn.
  replace (length xs) with (length old) by lia.
  by rewrite drop_all, app_nil_r.
Qed.
End Steps.

(** A block of at least one byte is read, perhaps short. *)
Lemma run_fresh_block `{Indeterminate} n (s : stream) :
  0 < n < 65536 -> exists bs s', run (p_block (fresh n)) s = Done (bs, s').
Proof.
  intros Hn. unfold p_block, fresh. rewrite length_replicate, Z2Nat.id by lia.
  cbn [run read_block stream_ops]. unfold stream_block.
  rewrite wrap16_small by lia. replace (n =? 0) with false by lia.
  destruct (stream_read _ _). by eexists _, _.
Qed.

Section ArraySteps.
Context {I : Indeterminate}.

Lemma run_u8s (xs old : list Z) a s :
  length xs = length old -> Forall (fun x => is_u8 x) xs -> zlen xs <= a < 65536 ->
  run (p_u8s old) (Stream a (wire (WriteU8 <$> xs) ++ s)) = Done (xs, Stream (a - zlen xs) s).
Proof.
  revert old a. induction xs as [|x xs IH]; intros [|o old] a Hl Hx Ha; try done.
  - cbn. by rewrite Z.sub_0_r.
  - apply Forall_cons in Hx as [Hx Hxs]. cbn [p_u8s]. rewrite fmap_cons, wire_cons, <- app_assoc.
    cbn [call_bytes length] in *. rewrite run_u8 by (done || lia).
    erewrite run_bind_some by (apply IH; [lia|done|lia]).
    rewrite run_mret. do 3 f_equal. lia.
Qed.

Lemma run_u16s (xs old : list Z) a s :
  length xs = length old -> Forall (fun x => is_u16 x) xs -> 2 * zlen xs <= a < 65536 ->
  run (p_u16s old) (Stream a (wire (WriteU16 <$> xs) ++ s))
    = Done (xs, Stream (a - 2 * zlen xs) s).
Proof.
  revert old a. induction xs as [|x xs IH]; intros [|o old] a Hl Hx Ha; try done.
  - cbn. by rewrite Z.sub_0_r.
  - apply Forall_cons in Hx as [Hx Hxs]. cbn [p_u16s]. rewrite fmap_cons, wire_cons, <- app_assoc.
    cbn [call_bytes length] in *. rewrite run_u16 by (done || lia).
    erewrite run_bind_some by (apply IH; [lia|done|lia]).
    rewrite run_mret. do 3 f_equal. lia.
Qed.

Lemma run_u32s (xs old : list Z) a s :
  length xs = length old -> Forall (fun x => is_u32 x) xs -> 4 * zlen xs <= a < 65536 ->
  run (p_u32s old) (Stream a (wire (WriteU32 <$> xs) ++ s))
    = Done (xs, Stream (a - 4 * zlen xs) s).
Proof.
  revert old a. induction xs as [|x xs IH]; intros [|o old] a Hl Hx Ha; try done.
  - cbn. by rewrite Z.sub_0_r.
  - apply Forall_cons in Hx as [Hx Hxs]. cbn [p_u32s]. rewrite fmap_cons, wire_cons, <- app_assoc.
    cbn [call_bytes length] in *. rewrite run_u32 by (done || lia).
    erewrite run_bind_some by (apply IH; [lia|done|lia]).
    rewrite run_mret. do 3 f_equal. lia.
Qed.
End ArraySteps.

Lemma length_wire_u8s xs : length (wire (WriteU8 <$> xs)) = length xs.
Proof. induction xs as [|x xs IH]; [done|]. rewrite fmap_cons, wire_cons, length_app, IH. done. Qed.

Lemma length_wire_u16s xs : length (wire (WriteU16 <$> xs)) = (2 * length xs)%nat.
Proof. induction xs as [|x xs IH]; [done|]. rewrite fmap_cons, wire_cons, length_app, IH. cbn. lia. Qed.

Lemma length_wire_u32s xs : length (wire (WriteU32 <$> xs)) = (4 * length xs)%nat.
Proof. induction xs as [|x xs IH]; [done|]. rewrite fmap_cons, wire_cons, length_app, IH. cbn. lia. Qed.

#[export] Hint Rewrite length_wire_u8s length_wire_u16s length_wire_u32s : capwap_len.

Lemma length_fresh `{Indeterminate} n : length (fresh n) = Z.to_nat n.
Proof. apply length_replicate. Qed.

Lemma length_zeros n : length (zeros n) = Z.to_nat n.
Proof. apply length_replicate. Qed.

#[export] Hint Rewrite @length_fresh length_zeros : capwap_len.

(** ** Codecs: what a message element promises to the packet manager

    [c_roundtrip]: the bytes written by [create] for a well-formed element are
    parsed back to that element, the whole budget is consumed and not a byte
    more, whatever follows in the packet.  [c_clone_create]: the copy made by
    [clone] is written to a packet as the original is.  [c_safe]: writing a
    well-formed element trips none of the assertions of the write functions. *)
Class Codec (T : Type) := {
  c_create : T -> list wcall;
  c_parse : nat -> parser (option T);
  c_clone : T -> T;
  c_wf : T -> Prop;
  c_roundtrip : forall (d : T) (fuel : nat) (rest : list Z),
    c_wf d ->
    (length (wire (c_create d)) < fuel)%nat ->
    zlen (wire (c_create d)) < 65536 ->
    run (c_parse fuel) (Stream (zlen (wire (c_create d))) (wire (c_create d) ++ rest))
      = Done (Some d, Stream 0 rest);
  c_clone_create : forall d : T, c_wf d -> c_create (c_clone d) = c_create d;
  c_safe : forall d : T, c_wf d -> forallb call_asserts (c_create d) = true
}.

(** ** Reads of arbitrary input

    Whatever a well-formed stream holds, a read delivers a value of the width
    of its destination and leaves a well-formed stream. *)
Definition stream_ok (s : stream) : Prop :=
  is_u16 (st_allowed s) /\ bytes_ok (st_bytes s).

Section AnyInput.
Context {I : Indeterminate} {A : Type}.

Lemma stream_read_ok s n :
  stream_ok s ->
  bytes_ok (stream_read s n).1 /\ stream_ok (stream_read s n).2.
Proof. intros [Ha Hs]. unfold stream_ok. cbn [stream_read fst snd st_bytes st_allowed]. auto with capwap. Qed.

Lemma any_ready (k : Z -> parser A) s :
  stream_ok s -> exists x, run (p_ready ≫= k) s = run (k x) s /\ is_u16 x.
Proof.
  intros [Ha _]. exists (read_ready s). split; [done|]. cbn.
  destruct (st_bytes s); lia.
Qed.

Lemma any_u8 old (k : Z -> parser A) s :
  stream_ok s -> is_u8 old ->
  exists x s', run (p_u8 old ≫= k) s = run (k x) s' /\
    is_u8 x /\ stream_ok s'.
Proof.
  intros Hs Ho. destruct (stream_read_ok s 1 Hs) as [Hb Hs'].
  unfold p_u8, mbind. cbn [parser_bind run read_u8 stream_ops].
  destruct (stream_read s 1) as [bs s']; cbn in *.
  exists (default old (as_u8 bs)), s'. split; [done|]. split; [|done].
  destruct bs as [|b [|? ?]]; inversion_clear Hb; cbn; lia.
Qed.

Lemma any_u16 old (k : Z -> parser A) s :
  stream_ok s -> is_u16 old ->
  exists x s', run (p_u16 old ≫= k) s = run (k x) s' /\
    is_u16 x /\ stream_ok s'.
Proof.
  intros Hs Ho. destruct (stream_read_ok s 2 Hs) as [Hb Hs'].
  unfold p_u16, mbind. cbn [parser_bind run read_u16 stream_ops].
  destruct (stream_read s 2) as [bs s']; cbn in *.
  exists (default old (as_u16 bs)), s'. split; [done|]. split; [|done].
  destruct bs as [|b [|b' [|? ?]]]; cbn; try lia.
  repeat (apply Forall_cons in Hb as [? Hb]). by apply val16_range.
Qed.

Lemma any_u32 old (k : Z -> parser A) s :
  stream_ok s -> is_u32 old ->
  exists x s', run (p_u32 old ≫= k) s = run (k x) s' /\
    is_u32 x /\ stream_ok s'.
Proof.
  intros Hs Ho. destruct (stream_read_ok s 4 Hs) as [Hb Hs'].
  unfold p_u32, mbind. cbn [parser_bind run read_u32 stream_ops].
  destruct (stream_read s 4) as [bs s']; cbn in *.
  exists (default old (as_u32 bs)), s'. split; [done|]. split; [|done].
  destruct bs as [|b [|b' [|b'' [|b3 [|? ?]]]]]; cbn; try lia.
  repeat (apply Forall_cons in Hb as [? Hb]). by apply val32_range.
Qed.

Lemma any_block old (k : list Z -> parser A) s :
  stream_ok s -> bytes_ok old -> zlen old < 65536 ->
  run (p_block old ≫= k) s = Asserted \/
  exists x s', run (p_block old ≫= k) s = run (k x) s' /\
    bytes_ok x /\ zlen x = zlen old /\ stream_ok s'.
Proof.
  intros Hs Ho Hl. destruct (stream_read_ok s (zlen old) Hs) as [Hb Hs'].
  assert (Hn : zlen (stream_read s (zlen old)).1 <= zlen old).
  { cbn. rewrite wrap16_small, length_take by lia. unfold stream_limit.
    destruct (0 <? st_allowed s); lia. }
  unfold p_block, mbind. cbn [parser_bind run read_block stream_ops]. unfold stream_block.
  destruct (wrap16 (zlen old) =? 0); [by left|right].
  destruct (stream_read s (zlen old)) as [bs s']; cbn in *.
  exists (bs ++ drop (length bs) old), s'. split; [done|].
  rewrite bytes_ok_app, length_app, length_drop.
  split; [auto with capwap|]. split; [lia|done].
Qed.

Lemma fresh_ok n : bytes_ok (fresh n).
Proof. apply Forall_replicate, indet_u8. Qed.

Lemma zeros_ok n : bytes_ok (zeros n).
Proof. apply Forall_replicate. lia. Qed.
End AnyInput.

#[export] Hint Resolve fresh_ok zeros_ok : capwap.

(** [parse] returns only elements that satisfy the assertions at the head of
    [create], whatever bytes arrive: an element that was received can be sent. *)
Class ChecksAsserts {T : Type} (parse : nat -> parser (option T)) (asserts : T -> bool) :=
  parse_asserts : forall fuel s d s',
    stream_ok s ->
    run (parse fuel) s = Done (Some d, s') -> asserts d = true.

(** From here on a program is executed step by step, by rewriting. *)
#[global] Arguments run : simpl never.
#[global] Arguments mbind : simpl never.
#[global] Arguments mret : simpl never.
#[global] Arguments p_ready : simpl never.
#[global] Arguments p_u8 : simpl never.
#[global] Arguments p_u16 : simpl never.
#[global] Arguments p_u32 : simpl never.
#[global] Arguments p_block : simpl never.
#[global] Arguments fresh : simpl never.
#[global] Arguments zeros : simpl never.
#[global] Arguments cstr : simpl never.
#[global] Arguments be16 : simpl never.
#[global] Arguments be32 : simpl never.

(** Normalise the bytes and the budget, then execute the reads one by one. *)
Ltac wire_norm :=
  autorewrite with capwap_len in *; cbn [call_bytes] in *;
  autorewrite with capwap_len in *; rewrite <- ?app_assoc; rewrite ?app_nil_l.

Ltac parse_step :=
  first
    [ rewrite run_ready by (len; lia)
    | rewrite run_u8 by (first [ assumption | len; lia ])
    | rewrite run_u16 by (first [ assumption | len; lia ])
    | rewrite run_u32 by (first [ assumption | len; lia ])
    | rewrite run_block by (first [ assumption | len; lia ])
    | rewrite wrap16_small by (len; lia)
    | rewrite run_bind_mret
    | rewrite run_bind_fmap
    | decide_if ].

(** A test whose value is a hypothesis. *)
Ltac rewrite_test :=
  match goal with E : ?b = _ |- context [if ?b then _ else _] => rewrite E end.

Ltac parse_done :=
  rewrite run_mret; rewrite ?app_nil_l; repeat f_equal; try (len; lia).

(** Proves the [c_roundtrip] obligation of a straight-line parser, given its
    [create], [parsing] and well-formedness predicate. *)
Ltac start_codec create parse wf :=
  let d := fresh "d" in
  let Hwf := fresh "Hwf" in
  intros; match goal with
          | H : wf ?x |- _ => rename x into d; rename H into Hwf
          end;
  unfold wf, create, parse in *; destruct d; cbn in *; rfc;
  repeat match goal with H : _ /\ _ |- _ => destruct H end.

Ltac solve_codec :=
  wire_norm; repeat parse_step; parse_done.

Ltac codec create parse wf := start_codec create parse wf; solve_codec.

(** Runs a parser symbolically on arbitrary input: every read names the value
    it delivered, every test is split. *)
Ltac any_step H :=
  let x := fresh "x" in let s' := fresh "s" in let E := fresh "E" in
  first
    [ rewrite run_mret in H
    | match type of H with
      | run (p_ready ≫= ?k) ?s = _ =>
          destruct (any_ready k s) as (x & E & ?);
          [ assumption | rewrite E in H; clear E ]
      | run (p_u8 ?o ≫= ?k) ?s = _ =>
          destruct (any_u8 o k s) as (x & s' & E & ? & ?);
          [ assumption | first [ apply indet_u8 | lia ] | rewrite E in H; clear E ]
      | run (p_u16 ?o ≫= ?k) ?s = _ =>
          destruct (any_u16 o k s) as (x & s' & E & ? & ?);
          [ assumption | pose proof indet_u8; lia | rewrite E in H; clear E ]
      | run (p_u32 ?o ≫= ?k) ?s = _ =>
          destruct (any_u32 o k s) as (x & s' & E & ? & ?);
          [ assumption | pose proof indet_u8; lia | rewrite E in H; clear E ]
      | run (p_block ?o ≫= ?k) ?s = _ =>
          destruct (any_block o k s) as [E|(x & s' & E & ? & ? & ?)];
          [ assumption | auto with capwap | len; lia | rewrite E in H; discriminate H
          | rewrite E in H; clear E ]
      | context [wrap16 ?e] =>
          pose proof (wrap16_range e); let w := fresh "w" in set (w := wrap16 e) in *; clearbody w
      | context [if ?b then _ else _] => destruct b eqn:?
      end ].

(** Proves [ChecksAsserts] goals of straight-line parsers. *)
Ltac solve_asserts parse asserts :=
  intros fuel s d s' Hs Hrun; unfold parse, asserts in *; rfc; cbn zeta in *;
  repeat any_step Hrun; simplify_eq; cbn in *; try lia.

(** Proves [c_clone_create] when [clone] copies the buffers at their size. *)
Ltac solve_clone clone wf :=
  intros; match goal with
          | H : wf ?x |- _ => unfold wf in H; destruct x; f_equal; unfold clone; cbn in *
          end;
  rfc; repeat match goal with H : _ /\ _ |- _ => destruct H end;
  rewrite ?take_ge by lia; repeat case_match; done.

(** Proves [c_safe] of an element whose blocks have a known size. *)
Ltac solve_safe_with create wf asserts :=
  intros; match goal with
          | H : wf ?x |- _ => unfold wf, create, asserts in *; destruct x; cbn in *
          end;
  rfc; repeat match goal with H : _ /\ _ |- _ => destruct H end;
  try (let s := fresh "s" in destruct_string s);
  rewrite ?length_take; split_andb; bools; repeat split; try (len; lia); try (len; nia).

Ltac solve_safe create wf := solve_safe_with create wf create.

Lemma safe_concat {A} (f : A -> list wcall) l :
  Forall (fun x => forallb call_asserts (f x) = true) l ->
  forallb call_asserts (concat (f <$> l)) = true.
Proof.
  induction 1 as [|x l Hx _ IH]; [done|]. rewrite fmap_cons. cbn [concat].
  by rewrite forallb_app, Hx, IH.
Qed.

Lemma safe_blocks l :
  Forall (fun bs => 0 < zlen bs) l -> forallb call_asserts (WriteBlock <$> l) = true.
Proof. induction 1; [done|]. cbn. rewrite IHForall, andb_true_r. by apply Z.ltb_lt. Qed.
