(* ===== verification/Base64.v ===== *)
(** Base 64 (src/ac/ac_soap.c), in which the controller wraps the documents it
    exchanges with the back end.

    Whether a plain [char] is signed depends on the target, and the encoder
    shifts plain characters before it looks them up: a character from 128 on is
    a negative index where [char] is signed.  [None] is a read outside a table
    or outside the buffer of the text. *)
From stdpp Require Import option strings.
From S2P Require Import Prelude.
#[local] Open Scope Z_scope.

Class CharSign := char_signed : bool.

(** The value of a byte read as a [char]. *)
Definition as_char `{CharSign} (b : Z) : Z := if char_signed && (128 <=? b) then b - 256 else b.

(** The characters of a literal. *)
Fixpoint chars (s : string) : list Z :=
  match s with
  | EmptyString => []
  | String a s => Z.of_nat (Ascii.nat_of_ascii a) :: chars s
  end.

Definition l_encodeblock : list Z :=
  chars "ABCDEFGHIJKLMNOPQRSTUVWXYZabcdefghijklmnopqrstuvwxyz0123456789+/" ++ [0].

Definition l_decodeblock : list Z :=
  [63; 0; 0; 0; 64; 53; 54; 55; 56; 57; 58; 59; 60; 61; 62; 0;
   0; 0; 0; 0; 0; 0; 1; 2; 3; 4; 5; 6; 7; 8; 9; 10;
   11; 12; 13; 14; 15; 16; 17; 18; 19; 20; 21; 22; 23; 24; 25; 26;
   0; 0; 0; 0; 0; 0; 27; 28; 29; 30; 31; 32; 33; 34; 35; 36;
   37; 38; 39; 40; 41; 42; 43; 44; 45; 46; 47; 48; 49; 50; 51; 52; 0].

(** [table[i]]. *)
Definition index (table : list Z) (i : Z) : option Z := if i <? 0 then None else table !! Z.to_nat i.

Definition AC_BASE64_ENCODE_LENGTH (x : Z) : Z := (x + 2) / 3 * 4 + 1.
Definition AC_BASE64_DECODE_LENGTH (x : Z) : Z := x / 4 * 3 + 1.

(** ** Encoding *)

(** The four characters of a block of [len] bytes at [plain]. *)
Definition encode_block `{CharSign} (plain : list Z) (len : Z) : option (list Z) :=
  p0 ← as_char <$> plain !! 0%nat;
  p1 ← as_char <$> plain !! 1%nat;
  e0 ← index l_encodeblock (Z.shiftr p0 2);
  e1 ← index l_encodeblock (Z.lor (Z.shiftl (Z.land p0 3) 4) (Z.shiftr (Z.land p1 240) 4));
  e2 ← (if 1 <? len then
          p2 ← as_char <$> plain !! 2%nat;
          index l_encodeblock (Z.lor (Z.shiftl (Z.land p1 15) 2) (Z.shiftr (Z.land p2 192) 6))
        else Some 61);
  e3 ← (if 2 <? len then
          p2 ← as_char <$> plain !! 2%nat; index l_encodeblock (Z.land p2 63)
        else Some 61);
  Some [e0; e1; e2; e3].

Fixpoint binary_encode `{CharSign} (fuel : nat) (plain : list Z) (length : Z) : option (list Z) :=
  if length <=? 0 then Some [] else
  match fuel with
  | O => None
  | S fuel =>
      let len := if 1 <? length then if 2 <? length then 3 else 2 else 1 in
      block ← encode_block plain len;
      rest ← binary_encode fuel (drop (Z.to_nat len) plain) (length - len);
      Some (block ++ rest)
  end.

Definition ac_base64_binary_encode `{CharSign} (plain : list Z) (length : Z) : option (list Z) :=
  binary_encode (Z.to_nat length) plain length.

Definition ac_base64_string_encode `{CharSign} (plain : list Z) : option (list Z) :=
  e ← ac_base64_binary_encode plain (Z.of_nat (strlen plain)); Some (e ++ [0]).

(** ** Decoding *)

(** The code of a character, 0 when it is to be skipped. *)
Definition decode_char `{CharSign} (c : Z) : Z :=
  let element := as_char c in
  if (element <? 43) || (122 <? element) then 0 else default 0 (l_decodeblock !! Z.to_nat (element - 43)).

(** [while ((length > 0) && !element)]. *)
Fixpoint next_element `{CharSign} (encoded : list Z) : Z * list Z :=
  match encoded with
  | [] => (0, [])
  | c :: rest => if decode_char c =? 0 then next_element rest else (decode_char c, rest)
  end.

(** Up to [n] codes, less one each, and what is left of the text. *)
Fixpoint decode_elements `{CharSign} (n : nat) (encoded : list Z) : list Z * list Z :=
  match n, encoded with
  | O, _ | _, [] => ([], encoded)
  | S n, _ =>
      let '(element, rest) := next_element encoded in
      if element =? 0 then ([], rest)
      else let '(codes, rest) := decode_elements n rest in (element - 1 :: codes, rest)
  end.

(** The bytes of the codes read, one fewer than the codes. *)
Definition decode_block (codes : list Z) : list Z :=
  let bufenc i := default 0 (codes !! i) in
  take (length codes - 1)
    [wrap8 (Z.lor (Z.shiftl (bufenc 0%nat) 2) (Z.shiftr (bufenc 1%nat) 4));
     wrap8 (Z.lor (Z.shiftl (bufenc 1%nat) 4) (Z.shiftr (bufenc 2%nat) 2));
     wrap8 (Z.lor (Z.land (Z.shiftl (bufenc 2%nat) 6) 192) (bufenc 3%nat))].

(** One turn reads a character at least. *)
Fixpoint binary_decode `{CharSign} (fuel : nat) (encoded : list Z) : list Z :=
  match fuel, encoded with
  | O, _ | _, [] => []
  | S fuel, _ =>
      let '(codes, rest) := decode_elements 4 encoded in decode_block codes ++ binary_decode fuel rest
  end.

Definition ac_base64_binary_decode `{CharSign} (encoded : list Z) (n : Z) : list Z :=
  binary_decode (Z.to_nat n) (take (Z.to_nat n) encoded).

Definition ac_base64_string_decode `{CharSign} (encoded : list Z) : list Z :=
  ac_base64_binary_decode encoded (Z.of_nat (strlen encoded)) ++ [0].

(** ** Lemmas *)

(** Bytes that keep their value as characters. *)
Definition plain_ok `{CharSign} (s : list Z) : Prop :=
  Forall (fun b => is_u8 b /\ (char_signed = true -> b < 128)) s.

Section Codes.
Context `{CharSign}.

Lemma as_char_small b : 0 <= b < 128 -> as_char b = b.
Proof. intros. unfold as_char. destruct char_signed; cbn [andb]; [|done]. by decide_if. Qed.

Lemma as_char_plain b : is_u8 b /\ (char_signed = true -> b < 128) -> as_char b = b.
Proof. intros [Hb Hs]. unfold as_char. destruct char_signed; cbn [andb]; [|done]. specialize (Hs eq_refl). by decide_if. Qed.

(** The two tables are inverse to each other. *)
Lemma code_decode i :
  0 <= i < 64 -> exists c, index l_encodeblock i = Some c /\ decode_char c = i + 1 /\ 0 < c < 128 /\ c <> 61.
Proof.
  intros Hi. set (P i := exists c, index l_encodeblock i = Some c /\
    default 0 (l_decodeblock !! Z.to_nat (c - 43)) = i + 1 /\ 43 <= c <= 122 /\ c <> 61).
  assert (Forall P (seqZ 0 64)) as HP.
  { vm_compute. repeat constructor; eexists; repeat split; discriminate. }
  rewrite Forall_seqZ in HP. destruct (HP i ltac:(lia)) as (c & Ec & Ed & Hc & Hne).
  exists c. split_and!; try lia; [done|]. unfold decode_char. rewrite as_char_small by lia. by decide_if.
Qed.

Lemma decode_equals : decode_char 61 = 0.
Proof. unfold decode_char. rewrite as_char_small by lia. reflexivity. Qed.

(** The bits above and below a boundary. *)
Lemma lor_shift x y n : 0 <= n -> 0 <= y < 2 ^ n -> Z.lor (Z.shiftl x n) y = x * 2 ^ n + y.
Proof.
  intros Hn Hy. assert (Z.land (Z.shiftl x n) y = 0) as H0.
  { apply Z.bits_inj'. intros m Hm. rewrite Z.land_spec, Z.bits_0, Z.shiftl_spec by done.
    destruct (Z.ltb_spec m n); [by rewrite Z.testbit_neg_r by lia|].
    destruct (decide (y = 0)) as [->|]; [by rewrite Z.bits_0, andb_false_r|].
    rewrite (Z.bits_above_log2 y m), andb_false_r; [done|lia|].
    assert (Z.log2 y < n) by (apply Z.log2_lt_pow2; lia). lia. }
  by rewrite <- Z.lxor_lor, <- Z.add_nocarry_lxor, Z.shiftl_mul_pow2.
Qed.

(** The four codes of three bytes. *)
Definition codes (b0 b1 b2 : Z) : list Z :=
  [b0 / 4; b0 mod 4 * 16 + b1 / 16; b1 mod 16 * 4 + b2 / 64; b2 mod 64].

Lemma code1 b0 b1 :
  is_u8 b0 -> is_u8 b1 ->
  Z.lor (Z.shiftl (Z.land b0 3) 4) (Z.shiftr (Z.land b1 240) 4) = b0 mod 4 * 16 + b1 / 16.
Proof.
  intros. rewrite Z.shiftr_land. change (Z.shiftr 240 4) with (Z.ones 4). change 3 with (Z.ones 2).
  rewrite !Z.land_ones, Z.shiftr_div_pow2 by lia. rewrite (Z.mod_small (b1 / _)) by (Z.div_mod_to_equations; lia).
  apply lor_shift; [lia|]. Z.div_mod_to_equations; lia.
Qed.

Lemma code2 b1 b2 :
  is_u8 b1 -> is_u8 b2 ->
  Z.lor (Z.shiftl (Z.land b1 15) 2) (Z.shiftr (Z.land b2 192) 6) = b1 mod 16 * 4 + b2 / 64.
Proof.
  intros. rewrite Z.shiftr_land. change (Z.shiftr 192 6) with (Z.ones 2). change 15 with (Z.ones 4).
  rewrite !Z.land_ones, Z.shiftr_div_pow2 by lia. rewrite (Z.mod_small (b2 / _)) by (Z.div_mod_to_equations; lia).
  apply lor_shift; [lia|]. Z.div_mod_to_equations; lia.
Qed.

(** The bytes of three bytes' codes, of which the first [n + 1] are given. *)
Lemma decode_codes b0 b1 b2 n :
  is_u8 b0 -> is_u8 b1 -> is_u8 b2 -> (1 <= n <= 3)%nat -> (n = 1%nat -> b1 = 0) -> ((n <= 2)%nat -> b2 = 0) ->
  decode_block (take (n + 1) (codes b0 b1 b2)) = take n [b0; b1; b2].
Proof.
  intros H0 H1 H2 Hn Hb1 Hb2.
  assert (decode_block (codes b0 b1 b2) = [b0; b1; b2]) as Hd.
  { unfold decode_block, codes. cbn [length Nat.sub take lookup list_lookup default from_option id].
    change (Z.land (Z.shiftl (b1 mod 16 * 4 + b2 / 64) 6) 192)
      with (Z.land (Z.shiftl (b1 mod 16 * 4 + b2 / 64) 6) (Z.shiftl (Z.ones 2) 6)).
    rewrite <- Z.shiftl_land, Z.land_ones, !Z.shiftr_div_pow2, !lor_shift by (Z.div_mod_to_equations; lia).
    repeat f_equal; unfold wrap8; Z.div_mod_to_equations; lia. }
  assert (n = 1 \/ n = 2 \/ n = 3)%nat as [-> | [-> | ->]] by lia; [..|done].
  - rewrite (Hb1 eq_refl), (Hb2 ltac:(lia)) in *.
    transitivity (take 1 (decode_block (codes b0 0 0))); [reflexivity|by rewrite Hd].
  - rewrite (Hb2 ltac:(lia)) in *.
    transitivity (take 2 (decode_block (codes b0 b1 0))); [reflexivity|by rewrite Hd].
Qed.

(** A block of the text: its codes, and [=] for the bytes that are missing. *)
Lemma encode_block_spec b0 b1 b2 n plain :
  plain_ok [b0; b1; b2] -> (1 <= n <= 3)%nat -> (n = 1%nat -> b1 = 0) -> ((n <= 2)%nat -> b2 = 0) ->
  plain !! 0%nat = Some b0 -> plain !! 1%nat = Some b1 -> ((2 <= n)%nat -> plain !! 2%nat = Some b2) ->
  exists es, encode_block plain (Z.of_nat n) = Some (es ++ replicate (3 - n) 61) /\ length es = S n /\
    Forall (fun c => 0 < c < 128) es /\ decode_char <$> es = Z.succ <$> take (S n) (codes b0 b1 b2).
Proof.
  intros Hp Hn Hb1 Hb2 L0 L1 L2. inversion Hp as [|? ? H0 Hp1]; subst. inversion Hp1 as [|? ? H1 Hp2]; subst.
  inversion Hp2 as [|? ? H2 _]; subst. pose proof (proj1 H0). pose proof (proj1 H1). pose proof (proj1 H2).
  unfold encode_block. rewrite L0, L1. cbn [fmap option_fmap option_map mbind option_bind].
  rewrite !as_char_plain, code1, Z.shiftr_div_pow2 by done. change (2 ^ 2) with 4.
  destruct (code_decode (b0 / 4)) as (c0 & -> & D0 & R0 & _); [Z.div_mod_to_equations; lia|].
  destruct (code_decode (b0 mod 4 * 16 + b1 / 16)) as (c1 & -> & D1 & R1 & _); [Z.div_mod_to_equations; lia|].
  cbn [mbind option_bind].
  assert (n = 1 \/ n = 2 \/ n = 3)%nat as [-> | [-> | ->]] by lia; cbn [Z.of_nat Pos.of_succ_nat Pos.succ Z.ltb Z.compare Pos.compare Pos.compare_cont].
  - exists [c0; c1]. cbn [take codes fmap list_fmap]. rewrite D0, D1. split_and!; repeat constructor; lia.
  - rewrite (L2 ltac:(lia)). cbn [fmap option_fmap option_map mbind option_bind]. rewrite as_char_plain, code2 by done.
    destruct (code_decode (b1 mod 16 * 4 + b2 / 64)) as (c2 & -> & D2 & R2 & _); [Z.div_mod_to_equations; lia|].
    exists [c0; c1; c2]. cbn [take codes fmap list_fmap]. rewrite D0, D1, D2. split_and!; repeat constructor; lia.
  - rewrite (L2 ltac:(lia)). cbn [fmap option_fmap option_map mbind option_bind]. rewrite as_char_plain, code2 by done.
    destruct (code_decode (b1 mod 16 * 4 + b2 / 64)) as (c2 & -> & D2 & R2 & _); [Z.div_mod_to_equations; lia|].
    change 63 with (Z.ones 6). rewrite Z.land_ones by lia.
    destruct (code_decode (b2 mod 2 ^ 6)) as (c3 & -> & D3 & R3 & _); [Z.div_mod_to_equations; lia|].
    exists [c0; c1; c2; c3]. cbn [take codes fmap list_fmap]. rewrite D0, D1, D2, D3. split_and!; repeat constructor; lia.
Qed.

Lemma decode_elements_app es cs t k :
  decode_char <$> es = Z.succ <$> cs -> Forall (fun c => 0 <= c) cs -> (length es <= k)%nat ->
  decode_elements k (es ++ t) =
    let '(r, t') := decode_elements (k - length es) t in (cs ++ r, t').
Proof.
  revert cs k. induction es as [|e es IH]; intros [|c cs] k E Hc Hk; try done; cbn [length Nat.sub app] in *.
  { rewrite Nat.sub_0_r. by destruct (decode_elements k t). }
  injection E as Ee E. inversion Hc as [|? ? Hc0 Hc1]; subst. destruct k as [|k]; [lia|]. cbn [decode_elements next_element].
  rewrite Ee. do 2 decide_if. rewrite (IH cs k E Hc1 ltac:(lia)). cbn [Nat.sub].
  destruct (decode_elements (k - length es) t). f_equal. f_equal. lia.
Qed.

Lemma decode_padding n : (1 <= n <= 2)%nat -> decode_elements n (replicate n 61) = ([], []).
Proof. intros Hn. assert (n = 1 \/ n = 2)%nat as [-> | ->] by lia; cbn; by rewrite ?decode_equals. Qed.

Lemma codes_nonneg b0 b1 b2 : is_u8 b0 -> is_u8 b1 -> is_u8 b2 -> Forall (fun c => 0 <= c) (codes b0 b1 b2).
Proof. intros. repeat constructor; Z.div_mod_to_equations; lia. Qed.

(** One block of [n] bytes, then the rest, which is empty after a short
    block. *)
Lemma roundtrip_step b0 b1 b2 n plain rest :
  plain_ok [b0; b1; b2] -> (1 <= n <= 3)%nat -> (n = 1%nat -> b1 = 0) -> ((n <= 2)%nat -> b2 = 0 /\ rest = []) ->
  plain !! 0%nat = Some b0 -> plain !! 1%nat = Some b1 -> ((2 <= n)%nat -> plain !! 2%nat = Some b2) ->
  exists block, encode_block plain (Z.of_nat n) = Some block /\ length block = 4%nat /\
    Forall (fun c => 0 < c < 128) block /\
    forall fuel, binary_decode (S fuel) (block ++ rest) = take n [b0; b1; b2] ++ binary_decode fuel rest.
Proof.
  intros Hp Hn Hb1 Hb2 L0 L1 L2.
  destruct (encode_block_spec b0 b1 b2 n plain) as (es & E & Hl & Hc & Hd); try done; [naive_solver|].
  exists (es ++ replicate (3 - n) 61). rewrite length_app, length_replicate.
  split_and!; [done|lia|apply Forall_app; split; [done|]; apply Forall_replicate; lia|].
  inversion Hp as [|? ? [H0 _] Hp1]; subst. inversion Hp1 as [|? ? [H1 _] Hp2]; subst. inversion Hp2 as [|? ? [H2 _] _]; subst.
  assert (decode_elements 4 ((es ++ replicate (3 - n) 61) ++ rest) = (take (S n) (codes b0 b1 b2), rest)) as Ed.
  { rewrite <- app_assoc, (decode_elements_app es (take (S n) (codes b0 b1 b2)));
      [|done|by apply Forall_take, codes_nonneg|lia].
    rewrite Hl. replace (4 - S n)%nat with (3 - n)%nat by lia. destruct (decide (n = 3%nat)) as [->|].
    - change (decode_elements (3 - 3) (replicate (3 - 3) 61 ++ rest)) with (@nil Z, rest). cbv beta iota. by rewrite app_nil_r.
    - destruct (Hb2 ltac:(lia)) as [_ ->]. rewrite app_nil_r, decode_padding by lia. cbv beta iota. by rewrite app_nil_r. }
  assert (exists c cs, (es ++ replicate (3 - n) 61) ++ rest = c :: cs) as (c & cs & Ec) by (destruct es; [done|by eexists _, _]).
  intros fuel. cbn [binary_decode]. rewrite Ec in *. rewrite Ed. f_equal. replace (S n) with (n + 1)%nat by lia.
  apply decode_codes; try done. naive_solver.
Qed.

Lemma encode_unfold fuel n plain block rest :
  (1 <= n <= 3)%nat -> encode_block plain (Z.of_nat n) = Some block -> (n <= 2 -> rest = 0)%nat ->
  binary_encode (S fuel) plain (Z.of_nat (n + rest)) =
    (e ← binary_encode fuel (drop n plain) (Z.of_nat rest); Some (block ++ e)).
Proof.
  intros Hn E Hr. cbn [binary_encode]. rewrite (proj2 (Z.leb_gt _ _)) by lia.
  assert ((if 1 <? Z.of_nat (n + rest) then if 2 <? Z.of_nat (n + rest) then 3 else 2 else 1) = Z.of_nat n) as ->.
  { repeat case_match; bools; lia. }
  rewrite E, Nat2Z.id. cbn [mbind option_bind]. by replace (Z.of_nat (n + rest) - Z.of_nat n) with (Z.of_nat rest) by lia.
Qed.

(** What is claimed of a text, from its first block and the rest. *)
Lemma binary_roundtrip fuel s t :
  plain_ok s -> (length s <= fuel)%nat ->
  exists e, binary_encode fuel (s ++ 0 :: t) (zlen s) = Some e /\ Forall (fun c => 0 < c < 128) e /\
    zlen e = (zlen s + 2) / 3 * 4 /\ forall k, (length e <= k)%nat -> binary_decode k e = s.
Proof.
  assert (H0 : is_u8 0 /\ (char_signed = true -> 0 < 128)) by (split; intros; lia).
  revert s. induction fuel as [|fuel IH]; intros s Hs Hf.
  { destruct s; [|cbn in Hf; lia]. exists []. split_and!; [done|by constructor|done|by intros []]. }
  assert (forall b0 b1 b2 n rest, s = take n [b0; b1; b2] ++ rest -> length (take n [b0; b1; b2]) = n ->
    plain_ok [b0; b1; b2] -> (1 <= n <= 3)%nat -> (n = 1%nat -> b1 = 0) -> ((n <= 2)%nat -> b2 = 0 /\ rest = []) ->
    (s ++ 0 :: t) !! 0%nat = Some b0 -> (s ++ 0 :: t) !! 1%nat = Some b1 ->
    ((2 <= n)%nat -> (s ++ 0 :: t) !! 2%nat = Some b2) ->
    exists e, binary_encode (S fuel) (s ++ 0 :: t) (zlen s) = Some e /\ Forall (fun c => 0 < c < 128) e /\
      zlen e = (zlen s + 2) / 3 * 4 /\ forall k, (length e <= k)%nat -> binary_decode k e = s) as Hstep.
  { intros b0 b1 b2 n rest Es Hl Hp Hn Hb1 Hb2 L0 L1 L2.
    assert (length s = n + length rest)%nat as Hls by (by rewrite Es, length_app, Hl).
    destruct (IH rest) as (er & Er & Hcr & Hlr & Hdr); [rewrite Es in Hs; apply Forall_app in Hs; apply Hs|lia|].
    destruct (roundtrip_step b0 b1 b2 n (s ++ 0 :: t) er) as (b & E & Hbl & Hc & Hd); try done.
    { intros Hn2. destruct (Hb2 Hn2) as [-> ->]. split; [done|]. destruct fuel; cbn in Er; by injection Er. }
    exists (b ++ er). rewrite Hls, (encode_unfold fuel n _ b); [|done..|intros Hn2; by destruct (Hb2 Hn2) as [_ ->]].
    rewrite Es, <- app_assoc, <- Hl at 1. rewrite drop_app_length, Er. split_and!; [done|by apply Forall_app|..].
    - rewrite length_app, !Nat2Z.inj_add, Hlr, Hbl. destruct (decide (n = 3%nat)) as [->|]; [Z.div_mod_to_equations; lia|].
      destruct (Hb2 ltac:(lia)) as [_ ->]. cbn [length]. assert (n = 1 \/ n = 2)%nat as [-> | ->] by lia; reflexivity.
    - intros k Hk. rewrite length_app, Hbl in Hk. destruct k as [|k]; [lia|]. rewrite Hd, (Hdr k) by lia. done. }
  destruct s as [|x [|y [|z s]]]; [exists []; split_and!; [done|by constructor|done|by intros []]|..].
  all: unfold plain_ok in *; rewrite ?Forall_cons in Hs; clear IH.
  - apply (Hstep x 0 0 1%nat []); try done; try lia. rewrite !Forall_cons. tauto.
  - apply (Hstep x y 0 2%nat []); try done; try lia. rewrite !Forall_cons. tauto.
  - apply (Hstep x y z 3%nat s); try done; try lia. rewrite !Forall_cons, Forall_nil. tauto.
Qed.

(** A read before the table: a character from 128 on, where [char] is signed. *)
Lemma encode_negative b plain n :
  char_signed = true -> 128 <= b < 256 -> encode_block (b :: plain) n = None.
Proof.
  intros Hs Hb. assert (as_char b = b - 256) as Ea by (unfold as_char; rewrite Hs; cbn [andb]; by decide_if).
  unfold encode_block. change ((b :: plain) !! 0%nat) with (Some b). cbn [fmap option_fmap option_map mbind option_bind].
  assert (index l_encodeblock (Z.shiftr (b - 256) 2) = None) as Ei.
  { unfold index. rewrite (proj2 (Z.ltb_lt _ _)); [done|]. rewrite Z.shiftr_div_pow2 by lia. Z.div_mod_to_equations; lia. }
  rewrite Ea, Ei. by destruct ((b :: plain) !! 1%nat).
Qed.
End Codes.
