(* ===== verification/Json.v ===== *)
(** JSON documents, as json-c keeps them, and the functions of json-c that the
    controller calls; MAC addresses as text (src/common/capwap_network.c).

    An object is the list of its entries, in the order in which they were added;
    adding an entry under a name that is there replaces its value in place.  A
    number is an [int64_t], and [json_object_get_int] clamps it to an [int]. *)
From stdpp Require Import option strings.
From S2P Require Import Prelude Base64.
#[local] Open Scope Z_scope.

Inductive json :=
| JNull
| JBool (b : bool)
| JDouble (bits : Z)
| JInt (n : Z)
| JString (s : list Z)
| JArray (l : list json)
| JObject (l : list (string * json)).

(** ** json-c *)

Definition json_object_new_int (n : Z) : json := JInt n.
Definition json_object_new_boolean (n : Z) : json := JBool (negb (n =? 0)).
Definition json_object_new_string (s : list Z) : json := JString (cstr s).

Fixpoint entry_put (key : string) (v : json) (l : list (string * json)) : list (string * json) :=
  match l with
  | [] => [(key, v)]
  | (k, x) :: l => if bool_decide (k = key) then (k, v) :: l else (k, x) :: entry_put key v l
  end.

Definition json_object_object_add (obj : json) (key : string) (v : json) : json :=
  match obj with
  | JObject l => JObject (entry_put key v l)
  | _ => obj
  end.

Fixpoint entry_get (key : string) (l : list (string * json)) : option json :=
  match l with
  | [] => None
  | (k, x) :: l => if bool_decide (k = key) then Some x else entry_get key l
  end.

(** NULL when there is no such entry, or no object. *)
Definition compat_json_object_object_get (obj : json) (key : string) : option json :=
  match obj with
  | JObject l => entry_get key l
  | _ => None
  end.

(** [jsonitem && (json_object_get_type(jsonitem) == json_type_int)], and
    [json_object_get_int]. *)
Definition int_of (j : json) : option Z :=
  match j with
  | JInt n => Some (Z.max (-2147483648) (Z.min 2147483647 n))
  | _ => None
  end.
Definition get_int (obj : json) (key : string) : option Z :=
  j ← compat_json_object_object_get obj key; int_of j.

(** The same for the other types. *)
Definition get_boolean (obj : json) (key : string) : option bool :=
  j ← compat_json_object_object_get obj key; match j with JBool b => Some b | _ => None end.
Definition get_string (obj : json) (key : string) : option (list Z) :=
  j ← compat_json_object_object_get obj key; match j with JString s => Some s | _ => None end.
Definition array_of (j : json) : option (list json) := match j with JArray l => Some l | _ => None end.
Definition get_array (obj : json) (key : string) : option (list json) :=
  j ← compat_json_object_object_get obj key; array_of j.
Definition is_object (j : json) : bool := match j with JObject _ => true | _ => false end.
Definition get_object (obj : json) (key : string) : option json :=
  j ← compat_json_object_object_get obj key; if is_object j then Some j else None.

(** An object with the entries of a literal. *)
Definition json_object (l : list (string * json)) : json :=
  foldl (fun obj e => json_object_object_add obj e.1 e.2) (JObject []) l.

(** ** MAC addresses *)


Definition hex_digit (n : Z) : Z := if n <? 10 then 48 + n else 87 + n.
(** [%02x] of a byte. *)
Definition print_hex (b : Z) : list Z := [hex_digit (b / 16); hex_digit (b mod 16)].

Fixpoint print_octets (l : list Z) : list Z :=
  match l with
  | [] => []
  | [b] => print_hex b
  | b :: l => print_hex b ++ 58 :: print_octets l
  end.

(** The text with its terminator; [None] for another length. *)
Definition capwap_printf_macaddress (macaddress : list Z) (type : Z) : option (list Z) :=
  if (type =? MACADDRESS_EUI48_LENGTH) || (type =? MACADDRESS_EUI64_LENGTH)
  then Some (print_octets (take (Z.to_nat type) macaddress) ++ [0]) else None.

Definition hex_value (c : Z) : option Z :=
  if (48 <=? c) && (c <=? 57) then Some (c - 48)
  else if (97 <=? c) && (c <=? 102) then Some (c - 87)
  else if (65 <=? c) && (c <=? 70) then Some (c - 55) else None.

Definition is_space (c : Z) : bool := (c =? 32) || ((9 <=? c) && (c <=? 13)).

Fixpoint skip_spaces (s : list Z) : list Z :=
  match s with
  | c :: s' => if is_space c then skip_spaces s' else s
  | [] => []
  end.

(** The digits at the head of the text: their value and the rest. *)
Fixpoint scan_digits (acc : Z) (s : list Z) : Z * list Z :=
  match s with
  | c :: s' => match hex_value c with Some d => scan_digits (acc * 16 + d) s' | None => (acc, s) end
  | [] => (acc, [])
  end.

(** White space, a sign, the prefix [0x], and digits, one at least: whether
    there is a minus sign, the value, and the rest. *)
Definition scan_number (s : list Z) : option (bool * Z * list Z) :=
  let s := skip_spaces s in
  let '(minus, s) := match s with
                     | 45 :: s => (true, s)
                     | 43 :: s => (false, s)
                     | _ => (false, s)
                     end in
  let s := match s with
           | 48 :: x :: d :: s' =>
               if ((x =? 120) || (x =? 88)) && bool_decide (is_Some (hex_value d)) then d :: s' else s
           | _ => s
           end in
  c ← head s; _ ← hex_value c;
  let '(v, rest) := scan_digits 0 s in Some (minus, v, rest).

Section Scan.
Context `{Target}.

(** [%hhx]: the value is clamped to [unsigned long], negated for a minus sign,
    and cut to a byte. *)
Definition scan_hex (s : list Z) : option (Z * list Z) :=
  '(minus, v, rest) ← scan_number s;
  let v := Z.min v (2 ^ ulong_bits - 1) in
  Some (wrap8 (if minus : bool then - v else v), rest).

(** Octets separated by colons; [None] when there are fewer than [n]. *)
Fixpoint scan_octets (n : nat) (s : list Z) : option (list Z) :=
  match n with
  | O => Some []
  | S n =>
      '(b, s) ← scan_hex s;
      match n, s with
      | O, _ => Some [b]
      | _, 58 :: s => l ← scan_octets n s; Some (b :: l)
      | _, _ => None
      end
  end.

Definition capwap_scanf_macaddress (buffer : list Z) (type : Z) : option (list Z) :=
  if (type =? MACADDRESS_EUI48_LENGTH) || (type =? MACADDRESS_EUI64_LENGTH)
  then scan_octets (Z.to_nat type) (cstr buffer) else None.
End Scan.

(** ** Lemmas *)

Lemma entry_get_put k v l : entry_get k (entry_put k v l) = Some v.
Proof.
  induction l as [|[k' x] l IH]; cbn; [by rewrite bool_decide_true|].
  case_bool_decide as E; cbn; [by rewrite bool_decide_true|]. by rewrite bool_decide_false.
Qed.

Lemma entry_get_put_ne k k' v l : k <> k' -> entry_get k' (entry_put k v l) = entry_get k' l.
Proof.
  intros Hne. induction l as [|[k0 x] l IH]; cbn; [by rewrite bool_decide_false|].
  case_bool_decide as E; cbn; [|by rewrite IH]. subst. by rewrite !bool_decide_false.
Qed.

(** An entry of an object with distinct names. *)
Lemma entry_get_lookup k l : NoDup (l.*1) -> forall v, (k, v) ∈ l -> entry_get k l = Some v.
Proof.
  induction l as [|[k' x] l IH]; cbn; [by intros _ v ?%elem_of_nil|].
  intros [Hn Hd]%NoDup_cons v [[= -> ->]|Hv]%elem_of_cons; [by rewrite bool_decide_true|].
  rewrite bool_decide_false; [by apply IH|]. intros ->. apply Hn. apply list_elem_of_fmap. by exists (k, v).
Qed.

Lemma entry_put_new k v l : k ∉ l.*1 -> entry_put k v l = l ++ [(k, v)].
Proof.
  induction l as [|[k' x] l IH]; cbn; [done|]. intros [Hne Hn]%not_elem_of_cons.
  rewrite bool_decide_false by done. by rewrite IH.
Qed.

(** ** Addresses are read back *)

Lemma scan_print b :
  is_u8 b -> scan_number (print_hex b) = Some (false, b, []) /\
    forall t, scan_number (print_hex b ++ 58 :: t) = Some (false, b, 58 :: t).
Proof.
  intros Hb. pose (P b := scan_number (print_hex b) = Some (false, b, []) /\
    forall t, scan_number (print_hex b ++ 58 :: t) = Some (false, b, 58 :: t)).
  assert (Forall P (seqZ 0 256)) as HP.
  { unfold P, print_hex. cbv [seqZ fmap list_fmap seq Z.to_nat Pos.to_nat Pos.iter_op Nat.add Init.Nat.add]. repeat constructor. }
  rewrite Forall_seqZ in HP. apply HP. lia.
Qed.

Lemma scan_hex_print `{Target} b :
  is_u8 b -> scan_hex (print_hex b) = Some (b, []) /\ forall t, scan_hex (print_hex b ++ 58 :: t) = Some (b, 58 :: t).
Proof.
  intros Hb. destruct (scan_print b Hb) as [E1 E2]. unfold scan_hex. rewrite E1. setoid_rewrite E2.
  cbn [mbind option_bind]. pose proof (Z.pow_le_mono_r 2 32 ulong_bits eq_refl ulong_min).
  rewrite Z.min_l by lia. by rewrite wrap8_small.
Qed.

Lemma scan_print_octets `{Target} l :
  bytes_ok l -> scan_octets (length l) (print_octets l) = Some l.
Proof.
  induction 1 as [|b l Hb _ IH]; [done|]. cbn [length scan_octets].
  destruct (scan_hex_print b Hb) as [E1 E2]. destruct l as [|b' l]; [cbn; by rewrite E1|].
  change (print_octets (b :: b' :: l)) with (print_hex b ++ 58 :: print_octets (b' :: l)).
  rewrite E2. cbn [mbind option_bind length] in *. by rewrite IH.
Qed.

Lemma print_chars l : bytes_ok l -> chars_ok (print_octets l).
Proof.
  assert (forall b, is_u8 b -> chars_ok (print_hex b)) as Hp.
  { intros b Hb. assert (0 <= b / 16 < 16 /\ 0 <= b mod 16 < 16) by (Z.div_mod_to_equations; lia).
    unfold print_hex, hex_digit. repeat constructor; case_match; bools; lia. }
  induction 1 as [|b l Hb Hl IH]; [constructor|]. destruct l as [|b' l]; [by apply Hp|].
  change (chars_ok (print_hex b ++ 58 :: print_octets (b' :: l))). apply Forall_app. split; [by apply Hp|]. constructor; [lia|done].
Qed.

Lemma macaddress_read_back `{Target} m type text :
  bytes_ok m -> zlen m = type -> capwap_printf_macaddress m type = Some text ->
  capwap_scanf_macaddress text type = Some m.
Proof.
  intros Hm Hl. unfold capwap_printf_macaddress, capwap_scanf_macaddress. case_match; [|done]. intros [= <-].
  rewrite <- Hl, Nat2Z.id, firstn_all, cstr_terminated by by apply print_chars. by apply scan_print_octets.
Qed.
