(* ===== verification/ElementsAcList.v ===== *)
(** Message elements 1 to 3: AC Descriptor, AC IPv4 List and AC IPv6 List
    (src/common/capwap_element_acdescriptor.c, capwap_element_acipv4list.c and
    capwap_element_acipv6list.c), whose parsers loop over the received bytes. *)
From S2P Require Import Prelude Io.

(** ** The loop the two address lists share

    [while (length > 0) { read_block(size); length -= size; }] where [length]
    is a [uint16_t] and every address is appended to the array. *)
Module AddressLoop.

Fixpoint read_addresses `{Indeterminate} (size : Z) (fuel : nat) (length : Z)
    (acc : list (list Z)) : parser (list (list Z)) :=
  match fuel with
  | O => OutOfFuel
  | S fuel =>
      if 0 <? length then
        address ← p_block (fresh size);
        read_addresses size fuel (wrap16 (length - size)) (acc ++ [address])
      else mret acc
  end.

Section Loop.
Context `{Indeterminate} (size : Z) (Hsize : 0 < size).

Lemma length_wire (l : list (list Z)) :
  Forall (fun a => zlen a = size) l -> zlen (wire (WriteBlock <$> l)) = size * zlen l.
Proof.
  induction 1 as [|a l Ha _ IH]; [by rewrite Z.mul_0_r|].
  change (WriteBlock <$> a :: l) with (WriteBlock a :: (WriteBlock <$> l)).
  rewrite wire_cons, length_app. cbn [call_bytes length]. lia.
Qed.

Lemma read_addresses_wire (l acc : list (list Z)) fuel rest :
  Forall (fun a => zlen a = size) l ->
  (length l < fuel)%nat -> size * zlen l < 65536 ->
  run (read_addresses size fuel (size * zlen l) acc)
      (Stream (size * zlen l) (wire (WriteBlock <$> l) ++ rest))
    = Done (acc ++ l, Stream 0 rest).
Proof.
  intros Hl. revert acc fuel.
  induction Hl as [|a l Ha _ IH]; intros acc fuel Hf Hb;
    (destruct fuel as [|fuel]; [simpl in Hf; lia|]).
  - rewrite app_nil_r. cbn [length]. by rewrite Z.mul_0_r.
  - cbn [read_addresses]. cbn [length] in *.
    assert (Hn : size * Z.of_nat (S (length l)) = size + size * zlen l) by lia.
    rewrite Hn in *. assert (0 <= size * zlen l) by nia. decide_if.
    change (WriteBlock <$> a :: l) with (WriteBlock a :: (WriteBlock <$> l)).
    rewrite wire_cons, <- app_assoc. cbn [call_bytes].
    rewrite run_block, Ha, wrap16_small by (len; lia).
    replace (size + size * zlen l - size) with (size * zlen l) by lia.
    rewrite IH by lia. by rewrite <- app_assoc.
Qed.

(** The loop ends only when the 16-bit counter is exactly zero: from a
    counter that is not a multiple of [size] it never ends. *)
Lemma read_addresses_diverges fuel length acc (h : stream) :
  size < 65536 -> 65536 mod size = 0 -> 0 <= length -> length mod size <> 0 ->
  run (read_addresses size fuel length acc) h = Looping.
Proof.
  intros Hlt Hdiv. revert length acc h.
  induction fuel as [|fuel IH]; intros length acc h Hl Hm; [done|].
  assert (length <> 0) by (intros ->; by rewrite Z.mod_0_l in Hm by lia).
  cbn [read_addresses]. decide_if. rewrite run_bind.
  destruct (run_fresh_block size h) as (a & h' & ->); [lia|]. cbn. apply IH.
  - apply wrap16_range.
  - unfold wrap16. apply Z.mod_divide in Hdiv; [|lia].
    rewrite Z.mod_mod_divide by done.
    rewrite Zminus_mod, Z_mod_same_full, Z.sub_0_r, Zmod_mod. done.
Qed.

Lemma clone_addresses (l : list (list Z)) :
  Forall (fun a => zlen a = size) l -> take (Z.to_nat size) <$> l = l.
Proof.
  induction 1 as [|a l Ha _ IH]; [done|].
  rewrite fmap_cons, IH, take_ge by lia. done.
Qed.
End Loop.

End AddressLoop.
Import AddressLoop.

Module AcIPv4List.

Record capwap_acipv4list_element := { addresses : list (list Z) }.

Definition CAPWAP_ACIPV4LIST_MAX_ELEMENTS : Z := 1024.

Definition capwap_acipv4list_element_create (element : capwap_acipv4list_element)
    : list wcall :=
  WriteBlock <$> addresses element.

Definition capwap_acipv4list_element_parsing `{Indeterminate} (fuel : nat)
    : parser (option capwap_acipv4list_element) :=
  length ← p_ready;
  if (4 <=? length) && (length <=? CAPWAP_ACIPV4LIST_MAX_ELEMENTS * 4) &&
     negb (length mod 4 =? 0) then mret None else
  addresses ← read_addresses sizeof_in_addr fuel length [];
  mret (Some {| addresses := addresses |}).

Definition capwap_acipv4list_element_clone (element : capwap_acipv4list_element)
    : capwap_acipv4list_element :=
  {| addresses := take (Z.to_nat sizeof_in_addr) <$> addresses element |}.

Definition wf (d : capwap_acipv4list_element) : Prop :=
  Forall (fun a => zlen a = sizeof_in_addr) (addresses d).

#[global] Program Instance codec `{Indeterminate} : Codec capwap_acipv4list_element := {
  c_create := capwap_acipv4list_element_create;
  c_parse := capwap_acipv4list_element_parsing;
  c_clone := capwap_acipv4list_element_clone;
  c_wf := wf
}.
Next Obligation.
  intros ? [l] fuel rest Hl Hf Hw.
  unfold wf, capwap_acipv4list_element_create, capwap_acipv4list_element_parsing in *; cbn in *.
  pose proof (length_wire sizeof_in_addr l Hl) as Hlen. rewrite Hlen in *.
  unfold sizeof_in_addr in *. rewrite run_ready by (rewrite length_app; lia).
  replace (4 * zlen l mod 4) with 0 by (symmetry; rewrite Z.mul_comm; apply Z_mod_mult).
  rewrite Z.eqb_refl, andb_false_r, run_bind, read_addresses_wire by (done || lia). done.
Qed.
Next Obligation.
  intros ? [l] Hl. unfold wf, capwap_acipv4list_element_clone in *; cbn in *.
  by rewrite clone_addresses.
Qed.
Next Obligation.
  intros ? [l] Hl. apply safe_blocks. eapply Forall_impl; [exact Hl|].
  unfold sizeof_in_addr. cbn. lia.
Qed.

End AcIPv4List.

Module AcIPv6List.

Record capwap_acipv6list_element := { addresses : list (list Z) }.

Definition capwap_acipv6list_element_create (element : capwap_acipv6list_element)
    : list wcall :=
  WriteBlock <$> addresses element.

(** The bound of the source is the IPv4 one. *)
Definition capwap_acipv6list_element_parsing `{Indeterminate} (fuel : nat)
    : parser (option capwap_acipv6list_element) :=
  length ← p_ready;
  if (16 <=? length) && (length <=? AcIPv4List.CAPWAP_ACIPV4LIST_MAX_ELEMENTS * 16) &&
     negb (length mod 16 =? 0) then mret None else
  addresses ← read_addresses sizeof_in6_addr fuel length [];
  mret (Some {| addresses := addresses |}).

Definition capwap_acipv6list_element_clone (element : capwap_acipv6list_element)
    : capwap_acipv6list_element :=
  {| addresses := take (Z.to_nat sizeof_in6_addr) <$> addresses element |}.

Definition wf (d : capwap_acipv6list_element) : Prop :=
  Forall (fun a => zlen a = sizeof_in6_addr) (addresses d).

#[global] Program Instance codec `{Indeterminate} : Codec capwap_acipv6list_element := {
  c_create := capwap_acipv6list_element_create;
  c_parse := capwap_acipv6list_element_parsing;
  c_clone := capwap_acipv6list_element_clone;
  c_wf := wf
}.
Next Obligation.
  intros ? [l] fuel rest Hl Hf Hw.
  unfold wf, capwap_acipv6list_element_create, capwap_acipv6list_element_parsing in *; cbn in *.
  pose proof (length_wire sizeof_in6_addr l Hl) as Hlen. rewrite Hlen in *.
  unfold sizeof_in6_addr in *. rewrite run_ready by (rewrite length_app; lia).
  replace (16 * zlen l mod 16) with 0 by (symmetry; rewrite Z.mul_comm; apply Z_mod_mult).
  rewrite Z.eqb_refl, andb_false_r, run_bind, read_addresses_wire by (done || lia). done.
Qed.
Next Obligation.
  intros ? [l] Hl. unfold wf, capwap_acipv6list_element_clone in *; cbn in *.
  by rewrite clone_addresses.
Qed.
Next Obligation.
  intros ? [l] Hl. apply safe_blocks. eapply Forall_impl; [exact Hl|].
  unfold sizeof_in6_addr. cbn. lia.
Qed.

End AcIPv6List.

Module AcDescriptor.

Record capwap_acdescriptor_desc_subelement :=
  { vendor : Z; type : Z; length : Z; data : list Z }.

Record capwap_acdescriptor_element := {
  stations : Z; stationlimit : Z; activewtp : Z; maxwtp : Z;
  security : Z; rmacfield : Z; dtlspolicy : Z;
  descsubelement : list capwap_acdescriptor_desc_subelement
}.

Definition CAPWAP_ACDESC_SECURITY_MASK : Z := 6.
Definition CAPWAP_ACDESC_RMACFIELD_SUPPORTED : Z := 1.
Definition CAPWAP_ACDESC_RMACFIELD_NOTSUPPORTED : Z := 2.
Definition CAPWAP_ACDESC_DTLS_POLICY_MASK : Z := 6.
Definition CAPWAP_ACDESC_SUBELEMENT_HARDWAREVERSION : Z := 4.
Definition CAPWAP_ACDESC_SUBELEMENT_SOFTWAREVERSION : Z := 5.
Definition CAPWAP_ACDESC_SUBELEMENT_MAXDATA : Z := 1024.

(** [x & ~mask], as a C truth value. *)
Definition outside (x mask : Z) : bool := negb (Z.land x (Z.lnot mask) =? 0).

Definition capwap_acdescriptor_element_asserts (element : capwap_acdescriptor_element)
    : bool :=
  negb (outside (security element) CAPWAP_ACDESC_SECURITY_MASK) &&
  negb (outside (dtlspolicy element) CAPWAP_ACDESC_DTLS_POLICY_MASK) &&
  ((rmacfield element =? CAPWAP_ACDESC_RMACFIELD_SUPPORTED) ||
   (rmacfield element =? CAPWAP_ACDESC_RMACFIELD_NOTSUPPORTED)) &&
  forallb (fun desc => 0 <? length desc) (descsubelement element).

Definition ac_desc_create (desc : capwap_acdescriptor_desc_subelement) : list wcall :=
  [WriteU32 (vendor desc); WriteU16 (type desc); WriteU16 (length desc);
   WriteBlock (take (Z.to_nat (length desc)) (data desc))].

Definition capwap_acdescriptor_element_create (element : capwap_acdescriptor_element)
    : list wcall :=
  [WriteU16 (stations element); WriteU16 (stationlimit element);
   WriteU16 (activewtp element); WriteU16 (maxwtp element);
   WriteU8 (security element); WriteU8 (rmacfield element);
   WriteU8 0; WriteU8 (dtlspolicy element)] ++
  concat (ac_desc_create <$> descsubelement element).

(** [while (func->read_ready(handle) > 0)]: the sub-elements.  The array of
    descriptors is created zeroed. *)
Fixpoint ac_read_descs `{Indeterminate} (fuel : nat)
    (acc : list capwap_acdescriptor_desc_subelement)
    : parser (option (list capwap_acdescriptor_desc_subelement)) :=
  match fuel with
  | O => OutOfFuel
  | S fuel =>
      ready ← p_ready;
      if 0 <? ready then
        vendor ← p_u32 0;
        type ← p_u16 0;
        desc_length ← p_u16 0;
        if negb (type =? CAPWAP_ACDESC_SUBELEMENT_HARDWAREVERSION) &&
           negb (type =? CAPWAP_ACDESC_SUBELEMENT_SOFTWAREVERSION) then mret None else
        length ← p_ready;
        if (CAPWAP_ACDESC_SUBELEMENT_MAXDATA <? length) || (length <? desc_length)
        then mret None else
        data ← p_block (fresh desc_length);
        ac_read_descs fuel (acc ++ [{| vendor := vendor; type := type; length := desc_length;
                                    data := data ++ [0] |}])
      else mret (Some acc)
  end.

Definition capwap_acdescriptor_element_parsing `{Indeterminate} (fuel : nat)
    : parser (option capwap_acdescriptor_element) :=
  ready ← p_ready;
  if ready <? 12 then mret None else
  stations ← p_u16 0;
  stationlimit ← p_u16 0;
  activewtp ← p_u16 0;
  maxwtp ← p_u16 0;
  if stationlimit <? stations then mret None
  else if maxwtp <? activewtp then mret None else
  security ← p_u8 0;
  rmacfield ← p_u8 0;
  reserved ← p_u8 0;
  dtlspolicy ← p_u8 0;
  if outside security CAPWAP_ACDESC_SECURITY_MASK then mret None
  else if outside dtlspolicy CAPWAP_ACDESC_DTLS_POLICY_MASK then mret None
  else if negb (rmacfield =? CAPWAP_ACDESC_RMACFIELD_SUPPORTED) &&
          negb (rmacfield =? CAPWAP_ACDESC_RMACFIELD_NOTSUPPORTED) then mret None else
  descs ← ac_read_descs fuel [];
  match descs with
  | None => mret None
  | Some descs =>
      mret (Some {| stations := stations; stationlimit := stationlimit;
                    activewtp := activewtp; maxwtp := maxwtp; security := security;
                    rmacfield := rmacfield; dtlspolicy := dtlspolicy;
                    descsubelement := descs |})
  end.

(** [clonedesc->data] is cloned without the terminator that parsing added. *)
Definition capwap_acdescriptor_element_clone (element : capwap_acdescriptor_element)
    : capwap_acdescriptor_element :=
  {| stations := stations element; stationlimit := stationlimit element;
     activewtp := activewtp element; maxwtp := maxwtp element;
     security := security element; rmacfield := rmacfield element;
     dtlspolicy := dtlspolicy element;
     descsubelement :=
       (fun desc =>
          if negb (length desc =? 0) then
            {| vendor := vendor desc; type := type desc; length := length desc;
               data := take (Z.to_nat (length desc)) (data desc) |}
          else desc) <$> descsubelement element |}.

Definition ac_desc_wf (d : capwap_acdescriptor_desc_subelement) : Prop :=
  is_u32 (vendor d) /\ (type d = 4 \/ type d = 5) /\
  exists bs, data d = bs ++ [0] /\ zlen bs = length d /\ 0 < length d < 65536.

(** A descriptor that the peer accepts: besides the assertions of [create], the
    counters are within their limits and what follows the first sub-element
    header fits in [CAPWAP_ACDESC_SUBELEMENT_MAXDATA]. *)
Definition wf (d : capwap_acdescriptor_element) : Prop :=
  is_u16 (stations d) /\ is_u16 (stationlimit d) /\ is_u16 (activewtp d) /\ is_u16 (maxwtp d) /\
  is_u8 (security d) /\ is_u8 (rmacfield d) /\ is_u8 (dtlspolicy d) /\
  stations d <= stationlimit d /\ activewtp d <= maxwtp d /\
  capwap_acdescriptor_element_asserts d = true /\
  Forall ac_desc_wf (descsubelement d) /\
  zlen (wire (concat (ac_desc_create <$> descsubelement d))) <= 8 + CAPWAP_ACDESC_SUBELEMENT_MAXDATA.

Definition ac_descs_wire (l : list capwap_acdescriptor_desc_subelement) : list Z :=
  wire (concat (ac_desc_create <$> l)).

Lemma descs_wire_cons v t n bs l :
  zlen bs = n ->
  ac_descs_wire ({| vendor := v; type := t; length := n; data := bs ++ [0] |} :: l) =
  be32 v ++ be16 t ++ be16 n ++ bs ++ ac_descs_wire l.
Proof.
  intros Hn. unfold ac_descs_wire. rewrite fmap_cons. cbn [concat]. rewrite wire_app.
  unfold ac_desc_create; cbn [vendor type length data].
  rewrite take_app_length' by lia. wire_norm. done.
Qed.

Lemma read_descs_wire `{Indeterminate} l acc fuel rest :
  Forall ac_desc_wf l ->
  zlen (ac_descs_wire l) <= 8 + CAPWAP_ACDESC_SUBELEMENT_MAXDATA ->
  zlen (ac_descs_wire l) < Z.of_nat fuel ->
  run (ac_read_descs fuel acc) (Stream (zlen (ac_descs_wire l)) (ac_descs_wire l ++ rest))
    = Done (Some (acc ++ l), Stream 0 rest).
Proof.
  intros Hl. revert acc fuel. unfold CAPWAP_ACDESC_SUBELEMENT_MAXDATA.
  induction Hl as [|[v t n dt] l (Hv & Ht & bs & Hd & Hn & Hr) _ IH];
    intros acc fuel Hm Hf; (destruct fuel as [|fuel]; [lia|]); cbn [ac_read_descs].
  - rewrite app_nil_r. cbn. by destruct rest.
  - cbn in Hv, Ht, Hd, Hn, Hr. subst dt.
    rewrite descs_wire_cons in * by done. wire_norm.
    unfold CAPWAP_ACDESC_SUBELEMENT_HARDWAREVERSION, CAPWAP_ACDESC_SUBELEMENT_SOFTWAREVERSION,
      CAPWAP_ACDESC_SUBELEMENT_MAXDATA.
    repeat parse_step.
    match goal with |- run _ (Stream ?a _) = _ => replace a with (zlen (ac_descs_wire l)) by lia end.
    rewrite IH by lia. by rewrite <- app_assoc.
Qed.

#[global] Program Instance codec `{Indeterminate} : Codec capwap_acdescriptor_element := {
  c_create := capwap_acdescriptor_element_create;
  c_parse := capwap_acdescriptor_element_parsing;
  c_clone := capwap_acdescriptor_element_clone;
  c_wf := wf
}.
Next Obligation.
  start_codec @capwap_acdescriptor_element_create @capwap_acdescriptor_element_parsing wf.
  unfold capwap_acdescriptor_element_asserts in *; cbn in *.
  split_andb.
  unfold CAPWAP_ACDESC_RMACFIELD_SUPPORTED, CAPWAP_ACDESC_RMACFIELD_NOTSUPPORTED in *.
  wire_norm. repeat first [ parse_step | rewrite_test ].
  fold (ac_descs_wire descsubelement0) in *. rewrite run_bind.
  match goal with
  | |- context [Stream ?a (ac_descs_wire ?l ++ _)] => replace a with (zlen (ac_descs_wire l)) by lia
  end.
  rewrite read_descs_wire by (done || lia). done.
Qed.
Next Obligation.
  intros ? d Hwf. unfold capwap_acdescriptor_element_create, capwap_acdescriptor_element_clone.
  cbn. do 9 f_equal. 
  destruct Hwf as (_ & _ & _ & _ & _ & _ & _ & _ & _ & _ & Hl & _).
  induction Hl as [|[v t n dt] l (_ & _ & bs & Hd & Hn & Hr) _ IH]; [done|].
  cbn in *. rewrite IH. decide_if. unfold ac_desc_create; cbn.
  by rewrite take_take, Nat.min_id.
Qed.
Next Obligation.
  intros ? d (_ & _ & _ & _ & _ & _ & _ & _ & _ & _ & Hl & _). cbn. apply safe_concat.
  eapply Forall_impl; [exact Hl|]. intros [v t n dt] (_ & _ & bs & Hd & Hn & Hr). cbn in *. subst dt.
  rewrite length_take. bools. repeat split. len.
Qed.

End AcDescriptor.
