(* ===== verification/ElementsAc.v ===== *)
(** Message elements 4 to 11: AC Name, AC Name with Priority, AC Timestamp,
    Add MAC ACL Entry, Add Station, CAPWAP Control IPv4/IPv6 Address
    (src/common/capwap_element_*.c).

    In every Module the Record is the element's C struct: integers at their
    width, an owned buffer as the list of its bytes, a pointer that may be
    NULL as an [option].  [create] is the list of write calls of the C
    function, [parsing] its reads, tests and early returns of NULL, and
    [asserts] the ASSERT conditions at the head of [create]. *)
From S2P Require Import Prelude Io.

Module AcName.

Record capwap_acname_element := { name : list Z }.

Definition CAPWAP_ACNAME_MAXLENGTH : Z := 512.

Definition capwap_acname_element_create (element : capwap_acname_element) : list wcall :=
  [WriteBlock (cstr (name element))].

Definition capwap_acname_element_parsing `{Indeterminate} (fuel : nat)
    : parser (option capwap_acname_element) :=
  length ← p_ready;
  if (length <? 1) || (CAPWAP_ACNAME_MAXLENGTH <? length) then mret None else
  name ← p_block (fresh length);
  mret (Some {| name := name ++ [0] |}).

Definition capwap_acname_element_clone (element : capwap_acname_element)
    : capwap_acname_element :=
  {| name := capwap_duplicate_string (name element) |}.

Definition wf (d : capwap_acname_element) : Prop :=
  exists s, name d = s ++ [0] /\ chars_ok s /\ 1 <= zlen s <= CAPWAP_ACNAME_MAXLENGTH.

#[global] Program Instance codec `{Indeterminate} : Codec capwap_acname_element := {
  c_create := capwap_acname_element_create;
  c_parse := capwap_acname_element_parsing;
  c_clone := capwap_acname_element_clone;
  c_wf := wf
}.
Next Obligation.
  intros ? [n] fuel rest (s & Hn & Hs & Hl) Hf Hw; cbn in *; subst n.
  unfold capwap_acname_element_create, capwap_acname_element_parsing in *; cbn in *.
  unfold CAPWAP_ACNAME_MAXLENGTH in *.
  rewrite cstr_terminated in * by done. solve_codec.
Qed.
Next Obligation.
  intros ? [n] (s & Hn & Hs & _); cbn in *; subst n.
  unfold capwap_acname_element_clone; cbn. by rewrite duplicate_terminated.
Qed.
Next Obligation. solve_safe @capwap_acname_element_create wf. Qed.

End AcName.

Module ControlIPv4.

Record capwap_controlipv4_element := { address : list Z; wtpcount : Z }.

Definition capwap_controlipv4_element_create (element : capwap_controlipv4_element)
    : list wcall :=
  [WriteBlock (address element); WriteU16 (wtpcount element)].

Definition capwap_controlipv4_element_parsing `{Indeterminate} (fuel : nat)
    : parser (option capwap_controlipv4_element) :=
  ready ← p_ready;
  if negb (ready =? 6) then mret None else
  address ← p_block (fresh sizeof_in_addr);
  wtpcount ← p_u16 indet;
  mret (Some {| address := address; wtpcount := wtpcount |}).

Definition wf (d : capwap_controlipv4_element) : Prop :=
  zlen (address d) = sizeof_in_addr /\ is_u16 (wtpcount d).

#[global] Program Instance codec `{Indeterminate} : Codec capwap_controlipv4_element := {
  c_create := capwap_controlipv4_element_create;
  c_parse := capwap_controlipv4_element_parsing;
  c_clone := fun d => d;
  c_wf := wf
}.
Next Obligation.
  codec @capwap_controlipv4_element_create @capwap_controlipv4_element_parsing wf.
Qed.
Next Obligation. done. Qed.
Next Obligation. solve_safe @capwap_controlipv4_element_create wf. Qed.

End ControlIPv4.

Module AddMacAcl.

Record capwap_addmacacl_element := { entry : Z; length : Z; address : list Z }.

Definition capwap_addmacacl_element_asserts (element : capwap_addmacacl_element) : bool :=
  (0 <? entry element) && IS_VALID_MACADDRESS_LENGTH (length element).

Definition capwap_addmacacl_element_create (element : capwap_addmacacl_element)
    : list wcall :=
  [WriteU8 (entry element); WriteU8 (length element);
   WriteBlock (take (Z.to_nat (entry element * length element)) (address element))].

Definition capwap_addmacacl_element_clone (element : capwap_addmacacl_element)
    : capwap_addmacacl_element :=
  if 0 <? entry element then
    {| entry := entry element; length := length element;
       address := take (Z.to_nat (entry element * length element)) (address element) |}
  else element.

Definition capwap_addmacacl_element_parsing `{Indeterminate} (fuel : nat)
    : parser (option capwap_addmacacl_element) :=
  length ← p_ready;
  if length <? 8 then mret None else
  let length := length - 2 in
  entry ← p_u8 0;
  data_length ← p_u8 0;
  if entry =? 0 then mret None
  else if negb (IS_VALID_MACADDRESS_LENGTH data_length) then mret None
  else if negb (length =? entry * data_length) then mret None else
  address ← p_block (fresh length);
  mret (Some {| entry := entry; length := data_length; address := address |}).

Definition wf (d : capwap_addmacacl_element) : Prop :=
  is_u8 (entry d) /\ is_u8 (length d) /\ capwap_addmacacl_element_asserts d = true /\
  zlen (address d) = entry d * length d.

#[global] Program Instance codec `{Indeterminate} : Codec capwap_addmacacl_element := {
  c_create := capwap_addmacacl_element_create;
  c_parse := capwap_addmacacl_element_parsing;
  c_clone := capwap_addmacacl_element_clone;
  c_wf := wf
}.
Next Obligation.
  start_codec @capwap_addmacacl_element_create @capwap_addmacacl_element_parsing wf.
  unfold capwap_addmacacl_element_asserts in *; cbn in *; rfc.
  rewrite take_ge in * by lia. solve_codec.
Qed.
Next Obligation.
  solve_clone @capwap_addmacacl_element_clone wf.
Qed.
Next Obligation. solve_safe_with @capwap_addmacacl_element_create wf @capwap_addmacacl_element_asserts. Qed.

#[global] Instance checks `{Indeterminate} :
  ChecksAsserts capwap_addmacacl_element_parsing capwap_addmacacl_element_asserts.
Proof.
  solve_asserts @capwap_addmacacl_element_parsing @capwap_addmacacl_element_asserts.
Qed.

End AddMacAcl.

Module AcNamePriority.

Record capwap_acnamepriority_element := { priority : Z; name : list Z }.

Definition CAPWAP_ACNAMEPRIORITY_MAXLENGTH : Z := 512.

Definition capwap_acnamepriority_element_create (element : capwap_acnamepriority_element)
    : list wcall :=
  [WriteU8 (priority element); WriteBlock (cstr (name element))].

Definition capwap_acnamepriority_element_parsing `{Indeterminate} (fuel : nat)
    : parser (option capwap_acnamepriority_element) :=
  ready ← p_ready;
  let length := wrap16 (ready - 1) in
  if (length <? 1) || (CAPWAP_ACNAMEPRIORITY_MAXLENGTH <? length) then mret None else
  priority ← p_u8 indet;
  name ← p_block (fresh length);
  mret (Some {| priority := priority; name := name ++ [0] |}).

Definition capwap_acnamepriority_element_clone (element : capwap_acnamepriority_element)
    : capwap_acnamepriority_element :=
  {| priority := priority element; name := capwap_duplicate_string (name element) |}.

Definition wf (d : capwap_acnamepriority_element) : Prop :=
  is_u8 (priority d) /\
  exists s, name d = s ++ [0] /\ chars_ok s /\ 1 <= zlen s <= CAPWAP_ACNAMEPRIORITY_MAXLENGTH.

#[global] Program Instance codec `{Indeterminate} : Codec capwap_acnamepriority_element := {
  c_create := capwap_acnamepriority_element_create;
  c_parse := capwap_acnamepriority_element_parsing;
  c_clone := capwap_acnamepriority_element_clone;
  c_wf := wf
}.
Next Obligation.
  start_codec @capwap_acnamepriority_element_create @capwap_acnamepriority_element_parsing wf.
  destruct_string s. unfold CAPWAP_ACNAMEPRIORITY_MAXLENGTH in *. solve_codec.
Qed.
Next Obligation.
  intros ? [p n] (_ & s & Hn & Hs & _); cbn in *; subst n.
  unfold capwap_acnamepriority_element_clone; cbn. by rewrite duplicate_terminated.
Qed.
Next Obligation. solve_safe @capwap_acnamepriority_element_create wf. Qed.

End AcNamePriority.

Module AcTimestamp.

Record capwap_actimestamp_element := { timestamp : Z }.

Definition capwap_actimestamp_element_create (element : capwap_actimestamp_element)
    : list wcall :=
  [WriteU32 (timestamp element)].

Definition capwap_actimestamp_element_parsing `{Indeterminate} (fuel : nat)
    : parser (option capwap_actimestamp_element) :=
  ready ← p_ready;
  if negb (ready =? 4) then mret None else
  timestamp ← p_u32 indet;
  mret (Some {| timestamp := timestamp |}).

Definition wf (d : capwap_actimestamp_element) : Prop := is_u32 (timestamp d).

#[global] Program Instance codec `{Indeterminate} : Codec capwap_actimestamp_element := {
  c_create := capwap_actimestamp_element_create;
  c_parse := capwap_actimestamp_element_parsing;
  c_clone := fun d => d;
  c_wf := wf
}.
Next Obligation.
  codec @capwap_actimestamp_element_create @capwap_actimestamp_element_parsing wf.
Qed.
Next Obligation. done. Qed.
Next Obligation. solve_safe @capwap_actimestamp_element_create wf. Qed.

End AcTimestamp.

Module ControlIPv6.

Record capwap_controlipv6_element := { address : list Z; wtpcount : Z }.

Definition capwap_controlipv6_element_create (element : capwap_controlipv6_element)
    : list wcall :=
  [WriteBlock (address element); WriteU16 (wtpcount element)].

Definition capwap_controlipv6_element_parsing `{Indeterminate} (fuel : nat)
    : parser (option capwap_controlipv6_element) :=
  ready ← p_ready;
  if negb (ready =? 18) then mret None else
  address ← p_block (fresh sizeof_in6_addr);
  wtpcount ← p_u16 indet;
  mret (Some {| address := address; wtpcount := wtpcount |}).

Definition wf (d : capwap_controlipv6_element) : Prop :=
  zlen (address d) = sizeof_in6_addr /\ is_u16 (wtpcount d).

#[global] Program Instance codec `{Indeterminate} : Codec capwap_controlipv6_element := {
  c_create := capwap_controlipv6_element_create;
  c_parse := capwap_controlipv6_element_parsing;
  c_clone := fun d => d;
  c_wf := wf
}.
Next Obligation.
  codec @capwap_controlipv6_element_create @capwap_controlipv6_element_parsing wf.
Qed.
Next Obligation. done. Qed.
Next Obligation. solve_safe @capwap_controlipv6_element_create wf. Qed.

End ControlIPv6.

Module AddStation.

Record capwap_addstation_element :=
  { radioid : Z; length : Z; address : list Z; vlan : option (list Z) }.

Definition CAPWAP_ADDSTATION_VLAN_MAX_LENGTH : Z := 512.

(** [element->vlan && *element->vlan] *)
Definition has_vlan (vlan : option (list Z)) : bool :=
  match vlan with
  | Some v => (0 <? strlen v)%nat
  | None => false
  end.

Definition capwap_addstation_element_asserts (element : capwap_addstation_element) : bool :=
  IS_VALID_RADIOID (radioid element) && IS_VALID_MACADDRESS_LENGTH (length element) &&
  match vlan element with
  | Some v => Z.of_nat (strlen v) <=? CAPWAP_ADDSTATION_VLAN_MAX_LENGTH
  | None => true
  end.

Definition capwap_addstation_element_create (element : capwap_addstation_element)
    : list wcall :=
  [WriteU8 (radioid element); WriteU8 (length element);
   WriteBlock (take (Z.to_nat (length element)) (address element))] ++
  if has_vlan (vlan element) then [WriteBlock (cstr (default [] (vlan element)))] else [].

Definition capwap_addstation_element_clone (element : capwap_addstation_element)
    : capwap_addstation_element :=
  {| radioid := radioid element; length := length element;
     address := if 0 <? length element
                then take (Z.to_nat (length element)) (address element)
                else address element;
     vlan := capwap_duplicate_string <$> vlan element |}.

Definition capwap_addstation_element_parsing `{Indeterminate} (fuel : nat)
    : parser (option capwap_addstation_element) :=
  length ← p_ready;
  if length <? 8 then mret None else
  let length := length - 2 in
  radioid ← p_u8 0;
  data_length ← p_u8 0;
  if negb (IS_VALID_RADIOID radioid) then mret None
  else if negb (IS_VALID_MACADDRESS_LENGTH data_length) || (length <? data_length)
  then mret None else
  address ← p_block (fresh data_length);
  let length := length - data_length in
  if 0 <? length then
    if length <=? CAPWAP_ADDSTATION_VLAN_MAX_LENGTH then
      vlan ← p_block (fresh length);
      mret (Some {| radioid := radioid; length := data_length; address := address;
                    vlan := Some (vlan ++ [0]) |})
    else mret None
  else mret (Some {| radioid := radioid; length := data_length; address := address;
                     vlan := None |}).

Definition wf (d : capwap_addstation_element) : Prop :=
  IS_VALID_RADIOID (radioid d) = true /\ IS_VALID_MACADDRESS_LENGTH (length d) = true /\
  zlen (address d) = length d /\
  match vlan d with
  | Some v => exists s, v = s ++ [0] /\ chars_ok s /\
                        1 <= zlen s <= CAPWAP_ADDSTATION_VLAN_MAX_LENGTH
  | None => True
  end.

#[global] Program Instance codec `{Indeterminate} : Codec capwap_addstation_element := {
  c_create := capwap_addstation_element_create;
  c_parse := capwap_addstation_element_parsing;
  c_clone := capwap_addstation_element_clone;
  c_wf := wf
}.
Next Obligation.
  start_codec @capwap_addstation_element_create @capwap_addstation_element_parsing wf.
  unfold CAPWAP_ADDSTATION_VLAN_MAX_LENGTH in *. rewrite take_ge in * by lia.
  destruct vlan0 as [v|]; cbn in *; [|solve_codec].
  destruct_string str. rewrite strlen_terminated in * by done.
  destruct str as [|c str]; cbn in *; [lia|]. solve_codec.
Qed.
Next Obligation.
  intros ? [r l a [v|]] (_ & Hl & Ha & Hv); f_equal;
    unfold capwap_addstation_element_clone; cbn in *; rfc.
  - destruct Hv as (s & -> & Hs & _). rewrite duplicate_terminated, take_ge by (done || lia).
    by destruct (0 <? l).
  - rewrite take_ge by lia. by destruct (0 <? l).
Qed.
Next Obligation.
  solve_safe @capwap_addstation_element_create wf.
  destruct vlan0 as [v|]; cbn; [|done]. destruct_string s. case_match; cbn; len.
Qed.

#[global] Instance checks `{Indeterminate} :
  ChecksAsserts capwap_addstation_element_parsing capwap_addstation_element_asserts.
Proof.
  solve_asserts @capwap_addstation_element_parsing @capwap_addstation_element_asserts.
  pose proof (strlen_snoc x3). unfold CAPWAP_ADDSTATION_VLAN_MAX_LENGTH in *. len.
Qed.

End AddStation.
