(* ===== verification/ElementsControl.v ===== *)
(** Message elements 12 to 22: CAPWAP Timers, Data Transfer Data and Mode,
    Decryption Error Report and its period, Delete MAC ACL Entry, Delete
    Station, Discovery Type, Duplicate IPv4/IPv6 Address
    (src/common/capwap_element_*.c).  The conventions are those of ElementsAc. *)
From S2P Require Import Prelude Io.

Module Timers.

Record capwap_timers_element := { discovery : Z; echorequest : Z }.

Definition capwap_timers_element_create (element : capwap_timers_element) : list wcall :=
  [WriteU8 (discovery element); WriteU8 (echorequest element)].

Definition capwap_timers_element_parsing `{Indeterminate} (fuel : nat)
    : parser (option capwap_timers_element) :=
  ready ← p_ready;
  if negb (ready =? 2) then mret None else
  discovery ← p_u8 indet;
  echorequest ← p_u8 indet;
  mret (Some {| discovery := discovery; echorequest := echorequest |}).

Definition wf (d : capwap_timers_element) : Prop :=
  is_u8 (discovery d) /\ is_u8 (echorequest d).

#[global] Program Instance codec `{Indeterminate} : Codec capwap_timers_element := {
  c_create := capwap_timers_element_create;
  c_parse := capwap_timers_element_parsing;
  c_clone := fun d => d;
  c_wf := wf
}.
Next Obligation.
  codec @capwap_timers_element_create @capwap_timers_element_parsing wf.
Qed.
Next Obligation. done. Qed.
Next Obligation. solve_safe @capwap_timers_element_create wf. Qed.

End Timers.

Module DataTransferData.

Record capwap_datatransferdata_element := { type : Z; mode : Z; length : Z; data : list Z }.

Definition CAPWAP_DATATRANSFERDATA_TYPE_DATA_IS_INCLUDED : Z := 1.
Definition CAPWAP_DATATRANSFERDATA_TYPE_DATA_EOF : Z := 2.
Definition CAPWAP_DATATRANSFERDATA_TYPE_ERROR : Z := 5.
Definition CAPWAP_DATATRANSFERDATA_MODE_CRASH_DUMP : Z := 1.
Definition CAPWAP_DATATRANSFERDATA_MODE_MEMORY_DUMP : Z := 2.
#[local] Hint Unfold CAPWAP_DATATRANSFERDATA_TYPE_DATA_IS_INCLUDED
  CAPWAP_DATATRANSFERDATA_TYPE_DATA_EOF CAPWAP_DATATRANSFERDATA_TYPE_ERROR
  CAPWAP_DATATRANSFERDATA_MODE_CRASH_DUMP CAPWAP_DATATRANSFERDATA_MODE_MEMORY_DUMP : capwap_rfc.

Definition capwap_datatransferdata_element_asserts (element : capwap_datatransferdata_element) : bool :=
  ((type element =? CAPWAP_DATATRANSFERDATA_TYPE_DATA_IS_INCLUDED) ||
   (type element =? CAPWAP_DATATRANSFERDATA_TYPE_DATA_EOF) ||
   (type element =? CAPWAP_DATATRANSFERDATA_TYPE_ERROR)) &&
  ((mode element =? CAPWAP_DATATRANSFERDATA_MODE_CRASH_DUMP) ||
   (mode element =? CAPWAP_DATATRANSFERDATA_MODE_MEMORY_DUMP)) &&
  (0 <? length element).

Definition capwap_datatransferdata_element_create (element : capwap_datatransferdata_element) : list wcall :=
  [WriteU8 (type element); WriteU8 (mode element); WriteU16 (length element);
   WriteBlock (take (Z.to_nat (length element)) (data element))].

Definition capwap_datatransferdata_element_clone (element : capwap_datatransferdata_element) : capwap_datatransferdata_element :=
  if 0 <? length element then
    {| type := type element; mode := mode element; length := length element;
       data := take (Z.to_nat (length element)) (data element) |}
  else element.

Definition capwap_datatransferdata_element_parsing `{Indeterminate} (fuel : nat)
    : parser (option capwap_datatransferdata_element) :=
  length ← p_ready;
  if length <? 5 then mret None else
  let length := length - 4 in
  type ← p_u8 0;
  mode ← p_u8 0;
  data_length ← p_u16 0;
  if negb (type =? CAPWAP_DATATRANSFERDATA_TYPE_DATA_IS_INCLUDED) &&
     negb (type =? CAPWAP_DATATRANSFERDATA_TYPE_DATA_EOF) &&
     negb (type =? CAPWAP_DATATRANSFERDATA_TYPE_ERROR) then mret None
  else if negb (mode =? CAPWAP_DATATRANSFERDATA_MODE_CRASH_DUMP) &&
          negb (mode =? CAPWAP_DATATRANSFERDATA_MODE_MEMORY_DUMP) then mret None
  else if negb (length =? data_length) then mret None else
  data ← p_block (fresh length);
  mret (Some {| type := type; mode := mode; length := data_length; data := data |}).

Definition wf (d : capwap_datatransferdata_element) : Prop :=
  is_u8 (type d) /\ is_u8 (mode d) /\ is_u16 (length d) /\ zlen (data d) = length d /\
  capwap_datatransferdata_element_asserts d = true.

#[global] Program Instance codec `{Indeterminate} : Codec capwap_datatransferdata_element := {
  c_create := capwap_datatransferdata_element_create;
  c_parse := capwap_datatransferdata_element_parsing;
  c_clone := capwap_datatransferdata_element_clone;
  c_wf := wf
}.
Next Obligation.
  start_codec @capwap_datatransferdata_element_create @capwap_datatransferdata_element_parsing wf.
  unfold capwap_datatransferdata_element_asserts in *; cbn in *; rfc. split_andb.
  rewrite take_ge in * by lia. solve_codec.
Qed.
Next Obligation.
  solve_clone @capwap_datatransferdata_element_clone wf.
Qed.
Next Obligation. solve_safe_with @capwap_datatransferdata_element_create wf @capwap_datatransferdata_element_asserts. Qed.

#[global] Instance checks `{Indeterminate} :
  ChecksAsserts capwap_datatransferdata_element_parsing capwap_datatransferdata_element_asserts.
Proof.
  solve_asserts @capwap_datatransferdata_element_parsing @capwap_datatransferdata_element_asserts.
Qed.

End DataTransferData.

Module DataTransferMode.

Record capwap_datatransfermode_element := { mode : Z }.

Definition CAPWAP_DATATRANSFERMODE_MODE_CRASH_DUMP : Z := 1.
Definition CAPWAP_DATATRANSFERMODE_MODE_MEMORY_DUMP : Z := 2.
#[local] Hint Unfold CAPWAP_DATATRANSFERMODE_MODE_CRASH_DUMP
  CAPWAP_DATATRANSFERMODE_MODE_MEMORY_DUMP : capwap_rfc.

Definition capwap_datatransfermode_element_asserts (element : capwap_datatransfermode_element) : bool :=
  (mode element =? CAPWAP_DATATRANSFERMODE_MODE_CRASH_DUMP) ||
  (mode element =? CAPWAP_DATATRANSFERMODE_MODE_MEMORY_DUMP).

Definition capwap_datatransfermode_element_create (element : capwap_datatransfermode_element) : list wcall :=
  [WriteU8 (mode element)].

Definition capwap_datatransfermode_element_parsing `{Indeterminate} (fuel : nat)
    : parser (option capwap_datatransfermode_element) :=
  ready ← p_ready;
  if negb (ready =? 1) then mret None else
  mode ← p_u8 indet;
  if negb (mode =? CAPWAP_DATATRANSFERMODE_MODE_CRASH_DUMP) &&
     negb (mode =? CAPWAP_DATATRANSFERMODE_MODE_MEMORY_DUMP) then mret None else
  mret (Some {| mode := mode |}).

Definition wf (d : capwap_datatransfermode_element) : Prop :=
  capwap_datatransfermode_element_asserts d = true.

#[global] Program Instance codec `{Indeterminate} : Codec capwap_datatransfermode_element := {
  c_create := capwap_datatransfermode_element_create;
  c_parse := capwap_datatransfermode_element_parsing;
  c_clone := fun d => d;
  c_wf := wf
}.
Next Obligation.
  start_codec @capwap_datatransfermode_element_create @capwap_datatransfermode_element_parsing wf.
  unfold capwap_datatransfermode_element_asserts in *; cbn in *; rfc. split_andb. solve_codec.
Qed.
Next Obligation. done. Qed.
Next Obligation. solve_safe @capwap_datatransfermode_element_create wf. Qed.

#[global] Instance checks `{Indeterminate} :
  ChecksAsserts capwap_datatransfermode_element_parsing capwap_datatransfermode_element_asserts.
Proof.
  solve_asserts @capwap_datatransfermode_element_parsing @capwap_datatransfermode_element_asserts.
Qed.

End DataTransferMode.

Module DecryptErrorReport.

Record capwap_decrypterrorreport_element :=
  { radioid : Z; entry : Z; length : Z; address : list Z }.

Definition capwap_decrypterrorreport_element_asserts (element : capwap_decrypterrorreport_element) : bool :=
  IS_VALID_RADIOID (radioid element) && (0 <? entry element) &&
  IS_VALID_MACADDRESS_LENGTH (length element).

Definition capwap_decrypterrorreport_element_create (element : capwap_decrypterrorreport_element) : list wcall :=
  [WriteU8 (radioid element); WriteU8 (entry element); WriteU8 (length element);
   WriteBlock (take (Z.to_nat (entry element * length element)) (address element))].

Definition capwap_decrypterrorreport_element_clone (element : capwap_decrypterrorreport_element) : capwap_decrypterrorreport_element :=
  if 0 <? entry element then
    {| radioid := radioid element; entry := entry element; length := length element;
       address := take (Z.to_nat (entry element * length element)) (address element) |}
  else element.

Definition capwap_decrypterrorreport_element_parsing `{Indeterminate} (fuel : nat)
    : parser (option capwap_decrypterrorreport_element) :=
  length ← p_ready;
  if length <? 9 then mret None else
  let length := length - 3 in
  radioid ← p_u8 0;
  entry ← p_u8 0;
  data_length ← p_u8 0;
  if negb (IS_VALID_RADIOID radioid) then mret None
  else if entry =? 0 then mret None
  else if negb (IS_VALID_MACADDRESS_LENGTH data_length) then mret None
  else if negb (length =? entry * data_length) then mret None else
  address ← p_block (fresh length);
  mret (Some {| radioid := radioid; entry := entry; length := data_length;
                address := address |}).

Definition wf (d : capwap_decrypterrorreport_element) : Prop :=
  is_u8 (radioid d) /\ is_u8 (entry d) /\ is_u8 (length d) /\
  zlen (address d) = entry d * length d /\
  capwap_decrypterrorreport_element_asserts d = true.

#[global] Program Instance codec `{Indeterminate} : Codec capwap_decrypterrorreport_element := {
  c_create := capwap_decrypterrorreport_element_create;
  c_parse := capwap_decrypterrorreport_element_parsing;
  c_clone := capwap_decrypterrorreport_element_clone;
  c_wf := wf
}.
Next Obligation.
  start_codec @capwap_decrypterrorreport_element_create @capwap_decrypterrorreport_element_parsing wf.
  unfold capwap_decrypterrorreport_element_asserts in *; cbn in *; rfc. split_andb.
  rewrite take_ge in * by lia. solve_codec.
Qed.
Next Obligation.
  solve_clone @capwap_decrypterrorreport_element_clone wf.
Qed.
Next Obligation. solve_safe_with @capwap_decrypterrorreport_element_create wf @capwap_decrypterrorreport_element_asserts. Qed.

#[global] Instance checks `{Indeterminate} :
  ChecksAsserts capwap_decrypterrorreport_element_parsing capwap_decrypterrorreport_element_asserts.
Proof.
  solve_asserts @capwap_decrypterrorreport_element_parsing @capwap_decrypterrorreport_element_asserts.
Qed.

End DecryptErrorReport.

Module DecryptErrorReportPeriod.

Record capwap_decrypterrorreportperiod_element := { radioid : Z; interval : Z }.

Definition capwap_decrypterrorreportperiod_element_asserts (element : capwap_decrypterrorreportperiod_element) : bool :=
  IS_VALID_RADIOID (radioid element).

Definition capwap_decrypterrorreportperiod_element_create (element : capwap_decrypterrorreportperiod_element) : list wcall :=
  [WriteU8 (radioid element); WriteU16 (interval element)].

Definition capwap_decrypterrorreportperiod_element_parsing `{Indeterminate} (fuel : nat)
    : parser (option capwap_decrypterrorreportperiod_element) :=
  ready ← p_ready;
  if negb (ready =? 3) then mret None else
  radioid ← p_u8 indet;
  interval ← p_u16 indet;
  if negb (IS_VALID_RADIOID radioid) then mret None else
  mret (Some {| radioid := radioid; interval := interval |}).

Definition wf (d : capwap_decrypterrorreportperiod_element) : Prop :=
  is_u16 (interval d) /\
  capwap_decrypterrorreportperiod_element_asserts d = true.

#[global] Program Instance codec `{Indeterminate} : Codec capwap_decrypterrorreportperiod_element := {
  c_create := capwap_decrypterrorreportperiod_element_create;
  c_parse := capwap_decrypterrorreportperiod_element_parsing;
  c_clone := fun d => d;
  c_wf := wf
}.
Next Obligation.
  start_codec @capwap_decrypterrorreportperiod_element_create @capwap_decrypterrorreportperiod_element_parsing wf.
  unfold capwap_decrypterrorreportperiod_element_asserts in *; cbn in *; rfc. split_andb. solve_codec.
Qed.
Next Obligation. done. Qed.
Next Obligation. solve_safe @capwap_decrypterrorreportperiod_element_create wf. Qed.

#[global] Instance checks `{Indeterminate} :
  ChecksAsserts capwap_decrypterrorreportperiod_element_parsing capwap_decrypterrorreportperiod_element_asserts.
Proof.
  solve_asserts @capwap_decrypterrorreportperiod_element_parsing @capwap_decrypterrorreportperiod_element_asserts.
Qed.

End DecryptErrorReportPeriod.

Module DeleteMacAcl.

Record capwap_deletemacacl_element := { entry : Z; length : Z; address : list Z }.

Definition capwap_deletemacacl_element_asserts (element : capwap_deletemacacl_element) : bool :=
  (0 <? entry element) && IS_VALID_MACADDRESS_LENGTH (length element).

Definition capwap_deletemacacl_element_create (element : capwap_deletemacacl_element) : list wcall :=
  [WriteU8 (entry element); WriteU8 (length element);
   WriteBlock (take (Z.to_nat (entry element * length element)) (address element))].

Definition capwap_deletemacacl_element_clone (element : capwap_deletemacacl_element) : capwap_deletemacacl_element :=
  if 0 <? entry element then
    {| entry := entry element; length := length element;
       address := take (Z.to_nat (entry element * length element)) (address element) |}
  else element.

Definition capwap_deletemacacl_element_parsing `{Indeterminate} (fuel : nat)
    : parser (option capwap_deletemacacl_element) :=
  length ← p_ready;
  if length <? 8 then mret None else
  let length := length - 2 in
  entry ← p_u8 0;
  data_length ← p_u8 0;
  if entry =? 0 then mret None
  else if negb (IS_VALID_MACADDRESS_LENGTH data_length) then mret None
  else if negb (length =? entry * data_length) then mret None else
  address ← p_block (fresh length);
  mret (Some {| entry := entry; length := data_length; address := address |}).

Definition wf (d : capwap_deletemacacl_element) : Prop :=
  is_u8 (entry d) /\ is_u8 (length d) /\ zlen (address d) = entry d * length d /\
  capwap_deletemacacl_element_asserts d = true.

#[global] Program Instance codec `{Indeterminate} : Codec capwap_deletemacacl_element := {
  c_create := capwap_deletemacacl_element_create;
  c_parse := capwap_deletemacacl_element_parsing;
  c_clone := capwap_deletemacacl_element_clone;
  c_wf := wf
}.
Next Obligation.
  start_codec @capwap_deletemacacl_element_create @capwap_deletemacacl_element_parsing wf.
  unfold capwap_deletemacacl_element_asserts in *; cbn in *; rfc. split_andb.
  rewrite take_ge in * by lia. solve_codec.
Qed.
Next Obligation.
  solve_clone @capwap_deletemacacl_element_clone wf.
Qed.
Next Obligation. solve_safe_with @capwap_deletemacacl_element_create wf @capwap_deletemacacl_element_asserts. Qed.

#[global] Instance checks `{Indeterminate} :
  ChecksAsserts capwap_deletemacacl_element_parsing capwap_deletemacacl_element_asserts.
Proof.
  solve_asserts @capwap_deletemacacl_element_parsing @capwap_deletemacacl_element_asserts.
Qed.

End DeleteMacAcl.

Module DeleteStation.

Record capwap_deletestation_element := { radioid : Z; length : Z; address : list Z }.

Definition capwap_deletestation_element_asserts (element : capwap_deletestation_element) : bool :=
  IS_VALID_RADIOID (radioid element) && IS_VALID_MACADDRESS_LENGTH (length element).

Definition capwap_deletestation_element_create (element : capwap_deletestation_element) : list wcall :=
  [WriteU8 (radioid element); WriteU8 (length element);
   WriteBlock (take (Z.to_nat (length element)) (address element))].

Definition capwap_deletestation_element_clone (element : capwap_deletestation_element) : capwap_deletestation_element :=
  if 0 <? length element then
    {| radioid := radioid element; length := length element;
       address := take (Z.to_nat (length element)) (address element) |}
  else element.

Definition capwap_deletestation_element_parsing `{Indeterminate} (fuel : nat)
    : parser (option capwap_deletestation_element) :=
  length ← p_ready;
  if length <? 8 then mret None else
  let length := length - 2 in
  radioid ← p_u8 0;
  data_length ← p_u8 0;
  if negb (IS_VALID_RADIOID radioid) then mret None
  else if negb (IS_VALID_MACADDRESS_LENGTH data_length) || negb (length =? data_length)
  then mret None else
  address ← p_block (fresh data_length);
  mret (Some {| radioid := radioid; length := data_length; address := address |}).

Definition wf (d : capwap_deletestation_element) : Prop :=
  zlen (address d) = length d /\
  capwap_deletestation_element_asserts d = true.

#[global] Program Instance codec `{Indeterminate} : Codec capwap_deletestation_element := {
  c_create := capwap_deletestation_element_create;
  c_parse := capwap_deletestation_element_parsing;
  c_clone := capwap_deletestation_element_clone;
  c_wf := wf
}.
Next Obligation.
  start_codec @capwap_deletestation_element_create @capwap_deletestation_element_parsing wf.
  unfold capwap_deletestation_element_asserts in *; cbn in *; rfc. split_andb.
  rewrite take_ge in * by lia. solve_codec.
Qed.
Next Obligation.
  solve_clone @capwap_deletestation_element_clone wf.
Qed.
Next Obligation. solve_safe_with @capwap_deletestation_element_create wf @capwap_deletestation_element_asserts. Qed.

#[global] Instance checks `{Indeterminate} :
  ChecksAsserts capwap_deletestation_element_parsing capwap_deletestation_element_asserts.
Proof.
  solve_asserts @capwap_deletestation_element_parsing @capwap_deletestation_element_asserts.
Qed.

End DeleteStation.

Module DiscoveryType.

Record capwap_discoverytype_element := { type : Z }.

Definition CAPWAP_DISCOVERYTYPE_TYPE_UNKNOWN : Z := 0.
Definition CAPWAP_DISCOVERYTYPE_TYPE_STATIC : Z := 1.
Definition CAPWAP_DISCOVERYTYPE_TYPE_DHCP : Z := 2.
Definition CAPWAP_DISCOVERYTYPE_TYPE_DNS : Z := 3.
Definition CAPWAP_DISCOVERYTYPE_TYPE_ACREFERRAL : Z := 4.
#[local] Hint Unfold CAPWAP_DISCOVERYTYPE_TYPE_UNKNOWN CAPWAP_DISCOVERYTYPE_TYPE_STATIC
  CAPWAP_DISCOVERYTYPE_TYPE_DHCP CAPWAP_DISCOVERYTYPE_TYPE_DNS
  CAPWAP_DISCOVERYTYPE_TYPE_ACREFERRAL : capwap_rfc.

Definition capwap_discoverytype_element_asserts (element : capwap_discoverytype_element) : bool :=
  (type element =? CAPWAP_DISCOVERYTYPE_TYPE_UNKNOWN) ||
  (type element =? CAPWAP_DISCOVERYTYPE_TYPE_STATIC) ||
  (type element =? CAPWAP_DISCOVERYTYPE_TYPE_DHCP) ||
  (type element =? CAPWAP_DISCOVERYTYPE_TYPE_DNS) ||
  (type element =? CAPWAP_DISCOVERYTYPE_TYPE_ACREFERRAL).

Definition capwap_discoverytype_element_create (element : capwap_discoverytype_element) : list wcall :=
  [WriteU8 (type element)].

Definition capwap_discoverytype_element_parsing `{Indeterminate} (fuel : nat)
    : parser (option capwap_discoverytype_element) :=
  ready ← p_ready;
  if negb (ready =? 1) then mret None else
  type ← p_u8 indet;
  if negb (type =? CAPWAP_DISCOVERYTYPE_TYPE_UNKNOWN) &&
     negb (type =? CAPWAP_DISCOVERYTYPE_TYPE_STATIC) &&
     negb (type =? CAPWAP_DISCOVERYTYPE_TYPE_DHCP) &&
     negb (type =? CAPWAP_DISCOVERYTYPE_TYPE_DNS) &&
     negb (type =? CAPWAP_DISCOVERYTYPE_TYPE_ACREFERRAL) then mret None else
  mret (Some {| type := type |}).

Definition wf (d : capwap_discoverytype_element) : Prop :=
  capwap_discoverytype_element_asserts d = true.

#[global] Program Instance codec `{Indeterminate} : Codec capwap_discoverytype_element := {
  c_create := capwap_discoverytype_element_create;
  c_parse := capwap_discoverytype_element_parsing;
  c_clone := fun d => d;
  c_wf := wf
}.
Next Obligation.
  start_codec @capwap_discoverytype_element_create @capwap_discoverytype_element_parsing wf.
  unfold capwap_discoverytype_element_asserts in *; cbn in *; rfc. split_andb. solve_codec.
Qed.
Next Obligation. done. Qed.
Next Obligation. solve_safe @capwap_discoverytype_element_create wf. Qed.

#[global] Instance checks `{Indeterminate} :
  ChecksAsserts capwap_discoverytype_element_parsing capwap_discoverytype_element_asserts.
Proof.
  solve_asserts @capwap_discoverytype_element_parsing @capwap_discoverytype_element_asserts.
Qed.

End DiscoveryType.

Module DuplicateIPv4.

Record capwap_duplicateipv4_element :=
  { address : list Z; status : Z; length : Z; macaddress : list Z }.

Definition CAPWAP_DUPLICATEIPv4_CLEARED : Z := 0.
Definition CAPWAP_DUPLICATEIPv4_DETECTED : Z := 1.
#[local] Hint Unfold CAPWAP_DUPLICATEIPv4_CLEARED CAPWAP_DUPLICATEIPv4_DETECTED : capwap_rfc.

Definition capwap_duplicateipv4_element_asserts (element : capwap_duplicateipv4_element) : bool :=
  ((status element =? CAPWAP_DUPLICATEIPv4_CLEARED) ||
   (status element =? CAPWAP_DUPLICATEIPv4_DETECTED)) &&
  IS_VALID_MACADDRESS_LENGTH (length element).

Definition capwap_duplicateipv4_element_create (element : capwap_duplicateipv4_element) : list wcall :=
  [WriteBlock (address element); WriteU8 (status element); WriteU8 (length element);
   WriteBlock (take (Z.to_nat (length element)) (macaddress element))].

Definition capwap_duplicateipv4_element_clone (element : capwap_duplicateipv4_element) : capwap_duplicateipv4_element :=
  if 0 <? length element then
    {| address := address element; status := status element; length := length element;
       macaddress := take (Z.to_nat (length element)) (macaddress element) |}
  else element.

Definition capwap_duplicateipv4_element_parsing `{Indeterminate} (fuel : nat)
    : parser (option capwap_duplicateipv4_element) :=
  length ← p_ready;
  if length <? 12 then mret None else
  let length := length - 6 in
  address ← p_block (zeros sizeof_in_addr);
  status ← p_u8 0;
  data_length ← p_u8 0;
  if negb (status =? CAPWAP_DUPLICATEIPv4_CLEARED) &&
     negb (status =? CAPWAP_DUPLICATEIPv4_DETECTED) then mret None
  else if negb (IS_VALID_MACADDRESS_LENGTH data_length) || negb (length =? data_length)
  then mret None else
  macaddress ← p_block (fresh data_length);
  mret (Some {| address := address; status := status; length := data_length;
                macaddress := macaddress |}).

Definition wf (d : capwap_duplicateipv4_element) : Prop :=
  zlen (address d) = sizeof_in_addr /\ zlen (macaddress d) = length d /\
  capwap_duplicateipv4_element_asserts d = true.

#[global] Program Instance codec `{Indeterminate} : Codec capwap_duplicateipv4_element := {
  c_create := capwap_duplicateipv4_element_create;
  c_parse := capwap_duplicateipv4_element_parsing;
  c_clone := capwap_duplicateipv4_element_clone;
  c_wf := wf
}.
Next Obligation.
  start_codec @capwap_duplicateipv4_element_create @capwap_duplicateipv4_element_parsing wf.
  unfold capwap_duplicateipv4_element_asserts in *; cbn in *; rfc. split_andb.
  rewrite take_ge in * by lia. solve_codec.
Qed.
Next Obligation.
  solve_clone @capwap_duplicateipv4_element_clone wf.
Qed.
Next Obligation. solve_safe_with @capwap_duplicateipv4_element_create wf @capwap_duplicateipv4_element_asserts. Qed.

#[global] Instance checks `{Indeterminate} :
  ChecksAsserts capwap_duplicateipv4_element_parsing capwap_duplicateipv4_element_asserts.
Proof.
  solve_asserts @capwap_duplicateipv4_element_parsing @capwap_duplicateipv4_element_asserts.
Qed.

End DuplicateIPv4.

Module DuplicateIPv6.

Record capwap_duplicateipv6_element :=
  { address : list Z; status : Z; length : Z; macaddress : list Z }.

Definition CAPWAP_DUPLICATEIPv6_CLEARED : Z := 0.
Definition CAPWAP_DUPLICATEIPv6_DETECTED : Z := 1.
#[local] Hint Unfold CAPWAP_DUPLICATEIPv6_CLEARED CAPWAP_DUPLICATEIPv6_DETECTED : capwap_rfc.

Definition capwap_duplicateipv6_element_asserts (element : capwap_duplicateipv6_element) : bool :=
  ((status element =? CAPWAP_DUPLICATEIPv6_CLEARED) ||
   (status element =? CAPWAP_DUPLICATEIPv6_DETECTED)) &&
  IS_VALID_MACADDRESS_LENGTH (length element).

Definition capwap_duplicateipv6_element_create (element : capwap_duplicateipv6_element) : list wcall :=
  [WriteBlock (address element); WriteU8 (status element); WriteU8 (length element);
   WriteBlock (take (Z.to_nat (length element)) (macaddress element))].

Definition capwap_duplicateipv6_element_clone (element : capwap_duplicateipv6_element) : capwap_duplicateipv6_element :=
  if 0 <? length element then
    {| address := address element; status := status element; length := length element;
       macaddress := take (Z.to_nat (length element)) (macaddress element) |}
  else element.

Definition capwap_duplicateipv6_element_parsing `{Indeterminate} (fuel : nat)
    : parser (option capwap_duplicateipv6_element) :=
  length ← p_ready;
  if length <? 24 then mret None else
  let length := length - 18 in
  address ← p_block (zeros sizeof_in6_addr);
  status ← p_u8 0;
  data_length ← p_u8 0;
  if negb (status =? CAPWAP_DUPLICATEIPv6_CLEARED) &&
     negb (status =? CAPWAP_DUPLICATEIPv6_DETECTED) then mret None
  else if negb (IS_VALID_MACADDRESS_LENGTH data_length) || negb (length =? data_length)
  then mret None else
  macaddress ← p_block (fresh data_length);
  mret (Some {| address := address; status := status; length := data_length;
                macaddress := macaddress |}).

Definition wf (d : capwap_duplicateipv6_element) : Prop :=
  zlen (address d) = sizeof_in6_addr /\ zlen (macaddress d) = length d /\
  capwap_duplicateipv6_element_asserts d = true.

#[global] Program Instance codec `{Indeterminate} : Codec capwap_duplicateipv6_element := {
  c_create := capwap_duplicateipv6_element_create;
  c_parse := capwap_duplicateipv6_element_parsing;
  c_clone := capwap_duplicateipv6_element_clone;
  c_wf := wf
}.
Next Obligation.
  start_codec @capwap_duplicateipv6_element_create @capwap_duplicateipv6_element_parsing wf.
  unfold capwap_duplicateipv6_element_asserts in *; cbn in *; rfc. split_andb.
  rewrite take_ge in * by lia. solve_codec.
Qed.
Next Obligation.
  solve_clone @capwap_duplicateipv6_element_clone wf.
Qed.
Next Obligation. solve_safe_with @capwap_duplicateipv6_element_create wf @capwap_duplicateipv6_element_asserts. Qed.

#[global] Instance checks `{Indeterminate} :
  ChecksAsserts capwap_duplicateipv6_element_parsing capwap_duplicateipv6_element_asserts.
Proof.
  solve_asserts @capwap_duplicateipv6_element_parsing @capwap_duplicateipv6_element_asserts.
Qed.

End DuplicateIPv6.
