(* ===== verification/ElementsImage.v ===== *)
(** Message elements 23 to 37: Idle Timeout, Image Data, Image Identifier,
    Image Information, Initiate Download, Location Data, Maximum Message
    Length, Local IPv4 Address, Radio Administrative and Operational State,
    Result Code, Returned Message Element, Session ID, Statistics Timer,
    Vendor Specific Payload (src/common/capwap_element_*.c).  The conventions
    are those of ElementsAc. *)
From S2P Require Import Prelude Io.

Module IdleTimeout.

Record capwap_idletimeout_element := { timeout : Z }.

Definition capwap_idletimeout_element_create (element : capwap_idletimeout_element) : list wcall :=
  [WriteU32 (timeout element)].

Definition capwap_idletimeout_element_parsing `{Indeterminate} (fuel : nat)
    : parser (option capwap_idletimeout_element) :=
  ready ← p_ready;
  if negb (ready =? 4) then mret None else
  timeout ← p_u32 indet;
  mret (Some {| timeout := timeout |}).

Definition wf (d : capwap_idletimeout_element) : Prop :=
  is_u32 (timeout d).

#[global] Program Instance codec `{Indeterminate} : Codec capwap_idletimeout_element := {
  c_create := capwap_idletimeout_element_create;
  c_parse := capwap_idletimeout_element_parsing;
  c_clone := fun d => d;
  c_wf := wf
}.
Next Obligation.
  codec @capwap_idletimeout_element_create @capwap_idletimeout_element_parsing wf.
Qed.
Next Obligation. done. Qed.
Next Obligation. solve_safe @capwap_idletimeout_element_create wf. Qed.

End IdleTimeout.

Module ImageData.

Record capwap_imagedata_element := { type : Z; length : Z; data : option (list Z) }.

Definition CAPWAP_IMAGEDATA_TYPE_DATA_IS_INCLUDED : Z := 1.
Definition CAPWAP_IMAGEDATA_TYPE_DATA_EOF : Z := 2.
Definition CAPWAP_IMAGEDATA_TYPE_ERROR : Z := 5.
Definition CAPWAP_IMAGEDATA_DATA_MAX_LENGTH : Z := 1024.
#[local] Hint Unfold CAPWAP_IMAGEDATA_TYPE_DATA_IS_INCLUDED
  CAPWAP_IMAGEDATA_TYPE_DATA_EOF
  CAPWAP_IMAGEDATA_TYPE_ERROR
  CAPWAP_IMAGEDATA_DATA_MAX_LENGTH : capwap_rfc.

Definition capwap_imagedata_element_asserts (element : capwap_imagedata_element) : bool :=
  ((type element =? CAPWAP_IMAGEDATA_TYPE_DATA_IS_INCLUDED) ||
   (type element =? CAPWAP_IMAGEDATA_TYPE_DATA_EOF) ||
   (type element =? CAPWAP_IMAGEDATA_TYPE_ERROR)) &&
  (length element <=? CAPWAP_IMAGEDATA_DATA_MAX_LENGTH).

Definition capwap_imagedata_element_create (element : capwap_imagedata_element) : list wcall :=
  [WriteU8 (type element)] ++
  if 0 <? length element
  then [WriteBlock (take (Z.to_nat (length element)) (default [] (data element)))]
  else [].

Definition capwap_imagedata_element_clone (element : capwap_imagedata_element) : capwap_imagedata_element :=
  if 0 <? length element then
    {| type := type element; length := length element;
       data := take (Z.to_nat (length element)) <$> data element |}
  else element.

Definition capwap_imagedata_element_parsing `{Indeterminate} (fuel : nat)
    : parser (option capwap_imagedata_element) :=
  length ← p_ready;
  if length <? 1 then mret None else
  let length := length - 1 in
  type ← p_u8 0;
  if negb (type =? CAPWAP_IMAGEDATA_TYPE_DATA_IS_INCLUDED) &&
     negb (type =? CAPWAP_IMAGEDATA_TYPE_DATA_EOF) &&
     negb (type =? CAPWAP_IMAGEDATA_TYPE_ERROR) then mret None
  else if (type =? CAPWAP_IMAGEDATA_TYPE_ERROR) && (0 <? length) then mret None
  else if CAPWAP_IMAGEDATA_DATA_MAX_LENGTH <? length then mret None
  else if length =? 0 then
    mret (Some {| type := type; length := length; data := None |})
  else
    data ← p_block (fresh length);
    mret (Some {| type := type; length := length; data := Some data |}).

Definition wf (d : capwap_imagedata_element) : Prop :=
  (type d = CAPWAP_IMAGEDATA_TYPE_ERROR -> length d = 0) /\ 0 <= length d /\
  match data d with
  | Some bs => 0 < length d /\ zlen bs = length d
  | None => length d = 0
  end /\
  capwap_imagedata_element_asserts d = true.

#[global] Program Instance codec `{Indeterminate} : Codec capwap_imagedata_element := {
  c_create := capwap_imagedata_element_create;
  c_parse := capwap_imagedata_element_parsing;
  c_clone := capwap_imagedata_element_clone;
  c_wf := wf
}.
Next Obligation.
  start_codec @capwap_imagedata_element_create @capwap_imagedata_element_parsing wf.
  unfold capwap_imagedata_element_asserts in *; cbn in *; rfc. split_andb.
  destruct data0 as [bs|]; cbn in *.
  - destruct H4. rewrite take_ge in * by lia. repeat decide_if. solve_codec.
  - subst. cbn in *. solve_codec.
Qed.
Next Obligation.
  intros ? [t n [bs|]] (_ & _ & Hb & _); f_equal; unfold capwap_imagedata_element_clone; cbn in *.
  - rewrite take_ge by lia. by destruct (0 <? n).
  - by destruct (0 <? n).
Qed.
Next Obligation.
  solve_safe @capwap_imagedata_element_create wf.
  destruct (0 <? length0) eqn:E; [|done]. destruct data0; cbn; [rewrite length_take|]; bools; repeat split; lia.
Qed.

#[global] Instance checks `{Indeterminate} :
  ChecksAsserts capwap_imagedata_element_parsing capwap_imagedata_element_asserts.
Proof.
  solve_asserts @capwap_imagedata_element_parsing @capwap_imagedata_element_asserts.
Qed.

End ImageData.

Module ImageIdentifier.

Record capwap_imageidentifier_element := { vendor : Z; name : list Z }.

Definition CAPWAP_IMAGEIDENTIFIER_MAXLENGTH : Z := 1024.
#[local] Hint Unfold CAPWAP_IMAGEIDENTIFIER_MAXLENGTH : capwap_rfc.

Definition capwap_imageidentifier_element_asserts (element : capwap_imageidentifier_element) : bool :=
  Z.of_nat (strlen (name element)) <=? ImageData.CAPWAP_IMAGEDATA_DATA_MAX_LENGTH.

Definition capwap_imageidentifier_element_create (element : capwap_imageidentifier_element) : list wcall :=
  [WriteU32 (vendor element); WriteBlock (cstr (name element))].

Definition capwap_imageidentifier_element_clone (element : capwap_imageidentifier_element) : capwap_imageidentifier_element :=
  {| vendor := vendor element; name := capwap_duplicate_string (name element) |}.

Definition capwap_imageidentifier_element_parsing `{Indeterminate} (fuel : nat)
    : parser (option capwap_imageidentifier_element) :=
  length ← p_ready;
  if length <? 5 then mret None else
  let length := length - 4 in
  if CAPWAP_IMAGEIDENTIFIER_MAXLENGTH <? length then mret None else
  vendor ← p_u32 indet;
  name ← p_block (fresh length);
  mret (Some {| vendor := vendor; name := name ++ [0] |}).

Definition wf (d : capwap_imageidentifier_element) : Prop :=
  is_u32 (vendor d) /\
  (exists s, name d = s ++ [0] /\ chars_ok s /\ 1 <= zlen s <= CAPWAP_IMAGEIDENTIFIER_MAXLENGTH) /\
  capwap_imageidentifier_element_asserts d = true.

#[global] Program Instance codec `{Indeterminate} : Codec capwap_imageidentifier_element := {
  c_create := capwap_imageidentifier_element_create;
  c_parse := capwap_imageidentifier_element_parsing;
  c_clone := capwap_imageidentifier_element_clone;
  c_wf := wf
}.
Next Obligation.
  start_codec @capwap_imageidentifier_element_create @capwap_imageidentifier_element_parsing wf.
  unfold capwap_imageidentifier_element_asserts in *; cbn in *; rfc. split_andb.
  destruct_string s. solve_codec.
Qed.
Next Obligation.
  intros ? [v n] (_ & (s & Hn & Hs & _) & _); cbn in *; subst n.
  unfold capwap_imageidentifier_element_clone; cbn. by rewrite duplicate_terminated.
Qed.
Next Obligation. solve_safe @capwap_imageidentifier_element_create wf. Qed.

#[global] Instance checks `{Indeterminate} :
  ChecksAsserts capwap_imageidentifier_element_parsing capwap_imageidentifier_element_asserts.
Proof.
  solve_asserts @capwap_imageidentifier_element_parsing @capwap_imageidentifier_element_asserts.
  pose proof (strlen_snoc x1). unfold ImageData.CAPWAP_IMAGEDATA_DATA_MAX_LENGTH. len.
Qed.

End ImageIdentifier.

Module ImageInfo.

Record capwap_imageinfo_element := { length : Z; hash : list Z }.

Definition CAPWAP_IMAGEINFO_HASH_LENGTH : Z := 16.
#[local] Hint Unfold CAPWAP_IMAGEINFO_HASH_LENGTH : capwap_rfc.

Definition capwap_imageinfo_element_create (element : capwap_imageinfo_element) : list wcall :=
  [WriteU32 (length element); WriteBlock (hash element)].

Definition capwap_imageinfo_element_parsing `{Indeterminate} (fuel : nat)
    : parser (option capwap_imageinfo_element) :=
  ready ← p_ready;
  if negb (ready =? 20) then mret None else
  length ← p_u32 indet;
  hash ← p_block (fresh CAPWAP_IMAGEINFO_HASH_LENGTH);
  mret (Some {| length := length; hash := hash |}).

Definition wf (d : capwap_imageinfo_element) : Prop :=
  is_u32 (length d) /\ zlen (hash d) = CAPWAP_IMAGEINFO_HASH_LENGTH.

#[global] Program Instance codec `{Indeterminate} : Codec capwap_imageinfo_element := {
  c_create := capwap_imageinfo_element_create;
  c_parse := capwap_imageinfo_element_parsing;
  c_clone := fun d => d;
  c_wf := wf
}.
Next Obligation.
  codec @capwap_imageinfo_element_create @capwap_imageinfo_element_parsing wf.
Qed.
Next Obligation. done. Qed.
Next Obligation. solve_safe @capwap_imageinfo_element_create wf. Qed.

End ImageInfo.

Module InitDownload.

Record capwap_initdownload_element := { dummy : Z }.

Definition capwap_initdownload_element_create (element : capwap_initdownload_element) : list wcall :=
  [].

Definition capwap_initdownload_element_parsing `{Indeterminate} (fuel : nat)
    : parser (option capwap_initdownload_element) :=
  ready ← p_ready;
  if negb (ready =? 0) then mret None else
  mret (Some {| dummy := 0 |}).

Definition wf (d : capwap_initdownload_element) : Prop :=
  dummy d = 0.

#[global] Program Instance codec `{Indeterminate} : Codec capwap_initdownload_element := {
  c_create := capwap_initdownload_element_create;
  c_parse := capwap_initdownload_element_parsing;
  c_clone := fun d => d;
  c_wf := wf
}.
Next Obligation.
  start_codec @capwap_initdownload_element_create @capwap_initdownload_element_parsing wf.
  subst. solve_codec.
Qed.
Next Obligation. done. Qed.
Next Obligation. solve_safe @capwap_initdownload_element_create wf. Qed.

End InitDownload.

Module Location.

Record capwap_location_element := { value : list Z }.

Definition CAPWAP_LOCATION_MAXLENGTH : Z := 1024.
#[local] Hint Unfold CAPWAP_LOCATION_MAXLENGTH : capwap_rfc.

Definition capwap_location_element_asserts (element : capwap_location_element) : bool :=
  Z.of_nat (strlen (value element)) <=? CAPWAP_LOCATION_MAXLENGTH.

Definition capwap_location_element_create (element : capwap_location_element) : list wcall :=
  [WriteBlock (cstr (value element))].

Definition capwap_location_element_clone (element : capwap_location_element) : capwap_location_element :=
  {| value := capwap_duplicate_string (value element) |}.

Definition capwap_location_element_parsing `{Indeterminate} (fuel : nat)
    : parser (option capwap_location_element) :=
  length ← p_ready;
  if (length <? 1) || (CAPWAP_LOCATION_MAXLENGTH <? length) then mret None else
  value ← p_block (fresh length);
  mret (Some {| value := value ++ [0] |}).

Definition wf (d : capwap_location_element) : Prop :=
  (exists s, value d = s ++ [0] /\ chars_ok s /\ 1 <= zlen s <= CAPWAP_LOCATION_MAXLENGTH) /\
  capwap_location_element_asserts d = true.

#[global] Program Instance codec `{Indeterminate} : Codec capwap_location_element := {
  c_create := capwap_location_element_create;
  c_parse := capwap_location_element_parsing;
  c_clone := capwap_location_element_clone;
  c_wf := wf
}.
Next Obligation.
  start_codec @capwap_location_element_create @capwap_location_element_parsing wf.
  unfold capwap_location_element_asserts in *; cbn in *; rfc. split_andb.
  destruct_string s. solve_codec.
Qed.
Next Obligation.
  intros ? [n] ((s & Hn & Hs & _) & _); cbn in *; subst n.
  unfold capwap_location_element_clone; cbn. by rewrite duplicate_terminated.
Qed.
Next Obligation. solve_safe @capwap_location_element_create wf. Qed.

#[global] Instance checks `{Indeterminate} :
  ChecksAsserts capwap_location_element_parsing capwap_location_element_asserts.
Proof.
  solve_asserts @capwap_location_element_parsing @capwap_location_element_asserts.
  pose proof (strlen_snoc x0). len.
Qed.

End Location.

Module MaximumLength.

Record capwap_maximumlength_element := { length : Z }.

Definition capwap_maximumlength_element_create (element : capwap_maximumlength_element) : list wcall :=
  [WriteU16 (length element)].

Definition capwap_maximumlength_element_parsing `{Indeterminate} (fuel : nat)
    : parser (option capwap_maximumlength_element) :=
  ready ← p_ready;
  if negb (ready =? 2) then mret None else
  length ← p_u16 indet;
  mret (Some {| length := length |}).

Definition wf (d : capwap_maximumlength_element) : Prop :=
  is_u16 (length d).

#[global] Program Instance codec `{Indeterminate} : Codec capwap_maximumlength_element := {
  c_create := capwap_maximumlength_element_create;
  c_parse := capwap_maximumlength_element_parsing;
  c_clone := fun d => d;
  c_wf := wf
}.
Next Obligation.
  codec @capwap_maximumlength_element_create @capwap_maximumlength_element_parsing wf.
Qed.
Next Obligation. done. Qed.
Next Obligation. solve_safe @capwap_maximumlength_element_create wf. Qed.

End MaximumLength.

Module LocalIPv4.

Record capwap_localipv4_element := { address : list Z }.

Definition capwap_localipv4_element_create (element : capwap_localipv4_element) : list wcall :=
  [WriteBlock (address element)].

Definition capwap_localipv4_element_parsing `{Indeterminate} (fuel : nat)
    : parser (option capwap_localipv4_element) :=
  ready ← p_ready;
  if negb (ready =? 4) then mret None else
  address ← p_block (fresh sizeof_in_addr);
  mret (Some {| address := address |}).

Definition wf (d : capwap_localipv4_element) : Prop :=
  zlen (address d) = sizeof_in_addr.

#[global] Program Instance codec `{Indeterminate} : Codec capwap_localipv4_element := {
  c_create := capwap_localipv4_element_create;
  c_parse := capwap_localipv4_element_parsing;
  c_clone := fun d => d;
  c_wf := wf
}.
Next Obligation.
  codec @capwap_localipv4_element_create @capwap_localipv4_element_parsing wf.
Qed.
Next Obligation. done. Qed.
Next Obligation. solve_safe @capwap_localipv4_element_create wf. Qed.

End LocalIPv4.

Module RadioAdmState.

Record capwap_radioadmstate_element := { radioid : Z; state : Z }.

Definition CAPWAP_RADIO_ADMIN_STATE_ENABLED : Z := 1.
Definition CAPWAP_RADIO_ADMIN_STATE_DISABLED : Z := 2.
#[local] Hint Unfold CAPWAP_RADIO_ADMIN_STATE_ENABLED
  CAPWAP_RADIO_ADMIN_STATE_DISABLED : capwap_rfc.

Definition capwap_radioadmstate_element_asserts (element : capwap_radioadmstate_element) : bool :=
  IS_VALID_RADIOID (radioid element) &&
  ((state element =? CAPWAP_RADIO_ADMIN_STATE_ENABLED) ||
   (state element =? CAPWAP_RADIO_ADMIN_STATE_DISABLED)).

Definition capwap_radioadmstate_element_create (element : capwap_radioadmstate_element) : list wcall :=
  [WriteU8 (radioid element); WriteU8 (state element)].

Definition capwap_radioadmstate_element_parsing `{Indeterminate} (fuel : nat)
    : parser (option capwap_radioadmstate_element) :=
  ready ← p_ready;
  if negb (ready =? 2) then mret None else
  radioid ← p_u8 indet;
  state ← p_u8 indet;
  if negb (IS_VALID_RADIOID radioid) then mret None
  else if negb (state =? CAPWAP_RADIO_ADMIN_STATE_ENABLED) &&
     negb (state =? CAPWAP_RADIO_ADMIN_STATE_DISABLED) then mret None else
  mret (Some {| radioid := radioid; state := state |}).

Definition wf (d : capwap_radioadmstate_element) : Prop :=
  capwap_radioadmstate_element_asserts d = true.

#[global] Program Instance codec `{Indeterminate} : Codec capwap_radioadmstate_element := {
  c_create := capwap_radioadmstate_element_create;
  c_parse := capwap_radioadmstate_element_parsing;
  c_clone := fun d => d;
  c_wf := wf
}.
Next Obligation.
  start_codec @capwap_radioadmstate_element_create @capwap_radioadmstate_element_parsing wf.
  unfold capwap_radioadmstate_element_asserts in *; cbn in *; rfc. split_andb. solve_codec.
Qed.
Next Obligation. done. Qed.
Next Obligation. solve_safe @capwap_radioadmstate_element_create wf. Qed.

#[global] Instance checks `{Indeterminate} :
  ChecksAsserts capwap_radioadmstate_element_parsing capwap_radioadmstate_element_asserts.
Proof.
  solve_asserts @capwap_radioadmstate_element_parsing @capwap_radioadmstate_element_asserts.
Qed.

End RadioAdmState.

Module RadioOprState.

Record capwap_radiooprstate_element := { radioid : Z; state : Z; cause : Z }.

Definition CAPWAP_RADIO_OPERATIONAL_STATE_ENABLED : Z := 1.
Definition CAPWAP_RADIO_OPERATIONAL_STATE_DISABLED : Z := 2.
Definition CAPWAP_RADIO_OPERATIONAL_CAUSE_NORMAL : Z := 0.
Definition CAPWAP_RADIO_OPERATIONAL_CAUSE_RADIOFAILURE : Z := 1.
Definition CAPWAP_RADIO_OPERATIONAL_CAUSE_SOFTWAREFAILURE : Z := 2.
Definition CAPWAP_RADIO_OPERATIONAL_CAUSE_ADMINSET : Z := 3.
#[local] Hint Unfold CAPWAP_RADIO_OPERATIONAL_STATE_ENABLED
  CAPWAP_RADIO_OPERATIONAL_STATE_DISABLED
  CAPWAP_RADIO_OPERATIONAL_CAUSE_NORMAL
  CAPWAP_RADIO_OPERATIONAL_CAUSE_RADIOFAILURE
  CAPWAP_RADIO_OPERATIONAL_CAUSE_SOFTWAREFAILURE
  CAPWAP_RADIO_OPERATIONAL_CAUSE_ADMINSET : capwap_rfc.

Definition capwap_radiooprstate_element_asserts (element : capwap_radiooprstate_element) : bool :=
  IS_VALID_RADIOID (radioid element) &&
  ((state element =? CAPWAP_RADIO_OPERATIONAL_STATE_ENABLED) ||
   (state element =? CAPWAP_RADIO_OPERATIONAL_STATE_DISABLED)) &&
  ((cause element =? CAPWAP_RADIO_OPERATIONAL_CAUSE_NORMAL) ||
   (cause element =? CAPWAP_RADIO_OPERATIONAL_CAUSE_RADIOFAILURE) ||
   (cause element =? CAPWAP_RADIO_OPERATIONAL_CAUSE_SOFTWAREFAILURE) ||
   (cause element =? CAPWAP_RADIO_OPERATIONAL_CAUSE_ADMINSET)).

Definition capwap_radiooprstate_element_create (element : capwap_radiooprstate_element) : list wcall :=
  [WriteU8 (radioid element); WriteU8 (state element); WriteU8 (cause element)].

Definition capwap_radiooprstate_element_parsing `{Indeterminate} (fuel : nat)
    : parser (option capwap_radiooprstate_element) :=
  ready ← p_ready;
  if negb (ready =? 3) then mret None else
  radioid ← p_u8 indet;
  state ← p_u8 indet;
  cause ← p_u8 indet;
  if negb (IS_VALID_RADIOID radioid) then mret None
  else if negb (state =? CAPWAP_RADIO_OPERATIONAL_STATE_ENABLED) &&
     negb (state =? CAPWAP_RADIO_OPERATIONAL_STATE_DISABLED) then mret None
  else if negb (cause =? CAPWAP_RADIO_OPERATIONAL_CAUSE_NORMAL) &&
     negb (cause =? CAPWAP_RADIO_OPERATIONAL_CAUSE_RADIOFAILURE) &&
     negb (cause =? CAPWAP_RADIO_OPERATIONAL_CAUSE_SOFTWAREFAILURE) &&
     negb (cause =? CAPWAP_RADIO_OPERATIONAL_CAUSE_ADMINSET) then mret None else
  mret (Some {| radioid := radioid; state := state; cause := cause |}).

Definition wf (d : capwap_radiooprstate_element) : Prop :=
  capwap_radiooprstate_element_asserts d = true.

#[global] Program Instance codec `{Indeterminate} : Codec capwap_radiooprstate_element := {
  c_create := capwap_radiooprstate_element_create;
  c_parse := capwap_radiooprstate_element_parsing;
  c_clone := fun d => d;
  c_wf := wf
}.
Next Obligation.
  start_codec @capwap_radiooprstate_element_create @capwap_radiooprstate_element_parsing wf.
  unfold capwap_radiooprstate_element_asserts in *; cbn in *; rfc. split_andb. solve_codec.
Qed.
Next Obligation. done. Qed.
Next Obligation. solve_safe @capwap_radiooprstate_element_create wf. Qed.

#[global] Instance checks `{Indeterminate} :
  ChecksAsserts capwap_radiooprstate_element_parsing capwap_radiooprstate_element_asserts.
Proof.
  solve_asserts @capwap_radiooprstate_element_parsing @capwap_radiooprstate_element_asserts.
Qed.

End RadioOprState.

Module ResultCode.

Record capwap_resultcode_element := { code : Z }.

Definition CAPWAP_RESULTCODE_FIRST : Z := 0.
Definition CAPWAP_RESULTCODE_SUCCESS : Z := 0.
Definition CAPWAP_RESULTCODE_SUCCESS_NAT_DETECTED : Z := 2.
Definition CAPWAP_RESULTCODE_LAST : Z := 22.
#[local] Hint Unfold CAPWAP_RESULTCODE_FIRST
  CAPWAP_RESULTCODE_SUCCESS
  CAPWAP_RESULTCODE_SUCCESS_NAT_DETECTED
  CAPWAP_RESULTCODE_LAST : capwap_rfc.

Definition CAPWAP_RESULTCODE_OK (x : Z) : bool :=
  (x =? CAPWAP_RESULTCODE_SUCCESS) || (x =? CAPWAP_RESULTCODE_SUCCESS_NAT_DETECTED).

Definition capwap_resultcode_element_asserts (element : capwap_resultcode_element) : bool :=
  (CAPWAP_RESULTCODE_FIRST <=? code element) && (code element <=? CAPWAP_RESULTCODE_LAST).

Definition capwap_resultcode_element_create (element : capwap_resultcode_element) : list wcall :=
  [WriteU32 (code element)].

Definition capwap_resultcode_element_parsing `{Indeterminate} (fuel : nat)
    : parser (option capwap_resultcode_element) :=
  ready ← p_ready;
  if negb (ready =? 4) then mret None else
  code ← p_u32 indet;
  if (code <? CAPWAP_RESULTCODE_FIRST) || (CAPWAP_RESULTCODE_LAST <? code) then mret None else
  mret (Some {| code := code |}).

Definition wf (d : capwap_resultcode_element) : Prop :=
  capwap_resultcode_element_asserts d = true.

#[global] Program Instance codec `{Indeterminate} : Codec capwap_resultcode_element := {
  c_create := capwap_resultcode_element_create;
  c_parse := capwap_resultcode_element_parsing;
  c_clone := fun d => d;
  c_wf := wf
}.
Next Obligation.
  start_codec @capwap_resultcode_element_create @capwap_resultcode_element_parsing wf.
  unfold capwap_resultcode_element_asserts in *; cbn in *; rfc. split_andb. solve_codec.
Qed.
Next Obligation. done. Qed.
Next Obligation. solve_safe @capwap_resultcode_element_create wf. Qed.

#[global] Instance checks `{Indeterminate} :
  ChecksAsserts capwap_resultcode_element_parsing capwap_resultcode_element_asserts.
Proof.
  solve_asserts @capwap_resultcode_element_parsing @capwap_resultcode_element_asserts.
Qed.

End ResultCode.

Module ReturnedMessage.

Record capwap_returnedmessage_element := { reason : Z; length : Z; message : list Z }.

Definition CAPWAP_RETURNED_MESSAGE_UNKNOWN_MESSAGE_ELEMENT : Z := 1.
Definition CAPWAP_RETURNED_MESSAGE_UNSUPPORTED_MESSAGE_ELEMENT : Z := 2.
Definition CAPWAP_RETURNED_MESSAGE_UNKNOWN_MESSAGE_ELEMENT_VALUE : Z := 3.
Definition CAPWAP_RETURNED_MESSAGE_UNSUPPORTED_MESSAGE_ELEMENT_VALUE : Z := 4.
Definition CAPWAP_RETURNED_MESSAGE_MAX_LENGTH : Z := 255.
#[local] Hint Unfold CAPWAP_RETURNED_MESSAGE_UNKNOWN_MESSAGE_ELEMENT
  CAPWAP_RETURNED_MESSAGE_UNSUPPORTED_MESSAGE_ELEMENT
  CAPWAP_RETURNED_MESSAGE_UNKNOWN_MESSAGE_ELEMENT_VALUE
  CAPWAP_RETURNED_MESSAGE_UNSUPPORTED_MESSAGE_ELEMENT_VALUE
  CAPWAP_RETURNED_MESSAGE_MAX_LENGTH : capwap_rfc.

Definition capwap_returnedmessage_element_asserts (element : capwap_returnedmessage_element) : bool :=
  (4 <=? length element) &&
  ((reason element =? CAPWAP_RETURNED_MESSAGE_UNKNOWN_MESSAGE_ELEMENT) ||
   (reason element =? CAPWAP_RETURNED_MESSAGE_UNSUPPORTED_MESSAGE_ELEMENT) ||
   (reason element =? CAPWAP_RETURNED_MESSAGE_UNKNOWN_MESSAGE_ELEMENT_VALUE) ||
   (reason element =? CAPWAP_RETURNED_MESSAGE_UNSUPPORTED_MESSAGE_ELEMENT_VALUE)).

Definition capwap_returnedmessage_element_create (element : capwap_returnedmessage_element) : list wcall :=
  [WriteU8 (reason element); WriteU8 (length element);
   WriteBlock (take (Z.to_nat (length element)) (message element))].

Definition capwap_returnedmessage_element_clone (element : capwap_returnedmessage_element) : capwap_returnedmessage_element :=
  if 0 <? length element then
    {| reason := reason element; length := length element;
       message := take (Z.to_nat (length element)) (message element) |}
  else element.

Definition capwap_returnedmessage_element_parsing `{Indeterminate} (fuel : nat)
    : parser (option capwap_returnedmessage_element) :=
  length ← p_ready;
  if length <? 6 then mret None else
  let length := length - 2 in
  if CAPWAP_RETURNED_MESSAGE_MAX_LENGTH <? length then mret None else
  reason ← p_u8 0;
  data_length ← p_u8 0;
  if negb (reason =? CAPWAP_RETURNED_MESSAGE_UNKNOWN_MESSAGE_ELEMENT) &&
     negb (reason =? CAPWAP_RETURNED_MESSAGE_UNSUPPORTED_MESSAGE_ELEMENT) &&
     negb (reason =? CAPWAP_RETURNED_MESSAGE_UNKNOWN_MESSAGE_ELEMENT_VALUE) &&
     negb (reason =? CAPWAP_RETURNED_MESSAGE_UNSUPPORTED_MESSAGE_ELEMENT_VALUE) then mret None
  else if negb (data_length =? length) then mret None else
  message ← p_block (fresh data_length);
  mret (Some {| reason := reason; length := data_length; message := message |}).

Definition wf (d : capwap_returnedmessage_element) : Prop :=
  is_u8 (length d) /\ zlen (message d) = length d /\
  capwap_returnedmessage_element_asserts d = true.

#[global] Program Instance codec `{Indeterminate} : Codec capwap_returnedmessage_element := {
  c_create := capwap_returnedmessage_element_create;
  c_parse := capwap_returnedmessage_element_parsing;
  c_clone := capwap_returnedmessage_element_clone;
  c_wf := wf
}.
Next Obligation.
  start_codec @capwap_returnedmessage_element_create @capwap_returnedmessage_element_parsing wf.
  unfold capwap_returnedmessage_element_asserts in *; cbn in *; rfc. split_andb.
  rewrite take_ge in * by lia. solve_codec.
Qed.
Next Obligation.
  solve_clone @capwap_returnedmessage_element_clone wf.
Qed.
Next Obligation. solve_safe_with @capwap_returnedmessage_element_create wf @capwap_returnedmessage_element_asserts. Qed.

#[global] Instance checks `{Indeterminate} :
  ChecksAsserts capwap_returnedmessage_element_parsing capwap_returnedmessage_element_asserts.
Proof.
  solve_asserts @capwap_returnedmessage_element_parsing @capwap_returnedmessage_element_asserts.
Qed.

End ReturnedMessage.

Module SessionId.

Record capwap_sessionid_element := { id : list Z }.

Definition capwap_sessionid_element_create (element : capwap_sessionid_element) : list wcall :=
  [WriteBlock (id element)].

Definition capwap_sessionid_element_parsing `{Indeterminate} (fuel : nat)
    : parser (option capwap_sessionid_element) :=
  ready ← p_ready;
  if negb (ready =? 16) then mret None else
  id ← p_block (fresh 16);
  mret (Some {| id := id |}).

Definition wf (d : capwap_sessionid_element) : Prop :=
  zlen (id d) = 16.

#[global] Program Instance codec `{Indeterminate} : Codec capwap_sessionid_element := {
  c_create := capwap_sessionid_element_create;
  c_parse := capwap_sessionid_element_parsing;
  c_clone := fun d => d;
  c_wf := wf
}.
Next Obligation.
  codec @capwap_sessionid_element_create @capwap_sessionid_element_parsing wf.
Qed.
Next Obligation. done. Qed.
Next Obligation. solve_safe @capwap_sessionid_element_create wf. Qed.

End SessionId.

Module StatisticsTimer.

Record capwap_statisticstimer_element := { timer : Z }.

Definition capwap_statisticstimer_element_create (element : capwap_statisticstimer_element) : list wcall :=
  [WriteU16 (timer element)].

Definition capwap_statisticstimer_element_parsing `{Indeterminate} (fuel : nat)
    : parser (option capwap_statisticstimer_element) :=
  ready ← p_ready;
  if negb (ready =? 2) then mret None else
  timer ← p_u16 indet;
  mret (Some {| timer := timer |}).

Definition wf (d : capwap_statisticstimer_element) : Prop :=
  is_u16 (timer d).

#[global] Program Instance codec `{Indeterminate} : Codec capwap_statisticstimer_element := {
  c_create := capwap_statisticstimer_element_create;
  c_parse := capwap_statisticstimer_element_parsing;
  c_clone := fun d => d;
  c_wf := wf
}.
Next Obligation.
  codec @capwap_statisticstimer_element_create @capwap_statisticstimer_element_parsing wf.
Qed.
Next Obligation. done. Qed.
Next Obligation. solve_safe @capwap_statisticstimer_element_create wf. Qed.

End StatisticsTimer.

Module VendorPayload.

Record capwap_vendorpayload_element :=
  { vendorid : Z; elementid : Z; datalength : Z; data : list Z }.

Definition CAPWAP_VENDORPAYLOAD_MAXLENGTH : Z := 2048.
#[local] Hint Unfold CAPWAP_VENDORPAYLOAD_MAXLENGTH : capwap_rfc.

Definition capwap_unknown_vendorpayload_element_parsing `{Indeterminate}
    (length vendor type : Z) : parser (option capwap_vendorpayload_element) :=
  data ← p_block (fresh length);
  mret (Some {| vendorid := vendor; elementid := type; datalength := length; data := data |}).

Definition capwap_vendorpayload_element_asserts (element : capwap_vendorpayload_element) : bool :=
  0 <? datalength element.

Definition capwap_vendorpayload_element_create (element : capwap_vendorpayload_element) : list wcall :=
  [WriteU32 (vendorid element); WriteU16 (elementid element);
   WriteBlock (take (Z.to_nat (datalength element)) (data element))].

Definition capwap_vendorpayload_element_clone (element : capwap_vendorpayload_element) : capwap_vendorpayload_element :=
  {| vendorid := vendorid element; elementid := elementid element;
     datalength := datalength element;
     data := take (Z.to_nat (datalength element)) (data element) |}.

Definition capwap_vendorpayload_element_parsing `{Indeterminate} (fuel : nat)
    : parser (option capwap_vendorpayload_element) :=
  length ← p_ready;
  if length <? 7 then mret None else
  let length := length - 6 in
  if CAPWAP_VENDORPAYLOAD_MAXLENGTH <? length then mret None else
  vendor ← p_u32 indet;
  type ← p_u16 indet;
  capwap_unknown_vendorpayload_element_parsing length vendor type.

Definition wf (d : capwap_vendorpayload_element) : Prop :=
  is_u32 (vendorid d) /\ is_u16 (elementid d) /\ zlen (data d) = datalength d /\
  datalength d <= CAPWAP_VENDORPAYLOAD_MAXLENGTH /\
  capwap_vendorpayload_element_asserts d = true.

#[global] Program Instance codec `{Indeterminate} : Codec capwap_vendorpayload_element := {
  c_create := capwap_vendorpayload_element_create;
  c_parse := capwap_vendorpayload_element_parsing;
  c_clone := capwap_vendorpayload_element_clone;
  c_wf := wf
}.
Next Obligation.
  start_codec @capwap_vendorpayload_element_create @capwap_vendorpayload_element_parsing wf.
  unfold capwap_vendorpayload_element_asserts in *; cbn in *; rfc. split_andb.
  rewrite take_ge in * by lia.
  unfold capwap_unknown_vendorpayload_element_parsing. solve_codec.
Qed.
Next Obligation.
  solve_clone @capwap_vendorpayload_element_clone wf.
Qed.
Next Obligation. solve_safe_with @capwap_vendorpayload_element_create wf @capwap_vendorpayload_element_asserts. Qed.

#[global] Instance checks `{Indeterminate} :
  ChecksAsserts capwap_vendorpayload_element_parsing capwap_vendorpayload_element_asserts.
Proof.
  unfold ChecksAsserts, capwap_vendorpayload_element_parsing,
    capwap_unknown_vendorpayload_element_parsing.
  solve_asserts @capwap_vendorpayload_element_parsing @capwap_vendorpayload_element_asserts.
Qed.

End VendorPayload.
