(* ===== verification/ElementsWtp.v ===== *)
(** Message elements 40 to 53: WTP Fallback, WTP Frame Tunnel Mode, WTP MAC
    Type, WTP Name, WTP Radio Statistics, WTP Reboot Statistics, WTP Static IP
    Address, Local IPv6 Address, CAPWAP Transport Protocol, MTU Discovery
    Padding, ECN Support (src/common/capwap_element_*.c).  The conventions are
    those of ElementsAc. *)
From S2P Require Import Prelude Io.

Module WtpFallback.

Record capwap_wtpfallback_element := { mode : Z }.

Definition CAPWAP_WTP_FALLBACK_ENABLED : Z := 1.
Definition CAPWAP_WTP_FALLBACK_DISABLED : Z := 2.
#[local] Hint Unfold CAPWAP_WTP_FALLBACK_ENABLED
  CAPWAP_WTP_FALLBACK_DISABLED : capwap_rfc.

Definition capwap_wtpfallback_element_asserts (element : capwap_wtpfallback_element) : bool :=
  (mode element =? CAPWAP_WTP_FALLBACK_ENABLED) ||
   (mode element =? CAPWAP_WTP_FALLBACK_DISABLED).

Definition capwap_wtpfallback_element_create (element : capwap_wtpfallback_element) : list wcall :=
  [WriteU8 (mode element)].

Definition capwap_wtpfallback_element_parsing `{Indeterminate} (fuel : nat)
    : parser (option capwap_wtpfallback_element) :=
  ready ← p_ready;
  if negb (ready =? 1) then mret None else
  mode ← p_u8 indet;
  if negb (mode =? CAPWAP_WTP_FALLBACK_ENABLED) &&
     negb (mode =? CAPWAP_WTP_FALLBACK_DISABLED) then mret None else
  mret (Some {| mode := mode |}).

Definition wf (d : capwap_wtpfallback_element) : Prop :=
  capwap_wtpfallback_element_asserts d = true.

#[global] Program Instance codec `{Indeterminate} : Codec capwap_wtpfallback_element := {
  c_create := capwap_wtpfallback_element_create;
  c_parse := capwap_wtpfallback_element_parsing;
  c_clone := fun d => d;
  c_wf := wf
}.
Next Obligation.
  start_codec @capwap_wtpfallback_element_create @capwap_wtpfallback_element_parsing wf.
  unfold capwap_wtpfallback_element_asserts in *; cbn in *; rfc. split_andb. solve_codec.
Qed.
Next Obligation. done. Qed.
Next Obligation. solve_safe @capwap_wtpfallback_element_create wf. Qed.

#[global] Instance checks `{Indeterminate} :
  ChecksAsserts capwap_wtpfallback_element_parsing capwap_wtpfallback_element_asserts.
Proof.
  solve_asserts @capwap_wtpfallback_element_parsing @capwap_wtpfallback_element_asserts.
Qed.

End WtpFallback.

Module WtpFrameTunnelMode.

Record capwap_wtpframetunnelmode_element := { mode : Z }.

Definition CAPWAP_WTP_FRAME_TUNNEL_MODE_MASK : Z := 14.

Definition capwap_wtpframetunnelmode_element_asserts (element : capwap_wtpframetunnelmode_element) : bool :=
  Z.land (mode element) CAPWAP_WTP_FRAME_TUNNEL_MODE_MASK =? mode element.

Definition capwap_wtpframetunnelmode_element_create (element : capwap_wtpframetunnelmode_element) : list wcall :=
  [WriteU8 (mode element)].

Definition capwap_wtpframetunnelmode_element_parsing `{Indeterminate} (fuel : nat)
    : parser (option capwap_wtpframetunnelmode_element) :=
  ready ← p_ready;
  if negb (ready =? 1) then mret None else
  mode ← p_u8 indet;
  if negb (Z.land mode CAPWAP_WTP_FRAME_TUNNEL_MODE_MASK =? mode) then mret None else
  mret (Some {| mode := mode |}).

Definition wf (d : capwap_wtpframetunnelmode_element) : Prop :=
  is_u8 (mode d) /\
  capwap_wtpframetunnelmode_element_asserts d = true.

#[global] Program Instance codec `{Indeterminate} : Codec capwap_wtpframetunnelmode_element := {
  c_create := capwap_wtpframetunnelmode_element_create;
  c_parse := capwap_wtpframetunnelmode_element_parsing;
  c_clone := fun d => d;
  c_wf := wf
}.
Next Obligation.
  start_codec @capwap_wtpframetunnelmode_element_create @capwap_wtpframetunnelmode_element_parsing wf.
  unfold capwap_wtpframetunnelmode_element_asserts in *; cbn in *; rfc. split_andb.
  wire_norm. do 3 parse_step.
  match goal with E : (Z.land _ _ =? _) = true |- _ => rewrite E end.
  cbn [negb]. parse_done.
Qed.
Next Obligation. done. Qed.
Next Obligation. solve_safe @capwap_wtpframetunnelmode_element_create wf. Qed.

#[global] Instance checks `{Indeterminate} :
  ChecksAsserts capwap_wtpframetunnelmode_element_parsing capwap_wtpframetunnelmode_element_asserts.
Proof.
  solve_asserts @capwap_wtpframetunnelmode_element_parsing @capwap_wtpframetunnelmode_element_asserts.
Qed.

End WtpFrameTunnelMode.

Module WtpMacType.

Record capwap_wtpmactype_element := { type : Z }.

Definition CAPWAP_LOCALMAC : Z := 0.
Definition CAPWAP_SPLITMAC : Z := 1.
Definition CAPWAP_LOCALANDSPLITMAC : Z := 2.
#[local] Hint Unfold CAPWAP_LOCALMAC
  CAPWAP_SPLITMAC
  CAPWAP_LOCALANDSPLITMAC : capwap_rfc.

Definition capwap_wtpmactype_element_asserts (element : capwap_wtpmactype_element) : bool :=
  (type element =? CAPWAP_LOCALMAC) ||
   (type element =? CAPWAP_SPLITMAC) ||
   (type element =? CAPWAP_LOCALANDSPLITMAC).

Definition capwap_wtpmactype_element_create (element : capwap_wtpmactype_element) : list wcall :=
  [WriteU8 (type element)].

Definition capwap_wtpmactype_element_parsing `{Indeterminate} (fuel : nat)
    : parser (option capwap_wtpmactype_element) :=
  ready ← p_ready;
  if negb (ready =? 1) then mret None else
  type ← p_u8 indet;
  if negb (type =? CAPWAP_LOCALMAC) &&
     negb (type =? CAPWAP_SPLITMAC) &&
     negb (type =? CAPWAP_LOCALANDSPLITMAC) then mret None else
  mret (Some {| type := type |}).

Definition wf (d : capwap_wtpmactype_element) : Prop :=
  capwap_wtpmactype_element_asserts d = true.

#[global] Program Instance codec `{Indeterminate} : Codec capwap_wtpmactype_element := {
  c_create := capwap_wtpmactype_element_create;
  c_parse := capwap_wtpmactype_element_parsing;
  c_clone := fun d => d;
  c_wf := wf
}.
Next Obligation.
  start_codec @capwap_wtpmactype_element_create @capwap_wtpmactype_element_parsing wf.
  unfold capwap_wtpmactype_element_asserts in *; cbn in *; rfc. split_andb. solve_codec.
Qed.
Next Obligation. done. Qed.
Next Obligation. solve_safe @capwap_wtpmactype_element_create wf. Qed.

#[global] Instance checks `{Indeterminate} :
  ChecksAsserts capwap_wtpmactype_element_parsing capwap_wtpmactype_element_asserts.
Proof.
  solve_asserts @capwap_wtpmactype_element_parsing @capwap_wtpmactype_element_asserts.
Qed.

End WtpMacType.

Module WtpName.

Record capwap_wtpname_element := { name : list Z }.

Definition CAPWAP_WTPNAME_MAXLENGTH : Z := 512.
#[local] Hint Unfold CAPWAP_WTPNAME_MAXLENGTH : capwap_rfc.

Definition capwap_wtpname_element_asserts (element : capwap_wtpname_element) : bool :=
  (0 <? strlen (name element))%nat.

Definition capwap_wtpname_element_create (element : capwap_wtpname_element) : list wcall :=
  [WriteBlock (cstr (name element))].

Definition capwap_wtpname_element_clone (element : capwap_wtpname_element) : capwap_wtpname_element :=
  {| name := capwap_duplicate_string (name element) |}.

Definition capwap_wtpname_element_parsing `{Indeterminate} (fuel : nat)
    : parser (option capwap_wtpname_element) :=
  length ← p_ready;
  if (length <? 1) || (CAPWAP_WTPNAME_MAXLENGTH <? length) then mret None else
  name ← p_block (fresh length);
  mret (Some {| name := name ++ [0] |}).

Definition wf (d : capwap_wtpname_element) : Prop :=
  exists s, name d = s ++ [0] /\ chars_ok s /\ 1 <= zlen s <= CAPWAP_WTPNAME_MAXLENGTH.

#[global] Program Instance codec `{Indeterminate} : Codec capwap_wtpname_element := {
  c_create := capwap_wtpname_element_create;
  c_parse := capwap_wtpname_element_parsing;
  c_clone := capwap_wtpname_element_clone;
  c_wf := wf
}.
Next Obligation.
  start_codec @capwap_wtpname_element_create @capwap_wtpname_element_parsing wf.
  destruct_string s. solve_codec.
Qed.
Next Obligation.
  intros ? [n] (s & Hn & Hs & _); cbn in *; subst n.
  unfold capwap_wtpname_element_clone; cbn. by rewrite duplicate_terminated.
Qed.
Next Obligation. solve_safe @capwap_wtpname_element_create wf. Qed.

End WtpName.

Module WtpRadioStat.

Record capwap_wtpradiostat_element := {
  radioid : Z; lastfailtype : Z; resetcount : Z; swfailercount : Z; hwfailercount : Z;
  otherfailercount : Z; unknownfailercount : Z; configupdatecount : Z;
  channelchangecount : Z; bandchangecount : Z; currentnoisefloor : Z
}.

Definition capwap_wtpradiostat_element_asserts (element : capwap_wtpradiostat_element) : bool :=
  IS_VALID_RADIOID (radioid element).

Definition capwap_wtpradiostat_element_create (element : capwap_wtpradiostat_element) : list wcall :=
  [WriteU8 (radioid element); WriteU8 (lastfailtype element); WriteU16 (resetcount
   element); WriteU16 (swfailercount element); WriteU16 (hwfailercount element);
   WriteU16 (otherfailercount element); WriteU16 (unknownfailercount element); WriteU16
   (configupdatecount element); WriteU16 (channelchangecount element); WriteU16
   (bandchangecount element); WriteU16 (currentnoisefloor element)].

Definition capwap_wtpradiostat_element_parsing `{Indeterminate} (fuel : nat)
    : parser (option capwap_wtpradiostat_element) :=
  ready ← p_ready;
  if negb (ready =? 20) then mret None else
  radioid ← p_u8 indet;
  if negb (IS_VALID_RADIOID radioid) then mret None else
  lastfailtype ← p_u8 indet;
  resetcount ← p_u16 indet;
  swfailercount ← p_u16 indet;
  hwfailercount ← p_u16 indet;
  otherfailercount ← p_u16 indet;
  unknownfailercount ← p_u16 indet;
  configupdatecount ← p_u16 indet;
  channelchangecount ← p_u16 indet;
  bandchangecount ← p_u16 indet;
  currentnoisefloor ← p_u16 indet;
  mret (Some {| radioid := radioid; lastfailtype := lastfailtype; resetcount :=
                resetcount; swfailercount := swfailercount; hwfailercount
                := hwfailercount; otherfailercount := otherfailercount;
                unknownfailercount := unknownfailercount;
                configupdatecount := configupdatecount; channelchangecount
                := channelchangecount; bandchangecount := bandchangecount;
                currentnoisefloor := currentnoisefloor |}).

Definition wf (d : capwap_wtpradiostat_element) : Prop :=
  is_u8 (radioid d) /\ is_u8 (lastfailtype d) /\ is_u16 (resetcount d) /\ is_u16
  (swfailercount d) /\ is_u16 (hwfailercount d) /\ is_u16 (otherfailercount d) /\ is_u16
  (unknownfailercount d) /\ is_u16 (configupdatecount d) /\ is_u16 (channelchangecount
  d) /\ is_u16 (bandchangecount d) /\ is_u16 (currentnoisefloor d) /\
  capwap_wtpradiostat_element_asserts d = true.

#[global] Program Instance codec `{Indeterminate} : Codec capwap_wtpradiostat_element := {
  c_create := capwap_wtpradiostat_element_create;
  c_parse := capwap_wtpradiostat_element_parsing;
  c_clone := fun d => d;
  c_wf := wf
}.
Next Obligation.
  start_codec @capwap_wtpradiostat_element_create @capwap_wtpradiostat_element_parsing wf.
  unfold capwap_wtpradiostat_element_asserts in *; cbn in *; rfc. split_andb. solve_codec.
Qed.
Next Obligation. done. Qed.
Next Obligation. solve_safe @capwap_wtpradiostat_element_create wf. Qed.

#[global] Instance checks `{Indeterminate} :
  ChecksAsserts capwap_wtpradiostat_element_parsing capwap_wtpradiostat_element_asserts.
Proof.
  solve_asserts @capwap_wtpradiostat_element_parsing @capwap_wtpradiostat_element_asserts.
Qed.

End WtpRadioStat.

Module WtpRebootStat.

Record capwap_wtprebootstat_element := {
  rebootcount : Z; acinitiatedcount : Z; linkfailurecount : Z; swfailurecount : Z;
  hwfailurecount : Z; otherfailurecount : Z; unknownfailurecount : Z; lastfailuretype :
  Z
}.

Definition capwap_wtprebootstat_element_create (element : capwap_wtprebootstat_element) : list wcall :=
  [WriteU16 (rebootcount element); WriteU16 (acinitiatedcount element); WriteU16
   (linkfailurecount element); WriteU16 (swfailurecount element); WriteU16
   (hwfailurecount element); WriteU16 (otherfailurecount element); WriteU16
   (unknownfailurecount element); WriteU8 (lastfailuretype element)].

Definition capwap_wtprebootstat_element_parsing `{Indeterminate} (fuel : nat)
    : parser (option capwap_wtprebootstat_element) :=
  ready ← p_ready;
  if negb (ready =? 15) then mret None else
  rebootcount ← p_u16 indet;
  acinitiatedcount ← p_u16 indet;
  linkfailurecount ← p_u16 indet;
  swfailurecount ← p_u16 indet;
  hwfailurecount ← p_u16 indet;
  otherfailurecount ← p_u16 indet;
  unknownfailurecount ← p_u16 indet;
  lastfailuretype ← p_u8 indet;
  mret (Some {| rebootcount := rebootcount; acinitiatedcount := acinitiatedcount;
                linkfailurecount := linkfailurecount; swfailurecount :=
                swfailurecount; hwfailurecount := hwfailurecount;
                otherfailurecount := otherfailurecount;
                unknownfailurecount := unknownfailurecount;
                lastfailuretype := lastfailuretype |}).

Definition wf (d : capwap_wtprebootstat_element) : Prop :=
  is_u16 (rebootcount d) /\ is_u16 (acinitiatedcount d) /\ is_u16 (linkfailurecount d)
  /\ is_u16 (swfailurecount d) /\ is_u16 (hwfailurecount d) /\ is_u16 (otherfailurecount
  d) /\ is_u16 (unknownfailurecount d) /\ is_u8 (lastfailuretype d).

#[global] Program Instance codec `{Indeterminate} : Codec capwap_wtprebootstat_element := {
  c_create := capwap_wtprebootstat_element_create;
  c_parse := capwap_wtprebootstat_element_parsing;
  c_clone := fun d => d;
  c_wf := wf
}.
Next Obligation.
  codec @capwap_wtprebootstat_element_create @capwap_wtprebootstat_element_parsing wf.
Qed.
Next Obligation. done. Qed.
Next Obligation. solve_safe @capwap_wtprebootstat_element_create wf. Qed.

End WtpRebootStat.

Module WtpStaticIpAddress.

Record capwap_wtpstaticipaddress_element :=
  { address : list Z; netmask : list Z; gateway : list Z; staticip : Z }.

Definition capwap_wtpstaticipaddress_element_create (element : capwap_wtpstaticipaddress_element) : list wcall :=
  [WriteBlock (address element); WriteBlock (netmask element);
   WriteBlock (gateway element); WriteU8 (staticip element)].

Definition capwap_wtpstaticipaddress_element_parsing `{Indeterminate} (fuel : nat)
    : parser (option capwap_wtpstaticipaddress_element) :=
  ready ← p_ready;
  if negb (ready =? 13) then mret None else
  address ← p_block (fresh sizeof_in_addr);
  netmask ← p_block (fresh sizeof_in_addr);
  gateway ← p_block (fresh sizeof_in_addr);
  staticip ← p_u8 indet;
  mret (Some {| address := address; netmask := netmask; gateway := gateway;
                staticip := staticip |}).

Definition wf (d : capwap_wtpstaticipaddress_element) : Prop :=
  zlen (address d) = sizeof_in_addr /\ zlen (netmask d) = sizeof_in_addr /\
  zlen (gateway d) = sizeof_in_addr /\ is_u8 (staticip d).

#[global] Program Instance codec `{Indeterminate} : Codec capwap_wtpstaticipaddress_element := {
  c_create := capwap_wtpstaticipaddress_element_create;
  c_parse := capwap_wtpstaticipaddress_element_parsing;
  c_clone := fun d => d;
  c_wf := wf
}.
Next Obligation.
  codec @capwap_wtpstaticipaddress_element_create @capwap_wtpstaticipaddress_element_parsing wf.
Qed.
Next Obligation. done. Qed.
Next Obligation. solve_safe @capwap_wtpstaticipaddress_element_create wf. Qed.

End WtpStaticIpAddress.

Module LocalIPv6.

Record capwap_localipv6_element := { address : list Z }.

Definition capwap_localipv6_element_create (element : capwap_localipv6_element) : list wcall :=
  [WriteBlock (address element)].

Definition capwap_localipv6_element_parsing `{Indeterminate} (fuel : nat)
    : parser (option capwap_localipv6_element) :=
  ready ← p_ready;
  if negb (ready =? 16) then mret None else
  address ← p_block (fresh sizeof_in6_addr);
  mret (Some {| address := address |}).

Definition wf (d : capwap_localipv6_element) : Prop :=
  zlen (address d) = sizeof_in6_addr.

#[global] Program Instance codec `{Indeterminate} : Codec capwap_localipv6_element := {
  c_create := capwap_localipv6_element_create;
  c_parse := capwap_localipv6_element_parsing;
  c_clone := fun d => d;
  c_wf := wf
}.
Next Obligation.
  codec @capwap_localipv6_element_create @capwap_localipv6_element_parsing wf.
Qed.
Next Obligation. done. Qed.
Next Obligation. solve_safe @capwap_localipv6_element_create wf. Qed.

End LocalIPv6.

Module Transport.

Record capwap_transport_element := { type : Z }.

Definition CAPWAP_UDPLITE_TRANSPORT : Z := 1.
Definition CAPWAP_UDP_TRANSPORT : Z := 2.
#[local] Hint Unfold CAPWAP_UDPLITE_TRANSPORT
  CAPWAP_UDP_TRANSPORT : capwap_rfc.

Definition capwap_transport_element_asserts (element : capwap_transport_element) : bool :=
  (type element =? CAPWAP_UDPLITE_TRANSPORT) ||
   (type element =? CAPWAP_UDP_TRANSPORT).

Definition capwap_transport_element_create (element : capwap_transport_element) : list wcall :=
  [WriteU8 (type element)].

Definition capwap_transport_element_parsing `{Indeterminate} (fuel : nat)
    : parser (option capwap_transport_element) :=
  ready ← p_ready;
  if negb (ready =? 1) then mret None else
  type ← p_u8 indet;
  if negb (type =? CAPWAP_UDPLITE_TRANSPORT) &&
     negb (type =? CAPWAP_UDP_TRANSPORT) then mret None else
  mret (Some {| type := type |}).

Definition wf (d : capwap_transport_element) : Prop :=
  capwap_transport_element_asserts d = true.

#[global] Program Instance codec `{Indeterminate} : Codec capwap_transport_element := {
  c_create := capwap_transport_element_create;
  c_parse := capwap_transport_element_parsing;
  c_clone := fun d => d;
  c_wf := wf
}.
Next Obligation.
  start_codec @capwap_transport_element_create @capwap_transport_element_parsing wf.
  unfold capwap_transport_element_asserts in *; cbn in *; rfc. split_andb. solve_codec.
Qed.
Next Obligation. done. Qed.
Next Obligation. solve_safe @capwap_transport_element_create wf. Qed.

#[global] Instance checks `{Indeterminate} :
  ChecksAsserts capwap_transport_element_parsing capwap_transport_element_asserts.
Proof.
  solve_asserts @capwap_transport_element_parsing @capwap_transport_element_asserts.
Qed.

End Transport.

Module MtuDiscovery.

Record capwap_mtudiscovery_element := { length : Z }.

Definition capwap_mtudiscovery_element_create (element : capwap_mtudiscovery_element) : list wcall :=
  replicate (Z.to_nat (length element)) (WriteU8 255).

Definition capwap_mtudiscovery_element_parsing `{Indeterminate} (fuel : nat)
    : parser (option capwap_mtudiscovery_element) :=
  length ← p_ready;
  if 0 <? length then mret None else
  padding ← p_block (fresh length);
  mret (Some {| length := length |}).

(** No packet is parsed to an element: padding is refused, and without padding
    the assertion of [read_block] fails. *)
Lemma parse_refuses `{Indeterminate} fuel s d s' :
  stream_ok s -> run (capwap_mtudiscovery_element_parsing fuel) s <> Done (Some d, s').
Proof.
  intros Hs. unfold capwap_mtudiscovery_element_parsing. destruct (any_ready
    (fun length => if 0 <? length then mret None else
       padding ← p_block (fresh length); mret (Some {| length := length |})) s Hs) as (x & -> & Hx).
  destruct (0 <? x) eqn:Ex; [done|]. assert (x = 0) as -> by lia. done.
Qed.

End MtuDiscovery.

Module EcnSupport.

Record capwap_ecnsupport_element := { flag : Z }.

Definition CAPWAP_LIMITED_ECN_SUPPORT : Z := 0.
Definition CAPWAP_FULL_ECN_SUPPORT : Z := 1.
#[local] Hint Unfold CAPWAP_LIMITED_ECN_SUPPORT
  CAPWAP_FULL_ECN_SUPPORT : capwap_rfc.

Definition capwap_ecnsupport_element_asserts (element : capwap_ecnsupport_element) : bool :=
  (flag element =? CAPWAP_LIMITED_ECN_SUPPORT) ||
   (flag element =? CAPWAP_FULL_ECN_SUPPORT).

Definition capwap_ecnsupport_element_create (element : capwap_ecnsupport_element) : list wcall :=
  [WriteU8 (flag element)].

Definition capwap_ecnsupport_element_parsing `{Indeterminate} (fuel : nat)
    : parser (option capwap_ecnsupport_element) :=
  ready ← p_ready;
  if negb (ready =? 1) then mret None else
  flag ← p_u8 indet;
  if negb (flag =? CAPWAP_LIMITED_ECN_SUPPORT) &&
     negb (flag =? CAPWAP_FULL_ECN_SUPPORT) then mret None else
  mret (Some {| flag := flag |}).

Definition wf (d : capwap_ecnsupport_element) : Prop :=
  capwap_ecnsupport_element_asserts d = true.

#[global] Program Instance codec `{Indeterminate} : Codec capwap_ecnsupport_element := {
  c_create := capwap_ecnsupport_element_create;
  c_parse := capwap_ecnsupport_element_parsing;
  c_clone := fun d => d;
  c_wf := wf
}.
Next Obligation.
  start_codec @capwap_ecnsupport_element_create @capwap_ecnsupport_element_parsing wf.
  unfold capwap_ecnsupport_element_asserts in *; cbn in *; rfc. split_andb. solve_codec.
Qed.
Next Obligation. done. Qed.
Next Obligation. solve_safe @capwap_ecnsupport_element_create wf. Qed.

#[global] Instance checks `{Indeterminate} :
  ChecksAsserts capwap_ecnsupport_element_parsing capwap_ecnsupport_element_asserts.
Proof.
  solve_asserts @capwap_ecnsupport_element_parsing @capwap_ecnsupport_element_asserts.
Qed.

End EcnSupport.
