(* ===== verification/ElementsWtpDesc.v ===== *)
(** Message elements 38 and 39: WTP Board Data and WTP Descriptor
    (src/common/capwap_element_wtpboarddata.c and
    capwap_element_wtpdescriptor.c), whose parsers loop over sub-elements. *)
From S2P Require Import Prelude Io.

Module WtpBoardData.

Record capwap_wtpboarddata_board_subelement := { type : Z; length : Z; data : list Z }.

Record capwap_wtpboarddata_element :=
  { vendor : Z; boardsubelement : list capwap_wtpboarddata_board_subelement }.

Definition CAPWAP_BOARD_SUBELEMENT_TYPE_FIRST : Z := 0.
Definition CAPWAP_BOARD_SUBELEMENT_TYPE_LAST : Z := 4.
Definition CAPWAP_BOARD_SUBELEMENT_MAXDATA : Z := 1024.
#[local] Hint Unfold CAPWAP_BOARD_SUBELEMENT_TYPE_FIRST CAPWAP_BOARD_SUBELEMENT_TYPE_LAST
  CAPWAP_BOARD_SUBELEMENT_MAXDATA : capwap_rfc.

Definition board_asserts (desc : capwap_wtpboarddata_board_subelement) : bool :=
  (CAPWAP_BOARD_SUBELEMENT_TYPE_FIRST <=? type desc) &&
  (type desc <=? CAPWAP_BOARD_SUBELEMENT_TYPE_LAST) &&
  (0 <? length desc) && (length desc <=? CAPWAP_BOARD_SUBELEMENT_MAXDATA).

Definition capwap_wtpboarddata_element_asserts (element : capwap_wtpboarddata_element) : bool :=
  negb (vendor element =? 0) && (0 <? zlen (boardsubelement element)) &&
  forallb board_asserts (boardsubelement element).

Definition board_create (desc : capwap_wtpboarddata_board_subelement) : list wcall :=
  [WriteU16 (type desc); WriteU16 (length desc);
   WriteBlock (take (Z.to_nat (length desc)) (data desc))].

Definition capwap_wtpboarddata_element_create (element : capwap_wtpboarddata_element)
    : list wcall :=
  WriteU32 (vendor element) :: concat (board_create <$> boardsubelement element).

Definition capwap_wtpboarddata_element_clone (element : capwap_wtpboarddata_element)
    : capwap_wtpboarddata_element :=
  {| vendor := vendor element;
     boardsubelement :=
       (fun desc =>
          if negb (length desc =? 0) then
            {| type := type desc; length := length desc;
               data := take (Z.to_nat (length desc)) (data desc) |}
          else desc) <$> boardsubelement element |}.

Fixpoint read_boards `{Indeterminate} (fuel : nat)
    (acc : list capwap_wtpboarddata_board_subelement)
    : parser (option (list capwap_wtpboarddata_board_subelement)) :=
  match fuel with
  | O => OutOfFuel
  | S fuel =>
      ready ← p_ready;
      if 0 <? ready then
        type ← p_u16 0;
        desc_length ← p_u16 0;
        if (type <? CAPWAP_BOARD_SUBELEMENT_TYPE_FIRST) ||
           (CAPWAP_BOARD_SUBELEMENT_TYPE_LAST <? type) then mret None else
        length ← p_ready;
        if (length =? 0) || (CAPWAP_BOARD_SUBELEMENT_MAXDATA <? length) ||
           (length <? desc_length) then mret None else
        data ← p_block (fresh desc_length);
        read_boards fuel (acc ++ [{| type := type; length := desc_length; data := data |}])
      else mret (Some acc)
  end.

Definition capwap_wtpboarddata_element_parsing `{Indeterminate} (fuel : nat)
    : parser (option capwap_wtpboarddata_element) :=
  ready ← p_ready;
  if ready <? 14 then mret None else
  vendor ← p_u32 indet;
  if vendor =? 0 then mret None else
  boards ← read_boards fuel [];
  match boards with
  | None => mret None
  | Some boards => mret (Some {| vendor := vendor; boardsubelement := boards |})
  end.

(** [capwap_wtpboarddata_get_subelement]: the first sub-element of a type. *)
Definition capwap_wtpboarddata_get_subelement (wtpboarddata : capwap_wtpboarddata_element)
    (subelement : Z) : option capwap_wtpboarddata_board_subelement :=
  head (filter (fun desc => type desc = subelement) (boardsubelement wtpboarddata)).

Definition boards_wire (l : list capwap_wtpboarddata_board_subelement) : list Z :=
  wire (concat (board_create <$> l)).

(** The peer accepts the element when, besides the assertions of [create], it
    is at least 14 bytes long and what follows the first sub-element header
    fits in [CAPWAP_BOARD_SUBELEMENT_MAXDATA]. *)
Definition wf (d : capwap_wtpboarddata_element) : Prop :=
  is_u32 (vendor d) /\ capwap_wtpboarddata_element_asserts d = true /\
  Forall (fun desc => zlen (data desc) = length desc) (boardsubelement d) /\
  10 <= zlen (boards_wire (boardsubelement d)) <= 4 + CAPWAP_BOARD_SUBELEMENT_MAXDATA.

Lemma boards_wire_cons t n bs l :
  zlen bs = n ->
  boards_wire ({| type := t; length := n; data := bs |} :: l) =
  be16 t ++ be16 n ++ bs ++ boards_wire l.
Proof.
  intros Hn. unfold boards_wire. rewrite fmap_cons. cbn [concat]. rewrite wire_app.
  unfold board_create; cbn [type length data].
  rewrite take_ge by lia. wire_norm. done.
Qed.

Lemma read_boards_wire `{Indeterminate} l acc fuel rest :
  Forall (fun desc => zlen (data desc) = length desc) l ->
  forallb board_asserts l = true ->
  zlen (boards_wire l) <= 4 + CAPWAP_BOARD_SUBELEMENT_MAXDATA ->
  zlen (boards_wire l) < Z.of_nat fuel ->
  run (read_boards fuel acc) (Stream (zlen (boards_wire l)) (boards_wire l ++ rest))
    = Done (Some (acc ++ l), Stream 0 rest).
Proof.
  intros Hl. revert acc fuel. rfc.
  induction Hl as [|[t n bs] l Hn _ IH]; intros acc fuel Ha Hm Hf;
    (destruct fuel as [|fuel]; [lia|]); cbn [read_boards].
  - rewrite app_nil_r. cbn. by destruct rest.
  - cbn in Hn, Ha. unfold board_asserts in Ha at 1; cbn in Ha. rfc. split_andb.
    rewrite boards_wire_cons in * by done. wire_norm.
    repeat parse_step.
    match goal with |- run _ (Stream ?a _) = _ => replace a with (zlen (boards_wire l)) by lia end.
    rewrite IH by (done || lia). by rewrite <- app_assoc.
Qed.

#[global] Program Instance codec `{Indeterminate} : Codec capwap_wtpboarddata_element := {
  c_create := capwap_wtpboarddata_element_create;
  c_parse := capwap_wtpboarddata_element_parsing;
  c_clone := capwap_wtpboarddata_element_clone;
  c_wf := wf
}.
Next Obligation.
  start_codec @capwap_wtpboarddata_element_create @capwap_wtpboarddata_element_parsing wf.
  unfold capwap_wtpboarddata_element_asserts in *; cbn in *. split_andb.
  wire_norm. fold (boards_wire boardsubelement0) in *. repeat parse_step.
  rewrite run_bind.
  match goal with
  | |- context [Stream ?a (boards_wire ?l ++ _)] => replace a with (zlen (boards_wire l)) by lia
  end.
  rewrite read_boards_wire by (done || rfc; lia). done.
Qed.
Next Obligation.
  intros ? [v l] _. unfold capwap_wtpboarddata_element_create, capwap_wtpboarddata_element_clone.
  cbn. do 2 f_equal. induction l as [|[t n bs] l IH]; [done|].
  rewrite !fmap_cons, IH. unfold board_create; cbn. destruct (negb _); cbn; [|done].
  by rewrite take_take, Nat.min_id.
Qed.
Next Obligation.
  intros ? d (_ & Ha & Hl & _). unfold capwap_wtpboarddata_element_asserts in Ha. split_andb.
  cbn. apply safe_concat.
  match goal with E : forallb _ _ = true |- _ => rewrite forallb_forall in E; rename E into Hd end.
  rewrite Forall_forall in Hl |- *. intros x Hx. apply list_elem_of_In in Hx as Hx'.
  specialize (Hl x Hx). specialize (Hd x Hx'). unfold board_asserts in Hd. cbn.
  rewrite length_take. split_andb. bools. repeat split. lia.
Qed.

End WtpBoardData.

Module WtpDescriptor.

Record capwap_wtpdescriptor_encrypt_subelement := { wbid : Z; capabilities : Z }.

Record capwap_wtpdescriptor_desc_subelement := { vendor : Z; type : Z; data : list Z }.

Record capwap_wtpdescriptor_element := {
  maxradios : Z;
  radiosinuse : Z;
  encryptsubelement : list capwap_wtpdescriptor_encrypt_subelement;
  descsubelement : list capwap_wtpdescriptor_desc_subelement
}.

Definition CAPWAP_WTPDESC_SUBELEMENT_WBID_MASK : Z := 31.
Definition CAPWAP_WTPDESC_SUBELEMENT_TYPE_FIRST : Z := 0.
Definition CAPWAP_WTPDESC_SUBELEMENT_TYPE_LAST : Z := 3.
Definition CAPWAP_WTPDESC_SUBELEMENT_MAXDATA : Z := 1024.
#[local] Hint Unfold CAPWAP_WTPDESC_SUBELEMENT_TYPE_FIRST CAPWAP_WTPDESC_SUBELEMENT_TYPE_LAST
  CAPWAP_WTPDESC_SUBELEMENT_MAXDATA : capwap_rfc.

Definition encrypt_asserts (desc : capwap_wtpdescriptor_encrypt_subelement) : bool :=
  Z.land (wbid desc) CAPWAP_WTPDESC_SUBELEMENT_WBID_MASK =? wbid desc.

Definition wtp_desc_asserts (desc : capwap_wtpdescriptor_desc_subelement) : bool :=
  (CAPWAP_WTPDESC_SUBELEMENT_TYPE_FIRST <=? type desc) &&
  (type desc <=? CAPWAP_WTPDESC_SUBELEMENT_TYPE_LAST) &&
  (0 <? wrap16 (Z.of_nat (strlen (data desc)))).

Definition capwap_wtpdescriptor_element_asserts (element : capwap_wtpdescriptor_element) : bool :=
  (radiosinuse element <=? maxradios element) &&
  (0 <? zlen (encryptsubelement element)) && (0 <? zlen (descsubelement element)) &&
  forallb encrypt_asserts (encryptsubelement element) &&
  forallb wtp_desc_asserts (descsubelement element).

Definition encrypt_create (desc : capwap_wtpdescriptor_encrypt_subelement) : list wcall :=
  [WriteU8 (wbid desc); WriteU16 (capabilities desc)].

Definition wtp_desc_create (desc : capwap_wtpdescriptor_desc_subelement) : list wcall :=
  let length := wrap16 (Z.of_nat (strlen (data desc))) in
  [WriteU32 (vendor desc); WriteU16 (type desc); WriteU16 length;
   WriteBlock (take (Z.to_nat length) (data desc))].

Definition capwap_wtpdescriptor_element_create (element : capwap_wtpdescriptor_element)
    : list wcall :=
  [WriteU8 (maxradios element); WriteU8 (radiosinuse element);
   WriteU8 (zlen (encryptsubelement element))] ++
  concat (encrypt_create <$> encryptsubelement element) ++
  concat (wtp_desc_create <$> descsubelement element).

Definition capwap_wtpdescriptor_element_clone (element : capwap_wtpdescriptor_element)
    : capwap_wtpdescriptor_element :=
  {| maxradios := maxradios element;
     radiosinuse := radiosinuse element;
     encryptsubelement := encryptsubelement element;
     descsubelement :=
       (fun desc => {| vendor := vendor desc; type := type desc;
                       data := capwap_duplicate_string (data desc) |})
         <$> descsubelement element |}.

(** The [for] loop over [encryptlength] encryption sub-elements. *)
Fixpoint read_encrypts `{Indeterminate} (encryptlength : nat)
    (acc : list capwap_wtpdescriptor_encrypt_subelement)
    : parser (option (list capwap_wtpdescriptor_encrypt_subelement)) :=
  match encryptlength with
  | O => mret (Some acc)
  | S n =>
      ready ← p_ready;
      if ready <? 3 then mret None else
      wbid ← p_u8 indet;
      capabilities ← p_u16 indet;
      if negb (Z.land wbid CAPWAP_WTPDESC_SUBELEMENT_WBID_MASK =? wbid) then mret None else
      read_encrypts n (acc ++ [{| wbid := wbid; capabilities := capabilities |}])
  end.

(** The [while] loop over the descriptor sub-elements. *)
Fixpoint wtp_read_descs `{Indeterminate} (fuel : nat)
    (acc : list capwap_wtpdescriptor_desc_subelement)
    : parser (option (list capwap_wtpdescriptor_desc_subelement)) :=
  match fuel with
  | O => OutOfFuel
  | S fuel =>
      ready ← p_ready;
      if 0 <? ready then
        ready ← p_ready;
        if ready <? 8 then mret None else
        vendor ← p_u32 0;
        type ← p_u16 0;
        lengthdesc ← p_u16 indet;
        if (type <? CAPWAP_WTPDESC_SUBELEMENT_TYPE_FIRST) ||
           (CAPWAP_WTPDESC_SUBELEMENT_TYPE_LAST <? type) then mret None else
        length ← p_ready;
        if (length =? 0) || (CAPWAP_WTPDESC_SUBELEMENT_MAXDATA <? length) ||
           (length <? lengthdesc) then mret None else
        data ← p_block (fresh lengthdesc);
        wtp_read_descs fuel (acc ++ [{| vendor := vendor; type := type; data := data ++ [0] |}])
      else mret (Some acc)
  end.

Definition capwap_wtpdescriptor_element_parsing `{Indeterminate} (fuel : nat)
    : parser (option capwap_wtpdescriptor_element) :=
  ready ← p_ready;
  if ready <? 33 then mret None else
  maxradios ← p_u8 indet;
  radiosinuse ← p_u8 indet;
  encryptlength ← p_u8 indet;
  if encryptlength =? 0 then mret None else
  if maxradios <? radiosinuse then mret None else
  encrypts ← read_encrypts (Z.to_nat encryptlength) [];
  match encrypts with
  | None => mret None
  | Some encrypts =>
      descs ← wtp_read_descs fuel [];
      match descs with
      | None => mret None
      | Some descs =>
          mret (Some {| maxradios := maxradios; radiosinuse := radiosinuse;
                        encryptsubelement := encrypts; descsubelement := descs |})
      end
  end.

Definition encrypts_wire (l : list capwap_wtpdescriptor_encrypt_subelement) : list Z :=
  wire (concat (encrypt_create <$> l)).

Definition wtp_descs_wire (l : list capwap_wtpdescriptor_desc_subelement) : list Z :=
  wire (concat (wtp_desc_create <$> l)).

Definition encrypt_wf (e : capwap_wtpdescriptor_encrypt_subelement) : Prop :=
  is_u8 (wbid e) /\ is_u16 (capabilities e).

Definition wtp_desc_wf (e : capwap_wtpdescriptor_desc_subelement) : Prop :=
  is_u32 (vendor e) /\
  exists s, data e = s ++ [0] /\ chars_ok s /\ 0 < zlen s <= CAPWAP_WTPDESC_SUBELEMENT_MAXDATA.

(** The peer accepts the element when, besides the assertions of [create], it
    is at least 33 bytes long and what follows the first descriptor header
    fits in [CAPWAP_WTPDESC_SUBELEMENT_MAXDATA]. *)
Definition wf (d : capwap_wtpdescriptor_element) : Prop :=
  is_u8 (maxradios d) /\ is_u8 (radiosinuse d) /\ zlen (encryptsubelement d) < 256 /\
  Forall encrypt_wf (encryptsubelement d) /\ Forall wtp_desc_wf (descsubelement d) /\
  zlen (wtp_descs_wire (descsubelement d)) <= 8 + CAPWAP_WTPDESC_SUBELEMENT_MAXDATA /\
  30 <= zlen (encrypts_wire (encryptsubelement d)) + zlen (wtp_descs_wire (descsubelement d)) /\
  capwap_wtpdescriptor_element_asserts d = true.

Lemma encrypts_wire_cons w c l :
  encrypts_wire ({| wbid := w; capabilities := c |} :: l) =
  [wrap8 w] ++ be16 c ++ encrypts_wire l.
Proof. unfold encrypts_wire. rewrite fmap_cons. cbn [concat]. by rewrite wire_app. Qed.

Lemma read_encrypts_wire `{Indeterminate} l acc rest a :
  Forall encrypt_wf l -> forallb encrypt_asserts l = true ->
  zlen (encrypts_wire l) <= a < 65536 -> a - zlen (encrypts_wire l) <= zlen rest ->
  run (read_encrypts (length l) acc) (Stream a (encrypts_wire l ++ rest))
    = Done (Some (acc ++ l), Stream (a - zlen (encrypts_wire l)) rest).
Proof.
  intros Hl. revert acc a.
  induction Hl as [|[w c] l [Hw Hc] _ IH]; intros acc a Ha Hm Hr; cbn [read_encrypts length] in *.
  - rewrite app_nil_r, run_mret. cbn. by rewrite Z.sub_0_r.
  - cbn in Ha, Hw, Hc. unfold encrypt_asserts in Ha at 1; cbn in Ha. split_andb.
    rewrite encrypts_wire_cons in *. wire_norm. repeat parse_step.
    rewrite IH by (done || lia). rewrite <- app_assoc. do 3 f_equal. lia.
Qed.

Lemma wtp_descs_wire_cons v t s l :
  chars_ok s -> zlen s < 65536 ->
  wtp_descs_wire ({| vendor := v; type := t; data := s ++ [0] |} :: l) =
  be32 v ++ be16 t ++ be16 (zlen s) ++ s ++ wtp_descs_wire l.
Proof.
  intros Hs Hn. unfold wtp_descs_wire. rewrite fmap_cons. cbn [concat]. rewrite wire_app.
  unfold wtp_desc_create; cbn [vendor type data].
  rewrite strlen_terminated, wrap16_small, Nat2Z.id, take_app_length by (done || lia).
  wire_norm. done.
Qed.

Lemma wtp_read_descs_wire `{Indeterminate} l acc fuel rest :
  Forall wtp_desc_wf l -> forallb wtp_desc_asserts l = true ->
  zlen (wtp_descs_wire l) <= 8 + CAPWAP_WTPDESC_SUBELEMENT_MAXDATA ->
  zlen (wtp_descs_wire l) < Z.of_nat fuel ->
  run (wtp_read_descs fuel acc) (Stream (zlen (wtp_descs_wire l)) (wtp_descs_wire l ++ rest))
    = Done (Some (acc ++ l), Stream 0 rest).
Proof.
  intros Hl. revert acc fuel. rfc.
  induction Hl as [|[v t dt] l (Hv & s & Hd & Hs & Hn) _ IH]; intros acc fuel Ha Hm Hf;
    (destruct fuel as [|fuel]; [lia|]); cbn [wtp_read_descs].
  - rewrite app_nil_r. cbn. by destruct rest.
  - cbn in Hv, Hd, Ha. subst dt. unfold wtp_desc_asserts in Ha at 1; cbn in Ha. rfc. split_andb.
    rewrite wtp_descs_wire_cons in * by (done || lia). wire_norm.
    repeat parse_step.
    match goal with |- run _ (Stream ?a _) = _ => replace a with (zlen (wtp_descs_wire l)) by lia end.
    rewrite IH by (done || lia). by rewrite <- app_assoc.
Qed.

#[global] Program Instance codec `{Indeterminate} : Codec capwap_wtpdescriptor_element := {
  c_create := capwap_wtpdescriptor_element_create;
  c_parse := capwap_wtpdescriptor_element_parsing;
  c_clone := capwap_wtpdescriptor_element_clone;
  c_wf := wf
}.
Next Obligation.
  start_codec @capwap_wtpdescriptor_element_create @capwap_wtpdescriptor_element_parsing wf.
  unfold capwap_wtpdescriptor_element_asserts in *; cbn in *. split_andb.
  wire_norm. fold (encrypts_wire encryptsubelement0) (wtp_descs_wire descsubelement0) in *.
  repeat parse_step. rewrite Nat2Z.id.
  erewrite run_bind_some by (apply read_encrypts_wire; done || (len; lia)). cbn [app].
  match goal with
  | |- context [Stream ?a (wtp_descs_wire ?l ++ _)] => replace a with (zlen (wtp_descs_wire l)) by lia
  end.
  erewrite run_bind_some by (apply wtp_read_descs_wire; done || rfc; lia). done.
Qed.
Next Obligation.
  intros ? [mr ru es ds] Hwf. destruct Hwf as (_ & _ & _ & _ & Hds & _).
  unfold capwap_wtpdescriptor_element_create, capwap_wtpdescriptor_element_clone. cbn in *.
  do 5 f_equal. induction Hds as [|[v t dt] l (_ & s & Hd & Hs & _) _ IH]; [done|].
  cbn in Hd; subst dt. rewrite !fmap_cons, IH. cbn. by rewrite duplicate_terminated.
Qed.
Next Obligation.
  intros ? d (_ & _ & _ & _ & Hds & _). cbn. rewrite forallb_app, andb_true_iff.
  split; apply safe_concat; [by apply Forall_true|].
  eapply Forall_impl; [exact Hds|]. intros [v t dt] (_ & s & Hd & Hs & Hn). cbn in *. subst dt.
  unfold CAPWAP_WTPDESC_SUBELEMENT_MAXDATA in *.
  rewrite strlen_terminated, wrap16_small, length_take, length_app by (done || lia).
  bools. repeat split. cbn. lia.
Qed.

End WtpDescriptor.
