(* ===== verification/Elements80211a.v ===== *)
(** IEEE 802.11 binding message elements 1024 to 1035 and 1061: Add WLAN, Antenna, Assigned BSSID,
    Delete WLAN, Direct Sequence Control, Information Element, MAC Operation,
    MIC Countermeasures, Multi-Domain Capability, OFDM Control, Rate Set, RSNA
    Error Report, MAC Profile
    (src/common/capwap_element_80211_*.c).  The conventions are those of
    ElementsAc; these parsers clear the structure before they fill it. *)
From S2P Require Import Prelude Io.

Module AddWlan.

Record capwap_80211_addwlan_element := {
  radioid : Z; wlanid : Z; capability : Z; keyindex : Z; keystatus : Z; keylength : Z;
  key : option (list Z); grouptsc : list Z; qos : Z; authmode : Z; macmode : Z;
  tunnelmode : Z; suppressssid : Z; ssid : list Z
}.

Definition CAPWAP_ADD_WLAN_GROUPTSC_LENGTH : Z := 6.
Definition CAPWAP_ADD_WLAN_SSID_LENGTH : Z := 32.
#[local] Hint Unfold CAPWAP_ADD_WLAN_GROUPTSC_LENGTH
  CAPWAP_ADD_WLAN_SSID_LENGTH : capwap_rfc.

Definition capwap_80211_addwlan_element_asserts (element : capwap_80211_addwlan_element) : bool :=
  IS_VALID_RADIOID (radioid element) && IS_VALID_WLANID (wlanid element) &&
  (0 <? Z.of_nat (strlen (ssid element))) &&
  (Z.of_nat (strlen (ssid element)) <=? CAPWAP_ADD_WLAN_SSID_LENGTH).

Definition capwap_80211_addwlan_element_create (element : capwap_80211_addwlan_element) : list wcall :=
  [WriteU8 (radioid element); WriteU8 (wlanid element); WriteU16 (capability element);
   WriteU8 (keyindex element); WriteU8 (keystatus element); WriteU16 (keylength element)] ++
  match key element with
  | Some k =>
      if 0 <? keylength element then [WriteBlock (take (Z.to_nat (keylength element)) k)] else []
  | None => []
  end ++
  [WriteBlock (grouptsc element); WriteU8 (qos element); WriteU8 (authmode element);
   WriteU8 (macmode element); WriteU8 (tunnelmode element); WriteU8 (suppressssid element);
   WriteBlock (cstr (ssid element))].

Definition capwap_80211_addwlan_element_clone (element : capwap_80211_addwlan_element) : capwap_80211_addwlan_element :=
  {| radioid := radioid element; wlanid := wlanid element; capability := capability element;
     keyindex := keyindex element; keystatus := keystatus element;
     keylength := keylength element;
     key := if 0 <? keylength element then take (Z.to_nat (keylength element)) <$> key element
            else key element;
     grouptsc := grouptsc element; qos := qos element; authmode := authmode element;
     macmode := macmode element; tunnelmode := tunnelmode element;
     suppressssid := suppressssid element;
     ssid := capwap_duplicate_string (ssid element) |}.

Definition capwap_80211_addwlan_element_parsing `{Indeterminate} (fuel : nat)
    : parser (option capwap_80211_addwlan_element) :=
  length ← p_ready;
  if length <? 20 then mret None else
  radioid ← p_u8 0;
  wlanid ← p_u8 0;
  if negb (IS_VALID_RADIOID radioid) then mret None else
  if negb (IS_VALID_WLANID wlanid) then mret None else
  capability ← p_u16 0;
  keyindex ← p_u8 0;
  keystatus ← p_u8 0;
  keylength ← p_u16 0;
  key ← (if 0 <? keylength then Some <$> p_block (fresh keylength) else mret None);
  grouptsc ← p_block (zeros CAPWAP_ADD_WLAN_GROUPTSC_LENGTH);
  qos ← p_u8 0;
  authmode ← p_u8 0;
  macmode ← p_u8 0;
  tunnelmode ← p_u8 0;
  suppressssid ← p_u8 0;
  length ← p_ready;
  if (length =? 0) || (CAPWAP_ADD_WLAN_SSID_LENGTH <? length) then mret None else
  ssid ← p_block (fresh length);
  mret (Some {| radioid := radioid; wlanid := wlanid; capability := capability;
                keyindex := keyindex; keystatus := keystatus; keylength := keylength;
                key := key; grouptsc := grouptsc; qos := qos; authmode := authmode;
                macmode := macmode; tunnelmode := tunnelmode; suppressssid := suppressssid;
                ssid := ssid ++ [0] |}).

Definition wf (d : capwap_80211_addwlan_element) : Prop :=
  IS_VALID_RADIOID (radioid d) = true /\ IS_VALID_WLANID (wlanid d) = true /\
  is_u16 (capability d) /\ is_u8 (keyindex d) /\ is_u8 (keystatus d) /\ is_u16 (keylength d) /\
  match key d with
  | Some k => 0 < keylength d /\ zlen k = keylength d
  | None => keylength d = 0
  end /\
  zlen (grouptsc d) = CAPWAP_ADD_WLAN_GROUPTSC_LENGTH /\
  is_u8 (qos d) /\ is_u8 (authmode d) /\ is_u8 (macmode d) /\ is_u8 (tunnelmode d) /\
  is_u8 (suppressssid d) /\
  exists s, ssid d = s ++ [0] /\ chars_ok s /\ 1 <= zlen s <= CAPWAP_ADD_WLAN_SSID_LENGTH.

#[global] Program Instance codec `{Indeterminate} : Codec capwap_80211_addwlan_element := {
  c_create := capwap_80211_addwlan_element_create;
  c_parse := capwap_80211_addwlan_element_parsing;
  c_clone := capwap_80211_addwlan_element_clone;
  c_wf := wf
}.
Next Obligation.
  start_codec @capwap_80211_addwlan_element_create @capwap_80211_addwlan_element_parsing wf.
  split_andb. destruct_string s. destruct key0 as [k|].
  - destruct_and?. rewrite (proj2 (Z.ltb_lt 0 keylength0)), take_ge in * by lia. wire_norm. repeat parse_step. parse_done.
  - solve_codec.
Qed.
Next Obligation.
  intros ? [] Hwf. unfold wf in Hwf. cbn in *.
  destruct Hwf as (_ & _ & _ & _ & _ & _ & Hk & _ & _ & _ & _ & _ & _ & s & Hd & Hs & _).
  subst. unfold capwap_80211_addwlan_element_create, capwap_80211_addwlan_element_clone; cbn.
  rewrite duplicate_terminated by done.
  destruct key0 as [k|], (0 <? keylength0); cbn; rewrite ?take_take, ?Nat.min_id; done.
Qed.
Next Obligation.
  intros ? [] Hwf. unfold wf in Hwf. cbn in *. rfc.
  destruct Hwf as (_ & _ & _ & _ & _ & _ & Hk & ? & _ & _ & _ & _ & _ & s & Hd & Hs & ?).
  subst. rewrite forallb_app, cstr_terminated by done. cbn.
  destruct key0 as [k|]; cbn; [destruct Hk; decide_if; cbn; rewrite length_take|];
    bools; repeat split; try done; lia.
Qed.

End AddWlan.

Module Antenna.

Record capwap_80211_antenna_element :=
  { radioid : Z; diversity : Z; combiner : Z; selections : list Z }.

Definition CAPWAP_ANTENNASELECTIONS_MAXLENGTH : Z := 255.
#[local] Hint Unfold CAPWAP_ANTENNASELECTIONS_MAXLENGTH : capwap_rfc.

Definition capwap_80211_antenna_element_asserts (element : capwap_80211_antenna_element) : bool :=
  IS_VALID_RADIOID (radioid element).

Definition capwap_80211_antenna_element_create (element : capwap_80211_antenna_element) : list wcall :=
  [WriteU8 (radioid element); WriteU8 (diversity element); WriteU8 (combiner element);
   WriteU8 (zlen (selections element))] ++ (WriteU8 <$> selections element).

Definition capwap_80211_antenna_element_parsing `{Indeterminate} (fuel : nat)
    : parser (option capwap_80211_antenna_element) :=
  length ← p_ready;
  if length <? 5 then mret None else
  let length := wrap16 (length - 4) in
  if CAPWAP_ANTENNASELECTIONS_MAXLENGTH <? length then mret None else
  radioid ← p_u8 0;
  if negb (IS_VALID_RADIOID radioid) then mret None else
  diversity ← p_u8 0;
  combiner ← p_u8 0;
  count ← p_u8 indet;
  if negb (count =? length) then mret None else
  selections ← p_u8s (zeros count);
  mret (Some {| radioid := radioid; diversity := diversity; combiner := combiner;
                selections := selections |}).

Definition wf (d : capwap_80211_antenna_element) : Prop :=
  IS_VALID_RADIOID (radioid d) = true /\ is_u8 (diversity d) /\ is_u8 (combiner d) /\
  1 <= zlen (selections d) <= CAPWAP_ANTENNASELECTIONS_MAXLENGTH /\
  Forall (fun x => is_u8 x) (selections d).

#[global] Program Instance codec `{Indeterminate} : Codec capwap_80211_antenna_element := {
  c_create := capwap_80211_antenna_element_create;
  c_parse := capwap_80211_antenna_element_parsing;
  c_clone := fun d => d;
  c_wf := wf
}.
Next Obligation.
  start_codec @capwap_80211_antenna_element_create @capwap_80211_antenna_element_parsing wf.
  split_andb. wire_norm. repeat parse_step.
  erewrite run_bind_some by (apply run_u8s; [rewrite length_zeros; lia|done|lia]). parse_done.
Qed.
Next Obligation. done. Qed.
Next Obligation.
  intros ? [r v c l] _. cbn. induction l; [done|]. by cbn.
Qed.

#[global] Instance checks `{Indeterminate} :
  ChecksAsserts capwap_80211_antenna_element_parsing capwap_80211_antenna_element_asserts.
Proof.
  solve_asserts @capwap_80211_antenna_element_parsing @capwap_80211_antenna_element_asserts.
  all: apply run_bind_inv in Hrun as (? & ? & _ & Hrun); rewrite run_mret in Hrun;
    simplify_eq; cbn; lia.
Qed.

(** [capwap_element_80211_antenna_copy]: [dst] gets its own copy of the
    selections of [src]; what it held before is dropped. *)
Definition capwap_element_80211_antenna_copy (dst src : capwap_80211_antenna_element)
    : capwap_80211_antenna_element :=
  let dst := {| radioid := radioid dst; diversity := diversity dst; combiner := combiner dst;
                selections := [] |} in
  {| radioid := radioid src; diversity := diversity src; combiner := combiner src;
     selections := selections dst ++ selections src |}.

End Antenna.

Module AssignBssid.

Record capwap_80211_assignbssid_element := { radioid : Z; wlanid : Z; bssid : list Z }.

Definition capwap_80211_assignbssid_element_create (element : capwap_80211_assignbssid_element) : list wcall :=
  [WriteU8 (radioid element); WriteU8 (wlanid element); WriteBlock (bssid element)].

Definition capwap_80211_assignbssid_element_parsing `{Indeterminate} (fuel : nat)
    : parser (option capwap_80211_assignbssid_element) :=
  ready ← p_ready;
  if negb (ready =? 8) then mret None else
  radioid ← p_u8 0;
  wlanid ← p_u8 0;
  bssid ← p_block (zeros MACADDRESS_EUI48_LENGTH);
  mret (Some {| radioid := radioid; wlanid := wlanid; bssid := bssid |}).

Definition wf (d : capwap_80211_assignbssid_element) : Prop :=
  is_u8 (radioid d) /\ is_u8 (wlanid d) /\ zlen (bssid d) = MACADDRESS_EUI48_LENGTH.

#[global] Program Instance codec `{Indeterminate} : Codec capwap_80211_assignbssid_element := {
  c_create := capwap_80211_assignbssid_element_create;
  c_parse := capwap_80211_assignbssid_element_parsing;
  c_clone := fun d => d;
  c_wf := wf
}.
Next Obligation.
  codec @capwap_80211_assignbssid_element_create @capwap_80211_assignbssid_element_parsing wf.
Qed.
Next Obligation. done. Qed.
Next Obligation. solve_safe @capwap_80211_assignbssid_element_create wf. Qed.

End AssignBssid.

Module DeleteWlan.

Record capwap_80211_deletewlan_element := { radioid : Z; wlanid : Z }.

Definition capwap_80211_deletewlan_element_create (element : capwap_80211_deletewlan_element) : list wcall :=
  [WriteU8 (radioid element); WriteU8 (wlanid element)].

Definition capwap_80211_deletewlan_element_parsing `{Indeterminate} (fuel : nat)
    : parser (option capwap_80211_deletewlan_element) :=
  ready ← p_ready;
  if negb (ready =? 2) then mret None else
  radioid ← p_u8 0;
  wlanid ← p_u8 0;
  mret (Some {| radioid := radioid; wlanid := wlanid |}).

Definition wf (d : capwap_80211_deletewlan_element) : Prop :=
  is_u8 (radioid d) /\ is_u8 (wlanid d).

#[global] Program Instance codec `{Indeterminate} : Codec capwap_80211_deletewlan_element := {
  c_create := capwap_80211_deletewlan_element_create;
  c_parse := capwap_80211_deletewlan_element_parsing;
  c_clone := fun d => d;
  c_wf := wf
}.
Next Obligation.
  codec @capwap_80211_deletewlan_element_create @capwap_80211_deletewlan_element_parsing wf.
Qed.
Next Obligation. done. Qed.
Next Obligation. solve_safe @capwap_80211_deletewlan_element_create wf. Qed.

End DeleteWlan.

Module DirectSequenceControl.

Record capwap_80211_directsequencecontrol_element :=
  { radioid : Z; currentchannel : Z; currentcca : Z; enerydetectthreshold : Z }.

Definition capwap_80211_directsequencecontrol_element_asserts (element : capwap_80211_directsequencecontrol_element) : bool :=
  IS_VALID_RADIOID (radioid element).

Definition capwap_80211_directsequencecontrol_element_create (element : capwap_80211_directsequencecontrol_element) : list wcall :=
  [WriteU8 (radioid element); WriteU8 0; WriteU8 (currentchannel element);
   WriteU8 (currentcca element); WriteU32 (enerydetectthreshold element)].

Definition capwap_80211_directsequencecontrol_element_parsing `{Indeterminate} (fuel : nat)
    : parser (option capwap_80211_directsequencecontrol_element) :=
  ready ← p_ready;
  if negb (ready =? 8) then mret None else
  radioid ← p_u8 0;
  if negb (IS_VALID_RADIOID radioid) then mret None else
  _ ← p_u8 0;
  currentchannel ← p_u8 0;
  currentcca ← p_u8 0;
  enerydetectthreshold ← p_u32 0;
  mret (Some {| radioid := radioid; currentchannel := currentchannel; currentcca :=
                currentcca; enerydetectthreshold := enerydetectthreshold |}).

Definition wf (d : capwap_80211_directsequencecontrol_element) : Prop :=
  is_u8 (radioid d) /\ is_u8 (currentchannel d) /\ is_u8 (currentcca d) /\ is_u32
  (enerydetectthreshold d) /\
  capwap_80211_directsequencecontrol_element_asserts d = true.

#[global] Program Instance codec `{Indeterminate} : Codec capwap_80211_directsequencecontrol_element := {
  c_create := capwap_80211_directsequencecontrol_element_create;
  c_parse := capwap_80211_directsequencecontrol_element_parsing;
  c_clone := fun d => d;
  c_wf := wf
}.
Next Obligation.
  start_codec @capwap_80211_directsequencecontrol_element_create @capwap_80211_directsequencecontrol_element_parsing wf.
  unfold capwap_80211_directsequencecontrol_element_asserts in *; cbn in *; rfc. split_andb. solve_codec.
Qed.
Next Obligation. done. Qed.
Next Obligation. solve_safe_with @capwap_80211_directsequencecontrol_element_create wf @capwap_80211_directsequencecontrol_element_asserts. Qed.

#[global] Instance checks `{Indeterminate} :
  ChecksAsserts capwap_80211_directsequencecontrol_element_parsing capwap_80211_directsequencecontrol_element_asserts.
Proof.
  solve_asserts @capwap_80211_directsequencecontrol_element_parsing @capwap_80211_directsequencecontrol_element_asserts.
Qed.

End DirectSequenceControl.

Module Ie.

Record capwap_80211_ie_element :=
  { radioid : Z; wlanid : Z; flags : Z; ielength : Z; ie : list Z }.

Definition capwap_80211_ie_element_create (element : capwap_80211_ie_element) : list wcall :=
  [WriteU8 (radioid element); WriteU8 (wlanid element); WriteU8 (flags element);
   WriteBlock (take (Z.to_nat (ielength element)) (ie element))].

Definition capwap_80211_ie_element_clone (element : capwap_80211_ie_element) : capwap_80211_ie_element :=
  {| radioid := radioid element; wlanid := wlanid element; flags := flags element;
     ielength := ielength element;
     ie := take (Z.to_nat (ielength element)) (ie element) |}.

Definition capwap_80211_ie_element_parsing `{Indeterminate} (fuel : nat)
    : parser (option capwap_80211_ie_element) :=
  length ← p_ready;
  if length <? 4 then mret None else
  let length := wrap16 (length - 3) in
  radioid ← p_u8 0;
  wlanid ← p_u8 0;
  flags ← p_u8 0;
  ie ← p_block (fresh length);
  mret (Some {| radioid := radioid; wlanid := wlanid; flags := flags; ielength := length;
                ie := ie |}).

Definition wf (d : capwap_80211_ie_element) : Prop :=
  is_u8 (radioid d) /\ is_u8 (wlanid d) /\ is_u8 (flags d) /\
  1 <= ielength d /\ zlen (ie d) = ielength d.

#[global] Program Instance codec `{Indeterminate} : Codec capwap_80211_ie_element := {
  c_create := capwap_80211_ie_element_create;
  c_parse := capwap_80211_ie_element_parsing;
  c_clone := capwap_80211_ie_element_clone;
  c_wf := wf
}.
Next Obligation.
  start_codec @capwap_80211_ie_element_create @capwap_80211_ie_element_parsing wf.
  rewrite take_ge in * by lia. wire_norm. repeat parse_step. parse_done.
Qed.
Next Obligation.
  solve_clone @capwap_80211_ie_element_clone wf.
Qed.
Next Obligation. solve_safe @capwap_80211_ie_element_create wf. Qed.

End Ie.

Module MacOperation.

Record capwap_80211_macoperation_element := {
  radioid : Z; rtsthreshold : Z; shortretry : Z; longretry : Z; fragthreshold : Z;
  txmsdulifetime : Z; rxmsdulifetime : Z
}.

Definition capwap_80211_macoperation_element_create (element : capwap_80211_macoperation_element) : list wcall :=
  [WriteU8 (radioid element); WriteU8 0; WriteU16 (rtsthreshold element);
   WriteU8 (shortretry element); WriteU8 (longretry element);
   WriteU16 (fragthreshold element); WriteU32 (txmsdulifetime element);
   WriteU32 (rxmsdulifetime element)].

Definition capwap_80211_macoperation_element_parsing `{Indeterminate} (fuel : nat)
    : parser (option capwap_80211_macoperation_element) :=
  ready ← p_ready;
  if negb (ready =? 16) then mret None else
  radioid ← p_u8 0;
  _ ← p_u8 0;
  rtsthreshold ← p_u16 0;
  shortretry ← p_u8 0;
  longretry ← p_u8 0;
  fragthreshold ← p_u16 0;
  txmsdulifetime ← p_u32 0;
  rxmsdulifetime ← p_u32 0;
  mret (Some {| radioid := radioid; rtsthreshold := rtsthreshold; shortretry :=
                shortretry; longretry := longretry; fragthreshold :=
                fragthreshold; txmsdulifetime := txmsdulifetime;
                rxmsdulifetime := rxmsdulifetime |}).

Definition wf (d : capwap_80211_macoperation_element) : Prop :=
  is_u8 (radioid d) /\ is_u16 (rtsthreshold d) /\ is_u8 (shortretry d) /\ is_u8
  (longretry d) /\ is_u16 (fragthreshold d) /\ is_u32 (txmsdulifetime d) /\ is_u32
  (rxmsdulifetime d).

#[global] Program Instance codec `{Indeterminate} : Codec capwap_80211_macoperation_element := {
  c_create := capwap_80211_macoperation_element_create;
  c_parse := capwap_80211_macoperation_element_parsing;
  c_clone := fun d => d;
  c_wf := wf
}.
Next Obligation.
  codec @capwap_80211_macoperation_element_create @capwap_80211_macoperation_element_parsing wf.
Qed.
Next Obligation. done. Qed.
Next Obligation. solve_safe @capwap_80211_macoperation_element_create wf. Qed.

End MacOperation.

Module MicCountermeasures.

Record capwap_80211_miccountermeasures_element := { radioid : Z; wlanid : Z; address : list Z }.

Definition capwap_80211_miccountermeasures_element_create (element : capwap_80211_miccountermeasures_element) : list wcall :=
  [WriteU8 (radioid element); WriteU8 (wlanid element); WriteBlock (address element)].

Definition capwap_80211_miccountermeasures_element_parsing `{Indeterminate} (fuel : nat)
    : parser (option capwap_80211_miccountermeasures_element) :=
  ready ← p_ready;
  if negb (ready =? 8) then mret None else
  radioid ← p_u8 0;
  wlanid ← p_u8 0;
  address ← p_block (zeros MACADDRESS_EUI48_LENGTH);
  mret (Some {| radioid := radioid; wlanid := wlanid; address := address |}).

Definition wf (d : capwap_80211_miccountermeasures_element) : Prop :=
  is_u8 (radioid d) /\ is_u8 (wlanid d) /\ zlen (address d) = MACADDRESS_EUI48_LENGTH.

#[global] Program Instance codec `{Indeterminate} : Codec capwap_80211_miccountermeasures_element := {
  c_create := capwap_80211_miccountermeasures_element_create;
  c_parse := capwap_80211_miccountermeasures_element_parsing;
  c_clone := fun d => d;
  c_wf := wf
}.
Next Obligation.
  codec @capwap_80211_miccountermeasures_element_create @capwap_80211_miccountermeasures_element_parsing wf.
Qed.
Next Obligation. done. Qed.
Next Obligation. solve_safe @capwap_80211_miccountermeasures_element_create wf. Qed.

End MicCountermeasures.

Module MultiDomainCapability.

Record capwap_80211_multidomaincapability_element :=
  { radioid : Z; firstchannel : Z; numberchannels : Z; maxtxpowerlevel : Z }.

Definition capwap_80211_multidomaincapability_element_create (element : capwap_80211_multidomaincapability_element) : list wcall :=
  [WriteU8 (radioid element); WriteU8 0; WriteU16 (firstchannel element);
   WriteU16 (numberchannels element); WriteU16 (maxtxpowerlevel element)].

Definition capwap_80211_multidomaincapability_element_parsing `{Indeterminate} (fuel : nat)
    : parser (option capwap_80211_multidomaincapability_element) :=
  ready ← p_ready;
  if negb (ready =? 8) then mret None else
  radioid ← p_u8 0;
  _ ← p_u8 0;
  firstchannel ← p_u16 0;
  numberchannels ← p_u16 0;
  maxtxpowerlevel ← p_u16 0;
  mret (Some {| radioid := radioid; firstchannel := firstchannel; numberchannels :=
                numberchannels; maxtxpowerlevel := maxtxpowerlevel |}).

Definition wf (d : capwap_80211_multidomaincapability_element) : Prop :=
  is_u8 (radioid d) /\ is_u16 (firstchannel d) /\ is_u16 (numberchannels d) /\ is_u16
  (maxtxpowerlevel d).

#[global] Program Instance codec `{Indeterminate} : Codec capwap_80211_multidomaincapability_element := {
  c_create := capwap_80211_multidomaincapability_element_create;
  c_parse := capwap_80211_multidomaincapability_element_parsing;
  c_clone := fun d => d;
  c_wf := wf
}.
Next Obligation.
  codec @capwap_80211_multidomaincapability_element_create @capwap_80211_multidomaincapability_element_parsing wf.
Qed.
Next Obligation. done. Qed.
Next Obligation. solve_safe @capwap_80211_multidomaincapability_element_create wf. Qed.

End MultiDomainCapability.

Module OfdmControl.

Record capwap_80211_ofdmcontrol_element :=
  { radioid : Z; currentchannel : Z; bandsupport : Z; tithreshold : Z }.

Definition capwap_80211_ofdmcontrol_element_create (element : capwap_80211_ofdmcontrol_element) : list wcall :=
  [WriteU8 (radioid element); WriteU8 0; WriteU8 (currentchannel element);
   WriteU8 (bandsupport element); WriteU32 (tithreshold element)].

Definition capwap_80211_ofdmcontrol_element_parsing `{Indeterminate} (fuel : nat)
    : parser (option capwap_80211_ofdmcontrol_element) :=
  ready ← p_ready;
  if negb (ready =? 8) then mret None else
  radioid ← p_u8 0;
  _ ← p_u8 0;
  currentchannel ← p_u8 0;
  bandsupport ← p_u8 0;
  tithreshold ← p_u32 0;
  mret (Some {| radioid := radioid; currentchannel := currentchannel; bandsupport :=
                bandsupport; tithreshold := tithreshold |}).

Definition wf (d : capwap_80211_ofdmcontrol_element) : Prop :=
  is_u8 (radioid d) /\ is_u8 (currentchannel d) /\ is_u8 (bandsupport d) /\ is_u32
  (tithreshold d).

#[global] Program Instance codec `{Indeterminate} : Codec capwap_80211_ofdmcontrol_element := {
  c_create := capwap_80211_ofdmcontrol_element_create;
  c_parse := capwap_80211_ofdmcontrol_element_parsing;
  c_clone := fun d => d;
  c_wf := wf
}.
Next Obligation.
  codec @capwap_80211_ofdmcontrol_element_create @capwap_80211_ofdmcontrol_element_parsing wf.
Qed.
Next Obligation. done. Qed.
Next Obligation. solve_safe @capwap_80211_ofdmcontrol_element_create wf. Qed.

End OfdmControl.

Module RateSet.

Record capwap_80211_rateset_element := { radioid : Z; ratesetcount : Z; rateset : list Z }.

Definition CAPWAP_RATESET_MAXLENGTH : Z := 8.
#[local] Hint Unfold CAPWAP_RATESET_MAXLENGTH : capwap_rfc.

Definition capwap_80211_rateset_element_create (element : capwap_80211_rateset_element) : list wcall :=
  [WriteU8 (radioid element); WriteBlock (take (Z.to_nat (ratesetcount element)) (rateset element))].

Definition capwap_80211_rateset_element_parsing `{Indeterminate} (fuel : nat)
    : parser (option capwap_80211_rateset_element) :=
  length ← p_ready;
  if length <? 3 then mret None else
  let length := wrap16 (length - 1) in
  if CAPWAP_RATESET_MAXLENGTH <? length then mret None else
  radioid ← p_u8 0;
  rates ← p_block (zeros length);
  mret (Some {| radioid := radioid; ratesetcount := wrap8 length;
                rateset := rates ++ zeros (CAPWAP_RATESET_MAXLENGTH - length) |}).

Definition wf (d : capwap_80211_rateset_element) : Prop :=
  is_u8 (radioid d) /\ 2 <= ratesetcount d <= CAPWAP_RATESET_MAXLENGTH /\
  exists rates, zlen rates = ratesetcount d /\
    rateset d = rates ++ zeros (CAPWAP_RATESET_MAXLENGTH - ratesetcount d).

#[global] Program Instance codec `{Indeterminate} : Codec capwap_80211_rateset_element := {
  c_create := capwap_80211_rateset_element_create;
  c_parse := capwap_80211_rateset_element_parsing;
  c_clone := fun d => d;
  c_wf := wf
}.
Next Obligation.
  start_codec @capwap_80211_rateset_element_create @capwap_80211_rateset_element_parsing wf.
  match goal with E : exists _, _ |- _ => destruct E as (rates & Hn & ->) end.
  rewrite take_app_le, take_ge in * by lia. wire_norm. repeat parse_step.
  rewrite Hn, wrap8_small by lia. parse_done.
Qed.
Next Obligation. done. Qed.
Next Obligation.
  intros ? [] Hwf. unfold wf in Hwf. cbn in *. rfc.
  destruct Hwf as (_ & ? & rates & Hn & ->). bools. repeat split.
  rewrite length_take, length_app. lia.
Qed.

End RateSet.

Module RsnaErrorReport.

Record capwap_80211_rsnaerrorreport_element := {
  client : list Z; bssid : list Z; radioid : Z; wlanid : Z; tkipicverrors : Z;
  tkiplocalmicfailure : Z; tkipremotemicfailure : Z; ccmpreplays : Z; ccmpdecrypterrors
  : Z; tkipreplays : Z
}.

Definition capwap_80211_rsnaerrorreport_element_create (element : capwap_80211_rsnaerrorreport_element) : list wcall :=
  [WriteBlock (client element); WriteBlock (bssid element); WriteU8 (radioid element);
   WriteU8 (wlanid element); WriteU16 0; WriteU32 (tkipicverrors element);
   WriteU32 (tkiplocalmicfailure element); WriteU32 (tkipremotemicfailure element);
   WriteU32 (ccmpreplays element); WriteU32 (ccmpdecrypterrors element);
   WriteU32 (tkipreplays element)].

Definition capwap_80211_rsnaerrorreport_element_parsing `{Indeterminate} (fuel : nat)
    : parser (option capwap_80211_rsnaerrorreport_element) :=
  ready ← p_ready;
  if negb (ready =? 40) then mret None else
  client ← p_block (zeros MACADDRESS_EUI48_LENGTH);
  bssid ← p_block (zeros MACADDRESS_EUI48_LENGTH);
  radioid ← p_u8 0;
  wlanid ← p_u8 0;
  _ ← p_u16 0;
  tkipicverrors ← p_u32 0;
  tkiplocalmicfailure ← p_u32 0;
  tkipremotemicfailure ← p_u32 0;
  ccmpreplays ← p_u32 0;
  ccmpdecrypterrors ← p_u32 0;
  tkipreplays ← p_u32 0;
  mret (Some {| client := client; bssid := bssid; radioid := radioid; wlanid := wlanid;
                tkipicverrors := tkipicverrors; tkiplocalmicfailure :=
                tkiplocalmicfailure; tkipremotemicfailure :=
                tkipremotemicfailure; ccmpreplays := ccmpreplays;
                ccmpdecrypterrors := ccmpdecrypterrors; tkipreplays :=
                tkipreplays |}).

Definition wf (d : capwap_80211_rsnaerrorreport_element) : Prop :=
  zlen (client d) = MACADDRESS_EUI48_LENGTH /\ zlen (bssid d) = MACADDRESS_EUI48_LENGTH
  /\ is_u8 (radioid d) /\ is_u8 (wlanid d) /\ is_u32 (tkipicverrors d) /\ is_u32
  (tkiplocalmicfailure d) /\ is_u32 (tkipremotemicfailure d) /\ is_u32 (ccmpreplays d)
  /\ is_u32 (ccmpdecrypterrors d) /\ is_u32 (tkipreplays d).

#[global] Program Instance codec `{Indeterminate} : Codec capwap_80211_rsnaerrorreport_element := {
  c_create := capwap_80211_rsnaerrorreport_element_create;
  c_parse := capwap_80211_rsnaerrorreport_element_parsing;
  c_clone := fun d => d;
  c_wf := wf
}.
Next Obligation.
  codec @capwap_80211_rsnaerrorreport_element_create @capwap_80211_rsnaerrorreport_element_parsing wf.
Qed.
Next Obligation. done. Qed.
Next Obligation. solve_safe @capwap_80211_rsnaerrorreport_element_create wf. Qed.

End RsnaErrorReport.

Module MacProfile.

Record capwap_80211_mac_profile_element := { mac_profile : Z }.

Definition capwap_80211_mac_profile_element_create (element : capwap_80211_mac_profile_element) : list wcall :=
  [WriteU8 (mac_profile element)].

Definition capwap_80211_mac_profile_element_parsing `{Indeterminate} (fuel : nat)
    : parser (option capwap_80211_mac_profile_element) :=
  ready ← p_ready;
  if negb (ready =? 1) then mret None else
  mac_profile ← p_u8 0;
  mret (Some {| mac_profile := mac_profile |}).

Definition wf (d : capwap_80211_mac_profile_element) : Prop :=
  is_u8 (mac_profile d).

#[global] Program Instance codec `{Indeterminate} : Codec capwap_80211_mac_profile_element := {
  c_create := capwap_80211_mac_profile_element_create;
  c_parse := capwap_80211_mac_profile_element_parsing;
  c_clone := fun d => d;
  c_wf := wf
}.
Next Obligation.
  codec @capwap_80211_mac_profile_element_create @capwap_80211_mac_profile_element_parsing wf.
Qed.
Next Obligation. done. Qed.
Next Obligation. solve_safe @capwap_80211_mac_profile_element_create wf. Qed.

End MacProfile.
