(* ===== verification/Elements80211b.v ===== *)
(** IEEE 802.11 binding message elements 1036 to 1048 and 1060, and the 802.11 elements of the
    vendor namespace 18681: Station, Station QoS Profile, Station Session Key,
    Statistics, Supported Rates, Tx Power, Tx Power Level, Update Station QoS,
    Update WLAN, WTP QoS, WTP Radio Configuration, WTP Radio Fail Alarm, WTP
    Radio Information, Supported MAC Profiles; 802.11n Radio Configuration and
    Station Information, Encryption Capability, Update Key
    (src/common/capwap_element_80211_*.c).  The conventions are those of
    ElementsAc; most of these parsers clear the structure before they fill it.
    Last, vendor element 18681/2, WTP Timestamp
    (src/common/capwap_element_vendor_travelping_wtp_timestamp.c): a [timeval] sent
    as an NTP time, whose fraction is converted in IEEE 754 double precision,
    computed here with the executable floats of SpecFloat. *)
From Stdlib Require Import SpecFloat.
From S2P Require Import Prelude Io Elements80211a.
Module Station.

Record capwap_80211_station_element := {
  radioid : Z; associationid : Z; flags : Z; address : list Z; capabilities : Z; wlanid
  : Z; supportedratescount : Z; supportedrates : list Z
}.

Definition CAPWAP_STATION_RATES_MAXLENGTH : Z := 128.
#[local] Hint Unfold CAPWAP_STATION_RATES_MAXLENGTH : capwap_rfc.

Definition capwap_80211_station_element_create (element : capwap_80211_station_element) : list wcall :=
  [WriteU8 (radioid element); WriteU16 (associationid element); WriteU8 (flags element);
   WriteBlock (address element); WriteU16 (capabilities element); WriteU8 (wlanid element);
   WriteBlock (take (Z.to_nat (supportedratescount element)) (supportedrates element))].

Definition capwap_80211_station_element_parsing `{Indeterminate} (fuel : nat)
    : parser (option capwap_80211_station_element) :=
  length ← p_ready;
  if length <? 14 then mret None else
  let length := wrap16 (length - 13) in
  if CAPWAP_STATION_RATES_MAXLENGTH <? length then mret None else
  radioid ← p_u8 0;
  associationid ← p_u16 0;
  flags ← p_u8 0;
  address ← p_block (zeros MACADDRESS_EUI48_LENGTH);
  capabilities ← p_u16 0;
  wlanid ← p_u8 0;
  rates ← p_block (zeros length);
  mret (Some {| radioid := radioid; associationid := associationid; flags := flags;
                address := address; capabilities := capabilities; wlanid := wlanid;
                supportedratescount := wrap8 length;
                supportedrates := rates ++ zeros (CAPWAP_STATION_RATES_MAXLENGTH - length) |}).

Definition wf (d : capwap_80211_station_element) : Prop :=
  is_u8 (radioid d) /\ is_u16 (associationid d) /\ is_u8 (flags d) /\
  zlen (address d) = MACADDRESS_EUI48_LENGTH /\ is_u16 (capabilities d) /\ is_u8 (wlanid d) /\
  1 <= supportedratescount d <= CAPWAP_STATION_RATES_MAXLENGTH /\
  exists rates, zlen rates = supportedratescount d /\
    supportedrates d = rates ++ zeros (CAPWAP_STATION_RATES_MAXLENGTH - supportedratescount d).

#[global] Program Instance codec `{Indeterminate} : Codec capwap_80211_station_element := {
  c_create := capwap_80211_station_element_create;
  c_parse := capwap_80211_station_element_parsing;
  c_clone := fun d => d;
  c_wf := wf
}.
Next Obligation.
  start_codec @capwap_80211_station_element_create @capwap_80211_station_element_parsing wf.
  match goal with E : exists _, _ |- _ => destruct E as (rates & Hn & ->) end.
  rewrite take_app_le, take_ge in * by lia. wire_norm. repeat parse_step.
  rewrite wrap8_small by lia. parse_done.
Qed.
Next Obligation. done. Qed.
Next Obligation.
  intros ? [] Hwf. unfold wf in Hwf. cbn in *. rfc.
  destruct Hwf as (_ & _ & _ & ? & _ & _ & ? & rates & Hn & ->). bools. repeat split; [lia|].
  rewrite length_take, length_app. lia.
Qed.

End Station.

Module StationQos.

Record capwap_80211_stationqos_element := { address : list Z; priority : Z }.

Definition capwap_80211_stationqos_element_create (element : capwap_80211_stationqos_element) : list wcall :=
  [WriteBlock (address element); WriteU8 0; WriteU8 (priority element)].

Definition capwap_80211_stationqos_element_parsing `{Indeterminate} (fuel : nat)
    : parser (option capwap_80211_stationqos_element) :=
  ready ← p_ready;
  if negb (ready =? 8) then mret None else
  address ← p_block (zeros MACADDRESS_EUI48_LENGTH);
  _ ← p_u8 0;
  priority ← p_u8 0;
  mret (Some {| address := address; priority := priority |}).

Definition wf (d : capwap_80211_stationqos_element) : Prop :=
  zlen (address d) = MACADDRESS_EUI48_LENGTH /\ is_u8 (priority d).

#[global] Program Instance codec `{Indeterminate} : Codec capwap_80211_stationqos_element := {
  c_create := capwap_80211_stationqos_element_create;
  c_parse := capwap_80211_stationqos_element_parsing;
  c_clone := fun d => d;
  c_wf := wf
}.
Next Obligation.
  codec @capwap_80211_stationqos_element_create @capwap_80211_stationqos_element_parsing wf.
Qed.
Next Obligation. done. Qed.
Next Obligation. solve_safe @capwap_80211_stationqos_element_create wf. Qed.

End StationQos.

Module StationKey.

Record capwap_80211_stationkey_element := {
  address : list Z; flags : Z; pairwisetsc : list Z; pairwisersc : list Z; keylength :
  Z; key : list Z
}.

Definition CAPWAP_STATION_SESSION_KEY_PAIRWISE_TSC_LENGTH : Z := 6.
Definition CAPWAP_STATION_SESSION_KEY_PAIRWISE_RSC_LENGTH : Z := 6.
#[local] Hint Unfold CAPWAP_STATION_SESSION_KEY_PAIRWISE_TSC_LENGTH
  CAPWAP_STATION_SESSION_KEY_PAIRWISE_RSC_LENGTH : capwap_rfc.

Definition capwap_80211_stationkey_element_create (element : capwap_80211_stationkey_element) : list wcall :=
  [WriteBlock (address element); WriteU16 (flags element); WriteBlock (pairwisetsc element);
   WriteBlock (pairwisersc element);
   WriteBlock (take (Z.to_nat (keylength element)) (key element))].

Definition capwap_80211_stationkey_element_clone (element : capwap_80211_stationkey_element) : capwap_80211_stationkey_element :=
  {| address := address element; flags := flags element; pairwisetsc := pairwisetsc element;
     pairwisersc := pairwisersc element; keylength := keylength element;
     key := if 0 <? keylength element then take (Z.to_nat (keylength element)) (key element)
            else key element |}.

Definition capwap_80211_stationkey_element_parsing `{Indeterminate} (fuel : nat)
    : parser (option capwap_80211_stationkey_element) :=
  length ← p_ready;
  if length <? 25 then mret None else
  let keylength := wrap16 (length - 20) in
  address ← p_block (zeros MACADDRESS_EUI48_LENGTH);
  flags ← p_u16 0;
  pairwisetsc ← p_block (zeros CAPWAP_STATION_SESSION_KEY_PAIRWISE_TSC_LENGTH);
  pairwisersc ← p_block (zeros CAPWAP_STATION_SESSION_KEY_PAIRWISE_RSC_LENGTH);
  key ← p_block (fresh keylength);
  mret (Some {| address := address; flags := flags; pairwisetsc := pairwisetsc;
                pairwisersc := pairwisersc; keylength := keylength; key := key |}).

Definition wf (d : capwap_80211_stationkey_element) : Prop :=
  zlen (address d) = MACADDRESS_EUI48_LENGTH /\ is_u16 (flags d) /\
  zlen (pairwisetsc d) = CAPWAP_STATION_SESSION_KEY_PAIRWISE_TSC_LENGTH /\
  zlen (pairwisersc d) = CAPWAP_STATION_SESSION_KEY_PAIRWISE_RSC_LENGTH /\
  5 <= keylength d /\ zlen (key d) = keylength d.

#[global] Program Instance codec `{Indeterminate} : Codec capwap_80211_stationkey_element := {
  c_create := capwap_80211_stationkey_element_create;
  c_parse := capwap_80211_stationkey_element_parsing;
  c_clone := capwap_80211_stationkey_element_clone;
  c_wf := wf
}.
Next Obligation.
  start_codec @capwap_80211_stationkey_element_create @capwap_80211_stationkey_element_parsing wf.
  rewrite take_ge in * by lia. wire_norm. repeat parse_step. parse_done.
Qed.
Next Obligation.
  solve_clone @capwap_80211_stationkey_element_clone wf.
Qed.
Next Obligation. solve_safe @capwap_80211_stationkey_element_create wf. Qed.

End StationKey.

(** [create] calls [write_block(handle, NULL, 3)] for the reserved bytes, which
    the packet manager cannot serve: there is no codec for this element. *)
Module Statistics.

Record capwap_80211_statistics_element := {
  radioid : Z; txfragment : Z; multicasttx : Z; failed : Z; retry : Z; multipleretry : Z;
  frameduplicate : Z; rtssuccess : Z; rtsfailure : Z; ackfailure : Z; rxfragment : Z;
  multicastrx : Z; fcserror : Z; txframe : Z; decryptionerror : Z;
  discardedqosfragment : Z; associatedstation : Z; qoscfpollsreceived : Z;
  qoscfpollsunused : Z; qoscfpollsunusable : Z
}.

Definition capwap_80211_statistics_element_create (element : capwap_80211_statistics_element)
    : list wcall :=
  [WriteU8 (radioid element); WriteNull 3; WriteU32 (txfragment element);
   WriteU32 (multicasttx element); WriteU32 (failed element); WriteU32 (retry element);
   WriteU32 (multipleretry element); WriteU32 (frameduplicate element);
   WriteU32 (rtssuccess element); WriteU32 (rtsfailure element);
   WriteU32 (ackfailure element); WriteU32 (rxfragment element);
   WriteU32 (multicastrx element); WriteU32 (fcserror element); WriteU32 (txframe element);
   WriteU32 (decryptionerror element); WriteU32 (discardedqosfragment element);
   WriteU32 (associatedstation element); WriteU32 (qoscfpollsreceived element);
   WriteU32 (qoscfpollsunused element); WriteU32 (qoscfpollsunusable element)].

(** [read_block(handle, NULL, 3)] skips three bytes. *)
Definition capwap_80211_statistics_element_parsing `{Indeterminate} (fuel : nat)
    : parser (option capwap_80211_statistics_element) :=
  ready ← p_ready;
  if negb (ready =? 80) then mret None else
  radioid ← p_u8 0;
  _ ← p_block (zeros 3);
  txfragment ← p_u32 0;
  multicasttx ← p_u32 0;
  failed ← p_u32 0;
  retry ← p_u32 0;
  multipleretry ← p_u32 0;
  frameduplicate ← p_u32 0;
  rtssuccess ← p_u32 0;
  rtsfailure ← p_u32 0;
  ackfailure ← p_u32 0;
  rxfragment ← p_u32 0;
  multicastrx ← p_u32 0;
  fcserror ← p_u32 0;
  txframe ← p_u32 0;
  decryptionerror ← p_u32 0;
  discardedqosfragment ← p_u32 0;
  associatedstation ← p_u32 0;
  qoscfpollsreceived ← p_u32 0;
  qoscfpollsunused ← p_u32 0;
  qoscfpollsunusable ← p_u32 0;
  mret (Some {| radioid := radioid; txfragment := txfragment; multicasttx := multicasttx;
                failed := failed; retry := retry; multipleretry :=
                multipleretry; frameduplicate := frameduplicate;
                rtssuccess := rtssuccess; rtsfailure := rtsfailure;
                ackfailure := ackfailure; rxfragment := rxfragment;
                multicastrx := multicastrx; fcserror := fcserror; txframe
                := txframe; decryptionerror := decryptionerror;
                discardedqosfragment := discardedqosfragment;
                associatedstation := associatedstation; qoscfpollsreceived
                := qoscfpollsreceived; qoscfpollsunused :=
                qoscfpollsunused; qoscfpollsunusable := qoscfpollsunusable |}).

Lemma create_stops `{WriteOps H} (h : H) element :
  exec h (capwap_80211_statistics_element_create element) = None.
Proof. cbn [capwap_80211_statistics_element_create exec exec_call]. by destruct (write_u8 h _). Qed.

End Statistics.

Module SupportedMacProfiles.

Record capwap_80211_supported_mac_profiles_element :=
  { supported_mac_profilescount : Z; supported_mac_profiles : list Z }.

Definition capwap_80211_supported_mac_profiles_element_create (element : capwap_80211_supported_mac_profiles_element) : list wcall :=
  [WriteU8 (supported_mac_profilescount element);
   WriteBlock (take (Z.to_nat (supported_mac_profilescount element))
                 (supported_mac_profiles element))].

Definition capwap_80211_supported_mac_profiles_element_clone (element : capwap_80211_supported_mac_profiles_element) : capwap_80211_supported_mac_profiles_element :=
  {| supported_mac_profilescount := supported_mac_profilescount element;
     supported_mac_profiles := take (Z.to_nat (supported_mac_profilescount element))
                                 (supported_mac_profiles element) |}.

Definition capwap_80211_supported_mac_profiles_element_parsing `{Indeterminate} (fuel : nat)
    : parser (option capwap_80211_supported_mac_profiles_element) :=
  length ← p_ready;
  if (length <? 1) || (255 <? length) then mret None else
  let length := wrap16 (length - 1) in
  supported_mac_profilescount ← p_u8 0;
  if negb (supported_mac_profilescount =? length) then mret None else
  supported_mac_profiles ← p_block (zeros length);
  mret (Some {| supported_mac_profilescount := supported_mac_profilescount;
                supported_mac_profiles := supported_mac_profiles |}).

Definition wf (d : capwap_80211_supported_mac_profiles_element) : Prop :=
  1 <= supported_mac_profilescount d <= 254 /\
  zlen (supported_mac_profiles d) = supported_mac_profilescount d.

#[global] Program Instance codec `{Indeterminate} : Codec capwap_80211_supported_mac_profiles_element := {
  c_create := capwap_80211_supported_mac_profiles_element_create;
  c_parse := capwap_80211_supported_mac_profiles_element_parsing;
  c_clone := capwap_80211_supported_mac_profiles_element_clone;
  c_wf := wf
}.
Next Obligation.
  start_codec @capwap_80211_supported_mac_profiles_element_create @capwap_80211_supported_mac_profiles_element_parsing wf.
  rewrite take_ge in * by lia. wire_norm. repeat parse_step. parse_done.
Qed.
Next Obligation.
  solve_clone @capwap_80211_supported_mac_profiles_element_clone wf.
Qed.
Next Obligation. solve_safe @capwap_80211_supported_mac_profiles_element_create wf. Qed.

End SupportedMacProfiles.

Module SupportedRates.

Record capwap_80211_supportedrates_element :=
  { radioid : Z; supportedratescount : Z; supportedrates : list Z }.

Definition CAPWAP_SUPPORTEDRATES_MAXLENGTH : Z := 8.
#[local] Hint Unfold RateSet.CAPWAP_RATESET_MAXLENGTH
  CAPWAP_SUPPORTEDRATES_MAXLENGTH : capwap_rfc.

Definition capwap_80211_supportedrates_element_create (element : capwap_80211_supportedrates_element) : list wcall :=
  [WriteU8 (radioid element); WriteBlock (take (Z.to_nat (supportedratescount element)) (supportedrates element))].

Definition capwap_80211_supportedrates_element_parsing `{Indeterminate} (fuel : nat)
    : parser (option capwap_80211_supportedrates_element) :=
  length ← p_ready;
  if length <? 3 then mret None else
  let length := wrap16 (length - 1) in
  if RateSet.CAPWAP_RATESET_MAXLENGTH <? length then mret None else
  radioid ← p_u8 0;
  rates ← p_block (zeros length);
  mret (Some {| radioid := radioid; supportedratescount := wrap8 length;
                supportedrates := rates ++ zeros (CAPWAP_SUPPORTEDRATES_MAXLENGTH - length) |}).

Definition wf (d : capwap_80211_supportedrates_element) : Prop :=
  is_u8 (radioid d) /\ 2 <= supportedratescount d <= CAPWAP_SUPPORTEDRATES_MAXLENGTH /\
  exists rates, zlen rates = supportedratescount d /\
    supportedrates d = rates ++ zeros (CAPWAP_SUPPORTEDRATES_MAXLENGTH - supportedratescount d).

#[global] Program Instance codec `{Indeterminate} : Codec capwap_80211_supportedrates_element := {
  c_create := capwap_80211_supportedrates_element_create;
  c_parse := capwap_80211_supportedrates_element_parsing;
  c_clone := fun d => d;
  c_wf := wf
}.
Next Obligation.
  start_codec @capwap_80211_supportedrates_element_create @capwap_80211_supportedrates_element_parsing wf.
  match goal with E : exists _, _ |- _ => destruct E as (rates & Hn & ->) end.
  rewrite take_app_le, take_ge in * by lia. wire_norm. repeat parse_step.
  rewrite Hn, wrap8_small by lia. parse_done.
Qed.
Next Obligation. done. Qed.
Next Obligation.
  intros ? [] Hwf. unfold wf in Hwf. cbn in *. rfc.
  destruct Hwf as (_ & ? & rates & Hn & ->). bools. repeat split.
  rewrite length_take, length_app. lia.
Qed.

End SupportedRates.

Module TxPower.

Record capwap_80211_txpower_element := { radioid : Z; currenttxpower : Z }.

Definition capwap_80211_txpower_element_create (element : capwap_80211_txpower_element) : list wcall :=
  [WriteU8 (radioid element); WriteU8 0; WriteU16 (currenttxpower element)].

Definition capwap_80211_txpower_element_parsing `{Indeterminate} (fuel : nat)
    : parser (option capwap_80211_txpower_element) :=
  ready ← p_ready;
  if negb (ready =? 4) then mret None else
  radioid ← p_u8 0;
  _ ← p_u8 0;
  currenttxpower ← p_u16 0;
  mret (Some {| radioid := radioid; currenttxpower := currenttxpower |}).

Definition wf (d : capwap_80211_txpower_element) : Prop :=
  is_u8 (radioid d) /\ is_u16 (currenttxpower d).

#[global] Program Instance codec `{Indeterminate} : Codec capwap_80211_txpower_element := {
  c_create := capwap_80211_txpower_element_create;
  c_parse := capwap_80211_txpower_element_parsing;
  c_clone := fun d => d;
  c_wf := wf
}.
Next Obligation.
  codec @capwap_80211_txpower_element_create @capwap_80211_txpower_element_parsing wf.
Qed.
Next Obligation. done. Qed.
Next Obligation. solve_safe @capwap_80211_txpower_element_create wf. Qed.

End TxPower.

Module TxPowerLevel.

Record capwap_80211_txpowerlevel_element := { radioid : Z; numlevels : Z; powerlevel : list Z }.

Definition CAPWAP_TXPOWERLEVEL_MAXLENGTH : Z := 8.
#[local] Hint Unfold CAPWAP_TXPOWERLEVEL_MAXLENGTH : capwap_rfc.

Definition capwap_80211_txpowerlevel_element_create (element : capwap_80211_txpowerlevel_element) : list wcall :=
  [WriteU8 (radioid element); WriteU8 (numlevels element)] ++
  (WriteU16 <$> take (Z.to_nat (numlevels element)) (powerlevel element)).

Definition capwap_80211_txpowerlevel_element_parsing `{Indeterminate} (fuel : nat)
    : parser (option capwap_80211_txpowerlevel_element) :=
  length ← p_ready;
  if length <? 4 then mret None else
  let length := wrap16 (length - 2) in
  if negb (length mod 2 =? 0) || (CAPWAP_TXPOWERLEVEL_MAXLENGTH <? length / 2)
  then mret None else
  radioid ← p_u8 0;
  numlevels ← p_u8 0;
  if negb (numlevels * 2 =? length) then mret None else
  levels ← p_u16s (zeros numlevels);
  mret (Some {| radioid := radioid; numlevels := numlevels;
                powerlevel := levels ++ zeros (CAPWAP_TXPOWERLEVEL_MAXLENGTH - numlevels) |}).

Definition wf (d : capwap_80211_txpowerlevel_element) : Prop :=
  is_u8 (radioid d) /\ 1 <= numlevels d <= CAPWAP_TXPOWERLEVEL_MAXLENGTH /\
  exists levels, zlen levels = numlevels d /\ Forall (fun x => is_u16 x) levels /\
    powerlevel d = levels ++ zeros (CAPWAP_TXPOWERLEVEL_MAXLENGTH - numlevels d).

#[global] Program Instance codec `{Indeterminate} : Codec capwap_80211_txpowerlevel_element := {
  c_create := capwap_80211_txpowerlevel_element_create;
  c_parse := capwap_80211_txpowerlevel_element_parsing;
  c_clone := fun d => d;
  c_wf := wf
}.
Next Obligation.
  start_codec @capwap_80211_txpowerlevel_element_create @capwap_80211_txpowerlevel_element_parsing wf.
  match goal with E : exists _, _ |- _ => destruct E as (levels & Hn & Hu & ->) end.
  rewrite take_app_le, take_ge in * by lia. wire_norm. repeat parse_step.
  match goal with |- context [if ?b then _ else _] => replace b with false
    by (symmetry; bools; split; Z.div_mod_to_equations; lia) end.
  repeat parse_step.
  erewrite run_bind_some by (apply run_u16s; [rewrite length_zeros; lia|done|lia]). parse_done.
Qed.
Next Obligation. done. Qed.
Next Obligation.
  intros ? [r n l] _. cbn. induction (take _ l) as [|? ? IH]; [done|]. by cbn.
Qed.

End TxPowerLevel.

Module UpdateStationQos.

Record capwap_80211_updatestationqos_subelement := { priority8021p : Z; dscp : Z }.

Record capwap_80211_updatestationqos_element :=
  { radioid : Z; address : list Z; qos : list capwap_80211_updatestationqos_subelement }.

Definition CAPWAP_UPDATE_STATION_QOS_SUBELEMENTS : Z := 4.
Definition CAPWAP_UPDATE_STATION_QOS_PRIORIY_MASK : Z := 7.
Definition CAPWAP_UPDATE_STATION_QOS_DSCP_MASK : Z := 63.
#[local] Hint Unfold CAPWAP_UPDATE_STATION_QOS_SUBELEMENTS
  CAPWAP_UPDATE_STATION_QOS_PRIORIY_MASK
  CAPWAP_UPDATE_STATION_QOS_DSCP_MASK : capwap_rfc.

Definition station_qos_create (q : capwap_80211_updatestationqos_subelement) : list wcall :=
  [WriteU8 (Z.land (priority8021p q) CAPWAP_UPDATE_STATION_QOS_PRIORIY_MASK);
   WriteU8 (Z.land (dscp q) CAPWAP_UPDATE_STATION_QOS_DSCP_MASK)].

(** [qos] is an array of [CAPWAP_UPDATE_STATION_QOS_SUBELEMENTS] entries. *)
Definition capwap_80211_updatestationqos_element_create
    (element : capwap_80211_updatestationqos_element) : list wcall :=
  [WriteU8 (radioid element); WriteBlock (address element)] ++
  concat (station_qos_create <$> qos element).

Fixpoint read_station_qos `{Indeterminate} (n : nat)
    : parser (list capwap_80211_updatestationqos_subelement) :=
  match n with
  | O => mret []
  | S n =>
      priority8021p ← p_u8 0;
      dscp ← p_u8 0;
      qos ← read_station_qos n;
      mret ({| priority8021p := Z.land priority8021p CAPWAP_UPDATE_STATION_QOS_PRIORIY_MASK;
               dscp := Z.land dscp CAPWAP_UPDATE_STATION_QOS_DSCP_MASK |} :: qos)
  end.

Definition capwap_80211_updatestationqos_element_parsing `{Indeterminate} (fuel : nat)
    : parser (option capwap_80211_updatestationqos_element) :=
  ready ← p_ready;
  if negb (ready =? 14) then mret None else
  radioid ← p_u8 0;
  address ← p_block (zeros MACADDRESS_EUI48_LENGTH);
  qos ← read_station_qos (Z.to_nat CAPWAP_UPDATE_STATION_QOS_SUBELEMENTS);
  mret (Some {| radioid := radioid; address := address; qos := qos |}).

Definition station_qos_wf (q : capwap_80211_updatestationqos_subelement) : Prop :=
  0 <= priority8021p q <= CAPWAP_UPDATE_STATION_QOS_PRIORIY_MASK /\
  0 <= dscp q <= CAPWAP_UPDATE_STATION_QOS_DSCP_MASK.

Definition wf (d : capwap_80211_updatestationqos_element) : Prop :=
  is_u8 (radioid d) /\ zlen (address d) = MACADDRESS_EUI48_LENGTH /\
  zlen (qos d) = CAPWAP_UPDATE_STATION_QOS_SUBELEMENTS /\ Forall station_qos_wf (qos d).

Lemma qos_wire_length l : length (wire (concat (station_qos_create <$> l))) = (2 * length l)%nat.
Proof.
  induction l as [|q l IH]; [done|]. rewrite fmap_cons. cbn [concat].
  rewrite wire_app, length_app, IH. change (length (wire (station_qos_create q))) with 2%nat.
  cbn [length]. lia.
Qed.

(** [create] writes 1 + 6 + 4 * 2 = 15 bytes, and [parse] insists on 14: there
    is no codec for this element. *)
Lemma parse_rejects_create `{Indeterminate} d fuel rest :
  wf d ->
  run (capwap_80211_updatestationqos_element_parsing fuel)
    (Stream (zlen (wire (capwap_80211_updatestationqos_element_create d)))
       (wire (capwap_80211_updatestationqos_element_create d) ++ rest)) =
  Done (None, Stream 15 (wire (capwap_80211_updatestationqos_element_create d) ++ rest)).
Proof.
  intros. start_codec @capwap_80211_updatestationqos_element_create
    @capwap_80211_updatestationqos_element_parsing wf.
  pose proof (qos_wire_length qos0). wire_norm. repeat parse_step. parse_done.
Qed.

End UpdateStationQos.

Module UpdateWlan.

Record capwap_80211_updatewlan_element := {
  radioid : Z; wlanid : Z; capability : Z; keyindex : Z; keystatus : Z; keylength : Z;
  key : option (list Z)
}.

Definition capwap_80211_updatewlan_element_create (element : capwap_80211_updatewlan_element) : list wcall :=
  [WriteU8 (radioid element); WriteU8 (wlanid element); WriteU16 (capability element);
   WriteU8 (keyindex element); WriteU8 (keystatus element); WriteU16 (keylength element)] ++
  match key element with
  | Some k =>
      if 0 <? keylength element then [WriteBlock (take (Z.to_nat (keylength element)) k)] else []
  | None => []
  end.

Definition capwap_80211_updatewlan_element_clone (element : capwap_80211_updatewlan_element) : capwap_80211_updatewlan_element :=
  {| radioid := radioid element; wlanid := wlanid element; capability := capability element;
     keyindex := keyindex element; keystatus := keystatus element;
     keylength := keylength element;
     key := if 0 <? keylength element then take (Z.to_nat (keylength element)) <$> key element
            else key element |}.

Definition capwap_80211_updatewlan_element_parsing `{Indeterminate} (fuel : nat)
    : parser (option capwap_80211_updatewlan_element) :=
  length ← p_ready;
  if length <? 8 then mret None else
  let length := wrap16 (length - 8) in
  radioid ← p_u8 0;
  wlanid ← p_u8 0;
  capability ← p_u16 0;
  keyindex ← p_u8 0;
  keystatus ← p_u8 0;
  keylength ← p_u16 0;
  if negb (length =? keylength) then mret None else
  key ← (if 0 <? keylength then Some <$> p_block (fresh keylength) else mret None);
  mret (Some {| radioid := radioid; wlanid := wlanid; capability := capability;
                keyindex := keyindex; keystatus := keystatus; keylength := keylength;
                key := key |}).

Definition wf (d : capwap_80211_updatewlan_element) : Prop :=
  is_u8 (radioid d) /\ is_u8 (wlanid d) /\
  is_u16 (capability d) /\ is_u8 (keyindex d) /\ is_u8 (keystatus d) /\ is_u16 (keylength d) /\
  match key d with
  | Some k => 0 < keylength d /\ zlen k = keylength d
  | None => keylength d = 0
  end.

#[global] Program Instance codec `{Indeterminate} : Codec capwap_80211_updatewlan_element := {
  c_create := capwap_80211_updatewlan_element_create;
  c_parse := capwap_80211_updatewlan_element_parsing;
  c_clone := capwap_80211_updatewlan_element_clone;
  c_wf := wf
}.
Next Obligation.
  start_codec @capwap_80211_updatewlan_element_create @capwap_80211_updatewlan_element_parsing wf.
  destruct key0 as [k|].
  - destruct_and?. rewrite (proj2 (Z.ltb_lt 0 keylength0)), take_ge in * by lia.
    wire_norm. repeat parse_step. parse_done.
  - subst. solve_codec.
Qed.
Next Obligation.
  intros ? [] _. unfold capwap_80211_updatewlan_element_create, capwap_80211_updatewlan_element_clone; cbn.
  destruct key0 as [k|], (0 <? keylength0); cbn; rewrite ?take_take, ?Nat.min_id; done.
Qed.
Next Obligation.
  intros ? [] (_ & _ & _ & _ & _ & _ & Hk). cbn in *.
  destruct key0 as [k|]; cbn; [|done]. destruct Hk. decide_if. cbn. rewrite length_take.
  bools. repeat split. lia.
Qed.

End UpdateWlan.

Module WtpQos.

Record capwap_80211_wtpqos_subelement :=
  { queuedepth : Z; cwmin : Z; cwmax : Z; aifs : Z; priority8021p : Z; dscp : Z }.

Record capwap_80211_wtpqos_element :=
  { radioid : Z; taggingpolicy : Z; qos : list capwap_80211_wtpqos_subelement }.

Definition CAPWAP_WTP_QOS_PRIORIY_MASK : Z := 7.
Definition CAPWAP_WTP_QOS_DSCP_MASK : Z := 63.
#[local] Hint Unfold UpdateStationQos.CAPWAP_UPDATE_STATION_QOS_SUBELEMENTS
  CAPWAP_WTP_QOS_PRIORIY_MASK
  CAPWAP_WTP_QOS_DSCP_MASK
  UpdateStationQos.CAPWAP_UPDATE_STATION_QOS_PRIORIY_MASK
  UpdateStationQos.CAPWAP_UPDATE_STATION_QOS_DSCP_MASK : capwap_rfc.

Definition qos_create (q : capwap_80211_wtpqos_subelement) : list wcall :=
  [WriteU8 (queuedepth q); WriteU16 (cwmin q); WriteU16 (cwmax q); WriteU8 (aifs q);
   WriteU8 (Z.land (priority8021p q) CAPWAP_WTP_QOS_PRIORIY_MASK);
   WriteU8 (Z.land (dscp q) CAPWAP_WTP_QOS_DSCP_MASK)].

(** [qos] is an array of [CAPWAP_WTP_QOS_SUBELEMENTS], that is four, entries. *)
Definition capwap_80211_wtpqos_element_create (element : capwap_80211_wtpqos_element)
    : list wcall :=
  [WriteU8 (radioid element); WriteU8 (taggingpolicy element)] ++
  concat (qos_create <$> qos element).

Fixpoint read_qos `{Indeterminate} (n : nat) : parser (list capwap_80211_wtpqos_subelement) :=
  match n with
  | O => mret []
  | S n =>
      queuedepth ← p_u8 0;
      cwmin ← p_u16 0;
      cwmax ← p_u16 0;
      aifs ← p_u8 0;
      priority8021p ← p_u8 0;
      dscp ← p_u8 0;
      qos ← read_qos n;
      mret ({| queuedepth := queuedepth; cwmin := cwmin; cwmax := cwmax; aifs := aifs;
               priority8021p := Z.land priority8021p UpdateStationQos.CAPWAP_UPDATE_STATION_QOS_PRIORIY_MASK;
               dscp := Z.land dscp UpdateStationQos.CAPWAP_UPDATE_STATION_QOS_DSCP_MASK |} :: qos)
  end.

Definition capwap_80211_wtpqos_element_parsing `{Indeterminate} (fuel : nat)
    : parser (option capwap_80211_wtpqos_element) :=
  ready ← p_ready;
  if negb (ready =? 34) then mret None else
  radioid ← p_u8 0;
  taggingpolicy ← p_u8 0;
  qos ← read_qos (Z.to_nat UpdateStationQos.CAPWAP_UPDATE_STATION_QOS_SUBELEMENTS);
  mret (Some {| radioid := radioid; taggingpolicy := taggingpolicy; qos := qos |}).

Definition qos_wf (q : capwap_80211_wtpqos_subelement) : Prop :=
  is_u8 (queuedepth q) /\ is_u16 (cwmin q) /\ is_u16 (cwmax q) /\ is_u8 (aifs q) /\
  0 <= priority8021p q <= CAPWAP_WTP_QOS_PRIORIY_MASK /\ 0 <= dscp q <= CAPWAP_WTP_QOS_DSCP_MASK.

Definition wf (d : capwap_80211_wtpqos_element) : Prop :=
  is_u8 (radioid d) /\ is_u8 (taggingpolicy d) /\
  zlen (qos d) = UpdateStationQos.CAPWAP_UPDATE_STATION_QOS_SUBELEMENTS /\ Forall qos_wf (qos d).

Lemma read_wtpqos_wire `{Indeterminate} l a rest :
  Forall qos_wf l -> 8 * zlen l <= a < 65536 ->
  run (read_qos (length l)) (Stream a (wire (concat (qos_create <$> l)) ++ rest))
    = Done (l, Stream (a - 8 * zlen l) rest).
Proof.
  intros Hl. revert a.
  induction Hl as [|[q0 q1 q2 q3 p q] l (? & ? & ? & ? & Hp & Hq) _ IH]; intros a Ha;
    cbn [read_qos length] in *.
  - cbn. by rewrite Z.sub_0_r.
  - rewrite fmap_cons. cbn [concat]. unfold qos_create at 1. cbn in *; rfc.
    rewrite (land_mask p 7 3), (land_mask q 63 6) by (done || lia).
    wire_norm. do 6 parse_step. erewrite run_bind_some by (apply IH; lia).
    rewrite run_mret. rewrite (land_mask p 7 3), (land_mask q 63 6) by (done || lia).
    do 3 f_equal. lia.
Qed.

Lemma wtpqos_wire_length l : length (wire (concat (qos_create <$> l))) = (8 * length l)%nat.
Proof.
  induction l as [|q l IH]; [done|]. rewrite fmap_cons. cbn [concat].
  rewrite wire_app, length_app, IH. change (length (wire (qos_create q))) with 8%nat.
  cbn [length]. lia.
Qed.

#[global] Program Instance codec `{Indeterminate} : Codec capwap_80211_wtpqos_element := {
  c_create := capwap_80211_wtpqos_element_create;
  c_parse := capwap_80211_wtpqos_element_parsing;
  c_clone := fun d => d;
  c_wf := wf
}.
Next Obligation.
  start_codec @capwap_80211_wtpqos_element_create @capwap_80211_wtpqos_element_parsing wf.
  wire_norm. pose proof (wtpqos_wire_length qos0). repeat parse_step.
  replace (Z.to_nat 4) with (length qos0) by lia.
  erewrite run_bind_some by (apply read_wtpqos_wire; done || lia). parse_done.
Qed.
Next Obligation. done. Qed.
Next Obligation. intros ? [r a l] _. cbn. apply safe_concat, Forall_true. done. Qed.

End WtpQos.

Module WtpRadioConf.

Record capwap_80211_wtpradioconf_element := {
  radioid : Z; shortpreamble : Z; maxbssid : Z; dtimperiod : Z; bssid : list Z;
  beaconperiod : Z; country : list Z
}.

Definition CAPWAP_WTP_RADIO_CONF_COUNTRY_LENGTH : Z := 4.
#[local] Hint Unfold CAPWAP_WTP_RADIO_CONF_COUNTRY_LENGTH : capwap_rfc.

Definition capwap_80211_wtpradioconf_element_create (element : capwap_80211_wtpradioconf_element) : list wcall :=
  [WriteU8 (radioid element); WriteU8 (shortpreamble element); WriteU8 (maxbssid element);
   WriteU8 (dtimperiod element); WriteBlock (bssid element);
   WriteU16 (beaconperiod element); WriteBlock (country element)].

Definition capwap_80211_wtpradioconf_element_parsing `{Indeterminate} (fuel : nat)
    : parser (option capwap_80211_wtpradioconf_element) :=
  ready ← p_ready;
  if negb (ready =? 16) then mret None else
  radioid ← p_u8 0;
  shortpreamble ← p_u8 0;
  maxbssid ← p_u8 0;
  dtimperiod ← p_u8 0;
  bssid ← p_block (zeros MACADDRESS_EUI48_LENGTH);
  beaconperiod ← p_u16 0;
  country ← p_block (zeros CAPWAP_WTP_RADIO_CONF_COUNTRY_LENGTH);
  mret (Some {| radioid := radioid; shortpreamble := shortpreamble; maxbssid := maxbssid;
                dtimperiod := dtimperiod; bssid := bssid; beaconperiod :=
                beaconperiod; country := country |}).

Definition wf (d : capwap_80211_wtpradioconf_element) : Prop :=
  is_u8 (radioid d) /\ is_u8 (shortpreamble d) /\ is_u8 (maxbssid d) /\ is_u8
  (dtimperiod d) /\ zlen (bssid d) = MACADDRESS_EUI48_LENGTH /\ is_u16 (beaconperiod d)
  /\ zlen (country d) = CAPWAP_WTP_RADIO_CONF_COUNTRY_LENGTH.

#[global] Program Instance codec `{Indeterminate} : Codec capwap_80211_wtpradioconf_element := {
  c_create := capwap_80211_wtpradioconf_element_create;
  c_parse := capwap_80211_wtpradioconf_element_parsing;
  c_clone := fun d => d;
  c_wf := wf
}.
Next Obligation.
  codec @capwap_80211_wtpradioconf_element_create @capwap_80211_wtpradioconf_element_parsing wf.
Qed.
Next Obligation. done. Qed.
Next Obligation. solve_safe @capwap_80211_wtpradioconf_element_create wf. Qed.

End WtpRadioConf.

Module WtpRadioFailAlarm.

Record capwap_80211_wtpradiofailalarm_element := { radioid : Z; type : Z; status : Z; pad : Z }.

Definition capwap_80211_wtpradiofailalarm_element_create (element : capwap_80211_wtpradiofailalarm_element) : list wcall :=
  [WriteU8 (radioid element); WriteU8 (type element); WriteU8 (status element);
   WriteU8 (pad element)].

Definition capwap_80211_wtpradiofailalarm_element_parsing `{Indeterminate} (fuel : nat)
    : parser (option capwap_80211_wtpradiofailalarm_element) :=
  ready ← p_ready;
  if negb (ready =? 4) then mret None else
  radioid ← p_u8 0;
  type ← p_u8 0;
  status ← p_u8 0;
  pad ← p_u8 0;
  mret (Some {| radioid := radioid; type := type; status := status; pad := pad |}).

Definition wf (d : capwap_80211_wtpradiofailalarm_element) : Prop :=
  is_u8 (radioid d) /\ is_u8 (type d) /\ is_u8 (status d) /\ is_u8 (pad d).

#[global] Program Instance codec `{Indeterminate} : Codec capwap_80211_wtpradiofailalarm_element := {
  c_create := capwap_80211_wtpradiofailalarm_element_create;
  c_parse := capwap_80211_wtpradiofailalarm_element_parsing;
  c_clone := fun d => d;
  c_wf := wf
}.
Next Obligation.
  codec @capwap_80211_wtpradiofailalarm_element_create @capwap_80211_wtpradiofailalarm_element_parsing wf.
Qed.
Next Obligation. done. Qed.
Next Obligation. solve_safe @capwap_80211_wtpradiofailalarm_element_create wf. Qed.

End WtpRadioFailAlarm.

Module WtpRadioInformation.

Record capwap_80211_wtpradioinformation_element := { radioid : Z; radiotype : Z }.

Definition capwap_80211_wtpradioinformation_element_create (element : capwap_80211_wtpradioinformation_element) : list wcall :=
  [WriteU8 (radioid element); WriteU32 (radiotype element)].

Definition capwap_80211_wtpradioinformation_element_parsing `{Indeterminate} (fuel : nat)
    : parser (option capwap_80211_wtpradioinformation_element) :=
  ready ← p_ready;
  if negb (ready =? 5) then mret None else
  radioid ← p_u8 0;
  radiotype ← p_u32 0;
  mret (Some {| radioid := radioid; radiotype := radiotype |}).

Definition wf (d : capwap_80211_wtpradioinformation_element) : Prop :=
  is_u8 (radioid d) /\ is_u32 (radiotype d).

#[global] Program Instance codec `{Indeterminate} : Codec capwap_80211_wtpradioinformation_element := {
  c_create := capwap_80211_wtpradioinformation_element_create;
  c_parse := capwap_80211_wtpradioinformation_element_parsing;
  c_clone := fun d => d;
  c_wf := wf
}.
Next Obligation.
  codec @capwap_80211_wtpradioinformation_element_create @capwap_80211_wtpradioinformation_element_parsing wf.
Qed.
Next Obligation. done. Qed.
Next Obligation. solve_safe @capwap_80211_wtpradioinformation_element_create wf. Qed.

End WtpRadioInformation.

Module RadioConfN.

Record capwap_80211n_radioconf_element :=
  { radioid : Z; flags : Z; maxsupmcs : Z; maxmandmcs : Z; txant : Z; rxant : Z }.

Definition CAPWAP_80211N_RADIO_CONF_MASK : Z := 248.

Definition capwap_80211n_radioconf_element_create (element : capwap_80211n_radioconf_element) : list wcall :=
  [WriteU8 (radioid element); WriteU8 (Z.land (flags element) CAPWAP_80211N_RADIO_CONF_MASK);
   WriteU8 (maxsupmcs element); WriteU8 (maxmandmcs element); WriteU8 (txant element);
   WriteU8 (rxant element); WriteU16 0].

Definition capwap_80211n_radioconf_element_parsing `{Indeterminate} (fuel : nat)
    : parser (option capwap_80211n_radioconf_element) :=
  ready ← p_ready;
  if negb (ready =? 8) then mret None else
  radioid ← p_u8 0;
  flags ← p_u8 0;
  maxsupmcs ← p_u8 0;
  maxmandmcs ← p_u8 0;
  txant ← p_u8 0;
  rxant ← p_u8 0;
  _ ← p_u16 indet;
  mret (Some {| radioid := radioid; flags := flags; maxsupmcs := maxsupmcs;
                maxmandmcs := maxmandmcs; txant := txant; rxant := rxant |}).

Definition wf (d : capwap_80211n_radioconf_element) : Prop :=
  is_u8 (radioid d) /\ is_u8 (flags d) /\
  Z.land (flags d) CAPWAP_80211N_RADIO_CONF_MASK = flags d /\
  is_u8 (maxsupmcs d) /\ is_u8 (maxmandmcs d) /\ is_u8 (txant d) /\ is_u8 (rxant d).

#[global] Program Instance codec `{Indeterminate} : Codec capwap_80211n_radioconf_element := {
  c_create := capwap_80211n_radioconf_element_create;
  c_parse := capwap_80211n_radioconf_element_parsing;
  c_clone := fun d => d;
  c_wf := wf
}.
Next Obligation.
  start_codec @capwap_80211n_radioconf_element_create @capwap_80211n_radioconf_element_parsing wf.
  match goal with E : Z.land _ _ = _ |- _ => rewrite E in * end. solve_codec.
Qed.
Next Obligation. done. Qed.
Next Obligation. solve_safe @capwap_80211n_radioconf_element_create wf. Qed.

End RadioConfN.

Module StationInfoN.

Record capwap_80211n_station_info_element := {
  address : list Z; flags : Z; maxrxfactor : Z; minstaspaceing : Z; hisuppdatarate : Z;
  ampdubufsize : Z; htcsupp : Z; mcsset : list Z
}.

Definition MCS_SET_LENGTH : Z := 10.
#[local] Hint Unfold MCS_SET_LENGTH : capwap_rfc.

Definition capwap_80211n_station_info_element_create (element : capwap_80211n_station_info_element) : list wcall :=
  [WriteBlock (address element); WriteU8 (flags element); WriteU8 (maxrxfactor element);
   WriteU8 (minstaspaceing element); WriteU16 (hisuppdatarate element);
   WriteU16 (ampdubufsize element); WriteU8 (htcsupp element); WriteBlock (mcsset element)].

Definition capwap_80211n_station_info_element_parsing `{Indeterminate} (fuel : nat)
    : parser (option capwap_80211n_station_info_element) :=
  ready ← p_ready;
  if negb (ready =? 24) then mret None else
  address ← p_block (zeros MACADDRESS_EUI48_LENGTH);
  flags ← p_u8 0;
  maxrxfactor ← p_u8 0;
  minstaspaceing ← p_u8 0;
  hisuppdatarate ← p_u16 0;
  ampdubufsize ← p_u16 0;
  htcsupp ← p_u8 0;
  mcsset ← p_block (zeros MCS_SET_LENGTH);
  mret (Some {| address := address; flags := flags; maxrxfactor := maxrxfactor;
                minstaspaceing := minstaspaceing; hisuppdatarate :=
                hisuppdatarate; ampdubufsize := ampdubufsize; htcsupp :=
                htcsupp; mcsset := mcsset |}).

Definition wf (d : capwap_80211n_station_info_element) : Prop :=
  zlen (address d) = MACADDRESS_EUI48_LENGTH /\ is_u8 (flags d) /\ is_u8 (maxrxfactor d)
  /\ is_u8 (minstaspaceing d) /\ is_u16 (hisuppdatarate d) /\ is_u16 (ampdubufsize d) /\
  is_u8 (htcsupp d) /\ zlen (mcsset d) = MCS_SET_LENGTH.

#[global] Program Instance codec `{Indeterminate} : Codec capwap_80211n_station_info_element := {
  c_create := capwap_80211n_station_info_element_create;
  c_parse := capwap_80211n_station_info_element_parsing;
  c_clone := fun d => d;
  c_wf := wf
}.
Next Obligation.
  codec @capwap_80211n_station_info_element_create @capwap_80211n_station_info_element_parsing wf.
Qed.
Next Obligation. done. Qed.
Next Obligation. solve_safe @capwap_80211n_station_info_element_create wf. Qed.

End StationInfoN.

Module EncryptionCapability.

Record capwap_vendor_travelping_80211_encryption_capability_element :=
  { radioid : Z; suites_count : Z; suites : list Z }.

Definition capwap_vendor_travelping_80211_encryption_capability_element_create (element : capwap_vendor_travelping_80211_encryption_capability_element) : list wcall :=
  [WriteU8 (radioid element)] ++
  (WriteU32 <$> take (Z.to_nat (suites_count element)) (suites element)).

Definition capwap_vendor_travelping_80211_encryption_capability_element_clone (element : capwap_vendor_travelping_80211_encryption_capability_element) : capwap_vendor_travelping_80211_encryption_capability_element :=
  {| radioid := radioid element; suites_count := suites_count element;
     suites := take (Z.to_nat (suites_count element)) (suites element) |}.

Definition capwap_vendor_travelping_80211_encryption_capability_element_parsing `{Indeterminate} (fuel : nat)
    : parser (option capwap_vendor_travelping_80211_encryption_capability_element) :=
  ready ← p_ready;
  if ready <? 1 then mret None else
  ready ← p_ready;
  let suites_length := ready - 1 in
  if negb (suites_length mod 4 =? 0) then mret None else
  radioid ← p_u8 indet;
  let suites_count := suites_length / 4 in
  suites ← p_u32s (fresh suites_count);
  mret (Some {| radioid := radioid; suites_count := suites_count; suites := suites |}).

Definition wf (d : capwap_vendor_travelping_80211_encryption_capability_element) : Prop :=
  is_u8 (radioid d) /\ zlen (suites d) = suites_count d /\ Forall (fun x => is_u32 x) (suites d).

#[global] Program Instance codec `{Indeterminate} : Codec capwap_vendor_travelping_80211_encryption_capability_element := {
  c_create := capwap_vendor_travelping_80211_encryption_capability_element_create;
  c_parse := capwap_vendor_travelping_80211_encryption_capability_element_parsing;
  c_clone := capwap_vendor_travelping_80211_encryption_capability_element_clone;
  c_wf := wf
}.
Next Obligation.
  start_codec @capwap_vendor_travelping_80211_encryption_capability_element_create @capwap_vendor_travelping_80211_encryption_capability_element_parsing wf.
  rewrite take_ge in * by lia. wire_norm. repeat parse_step.
  match goal with |- context [?x mod 4] => replace x with (zlen suites0 * 4) by (len; lia) end.
  rewrite Z_mod_mult, Z_div_mult by lia. cbn [negb]. repeat parse_step.
  erewrite run_bind_some by (apply run_u32s; [rewrite length_fresh; lia|done|len; lia]). parse_done.
Qed.
Next Obligation.
  solve_clone @capwap_vendor_travelping_80211_encryption_capability_element_clone wf.
Qed.
Next Obligation.
  intros ? [r n l] _. cbn. induction (take _ l) as [|? ? IH]; [done|]. by cbn.
Qed.

End EncryptionCapability.

Module UpdateKey.

Record capwap_vendor_travelping_80211_update_key_element := {
  radioid : Z; wlanid : Z; keyindex : Z; keystatus : Z; ciphersuite : Z; keylength : Z;
  key : list Z
}.

Definition capwap_vendor_travelping_80211_update_key_element_create (element : capwap_vendor_travelping_80211_update_key_element) : list wcall :=
  [WriteU8 (radioid element); WriteU8 (wlanid element); WriteU8 (keyindex element);
   WriteU8 (keystatus element); WriteU32 (ciphersuite element)] ++
  (if 0 <? keylength element then [WriteBlock (take (Z.to_nat (keylength element)) (key element))]
   else []).

Definition capwap_vendor_travelping_80211_update_key_element_clone (element : capwap_vendor_travelping_80211_update_key_element) : capwap_vendor_travelping_80211_update_key_element :=
  {| radioid := radioid element; wlanid := wlanid element; keyindex := keyindex element;
     keystatus := keystatus element; ciphersuite := ciphersuite element;
     keylength := keylength element; key := take (Z.to_nat (keylength element)) (key element) |}.

Definition capwap_vendor_travelping_80211_update_key_element_parsing `{Indeterminate} (fuel : nat)
    : parser (option capwap_vendor_travelping_80211_update_key_element) :=
  length ← p_ready;
  if length <? 8 then mret None else
  let length := wrap16 (length - 8) in
  radioid ← p_u8 0;
  wlanid ← p_u8 0;
  keyindex ← p_u8 0;
  keystatus ← p_u8 0;
  ciphersuite ← p_u32 0;
  key ← p_block (zeros length);
  mret (Some {| radioid := radioid; wlanid := wlanid; keyindex := keyindex;
                keystatus := keystatus; ciphersuite := ciphersuite; keylength := length;
                key := key |}).

Definition wf (d : capwap_vendor_travelping_80211_update_key_element) : Prop :=
  is_u8 (radioid d) /\ is_u8 (wlanid d) /\ is_u8 (keyindex d) /\ is_u8 (keystatus d) /\
  is_u32 (ciphersuite d) /\ 1 <= keylength d /\ zlen (key d) = keylength d.

#[global] Program Instance codec `{Indeterminate} : Codec capwap_vendor_travelping_80211_update_key_element := {
  c_create := capwap_vendor_travelping_80211_update_key_element_create;
  c_parse := capwap_vendor_travelping_80211_update_key_element_parsing;
  c_clone := capwap_vendor_travelping_80211_update_key_element_clone;
  c_wf := wf
}.
Next Obligation.
  start_codec @capwap_vendor_travelping_80211_update_key_element_create @capwap_vendor_travelping_80211_update_key_element_parsing wf.
  rewrite (proj2 (Z.ltb_lt 0 keylength0)), take_ge in * by lia. solve_codec.
Qed.
Next Obligation.
  solve_clone @capwap_vendor_travelping_80211_update_key_element_clone wf.
Qed.
Next Obligation.
  intros ? [] (_ & _ & _ & _ & _ & ? & ?). cbn in *. decide_if. cbn. rewrite length_take.
  bools. repeat split. lia.
Qed.

End UpdateKey.

(** [double] arithmetic, rounded to nearest even. *)
Definition double_mul : spec_float -> spec_float -> spec_float := SFmul 53 1024.
Definition double_div : spec_float -> spec_float -> spec_float := SFdiv 53 1024.
Definition double_of_int (n : Z) : spec_float := binary_normalize 53 1024 n 0 false.

(** [(uint32_t)x]: truncation; [None] when the value does not fit, for which
    the conversion is undefined. *)
Definition u32_of_double (x : spec_float) : option Z :=
  match x with
  | S754_zero _ => Some 0
  | S754_finite false m e =>
      let n := Z.shiftl (Zpos m) e in
      if n <? 4294967296 then Some n else None
  | _ => None
  end.

Module WtpTimestamp.

Record timeval := { tv_sec : Z; tv_usec : Z }.
Record ntp_time_t := { second : Z; fraction : Z }.
Record capwap_vendor_travelping_wtp_timestamp_element := { tv : timeval }.

(** The seconds from Jan 1, 1900 to Jan 1, 1970. *)
Definition NTP_OFFSET : Z := 2208988800.

(** The constants [1.0e6] and [1.0e-6] as doubles. *)
Definition double_1e6 : spec_float := double_of_int 1000000.
Definition double_1em6 : spec_float := S754_finite false 4722366482869645 (-72).

Section Conversions.
Context {I : Indeterminate}.

Definition convert_ntp_time_into_unix_time (ntp : ntp_time_t) : timeval :=
  {| tv_sec := wrap32 (second ntp - NTP_OFFSET);
     tv_usec := default indet
       (u32_of_double
          (double_div (double_mul (double_of_int (fraction ntp)) double_1e6)
             (double_of_int 4294967296))) |}.

Definition convert_unix_time_into_ntp_time (t : timeval) : ntp_time_t :=
  {| second := wrap32 (tv_sec t + NTP_OFFSET);
     fraction := default indet
       (u32_of_double
          (double_mul (double_mul (double_of_int (tv_usec t + 1)) (double_of_int 4294967296))
             double_1em6)) |}.

Definition capwap_vendor_travelping_wtp_timestamp_element_create
    (element : capwap_vendor_travelping_wtp_timestamp_element) : list wcall :=
  let ntp := convert_unix_time_into_ntp_time (tv element) in
  [WriteU32 (second ntp); WriteU32 (fraction ntp)].

Definition capwap_vendor_travelping_wtp_timestamp_element_parsing (fuel : nat)
    : parser (option capwap_vendor_travelping_wtp_timestamp_element) :=
  ready ← p_ready;
  if negb (ready =? 8) then mret None else
  second ← p_u32 indet;
  fraction ← p_u32 indet;
  mret (Some {| tv := convert_ntp_time_into_unix_time
                        {| second := second; fraction := fraction |} |}).

(** The seconds survive a round trip until 2106 (32-bit unsigned seconds). *)
Lemma seconds_roundtrip t f :
  is_u32 (tv_sec t) ->
  tv_sec (convert_ntp_time_into_unix_time
            {| second := second (convert_unix_time_into_ntp_time t); fraction := f |})
    = tv_sec t.
Proof. intros. cbn. unfold NTP_OFFSET. width. Qed.
End Conversions.

End WtpTimestamp.
