(* ===== verification/Element.v ===== *)
(** The table of message elements (src/common/capwap_element.c and .h): the
    kinds of element, the data and the operations of each, and the dispatch on
    the element id.

    A [void*] to the data of an element, with the id that tells its type, is
    the dependent pair [message_element]. *)
From S2P Require Import Prelude Io.
From S2P Require Import ElementsAcList ElementsAc ElementsControl ElementsImage ElementsWtpDesc ElementsWtp Elements80211a Elements80211b.

Record capwap_message_element_id := ElementId { vendor : Z; type : Z }.

Definition message_element_id_eq (a b : capwap_message_element_id) : bool :=
  (vendor a =? vendor b) && (type a =? type b).

Definition CAPWAP_MESSAGE_ELEMENT_SINGLE : Z := 0.
Definition CAPWAP_MESSAGE_ELEMENT_ARRAY : Z := 1.

(** One kind per [capwap_element_*_ops] table. *)
Inductive element_kind :=
| K_acdescriptor | K_acipv4list | K_acipv6list | K_acname | K_acnamepriority | K_actimestamp
| K_addmacacl | K_addstation | K_controlipv4 | K_controlipv6 | K_timers | K_datatransferdata
| K_datatransfermode | K_decrypterrorreport | K_decrypterrorreportperiod | K_deletemacacl
| K_deletestation | K_discoverytype | K_duplicateipv4 | K_duplicateipv6 | K_idletimeout
| K_imagedata | K_imageidentifier | K_imageinfo | K_initdownload | K_location
| K_maximumlength | K_localipv4 | K_radioadmstate | K_radiooprstate | K_resultcode
| K_returnedmessage | K_sessionid | K_statisticstimer | K_vendorpayload | K_wtpboarddata
| K_wtpdescriptor | K_wtpfallback | K_wtpframetunnelmode | K_wtpmactype | K_wtpname
| K_wtpradiostat | K_wtprebootstat | K_wtpstaticipaddress | K_localipv6 | K_transport
| K_mtudiscovery | K_ecnsupport | K_80211_addwlan | K_80211_antenna | K_80211_assignbssid
| K_80211_deletewlan | K_80211_directsequencecontrol | K_80211_ie | K_80211_mac_profile
| K_80211_macoperation | K_80211_miccountermeasures | K_80211_multidomaincapability
| K_80211_ofdmcontrol | K_80211_rateset | K_80211_rsnaerrorreport | K_80211_station
| K_80211_stationqos | K_80211_stationkey | K_80211_statistics
| K_80211_supported_mac_profiles | K_80211_supportedrates | K_80211_txpower
| K_80211_txpowerlevel | K_80211_updatestationqos | K_80211_updatewlan | K_80211_wtpqos
| K_80211_wtpradioconf | K_80211_wtpradiofailalarm | K_80211_wtpradioinformation
| K_tp_wtp_timestamp | K_80211n_radioconf | K_80211n_station_info
| K_tp_80211_encryption_capability | K_tp_80211_update_key.

Definition element_data (k : element_kind) : Type :=
  match k with
  | K_acdescriptor => AcDescriptor.capwap_acdescriptor_element
  | K_acipv4list => AcIPv4List.capwap_acipv4list_element
  | K_acipv6list => AcIPv6List.capwap_acipv6list_element
  | K_acname => AcName.capwap_acname_element
  | K_acnamepriority => AcNamePriority.capwap_acnamepriority_element
  | K_actimestamp => AcTimestamp.capwap_actimestamp_element
  | K_addmacacl => AddMacAcl.capwap_addmacacl_element
  | K_addstation => AddStation.capwap_addstation_element
  | K_controlipv4 => ControlIPv4.capwap_controlipv4_element
  | K_controlipv6 => ControlIPv6.capwap_controlipv6_element
  | K_timers => Timers.capwap_timers_element
  | K_datatransferdata => DataTransferData.capwap_datatransferdata_element
  | K_datatransfermode => DataTransferMode.capwap_datatransfermode_element
  | K_decrypterrorreport => DecryptErrorReport.capwap_decrypterrorreport_element
  | K_decrypterrorreportperiod => DecryptErrorReportPeriod.capwap_decrypterrorreportperiod_element
  | K_deletemacacl => DeleteMacAcl.capwap_deletemacacl_element
  | K_deletestation => DeleteStation.capwap_deletestation_element
  | K_discoverytype => DiscoveryType.capwap_discoverytype_element
  | K_duplicateipv4 => DuplicateIPv4.capwap_duplicateipv4_element
  | K_duplicateipv6 => DuplicateIPv6.capwap_duplicateipv6_element
  | K_idletimeout => IdleTimeout.capwap_idletimeout_element
  | K_imagedata => ImageData.capwap_imagedata_element
  | K_imageidentifier => ImageIdentifier.capwap_imageidentifier_element
  | K_imageinfo => ImageInfo.capwap_imageinfo_element
  | K_initdownload => InitDownload.capwap_initdownload_element
  | K_location => Location.capwap_location_element
  | K_maximumlength => MaximumLength.capwap_maximumlength_element
  | K_localipv4 => LocalIPv4.capwap_localipv4_element
  | K_radioadmstate => RadioAdmState.capwap_radioadmstate_element
  | K_radiooprstate => RadioOprState.capwap_radiooprstate_element
  | K_resultcode => ResultCode.capwap_resultcode_element
  | K_returnedmessage => ReturnedMessage.capwap_returnedmessage_element
  | K_sessionid => SessionId.capwap_sessionid_element
  | K_statisticstimer => StatisticsTimer.capwap_statisticstimer_element
  | K_vendorpayload => VendorPayload.capwap_vendorpayload_element
  | K_wtpboarddata => WtpBoardData.capwap_wtpboarddata_element
  | K_wtpdescriptor => WtpDescriptor.capwap_wtpdescriptor_element
  | K_wtpfallback => WtpFallback.capwap_wtpfallback_element
  | K_wtpframetunnelmode => WtpFrameTunnelMode.capwap_wtpframetunnelmode_element
  | K_wtpmactype => WtpMacType.capwap_wtpmactype_element
  | K_wtpname => WtpName.capwap_wtpname_element
  | K_wtpradiostat => WtpRadioStat.capwap_wtpradiostat_element
  | K_wtprebootstat => WtpRebootStat.capwap_wtprebootstat_element
  | K_wtpstaticipaddress => WtpStaticIpAddress.capwap_wtpstaticipaddress_element
  | K_localipv6 => LocalIPv6.capwap_localipv6_element
  | K_transport => Transport.capwap_transport_element
  | K_mtudiscovery => MtuDiscovery.capwap_mtudiscovery_element
  | K_ecnsupport => EcnSupport.capwap_ecnsupport_element
  | K_80211_addwlan => AddWlan.capwap_80211_addwlan_element
  | K_80211_antenna => Antenna.capwap_80211_antenna_element
  | K_80211_assignbssid => AssignBssid.capwap_80211_assignbssid_element
  | K_80211_deletewlan => DeleteWlan.capwap_80211_deletewlan_element
  | K_80211_directsequencecontrol => DirectSequenceControl.capwap_80211_directsequencecontrol_element
  | K_80211_ie => Ie.capwap_80211_ie_element
  | K_80211_mac_profile => MacProfile.capwap_80211_mac_profile_element
  | K_80211_macoperation => MacOperation.capwap_80211_macoperation_element
  | K_80211_miccountermeasures => MicCountermeasures.capwap_80211_miccountermeasures_element
  | K_80211_multidomaincapability => MultiDomainCapability.capwap_80211_multidomaincapability_element
  | K_80211_ofdmcontrol => OfdmControl.capwap_80211_ofdmcontrol_element
  | K_80211_rateset => RateSet.capwap_80211_rateset_element
  | K_80211_rsnaerrorreport => RsnaErrorReport.capwap_80211_rsnaerrorreport_element
  | K_80211_station => Station.capwap_80211_station_element
  | K_80211_stationqos => StationQos.capwap_80211_stationqos_element
  | K_80211_stationkey => StationKey.capwap_80211_stationkey_element
  | K_80211_statistics => Statistics.capwap_80211_statistics_element
  | K_80211_supported_mac_profiles => SupportedMacProfiles.capwap_80211_supported_mac_profiles_element
  | K_80211_supportedrates => SupportedRates.capwap_80211_supportedrates_element
  | K_80211_txpower => TxPower.capwap_80211_txpower_element
  | K_80211_txpowerlevel => TxPowerLevel.capwap_80211_txpowerlevel_element
  | K_80211_updatestationqos => UpdateStationQos.capwap_80211_updatestationqos_element
  | K_80211_updatewlan => UpdateWlan.capwap_80211_updatewlan_element
  | K_80211_wtpqos => WtpQos.capwap_80211_wtpqos_element
  | K_80211_wtpradioconf => WtpRadioConf.capwap_80211_wtpradioconf_element
  | K_80211_wtpradiofailalarm => WtpRadioFailAlarm.capwap_80211_wtpradiofailalarm_element
  | K_80211_wtpradioinformation => WtpRadioInformation.capwap_80211_wtpradioinformation_element
  | K_tp_wtp_timestamp => WtpTimestamp.capwap_vendor_travelping_wtp_timestamp_element
  | K_80211n_radioconf => RadioConfN.capwap_80211n_radioconf_element
  | K_80211n_station_info => StationInfoN.capwap_80211n_station_info_element
  | K_tp_80211_encryption_capability => EncryptionCapability.capwap_vendor_travelping_80211_encryption_capability_element
  | K_tp_80211_update_key => UpdateKey.capwap_vendor_travelping_80211_update_key_element
  end.

(** [struct capwap_message_elements_ops]; memory management apart. *)
Record capwap_message_elements_ops (T : Type) := Ops {
  category : Z;
  create : T -> list wcall;
  parse : nat -> parser (option T);
  clone : T -> T
}.
Arguments Ops {T} _ _ _ _.
Arguments category {T} _.
Arguments create {T} _ _.
Arguments parse {T} _ _.
Arguments clone {T} _ _.

Section Table.
Context {I : Indeterminate}.

Definition element_ops (k : element_kind) : capwap_message_elements_ops (element_data k) :=
  match k with
  | K_acdescriptor => Ops CAPWAP_MESSAGE_ELEMENT_SINGLE
      AcDescriptor.capwap_acdescriptor_element_create
      AcDescriptor.capwap_acdescriptor_element_parsing
      AcDescriptor.capwap_acdescriptor_element_clone
  | K_acipv4list => Ops CAPWAP_MESSAGE_ELEMENT_SINGLE
      AcIPv4List.capwap_acipv4list_element_create
      AcIPv4List.capwap_acipv4list_element_parsing
      AcIPv4List.capwap_acipv4list_element_clone
  | K_acipv6list => Ops CAPWAP_MESSAGE_ELEMENT_SINGLE
      AcIPv6List.capwap_acipv6list_element_create
      AcIPv6List.capwap_acipv6list_element_parsing
      AcIPv6List.capwap_acipv6list_element_clone
  | K_acname => Ops CAPWAP_MESSAGE_ELEMENT_SINGLE
      AcName.capwap_acname_element_create
      AcName.capwap_acname_element_parsing
      AcName.capwap_acname_element_clone
  | K_acnamepriority => Ops CAPWAP_MESSAGE_ELEMENT_ARRAY
      AcNamePriority.capwap_acnamepriority_element_create
      AcNamePriority.capwap_acnamepriority_element_parsing
      AcNamePriority.capwap_acnamepriority_element_clone
  | K_actimestamp => Ops CAPWAP_MESSAGE_ELEMENT_SINGLE
      AcTimestamp.capwap_actimestamp_element_create
      AcTimestamp.capwap_actimestamp_element_parsing
      (fun d => d)
  | K_addmacacl => Ops CAPWAP_MESSAGE_ELEMENT_SINGLE
      AddMacAcl.capwap_addmacacl_element_create
      AddMacAcl.capwap_addmacacl_element_parsing
      AddMacAcl.capwap_addmacacl_element_clone
  | K_addstation => Ops CAPWAP_MESSAGE_ELEMENT_SINGLE
      AddStation.capwap_addstation_element_create
      AddStation.capwap_addstation_element_parsing
      AddStation.capwap_addstation_element_clone
  | K_controlipv4 => Ops CAPWAP_MESSAGE_ELEMENT_ARRAY
      ControlIPv4.capwap_controlipv4_element_create
      ControlIPv4.capwap_controlipv4_element_parsing
      (fun d => d)
  | K_controlipv6 => Ops CAPWAP_MESSAGE_ELEMENT_ARRAY
      ControlIPv6.capwap_controlipv6_element_create
      ControlIPv6.capwap_controlipv6_element_parsing
      (fun d => d)
  | K_timers => Ops CAPWAP_MESSAGE_ELEMENT_SINGLE
      Timers.capwap_timers_element_create
      Timers.capwap_timers_element_parsing
      (fun d => d)
  | K_datatransferdata => Ops CAPWAP_MESSAGE_ELEMENT_SINGLE
      DataTransferData.capwap_datatransferdata_element_create
      DataTransferData.capwap_datatransferdata_element_parsing
      DataTransferData.capwap_datatransferdata_element_clone
  | K_datatransfermode => Ops CAPWAP_MESSAGE_ELEMENT_SINGLE
      DataTransferMode.capwap_datatransfermode_element_create
      DataTransferMode.capwap_datatransfermode_element_parsing
      (fun d => d)
  | K_decrypterrorreport => Ops CAPWAP_MESSAGE_ELEMENT_SINGLE
      DecryptErrorReport.capwap_decrypterrorreport_element_create
      DecryptErrorReport.capwap_decrypterrorreport_element_parsing
      DecryptErrorReport.capwap_decrypterrorreport_element_clone
  | K_decrypterrorreportperiod => Ops CAPWAP_MESSAGE_ELEMENT_ARRAY
      DecryptErrorReportPeriod.capwap_decrypterrorreportperiod_element_create
      DecryptErrorReportPeriod.capwap_decrypterrorreportperiod_element_parsing
      (fun d => d)
  | K_deletemacacl => Ops CAPWAP_MESSAGE_ELEMENT_SINGLE
      DeleteMacAcl.capwap_deletemacacl_element_create
      DeleteMacAcl.capwap_deletemacacl_element_parsing
      DeleteMacAcl.capwap_deletemacacl_element_clone
  | K_deletestation => Ops CAPWAP_MESSAGE_ELEMENT_SINGLE
      DeleteStation.capwap_deletestation_element_create
      DeleteStation.capwap_deletestation_element_parsing
      DeleteStation.capwap_deletestation_element_clone
  | K_discoverytype => Ops CAPWAP_MESSAGE_ELEMENT_SINGLE
      DiscoveryType.capwap_discoverytype_element_create
      DiscoveryType.capwap_discoverytype_element_parsing
      (fun d => d)
  | K_duplicateipv4 => Ops CAPWAP_MESSAGE_ELEMENT_SINGLE
      DuplicateIPv4.capwap_duplicateipv4_element_create
      DuplicateIPv4.capwap_duplicateipv4_element_parsing
      DuplicateIPv4.capwap_duplicateipv4_element_clone
  | K_duplicateipv6 => Ops CAPWAP_MESSAGE_ELEMENT_SINGLE
      DuplicateIPv6.capwap_duplicateipv6_element_create
      DuplicateIPv6.capwap_duplicateipv6_element_parsing
      DuplicateIPv6.capwap_duplicateipv6_element_clone
  | K_idletimeout => Ops CAPWAP_MESSAGE_ELEMENT_SINGLE
      IdleTimeout.capwap_idletimeout_element_create
      IdleTimeout.capwap_idletimeout_element_parsing
      (fun d => d)
  | K_imagedata => Ops CAPWAP_MESSAGE_ELEMENT_SINGLE
      ImageData.capwap_imagedata_element_create
      ImageData.capwap_imagedata_element_parsing
      ImageData.capwap_imagedata_element_clone
  | K_imageidentifier => Ops CAPWAP_MESSAGE_ELEMENT_SINGLE
      ImageIdentifier.capwap_imageidentifier_element_create
      ImageIdentifier.capwap_imageidentifier_element_parsing
      ImageIdentifier.capwap_imageidentifier_element_clone
  | K_imageinfo => Ops CAPWAP_MESSAGE_ELEMENT_SINGLE
      ImageInfo.capwap_imageinfo_element_create
      ImageInfo.capwap_imageinfo_element_parsing
      (fun d => d)
  | K_initdownload => Ops CAPWAP_MESSAGE_ELEMENT_SINGLE
      InitDownload.capwap_initdownload_element_create
      InitDownload.capwap_initdownload_element_parsing
      (fun d => d)
  | K_location => Ops CAPWAP_MESSAGE_ELEMENT_SINGLE
      Location.capwap_location_element_create
      Location.capwap_location_element_parsing
      Location.capwap_location_element_clone
  | K_maximumlength => Ops CAPWAP_MESSAGE_ELEMENT_SINGLE
      MaximumLength.capwap_maximumlength_element_create
      MaximumLength.capwap_maximumlength_element_parsing
      (fun d => d)
  | K_localipv4 => Ops CAPWAP_MESSAGE_ELEMENT_SINGLE
      LocalIPv4.capwap_localipv4_element_create
      LocalIPv4.capwap_localipv4_element_parsing
      (fun d => d)
  | K_radioadmstate => Ops CAPWAP_MESSAGE_ELEMENT_ARRAY
      RadioAdmState.capwap_radioadmstate_element_create
      RadioAdmState.capwap_radioadmstate_element_parsing
      (fun d => d)
  | K_radiooprstate => Ops CAPWAP_MESSAGE_ELEMENT_ARRAY
      RadioOprState.capwap_radiooprstate_element_create
      RadioOprState.capwap_radiooprstate_element_parsing
      (fun d => d)
  | K_resultcode => Ops CAPWAP_MESSAGE_ELEMENT_SINGLE
      ResultCode.capwap_resultcode_element_create
      ResultCode.capwap_resultcode_element_parsing
      (fun d => d)
  | K_returnedmessage => Ops CAPWAP_MESSAGE_ELEMENT_ARRAY
      ReturnedMessage.capwap_returnedmessage_element_create
      ReturnedMessage.capwap_returnedmessage_element_parsing
      ReturnedMessage.capwap_returnedmessage_element_clone
  | K_sessionid => Ops CAPWAP_MESSAGE_ELEMENT_SINGLE
      SessionId.capwap_sessionid_element_create
      SessionId.capwap_sessionid_element_parsing
      (fun d => d)
  | K_statisticstimer => Ops CAPWAP_MESSAGE_ELEMENT_SINGLE
      StatisticsTimer.capwap_statisticstimer_element_create
      StatisticsTimer.capwap_statisticstimer_element_parsing
      (fun d => d)
  | K_vendorpayload => Ops CAPWAP_MESSAGE_ELEMENT_ARRAY
      VendorPayload.capwap_vendorpayload_element_create
      VendorPayload.capwap_vendorpayload_element_parsing
      VendorPayload.capwap_vendorpayload_element_clone
  | K_wtpboarddata => Ops CAPWAP_MESSAGE_ELEMENT_SINGLE
      WtpBoardData.capwap_wtpboarddata_element_create
      WtpBoardData.capwap_wtpboarddata_element_parsing
      WtpBoardData.capwap_wtpboarddata_element_clone
  | K_wtpdescriptor => Ops CAPWAP_MESSAGE_ELEMENT_SINGLE
      WtpDescriptor.capwap_wtpdescriptor_element_create
      WtpDescriptor.capwap_wtpdescriptor_element_parsing
      WtpDescriptor.capwap_wtpdescriptor_element_clone
  | K_wtpfallback => Ops CAPWAP_MESSAGE_ELEMENT_SINGLE
      WtpFallback.capwap_wtpfallback_element_create
      WtpFallback.capwap_wtpfallback_element_parsing
      (fun d => d)
  | K_wtpframetunnelmode => Ops CAPWAP_MESSAGE_ELEMENT_SINGLE
      WtpFrameTunnelMode.capwap_wtpframetunnelmode_element_create
      WtpFrameTunnelMode.capwap_wtpframetunnelmode_element_parsing
      (fun d => d)
  | K_wtpmactype => Ops CAPWAP_MESSAGE_ELEMENT_SINGLE
      WtpMacType.capwap_wtpmactype_element_create
      WtpMacType.capwap_wtpmactype_element_parsing
      (fun d => d)
  | K_wtpname => Ops CAPWAP_MESSAGE_ELEMENT_SINGLE
      WtpName.capwap_wtpname_element_create
      WtpName.capwap_wtpname_element_parsing
      WtpName.capwap_wtpname_element_clone
  | K_wtpradiostat => Ops CAPWAP_MESSAGE_ELEMENT_SINGLE
      WtpRadioStat.capwap_wtpradiostat_element_create
      WtpRadioStat.capwap_wtpradiostat_element_parsing
      (fun d => d)
  | K_wtprebootstat => Ops CAPWAP_MESSAGE_ELEMENT_SINGLE
      WtpRebootStat.capwap_wtprebootstat_element_create
      WtpRebootStat.capwap_wtprebootstat_element_parsing
      (fun d => d)
  | K_wtpstaticipaddress => Ops CAPWAP_MESSAGE_ELEMENT_SINGLE
      WtpStaticIpAddress.capwap_wtpstaticipaddress_element_create
      WtpStaticIpAddress.capwap_wtpstaticipaddress_element_parsing
      (fun d => d)
  | K_localipv6 => Ops CAPWAP_MESSAGE_ELEMENT_SINGLE
      LocalIPv6.capwap_localipv6_element_create
      LocalIPv6.capwap_localipv6_element_parsing
      (fun d => d)
  | K_transport => Ops CAPWAP_MESSAGE_ELEMENT_SINGLE
      Transport.capwap_transport_element_create
      Transport.capwap_transport_element_parsing
      (fun d => d)
  | K_mtudiscovery => Ops CAPWAP_MESSAGE_ELEMENT_SINGLE
      MtuDiscovery.capwap_mtudiscovery_element_create
      MtuDiscovery.capwap_mtudiscovery_element_parsing
      (fun d => d)
  | K_ecnsupport => Ops CAPWAP_MESSAGE_ELEMENT_SINGLE
      EcnSupport.capwap_ecnsupport_element_create
      EcnSupport.capwap_ecnsupport_element_parsing
      (fun d => d)
  | K_80211_addwlan => Ops CAPWAP_MESSAGE_ELEMENT_SINGLE
      AddWlan.capwap_80211_addwlan_element_create
      AddWlan.capwap_80211_addwlan_element_parsing
      AddWlan.capwap_80211_addwlan_element_clone
  | K_80211_antenna => Ops CAPWAP_MESSAGE_ELEMENT_ARRAY
      Antenna.capwap_80211_antenna_element_create
      Antenna.capwap_80211_antenna_element_parsing
      (fun d => d)
  | K_80211_assignbssid => Ops CAPWAP_MESSAGE_ELEMENT_SINGLE
      AssignBssid.capwap_80211_assignbssid_element_create
      AssignBssid.capwap_80211_assignbssid_element_parsing
      (fun d => d)
  | K_80211_deletewlan => Ops CAPWAP_MESSAGE_ELEMENT_SINGLE
      DeleteWlan.capwap_80211_deletewlan_element_create
      DeleteWlan.capwap_80211_deletewlan_element_parsing
      (fun d => d)
  | K_80211_directsequencecontrol => Ops CAPWAP_MESSAGE_ELEMENT_ARRAY
      DirectSequenceControl.capwap_80211_directsequencecontrol_element_create
      DirectSequenceControl.capwap_80211_directsequencecontrol_element_parsing
      (fun d => d)
  | K_80211_ie => Ops CAPWAP_MESSAGE_ELEMENT_ARRAY
      Ie.capwap_80211_ie_element_create
      Ie.capwap_80211_ie_element_parsing
      Ie.capwap_80211_ie_element_clone
  | K_80211_mac_profile => Ops CAPWAP_MESSAGE_ELEMENT_SINGLE
      MacProfile.capwap_80211_mac_profile_element_create
      MacProfile.capwap_80211_mac_profile_element_parsing
      (fun d => d)
  | K_80211_macoperation => Ops CAPWAP_MESSAGE_ELEMENT_ARRAY
      MacOperation.capwap_80211_macoperation_element_create
      MacOperation.capwap_80211_macoperation_element_parsing
      (fun d => d)
  | K_80211_miccountermeasures => Ops CAPWAP_MESSAGE_ELEMENT_SINGLE
      MicCountermeasures.capwap_80211_miccountermeasures_element_create
      MicCountermeasures.capwap_80211_miccountermeasures_element_parsing
      (fun d => d)
  | K_80211_multidomaincapability => Ops CAPWAP_MESSAGE_ELEMENT_ARRAY
      MultiDomainCapability.capwap_80211_multidomaincapability_element_create
      MultiDomainCapability.capwap_80211_multidomaincapability_element_parsing
      (fun d => d)
  | K_80211_ofdmcontrol => Ops CAPWAP_MESSAGE_ELEMENT_ARRAY
      OfdmControl.capwap_80211_ofdmcontrol_element_create
      OfdmControl.capwap_80211_ofdmcontrol_element_parsing
      (fun d => d)
  | K_80211_rateset => Ops CAPWAP_MESSAGE_ELEMENT_ARRAY
      RateSet.capwap_80211_rateset_element_create
      RateSet.capwap_80211_rateset_element_parsing
      (fun d => d)
  | K_80211_rsnaerrorreport => Ops CAPWAP_MESSAGE_ELEMENT_SINGLE
      RsnaErrorReport.capwap_80211_rsnaerrorreport_element_create
      RsnaErrorReport.capwap_80211_rsnaerrorreport_element_parsing
      (fun d => d)
  | K_80211_station => Ops CAPWAP_MESSAGE_ELEMENT_SINGLE
      Station.capwap_80211_station_element_create
      Station.capwap_80211_station_element_parsing
      (fun d => d)
  | K_80211_stationqos => Ops CAPWAP_MESSAGE_ELEMENT_SINGLE
      StationQos.capwap_80211_stationqos_element_create
      StationQos.capwap_80211_stationqos_element_parsing
      (fun d => d)
  | K_80211_stationkey => Ops CAPWAP_MESSAGE_ELEMENT_SINGLE
      StationKey.capwap_80211_stationkey_element_create
      StationKey.capwap_80211_stationkey_element_parsing
      StationKey.capwap_80211_stationkey_element_clone
  | K_80211_statistics => Ops CAPWAP_MESSAGE_ELEMENT_ARRAY
      Statistics.capwap_80211_statistics_element_create
      Statistics.capwap_80211_statistics_element_parsing
      (fun d => d)
  | K_80211_supported_mac_profiles => Ops CAPWAP_MESSAGE_ELEMENT_SINGLE
      SupportedMacProfiles.capwap_80211_supported_mac_profiles_element_create
      SupportedMacProfiles.capwap_80211_supported_mac_profiles_element_parsing
      SupportedMacProfiles.capwap_80211_supported_mac_profiles_element_clone
  | K_80211_supportedrates => Ops CAPWAP_MESSAGE_ELEMENT_ARRAY
      SupportedRates.capwap_80211_supportedrates_element_create
      SupportedRates.capwap_80211_supportedrates_element_parsing
      (fun d => d)
  | K_80211_txpower => Ops CAPWAP_MESSAGE_ELEMENT_ARRAY
      TxPower.capwap_80211_txpower_element_create
      TxPower.capwap_80211_txpower_element_parsing
      (fun d => d)
  | K_80211_txpowerlevel => Ops CAPWAP_MESSAGE_ELEMENT_ARRAY
      TxPowerLevel.capwap_80211_txpowerlevel_element_create
      TxPowerLevel.capwap_80211_txpowerlevel_element_parsing
      (fun d => d)
  | K_80211_updatestationqos => Ops CAPWAP_MESSAGE_ELEMENT_SINGLE
      UpdateStationQos.capwap_80211_updatestationqos_element_create
      UpdateStationQos.capwap_80211_updatestationqos_element_parsing
      (fun d => d)
  | K_80211_updatewlan => Ops CAPWAP_MESSAGE_ELEMENT_SINGLE
      UpdateWlan.capwap_80211_updatewlan_element_create
      UpdateWlan.capwap_80211_updatewlan_element_parsing
      UpdateWlan.capwap_80211_updatewlan_element_clone
  | K_80211_wtpqos => Ops CAPWAP_MESSAGE_ELEMENT_ARRAY
      WtpQos.capwap_80211_wtpqos_element_create
      WtpQos.capwap_80211_wtpqos_element_parsing
      (fun d => d)
  | K_80211_wtpradioconf => Ops CAPWAP_MESSAGE_ELEMENT_ARRAY
      WtpRadioConf.capwap_80211_wtpradioconf_element_create
      WtpRadioConf.capwap_80211_wtpradioconf_element_parsing
      (fun d => d)
  | K_80211_wtpradiofailalarm => Ops CAPWAP_MESSAGE_ELEMENT_SINGLE
      WtpRadioFailAlarm.capwap_80211_wtpradiofailalarm_element_create
      WtpRadioFailAlarm.capwap_80211_wtpradiofailalarm_element_parsing
      (fun d => d)
  | K_80211_wtpradioinformation => Ops CAPWAP_MESSAGE_ELEMENT_ARRAY
      WtpRadioInformation.capwap_80211_wtpradioinformation_element_create
      WtpRadioInformation.capwap_80211_wtpradioinformation_element_parsing
      (fun d => d)
  | K_tp_wtp_timestamp => Ops CAPWAP_MESSAGE_ELEMENT_SINGLE
      WtpTimestamp.capwap_vendor_travelping_wtp_timestamp_element_create
      WtpTimestamp.capwap_vendor_travelping_wtp_timestamp_element_parsing
      (fun d => d)
  | K_80211n_radioconf => Ops CAPWAP_MESSAGE_ELEMENT_ARRAY
      RadioConfN.capwap_80211n_radioconf_element_create
      RadioConfN.capwap_80211n_radioconf_element_parsing
      (fun d => d)
  | K_80211n_station_info => Ops CAPWAP_MESSAGE_ELEMENT_SINGLE
      StationInfoN.capwap_80211n_station_info_element_create
      StationInfoN.capwap_80211n_station_info_element_parsing
      (fun d => d)
  | K_tp_80211_encryption_capability => Ops CAPWAP_MESSAGE_ELEMENT_ARRAY
      EncryptionCapability.capwap_vendor_travelping_80211_encryption_capability_element_create
      EncryptionCapability.capwap_vendor_travelping_80211_encryption_capability_element_parsing
      EncryptionCapability.capwap_vendor_travelping_80211_encryption_capability_element_clone
  | K_tp_80211_update_key => Ops CAPWAP_MESSAGE_ELEMENT_ARRAY
      UpdateKey.capwap_vendor_travelping_80211_update_key_element_create
      UpdateKey.capwap_vendor_travelping_80211_update_key_element_parsing
      UpdateKey.capwap_vendor_travelping_80211_update_key_element_clone
  end.

(** The kinds whose parser takes what [create] writes.  The other four: an IEEE
    802.11 Statistics is written with a null block, an Update Station QoS has a
    different length when it is read, the fraction of a WTP Timestamp does not
    survive, and an MTU Discovery Padding is never parsed at all. *)
Definition receivable (k : element_kind) : bool :=
  match k with
  | K_80211_statistics | K_80211_updatestationqos | K_tp_wtp_timestamp | K_mtudiscovery => false
  | _ => true
  end.

(** The elements a peer accepts; none of the kinds that are not [receivable]. *)
Definition element_wf (k : element_kind) : element_data k -> Prop :=
  match k with
  | K_acdescriptor => AcDescriptor.wf
  | K_acipv4list => AcIPv4List.wf
  | K_acipv6list => AcIPv6List.wf
  | K_acname => AcName.wf
  | K_acnamepriority => AcNamePriority.wf
  | K_actimestamp => AcTimestamp.wf
  | K_addmacacl => AddMacAcl.wf
  | K_addstation => AddStation.wf
  | K_controlipv4 => ControlIPv4.wf
  | K_controlipv6 => ControlIPv6.wf
  | K_timers => Timers.wf
  | K_datatransferdata => DataTransferData.wf
  | K_datatransfermode => DataTransferMode.wf
  | K_decrypterrorreport => DecryptErrorReport.wf
  | K_decrypterrorreportperiod => DecryptErrorReportPeriod.wf
  | K_deletemacacl => DeleteMacAcl.wf
  | K_deletestation => DeleteStation.wf
  | K_discoverytype => DiscoveryType.wf
  | K_duplicateipv4 => DuplicateIPv4.wf
  | K_duplicateipv6 => DuplicateIPv6.wf
  | K_idletimeout => IdleTimeout.wf
  | K_imagedata => ImageData.wf
  | K_imageidentifier => ImageIdentifier.wf
  | K_imageinfo => ImageInfo.wf
  | K_initdownload => InitDownload.wf
  | K_location => Location.wf
  | K_maximumlength => MaximumLength.wf
  | K_localipv4 => LocalIPv4.wf
  | K_radioadmstate => RadioAdmState.wf
  | K_radiooprstate => RadioOprState.wf
  | K_resultcode => ResultCode.wf
  | K_returnedmessage => ReturnedMessage.wf
  | K_sessionid => SessionId.wf
  | K_statisticstimer => StatisticsTimer.wf
  | K_vendorpayload => VendorPayload.wf
  | K_wtpboarddata => WtpBoardData.wf
  | K_wtpdescriptor => WtpDescriptor.wf
  | K_wtpfallback => WtpFallback.wf
  | K_wtpframetunnelmode => WtpFrameTunnelMode.wf
  | K_wtpmactype => WtpMacType.wf
  | K_wtpname => WtpName.wf
  | K_wtpradiostat => WtpRadioStat.wf
  | K_wtprebootstat => WtpRebootStat.wf
  | K_wtpstaticipaddress => WtpStaticIpAddress.wf
  | K_localipv6 => LocalIPv6.wf
  | K_transport => Transport.wf
  | K_mtudiscovery => fun _ => False
  | K_ecnsupport => EcnSupport.wf
  | K_80211_addwlan => AddWlan.wf
  | K_80211_antenna => Antenna.wf
  | K_80211_assignbssid => AssignBssid.wf
  | K_80211_deletewlan => DeleteWlan.wf
  | K_80211_directsequencecontrol => DirectSequenceControl.wf
  | K_80211_ie => Ie.wf
  | K_80211_mac_profile => MacProfile.wf
  | K_80211_macoperation => MacOperation.wf
  | K_80211_miccountermeasures => MicCountermeasures.wf
  | K_80211_multidomaincapability => MultiDomainCapability.wf
  | K_80211_ofdmcontrol => OfdmControl.wf
  | K_80211_rateset => RateSet.wf
  | K_80211_rsnaerrorreport => RsnaErrorReport.wf
  | K_80211_station => Station.wf
  | K_80211_stationqos => StationQos.wf
  | K_80211_stationkey => StationKey.wf
  | K_80211_statistics => fun _ => False
  | K_80211_supported_mac_profiles => SupportedMacProfiles.wf
  | K_80211_supportedrates => SupportedRates.wf
  | K_80211_txpower => TxPower.wf
  | K_80211_txpowerlevel => TxPowerLevel.wf
  | K_80211_updatestationqos => fun _ => False
  | K_80211_updatewlan => UpdateWlan.wf
  | K_80211_wtpqos => WtpQos.wf
  | K_80211_wtpradioconf => WtpRadioConf.wf
  | K_80211_wtpradiofailalarm => WtpRadioFailAlarm.wf
  | K_80211_wtpradioinformation => WtpRadioInformation.wf
  | K_tp_wtp_timestamp => fun _ => False
  | K_80211n_radioconf => RadioConfN.wf
  | K_80211n_station_info => StationInfoN.wf
  | K_tp_80211_encryption_capability => EncryptionCapability.wf
  | K_tp_80211_update_key => UpdateKey.wf
  end.

End Table.

(** The assertions at the head of [create]. *)
Definition element_asserts (k : element_kind) : element_data k -> bool :=
  match k with
  | K_acdescriptor => AcDescriptor.capwap_acdescriptor_element_asserts
  | K_addmacacl => AddMacAcl.capwap_addmacacl_element_asserts
  | K_addstation => AddStation.capwap_addstation_element_asserts
  | K_datatransferdata => DataTransferData.capwap_datatransferdata_element_asserts
  | K_datatransfermode => DataTransferMode.capwap_datatransfermode_element_asserts
  | K_decrypterrorreport => DecryptErrorReport.capwap_decrypterrorreport_element_asserts
  | K_decrypterrorreportperiod => DecryptErrorReportPeriod.capwap_decrypterrorreportperiod_element_asserts
  | K_deletemacacl => DeleteMacAcl.capwap_deletemacacl_element_asserts
  | K_deletestation => DeleteStation.capwap_deletestation_element_asserts
  | K_discoverytype => DiscoveryType.capwap_discoverytype_element_asserts
  | K_duplicateipv4 => DuplicateIPv4.capwap_duplicateipv4_element_asserts
  | K_duplicateipv6 => DuplicateIPv6.capwap_duplicateipv6_element_asserts
  | K_imagedata => ImageData.capwap_imagedata_element_asserts
  | K_imageidentifier => ImageIdentifier.capwap_imageidentifier_element_asserts
  | K_location => Location.capwap_location_element_asserts
  | K_radioadmstate => RadioAdmState.capwap_radioadmstate_element_asserts
  | K_radiooprstate => RadioOprState.capwap_radiooprstate_element_asserts
  | K_resultcode => ResultCode.capwap_resultcode_element_asserts
  | K_returnedmessage => ReturnedMessage.capwap_returnedmessage_element_asserts
  | K_vendorpayload => VendorPayload.capwap_vendorpayload_element_asserts
  | K_wtpboarddata => WtpBoardData.capwap_wtpboarddata_element_asserts
  | K_wtpdescriptor => WtpDescriptor.capwap_wtpdescriptor_element_asserts
  | K_wtpfallback => WtpFallback.capwap_wtpfallback_element_asserts
  | K_wtpframetunnelmode => WtpFrameTunnelMode.capwap_wtpframetunnelmode_element_asserts
  | K_wtpmactype => WtpMacType.capwap_wtpmactype_element_asserts
  | K_wtpname => WtpName.capwap_wtpname_element_asserts
  | K_wtpradiostat => WtpRadioStat.capwap_wtpradiostat_element_asserts
  | K_transport => Transport.capwap_transport_element_asserts
  | K_ecnsupport => EcnSupport.capwap_ecnsupport_element_asserts
  | K_80211_addwlan => AddWlan.capwap_80211_addwlan_element_asserts
  | K_80211_antenna => Antenna.capwap_80211_antenna_element_asserts
  | K_80211_directsequencecontrol => DirectSequenceControl.capwap_80211_directsequencecontrol_element_asserts
  | K_acipv4list | K_acipv6list | K_acname | K_acnamepriority | K_actimestamp
  | K_controlipv4 | K_controlipv6 | K_timers | K_idletimeout | K_imageinfo | K_initdownload
  | K_maximumlength | K_localipv4 | K_sessionid | K_statisticstimer | K_wtprebootstat
  | K_wtpstaticipaddress | K_localipv6 | K_mtudiscovery | K_80211_assignbssid
  | K_80211_deletewlan | K_80211_ie | K_80211_mac_profile | K_80211_macoperation
  | K_80211_miccountermeasures | K_80211_multidomaincapability | K_80211_ofdmcontrol
  | K_80211_rateset | K_80211_rsnaerrorreport | K_80211_station | K_80211_stationqos
  | K_80211_stationkey | K_80211_statistics | K_80211_supported_mac_profiles
  | K_80211_supportedrates | K_80211_txpower | K_80211_txpowerlevel | K_80211_updatestationqos
  | K_80211_updatewlan | K_80211_wtpqos | K_80211_wtpradioconf | K_80211_wtpradiofailalarm
  | K_80211_wtpradioinformation | K_tp_wtp_timestamp | K_80211n_radioconf
  | K_80211n_station_info | K_tp_80211_encryption_capability | K_tp_80211_update_key => fun _ => true
  end.

(** The kinds whose [parse] establishes the assertions of [create]. *)
Definition parse_establishes_asserts (k : element_kind) : bool :=
  match k with
  | K_acdescriptor | K_wtpboarddata | K_wtpdescriptor | K_wtpname | K_80211_addwlan => false
  | _ => true
  end.

(** ** The arrays with designated initializers *)

Definition CAPWAP_MESSAGE_ELEMENTS_START : Z := 1.
Definition CAPWAP_80211_MESSAGE_ELEMENTS_START : Z := 1024.
Definition CAPWAP_80211_MESSAGE_ELEMENTS_STOP : Z := 1048.
Definition CAPWAP_VENDOR_TRAVELPING_ID : Z := 18681.

Definition capwap_message_elements : list (option element_kind) :=
  [Some K_acdescriptor; Some K_acipv4list; Some K_acipv6list; Some K_acname;
   Some K_acnamepriority; Some K_actimestamp; Some K_addmacacl; Some K_addstation; None;
   Some K_controlipv4; Some K_controlipv6; Some K_timers; Some K_datatransferdata;
   Some K_datatransfermode; Some K_decrypterrorreport; Some K_decrypterrorreportperiod;
   Some K_deletemacacl; Some K_deletestation; None; Some K_discoverytype;
   Some K_duplicateipv4; Some K_duplicateipv6; Some K_idletimeout; Some K_imagedata;
   Some K_imageidentifier; Some K_imageinfo; Some K_initdownload; Some K_location;
   Some K_maximumlength; Some K_localipv4; Some K_radioadmstate; Some K_radiooprstate;
   Some K_resultcode; Some K_returnedmessage; Some K_sessionid; Some K_statisticstimer;
   Some K_vendorpayload; Some K_wtpboarddata; Some K_wtpdescriptor; Some K_wtpfallback;
   Some K_wtpframetunnelmode; None; None; Some K_wtpmactype; Some K_wtpname; None;
   Some K_wtpradiostat; Some K_wtprebootstat; Some K_wtpstaticipaddress; Some K_localipv6;
   Some K_transport; Some K_mtudiscovery; Some K_ecnsupport].

Definition capwap_80211_message_elements : list (option element_kind) :=
  [Some K_80211_addwlan; Some K_80211_antenna; Some K_80211_assignbssid;
   Some K_80211_deletewlan; Some K_80211_directsequencecontrol; Some K_80211_ie;
   Some K_80211_macoperation; Some K_80211_miccountermeasures;
   Some K_80211_multidomaincapability; Some K_80211_ofdmcontrol; Some K_80211_rateset;
   Some K_80211_rsnaerrorreport; Some K_80211_station; Some K_80211_stationqos;
   Some K_80211_stationkey; Some K_80211_statistics; Some K_80211_supportedrates;
   Some K_80211_txpower; Some K_80211_txpowerlevel; Some K_80211_updatestationqos;
   Some K_80211_updatewlan; Some K_80211_wtpqos; Some K_80211_wtpradioconf;
   Some K_80211_wtpradiofailalarm; Some K_80211_wtpradioinformation; None; None; None; None;
   None; None; None; None; None; None; None; Some K_80211_supported_mac_profiles;
   Some K_80211_mac_profile].

Definition capwap_vendor_travelping_message_elements : list (option element_kind) :=
  [None; Some K_tp_wtp_timestamp; None; None; None; None; None; None; None; None; None; None;
   None; None; None; Some K_80211n_radioconf; Some K_80211n_station_info;
   Some K_tp_80211_encryption_capability; Some K_tp_80211_update_key].

(** [NULL] for an id outside the arrays and for the holes in them. *)
Definition capwap_get_message_element_ops (id : capwap_message_element_id)
    : option element_kind :=
  let at_index (l : list (option element_kind)) (i : Z) := mjoin (l !! Z.to_nat i) in
  if vendor id =? 0 then
    if (CAPWAP_MESSAGE_ELEMENTS_START <=? type id) &&
       (type id - CAPWAP_MESSAGE_ELEMENTS_START <? zlen capwap_message_elements)
    then at_index capwap_message_elements (type id - CAPWAP_MESSAGE_ELEMENTS_START)
    else if (CAPWAP_80211_MESSAGE_ELEMENTS_START <=? type id) &&
            (type id - CAPWAP_80211_MESSAGE_ELEMENTS_START <? zlen capwap_80211_message_elements)
    then at_index capwap_80211_message_elements (type id - CAPWAP_80211_MESSAGE_ELEMENTS_START)
    else None
  else if vendor id =? CAPWAP_VENDOR_TRAVELPING_ID then
    if (1 <=? type id) && (type id - 1 <? zlen capwap_vendor_travelping_message_elements)
    then at_index capwap_vendor_travelping_message_elements (type id - 1)
    else None
  else None.

Definition IS_80211_MESSAGE_ELEMENTS (x : capwap_message_element_id) : bool :=
  (vendor x =? 0) && (CAPWAP_80211_MESSAGE_ELEMENTS_START <=? type x) &&
  (type x <=? CAPWAP_80211_MESSAGE_ELEMENTS_STOP).

(** The id under which a kind is registered. *)
Definition kind_id (k : element_kind) : capwap_message_element_id :=
  match k with
  | K_acdescriptor => ElementId 0 1
  | K_acipv4list => ElementId 0 2
  | K_acipv6list => ElementId 0 3
  | K_acname => ElementId 0 4
  | K_acnamepriority => ElementId 0 5
  | K_actimestamp => ElementId 0 6
  | K_addmacacl => ElementId 0 7
  | K_addstation => ElementId 0 8
  | K_controlipv4 => ElementId 0 10
  | K_controlipv6 => ElementId 0 11
  | K_timers => ElementId 0 12
  | K_datatransferdata => ElementId 0 13
  | K_datatransfermode => ElementId 0 14
  | K_decrypterrorreport => ElementId 0 15
  | K_decrypterrorreportperiod => ElementId 0 16
  | K_deletemacacl => ElementId 0 17
  | K_deletestation => ElementId 0 18
  | K_discoverytype => ElementId 0 20
  | K_duplicateipv4 => ElementId 0 21
  | K_duplicateipv6 => ElementId 0 22
  | K_idletimeout => ElementId 0 23
  | K_imagedata => ElementId 0 24
  | K_imageidentifier => ElementId 0 25
  | K_imageinfo => ElementId 0 26
  | K_initdownload => ElementId 0 27
  | K_location => ElementId 0 28
  | K_maximumlength => ElementId 0 29
  | K_localipv4 => ElementId 0 30
  | K_radioadmstate => ElementId 0 31
  | K_radiooprstate => ElementId 0 32
  | K_resultcode => ElementId 0 33
  | K_returnedmessage => ElementId 0 34
  | K_sessionid => ElementId 0 35
  | K_statisticstimer => ElementId 0 36
  | K_vendorpayload => ElementId 0 37
  | K_wtpboarddata => ElementId 0 38
  | K_wtpdescriptor => ElementId 0 39
  | K_wtpfallback => ElementId 0 40
  | K_wtpframetunnelmode => ElementId 0 41
  | K_wtpmactype => ElementId 0 44
  | K_wtpname => ElementId 0 45
  | K_wtpradiostat => ElementId 0 47
  | K_wtprebootstat => ElementId 0 48
  | K_wtpstaticipaddress => ElementId 0 49
  | K_localipv6 => ElementId 0 50
  | K_transport => ElementId 0 51
  | K_mtudiscovery => ElementId 0 52
  | K_ecnsupport => ElementId 0 53
  | K_80211_addwlan => ElementId 0 1024
  | K_80211_antenna => ElementId 0 1025
  | K_80211_assignbssid => ElementId 0 1026
  | K_80211_deletewlan => ElementId 0 1027
  | K_80211_directsequencecontrol => ElementId 0 1028
  | K_80211_ie => ElementId 0 1029
  | K_80211_mac_profile => ElementId 0 1061
  | K_80211_macoperation => ElementId 0 1030
  | K_80211_miccountermeasures => ElementId 0 1031
  | K_80211_multidomaincapability => ElementId 0 1032
  | K_80211_ofdmcontrol => ElementId 0 1033
  | K_80211_rateset => ElementId 0 1034
  | K_80211_rsnaerrorreport => ElementId 0 1035
  | K_80211_station => ElementId 0 1036
  | K_80211_stationqos => ElementId 0 1037
  | K_80211_stationkey => ElementId 0 1038
  | K_80211_statistics => ElementId 0 1039
  | K_80211_supported_mac_profiles => ElementId 0 1060
  | K_80211_supportedrates => ElementId 0 1040
  | K_80211_txpower => ElementId 0 1041
  | K_80211_txpowerlevel => ElementId 0 1042
  | K_80211_updatestationqos => ElementId 0 1043
  | K_80211_updatewlan => ElementId 0 1044
  | K_80211_wtpqos => ElementId 0 1045
  | K_80211_wtpradioconf => ElementId 0 1046
  | K_80211_wtpradiofailalarm => ElementId 0 1047
  | K_80211_wtpradioinformation => ElementId 0 1048
  | K_tp_wtp_timestamp => ElementId CAPWAP_VENDOR_TRAVELPING_ID 2
  | K_80211n_radioconf => ElementId CAPWAP_VENDOR_TRAVELPING_ID 16
  | K_80211n_station_info => ElementId CAPWAP_VENDOR_TRAVELPING_ID 17
  | K_tp_80211_encryption_capability => ElementId CAPWAP_VENDOR_TRAVELPING_ID 18
  | K_tp_80211_update_key => ElementId CAPWAP_VENDOR_TRAVELPING_ID 19
  end.

(** The data of an element with its kind. *)
Definition message_element : Type := { k : element_kind & element_data k }.

(** ** Lemmas *)

Lemma message_element_id_eq_spec a b : message_element_id_eq a b = true <-> a = b.
Proof.
  destruct a as [v t], b as [v' t']. unfold message_element_id_eq; cbn.
  rewrite andb_true_iff, !Z.eqb_eq. split; [intros [-> ->]; done|by injection 1 as -> ->].
Qed.

(** Every kind is found under its id: no two entries collide. *)
Lemma table_lookup k : capwap_get_message_element_ops (kind_id k) = Some k.
Proof. by destruct k. Qed.

Lemma kind_id_inj k k' : kind_id k = kind_id k' -> k = k'.
Proof.
  intros E. pose proof (table_lookup k) as H. rewrite E, table_lookup in H. congruence.
Qed.

Lemma mjoin_some {A} (o : option (option A)) x : mjoin o = Some x -> o = Some (Some x).
Proof. destruct o as [[y|]|]; [|done..]. by injection 1 as ->. Qed.

(** The entries of an array stand at the index of their type. *)
Definition indexed (v start : Z) (l : list (option element_kind)) : bool :=
  forallb (fun '(i, o) => match o with
                          | Some k => message_element_id_eq (kind_id k) (ElementId v (start + Z.of_nat i))
                          | None => true
                          end) (imap pair l).

Lemma indexed_lookup v start l i k :
  indexed v start l = true -> l !! i = Some (Some k) ->
  kind_id k = ElementId v (start + Z.of_nat i).
Proof.
  unfold indexed. rewrite forallb_forall. intros Hall Hi. apply message_element_id_eq_spec.
  apply (Hall (i, Some k)), list_elem_of_In, (list_elem_of_lookup_2 _ i).
  by rewrite list_lookup_imap, Hi.
Qed.

Lemma elements_indexed : indexed 0 1 capwap_message_elements = true.
Proof. by vm_compute. Qed.

Lemma elements_80211_indexed : indexed 0 1024 capwap_80211_message_elements = true.
Proof. by vm_compute. Qed.

Lemma elements_travelping_indexed :
  indexed CAPWAP_VENDOR_TRAVELPING_ID 1 capwap_vendor_travelping_message_elements = true.
Proof. by vm_compute. Qed.

(** Conversely an id that is found is the id of its kind: the entries stand at
    the index of their type. *)
Lemma table_inverse id k : capwap_get_message_element_ops id = Some k -> kind_id k = id.
Proof.
  destruct id as [v t]. unfold capwap_get_message_element_ops, CAPWAP_MESSAGE_ELEMENTS_START,
    CAPWAP_80211_MESSAGE_ELEMENTS_START. cbn [vendor type].
  destruct (Z.eqb_spec v 0) as [->|]; [|destruct (Z.eqb_spec v CAPWAP_VENDOR_TRAVELPING_ID) as [->|]];
    repeat match goal with |- context [if ?b then _ else _] => destruct b eqn:? end; try done;
    split_andb; intros Hk%mjoin_some.
  - rewrite (indexed_lookup _ _ _ _ _ elements_indexed Hk). f_equal. lia.
  - rewrite (indexed_lookup _ _ _ _ _ elements_80211_indexed Hk). f_equal. lia.
  - rewrite (indexed_lookup _ _ _ _ _ elements_travelping_indexed Hk). f_equal. lia.
Qed.

(** The bytes of every well-formed element are parsed back to it. *)
Lemma element_roundtrip `{Indeterminate} k (d : element_data k) fuel rest :
  element_wf k d ->
  (length (wire (create (element_ops k) d)) < fuel)%nat ->
  zlen (wire (create (element_ops k) d)) < 65536 ->
  run (parse (element_ops k) fuel)
    (Stream (zlen (wire (create (element_ops k) d))) (wire (create (element_ops k) d) ++ rest)) =
  Done (Some d, Stream 0 rest).
Proof. destruct k; cbn [element_data] in d; first [ exact (c_roundtrip d fuel rest) | by intros []]. Qed.

Lemma element_safe `{Indeterminate} k (d : element_data k) :
  element_wf k d -> forallb call_asserts (create (element_ops k) d) = true.
Proof. destruct k; cbn [element_data] in d; first [ exact (c_safe d) | by intros []]. Qed.

Lemma element_clone `{Indeterminate} k (d : element_data k) :
  element_wf k d ->
  create (element_ops k) (clone (element_ops k) d) = create (element_ops k) d.
Proof. destruct k; cbn [element_data] in d; first [ exact (c_clone_create d) | by intros []]. Qed.

(** Whatever bytes arrive, an element that was accepted can be sent again. *)
Lemma element_parse_asserts `{Indeterminate} k fuel s (d : element_data k) s' :
  parse_establishes_asserts k = true -> stream_ok s ->
  run (parse (element_ops k) fuel) s = Done (Some d, s') -> element_asserts k d = true.
Proof. destruct k; cbn [element_data] in d; first [ done | intros _; exact (parse_asserts fuel s d s')]. Qed.
