(* ===== verification/Termination.v ===== *)
(** Termination of the parse callbacks on arbitrary input.

    The fuel of a callback bounds the turns of its loops.  Every loop but the
    one of the two address lists consumes a byte of the packet at each turn, so
    more fuel than there are bytes is enough; the loop of the address lists
    ends exactly when its counter is a multiple of the address size.  A callback
    also ends when the assertion of [read_block] fails: the parser of an MTU
    Discovery Padding, and an empty field of a variable length, ask for a block
    of no bytes. *)
From S2P Require Import Prelude Io.
From S2P Require Import ElementsAcList ElementsAc ElementsControl ElementsImage ElementsWtpDesc.
From S2P Require Import ElementsWtp Elements80211a Elements80211b Element.

(** The callback ends on the stream. *)
Definition ends {A} (p : parser A) (s : stream) : Prop := run p s <> Looping.

(** A read of at least one byte makes progress unless the packet is used up. *)
Lemma stream_read_progress s n :
  0 < n < 65536 -> st_bytes s <> [] ->
  (length (st_bytes (stream_read s n).2) < length (st_bytes s))%nat.
Proof.
  intros Hn Hs. cbn. rewrite length_drop, wrap16_small by lia. unfold stream_limit.
  destruct (st_bytes s) as [|b bs]; [done|]. cbn [length].
  destruct (0 <? st_allowed s) eqn:Ea; bools; lia.
Qed.

(** A callback leaves a suffix of the packet. *)
Lemma run_suffix {A} (p : parser A) s a s' :
  run p s = Done (a, s') -> exists n, st_bytes s' = drop n (st_bytes s).
Proof.
  assert (Hr : forall s n f, (exists m, st_bytes f = drop m (st_bytes (stream_read s n).2)) ->
    exists m, st_bytes f = drop m (st_bytes s)).
  { intros ? ? f [m E]. cbn in E. rewrite drop_drop in E. by eexists. }
  revert s. induction p as [x| |k IH|k IH|k IH|k IH|n k IH]; intros s; unfold run;
    fold (@run stream _); cbn [read_u8 read_u16 read_u32 read_block stream_ops].
  - injection 1 as _ <-. by exists 0%nat.
  - done.
  - apply IH.
  - intros E. apply (Hr s 1). destruct (stream_read s 1). by apply IH in E.
  - intros E. apply (Hr s 2). destruct (stream_read s 2). by apply IH in E.
  - intros E. apply (Hr s 4). destruct (stream_read s 4). by apply IH in E.
  - unfold stream_block. destruct (wrap16 n =? 0); [done|].
    intros E. apply (Hr s n). destruct (stream_read s n). by apply IH in E.
Qed.

Lemma run_shrinks {A} (p : parser A) s a s' :
  run p s = Done (a, s') -> (length (st_bytes s') <= length (st_bytes s))%nat.
Proof. intros [n ->]%run_suffix. rewrite length_drop. lia. Qed.

Section Ends.
Context {I : Indeterminate} {A B : Type}.

Lemma ends_mret (a : A) s : ends (mret a) s.
Proof. done. Qed.

Lemma ends_bind (p : parser A) (f : A -> parser B) s :
  ends p s ->
  (forall a s', (length (st_bytes s') <= length (st_bytes s))%nat -> ends (f a) s') ->
  ends (p ≫= f) s.
Proof.
  unfold ends. intros Hp Hf. rewrite run_bind. destruct (run p s) as [[a s']| |] eqn:E; [|done..].
  apply Hf. by eapply run_shrinks.
Qed.

Lemma ends_ready s : ends p_ready s.
Proof. done. Qed.

Lemma run_u8_any old s :
  run (p_u8 old) s = Done (default old (as_u8 (stream_read s 1).1), (stream_read s 1).2).
Proof. unfold p_u8, run. cbn [read_u8 stream_ops]. by destruct (stream_read s 1). Qed.

Lemma ends_u8 old s : ends (p_u8 old) s.
Proof. unfold ends. by rewrite run_u8_any. Qed.

Lemma run_u16_any old s :
  run (p_u16 old) s = Done (default old (as_u16 (stream_read s 2).1), (stream_read s 2).2).
Proof. unfold p_u16, run. cbn [read_u16 stream_ops]. by destruct (stream_read s 2). Qed.

Lemma ends_u16 old s : ends (p_u16 old) s.
Proof. unfold ends. by rewrite run_u16_any. Qed.

Lemma run_u32_any old s :
  run (p_u32 old) s = Done (default old (as_u32 (stream_read s 4).1), (stream_read s 4).2).
Proof. unfold p_u32, run. cbn [read_u32 stream_ops]. by destruct (stream_read s 4). Qed.

Lemma ends_u32 old s : ends (p_u32 old) s.
Proof. unfold ends. by rewrite run_u32_any. Qed.

Lemma ends_block old s : ends (p_block old) s.
Proof.
  unfold ends, p_block, run. cbn [read_block stream_ops]. unfold stream_block.
  by destruct (wrap16 _ =? 0), (stream_read s (zlen old)).
Qed.

End Ends.

Lemma ends_fmap {A B} (f : A -> B) (p : parser A) s : ends p s -> ends (f <$> p) s.
Proof. intros H. apply ends_bind; [done|]. intros. apply ends_mret. Qed.

Create HintDb capwap_ends.
#[export] Hint Resolve @ends_mret @ends_ready @ends_u8 @ends_u16 @ends_u32 @ends_block @ends_fmap
  : capwap_ends.

(** Walks through a parser: a call, then every continuation of it. *)
Ltac ends_step :=
  match goal with
  | |- ends (if ?b then _ else _) _ => destruct b eqn:?
  | |- ends (match ?x with _ => _ end) _ => destruct x eqn:?
  | |- ends (_ ≫= _) _ => apply ends_bind; [|intros ? ? ?]
  | |- ends (let '_ := _ in _) _ => cbn zeta
  | |- ends _ _ => solve [auto with capwap_ends]
  end.

Section Arrays.
Context {I : Indeterminate}.

Lemma ends_u8s old s : ends (p_u8s old) s.
Proof. revert s. induction old; intros s; cbn; repeat ends_step; auto. Qed.

Lemma ends_u16s old s : ends (p_u16s old) s.
Proof. revert s. induction old; intros s; cbn; repeat ends_step; auto. Qed.

Lemma ends_u32s old s : ends (p_u32s old) s.
Proof. revert s. induction old; intros s; cbn; repeat ends_step; auto. Qed.

Lemma ends_unknown_vendorpayload length vendorid elementid s :
  ends (VendorPayload.capwap_unknown_vendorpayload_element_parsing length vendorid elementid) s.
Proof. unfold VendorPayload.capwap_unknown_vendorpayload_element_parsing. repeat ends_step. Qed.

Lemma ends_read_qos n s : ends (WtpQos.read_qos n) s.
Proof. revert s. induction n; intros s; cbn; repeat ends_step; auto. Qed.

Lemma ends_update_read_qos n s : ends (UpdateStationQos.read_station_qos n) s.
Proof. revert s. induction n; intros s; cbn; repeat ends_step; auto. Qed.

Lemma ends_read_encrypts n acc s : ends (WtpDescriptor.read_encrypts n acc) s.
Proof. revert acc s. induction n; intros acc s; cbn; repeat ends_step; auto. Qed.

End Arrays.

#[export] Hint Resolve ends_u8s ends_u16s ends_u32s ends_unknown_vendorpayload ends_read_qos ends_update_read_qos
  ends_read_encrypts : capwap_ends.

(** ** The loops driven by [read_ready] *)

Section Loops.
Context {I : Indeterminate}.

Lemma ready_pos (s : stream) : 0 < read_ready s -> st_bytes s <> [].
Proof. cbn. by destruct (st_bytes s). Qed.

Lemma ends_ready_bind {B} (f : Z -> parser B) s : ends (f (read_ready s)) s -> ends (p_ready ≫= f) s.
Proof. done. Qed.

Lemma ends_u16_bind {B} old (f : Z -> parser B) s :
  st_bytes s <> [] ->
  (forall a s', (length (st_bytes s') < length (st_bytes s))%nat -> ends (f a) s') ->
  ends (p_u16 old ≫= f) s.
Proof.
  intros Hs Hf. unfold ends. rewrite run_bind, run_u16_any.
  apply Hf, stream_read_progress; [lia|done].
Qed.

Lemma ends_u32_bind {B} old (f : Z -> parser B) s :
  st_bytes s <> [] ->
  (forall a s', (length (st_bytes s') < length (st_bytes s))%nat -> ends (f a) s') ->
  ends (p_u32 old ≫= f) s.
Proof.
  intros Hs Hf. unfold ends. rewrite run_bind, run_u32_any.
  apply Hf, stream_read_progress; [lia|done].
Qed.

(** One turn: the loop is entered only when a byte is left, and its first read
    consumes it. *)
Ltac loop_turn IH :=
  let Hready := fresh "Hready" in
  apply ends_ready_bind;
  match goal with |- context [0 <? ?x] => destruct (0 <? x) eqn:Hready end;
  [ bools; apply ready_pos in Hready;
    first [ apply ends_u16_bind | apply ends_u32_bind | idtac ]; [done|];
    intros ? ? ?; repeat first [ apply IH; lia | ends_step ]
  | auto with capwap_ends ].

Lemma ends_read_boards fuel acc s :
  (length (st_bytes s) < fuel)%nat -> ends (WtpBoardData.read_boards fuel acc) s.
Proof.
  revert acc s. induction fuel as [|fuel IH]; intros acc s Hf; [lia|].
  cbn [WtpBoardData.read_boards]. loop_turn IH.
Qed.

Lemma ends_ac_read_descs fuel acc s :
  (length (st_bytes s) < fuel)%nat -> ends (AcDescriptor.ac_read_descs fuel acc) s.
Proof.
  revert acc s. induction fuel as [|fuel IH]; intros acc s Hf; [lia|].
  cbn [AcDescriptor.ac_read_descs]. loop_turn IH.
Qed.

Lemma ends_wtp_read_descs fuel acc s :
  (length (st_bytes s) < fuel)%nat -> ends (WtpDescriptor.wtp_read_descs fuel acc) s.
Proof.
  revert acc s. induction fuel as [|fuel IH]; intros acc s Hf; [lia|].
  cbn [WtpDescriptor.wtp_read_descs]. apply ends_ready_bind.
  destruct (0 <? read_ready s) eqn:Hready; [|auto with capwap_ends].
  bools. apply ready_pos in Hready. apply ends_ready_bind. ends_step; [auto with capwap_ends|].
  apply ends_u32_bind; [done|]. intros ? ? ?. repeat first [ apply IH; lia | ends_step ].
Qed.

(** ** The loop of the address lists *)

Lemma ends_read_addresses size fuel length acc s :
  0 < size -> 0 <= length < 65536 -> length mod size = 0 -> length < Z.of_nat fuel ->
  ends (AddressLoop.read_addresses size fuel length acc) s.
Proof.
  intros Hsize. revert length acc s. induction fuel as [|fuel IH]; intros n acc s Hn Hm Hf; [lia|].
  cbn [AddressLoop.read_addresses]. destruct (0 <? n) eqn:Hpos; [|auto with capwap_ends]. bools.
  apply ends_bind; [auto with capwap_ends|]. intros a s' _.
  apply Z.mod_divide in Hm; [|lia]. destruct Hm as [q ->].
  assert (Hq : 0 < q) by (apply (Z.mul_pos_cancel_r q size); lia).
  assert (size <= q * size) by nia.
  rewrite wrap16_small by lia. apply IH; [lia| |lia].
  replace (q * size - size) with ((q - 1) * size) by lia. apply Z_mod_mult.
Qed.

End Loops.

#[export] Hint Resolve ends_read_boards ends_ac_read_descs ends_wtp_read_descs : capwap_ends.

(** The two callbacks whose loop may not end. *)
Definition loops_on_counter (k : element_kind) : bool :=
  match k with K_acipv4list | K_acipv6list => true | _ => false end.

Lemma parse_ends `{Indeterminate} k fuel s :
  loops_on_counter k = false -> (length (st_bytes s) < fuel)%nat ->
  ends (parse (element_ops k) fuel) s.
Proof.
  intros Hk Hf.
  destruct k; try done; cbn [parse element_ops];
    match goal with |- ends ?p _ => let h := get_head p in unfold h end;
    repeat ends_step; auto with capwap_ends lia.
Qed.
