(* ===== verification/ElementProps.v ===== *)
(** Properties of the message elements, uniform over the 80 entries of the
    three dispatch tables. *)
From S2P Require Import Prelude Io.
From S2P Require Import ElementsAcList ElementsAc ElementsControl ElementsImage ElementsWtpDesc.
From S2P Require Import ElementsWtp Elements80211a Elements80211b Element Termination.

(** An AC Descriptor with one sub-element. *)
Definition sample_acdescriptor : AcDescriptor.capwap_acdescriptor_element :=
  {| AcDescriptor.stations := 3; AcDescriptor.stationlimit := 10; AcDescriptor.activewtp := 1;
     AcDescriptor.maxwtp := 2; AcDescriptor.security := 4; AcDescriptor.rmacfield := 1;
     AcDescriptor.dtlspolicy := 4;
     AcDescriptor.descsubelement :=
       [{| AcDescriptor.vendor := 23456; AcDescriptor.type := 4; AcDescriptor.length := 3;
           AcDescriptor.data := [49; 46; 48; 0] |}] |}.

Lemma sample_acdescriptor_wf : element_wf K_acdescriptor sample_acdescriptor.
Proof.
  unfold element_wf, AcDescriptor.wf. split_and!; try by_computation.
  constructor; [|constructor]. split; [cbn; lia|]. split; [by left|].
  exists [49; 46; 48]. cbn. repeat split; lia.
Qed.

(** C3: for the 76 kinds of message element that are [receivable] and every
    well-formed value of them, the bytes written by [create] are parsed back by
    [parse] to that very value, the parser consumes exactly the bytes of the
    element whatever follows them, no assertion fails, and as much fuel as there
    are bytes is enough for its loops.  The four other kinds are an IEEE 802.11
    Statistics, an Update Station QoS, a WTP Timestamp and an MTU Discovery
    Padding, which no receiver takes as they are written. *)
Theorem element_encode_decode `{Indeterminate} k (d : element_data k) fuel rest :
  receivable k = true -> element_wf k d ->
  (length (wire (create (element_ops k) d)) < fuel)%nat ->
  zlen (wire (create (element_ops k) d)) < 65536 ->
  run (parse (element_ops k) fuel)
    (Stream (zlen (wire (create (element_ops k) d))) (wire (create (element_ops k) d) ++ rest)) =
  Done (Some d, Stream 0 rest).
Proof. intros _. apply element_roundtrip. Qed.

Lemma element_encode_decode_witness :
  let ops := @element_ops zero_memory K_acdescriptor in
  run (parse ops 24) (Stream 23 (wire (create ops sample_acdescriptor) ++ [1; 2; 3])) =
  Done (Some sample_acdescriptor, Stream 0 [1; 2; 3]).
Proof.
  apply (@element_encode_decode zero_memory K_acdescriptor sample_acdescriptor 24 [1; 2; 3]);
    [reflexivity|apply sample_acdescriptor_wf|vm_compute; lia|vm_compute; reflexivity].
Defined.

(** The copy of a well-formed element made by [clone] is written to a
    packet with the same calls as the original. *)
Lemma element_clone_equivalent `{Indeterminate} k (d : element_data k) :
  element_wf k d ->
  create (element_ops k) (clone (element_ops k) d) = create (element_ops k) d.
Proof. apply element_clone. Qed.

Lemma element_clone_equivalent_witness :
  let ops := @element_ops zero_memory K_acdescriptor in
  create ops (clone ops sample_acdescriptor) = create ops sample_acdescriptor.
Proof. apply (@element_clone_equivalent zero_memory K_acdescriptor), sample_acdescriptor_wf. Defined.

(** writing a well-formed element makes only calls that pass the
    assertions of the write functions: no empty block, no null pointer. *)
Lemma element_create_safe `{Indeterminate} k (d : element_data k) :
  element_wf k d -> forallb call_asserts (create (element_ops k) d) = true.
Proof. apply element_safe. Qed.

Lemma element_create_safe_witness :
  forallb call_asserts (create (@element_ops zero_memory K_acdescriptor) sample_acdescriptor) = true.
Proof. apply (@element_create_safe zero_memory K_acdescriptor), sample_acdescriptor_wf. Defined.

(** Whatever bytes arrive, an element that [parse] accepts satisfies the
    assertions at the head of its [create], so that it can be sent on, for
    every kind but the five that [parse_establishes_asserts] excludes. *)
Lemma element_parse_safe `{Indeterminate} k fuel s (d : element_data k) s' :
  parse_establishes_asserts k = true -> stream_ok s ->
  run (parse (element_ops k) fuel) s = Done (Some d, s') -> element_asserts k d = true.
Proof. apply element_parse_asserts. Qed.

Lemma element_parse_safe_witness :
  element_asserts K_location {| Location.value := [108; 97; 98; 0] |} = true.
Proof.
  apply (@element_parse_safe zero_memory K_location 1 (Stream 3 [108; 97; 98]) _ (Stream 0 [])).
  - reflexivity.
  - split; [cbn; lia|by_computation].
  - reflexivity.
Defined.

(** the assertions are not established by a WTP Name, whose parser
    accepts a name that starts with a NUL: the element is received, and
    sending it again violates the assertion of its [create]. *)
Lemma wtpname_accepts_unsendable `{Indeterminate} fuel :
  let d := {| WtpName.name := [0; 65; 0] |} in
  run (parse (element_ops K_wtpname) fuel) (Stream 2 [0; 65]) = Done (Some d, Stream 0 []) /\
  element_asserts K_wtpname d = false.
Proof. done. Qed.

(** the dispatch on the element id finds a kind exactly under the id of
    that kind: no two elements share an id, no entry is at a wrong index, and
    ids outside the tables or in their holes find nothing. *)
Lemma dispatch_correct id k :
  capwap_get_message_element_ops id = Some k <-> id = kind_id k.
Proof. split; [intros E; symmetry; by apply table_inverse|intros ->; apply table_lookup]. Qed.

(** C37: every parse callback but those of the two address lists ends on every
    input, its loops making fewer turns than there are bytes ahead: it returns
    an element or nothing, or the assertion of [read_block] fails on a block of
    no bytes. *)
Theorem element_parse_terminates `{Indeterminate} k fuel s :
  loops_on_counter k = false -> (length (st_bytes s) < fuel)%nat ->
  run (parse (element_ops k) fuel) s = Asserted \/
  exists r, run (parse (element_ops k) fuel) s = Done r.
Proof.
  intros Hk Hf. pose proof (parse_ends k fuel s Hk Hf) as He. unfold ends in He.
  destruct (run _ s) as [r| |]; [right; by exists r|by left|done].
Qed.

Lemma element_parse_terminates_witness :
  let s := Stream 20 [0; 0; 0; 1; 0; 0; 0; 2; 65; 66; 0; 1; 0; 1; 67; 0; 0; 0; 0; 0] in
  run (parse (@element_ops zero_memory K_wtpboarddata) 21) s = Asserted \/
  exists r, run (parse (@element_ops zero_memory K_wtpboarddata) 21) s = Done r.
Proof. apply (@element_parse_terminates zero_memory K_wtpboarddata); [reflexivity|cbn; lia]. Defined.

(** Both ends happen: an MTU Discovery Padding of no bytes, and a board data
    sub-element of no bytes, stop a debug build at the assertion of
    [read_block]. *)
Lemma empty_block_asserted `{Indeterminate} fuel :
  run (parse (element_ops K_mtudiscovery) fuel) (Stream 0 []) = Asserted /\
  run (parse (@element_ops zero_memory K_wtpboarddata) 21)
    (Stream 14 [0; 0; 0; 1; 0; 0; 0; 0; 0; 1; 0; 2; 65; 66]) = Asserted.
Proof. split; reflexivity. Qed.

(** an MTU Discovery Padding with any padding at all is refused by its own
    parser: the guard rejects every element that is not empty. *)
Lemma mtudiscovery_refuses_padding `{Indeterminate} n fuel rest :
  0 < n < 65536 ->
  let bytes := wire (create (element_ops K_mtudiscovery) {| MtuDiscovery.length := n |}) in
  zlen bytes = n /\
  run (parse (element_ops K_mtudiscovery) fuel) (Stream n (bytes ++ rest)) =
    Done (None, Stream n (bytes ++ rest)).
Proof.
  intros Hn bytes.
  assert (Hb : zlen bytes = n).
  { unfold bytes. cbn [create element_ops]. unfold MtuDiscovery.capwap_mtudiscovery_element_create.
    cbn [MtuDiscovery.length]. rewrite <- fmap_replicate, length_wire_u8s, length_replicate. lia. }
  split; [done|]. cbn [parse element_ops]. unfold MtuDiscovery.capwap_mtudiscovery_element_parsing.
  rewrite run_ready by (rewrite length_app; lia). by rewrite (proj2 (Z.ltb_lt 0 n)) by lia.
Qed.

Lemma mtudiscovery_refuses_padding_witness :
  run (parse (@element_ops zero_memory K_mtudiscovery) 9) (Stream 2 [255; 255; 7]) =
    Done (None, Stream 2 [255; 255; 7]).
Proof. apply (@mtudiscovery_refuses_padding zero_memory 2 9 [7]). lia. Defined.

(** IEEE 802.11 Update Station QoS cannot be received: [create] writes 15
    bytes for every well-formed element and [parse] insists on 14. *)
Lemma updatestationqos_refused `{Indeterminate} d fuel rest :
  UpdateStationQos.wf d ->
  let bytes := wire (create (element_ops K_80211_updatestationqos) d) in
  run (parse (element_ops K_80211_updatestationqos) fuel) (Stream (zlen bytes) (bytes ++ rest)) =
    Done (None, Stream 15 (bytes ++ rest)).
Proof. apply UpdateStationQos.parse_rejects_create. Qed.

Definition sample_qos : UpdateStationQos.capwap_80211_updatestationqos_element :=
  {| UpdateStationQos.radioid := 1; UpdateStationQos.address := [0; 17; 34; 51; 68; 85];
     UpdateStationQos.qos :=
       replicate 4 {| UpdateStationQos.priority8021p := 3; UpdateStationQos.dscp := 46 |} |}.

Lemma updatestationqos_refused_witness :
  (run (parse (@element_ops zero_memory K_80211_updatestationqos) 99)
    (Stream 15 (wire (create (@element_ops zero_memory K_80211_updatestationqos) sample_qos) ++ []))) =
  Done (None, Stream 15 (wire (create (@element_ops zero_memory K_80211_updatestationqos) sample_qos) ++ [])).
Proof.
  apply (@updatestationqos_refused zero_memory sample_qos 99 []).
  unfold UpdateStationQos.wf. split_and!; by_computation.
Defined.

(** the microseconds do not all survive: 123456 does, 15624 comes back as
    15625, and 999999 has no 32-bit fraction at all. *)
Lemma timestamp_microseconds_shift `{Indeterminate} :
  let trip u := WtpTimestamp.tv_usec (WtpTimestamp.convert_ntp_time_into_unix_time
    (WtpTimestamp.convert_unix_time_into_ntp_time
       {| WtpTimestamp.tv_sec := 0; WtpTimestamp.tv_usec := u |})) in
  trip 123456 = 123456 /\ trip 15624 = 15625 /\
  u32_of_double (double_mul (double_mul (double_of_int (999999 + 1)) (double_of_int 4294967296))
    WtpTimestamp.double_1em6) = None.
Proof. by vm_compute. Qed.
