(* ===== verification/Header.v ===== *)
(** The CAPWAP header: a byte buffer with bit fields, its accessors
    (src/common/capwap_rfc.h) and the operations that build and check it
    (src/common/capwap_protocol.c).

    A buffer is the list of its bytes.  The bit fields are laid out as on a
    little-endian host: [byte0 = version:4 type:4], [byte1 = hlen:5 rid_hi:3],
    [byte2 = rid_lo:2 wbid:5 T:1], [byte3 = F L W M K res:3], then [frag_id]
    and [frag_off] in network byte order. *)
From S2P Require Import Prelude Io.

(** ** Buffers *)

(** [b[i]]; the callers stay inside the buffer. *)
Definition byte_at (b : list Z) (i : Z) : Z := default 0 (b !! Z.to_nat i).

(** [memcpy(&b[pos], bs, length bs)] and the [n] bytes at [&b[pos]]. *)
Definition write_at (pos : Z) (bs b : list Z) : list Z :=
  take (Z.to_nat pos) b ++ bs ++ drop (Z.to_nat pos + length bs) b.
Definition slice (pos n : Z) (b : list Z) : list Z :=
  take (Z.to_nat n) (drop (Z.to_nat pos) b).

Lemma length_write_at pos bs b :
  0 <= pos -> pos + zlen bs <= zlen b -> length (write_at pos bs b) = length b.
Proof. intros. unfold write_at. rewrite !length_app, length_take, length_drop. lia. Qed.

Lemma slice_write_same pos bs b :
  0 <= pos -> pos + zlen bs <= zlen b -> slice pos (zlen bs) (write_at pos bs b) = bs.
Proof.
  intros. unfold slice, write_at. rewrite Nat2Z.id.
  rewrite drop_app_length' by (rewrite length_take; lia). by rewrite take_app_length.
Qed.

(** A byte of a written buffer. *)
Lemma lookup_write_at pos bs b i :
  0 <= pos -> pos + zlen bs <= zlen b ->
  write_at pos bs b !! i =
    if decide (Z.to_nat pos <= i < Z.to_nat pos + length bs)%nat
    then bs !! (i - Z.to_nat pos)%nat else b !! i.
Proof.
  intros Hp Hn. unfold write_at. case_decide as Hd.
  - rewrite lookup_app_r by (rewrite length_take; lia).
    rewrite length_take, lookup_app_l by lia. f_equal. lia.
  - destruct (decide (i < Z.to_nat pos)%nat).
    + rewrite lookup_app_l by (rewrite length_take; lia). by rewrite lookup_take_lt.
    + rewrite lookup_app_r by (rewrite length_take; lia).
      rewrite length_take, lookup_app_r by lia. rewrite lookup_drop. f_equal. lia.
Qed.

Lemma slice_write_other pos bs b p n :
  0 <= pos -> pos + zlen bs <= zlen b -> 0 <= p -> 0 <= n -> p + n <= pos \/ pos + zlen bs <= p ->
  slice p n (write_at pos bs b) = slice p n b.
Proof.
  intros Hp Hn H0 Hn0 Hd. unfold slice. apply list_eq. intros i.
  destruct (decide (i < Z.to_nat n)%nat).
  - rewrite !lookup_take_lt, !lookup_drop, lookup_write_at by lia.
    case_decide; [lia|done].
  - rewrite !lookup_take_ge by lia. done.
Qed.

Lemma byte_write_other pos bs b i :
  0 <= pos -> pos + zlen bs <= zlen b -> 0 <= i -> i < pos \/ pos + zlen bs <= i ->
  byte_at (write_at pos bs b) i = byte_at b i.
Proof.
  intros Hp Hn Hi Hd. unfold byte_at. rewrite lookup_write_at by done. case_decide; [lia|done].
Qed.

Lemma byte_write_same pos x b :
  0 <= pos -> pos < zlen b -> byte_at (write_at pos [x] b) pos = x.
Proof.
  intros. unfold byte_at. rewrite lookup_write_at by (cbn; lia).
  case_decide; [|cbn in *; lia]. by rewrite Nat.sub_diag.
Qed.

(** ** Bit fields *)

Definition get_bits (lo w x : Z) : Z := Z.land (Z.shiftr x lo) (Z.ones w).
Definition set_bits (lo w v x : Z) : Z :=
  Z.lor (Z.ldiff x (Z.shiftl (Z.ones w) lo)) (Z.shiftl (Z.land v (Z.ones w)) lo).

(** Decides bit equations on fields. *)
Ltac bits :=
  apply Z.bits_inj'; let n := fresh "n" in intros n ?;
  rewrite ?Z.land_spec, ?Z.shiftr_spec, ?Z.lor_spec, ?Z.ldiff_spec, ?Z.shiftl_spec,
    ?Z.land_spec, ?Z.testbit_ones by lia.

Lemma get_set_bits lo w v x :
  0 <= lo -> 0 <= w -> get_bits lo w (set_bits lo w v x) = Z.land v (Z.ones w).
Proof.
  intros. unfold get_bits, set_bits. bits.
  replace (n + lo - lo) with n by lia.
  destruct (Z.testbit x (n + lo)), (Z.testbit v n), (0 <=? n) eqn:?, (n <? w) eqn:?; cbn; try done; lia.
Qed.

Lemma get_set_bits_other lo w lo' w' v x :
  0 <= lo -> 0 <= w -> 0 <= lo' -> 0 <= w' -> lo' + w' <= lo \/ lo + w <= lo' ->
  get_bits lo' w' (set_bits lo w v x) = get_bits lo' w' x.
Proof.
  intros. unfold get_bits, set_bits. bits.
  destruct (0 <=? n) eqn:?, (n <? w') eqn:?; cbn; rewrite ?andb_false_r, ?andb_true_r; try done.
  destruct (0 <=? n + lo' - lo) eqn:?, (n + lo' - lo <? w) eqn:?; try lia; cbn;
    rewrite ?andb_false_r, ?orb_false_r, ?andb_true_r; done.
Qed.

Lemma set_bits_range lo w v x :
  0 <= lo -> 0 <= w -> lo + w <= 8 -> is_u8 x -> is_u8 (set_bits lo w v x).
Proof.
  intros Hlo Hw Hs Hx.
  assert (E : set_bits lo w v x = Z.land (set_bits lo w v x) (Z.ones 8)).
  { unfold set_bits. symmetry. bits.
    destruct (n <? 8) eqn:E; [by replace (0 <=? n) with true by lia; rewrite andb_true_r|].
    rewrite andb_false_r, andb_false_r. symmetry. apply orb_false_iff. split.
    - apply andb_false_iff. left. rewrite Z.bits_above_log2; [done|lia|].
      destruct (decide (x = 0)) as [->|]; [cbn; lia|]. apply Z.log2_lt_pow2; [lia|].
      apply Z.lt_le_trans with (2 ^ 8); [lia|]. apply Z.pow_le_mono_r; lia.
    - replace (n - lo <? w) with false by lia. by rewrite !andb_false_r. }
  rewrite E, Z.land_ones by lia. apply Z.mod_pos_bound. lia.
Qed.

(** A bit field of the header: its byte, lowest bit and width. *)
Record field := Field { f_byte : Z; f_lo : Z; f_width : Z }.

Definition f_version := Field 0 4 4.
Definition f_type := Field 0 0 4.
Definition f_hlen := Field 1 3 5.
Definition f_rid_hi := Field 1 0 3.
Definition f_rid_lo := Field 2 6 2.
Definition f_wbid := Field 2 1 5.
Definition f_flag_t := Field 2 0 1.
Definition f_flag_f := Field 3 7 1.
Definition f_flag_l := Field 3 6 1.
Definition f_flag_w := Field 3 5 1.
Definition f_flag_m := Field 3 4 1.
Definition f_flag_k := Field 3 3 1.

Definition get_field (f : field) (b : list Z) : Z :=
  get_bits (f_lo f) (f_width f) (byte_at b (f_byte f)).
Definition set_field (f : field) (v : Z) (b : list Z) : list Z :=
  write_at (f_byte f) [set_bits (f_lo f) (f_width f) v (byte_at b (f_byte f))] b.

Definition sizeof_capwap_header : Z := 8.
Definition field_ok (f : field) : bool :=
  (0 <=? f_byte f) && (f_byte f <? sizeof_capwap_header) &&
  (0 <=? f_lo f) && (0 <=? f_width f) && (f_lo f + f_width f <=? 8).
Definition disjoint_fields (f g : field) : bool :=
  negb (f_byte f =? f_byte g) || (f_lo f + f_width f <=? f_lo g) || (f_lo g + f_width g <=? f_lo f).

(** Writes that stay within the first part of a buffer. *)
Lemma write_at_app_l pos bs a b :
  0 <= pos -> pos + zlen bs <= zlen a -> write_at pos bs (a ++ b) = write_at pos bs a ++ b.
Proof.
  intros. unfold write_at. rewrite take_app_le, drop_app_le by lia. by rewrite <- !app_assoc.
Qed.

Lemma byte_at_app a b i : 0 <= i < zlen a -> byte_at (a ++ b) i = byte_at a i.
Proof. intros. unfold byte_at. by rewrite lookup_app_l by lia. Qed.

Lemma set_field_app f v a b :
  field_ok f = true -> 8 <= zlen a -> set_field f v (a ++ b) = set_field f v a ++ b.
Proof.
  unfold field_ok, sizeof_capwap_header. intros. split_andb. unfold set_field.
  rewrite byte_at_app, write_at_app_l by (cbn [length]; lia). done.
Qed.

Lemma get_set_field f v b :
  field_ok f = true -> 8 <= zlen b -> get_field f (set_field f v b) = Z.land v (Z.ones (f_width f)).
Proof.
  unfold field_ok, sizeof_capwap_header. intros. split_andb. unfold get_field, set_field.
  rewrite byte_write_same by lia. apply get_set_bits; lia.
Qed.

Lemma get_set_field_other f g v b :
  field_ok f = true -> field_ok g = true -> disjoint_fields g f = true -> 8 <= zlen b ->
  get_field g (set_field f v b) = get_field g b.
Proof.
  unfold field_ok, disjoint_fields, sizeof_capwap_header. intros. split_andb.
  unfold get_field, set_field.
  destruct (decide (f_byte g = f_byte f)) as [E|].
  - rewrite E, byte_write_same by lia. apply get_set_bits_other; bools; lia.
  - rewrite byte_write_other by (cbn; lia). done.
Qed.

Lemma byte_set_field f v b i :
  field_ok f = true -> 8 <= zlen b -> 8 <= i -> byte_at (set_field f v b) i = byte_at b i.
Proof.
  unfold field_ok, sizeof_capwap_header. intros. split_andb. unfold set_field.
  apply byte_write_other; cbn; lia.
Qed.

Lemma slice_set_field f v b p n :
  field_ok f = true -> 8 <= zlen b -> 8 <= p -> 0 <= n ->
  slice p n (set_field f v b) = slice p n b.
Proof.
  unfold field_ok, sizeof_capwap_header. intros. split_andb. unfold set_field.
  apply slice_write_other; cbn; lia.
Qed.

Lemma length_set_field f v b :
  field_ok f = true -> 8 <= zlen b -> length (set_field f v b) = length b.
Proof.
  unfold field_ok, sizeof_capwap_header. intros. split_andb. apply length_write_at; cbn; lia.
Qed.

Lemma get_field_write f pos bs b :
  field_ok f = true -> 8 <= pos -> pos + zlen bs <= zlen b ->
  get_field f (write_at pos bs b) = get_field f b.
Proof.
  unfold field_ok, sizeof_capwap_header. intros. split_andb. unfold get_field.
  by rewrite byte_write_other by lia.
Qed.

(** A write past the byte of a field. *)
Lemma get_field_write_after f pos bs b :
  field_ok f = true -> f_byte f < pos -> pos + zlen bs <= zlen b ->
  get_field f (write_at pos bs b) = get_field f b.
Proof.
  unfold field_ok, sizeof_capwap_header. intros. split_andb. unfold get_field.
  by rewrite byte_write_other by lia.
Qed.

Lemma get_field_range f b : field_ok f = true -> 0 <= get_field f b < 2 ^ f_width f.
Proof.
  unfold field_ok. intros. split_andb. unfold get_field, get_bits.
  rewrite Z.land_ones by lia. apply Z.mod_pos_bound. lia.
Qed.

(** ** The accessor macros of capwap_rfc.h *)

Definition GET_VERSION_HEADER (x : list Z) : Z := get_field f_version x.
Definition SET_VERSION_HEADER (x : list Z) (y : Z) : list Z := set_field f_version (wrap8 y) x.
Definition GET_TYPE_HEADER (x : list Z) : Z := get_field f_type x.
Definition SET_TYPE_HEADER (x : list Z) (y : Z) : list Z := set_field f_type (wrap8 y) x.
Definition GET_HLEN_HEADER (x : list Z) : Z := get_field f_hlen x.
Definition SET_HLEN_HEADER (x : list Z) (y : Z) : list Z := set_field f_hlen (wrap16 y) x.
Definition GET_RID_HEADER (x : list Z) : Z :=
  wrap8 (Z.lor (Z.shiftl (get_field f_rid_hi x) 2) (get_field f_rid_lo x)).
Definition SET_RID_HEADER (x : list Z) (y : Z) : list Z :=
  set_field f_rid_lo (wrap16 (Z.land y 3)) (set_field f_rid_hi (wrap16 (Z.shiftr y 2)) x).
Definition GET_WBID_HEADER (x : list Z) : Z := get_field f_wbid x.
Definition SET_WBID_HEADER (x : list Z) (y : Z) : list Z := set_field f_wbid (wrap16 y) x.

Definition is_flag (f : field) (x : list Z) : bool := negb (get_field f x =? 0).
Definition set_flag (f : field) (x : list Z) (y : bool) : list Z :=
  set_field f (if y then 1 else 0) x.
Definition IS_FLAG_T_HEADER := is_flag f_flag_t.
Definition SET_FLAG_T_HEADER := set_flag f_flag_t.
Definition IS_FLAG_F_HEADER := is_flag f_flag_f.
Definition SET_FLAG_F_HEADER := set_flag f_flag_f.
Definition IS_FLAG_L_HEADER := is_flag f_flag_l.
Definition SET_FLAG_L_HEADER := set_flag f_flag_l.
Definition IS_FLAG_W_HEADER := is_flag f_flag_w.
Definition SET_FLAG_W_HEADER := set_flag f_flag_w.
Definition IS_FLAG_M_HEADER := is_flag f_flag_m.
Definition SET_FLAG_M_HEADER := set_flag f_flag_m.
Definition IS_FLAG_K_HEADER := is_flag f_flag_k.
Definition SET_FLAG_K_HEADER := set_flag f_flag_k.

Definition FRAGMENT_OFFSET_MASK : Z := 65528.
Definition GET_FRAGMENT_ID_HEADER (x : list Z) : Z := val16 (byte_at x 4) (byte_at x 5).
Definition SET_FRAGMENT_ID_HEADER (x : list Z) (y : Z) : list Z := write_at 4 (be16 y) x.
Definition GET_FRAGMENT_OFFSET_HEADER (x : list Z) : Z :=
  Z.land (val16 (byte_at x 6) (byte_at x 7)) FRAGMENT_OFFSET_MASK.

(** [frag_off &= ~FRAGMENT_OFFSET_MASK] is done in host byte order, where the
    first byte in memory is the least significant one: its three low bits are
    the ones kept. *)
Definition SET_FRAGMENT_OFFSET_HEADER (x : list Z) (y : Z) : list Z :=
  let v := Z.land (wrap16 y) FRAGMENT_OFFSET_MASK in
  write_at 6 [Z.lor (Z.land (byte_at x 6) 7) (wrap8 (v / 256)); wrap8 v] x.

(** Offsets of the optional parts; sizes are padded to 32-bit words. *)
Definition padded_words (length : Z) : Z := (1 + length + 3) / 4.
Definition RADIO_MAC_ADDRESS_OFFSET : Z := sizeof_capwap_header.
Definition WIRELESS_INFORMATION_OFFSET (x : list Z) : Z :=
  sizeof_capwap_header +
  if IS_FLAG_M_HEADER x then padded_words (byte_at x RADIO_MAC_ADDRESS_OFFSET) * 4 else 0.

(** ** Building a header (capwap_protocol.c) *)

Definition CAPWAP_PROTOCOL_VERSION : Z := 0.
Definition CAPWAP_PREAMBLE_HEADER : Z := 0.
Definition CAPWAP_PREAMBLE_DTLS_HEADER : Z := 1.
Definition CAPWAP_HEADER_MAX_SIZE : Z := 276.

Definition capwap_header_init (data : list Z) (radioid binding : Z) : list Z :=
  let header := write_at 0 (zeros sizeof_capwap_header) data in
  let header := SET_VERSION_HEADER header CAPWAP_PROTOCOL_VERSION in
  let header := SET_TYPE_HEADER header CAPWAP_PREAMBLE_HEADER in
  let header := SET_HLEN_HEADER header (sizeof_capwap_header / 4) in
  let header := SET_RID_HEADER header radioid in
  SET_WBID_HEADER header binding.

(** The branch [radiotype == MACADDRESS_NONE_LENGTH]. *)
Definition capwap_header_remove_radio_macaddress (header : list Z) : list Z :=
  if IS_FLAG_M_HEADER header then
    let header :=
      if negb (IS_FLAG_W_HEADER header) then
        SET_HLEN_HEADER header (sizeof_capwap_header / 4)
      else
        let wireless := WIRELESS_INFORMATION_OFFSET header in
        let lengthpadded := padded_words (byte_at header wireless) in
        let header :=
          write_at sizeof_capwap_header (slice wireless (lengthpadded * 4) header) header in
        SET_HLEN_HEADER header (sizeof_capwap_header / 4 + lengthpadded) in
    SET_FLAG_M_HEADER header false
  else header.

(** The memory moved for the wireless information goes to
    [(char* )radio + radiosizepadded], a number of 32-bit words. *)
Definition capwap_header_set_radio_macaddress (header : list Z) (radiotype : Z)
    (macaddress : list Z) : list Z :=
  if radiotype =? MACADDRESS_NONE_LENGTH then capwap_header_remove_radio_macaddress header else
  let radio := RADIO_MAC_ADDRESS_OFFSET in
  if IS_FLAG_M_HEADER header && (byte_at header radio =? radiotype) then
    write_at (radio + 1) (take (Z.to_nat radiotype) macaddress) header
  else
    let header :=
      if IS_FLAG_M_HEADER header then capwap_header_remove_radio_macaddress header else header in
    let radiosizepadded := padded_words radiotype in
    let size := sizeof_capwap_header / 4 + radiosizepadded in
    let '(header, size) :=
      if IS_FLAG_W_HEADER header then
        let wireless := WIRELESS_INFORMATION_OFFSET header in
        let lengthpadded := padded_words (byte_at header wireless) in
        (write_at (radio + radiosizepadded) (slice wireless (lengthpadded * 4) header) header,
         size + lengthpadded)
      else (header, size) in
    let header := write_at radio [wrap8 radiotype] header in
    let header := write_at (radio + 1) (take (Z.to_nat radiotype) macaddress) header in
    let header :=
      write_at (radio + 1 + radiotype) (zeros (radiosizepadded * 4 - 1 - radiotype)) header in
    let header := SET_FLAG_M_HEADER header true in
    SET_HLEN_HEADER header size.

Definition capwap_header_set_wireless_information (header : list Z) (buffer : list Z)
    (length : Z) : list Z :=
  let size := sizeof_capwap_header / 4 +
    if IS_FLAG_M_HEADER header then padded_words (byte_at header RADIO_MAC_ADDRESS_OFFSET) else 0 in
  let header :=
    if IS_FLAG_W_HEADER header then
      SET_HLEN_HEADER (SET_FLAG_W_HEADER header false) size
    else header in
  if 0 <? length then
    let lengthpadded := padded_words length in
    let wireless := WIRELESS_INFORMATION_OFFSET header in
    let header := write_at wireless [wrap8 length] header in
    let header := write_at (wireless + 1) (take (Z.to_nat length) buffer) header in
    let header :=
      write_at (wireless + 1 + length) (zeros (lengthpadded * 4 - 1 - length)) header in
    SET_HLEN_HEADER (SET_FLAG_W_HEADER header true) (size + lengthpadded)
  else header.

Definition capwap_header_set_keepalive_flag (header : list Z) (enable : Z) : list Z :=
  SET_FLAG_K_HEADER header (negb (enable =? 0)).

Definition capwap_header_set_nativeframe_flag (header : list Z) (enable : Z) : list Z :=
  SET_FLAG_T_HEADER header (negb (enable =? 0)).

(** ** Checks on received packets (capwap_protocol.c) *)

Definition CAPWAP_UNDEF_STATE : Z := -1.
Definition CAPWAP_DISCOVERY_STATE : Z := 2.

Definition CAPWAP_WRONG_PACKET : Z := -1.
Definition CAPWAP_PLAIN_PACKET : Z := 1.
Definition CAPWAP_DTLS_PACKET : Z := 2.

Definition sizeof_capwap_preamble : Z := 1.
Definition sizeof_capwap_dtls_header : Z := 4.

(** [None]: the assertion that there is more than a preamble fails. *)
Definition capwap_sanity_check (state : Z) (buffer : list Z) (dtlsenable : bool) : option Z :=
  let buffersize := zlen buffer in
  if negb (sizeof_capwap_preamble <? buffersize) then None else Some (
  if negb (GET_VERSION_HEADER buffer =? CAPWAP_PROTOCOL_VERSION) then CAPWAP_WRONG_PACKET else
  if dtlsenable then
    if (GET_TYPE_HEADER buffer =? CAPWAP_PREAMBLE_DTLS_HEADER) &&
       (sizeof_capwap_dtls_header <=? buffersize)
    then if state =? CAPWAP_DISCOVERY_STATE then CAPWAP_WRONG_PACKET else CAPWAP_DTLS_PACKET
    else if (GET_TYPE_HEADER buffer =? CAPWAP_PREAMBLE_HEADER) &&
            (sizeof_capwap_header <=? buffersize)
    then
      if GET_HLEN_HEADER buffer * 4 <=? buffersize then
        if negb (state =? CAPWAP_DISCOVERY_STATE) && negb (state =? CAPWAP_UNDEF_STATE)
        then CAPWAP_WRONG_PACKET else CAPWAP_PLAIN_PACKET
      else CAPWAP_WRONG_PACKET
    else CAPWAP_WRONG_PACKET
  else
    if (GET_TYPE_HEADER buffer =? CAPWAP_PREAMBLE_HEADER) && (sizeof_capwap_header <=? buffersize)
    then
      if GET_HLEN_HEADER buffer * 4 <=? buffersize then CAPWAP_PLAIN_PACKET
      else CAPWAP_WRONG_PACKET
    else CAPWAP_WRONG_PACKET).

(** ** Lemmas *)

(** Lengths of buffers after writes, with the side conditions by arithmetic. *)
Ltac blen :=
  repeat first
    [ rewrite length_set_field by (first [ reflexivity | blen; lia ])
    | rewrite length_write_at by (blen; lia)
    | rewrite length_zeros | rewrite length_take | rewrite length_be16 | rewrite length_app
    | progress cbn [length] ];
  try lia.

(** Reads of a buffer after writes elsewhere. *)
Ltac hdr :=
  repeat first
    [ rewrite get_set_field by (first [ reflexivity | blen; lia ])
    | rewrite get_set_field_other by (first [ reflexivity | assumption | blen; lia ])
    | rewrite get_field_write by (first [ reflexivity | assumption | blen; lia ])
    | rewrite byte_set_field by (first [ reflexivity | blen; lia ])
    | rewrite slice_set_field by (first [ reflexivity | blen; lia ])
    | rewrite byte_write_same by (blen; lia)
    | rewrite byte_write_other by (blen; lia)
    | rewrite slice_write_other by (blen; lia) ].

Lemma bytes_ok_write_at pos bs b : bytes_ok bs -> bytes_ok b -> bytes_ok (write_at pos bs b).
Proof. intros. unfold write_at. rewrite !bytes_ok_app. auto with capwap. Qed.

Lemma byte_at_range b i : bytes_ok b -> is_u8 (byte_at b i).
Proof.
  intros Hb. unfold byte_at. destruct (b !! Z.to_nat i) eqn:E; cbn; [|lia].
  by apply (Forall_lookup_1 _ _ _ _ Hb) in E.
Qed.

Lemma bytes_ok_set_field f v b : field_ok f = true -> bytes_ok b -> bytes_ok (set_field f v b).
Proof.
  intros Hf Hb. apply bytes_ok_write_at; [|done]. constructor; [|constructor].
  unfold field_ok in Hf. split_andb. apply set_bits_range; [lia..|]. by apply byte_at_range.
Qed.

#[export] Hint Resolve bytes_ok_write_at byte_at_range bytes_ok_set_field : capwap.

(** ** The header as an abstract value *)

(** What a receiver reads in the optional parts. *)
Definition radio_macaddress (b : list Z) : option (list Z) :=
  if IS_FLAG_M_HEADER b then
    Some (slice (RADIO_MAC_ADDRESS_OFFSET + 1) (byte_at b RADIO_MAC_ADDRESS_OFFSET) b)
  else None.

Definition wireless_information (b : list Z) : option (list Z) :=
  if IS_FLAG_W_HEADER b then
    let o := WIRELESS_INFORMATION_OFFSET b in Some (slice (o + 1) (byte_at b o) b)
  else None.

Definition mac_words (b : list Z) : Z :=
  if IS_FLAG_M_HEADER b then padded_words (byte_at b RADIO_MAC_ADDRESS_OFFSET) else 0.

Definition wireless_words (b : list Z) : Z :=
  if IS_FLAG_W_HEADER b then padded_words (byte_at b (WIRELESS_INFORMATION_OFFSET b)) else 0.

(** The header length counts the fixed part and the optional parts present. *)
Definition header_inv (b : list Z) : Prop :=
  zlen b = CAPWAP_HEADER_MAX_SIZE /\ bytes_ok b /\
  GET_HLEN_HEADER b = 2 + mac_words b + wireless_words b /\
  (IS_FLAG_M_HEADER b = true ->
   IS_VALID_MACADDRESS_LENGTH (byte_at b RADIO_MAC_ADDRESS_OFFSET) = true).

#[export] Instance header_inv_dec b : Decision (header_inv b) := _.

(** Every field but the header length and the flag [f] is as before. *)
Definition same_fields (f : field) (b b' : list Z) : Prop :=
  forall g, field_ok g = true -> disjoint_fields g f_hlen = true -> disjoint_fields g f = true ->
  get_field g b' = get_field g b.

Ltac hdr_unfold :=
  unfold header_inv, radio_macaddress, wireless_information, mac_words, wireless_words,
    WIRELESS_INFORMATION_OFFSET, RADIO_MAC_ADDRESS_OFFSET, SET_HLEN_HEADER, GET_HLEN_HEADER,
    IS_FLAG_M_HEADER, IS_FLAG_W_HEADER, SET_FLAG_M_HEADER, SET_FLAG_W_HEADER,
    SET_FLAG_K_HEADER, SET_FLAG_T_HEADER, CAPWAP_HEADER_MAX_SIZE, sizeof_capwap_header,
    set_flag, is_flag in *.

Lemma padded_words_bounds n : 0 <= n -> 4 * padded_words n - 4 <= n <= 4 * padded_words n - 1.
Proof. intros. unfold padded_words. Z.div_mod_to_equations. lia. Qed.

Lemma hlen_set n : 0 <= n < 32 -> Z.land (wrap16 n) (Z.ones 5) = n.
Proof. intros. rewrite wrap16_small by lia. apply (land_mask n 31 5); [done|lia..]. Qed.

(** [capwap_header_init] leaves a plain header: version and type 0, two words,
    no flag, no fragment, and the low five bits of radio id and binding. *)
Lemma header_init_fields data radioid binding :
  zlen data = CAPWAP_HEADER_MAX_SIZE ->
  let b := capwap_header_init data radioid binding in
  GET_VERSION_HEADER b = CAPWAP_PROTOCOL_VERSION /\ GET_TYPE_HEADER b = CAPWAP_PREAMBLE_HEADER /\
  GET_HLEN_HEADER b = 2 /\ GET_WBID_HEADER b = binding mod 32 /\
  IS_FLAG_M_HEADER b = false /\ IS_FLAG_W_HEADER b = false /\ IS_FLAG_F_HEADER b = false /\
  GET_FRAGMENT_ID_HEADER b = 0 /\ GET_FRAGMENT_OFFSET_HEADER b = 0.
Proof.
  intros Hl b. unfold CAPWAP_HEADER_MAX_SIZE in Hl.
  assert (Hz : exists tl, write_at 0 (zeros sizeof_capwap_header) data = [0;0;0;0;0;0;0;0] ++ tl
    /\ length tl = 268%nat).
  { exists (drop 8 data). split; [done|]. rewrite length_drop. lia. }
  destruct Hz as (tl & Hz & Htl).
  unfold b, capwap_header_init, SET_VERSION_HEADER, SET_TYPE_HEADER, SET_HLEN_HEADER,
    SET_RID_HEADER, SET_WBID_HEADER, GET_VERSION_HEADER, GET_TYPE_HEADER, GET_HLEN_HEADER,
    GET_WBID_HEADER, IS_FLAG_M_HEADER, IS_FLAG_W_HEADER, IS_FLAG_F_HEADER, is_flag.
  rewrite Hz. clear b Hz Hl data.
  hdr. repeat split.
  - cbn [f_width f_wbid]. rewrite Z.land_ones by lia. unfold wrap16.
    change (2 ^ 5) with 32. Z.div_mod_to_equations. lia.
Qed.

(** The end of [capwap_header_set_radio_macaddress]: the address is laid out
    after the fixed header, flag and length are set. *)
Definition put_macaddress (header : list Z) (radiotype : Z) (macaddress : list Z) (size : Z)
    : list Z :=
  let header := write_at 8 [wrap8 radiotype] header in
  let header := write_at 9 (take (Z.to_nat radiotype) macaddress) header in
  let header :=
    write_at (9 + radiotype) (zeros (padded_words radiotype * 4 - 1 - radiotype)) header in
  SET_HLEN_HEADER (SET_FLAG_M_HEADER header true) size.

Lemma valid_mac_length rt :
  IS_VALID_MACADDRESS_LENGTH rt = true -> (rt = 6 /\ padded_words rt = 2) \/ (rt = 8 /\ padded_words rt = 3).
Proof. intros. rfc. bools. destruct H as [->| ->]; [left|right]; done. Qed.

Lemma put_macaddress_spec b rt mac :
  zlen b = CAPWAP_HEADER_MAX_SIZE -> bytes_ok b -> IS_FLAG_W_HEADER b = false ->
  IS_VALID_MACADDRESS_LENGTH rt = true -> zlen mac = rt -> bytes_ok mac ->
  let b' := put_macaddress b rt mac (2 + padded_words rt) in
  header_inv b' /\ radio_macaddress b' = Some mac /\ IS_FLAG_W_HEADER b' = false /\
  same_fields f_flag_m b b'.
Proof.
  intros Hlen Hb HW Hrt Hmac Hm b'. apply valid_mac_length in Hrt as Hcase.
  unfold b', put_macaddress. hdr_unfold. rewrite (take_ge mac), wrap8_small by lia.
  set (n := zeros (padded_words rt * 4 - 1 - rt)).
  assert (Hn : zlen n = padded_words rt * 4 - 1 - rt) by (unfold n; blen).
  hdr. rewrite HW. cbn [Z.land Z.ones negb Z.eqb f_width f_hlen f_flag_m].
  change (negb (Z.land 1 (Z.ones 1) =? 0)) with true. cbn match.
  rewrite hlen_set by lia. repeat split.
  - blen.
  - unfold n. auto 10 with capwap.
    repeat (apply bytes_ok_set_field; [done|]). repeat apply bytes_ok_write_at; auto with capwap.
    repeat constructor; lia.
  - lia.
  - done.
  - rewrite <- Hmac at 1. f_equal. rewrite slice_write_same by (blen; lia). done.
  - intros g Hg H1 H2. hdr. done.
Qed.

(** Removing the radio address moves the wireless information, if any, next to
    the fixed header, and does not alter it. *)
Lemma remove_radio_spec b :
  header_inv b ->
  let b' := capwap_header_remove_radio_macaddress b in
  header_inv b' /\ radio_macaddress b' = None /\
  wireless_information b' = wireless_information b /\ same_fields f_flag_m b b'.
Proof.
  intros Hinv b'. unfold b', capwap_header_remove_radio_macaddress.
  destruct (IS_FLAG_M_HEADER b) eqn:HM.
  2:{ unfold radio_macaddress. rewrite HM. repeat split; done || apply Hinv. }
  destruct Hinv as (Hlen & Hb & Hh & Hv). specialize (Hv HM).
  apply valid_mac_length in Hv as Hcase. pose proof (get_field_range f_hlen b eq_refl) as Hr.
  cbn [f_width f_hlen] in Hr.
  unfold header_inv, radio_macaddress, wireless_information, mac_words, wireless_words in *.
  rewrite HM in *.
  destruct (IS_FLAG_W_HEADER b) eqn:HW; cbn [negb].
  - set (o := WIRELESS_INFORMATION_OFFSET b) in *.
    pose proof (byte_at_range b o Hb) as Hbo.
    set (n := byte_at b o) in *. pose proof (padded_words_bounds n ltac:(lia)) as Hp.
    assert (Ho : o = 8 + padded_words (byte_at b 8) * 4).
    { unfold o, WIRELESS_INFORMATION_OFFSET. by rewrite HM. }
    hdr_unfold.
    assert (Hs : zlen (slice o (padded_words n * 4) b) = padded_words n * 4).
    { unfold slice. rewrite length_take, length_drop. lia. }
    assert (Hbyte : byte_at (write_at 8 (slice o (padded_words n * 4) b) b) 8 = n).
    { unfold byte_at. rewrite lookup_write_at by lia. case_decide; [|lia].
      rewrite Nat.sub_diag. unfold slice. rewrite lookup_take_lt, lookup_drop by lia.
      unfold n, byte_at. do 2 f_equal. lia. }
    assert (Hslice : slice 9 n (write_at 8 (slice o (padded_words n * 4) b) b) = slice (o + 1) n b).
    { apply list_eq. intros i. unfold slice at 1 3.
      destruct (decide (i < Z.to_nat n)%nat); [|by rewrite !lookup_take_ge by lia].
      rewrite !lookup_take_lt, !lookup_drop, lookup_write_at by lia. case_decide; [|lia].
      unfold slice. rewrite lookup_take_lt, lookup_drop by lia. f_equal. lia. }
    hdr. cbn [f_width f_hlen f_flag_m].
    change (Z.land 0 (Z.ones 1)) with 0. rewrite HW. cbn [Z.eqb negb].
    change (8 + 0) with 8. hdr. rewrite Hbyte. change (8 / 4) with 2.
    rewrite hlen_set by lia. repeat split.
    + blen.
    + repeat (apply bytes_ok_set_field; [done|]). apply bytes_ok_write_at; [|done].
      unfold slice. auto with capwap.
    + lia.
    + by rewrite <- Hslice.
    + intros g Hg H1 H2. hdr. done.
  - hdr_unfold. hdr. cbn [f_width f_hlen f_flag_m].
    change (Z.land 0 (Z.ones 1)) with 0. rewrite HW. cbn [Z.eqb negb].
    change (8 / 4) with 2. rewrite hlen_set by lia. repeat split.
    + blen.
    + auto with capwap.
    + done.
    + intros g Hg H1 H2. hdr. done.
Qed.

(** With no wireless information in the header, setting the radio address
    makes the receiver read that address and keeps every other field. *)
Lemma set_radio_spec b rt mac :
  header_inv b -> IS_FLAG_W_HEADER b = false ->
  IS_VALID_MACADDRESS_LENGTH rt = true -> zlen mac = rt -> bytes_ok mac ->
  let b' := capwap_header_set_radio_macaddress b rt mac in
  header_inv b' /\ radio_macaddress b' = Some mac /\ IS_FLAG_W_HEADER b' = false /\
  same_fields f_flag_m b b'.
Proof.
  intros Hinv HW Hrt Hmac Hm b'. apply valid_mac_length in Hrt as Hcase.
  unfold b', capwap_header_set_radio_macaddress, MACADDRESS_NONE_LENGTH.
  replace (rt =? 0) with false by lia.
  destruct (IS_FLAG_M_HEADER b) eqn:HM; cbn [andb].
  - destruct (byte_at b RADIO_MAC_ADDRESS_OFFSET =? rt) eqn:E.
    + destruct Hinv as (Hlen & Hb & Hh & Hv).
      unfold mac_words, wireless_words in Hh. rewrite HM, HW in Hh.
      hdr_unfold. rewrite (take_ge mac) by lia. hdr. rewrite HM, HW. repeat split.
      * blen.
      * auto with capwap.
      * done.
      * auto.
      * f_equal. replace (byte_at b 8) with (zlen mac) by lia. by rewrite slice_write_same by lia.
      * intros g Hg H1 H2. hdr. done.
    + destruct (remove_radio_spec b Hinv) as (Hinv' & HM' & Hw' & Hs').
      set (b1 := capwap_header_remove_radio_macaddress b) in *.
      assert (HW1 : IS_FLAG_W_HEADER b1 = false).
      { unfold IS_FLAG_W_HEADER, is_flag in *. by rewrite (Hs' f_flag_w). }
      rewrite HW1. destruct Hinv' as (Hl1 & Hb1 & _).
      destruct (put_macaddress_spec b1 rt mac Hl1 Hb1 HW1 Hrt Hmac Hm) as (? & ? & ? & Hs2).
      do 3 (split; [done|]). intros g Hg Hd1 Hd2. by rewrite Hs2, Hs'.
  - rewrite HW. destruct Hinv as (Hl1 & Hb1 & _). by apply put_macaddress_spec.
Qed.

Lemma wireless_offset b :
  WIRELESS_INFORMATION_OFFSET b = 8 + mac_words b * 4.
Proof. unfold WIRELESS_INFORMATION_OFFSET, mac_words. by destruct (IS_FLAG_M_HEADER b). Qed.

(** The end of [capwap_header_set_wireless_information]. *)
Definition put_wireless (header : list Z) (buffer : list Z) (length wireless size : Z) : list Z :=
  let header := write_at wireless [wrap8 length] header in
  let header := write_at (wireless + 1) (take (Z.to_nat length) buffer) header in
  let header :=
    write_at (wireless + 1 + length) (zeros (padded_words length * 4 - 1 - length)) header in
  SET_HLEN_HEADER (SET_FLAG_W_HEADER header true) size.

Lemma put_wireless_spec b buf n :
  zlen b = CAPWAP_HEADER_MAX_SIZE -> bytes_ok b ->
  (IS_FLAG_M_HEADER b = true ->
   IS_VALID_MACADDRESS_LENGTH (byte_at b RADIO_MAC_ADDRESS_OFFSET) = true) ->
  0 < n < 256 -> zlen buf = n -> bytes_ok buf -> 2 + mac_words b + padded_words n <= 31 ->
  let b' := put_wireless b buf n (8 + mac_words b * 4) (2 + mac_words b + padded_words n) in
  header_inv b' /\ wireless_information b' = Some buf /\
  radio_macaddress b' = radio_macaddress b /\ same_fields f_flag_w b b'.
Proof.
  intros Hlen Hb Hv Hn Hbuf Hbb Hfit b'. pose proof (padded_words_bounds n ltac:(lia)) as Hp.
  unfold b', put_wireless. rewrite (take_ge buf), wrap8_small by lia.
  set (z := zeros (padded_words n * 4 - 1 - n)).
  assert (Hz : zlen z = padded_words n * 4 - 1 - n) by (unfold z; blen).
  assert (HzB : bytes_ok z) by apply zeros_ok.
  assert (Hm : (IS_FLAG_M_HEADER b = true /\ mac_words b = padded_words (byte_at b 8) /\
                (byte_at b 8 = 6 /\ mac_words b = 2 \/ byte_at b 8 = 8 /\ mac_words b = 3)) \/
               (IS_FLAG_M_HEADER b = false /\ mac_words b = 0)).
  { unfold mac_words. destruct (IS_FLAG_M_HEADER b) eqn:E; [left|by right].
    split; [done|]. split; [done|]. specialize (Hv eq_refl). by apply valid_mac_length in Hv. }
  set (mw := mac_words b) in *. clearbody z mw. hdr_unfold. hdr.
  cbn [f_width f_hlen f_flag_w]. change (Z.land 1 (Z.ones 1)) with 1. cbn [Z.eqb negb].
  rewrite hlen_set by lia.
  destruct Hm as [(HM & Hmw & Hc)|(HM & Hmw)]; rewrite HM in *.
  - hdr. rewrite <- Hmw. hdr. repeat split.
    + blen.
    + repeat (apply bytes_ok_set_field; [done|]). repeat apply bytes_ok_write_at; auto.
      repeat constructor; lia.
    + auto.
    + f_equal. rewrite <- Hbuf. hdr. apply slice_write_same; blen.
    + by hdr.
    + intros g Hg H1 H2. hdr. done.
  - subst mw. change (8 + 0) with 8. change (8 + 0 * 4) with 8. hdr. repeat split.
    + blen.
    + repeat (apply bytes_ok_set_field; [done|]). repeat apply bytes_ok_write_at; auto.
      repeat constructor; lia.
    + done.
    + f_equal. rewrite <- Hbuf. hdr. apply slice_write_same; blen.
    + intros g Hg H1 H2. hdr. done.
Qed.

(** The wireless information set last is read back, the radio address stays. *)
Lemma set_wireless_spec b buf n :
  header_inv b -> 0 < n < 256 -> zlen buf = n -> bytes_ok buf ->
  2 + mac_words b + padded_words n <= 31 ->
  let b' := capwap_header_set_wireless_information b buf n in
  header_inv b' /\ wireless_information b' = Some buf /\
  radio_macaddress b' = radio_macaddress b /\ same_fields f_flag_w b b'.
Proof.
  intros (Hlen & Hb & Hh & Hv) Hn Hbuf Hbb Hfit b'.
  unfold b', capwap_header_set_wireless_information.
  replace (0 <? n) with true by lia. fold (mac_words b). change (sizeof_capwap_header / 4) with 2.
  set (b1 := if IS_FLAG_W_HEADER b then _ else b).
  assert (H1 : zlen b1 = CAPWAP_HEADER_MAX_SIZE /\ bytes_ok b1 /\ mac_words b1 = mac_words b /\
    IS_FLAG_M_HEADER b1 = IS_FLAG_M_HEADER b /\ radio_macaddress b1 = radio_macaddress b /\
    byte_at b1 8 = byte_at b 8 /\ same_fields f_flag_w b b1).
  { unfold b1. destruct (IS_FLAG_W_HEADER b); [|done]. hdr_unfold.
    pose proof (byte_at_range b 8 Hb). hdr.
    repeat split; [blen|auto with capwap|]. intros g Hg H1 H2. hdr. done. }
  clearbody b1. destruct H1 as (Hl1 & Hb1 & Hm1 & HM1 & Hr1 & H81 & Hs1).
  rewrite wireless_offset, <- Hm1.
  destruct (put_wireless_spec b1 buf n) as (? & ? & Hr2 & Hs2); try done.
  { unfold RADIO_MAC_ADDRESS_OFFSET, sizeof_capwap_header in *. by rewrite HM1, H81. }
  { by rewrite Hm1. }
  do 2 (split; [done|]). split; [by rewrite <- Hr1|].
  intros g Hg Hd1 Hd2. etransitivity; [by apply Hs2|by apply Hs1].
Qed.
