(* ===== verification/HeaderProps.v ===== *)
(** Properties of the CAPWAP header operations. *)
From S2P Require Import Prelude Io Header.

(** A header buffer as the callers start with, and one with an 802.11 wireless
    information of four bytes. *)
Definition blank_header : list Z := capwap_header_init (zeros CAPWAP_HEADER_MAX_SIZE) 1 1.

Definition header_with_wireless : list Z :=
  capwap_header_set_wireless_information blank_header [171; 205; 1; 2] 4.

Definition sample_mac : list Z := [0; 17; 34; 51; 68; 85].

(** The five bits of the radio id, split over two bytes, are read back. *)
Lemma rid_bits r :
  wrap8 (Z.lor (Z.shiftl (Z.land (wrap16 (Z.shiftr r 2)) (Z.ones 3)) 2)
           (Z.land (wrap16 (Z.land r 3)) (Z.ones 2))) = r mod 32.
Proof.
  unfold wrap8, wrap16. change 256 with (2 ^ 8). change 65536 with (2 ^ 16). change 32 with (2 ^ 5).
  change 3 with (Z.ones 2) at 2. rewrite <- !Z.land_ones by lia. bits.
  destruct (0 <=? n) eqn:?, (n <? 8) eqn:?, (n <? 5) eqn:?, (n <? 2) eqn:?, (n <? 16) eqn:?; try lia;
    cbn [andb orb]; rewrite ?andb_true_r, ?andb_false_r, ?orb_false_r, ?orb_true_r; try done.
  - replace (0 <=? n - 2) with false by lia. by rewrite !andb_false_r.
  - rewrite Z.shiftr_spec by lia. replace (n - 2 + 2) with n by lia.
    replace (0 <=? n - 2) with true by lia. replace (n - 2 <? 16) with true by lia.
    replace (n - 2 <? 3) with true by lia. by rewrite !andb_true_r.
Qed.

Lemma set_rid_get b radioid :
  8 <= zlen b -> GET_RID_HEADER (SET_RID_HEADER b radioid) = radioid mod 32.
Proof.
  intros Hb. unfold GET_RID_HEADER, SET_RID_HEADER. hdr. cbn [f_width f_rid_hi f_rid_lo].
  apply rid_bits.
Qed.

Lemma header_init_rid data radioid binding :
  zlen data = CAPWAP_HEADER_MAX_SIZE ->
  GET_RID_HEADER (capwap_header_init data radioid binding) = radioid mod 32.
Proof.
  unfold CAPWAP_HEADER_MAX_SIZE. intros Hl. unfold capwap_header_init, SET_WBID_HEADER.
  assert (Hb : forall b, 8 <= zlen b -> GET_RID_HEADER (set_field f_wbid (wrap16 binding) b) = GET_RID_HEADER b).
  { intros. unfold GET_RID_HEADER. by hdr. }
  unfold SET_HLEN_HEADER, SET_TYPE_HEADER, SET_VERSION_HEADER, SET_RID_HEADER, sizeof_capwap_header.
  rewrite Hb by blen. apply set_rid_get. blen.
Qed.

(** ** Theorems *)

(** [capwap_header_init] leaves a plain header of two words: version 0,
    type 0, no optional part, not a fragment, with the low five bits of the
    radio id and of the wireless binding, whatever the buffer held; and the
    header satisfies the invariant the other operations need. *)
Lemma header_init_plain data radioid binding :
  zlen data = CAPWAP_HEADER_MAX_SIZE -> bytes_ok data ->
  let b := capwap_header_init data radioid binding in
  header_inv b /\
  GET_VERSION_HEADER b = CAPWAP_PROTOCOL_VERSION /\ GET_TYPE_HEADER b = CAPWAP_PREAMBLE_HEADER /\
  GET_RID_HEADER b = radioid mod 32 /\ GET_WBID_HEADER b = binding mod 32 /\
  radio_macaddress b = None /\ wireless_information b = None /\ IS_FLAG_F_HEADER b = false /\
  GET_FRAGMENT_ID_HEADER b = 0 /\ GET_FRAGMENT_OFFSET_HEADER b = 0.
Proof.
  intros Hl Hb b. destruct (header_init_fields data radioid binding Hl)
    as (H1 & H2 & H3 & H4 & H5 & H6 & H7 & H8 & H9). fold b in H1, H2, H3, H4, H5, H6, H7, H8, H9.
  unfold header_inv, radio_macaddress, wireless_information, mac_words, wireless_words.
  rewrite H5, H6. repeat split; try done.
  - unfold b, capwap_header_init, SET_VERSION_HEADER, SET_TYPE_HEADER, SET_HLEN_HEADER,
      SET_RID_HEADER, SET_WBID_HEADER, sizeof_capwap_header, CAPWAP_HEADER_MAX_SIZE in *. blen.
  - unfold b, capwap_header_init, SET_VERSION_HEADER, SET_TYPE_HEADER, SET_HLEN_HEADER,
      SET_RID_HEADER, SET_WBID_HEADER. repeat (apply bytes_ok_set_field; [done|]).
    auto with capwap.
  - by apply header_init_rid.
Qed.

Lemma header_init_plain_witness :
  let b := capwap_header_init (zeros CAPWAP_HEADER_MAX_SIZE) 5 1 in
  header_inv b /\ GET_RID_HEADER b = 5 /\ GET_WBID_HEADER b = 1.
Proof.
  destruct (header_init_plain (zeros CAPWAP_HEADER_MAX_SIZE) 5 1) as (H1 & _ & _ & H2 & H3 & _);
    [reflexivity|by_computation|]. cbn zeta. by rewrite H2, H3.
Defined.

(** In a header without wireless information, setting a radio address of
    six or eight bytes keeps the invariant, makes a receiver read back exactly
    that address, and leaves every field but the length and the M flag alone. *)
Lemma set_radio_macaddress_correct b radiotype mac :
  header_inv b -> IS_FLAG_W_HEADER b = false ->
  IS_VALID_MACADDRESS_LENGTH radiotype = true -> zlen mac = radiotype -> bytes_ok mac ->
  let b' := capwap_header_set_radio_macaddress b radiotype mac in
  header_inv b' /\ radio_macaddress b' = Some mac /\ wireless_information b' = None /\
  same_fields f_flag_m b b'.
Proof.
  intros Hinv HW Hrt Hmac Hm b'.
  destruct (set_radio_spec b radiotype mac Hinv HW Hrt Hmac Hm) as (H1 & H2 & H3 & H4). fold b' in H1, H2, H3, H4.
  unfold wireless_information. by rewrite H3.
Qed.

Lemma set_radio_macaddress_correct_witness :
  radio_macaddress (capwap_header_set_radio_macaddress blank_header 6 sample_mac) = Some sample_mac.
Proof.
  apply (set_radio_macaddress_correct blank_header 6 sample_mac);
    [by_computation|reflexivity|reflexivity|reflexivity|by_computation].
Defined.

(** The wireless information set last is what a receiver reads back, the
    radio address and every field but the length and the W flag are kept, and
    the invariant holds again, as long as the header still fits in the five
    bits of its length field. *)
Lemma set_wireless_information_correct b buf :
  header_inv b -> 0 < zlen buf < 256 -> bytes_ok buf ->
  2 + mac_words b + padded_words (zlen buf) <= 31 ->
  let b' := capwap_header_set_wireless_information b buf (zlen buf) in
  header_inv b' /\ wireless_information b' = Some buf /\
  radio_macaddress b' = radio_macaddress b /\ same_fields f_flag_w b b'.
Proof. intros. by apply set_wireless_spec. Qed.

Lemma set_wireless_information_correct_witness :
  let b := capwap_header_set_radio_macaddress blank_header 6 sample_mac in
  wireless_information (capwap_header_set_wireless_information b [171; 205; 1; 2] 4)
    = Some [171; 205; 1; 2].
Proof.
  cbn zeta. apply (set_wireless_information_correct
    (capwap_header_set_radio_macaddress blank_header 6 sample_mac) [171; 205; 1; 2]);
    [by_computation|cbn; lia|by_computation|by_computation].
Defined.

(** removing the radio address ([MACADDRESS_NONE_LENGTH]) moves the
    wireless information, if any, next to the fixed header without altering
    it, and keeps the invariant and the other fields. *)
Lemma remove_radio_macaddress_correct b mac :
  header_inv b ->
  let b' := capwap_header_set_radio_macaddress b MACADDRESS_NONE_LENGTH mac in
  header_inv b' /\ radio_macaddress b' = None /\
  wireless_information b' = wireless_information b /\ same_fields f_flag_m b b'.
Proof. intros. by apply remove_radio_spec. Qed.

Lemma remove_radio_macaddress_correct_witness :
  let b := capwap_header_set_wireless_information
             (capwap_header_set_radio_macaddress blank_header 6 sample_mac) [171; 205; 1; 2] 4 in
  wireless_information (capwap_header_set_radio_macaddress b 0 []) = Some [171; 205; 1; 2].
Proof.
  cbn zeta. match goal with |- wireless_information (capwap_header_set_radio_macaddress ?b _ _) = _ =>
    destruct (remove_radio_macaddress_correct b []) as (_ & _ & E & _); [by_computation|] end.
  etransitivity; [exact E|]. vm_compute. reflexivity.
Defined.

(** setting the radio address of a header that already carries wireless
    information destroys that information: it is moved by a number of words
    taken for a number of bytes, and the address is written over it. *)
Lemma set_radio_after_wireless_corrupts :
  header_inv header_with_wireless /\
  wireless_information header_with_wireless = Some [171; 205; 1; 2] /\
  wireless_information (capwap_header_set_radio_macaddress header_with_wireless 6 sample_mac)
    <> Some [171; 205; 1; 2].
Proof. split; [by_computation|]. split; [by vm_compute|by_computation]. Qed.

(** the keep-alive operation sets the K flag to the truth value of its
    argument and changes no other bit field; likewise the native-frame
    operation with the T flag. *)
Lemma flag_operations_correct b enable g :
  8 <= zlen b -> field_ok g = true ->
  IS_FLAG_K_HEADER (capwap_header_set_keepalive_flag b enable) = negb (enable =? 0) /\
  IS_FLAG_T_HEADER (capwap_header_set_nativeframe_flag b enable) = negb (enable =? 0) /\
  (disjoint_fields g f_flag_k = true ->
   get_field g (capwap_header_set_keepalive_flag b enable) = get_field g b) /\
  (disjoint_fields g f_flag_t = true ->
   get_field g (capwap_header_set_nativeframe_flag b enable) = get_field g b).
Proof.
  intros Hb Hg. unfold capwap_header_set_keepalive_flag, capwap_header_set_nativeframe_flag,
    SET_FLAG_K_HEADER, SET_FLAG_T_HEADER, IS_FLAG_K_HEADER, IS_FLAG_T_HEADER, set_flag, is_flag.
  hdr. split; [by destruct (enable =? 0)|]. split; [by destruct (enable =? 0)|].
  split; intros Hd; by hdr.
Qed.

Lemma flag_operations_correct_witness :
  IS_FLAG_K_HEADER (capwap_header_set_keepalive_flag blank_header 1) = true /\
  GET_WBID_HEADER (capwap_header_set_keepalive_flag blank_header 1) = 1.
Proof.
  destruct (flag_operations_correct blank_header 1 f_wbid) as (H1 & _ & H2 & _);
    [by_computation|reflexivity|]. split; [exact H1|]. exact (H2 eq_refl).
Defined.

(** [capwap_sanity_check] accepts a packet of at least two bytes as plain exactly when it has
    the protocol version, the plain preamble, a whole header within the
    buffer and, with DTLS on, when the state allows plain packets; as DTLS
    exactly when DTLS is on, the DTLS header is whole and the state is not
    discovery; everything else is rejected. *)
Lemma sanity_check_correct state buffer dtlsenable :
  1 < zlen buffer ->
  (capwap_sanity_check state buffer dtlsenable = Some CAPWAP_PLAIN_PACKET <->
   GET_VERSION_HEADER buffer = CAPWAP_PROTOCOL_VERSION /\
   GET_TYPE_HEADER buffer = CAPWAP_PREAMBLE_HEADER /\ sizeof_capwap_header <= zlen buffer /\
   GET_HLEN_HEADER buffer * 4 <= zlen buffer /\
   (dtlsenable = true -> state = CAPWAP_DISCOVERY_STATE \/ state = CAPWAP_UNDEF_STATE)) /\
  (capwap_sanity_check state buffer dtlsenable = Some CAPWAP_DTLS_PACKET <->
   dtlsenable = true /\ GET_VERSION_HEADER buffer = CAPWAP_PROTOCOL_VERSION /\
   GET_TYPE_HEADER buffer = CAPWAP_PREAMBLE_DTLS_HEADER /\
   sizeof_capwap_dtls_header <= zlen buffer /\ state <> CAPWAP_DISCOVERY_STATE) /\
  (capwap_sanity_check state buffer dtlsenable = Some CAPWAP_PLAIN_PACKET \/
   capwap_sanity_check state buffer dtlsenable = Some CAPWAP_DTLS_PACKET \/
   capwap_sanity_check state buffer dtlsenable = Some CAPWAP_WRONG_PACKET).
Proof.
  intros Hb. unfold capwap_sanity_check, sizeof_capwap_preamble, CAPWAP_PLAIN_PACKET, CAPWAP_DTLS_PACKET, CAPWAP_WRONG_PACKET,
    CAPWAP_PREAMBLE_DTLS_HEADER, CAPWAP_PREAMBLE_HEADER, CAPWAP_PROTOCOL_VERSION,
    CAPWAP_DISCOVERY_STATE, CAPWAP_UNDEF_STATE, sizeof_capwap_header, sizeof_capwap_dtls_header.
  rewrite (proj2 (Z.ltb_lt _ _) Hb). cbn [negb].
  destruct dtlsenable;
    repeat match goal with |- context [if ?b then _ else _] => destruct b eqn:? end;
    rewrite ?andb_true_iff, ?andb_false_iff, ?negb_true_iff, ?negb_false_iff, ?Z.leb_le, ?Z.leb_gt,
      ?Z.eqb_eq, ?Z.eqb_neq in *; intuition (try congruence; try lia).
Qed.
