(* ===== verification/CapwapList.v ===== *)
(** Doubly linked lists (src/common/capwap_list.c) on a memory of list items.

    An item is at an address, a pointer is an [option] of an address, [None]
    being NULL.  Every access goes through the memory and fails, with [None],
    on a null pointer or on an address that is not allocated; releasing a block
    that is not allocated fails too. *)
From S2P Require Import Prelude.
From stdpp Require Export gmap.
#[global] Open Scope Z_scope.

Definition loc : Type := positive.
Definition ptr : Type := option loc.

Record capwap_list_item := ListItem {
  item : ptr;
  itemsize : Z;
  autodelete : bool;
  next : ptr;
  prev : ptr
}.

Record capwap_list := CList { count : Z; first : ptr; last : ptr }.

(** The list items, and the addresses of the blocks they point to. *)
Record memory := Memory { items : gmap loc capwap_list_item; blocks : gset loc }.

(** ** Accesses *)

Definition load (m : memory) (p : ptr) : option capwap_list_item := l ← p; items m !! l.

Definition modify (f : capwap_list_item -> capwap_list_item) (m : memory) (p : ptr)
    : option memory :=
  l ← p; it ← items m !! l; Some (Memory (<[l := f it]> (items m)) (blocks m)).

Definition with_next (q : ptr) (it : capwap_list_item) : capwap_list_item :=
  ListItem (item it) (itemsize it) (autodelete it) q (prev it).
Definition with_prev (q : ptr) (it : capwap_list_item) : capwap_list_item :=
  ListItem (item it) (itemsize it) (autodelete it) (next it) q.

(** [p->next = q] and [p->prev = q]. *)
Definition set_next (m : memory) (p q : ptr) : option memory := modify (with_next q) m p.
Definition set_prev (m : memory) (p q : ptr) : option memory := modify (with_prev q) m p.

Definition set_first (l : capwap_list) (p : ptr) : capwap_list := CList (count l) p (last l).
Definition set_last (l : capwap_list) (p : ptr) : capwap_list := CList (count l) (first l) p.

(** [capwap_free] of a block and of a list item. *)
Definition free_block (m : memory) (p : ptr) : option memory :=
  l ← p; if bool_decide (l ∈ blocks m) then Some (Memory (items m) (blocks m ∖ {[l]})) else None.
Definition free_item (m : memory) (p : ptr) : option memory :=
  l ← p; _ ← items m !! l; Some (Memory (delete l (items m)) (blocks m)).

(** ** Operations *)

Definition capwap_list_create : capwap_list := CList 0 None None.

(** [l]: the address the allocator returns. *)
Definition capwap_itemlist_create_with_item (m : memory) (l : loc) (p : ptr) (size : Z)
    : ptr * memory :=
  (Some l, Memory (<[l := ListItem p size true None None]> (items m)) (blocks m)).

Definition capwap_itemlist_create (m : memory) (block l : loc) (size : Z) : ptr * memory :=
  capwap_itemlist_create_with_item (Memory (items m) ({[block]} ∪ blocks m)) l (Some block) size.

Definition capwap_itemlist_free (m : memory) (p : ptr) : option memory :=
  it ← load m p;
  m ← (if autodelete it then free_block m (item it) else Some m);
  free_item m p.

(** The loop of [capwap_list_flush]; [None] also when the fuel is used up. *)
Fixpoint flush_loop (fuel : nat) (m : memory) (p : ptr) : option memory :=
  match p with
  | None => Some m
  | Some _ =>
      match fuel with
      | O => None
      | S fuel => it ← load m p; m ← capwap_itemlist_free m p; flush_loop fuel m (next it)
      end
  end.

Definition capwap_list_flush (fuel : nat) (m : memory) (l : capwap_list)
    : option (memory * capwap_list) :=
  m ← flush_loop fuel m (first l);
  Some (m, CList 0 None None).

Section Operations.
Context `{Target}.

Definition capwap_itemlist_remove (m : memory) (l : capwap_list) (p : ptr)
    : option (ptr * memory * capwap_list) :=
  it ← load m p;
  '(m, l) ← match prev it with
            | Some _ => m ← set_next m (prev it) (next it); Some (m, l)
            | None => Some (m, set_first l (next it))
            end;
  it ← load m p;
  '(m, l) ← match next it with
            | Some _ => m ← set_prev m (next it) (prev it); Some (m, l)
            | None => Some (m, set_last l (prev it))
            end;
  m ← set_next m p None;
  m ← set_prev m p None;
  Some (p, m, CList (wrap_ulong (count l - 1)) (first l) (last l)).

Definition capwap_itemlist_remove_head (m : memory) (l : capwap_list)
    : option (ptr * memory * capwap_list) :=
  match first l with
  | None => Some (None, m, l)
  | Some _ =>
      let p := first l in
      it ← load m p;
      let l := set_first l (next it) in
      '(m, l) ← match first l with
                | Some _ => m ← set_prev m (first l) None; Some (m, l)
                | None => Some (m, set_last l None)
                end;
      m ← set_next m p None;
      m ← set_prev m p None;
      Some (p, m, CList (wrap_ulong (count l - 1)) (first l) (last l))
  end.

(** The list was empty and [p] becomes its only item. *)
Definition insert_only (m : memory) (l : capwap_list) (p : ptr) : option (memory * capwap_list) :=
  m ← set_next m p None;
  m ← set_prev m p None;
  Some (m, CList (count l) p p).

Definition capwap_itemlist_insert_before (m : memory) (l : capwap_list) (before p : ptr)
    : option (memory * capwap_list) :=
  let l := CList (wrap_ulong (count l + 1)) (first l) (last l) in
  match (match before with Some _ => before | None => first l end) with
  | None => insert_only m l p
  | before =>
      b ← load m before;
      m ← set_prev m p (prev b);
      m ← set_next m p before;
      b ← load m before;
      '(m, l) ← match prev b with
                | None => Some (m, set_first l p)
                | Some _ => m ← set_next m (prev b) p; Some (m, l)
                end;
      m ← set_prev m before p;
      Some (m, l)
  end.

Definition capwap_itemlist_insert_after (m : memory) (l : capwap_list) (after p : ptr)
    : option (memory * capwap_list) :=
  let l := CList (wrap_ulong (count l + 1)) (first l) (last l) in
  match (match after with Some _ => after | None => last l end) with
  | None => insert_only m l p
  | after =>
      m ← set_prev m p after;
      a ← load m after;
      m ← set_next m p (next a);
      a ← load m after;
      '(m, l) ← match next a with
                | None => Some (m, set_last l p)
                | Some _ => m ← set_prev m (next a) p; Some (m, l)
                end;
      m ← set_next m after p;
      Some (m, l)
  end.

End Operations.

(** ** The sequence a list represents *)

Definition head_or (q : ptr) (ls : list loc) : ptr :=
  match ls with [] => q | x :: _ => Some x end.
Definition last_or (q : ptr) (ls : list loc) : ptr :=
  match list.last ls with None => q | Some x => Some x end.

(** The items [ls] are linked in both directions, after [p] and before [q]. *)
Fixpoint linked (h : gmap loc capwap_list_item) (p : ptr) (ls : list loc) (q : ptr) : Prop :=
  match ls with
  | [] => True
  | x :: ls =>
      (exists it, h !! x = Some it /\ prev it = p /\ next it = head_or q ls) /\
      linked h (Some x) ls q
  end.

Definition list_inv `{Target} (m : memory) (l : capwap_list) (ls : list loc) : Prop :=
  NoDup ls /\ linked (items m) None ls None /\
  first l = head_or None ls /\ last l = last_or None ls /\ count l = wrap_ulong (zlen ls).

(** What does not depend on the links. *)
Definition payload (it : capwap_list_item) : ptr * Z * bool :=
  (item it, itemsize it, autodelete it).

(** [m'] differs from [m] in the links of the items [ls] only. *)
Definition relinked (ls : list loc) (m m' : memory) : Prop :=
  blocks m' = blocks m /\
  (forall x, payload <$> items m' !! x = payload <$> items m !! x) /\
  (forall x, x ∉ ls -> items m' !! x = items m !! x).

(** ** Lemmas *)

#[global] Arguments set_next : simpl never.
#[global] Arguments set_prev : simpl never.
#[global] Arguments load : simpl never.

Lemma head_or_app q a b : head_or q (a ++ b) = head_or (head_or q b) a.
Proof. by destruct a. Qed.

Lemma last_or_app q a b : last_or q (a ++ b) = last_or (last_or q a) b.
Proof. unfold last_or. rewrite last_app. by destruct (list.last b). Qed.

Lemma linked_app h p a b q :
  linked h p (a ++ b) q <-> linked h p a (head_or q b) /\ linked h (last_or p a) b q.
Proof.
  revert p. induction a as [|x a IH]; intros p; cbn [app linked]; [tauto|].
  rewrite IH, head_or_app. replace (last_or p (x :: a)) with (last_or (Some x) a); [tauto|].
  change (x :: a) with ([x] ++ a). by rewrite last_or_app.
Qed.

Lemma linked_frame h h' p ls q :
  (forall x, x ∈ ls -> h' !! x = h !! x) -> linked h p ls q -> linked h' p ls q.
Proof.
  revert p. induction ls as [|x ls IH]; intros p Hf; cbn; [done|].
  intros [(it & E & E1 & E2) Hl]. split.
  - exists it. rewrite Hf; [done|by left].
  - apply IH; [|done]. intros y Hy. apply Hf. by right.
Qed.

Lemma relinked_refl ls m : relinked ls m m.
Proof. done. Qed.

Lemma relinked_trans ls m1 m2 m3 : relinked ls m1 m2 -> relinked ls m2 m3 -> relinked ls m1 m3.
Proof.
  intros (B1 & P1 & F1) (B2 & P2 & F2). split_and!; [congruence|..].
  - intros x. by rewrite P2.
  - intros x Hx. by rewrite F2, F1.
Qed.

Lemma relinked_mono ls ls' m m' : ls ⊆ ls' -> relinked ls m m' -> relinked ls' m m'.
Proof. intros Hs (? & ? & F). split_and!; try done. intros x Hx. apply F. set_solver. Qed.

Lemma linked_relinked ls m m' p a q :
  relinked ls m m' -> a ## ls -> linked (items m) p a q -> linked (items m') p a q.
Proof.
  intros (_ & _ & F) Hd. apply linked_frame. intros x Hx. apply F. set_solver.
Qed.

(** Writing the link of one item. *)
Lemma set_next_spec m x it q :
  items m !! x = Some it ->
  exists m', set_next m (Some x) q = Some m' /\ items m' !! x = Some (with_next q it) /\
    relinked [x] m m'.
Proof.
  intros E. unfold set_next, modify. cbn. rewrite E. cbn. eexists; split_and!; [done|..].
  - cbn. by rewrite lookup_insert_eq.
  - split_and!; [done|..]; intros y; cbn.
    + destruct (decide (x = y)) as [<-|]; [by rewrite lookup_insert_eq, E|by rewrite lookup_insert_ne].
    + intros Hy. rewrite lookup_insert_ne; [done|]. set_solver.
Qed.

Lemma set_prev_spec m x it q :
  items m !! x = Some it ->
  exists m', set_prev m (Some x) q = Some m' /\ items m' !! x = Some (with_prev q it) /\
    relinked [x] m m'.
Proof.
  intros E. unfold set_prev, modify. cbn. rewrite E. cbn. eexists; split_and!; [done|..].
  - cbn. by rewrite lookup_insert_eq.
  - split_and!; [done|..]; intros y; cbn.
    + destruct (decide (x = y)) as [<-|]; [by rewrite lookup_insert_eq, E|by rewrite lookup_insert_ne].
    + intros Hy. rewrite lookup_insert_ne; [done|]. set_solver.
Qed.

(** Redirecting what follows the items [a] of a list: the last of them, or the
    head of the list when there is none. *)
Lemma redirect_next m l a q q' :
  NoDup a -> linked (items m) None a q ->
  exists m', match last_or None a with
    | Some _ => m ← set_next m (last_or None a) q'; Some (m, l)
    | None => Some (m, set_first l q')
    end = Some (m', match a with [] => set_first l q' | _ => l end) /\
    linked (items m') None a q' /\ relinked a m m'.
Proof.
  induction a as [|x a _] using rev_ind; intros Hnd Hl.
  - cbn. by exists m.
  - rewrite last_or_app. cbn. apply linked_app in Hl as [Hl [(it & E & E1 & E2) _]].
    destruct (set_next_spec m x it q' E) as (m' & Hm & E' & Hr). rewrite Hm. exists m'.
    apply NoDup_app in Hnd as (Hnd & Hx & _). cbn. split; [by destruct a|]. split.
    + apply linked_app. cbn. split.
      * eapply linked_relinked; [done|set_solver|done].
      * split; [|done]. eexists. by rewrite E'.
    + eapply relinked_mono; [|done]. set_solver.
Qed.

(** Redirecting what precedes the items [b]. *)
Lemma redirect_prev m l b p p' :
  NoDup b -> linked (items m) p b None ->
  exists m', match head_or None b with
    | Some _ => m ← set_prev m (head_or None b) p'; Some (m, l)
    | None => Some (m, set_last l p')
    end = Some (m', match b with [] => set_last l p' | _ => l end) /\
    linked (items m') p' b None /\ relinked b m m'.
Proof.
  destruct b as [|x b]; intros Hnd Hl.
  - cbn. by exists m.
  - cbn in Hl |- *. destruct Hl as [(it & E & E1 & E2) Hl].
    destruct (set_prev_spec m x it p' E) as (m' & -> & E' & Hr). exists m'.
    apply NoDup_cons in Hnd as [Hx Hnd]. cbn. split_and!; [done|..].
    + eexists. by rewrite E'.
    + eapply linked_relinked; [done|set_solver|done].
    + eapply relinked_mono; [|done]. set_solver.
Qed.

(** Writing both links of one item. *)
Lemma set_links_spec m x it p q :
  items m !! x = Some it ->
  exists m', (m ← set_next m (Some x) q; set_prev m (Some x) p) = Some m' /\
    (exists it', items m' !! x = Some it' /\ prev it' = p /\ next it' = q) /\ relinked [x] m m'.
Proof.
  intros E. destruct (set_next_spec m x it q E) as (m1 & -> & E1 & R1). cbn.
  destruct (set_prev_spec m1 x _ p E1) as (m2 & -> & E2 & R2).
  exists m2. split_and!; [done| |by eapply relinked_trans]. eexists. by rewrite E2.
Qed.

Section Specs.
Context `{Target}.

Lemma wrap_ulong_succ n : wrap_ulong (wrap_ulong n + 1) = wrap_ulong (n + 1).
Proof. unfold wrap_ulong. by rewrite Zplus_mod_idemp_l. Qed.

Lemma wrap_ulong_pred n : wrap_ulong (wrap_ulong n - 1) = wrap_ulong (n - 1).
Proof. unfold wrap_ulong. by rewrite Zminus_mod_idemp_l. Qed.

(** The links around an item of the list. *)
Lemma list_inv_split m l a x b :
  list_inv m l (a ++ x :: b) ->
  NoDup a /\ NoDup b /\ (x ∉ a) /\ (x ∉ b) /\ (a ## b) /\
  linked (items m) None a (Some x) /\ linked (items m) (Some x) b None /\
  exists it, items m !! x = Some it /\ prev it = last_or None a /\ next it = head_or None b.
Proof.
  intros (Hnd & Hl & _). apply linked_app in Hl as (Ha & [Hx Hb]).
  apply NoDup_app in Hnd as (Na & Hd & Nb). apply NoDup_cons in Nb as [Nx Nb].
  split_and!; try done; set_solver.
Qed.

(** The invariant from its parts, after a change of the items around a place. *)
Lemma list_inv_join m l a b n :
  NoDup (a ++ b) -> linked (items m) None a (head_or None b) ->
  linked (items m) (last_or None a) b None ->
  first l = head_or None (a ++ b) -> last l = last_or None (a ++ b) ->
  count l = wrap_ulong n -> n = zlen (a ++ b) -> list_inv m l (a ++ b).
Proof.
  intros Hnd Ha Hb Hf Hl Hc ->. split_and!; try done. by apply linked_app.
Qed.

Lemma load_relinked ls m m' x it :
  relinked ls m m' -> x ∉ ls -> items m !! x = Some it -> load m' (Some x) = Some it.
Proof. intros (_ & _ & F) Hx E. unfold load. cbn. by rewrite F. Qed.

(** [x] is allocated and linked to nothing. *)
Definition detached (m : memory) (x : loc) : Prop :=
  exists it, items m !! x = Some it /\ prev it = None /\ next it = None.

Ltac bind := cbn [mbind option_bind].

Lemma remove_spec m l a x b :
  list_inv m l (a ++ x :: b) ->
  exists m' l', capwap_itemlist_remove m l (Some x) = Some (Some x, m', l') /\
    list_inv m' l' (a ++ b) /\ relinked (a ++ x :: b) m m' /\ detached m' x.
Proof.
  intros Hinv. pose proof Hinv as (Hnd & _ & Hf & Hlast & Hc).
  apply list_inv_split in Hinv as (Na & Nb & Xa & Xb & Dab & La & Lb & it & E & Ep & En).
  unfold capwap_itemlist_remove. replace (load m (Some x)) with (Some it) by by rewrite <- E.
  bind. rewrite Ep.
  destruct (redirect_next m l a _ (next it) Na La) as (m1 & -> & La1 & R1).
  bind. rewrite (load_relinked a m m1 x it R1 Xa E). bind. rewrite En.
  destruct (redirect_prev m1 (match a with [] => set_first l (next it) | _ => l end) b (Some x)
    (prev it) Nb) as (m2 & Hm2 & Lb2 & R2).
  { eapply linked_relinked; [exact R1|set_solver|done]. }
  rewrite En in Hm2. rewrite Hm2. bind.
  pose proof (load_relinked b m1 m2 x it R2 Xb (load_relinked a m m1 x it R1 Xa E)) as E2.
  destruct (set_links_spec m2 x it None None E2) as (m3 & Hm3 & Hd & R3).
  destruct (set_next m2 (Some x) None) as [m3'|]; [|done]. cbn in Hm3. bind. rewrite Hm3. bind.
  do 2 eexists. split_and!; [done|..|done].
  - apply (list_inv_join _ _ _ _ (zlen (a ++ x :: b) - 1)).
    + apply NoDup_app. split_and!; [done|set_solver|done].
    + rewrite <- En. eapply linked_relinked; [exact R3|set_solver|].
      by eapply linked_relinked; [exact R2|set_solver|].
    + rewrite <- Ep. eapply linked_relinked; [exact R3|set_solver|done].
    + by destruct a, b.
    + rewrite Ep. destruct b; [destruct a; by rewrite ?app_nil_r|].
      rewrite last_or_app in *. by destruct a.
    + rewrite <- (wrap_ulong_pred (zlen (a ++ x :: b))), <- Hc. by destruct a, b.
    + rewrite !length_app. cbn. lia.
  - repeat (eapply relinked_trans; [eapply relinked_mono; [|eassumption]; set_solver|]).
    apply relinked_refl.
Qed.

Lemma remove_head_spec m l ls :
  list_inv m l ls ->
  exists m' l', capwap_itemlist_remove_head m l = Some (head_or None ls, m', l') /\
    list_inv m' l' (tail ls) /\ relinked ls m m' /\
    match ls with [] => True | x :: _ => detached m' x end.
Proof.
  intros Hinv. destruct ls as [|x b].
  { exists m, l. unfold capwap_itemlist_remove_head.
    pose proof Hinv as (_ & _ & -> & _). by split_and!. }
  apply (list_inv_split m l [] x b) in Hinv as Hs.
  destruct Hinv as (Hnd & _ & Hf & Hlast & Hc).
  destruct Hs as (_ & Nb & _ & Xb & _ & _ & Lb & it & E & Ep & En).
  unfold capwap_itemlist_remove_head. rewrite Hf. cbn [head_or].
  replace (load m (Some x)) with (Some it) by by rewrite <- E. bind. rewrite En. cbn [first set_first].
  destruct (redirect_prev m (set_first l (head_or None b)) b (Some x) None Nb Lb)
    as (m1 & -> & Lb1 & R1). bind.
  pose proof (load_relinked b m m1 x it R1 Xb E) as E1.
  destruct (set_links_spec m1 x it None None E1) as (m2 & Hm2 & Hd & R2).
  destruct (set_next m1 (Some x) None) as [m2'|]; [|done]. cbn in Hm2. bind. rewrite Hm2. bind.
  do 2 eexists. split_and!; [done|..|done].
  - apply (list_inv_join _ _ [] b (zlen (x :: b) - 1)); try done.
    + eapply linked_relinked; [exact R2|set_solver|done].
    + by destruct b.
    + by destruct b.
    + rewrite <- (wrap_ulong_pred (zlen (x :: b))), <- Hc. by destruct b.
    + cbn. lia.
  - repeat (eapply relinked_trans; [eapply relinked_mono; [|eassumption]; set_solver|]).
    apply relinked_refl.
Qed.

(** Inserting into an empty list. *)
Lemma insert_only_spec m l x n :
  is_Some (items m !! x) -> n = 0 -> count l = wrap_ulong (n + 1) ->
  exists m' l', insert_only m l (Some x) = Some (m', l') /\ list_inv m' l' [x] /\ relinked [x] m m'.
Proof.
  intros [it E] -> Hc. unfold insert_only.
  destruct (set_links_spec m x it None None E) as (m' & Hm & Hd & R).
  destruct (set_next m (Some x) None) as [m1|]; [|done]. cbn in Hm. bind. rewrite Hm. bind.
  do 2 eexists. split_and!; [done| |done]. split_and!; try done.
  apply NoDup_singleton.
Qed.

Lemma insert_before_spec m l a y b x :
  list_inv m l (a ++ y :: b) -> x ∉ a ++ y :: b -> is_Some (items m !! x) ->
  exists m' l', capwap_itemlist_insert_before m l (Some y) (Some x) = Some (m', l') /\
    list_inv m' l' (a ++ x :: y :: b) /\ relinked (a ++ x :: y :: b) m m'.
Proof.
  intros Hinv Hx [it E]. pose proof Hinv as (Hnd & _ & Hf & Hlast & Hc).
  apply list_inv_split in Hinv as (Na & Nb & Ya & Yb & Dab & La & Lb & ity & Ey & Ep & En).
  assert (Xa : x ∉ a /\ x ∉ b /\ x <> y) by set_solver. destruct Xa as (Xa & Xb & Xy).
  unfold capwap_itemlist_insert_before. set (l1 := CList _ _ _).
  replace (load m (Some y)) with (Some ity) by by rewrite <- Ey. bind. rewrite Ep.
  destruct (set_prev_spec m x it (last_or None a) E) as (m1 & -> & E1 & R1). bind.
  destruct (set_next_spec m1 x _ (Some y) E1) as (m2 & -> & E2 & R2). bind.
  assert (R12 : relinked [x] m m2) by by eapply relinked_trans.
  rewrite (load_relinked [x] m m2 y ity R12) by set_solver. bind. rewrite Ep.
  destruct (redirect_next m2 l1 a (Some y) (Some x) Na) as (m3 & Hm3 & La3 & R3).
  { eapply linked_relinked; [exact R12|set_solver|done]. }
  rewrite Hm3. bind.
  pose proof (load_relinked a m2 m3 y ity R3 Ya (load_relinked [x] m m2 y ity R12 ltac:(set_solver) Ey))
    as Ey3.
  destruct (set_prev_spec m3 y ity (Some x) Ey3) as (m4 & -> & E4 & R4). bind.
  pose proof (load_relinked a m2 m3 x _ R3 Xa E2) as Ex3.
  pose proof (load_relinked [y] m3 m4 x _ R4 ltac:(set_solver) Ex3) as Ex4.
  do 2 eexists. split_and!; [done|..].
  - apply (list_inv_join _ _ a (x :: y :: b) (zlen (a ++ y :: b) + 1)).
    + apply NoDup_app. split_and!; [done|set_solver|].
      constructor; [set_solver|]. by constructor.
    + eapply linked_relinked; [exact R4|set_solver|done].
    + split; [by eexists; split; [exact Ex4|]|]. split; [by eexists; split; [exact E4|]|].
      eapply linked_relinked; [exact R4|set_solver|].
      eapply linked_relinked; [exact R3|set_solver|].
      eapply linked_relinked; [exact R12|set_solver|done].
    + rewrite head_or_app. by destruct a.
    + rewrite last_or_app in *. by destruct a.
    + rewrite <- wrap_ulong_succ, <- Hc. by destruct a.
    + rewrite !length_app. cbn. lia.
  - repeat (eapply relinked_trans; [eapply relinked_mono; [|eassumption]; set_solver|]).
    apply relinked_refl.
Qed.

Lemma insert_after_spec m l a y b x :
  list_inv m l (a ++ y :: b) -> x ∉ a ++ y :: b -> is_Some (items m !! x) ->
  exists m' l', capwap_itemlist_insert_after m l (Some y) (Some x) = Some (m', l') /\
    list_inv m' l' (a ++ y :: x :: b) /\ relinked (a ++ y :: x :: b) m m'.
Proof.
  intros Hinv Hx [it E]. pose proof Hinv as (Hnd & _ & Hf & Hlast & Hc).
  apply list_inv_split in Hinv as (Na & Nb & Ya & Yb & Dab & La & Lb & ity & Ey & Ep & En).
  assert (Xa : x ∉ a /\ x ∉ b /\ x <> y) by set_solver. destruct Xa as (Xa & Xb & Xy).
  unfold capwap_itemlist_insert_after. set (l1 := CList _ _ _).
  destruct (set_prev_spec m x it (Some y) E) as (m1 & -> & E1 & R1). bind.
  rewrite (load_relinked [x] m m1 y ity R1) by set_solver. bind. rewrite En.
  destruct (set_next_spec m1 x _ (head_or None b) E1) as (m2 & -> & E2 & R2). bind.
  assert (R12 : relinked [x] m m2) by by eapply relinked_trans.
  rewrite (load_relinked [x] m m2 y ity R12) by set_solver. bind. rewrite En.
  destruct (redirect_prev m2 l1 b (Some y) (Some x) Nb) as (m3 & Hm3 & Lb3 & R3).
  { eapply linked_relinked; [exact R12|set_solver|done]. }
  rewrite Hm3. bind.
  pose proof (load_relinked b m2 m3 y ity R3 Yb (load_relinked [x] m m2 y ity R12 ltac:(set_solver) Ey))
    as Ey3.
  destruct (set_next_spec m3 y ity (Some x) Ey3) as (m4 & -> & E4 & R4). bind.
  pose proof (load_relinked b m2 m3 x _ R3 Xb E2) as Ex3.
  pose proof (load_relinked [y] m3 m4 x _ R4 ltac:(set_solver) Ex3) as Ex4.
  do 2 eexists. split_and!; [done|..].
  - apply (list_inv_join _ _ a (y :: x :: b) (zlen (a ++ y :: b) + 1)).
    + apply NoDup_app. split_and!; [done|set_solver|].
      constructor; [set_solver|]. by constructor.
    + eapply linked_relinked; [exact R4|set_solver|].
      eapply linked_relinked; [exact R3|set_solver|].
      eapply linked_relinked; [exact R12|set_solver|done].
    + split; [by eexists; split; [exact E4|]|]. split; [by eexists; split; [exact Ex4|]|].
      eapply linked_relinked; [exact R4|set_solver|done].
    + rewrite head_or_app in *. by destruct b.
    + rewrite last_or_app in *. by destruct b.
    + rewrite <- wrap_ulong_succ, <- Hc. by destruct b.
    + rewrite !length_app. cbn. lia.
  - repeat (eapply relinked_trans; [eapply relinked_mono; [|eassumption]; set_solver|]).
    apply relinked_refl.
Qed.

(** ** Sequences of operations *)

Inductive list_op :=
| InsertBefore (before : ptr) (x : loc)
| InsertAfter (after : ptr) (x : loc)
| Remove (x : loc)
| RemoveHead.

(** The item a removal returns, and the new list. *)
Definition run_op (m : memory) (l : capwap_list) (op : list_op) : option (ptr * memory * capwap_list) :=
  match op with
  | InsertBefore before x =>
      '(m, l) ← capwap_itemlist_insert_before m l before (Some x); Some (None, m, l)
  | InsertAfter after x =>
      '(m, l) ← capwap_itemlist_insert_after m l after (Some x); Some (None, m, l)
  | Remove x => capwap_itemlist_remove m l (Some x)
  | RemoveHead => capwap_itemlist_remove_head m l
  end.

(** The same on sequences; [None] when the operation does not apply. *)
Fixpoint seq_insert_before (y x : loc) (ls : list loc) : option (list loc) :=
  match ls with
  | [] => None
  | z :: ls => if decide (z = y) then Some (x :: z :: ls)
               else cons z <$> seq_insert_before y x ls
  end.
Fixpoint seq_insert_after (y x : loc) (ls : list loc) : option (list loc) :=
  match ls with
  | [] => None
  | z :: ls => if decide (z = y) then Some (z :: x :: ls)
               else cons z <$> seq_insert_after y x ls
  end.
Fixpoint seq_remove (x : loc) (ls : list loc) : option (list loc) :=
  match ls with
  | [] => None
  | z :: ls => if decide (z = x) then Some ls else cons z <$> seq_remove x ls
  end.

Definition seq_op (ls : list loc) (op : list_op) : option (ptr * list loc) :=
  match op with
  | InsertBefore before x =>
      if decide (x ∈ ls) then None else
      pair None <$> match before with None => Some (x :: ls) | Some y => seq_insert_before y x ls end
  | InsertAfter after x =>
      if decide (x ∈ ls) then None else
      pair None <$> match after with None => Some (ls ++ [x]) | Some y => seq_insert_after y x ls end
  | Remove x => pair (Some x) <$> seq_remove x ls
  | RemoveHead => Some (head_or None ls, tail ls)
  end.

Definition op_item (op : list_op) : ptr :=
  match op with InsertBefore _ x | InsertAfter _ x => Some x | _ => None end.

(** Only links differ. *)
Definition same_payloads (m m' : memory) : Prop :=
  blocks m' = blocks m /\ forall x, payload <$> items m' !! x = payload <$> items m !! x.

Lemma seq_insert_before_inv y x ls ls' :
  seq_insert_before y x ls = Some ls' -> exists a b, ls = a ++ y :: b /\ ls' = a ++ x :: y :: b.
Proof.
  revert ls'. induction ls as [|z ls IH]; intros ls'; cbn; [done|]. case_decide; subst.
  - intros [= <-]. by exists [], ls.
  - destruct (seq_insert_before y x ls) as [k|]; [|done]. intros [= <-].
    destruct (IH k eq_refl) as (a & b & -> & ->). by exists (z :: a), b.
Qed.

Lemma seq_insert_after_inv y x ls ls' :
  seq_insert_after y x ls = Some ls' -> exists a b, ls = a ++ y :: b /\ ls' = a ++ y :: x :: b.
Proof.
  revert ls'. induction ls as [|z ls IH]; intros ls'; cbn; [done|]. case_decide; subst.
  - intros [= <-]. by exists [], ls.
  - destruct (seq_insert_after y x ls) as [k|]; [|done]. intros [= <-].
    destruct (IH k eq_refl) as (a & b & -> & ->). by exists (z :: a), b.
Qed.

Lemma seq_remove_inv x ls ls' :
  seq_remove x ls = Some ls' -> exists a b, ls = a ++ x :: b /\ ls' = a ++ b.
Proof.
  revert ls'. induction ls as [|z ls IH]; intros ls'; cbn; [done|]. case_decide; subst.
  - intros [= <-]. by exists [], ls.
  - destruct (seq_remove x ls) as [k|]; [|done]. intros [= <-].
    destruct (IH k eq_refl) as (a & b & -> & ->). by exists (z :: a), b.
Qed.

(** A null position is the head, or the tail, of the list. *)
Lemma insert_before_null m l ls x :
  list_inv m l ls -> x ∉ ls -> is_Some (items m !! x) ->
  exists m' l', capwap_itemlist_insert_before m l None (Some x) = Some (m', l') /\
    list_inv m' l' (x :: ls) /\ relinked (x :: ls) m m'.
Proof.
  intros Hinv Hx E. destruct ls as [|y b].
  - destruct Hinv as (_ & _ & Hf & _ & Hc). unfold capwap_itemlist_insert_before. cbn. rewrite Hf.
    apply (insert_only_spec m _ x 0 E); [done|]. cbn. by rewrite Hc, wrap_ulong_succ.
  - destruct (insert_before_spec m l [] y b x Hinv Hx E) as (m' & l' & E1 & E2).
    exists m', l'. split; [|done]. rewrite <- E1. unfold capwap_itemlist_insert_before. cbn [first].
    by destruct Hinv as (_ & _ & -> & _).
Qed.

Lemma insert_after_null m l ls x :
  list_inv m l ls -> x ∉ ls -> is_Some (items m !! x) ->
  exists m' l', capwap_itemlist_insert_after m l None (Some x) = Some (m', l') /\
    list_inv m' l' (ls ++ [x]) /\ relinked (ls ++ [x]) m m'.
Proof.
  intros Hinv Hx E. destruct ls as [|y a _] using rev_ind.
  - destruct Hinv as (_ & _ & _ & Hf & Hc). unfold capwap_itemlist_insert_after. cbn. rewrite Hf.
    apply (insert_only_spec m _ x 0 E); [done|]. cbn. by rewrite Hc, wrap_ulong_succ.
  - destruct (insert_after_spec m l a y [] x Hinv Hx E) as (m' & l' & E1 & E2).
    exists m', l'. rewrite <- app_assoc. split; [|done]. rewrite <- E1.
    unfold capwap_itemlist_insert_after. cbn [last].
    destruct Hinv as (_ & _ & _ & -> & _). by rewrite last_or_app.
Qed.

Lemma relinked_payloads ls m m' : relinked ls m m' -> same_payloads m m'.
Proof. by intros (? & ? & _). Qed.

Lemma run_op_refines m l ls op r ls' :
  list_inv m l ls -> (forall x, op_item op = Some x -> is_Some (items m !! x)) ->
  seq_op ls op = Some (r, ls') ->
  exists m' l', run_op m l op = Some (r, m', l') /\ list_inv m' l' ls' /\ same_payloads m m'.
Proof.
  intros Hinv Hal Hseq. destruct op as [before x|after x|x|]; cbn in *.
  - case_decide; [done|].
    assert (Hs : exists m' l', capwap_itemlist_insert_before m l before (Some x) = Some (m', l') /\
      list_inv m' l' ls' /\ relinked ls' m m' /\ r = None).
    { destruct before as [y|].
      - destruct (seq_insert_before y x ls) as [k|] eqn:Ek; [|done]. injection Hseq as <- <-.
        apply seq_insert_before_inv in Ek as (a & b & -> & ->).
        edestruct insert_before_spec as (m' & l' & ? & ? & ?); eauto 10.
      - injection Hseq as <- <-. edestruct insert_before_null as (m' & l' & ? & ? & ?); eauto 10. }
    destruct Hs as (m' & l' & -> & ? & ? & ->). cbn. eauto 8 using relinked_payloads.
  - case_decide; [done|].
    assert (Hs : exists m' l', capwap_itemlist_insert_after m l after (Some x) = Some (m', l') /\
      list_inv m' l' ls' /\ relinked ls' m m' /\ r = None).
    { destruct after as [y|].
      - destruct (seq_insert_after y x ls) as [k|] eqn:Ek; [|done]. injection Hseq as <- <-.
        apply seq_insert_after_inv in Ek as (a & b & -> & ->).
        edestruct insert_after_spec as (m' & l' & ? & ? & ?); eauto 10.
      - injection Hseq as <- <-. edestruct insert_after_null as (m' & l' & ? & ? & ?); eauto 10. }
    destruct Hs as (m' & l' & -> & ? & ? & ->). cbn. eauto 8 using relinked_payloads.
  - destruct (seq_remove x ls) as [k|] eqn:Ek; [|done]. injection Hseq as <- <-.
    apply seq_remove_inv in Ek as (a & b & -> & ->).
    edestruct remove_spec as (m' & l' & ? & ? & ? & _); eauto 10 using relinked_payloads.
  - injection Hseq as <- <-.
    edestruct remove_head_spec as (m' & l' & ? & ? & ? & _); eauto 10 using relinked_payloads.
Qed.

Fixpoint run_ops (m : memory) (l : capwap_list) (ops : list list_op)
    : option (list ptr * memory * capwap_list) :=
  match ops with
  | [] => Some ([], m, l)
  | op :: ops =>
      '(r, m, l) ← run_op m l op; '(rs, m, l) ← run_ops m l ops; Some (r :: rs, m, l)
  end.

Fixpoint seq_ops (ls : list loc) (ops : list list_op) : option (list ptr * list loc) :=
  match ops with
  | [] => Some ([], ls)
  | op :: ops => '(r, ls) ← seq_op ls op; '(rs, ls) ← seq_ops ls ops; Some (r :: rs, ls)
  end.

Lemma same_payloads_alive m m' x :
  same_payloads m m' -> is_Some (items m !! x) -> is_Some (items m' !! x).
Proof. intros [_ Hp] Hx. specialize (Hp x). apply (fmap_is_Some payload). rewrite Hp. by apply fmap_is_Some. Qed.

Lemma same_payloads_trans m1 m2 m3 :
  same_payloads m1 m2 -> same_payloads m2 m3 -> same_payloads m1 m3.
Proof. intros [B1 P1] [B2 P2]. split; [congruence|]. intros x. by rewrite P2. Qed.

Lemma run_ops_refines m l ls ops rs ls' :
  list_inv m l ls -> (forall x, Some x ∈ op_item <$> ops -> is_Some (items m !! x)) ->
  seq_ops ls ops = Some (rs, ls') ->
  exists m' l', run_ops m l ops = Some (rs, m', l') /\ list_inv m' l' ls' /\ same_payloads m m'.
Proof.
  revert m l ls rs. induction ops as [|op ops IH]; intros m l ls rs Hinv Hal Hseq; cbn in *.
  - injection Hseq as <- <-. exists m, l. done.
  - destruct (seq_op ls op) as [[r ls1]|] eqn:E1; [|done]. cbn in Hseq.
    destruct (seq_ops ls1 ops) as [[rs1 ls2]|] eqn:E2; [|done]. injection Hseq as <- <-.
    destruct (run_op_refines m l ls op r ls1 Hinv) as (m1 & l1 & -> & Hinv1 & P1); [|done|].
    { intros x Hx. apply Hal. rewrite <- Hx. by left. }
    cbn. destruct (IH m1 l1 ls1 rs1 Hinv1) as (m2 & l2 & -> & Hinv2 & P2); [|done|].
    { intros x Hx. eapply same_payloads_alive; [exact P1|]. apply Hal. by right. }
    cbn. exists m2, l2. split; [done|]. split; [done|]. by eapply same_payloads_trans.
Qed.

(** ** Releasing a list *)

(** The blocks released with the items [ls]. *)
Definition owned (h : gmap loc capwap_list_item) (ls : list loc) : list loc :=
  omap (fun x => it ← h !! x; if autodelete it then item it else None) ls.

(** Each item that releases its block has one, and no two share one. *)
Definition releasable (m : memory) (ls : list loc) : Prop :=
  NoDup (owned (items m) ls) /\ owned (items m) ls ⊆ elements (blocks m) /\
  Forall (fun x => forall it, items m !! x = Some it -> autodelete it = true -> is_Some (item it)) ls.

Lemma owned_frame h h' ls : (forall x, x ∈ ls -> h' !! x = h !! x) -> owned h' ls = owned h ls.
Proof.
  intros Hf. unfold owned. induction ls as [|x ls IH]; [done|]. cbn. rewrite Hf by by left.
  rewrite IH; [done|]. intros y Hy. apply Hf. by right.
Qed.

Lemma flush_loop_spec ls m p fuel :
  NoDup ls -> linked (items m) p ls None -> releasable m ls -> (length ls <= fuel)%nat ->
  exists m', flush_loop fuel m (head_or None ls) = Some m' /\
    blocks m' = blocks m ∖ list_to_set (owned (items m) ls) /\
    (forall x, items m' !! x = if decide (x ∈ ls) then None else items m !! x).
Proof.
  revert m p fuel. induction ls as [|x ls IH]; intros m p fuel Hnd Hl (Hb & Hs & Ho) Hf.
  { exists m. cbn. split_and!; [by destruct fuel|set_solver|done]. }
  destruct fuel as [|fuel]; [cbn in Hf; lia|]. destruct Hl as [(it & E & Ep & En) Hl].
  apply NoDup_cons in Hnd as [Hx Hnd]. apply Forall_cons in Ho as [Hi Ho].
  assert (Hcons : owned (items m) (x :: ls) =
    option_list (if autodelete it then item it else None) ++ owned (items m) ls).
  { unfold owned. cbn. rewrite E. cbn. by destruct (autodelete it), (item it). }
  rewrite Hcons in Hb, Hs |- *.
  cbn [head_or flush_loop]. unfold capwap_itemlist_free. replace (load m (Some x)) with (Some it) by by rewrite <- E.
  bind.
  assert (Hfree : exists m1, (if autodelete it then free_block m (item it) else Some m) = Some m1 /\
    items m1 = items m /\
    blocks m1 = blocks m ∖ list_to_set (option_list (if autodelete it then item it else None))).
  { destruct (autodelete it) eqn:Ea; [|exists m; cbn; split_and!; [done..|set_solver]].
    destruct (Hi it E Ea) as [bl Hbl]. rewrite Hbl in *. unfold free_block. cbn.
    rewrite bool_decide_true; [eexists; split_and!; [done..|]; cbn; set_solver|].
    apply elem_of_elements, Hs. by left. }
  destruct Hfree as (m1 & -> & Hm1 & Hb1). bind. unfold free_item. cbn. rewrite Hm1, E. cbn. rewrite En.
  set (m2 := Memory _ _).
  assert (Hfr : forall y, y ∈ ls -> items m2 !! y = items m !! y).
  { intros y Hy. cbn. apply lookup_delete_ne. set_solver. }
  pose proof (owned_frame _ _ _ Hfr) as Hown.
  destruct (IH m2 (Some x) fuel Hnd) as (m3 & -> & Hb3 & Hi3).
  - by eapply linked_frame.
  - split_and!; rewrite ?Hown.
    + by apply NoDup_app in Hb as (_ & _ & ?).
    + intros y Hy. cbn. rewrite Hb1. apply elem_of_elements, elem_of_difference. split.
      * apply elem_of_elements, Hs. set_solver.
      * apply NoDup_app in Hb as (_ & Hd & _). intros Hin. apply (Hd y); [|done]. set_solver.
    + eapply Forall_impl; [apply Forall_and; split; [exact Ho|apply Forall_forall; intros y Hy; exact Hy]|].
      intros y [Hy1 Hy2]. cbn in Hy2 |- *. change (delete x (items m)) with (items m2). by rewrite Hfr.
  - cbn in Hf. lia.
  - exists m3. split_and!; [done|..].
    + rewrite Hb3, Hown. cbn. rewrite Hb1. set_solver.
    + intros y. rewrite Hi3. cbn. destruct (decide (y = x)) as [->|Hy].
      * rewrite lookup_delete_eq. repeat case_decide; set_solver.
      * rewrite lookup_delete_ne by done. repeat case_decide; set_solver.
Qed.

End Specs.
