(* ===== verification/CapwapArray.v ===== *)
(** Growing arrays of items of one size (src/common/capwap_array.c).

    The buffer is a string of bytes, [None] being NULL; writes outside it and
    signed overflow fail with [None]. *)
From stdpp Require Import option.
From S2P Require Import Prelude Io Header.
#[local] Open Scope Z_scope.

Module Array.

Record capwap_array := CArray {
  buffer : option (list Z);
  itemsize : Z;
  count : Z;
  zeroed : bool
}.

(** A product of type [int]. *)
Definition int_mul (x y : Z) : option Z :=
  if (-2147483648 <=? x * y) && (x * y <? 2147483648) then Some (x * y) else None.

(** [memcpy] or [memset] into a buffer. *)
Definition store (pos : Z) (bs b : list Z) : option (list Z) :=
  if (0 <=? pos) && (pos + zlen bs <=? zlen b) then Some (write_at pos bs b) else None.

(** The first [n] bytes of a buffer, as the source of [memcpy]. *)
Definition fetch (n : Z) (b : list Z) : option (list Z) :=
  if (0 <=? n) && (n <=? zlen b) then Some (take (Z.to_nat n) b) else None.

Section Operations.
Context `{Indeterminate} `{Target}.

(** The buffer allocated for [n] items, of which [newcount] will be copied. *)
Definition new_buffer (a : capwap_array) (newcount n : Z) : option (option (list Z)) :=
  if 0 <? n then
    let newbuffer := fresh (wrap_ulong (itemsize a * n)) in
    if zeroed a && (wrap_ulong newcount <? n) then
      pos ← int_mul (itemsize a) newcount;
      b ← store pos (zeros (wrap_ulong (itemsize a * wrap_ulong (n - newcount)))) newbuffer;
      Some (Some b)
    else Some (Some newbuffer)
  else Some None.

Definition capwap_array_resize (a : capwap_array) (n : Z) : option capwap_array :=
  if count a =? n then Some a else
  let newcount := to_int (Z.min (count a) n) in
  newbuffer ← new_buffer a newcount n;
  newbuffer ← match buffer a, newbuffer with
              | Some old, Some b =>
                  if 0 <? newcount then
                    n ← int_mul (itemsize a) newcount;
                    bs ← fetch n old; b ← store 0 bs b; Some (Some b)
                  else Some (Some b)
              | _, _ => Some newbuffer
              end;
  Some (CArray newbuffer (itemsize a) n (zeroed a)).

Definition capwap_array_create (itemsize initcount : Z) (zeroed : bool) : option capwap_array :=
  let a := CArray None itemsize 0 zeroed in
  if 0 <? initcount then capwap_array_resize a initcount else Some a.

Definition capwap_array_clone (a : capwap_array) : option capwap_array :=
  clone ← capwap_array_create (itemsize a) (count a) (zeroed a);
  match buffer clone, buffer a with
  | Some b, Some old =>
      bs ← fetch (wrap_ulong (itemsize a * count a)) old;
      b ← store 0 bs b; Some (CArray (Some b) (itemsize clone) (count clone) (zeroed clone))
  | _, _ => if wrap_ulong (itemsize a * count a) =? 0 then Some clone else None
  end.

(** The position of the item in the buffer, and the array, grown if needed. *)
Definition capwap_array_get_item_pointer (a : capwap_array) (pos : Z) : option (Z * capwap_array) :=
  a ← (if count a <=? pos then capwap_array_resize a (wrap_ulong (pos + 1)) else Some a);
  Some (wrap_ulong (itemsize a * pos), a).

(** ** The items of an array *)

Fixpoint chunks (size k : nat) (b : list Z) : list (list Z) :=
  match k with
  | O => []
  | S k => take size b :: chunks size k (drop size b)
  end.

Definition contents (a : capwap_array) : list (list Z) :=
  chunks (Z.to_nat (itemsize a)) (Z.to_nat (count a)) (default [] (buffer a)).

(** An item that was not written yet. *)
Definition new_item (a : capwap_array) : list Z :=
  if zeroed a then zeros (itemsize a) else fresh (itemsize a).

(** The sizes fit in an [int]. *)
Definition fits (a : capwap_array) (n : Z) : Prop := 0 <= n /\ itemsize a * n < 2147483648.

Definition array_inv (a : capwap_array) : Prop :=
  0 < itemsize a < 65536 /\ fits a (count a) /\
  match buffer a with
  | None => count a = 0
  | Some b => zlen b = itemsize a * count a
  end.

(** ** Lemmas *)

Ltac bind := cbv beta iota delta [mbind option_bind].

Lemma length_chunks size k b : length (chunks size k b) = k.
Proof. revert b. induction k; intros; cbn; auto. Qed.

Lemma chunks_app size k j a b :
  length a = (size * k)%nat -> chunks size (k + j) (a ++ b) = chunks size k a ++ chunks size j b.
Proof.
  revert a. induction k as [|k IH]; intros a Hl.
  - rewrite Nat.mul_0_r in Hl. by destruct a.
  - cbn [chunks Nat.add app]. rewrite take_app_le, drop_app_le by lia. f_equal.
    apply IH. rewrite length_drop. lia.
Qed.

Lemma chunks_replicate size j c : chunks size j (replicate (size * j) c) = replicate j (replicate size c).
Proof.
  induction j as [|j IH]; [done|]. cbn. rewrite take_replicate, drop_replicate. f_equal; [f_equal; lia|].
  rewrite <- IH. f_equal. f_equal. lia.
Qed.

Lemma chunks_take size k n b :
  (k <= n)%nat -> chunks size k (take (size * k) b) = take k (chunks size n b).
Proof.
  revert n b. induction k as [|k IH]; intros n b Hk; [done|].
  destruct n as [|n]; [lia|]. cbn. rewrite take_take. f_equal; [f_equal; lia|].
  rewrite <- (IH n) by lia. replace (size * S k)%nat with (size + size * k)%nat by lia. by rewrite take_drop_commute.
Qed.

(** The byte of an item that was not written yet. *)
Definition new_byte (a : capwap_array) : Z := if zeroed a then 0 else indet.

Lemma new_item_bytes a : new_item a = replicate (Z.to_nat (itemsize a)) (new_byte a).
Proof. unfold new_item, new_byte, zeros, fresh. by destruct (zeroed a). Qed.

Lemma fits_mul a n : 0 < itemsize a -> fits a n -> int_mul (itemsize a) n = Some (itemsize a * n).
Proof. intros Hs [Hn Hf]. unfold int_mul. decide_if. done. Qed.

Lemma fits_small a n : 0 < itemsize a -> fits a n -> wrap_ulong (itemsize a * n) = itemsize a * n.
Proof. intros Hs [Hn Hf]. apply wrap_ulong_small. nia. Qed.

Lemma fits_count a n : 0 < itemsize a -> fits a n -> 0 <= n < 2147483648.
Proof. intros Hs [Hn Hf]. nia. Qed.

Lemma fits_mono a k n : 0 < itemsize a -> 0 <= k <= n -> fits a n -> fits a k.
Proof. intros Hs Hk [Hn Hf]. split; nia. Qed.

(** The fresh buffer holds the new items from [k] on. *)
Lemma new_buffer_spec a k n :
  0 < itemsize a -> 0 <= k <= n -> fits a n -> 0 < n ->
  exists b, new_buffer a k n = Some (Some b) /\ zlen b = itemsize a * n /\
    drop (Z.to_nat (itemsize a * k)) b =
    replicate (Z.to_nat (itemsize a * (n - k))) (new_byte a).
Proof.
  intros Hs Hk Hf Hn. pose proof (fits_count a n Hs Hf).
  assert (Hfk : fits a k) by (eapply fits_mono; eauto).
  assert (Hfd : fits a (n - k)) by (eapply fits_mono; [..|exact Hf]; lia).
  assert (itemsize a * n = itemsize a * k + itemsize a * (n - k)) by lia.
  assert (0 <= itemsize a * k /\ 0 <= itemsize a * (n - k)) by nia.
  unfold new_buffer. decide_if. rewrite (fits_small a n) by done.
  rewrite (wrap_ulong_small k) by lia. rewrite (wrap_ulong_small (n - k)) by lia.
  rewrite (fits_mul a k), (fits_small a (n - k)) by done. bind.
  assert (Hl : zlen (fresh (itemsize a * n)) = itemsize a * n) by (unfold fresh; rewrite length_replicate; lia).
  assert (Hz : zlen (zeros (itemsize a * (n - k))) = itemsize a * (n - k)) by (rewrite length_zeros; lia).
  assert (Hd : forall c : Z, drop (Z.to_nat (itemsize a * k)) (replicate (Z.to_nat (itemsize a * n)) c) =
    replicate (Z.to_nat (itemsize a * (n - k))) c).
  { intros c. rewrite drop_replicate. f_equal. lia. }
  unfold new_byte. destruct (zeroed a) eqn:Ez; cbn [andb].
  - destruct (k <? n) eqn:Ekn; bools.
    + bind. unfold store. rewrite Hl, Hz. decide_if. bind. eexists; split_and!; [done|..].
      * rewrite length_write_at by lia. done.
      * unfold write_at. rewrite drop_app_length'.
        2: { rewrite length_take. lia. }
        rewrite drop_ge by (rewrite ?length_app; lia). by rewrite app_nil_r.
    + assert (k = n) as -> by lia. eexists; split_and!; [done..|].
      rewrite Z.sub_diag, Z.mul_0_r. apply drop_ge. lia.
  - eexists; split_and!; [done..|]. apply Hd.
Qed.

(** A buffer made of the first [k] items of the old one and of new bytes. *)
Lemma contents_resized a n b :
  array_inv a -> 0 <= n ->
  b = take (Z.to_nat (itemsize a * Z.min (count a) n)) (default [] (buffer a)) ++
      replicate (Z.to_nat (itemsize a * (n - Z.min (count a) n))) (new_byte a) ->
  contents (CArray (Some b) (itemsize a) n (zeroed a)) =
  take (Z.to_nat n) (contents a) ++ replicate (Z.to_nat n - Z.to_nat (count a)) (new_item a).
Proof.
  intros (Hs & [Hc _] & Hb) Hn ->. rewrite new_item_bytes. unfold contents.
  cbn [itemsize count buffer default]. unfold id. rewrite !Z2Nat.inj_mul by lia.
  rewrite (Z2Nat.inj_sub n) by lia. rewrite Z2Nat.inj_min.
  set (sz := Z.to_nat (itemsize a)). set (N := Z.to_nat n). set (C := Z.to_nat (count a)).
  assert (Hlen : (sz * C <= length (default [] (buffer a)))%nat).
  { destruct (buffer a) as [old|]; cbn; [|lia]. subst sz C. rewrite <- Z2Nat.inj_mul by lia. lia. }
  replace N with (Nat.min C N + (N - Nat.min C N))%nat at 1 by lia.
  rewrite chunks_app, chunks_replicate.
  2: { apply length_take_le. etransitivity; [apply Nat.mul_le_mono_l|exact Hlen]; lia. }
  rewrite (chunks_take sz _ C) by lia. f_equal; [|f_equal; lia].
  destruct (decide (C <= N)%nat).
  - rewrite !take_ge by (rewrite length_chunks; lia). done.
  - f_equal. lia.
Qed.

Lemma resize_spec a n :
  array_inv a -> fits a n ->
  exists a', capwap_array_resize a n = Some a' /\ array_inv a' /\
    count a' = n /\ itemsize a' = itemsize a /\ zeroed a' = zeroed a /\
    contents a' = take (Z.to_nat n) (contents a) ++
                  replicate (Z.to_nat n - Z.to_nat (count a)) (new_item a).
Proof.
  intros Hinv Hf. pose proof Hinv as (Hs & Hfa & Hb). unfold capwap_array_resize.
  destruct (Z.eqb_spec (count a) n) as [<-|Hne].
  { exists a. split_and!; try done. unfold contents. rewrite Nat.sub_diag, app_nil_r, take_ge; [done|].
    by rewrite length_chunks. }
  pose proof (fits_count a n ltac:(lia) Hf). pose proof (fits_count a _ ltac:(lia) Hfa).
  pose proof (contents_resized a n) as Hcont. set (k := Z.min (count a) n) in *.
  assert (Hfk : fits a k) by (eapply (fits_mono a k n); [lia..|done]).
  rewrite to_int_small by lia.
  destruct (decide (n = 0)) as [->|Hn0].
  { unfold new_buffer. cbn. eexists; split_and!; [by destruct (buffer a)|..]; done || lia. }
  destruct (new_buffer_spec a k n) as (b & -> & Hlb & Hdb); [lia..|done|lia|]. bind.
  assert (0 <= itemsize a * k <= itemsize a * n) by nia.
  assert (Hres : exists b', match buffer a with
    | Some old => if 0 <? k then
        n ← int_mul (itemsize a) k; bs ← fetch n old; b ← store 0 bs b; Some (Some b)
        else Some (Some b)
    | None => Some (Some b) end = Some (Some b') /\ zlen b' = itemsize a * n /\
    b' = take (Z.to_nat (itemsize a * k)) (default [] (buffer a)) ++
         drop (Z.to_nat (itemsize a * k)) b).
  { destruct (buffer a) as [old|].
    - assert (itemsize a * k <= zlen old) by nia. destruct (0 <? k) eqn:Ek; bools.
      + rewrite (fits_mul a k) by (done || lia). bind. unfold fetch, store.
        decide_if. bind. rewrite length_take. decide_if. bind.
        eexists; split_and!; [done|..].
        * rewrite length_write_at; rewrite ?length_take; lia.
        * unfold write_at. cbn [Z.to_nat take app Nat.add default]. by rewrite length_take_le by lia.
      + exists b. replace k with 0 by lia. by rewrite Z.mul_0_r.
    - exists b. replace k with 0 by lia. by rewrite Z.mul_0_r. }
  destruct Hres as (b' & Hres & Hl' & Eb').
  replace (match buffer a with Some _ => _ | None => _ end) with (Some (Some b')) by by rewrite <- Hres; destruct (buffer a).
  bind. eexists; split_and!; try done.
  apply Hcont; [done|lia|]. by rewrite Eb', Hdb.
Qed.

Lemma create_spec size n zero :
  0 < size < 65536 -> 0 <= n -> size * n < 2147483648 ->
  exists a, capwap_array_create size n zero = Some a /\ array_inv a /\
    count a = n /\ itemsize a = size /\ zeroed a = zero /\
    contents a = replicate (Z.to_nat n) (new_item a).
Proof.
  intros Hs Hn Hf. unfold capwap_array_create. set (e := CArray None size 0 zero).
  assert (He : array_inv e) by (unfold array_inv, fits; cbn; lia).
  destruct (0 <? n) eqn:E; bools.
  - destruct (resize_spec e n He) as (a & -> & Hinv & Hc & Hi & Hz & Hcont); [done|].
    exists a. split_and!; try done. rewrite Hcont. change (contents e) with (@nil (list Z)). rewrite take_nil. cbn. rewrite Nat.sub_0_r.
    f_equal. unfold new_item. by rewrite Hi, Hz.
  - exists e. replace n with 0 by lia. done.
Qed.

Lemma clone_spec a :
  array_inv a ->
  exists a', capwap_array_clone a = Some a' /\ array_inv a' /\
    itemsize a' = itemsize a /\ zeroed a' = zeroed a /\ contents a' = contents a.
Proof.
  intros (Hs & Hf & Hb). unfold capwap_array_clone.
  destruct (create_spec (itemsize a) (count a) (zeroed a)) as (c & -> & (Hsc & Hfc & Hbc) & Hc & Hi & Hz & Hcont);
    [done|apply Hf..|]. bind.
  rewrite fits_small by (done || lia). destruct Hf as [Hf0 Hf].
  destruct (buffer c) as [b|] eqn:Eb.
  - destruct (buffer a) as [old|] eqn:Eo.
    + rewrite Hi, Hc in Hbc. unfold fetch, store. decide_if. rewrite take_ge by lia. decide_if.
      eexists; split_and!; [done|..]; cbn; rewrite ?Hi, ?Hc; try done; try lia.
      * unfold array_inv, fits. cbn. rewrite length_write_at; lia.
      * unfold contents. cbn. rewrite Eo. unfold write_at. cbn. rewrite drop_ge by lia.
        by rewrite app_nil_r.
    + rewrite Hb, Z.mul_0_r. cbn. exists c. split_and!; try done.
      * unfold array_inv. by rewrite Eb.
      * rewrite Hcont, Hb. unfold contents. by rewrite Hb.
  - assert (H0c : count a = 0) by lia. rewrite H0c, Z.mul_0_r. cbn. exists c. split_and!; try done.
    + unfold array_inv. by rewrite Eb.
    + rewrite Hcont, H0c. unfold contents. by rewrite H0c.
Qed.

(** Storing an item through the pointer to it. *)
Definition store_item (a : capwap_array) (pos : Z) (bs : list Z) : option capwap_array :=
  b ← buffer a; b ← store pos bs b; Some (CArray (Some b) (itemsize a) (count a) (zeroed a)).

Lemma chunks_write size n i bs b :
  length bs = size -> (i < n)%nat -> length b = (size * n)%nat ->
  chunks size n (take (size * i) b ++ bs ++ drop (size * i + size) b) = <[i := bs]> (chunks size n b).
Proof.
  intros Hl. revert i b. induction n as [|n IH]; intros i b Hi Hb; [lia|]. cbn [chunks].
  destruct i as [|i]; cbn [insert list_insert].
  - rewrite Nat.mul_0_r, take_0. cbn [app Nat.add]. rewrite <- Hl, take_app_length, drop_app_length. done.
  - cbn. f_equal.
    + rewrite take_app_le by (rewrite length_take; nia). rewrite take_take. f_equal. nia.
    + rewrite <- (IH i) by (rewrite ?length_drop; nia). rewrite drop_app_le by (rewrite length_take; nia).
      f_equal. rewrite drop_drop. f_equal; [|f_equal; f_equal; nia].
      rewrite take_drop_commute. do 2 f_equal. nia.
Qed.

Lemma get_item_pointer_spec a pos :
  array_inv a -> 0 <= pos -> fits a (pos + 1) ->
  exists a', capwap_array_get_item_pointer a pos = Some (itemsize a * pos, a') /\ array_inv a' /\
    itemsize a' = itemsize a /\ zeroed a' = zeroed a /\ count a' = Z.max (count a) (pos + 1) /\
    contents a' = contents a ++ replicate (Z.to_nat (pos + 1) - Z.to_nat (count a)) (new_item a).
Proof.
  intros Hinv Hp Hf. pose proof Hinv as (Hs & Hfa & Hb).
  assert (fits a pos) by (eapply (fits_mono a pos (pos + 1)); [lia..|done]).
  pose proof (fits_count a _ ltac:(lia) Hf). unfold capwap_array_get_item_pointer.
  destruct (count a <=? pos) eqn:E; bools.
  - rewrite wrap_ulong_small by lia.
    destruct (resize_spec a (pos + 1) Hinv Hf) as (a' & -> & Hinv' & Hc & Hi & Hz & Hcont). bind.
    exists a'. rewrite Hi, fits_small by (done || lia). split_and!; try done; [lia|].
    rewrite Hcont, take_ge; [done|]. unfold contents. rewrite length_chunks. lia.
  - bind. exists a. rewrite fits_small by (done || lia). split_and!; try done; [lia|].
    replace (Z.to_nat (pos + 1) - Z.to_nat (count a))%nat with 0%nat by lia. by rewrite app_nil_r.
Qed.

Lemma store_item_spec a i bs :
  array_inv a -> 0 <= i < count a -> zlen bs = itemsize a ->
  exists a', store_item a (itemsize a * i) bs = Some a' /\ array_inv a' /\
    count a' = count a /\ itemsize a' = itemsize a /\ zeroed a' = zeroed a /\
    contents a' = <[Z.to_nat i := bs]> (contents a).
Proof.
  intros (Hs & Hf & Hb) Hi Hl. unfold store_item. destruct (buffer a) as [b|] eqn:Eb; [|lia]. bind.
  assert (0 <= itemsize a * i /\ itemsize a * i + itemsize a <= itemsize a * count a) by nia.
  unfold store. decide_if. eexists; split_and!; [done|..]; try done.
  - unfold array_inv. cbn. rewrite length_write_at by lia. done.
  - unfold contents. cbn. rewrite Eb. cbn. unfold write_at.
    rewrite <- (chunks_write (Z.to_nat (itemsize a)) (Z.to_nat (count a)) (Z.to_nat i) bs b) by nia.
    by rewrite Z2Nat.inj_mul, <- Hl, Nat2Z.id by lia.
Qed.

End Operations.
End Array.
