(* ===== verification/CapwapHash.v ===== *)
(** Hash tables whose buckets are binary search trees with stored heights
    (src/common/capwap_hash.c).

    The [parent] pointers of the source let a function move up from an item;
    here a pointer to an item is a cursor, the subtree at the item and the path
    from it to the root.  A function that relinks an item through its parent
    changes the path.  [None] is a null dereference or, in a loop, fuel used
    up. *)
From stdpp Require Import option.
From S2P Require Import Prelude.
#[local] Open Scope Z_scope.

(** ** Items *)

(** [struct capwap_hash_item]; [Leaf] is NULL. *)
Inductive capwap_hash_item (D : Type) :=
| Leaf
| Item (data : D) (height : Z) (left right : capwap_hash_item D).
Arguments Leaf {D}.
Arguments Item {D} data height left right.

(** The parent of an item, without that item. *)
Inductive frame (D : Type) :=
| LeftOf (data : D) (height : Z) (right : capwap_hash_item D)
| RightOf (data : D) (height : Z) (left : capwap_hash_item D).
Arguments LeftOf {D} data height right.
Arguments RightOf {D} data height left.

Record cursor (D : Type) := Cursor { sub : capwap_hash_item D; path : list (frame D) }.
Arguments Cursor {D} sub path.
Arguments sub {D} c.
Arguments path {D} c.

Section Items.
Context {D : Type}.
Abbreviation item := (capwap_hash_item D).

Definition plug_frame (f : frame D) (t : item) : item :=
  match f with
  | LeftOf d h r => Item d h t r
  | RightOf d h l => Item d h l t
  end.

(** The root above a cursor. *)
Fixpoint plug (p : list (frame D)) (t : item) : item :=
  match p with
  | [] => t
  | f :: p => plug p (plug_frame f t)
  end.

(** [c->parent]; [None]: NULL. *)
Definition parent (c : cursor D) : option (cursor D) :=
  match path c with
  | [] => None
  | f :: p => Some (Cursor (plug_frame f (sub c)) p)
  end.

Definition left_child (c : cursor D) : option (cursor D) :=
  match sub c with
  | Item d h l r => Some (Cursor l (LeftOf d h r :: path c))
  | Leaf => None
  end.
Definition right_child (c : cursor D) : option (cursor D) :=
  match sub c with
  | Item d h l r => Some (Cursor r (RightOf d h l :: path c))
  | Leaf => None
  end.

(** The height [capwap_hash_update_height] stores. *)
Definition children_height (l r : item) : Z :=
  match l, r with
  | Item _ hl _ _, Item _ hr _ _ => if hr <? hl then hl + 1 else hr + 1
  | Item _ hl _ _, Leaf => hl + 1
  | Leaf, Item _ hr _ _ => hr + 1
  | Leaf, Leaf => 0
  end.

Definition capwap_hash_create_item (data : D) : item := Item data 0 Leaf Leaf.

Definition capwap_hash_update_height (t : item) : item :=
  match t with
  | Item d _ l r => Item d (children_height l r) l r
  | Leaf => Leaf
  end.

Definition capwap_hash_set_left_item (t child : item) : item :=
  match t with
  | Item d h _ r => capwap_hash_update_height (Item d h child r)
  | Leaf => Leaf
  end.
Definition capwap_hash_set_right_item (t child : item) : item :=
  match t with
  | Item d h l _ => capwap_hash_update_height (Item d h l child)
  | Leaf => Leaf
  end.

(** [child] takes the place of the item under its parent, whose height is
    updated. *)
Definition relink (p : list (frame D)) (child : item) : list (frame D) :=
  match p with
  | [] => []
  | LeftOf d h r :: p => LeftOf d (children_height child r) r :: p
  | RightOf d h l :: p => RightOf d (children_height l child) l :: p
  end.

(** The rotations return the cursor at the item they were called on. *)
Definition capwap_hash_rotate_left (c : cursor D) : option (cursor D) :=
  match sub c with
  | Item _ _ _ (Item dr hr rl rr as right) =>
      let item := capwap_hash_set_right_item (sub c) rl in
      let right := capwap_hash_set_left_item right item in
      left_child (Cursor right (relink (path c) right))
  | _ => None
  end.

Definition capwap_hash_rotate_right (c : cursor D) : option (cursor D) :=
  match sub c with
  | Item _ _ (Item dl hl ll lr as left) _ =>
      let item := capwap_hash_set_left_item (sub c) lr in
      let left := capwap_hash_set_right_item left item in
      right_child (Cursor left (relink (path c) left))
  | _ => None
  end.

Definition capwap_hash_get_balance_item (t : item) : Z :=
  match t with
  | Leaf => 0
  | Item _ _ (Item _ hl _ _) (Item _ hr _ _) => hl - hr
  | Item _ _ (Item _ hl _ _) Leaf => hl + 1
  | Item _ _ Leaf (Item _ hr _ _) => - (hr + 1)
  | Item _ _ Leaf Leaf => 0
  end.

(** The cursor stays at the item.  A rotation of a child moves that child down
    by one, so that the item is its grandparent. *)
Definition capwap_hash_balance_tree (c : cursor D) : option (cursor D) :=
  let result := capwap_hash_get_balance_item (sub c) in
  if 1 <? result then
    l ← left_child c;
    c ← (if capwap_hash_get_balance_item (sub l) <? 0
         then l ← capwap_hash_rotate_left l; l ← parent l; parent l
         else Some c);
    capwap_hash_rotate_right c
  else if result <? -1 then
    r ← right_child c;
    c ← (if 0 <? capwap_hash_get_balance_item (sub r)
         then r ← capwap_hash_rotate_right r; r ← parent r; parent r
         else Some c);
    capwap_hash_rotate_left c
  else Some c.

(** The rebalancing loop of [capwap_hash_add]: the root of the bucket. *)
Fixpoint rebalance (fuel : nat) (c : cursor D) : option item :=
  match fuel with
  | O => None
  | S fuel =>
      c ← capwap_hash_balance_tree (Cursor (capwap_hash_update_height (sub c)) (path c));
      match parent c with
      | Some c => rebalance fuel c
      | None => Some (sub c)
      end
  end.

(** ** Removing an item *)

(** The rightmost item under [t], which has a right child, with the tree that
    remains: only the parent of the item gets its height updated. *)
Fixpoint unlink_rightmost (t : item) : option (item * item) :=
  match t with
  | Item d h l r =>
      match r with
      | Leaf => None
      | Item dr hr rl Leaf => Some (r, capwap_hash_set_right_item t rl)
      | Item _ _ _ _ => '(m, r) ← unlink_rightmost r; Some (m, Item d h l r)
      end
  | Leaf => None
  end.
Fixpoint unlink_leftmost (t : item) : option (item * item) :=
  match t with
  | Item d h l r =>
      match l with
      | Leaf => None
      | Item dl hl Leaf lr => Some (l, capwap_hash_set_left_item t lr)
      | Item _ _ _ _ => '(m, l) ← unlink_leftmost l; Some (m, Item d h l r)
      end
  | Leaf => None
  end.

(** The item that replaces [search], which has two children. *)
Definition replacement (search : item) : option item :=
  match search with
  | Item _ _ l r =>
      if 0 <? capwap_hash_get_balance_item search then
        match l with
        | Item _ _ _ Leaf => Some (capwap_hash_set_right_item l r)
        | _ => '(m, l) ← unlink_rightmost l;
               Some (capwap_hash_set_right_item (capwap_hash_set_left_item m l) r)
        end
      else
        match r with
        | Item _ _ Leaf _ => Some (capwap_hash_set_left_item r l)
        | _ => '(m, r) ← unlink_leftmost r;
               Some (capwap_hash_set_right_item (capwap_hash_set_left_item m l) r)
        end
  | Leaf => None
  end.

(** The subtree at a cursor becomes [child], the tree is balanced at the
    parent: the new root. *)
Definition splice (p : list (frame D)) (child : item) : option item :=
  match parent (Cursor child (relink p child)) with
  | Some c => c ← capwap_hash_balance_tree c; Some (plug (path c) (sub c))
  | None => Some child
  end.

(** [capwap_hash_deleteitem] on the bucket of the item: the new root. *)
Definition delete_item (c : cursor D) : option item :=
  match sub c with
  | Leaf => None
  | Item _ _ Leaf Leaf => splice (path c) Leaf
  | Item _ _ l Leaf => splice (path c) l
  | Item _ _ Leaf r => splice (path c) r
  | Item _ _ _ _ =>
      m ← replacement (sub c);
      c ← capwap_hash_balance_tree (Cursor m (relink (path c) m));
      Some (plug (path c) (sub c))
  end.

End Items.

(** ** Tables *)

(** The callbacks of a table that determine its structure. *)
Class HashOps (D K : Type) := {
  item_gethash : K -> Z -> Z;
  item_getkey : D -> K;
  item_cmp : K -> K -> Z
}.

Record capwap_hash (D : Type) := Hash {
  items : list (capwap_hash_item D);
  hashsize : Z;
  count : Z
}.
Arguments Hash {D} items hashsize count.
Arguments items {D} c.
Arguments hashsize {D} c.
Arguments count {D} c.

Section Tables.
Context {D K : Type} `{HashOps D K} `{Target}.

(** The loop of [capwap_hash_search_items]: it moves to the children of
    [item], the root it was called on, and not of [search]. *)
Fixpoint search_items (fuel : nat) (item search : cursor D) (key : K) : option (option (cursor D)) :=
  match fuel with
  | O => None
  | S fuel =>
      match sub search with
      | Leaf => Some None
      | Item d _ _ _ =>
          let result := item_cmp key (item_getkey d) in
          if result =? 0 then Some (Some search)
          else if result <? 0 then l ← left_child item; search_items fuel item l key
          else r ← right_child item; search_items fuel item r key
      end
  end.

Definition capwap_hash_search_items (fuel : nat) (root : capwap_hash_item D) (key : K)
    : option (option (cursor D)) :=
  search_items fuel (Cursor root []) (Cursor root []) key.

(** [hash->items[hashvalue]]; the assertions keep [hashvalue] in range. *)
Definition bucket (hash : capwap_hash D) (hashvalue : Z) : option (capwap_hash_item D) :=
  items hash !! Z.to_nat hashvalue.
Definition set_bucket (hash : capwap_hash D) (hashvalue : Z) (root : capwap_hash_item D) (n : Z)
    : capwap_hash D :=
  Hash (<[Z.to_nat hashvalue := root]> (items hash)) (hashsize hash) (wrap_ulong n).

Definition capwap_hash_create (hashsize : Z) : capwap_hash D :=
  Hash (replicate (Z.to_nat hashsize) Leaf) hashsize 0.

(** The loop of [capwap_hash_add] that looks for the place of an item: the
    item that gets the new data, or the new item. *)
Fixpoint add_position (key : K) (data : D) (t : capwap_hash_item D) (p : list (frame D))
    : cursor D + cursor D :=
  match t with
  | Leaf => inr (Cursor (capwap_hash_create_item data) (relink p (capwap_hash_create_item data)))
  | Item d h l r =>
      let result := item_cmp key (item_getkey d) in
      if result =? 0 then inl (Cursor (Item data h l r) p)
      else if result <? 0 then add_position key data l (LeftOf d h r :: p)
      else add_position key data r (RightOf d h l :: p)
  end.

(** The bucket after [capwap_hash_add], and the change of the count. *)
Definition add_item (fuel : nat) (data : D) (root : capwap_hash_item D)
    : option (capwap_hash_item D * Z) :=
  match root with
  | Leaf => Some (capwap_hash_create_item data, 1)
  | _ =>
      match add_position (item_getkey data) data root [] with
      | inl c => Some (plug (path c) (sub c), 0)
      | inr c => root ← rebalance fuel c; Some (root, 1)
      end
  end.

Definition capwap_hash_add (fuel : nat) (hash : capwap_hash D) (data : D) : option (capwap_hash D) :=
  let hashvalue := item_gethash (item_getkey data) (hashsize hash) in
  root ← bucket hash hashvalue;
  '(root, n) ← add_item fuel data root;
  Some (set_bucket hash hashvalue root (count hash + n)).

Definition capwap_hash_deleteitem (hash : capwap_hash D) (search : cursor D) (hashvalue : Z)
    : option (capwap_hash D) :=
  root ← delete_item search;
  Some (set_bucket hash hashvalue root (count hash - 1)).

Definition capwap_hash_delete (fuel : nat) (hash : capwap_hash D) (key : K) : option (capwap_hash D) :=
  let hashvalue := item_gethash key (hashsize hash) in
  root ← bucket hash hashvalue;
  match root with
  | Leaf => Some hash
  | _ =>
      search ← capwap_hash_search_items fuel root key;
      match search with
      | None => Some hash
      | Some search => capwap_hash_deleteitem hash search hashvalue
      end
  end.

Definition capwap_hash_deleteall (hash : capwap_hash D) : capwap_hash D :=
  Hash (replicate (Z.to_nat (hashsize hash)) Leaf) (hashsize hash) 0.

Definition capwap_hash_search (fuel : nat) (hash : capwap_hash D) (key : K) : option (option D) :=
  root ← bucket hash (item_gethash key (hashsize hash));
  match root with
  | Leaf => Some None
  | _ =>
      result ← capwap_hash_search_items fuel root key;
      Some (c ← result; match sub c with Item d _ _ _ => Some d | Leaf => None end)
  end.

(** ** Walking a table *)

Definition HASH_BREAK : Z := 0.
Definition HASH_CONTINUE : Z := 1.
Definition HASH_DELETE_AND_BREAK : Z := 2.
Definition HASH_DELETE_AND_CONTINUE : Z := 3.

Section Foreach.
Context {S : Type} (item_foreach : D -> S -> Z * S).

(** [removeitems], last item first: an item is told by its key. *)
Fixpoint capwap_hash_foreach_items (t : capwap_hash_item D) (removeitems : list K) (param : S)
    : Z * list K * S :=
  match t with
  | Leaf => (HASH_CONTINUE, removeitems, param)
  | Item d _ l r =>
      let '(result, removeitems, param) := capwap_hash_foreach_items l removeitems param in
      if result =? HASH_BREAK then (HASH_BREAK, removeitems, param) else
      let '(result, param) := item_foreach d param in
      let removeitems :=
        if (result =? HASH_DELETE_AND_BREAK) || (result =? HASH_DELETE_AND_CONTINUE)
        then item_getkey d :: removeitems else removeitems in
      if (result =? HASH_BREAK) || (result =? HASH_DELETE_AND_BREAK)
      then (HASH_BREAK, removeitems, param) else
      let '(result, removeitems, param) := capwap_hash_foreach_items r removeitems param in
      if result =? HASH_BREAK then (HASH_BREAK, removeitems, param)
      else (HASH_CONTINUE, removeitems, param)
  end.

Fixpoint foreach_buckets (l : list (capwap_hash_item D)) (removeitems : list K) (param : S)
    : list K * S :=
  match l with
  | [] => (removeitems, param)
  | t :: l =>
      let '(result, removeitems, param) := capwap_hash_foreach_items t removeitems param in
      if result =? HASH_BREAK then (removeitems, param) else foreach_buckets l removeitems param
  end.

(** The cursor at the item with a key. *)
Fixpoint locate (t : capwap_hash_item D) (p : list (frame D)) (key : K) : option (cursor D) :=
  match t with
  | Leaf => None
  | Item d h l r =>
      if item_cmp key (item_getkey d) =? 0 then Some (Cursor t p) else
      match locate l (LeftOf d h r :: p) key with
      | Some c => Some c
      | None => locate r (RightOf d h l :: p) key
      end
  end.

Fixpoint delete_marked (hash : capwap_hash D) (removeitems : list K) : option (capwap_hash D) :=
  match removeitems with
  | [] => Some hash
  | key :: removeitems =>
      let hashvalue := item_gethash key (hashsize hash) in
      root ← bucket hash hashvalue;
      c ← locate root [] key;
      hash ← capwap_hash_deleteitem hash c hashvalue;
      delete_marked hash removeitems
  end.

Definition capwap_hash_foreach (hash : capwap_hash D) (param : S) : option (capwap_hash D * S) :=
  let '(removeitems, param) := foreach_buckets (items hash) [] param in
  hash ← delete_marked hash removeitems;
  Some (hash, param).

End Foreach.
End Tables.
