(* ===== verification/CapwapHashSpec.v ===== *)
(** Buckets as sorted sequences: rotations and deletions preserve the sequence
    of the items, insertion is insertion into a sorted sequence and keeps the
    tree balanced with exact heights, and the search is characterised. *)
From Stdlib Require Import Sorting.Sorted.
From stdpp Require Import option.
From S2P Require Import Prelude CapwapHash.
#[local] Open Scope Z_scope.

(** Equal up to associativity. *)
Ltac assoc := repeat first [ rewrite <- app_assoc | progress cbn [app] ]; done.

Ltac obind := cbv beta iota delta [mbind option_bind] in *.

(** ** The items of a bucket in order *)

Section Order.
Context {D : Type}.
Abbreviation item := (capwap_hash_item D).

Fixpoint inorder (t : item) : list D :=
  match t with Leaf => [] | Item d _ l r => inorder l ++ d :: inorder r end.

(** The items before and after a cursor. *)
Fixpoint before (p : list (frame D)) : list D :=
  match p with
  | [] => []
  | LeftOf _ _ _ :: p => before p
  | RightOf d _ l :: p => before p ++ inorder l ++ [d]
  end.
Fixpoint after (p : list (frame D)) : list D :=
  match p with
  | [] => []
  | LeftOf d _ r :: p => d :: inorder r ++ after p
  | RightOf _ _ _ :: p => after p
  end.

Definition contents (c : cursor D) : list D := before (path c) ++ inorder (sub c) ++ after (path c).

Lemma plug_contents p t : inorder (plug p t) = before p ++ inorder t ++ after p.
Proof.
  revert t. induction p as [|[d h r|d h l] p IH]; intros t; cbn.
  - by rewrite app_nil_r.
  - rewrite IH. cbn. assoc.
  - rewrite IH. cbn. assoc.
Qed.

Lemma before_relink p t : before (relink p t) = before p.
Proof. by destruct p as [|[]]. Qed.
Lemma after_relink p t : after (relink p t) = after p.
Proof. by destruct p as [|[]]. Qed.
Lemma length_relink (p : list (frame D)) t : length (relink p t) = length p.
Proof. by destruct p as [|[]]. Qed.

Lemma parent_contents c c' : parent c = Some c' -> contents c' = contents c.
Proof.
  unfold parent, contents. destruct (path c) as [|[] p]; [done|..]; intros [= <-]; cbn;
    assoc.
Qed.

Lemma left_child_contents c c' : left_child c = Some c' -> contents c' = contents c.
Proof.
  unfold left_child, contents. destruct (sub c); [done|]. intros [= <-]. cbn. assoc.
Qed.
Lemma right_child_contents c c' : right_child c = Some c' -> contents c' = contents c.
Proof.
  unfold right_child, contents. destruct (sub c); [done|]. intros [= <-]. cbn. assoc.
Qed.

Lemma rotate_left_contents c c' : capwap_hash_rotate_left c = Some c' -> contents c' = contents c.
Proof.
  unfold capwap_hash_rotate_left. destruct c as [[|d h l [|dr hr rl rr]] p]; cbn; try done.
  intros [= <-]. unfold contents. cbn. rewrite before_relink, after_relink. assoc.
Qed.

Lemma rotate_right_contents c c' : capwap_hash_rotate_right c = Some c' -> contents c' = contents c.
Proof.
  unfold capwap_hash_rotate_right. destruct c as [[|d h [|dl hl ll lr] r] p]; cbn; try done.
  intros [= <-]. unfold contents. cbn. rewrite before_relink, after_relink. assoc.
Qed.

Lemma balance_tree_contents c c' : capwap_hash_balance_tree c = Some c' -> contents c' = contents c.
Proof.
  unfold capwap_hash_balance_tree. intros Hb. obind.
  repeat (case_match; simplify_eq);
  repeat match goal with
  | E : parent ?a = Some ?b |- _ => apply parent_contents in E
  | E : left_child ?a = Some ?b |- _ => apply left_child_contents in E
  | E : right_child ?a = Some ?b |- _ => apply right_child_contents in E
  | E : capwap_hash_rotate_left ?a = Some ?b |- _ => apply rotate_left_contents in E
  | E : capwap_hash_rotate_right ?a = Some ?b |- _ => apply rotate_right_contents in E
  end; congruence.
Qed.

Lemma update_height_contents t : inorder (capwap_hash_update_height t) = inorder t.
Proof. by destruct t. Qed.

Lemma rebalance_contents fuel c root : rebalance fuel c = Some root -> inorder root = contents c.
Proof.
  revert c. induction fuel as [|fuel IH]; intros c; cbn [rebalance]; [done|].
  destruct (capwap_hash_balance_tree _) as [c1|] eqn:E; [|done]. obind.
  apply balance_tree_contents in E.
  assert (Hc : contents c1 = contents c).
  { rewrite E. unfold contents. cbn. by rewrite update_height_contents. }
  destruct (parent c1) as [c2|] eqn:E2.
  - intros Hr. apply IH in Hr. by rewrite Hr, (parent_contents _ _ E2).
  - intros [= <-]. rewrite <- Hc. unfold contents, parent in *. destruct (path c1); [|done].
    cbn. by rewrite app_nil_r.
Qed.

(** ** Deletion *)

Lemma unlink_rightmost_spec t m t' :
  unlink_rightmost t = Some (m, t') ->
  exists d h l, m = Item d h l Leaf /\ inorder t = inorder t' ++ [d].
Proof.
  revert m t'. induction t as [|d h l _ r IH]; intros m t'; cbn; [done|].
  destruct r as [|dr hr rl rr]; [done|]. destruct rr as [|a b c e].
  - intros [= <- <-]. exists dr, hr, rl. split; [done|]. cbn. assoc.
  - destruct (unlink_rightmost (Item dr hr rl (Item a b c e))) as [[m0 r0]|]; [|done]. obind.
    intros [= <- <-]. destruct (IH m0 r0 eq_refl) as (d1 & h1 & l1 & -> & Hi).
    exists d1, h1, l1. split; [done|]. cbn [inorder] in *. rewrite Hi. assoc.
Qed.

Lemma unlink_leftmost_spec t m t' :
  unlink_leftmost t = Some (m, t') ->
  exists d h r, m = Item d h Leaf r /\ inorder t = d :: inorder t'.
Proof.
  revert m t'. induction t as [|d h l IH r _]; intros m t'; cbn; [done|].
  destruct l as [|dl hl ll lr]; [done|]. destruct ll as [|a b c e].
  - intros [= <- <-]. exists dl, hl, lr. split; [done|]. cbn. done.
  - destruct (unlink_leftmost (Item dl hl (Item a b c e) lr)) as [[m0 l0]|]; [|done]. obind.
    intros [= <- <-]. destruct (IH m0 l0 eq_refl) as (d1 & h1 & r1 & -> & Hi).
    exists d1, h1, r1. split; [done|]. cbn [inorder] in *. by rewrite Hi.
Qed.

(** ** Heights *)

#[local] Arguments children_height : simpl never.

(** The stored height; a missing item counts as -1. *)
Definition ht (t : item) : Z := match t with Leaf => -1 | Item _ h _ _ => h end.

(** Stored heights are not negative. *)
Fixpoint nonneg (t : item) : Prop :=
  match t with Leaf => True | Item _ h l r => 0 <= h /\ nonneg l /\ nonneg r end.

Fixpoint nonneg_path (p : list (frame D)) : Prop :=
  match p with
  | [] => True
  | (LeftOf _ h t | RightOf _ h t) :: p => 0 <= h /\ nonneg t /\ nonneg_path p
  end.

Definition nonneg_at (c : cursor D) : Prop := nonneg (sub c) /\ nonneg_path (path c).

Lemma ht_min t : nonneg t -> -1 <= ht t.
Proof. destruct t; cbn; lia. Qed.

Lemma children_height_max l r :
  -1 <= ht l -> -1 <= ht r -> children_height l r = 1 + Z.max (ht l) (ht r).
Proof. destruct l, r; unfold children_height; cbn; intros; repeat case_match; bools; lia. Qed.

Lemma children_height_nonneg l r : nonneg l -> nonneg r -> 0 <= children_height l r.
Proof. intros Hl%ht_min Hr%ht_min. rewrite children_height_max by done. lia. Qed.

Lemma balance_diff d h l r : capwap_hash_get_balance_item (Item d h l r) = ht l - ht r.
Proof. destruct l, r; cbn; lia. Qed.

Lemma nonneg_relink p t : nonneg t -> nonneg_path p -> nonneg_path (relink p t).
Proof. destruct p as [|[]]; cbn; intuition auto using children_height_nonneg. Qed.

Lemma nonneg_plug p t : nonneg t -> nonneg_path p -> nonneg (plug p t).
Proof. revert t. induction p as [|[]]; cbn; intros; [done|..]; apply IHp; cbn; tauto. Qed.

(** An item with a left child that outweighs the right one has a left child. *)
Lemma ht_item t : nonneg t -> 0 <= ht t -> exists d h l r, t = Item d h l r.
Proof. destruct t; cbn; intros; [lia|eauto]. Qed.

Ltac nonneg_goal :=
  lazymatch goal with
  | |- _ /\ _ => split; nonneg_goal
  | |- 0 <= children_height _ _ => apply children_height_nonneg; nonneg_goal
  | |- nonneg (Item _ _ _ _) => split; [|split]; nonneg_goal
  | |- nonneg_path (relink _ _) => apply nonneg_relink; nonneg_goal
  | |- nonneg_path (_ :: _) => split; [|split]; nonneg_goal
  | |- _ => first [ assumption | lia | exact I ]
  end.
Ltac nonneg :=
  unfold nonneg_at in *; cbn in *; repeat match goal with H : _ /\ _ |- _ => destruct H end; nonneg_goal.

(** No rotation of a bucket meets a null pointer. *)
Lemma balance_tree_total c :
  nonneg_at c -> exists c', capwap_hash_balance_tree c = Some c' /\ nonneg_at c'.
Proof.
  destruct c as [t p]. intros [Ht Hp]. unfold capwap_hash_balance_tree. cbn [sub path] in *.
  destruct t as [|d h l r]; [by exists (Cursor Leaf p)|]. rewrite balance_diff.
  destruct Ht as (Hh & Hl & Hr). pose proof (ht_min l Hl). pose proof (ht_min r Hr).
  destruct (1 <? ht l - ht r) eqn:E1; bools.
  - destruct (ht_item l Hl) as (dl & hl & ll & lr & ->); [lia|]. destruct Hl as (Hhl & Hll & Hlr).
    obind. cbn [left_child sub path]. rewrite balance_diff.
    destruct (ht ll - ht lr <? 0) eqn:E2; bools.
    + pose proof (ht_min ll Hll). destruct (ht_item lr Hlr) as (dm & hm & ml & mr & ->); [lia|].
      cbn. eexists; split; [done|]. nonneg.
    + cbn. eexists; split; [done|]. nonneg.
  - destruct (ht l - ht r <? -1) eqn:E3; bools.
    + destruct (ht_item r Hr) as (dr & hr & rl & rr & ->); [lia|]. destruct Hr as (Hhr & Hrl & Hrr).
      obind. cbn [right_child sub path]. rewrite balance_diff.
      destruct (0 <? ht rl - ht rr) eqn:E2; bools.
      * pose proof (ht_min rr Hrr). destruct (ht_item rl Hrl) as (dm & hm & ml & mr & ->); [lia|].
        cbn. eexists; split; [done|]. nonneg.
      * cbn. eexists; split; [done|]. nonneg.
    + eexists; split; [done|]. by repeat split.
Qed.

Lemma unlink_rightmost_total t :
  nonneg t -> (exists d h l r, t = Item d h l r /\ r <> Leaf) ->
  exists m t', unlink_rightmost t = Some (m, t') /\ nonneg t'.
Proof.
  induction t as [|d h l _ r IH]; intros Hn (d' & h' & l' & r' & [= <- <- <- <-] & Hr).
  destruct r as [|dr hr rl [|a b c e]]; [done|..].
  - do 2 eexists. split; [done|]. nonneg.
  - set (R := Item dr hr rl (Item a b c e)) in *. destruct Hn as (? & ? & ?).
    destruct IH as (m & t' & E & Hn'); [done|by unfold R; eauto 10|].
    change (unlink_rightmost (Item d h l R)) with ('(m, r) ← unlink_rightmost R; Some (m, Item d h l r)).
    rewrite E. do 2 eexists. split; [done|]. nonneg.
Qed.

Lemma unlink_leftmost_total t :
  nonneg t -> (exists d h l r, t = Item d h l r /\ l <> Leaf) ->
  exists m t', unlink_leftmost t = Some (m, t') /\ nonneg t'.
Proof.
  induction t as [|d h l IH r _]; intros Hn (d' & h' & l' & r' & [= <- <- <- <-] & Hl).
  destruct l as [|dl hl [|a b c e] lr]; [done|..].
  - do 2 eexists. split; [done|]. nonneg.
  - set (L := Item dl hl (Item a b c e) lr) in *. destruct Hn as (? & ? & ?).
    destruct IH as (m & t' & E & Hn'); [done|by unfold L; eauto 10|].
    change (unlink_leftmost (Item d h L r)) with ('(m, l) ← unlink_leftmost L; Some (m, Item d h l r)).
    rewrite E. do 2 eexists. split; [done|]. nonneg.
Qed.

Lemma splice_spec p child :
  nonneg child -> nonneg_path p ->
  exists root, splice p child = Some root /\ nonneg root /\
    inorder root = before p ++ inorder child ++ after p.
Proof.
  intros Hc Hp. unfold splice. destruct (parent _) as [c|] eqn:E.
  - assert (Hn : nonneg_at c).
    { unfold parent in E. destruct p as [|[] p]; [done|..]; injection E as <-; nonneg. }
    destruct (balance_tree_total c Hn) as (c' & Hb & Hn'). rewrite Hb. obind.
    eexists; split_and!; [done|apply nonneg_plug; apply Hn'|].
    rewrite plug_contents. apply balance_tree_contents in Hb. apply parent_contents in E.
    unfold contents in *. cbn in E. rewrite before_relink, after_relink in E. congruence.
  - destruct p as [|[]]; [|done..]. exists child. cbn. by rewrite app_nil_r.
Qed.

Lemma replacement_spec d h l r :
  nonneg (Item d h l r) -> l <> Leaf -> r <> Leaf ->
  exists m, replacement (Item d h l r) = Some m /\ nonneg m /\ inorder m = inorder l ++ inorder r.
Proof.
  intros Hn Hl Hr. cbn [replacement]. destruct (0 <? _).
  - destruct l as [|dl hl ll lr]; [done|]. destruct lr as [|a b c e].
    + eexists; split_and!; [done|nonneg|]. cbn. assoc.
    + destruct (unlink_rightmost_total (Item dl hl ll (Item a b c e))) as (m & t & E & Hn');
        [apply Hn|by eauto 10|].
      rewrite E. destruct (unlink_rightmost_spec _ _ _ E) as (d1 & h1 & l1 & -> & Hi).
      eexists; split_and!; [done|nonneg|]. rewrite Hi. cbn. assoc.
  - destruct r as [|dr hr rl rr]; [done|]. destruct rl as [|a b c e].
    + eexists; split_and!; [done|nonneg|]. cbn. assoc.
    + destruct (unlink_leftmost_total (Item dr hr (Item a b c e) rr)) as (m & t & E & Hn');
        [apply Hn|by eauto 10|].
      rewrite E. destruct (unlink_leftmost_spec _ _ _ E) as (d1 & h1 & r1 & -> & Hi).
      eexists; split_and!; [done|nonneg|]. rewrite Hi. cbn. assoc.
Qed.

(** Deleting an item succeeds and removes that item only. *)
Lemma delete_item_spec d h l r p :
  nonneg_at (Cursor (Item d h l r) p) ->
  exists root, delete_item (Cursor (Item d h l r) p) = Some root /\ nonneg root /\
    inorder root = before p ++ inorder l ++ inorder r ++ after p.
Proof.
  intros [(Hh & Hl & Hr) Hp]. cbn [sub path] in *. unfold delete_item. cbn [sub path].
  destruct l as [|dl hl ll lr], r as [|dr hr rl rr].
  - destruct (splice_spec p Leaf) as (root & E & ? & ?); [done..|]. eauto.
  - destruct (splice_spec p (Item dr hr rl rr)) as (root & E & ? & ?); [done..|]. eauto.
  - destruct (splice_spec p (Item dl hl ll lr)) as (root & E & ? & ?); [done..|]. eauto.
  - destruct (replacement_spec d h (Item dl hl ll lr) (Item dr hr rl rr)) as (m & E & Hm & Hi);
      [nonneg|done..|]. rewrite E. obind.
    destruct (balance_tree_total (Cursor m (relink p m))) as (c & Hb & Hn); [nonneg|].
    rewrite Hb. obind. eexists; split_and!; [done|apply nonneg_plug; apply Hn|].
    rewrite plug_contents. apply balance_tree_contents in Hb. unfold contents in Hb. rewrite Hb. cbn [sub path].
    rewrite before_relink, after_relink, Hi. assoc.
Qed.

(** ** Balance *)

(** Exact heights that differ by one at most. *)
Fixpoint avl (t : item) : Prop :=
  match t with
  | Leaf => True
  | Item _ h l r =>
      avl l /\ avl r /\ h = 1 + Z.max (ht l) (ht r) /\ -1 <= ht l - ht r <= 1
  end.

(** A path that would be balanced with a subtree of height [h] below it. *)
Fixpoint balanced_path (p : list (frame D)) (h : Z) : Prop :=
  match p with
  | [] => True
  | (LeftOf _ _ t | RightOf _ _ t) :: p =>
      avl t /\ -1 <= h - ht t <= 1 /\ balanced_path p (1 + Z.max h (ht t))
  end.

(** The same with exact stored heights. *)
Fixpoint avl_path (p : list (frame D)) (h : Z) : Prop :=
  match p with
  | [] => True
  | (LeftOf _ hp t | RightOf _ hp t) :: p =>
      avl t /\ -1 <= h - ht t <= 1 /\ hp = 1 + Z.max h (ht t) /\ avl_path p hp
  end.

Lemma avl_ht t : avl t -> -1 <= ht t.
Proof. induction t; cbn; intuition lia. Qed.

Lemma avl_nonneg t : avl t -> nonneg t.
Proof.
  induction t as [|d h l IHl r IHr]; cbn; [done|]. intros (Hl & Hr & -> & _).
  pose proof (avl_ht l Hl). pose proof (avl_ht r Hr). intuition lia.
Qed.

Lemma balanced_relink p t h : balanced_path (relink p t) h <-> balanced_path p h.
Proof. by destruct p as [|[]]. Qed.

Lemma avl_path_balanced p h : avl_path p h -> balanced_path p h.
Proof.
  revert h. induction p as [|[] p IH]; intros h'; cbn; [done|..]; intros (? & ? & -> & ?); auto.
Qed.

Lemma avl_plug p t : avl t -> avl_path p (ht t) -> avl (plug p t).
Proof.
  revert t. induction p as [|[d h r|d h l] p IH]; intros t Ht; cbn; [done|..];
    intros (Hr & Hd & -> & Hp); apply IH; cbn; try done; split_and!; try done; lia.
Qed.

(** Heights of items whose children changed, inner ones first. *)
Ltac heights :=
  repeat match goal with
  | |- context [children_height ?l ?r] =>
      lazymatch l with context [children_height] => fail | _ => idtac end;
      lazymatch r with context [children_height] => fail | _ => idtac end;
      rewrite (children_height_max l r) by (cbn [ht]; lia)
  end; cbn [ht].

Ltac avl_goal :=
  cbn [sub path capwap_hash_set_left_item capwap_hash_set_right_item capwap_hash_update_height plug_frame
       avl ht];
  split_and!; try assumption; heights; lia.

(** Balancing an item whose children are balanced and differ by two: it moves
    down under the root of a balanced subtree, at most one lower. *)
Lemma balance_tree_avl d h l r p :
  avl l -> avl r -> -2 <= ht l - ht r <= 2 -> ~ (-1 <= ht l - ht r <= 1) ->
  exists c t', capwap_hash_balance_tree (Cursor (Item d h l r) p) = Some c /\
    parent c = Some (Cursor t' (relink p t')) /\ avl t' /\
    Z.max (ht l) (ht r) <= ht t' <= 1 + Z.max (ht l) (ht r).
Proof.
  intros Hl Hr Hd Hn. unfold capwap_hash_balance_tree. cbn [sub path]. rewrite balance_diff.
  pose proof (avl_ht l Hl). pose proof (avl_ht r Hr).
  destruct (1 <? ht l - ht r) eqn:E1; bools.
  - destruct (ht_item l (avl_nonneg l Hl)) as (dl & hl & ll & lr & ->); [lia|].
    destruct Hl as (Hll & Hlr & -> & Hdl). cbn [ht] in *.
    pose proof (avl_ht ll Hll). pose proof (avl_ht lr Hlr).
    obind. cbn [left_child sub path]. rewrite balance_diff.
    destruct (ht ll - ht lr <? 0) eqn:E2; bools.
    + destruct (ht_item lr (avl_nonneg lr Hlr)) as (dm & hm & ml & mr & ->); [lia|].
      destruct Hlr as (Hml & Hmr & -> & Hdm). pose proof (avl_ht ml Hml). pose proof (avl_ht mr Hmr).
      cbn [ht] in *. do 2 eexists. split; [done|]. split; [done|]. split; avl_goal.
    + do 2 eexists. split; [done|]. split; [done|]. split; avl_goal.
  - rewrite (proj2 (Z.ltb_lt _ _)) by lia.
    destruct (ht_item r (avl_nonneg r Hr)) as (dr & hr & rl & rr & ->); [lia|].
    destruct Hr as (Hrl & Hrr & -> & Hdr). cbn [ht] in *.
    pose proof (avl_ht rl Hrl). pose proof (avl_ht rr Hrr).
    obind. cbn [right_child sub path]. rewrite balance_diff.
    destruct (0 <? ht rl - ht rr) eqn:E2; bools.
    + destruct (ht_item rl (avl_nonneg rl Hrl)) as (dm & hm & ml & mr & ->); [lia|].
      destruct Hrl as (Hml & Hmr & -> & Hdm). pose proof (avl_ht ml Hml). pose proof (avl_ht mr Hmr).
      cbn [ht] in *. do 2 eexists. split; [done|]. split; [done|]. split; avl_goal.
    + do 2 eexists. split; [done|]. split; [done|]. split; avl_goal.
Qed.

Lemma balance_tree_rest d h l r p :
  -1 <= ht l - ht r <= 1 ->
  capwap_hash_balance_tree (Cursor (Item d h l r) p) = Some (Cursor (Item d h l r) p).
Proof.
  intros Hd. unfold capwap_hash_balance_tree. cbn [sub]. rewrite balance_diff. by repeat decide_if.
Qed.

(** The loop above a balanced subtree, and above an item to be balanced; [ho]
    is the height of the subtree before it grew.  Two turns for each level are
    enough. *)
Definition rebalances (p : list (frame D)) : Prop :=
  forall d h l r ho fuel,
  avl l -> avl r -> -2 <= ht l - ht r <= 2 -> balanced_path p ho ->
  ho <= 1 + Z.max (ht l) (ht r) <= ho + 1 ->
  (~ (-1 <= ht l - ht r <= 1) -> 1 + Z.max (ht l) (ht r) = ho + 1) ->
  (2 * S (length p) <= fuel)%nat ->
  exists root, rebalance fuel (Cursor (Item d h l r) p) = Some root /\ avl root.

Lemma rebalance_avl_step p t ho fuel :
  match p with [] => True | _ :: p => rebalances p end ->
  avl t -> t <> Leaf -> balanced_path p ho -> ho <= ht t <= ho + 1 ->
  (2 * length p + 1 <= fuel)%nat ->
  exists root, rebalance fuel (Cursor t p) = Some root /\ avl root.
Proof.
  intros IH Ht Hne Hp Hh Hf. destruct fuel as [|fuel]; [lia|].
  destruct t as [|d h l r]; [done|]. pose proof Ht as (Hl & Hr & Eh & Hd).
  pose proof (avl_ht l Hl). pose proof (avl_ht r Hr).
  cbn [rebalance sub path capwap_hash_update_height]. rewrite children_height_max, <- Eh by done.
  rewrite balance_tree_rest by done. obind. cbn [parent path sub].
  destruct p as [|[d' h' t'|d' h' t'] p]; [by exists (Item d h l r)|..];
    cbn [parent path sub plug_frame]; destruct Hp as (Ht' & Hd' & Hp); cbn [ht] in Hh;
    (eapply IH; [eassumption..|cbn [ht]; lia|exact Hp|cbn [ht]; lia|cbn [ht]; lia|cbn in Hf; lia]).
Qed.

Lemma rebalance_avl_level p : match p with [] => True | _ :: p => rebalances p end -> rebalances p.
Proof.
  intros IH d h l r ho fuel Hl Hr Hd Hp Hh Hg Hf.
  pose proof (avl_ht l Hl). pose proof (avl_ht r Hr). destruct fuel as [|fuel]; [lia|].
  destruct (decide (-1 <= ht l - ht r <= 1)) as [Hb|Hb].
  - destruct (rebalance_avl_step p (Item d (1 + Z.max (ht l) (ht r)) l r) ho (S fuel) IH)
      as (root & E & Ha); [done..|lia|by exists root].
  - cbn [rebalance sub path capwap_hash_update_height].
    destruct (balance_tree_avl d (children_height l r) l r p Hl Hr Hd Hb) as (c & t' & -> & E & Ht' & Hh').
    obind. rewrite E. apply (rebalance_avl_step _ _ ho); [|done|..].
    + by destruct p as [|[]].
    + intros ->. cbn in Hh'. lia.
    + by apply balanced_relink.
    + specialize (Hg Hb). lia.
    + rewrite length_relink. lia.
Qed.

Lemma rebalance_avl p : rebalances p.
Proof. induction p; by apply rebalance_avl_level. Qed.

End Order.

(** ** Sorted sequences *)

(** What a comparison callback promises. *)
Class CmpLaws (K : Type) (cmp : K -> K -> Z) := {
  cmp_eq a b : cmp a b = 0 <-> a = b;
  cmp_antisym a b : cmp a b < 0 <-> 0 < cmp b a;
  cmp_trans a b c : cmp a b < 0 -> cmp b c < 0 -> cmp a c < 0
}.

Section Sorted.
Context {D K : Type} `{HashOps D K} `{!CmpLaws K item_cmp}.
Abbreviation item := (capwap_hash_item D).

Definition before_key (a b : D) : Prop := item_cmp (item_getkey a) (item_getkey b) < 0.

Definition sorted (ds : list D) : Prop := StronglySorted before_key ds.

(** Insertion into a sorted sequence; an item with the same key is replaced. *)
Fixpoint seq_add (data : D) (ds : list D) : list D :=
  match ds with
  | [] => [data]
  | d :: ds =>
      let result := item_cmp (item_getkey data) (item_getkey d) in
      if result =? 0 then data :: ds
      else if result <? 0 then data :: d :: ds
      else d :: seq_add data ds
  end.

Definition seq_find (key : K) (ds : list D) : option D :=
  List.find (fun d => item_cmp key (item_getkey d) =? 0) ds.

Lemma cmp_refl k : item_cmp k k = 0.
Proof. by apply cmp_eq. Qed.

Lemma sorted_app a b :
  sorted (a ++ b) <-> sorted a /\ sorted b /\ Forall (fun x => Forall (before_key x) b) a.
Proof.
  unfold sorted. induction a as [|x a IH]; cbn.
  - split; [intros; split_and!; try done; constructor|by intros (? & ? & ?)].
  - split.
    + intros Hs. inversion Hs as [|? ? Hs' Hf]; subst. apply IH in Hs' as (? & ? & ?).
      apply Forall_app in Hf as [? ?]. split_and!; try done; by constructor.
    + intros (Ha & Hb & Hf). inversion Ha; inversion Hf; subst. constructor.
      * apply IH. done.
      * by apply Forall_app.
Qed.

(** A key that follows every item of [a]. *)
Lemma seq_add_after data a b :
  Forall (fun x => item_cmp (item_getkey x) (item_getkey data) < 0) a ->
  seq_add data (a ++ b) = a ++ seq_add data b.
Proof.
  induction 1 as [|x a Hx _ IH]; [done|]. cbn. apply cmp_antisym in Hx. repeat decide_if. by rewrite IH.
Qed.

Lemma seq_add_before data a d b :
  item_cmp (item_getkey data) (item_getkey d) < 0 ->
  seq_add data (a ++ d :: b) = seq_add data a ++ d :: b.
Proof.
  intros Hd. induction a as [|x a IH]; cbn.
  - by repeat decide_if.
  - repeat case_match; cbn; [done..|]. by rewrite IH.
Qed.

(** The position found in a sorted bucket is the place in the sequence. *)
Lemma add_position_contents data t p :
  sorted (inorder t) ->
  let c := match add_position (item_getkey data) data t p with inl c | inr c => c end in
  contents c = before p ++ seq_add data (inorder t) ++ after p.
Proof.
  revert p. induction t as [|d h l IHl r IHr]; intros p Hs; cbn [add_position inorder].
  - unfold contents. cbn. by rewrite before_relink, after_relink.
  - apply sorted_app in Hs as (Hl & Hr & Hlr). inversion Hr as [|? ? Hr' Hdr]; subst.
    destruct (Z.eqb_spec (item_cmp (item_getkey data) (item_getkey d)) 0) as [E|E].
    + apply cmp_eq in E. unfold contents. cbn. rewrite seq_add_after.
      * cbn. rewrite E, cmp_refl. cbn. done.
      * eapply Forall_impl; [exact Hlr|]. cbn. intros x Hx. inversion Hx; subst.
        unfold before_key in *. by rewrite E.
    + destruct (Z.ltb_spec (item_cmp (item_getkey data) (item_getkey d)) 0) as [El|El].
      * rewrite IHl by done. cbn. rewrite seq_add_before by done. assoc.
      * rewrite IHr by done. cbn. rewrite seq_add_after.
        -- cbn. repeat decide_if. assoc.
        -- assert (Hd : item_cmp (item_getkey d) (item_getkey data) < 0) by (apply cmp_antisym; lia).
           eapply Forall_impl; [exact Hlr|]. cbn. intros x Hx. inversion Hx; subst.
           eapply cmp_trans; [|exact Hd]. done.
Qed.

(** The position found in a balanced bucket. *)
Lemma add_position_avl data t p :
  avl t -> avl_path p (ht t) ->
  match add_position (item_getkey data) data t p with
  | inl c => avl (plug (path c) (sub c))
  | inr c => sub c = Item data 0 Leaf Leaf /\ balanced_path (path c) (-1) /\
             (length (path c) <= length p + length (inorder t))%nat
  end.
Proof.
  revert p. induction t as [|d h l IHl r IHr]; intros p Ht Hp; cbn [add_position].
  - cbn. split_and!; [done| |rewrite length_relink; lia].
    by apply balanced_relink, avl_path_balanced.
  - pose proof Ht as (Hl & Hr & Eh & Hd). destruct (_ =? 0); [by apply avl_plug|].
    destruct (_ <? 0).
    + specialize (IHl (LeftOf d h r :: p) Hl). destruct (add_position _ _ _ _) as [c|c].
      * apply IHl. done.
      * destruct IHl as (? & ? & Hlen); [done|]. split_and!; try done. cbn in *. rewrite length_app. cbn. lia.
    + specialize (IHr (RightOf d h l :: p) Hr). destruct (add_position _ _ _ _) as [c|c].
      * apply IHr. cbn in *. split_and!; try done; lia.
      * destruct IHr as (? & ? & Hlen); [cbn in *; split_and!; try done; lia|].
        split_and!; try done. cbn in *. rewrite length_app. cbn. lia.
Qed.

Lemma add_position_length data t p :
  match add_position (item_getkey data) data t p with
  | inl c => length (contents c) = (length (before p) + length (inorder t) + length (after p))%nat
  | inr c => length (contents c) = S (length (before p) + length (inorder t) + length (after p))
  end.
Proof.
  revert p. induction t as [|d h l IHl r IHr]; intros p; cbn [add_position].
  - unfold contents. cbn. rewrite before_relink, after_relink, !length_app. cbn. lia.
  - destruct (_ =? 0).
    + unfold contents. cbn. rewrite !length_app. cbn. rewrite ?length_app. cbn. lia.
    + destruct (_ <? 0).
      * specialize (IHl (LeftOf d h r :: p)). destruct (add_position _ _ _ _) as [c|c];
          rewrite IHl; cbn; rewrite !length_app; cbn; lia.
      * specialize (IHr (RightOf d h l :: p)). destruct (add_position _ _ _ _) as [c|c];
          rewrite IHr; cbn; rewrite !length_app; cbn; lia.
Qed.

Definition bucket_ok (t : item) : Prop := avl t /\ sorted (inorder t).

Lemma sorted_seq_add data ds : sorted ds -> sorted (seq_add data ds).
Proof.
  induction 1 as [|d ds Hs IH Hd]; cbn.
  - by repeat constructor.
  - destruct (Z.eqb_spec (item_cmp (item_getkey data) (item_getkey d)) 0) as [E|E].
    + apply cmp_eq in E. constructor; [done|]. eapply Forall_impl; [exact Hd|].
      unfold before_key. by rewrite E.
    + destruct (Z.ltb_spec (item_cmp (item_getkey data) (item_getkey d)) 0) as [El|El].
      * constructor; [by constructor|]. constructor; [done|]. eapply Forall_impl; [exact Hd|].
        cbn. intros x Hx. by eapply cmp_trans.
      * constructor; [done|]. assert (Hlt : before_key d data) by (apply cmp_antisym; lia).
        clear -Hd Hlt. induction Hd as [|x ds Hx Hd IH]; cbn; [by constructor|].
        repeat case_match; by repeat constructor.
Qed.

Lemma seq_find_add key data ds :
  sorted ds ->
  seq_find key (seq_add data ds) =
  if item_cmp key (item_getkey data) =? 0 then Some data else seq_find key ds.
Proof.
  intros Hs. unfold seq_find. induction Hs as [|d ds Hs IH Hd]; cbn; [done|].
  destruct (Z.eqb_spec (item_cmp (item_getkey data) (item_getkey d)) 0) as [E|E].
  - apply cmp_eq in E. cbn. rewrite E. by destruct (item_cmp key (item_getkey d) =? 0) eqn:Ek; rewrite ?Ek.
  - destruct (Z.ltb_spec (item_cmp (item_getkey data) (item_getkey d)) 0) as [El|El]; cbn; [done|].
    rewrite IH. destruct (Z.eqb_spec (item_cmp key (item_getkey data)) 0) as [Ek|Ek]; [|done].
    apply cmp_eq in Ek as ->. by rewrite (proj2 (Z.eqb_neq _ _) E).
Qed.

(** Adding to a bucket is adding to its sequence, and the bucket stays
    balanced. *)
Lemma add_item_spec fuel data root :
  bucket_ok root -> (2 * S (length (inorder root)) <= fuel)%nat ->
  exists root' n, add_item fuel data root = Some (root', n) /\ bucket_ok root' /\
    inorder root' = seq_add data (inorder root) /\
    zlen (inorder root') = zlen (inorder root) + n.
Proof.
  intros [Ha Hs] Hf. unfold add_item. destruct root as [|d h l r].
  - do 2 eexists. split_and!; try done. by repeat constructor.
  - set (root := Item d h l r) in *.
    pose proof (add_position_contents data root [] Hs) as Hc.
    pose proof (add_position_avl data root [] Ha I) as Hv.
    pose proof (add_position_length data root []) as Hn.
    destruct (add_position _ _ _ _) as [c|c]; cbn [before after app] in Hc; rewrite app_nil_r in Hc.
    + do 2 eexists. assert (E : inorder (plug (path c) (sub c)) = contents c) by apply plug_contents.
      split; [done|]. unfold bucket_ok. rewrite E, Hc.
      split_and!; try done; [by apply sorted_seq_add|]. rewrite <- Hc, Hn. cbn. lia.
    + destruct c as [t p]. cbn [sub path] in Hv. destruct Hv as (-> & Hp & Hl).
      destruct (rebalance_avl p data 0 Leaf Leaf (-1) fuel) as (root' & E & Ha');
        [done|done|cbn; lia|done|cbn; lia|cbn; lia|cbn [path length Nat.add] in *; lia|].
      rewrite E. obind. apply rebalance_contents in E. do 2 eexists.
      split; [done|]. unfold bucket_ok. rewrite E, Hc.
      split_and!; try done; [by apply sorted_seq_add|]. rewrite <- Hc, Hn. cbn. lia.
Qed.

(** ** Searching *)

(** The search ends when the root or a child of the root has the key, when the
    child on the side of the key is missing, or when the key lies between that
    child and the root and the other child is missing. *)
Definition search_ends (key : K) (root : item) : bool :=
  match root with
  | Leaf => true
  | Item d _ l r =>
      let result := item_cmp key (item_getkey d) in
      if result =? 0 then true
      else if result <? 0 then
        match l, r with
        | Leaf, _ => true
        | Item dl _ _ _, Leaf => 0 <=? item_cmp key (item_getkey dl)
        | Item dl _ _ _, Item _ _ _ _ => item_cmp key (item_getkey dl) =? 0
        end
      else
        match r, l with
        | Leaf, _ => true
        | Item dr _ _ _, Leaf => item_cmp key (item_getkey dr) <=? 0
        | Item dr _ _ _, Item _ _ _ _ => item_cmp key (item_getkey dr) =? 0
        end
  end.

Lemma avl_leaf (t : item) : avl t -> ht t <= -1 -> t = Leaf.
Proof.
  destruct t as [|d h l r]; [done|]. intros (Hl & Hr & -> & _). cbn.
  pose proof (avl_ht l Hl). pose proof (avl_ht r Hr). lia.
Qed.

Lemma avl_single (d : D) h l r : avl (Item d h l r) -> h <= 0 -> l = Leaf /\ r = Leaf.
Proof.
  intros (Hl & Hr & -> & _) Hh. pose proof (avl_ht l Hl). pose proof (avl_ht r Hr).
  split; apply avl_leaf; try done; lia.
Qed.

Lemma seq_find_app key a b :
  seq_find key (a ++ b) = match seq_find key a with Some d => Some d | None => seq_find key b end.
Proof. unfold seq_find. induction a as [|x a IH]; cbn; [done|]. by destruct (item_cmp key (item_getkey x) =? 0). Qed.

Lemma seq_find_none key ds :
  Forall (fun d => item_cmp key (item_getkey d) <> 0) ds -> seq_find key ds = None.
Proof. unfold seq_find. induction 1; cbn; [done|]. by rewrite (proj2 (Z.eqb_neq _ _)). Qed.

(** The two halves of a sorted bucket. *)
Lemma seq_find_left key d a b :
  sorted (a ++ d :: b) -> item_cmp key (item_getkey d) < 0 ->
  seq_find key (a ++ d :: b) = seq_find key a.
Proof.
  intros Hs Hk. apply sorted_app in Hs as (_ & Hs & _). inversion Hs as [|? ? _ Hd]; subst.
  rewrite seq_find_app. rewrite (seq_find_none key (d :: b)); [by destruct (seq_find key a)|].
  constructor; [lia|]. eapply Forall_impl; [exact Hd|]. cbn. intros x Hx.
  pose proof (cmp_trans _ _ _ Hk Hx). lia.
Qed.

Lemma seq_find_right key d a b :
  sorted (a ++ d :: b) -> 0 < item_cmp key (item_getkey d) ->
  seq_find key (a ++ d :: b) = seq_find key b.
Proof.
  intros Hs Hk. apply sorted_app in Hs as (_ & _ & Ha). apply cmp_antisym in Hk as Hk'.
  rewrite seq_find_app, seq_find_none.
  - unfold seq_find. cbn. by decide_if.
  - eapply Forall_impl; [exact Ha|]. cbn. intros x Hx. inversion Hx; subst.
    assert (Hlt : item_cmp (item_getkey x) key < 0) by by eapply cmp_trans.
    apply cmp_antisym in Hlt. lia.
Qed.

Lemma seq_find_mid key d a b :
  sorted (a ++ d :: b) -> item_cmp key (item_getkey d) = 0 -> seq_find key (a ++ d :: b) = Some d.
Proof.
  intros Hs Hk. apply cmp_eq in Hk as ->. apply sorted_app in Hs as (_ & _ & Ha).
  rewrite seq_find_app, seq_find_none.
  - unfold seq_find. cbn. by rewrite cmp_refl.
  - eapply Forall_impl; [exact Ha|]. cbn. intros x Hx. inversion Hx as [|? ? Hlt]; subst.
    apply cmp_antisym in Hlt. lia.
Qed.

(** A cursor at an item with the key. *)
Definition found (key : K) (root : item) (c : cursor D) : Prop :=
  exists d h l r, sub c = Item d h l r /\ plug (path c) (sub c) = root /\
    item_cmp key (item_getkey d) = 0.

Definition search_result (key : K) (root : item) (res : option (cursor D)) : Prop :=
  match res with
  | Some c => found key root c
  | None => seq_find key (inorder root) = None
  end.

Lemma search_items_left key d h dl hl ll lr r fuel :
  let root := Item d h (Item dl hl ll lr) r in
  bucket_ok root -> item_cmp key (item_getkey d) < 0 -> search_ends key root = true -> (2 <= fuel)%nat ->
  exists res, search_items fuel (Cursor root []) (Cursor (Item dl hl ll lr) [LeftOf d h r]) key = Some res /\
    search_result key root res.
Proof.
  intros root [Ha Hs] Hk He Hf. destruct fuel as [|[|fuel]]; [lia..|]. cbn [search_items sub].
  destruct (Z.eqb_spec (item_cmp key (item_getkey dl)) 0) as [E|E].
  { eexists; split; [done|]. exists dl, hl, ll, lr. done. }
  unfold search_ends, root in He. rewrite (proj2 (Z.eqb_neq _ _)), (proj2 (Z.ltb_lt _ _)) in He by lia.
  destruct r as [|dr hr rl rr]; bools; [|done].
  repeat decide_if. exists None. split; [done|]. cbn [search_result].
  cbn in Ha. destruct Ha as (Ha & _ & _ & Hd).
  destruct (avl_single dl hl ll lr) as [-> ->]; [done|lia|].
  apply seq_find_none. cbn. repeat constructor; lia.
Qed.

Lemma search_items_right key d h l dr hr rl rr fuel :
  let root := Item d h l (Item dr hr rl rr) in
  bucket_ok root -> 0 < item_cmp key (item_getkey d) -> search_ends key root = true -> (2 <= fuel)%nat ->
  exists res, search_items fuel (Cursor root []) (Cursor (Item dr hr rl rr) [RightOf d h l]) key = Some res /\
    search_result key root res.
Proof.
  intros root [Ha Hs] Hk He Hf. destruct fuel as [|[|fuel]]; [lia..|]. cbn [search_items sub].
  destruct (Z.eqb_spec (item_cmp key (item_getkey dr)) 0) as [E|E].
  { eexists; split; [done|]. exists dr, hr, rl, rr. done. }
  unfold search_ends, root in He. rewrite (proj2 (Z.eqb_neq _ _)), (proj2 (Z.ltb_ge _ _)) in He by lia.
  destruct l as [|dl hl ll lr]; bools; [|done].
  repeat decide_if. exists None. split; [done|]. cbn [search_result].
  cbn in Ha. destruct Ha as (_ & Ha & _ & Hd).
  destruct (avl_single dr hr rl rr) as [-> ->]; [done|lia|].
  apply seq_find_none. cbn. repeat constructor; lia.
Qed.

(** When the search ends, three turns are enough and the result is right. *)
Lemma search_items_spec key root fuel :
  bucket_ok root -> search_ends key root = true -> (3 <= fuel)%nat ->
  exists res, capwap_hash_search_items fuel root key = Some res /\ search_result key root res.
Proof.
  intros Hok He Hf. unfold capwap_hash_search_items. destruct fuel as [|fuel]; [lia|].
  destruct root as [|d h l r]; [by exists None|]. cbn [search_items sub].
  destruct (Z.eqb_spec (item_cmp key (item_getkey d)) 0) as [E|E].
  { eexists; split; [done|]. by exists d, h, l, r. }
  destruct (Z.ltb_spec (item_cmp key (item_getkey d)) 0) as [El|El]; obind.
  - destruct l as [|dl hl ll lr]; [|apply search_items_left; done || lia].
    destruct fuel; [lia|]. exists None. split; [done|]. destruct Hok as [_ Hs]. cbn [search_result inorder].
    by rewrite seq_find_left.
  - destruct r as [|dr hr rl rr]; [|apply search_items_right; done || lia].
    destruct fuel; [lia|]. exists None. split; [done|]. destruct Hok as [_ Hs]. cbn [search_result inorder].
    rewrite seq_find_right; [done..|lia].
Qed.

(** Where a turn goes from [c], when its key is another one. *)
Definition turns_to (key : K) (root c c' : cursor D) : Prop :=
  exists d h l r, sub c = Item d h l r /\ item_cmp key (item_getkey d) <> 0 /\
    (if item_cmp key (item_getkey d) <? 0 then left_child root else right_child root) = Some c'.

(** A set of cursors the search never leaves. *)
Lemma search_items_trap key root (P : cursor D -> Prop) fuel c :
  (forall c, P c -> exists c', turns_to key root c c' /\ P c') ->
  P c -> search_items fuel root c key = None.
Proof.
  intros HP. revert c. induction fuel as [|fuel IH]; intros c Hc; [done|].
  destruct (HP c Hc) as (c' & (d & h & l & r & E & Hne & Hto) & Hc').
  cbn [search_items]. rewrite E, (proj2 (Z.eqb_neq _ _)) by done.
  destruct (_ <? 0); rewrite Hto; obind; by apply IH.
Qed.

(** Otherwise it stays at a child of the root, or goes back and forth between
    the two. *)
Lemma search_items_stuck key root fuel :
  bucket_ok root -> search_ends key root = false -> capwap_hash_search_items fuel root key = None.
Proof.
  intros [_ Hs] He. destruct root as [|d h l r]; [done|].
  cbn [inorder] in Hs. apply sorted_app in Hs as (_ & Hs & Hl). inversion Hs as [|? ? _ Hr]; subst.
  unfold search_ends in He. destruct (Z.eqb_spec (item_cmp key (item_getkey d)) 0) as [E|E]; [done|].
  set (cl := Cursor l [LeftOf d h r]). set (cr := Cursor r [RightOf d h l]).
  set (c0 := Cursor (Item d h l r) []).
  assert (Hturn : forall c e he le re, sub c = Item e he le re -> item_cmp key (item_getkey e) <> 0 ->
    turns_to key c0 c (if item_cmp key (item_getkey e) <? 0 then cl else cr)).
  { intros c e he le re Ec Hne. exists e, he, le, re. split_and!; try done. by destruct (item_cmp key (item_getkey e) <? 0). }
  destruct (Z.ltb_spec (item_cmp key (item_getkey d)) 0) as [El|El].
  - destruct l as [|dl hl ll lr]; [done|].
    apply (search_items_trap key c0 (fun c => c = c0 \/ c = cl \/ (c = cr /\ r <> Leaf))); [|by left].
    assert (Hl0 : item_cmp key (item_getkey dl) <> 0) by (destruct r; bools; lia).
    intros c [->|[->|[-> Hne]]].
    + eexists. split; [by eapply Hturn|]. decide_if. auto.
    + eexists. split; [by eapply Hturn|]. destruct (Z.ltb_spec (item_cmp key (item_getkey dl)) 0); [auto|].
      right; right. split; [done|]. destruct r; bools; [lia|done].
    + destruct r as [|dr hr rl rr]; [done|].
      assert (Hdr : item_cmp key (item_getkey dr) < 0).
      { apply (cmp_trans _ (item_getkey d)); [done|]. rewrite Forall_forall in Hr. apply Hr. cbn.
        apply elem_of_app. right. by left. }
      eexists. split; [eapply Hturn; [done|lia]|]. decide_if. auto.
  - destruct r as [|dr hr rl rr]; [done|].
    apply (search_items_trap key c0 (fun c => c = c0 \/ c = cr \/ (c = cl /\ l <> Leaf))); [|by left].
    assert (Hr0 : item_cmp key (item_getkey dr) <> 0) by (destruct l; bools; lia).
    intros c [->|[->|[-> Hne]]].
    + eexists. split; [by eapply Hturn|]. decide_if. auto.
    + eexists. split; [by eapply Hturn|]. destruct (Z.ltb_spec (item_cmp key (item_getkey dr)) 0); [|auto].
      right; right. split; [done|]. destruct l; bools; [lia|done].
    + destruct l as [|dl hl ll lr]; [done|].
      assert (Hdl : 0 < item_cmp key (item_getkey dl)).
      { apply cmp_antisym, (cmp_trans _ (item_getkey d)); [|apply cmp_antisym; lia].
        rewrite Forall_forall in Hl. specialize (Hl dl). rewrite Forall_forall in Hl. apply Hl; [|by left].
        cbn. apply elem_of_app. right. by left. }
      eexists. split; [eapply Hturn; [done|lia]|]. decide_if. auto.
Qed.

End Sorted.

(** ** Tables as maps *)

(** The callbacks of a table promise a total order on the keys. *)
Class HashLaws (D K : Type) `{HashOps D K} := {
  hash_cmp :: CmpLaws K item_cmp
}.

Section Tables.
Context {D K : Type} `{HashLaws D K} `{Target}.

(** The hash callback stays within a table of size [n], as the code asserts. *)
Definition sized (n : Z) : Prop := 0 < n /\ forall k, 0 <= item_gethash (D:=D) k n < n.

Lemma hash_range (k : K) n : sized n -> 0 <= item_gethash k n < n.
Proof. intros Hs. apply Hs. Qed.

Fixpoint total (l : list (capwap_hash_item D)) : Z :=
  match l with [] => 0 | t :: l => zlen (inorder t) + total l end.

(** Every bucket is a balanced search tree of items with its hash value. *)
Definition hash_inv (hash : capwap_hash D) : Prop :=
  sized (hashsize hash) /\ zlen (items hash) = hashsize hash /\
  count hash = wrap_ulong (total (items hash)) /\
  forall i t, items hash !! i = Some t ->
    bucket_ok t /\ Forall (fun d => item_gethash (item_getkey d) (hashsize hash) = Z.of_nat i) (inorder t).

Definition hash_lookup (hash : capwap_hash D) (key : K) : option D :=
  t ← bucket hash (item_gethash key (hashsize hash)); seq_find key (inorder t).

Lemma hash_bucket hash key :
  hash_inv hash -> exists t, bucket hash (item_gethash key (hashsize hash)) = Some t /\ bucket_ok t.
Proof.
  intros (Hs & Hl & _ & Hb). pose proof (hash_range key _ Hs). unfold bucket.
  destruct (lookup_lt_is_Some_2 (items hash) (Z.to_nat (item_gethash key (hashsize hash)))) as [t E]; [lia|].
  rewrite E. exists t. split; [done|]. by destruct (Hb _ _ E).
Qed.

Lemma total_insert l i (t t' : capwap_hash_item D) :
  l !! i = Some t -> total (<[i := t']> l) = total l - zlen (inorder t) + zlen (inorder t').
Proof.
  revert i. induction l as [|x l IH]; intros i; [done|]. destruct i as [|i].
  - intros [= ->]. cbn. lia.
  - intros E. change (<[S i:=t']> (x :: l)) with (x :: <[i:=t']> l). cbn [total]. rewrite (IH i E). lia.
Qed.

Lemma total_lookup l i (t : capwap_hash_item D) : l !! i = Some t -> zlen (inorder t) <= total l.
Proof.
  assert (Hpos : forall l, 0 <= total l) by (induction l0; cbn; lia).
  revert i. induction l as [|x l IH]; intros i; [done|]. destruct i as [|i]; cbn.
  - intros [= ->]. specialize (Hpos l). lia.
  - intros E. specialize (IH i E). lia.
Qed.

Lemma elem_of_seq_add (data x : D) ds : x ∈ seq_add data ds -> x = data \/ x ∈ ds.
Proof.
  induction ds as [|d ds IH]; cbn.
  - intros Hx%list_elem_of_singleton. by left.
  - repeat case_match; rewrite ?elem_of_cons; naive_solver.
Qed.

Lemma hash_add_spec fuel hash data :
  hash_inv hash -> 2 * (total (items hash) + 1) <= Z.of_nat fuel ->
  exists hash', capwap_hash_add fuel hash data = Some hash' /\ hash_inv hash' /\
    hashsize hash' = hashsize hash /\
    (forall key, hash_lookup hash' key =
       if item_cmp key (item_getkey data) =? 0 then Some data else hash_lookup hash key).
Proof.
  intros Hinv Hf. destruct (hash_bucket hash (item_getkey data) Hinv) as (t & Et & Hok).
  pose proof Hinv as (Hs & Hl & Hc & Hb). set (i := item_gethash (item_getkey data) (hashsize hash)) in *.
  pose proof (hash_range (item_getkey data) _ Hs) as Hi. fold i in Hi.
  unfold capwap_hash_add. fold i. rewrite Et. obind. unfold bucket in Et.
  pose proof (total_lookup _ _ _ Et).
  destruct (add_item_spec fuel data t Hok) as (t' & n & -> & Hok' & Hio & Hn); [lia|]. obind.
  eexists. split; [done|]. unfold set_bucket. split; [|split; [done|]].
  - split_and!; cbn [hashsize items count]; try done.
    + by rewrite length_insert.
    + rewrite (total_insert _ _ t) by done. rewrite Hn, Hc. unfold wrap_ulong.
      rewrite Zplus_mod_idemp_l. f_equal. lia.
    + intros j u Eu. destruct (decide (j = Z.to_nat i)) as [->|Hj].
      * rewrite list_lookup_insert_eq in Eu by (apply lookup_lt_Some in Et; lia). injection Eu as <-.
        split; [done|]. rewrite Hio. apply Forall_forall. intros x Hx.
        apply elem_of_seq_add in Hx as [->|Hx]; [fold i; lia|].
        destruct (Hb _ _ Et) as [_ Hfa]. rewrite Forall_forall in Hfa. by apply Hfa.
      * rewrite list_lookup_insert_ne in Eu by done. by apply Hb.
  - intros key. unfold hash_lookup, bucket. cbn [hashsize items].
    pose proof (hash_range key _ Hs) as Hk.
    destruct (decide (item_gethash key (hashsize hash) = i)) as [Ei|Ei].
    + rewrite Ei, list_lookup_insert_eq by (apply lookup_lt_Some in Et; lia). rewrite Et. obind.
      rewrite Hio. apply seq_find_add, Hok.
    + rewrite list_lookup_insert_ne by lia. rewrite (proj2 (Z.eqb_neq _ _)); [done|].
      intros Hq%cmp_eq. by rewrite Hq in Ei.
Qed.

(** The search of the table in terms of the map it holds. *)
Lemma hash_search_spec fuel hash key :
  hash_inv hash ->
  exists t, bucket hash (item_gethash key (hashsize hash)) = Some t /\
    (search_ends key t = true -> (3 <= fuel)%nat ->
     capwap_hash_search fuel hash key = Some (hash_lookup hash key)) /\
    (search_ends key t = false -> capwap_hash_search fuel hash key = None).
Proof.
  intros Hinv. destruct (hash_bucket hash key Hinv) as (t & Et & Hok).
  exists t. split; [done|]. unfold capwap_hash_search, hash_lookup. rewrite Et. obind.
  destruct t as [|d h l r]; [done|]. split.
  - intros He Hf. destruct (search_items_spec key _ fuel Hok He Hf) as (res & -> & Hres). f_equal.
    destruct res as [c|]; [|done]. destruct Hres as (d' & h' & l' & r' & E & Hp & Hk). rewrite E.
    rewrite <- Hp, plug_contents, E. cbn [inorder].
    destruct Hok as [_ Hs]. rewrite <- Hp, plug_contents, E in Hs. cbn [inorder] in Hs.
    replace (before (path c) ++ (inorder l' ++ d' :: inorder r') ++ after (path c))
      with ((before (path c) ++ inorder l') ++ d' :: (inorder r' ++ after (path c))) in * by assoc.
    symmetry. by apply seq_find_mid.
  - intros He. by rewrite search_items_stuck.
Qed.

Lemma hash_create_inv size :
  sized size -> hash_inv (capwap_hash_create (D:=D) size) /\
  forall key, hash_lookup (capwap_hash_create (D:=D) size) key = None.
Proof.
  intros Hs. split.
  - split_and!; cbn; try done.
    + rewrite length_replicate. destruct Hs. lia.
    + induction (Z.to_nat size); cbn; [|done]. by rewrite wrap_ulong_small.
    + intros i t [-> _]%lookup_replicate. split; [|done]. by split; [|constructor].
  - intros key. unfold hash_lookup, bucket. cbn. destruct (_ !! _) as [t|] eqn:E; [|done].
    apply lookup_replicate in E as [-> _]. done.
Qed.

End Tables.
