(* ===== verification/CapwapHashDelete.v ===== *)
(** Deleting from a table (src/common/capwap_hash.c): deletion keeps the
    buckets sorted, but not balanced, so it works with a weaker invariant; and
    walking a table with a callback that marks items for deletion.  Then tables of
    items told by their keys, for a key that is alone in its bucket: the case in
    which every operation of the table ends and keeps the buckets balanced (see
    [CapwapHashSpec.search_ends]).  The clients of the tables, the timers and the
    stations, rely on this interface. *)
From Stdlib Require Import Sorting.Sorted.
From stdpp Require Import option sets.
From S2P Require Import Prelude CapwapHash CapwapHashSpec.
#[local] Open Scope Z_scope.

Section Delete.
Context {D K : Type} `{HashLaws D K} `{Target}.

(** Sorted buckets without negative heights. *)
Definition bucket_sorted (t : capwap_hash_item D) : Prop := nonneg t /\ sorted (inorder t).

Definition hash_sorted (hash : capwap_hash D) : Prop :=
  sized (hashsize hash) /\ zlen (items hash) = hashsize hash /\
  count hash = wrap_ulong (total (items hash)) /\
  forall i t, items hash !! i = Some t ->
    bucket_sorted t /\
    Forall (fun d => item_gethash (item_getkey d) (hashsize hash) = Z.of_nat i) (inorder t).

Lemma hash_inv_sorted hash : hash_inv hash -> hash_sorted hash.
Proof.
  intros (Hs & Hl & Hc & Hb). split_and!; try done. intros i t E. destruct (Hb i t E) as [[Ha Ho] Hf].
  split; [|done]. split; [|done]. by apply avl_nonneg.
Qed.

(** Removal from a sorted sequence. *)
Definition seq_delete (key : K) (ds : list D) : list D :=
  List.filter (fun d => negb (item_cmp key (item_getkey d) =? 0)) ds.

Lemma seq_delete_none key (ds : list D) :
  Forall (fun d => item_cmp key (item_getkey d) <> 0) ds -> seq_delete key ds = ds.
Proof.
  unfold seq_delete. induction 1; cbn; [done|]. rewrite (proj2 (Z.eqb_neq _ _)) by done. cbn. by f_equal.
Qed.

(** The neighbours of an item in a sorted sequence have other keys. *)
Lemma sorted_others (d : D) a b :
  sorted (a ++ d :: b) ->
  Forall (fun x => item_cmp (item_getkey d) (item_getkey x) <> 0) a /\
  Forall (fun x => item_cmp (item_getkey d) (item_getkey x) <> 0) b.
Proof.
  intros (_ & Hs & Ha)%sorted_app. inversion Hs as [|? ? _ Hd]; subst. split.
  - eapply Forall_impl; [exact Ha|]. cbn. intros x Hx. inversion Hx as [|? ? Hlt]; subst.
    apply cmp_antisym in Hlt. lia.
  - eapply Forall_impl; [exact Hd|]. unfold before_key. cbn. lia.
Qed.

Lemma seq_delete_mid key (d : D) a b :
  sorted (a ++ d :: b) -> item_cmp key (item_getkey d) = 0 -> seq_delete key (a ++ d :: b) = a ++ b.
Proof.
  intros Hs ->%cmp_eq. destruct (sorted_others d a b Hs) as [Ha Hb].
  unfold seq_delete. rewrite List.filter_app. cbn. rewrite cmp_refl. cbn.
  f_equal; by apply seq_delete_none.
Qed.

Lemma sorted_delete key ds : sorted ds -> sorted (seq_delete key ds).
Proof.
  induction 1 as [|d ds Hs IH Hd]; [constructor|]. unfold seq_delete. cbn.
  destruct (negb _); [|done]. constructor; [done|]. apply Forall_forall. intros x Hx.
  rewrite Forall_forall in Hd. apply Hd. apply list_elem_of_In, List.filter_In in Hx as [Hx _].
  by apply list_elem_of_In.
Qed.

Lemma seq_find_delete k key ds :
  seq_find k (seq_delete key ds) = if item_cmp k key =? 0 then None else seq_find k ds.
Proof.
  unfold seq_find, seq_delete. induction ds as [|d ds IH]; cbn; [by destruct (_ =? 0)|].
  destruct (Z.eqb_spec (item_cmp key (item_getkey d)) 0) as [E|E]; cbn; rewrite IH.
  - apply cmp_eq in E as ->. by destruct (Z.eqb_spec (item_cmp k (item_getkey d)) 0).
  - destruct (Z.eqb_spec (item_cmp k (item_getkey d)) 0) as [Ek|Ek]; [|done].
    apply cmp_eq in Ek as ->. rewrite (proj2 (Z.eqb_neq _ _)); [done|].
    intros Hq%cmp_eq. apply E. by apply cmp_eq.
Qed.

(** ** Finding the item *)

Lemma locate_plug (t : capwap_hash_item D) p key c :
  locate t p key = Some c ->
  plug (path c) (sub c) = plug p t /\
  exists d h l r, sub c = Item d h l r /\ item_cmp key (item_getkey d) = 0.
Proof.
  revert p. induction t as [|d h l IHl r IHr]; intros p; cbn [locate]; [done|].
  destruct (Z.eqb_spec (item_cmp key (item_getkey d)) 0).
  - intros [= <-]. split; [done|]. cbn. eauto 10.
  - destruct (locate l _ key) as [c'|] eqn:E.
    + intros [= <-]. by destruct (IHl _ E).
    + intros Er. by destruct (IHr _ Er).
Qed.

Lemma locate_find (t : capwap_hash_item D) p key :
  locate t p key = None -> seq_find key (inorder t) = None.
Proof.
  revert p. induction t as [|d h l IHl r IHr]; intros p; cbn [locate inorder]; [done|].
  destruct (Z.eqb_spec (item_cmp key (item_getkey d)) 0) as [E|E]; [done|].
  destruct (locate l _ key) eqn:El; [done|]. intros Er.
  rewrite seq_find_app, (IHl _ El). unfold seq_find. cbn. rewrite (proj2 (Z.eqb_neq _ _)) by done.
  by apply (IHr _ Er).
Qed.

Lemma nonneg_unplug p (t : capwap_hash_item D) : nonneg (plug p t) -> nonneg_at (Cursor t p).
Proof.
  revert t. induction p as [|[d h r|d h l] p IH]; intros t Hn; [done|..];
    destruct (IH _ Hn) as [Ht Hp]; cbn in Ht |- *; split; cbn; tauto.
Qed.

(** Deleting at a cursor deletes the key from the sequence of the bucket. *)
Lemma delete_at_spec root key c :
  bucket_sorted root -> plug (path c) (sub c) = root ->
  (exists d h l r, sub c = Item d h l r /\ item_cmp key (item_getkey d) = 0) ->
  exists root', delete_item c = Some root' /\ bucket_sorted root' /\
    inorder root' = seq_delete key (inorder root) /\
    zlen (inorder root') = zlen (inorder root) - 1.
Proof.
  intros [Hn Hs] <- (d & h & l & r & E & Hk). destruct c as [t p]. cbn [sub path] in *. subst t.
  destruct (delete_item_spec d h l r p) as (root' & -> & Hn' & Hi); [by apply nonneg_unplug|].
  exists root'. split; [done|].
  assert (Hd : inorder root' = seq_delete key (inorder (plug p (Item d h l r)))).
  { rewrite Hi. rewrite plug_contents in *. cbn [inorder] in *.
    replace (before p ++ (inorder l ++ d :: inorder r) ++ after p)
      with ((before p ++ inorder l) ++ d :: (inorder r ++ after p)) in * by assoc.
    rewrite seq_delete_mid by done. assoc. }
  split; [|split; [done|]].
  - split; [done|]. rewrite Hd. by apply sorted_delete.
  - rewrite Hi, plug_contents. cbn. rewrite !length_app. cbn. lia.
Qed.

Lemma delete_at_table hash key c t :
  let i := item_gethash key (hashsize hash) in
  hash_sorted hash -> bucket hash i = Some t -> plug (path c) (sub c) = t ->
  (exists d h l r, sub c = Item d h l r /\ item_cmp key (item_getkey d) = 0) ->
  exists hash', capwap_hash_deleteitem hash c i = Some hash' /\ hash_sorted hash' /\
    hashsize hash' = hashsize hash /\
    (forall k, hash_lookup hash' k = if item_cmp k key =? 0 then None else hash_lookup hash k).
Proof.
  intros i (Hs & Hl & Hc & Hb) Et Hp Hsub. pose proof (hash_range key _ Hs) as Hi. fold i in Hi.
  unfold bucket in Et. destruct (Hb _ _ Et) as [Hok Hall].
  destruct (delete_at_spec t key c Hok Hp Hsub) as (t' & E & Hok' & Hd & Hn).
  unfold capwap_hash_deleteitem. rewrite E. obind. eexists. split; [done|].
  split; [|split; [done|]].
  - unfold set_bucket. split_and!; cbn [hashsize items count]; try done.
    + by rewrite length_insert.
    + rewrite (total_insert _ _ t) by done. rewrite Hn, Hc. unfold wrap_ulong.
      rewrite Zminus_mod_idemp_l. f_equal. lia.
    + intros j u Eu. destruct (decide (j = Z.to_nat i)) as [->|Hj].
      * rewrite list_lookup_insert_eq in Eu by (apply lookup_lt_Some in Et; lia). injection Eu as <-.
        split; [done|]. rewrite Hd. apply Forall_forall. intros x Hx. rewrite Forall_forall in Hall.
        apply Hall. apply list_elem_of_In, List.filter_In in Hx as [Hx _]. by apply list_elem_of_In.
      * rewrite list_lookup_insert_ne in Eu by done. by apply Hb.
  - intros k. unfold hash_lookup, bucket, set_bucket. cbn [hashsize items].
    pose proof (hash_range k _ Hs) as Hk.
    destruct (decide (item_gethash k (hashsize hash) = i)) as [Ei|Ei].
    + rewrite Ei, list_lookup_insert_eq by (apply lookup_lt_Some in Et; lia). rewrite Et. obind.
      rewrite Hd. apply seq_find_delete.
    + rewrite list_lookup_insert_ne by lia. rewrite (proj2 (Z.eqb_neq _ _)); [done|].
      intros Hq%cmp_eq. by rewrite Hq in Ei.
Qed.

(** [capwap_hash_delete] on a balanced table, when its search ends. *)
Lemma hash_delete_spec fuel hash key :
  hash_inv hash ->
  exists t, bucket hash (item_gethash key (hashsize hash)) = Some t /\
    (search_ends key t = true -> (3 <= fuel)%nat ->
     exists hash', capwap_hash_delete fuel hash key = Some hash' /\ hash_sorted hash' /\
       (forall k, hash_lookup hash' k = if item_cmp k key =? 0 then None else hash_lookup hash k)) /\
    (search_ends key t = false -> capwap_hash_delete fuel hash key = None).
Proof.
  intros Hinv. destruct (hash_bucket hash key Hinv) as (t & Et & Hok).
  exists t. split; [done|]. unfold capwap_hash_delete. rewrite Et. obind.
  assert (Habsent : seq_find key (inorder t) = None -> forall k,
    hash_lookup hash k = if item_cmp k key =? 0 then None else hash_lookup hash k).
  { intros Hnone k. destruct (Z.eqb_spec (item_cmp k key) 0) as [E|]; [|done].
    apply cmp_eq in E as ->. unfold hash_lookup. by rewrite Et. }
  destruct t as [|d h l r].
  { split; [|done]. intros _ _. exists hash. split_and!; [done|by apply hash_inv_sorted|by apply Habsent]. }
  split.
  - intros He Hf. destruct (search_items_spec key _ fuel Hok He Hf) as (res & -> & Hres).
    destruct res as [c|].
    + destruct Hres as (d' & h' & l' & r' & E & Hp & Hk).
      destruct (delete_at_table hash key c (Item d h l r)) as (hash' & E' & Hs' & _ & Hl');
        [by apply hash_inv_sorted|done|done|eauto 10|]. eauto.
    + exists hash. split_and!; [done|by apply hash_inv_sorted|by apply Habsent].
  - intros He. by rewrite search_items_stuck.
Qed.

(** ** Walking a table *)

Section Walk.
Context {P : Type} (item_foreach : D -> P -> Z * P).

(** The callback on a sequence of items: what it answered last, the keys
    marked, last one first, and the state it leaves. *)
Fixpoint walk (ds : list D) (marked : list K) (param : P) : Z * list K * P :=
  match ds with
  | [] => (HASH_CONTINUE, marked, param)
  | d :: ds =>
      let '(result, param) := item_foreach d param in
      let marked :=
        if (result =? HASH_DELETE_AND_BREAK) || (result =? HASH_DELETE_AND_CONTINUE)
        then item_getkey d :: marked else marked in
      if (result =? HASH_BREAK) || (result =? HASH_DELETE_AND_BREAK)
      then (HASH_BREAK, marked, param) else walk ds marked param
  end.

Lemma walk_app a b marked param :
  walk (a ++ b) marked param =
  let '(result, marked, param) := walk a marked param in
  if result =? HASH_BREAK then (HASH_BREAK, marked, param) else walk b marked param.
Proof.
  revert marked param. induction a as [|d a IH]; intros marked param; cbn [walk app]; [done|].
  destruct (item_foreach d param) as [result param']. by destruct (_ || _); [|apply IH].
Qed.

Lemma walk_result ds marked param : (walk ds marked param).1.1 = HASH_BREAK \/ (walk ds marked param).1.1 = HASH_CONTINUE.
Proof.
  revert marked param. induction ds as [|d ds IH]; intros marked param; cbn [walk]; [by right|].
  destruct (item_foreach d param). destruct (_ || _); [by left|apply IH].
Qed.

Lemma foreach_items_walk t marked param :
  capwap_hash_foreach_items item_foreach t marked param = walk (inorder t) marked param.
Proof.
  revert marked param. induction t as [|d h l IHl r IHr]; intros marked param;
    cbn [capwap_hash_foreach_items inorder]; [done|].
  rewrite walk_app, IHl. destruct (walk (inorder l) marked param) as [[result m] q].
  destruct (result =? HASH_BREAK); [done|]. cbn [walk]. destruct (item_foreach d q) as [result' q'].
  destruct ((result' =? HASH_BREAK) || (result' =? HASH_DELETE_AND_BREAK)); [done|]. rewrite IHr.
  pose proof (walk_result (inorder r)
    (if (result' =? HASH_DELETE_AND_BREAK) || (result' =? HASH_DELETE_AND_CONTINUE)
     then item_getkey d :: m else m) q') as Hres.
  destruct (walk (inorder r) _ q') as [[res m'] q'']. cbn in Hres. by destruct Hres as [->| ->].
Qed.

(** All the items of a table, bucket after bucket. *)
Definition all_items (l : list (capwap_hash_item D)) : list D := mjoin (inorder <$> l).

Lemma foreach_buckets_walk l marked param :
  foreach_buckets item_foreach l marked param =
  let '(_, marked, param) := walk (all_items l) marked param in (marked, param).
Proof.
  revert marked param. induction l as [|t l IH]; intros marked param; cbn [foreach_buckets]; [done|].
  rewrite foreach_items_walk. unfold all_items. cbn [fmap list_fmap]. 
  change (mjoin (inorder t :: (inorder <$> l))) with (inorder t ++ all_items l). rewrite walk_app.
  destruct (walk (inorder t) marked param) as [[result m] q]. destruct (result =? HASH_BREAK); [done|]. apply IH.
Qed.

(** The keys marked are keys of the items walked, each at most once. *)
Lemma walk_marked ds marked param :
  exists new, (walk ds marked param).1.2 = new ++ marked /\ reverse new `sublist_of` (item_getkey <$> ds).
Proof.
  revert marked param. induction ds as [|d ds IH]; intros marked param; cbn [walk].
  { exists []. split; [done|constructor]. }
  destruct (item_foreach d param) as [result q].
  set (m := if _ || _ then item_getkey d :: marked else marked).
  assert (Hm : exists k, m = k ++ marked /\ (k = [] \/ k = [item_getkey d])).
  { unfold m. destruct (_ || _); [by exists [item_getkey d]; auto|by exists []; auto]. }
  destruct Hm as (k & -> & Hk). destruct (_ || _).
  - exists k. split; [done|]. cbn. destruct Hk as [->| ->]; cbn; [apply sublist_nil_l|].
    apply sublist_skip, sublist_nil_l.
  - destruct (IH (k ++ marked) q) as (new & -> & Hs). exists (new ++ k). split; [by rewrite app_assoc|].
    rewrite reverse_app. cbn. destruct Hk as [->| ->]; cbn; [by apply sublist_cons|by apply sublist_skip].
Qed.

Lemma sorted_nodup_keys ds : sorted ds -> NoDup (item_getkey <$> ds).
Proof.
  induction 1 as [|d ds _ IH Hd]; cbn; constructor; [|done].
  intros (x & Ex & Hx)%list_elem_of_fmap. rewrite Forall_forall in Hd. specialize (Hd x Hx).
  unfold before_key in Hd. rewrite Ex, cmp_refl in Hd. lia.
Qed.

(** Keys are unique in the whole table. *)
Lemma all_items_nodup l size off :
  (forall i t, l !! i = Some t -> sorted (inorder t) /\
   Forall (fun d => item_gethash (item_getkey d) size = off + Z.of_nat i) (inorder t)) ->
  NoDup (item_getkey <$> all_items l) /\
  Forall (fun d => off <= item_gethash (item_getkey d) size) (all_items l).
Proof.
  revert off. induction l as [|t l IH]; intros off Hl.
  { split; [apply NoDup_nil_2|constructor]. }
  change (all_items (t :: l)) with (inorder t ++ all_items l).
  destruct (Hl 0%nat t eq_refl) as [Hs Hf].
  destruct (IH (off + 1)) as [Hn Hg].
  { intros j u Eu. destruct (Hl (S j) u Eu) as [Hs' Hf']. split; [done|].
    eapply Forall_impl; [exact Hf'|]. cbn. lia. }
  rewrite fmap_app. split.
  - apply NoDup_app. split_and!; [by apply sorted_nodup_keys| |done].
    intros k (x & -> & Hx)%list_elem_of_fmap (y & Ey & Hy)%list_elem_of_fmap.
    rewrite Forall_forall in Hf, Hg. specialize (Hf x Hx). specialize (Hg y Hy). cbn in Hf, Hg.
    rewrite Ey in Hf. lia.
  - apply Forall_app. split; [eapply Forall_impl; [exact Hf|]|eapply Forall_impl; [exact Hg|]]; cbn; lia.
Qed.

Lemma all_items_lookup hash d :
  hash_sorted hash -> d ∈ all_items (items hash) -> hash_lookup hash (item_getkey d) = Some d.
Proof.
  intros (Hs & _ & _ & Hb) Hd. unfold all_items in Hd.
  apply list_elem_of_join in Hd as (ds & Hd & (t & -> & Ht)%list_elem_of_fmap).
  apply list_elem_of_lookup in Ht as [i Et]. destruct (Hb i t Et) as [[_ Ho] Hf].
  unfold hash_lookup, bucket. rewrite Forall_forall in Hf. rewrite (Hf d Hd), Nat2Z.id, Et. obind.
  apply list_elem_of_split in Hd as (a & b & Hab). rewrite Hab in *.
  apply seq_find_mid; [done|]. apply cmp_refl.
Qed.

Definition marked_key (keys : list K) (k : K) : bool := existsb (fun key => item_cmp k key =? 0) keys.

Lemma delete_marked_spec hash keys :
  hash_sorted hash -> NoDup keys -> Forall (fun k => is_Some (hash_lookup hash k)) keys ->
  exists hash', delete_marked hash keys = Some hash' /\ hash_sorted hash' /\
    forall k, hash_lookup hash' k = if marked_key keys k then None else hash_lookup hash k.
Proof.
  intros Hs Hnd Hall. revert hash Hs Hall. induction Hnd as [|key keys Hk Hnd IH]; intros hash Hs Hall.
  { by exists hash. }
  apply Forall_cons in Hall as [[d Hd] Hall]. cbn [delete_marked].
  unfold hash_lookup in Hd. destruct (bucket hash _) as [t|] eqn:Et; [|done]. obind.
  destruct (locate t [] key) as [c|] eqn:Ec; [|by rewrite (locate_find _ _ _ Ec) in Hd].
  destruct (locate_plug _ _ _ _ Ec) as [Hp Hsub]. cbn in Hp.
  destruct (delete_at_table hash key c t Hs Et Hp Hsub) as (hash1 & -> & Hs1 & _ & Hl1).
  destruct (IH hash1 Hs1) as (hash2 & -> & Hs2 & Hl2).
  { rewrite Forall_forall in Hall |- *. intros k Hin. rewrite Hl1.
    rewrite (proj2 (Z.eqb_neq _ _)); [by apply Hall|]. intros Hq%cmp_eq. by subst. }
  exists hash2. split_and!; try done. intros k. rewrite Hl2, Hl1. unfold marked_key. cbn.
  by destruct (item_cmp k key =? 0), (existsb _ keys).
Qed.

(** Walking a table: the callback sees the items in order until it breaks, and
    the items it marked are deleted, no others. *)
Lemma hash_foreach_spec hash param :
  hash_sorted hash ->
  exists hash', let '(_, marked, param') := walk (all_items (items hash)) [] param in
    capwap_hash_foreach item_foreach hash param = Some (hash', param') /\ hash_sorted hash' /\
    forall k, hash_lookup hash' k = if marked_key marked k then None else hash_lookup hash k.
Proof.
  intros Hs. unfold capwap_hash_foreach. rewrite foreach_buckets_walk.
  destruct (walk_marked (all_items (items hash)) [] param) as (new & Hm & Hsub).
  destruct (walk _ [] param) as [[result marked] q]. cbn in Hm. rewrite app_nil_r in Hm. subst new.
  pose proof Hs as (_ & _ & _ & Hb).
  destruct (all_items_nodup (items hash) (hashsize hash) 0) as [Hnd _].
  { intros i t E. destruct (Hb i t E) as [[_ Ho] Hf]. split; [done|].
    eapply Forall_impl; [exact Hf|]. cbn. lia. }
  destruct (delete_marked_spec hash marked Hs) as (hash' & -> & Hs' & Hl').
  - rewrite <- (reverse_Permutation marked). by eapply sublist_NoDup.
  - apply Forall_forall. intros k Hk. rewrite <- elem_of_reverse in Hk.
    assert (Hin : k ∈ item_getkey <$> all_items (items hash)) 
      by by eapply elem_of_sublist.
    apply list_elem_of_fmap in Hin as (d & -> & Hd). by rewrite all_items_lookup.
  - by exists hash'.
Qed.

End Walk.
End Delete.

(** The items of the table are their own keys. *)
Class KeyItems (K : Type) `{HashOps K K} := { key_item k : item_getkey k = k }.

Section Alone.
Context {K : Type} `{EqDecision K} `{HashLaws K K} `{!KeyItems K} `{Target}.
Implicit Types (hash : capwap_hash K) (k i : K).

(** No other key of the table has the hash value of [i]. *)
Definition alone hash i : Prop :=
  forall k, is_Some (hash_lookup hash k) ->
    item_gethash k (hashsize hash) = item_gethash i (hashsize hash) -> k = i.

Lemma cmp_decide k i : (item_cmp k i =? 0) = bool_decide (k = i).
Proof. apply Bool.eq_iff_eq_true. by rewrite Z.eqb_eq, bool_decide_eq_true, cmp_eq. Qed.

(** What is found has the key searched for. *)
Lemma lookup_found hash k i : hash_lookup hash k = Some i -> i = k.
Proof.
  unfold hash_lookup. destruct (bucket hash _) as [tr|]; [|done]. cbn. unfold seq_find.
  intros [_ E]%List.find_some. rewrite key_item in E. symmetry. apply cmp_eq. by bools.
Qed.

(** The bucket of such a key holds it or nothing. *)
Lemma alone_bucket hash i :
  hash_inv hash -> alone hash i ->
  bucket hash (item_gethash i (hashsize hash)) =
    Some match hash_lookup hash i with Some _ => Item i 0 Leaf Leaf | None => Leaf end.
Proof.
  intros Hinv Hal. destruct (hash_bucket hash i Hinv) as (tr & E & Ha & Hs). rewrite E. f_equal.
  assert (Hall : forall x, x ∈ inorder tr -> x = i).
  { intros x Hx. apply Hal.
    - exists x. rewrite <- (key_item x) at 1. apply all_items_lookup; [by apply hash_inv_sorted|].
      unfold all_items. apply list_elem_of_join. exists (inorder tr). split; [done|].
      apply list_elem_of_fmap. exists tr. split; [done|]. by eapply list_elem_of_lookup_2.
    - pose proof Hinv as (Hsz & _ & _ & Hb). pose proof (hash_range i _ Hsz).
      destruct (Hb _ _ E) as [_ Hf]. rewrite Forall_forall in Hf. specialize (Hf x Hx). cbn in Hf.
      rewrite key_item in Hf. lia. }
  unfold hash_lookup. rewrite E. obind. unfold seq_find.
  destruct tr as [|d h l r]; [done|].
  apply sorted_nodup_keys in Hs. cbn [inorder] in *.
  assert (Hlen : (length (inorder l ++ d :: inorder r) <= 1)%nat).
  { destruct (inorder l ++ d :: inorder r) as [|x [|y ds]]; cbn; [lia..|]. exfalso.
    rewrite (Hall x), (Hall y) in Hs by set_solver. cbn in Hs. apply NoDup_cons in Hs as [Hs _]. set_solver. }
  rewrite length_app in Hlen. cbn in Hlen.
  destruct l as [|dl hl ll lr]; [|cbn in Hlen; rewrite length_app in Hlen; cbn in Hlen; lia].
  destruct r as [|dr hr rl rr]; [|cbn in Hlen; rewrite length_app in Hlen; cbn in Hlen; lia].
  cbn in Ha. destruct Ha as (_ & _ & -> & _). rewrite (Hall d) by (cbn; by left).
  cbn. by rewrite key_item, cmp_refl.
Qed.

Lemma alone_ends hash i tr :
  hash_inv hash -> alone hash i -> bucket hash (item_gethash i (hashsize hash)) = Some tr ->
  search_ends i tr = true.
Proof.
  intros Hinv Hal E. rewrite alone_bucket in E by done. injection E as <-.
  destruct (hash_lookup hash i); [|done]. cbn. by rewrite key_item, cmp_refl.
Qed.

Lemma alone_search fuel hash i :
  hash_inv hash -> alone hash i -> (3 <= fuel)%nat ->
  capwap_hash_search fuel hash i = Some (hash_lookup hash i).
Proof.
  intros Hinv Hal Hf. destruct (hash_search_spec fuel hash i Hinv) as (tr & E & He & _).
  apply He; [|done]. by eapply alone_ends.
Qed.

Lemma alone_add fuel hash i :
  hash_inv hash -> alone hash i ->
  exists hash', capwap_hash_add fuel hash i = Some hash' /\ hash_inv hash' /\
    hashsize hash' = hashsize hash /\
    forall k, hash_lookup hash' k = if bool_decide (k = i) then Some i else hash_lookup hash k.
Proof.
  intros Hinv Hal.
  destruct (hash_add_spec (Z.to_nat (2 * (total (items hash) + 1))) hash i Hinv) as (hash' & E & Hi & Hs & Hl);
    [lia|].
  exists hash'. split_and!; [|done..|].
  - rewrite <- E. unfold capwap_hash_add. rewrite key_item, alone_bucket by done. obind.
    unfold add_item. destruct (hash_lookup hash i); [|done]. cbn [add_position].
    by rewrite key_item, cmp_refl.
  - intros k. by rewrite Hl, key_item, cmp_decide.
Qed.

(** Deleting the key leaves its bucket empty. *)
Lemma alone_delete fuel hash i :
  hash_inv hash -> alone hash i -> (3 <= fuel)%nat ->
  exists hash', capwap_hash_delete fuel hash i = Some hash' /\ hash_inv hash' /\
    hashsize hash' = hashsize hash /\
    forall k, hash_lookup hash' k = if bool_decide (k = i) then None else hash_lookup hash k.
Proof.
  intros Hinv Hal Hf. destruct (hash_delete_spec fuel hash i Hinv) as (tr & E & He & _).
  destruct He as (hash' & Ed & Hs & Hlk); [by eapply alone_ends|done|].
  exists hash'. split; [done|]. setoid_rewrite cmp_decide in Hlk.
  rewrite alone_bucket in E by done. injection E as Htr.
  assert (Hitems : hash' = hash \/ exists n,
    hash' = set_bucket hash (item_gethash i (hashsize hash)) Leaf n).
  { unfold capwap_hash_delete in Ed. rewrite alone_bucket in Ed by done. obind.
    destruct (hash_lookup _ i); [|by injection Ed as <-; left].
    destruct fuel as [|fuel]; [lia|]. unfold capwap_hash_search_items in Ed. cbn [search_items sub] in Ed.
    rewrite key_item, cmp_refl in Ed. cbn in Ed. injection Ed as <-. right. by eexists. }
  assert (Hsz' : hashsize hash' = hashsize hash) by (by destruct Hitems as [->|[n ->]]).
  split; [|by split]. destruct Hs as (Hsz & Hln & Hc & Hb). split_and!; [done..|].
  intros b u Eu. destruct (Hb b u Eu) as [[_ Hso] Hf']. split; [|done]. split; [|done].
  destruct Hinv as (_ & _ & _ & Hb0). destruct Hitems as [->|[n ->]]; [by destruct (Hb0 b u Eu) as [[? _] _]|].
  cbn in Eu. destruct (decide (b = Z.to_nat (item_gethash i (hashsize hash)))) as [->|Hne].
  - apply list_lookup_insert_Some in Eu as [(_ & <- & _)|[? _]]; done.
  - apply list_lookup_insert_Some in Eu as [(? & _)|[_ Eu]]; [done|]. by destruct (Hb0 b u Eu) as [[? _] _].
Qed.

(** A table in which nothing is found counts no items. *)
Lemma lookup_none_count hash : hash_inv hash -> (forall k, hash_lookup hash k = None) -> count hash = 0.
Proof.
  intros Hinv Hn. assert (Hall : all_items (items hash) = []).
  { destruct (all_items (items hash)) as [|d ds] eqn:E; [done|].
    pose proof (all_items_lookup hash d (hash_inv_sorted hash Hinv)) as Hl. rewrite E, Hn in Hl.
    by discriminate Hl; left. }
  destruct Hinv as (_ & _ & -> & _).
  assert (Ht : total (items hash) = 0).
  { revert Hall. generalize (items hash). intros l. induction l as [|t l IH]; [done|].
    change (all_items (t :: l)) with (inorder t ++ all_items l).
    intros [Ht Hl]%app_nil. specialize (IH Hl). unfold total in *. cbn. by rewrite Ht, IH. }
  by rewrite Ht.
Qed.

End Alone.
