(* ===== verification/Bitfield.v ===== *)
(** Sets of small integers kept as an array of 32-bit words, as the timers
    (src/common/capwap_timeout.c) and the association identifiers
    (src/common/binding/ieee80211/ieee80211.c) use them: index [i], from 1 on,
    is bit [(i - 1) mod 32] of word [(i - 1) / 32]. *)
From stdpp Require Import option.
From S2P Require Import Prelude.
#[local] Open Scope Z_scope.

(** The first clear bit of a word, from bit [j] on. *)
Fixpoint free_bit (n : nat) (j : Z) (bitfield : Z) : option Z :=
  match n with
  | O => None
  | S n => if negb (Z.testbit bitfield j) then Some j else free_bit n (j + 1) bitfield
  end.

(** Takes the first free index of the words, the first of which is word [i];
    0 when there is none. *)
Fixpoint set_bitfield (i : Z) (words : list Z) : Z * list Z :=
  match words with
  | [] => (0, [])
  | w :: words =>
      match (if negb (w =? 4294967295) then free_bit 32 0 w else None) with
      | Some j => (i * 32 + j + 1, Z.lor w (Z.shiftl 1 j) :: words)
      | None => let '(value, words) := set_bitfield (i + 1) words in (value, w :: words)
      end
  end.

(** Gives an index back; [None]: a write outside the words. *)
Definition clear_bit (value : Z) (words : list Z) : option (list Z) :=
  let i := Z.to_nat ((value - 1) / 32) in
  w ← words !! i;
  Some (<[i := Z.land w (Z.lnot (Z.shiftl 1 ((value - 1) mod 32)))]> words).

(** An index is in use: bit [(i - 1) mod 32] of word [(i - 1) / 32]. *)
Definition in_use (words : list Z) (i : Z) : bool :=
  match words !! Z.to_nat ((i - 1) / 32) with
  | Some w => Z.testbit w ((i - 1) mod 32)
  | None => false
  end.

Definition words_ok (words : list Z) : Prop := Forall (fun w => is_u32 w) words.

Lemma free_bit_spec n j w :
  0 <= j ->
  match free_bit n j w with
  | Some k => j <= k < j + Z.of_nat n /\ Z.testbit w k = false /\ forall m, j <= m < k -> Z.testbit w m = true
  | None => forall m, j <= m < j + Z.of_nat n -> Z.testbit w m = true
  end.
Proof.
  revert j. induction n as [|n IH]; intros j Hj; cbn [free_bit]; [lia|].
  destruct (Z.testbit w j) eqn:E; cbn.
  - specialize (IH (j + 1) ltac:(lia)). destruct (free_bit n (j + 1) w) as [k|].
    + destruct IH as (Hk & Hb & Hm). split_and!; [lia..|done|]. intros m Hr.
      destruct (decide (m = j)) as [->|]; [done|]. apply Hm. lia.
    + intros m Hr. destruct (decide (m = j)) as [->|]; [done|]. apply IH. lia.
  - split_and!; [lia..|done|lia].
Qed.

(** A word with a clear bit is not the full word. *)
Lemma full_word m : 0 <= m < 32 -> Z.testbit 4294967295 m = true.
Proof. intros. change 4294967295 with (Z.ones 32). apply Z.ones_spec_low. lia. Qed.

(** The first clear bit below 32, if any. *)
Lemma word_spec w :
  match (if negb (w =? 4294967295) then free_bit 32 0 w else None) with
  | Some k => 0 <= k < 32 /\ Z.testbit w k = false /\ forall m, 0 <= m < k -> Z.testbit w m = true
  | None => forall m, 0 <= m < 32 -> Z.testbit w m = true
  end.
Proof.
  pose proof (free_bit_spec 32 0 w ltac:(lia)) as Hf. destruct (Z.eqb_spec w 4294967295) as [->|]; cbn [negb].
  - apply full_word.
  - by destruct (free_bit 32 0 w).
Qed.

(** Bits of the words, from word [i] on. *)
Definition bit_at (i : Z) (words : list Z) (k : Z) : bool :=
  match words !! Z.to_nat (k / 32 - i) with Some w => Z.testbit w (k mod 32) | None => false end.

Lemma bit_at_cons i w words k :
  i * 32 <= k ->
  bit_at i (w :: words) k = if k / 32 =? i then Z.testbit w (k mod 32) else bit_at (i + 1) words k.
Proof.
  intros Hk. unfold bit_at. destruct (Z.eqb_spec (k / 32) i) as [->|Hne].
  - by rewrite Z.sub_diag.
  - replace (Z.to_nat (k / 32 - i)) with (S (Z.to_nat (k / 32 - (i + 1)))); [done|].
    Z.div_mod_to_equations. lia.
Qed.

Lemma in_use_bit words i : in_use words i = bit_at 0 words (i - 1).
Proof. unfold in_use, bit_at. by rewrite Z.sub_0_r. Qed.


Lemma set_bitfield_spec i words :
  let '(v, words') := set_bitfield i words in
  length words' = length words /\
  ((v = 0 /\ words' = words /\
    forall k, i * 32 <= k < (i + zlen words) * 32 -> bit_at i words k = true) \/
   (i * 32 <= v - 1 < (i + zlen words) * 32 /\ bit_at i words (v - 1) = false /\
    (forall k, i * 32 <= k < v - 1 -> bit_at i words k = true) /\
    forall k, i * 32 <= k -> bit_at i words' k = (k =? v - 1) || bit_at i words k)).
Proof.
  revert i. induction words as [|w words IH]; intros i; cbn [set_bitfield].
  { split; [done|]. left. split_and!; [done..|]. cbn. lia. }
  pose proof (word_spec w) as Hw. destruct (if negb _ then _ else _) as [j|].
  - destruct Hw as (Hj & Hb & Hm). split; [done|]. right.
    assert (Hdiv : (i * 32 + j) / 32 = i) by (Z.div_mod_to_equations; lia).
    assert (Hmod : (i * 32 + j) mod 32 = j) by (Z.div_mod_to_equations; lia).
    replace (i * 32 + j + 1 - 1) with (i * 32 + j) by lia. cbn [length]. split_and!; [lia..| | |].
    + rewrite bit_at_cons, Hdiv, Z.eqb_refl, Hmod by lia. done.
    + intros k Hk. rewrite bit_at_cons by lia. assert (k / 32 = i) as -> by (Z.div_mod_to_equations; lia).
      rewrite Z.eqb_refl. apply Hm. Z.div_mod_to_equations. lia.
    + intros k Hk. rewrite !bit_at_cons by lia. destruct (Z.eqb_spec (k / 32) i) as [E|E].
      * rewrite Z.lor_spec, Z.shiftl_spec by (Z.div_mod_to_equations; lia).
        rewrite orb_comm. f_equal. change 1 with (2 ^ 0). rewrite Z.pow2_bits_eqb by lia.
        apply Bool.eq_iff_eq_true. bools. Z.div_mod_to_equations. lia.
      * rewrite (proj2 (Z.eqb_neq k _)); [done|]. intros ->. by rewrite Hdiv in E.
  - specialize (IH (i + 1)). destruct (set_bitfield (i + 1) words) as [v words'].
    destruct IH as [Hl IH]. cbn [length]. split; [by f_equal|].
    destruct IH as [(-> & -> & Hall)|(Hv & Hb & Hmin & Hset)].
    + left. split_and!; [done..|]. intros k Hk. rewrite bit_at_cons by lia.
      destruct (Z.eqb_spec (k / 32) i) as [E|E]; [apply Hw|apply Hall]; Z.div_mod_to_equations; lia.
    + right. split_and!; [lia..| | |].
      * rewrite bit_at_cons by lia. rewrite (proj2 (Z.eqb_neq _ _)); [done|]. Z.div_mod_to_equations. lia.
      * intros k Hk. rewrite bit_at_cons by lia.
        destruct (Z.eqb_spec (k / 32) i) as [E|E]; [apply Hw|apply Hmin]; Z.div_mod_to_equations; lia.
      * intros k Hk. rewrite !bit_at_cons by lia. destruct (Z.eqb_spec (k / 32) i) as [E|E].
        -- rewrite (proj2 (Z.eqb_neq k _)); [done|]. Z.div_mod_to_equations. lia.
        -- apply Hset. Z.div_mod_to_equations. lia.
Qed.

Lemma clear_bit_spec words i :
  1 <= i <= 32 * zlen words ->
  exists words', clear_bit i words = Some words' /\ length words' = length words /\
    forall k, 1 <= k -> in_use words' k = negb (k =? i) && in_use words k.
Proof.
  intros Hi. unfold clear_bit.
  destruct (lookup_lt_is_Some_2 words (Z.to_nat ((i - 1) / 32))) as [w E];
    [Z.div_mod_to_equations; lia|]. rewrite E. cbn.
  eexists. split; [done|]. split; [by rewrite length_insert|]. intros k Hk. unfold in_use.
  destruct (decide (Z.to_nat ((k - 1) / 32) = Z.to_nat ((i - 1) / 32))) as [Ek|Ek].
  - rewrite Ek, list_lookup_insert_eq, E by (apply lookup_lt_Some in E; lia).
    rewrite Z.land_spec, Z.lnot_spec, Z.shiftl_spec, andb_comm by (Z.div_mod_to_equations; lia).
    f_equal. f_equal. change 1 with (2 ^ 0). rewrite Z.pow2_bits_eqb by lia.
    apply Bool.eq_iff_eq_true. bools. Z.div_mod_to_equations. lia.
  - rewrite list_lookup_insert_ne by done. destruct (Z.eqb_spec k i) as [->|]; [done|]. done.
Qed.

(** The words stay within 32 bits. *)
Lemma u32_set w j : is_u32 w -> 0 <= j < 32 -> is_u32 (Z.lor w (Z.shiftl 1 j)).
Proof.
  intros Hw Hj. assert (Hs : 0 < Z.shiftl 1 j < 2 ^ 32).
  { rewrite Z.shiftl_1_l. split; [by apply Z.pow_pos_nonneg; lia|]. apply Z.pow_lt_mono_r; lia. }
  change 4294967296 with (2 ^ 32) in *. split; [apply Z.lor_nonneg; lia|].
  destruct (decide (Z.lor w (Z.shiftl 1 j) = 0)) as [->|Hne]; [lia|].
  assert (0 <= Z.lor w (Z.shiftl 1 j)) by (apply Z.lor_nonneg; lia).
  apply Z.log2_lt_pow2; [lia|]. rewrite Z.log2_lor by lia.
  apply Z.max_lub_lt; [|apply Z.log2_lt_pow2; lia].
  destruct (decide (w = 0)) as [->|]; [done|]. apply Z.log2_lt_pow2; lia.
Qed.

Lemma words_ok_set words : forall i, words_ok words -> words_ok (set_bitfield i words).2.
Proof.
  induction words as [|w words IH]; intros i Hw; [done|]. cbn [set_bitfield].
  apply Forall_cons in Hw as [Hw Hws]. pose proof (word_spec w) as Hs.
  destruct (if negb _ then _ else _) as [j|].
  - constructor; [|done]. destruct Hs as [Hj _]. by apply u32_set.
  - specialize (IH (i + 1) Hws). destruct (set_bitfield (i + 1) words) as [v ws]. by constructor.
Qed.

Lemma words_ok_clear v words words' : words_ok words -> clear_bit v words = Some words' -> words_ok words'.
Proof.
  intros Hw. unfold clear_bit. destruct (words !! _) as [w|] eqn:E; [|done]. cbn. intros [= <-].
  apply Forall_insert; [done|]. eapply Forall_lookup_1 in Hw; [|done]. cbn beta in Hw.
  assert (0 <= Z.land w (Z.lnot (Z.shiftl 1 ((v - 1) mod 32)))) by (apply Z.land_nonneg; lia).
  split; [done|]. eapply Z.le_lt_trans; [|apply Hw]. apply Z.ldiff_le; [lia|].
  apply Z.bits_inj'. intros n Hn. rewrite Z.ldiff_spec, Z.land_spec, Z.bits_0.
  destruct (Z.testbit w n); cbn; by rewrite ?andb_false_r.
Qed.
