(* ===== verification/Timeout.v ===== *)
(** Timers (src/common/capwap_timeout.c).

    A timer that is set is an item of a list ordered by expiry, [itemstimeout],
    and is found by its index through a hash table, [itemsreference].  The list
    is the sequence of its items ([CapwapList] relates it to the linked list)
    and an item is told by its index, which does not change while it is in the
    table.  [gettimeofday] is the argument [now].  The counts of seconds and
    durations are taken to stay within [long]. *)
From stdpp Require Import option.
From S2P Require Import Prelude Bitfield CapwapHash CapwapHashSpec.
#[local] Open Scope Z_scope.

Definition CAPWAP_TIMEOUT_HASH_COUNT : Z := 128.
Definition CAPWAP_TIMEOUT_BITFIELD_SIZE : Z := 128.
Definition CAPWAP_TIMEOUT_INFINITE : Z := -1.
Definition CAPWAP_TIMEOUT_INDEX_NO_SET : Z := 0.

Definition capwap_timeout_hash_item_gethash (key hashsize : Z) : Z := key mod hashsize.
Definition capwap_timeout_hash_item_cmp (value1 value2 : Z) : Z :=
  if value1 =? value2 then 0 else if value1 <? value2 then -1 else 1.

(** The table holds the items, told by their index. *)
#[export] Instance timeout_hash : HashOps Z Z := {
  item_gethash := capwap_timeout_hash_item_gethash;
  item_getkey := fun index => index;
  item_cmp := capwap_timeout_hash_item_cmp
}.

Record timeval := Timeval { tv_sec : Z; tv_usec : Z }.

Section Timers.
(** [C]: the callback of a timer with its arguments. *)
Context {C : Type} `{Target}.

Record capwap_timeout_item := TimeoutItem {
  index : Z;
  durate : Z;
  expire : timeval;
  callback : C
}.

Record capwap_timeout := Timeout {
  timeoutbitfield : list Z;
  itemsreference : capwap_hash Z;
  itemstimeout : list capwap_timeout_item
}.

Definition capwap_timeout_getdelta (time1 time2 : timeval) : Z :=
  (tv_sec time1 - tv_sec time2) * 1000 + Z.quot (tv_usec time1 - tv_usec time2) 1000.

(** ** Indices *)

Definition capwap_timeout_set_bitfield (timeout : capwap_timeout) : Z * capwap_timeout :=
  let '(value, words) := set_bitfield 0 (timeoutbitfield timeout) in
  (value, Timeout words (itemsreference timeout) (itemstimeout timeout)).

Definition capwap_timeout_clear_bitfield (timeout : capwap_timeout) (value : Z)
    : option capwap_timeout :=
  words ← clear_bit value (timeoutbitfield timeout);
  Some (Timeout words (itemsreference timeout) (itemstimeout timeout)).

(** ** The list *)

(** The loop of [capwap_timeout_additem]: [seen] holds the items passed, last
    one first.  The new item goes before the last item passed, or at the head
    of the list when there is none. *)
Fixpoint additem (seen rest : list capwap_timeout_item) (item : capwap_timeout_item)
    : list capwap_timeout_item :=
  match rest with
  | [] => rev seen ++ [item]
  | search :: rest' =>
      if capwap_timeout_getdelta (expire item) (expire search) <? 0 then
        match seen with
        | [] => item :: rest
        | last :: seen' => rev seen' ++ item :: last :: rest
        end
      else additem (search :: seen) rest' item
  end.

Definition capwap_timeout_additem (itemstimeout : list capwap_timeout_item)
    (item : capwap_timeout_item) : list capwap_timeout_item :=
  additem [] itemstimeout item.

Definition capwap_timeout_setexpire (durate : Z) (now : timeval) : timeval :=
  let sec := tv_sec now + Z.quot durate 1000 in
  let usec := tv_usec now + Z.rem durate 1000 in
  if 1000000 <=? usec then Timeval (sec + 1) (usec - 1000000) else Timeval sec usec.

(** [capwap_itemlist_remove] of the item with an index. *)
Definition remove_timer (i : Z) (l : list capwap_timeout_item) : list capwap_timeout_item :=
  List.filter (fun item => negb (index item =? i)) l.

(** ** Operations *)

Definition capwap_timeout_init : capwap_timeout :=
  Timeout (replicate (Z.to_nat CAPWAP_TIMEOUT_BITFIELD_SIZE) 0)
    (capwap_hash_create CAPWAP_TIMEOUT_HASH_COUNT) [].

Definition capwap_timeout_createtimer (timeout : capwap_timeout) : Z * capwap_timeout :=
  capwap_timeout_set_bitfield timeout.

Definition capwap_timeout_unset (fuel : nat) (timeout : capwap_timeout) (i : Z)
    : option capwap_timeout :=
  if i =? CAPWAP_TIMEOUT_INDEX_NO_SET then Some timeout else
  itemlist ← capwap_hash_search fuel (itemsreference timeout) i;
  match itemlist with
  | None => Some timeout
  | Some item =>
      hash ← capwap_hash_delete fuel (itemsreference timeout) i;
      Some (Timeout (timeoutbitfield timeout) hash (remove_timer item (itemstimeout timeout)))
  end.

Definition capwap_timeout_deletetimer (fuel : nat) (timeout : capwap_timeout) (i : Z)
    : option capwap_timeout :=
  if i =? CAPWAP_TIMEOUT_INDEX_NO_SET then Some timeout else
  timeout ← capwap_timeout_unset fuel timeout i;
  capwap_timeout_clear_bitfield timeout i.

(** A timer that is not in the table. *)
Definition set_new (fuel : nat) (timeout : capwap_timeout) (i d : Z) (cb : C) (now : timeval)
    : option (Z * capwap_timeout) :=
  let item := TimeoutItem i d (capwap_timeout_setexpire d now) cb in
  hash ← capwap_hash_add fuel (itemsreference timeout) i;
  Some (i, Timeout (timeoutbitfield timeout) hash
             (capwap_timeout_additem (itemstimeout timeout) item)).

Definition capwap_timeout_set (fuel : nat) (timeout : capwap_timeout) (i d : Z) (cb : C)
    (now : timeval) : option (Z * capwap_timeout) :=
  if i =? CAPWAP_TIMEOUT_INDEX_NO_SET then
    let '(i, timeout) := capwap_timeout_createtimer timeout in set_new fuel timeout i d cb now
  else
    itemlist ← capwap_hash_search fuel (itemsreference timeout) i;
    match itemlist with
    | Some item =>
        Some (i, Timeout (timeoutbitfield timeout) (itemsreference timeout)
                   (capwap_timeout_additem (remove_timer item (itemstimeout timeout))
                      (TimeoutItem item d (capwap_timeout_setexpire d now) cb)))
    | None => set_new fuel timeout i d cb now
    end.

Definition capwap_timeout_unsetall (timeout : capwap_timeout) : capwap_timeout :=
  Timeout (timeoutbitfield timeout) (capwap_hash_deleteall (itemsreference timeout)) [].

Definition capwap_timeout_getcoming (timeout : capwap_timeout) (now : timeval)
    : Z * capwap_timeout :=
  match itemstimeout timeout with
  | [] => (CAPWAP_TIMEOUT_INFINITE, timeout)
  | item :: _ =>
      let delta := capwap_timeout_getdelta (expire item) now in
      if delta <=? 0 then (0, timeout)
      else if delta <=? durate item then (delta, timeout)
      else
        (durate item,
         Timeout (timeoutbitfield timeout) (itemsreference timeout)
           ((fun it => TimeoutItem (index it) (durate it)
                         (capwap_timeout_setexpire (durate it) now) (callback it))
            <$> itemstimeout timeout))
  end.

(** The index returned, the callback to run, and the timers left. *)
Definition capwap_timeout_hasexpired (fuel : nat) (timeout : capwap_timeout) (now : timeval)
    : option (Z * option capwap_timeout_item * capwap_timeout) :=
  let '(delta, timeout) := capwap_timeout_getcoming timeout now in
  if (0 <? delta) || (delta =? CAPWAP_TIMEOUT_INFINITE) then Some (0, None, timeout) else
  match itemstimeout timeout with
  | [] => None
  | item :: rest =>
      hash ← capwap_hash_delete fuel (itemsreference timeout) (index item);
      Some (index item, Some item, Timeout (timeoutbitfield timeout) hash rest)
  end.

End Timers.
Arguments capwap_timeout_item : clear implicits.
Arguments capwap_timeout : clear implicits.
