(* ===== verification/TimeoutSpec.v ===== *)
(** Lemmas about timers: the allocation of indices as a set, the list as a
    permutation, and the agreement of the list with the table while the indices
    in use fall into different buckets. *)
From Stdlib Require Import Sorting.Sorted.
From stdpp Require Import option sets.
From S2P Require Import Prelude Bitfield CapwapHash CapwapHashSpec CapwapHashDelete Timeout.
#[local] Open Scope Z_scope.

(** ** The comparison and the hash of timers *)

#[export] Instance timeout_cmp_laws : CmpLaws Z capwap_timeout_hash_item_cmp.
Proof.
  split; unfold capwap_timeout_hash_item_cmp; intros; repeat case_match; bools; lia.
Qed.

#[export] Instance timeout_hash_laws : HashLaws Z Z.
Proof.
  split. exact timeout_cmp_laws.
Qed.

#[export] Instance timeout_key_items : KeyItems Z.
Proof. done. Qed.

Lemma timeout_sized n : 0 < n -> sized (D:=Z) (K:=Z) n.
Proof. intros Hn. split; [done|]. intros k. by apply Z.mod_pos_bound. Qed.

Section Timers.
Context {C : Type} `{Target}.
Abbreviation timer := (capwap_timeout_item C).
Implicit Types (t : capwap_timeout C) (l : list timer) (it : timer).

Lemma createtimer_spec t :
  let '(i, t') := capwap_timeout_createtimer t in
  itemsreference t' = itemsreference t /\ itemstimeout t' = itemstimeout t /\
  length (timeoutbitfield t') = length (timeoutbitfield t) /\
  ((i = 0 /\ t' = t /\ forall k, 1 <= k <= 32 * zlen (timeoutbitfield t) -> in_use (timeoutbitfield t) k = true) \/
   (1 <= i <= 32 * zlen (timeoutbitfield t) /\ in_use (timeoutbitfield t) i = false /\
    (forall k, 1 <= k < i -> in_use (timeoutbitfield t) k = true) /\
    forall k, 1 <= k -> in_use (timeoutbitfield t') k = (k =? i) || in_use (timeoutbitfield t) k)).
Proof.
  unfold capwap_timeout_createtimer, capwap_timeout_set_bitfield. destruct t as [words hash l].
  cbn [timeoutbitfield itemsreference itemstimeout].
  pose proof (set_bitfield_spec 0 words) as Hs. destruct (set_bitfield 0 words) as [v words'].
  destruct Hs as [Hl Hs]. cbn [timeoutbitfield itemsreference itemstimeout]. split_and!; try done.
  destruct Hs as [(-> & -> & Hall)|(Hv & Hb & Hmin & Hset)].
  - left. split_and!; [done..|]. intros k Hk. rewrite in_use_bit. apply Hall. lia.
  - right. rewrite in_use_bit. split_and!; [lia..|done| |].
    + intros k Hk. rewrite in_use_bit. apply Hmin. lia.
    + intros k Hk. rewrite !in_use_bit, Hset by lia. f_equal.
      apply Bool.eq_iff_eq_true. bools. lia.
Qed.

Lemma clear_bitfield_spec t i :
  1 <= i <= 32 * zlen (timeoutbitfield t) ->
  exists t', capwap_timeout_clear_bitfield t i = Some t' /\
    itemsreference t' = itemsreference t /\ itemstimeout t' = itemstimeout t /\
    length (timeoutbitfield t') = length (timeoutbitfield t) /\
    forall k, 1 <= k -> in_use (timeoutbitfield t') k = negb (k =? i) && in_use (timeoutbitfield t) k.
Proof.
  intros Hi. unfold capwap_timeout_clear_bitfield.
  destruct (clear_bit_spec (timeoutbitfield t) i Hi) as (words & E & Hl & Hu). rewrite E. obind.
  by eexists.
Qed.

(** ** The list of timers *)

Lemma additem_perm seen l it : additem seen l it ≡ₚ it :: (rev seen ++ l).
Proof.
  revert seen. induction l as [|s l IH]; intros seen; cbn [additem].
  - rewrite app_nil_r. symmetry. apply Permutation_cons_append.
  - destruct (_ <? 0).
    + destruct seen as [|x seen]; [done|]. cbn [rev]. rewrite <- app_assoc. cbn [app].
      symmetry. apply Permutation_middle.
    + rewrite IH. cbn [rev]. by rewrite <- app_assoc.
Qed.

(** The items passed are those that do not expire later. *)
Lemma additem_skip seen a l it :
  Forall (fun s => 0 <= capwap_timeout_getdelta (expire it) (expire s)) a ->
  additem seen (a ++ l) it = additem (rev a ++ seen) l it.
Proof.
  intros Ha. revert seen. induction Ha as [|s a Hs _ IH]; intros seen; [done|].
  cbn [app additem rev]. decide_if. rewrite IH. by rewrite <- app_assoc.
Qed.

Lemma remove_timer_notin i l : i ∉ (index <$> l) -> remove_timer i l = l.
Proof.
  unfold remove_timer. induction l as [|x l IH]; [done|]. cbn. intros Hi.
  destruct (Z.eqb_spec (index x) i) as [E|E]; [set_solver|]. cbn. rewrite IH; [done|]. set_solver.
Qed.

Lemma Forall_remove_timer (P : timer -> Prop) i l : Forall P l -> Forall P (remove_timer i l).
Proof.
  unfold remove_timer. induction 1 as [|x l Hx _ IH]; [constructor|]. cbn. destruct (negb _); [by constructor|done].
Qed.

(** A timer that expires before all others goes first. *)
Lemma additem_first l it :
  Forall (fun o => capwap_timeout_getdelta (expire it) (expire o) < 0) l -> capwap_timeout_additem l it = it :: l.
Proof.
  destruct 1 as [|o l Ho _]; [done|]. unfold capwap_timeout_additem. cbn [additem]. by rewrite (proj2 (Z.ltb_lt _ _)).
Qed.

Lemma elem_of_remove_timer i k l : k ∈ (index <$> remove_timer i l) <-> k ∈ (index <$> l) /\ k <> i.
Proof.
  unfold remove_timer. induction l as [|x l IH]; cbn; [set_solver|].
  destruct (Z.eqb_spec (index x) i) as [E|E]; cbn; set_solver.
Qed.

Lemma NoDup_remove_timer i l : NoDup (index <$> l) -> NoDup (index <$> remove_timer i l).
Proof.
  induction l as [|x l IH]; [done|]. cbn. intros [Hx Hl]%NoDup_cons.
  destruct (negb _); cbn; [|by apply IH]. apply NoDup_cons. split; [|by apply IH].
  intros [? _]%elem_of_remove_timer. done.
Qed.

(** ** The list and the table agree *)

(** Indices up to the number of buckets, each in a bucket of its own. *)
Definition small (i : Z) : Prop := 1 <= i <= CAPWAP_TIMEOUT_HASH_COUNT.

Record timers_ok (t : capwap_timeout C) : Prop := TimersOk {
  ok_words : zlen (timeoutbitfield t) = CAPWAP_TIMEOUT_BITFIELD_SIZE;
  ok_table : hash_inv (itemsreference t);
  ok_size : hashsize (itemsreference t) = CAPWAP_TIMEOUT_HASH_COUNT;
  ok_lookup : forall i, hash_lookup (itemsreference t) i =
                        if bool_decide (i ∈ (index <$> itemstimeout t)) then Some i else None;
  ok_nodup : NoDup (index <$> itemstimeout t);
  ok_small : Forall small (index <$> itemstimeout t)
}.

Lemma ok_lookup_small t i : timers_ok t -> is_Some (hash_lookup (itemsreference t) i) -> small i.
Proof.
  intros [_ _ _ Hl _ Hs]. rewrite Hl. case_bool_decide as Hin; [|by intros [? ?]]. intros _.
  rewrite Forall_forall in Hs. by apply Hs.
Qed.

(** Small indices have buckets of their own. *)
Lemma small_alone t i : timers_ok t -> small i -> alone (itemsreference t) i.
Proof.
  intros Hok Hi k Hk. apply (ok_lookup_small t) in Hk; [|done]. rewrite (ok_size t Hok). cbn.
  unfold capwap_timeout_hash_item_gethash, small, CAPWAP_TIMEOUT_HASH_COUNT in *.
  intros E. Z.div_mod_to_equations. lia.
Qed.

Lemma timers_search fuel t i :
  timers_ok t -> small i -> (3 <= fuel)%nat ->
  capwap_hash_search fuel (itemsreference t) i =
  Some (if bool_decide (i ∈ (index <$> itemstimeout t)) then Some i else None).
Proof.
  intros Hok Hi Hf. rewrite <- ok_lookup by done.
  apply alone_search; [by apply ok_table|by apply small_alone|done].
Qed.

Lemma timers_delete fuel t i :
  timers_ok t -> small i -> (3 <= fuel)%nat ->
  exists hash, capwap_hash_delete fuel (itemsreference t) i = Some hash /\ hash_inv hash /\
    hashsize hash = CAPWAP_TIMEOUT_HASH_COUNT /\
    forall k, hash_lookup hash k = if k =? i then None else hash_lookup (itemsreference t) k.
Proof.
  intros Hok Hi Hf.
  destruct (alone_delete fuel _ i (ok_table t Hok) (small_alone t i Hok Hi) Hf) as (hash & E & Hinv & Hs & Hl).
  exists hash. rewrite Hs, (ok_size t Hok). split_and!; try done. intros k. rewrite Hl.
  by case_bool_decide; case_match; bools.
Qed.

Lemma timers_add fuel t i :
  timers_ok t -> small i ->
  exists hash, capwap_hash_add fuel (itemsreference t) i = Some hash /\ hash_inv hash /\
    hashsize hash = CAPWAP_TIMEOUT_HASH_COUNT /\
    forall k, hash_lookup hash k = if k =? i then Some i else hash_lookup (itemsreference t) k.
Proof.
  intros Hok Hi.
  destruct (alone_add fuel _ i (ok_table t Hok) (small_alone t i Hok Hi)) as (hash & E & Hinv & Hs & Hl).
  exists hash. rewrite Hs, (ok_size t Hok). split_and!; try done. intros k. rewrite Hl.
  by case_bool_decide; case_match; bools.
Qed.

(** Replacing the timer with an index, or adding it. *)
Lemma timers_ok_add words hash l it :
  zlen words = CAPWAP_TIMEOUT_BITFIELD_SIZE -> hash_inv hash ->
  hashsize hash = CAPWAP_TIMEOUT_HASH_COUNT -> small (index it) ->
  NoDup (index <$> l) -> Forall small (index <$> l) -> index it ∉ (index <$> l) ->
  (forall i, hash_lookup hash i =
     if bool_decide (i = index it \/ i ∈ (index <$> l)) then Some i else None) ->
  timers_ok (Timeout words hash (capwap_timeout_additem l it)).
Proof.
  intros Hw Hh Hs Hi Hnd Hsm Hni Hlk.
  pose proof (fmap_Permutation index _ _ (additem_perm [] l it)) as Hp. cbn in Hp.
  constructor; cbn [timeoutbitfield itemsreference itemstimeout]; try done; unfold capwap_timeout_additem.
  - intros i. rewrite Hlk. rewrite (bool_decide_ext _ (i ∈ index <$> additem [] l it)); [done|].
    rewrite Hp. set_solver.
  - rewrite Hp. by constructor.
  - rewrite Hp. by constructor.
Qed.

(** Enough fuel for the searches of a table of small indices. *)
Definition enough (fuel : nat) : Prop := (3 <= fuel)%nat.

Lemma set_spec fuel t i d cb now :
  timers_ok t -> enough fuel -> small i ->
  exists t', capwap_timeout_set fuel t i d cb now = Some (i, t') /\ timers_ok t' /\
    timeoutbitfield t' = timeoutbitfield t /\
    itemstimeout t' = capwap_timeout_additem (remove_timer i (itemstimeout t))
                        (TimeoutItem i d (capwap_timeout_setexpire d now) cb).
Proof.
  intros Hok Hf Hi. pose proof Hok as [Hw Ht Hsz Hl Hnd Hs]. unfold capwap_timeout_set.
  unfold small, CAPWAP_TIMEOUT_INDEX_NO_SET in *. decide_if.
  rewrite timers_search by done. obind.
  case_bool_decide as Hin.
  - eexists. split; [done|]. split_and!; [|done..]. apply timers_ok_add; try done.
    + by apply NoDup_remove_timer.
    + apply Forall_forall. intros k [Hk _]%elem_of_remove_timer. rewrite Forall_forall in Hs. by apply Hs.
    + cbn. intros [_ Hk]%elem_of_remove_timer. done.
    + intros k. rewrite Hl. cbn. erewrite (bool_decide_ext _ _); [reflexivity|].
      rewrite elem_of_remove_timer. destruct (decide (k = i)) as [->|]; tauto.
  - unfold set_new. destruct (timers_add fuel t i Hok Hi) as (hash & -> & Hinv & Hsz' & Hlk). obind.
    rewrite remove_timer_notin by done.
    eexists. split; [done|]. split_and!; [|done..]. apply timers_ok_add; try done.
    intros k. rewrite Hlk, Hl. cbn. destruct (Z.eqb_spec k i) as [->|Hne].
    + by rewrite bool_decide_true by by left.
    + erewrite (bool_decide_ext _ _); [reflexivity|]. tauto.
Qed.

(** Removing an index from both. *)
Lemma timers_ok_remove words hash l l' i :
  zlen words = CAPWAP_TIMEOUT_BITFIELD_SIZE -> hash_inv hash ->
  hashsize hash = CAPWAP_TIMEOUT_HASH_COUNT -> NoDup (index <$> l) -> Forall small (index <$> l) ->
  l' = remove_timer i l ->
  (forall k, hash_lookup hash k =
     if k =? i then None else if bool_decide (k ∈ (index <$> l)) then Some k else None) ->
  timers_ok (Timeout words hash l').
Proof.
  intros Hw Hh Hs Hnd Hsm -> Hlk. constructor; cbn [timeoutbitfield itemsreference itemstimeout]; try done.
  - intros k. rewrite Hlk. destruct (Z.eqb_spec k i) as [->|Hne].
    + rewrite bool_decide_false; [done|]. by intros [_ Hk]%elem_of_remove_timer.
    + erewrite (bool_decide_ext _ _); [reflexivity|]. rewrite elem_of_remove_timer. tauto.
  - by apply NoDup_remove_timer.
  - apply Forall_forall. intros k [Hk _]%elem_of_remove_timer. rewrite Forall_forall in Hsm. by apply Hsm.
Qed.

Lemma unset_spec fuel t i :
  timers_ok t -> enough fuel -> small i ->
  exists t', capwap_timeout_unset fuel t i = Some t' /\ timers_ok t' /\
    timeoutbitfield t' = timeoutbitfield t /\ itemstimeout t' = remove_timer i (itemstimeout t).
Proof.
  intros Hok Hf Hi. pose proof Hok as [Hw Ht Hsz Hl Hnd Hs]. unfold capwap_timeout_unset.
  unfold enough in Hf. unfold small, CAPWAP_TIMEOUT_INDEX_NO_SET, CAPWAP_TIMEOUT_HASH_COUNT in *. decide_if.
  rewrite timers_search by (done || lia). obind.
  case_bool_decide as Hin.
  - destruct (timers_delete fuel t i Hok) as (hash & -> & Hinv & Hsz' & Hlk); [done|lia|]. obind.
    eexists. split; [done|]. split_and!; [|done..].
    apply (timers_ok_remove _ _ (itemstimeout t) _ i); try done.
    intros k. by rewrite Hlk, Hl.
  - exists t. rewrite remove_timer_notin by done. done.
Qed.

(** Releasing a timer removes it from the list and the table and makes its
    index free again, and nothing else. *)
Lemma delete_spec fuel t i :
  timers_ok t -> enough fuel -> small i ->
  exists t', capwap_timeout_deletetimer fuel t i = Some t' /\ timers_ok t' /\
    itemstimeout t' = remove_timer i (itemstimeout t) /\
    forall k, 1 <= k -> in_use (timeoutbitfield t') k = negb (k =? i) && in_use (timeoutbitfield t) k.
Proof.
  intros Hok Hf Hi. destruct (unset_spec fuel t i Hok Hf Hi) as (t1 & E1 & Hok1 & Hw1 & Hl1).
  unfold capwap_timeout_deletetimer. unfold small, CAPWAP_TIMEOUT_HASH_COUNT in Hi.
  unfold CAPWAP_TIMEOUT_INDEX_NO_SET. decide_if. rewrite E1. obind.
  destruct (clear_bitfield_spec t1 i) as (t2 & E2 & Ht & Hl & Hlen & Hu).
  { rewrite (ok_words t1 Hok1). unfold CAPWAP_TIMEOUT_BITFIELD_SIZE. lia. }
  exists t2. rewrite Hw1 in Hu. split_and!; try done; [|congruence].
  destruct Hok1. constructor; rewrite ?Ht, ?Hl, ?Hlen; done.
Qed.

(** The timers that are set have indices in use. *)
Definition timers_used t : Prop :=
  Forall (fun i => in_use (timeoutbitfield t) i = true) (index <$> itemstimeout t).

(** One of the indices with a bucket of its own is free. *)
Definition timers_free t : Prop := exists i, small i /\ in_use (timeoutbitfield t) i = false.

Lemma remove_timer_zero t : timers_ok t -> remove_timer CAPWAP_TIMEOUT_INDEX_NO_SET (itemstimeout t) = itemstimeout t.
Proof.
  intros Hok. apply remove_timer_notin. intros Hk. pose proof (ok_small t Hok) as Hs.
  rewrite Forall_forall in Hs. by destruct (Hs _ Hk).
Qed.

(** Releasing a timer that may not have been set. *)
Lemma release_spec fuel t i :
  timers_ok t -> timers_used t -> enough fuel -> i = CAPWAP_TIMEOUT_INDEX_NO_SET \/ small i ->
  exists t', capwap_timeout_deletetimer fuel t i = Some t' /\ timers_ok t' /\ timers_used t' /\
    itemstimeout t' = remove_timer i (itemstimeout t) /\ (timers_free t -> timers_free t').
Proof.
  intros Hok Hu Hf [->|Hi].
  - exists t. split_and!; try done. by rewrite remove_timer_zero.
  - destruct (delete_spec fuel t i Hok Hf Hi) as (t' & E & Hok' & Hl & Hb). exists t'. split_and!; try done.
    + unfold timers_used in *. rewrite Hl. rewrite Forall_forall in Hu. apply Forall_forall.
      intros k [Hk Hne]%elem_of_remove_timer. pose proof (ok_small t Hok) as Hs. rewrite Forall_forall in Hs.
      rewrite Hb, (Hu k Hk) by (destruct (Hs k Hk); lia). by rewrite (proj2 (Z.eqb_neq k i)).
    + intros (k & Hk & Hfree). exists k. split; [done|]. rewrite Hb, Hfree by (destruct Hk; lia).
      apply andb_false_r.
Qed.

(** A timer set for the first time gets an index that no other timer has. *)
Lemma set_free_spec fuel t d cb now :
  timers_ok t -> timers_used t -> timers_free t ->
  exists i t', capwap_timeout_set fuel t CAPWAP_TIMEOUT_INDEX_NO_SET d cb now = Some (i, t') /\
    timers_ok t' /\ timers_used t' /\ small i /\ i ∉ (index <$> itemstimeout t) /\
    itemstimeout t' = capwap_timeout_additem (itemstimeout t)
                        (TimeoutItem i d (capwap_timeout_setexpire d now) cb).
Proof.
  intros Hok Hu (j & Hj & Hfree). unfold capwap_timeout_set. cbn.
  pose proof (createtimer_spec t) as Hc. destruct (capwap_timeout_createtimer t) as [i t1].
  destruct Hc as (Er & El & Hlen & Hc). unfold small, CAPWAP_TIMEOUT_HASH_COUNT in Hj.
  pose proof (ok_words t Hok) as Hw. unfold CAPWAP_TIMEOUT_BITFIELD_SIZE in Hw.
  destruct Hc as [(_ & _ & Hall)|(Hi & Hn & Hmin & Hset)].
  { rewrite Hall in Hfree by lia. done. }
  assert (Hsm : small i).
  { split; [lia|]. unfold CAPWAP_TIMEOUT_HASH_COUNT. destruct (decide (i <= j)); [lia|].
    rewrite Hmin in Hfree by lia. done. }
  unfold timers_used in Hu. rewrite Forall_forall in Hu.
  assert (Hni : i ∉ (index <$> itemstimeout t)) by (intros Hin; specialize (Hu i Hin); cbn in Hu; congruence).
  assert (Hok1 : timers_ok t1).
  { destruct Hok. constructor; rewrite ?Er, ?El, ?Hlen; done. }
  unfold set_new. destruct (timers_add fuel t1 i Hok1 Hsm) as (hash & -> & Hinv & Hsz & Hlk). obind.
  eexists i, _. split; [done|]. rewrite <- El in *. split_and!; try done.
  - pose proof Hok1 as [Hw1 _ _ Hl Hnd Hs]. apply timers_ok_add; try done.
    intros k. rewrite Hlk, Hl. cbn. destruct (Z.eqb_spec k i) as [->|Hne].
    + by rewrite bool_decide_true by by left.
    + erewrite (bool_decide_ext _ _); [reflexivity|]. tauto.
  - unfold timers_used, capwap_timeout_additem. cbn [timeoutbitfield itemstimeout]. rewrite additem_perm. cbn.
    constructor; [rewrite Hset by lia; by rewrite Z.eqb_refl|].
    apply Forall_forall. intros k Hk. rewrite Hset, Hu by (try done; pose proof (ok_small t1 Hok1) as Hs;
      rewrite Forall_forall in Hs; specialize (Hs k Hk); unfold small in Hs; lia).
    apply orb_true_r.
Qed.

(** Firing the first timer. *)
Lemma hasexpired_spec fuel t it l now :
  timers_ok t -> enough fuel -> itemstimeout t = it :: l ->
  capwap_timeout_getdelta (expire it) now <= 0 ->
  exists t', capwap_timeout_hasexpired fuel t now = Some (index it, Some it, t') /\ timers_ok t' /\
    timeoutbitfield t' = timeoutbitfield t /\ itemstimeout t' = l.
Proof.
  intros Hok Hf El Hd. pose proof Hok as [Hw Ht Hsz Hl Hnd Hs].
  unfold capwap_timeout_hasexpired, capwap_timeout_getcoming. rewrite El.
  rewrite (proj2 (Z.leb_le _ _)) by done. cbn [orb Z.ltb Z.compare]. cbn. rewrite El.
  rewrite El in Hnd, Hs. cbn in Hnd, Hs. apply NoDup_cons in Hnd as [Hn Hnd]. apply Forall_cons in Hs as [Hi Hs].
  destruct (timers_delete fuel t (index it) Hok Hi) as (hash & -> & Hinv & Hsz' & Hlk).
  { unfold enough, CAPWAP_TIMEOUT_HASH_COUNT in Hf. lia. }
  obind. eexists. split; [done|]. split_and!; [|done..].
  apply (timers_ok_remove _ _ (it :: l) _ (index it)); try done.
  - cbn. by constructor.
  - cbn. by constructor.
  - unfold remove_timer. cbn. rewrite Z.eqb_refl. cbn. symmetry. by apply remove_timer_notin.
  - intros k. by rewrite Hlk, Hl, El.
Qed.

(** Nothing fires while the first timer has not expired, and a jump of the
    clock backwards restarts all of them. *)
Lemma hasexpired_wait fuel t it l now :
  itemstimeout t = it :: l -> 0 < capwap_timeout_getdelta (expire it) now -> 0 < durate it ->
  exists t', capwap_timeout_hasexpired fuel t now = Some (0, None, t') /\
    itemsreference t' = itemsreference t /\ (index <$> itemstimeout t') = (index <$> itemstimeout t) /\
    (capwap_timeout_getdelta (expire it) now <= durate it -> t' = t).
Proof.
  intros El Hd Hdu. unfold capwap_timeout_hasexpired, capwap_timeout_getcoming. rewrite El.
  decide_if. destruct (Z.leb_spec (capwap_timeout_getdelta (expire it) now) (durate it)) as [Hle|Hgt].
  - rewrite (proj2 (Z.ltb_lt _ _)) by done. exists t. split_and!; try done. by rewrite El.
  - rewrite (proj2 (Z.ltb_lt _ _)) by done. eexists. split_and!; [done|done| |lia].
    cbn [itemstimeout]. rewrite ?El, <- list_fmap_compose. by apply list_fmap_ext.
Qed.

Lemma setexpire_delta d now :
  0 <= d -> 0 <= tv_usec now < 1000000 ->
  let delta := capwap_timeout_getdelta (capwap_timeout_setexpire d now) now in
  d - d mod 1000 <= delta <= d - d mod 1000 + 1 /\ (d mod 1000 = 0 -> delta = d).
Proof.
  intros Hd Hu. unfold capwap_timeout_setexpire, capwap_timeout_getdelta.
  rewrite Z.quot_div_nonneg, Z.rem_mod_nonneg by lia. pose proof (Z.mod_pos_bound d 1000 ltac:(lia)) as Hm.
  pose proof (Z.div_mod d 1000 ltac:(lia)) as Hdm.
  destruct (1000000 <=? tv_usec now + d mod 1000) eqn:E; bools; cbn [tv_sec tv_usec].
  - set (x := tv_usec now + d mod 1000 - 1000000 - tv_usec now).
    assert (Hx : Z.quot x 1000 = -999).
    { replace x with (- (1000000 - d mod 1000)) by (unfold x; lia). rewrite Z.quot_opp_l by lia.
      rewrite Z.quot_div_nonneg by lia. replace ((1000000 - d mod 1000) / 1000) with 999; [done|].
      Z.div_mod_to_equations. lia. }
    rewrite Hx. lia.
  - replace (tv_usec now + d mod 1000 - tv_usec now) with (d mod 1000) by lia.
    rewrite Z.quot_small by lia. lia.
Qed.

Lemma init_ok : timers_ok capwap_timeout_init.
Proof.
  destruct (hash_create_inv (D:=Z) (K:=Z) CAPWAP_TIMEOUT_HASH_COUNT (timeout_sized 128 eq_refl)) as [Hinv Hl].
  constructor; cbn [timeoutbitfield itemsreference itemstimeout capwap_timeout_init]; try done.
  constructor.
Qed.

End Timers.
