(* ===== verification/HashProps.v ===== *)
(** Properties of the containers: linked lists, growing arrays, hash tables and
    timers. *)
From stdpp Require Import option sets.
From S2P Require Import Bitfield CapwapHash CapwapHashSpec CapwapHashDelete Timeout TimeoutSpec.
From S2P Require Import CapwapList Prelude Io Header CapwapArray.

(** ** Linked lists *)

(** Three items, each with a block of its own. *)
Definition sample_memory : memory :=
  Memory (list_to_map [(1%positive, ListItem (Some 11%positive) 4 true None None);
                       (2%positive, ListItem (Some 12%positive) 4 true None None);
                       (3%positive, ListItem (Some 13%positive) 4 true None None)])
    {[11%positive; 12%positive; 13%positive]}.

Definition sample_ops : list list_op :=
  [InsertAfter None 1%positive; InsertBefore (Some 1%positive) 2%positive;
   InsertAfter (Some 2%positive) 3%positive; Remove 1%positive; RemoveHead].

(** C38: every sequence of insertions and removals that makes sense on a
    sequence of items runs on the linked list without touching a null or
    unallocated pointer, returns the items the sequence returns, leaves the
    links in both directions, the two ends and the count of the resulting
    sequence, and changes nothing but links. *)
Theorem list_operations_refine `{Target} m l ls ops rs ls' :
  list_inv m l ls -> (forall x, Some x ∈ op_item <$> ops -> is_Some (items m !! x)) ->
  seq_ops ls ops = Some (rs, ls') ->
  exists m' l', run_ops m l ops = Some (rs, m', l') /\ list_inv m' l' ls' /\ same_payloads m m'.
Proof. apply run_ops_refines. Qed.

Lemma list_operations_refine_witness :
  exists m' l', @run_ops lp64 sample_memory capwap_list_create sample_ops =
      Some ([None; None; None; Some 1%positive; Some 2%positive], m', l') /\
    @list_inv lp64 m' l' [3%positive].
Proof.
  destruct (@list_operations_refine lp64 sample_memory capwap_list_create [] sample_ops
    [None; None; None; Some 1%positive; Some 2%positive] [3%positive]) as (m' & l' & E & Hinv & _).
  - split_and!; try done. apply NoDup_nil_2.
  - intros x Hx. cbn in Hx. rewrite !elem_of_cons in Hx.
    destruct Hx as [[= ->]|[[= ->]|[[= ->]|[[=]|[[=]|Hx]]]]]; [by eexists..|].
    by apply not_elem_of_nil in Hx.
  - reflexivity.
  - by exists m', l'.
Defined.

(** releasing a list releases its items and the blocks of those that own
    one, each once, leaves every other item and block alone, and ends within as
    many turns as there are items. *)
Lemma list_flush_correct `{Target} fuel m l ls :
  list_inv m l ls -> releasable m ls -> (length ls <= fuel)%nat ->
  exists m', capwap_list_flush fuel m l = Some (m', capwap_list_create) /\
    blocks m' = blocks m ∖ list_to_set (owned (items m) ls) /\
    (forall x, items m' !! x = if decide (x ∈ ls) then None else items m !! x).
Proof.
  intros (Hnd & Hl & Hf & _) Hr Hfuel.
  destruct (flush_loop_spec ls m None fuel Hnd Hl Hr Hfuel) as (m' & E & Hb & Hi).
  exists m'. unfold capwap_list_flush. rewrite Hf, E. done.
Qed.

Lemma list_flush_correct_witness :
  exists m' l' m'', @run_ops lp64 sample_memory capwap_list_create (take 3 sample_ops) =
      Some ([None; None; None], m', l') /\
    capwap_list_flush 3 m' l' = Some (m'', capwap_list_create) /\ blocks m'' = ∅.
Proof.
  destruct (@run_ops_refines lp64 sample_memory capwap_list_create [] (take 3 sample_ops)
    [None; None; None] [2%positive; 3%positive; 1%positive]) as (m' & l' & E & Hinv & Hp).
  - split_and!; try done. apply NoDup_nil_2.
  - intros x Hx. cbn in Hx. rewrite !elem_of_cons in Hx.
    destruct Hx as [[= ->]|[[= ->]|[[= ->]|Hx]]]; [by eexists..|]. by apply not_elem_of_nil in Hx.
  - reflexivity.
  - assert (Em : @run_ops lp64 sample_memory capwap_list_create (take 3 sample_ops) =
      Some ([None; None; None], m', l')) by exact E.
    vm_compute in E. injection E as <- <-.
    destruct (@list_flush_correct lp64 3 _ _ _ Hinv) as (m'' & Hf & Hb & _).
    + split_and!; [by_computation..|].
      repeat constructor; intros it Hit _; vm_compute in Hit; injection Hit as <-; by eexists.
    + cbn. lia.
    + do 2 eexists. exists m''. split; [exact Em|]. split; [done|]. rewrite Hb. by_computation.
Defined.

(** ** Arrays *)

(** Asking for the item at a position grows the array as needed, with new
    items that are zero when the array is made so, and a value stored through
    the pointer is the item at that position and no other; the pointer and the
    item stay within the buffer. *)
Lemma array_store_correct `{Indeterminate} `{Target} (a : Array.capwap_array) pos bs :
  Array.array_inv a -> 0 <= pos -> Array.fits a (pos + 1) -> zlen bs = Array.itemsize a ->
  exists p a1 a2, Array.capwap_array_get_item_pointer a pos = Some (p, a1) /\
    Array.store_item a1 p bs = Some a2 /\ Array.array_inv a2 /\
    Array.count a2 = Z.max (Array.count a) (pos + 1) /\
    Array.contents a2 = <[Z.to_nat pos := bs]>
      (Array.contents a ++
       replicate (Z.to_nat (pos + 1) - Z.to_nat (Array.count a)) (Array.new_item a)).
Proof.
  intros Ha Hp Hf Hl.
  destruct (Array.get_item_pointer_spec a pos Ha Hp Hf) as (a1 & E1 & Ha1 & Hi & Hz & Hc & Hcont).
  destruct (Array.store_item_spec a1 pos bs Ha1) as (a2 & E2 & Ha2 & Hc2 & _ & _ & Hcont2); [lia|lia|].
  exists (Array.itemsize a * pos), a1, a2. rewrite Hi in E2. split_and!; try done; [lia|].
  by rewrite Hcont2, Hcont.
Qed.

Definition sample_array : Array.capwap_array := Array.CArray (Some [1; 2; 3; 4]) 2 2 true.

Lemma array_store_correct_witness :
  exists p a1 a2, @Array.capwap_array_get_item_pointer zero_memory lp64 sample_array 3 = Some (p, a1) /\
    Array.store_item a1 p [7; 8] = Some a2 /\ Array.contents a2 = [[1; 2]; [3; 4]; [0; 0]; [7; 8]].
Proof.
  destruct (@array_store_correct zero_memory lp64 sample_array 3 [7; 8])
    as (p & a1 & a2 & E1 & E2 & _ & _ & E3).
  - unfold Array.array_inv, Array.fits. cbn. lia.
  - lia.
  - unfold Array.fits. cbn. lia.
  - reflexivity.
  - exists p, a1, a2. split; [exact E1|]. split; [exact E2|]. rewrite E3. reflexivity.
Defined.

(** a copy of an array has the same items. *)
Lemma array_clone_correct `{Indeterminate} `{Target} (a : Array.capwap_array) :
  Array.array_inv a ->
  exists a', Array.capwap_array_clone a = Some a' /\ Array.array_inv a' /\
    Array.itemsize a' = Array.itemsize a /\ Array.zeroed a' = Array.zeroed a /\
    Array.contents a' = Array.contents a.
Proof. apply Array.clone_spec. Qed.

Lemma array_clone_correct_witness :
  exists a', @Array.capwap_array_clone zero_memory lp64 sample_array = Some a' /\
    Array.contents a' = [[1; 2]; [3; 4]].
Proof.
  destruct (@array_clone_correct zero_memory lp64 sample_array) as (a' & E & _ & _ & _ & Hc).
  - unfold Array.array_inv, Array.fits. cbn. lia.
  - exists a'. split; [exact E|]. rewrite Hc. reflexivity.
Defined.

#[local] Open Scope Z_scope.

(** ** Hash tables *)

Import Bitfield CapwapHash CapwapHashSpec CapwapHashDelete Timeout TimeoutSpec.

(** C39: adding to a table of balanced, sorted buckets ends without a null
    dereference, with at most two turns for each level of the tree, keeps the
    buckets balanced with exact heights, sorted and in their places, and is
    insertion into the map the table holds. *)
Theorem hash_add_correct {D K} `{HashLaws D K} `{Target} fuel (hash : capwap_hash D) (data : D) :
  hash_inv hash -> 2 * (total (items hash) + 1) <= Z.of_nat fuel ->
  exists hash', capwap_hash_add fuel hash data = Some hash' /\ hash_inv hash' /\
    hashsize hash' = hashsize hash /\
    (forall key, hash_lookup hash' key =
       if item_cmp key (item_getkey data) =? 0 then Some data else hash_lookup hash key).
Proof. apply hash_add_spec. Qed.

Lemma hash_add_correct_witness :
  exists hash, @capwap_hash_add Z Z _ lp64 2 (capwap_hash_create 128) 7 = Some hash /\
    hash_lookup hash 7 = Some 7 /\ hash_lookup hash 135 = None.
Proof.
  destruct (@hash_create_inv Z Z _ lp64 128 (timeout_sized 128 eq_refl)) as [Hinv _].
  destruct (@hash_add_correct Z Z _ _ lp64 2 (capwap_hash_create 128) 7 Hinv) as (hash & E & _ & _ & Hl).
  - vm_compute. discriminate.
  - exists hash. split; [exact E|]. rewrite !Hl. split; reflexivity.
Defined.

(** Several additions. *)
Fixpoint add_all {D K} `{HashOps D K} `{Target} (fuel : nat) (hash : capwap_hash D) (ds : list D)
    : option (capwap_hash D) :=
  match ds with
  | [] => Some hash
  | d :: ds => hash ← capwap_hash_add fuel hash d; add_all fuel hash ds
  end.

(** Four timers that share a bucket. *)
Definition sample_table : capwap_hash Z :=
  default (capwap_hash_create 128) (@add_all Z Z _ lp64 20 (capwap_hash_create 128) [1; 129; 257; 385]).

Lemma sample_table_inv : @hash_inv Z Z _ lp64 sample_table.
Proof.
  destruct (@hash_create_inv Z Z _ lp64 128 (timeout_sized 128 eq_refl)) as [Hinv _].
  unfold sample_table, add_all.
  do 4 (edestruct (@hash_add_spec Z Z _ _ lp64 20) as (? & E & Hinv' & _); [exact Hinv| |
    rewrite E; clear Hinv; rename Hinv' into Hinv; vm_compute in E; injection E as <-; cbn [mbind option_bind];
    cbv beta iota delta [mbind option_bind]];
    [vm_compute; discriminate|]).
  exact Hinv.
Qed.

(** C40: the outcome of a search in a balanced table.  When the key is at the
    root of its bucket or at a child of the root, or the way to it ends there,
    the result is the value the table holds, within three turns; otherwise the
    search never ends, whether or not the table holds the key. *)
Theorem hash_search_outcome {D K} `{HashLaws D K} `{Target} fuel (hash : capwap_hash D) (key : K) :
  hash_inv hash ->
  exists t, bucket hash (item_gethash key (hashsize hash)) = Some t /\
    (search_ends key t = true -> (3 <= fuel)%nat ->
     capwap_hash_search fuel hash key = Some (hash_lookup hash key)) /\
    (search_ends key t = false -> capwap_hash_search fuel hash key = None).
Proof. apply hash_search_spec. Qed.

Lemma hash_search_outcome_witness :
  @capwap_hash_search Z Z _ 3 sample_table 257 = Some (Some 257) /\
  (forall fuel, @capwap_hash_search Z Z _ fuel sample_table 385 = None) /\
  hash_lookup sample_table 385 = Some 385.
Proof.
  split; [|split].
  - destruct (@hash_search_outcome Z Z _ _ lp64 3 sample_table 257 sample_table_inv) as (t & E & H1 & _).
    vm_compute in E. injection E as <-. rewrite H1; [reflexivity..|lia].
  - intros fuel.
    destruct (@hash_search_outcome Z Z _ _ lp64 fuel sample_table 385 sample_table_inv) as (t & E & _ & H2).
    vm_compute in E. injection E as <-. apply H2. reflexivity.
  - reflexivity.
Defined.

(** walking a table shows the items to the callback bucket after bucket,
    in the order of their keys, until it answers to break, threads its state,
    and then deletes exactly the items it marked; deletion meets no null
    pointer and keeps the buckets sorted and the count right. *)
Lemma hash_foreach_correct {D K} `{HashLaws D K} `{Target} {P}
    (item_foreach : D -> P -> Z * P) (hash : capwap_hash D) (param : P) :
  hash_sorted hash ->
  exists hash', let '(_, marked, param') := walk item_foreach (all_items (items hash)) [] param in
    capwap_hash_foreach item_foreach hash param = Some (hash', param') /\ hash_sorted hash' /\
    forall k, hash_lookup hash' k = if marked_key marked k then None else hash_lookup hash k.
Proof. apply hash_foreach_spec. Qed.

(** Counts the items and deletes those above 200. *)
Definition sample_foreach (d n : Z) : Z * Z :=
  (if 200 <? d then HASH_DELETE_AND_CONTINUE else HASH_CONTINUE, n + 1).

Lemma hash_foreach_correct_witness :
  exists hash', @capwap_hash_foreach Z Z _ lp64 _ sample_foreach sample_table 0 = Some (hash', 4) /\
    hash_lookup hash' 129 = Some 129 /\ hash_lookup hash' 257 = None.
Proof.
  destruct (@hash_foreach_correct Z Z _ _ lp64 Z sample_foreach sample_table 0) as (hash' & E).
  - apply hash_inv_sorted, sample_table_inv.
  - assert (Ew : walk sample_foreach (all_items (items sample_table)) [] 0 = (HASH_CONTINUE, [385; 257], 4))
      by (vm_compute; reflexivity).
    rewrite Ew in E. destruct E as (E & _ & Hl). exists hash'. split; [exact E|].
    rewrite !Hl. split; reflexivity.
Defined.

(** Deleting a key from a balanced table, when its search ends, deletes
    that key and no other; otherwise the deletion never ends. *)
Lemma hash_delete_outcome {D K} `{HashLaws D K} `{Target} fuel (hash : capwap_hash D) (key : K) :
  hash_inv hash ->
  exists t, bucket hash (item_gethash key (hashsize hash)) = Some t /\
    (search_ends key t = true -> (3 <= fuel)%nat ->
     exists hash', capwap_hash_delete fuel hash key = Some hash' /\ hash_sorted hash' /\
       (forall k, hash_lookup hash' k = if item_cmp k key =? 0 then None else hash_lookup hash k)) /\
    (search_ends key t = false -> capwap_hash_delete fuel hash key = None).
Proof. apply hash_delete_spec. Qed.

Lemma hash_delete_outcome_witness :
  exists hash', @capwap_hash_delete Z Z _ lp64 3 sample_table 129 = Some hash' /\
    hash_lookup hash' 129 = None /\ hash_lookup hash' 385 = Some 385.
Proof.
  destruct (@hash_delete_outcome Z Z _ _ lp64 3 sample_table 129 sample_table_inv) as (t & E & H1 & _).
  vm_compute in E. injection E as <-. destruct H1 as (hash' & E & _ & Hl); [reflexivity|lia|].
  exists hash'. split; [exact E|]. rewrite !Hl. split; reflexivity.
Defined.

(** ** Timers *)

(** a new timer gets the smallest index that is not in use, between 1 and
    4096, and marks that index only; the answer is 0 exactly when all of them
    are in use. *)
Lemma timer_index_allocation {C} (t : capwap_timeout C) :
  zlen (timeoutbitfield t) = CAPWAP_TIMEOUT_BITFIELD_SIZE ->
  let '(i, t') := capwap_timeout_createtimer t in
  itemstimeout t' = itemstimeout t /\ itemsreference t' = itemsreference t /\
  ((i = CAPWAP_TIMEOUT_INDEX_NO_SET /\ t' = t /\
    forall k, 1 <= k <= 4096 -> in_use (timeoutbitfield t) k = true) \/
   (1 <= i <= 4096 /\ in_use (timeoutbitfield t) i = false /\
    (forall k, 1 <= k < i -> in_use (timeoutbitfield t) k = true) /\
    forall k, 1 <= k -> in_use (timeoutbitfield t') k = (k =? i) || in_use (timeoutbitfield t) k)).
Proof.
  intros Hw. pose proof (createtimer_spec t) as Hs. rewrite Hw in Hs.
  destruct (capwap_timeout_createtimer t) as [i t']. destruct Hs as (? & ? & _ & Hs). done.
Qed.

Lemma timer_index_allocation_witness :
  let '(i, t') := capwap_timeout_createtimer (@capwap_timeout_init unit) in
  i = 1 /\ in_use (timeoutbitfield t') 1 = true /\ in_use (timeoutbitfield t') 2 = false.
Proof.
  pose proof (@timer_index_allocation unit capwap_timeout_init eq_refl) as Hs.
  destruct (capwap_timeout_createtimer capwap_timeout_init) as [i t'] eqn:E.
  destruct Hs as (_ & _ & [(-> & _)|(Hi & _ & _ & Hu)]).
  - vm_compute in E. discriminate E.
  - assert (i = 1) as -> by (vm_compute in E; congruence). split; [done|].
    rewrite !Hu by lia. split; reflexivity.
Defined.

(** Setting a timer, whether it is set already or not, ends, leaves
    exactly one timer with that index, with the new duration and callback,
    keeps every other timer, and keeps the list and the table in agreement, for
    the 128 indices that fall into different buckets of the table. *)
Lemma timer_set_correct {C} `{Target} fuel (t : capwap_timeout C) i d cb now :
  timers_ok t -> enough fuel -> small i ->
  exists t', capwap_timeout_set fuel t i d cb now = Some (i, t') /\ timers_ok t' /\
    timeoutbitfield t' = timeoutbitfield t /\
    itemstimeout t' ≡ₚ TimeoutItem i d (capwap_timeout_setexpire d now) cb ::
                       remove_timer i (itemstimeout t).
Proof.
  intros Hok Hf Hi. destruct (set_spec fuel t i d cb now Hok Hf Hi) as (t' & E & Hok' & Hw & Hl).
  exists t'. split_and!; try done. rewrite Hl. apply (additem_perm []).
Qed.

(** A control timer of 5 seconds. *)
Lemma timer_set_correct_witness :
  exists t', @capwap_timeout_set unit lp64 258 capwap_timeout_init 3 5000 tt (Timeval 100 0) = Some (3, t') /\
    @timers_ok unit lp64 t' /\ length (itemstimeout t') = 1%nat.
Proof.
  destruct (@timer_set_correct unit lp64 258 capwap_timeout_init 3 5000 tt (Timeval 100 0))
    as (t' & E & Hok & _ & Hp).
  - apply init_ok.
  - unfold enough. lia.
  - unfold small, CAPWAP_TIMEOUT_HASH_COUNT. lia.
  - exists t'. split; [exact E|]. split; [exact Hok|]. by rewrite Hp.
Defined.

(** A timer that expires between two others is put before the first of
    them, not between them: the list loses its order, and the later timer delays
    the earlier one. *)
Lemma timer_misordered {C} (a b : list (capwap_timeout_item C)) p s it :
  Forall (fun x => 0 <= capwap_timeout_getdelta (expire it) (expire x)) (a ++ [p]) ->
  capwap_timeout_getdelta (expire it) (expire s) < 0 ->
  capwap_timeout_additem (a ++ p :: s :: b) it = a ++ it :: p :: s :: b.
Proof.
  intros Ha Hs. unfold capwap_timeout_additem. change (a ++ p :: s :: b) with (a ++ [p] ++ s :: b).
  rewrite app_assoc, additem_skip by done. rewrite rev_app_distr. cbn. decide_if.
  by rewrite app_nil_r, rev_involutive.
Qed.

Lemma timer_misordered_witness :
  let timer i sec := TimeoutItem i 1000 (Timeval sec 0) tt in
  capwap_timeout_additem [timer 1 10; timer 2 20] (timer 3 15) = [timer 3 15; timer 1 10; timer 2 20].
Proof.
  apply (timer_misordered [] [] (TimeoutItem 1 1000 (Timeval 10 0) tt)); [|reflexivity].
  repeat constructor. vm_compute. discriminate.
Defined.

(** the milliseconds of a duration are added as microseconds: right after
    a timer is set, its remaining time is its duration rounded down to whole
    seconds, give or take one millisecond, and exact for whole seconds. *)
Lemma timer_expiry_truncated d now :
  0 <= d -> 0 <= tv_usec now < 1000000 ->
  let delta := capwap_timeout_getdelta (capwap_timeout_setexpire d now) now in
  d - d mod 1000 <= delta <= d - d mod 1000 + 1 /\ (d mod 1000 = 0 -> delta = d).
Proof. apply setexpire_delta. Qed.

Lemma timer_expiry_truncated_witness :
  capwap_timeout_getdelta (capwap_timeout_setexpire 1999 (Timeval 50 0)) (Timeval 50 0) <= 1001.
Proof. destruct (timer_expiry_truncated 1999 (Timeval 50 0)) as [E _]; [lia|cbn; lia|]. exact (proj2 E). Defined.
