(* ===== verification/Tx.v ===== *)
(** The transmission side of the packet manager
    (src/common/capwap_protocol.c, [capwap_packet_txmng_*] and
    [capwap_fragment_write_*]): a message is written into a list of fragments
    of at most [mtu] bytes.

    [txmngpacket->header] points into the buffer of the first fragment and
    [txmngpacket->ctrlmsg] too, at offset [ctrlmsg]; a list item is the index
    of its fragment. *)
From S2P Require Import Prelude Io Header.

Record capwap_fragment_packet_item := Fragment { size : Z; offset : Z; buffer : list Z }.

Record capwap_packet_txmng := Txmng {
  mtu : Z;
  fragmentlist : list capwap_fragment_packet_item;
  ctrlmsg : Z;
  writerpacketsize : Z
}.

Definition sizeof_capwap_control_message : Z := 8.
Definition CAPWAP_CONTROL_MESSAGE_MIN_LENGTH : Z := 3.

Section Tx.
Context {I : Indeterminate}.

Definition no_fragment : capwap_fragment_packet_item := Fragment 0 0 [].
Definition item_at (tx : capwap_packet_txmng) (item : nat) : capwap_fragment_packet_item :=
  default no_fragment (fragmentlist tx !! item).
Definition set_item (tx : capwap_packet_txmng) (item : nat) (f : capwap_fragment_packet_item)
    : capwap_packet_txmng :=
  Txmng (mtu tx) (<[item := f]> (fragmentlist tx)) (ctrlmsg tx) (writerpacketsize tx).
Definition last_item (tx : capwap_packet_txmng) : nat := (length (fragmentlist tx) - 1)%nat.

(** A fresh fragment at the end of the list.  The [memset] clears
    [sizeof(size_t)] bytes only, less than the header written next. *)
Definition capwap_packet_txmng_create_fragment_item (tx : capwap_packet_txmng)
    : capwap_packet_txmng :=
  Txmng (mtu tx) (fragmentlist tx ++ [Fragment (mtu tx) 0 (fresh (mtu tx))])
    (ctrlmsg tx) (writerpacketsize tx).

(** [ctrlmsg->length], the 16-bit field at offset 5 of the control header. *)
Definition ctrlmsg_length (tx : capwap_packet_txmng) : Z :=
  let b := buffer (item_at tx 0) in
  val16 (byte_at b (ctrlmsg tx + 5)) (byte_at b (ctrlmsg tx + 6)).
Definition set_ctrlmsg_length (tx : capwap_packet_txmng) (n : Z) : capwap_packet_txmng :=
  let f := item_at tx 0 in
  set_item tx 0 (Fragment (size f) (offset f) (write_at (ctrlmsg tx + 5) (be16 n) (buffer f))).

(** The continuation fragment opened when the current one is full: the first
    eight bytes of the message header, without its optional parts. *)
Definition open_fragment (tx : capwap_packet_txmng) : capwap_packet_txmng :=
  let header := take 8 (buffer (item_at tx 0)) in
  let tx := capwap_packet_txmng_create_fragment_item tx in
  let f := item_at tx (last_item tx) in
  let b := write_at 0 header (buffer f) in
  let off := wrap16 (offset f + sizeof_capwap_header) in
  let b := SET_FLAG_M_HEADER b false in
  let b := SET_FLAG_W_HEADER b false in
  let b := SET_HLEN_HEADER b (sizeof_capwap_header / 4) in
  set_item tx (last_item tx)
    (Fragment (wrap16 (size f - Z.rem (size f - off) 8)) off b).

(** The [while] loop of [capwap_fragment_write_block_from_pos], with the
    [length] it leaves.  [None]: the assertion [available > 0] fails in the
    fragment opened or found next.  Neither [data] nor [packetpos] advances. *)
Fixpoint write_loop (fuel : nat) (tx : capwap_packet_txmng) (item : nat) (packetpos : Z)
    (data : list Z) (length : Z) : option (Z * capwap_packet_txmng) :=
  match fuel with
  | O => None
  | S fuel =>
      if 0 <? length then
        let f := item_at tx item in
        let available := wrap16 (Z.min length (size f - packetpos)) in
        let '(tx, item, packetpos) :=
          if available =? 0 then
            if (S item <? List.length (fragmentlist tx))%nat then
              (tx, S item, GET_HLEN_HEADER (buffer (item_at tx (S item))))
            else
              let tx := open_fragment tx in
              (tx, last_item tx, offset (item_at tx (last_item tx)))
          else (tx, item, packetpos) in
        let f := item_at tx item in
        let available := wrap16 (Z.min length (size f - packetpos)) in
        if available =? 0 then None else
        let b := write_at packetpos (take (Z.to_nat available) data) (buffer f) in
        let oldoffset := offset f in
        let newoffset :=
          if oldoffset <? available + packetpos then wrap16 (available + packetpos)
          else oldoffset in
        let tx := set_item tx item (Fragment (size f) newoffset b) in
        let tx := Txmng (mtu tx) (fragmentlist tx) (ctrlmsg tx)
                    (wrap16 (writerpacketsize tx + available)) in
        let tx :=
          if oldoffset <? available + packetpos then
            set_ctrlmsg_length tx (wrap16 (ctrlmsg_length tx + (newoffset - oldoffset)))
          else tx in
        write_loop fuel tx item packetpos data (wrap16 (length - available))
      else Some (length, tx)
  end.

(** It returns [length] as the loop leaves it.  Its assertions: [length > 0],
    and the position is in the fragment. *)
Definition capwap_fragment_write_block_from_pos (tx : capwap_packet_txmng) (data : list Z)
    (item : nat) (pos : Z) : option (Z * capwap_packet_txmng) :=
  let n := wrap16 (zlen data) in
  if (0 <? n) && (pos <=? size (item_at tx item))
  then write_loop (S (Z.to_nat n)) tx item pos data n else None.

Definition capwap_fragment_write_block (tx : capwap_packet_txmng) (data : list Z)
    : option (Z * capwap_packet_txmng) :=
  let item := last_item tx in
  capwap_fragment_write_block_from_pos tx data item (offset (item_at tx item)).

Definition capwap_fragment_write_u8 (tx : capwap_packet_txmng) (data : Z)
    : option (Z * capwap_packet_txmng) :=
  '(r, tx) ← capwap_fragment_write_block tx [wrap8 data];
  mret (if negb (r =? 1) then -1 else 1, tx).

Definition capwap_fragment_write_u16_from_pos (tx : capwap_packet_txmng) (data : Z)
    (item : nat) (pos : Z) : option (Z * capwap_packet_txmng) :=
  '(r, tx) ← capwap_fragment_write_block_from_pos tx (be16 data) item pos;
  mret (if negb (r =? 2) then -1 else 2, tx).

Definition capwap_fragment_write_u16 (tx : capwap_packet_txmng) (data : Z)
    : option (Z * capwap_packet_txmng) :=
  '(r, tx) ← capwap_fragment_write_block tx (be16 data);
  mret (if negb (r =? 2) then -1 else 2, tx).

Definition capwap_fragment_write_u32 (tx : capwap_packet_txmng) (data : Z)
    : option (Z * capwap_packet_txmng) :=
  '(r, tx) ← capwap_fragment_write_block tx (be32 data);
  mret (if negb (r =? 4) then -1 else 4, tx).

#[export] Instance tx_ops : WriteOps capwap_packet_txmng := {
  write_u8 := capwap_fragment_write_u8;
  write_u16 := capwap_fragment_write_u16;
  write_u32 := capwap_fragment_write_u32;
  write_block := capwap_fragment_write_block
}.

(** [header] is the buffer of a [capwap_header_data].  [None]: the assertion
    that the header is smaller than the fragment fails. *)
Definition capwap_packet_txmng_create (header : list Z) (mtu : Z) : option capwap_packet_txmng :=
  let tx := capwap_packet_txmng_create_fragment_item (Txmng mtu [] 0 0) in
  let f := item_at tx 0 in
  let headerlength := wrap16 (GET_HLEN_HEADER header * 4) in
  let sz := wrap16 (size f - Z.rem (size f - headerlength) 8) in
  if negb (headerlength <? sz) then None else
  Some (set_item tx 0
    (Fragment sz (wrap16 (offset f + headerlength))
       (write_at 0 (take (Z.to_nat headerlength) header) (buffer f)))).

(** [None]: NULL when the MTU is too small, and no result when an assertion
    fails: the MTU is 0, or the control header fills the fragment. *)
Definition capwap_packet_txmng_create_ctrl_message (header : list Z) (type seq mtu : Z)
    : option capwap_packet_txmng :=
  let length := wrap16 (GET_HLEN_HEADER header * 4) in
  if negb (0 <? mtu) then None else
  if (0 <? mtu) && (mtu <? length + sizeof_capwap_control_message) then None else
  tx ← capwap_packet_txmng_create header mtu;
  let f := item_at tx (last_item tx) in
  if negb (offset f + sizeof_capwap_control_message <? size f) then None else
  let b := write_at (offset f)
             (be32 type ++ [wrap8 seq] ++ be16 CAPWAP_CONTROL_MESSAGE_MIN_LENGTH ++ [0])
             (buffer f) in
  let tx' := set_item tx (last_item tx)
               (Fragment (size f) (wrap16 (offset f + sizeof_capwap_control_message)) b) in
  Some (Txmng (Tx.mtu tx') (fragmentlist tx') (offset f) (writerpacketsize tx')).

Definition CAPWAP_ELEMENT_VENDORPAYLOAD_TYPE : Z := 37.

(** [capwap_packet_txmng_add_message_element] for an element whose [create]
    makes the calls [cs].  The length of the element is not known before:
    zero is written first and overwritten at the end. *)
Definition add_message_element (tx : capwap_packet_txmng) (vendor type : Z) (cs : list wcall)
    : option capwap_packet_txmng :=
  tx ← snd <$> write_u16 tx (if negb (vendor =? 0) then CAPWAP_ELEMENT_VENDORPAYLOAD_TYPE
                             else type);
  let item := last_item tx in
  let pos := offset (item_at tx item) in
  tx ← snd <$> write_u16 tx 0;
  let tx := Txmng (mtu tx) (fragmentlist tx) (ctrlmsg tx) 0 in
  tx ← (if negb (vendor =? 0)
        then tx ← snd <$> write_u32 tx vendor; snd <$> write_u16 tx type else Some tx);
  tx ← exec tx cs;
  snd <$> capwap_fragment_write_u16_from_pos tx (writerpacketsize tx) item pos.

(** [capwap_packet_txmng_get_fragment_packets]: the loop over the fragments,
    with the offset reached so far. *)
Fixpoint get_fragment_packets (l : list capwap_fragment_packet_item) (fragmentid fragmentoffset : Z)
    : list capwap_fragment_packet_item :=
  match l with
  | [] => []
  | f :: l =>
      let lastone := match l with [] => true | _ => false end in
      let header := buffer f in
      if (fragmentoffset =? 0) && lastone then
        let header := SET_FLAG_F_HEADER header false in
        let header := SET_FRAGMENT_ID_HEADER header 0 in
        let header := SET_FRAGMENT_OFFSET_HEADER header 0 in
        let header := SET_FLAG_L_HEADER header false in
        Fragment (size f) (offset f) header :: get_fragment_packets l fragmentid fragmentoffset
      else
        let header := SET_FLAG_F_HEADER header true in
        let header := SET_FRAGMENT_ID_HEADER header fragmentid in
        let header := SET_FRAGMENT_OFFSET_HEADER header fragmentoffset in
        let header := SET_FLAG_L_HEADER header lastone in
        Fragment (size f) (offset f) header ::
          get_fragment_packets l fragmentid (wrap16 (fragmentoffset + Z.rem (offset f) 8))
  end.

Definition capwap_packet_txmng_get_fragment_packets (tx : capwap_packet_txmng) (fragmentid : Z)
    : list capwap_fragment_packet_item :=
  get_fragment_packets (fragmentlist tx) fragmentid 0.

End Tx.
