(* ===== verification/TxSpec.v ===== *)
(** What the transmission side promises for a message that fits in one
    fragment: it implements the writer interface, every element is appended
    with its type and length, and the control header counts the body. *)
From S2P Require Import Prelude Io Header Tx.

Lemma write_at_app a x bs c :
  length x = length bs -> write_at (zlen a) bs (a ++ x ++ c) = a ++ bs ++ c.
Proof.
  intros Hx. unfold write_at. rewrite Nat2Z.id, take_app_length, <- Hx, drop_app_add'.
  - by rewrite drop_app_length.
  - done.
Qed.

(** The abstract view of a manager with a single fragment: [pre] is what
    precedes the length field (message header, type and sequence number),
    [body] the message elements, [rest] the unused end of the buffer. *)
Definition tx_view (m sz : Z) (pre body rest : list Z) (w : Z) : capwap_packet_txmng :=
  Txmng m
    [Fragment sz (zlen pre + 3 + zlen body) (pre ++ be16 (3 + zlen body) ++ [0] ++ body ++ rest)]
    (zlen pre - 5) w.

(** Room for [n] more bytes. *)
Definition tx_fits (sz : Z) (pre body rest : list Z) (n : Z) : Prop :=
  5 <= zlen pre /\ zlen pre + 3 + zlen body + n <= sz < 65536 /\
  sz <= zlen pre + 3 + zlen body + zlen rest.

Section TxSpec.
Context {I : Indeterminate}.

Lemma item_at_single m f c w : item_at (Txmng m [f] c w) 0 = f.
Proof. done. Qed.

Lemma set_item_single m f g c w : set_item (Txmng m [g] c w) 0 f = Txmng m [f] c w.
Proof. done. Qed.

Lemma ctrlmsg_length_view m sz pre rest w off c :
  5 <= zlen pre ->
  ctrlmsg_length (Txmng m [Fragment sz off (pre ++ be16 c ++ rest)] (zlen pre - 5) w)
    = val16 (wrap8 (c / 256)) (wrap8 c).
Proof.
  intros Hp. unfold ctrlmsg_length, byte_at. rewrite item_at_single. cbn [buffer ctrlmsg].
  rewrite !(lookup_app_r pre) by lia.
  replace (Z.to_nat (zlen pre - 5 + 5) - length pre)%nat with 0%nat by lia.
  replace (Z.to_nat (zlen pre - 5 + 6) - length pre)%nat with 1%nat by lia. done.
Qed.

Lemma set_ctrlmsg_length_view m sz pre rest w off c c' :
  5 <= zlen pre ->
  set_ctrlmsg_length (Txmng m [Fragment sz off (pre ++ be16 c ++ rest)] (zlen pre - 5) w) c'
    = Txmng m [Fragment sz off (pre ++ be16 c' ++ rest)] (zlen pre - 5) w.
Proof.
  intros Hp. unfold set_ctrlmsg_length. rewrite item_at_single. cbn [buffer ctrlmsg size offset].
  replace (zlen pre - 5 + 5) with (zlen pre) by lia. rewrite write_at_app; done.
Qed.

(** The effect of the loop body when the block fits: one copy. *)
Definition store (tx : capwap_packet_txmng) (item : nat) (pos : Z) (data : list Z)
    : capwap_packet_txmng :=
  let f := item_at tx item in
  let newoffset := Z.max (offset f) (zlen data + pos) in
  let tx' := set_item tx item (Fragment (size f) newoffset (write_at pos data (buffer f))) in
  let tx' := Txmng (mtu tx') (fragmentlist tx') (ctrlmsg tx')
               (wrap16 (writerpacketsize tx' + zlen data)) in
  if offset f <? zlen data + pos then
    set_ctrlmsg_length tx' (wrap16 (ctrlmsg_length tx' + (newoffset - offset f)))
  else tx'.

Lemma write_from_pos_fits tx item pos data :
  0 < zlen data < 65536 -> 0 <= pos -> zlen data + pos < 65536 ->
  zlen data <= size (item_at tx item) - pos ->
  capwap_fragment_write_block_from_pos tx data item pos = Some (0, store tx item pos data).
Proof.
  intros Hd Hp Hpd Hfit. unfold capwap_fragment_write_block_from_pos.
  rewrite (wrap16_small (zlen data)), Nat2Z.id by lia.
  replace ((0 <? zlen data) && (pos <=? size (item_at tx item))) with true by lia.
  destruct (length data) as [|k] eqn:Ek; [lia|]. rewrite <- Ek in *.
  cbn [write_loop].
  replace (0 <? zlen data) with true by lia.
  rewrite (Z.min_l (zlen data)), (wrap16_small (zlen data)) by lia.
  replace (zlen data =? 0) with false by lia.
  rewrite (Z.min_l (zlen data)), (wrap16_small (zlen data)) by lia.
  replace (zlen data =? 0) with false by lia.
  rewrite Nat2Z.id, firstn_all, Z.sub_diag. change (wrap16 0) with 0.
  unfold store. destruct (offset (item_at tx item) <? zlen data + pos) eqn:E.
  - rewrite (Z.max_r _ (zlen data + pos)), (wrap16_small (zlen data + pos)) by lia. by rewrite Ek.
  - rewrite Z.max_l by lia. by rewrite Ek.
Qed.

(** Storing at the end of the body. *)
Lemma store_view m sz pre body rest w data :
  tx_fits sz pre body rest (zlen data) -> 0 < zlen data ->
  store (tx_view m sz pre body rest w) 0 (zlen pre + 3 + zlen body) data =
  tx_view m sz pre (body ++ data) (drop (length data) rest) (wrap16 (w + zlen data)).
Proof.
  intros (Hp & Hs & Hr) Hd. set (tx := tx_view m sz pre body rest w).
  assert (Hi : item_at tx 0 = Fragment sz (zlen pre + 3 + zlen body)
    (pre ++ be16 (3 + zlen body) ++ [0] ++ body ++ rest)) by done.
  unfold store. rewrite Hi. cbn [offset size buffer].
  unfold tx, tx_view at 1 2 3 4 5 6 7 8. rewrite !set_item_single.
  cbn [mtu ctrlmsg writerpacketsize fragmentlist].
  replace (_ <? _) with true by lia. rewrite Z.max_r by lia.
  replace (write_at _ data _) with
    (pre ++ be16 (3 + zlen body) ++ ([0] ++ body ++ data ++ drop (length data) rest)).
  2:{ rewrite <- (take_drop (length data) rest) at 2.
      replace (zlen pre + 3 + zlen body) with (zlen (pre ++ be16 (3 + zlen body) ++ [0] ++ body))
        by (rewrite !length_app, length_be16; cbn [length]; lia).
      rewrite !app_assoc, <- (app_assoc _ (take _ _)). rewrite write_at_app.
      - by rewrite <- !app_assoc.
      - rewrite length_take. lia. }
  rewrite ctrlmsg_length_view, set_ctrlmsg_length_view, val16_be16 by lia.
  unfold tx_view. rewrite !length_app, !Nat2Z.inj_add, <- !app_assoc.
  rewrite (wrap16_small (3 + _ + _)) by lia.
  replace (3 + zlen body + (zlen data + (zlen pre + 3 + zlen body) - (zlen pre + 3 + zlen body)))
    with (3 + (zlen body + zlen data)) by lia.
  replace (zlen data + (zlen pre + 3 + zlen body)) with (zlen pre + 3 + (zlen body + zlen data)) by lia.
  done.
Qed.

(** Every call of the interface is a write of its bytes. *)
(** One write of a block that fits: nothing is left to write, so 0 is returned. *)
Lemma write_block_full m sz pre body rest w data :
  tx_fits sz pre body rest (zlen data) -> 0 < zlen data ->
  capwap_fragment_write_block (tx_view m sz pre body rest w) data =
  Some (0, tx_view m sz pre (body ++ data) (drop (length data) rest) (wrap16 (w + zlen data))).
Proof.
  intros Hf Hd. pose proof Hf as (Hp & Hs & Hr). unfold capwap_fragment_write_block.
  change (last_item (tx_view m sz pre body rest w)) with 0%nat.
  change (offset (item_at (tx_view m sz pre body rest w) 0)) with (zlen pre + 3 + zlen body).
  rewrite write_from_pos_fits by (cbn [tx_view item_at fragmentlist size]; cbn; lia).
  by rewrite store_view.
Qed.

Lemma write_block_view m sz pre body rest w data :
  tx_fits sz pre body rest (zlen data) -> 0 < zlen data ->
  snd <$> capwap_fragment_write_block (tx_view m sz pre body rest w) data =
  Some (tx_view m sz pre (body ++ data) (drop (length data) rest) (wrap16 (w + zlen data))).
Proof. intros. by rewrite write_block_full. Qed.

Lemma exec_call_block tx c :
  call_asserts c = true -> exec_call tx c = snd <$> capwap_fragment_write_block tx (call_bytes c).
Proof.
  destruct c; try done; intros _;
    cbn [exec_call write_u8 write_u16 write_u32 write_block tx_ops call_bytes];
    unfold capwap_fragment_write_u8, capwap_fragment_write_u16, capwap_fragment_write_u32;
    by destruct (capwap_fragment_write_block tx _) as [[]|].
Qed.

Lemma call_bytes_pos c : call_asserts c = true -> 0 < zlen (call_bytes c).
Proof. destruct c; cbn; try done; lia. Qed.

(** The manager keeps a single fragment while [body] grows from [body0]. *)
Definition tx_inv (m sz : Z) (pre body0 : list Z) (total w0 : Z) (tx : capwap_packet_txmng) : Prop :=
  exists body rest,
    tx = tx_view m sz pre (body0 ++ body) rest (wrap16 (w0 + zlen body)) /\
    tx_fits sz pre (body0 ++ body) rest 0 /\ zlen body + zlen rest = total.

(** What was written after the first [n] bytes of the fragment. *)
Definition tx_written (n : Z) (tx : capwap_packet_txmng) : list Z :=
  let f := item_at tx 0 in slice n (offset f - n) (buffer f).

Lemma tx_written_view m sz pre body0 body rest w :
  tx_written (zlen pre + 3 + zlen body0) (tx_view m sz pre (body0 ++ body) rest w) = body.
Proof.
  unfold tx_written, tx_view. rewrite item_at_single. cbn [offset buffer]. unfold slice.
  replace (pre ++ be16 _ ++ [0] ++ (body0 ++ body) ++ rest) with
    ((pre ++ be16 (3 + zlen (body0 ++ body)) ++ [0] ++ body0) ++ body ++ rest)
    by (rewrite <- !app_assoc; done).
  rewrite drop_app_length' by (rewrite !length_app, length_be16; cbn [length]; lia).
  rewrite take_app_length'; [done|]. rewrite length_app. lia.
Qed.

#[export] Program Instance tx_laws (m sz : Z) (pre body0 : list Z) (total w0 : Z)
    : WriterLaws capwap_packet_txmng := {
  w_ok := tx_inv m sz pre body0 total w0;
  w_room := fun tx => Z.to_nat (size (item_at tx 0) - offset (item_at tx 0));
  w_written := tx_written (zlen pre + 3 + zlen body0)
}.
Next Obligation.
  intros m sz pre body0 total w0 tx c (body & rest & -> & Hfit & Ht) Ha Hroom.
  rewrite exec_call_block by done. apply call_bytes_pos in Ha as Hpos.
  set (bs := call_bytes c) in *. clearbody bs.
  unfold tx_view in Hroom. rewrite item_at_single in Hroom. cbn [size offset] in Hroom.
  destruct Hfit as (Hp & Hs & Hr).
  eexists. split; [apply write_block_view; unfold tx_fits; lia|].
  rewrite <- app_assoc. split; [|split].
  - exists (body ++ bs), (drop (length bs) rest). unfold tx_fits.
    rewrite !length_app, length_drop in *. split; [|lia].
    unfold tx_view. f_equal. unfold wrap16. rewrite Zplus_mod_idemp_l. f_equal. lia.
  - by rewrite !tx_written_view.
  - unfold tx_view. rewrite !item_at_single. cbn [size offset]. rewrite !length_app in *. lia.
Qed.

(** The calls of an element that fits append exactly its bytes. *)
Lemma exec_view m sz pre body rest w cs :
  is_u16 w -> forallb call_asserts cs = true -> tx_fits sz pre body rest (zlen (wire cs)) ->
  exists rest',
    exec (tx_view m sz pre body rest w) cs =
      Some (tx_view m sz pre (body ++ wire cs) rest' (wrap16 (w + zlen (wire cs)))) /\
    zlen rest' = zlen rest - zlen (wire cs) /\ tx_fits sz pre (body ++ wire cs) rest' 0.
Proof.
  intros Hw Ha (Hp & Hs & Hr).
  destruct (@exec_written _ _ (tx_laws m sz pre body (zlen rest) w) cs
    (tx_view m sz pre body rest w)) as (tx' & E & (body' & rest' & -> & Hf & Ht) & Hwr & _).
  - exists [], rest. rewrite app_nil_r. cbn [length]. rewrite Z.add_0_r, wrap16_small by done.
    split; [done|]. unfold tx_fits. lia.
  - done.
  - cbn [w_room tx_laws]. unfold tx_view. rewrite item_at_single. cbn [size offset]. lia.
  - cbn [w_written tx_laws] in Hwr. rewrite tx_written_view in Hwr.
    pose proof (tx_written_view m sz pre body [] rest w) as E0. rewrite app_nil_r in E0.
    rewrite E0 in Hwr. cbn in Hwr. subst body'.
    exists rest'. split; [done|]. split; [lia|done].
Qed.

(** Overwriting two bytes of the body. *)
Lemma patch_view m sz pre a z c rest w x :
  tx_fits sz pre (a ++ be16 z ++ c) rest 0 ->
  snd <$> capwap_fragment_write_u16_from_pos (tx_view m sz pre (a ++ be16 z ++ c) rest w) x 0
     (zlen pre + 3 + zlen a) =
  Some (tx_view m sz pre (a ++ be16 x ++ c) rest (wrap16 (w + 2))).
Proof.
  intros (Hp & Hs & Hr). unfold capwap_fragment_write_u16_from_pos.
  set (tx := tx_view _ _ _ _ _ _).
  assert (Hi : item_at tx 0 = Fragment sz (zlen pre + 3 + zlen (a ++ be16 z ++ c))
    (pre ++ be16 (3 + zlen (a ++ be16 z ++ c)) ++ [0] ++ (a ++ be16 z ++ c) ++ rest)) by done.
  rewrite !length_app, length_be16 in *.
  assert (E : capwap_fragment_write_block_from_pos tx (be16 x) 0 (zlen pre + 3 + zlen a) =
    Some (0, tx_view m sz pre (a ++ be16 x ++ c) rest (wrap16 (w + 2)))).
  { rewrite write_from_pos_fits by (rewrite ?Hi, ?length_be16; cbn [size]; lia).
    do 2 f_equal. unfold store. rewrite Hi. cbn [offset size buffer]. rewrite length_be16.
    rewrite (proj2 (Z.ltb_ge _ _)), Z.max_l by lia.
    unfold tx, tx_view at 1 2 3 4. rewrite set_item_single.
    cbn [mtu ctrlmsg writerpacketsize fragmentlist]. unfold tx_view.
    rewrite !length_app, !length_be16. do 3 f_equal.
    replace (zlen pre + 3 + zlen a) with
      (zlen (pre ++ be16 (3 + Z.of_nat (length a + (2 + length c))) ++ [0] ++ a))
      by (rewrite !length_app, length_be16; cbn [length]; lia).
    replace (pre ++ be16 (3 + Z.of_nat (length a + (2 + length c))) ++ [0] ++ (a ++ be16 z ++ c) ++ rest)
      with ((pre ++ be16 (3 + Z.of_nat (length a + (2 + length c))) ++ [0] ++ a) ++ be16 z ++ c ++ rest)
      by (rewrite <- !app_assoc; done).
    rewrite write_at_app by done. by rewrite <- !app_assoc. }
  by rewrite E.
Qed.

(** ** A block larger than the room left

    Neither the data pointer nor the position advances, so that every turn of
    the loop copies the head of the block to the same place. *)
Section Overrun.
Variables (m sz : Z) (pre body data : list Z) (r : nat).
Let pos := zlen pre + 3 + zlen body.
Hypothesis Hpre : 5 <= zlen pre.
Hypothesis Hsz : sz = pos + Z.of_nat r.
Hypothesis Hsz2 : sz < 65536.
Hypothesis Hr : (0 < r <= length data)%nat.

Lemma rewrite_prefix rest a :
  (a <= r)%nat ->
  let b := pre ++ be16 (3 + zlen (body ++ take r data)) ++ [0] ++ (body ++ take r data) ++ rest in
  write_at pos (take a data) b = b.
Proof.
  intros Ha b. unfold b. set (h := pre ++ be16 (3 + zlen (body ++ take r data)) ++ [0] ++ body).
  assert (Hh : zlen h = pos).
  { unfold h, pos. rewrite !length_app, length_be16. cbn [length]. lia. }
  assert (E : take r data = take a data ++ drop a (take r data)).
  { rewrite <- (take_drop a (take r data)) at 1. by rewrite take_take, Nat.min_l by lia. }
  replace (pre ++ be16 (3 + zlen (body ++ take r data)) ++ [0] ++ (body ++ take r data) ++ rest)
    with (h ++ take a data ++ drop a (take r data) ++ rest).
  - rewrite <- Hh. by rewrite write_at_app.
  - unfold h. rewrite <- !app_assoc, (app_assoc (take a data)), <- E. done.
Qed.

Lemma loop_rewrites fuel rest w l :
  0 <= l < 65536 -> l < Z.of_nat fuel -> is_u16 w ->
  write_loop fuel (tx_view m sz pre (body ++ take r data) rest w) 0 pos data l =
    Some (0, tx_view m sz pre (body ++ take r data) rest (wrap16 (w + l))).
Proof.
  revert w l. induction fuel as [|fuel IH]; intros w l Hl Hf Hw; [lia|].
  cbn [write_loop]. destruct (Z.ltb_spec 0 l) as [Hpos|Hpos].
  - set (tx := tx_view m sz pre (body ++ take r data) rest w).
    assert (Hi : item_at tx 0 = Fragment sz sz
      (pre ++ be16 (3 + zlen (body ++ take r data)) ++ [0] ++ (body ++ take r data) ++ rest)).
    { unfold tx, tx_view. rewrite item_at_single. f_equal. rewrite length_app, length_take. lia. }
    rewrite Hi. cbn [size offset buffer]. rewrite wrap16_small by lia.
    set (a := Z.min l (sz - pos)). rewrite (proj2 (Z.eqb_neq a 0)) by lia.
    rewrite Hi. cbn [size offset buffer]. rewrite wrap16_small by lia. fold a.
    rewrite (proj2 (Z.eqb_neq a 0)) by lia.
    rewrite (proj2 (Z.ltb_ge sz (a + pos))) by lia.
    rewrite rewrite_prefix by lia. unfold tx, tx_view at 1 2 3 4. rewrite !set_item_single.
    cbn [mtu fragmentlist ctrlmsg writerpacketsize].
    rewrite (wrap16_small (l - a)) by lia.
    replace (Txmng m [Fragment sz sz _] _ _) with
      (tx_view m sz pre (body ++ take r data) rest (wrap16 (w + a))).
    2:{ unfold tx_view. do 2 f_equal. f_equal. rewrite length_app, length_take. lia. }
    rewrite IH by (try apply wrap16_range; lia). do 3 f_equal.
    unfold wrap16. rewrite Zplus_mod_idemp_l. f_equal. lia.
  - replace l with 0 by lia. by rewrite Z.add_0_r, wrap16_small.
Qed.

(** The bytes of the block that do not fit are lost, and no fragment is opened. *)
Lemma write_block_overrun rest w :
  is_u16 w -> (r < length data)%nat -> zlen data < 65536 -> Z.of_nat r <= zlen rest ->
  capwap_fragment_write_block (tx_view m sz pre body rest w) data =
    Some (0, tx_view m sz pre (body ++ take r data) (drop r rest) (wrap16 (w + zlen data))).
Proof.
  intros Hw Hlt Hd Hrest. unfold capwap_fragment_write_block.
  change (last_item (tx_view m sz pre body rest w)) with 0%nat.
  change (offset (item_at (tx_view m sz pre body rest w) 0)) with pos.
  unfold capwap_fragment_write_block_from_pos. rewrite (wrap16_small (zlen data)) by lia.
  change (size (item_at (tx_view m sz pre body rest w) 0)) with sz.
  replace ((0 <? zlen data) && (pos <=? sz)) with true by lia.
  assert (Ht : length (take r data) = r) by (rewrite length_take; lia).
  assert (Hst : store (tx_view m sz pre body rest w) 0 pos (take r data) =
    tx_view m sz pre (body ++ take r data) (drop r rest) (wrap16 (w + Z.of_nat r))).
  { unfold pos. rewrite store_view, Ht by (unfold tx_fits, pos in *; lia). done. }
  cbn [write_loop]. rewrite (proj2 (Z.ltb_lt 0 (zlen data))) by lia.
  set (tx := tx_view m sz pre body rest w) in *.
  assert (Hi : item_at tx 0 = Fragment sz pos
    (pre ++ be16 (3 + zlen body) ++ [0] ++ body ++ rest)) by done.
  rewrite Hi. cbn [size]. rewrite (Z.min_r (zlen data)), (wrap16_small (sz - pos)) by lia.
  rewrite (proj2 (Z.eqb_neq (sz - pos) 0)) by lia. rewrite Hi. cbn [size offset buffer].
  rewrite (Z.min_r (zlen data)), (wrap16_small (sz - pos)) by lia.
  rewrite (proj2 (Z.eqb_neq (sz - pos) 0)) by lia.
  replace (Z.to_nat (sz - pos)) with r by lia.
  unfold store in Hst. rewrite Hi in Hst. cbn [size offset buffer] in Hst. rewrite Ht in Hst.
  rewrite Z.max_r in Hst by lia. replace (sz - pos) with (Z.of_nat r) by lia.
  rewrite (wrap16_small (Z.of_nat r + pos)) by lia.
  rewrite (proj2 (Z.ltb_lt pos (Z.of_nat r + pos))) in Hst |- * by lia. rewrite Hst.
  rewrite (wrap16_small (zlen data - Z.of_nat r)) by lia.
  fold pos. rewrite loop_rewrites by (try apply wrap16_range; lia).
  do 3 f_equal. unfold wrap16. rewrite Zplus_mod_idemp_l. f_equal. lia.
Qed.

End Overrun.

(** The bytes of a message element: type, length, and value; an element of a
    vendor travels inside a Vendor Specific Payload. *)
Definition value_bytes (vendor type : Z) (cs : list wcall) : list Z :=
  if negb (vendor =? 0) then be32 vendor ++ be16 type ++ wire cs else wire cs.
Definition element_bytes (vendor type : Z) (cs : list wcall) : list Z :=
  be16 (if negb (vendor =? 0) then CAPWAP_ELEMENT_VENDORPAYLOAD_TYPE else type) ++
  be16 (zlen (value_bytes vendor type cs)) ++ value_bytes vendor type cs.

Lemma write_u16_view m sz pre body rest w x :
  tx_fits sz pre body rest 2 ->
  snd <$> write_u16 (tx_view m sz pre body rest w) x =
    Some (tx_view m sz pre (body ++ be16 x) (drop 2 rest) (wrap16 (w + 2))).
Proof.
  intros Hf. cbn [write_u16 tx_ops]. unfold capwap_fragment_write_u16.
  by rewrite (write_block_full m sz pre body rest w (be16 x) Hf eq_refl).
Qed.

Lemma write_u32_view m sz pre body rest w x :
  tx_fits sz pre body rest 4 ->
  snd <$> write_u32 (tx_view m sz pre body rest w) x =
    Some (tx_view m sz pre (body ++ be32 x) (drop 4 rest) (wrap16 (w + 4))).
Proof.
  intros Hf. cbn [write_u32 tx_ops]. unfold capwap_fragment_write_u32.
  by rewrite (write_block_full m sz pre body rest w (be32 x) Hf eq_refl).
Qed.

Lemma reset_view m sz pre body rest w :
  let tx := tx_view m sz pre body rest w in
  Txmng (mtu tx) (fragmentlist tx) (ctrlmsg tx) 0 = tx_view m sz pre body rest 0.
Proof. done. Qed.

(** The vendor header, when there is one, then the calls of [create]. *)
Lemma write_value_view m sz pre body rest vendor type cs :
  forallb call_asserts cs = true ->
  tx_fits sz pre body rest (zlen (value_bytes vendor type cs)) ->
  exists rest',
    (if negb (vendor =? 0)
     then tx ← snd <$> write_u32 (tx_view m sz pre body rest 0) vendor; snd <$> write_u16 tx type
     else Some (tx_view m sz pre body rest 0)) ≫= (fun tx => exec tx cs) =
      Some (tx_view m sz pre (body ++ value_bytes vendor type cs) rest'
              (zlen (value_bytes vendor type cs))) /\
    zlen rest' = zlen rest - zlen (value_bytes vendor type cs).
Proof.
  intros Ha (Hp & Hs & Hr). unfold value_bytes in *. destruct (negb (vendor =? 0)).
  - rewrite !length_app, length_be16, length_be32 in *.
    rewrite write_u32_view by (unfold tx_fits; lia). obind.
    rewrite write_u16_view by (unfold tx_fits; rewrite length_app, length_drop, length_be32; lia). obind.
    edestruct (exec_view m sz pre ((body ++ be32 vendor) ++ be16 type)
      (drop 2 (drop 4 rest)) (wrap16 (wrap16 (0 + 4) + 2)) cs) as (r & E & Hr' & _).
    + apply wrap16_range.
    + done.
    + unfold tx_fits. rewrite !length_app, !length_drop, length_be16, length_be32. lia.
    + exists r. rewrite E. rewrite <- !app_assoc. split.
      * do 2 f_equal. change (wrap16 (wrap16 (0 + 4) + 2)) with 6. rewrite wrap16_small by lia. lia.
      * rewrite !length_drop in Hr'. lia.
  - destruct (exec_view m sz pre body rest 0 cs) as (r & E & Hr' & _); [lia|done|done|].
    exists r. obind. rewrite E. split; [|done]. do 2 f_equal. rewrite wrap16_small by lia. lia.
Qed.

(** Adding an element that fits appends its bytes to the message. *)
Lemma add_message_element_view m sz pre body rest w vendor type cs :
  is_u16 w -> forallb call_asserts cs = true ->
  tx_fits sz pre body rest (zlen (element_bytes vendor type cs)) ->
  exists rest' w',
    add_message_element (tx_view m sz pre body rest w) vendor type cs =
      Some (tx_view m sz pre (body ++ element_bytes vendor type cs) rest' w') /\
    is_u16 w' /\ zlen rest' = zlen rest - zlen (element_bytes vendor type cs).
Proof.
  intros Hw Ha Hfit. unfold add_message_element, element_bytes in *.
  set (t := if negb (vendor =? 0) then CAPWAP_ELEMENT_VENDORPAYLOAD_TYPE else type) in *.
  set (v := value_bytes vendor type cs) in *.
  destruct Hfit as (Hp & Hs & Hr). rewrite !length_app, !length_be16 in *.
  rewrite write_u16_view by (unfold tx_fits; lia). obind.
  set (tx1 := tx_view m sz pre (body ++ be16 t) _ _).
  change (last_item tx1) with 0%nat.
  assert (Hoff : offset (item_at tx1 0) = zlen pre + 3 + zlen (body ++ be16 t)) by done.
  rewrite Hoff. unfold tx1.
  rewrite write_u16_view by (unfold tx_fits; rewrite length_app, length_drop, length_be16; lia).
  obind. rewrite reset_view.
  destruct (write_value_view m sz pre ((body ++ be16 t) ++ be16 0) (drop 2 (drop 2 rest))
    vendor type cs Ha) as (r & E & Hr').
  { fold v. unfold tx_fits. rewrite !length_app, !length_drop, !length_be16. lia. }
  fold v in E, Hr'. revert E. obind. intros E.
  match goal with |- context [match ?x with Some tx => match exec tx cs with _ => _ end | None => None end] =>
    destruct x as [tx2|]; [|done] end.
  rewrite E. unfold tx_view at 3. cbn [writerpacketsize].
  rewrite <- (app_assoc (body ++ be16 t)). rewrite patch_view.
  2:{ unfold tx_fits. rewrite !length_app, !length_drop, !length_be16 in *. lia. }
  exists r, (wrap16 (zlen v + 2)). rewrite <- app_assoc. split; [done|].
  split; [apply wrap16_range|]. rewrite !length_drop in Hr'. lia.
Qed.

(** Fragment size chosen for a message: the payload is a multiple of 8. *)
Definition fragment_size (mtu headerlength : Z) : Z := mtu - (mtu - headerlength) mod 8.

Lemma fragment_size_bounds mtu hl :
  hl + 8 <= mtu -> hl + 8 <= fragment_size mtu hl <= mtu.
Proof. unfold fragment_size. intros. Z.div_mod_to_equations. lia. Qed.

(** A new control message: header, type, sequence number, empty body. *)
Lemma create_ctrl_view header type seq mtu hl :
  hl = GET_HLEN_HEADER header * 4 -> hl <= zlen header -> hl + 16 <= mtu < 65536 ->
  exists rest,
    capwap_packet_txmng_create_ctrl_message header type seq mtu =
      Some (tx_view mtu (fragment_size mtu hl)
              (take (Z.to_nat hl) header ++ be32 type ++ [wrap8 seq]) [] rest 0) /\
    zlen rest = mtu - (hl + 8).
Proof.
  intros Hhl Hl Hm.
  assert (Hroom : hl + 16 <= fragment_size mtu hl) by (unfold fragment_size; Z.div_mod_to_equations; lia).
  pose proof (get_field_range f_hlen header eq_refl) as Hr.
  fold (GET_HLEN_HEADER header) in Hr. cbn [f_width f_hlen] in Hr.
  pose proof (fragment_size_bounds mtu hl ltac:(lia)) as Hsz.
  unfold capwap_packet_txmng_create_ctrl_message, capwap_packet_txmng_create,
    capwap_packet_txmng_create_fragment_item, sizeof_capwap_control_message.
  rewrite <- Hhl, (wrap16_small hl) by lia.
  replace ((0 <? mtu) && (mtu <? hl + 8)) with false by lia. replace (0 <? mtu) with true by lia.
  cbn [negb Tx.mtu fragmentlist ctrlmsg writerpacketsize app]. rewrite item_at_single, set_item_single.
  cbn [size offset buffer]. rewrite Z.rem_mod_nonneg by lia. fold (fragment_size mtu hl).
  rewrite (wrap16_small (fragment_size mtu hl)) by lia. replace (hl <? fragment_size mtu hl) with true by lia.
  cbn [negb]. obind. change (last_item _) with 0%nat. rewrite item_at_single, set_item_single.
  cbn [size offset buffer Tx.mtu fragmentlist writerpacketsize].
  rewrite (wrap16_small (0 + hl)), (wrap16_small (0 + hl + 8)) by lia.
  replace (0 + hl + 8 <? fragment_size mtu hl) with true by lia. cbn [negb].
  exists (drop (Z.to_nat (hl + 8)) (fresh mtu)). split; [|rewrite length_drop, length_fresh; lia].
  unfold tx_view. do 2 f_equal; [|rewrite !length_app, length_take, length_be32; cbn [length]; lia].
  f_equal. f_equal; [rewrite !length_app, length_take, length_be32; cbn [length]; lia|].
  cbn [length]. change (3 + Z.of_nat 0) with 3. change (0 + hl) with hl.
  set (h := take (Z.to_nat hl) header).
  assert (Hh : zlen h = hl) by (unfold h; rewrite length_take; lia).
  replace (write_at 0 h (fresh mtu)) with (h ++ drop (Z.to_nat hl) (fresh mtu))
    by (replace (Z.to_nat hl) with (length h) by lia; done).
  rewrite <- (take_drop 8 (drop (Z.to_nat hl) (fresh mtu))), <- Hh at 1.
  rewrite write_at_app.
  - rewrite drop_drop, <- !app_assoc. unfold CAPWAP_CONTROL_MESSAGE_MIN_LENGTH.
    replace (Z.to_nat hl + 8)%nat with (Z.to_nat (hl + 8)) by lia. done.
  - rewrite length_take, length_drop, length_fresh, !length_app, length_be32.
    cbn [length]. rewrite length_app, length_be16. cbn [length]. lia.
Qed.

(** An MTU that leaves less than eight bytes after the control header is refused,
    or fails an assertion. *)
Lemma create_ctrl_refused header type seq mtu :
  let hl := GET_HLEN_HEADER header * 4 in
  0 < mtu < 65536 -> mtu < hl + 16 -> capwap_packet_txmng_create_ctrl_message header type seq mtu = None.
Proof.
  intros hl Hm Hlt. pose proof (get_field_range f_hlen header eq_refl) as Hr.
  fold (GET_HLEN_HEADER header) in Hr. cbn [f_width f_hlen] in Hr.
  unfold capwap_packet_txmng_create_ctrl_message, capwap_packet_txmng_create,
    capwap_packet_txmng_create_fragment_item, sizeof_capwap_control_message.
  fold hl. rewrite (wrap16_small hl) by lia. replace (0 <? mtu) with true by lia. cbn [negb andb].
  destruct (Z.ltb_spec mtu (hl + 8)); [done|].
  cbn [Tx.mtu fragmentlist ctrlmsg writerpacketsize app]. rewrite item_at_single, set_item_single.
  cbn [size offset buffer]. rewrite Z.rem_mod_nonneg by lia. fold (fragment_size mtu hl).
  assert (Hs : fragment_size mtu hl = hl + 8) by (unfold fragment_size; Z.div_mod_to_equations; lia).
  rewrite Hs, (wrap16_small (hl + 8)) by lia. destruct (negb _); [done|]. obind.
  change (last_item _) with 0%nat. rewrite item_at_single. cbn [size offset].
  rewrite (wrap16_small (0 + hl)) by lia. by rewrite (proj2 (Z.ltb_ge _ _)) by lia.
Qed.

End TxSpec.
