(* ===== verification/Rx.v ===== *)
(** The reception side of the packet manager
    (src/common/capwap_protocol.c, [capwap_packet_rxmng_*] and
    [capwap_fragment_read_*]): fragments are collected, ordered and then read
    as one stream, headers skipped.

    A read position [struct read_block_from_pos] is the list of the fragments
    from the current one on (empty when [item] is NULL) and the offset in the
    first of them.  An operation that has an assertion which can fail is [None]
    when it does. *)
From S2P Require Import Prelude Io Header Tx.

Record read_block_from_pos := ReadPos { rp_item : list capwap_fragment_packet_item; rp_pos : Z }.

Record capwap_control_message := ControlMessage { cm_type : Z; cm_seq : Z; cm_length : Z; cm_flags : Z }.

Record capwap_packet_rxmng := Rxmng {
  rx_fragmentlist : list capwap_fragment_packet_item;
  rx_packetlength : Z;
  rx_ctrlmsg : capwap_control_message;
  rx_readbodypos : read_block_from_pos;
  rx_readpos : read_block_from_pos;
  rx_readerpacketallowed : Z
}.

(** [rxmngpacket->header]: the buffer of the first fragment. *)
Definition rx_header (rx : capwap_packet_rxmng) : list Z :=
  match rx_fragmentlist rx with [] => [] | f :: _ => buffer f end.

(** ** Reading *)

Definition capwap_fragment_read_ready (rx : capwap_packet_rxmng) : Z :=
  match rp_item (rx_readpos rx) with [] => 0 | _ => rx_readerpacketallowed rx end.

(** The [while] loop: the bytes copied and the new position.  When the fragment
    is not exhausted, all the bytes asked for were copied and the loop ends. *)
Fixpoint read_from_pos (items : list capwap_fragment_packet_item) (pos readdataleft : Z)
    : list Z * read_block_from_pos :=
  match items with
  | [] => ([], ReadPos [] pos)
  | packet :: next =>
      if readdataleft =? 0 then ([], ReadPos items pos) else
      let bufferlength := wrap16 (size packet - pos) in
      let copylength := Z.min bufferlength readdataleft in
      let bytes := slice pos copylength (buffer packet) in
      let readdataleft := wrap16 (readdataleft - copylength) in
      let pos := wrap16 (pos + copylength) in
      if pos =? size packet then
        match next with
        | [] => (bytes, ReadPos [] 0)
        | packet' :: _ =>
            let '(bytes', readpos) :=
              read_from_pos next (wrap16 (GET_HLEN_HEADER (buffer packet') * 4)) readdataleft in
            (bytes ++ bytes', readpos)
        end
      else (bytes, ReadPos items pos)
  end.

Definition capwap_fragment_read_block_from_pos (length : Z) (readpos : read_block_from_pos)
    (lengthallowed : Z) : option (list Z * read_block_from_pos) :=
  if negb (0 <? length) then None else
  let readdataleft := if 0 <? lengthallowed then Z.min length lengthallowed else length in
  Some (read_from_pos (rp_item readpos) (rp_pos readpos) readdataleft).

Definition capwap_fragment_read_block (rx : capwap_packet_rxmng) (length : Z)
    : option (list Z * capwap_packet_rxmng) :=
  '(data, readpos) ←
    capwap_fragment_read_block_from_pos (wrap16 length) (rx_readpos rx)
      (rx_readerpacketallowed rx);
  mret (data,
   Rxmng (rx_fragmentlist rx) (rx_packetlength rx) (rx_ctrlmsg rx) (rx_readbodypos rx) readpos
     (wrap16 (rx_readerpacketallowed rx - wrap16 (zlen data)))).

(** A block of [n] bytes as an integer.  The sizes are 1, 2 and 4, so that the
    assertion holds and the second case does not occur. *)
Definition read_integer (n : Z) (f : list Z -> option Z) (rx : capwap_packet_rxmng)
    : option Z * capwap_packet_rxmng :=
  match capwap_fragment_read_block rx n with
  | Some (data, rx) => (f data, rx)
  | None => (None, rx)
  end.
Definition capwap_fragment_read_u8 : capwap_packet_rxmng -> option Z * capwap_packet_rxmng :=
  read_integer 1 as_u8.
Definition capwap_fragment_read_u16 : capwap_packet_rxmng -> option Z * capwap_packet_rxmng :=
  read_integer 2 as_u16.
Definition capwap_fragment_read_u32 : capwap_packet_rxmng -> option Z * capwap_packet_rxmng :=
  read_integer 4 as_u32.

#[export] Instance rx_ops : ReadOps capwap_packet_rxmng := {
  read_ready := capwap_fragment_read_ready;
  read_u8 := capwap_fragment_read_u8;
  read_u16 := capwap_fragment_read_u16;
  read_u32 := capwap_fragment_read_u32;
  read_block := capwap_fragment_read_block
}.

(** [rxmngpacket->readerpacketallowed = n] and [rxmngpacket->readpos = p]. *)
Definition rx_allow (rx : capwap_packet_rxmng) (n : Z) : capwap_packet_rxmng :=
  Rxmng (rx_fragmentlist rx) (rx_packetlength rx) (rx_ctrlmsg rx) (rx_readbodypos rx)
    (rx_readpos rx) n.
Definition rx_seek (rx : capwap_packet_rxmng) (p : read_block_from_pos) : capwap_packet_rxmng :=
  Rxmng (rx_fragmentlist rx) (rx_packetlength rx) (rx_ctrlmsg rx) (rx_readbodypos rx) p
    (rx_readerpacketallowed rx).

(** ** Collecting fragments *)

Definition capwap_packet_rxmng_create_message : capwap_packet_rxmng :=
  Rxmng [] 0 (ControlMessage 0 0 0 0) (ReadPos [] 0) (ReadPos [] 0) 0.

(** The fields of the control header are read one by one; a short packet
    leaves the remaining ones as they were.  [packetlength] is an [unsigned
    long]; a packet that is only a header fails the assertion that it is not 0. *)
Definition capwap_packet_rxmng_complete (rx : capwap_packet_rxmng) : option capwap_packet_rxmng :=
  if rx_packetlength rx =? 0 then None else
  let rx := rx_seek rx (ReadPos (rx_fragmentlist rx)
                          (wrap16 (GET_HLEN_HEADER (rx_header rx) * 4))) in
  let rx := rx_allow rx sizeof_capwap_control_message in
  let '(t, rx) := read_u32 rx in
  let '(s, rx) := read_u8 rx in
  let '(l, rx) := read_u16 rx in
  let '(f, rx) := read_u8 rx in
  let c := rx_ctrlmsg rx in
  Some (Rxmng (rx_fragmentlist rx) (rx_packetlength rx)
    (ControlMessage (default (cm_type c) t) (default (cm_seq c) s) (default (cm_length c) l)
       (default (cm_flags c) f))
    (rx_readpos rx) (rx_readpos rx) (rx_readerpacketallowed rx)).

Definition capwap_packet_rxmng_create_fragment_item (data : list Z)
    : capwap_fragment_packet_item :=
  Fragment (wrap16 (zlen data)) (wrap16 (zlen data)) data.

Definition CAPWAP_WRONG_FRAGMENT : Z := -1.
Definition CAPWAP_REQUEST_MORE_FRAGMENT : Z := 0.
Definition CAPWAP_RECEIVE_COMPLETE_PACKET : Z := 1.

Definition rx_set_fragments (rx : capwap_packet_rxmng) (l : list capwap_fragment_packet_item)
    : capwap_packet_rxmng :=
  Rxmng l (rx_packetlength rx) (rx_ctrlmsg rx) (rx_readbodypos rx) (rx_readpos rx)
    (rx_readerpacketallowed rx).
Definition rx_set_packetlength (rx : capwap_packet_rxmng) (n : Z) : capwap_packet_rxmng :=
  Rxmng (rx_fragmentlist rx) n (rx_ctrlmsg rx) (rx_readbodypos rx) (rx_readpos rx)
    (rx_readerpacketallowed rx).

(** The [while] loop that orders the fragments: each of its three branches
    leaves it, so that only the first fragment is ever looked at.  [None]:
    a fragment at the same place with other content. *)
Definition order_fragment (l : list capwap_fragment_packet_item) (data : list Z)
    : option (list capwap_fragment_packet_item) :=
  let fragoffset := GET_FRAGMENT_OFFSET_HEADER data in
  match l with
  | [] => Some [capwap_packet_rxmng_create_fragment_item data]
  | itemsearch :: next =>
      let fragoffsetsearch := GET_FRAGMENT_OFFSET_HEADER (buffer itemsearch) in
      if fragoffset <? fragoffsetsearch then
        Some (capwap_packet_rxmng_create_fragment_item data :: l)
      else if (fragoffsetsearch <? fragoffset) && match next with [] => true | _ => false end then
        Some (l ++ [capwap_packet_rxmng_create_fragment_item data])
      else if negb (size itemsearch =? zlen data) then None
      else if negb (bool_decide (take (Z.to_nat (size itemsearch)) (buffer itemsearch) =
                                 take (Z.to_nat (size itemsearch)) data)) then None
      else Some l
  end.

(** The sanity check of the offsets once the last fragment was received. *)
Fixpoint check_fragments (l : list capwap_fragment_packet_item) (sanityfragoffset packetlength : Z)
    : Z * Z :=
  match l with
  | [] => (CAPWAP_RECEIVE_COMPLETE_PACKET, packetlength)
  | itemsearch :: next =>
      let fragoffsetsearch := GET_FRAGMENT_OFFSET_HEADER (buffer itemsearch) in
      let n := wrap16 (size itemsearch - GET_HLEN_HEADER (buffer itemsearch) * 4) in
      if sanityfragoffset <? fragoffsetsearch then (CAPWAP_REQUEST_MORE_FRAGMENT, packetlength)
      else if fragoffsetsearch <? sanityfragoffset then (CAPWAP_WRONG_FRAGMENT, packetlength)
      else check_fragments next (wrap16 (sanityfragoffset + n / 8)) (packetlength + n)
  end.

Definition capwap_packet_rxmng_add_recv_packet (rx : capwap_packet_rxmng) (data : list Z)
    : option (Z * capwap_packet_rxmng) :=
  if negb (0 <? zlen data) then None else
  if IS_FLAG_F_HEADER data then
    let headersize := wrap16 (GET_HLEN_HEADER data * 4) in
    if negb (Z.rem (zlen data - headersize) 8 =? 0) then Some (CAPWAP_WRONG_FRAGMENT, rx) else
    if match rx_fragmentlist rx with
       | [] => false
       | f :: _ => negb (GET_FRAGMENT_ID_HEADER data =? GET_FRAGMENT_ID_HEADER (buffer f))
       end
    then Some (CAPWAP_WRONG_FRAGMENT, rx) else
    match order_fragment (rx_fragmentlist rx) data with
    | None => Some (CAPWAP_WRONG_FRAGMENT, rx)
    | Some l =>
        let rx := rx_set_fragments rx l in
        if IS_FLAG_L_HEADER data then
          let '(result, packetlength) := check_fragments l 0 0 in
          let rx := rx_set_packetlength rx packetlength in
          if result =? CAPWAP_REQUEST_MORE_FRAGMENT then Some (result, rx) else
          if result =? CAPWAP_WRONG_FRAGMENT then Some (result, rx_set_fragments rx []) else
          pair CAPWAP_RECEIVE_COMPLETE_PACKET <$> capwap_packet_rxmng_complete rx
        else Some (CAPWAP_REQUEST_MORE_FRAGMENT, rx)
    end
  else
    match rx_fragmentlist rx with
    | _ :: _ => Some (CAPWAP_WRONG_FRAGMENT, rx)
    | [] =>
        let rx := rx_set_fragments rx [capwap_packet_rxmng_create_fragment_item data] in
        let rx := rx_set_packetlength rx (zlen data - GET_HLEN_HEADER data * 4) in
        pair CAPWAP_RECEIVE_COMPLETE_PACKET <$> capwap_packet_rxmng_complete rx
    end.

(** [capwap_packet_rxmng_create_from_requestfragmentpacket]: the fragments of a
    packet sent, received again.  The bytes of a fragment end at [offset].  The
    pointer returned, NULL being [Some None]. *)
Fixpoint append_fragments (rx : capwap_packet_rxmng) (result : Z)
    (l : list capwap_fragment_packet_item) : option (Z * capwap_packet_rxmng) :=
  match l with
  | [] => Some (result, rx)
  | f :: l =>
      '(result, rx) ←
        capwap_packet_rxmng_add_recv_packet rx (take (Z.to_nat (offset f)) (buffer f));
      if result =? CAPWAP_WRONG_FRAGMENT then Some (result, rx) else append_fragments rx result l
  end.

Definition capwap_packet_rxmng_create_from_requestfragmentpacket
    (requestfragmentpacket : list capwap_fragment_packet_item) : option (option capwap_packet_rxmng) :=
  match requestfragmentpacket with
  | [] => Some None
  | l =>
      '(result, rx) ← append_fragments capwap_packet_rxmng_create_message CAPWAP_WRONG_FRAGMENT l;
      Some (if negb (result =? CAPWAP_RECEIVE_COMPLETE_PACKET) then None else Some rx)
  end.
