(* ===== verification/RxSpec.v ===== *)
(** The reception side implements the reader interface: reading the fragments
    of a packet is reading the stream of their payloads. *)
From S2P Require Import Prelude Io Header Tx Rx.

(** A received fragment: its size is that of its buffer, and a payload follows
    the header. *)
Definition fragment_ok (f : capwap_fragment_packet_item) : Prop :=
  size f = zlen (buffer f) /\ size f < 65536 /\ GET_HLEN_HEADER (buffer f) * 4 < size f.

Definition payload (f : capwap_fragment_packet_item) : list Z :=
  drop (Z.to_nat (GET_HLEN_HEADER (buffer f) * 4)) (buffer f).

(** The bytes ahead of a read position. *)
Definition pending (p : read_block_from_pos) : list Z :=
  match rp_item p with
  | [] => []
  | f :: next => drop (Z.to_nat (rp_pos p)) (buffer f) ++ concat (payload <$> next)
  end.

Definition readpos_ok (p : read_block_from_pos) : Prop :=
  Forall fragment_ok (rp_item p) /\
  match rp_item p with [] => True | f :: _ => 0 <= rp_pos p < size f end.

Lemma hlen_range b : 0 <= GET_HLEN_HEADER b < 32.
Proof. exact (get_field_range f_hlen b eq_refl). Qed.

Lemma pending_start f next :
  pending (ReadPos (f :: next) (GET_HLEN_HEADER (buffer f) * 4)) = payload f ++ concat (payload <$> next).
Proof. done. Qed.

(** The loop delivers a prefix of the pending bytes and leaves the rest. *)
Lemma read_from_pos_spec items pos left :
  readpos_ok (ReadPos items pos) -> 0 <= left < 65536 ->
  exists p', read_from_pos items pos left = (take (Z.to_nat left) (pending (ReadPos items pos)), p') /\
    readpos_ok p' /\ pending p' = drop (Z.to_nat left) (pending (ReadPos items pos)).
Proof.
  revert pos left. induction items as [|f next IH]; intros pos left [Hok Hpos] Hl; cbn [read_from_pos].
  - exists (ReadPos [] pos). change (pending (ReadPos [] pos)) with (@nil Z).
    by rewrite take_nil, drop_nil.
  - cbn in Hok, Hpos. apply Forall_cons in Hok as [(Hs & Hs2 & Hh) Hnext].
    pose proof (hlen_range (buffer f)) as Hhr.
    destruct (Z.eqb_spec left 0) as [->|Hl0].
    { exists (ReadPos (f :: next) pos). split; [done|]. split; [split; [by constructor|done]|done]. }
    rewrite (wrap16_small (size f - pos)) by lia.
    unfold pending at 1 3; cbn [rp_item rp_pos].
    set (d := drop (Z.to_nat pos) (buffer f)). set (tl := concat (payload <$> next)).
    assert (Hd : zlen d = size f - pos) by (unfold d; rewrite length_drop; lia).
    unfold slice. fold d.
    destruct (Z.le_gt_cases (size f - pos) left) as [Hge|Hlt].
    + (* the fragment is exhausted *)
      rewrite (Z.min_l (size f - pos)) by lia.
      rewrite (take_ge d), (wrap16_small (pos + _)) by lia.
      replace (pos + (size f - pos) =? size f) with true by lia.
      destruct next as [|g next'].
      * exists (ReadPos [] 0). unfold tl. cbn [fmap list_fmap concat]. rewrite app_nil_r.
        rewrite take_ge, drop_ge by lia. done.
      * pose proof (hlen_range (buffer g)) as Hg.
        rewrite (wrap16_small (GET_HLEN_HEADER (buffer g) * 4)), (wrap16_small (left - _)) by lia.
        apply Forall_cons in Hnext as Hn2. destruct Hn2 as [(? & ? & ?) ?].
        destruct (IH (GET_HLEN_HEADER (buffer g) * 4) (left - (size f - pos))) as (p' & E & Hp' & Hpd).
        { split; [done|]. cbn. lia. } { lia. }
        rewrite E. exists p'. rewrite pending_start in *.
        change (payload g ++ concat (payload <$> next')) with tl in *.
        rewrite take_app_ge, drop_app_ge by lia. split; [|split; [done|]].
        { do 2 f_equal. f_equal. lia. } { rewrite Hpd. f_equal. lia. }
    + rewrite (Z.min_r _ left) by lia. rewrite (wrap16_small (pos + left)) by lia.
      replace (pos + left =? size f) with false by lia.
      exists (ReadPos (f :: next) (pos + left)). rewrite take_app_le, drop_app_le by lia.
      split; [done|]. split; [split; [by constructor|cbn; lia]|].
      unfold pending; cbn [rp_item rp_pos]. unfold d. rewrite drop_drop. do 2 f_equal. lia.
Qed.

(** The abstraction relation between a manager and the stream ahead of it. *)
Definition rx_stream (rx : capwap_packet_rxmng) (s : stream) : Prop :=
  st_allowed s = rx_readerpacketallowed rx /\
  readpos_ok (rx_readpos rx) /\ st_bytes s = pending (rx_readpos rx).

Lemma read_block_refines rx s n :
  rx_stream rx s ->
  match capwap_fragment_read_block rx n, stream_block s n with
  | Some (bs, rx'), Some (bs', s') => bs = bs' /\ rx_stream rx' s'
  | None, None => True
  | _, _ => False
  end.
Proof.
  intros (Ha & Hok & Hb). destruct s as [a bs]; cbn in Ha, Hb; subst a bs.
  unfold capwap_fragment_read_block, capwap_fragment_read_block_from_pos, stream_block, stream_read, stream_limit.
  pose proof (wrap16_range n) as Hn0. destruct (Z.eqb_spec (wrap16 n) 0) as [->|Hnz]; [done|].
  rewrite (proj2 (Z.ltb_lt 0 _)) by lia. cbn [negb st_allowed st_bytes]. obind.
  set (m := if 0 <? rx_readerpacketallowed rx then Z.min (wrap16 n) (rx_readerpacketallowed rx)
            else wrap16 n).
  pose proof (wrap16_range n) as Hn.
  assert (Hm : 0 <= m < 65536) by (unfold m; destruct (Z.ltb_spec 0 (rx_readerpacketallowed rx)); lia).
  destruct (rx_readpos rx) as [items p] eqn:Ep. cbn [rp_item rp_pos].
  destruct (read_from_pos_spec items p m Hok Hm) as (p' & E & Hok' & Hp').
  rewrite E. split; [done|].
  assert (Hlen : zlen (take (Z.to_nat m) (pending (ReadPos items p))) < 65536)
    by (rewrite length_take; lia).
  rewrite (wrap16_small (zlen _)) by lia.
  repeat split; cbn; [apply Hok'|apply Hok'|by rewrite Hp'].
Qed.

#[export] Instance rx_refines : ReaderRefines capwap_packet_rxmng rx_stream.
Proof.
  assert (Hread : forall rx s n (f : list Z -> option Z), rx_stream rx s ->
    0 < n < 65536 -> (read_integer n f rx).1 = (let '(d, s') := stream_read s n in (f d, s')).1 /\
    rx_stream (read_integer n f rx).2 (let '(d, s') := stream_read s n in (f d, s')).2).
  { intros rx s n f HR Hn. pose proof (read_block_refines rx s n HR) as HB. unfold read_integer, stream_block in *.
    rewrite wrap16_small, (proj2 (Z.eqb_neq n 0)) in HB by lia.
    destruct (capwap_fragment_read_block rx n) as [[]|], (stream_read s n); [|done]. cbn. by destruct HB as [-> ?]. }
  split; intros rx s; [|intros HR; by apply (Hread rx s)..|apply read_block_refines].
  intros (Ha & [Hok Hpos] & Hb). cbn [read_ready rx_ops stream_ops].
  unfold capwap_fragment_read_ready. rewrite Hb, <- Ha. unfold pending in *.
  destruct (rp_item (rx_readpos rx)) as [|f next]; [done|].
  apply Forall_cons in Hok as [(Hs & _) _].
  destruct (drop (Z.to_nat (rp_pos (rx_readpos rx))) (buffer f)) eqn:E; [|done].
  apply (f_equal length) in E. rewrite length_drop in E. cbn in E. lia.
Qed.

(** ** A packet received whole *)

Lemma stream_u8 x a s :
  is_u8 x -> 1 <= a < 65536 -> read_u8 (Stream a ([wrap8 x] ++ s)) = (Some x, Stream (a - 1) s).
Proof.
  intros. cbn [read_u8 stream_ops]. rewrite (stream_read_app 1 [wrap8 x]) by (cbn [length]; lia).
  cbn. by rewrite wrap8_small.
Qed.

Lemma stream_u16 x a s :
  is_u16 x -> 2 <= a < 65536 -> read_u16 (Stream a (be16 x ++ s)) = (Some x, Stream (a - 2) s).
Proof.
  intros. cbn [read_u16 stream_ops]. rewrite (stream_read_app 2 (be16 x)) by (rewrite ?length_be16; lia).
  unfold be16. cbn [as_u16]. by rewrite val16_be16.
Qed.

Lemma stream_u32 x a s :
  is_u32 x -> 4 <= a < 65536 -> read_u32 (Stream a (be32 x ++ s)) = (Some x, Stream (a - 4) s).
Proof.
  intros. cbn [read_u32 stream_ops]. rewrite (stream_read_app 4 (be32 x)) by (rewrite ?length_be32; lia).
  unfold be32. cbn [as_u32]. by rewrite val32_be32.
Qed.

(** The bytes of a control message. *)
Definition control_bytes (m : capwap_control_message) (body : list Z) : list Z :=
  be32 (cm_type m) ++ [wrap8 (cm_seq m)] ++ be16 (cm_length m) ++ [wrap8 (cm_flags m)] ++ body.

Definition control_ok (m : capwap_control_message) : Prop :=
  is_u32 (cm_type m) /\ is_u8 (cm_seq m) /\ is_u16 (cm_length m) /\ is_u8 (cm_flags m).

#[export] Instance control_ok_dec m : Decision (control_ok m) := _.

(** Reading does not change the fragments collected. *)
Definition same_packet (rx rx' : capwap_packet_rxmng) : Prop :=
  rx_fragmentlist rx' = rx_fragmentlist rx /\ rx_packetlength rx' = rx_packetlength rx /\
  rx_ctrlmsg rx' = rx_ctrlmsg rx /\ rx_readbodypos rx' = rx_readbodypos rx.

#[export] Instance same_packet_preorder : PreOrder same_packet.
Proof. split; [by intros ?|]. intros ? ? ? (?&?&?&?) (?&?&?&?). repeat split; congruence. Qed.

Lemma read_same_packet n f rx : same_packet rx (read_integer n f rx).2.
Proof.
  unfold read_integer, capwap_fragment_read_block.
  by destruct (capwap_fragment_read_block_from_pos _ _ _) as [[]|].
Qed.

Lemma rx_read_u8 rx x a s :
  rx_stream rx (Stream a ([wrap8 x] ++ s)) -> is_u8 x -> 1 <= a < 65536 ->
  exists rx', read_u8 rx = (Some x, rx') /\ rx_stream rx' (Stream (a - 1) s) /\ same_packet rx rx'.
Proof.
  intros HR Hx Ha. destruct (rr_u8 rx _ HR) as [E1 E2]. rewrite stream_u8 in * by done.
  pose proof (read_same_packet 1 as_u8 rx) as Hk. cbn [read_u8 rx_ops] in *.
  unfold capwap_fragment_read_u8 in *. destruct (read_integer 1 as_u8 rx) as [d rx'].
  cbn in *. exists rx'. by rewrite E1.
Qed.

Lemma rx_read_u16 rx x a s :
  rx_stream rx (Stream a (be16 x ++ s)) -> is_u16 x -> 2 <= a < 65536 ->
  exists rx', read_u16 rx = (Some x, rx') /\ rx_stream rx' (Stream (a - 2) s) /\ same_packet rx rx'.
Proof.
  intros HR Hx Ha. destruct (rr_u16 rx _ HR) as [E1 E2]. rewrite stream_u16 in * by done.
  pose proof (read_same_packet 2 as_u16 rx) as Hk. cbn [read_u16 rx_ops] in *.
  unfold capwap_fragment_read_u16 in *. destruct (read_integer 2 as_u16 rx) as [d rx'].
  cbn in *. exists rx'. by rewrite E1.
Qed.

Lemma rx_read_u32 rx x a s :
  rx_stream rx (Stream a (be32 x ++ s)) -> is_u32 x -> 4 <= a < 65536 ->
  exists rx', read_u32 rx = (Some x, rx') /\ rx_stream rx' (Stream (a - 4) s) /\ same_packet rx rx'.
Proof.
  intros HR Hx Ha. destruct (rr_u32 rx _ HR) as [E1 E2]. rewrite stream_u32 in * by done.
  pose proof (read_same_packet 4 as_u32 rx) as Hk. cbn [read_u32 rx_ops] in *.
  unfold capwap_fragment_read_u32 in *. destruct (read_integer 4 as_u32 rx) as [d rx'].
  cbn in *. exists rx'. by rewrite E1.
Qed.

(** Once the fragments are complete, the control header is decoded and the
    reader stands at the message elements. *)
Lemma complete_spec rx m body :
  Forall fragment_ok (rx_fragmentlist rx) -> rx_fragmentlist rx <> [] ->
  concat (payload <$> rx_fragmentlist rx) = control_bytes m body -> control_ok m ->
  rx_packetlength rx <> 0 ->
  exists rx', capwap_packet_rxmng_complete rx = Some rx' /\
  rx_ctrlmsg rx' = m /\ rx_fragmentlist rx' = rx_fragmentlist rx /\
  readpos_ok (rx_readbodypos rx') /\ pending (rx_readbodypos rx') = body.
Proof.
  intros Hok Hne Hpay (Ht & Hs & Hl & Hf) Hn. unfold capwap_packet_rxmng_complete.
  rewrite (proj2 (Z.eqb_neq _ 0)) by done.
  set (rx0 := rx_allow (rx_seek rx _) _).
  assert (HR0 : rx_stream rx0 (Stream 8 (control_bytes m body))).
  { unfold rx0, rx_stream, rx_allow, rx_seek, rx_header, readpos_ok. cbn.
    destruct (rx_fragmentlist rx) as [|f next]; [done|].
    pose proof (hlen_range (buffer f)). apply Forall_cons in Hok as Hok2.
    destruct Hok2 as [(? & ? & ?) ?]. rewrite wrap16_small by lia.
    split; [done|]. split; [split; [done|lia]|]. by rewrite <- Hpay. }
  assert (Hfr : rx_fragmentlist rx0 = rx_fragmentlist rx) by done.
  clearbody rx0. unfold control_bytes in HR0.
  destruct (rx_read_u32 _ _ _ _ HR0) as (rx1 & -> & HR1 & (F1 & _)); [done|lia|].
  destruct (rx_read_u8 _ _ _ _ HR1) as (rx2 & -> & HR2 & (F2 & _)); [done|lia|].
  destruct (rx_read_u16 _ _ _ _ HR2) as (rx3 & -> & HR3 & (F3 & _)); [done|lia|].
  destruct (rx_read_u8 _ _ _ _ HR3) as (rx4 & -> & HR4 & (F4 & _)); [done|lia|].
  eexists. split; [reflexivity|]. cbn. destruct HR4 as (_ & Hp & Hb). cbn in Hb.
  split; [by destruct m|]. split; [congruence|]. split; [exact Hp|done].
Qed.

(** A packet that is not a fragment is complete at once. *)
Lemma recv_single_complete data m body :
  IS_FLAG_F_HEADER data = false -> zlen data < 65536 ->
  GET_HLEN_HEADER data * 4 <= zlen data ->
  drop (Z.to_nat (GET_HLEN_HEADER data * 4)) data = control_bytes m body -> control_ok m ->
  exists rx,
    capwap_packet_rxmng_add_recv_packet capwap_packet_rxmng_create_message data =
      Some (CAPWAP_RECEIVE_COMPLETE_PACKET, rx) /\
    rx_ctrlmsg rx = m /\ rx_fragmentlist rx = [capwap_packet_rxmng_create_fragment_item data] /\
    readpos_ok (rx_readbodypos rx) /\ pending (rx_readbodypos rx) = body.
Proof.
  intros HF Hn Hh Hd Hm. unfold capwap_packet_rxmng_add_recv_packet. rewrite HF.
  change (rx_fragmentlist capwap_packet_rxmng_create_message) with (@nil capwap_fragment_packet_item).
  cbn match.
  assert (Hlen : zlen data - GET_HLEN_HEADER data * 4 = 8 + zlen body).
  { apply (f_equal length) in Hd. unfold control_bytes in Hd. pose proof (hlen_range data).
    rewrite length_drop, !length_app, length_be32, length_be16 in Hd. cbn [length] in Hd. lia. }
  pose proof (hlen_range data).
  rewrite (proj2 (Z.ltb_lt 0 _)) by lia. cbn [negb].
  set (rx0 := rx_set_packetlength _ _).
  destruct (complete_spec rx0 m body) as (rx' & E & H1 & H2 & H3 & H4); try done.
  { unfold rx0. cbn. repeat constructor; cbn; rewrite ?wrap16_small by lia; lia. }
  { unfold rx0. cbn. by rewrite app_nil_r. }
  { unfold rx0. cbn. lia. }
  exists rx'. by rewrite E.
Qed.

Lemma recv_single_spec data m body :
  IS_FLAG_F_HEADER data = false -> zlen data < 65536 ->
  GET_HLEN_HEADER data * 4 <= zlen data ->
  drop (Z.to_nat (GET_HLEN_HEADER data * 4)) data = control_bytes m body -> control_ok m ->
  exists rx,
    capwap_packet_rxmng_add_recv_packet capwap_packet_rxmng_create_message data =
      Some (CAPWAP_RECEIVE_COMPLETE_PACKET, rx) /\
    rx_ctrlmsg rx = m /\ rx_header rx = data /\
    readpos_ok (rx_readbodypos rx) /\ pending (rx_readbodypos rx) = body.
Proof.
  intros HF Hn Hh Hd Hm. destruct (recv_single_complete data m body HF Hn Hh Hd Hm) as (rx & E & Hc & Hl & Hp & Hb).
  exists rx. split_and!; try done. unfold rx_header. by rewrite Hl.
Qed.
