(* ===== verification/Packet.v ===== *)
(** Control messages (src/common/capwap_element.c and capwap_protocol.c):
    decoding a message into its elements, checking that the elements its type
    requires are present, and adding an element to a message. *)
From S2P Require Import Prelude Io Header Tx Rx.
From S2P Require Import ElementsImage Element.

(** ** Message types (capwap_rfc.h) *)

Definition CAPWAP_DISCOVERY_REQUEST : Z := 1.
Definition CAPWAP_DISCOVERY_RESPONSE : Z := 2.
Definition CAPWAP_JOIN_REQUEST : Z := 3.
Definition CAPWAP_JOIN_RESPONSE : Z := 4.
Definition CAPWAP_CONFIGURATION_STATUS_REQUEST : Z := 5.
Definition CAPWAP_CONFIGURATION_STATUS_RESPONSE : Z := 6.
Definition CAPWAP_CONFIGURATION_UPDATE_REQUEST : Z := 7.
Definition CAPWAP_CONFIGURATION_UPDATE_RESPONSE : Z := 8.
Definition CAPWAP_WTP_EVENT_REQUEST : Z := 9.
Definition CAPWAP_WTP_EVENT_RESPONSE : Z := 10.
Definition CAPWAP_CHANGE_STATE_EVENT_REQUEST : Z := 11.
Definition CAPWAP_CHANGE_STATE_EVENT_RESPONSE : Z := 12.
Definition CAPWAP_ECHO_REQUEST : Z := 13.
Definition CAPWAP_ECHO_RESPONSE : Z := 14.
Definition CAPWAP_IMAGE_DATA_REQUEST : Z := 15.
Definition CAPWAP_IMAGE_DATA_RESPONSE : Z := 16.
Definition CAPWAP_RESET_REQUEST : Z := 17.
Definition CAPWAP_RESET_RESPONSE : Z := 18.
Definition CAPWAP_PRIMARY_DISCOVERY_REQUEST : Z := 19.
Definition CAPWAP_PRIMARY_DISCOVERY_RESPONSE : Z := 20.
Definition CAPWAP_DATA_TRANSFER_REQUEST : Z := 21.
Definition CAPWAP_DATA_TRANSFER_RESPONSE : Z := 22.
Definition CAPWAP_CLEAR_CONFIGURATION_REQUEST : Z := 23.
Definition CAPWAP_CLEAR_CONFIGURATION_RESPONSE : Z := 24.
Definition CAPWAP_STATION_CONFIGURATION_REQUEST : Z := 25.
Definition CAPWAP_STATION_CONFIGURATION_RESPONSE : Z := 26.
Definition CAPWAP_IEEE80211_WLAN_CONFIGURATION_REQUEST : Z := 3398913.
Definition CAPWAP_IEEE80211_WLAN_CONFIGURATION_RESPONSE : Z := 3398914.

Definition CAPWAP_VALID_MESSAGE_TYPE (x : Z) : bool :=
  (CAPWAP_DISCOVERY_REQUEST <=? x) && (x <=? CAPWAP_STATION_CONFIGURATION_RESPONSE).
Definition CAPWAP_VALID_IEEE80211_MESSAGE_TYPE (x : Z) : bool :=
  (CAPWAP_IEEE80211_WLAN_CONFIGURATION_REQUEST <=? x) &&
  (x <=? CAPWAP_IEEE80211_WLAN_CONFIGURATION_RESPONSE).

Definition CAPWAP_WIRELESS_BINDING_IEEE80211 : Z := 1.

Definition capwap_is_request_type (type : Z) : bool :=
  (type =? CAPWAP_DISCOVERY_REQUEST) || (type =? CAPWAP_JOIN_REQUEST) ||
  (type =? CAPWAP_CONFIGURATION_STATUS_REQUEST) ||
  (type =? CAPWAP_CONFIGURATION_UPDATE_REQUEST) || (type =? CAPWAP_WTP_EVENT_REQUEST) ||
  (type =? CAPWAP_CHANGE_STATE_EVENT_REQUEST) || (type =? CAPWAP_ECHO_REQUEST) ||
  (type =? CAPWAP_IMAGE_DATA_REQUEST) || (type =? CAPWAP_RESET_REQUEST) ||
  (type =? CAPWAP_PRIMARY_DISCOVERY_REQUEST) || (type =? CAPWAP_DATA_TRANSFER_REQUEST) ||
  (type =? CAPWAP_CLEAR_CONFIGURATION_REQUEST) ||
  (type =? CAPWAP_STATION_CONFIGURATION_REQUEST) ||
  (type =? CAPWAP_IEEE80211_WLAN_CONFIGURATION_REQUEST).

(** Sequence numbers are bytes, compared as serial numbers. *)
Definition IS_SEQUENCE_SMALLER (s1 s2 : Z) : bool :=
  ((s1 <? s2) && (s2 - s1 <? 128)) || ((s2 <? s1) && (128 <? s1 - s2)).

Definition VALID_MESSAGE_TYPE : Z := 0.
Definition INVALID_MESSAGE_TYPE : Z := 1.
Definition INVALID_REQUEST_MESSAGE_TYPE : Z := 2.

(** The payload of the first fragment must hold a control header. *)
Definition capwap_check_message_type (rx : capwap_packet_rxmng) : Z :=
  match rx_fragmentlist rx with
  | [] => INVALID_MESSAGE_TYPE
  | packet :: _ =>
      let binding := GET_WBID_HEADER (rx_header rx) in
      let lengthpayload := wrap16 (offset packet - GET_HLEN_HEADER (buffer packet) * 4) in
      let type := cm_type (rx_ctrlmsg rx) in
      if sizeof_capwap_control_message <=? lengthpayload then
        if CAPWAP_VALID_MESSAGE_TYPE type then VALID_MESSAGE_TYPE
        else if (binding =? CAPWAP_WIRELESS_BINDING_IEEE80211) &&
                CAPWAP_VALID_IEEE80211_MESSAGE_TYPE type then VALID_MESSAGE_TYPE
        else if negb (type mod 2 =? 0) then INVALID_REQUEST_MESSAGE_TYPE
        else INVALID_MESSAGE_TYPE
      else INVALID_MESSAGE_TYPE
  end.

(** ** Parsed packets *)

(** [struct capwap_message_element_itemlist]: the data is one element, or an
    array of them. *)
Record capwap_message_element_itemlist := ItemList {
  il_id : capwap_message_element_id;
  il_category : Z;
  il_data : list message_element
}.

Definition capwap_get_message_element (messages : list capwap_message_element_itemlist)
    (id : capwap_message_element_id) : option capwap_message_element_itemlist :=
  List.find (fun m => message_element_id_eq id (il_id m)) messages.

Definition capwap_get_message_element_data (messages : list capwap_message_element_itemlist)
    (id : capwap_message_element_id) : option (list message_element) :=
  il_data <$> capwap_get_message_element messages id.

(** [capwap_array_get_item_pointer] of the array found under an id, at its end. *)
Fixpoint append_element (id : capwap_message_element_id) (element : message_element)
    (messages : list capwap_message_element_itemlist) : list capwap_message_element_itemlist :=
  match messages with
  | [] => []
  | m :: messages =>
      if message_element_id_eq id (il_id m)
      then ItemList (il_id m) (il_category m) (il_data m ++ [element]) :: messages
      else m :: append_element id element messages
  end.

(** Adding a parsed element to the list of messages; [None] when an element
    that may occur once occurs again. *)
Definition store_element `{Indeterminate} (messages : list capwap_message_element_itemlist)
    (id : capwap_message_element_id) (element : message_element)
    : option (list capwap_message_element_itemlist) :=
  let itemlist := capwap_get_message_element messages id in
  let category := category (element_ops (projT1 element)) in
  if category =? CAPWAP_MESSAGE_ELEMENT_SINGLE then
    match itemlist with
    | Some _ => None
    | None => Some (messages ++ [ItemList id CAPWAP_MESSAGE_ELEMENT_SINGLE [element]])
    end
  else if category =? CAPWAP_MESSAGE_ELEMENT_ARRAY then
    match itemlist with
    | Some _ =>
        Some (append_element id element messages)
    | None => Some (messages ++ [ItemList id CAPWAP_MESSAGE_ELEMENT_ARRAY [element]])
    end
  else Some messages.

Definition PARSING_COMPLETE : Z := 0.
Definition UNRECOGNIZED_MESSAGE_ELEMENT : Z := 1.
Definition INVALID_MESSAGE_ELEMENT : Z := 2.

Definition sizeof_capwap_message_element : Z := 4.

(** A reader whose budget can be read and set. *)
Class PacketOps (H : Type) := {
  packet_read :: ReadOps H;
  allow : H -> Z -> H;
  allowed : H -> Z
}.

#[export] Instance stream_packet : PacketOps stream := {
  allow s n := Stream n (st_bytes s);
  allowed := st_allowed
}.

#[export] Instance rx_packet : PacketOps capwap_packet_rxmng := {
  allow := rx_allow;
  allowed := rx_readerpacketallowed
}.

Section Parsing.
Context {I : Indeterminate} {H : Type} {P : PacketOps H}.

(** The parse callback of a kind, its result with the kind. *)
Definition parse_kind (fuel : nat) (k : element_kind) (h : H) : outcome (option message_element * H) :=
  '(d, h) ← run (parse (element_ops k) fuel) h;
  Done (fmap (M := option) (fun x => existT k x : message_element) d, h).

(** The value of one element, its budget being set: the result is the code to
    return at once, or the id and the element. *)
Definition parse_value (fuel : nat) (id : capwap_message_element_id) (msglength : Z) (h : H)
    : outcome ((Z + capwap_message_element_id * message_element) * H) :=
  if type id =? CAPWAP_ELEMENT_VENDORPAYLOAD_TYPE then
    if msglength <? 7 then Done (inl INVALID_MESSAGE_ELEMENT, h) else
    if VendorPayload.CAPWAP_VENDORPAYLOAD_MAXLENGTH <? msglength - 6
    then Done (inl INVALID_MESSAGE_ELEMENT, h) else
    let '(v, h) := read_u32 h in
    let '(t, h) := read_u16 h in
    let vendor_id := ElementId (default indet v) (default indet t) in
    match capwap_get_message_element_ops vendor_id with
    | Some k =>
        '(e, h) ← parse_kind fuel k h;
        Done (match e with None => inl INVALID_MESSAGE_ELEMENT | Some e => inr (vendor_id, e) end, h)
    | None =>
        '(d, h) ← run (VendorPayload.capwap_unknown_vendorpayload_element_parsing (msglength - 6)
                         (vendor vendor_id) (type vendor_id)) h;
        Done (match d with None => inl INVALID_MESSAGE_ELEMENT | Some d => inr (id, existT K_vendorpayload d) end, h)
    end
  else
    match capwap_get_message_element_ops id with
    | None => Done (inl UNRECOGNIZED_MESSAGE_ELEMENT, h)
    | Some k =>
        '(e, h) ← parse_kind fuel k h;
        Done (match e with None => inl INVALID_MESSAGE_ELEMENT | Some e => inr (id, e) end, h)
    end.

(** The [while] loop of [capwap_parsing_packet]: the code returned and the
    messages collected. *)
Fixpoint parsing_loop (fuel : nat) (binding bodylength : Z)
    (messages : list capwap_message_element_itemlist) (h : H)
    : outcome (Z * list capwap_message_element_itemlist * H) :=
  match fuel with
  | O => Looping
  | S fuel =>
      if 0 <? bodylength then
        let h := allow h sizeof_capwap_message_element in
        match read_u16 h with
        | (None, h) => Done (INVALID_MESSAGE_ELEMENT, messages, h)
        | (Some type, h) =>
            match read_u16 h with
            | (None, h) => Done (INVALID_MESSAGE_ELEMENT, messages, h)
            | (Some msglength, h) =>
                if bodylength <? msglength then Done (INVALID_MESSAGE_ELEMENT, messages, h) else
                let h := allow h msglength in
                let id := ElementId 0 type in
                if IS_80211_MESSAGE_ELEMENTS id && negb (binding =? CAPWAP_WIRELESS_BINDING_IEEE80211)
                then Done (UNRECOGNIZED_MESSAGE_ELEMENT, messages, h) else
                '(r, h) ← parse_value fuel id msglength h;
                match r with
                | inl code => Done (code, messages, h)
                | inr (id, element) =>
                    match store_element messages id element with
                    | None => Done (INVALID_MESSAGE_ELEMENT, messages, h)
                    | Some messages =>
                        if negb (allowed h =? 0) then Done (INVALID_MESSAGE_ELEMENT, messages, h) else
                        parsing_loop fuel binding
                          (wrap16 (bodylength - (msglength + sizeof_capwap_message_element)))
                          messages h
                    end
                end
            end
        end
      else Done (PARSING_COMPLETE, messages, h)
  end.

End Parsing.

Definition capwap_parsing_packet `{Indeterminate} (fuel : nat) (rx : capwap_packet_rxmng)
    : outcome (Z * list capwap_message_element_itemlist * capwap_packet_rxmng) :=
  let binding := GET_WBID_HEADER (rx_header rx) in
  let rx := rx_seek rx (rx_readbodypos rx) in
  let bodylength := wrap16 (cm_length (rx_ctrlmsg rx) - CAPWAP_CONTROL_MESSAGE_MIN_LENGTH) in
  parsing_loop fuel binding bodylength [] rx.

(** [capwap_packet_txmng_add_message_element] *)
Definition capwap_packet_txmng_add_message_element `{Indeterminate} (tx : capwap_packet_txmng)
    (element : message_element) : option capwap_packet_txmng :=
  let id := kind_id (projT1 element) in
  add_message_element tx (vendor id) (type id)
    (create (element_ops (projT1 element)) (projT2 element)).
