(* ===== verification/PacketInv.v ===== *)
(** The list of decoded elements is well typed: the [void*] stored under an id
    points to the data of the kind the tables give for that id, an id occurs
    once, and only the kinds of category array hold several values. *)
From S2P Require Import Prelude Io Header Tx Rx.
From S2P Require Import ElementsImage Element Packet.

#[export] Instance element_id_eq_dec : EqDecision capwap_message_element_id.
Proof. solve_decision. Defined.

#[export] Instance element_kind_eq_dec : EqDecision element_kind.
Proof.
  intros k k'. destruct (decide (kind_id k = kind_id k')) as [E|E]; [left|right].
  - by apply kind_id_inj.
  - by intros ->.
Defined.

Section Invariant.
Context {I : Indeterminate}.

Definition item_ok (m : capwap_message_element_itemlist) : Prop :=
  exists k, capwap_get_message_element_ops (il_id m) = Some k /\
    il_category m = category (element_ops k) /\
    Forall (fun e => projT1 e = k) (il_data m) /\ il_data m <> [] /\
    (il_category m = CAPWAP_MESSAGE_ELEMENT_SINGLE -> length (il_data m) = 1%nat).

Definition messages_ok (ms : list capwap_message_element_itemlist) : Prop :=
  NoDup (il_id <$> ms) /\ Forall item_ok ms.

Lemma messages_ok_nil : messages_ok [].
Proof. split; constructor. Qed.

Lemma get_message_element_none ms id :
  capwap_get_message_element ms id = None <-> id ∉ il_id <$> ms.
Proof.
  unfold capwap_get_message_element. induction ms as [|m ms IH]; cbn; [split; [intros _; apply not_elem_of_nil|done]|].
  rewrite not_elem_of_cons. destruct (message_element_id_eq id (il_id m)) eqn:E.
  - apply message_element_id_eq_spec in E. split; [done|]. by intros [? _].
  - rewrite IH. assert (id <> il_id m); [|tauto].
    intros ->. by rewrite (proj2 (message_element_id_eq_spec _ _)) in E.
Qed.

Lemma get_message_element_some ms id m :
  capwap_get_message_element ms id = Some m -> m ∈ ms /\ il_id m = id.
Proof.
  unfold capwap_get_message_element. intros H. apply List.find_some in H as [Hin He].
  apply message_element_id_eq_spec in He. split; [by apply list_elem_of_In|done].
Qed.

(** A new entry at the end. *)
Lemma messages_ok_snoc ms id k e :
  messages_ok ms -> id ∉ il_id <$> ms -> capwap_get_message_element_ops id = Some k ->
  projT1 e = k -> messages_ok (ms ++ [ItemList id (category (element_ops k)) [e]]).
Proof.
  intros [Hnd Hall] Hid Hk He. split.
  - rewrite fmap_app. apply NoDup_app. split; [done|]. split; [|apply NoDup_singleton].
    intros x Hx Hy%list_elem_of_singleton. cbn in Hy. by subst.
  - apply Forall_app. split; [done|]. constructor; [|done]. exists k. cbn.
    split; [done|]. split; [done|]. split; [by constructor|]. done.
Qed.

Lemma append_element_ids id e ms : il_id <$> append_element id e ms = il_id <$> ms.
Proof.
  induction ms as [|m ms IH]; [done|]. cbn. destruct (message_element_id_eq id (il_id m)); [done|].
  cbn. by rewrite <- IH.
Qed.

(** One more value in an array. *)
Lemma messages_ok_append ms id k e :
  messages_ok ms -> capwap_get_message_element_ops id = Some k -> projT1 e = k ->
  category (element_ops k) <> CAPWAP_MESSAGE_ELEMENT_SINGLE -> messages_ok (append_element id e ms).
Proof.
  intros [Hnd Hall] Hk He Hc. split; [by rewrite append_element_ids|]. clear Hnd.
  induction Hall as [|m ms (k' & Hk' & Hcat & Hd & Hne & Hs) Hall IH]; [constructor|]. cbn.
  destruct (message_element_id_eq id (il_id m)) eqn:E.
  - apply message_element_id_eq_spec in E. subst id. rewrite Hk in Hk'. injection Hk' as <-.
    constructor; [|done]. exists k. cbn. split; [done|]. split; [done|].
    split; [apply Forall_app; split; [done|by constructor]|]. split; [by destruct (il_data m)|].
    congruence.
  - constructor; [|done]. by exists k'.
Qed.

Lemma store_element_ok ms id e ms' :
  messages_ok ms -> capwap_get_message_element_ops id = Some (projT1 e) ->
  store_element ms id e = Some ms' -> messages_ok ms'.
Proof.
  intros Hok Hk. unfold store_element.
  destruct (Z.eqb_spec (category (element_ops (projT1 e))) CAPWAP_MESSAGE_ELEMENT_SINGLE) as [Ec|Ec].
  - destruct (capwap_get_message_element ms id) eqn:E; [done|]. intros [= <-].
    rewrite <- Ec. by apply messages_ok_snoc; [|apply get_message_element_none|..].
  - destruct (Z.eqb_spec (category (element_ops (projT1 e))) CAPWAP_MESSAGE_ELEMENT_ARRAY) as [Ea|Ea].
    + destruct (capwap_get_message_element ms id) eqn:E; intros [= <-].
      * by eapply messages_ok_append.
      * rewrite <- Ea. by apply messages_ok_snoc; [|apply get_message_element_none|..].
    + by intros [= <-].
Qed.

Section Reader.
Context {H : Type} {P : PacketOps H}.

Lemma parse_kind_kind fuel k (h h' : H) e :
  parse_kind fuel k h = Done (Some e, h') -> projT1 e = k.
Proof.
  unfold parse_kind. outcome. destruct (run _ h) as [[[d|] ?]| |]; [|done..]. by intros [= <- _].
Qed.

(** The element delivered is of the kind its id stands for. *)
Lemma parse_value_kind fuel t l (h h' : H) id e :
  parse_value fuel (ElementId 0 t) l h = Done (inr (id, e), h') ->
  capwap_get_message_element_ops id = Some (projT1 e).
Proof.
  unfold parse_value. outcome. cbn [type].
  destruct (Z.eqb_spec t CAPWAP_ELEMENT_VENDORPAYLOAD_TYPE) as [->|Ht].
  - destruct (l <? 7); [done|]. destruct (_ <? l - 6); [done|].
    destruct (read_u32 h) as [v h1], (read_u16 h1) as [tt h2]. cbn zeta.
    destruct (capwap_get_message_element_ops _) as [k|] eqn:Ek.
    + destruct (parse_kind fuel k h2) as [[[d|] h3]| |] eqn:E; [|done..].
      intros [= <- <- _]. by rewrite (parse_kind_kind _ _ _ _ _ E).
    + destruct (run _ h2) as [[[d|] h3]| |]; [|done..]. by intros [= <- <- _].
  - destruct (capwap_get_message_element_ops _) as [k|] eqn:Ek; [|done].
    destruct (parse_kind fuel k h) as [[[d|] h3]| |] eqn:E; [|done..].
    intros [= <- <- _]. by rewrite (parse_kind_kind _ _ _ _ _ E).
Qed.

Lemma parsing_loop_ok fuel binding n ms (h h' : H) code ms' :
  messages_ok ms -> parsing_loop fuel binding n ms h = Done (code, ms', h') -> messages_ok ms'.
Proof.
  revert n ms h. induction fuel as [|fuel IH]; intros n ms h Hok; [done|].
  cbn [parsing_loop]. outcome. destruct (0 <? n); [|by intros [= _ <- _]].
  destruct (read_u16 _) as [[t|] h1]; [|by intros [= _ <- _]].
  destruct (read_u16 h1) as [[l|] h2]; [|by intros [= _ <- _]].
  destruct (n <? l); [by intros [= _ <- _]|]. destruct (_ && _); [by intros [= _ <- _]|].
  destruct (parse_value fuel (ElementId 0 t) l _) as [[[c|[id e]] h3]| |] eqn:Ev;
    [by intros [= _ <- _]| |done..].
  destruct (store_element ms id e) as [ms1|] eqn:Es; [|by intros [= _ <- _]].
  assert (Hok1 : messages_ok ms1).
  { apply (store_element_ok _ _ _ _ Hok (parse_value_kind _ _ _ _ _ _ _ Ev) Es). }
  destruct (negb _); [by intros [= _ <- _]|]. by apply IH.
Qed.

End Reader.

(** ** What the list holds, kind by kind *)

(** The values stored under the id of a kind. *)
Definition collected (ms : list capwap_message_element_itemlist) (k : element_kind)
    : list message_element :=
  default [] (capwap_get_message_element_data ms (kind_id k)).

(** The elements of a kind, in order. *)
Definition of_kind (k : element_kind) (es : list message_element) : list message_element :=
  filter (fun e => projT1 e = k) es.

Lemma category_cases k :
  category (element_ops k) = CAPWAP_MESSAGE_ELEMENT_SINGLE \/
  category (element_ops k) = CAPWAP_MESSAGE_ELEMENT_ARRAY.
Proof. destruct k; auto. Qed.

Lemma get_snoc ms m id :
  capwap_get_message_element (ms ++ [m]) id =
    match capwap_get_message_element ms id with
    | Some x => Some x
    | None => if message_element_id_eq id (il_id m) then Some m else None
    end.
Proof.
  unfold capwap_get_message_element. induction ms as [|x ms IH]; [done|]. cbn.
  by destruct (message_element_id_eq id (il_id x)).
Qed.

Lemma id_eq_refl id : message_element_id_eq id id = true.
Proof. by apply message_element_id_eq_spec. Qed.

Lemma id_eq_false a b : a <> b -> message_element_id_eq a b = false.
Proof.
  intros Hab. destruct (message_element_id_eq a b) eqn:E; [|done].
  by apply message_element_id_eq_spec in E.
Qed.

Lemma get_append ms id e id' :
  capwap_get_message_element (append_element id e ms) id' =
    (fun m => if message_element_id_eq id id'
              then ItemList (il_id m) (il_category m) (il_data m ++ [e]) else m)
      <$> capwap_get_message_element ms id'.
Proof.
  unfold capwap_get_message_element. induction ms as [|m ms IH]; [done|]. cbn.
  destruct (message_element_id_eq id (il_id m)) eqn:E; cbn [List.find il_id].
  - apply message_element_id_eq_spec in E. subst id.
    destruct (message_element_id_eq id' (il_id m)) eqn:E'.
    + apply message_element_id_eq_spec in E'. subst id'. cbn. by rewrite id_eq_refl.
    + destruct (List.find _ ms) eqn:Ef; [|done]. cbn. rewrite id_eq_false; [done|].
      intros E''. by rewrite <- E'', id_eq_refl in E'.
  - destruct (message_element_id_eq id' (il_id m)) eqn:E'; [|apply IH].
    apply message_element_id_eq_spec in E'. subst id'. cbn. by rewrite E.
Qed.

(** Storing an element adds it to the values of its kind and to no other. *)
Lemma store_element_collected ms e ms' k :
  store_element ms (kind_id (projT1 e)) e = Some ms' ->
  collected ms' k = collected ms k ++ of_kind k [e].
Proof.
  unfold store_element, collected, capwap_get_message_element_data. intros Hst.
  assert (Hk : message_element_id_eq (kind_id (projT1 e)) (kind_id k) = bool_decide (projT1 e = k)).
  { case_bool_decide as E; [by rewrite E, id_eq_refl|]. apply id_eq_false.
    intros E'. apply kind_id_inj in E'. done. }
  assert (Hf : of_kind k [e] = if bool_decide (projT1 e = k) then [e] else []).
  { unfold of_kind. rewrite filter_cons, filter_nil. by case_bool_decide; case_decide. }
  rewrite Hf. destruct (capwap_get_message_element ms (kind_id (projT1 e))) as [m|] eqn:Eg.
  - destruct (category_cases (projT1 e)) as [Ec|Ec]; rewrite Ec in Hst; cbn in Hst; [done|].
    injection Hst as <-. rewrite get_append, Hk.
    destruct (capwap_get_message_element ms (kind_id k)) as [x|] eqn:Ex; cbn.
    + by case_bool_decide; cbn; rewrite ?app_nil_r.
    + case_bool_decide as E; [|done]. rewrite E in Eg. congruence.
  - assert (Hst' : ms' = ms ++ [ItemList (kind_id (projT1 e)) (category (element_ops (projT1 e))) [e]]).
    { destruct (category_cases (projT1 e)) as [Ec|Ec]; rewrite Ec in Hst |- *;
        cbn in Hst; by injection Hst as <-. }
    subst ms'. rewrite get_snoc. cbn [il_id].
    destruct (capwap_get_message_element ms (kind_id k)) as [x|] eqn:Ex.
    + case_bool_decide as E; cbn; rewrite ?app_nil_r; [|done]. rewrite E in Eg. congruence.
    + replace (message_element_id_eq (kind_id k) (kind_id (projT1 e))) with
        (message_element_id_eq (kind_id (projT1 e)) (kind_id k)); [rewrite Hk; by case_bool_decide|].
      unfold message_element_id_eq. by rewrite Z.eqb_sym, (Z.eqb_sym (type _)).
Qed.

(** Storing the elements one after the other. *)
Fixpoint store_all (messages : list capwap_message_element_itemlist) (es : list message_element)
    : option (list capwap_message_element_itemlist) :=
  match es with
  | [] => Some messages
  | e :: es =>
      match store_element messages (kind_id (projT1 e)) e with
      | None => None
      | Some messages => store_all messages es
      end
  end.


Lemma of_kind_cons k e es : of_kind k (e :: es) = of_kind k [e] ++ of_kind k es.
Proof. unfold of_kind. by rewrite <- filter_app. Qed.

Lemma store_all_ok ms es ms' :
  messages_ok ms -> store_all ms es = Some ms' -> messages_ok ms'.
Proof.
  revert ms. induction es as [|e es IH]; intros ms Hok; cbn; [by intros [= <-]|].
  destruct (store_element ms _ e) as [ms1|] eqn:E; [|done]. apply IH.
  apply (store_element_ok _ _ _ _ Hok (table_lookup _) E).
Qed.

Lemma store_all_collected ms es ms' k :
  store_all ms es = Some ms' -> collected ms' k = collected ms k ++ of_kind k es.
Proof.
  revert ms. induction es as [|e es IH]; intros ms; cbn [store_all].
  - intros [= <-]. by rewrite app_nil_r.
  - destruct (store_element ms _ e) as [ms1|] eqn:E; [|done]. intros Hst.
    rewrite (IH _ Hst), (store_element_collected _ _ _ k E), (of_kind_cons k e es).
    by rewrite app_assoc.
Qed.

(** Every entry holds a value, and an entry of a single element holds one. *)
Lemma collected_nil ms k :
  messages_ok ms -> collected ms k = [] <-> capwap_get_message_element ms (kind_id k) = None.
Proof.
  intros [_ Hall]. unfold collected, capwap_get_message_element_data.
  destruct (capwap_get_message_element ms (kind_id k)) as [m|] eqn:E; [|done].
  apply get_message_element_some in E as [Hin _]. rewrite Forall_forall in Hall.
  destruct (Hall m Hin) as (k' & _ & _ & _ & Hne & _). done.
Qed.

Lemma collected_single ms k :
  messages_ok ms -> category (element_ops k) = CAPWAP_MESSAGE_ELEMENT_SINGLE ->
  (length (collected ms k) <= 1)%nat.
Proof.
  intros [_ Hall] Hc. unfold collected, capwap_get_message_element_data.
  destruct (capwap_get_message_element ms (kind_id k)) as [m|] eqn:E; [|cbn; lia].
  apply get_message_element_some in E as [Hin Hid]. rewrite Forall_forall in Hall.
  destruct (Hall m Hin) as (k' & Hk & Hcat & _ & _ & Hs). rewrite Hid, table_lookup in Hk.
  injection Hk as <-. cbn. rewrite Hs by congruence. done.
Qed.

(** The whole list is stored unless an element that may occur once is repeated. *)
Lemma store_all_succeeds ms es :
  messages_ok ms ->
  (exists ms', store_all ms es = Some ms') <->
  (forall k, category (element_ops k) = CAPWAP_MESSAGE_ELEMENT_SINGLE ->
   (length (collected ms k ++ of_kind k es) <= 1)%nat).
Proof.
  revert ms. induction es as [|e es IH]; intros ms Hok.
  - split; [|by eexists]. intros _ k Hk. rewrite app_nil_r. by apply collected_single.
  - cbn [store_all]. destruct (store_element ms (kind_id (projT1 e)) e) as [ms1|] eqn:E.
    + rewrite (IH ms1) by (apply (store_element_ok _ _ _ _ Hok (table_lookup _) E)).
      split; intros H k Hk; specialize (H k Hk);
        rewrite (of_kind_cons k e es), (store_element_collected _ _ _ k E), app_assoc in *; done.
    + split; [by intros [? ?]|]. intros H. exfalso. unfold store_element in E.
      destruct (category_cases (projT1 e)) as [Ec|Ec]; rewrite Ec in E; cbn in E;
        destruct (capwap_get_message_element ms (kind_id (projT1 e))) eqn:Eg; try done.
      specialize (H _ Ec). rewrite (of_kind_cons _ e es), !length_app in H.
      assert (Hne : collected ms (projT1 e) <> []) by (rewrite collected_nil by done; congruence).
      unfold of_kind in H. rewrite filter_cons_True in H by done. cbn in H.
      destruct (collected ms (projT1 e)); [done|]. cbn in H. lia.
Qed.

End Invariant.
