(* ===== verification/Validate.v ===== *)
(** [capwap_validate_parsed_packet] (src/common/capwap_element.c): the
    mandatory elements of each message type, and the table of them as a
    specification. *)
From S2P Require Import Prelude Io Header Tx Rx.
From S2P Require Import ElementsImage Element Packet.

(** A message element is present. *)
Definition has (messages : list capwap_message_element_itemlist) (k : element_kind) : bool :=
  match capwap_get_message_element messages (kind_id k) with Some _ => true | None => false end.

(** [capwap_get_message_element_data(packet, CAPWAP_ELEMENT_RESULTCODE)] and the
    test [resultcode && !CAPWAP_RESULTCODE_OK(resultcode->code)]. *)
Definition has_error_resultcode (messages : list capwap_message_element_itemlist) : bool :=
  match capwap_get_message_element_data messages (kind_id K_resultcode) with
  | Some (existT K_resultcode d :: _) =>
      negb (ResultCode.CAPWAP_RESULTCODE_OK (ResultCode.code d))
  | _ => false
  end.

Definition capwap_validate_parsed_packet (messages : list capwap_message_element_itemlist)
    (type binding : Z) : Z :=
  let get := has messages in
  let ok (b : bool) : Z := if b then 0 else -1 in
  let ieee80211 := binding =? CAPWAP_WIRELESS_BINDING_IEEE80211 in
  if type =? CAPWAP_DISCOVERY_REQUEST then
    ok (get K_discoverytype && get K_wtpboarddata && get K_wtpdescriptor &&
        get K_wtpframetunnelmode && get K_wtpmactype &&
        if ieee80211 then get K_80211_wtpradioinformation else true)
  else if type =? CAPWAP_DISCOVERY_RESPONSE then
    ok (get K_acdescriptor && get K_acname && (get K_controlipv4 || get K_controlipv6) ||
        has_error_resultcode messages)
  else if type =? CAPWAP_JOIN_REQUEST then
    ok (get K_location && get K_wtpboarddata && get K_wtpdescriptor && get K_wtpname &&
        get K_sessionid && get K_wtpframetunnelmode && get K_wtpmactype && get K_ecnsupport &&
        (get K_localipv4 || get K_localipv6) &&
        if ieee80211 then get K_80211_wtpradioinformation else true)
  else if type =? CAPWAP_JOIN_RESPONSE then
    ok (get K_resultcode && get K_acdescriptor && get K_acname && get K_ecnsupport &&
        (get K_controlipv4 || get K_controlipv6) && (get K_localipv4 || get K_localipv6) ||
        has_error_resultcode messages)
  else if type =? CAPWAP_CONFIGURATION_STATUS_REQUEST then
    ok (get K_acname && get K_radioadmstate && get K_statisticstimer && get K_wtprebootstat &&
        if ieee80211 then get K_80211_wtpradioinformation else true)
  else if type =? CAPWAP_CONFIGURATION_STATUS_RESPONSE then
    ok (get K_timers && get K_decrypterrorreportperiod && get K_idletimeout && get K_wtpfallback &&
        (get K_acipv4list || get K_acipv6list) ||
        has_error_resultcode messages)
  else if type =? CAPWAP_CONFIGURATION_UPDATE_REQUEST then
    ok (get K_acnamepriority || get K_actimestamp || get K_addmacacl || get K_timers ||
        get K_decrypterrorreportperiod || get K_deletemacacl || get K_idletimeout ||
        get K_location || get K_radioadmstate || get K_statisticstimer || get K_wtpfallback ||
        get K_wtpname || get K_wtpstaticipaddress || get K_imageidentifier || get K_vendorpayload)
  else if type =? CAPWAP_CONFIGURATION_UPDATE_RESPONSE then 0
  else if type =? CAPWAP_WTP_EVENT_REQUEST then
    ok (get K_decrypterrorreportperiod || get K_duplicateipv4 || get K_duplicateipv6 ||
        get K_wtpradiostat || get K_wtprebootstat || get K_deletestation || get K_vendorpayload)
  else if type =? CAPWAP_WTP_EVENT_RESPONSE then 0
  else if type =? CAPWAP_CHANGE_STATE_EVENT_REQUEST then
    ok (get K_radiooprstate && get K_resultcode)
  else if type =? CAPWAP_CHANGE_STATE_EVENT_RESPONSE then 0
  else if type =? CAPWAP_ECHO_REQUEST then 0
  else if type =? CAPWAP_ECHO_RESPONSE then 0
  else if type =? CAPWAP_IMAGE_DATA_REQUEST then 0
  else if type =? CAPWAP_IMAGE_DATA_RESPONSE then ok (get K_resultcode)
  else if type =? CAPWAP_RESET_REQUEST then ok (get K_imageidentifier)
  else if type =? CAPWAP_RESET_RESPONSE then 0
  else if type =? CAPWAP_PRIMARY_DISCOVERY_REQUEST then
    ok (get K_discoverytype && get K_wtpboarddata && get K_wtpdescriptor &&
        get K_wtpframetunnelmode && get K_wtpmactype &&
        if ieee80211 then get K_80211_wtpradioinformation else true)
  else if type =? CAPWAP_PRIMARY_DISCOVERY_RESPONSE then
    ok (get K_acdescriptor && get K_acname && (get K_controlipv4 || get K_controlipv6) ||
        has_error_resultcode messages)
  else if type =? CAPWAP_DATA_TRANSFER_REQUEST then -1
  else if type =? CAPWAP_DATA_TRANSFER_RESPONSE then ok (get K_resultcode)
  else if type =? CAPWAP_CLEAR_CONFIGURATION_REQUEST then 0
  else if type =? CAPWAP_CLEAR_CONFIGURATION_RESPONSE then ok (get K_resultcode)
  else if type =? CAPWAP_STATION_CONFIGURATION_REQUEST then
    if get K_addstation then ok (if ieee80211 then get K_80211_station else true)
    else ok (get K_deletestation)
  else if type =? CAPWAP_STATION_CONFIGURATION_RESPONSE then ok (get K_resultcode)
  else if type =? CAPWAP_IEEE80211_WLAN_CONFIGURATION_REQUEST then
    ok (get K_80211_addwlan || get K_80211_updatewlan || get K_80211_deletewlan)
  else if type =? CAPWAP_IEEE80211_WLAN_CONFIGURATION_RESPONSE then ok (get K_resultcode)
  else -1.

(** ** Specification: requirements in conjunctive normal form

    Each message type requires, of every group, one of its kinds; an error
    Result Code exempts some responses. *)
Record requirement := Require_ {
  groups : list (list element_kind);
  if_80211 : list element_kind;
  or_error : bool
}.

Definition each (ks : list element_kind) : list (list element_kind) := (fun k => [k]) <$> ks.

Definition discovery_request : requirement :=
  Require_ (each [K_discoverytype; K_wtpboarddata; K_wtpdescriptor; K_wtpframetunnelmode;
                  K_wtpmactype]) [K_80211_wtpradioinformation] false.
Definition discovery_response : requirement :=
  Require_ (each [K_acdescriptor; K_acname] ++ [[K_controlipv4; K_controlipv6]]) [] true.
Definition any_of (ks : list element_kind) : requirement := Require_ [ks] [] false.
Definition nothing : requirement := Require_ [] [] false.

(** The requirement of each message type, but Station Configuration Request. *)
Definition requirements : list (Z * requirement) :=
  [(CAPWAP_DISCOVERY_REQUEST, discovery_request);
   (CAPWAP_DISCOVERY_RESPONSE, discovery_response);
   (CAPWAP_JOIN_REQUEST,
    Require_ (each [K_location; K_wtpboarddata; K_wtpdescriptor; K_wtpname; K_sessionid;
                    K_wtpframetunnelmode; K_wtpmactype; K_ecnsupport] ++
              [[K_localipv4; K_localipv6]]) [K_80211_wtpradioinformation] false);
   (CAPWAP_JOIN_RESPONSE,
    Require_ (each [K_resultcode; K_acdescriptor; K_acname; K_ecnsupport] ++
              [[K_controlipv4; K_controlipv6]; [K_localipv4; K_localipv6]]) [] true);
   (CAPWAP_CONFIGURATION_STATUS_REQUEST,
    Require_ (each [K_acname; K_radioadmstate; K_statisticstimer; K_wtprebootstat])
      [K_80211_wtpradioinformation] false);
   (CAPWAP_CONFIGURATION_STATUS_RESPONSE,
    Require_ (each [K_timers; K_decrypterrorreportperiod; K_idletimeout; K_wtpfallback] ++
              [[K_acipv4list; K_acipv6list]]) [] true);
   (CAPWAP_CONFIGURATION_UPDATE_REQUEST,
    any_of [K_acnamepriority; K_actimestamp; K_addmacacl; K_timers; K_decrypterrorreportperiod;
            K_deletemacacl; K_idletimeout; K_location; K_radioadmstate; K_statisticstimer;
            K_wtpfallback; K_wtpname; K_wtpstaticipaddress; K_imageidentifier; K_vendorpayload]);
   (CAPWAP_CONFIGURATION_UPDATE_RESPONSE, nothing);
   (CAPWAP_WTP_EVENT_REQUEST,
    any_of [K_decrypterrorreportperiod; K_duplicateipv4; K_duplicateipv6; K_wtpradiostat;
            K_wtprebootstat; K_deletestation; K_vendorpayload]);
   (CAPWAP_WTP_EVENT_RESPONSE, nothing);
   (CAPWAP_CHANGE_STATE_EVENT_REQUEST,
    Require_ (each [K_radiooprstate; K_resultcode]) [] false);
   (CAPWAP_CHANGE_STATE_EVENT_RESPONSE, nothing);
   (CAPWAP_ECHO_REQUEST, nothing); (CAPWAP_ECHO_RESPONSE, nothing);
   (CAPWAP_IMAGE_DATA_REQUEST, nothing); (CAPWAP_IMAGE_DATA_RESPONSE, any_of [K_resultcode]);
   (CAPWAP_RESET_REQUEST, any_of [K_imageidentifier]); (CAPWAP_RESET_RESPONSE, nothing);
   (CAPWAP_PRIMARY_DISCOVERY_REQUEST, discovery_request);
   (CAPWAP_PRIMARY_DISCOVERY_RESPONSE, discovery_response);
   (CAPWAP_DATA_TRANSFER_RESPONSE, any_of [K_resultcode]);
   (CAPWAP_CLEAR_CONFIGURATION_REQUEST, nothing);
   (CAPWAP_CLEAR_CONFIGURATION_RESPONSE, any_of [K_resultcode]);
   (CAPWAP_STATION_CONFIGURATION_RESPONSE, any_of [K_resultcode]);
   (CAPWAP_IEEE80211_WLAN_CONFIGURATION_REQUEST,
    any_of [K_80211_addwlan; K_80211_updatewlan; K_80211_deletewlan]);
   (CAPWAP_IEEE80211_WLAN_CONFIGURATION_RESPONSE, any_of [K_resultcode])].

Definition satisfies (messages : list capwap_message_element_itemlist) (binding : Z)
    (r : requirement) : Prop :=
  (Forall (fun g => Exists (fun k => has messages k = true) g) (groups r) /\
   (binding = CAPWAP_WIRELESS_BINDING_IEEE80211 ->
    Forall (fun k => has messages k = true) (if_80211 r))) \/
  (or_error r = true /\ has_error_resultcode messages = true).

Lemma ok_iff (b : bool) : (if b then 0 else -1) = 0 <-> b = true.
Proof. by destruct b. Qed.

Lemma validate_satisfies messages type binding r :
  In (type, r) requirements ->
  capwap_validate_parsed_packet messages type binding = 0 <-> satisfies messages binding r.
Proof.
  intros Hin. unfold requirements in Hin. cbn [In] in Hin.
  repeat match type of Hin with
  | _ \/ _ => destruct Hin as [[= <- <-]|Hin]
  end; [..|contradiction Hin].
  all: unfold capwap_validate_parsed_packet, satisfies.
  all: destruct (Z.eqb_spec binding CAPWAP_WIRELESS_BINDING_IEEE80211).
  all: cbv [CAPWAP_DISCOVERY_REQUEST CAPWAP_DISCOVERY_RESPONSE CAPWAP_JOIN_REQUEST
    CAPWAP_JOIN_RESPONSE CAPWAP_CONFIGURATION_STATUS_REQUEST CAPWAP_CONFIGURATION_STATUS_RESPONSE
    CAPWAP_CONFIGURATION_UPDATE_REQUEST CAPWAP_CONFIGURATION_UPDATE_RESPONSE
    CAPWAP_WTP_EVENT_REQUEST CAPWAP_WTP_EVENT_RESPONSE CAPWAP_CHANGE_STATE_EVENT_REQUEST
    CAPWAP_CHANGE_STATE_EVENT_RESPONSE CAPWAP_ECHO_REQUEST CAPWAP_ECHO_RESPONSE
    CAPWAP_IMAGE_DATA_REQUEST CAPWAP_IMAGE_DATA_RESPONSE CAPWAP_RESET_REQUEST
    CAPWAP_RESET_RESPONSE CAPWAP_PRIMARY_DISCOVERY_REQUEST CAPWAP_PRIMARY_DISCOVERY_RESPONSE
    CAPWAP_DATA_TRANSFER_REQUEST CAPWAP_DATA_TRANSFER_RESPONSE
    CAPWAP_CLEAR_CONFIGURATION_REQUEST CAPWAP_CLEAR_CONFIGURATION_RESPONSE
    CAPWAP_STATION_CONFIGURATION_REQUEST CAPWAP_STATION_CONFIGURATION_RESPONSE
    CAPWAP_IEEE80211_WLAN_CONFIGURATION_REQUEST CAPWAP_IEEE80211_WLAN_CONFIGURATION_RESPONSE
    Z.eqb Pos.eqb].
  all: cbn [groups if_80211 or_error each fmap list_fmap app any_of nothing
    discovery_request discovery_response].
  all: rewrite ?ok_iff, ?orb_true_iff, ?andb_true_iff, ?orb_true_iff.
  all: repeat rewrite ?Forall_cons, ?Exists_cons, ?Forall_nil, ?Exists_nil.
  all: intuition congruence.
Qed.
