(* ===== verification/PacketSpec.v ===== *)
(** Decoding what was encoded: the elements added to a control message are
    the elements found in it, in order, by the receiver. *)
From S2P Require Import Prelude Io Header Tx TxSpec Rx RxSpec.
From S2P Require Import ElementsImage Elements80211b Element Packet PacketInv.

(** ** The manager decodes as the stream does *)

Class PacketRefines (H : Type) `{PacketOps H} (R : H -> stream -> Prop) := {
  pr_reads :: ReaderRefines H R;
  pr_allow : forall h s n, R h s -> R (allow h n) (allow s n);
  pr_allowed : forall h s, R h s -> allowed h = allowed s
}.

#[export] Instance rx_packet_refines : PacketRefines capwap_packet_rxmng rx_stream.
Proof.
  split; [apply rx_refines|..].
  - intros rx s n (Ha & Hok & Hb). done.
  - intros rx s (Ha & _). done.
Qed.

Section Refinement.
Context {I : Indeterminate} {H : Type} {P : PacketOps H} {R : H -> stream -> Prop}
  {PR : PacketRefines H R}.

Lemma parse_kind_refines fuel k h s :
  R h s -> same_end R (parse_kind fuel k h) (parse_kind fuel k s).
Proof.
  intros HR. unfold parse_kind. outcome. pose proof (run_refines (parse (element_ops k) fuel) h s HR) as E.
  destruct (run _ h) as [[d h']| |], (run _ s) as [[d' s']| |]; cbn in *; try done.
  by destruct E as [-> HR'].
Qed.

Lemma parse_value_refines fuel id n h s :
  R h s -> same_end R (parse_value fuel id n h) (parse_value fuel id n s).
Proof.
  intros HR. unfold parse_value. outcome.
  destruct (type id =? _).
  - destruct (n <? 7); [done|]. destruct (_ <? n - 6); [done|].
    destruct (rr_u32 h s HR) as [E1 HR1].
    destruct (read_u32 h) as [v h1], (read_u32 s) as [v' s1]. cbn in E1, HR1. subst v'.
    destruct (rr_u16 h1 s1 HR1) as [E2 HR2].
    destruct (read_u16 h1) as [t h2], (read_u16 s1) as [t' s2]. cbn in E2, HR2. subst t'.
    destruct (capwap_get_message_element_ops _) as [k|].
    + pose proof (parse_kind_refines fuel k h2 s2 HR2) as E.
      destruct (parse_kind fuel k h2) as [[[e|] h3]| |], (parse_kind fuel k s2) as [[[e'|] s3]| |];
        cbn in *; try done; destruct E as [E ?]; by simplify_eq.
    + pose proof (run_refines (VendorPayload.capwap_unknown_vendorpayload_element_parsing (n - 6)
        (vendor (ElementId (default indet v) (default indet t)))
        (type (ElementId (default indet v) (default indet t)))) h2 s2 HR2) as E.
      destruct (run _ h2) as [[[e|] h3]| |], (run _ s2) as [[[e'|] s3]| |];
        cbn in *; try done; destruct E as [E ?]; by simplify_eq.
  - destruct (capwap_get_message_element_ops _) as [k|]; [|done].
    pose proof (parse_kind_refines fuel k h s HR) as E.
    destruct (parse_kind fuel k h) as [[[e|] h3]| |], (parse_kind fuel k s) as [[[e'|] s3]| |];
      cbn in *; try done; destruct E as [E ?]; by simplify_eq.
Qed.

(** The whole decoding loop. *)
Lemma parsing_loop_refines fuel binding n msgs h s :
  R h s -> same_end R (parsing_loop fuel binding n msgs h) (parsing_loop fuel binding n msgs s).
Proof.
  revert n msgs h s. induction fuel as [|fuel IH]; intros n msgs h s HR; [done|].
  cbn [parsing_loop]. outcome. destruct (0 <? n); [|done].
  apply (pr_allow h s sizeof_capwap_message_element) in HR as HR0.
  destruct (rr_u16 _ _ HR0) as [E1 HR1].
  destruct (read_u16 (allow h _)) as [[t|] h1], (read_u16 (allow s _)) as [[t'|] s1];
    cbn in E1, HR1; simplify_eq; [|done].
  destruct (rr_u16 _ _ HR1) as [E2 HR2].
  destruct (read_u16 h1) as [[l|] h2], (read_u16 s1) as [[l'|] s2];
    cbn in E2, HR2; simplify_eq; [|done].
  destruct (n <? l'); [done|]. apply (pr_allow h2 s2 l') in HR2.
  destruct (IS_80211_MESSAGE_ELEMENTS _ && _); [done|].
  pose proof (parse_value_refines fuel (ElementId 0 t') l' _ _ HR2) as E3.
  destruct (parse_value _ _ _ (allow h2 l')) as [[[c|[id e]] h3]| |],
    (parse_value _ _ _ (allow s2 l')) as [[[c'|[id' e']] s3]| |]; cbn in E3; try done;
    destruct E3 as [E3 HR3]; simplify_eq; [done|].
  destruct (store_element msgs id' e') as [msgs'|]; [|done].
  rewrite (pr_allowed h3 s3 HR3). destruct (negb _); [done|]. by apply IH.
Qed.

End Refinement.

(** ** Decoding the bytes of a list of elements *)

Section Roundtrip.
Context {I : Indeterminate}.

Definition calls_of (e : message_element) : list wcall :=
  create (element_ops (projT1 e)) (projT2 e).

Definition bytes_of (e : message_element) : list Z :=
  let id := kind_id (projT1 e) in element_bytes (vendor id) (type id) (calls_of e).

Definition message_bytes (es : list message_element) : list Z := concat (bytes_of <$> es).

(** What a receiver with a given wireless binding accepts.  A Vendor Specific
    Payload is taken as such when its id is not one of the table. *)
Definition acceptable (binding : Z) (e : message_element) : Prop :=
  element_wf (projT1 e) (projT2 e) /\
  (IS_80211_MESSAGE_ELEMENTS (kind_id (projT1 e)) = true ->
   binding = CAPWAP_WIRELESS_BINDING_IEEE80211) /\
  (vendor (kind_id (projT1 e)) <> 0 ->
   zlen (wire (calls_of e)) <= VendorPayload.CAPWAP_VENDORPAYLOAD_MAXLENGTH) /\
  match e with
  | existT K_vendorpayload d =>
      capwap_get_message_element_ops
        (ElementId (VendorPayload.vendorid d) (VendorPayload.elementid d)) = None
  | _ => True
  end.

Lemma parse_kind_roundtrip fuel k (d : element_data k) rest :
  element_wf k d -> let bs := wire (create (element_ops k) d) in
  zlen bs < Z.of_nat fuel -> zlen bs < 65536 ->
  parse_kind fuel k (Stream (zlen bs) (bs ++ rest)) = Done (Some (existT k d), Stream 0 rest).
Proof.
  intros Hwf bs Hf Hl. unfold parse_kind, bs in *. rewrite element_roundtrip by (done || lia). done.
Qed.

(** The wire form of a vendor element is never empty. *)
Lemma vendor_value_pos k (d : element_data k) :
  vendor (kind_id k) <> 0 -> 0 < zlen (wire (create (element_ops k) d)).
Proof.
  destruct k; cbn [kind_id vendor]; try done; intros _; cbn [element_ops create];
    unfold WtpTimestamp.capwap_vendor_travelping_wtp_timestamp_element_create,
      RadioConfN.capwap_80211n_radioconf_element_create,
      StationInfoN.capwap_80211n_station_info_element_create,
      EncryptionCapability.capwap_vendor_travelping_80211_encryption_capability_element_create,
      UpdateKey.capwap_vendor_travelping_80211_update_key_element_create; cbn zeta; wire_norm; lia.
Qed.

(** The vendor header of a payload is consumed and decides the callback. *)
Lemma parse_vendor_value fuel vid eid bs rest :
  is_u32 vid -> is_u16 eid ->
  1 <= zlen bs <= VendorPayload.CAPWAP_VENDORPAYLOAD_MAXLENGTH ->
  parse_value fuel (ElementId 0 CAPWAP_ELEMENT_VENDORPAYLOAD_TYPE) (6 + zlen bs)
    (Stream (6 + zlen bs) (be32 vid ++ be16 eid ++ bs ++ rest)) =
  match capwap_get_message_element_ops (ElementId vid eid) with
  | Some k =>
      '(e, h) ← parse_kind fuel k (Stream (zlen bs) (bs ++ rest));
      Done (match e with None => inl INVALID_MESSAGE_ELEMENT | Some e => inr (ElementId vid eid, e) end, h)
  | None =>
      Done (inr (ElementId 0 CAPWAP_ELEMENT_VENDORPAYLOAD_TYPE,
                 existT K_vendorpayload (VendorPayload.Build_capwap_vendorpayload_element
                                           vid eid (zlen bs) bs)),
            Stream 0 rest)
  end.
Proof.
  unfold VendorPayload.CAPWAP_VENDORPAYLOAD_MAXLENGTH. intros Hv He Hb.
  unfold parse_value. cbn [type]. rewrite Z.eqb_refl.
  unfold VendorPayload.CAPWAP_VENDORPAYLOAD_MAXLENGTH.
  replace (6 + zlen bs <? 7) with false by lia.
  replace (2048 <? 6 + zlen bs - 6) with false by lia.
  change (@packet_read stream stream_packet) with stream_ops.
  rewrite stream_u32 by lia. rewrite stream_u16 by lia.
  cbn [default from_option id vendor type].
  replace (6 + zlen bs - 4 - 2) with (zlen bs) by lia.
  destruct (capwap_get_message_element_ops (ElementId vid eid)) as [k|]; [done|].
  outcome. unfold VendorPayload.capwap_unknown_vendorpayload_element_parsing.
  replace (6 + zlen bs - 6) with (zlen bs) by lia.
  rewrite run_block by (rewrite ?length_fresh; lia). rewrite run_mret, Z.sub_diag. done.
Qed.

(** The value of one element. *)
Lemma parse_value_roundtrip binding fuel e rest :
  acceptable binding e ->
  let id := kind_id (projT1 e) in
  let v := value_bytes (vendor id) (type id) (calls_of e) in
  zlen v < Z.of_nat fuel -> zlen v < 65536 ->
  parse_value fuel
    (ElementId 0 (if negb (vendor id =? 0) then CAPWAP_ELEMENT_VENDORPAYLOAD_TYPE else type id))
    (zlen v) (Stream (zlen v) (v ++ rest)) =
  Done (inr (id, e), Stream 0 rest).
Proof.
  destruct e as [k d]. intros (Hwf & _ & Hlen & Hvp) id v Hf Hv.
  unfold calls_of in *. cbn [projT1 projT2] in *. fold id in Hlen.
  pose proof (table_lookup k) as Htab. fold id in Htab.
  assert (Hid : 0 <= vendor id < 4294967296 /\ 0 <= type id < 65536)
    by (unfold id; clear; by destruct k).
  unfold v, value_bytes in *. clear v.
  destruct (Z.eqb_spec (vendor id) 0) as [E0|E0]; cbn [negb] in *.
  - destruct (Z.eqb_spec (type id) CAPWAP_ELEMENT_VENDORPAYLOAD_TYPE) as [E1|E1].
    + (* a payload of a vendor that is not in the table *)
      assert (k = K_vendorpayload) as ->.
      { apply kind_id_inj. fold id. destruct id; cbn in *. by subst. }
      clear Htab Hid Hlen. rewrite E1. change id with (ElementId 0 CAPWAP_ELEMENT_VENDORPAYLOAD_TYPE).
      cbn [element_data] in d. destruct d as [vid eid n dt]. cbn in Hvp.
      destruct Hwf as (Hvid & Heid & Hn & Hmax & Hpos). cbn in Hvid, Heid, Hn, Hmax, Hpos.
      unfold VendorPayload.capwap_vendorpayload_element_asserts in Hpos. cbn in Hpos.
      change (wire (create (element_ops K_vendorpayload) _)) with
        (be32 vid ++ be16 eid ++ take (Z.to_nat n) dt ++ []) in *.
      rewrite app_nil_r, (take_ge dt) in * by lia. rewrite <- !app_assoc.
      replace (zlen (be32 vid ++ be16 eid ++ dt)) with (6 + zlen dt) by (len; lia).
      rewrite parse_vendor_value, Hvp by lia. by rewrite Hn.
    + (* a standard element *)
      unfold parse_value. cbn [type]. replace (type id =? _) with false by lia.
      replace (ElementId 0 (type id)) with id by (destruct id; cbn in *; by subst).
      rewrite Htab, parse_kind_roundtrip by done. done.
  - (* an element of the vendor table *)
    pose proof (vendor_value_pos k d E0) as Hpos. specialize (Hlen E0).
    set (bs := wire (create (element_ops k) d)) in *. rewrite <- !app_assoc.
    replace (zlen (be32 (vendor id) ++ be16 (type id) ++ bs)) with (6 + zlen bs) in *
      by (rewrite !length_app, length_be32, length_be16; lia).
    rewrite parse_vendor_value by lia.
    replace (ElementId (vendor id) (type id)) with id by (by destruct id).
    unfold bs in *. rewrite Htab, parse_kind_roundtrip by (done || lia). done.
Qed.

Lemma length_bytes_of e :
  let id := kind_id (projT1 e) in
  zlen (bytes_of e) = 4 + zlen (value_bytes (vendor id) (type id) (calls_of e)).
Proof. cbn. unfold bytes_of, element_bytes. rewrite !length_app, !length_be16. lia. Qed.

(** The loop finds the elements one after the other and ends. *)
Lemma parsing_loop_roundtrip binding es msgs msgs' fuel a rest :
  Forall (acceptable binding) es -> store_all msgs es = Some msgs' ->
  zlen (message_bytes es) < 65536 -> zlen (message_bytes es) < Z.of_nat fuel ->
  exists a',
    parsing_loop fuel binding (zlen (message_bytes es)) msgs
      (Stream a (message_bytes es ++ rest)) = Done (PARSING_COMPLETE, msgs', Stream a' rest).
Proof.
  intros Hes. revert msgs fuel a.
  induction Hes as [|e es He Hes IH]; intros msgs fuel a Hst Hl Hf;
    (destruct fuel as [|fuel]; [cbn in Hf; lia|]).
  - cbn in Hst. injection Hst as <-. by exists a.
  - cbn [store_all] in Hst.
    destruct (store_element msgs (kind_id (projT1 e)) e) as [msgs1|] eqn:Est; [|done].
    change (message_bytes (e :: es)) with (bytes_of e ++ message_bytes es) in *.
    rewrite length_app in Hl, Hf. pose proof (length_bytes_of e) as Hb. cbn zeta in Hb.
    assert (Hid : 0 <= type (kind_id (projT1 e)) < 65536) by (by destruct (projT1 e)).
    pose proof (parse_value_roundtrip binding fuel e (message_bytes es ++ rest) He) as Hpv.
    cbn zeta in Hpv. destruct He as (_ & Hbind & _).
    unfold bytes_of, element_bytes in *. set (id := kind_id (projT1 e)) in *.
    set (v := value_bytes (vendor id) (type id) (calls_of e)) in *.
    set (t := if negb (vendor id =? 0) then CAPWAP_ELEMENT_VENDORPAYLOAD_TYPE else type id) in *.
    assert (Ht : is_u16 t) by (unfold t, CAPWAP_ELEMENT_VENDORPAYLOAD_TYPE; destruct (negb _); lia).
    rewrite length_app, Nat2Z.inj_add, Hb. cbn [parsing_loop].
    replace (0 <? 4 + zlen v + zlen (message_bytes es)) with true by lia.
    unfold sizeof_capwap_message_element. change (@packet_read stream stream_packet) with stream_ops.
    cbn [allow allowed stream_packet st_bytes]. rewrite <- !app_assoc.
    rewrite stream_u16 by lia. rewrite stream_u16 by lia. cbn [st_bytes].
    replace (4 + zlen v + zlen (message_bytes es) <? zlen v) with false by lia.
    assert (Hb80 : IS_80211_MESSAGE_ELEMENTS (ElementId 0 t) &&
      negb (binding =? CAPWAP_WIRELESS_BINDING_IEEE80211) = false).
    { unfold t. destruct (Z.eqb_spec (vendor id) 0) as [E0|E0]; cbn [negb]; [|done].
      replace (ElementId 0 (type id)) with id by (destruct id; cbn in *; by subst).
      destruct (IS_80211_MESSAGE_ELEMENTS id); [|done]. rewrite Hbind by done. done. }
    rewrite Hb80, Hpv by lia. outcome. rewrite Est. cbn [allowed stream_packet st_allowed Z.eqb negb].
    rewrite wrap16_small by lia.
    replace (4 + zlen v + zlen (message_bytes es) - (zlen v + 4)) with (zlen (message_bytes es)) by lia.
    apply IH; [done|lia|lia].
Qed.

(** Adding the elements one by one, as the senders do. *)
Fixpoint add_elements (tx : capwap_packet_txmng) (es : list message_element)
    : option capwap_packet_txmng :=
  match es with
  | [] => Some tx
  | e :: es =>
      match capwap_packet_txmng_add_message_element tx e with
      | None => None
      | Some tx => add_elements tx es
      end
  end.

Lemma add_elements_view m sz pre body rest w es binding :
  is_u16 w -> Forall (acceptable binding) es ->
  tx_fits sz pre body rest (zlen (message_bytes es)) ->
  exists rest' w',
    add_elements (tx_view m sz pre body rest w) es =
      Some (tx_view m sz pre (body ++ message_bytes es) rest' w').
Proof.
  intros Hw Hes. revert body rest w Hw.
  induction Hes as [|e es He _ IH]; intros body rest w Hw Hfit.
  - exists rest, w. cbn. by rewrite app_nil_r.
  - change (message_bytes (e :: es)) with (bytes_of e ++ message_bytes es) in *.
    cbn [add_elements]. unfold capwap_packet_txmng_add_message_element.
    destruct He as (Hwf & _). apply element_safe in Hwf.
    destruct Hfit as (Hp & Hs & Hr). rewrite length_app in Hs.
    destruct (add_message_element_view m sz pre body rest w (vendor (kind_id (projT1 e)))
      (type (kind_id (projT1 e))) (calls_of e) Hw Hwf) as (r & w' & E & Hw' & Hr').
    { fold (bytes_of e). unfold tx_fits. lia. }
    unfold calls_of in E. rewrite E. fold (calls_of e). fold (bytes_of e).
    change (element_bytes _ _ (calls_of e)) with (bytes_of e) in *.
    rewrite app_assoc. apply IH; [done|].
    unfold tx_fits. rewrite length_app in *. lia.
Qed.

End Roundtrip.
