(* ===== verification/DecodeSpec.v ===== *)
(** Decoding arbitrary packets: [capwap_parsing_packet] ends on every packet
    unless one of the two address lists gets a length its loop never reaches. *)
From S2P Require Import Prelude Io Header Tx Rx RxSpec.
From S2P Require Import ElementsAcList ElementsImage Element Termination Packet PacketSpec.

(** The lengths, seen by [read_ready], on which the loop of an address list
    never ends: the guard rejects a partial address only between its bounds. *)
Definition stuck_length (k : element_kind) (length : Z) : bool :=
  match k with
  | K_acipv4list => negb (length mod 4 =? 0) && ((length <? 4) || (4096 <? length))
  | K_acipv6list => negb (length mod 16 =? 0) && ((length <? 16) || (16384 <? length))
  | _ => false
  end.

(** The value of an element of type [t] and length [l] that starts at [rest] is
    an address list of such a length, on its own or inside a Vendor Specific
    Payload. *)
Definition stuck_payload (t l : Z) (rest : list Z) : bool :=
  if t =? CAPWAP_ELEMENT_VENDORPAYLOAD_TYPE then
    match rest with
    | v3 :: v2 :: v1 :: v0 :: t1 :: t0 :: _ :: _ =>
        match capwap_get_message_element_ops (ElementId (val32 v3 v2 v1 v0) (val16 t1 t0)) with
        | Some k => (7 <=? l) && (l - 6 <=? VendorPayload.CAPWAP_VENDORPAYLOAD_MAXLENGTH) &&
                    stuck_length k (l - 6)
        | None => false
        end
    | _ => false
    end
  else
    match rest, capwap_get_message_element_ops (ElementId 0 t) with
    | _ :: _, Some k => stuck_length k l
    | _, _ => false
    end.

Definition stuck_element (bytes : list Z) : bool :=
  match bytes with
  | t1 :: t0 :: l1 :: l0 :: rest => stuck_payload (val16 t1 t0) (val16 l1 l0) rest
  | _ => false
  end.

(** Some position of the bytes looks like such an element. *)
Definition may_loop (bytes : list Z) : bool :=
  existsb (fun m => stuck_element (drop m bytes)) (seq 0 (length bytes)).

Lemma may_loop_false bytes : may_loop bytes = false -> forall m, stuck_element (drop m bytes) = false.
Proof.
  intros Hl m. destruct (decide (m < length bytes)%nat); [|by rewrite drop_ge by lia].
  destruct (stuck_element (drop m bytes)) eqn:E; [|done].
  assert (may_loop bytes = true); [|congruence].
  apply existsb_exists. exists m. split; [|done]. apply in_seq. lia.
Qed.

(** The computation ends: at a failed assertion, or with a value of which [Q] holds. *)
Definition ended {A} (x : outcome A) (Q : A -> Prop) : Prop :=
  match x with Done a => Q a | Asserted => True | Looping => False end.

Lemma ended_bind {A B} (x : outcome A) (f : A -> outcome B) Q R :
  ended x Q -> (forall a, Q a -> ended (f a) R) -> ended (x ≫= f) R.
Proof. destruct x; [|done..]. intros Hx Hf. by apply Hf. Qed.

Lemma ended_mono {A} (x : outcome A) (Q R : A -> Prop) : ended x Q -> (forall a, Q a -> R a) -> ended x R.
Proof. destruct x; cbn; auto. Qed.

Section Decode.
Context {I : Indeterminate}.

Lemma read_ready_range (s : stream) : is_u16 (st_allowed s) -> is_u16 (read_ready s).
Proof. cbn. destruct (st_bytes s); lia. Qed.

(** The guard of the address lists, then their loop. *)
Lemma address_list_ends {B} (size bound : Z) (s : stream) fuel (f : list (list Z) -> parser (option B)) :
  is_u16 (st_allowed s) -> 0 < size -> (forall l s, ends (f l) s) -> 65536 <= Z.of_nat fuel ->
  let p := length ← p_ready;
           if (size <=? length) && (length <=? bound) && negb (length mod size =? 0)
           then mret None else
           addresses ← AddressLoop.read_addresses size fuel length []; f addresses in
  ends p s \/
  negb (read_ready s mod size =? 0) && ((read_ready s <? size) || (bound <? read_ready s)) = true.
Proof.
  intros Ha Hs Hf Hfuel p. unfold p. pose proof (read_ready_range s Ha) as Hr.
  destruct (decide (read_ready s mod size = 0)) as [E|E].
  - left. apply ends_ready_bind. rewrite E, andb_false_r.
    apply ends_bind; [apply ends_read_addresses; lia|]. intros. apply Hf.
  - destruct ((size <=? read_ready s) && (read_ready s <=? bound)) eqn:Eg.
    + left. apply ends_ready_bind. rewrite Eg.
      replace (read_ready s mod size =? 0) with false by lia. apply ends_mret.
    + right. apply andb_false_iff in Eg. bools. lia.
Qed.

(** Every callback ends, or is stuck. *)
Lemma parse_kind_ends k fuel (s : stream) :
  is_u16 (st_allowed s) -> zlen (st_bytes s) + 65536 < Z.of_nat fuel ->
  ends (parse (element_ops k) fuel) s \/ stuck_length k (read_ready s) = true.
Proof.
  intros Ha Hf. destruct (loops_on_counter k) eqn:Ek; [|left; apply parse_ends; [done|lia]].
  destruct k; try done; apply address_list_ends; try done; try lia; auto with capwap_ends.
Qed.

(** Reads within the budget take the bytes at the head of the stream; a short
    read uses the stream up. *)
Lemma stream_read_head n a bs :
  0 < n <= a -> a < 65536 ->
  stream_read (Stream a bs) n =
    (take (Z.to_nat n) bs,
     Stream (wrap16 (a - zlen (take (Z.to_nat n) bs))) (drop (Z.to_nat n) bs)).
Proof.
  intros Hn Ha. unfold stream_read, stream_limit. cbn [st_allowed st_bytes].
  rewrite (wrap16_small n) by lia. replace (0 <? a) with true by lia.
  by replace (Z.min n a) with n by lia.
Qed.

Lemma read_u16_head a b1 b0 rest :
  2 <= a < 65536 ->
  read_u16 (Stream a (b1 :: b0 :: rest)) = (Some (val16 b1 b0), Stream (a - 2) rest).
Proof.
  intros Ha. cbn [read_u16 stream_ops]. rewrite (stream_read_app 2 [b1; b0] rest) by (cbn; lia).
  done.
Qed.

Lemma read_u16_short a bs :
  2 <= a < 65536 -> (length bs < 2)%nat ->
  exists a', read_u16 (Stream a bs) = (None, Stream a' []).
Proof.
  intros Ha Hl. cbn [read_u16 stream_ops]. rewrite stream_read_head by lia.
  destruct bs as [|b1 [|]]; cbn in *; [eauto..|lia].
Qed.

Lemma read_u32_head a b3 b2 b1 b0 rest :
  4 <= a < 65536 ->
  read_u32 (Stream a (b3 :: b2 :: b1 :: b0 :: rest)) =
    (Some (val32 b3 b2 b1 b0), Stream (a - 4) rest).
Proof.
  intros Ha. cbn [read_u32 stream_ops].
  rewrite (stream_read_app 4 [b3; b2; b1; b0] rest) by (cbn; lia). done.
Qed.

Lemma read_u32_short a bs :
  4 <= a < 65536 -> (length bs < 4)%nat ->
  exists a', read_u32 (Stream a bs) = (None, Stream a' []).
Proof.
  intros Ha Hl. cbn [read_u32 stream_ops]. rewrite stream_read_head by lia.
  destruct bs as [|b3 [|b2 [|b1 [|]]]]; cbn in *; [eauto..|lia].
Qed.

(** ** The value of one element *)

Definition value_ends (fuel : nat) (t l : Z) (s : stream) : Prop :=
  ended (parse_value fuel (ElementId 0 t) l s) (fun r => exists n, st_bytes r.2 = drop n (st_bytes s)).

Lemma parse_kind_returns k fuel (s : stream) :
  is_u16 (st_allowed s) -> zlen (st_bytes s) + 65536 < Z.of_nat fuel ->
  stuck_length k (read_ready s) = false ->
  ended (parse_kind fuel k s) (fun r => exists n, st_bytes r.2 = drop n (st_bytes s)).
Proof.
  intros Ha Hf Hst. destruct (parse_kind_ends k fuel s Ha Hf) as [He|E]; [|congruence].
  unfold ends in He. unfold parse_kind. change (@packet_read stream stream_packet) with stream_ops.
  destruct (run _ s) as [[d s']| |] eqn:E; [|done..]. destruct (run_suffix _ _ _ _ E) as [n En].
  by exists n.
Qed.

Lemma stuck_zero k : stuck_length k 0 = false.
Proof. by destruct k. Qed.

Lemma read_ready_head a bs k :
  (bs <> [] -> stuck_length k a = false) ->
  stuck_length k (read_ready (Stream a bs)) = false.
Proof. cbn. destruct bs; [intros _; apply stuck_zero|auto]. Qed.

(** Not a vendor payload: the callback of the type. *)
Lemma plain_value_ends fuel t l rest :
  t <> CAPWAP_ELEMENT_VENDORPAYLOAD_TYPE ->
  is_u16 l -> zlen rest + 65536 < Z.of_nat fuel -> stuck_payload t l rest = false ->
  value_ends fuel t l (Stream l rest).
Proof.
  intros Ht Hl Hf Hst. unfold value_ends, parse_value, stuck_payload in *. cbn [type].
  replace (t =? CAPWAP_ELEMENT_VENDORPAYLOAD_TYPE) with false in * by lia.
  destruct (capwap_get_message_element_ops (ElementId 0 t)) as [k|]; [|by exists 0%nat].
  eapply ended_bind; [apply parse_kind_returns; [done|done|apply read_ready_head; by destruct rest]|].
  by intros [[e|] s'] [n E]; exists n.
Qed.

(** Behind the vendor and the type of a vendor payload: the callback of the
    pair, or the generic one. *)
Lemma vendor_tail_ends fuel vid (s : stream) l :
  is_u16 (st_allowed s) -> zlen (st_bytes s) + 65536 < Z.of_nat fuel ->
  match st_bytes s, capwap_get_message_element_ops vid with
  | _ :: _, Some k => stuck_length k (st_allowed s) = false
  | _, _ => True
  end ->
  ended (match capwap_get_message_element_ops vid with
    | Some k =>
        '(e, h) ← parse_kind fuel k s;
        Done (match e with None => inl INVALID_MESSAGE_ELEMENT | Some e => inr (vid, e) end, h)
    | None =>
        '(d, h) ← run (VendorPayload.capwap_unknown_vendorpayload_element_parsing (l - 6)
                         (vendor vid) (type vid)) s;
        Done (match d with
              | None => inl INVALID_MESSAGE_ELEMENT
              | Some d => inr (ElementId 0 CAPWAP_ELEMENT_VENDORPAYLOAD_TYPE, existT K_vendorpayload d)
              end, h)
    end) (fun r => exists n, st_bytes r.2 = drop n (st_bytes s)).
Proof.
  intros Ha Hf Hst. destruct (capwap_get_message_element_ops vid) as [k|].
  - eapply ended_bind; [apply parse_kind_returns; [done|done|]|].
    + destruct s as [a [|b bs]]; cbn in *; [apply stuck_zero|done].
    + by intros [[e|] s'] [n E]; exists n.
  - pose proof (ends_unknown_vendorpayload (l - 6) (vendor vid) (type vid) s) as He. unfold ends in He.
    change (@packet_read stream stream_packet) with stream_ops.
    destruct (run _ s) as [[d s']| |] eqn:E; [|done..]. destruct (run_suffix _ _ _ _ E) as [n En].
    by exists n.
Qed.

(** The vendor and the type of a vendor payload: read whole, or nothing is left. *)
Lemma vendor_reads l rest :
  7 <= l < 65536 ->
  let '(v, s1) := read_u32 (Stream l rest) in
  let '(t, s2) := read_u16 s1 in
  is_u16 (st_allowed s2) /\ (exists n, st_bytes s2 = drop n rest) /\
  match rest with
  | v3 :: v2 :: v1 :: v0 :: t1 :: t0 :: (_ :: _) as tl =>
      v = Some (val32 v3 v2 v1 v0) /\ t = Some (val16 t1 t0) /\ s2 = Stream (l - 6) (drop 6 rest)
  | _ => st_bytes s2 = []
  end.
Proof.
  intros Hl. cbn [read_u32 read_u16 stream_ops]. rewrite stream_read_head by lia.
  destruct (decide (length rest < 4)%nat) as [Hs|Hs].
  - rewrite (take_ge rest), (drop_ge rest) by lia. unfold stream_read. cbn [st_bytes st_allowed].
    rewrite take_nil, drop_nil. split; [apply wrap16_range|].
    split; [exists (length rest); by rewrite drop_all|].
    by destruct rest as [|? [|? [|? [|? ?]]]]; cbn in Hs; [..|lia].
  - destruct rest as [|v3 [|v2 [|v1 [|v0 rest]]]]; cbn in Hs; try lia.
    change (take (Z.to_nat 4) (v3 :: v2 :: v1 :: v0 :: rest)) with [v3; v2; v1; v0].
    change (drop (Z.to_nat 4) (v3 :: v2 :: v1 :: v0 :: rest)) with rest.
    change (zlen [v3; v2; v1; v0]) with 4. rewrite wrap16_small, stream_read_head by lia.
    cbn [st_allowed st_bytes]. split; [apply wrap16_range|].
    split; [exists (4 + 2)%nat; by destruct rest as [|? [|? ?]]|].
    destruct rest as [|t1 [|t0 [|b rest]]]; try done. cbn [as_u32]. split; [done|]. split; [done|].
    change (zlen (take _ (t1 :: _))) with 2. rewrite wrap16_small by lia. f_equal. lia.
Qed.

Lemma vendor_value_ends fuel l rest :
  is_u16 l -> zlen rest + 65536 < Z.of_nat fuel ->
  stuck_payload CAPWAP_ELEMENT_VENDORPAYLOAD_TYPE l rest = false ->
  value_ends fuel CAPWAP_ELEMENT_VENDORPAYLOAD_TYPE l (Stream l rest).
Proof.
  intros Hl Hf Hst. unfold value_ends, parse_value. cbn [type]. rewrite Z.eqb_refl.
  destruct (l <? 7) eqn:E7; [by exists 0%nat|].
  destruct (_ <? l - 6) eqn:Em; [by exists 0%nat|].
  change (@packet_read stream stream_packet) with stream_ops.
  pose proof (vendor_reads l rest) as Hr.
  destruct (read_u32 (Stream l rest)) as [v s1], (read_u16 s1) as [t s2].
  destruct Hr as (Ha & [n En] & Hr); [lia|].
  set (vid := ElementId (default indet v) (default indet t)).
  eapply ended_mono; [apply (vendor_tail_ends fuel vid s2 l); [done|rewrite En, length_drop; lia|]|].
  { destruct (st_bytes s2) eqn:Eb; [done|].
    destruct rest as [|v3 [|v2 [|v1 [|v0 [|t1 [|t0 [|b rest]]]]]]]; try congruence.
    destruct Hr as (-> & -> & ->). cbn [st_allowed]. unfold stuck_payload in Hst.
    rewrite Z.eqb_refl in Hst. unfold vid. cbn [default id].
    destruct (capwap_get_message_element_ops _); [|done].
    apply andb_false_iff in Hst as [Hst|Hst]; [|done]. bools. lia. }
  intros r [m Em']. exists (n + m)%nat. cbn [st_bytes]. by rewrite Em', En, drop_drop.
Qed.

Lemma value_returns fuel t l rest :
  is_u16 l -> zlen rest + 65536 < Z.of_nat fuel -> stuck_payload t l rest = false ->
  value_ends fuel t l (Stream l rest).
Proof.
  destruct (decide (t = CAPWAP_ELEMENT_VENDORPAYLOAD_TYPE)) as [->|];
    [apply vendor_value_ends|by apply plain_value_ends].
Qed.

(** ** The loop over the elements *)

Lemma parsing_loop_ends fuel binding n msgs (s : stream) :
  bytes_ok (st_bytes s) -> zlen (st_bytes s) + 65536 < Z.of_nat fuel ->
  (forall m, stuck_element (drop m (st_bytes s)) = false) ->
  parsing_loop fuel binding n msgs s <> Looping.
Proof.
  revert n msgs s. induction fuel as [|fuel IH]; intros n msgs [a bs] Hok Hf Hst; [lia|].
  cbn [parsing_loop]. destruct (0 <? n); [|done]. cbn [st_bytes allow stream_packet] in *.
  change (@packet_read stream stream_packet) with stream_ops.
  unfold sizeof_capwap_message_element.
  destruct (decide (length bs < 2)%nat) as [Hl|Hl].
  { by destruct (read_u16_short 4 bs) as [a' ->]; [lia|done|]. }
  destruct bs as [|t1 [|t0 bs]]; cbn [length] in Hl; try lia. rewrite read_u16_head by lia.
  destruct (decide (length bs < 2)%nat) as [Hl'|Hl'].
  { by destruct (read_u16_short (4 - 2) bs) as [a' ->]; [lia|done|]. }
  destruct bs as [|l1 [|l0 bs]]; cbn [length] in Hl'; try lia. rewrite read_u16_head by lia.
  repeat (apply Forall_cons in Hok as [? Hok]).
  pose proof (val16_range l1 l0 ltac:(done) ltac:(done)) as Hlen. set (len := val16 l1 l0) in *.
  destruct (n <? len); [done|]. cbn [st_bytes]. destruct (_ && _); [done|].
  assert (Hv : value_ends fuel (val16 t1 t0) len (Stream len bs)).
  { apply value_returns; [done|cbn [length] in Hf; lia|exact (Hst 0%nat)]. }
  unfold value_ends in Hv. outcome.
  destruct (parse_value _ _ _ _) as [[r s']| |]; [|done..]. destruct Hv as [m Es].
  destruct r as [c|[id e]]; [done|].
  destruct (store_element msgs id e) as [msgs'|]; [|done].
  destruct (negb _); [done|]. cbn [st_bytes snd] in Es. apply IH; rewrite Es.
  - by apply bytes_ok_drop.
  - rewrite length_drop. cbn [length] in Hf. lia.
  - intros m'. rewrite drop_drop. exact (Hst (4 + (m + m'))%nat).
Qed.

(** A stuck list is never left. *)
Lemma stuck_parse k fuel (s : stream) :
  0 <= read_ready s -> stuck_length k (read_ready s) = true ->
  run (parse (element_ops k) fuel) s = Looping.
Proof.
  intros Hr Hst. destruct k; try done; cbn [stuck_length] in Hst; apply andb_true_iff in Hst as [Hm Hb];
    apply negb_true_iff, Z.eqb_neq in Hm; apply orb_true_iff in Hb.
  1: change (parse (element_ops K_acipv4list) fuel) with (AcIPv4List.capwap_acipv4list_element_parsing fuel).
  2: change (parse (element_ops K_acipv6list) fuel) with (AcIPv6List.capwap_acipv6list_element_parsing fuel).
  1: unfold AcIPv4List.capwap_acipv4list_element_parsing, AcIPv4List.CAPWAP_ACIPV4LIST_MAX_ELEMENTS.
  2: unfold AcIPv6List.capwap_acipv6list_element_parsing, AcIPv4List.CAPWAP_ACIPV4LIST_MAX_ELEMENTS.
  all: rewrite (run_bind_some p_ready _ s s (read_ready s)) by done.
  all: match goal with |- run (if ?b then _ else _) _ = Looping => replace b with false end.
  1,3: rewrite run_bind, AddressLoop.read_addresses_diverges; done.
  all: symmetry; apply andb_false_iff; left; apply andb_false_iff; destruct Hb; bools; lia.
Qed.

Lemma stuck_kind k fuel (s : stream) :
  0 <= read_ready s -> stuck_length k (read_ready s) = true -> parse_kind fuel k s = Looping.
Proof.
  intros. unfold parse_kind. change (@packet_read stream stream_packet) with stream_ops.
  by rewrite stuck_parse.
Qed.

Lemma stuck_value fuel t l rest :
  0 <= l < 65536 -> stuck_payload t l rest = true ->
  parse_value fuel (ElementId 0 t) l (Stream l rest) = Looping.
Proof.
  intros Hl. unfold stuck_payload, parse_value. cbn [type].
  change (@packet_read stream stream_packet) with stream_ops.
  destruct (t =? CAPWAP_ELEMENT_VENDORPAYLOAD_TYPE) eqn:Et.
  - pose proof (vendor_reads l rest) as Hr.
    destruct rest as [|v3 [|v2 [|v1 [|v0 [|t1 [|t0 [|b rest]]]]]]]; try done.
    destruct (capwap_get_message_element_ops _) as [k|] eqn:Ek; [|done].
    intros Hst. split_andb. rewrite (proj2 (Z.ltb_ge l 7)) by lia.
    replace (_ <? l - 6) with false by (symmetry; apply Z.ltb_ge; lia).
    destruct (read_u32 (Stream l _)) as [v s1], (read_u16 s1) as [tt s2].
    destruct Hr as (_ & _ & -> & -> & ->); [lia|]. cbn [default id]. rewrite Ek.
    by rewrite stuck_kind by (cbn; lia || done).
  - destruct rest as [|b rest]; [done|].
    destruct (capwap_get_message_element_ops _) as [k|]; [|done].
    intros Hst. by rewrite stuck_kind by (cbn; lia || done).
Qed.

Lemma stuck_payload_pos t l rest :
  0 <= l -> stuck_payload t l rest = true ->
  0 < l /\ IS_80211_MESSAGE_ELEMENTS (ElementId 0 t) = false.
Proof.
  intros Hl. unfold stuck_payload. destruct (Z.eqb_spec t CAPWAP_ELEMENT_VENDORPAYLOAD_TYPE) as [->|].
  - destruct rest as [|v3 [|v2 [|v1 [|v0 [|t1 [|t0 [|b rest]]]]]]]; try done.
    destruct (capwap_get_message_element_ops _); [|done]. intros. split_andb. split; [lia|done].
  - destruct rest as [|b rest]; [done|].
    destruct (capwap_get_message_element_ops _) as [k|] eqn:Ek; [|done]. intros Hst.
    split.
    + destruct (Z.eq_dec l 0) as [->|]; [|lia]. by rewrite stuck_zero in Hst.
    + apply table_inverse in Ek. rewrite <- Ek. by destruct k.
Qed.

Lemma parsing_loop_stuck fuel binding n msgs a bytes :
  bytes_ok bytes -> stuck_element bytes = true ->
  match bytes with _ :: _ :: l1 :: l0 :: _ => val16 l1 l0 <= n | _ => False end ->
  parsing_loop fuel binding n msgs (Stream a bytes) = Looping.
Proof.
  intros Hok Hst Hn. destruct fuel as [|fuel]; [done|].
  destruct bytes as [|t1 [|t0 [|l1 [|l0 rest]]]]; try done.
  repeat (apply Forall_cons in Hok as [? Hok]).
  pose proof (val16_range l1 l0 ltac:(done) ltac:(done)) as Hlen.
  cbn [stuck_element] in Hst. set (t := val16 t1 t0) in *.
  destruct (stuck_payload_pos t _ rest ltac:(apply Hlen) Hst) as [Hpos Ht].
  cbn [parsing_loop]. rewrite (proj2 (Z.ltb_lt 0 n)) by lia.
  cbn [allow stream_packet st_bytes]. unfold sizeof_capwap_message_element.
  change (@packet_read stream stream_packet) with stream_ops.
  rewrite read_u16_head by lia. rewrite read_u16_head by lia.
  rewrite (proj2 (Z.ltb_ge n _)) by lia. fold t. rewrite Ht. cbn [andb st_bytes].
  by rewrite stuck_value.
Qed.

(** ** The same of the packet manager *)

Lemma body_stream rx :
  readpos_ok (rx_readbodypos rx) ->
  rx_stream (rx_seek rx (rx_readbodypos rx))
    (Stream (rx_readerpacketallowed rx) (pending (rx_readbodypos rx))).
Proof. done. Qed.

Lemma parsing_packet_refines fuel rx :
  readpos_ok (rx_readbodypos rx) ->
  same_end rx_stream (capwap_parsing_packet fuel rx)
    (parsing_loop fuel (GET_WBID_HEADER (rx_header rx))
       (wrap16 (cm_length (rx_ctrlmsg rx) - CAPWAP_CONTROL_MESSAGE_MIN_LENGTH)) []
       (Stream (rx_readerpacketallowed rx) (pending (rx_readbodypos rx)))).
Proof.
  intros Hok. unfold capwap_parsing_packet.
  exact (parsing_loop_refines fuel _ _ [] (rx_seek rx (rx_readbodypos rx)) _ (body_stream rx Hok)).
Qed.

End Decode.
