(* ===== verification/Message.v ===== *)
(** End to end: a control message that fits in one fragment, from the sender's
    calls to the receiver's list of elements. *)
From S2P Require Import Prelude Io Header Tx TxSpec Rx RxSpec.
From S2P Require Import Element Packet PacketInv PacketSpec.

Lemma byte_at_take n b i : 0 <= i < Z.of_nat n -> byte_at (take n b) i = byte_at b i.
Proof. intros. unfold byte_at. by rewrite lookup_take_lt by lia. Qed.

Lemma get_field_take f n b :
  field_ok f = true -> (8 <= n)%nat -> get_field f (take n b) = get_field f b.
Proof.
  unfold field_ok, sizeof_capwap_header. intros. split_andb. unfold get_field.
  by rewrite byte_at_take by lia.
Qed.

Lemma drop_write_at n pos bs b :
  0 <= pos -> pos + zlen bs <= zlen b -> pos + zlen bs <= Z.of_nat n ->
  drop n (write_at pos bs b) = drop n b.
Proof.
  intros Hp Hl Hn. apply list_eq. intros i. rewrite !lookup_drop, lookup_write_at by lia.
  case_decide; [lia|done].
Qed.

(** A message of one fragment leaves with its fragment fields cleared. *)
Definition plain_header (b : list Z) : list Z :=
  SET_FLAG_L_HEADER
    (SET_FRAGMENT_OFFSET_HEADER (SET_FRAGMENT_ID_HEADER (SET_FLAG_F_HEADER b false) 0) 0) false.

Lemma single_fragment_packets tx f fragmentid :
  fragmentlist tx = [f] ->
  capwap_packet_txmng_get_fragment_packets tx fragmentid =
    [Fragment (size f) (offset f) (plain_header (buffer f))].
Proof. intros E. unfold capwap_packet_txmng_get_fragment_packets. by rewrite E. Qed.

Lemma plain_header_spec b n :
  8 <= zlen b -> (8 <= n)%nat ->
  zlen (plain_header b) = zlen b /\ drop n (plain_header b) = drop n b /\
  IS_FLAG_F_HEADER (plain_header b) = false /\
  GET_HLEN_HEADER (plain_header b) = GET_HLEN_HEADER b /\
  GET_WBID_HEADER (plain_header b) = GET_WBID_HEADER b.
Proof.
  intros Hb Hn. unfold plain_header, SET_FLAG_L_HEADER, SET_FLAG_F_HEADER, set_flag,
    SET_FRAGMENT_OFFSET_HEADER, SET_FRAGMENT_ID_HEADER, IS_FLAG_F_HEADER, is_flag,
    GET_HLEN_HEADER, GET_WBID_HEADER.
  set (w := [Z.lor _ _; _]). assert (Hw : zlen w = 2) by done. clearbody w.
  repeat split.
  - blen.
  - unfold set_field. cbn [f_byte f_flag_l f_flag_f]. rewrite !drop_write_at by blen. done.
  - hdr. rewrite !get_field_write_after by (first [reflexivity | cbn; blen]). hdr. done.
  - hdr. rewrite !get_field_write_after by (first [reflexivity | cbn; blen]). hdr. done.
  - hdr. rewrite !get_field_write_after by (first [reflexivity | cbn; blen]). hdr. done.
Qed.

Lemma plain_header_app a b : 8 <= zlen a -> plain_header (a ++ b) = plain_header a ++ b.
Proof.
  intros. unfold plain_header, SET_FLAG_L_HEADER, SET_FLAG_F_HEADER, set_flag,
    SET_FRAGMENT_OFFSET_HEADER, SET_FRAGMENT_ID_HEADER.
  rewrite set_field_app by done. rewrite write_at_app_l by blen.
  rewrite byte_at_app, write_at_app_l by blen. rewrite set_field_app by (done || blen). done.
Qed.

Section EndToEnd.
Context {I : Indeterminate}.
Variables (header : list Z) (msgtype seqnum mtu : Z) (es : list message_element)
  (msgs : list capwap_message_element_itemlist).

Let hl := GET_HLEN_HEADER header * 4.
Let binding := GET_WBID_HEADER header.
Let body := message_bytes es.

Hypothesis Hheader : header_inv header.
Hypothesis Htype : is_u32 msgtype.
Hypothesis Hseq : is_u8 seqnum.
(** The control header must not fill the fragment. *)
Hypothesis Hmtu : hl + 16 <= mtu < 65536.
Hypothesis Hfit : hl + 8 + zlen body <= fragment_size mtu hl.
Hypothesis Hes : Forall (acceptable binding) es.
Hypothesis Hmsgs : store_all [] es = Some msgs.

(** What the sender hands to the network. *)
Definition sent_packet : list Z :=
  plain_header (take (Z.to_nat hl) header ++
    control_bytes (ControlMessage msgtype seqnum (3 + zlen body) 0) body).

Lemma hl_bounds : 8 <= hl <= zlen header.
Proof.
  destruct Hheader as (Hl & Hb & Hh & _). pose proof (hlen_range header).
  unfold hl, CAPWAP_HEADER_MAX_SIZE in *.
  assert (0 <= mac_words header /\ 0 <= wireless_words header); [|lia].
  unfold mac_words, wireless_words, padded_words.
  assert (forall i, 0 <= (1 + byte_at header i + 3) / 4).
  { intros i. pose proof (byte_at_range header i Hb). Z.div_mod_to_equations. lia. }
  split; case_match; auto; lia.
Qed.

(** The sender's side: a single fragment. *)
Lemma send_message :
  exists tx tx' f,
    capwap_packet_txmng_create_ctrl_message header msgtype seqnum mtu = Some tx /\
    add_elements tx es = Some tx' /\
    (forall fragmentid, capwap_packet_txmng_get_fragment_packets tx' fragmentid = [f]) /\
    take (Z.to_nat (offset f)) (buffer f) = sent_packet.
Proof.
  pose proof hl_bounds as Hh.
  assert (Hm : hl + 8 <= mtu) by lia.
  pose proof (fragment_size_bounds mtu hl Hm) as Hsz.
  destruct (create_ctrl_view header msgtype seqnum mtu hl eq_refl) as (rest & E1 & Hrest); [lia..|].
  set (pre := take (Z.to_nat hl) header ++ be32 msgtype ++ [wrap8 seqnum]) in *.
  assert (Hpre : zlen pre = hl + 5).
  { unfold pre. rewrite !length_app, length_take, length_be32. cbn [length]. lia. }
  destruct (add_elements_view mtu (fragment_size mtu hl) pre [] rest 0 es binding) as (r & w & E2).
  { lia. } { done. } { fold body. unfold tx_fits. cbn [length]. lia. }
  fold body in E2. cbn [app] in E2.
  eexists _, _, _. split; [exact E1|]. split; [exact E2|].
  split; [intros fragmentid; by apply single_fragment_packets|].
  cbn [offset buffer]. unfold sent_packet, control_bytes. cbn [cm_type cm_seq cm_length cm_flags].
  replace (pre ++ be16 (3 + zlen body) ++ [0] ++ body ++ r) with
    ((take (Z.to_nat hl) header ++ be32 msgtype ++ [wrap8 seqnum] ++ be16 (3 + zlen body) ++
      [wrap8 0] ++ body) ++ r) by (unfold pre; rewrite <- !app_assoc; done).
  set (x := take (Z.to_nat hl) header ++ _).
  assert (Hx : zlen x = hl + 8 + zlen body).
  { unfold x. rewrite !length_app, length_take, length_be32, length_be16. cbn [length]. lia. }
  rewrite plain_header_app by lia.
  destruct (plain_header_spec x 8) as [Hpl _]; [lia..|].
  rewrite take_app_length' by lia. done.
Qed.

(** The receiver's side: the same elements, under the same header. *)
Lemma receive_message fuel f :
  zlen body < Z.of_nat fuel -> take (Z.to_nat (offset f)) (buffer f) = sent_packet ->
  exists rx rx',
    capwap_packet_rxmng_create_from_requestfragmentpacket [f] = Some (Some rx) /\
    rx_ctrlmsg rx = ControlMessage msgtype seqnum (3 + zlen body) 0 /\
    capwap_parsing_packet fuel rx = Done (PARSING_COMPLETE, msgs, rx').
Proof.
  intros Hfuel Hf. pose proof hl_bounds as Hh.
  assert (Hm : hl + 8 <= mtu) by lia.
  pose proof (fragment_size_bounds mtu hl Hm) as Hsz.
  set (m := ControlMessage msgtype seqnum (3 + zlen body) 0) in *.
  set (h := take (Z.to_nat hl) header).
  assert (Hlh : zlen h = hl) by (unfold h; rewrite length_take; lia).
  assert (Hfield : forall g, field_ok g = true ->
    get_field g (h ++ control_bytes m body) = get_field g header).
  { intros g Hg. rewrite <- (get_field_take g 8 header), <- (get_field_take g 8 (h ++ _)) by (done || lia).
    f_equal. rewrite take_app_le by lia. unfold h. rewrite take_take. f_equal. lia. }
  change sent_packet with (plain_header (h ++ control_bytes m body)) in Hf.
  destruct (plain_header_spec (h ++ control_bytes m body) (Z.to_nat hl)) as (Hlen & Hdrop & HF & HH & HW).
  { rewrite length_app. lia. } { lia. }
  set (d := plain_header (h ++ control_bytes m body)) in *.
  assert (Hd : zlen d = hl + 8 + zlen body).
  { rewrite Hlen. unfold control_bytes.
    rewrite !length_app, length_be32, length_be16. cbn [length]. lia. }
  assert (Hhd : GET_HLEN_HEADER d * 4 = hl).
  { rewrite HH. unfold GET_HLEN_HEADER in *. by rewrite Hfield. }
  assert (Hwd : GET_WBID_HEADER d = binding).
  { rewrite HW. unfold GET_WBID_HEADER in *. by rewrite Hfield. }
  destruct (recv_single_spec d m body) as (rx & Erx & Hctrl & Hhdr & Hpos & Hpend).
  { done. } { lia. } { lia. }
  { rewrite Hhd, Hdrop. by rewrite drop_app_length' by lia. }
  { unfold m, control_ok. cbn. lia. }
  destruct (parsing_loop_roundtrip binding es [] msgs fuel (rx_readerpacketallowed rx) [] Hes Hmsgs)
    as (a & Eloop); [fold body; lia..|].
  rewrite app_nil_r in Eloop. fold body in Eloop.
  pose proof (parsing_loop_refines fuel binding (zlen body) [] (rx_seek rx (rx_readbodypos rx))
    (Stream (rx_readerpacketallowed rx) body)) as Href.
  rewrite Eloop in Href.
  destruct (parsing_loop fuel binding (zlen body) [] (rx_seek rx (rx_readbodypos rx)))
    as [[[c ms] rx']| |] eqn:Ep; [|by destruct Href..].
  destruct Href as [Hres _]. { done. }
  injection Hres as -> ->.
  exists rx, rx'. split; [|split; [done|]].
  - unfold capwap_packet_rxmng_create_from_requestfragmentpacket. cbn [append_fragments].
    rewrite Hf, Erx. done.
  - unfold capwap_parsing_packet, CAPWAP_CONTROL_MESSAGE_MIN_LENGTH. rewrite Hhdr, Hwd.
    change (rx_ctrlmsg (rx_seek rx (rx_readbodypos rx))) with (rx_ctrlmsg rx).
    rewrite Hctrl. cbn [cm_length m]. replace (3 + zlen body - 3) with (zlen body) by lia.
    rewrite wrap16_small by lia. exact Ep.
Qed.

End EndToEnd.
