(* ===== verification/FragmentSpec.v ===== *)
(** Messages of several fragments (src/common/capwap_protocol.c): which
    sequences of fragments the receiver reassembles, and what it makes of the
    fragments the sender produces. *)
From S2P Require Import Prelude Io Header Tx TxSpec Rx RxSpec Message.

(** ** The receiver *)

Definition recv (rx : capwap_packet_rxmng) (data : list Z) : option (Z * capwap_packet_rxmng) :=
  capwap_packet_rxmng_add_recv_packet rx data.

(** A fragment on the wire: its length fits, a payload of 64-bit words follows
    the header. *)
Definition fragment_data_ok (d : list Z) : Prop :=
  IS_FLAG_F_HEADER d = true /\ zlen d < 65536 /\ GET_HLEN_HEADER d * 4 < zlen d /\
  (zlen d - GET_HLEN_HEADER d * 4) mod 8 = 0.

#[export] Instance fragment_data_ok_dec d : Decision (fragment_data_ok d) := _.

Definition data_payload (d : list Z) : list Z := drop (Z.to_nat (GET_HLEN_HEADER d * 4)) d.

Lemma data_payload_length d :
  fragment_data_ok d -> zlen (data_payload d) = zlen d - GET_HLEN_HEADER d * 4.
Proof.
  intros (_ & _ & Hl & _). pose proof (hlen_range d). unfold data_payload.
  rewrite length_drop. lia.
Qed.

Lemma fragment_item_ok d :
  fragment_data_ok d -> fragment_ok (capwap_packet_rxmng_create_fragment_item d).
Proof.
  intros (_ & Hl & Hh & _). unfold fragment_ok, capwap_packet_rxmng_create_fragment_item.
  cbn [size buffer]. rewrite wrap16_small by lia. done.
Qed.

Lemma not_empty d : fragment_data_ok d -> negb (0 <? zlen d) = false.
Proof. intros (_ & _ & Hh & _). pose proof (hlen_range d). lia. Qed.

Lemma aligned_rem d :
  fragment_data_ok d ->
  negb (Z.rem (zlen d - wrap16 (GET_HLEN_HEADER d * 4)) 8 =? 0) = false.
Proof.
  intros (_ & Hl & Hh & Hm). pose proof (hlen_range d). rewrite wrap16_small by lia.
  rewrite Z.rem_mod_nonneg by lia. by rewrite Hm.
Qed.

(** The first fragment is kept, whatever its offset. *)
Lemma recv_first_fragment d :
  fragment_data_ok d -> IS_FLAG_L_HEADER d = false ->
  recv capwap_packet_rxmng_create_message d =
    Some (CAPWAP_REQUEST_MORE_FRAGMENT,
     rx_set_fragments capwap_packet_rxmng_create_message
       [capwap_packet_rxmng_create_fragment_item d]).
Proof.
  intros Hd HL. unfold recv, capwap_packet_rxmng_add_recv_packet.
  rewrite not_empty, (proj1 Hd), aligned_rem by done. cbn. by rewrite HL.
Qed.

(** The last of two fragments, received second. *)
Lemma recv_second_fragment d1 d2 :
  fragment_data_ok d1 -> fragment_data_ok d2 -> IS_FLAG_L_HEADER d2 = true ->
  GET_FRAGMENT_ID_HEADER d2 = GET_FRAGMENT_ID_HEADER d1 ->
  GET_FRAGMENT_OFFSET_HEADER d1 < GET_FRAGMENT_OFFSET_HEADER d2 ->
  let l := [capwap_packet_rxmng_create_fragment_item d1;
            capwap_packet_rxmng_create_fragment_item d2] in
  let '(result, packetlength) := check_fragments l 0 0 in
  let rx := rx_set_packetlength (rx_set_fragments capwap_packet_rxmng_create_message l)
              packetlength in
  recv (rx_set_fragments capwap_packet_rxmng_create_message
          [capwap_packet_rxmng_create_fragment_item d1]) d2 =
    if result =? CAPWAP_REQUEST_MORE_FRAGMENT then Some (result, rx) else
    if result =? CAPWAP_WRONG_FRAGMENT then Some (result, rx_set_fragments rx []) else
    pair CAPWAP_RECEIVE_COMPLETE_PACKET <$> capwap_packet_rxmng_complete rx.
Proof.
  intros H1 H2 HL Hid Hoff l. destruct (check_fragments l 0 0) as [result packetlength] eqn:E.
  unfold recv, capwap_packet_rxmng_add_recv_packet.
  rewrite not_empty, (proj1 H2), aligned_rem by done. cbn [rx_fragmentlist rx_set_fragments].
  cbn [buffer capwap_packet_rxmng_create_fragment_item]. rewrite Hid, Z.eqb_refl. cbn [negb].
  unfold order_fragment. cbn [buffer capwap_packet_rxmng_create_fragment_item].
  rewrite (proj2 (Z.ltb_ge _ _)), (proj2 (Z.ltb_lt _ _)) by lia. cbn [andb app].
  rewrite HL. fold (capwap_packet_rxmng_create_fragment_item d1).
  fold (capwap_packet_rxmng_create_fragment_item d2). fold l. by rewrite E.
Qed.

(** The sanity check of two fragments. *)
Lemma check_two d1 d2 :
  fragment_data_ok d1 -> fragment_data_ok d2 -> GET_FRAGMENT_OFFSET_HEADER d1 = 0 ->
  let n1 := zlen (data_payload d1) in
  let n2 := zlen (data_payload d2) in
  let off2 := GET_FRAGMENT_OFFSET_HEADER d2 in
  check_fragments [capwap_packet_rxmng_create_fragment_item d1;
                   capwap_packet_rxmng_create_fragment_item d2] 0 0 =
    if n1 / 8 <? off2 then (CAPWAP_REQUEST_MORE_FRAGMENT, n1)
    else if off2 <? n1 / 8 then (CAPWAP_WRONG_FRAGMENT, n1)
    else (CAPWAP_RECEIVE_COMPLETE_PACKET, n1 + n2).
Proof.
  intros H1 H2 Ho n1 n2 off2. unfold n1, n2, off2. rewrite !data_payload_length by done.
  destruct H1 as (_ & Hl1 & Hh1 & _), H2 as (_ & Hl2 & Hh2 & _).
  pose proof (hlen_range d1). pose proof (hlen_range d2).
  cbn [check_fragments capwap_packet_rxmng_create_fragment_item buffer size].
  rewrite Ho, !(wrap16_small (zlen _)), !(wrap16_small (zlen _ - _)) by lia.
  cbn [Z.ltb Z.compare]. rewrite !Z.add_0_l.
  rewrite wrap16_small by (Z.div_mod_to_equations; lia). done.
Qed.

Section TwoFragments.
Variables (d1 d2 : list Z).
Hypothesis H1 : fragment_data_ok d1.
Hypothesis H2 : fragment_data_ok d2.
Hypothesis HL1 : IS_FLAG_L_HEADER d1 = false.
Hypothesis HL2 : IS_FLAG_L_HEADER d2 = true.
Hypothesis Hid : GET_FRAGMENT_ID_HEADER d2 = GET_FRAGMENT_ID_HEADER d1.
Hypothesis Ho1 : GET_FRAGMENT_OFFSET_HEADER d1 = 0.

Definition rx_after_first : option capwap_packet_rxmng := snd <$> recv capwap_packet_rxmng_create_message d1.

(** In order, the second at the offset the receiver computes: the control
    header is decoded and the reader stands at the message elements. *)
Lemma two_fragments_complete m body :
  GET_FRAGMENT_OFFSET_HEADER d2 = zlen (data_payload d1) / 8 ->
  data_payload d1 ++ data_payload d2 = control_bytes m body -> control_ok m ->
  exists rx,
    rx_after_first ≫= (fun rx1 => recv rx1 d2) = Some (CAPWAP_RECEIVE_COMPLETE_PACKET, rx) /\
    rx_ctrlmsg rx = m /\ rx_header rx = d1 /\
    readpos_ok (rx_readbodypos rx) /\ pending (rx_readbodypos rx) = body.
Proof.
  intros Ho2 Hpay Hm. unfold rx_after_first. rewrite recv_first_fragment by done. obind. cbn [fmap option_fmap option_map snd].
  pose proof (data_payload_length d1 H1) as Hn1. pose proof H1 as (_ & _ & Hh1 & Ha1).
  assert (0 < zlen (data_payload d1) / 8) by (rewrite Hn1; Z.div_mod_to_equations; lia).
  pose proof (recv_second_fragment d1 d2 H1 H2 HL2 Hid ltac:(lia)) as E. cbn zeta in E.
  rewrite (check_two d1 d2 H1 H2 Ho1), Ho2, Z.ltb_irrefl in E. rewrite E.
  change (CAPWAP_RECEIVE_COMPLETE_PACKET =? CAPWAP_REQUEST_MORE_FRAGMENT) with false.
  change (CAPWAP_RECEIVE_COMPLETE_PACKET =? CAPWAP_WRONG_FRAGMENT) with false. cbv iota.
  set (rx0 := rx_set_packetlength _ _).
  destruct (complete_spec rx0 m body) as (rx' & E0 & E1 & E2 & E3 & E4); try done.
  { unfold rx0. cbn. repeat constructor; by apply fragment_item_ok. }
  { unfold rx0. cbn. rewrite app_nil_r. exact Hpay. }
  { unfold rx0. cbn [rx_packetlength rx_set_packetlength]. Z.div_mod_to_equations. lia. }
  exists rx'. rewrite E0. split; [done|]. split; [done|]. split; [unfold rx_header; by rewrite E2|]. done.
Qed.

(** An offset counted in bytes, as the field has it, is beyond what the
    receiver expects: it waits for more fragments. *)
Lemma two_fragments_byte_offset :
  GET_FRAGMENT_OFFSET_HEADER d2 = zlen (data_payload d1) ->
  fst <$> (rx_after_first ≫= fun rx1 => recv rx1 d2) = Some CAPWAP_REQUEST_MORE_FRAGMENT.
Proof.
  intros Ho2. unfold rx_after_first. rewrite recv_first_fragment by done. obind. cbn [fmap option_fmap option_map snd].
  pose proof (data_payload_length d1 H1) as Hn1. pose proof H1 as (_ & _ & Hh1 & Ha1).
  pose proof (recv_second_fragment d1 d2 H1 H2 HL2 Hid ltac:(lia)) as E. cbn zeta in E.
  rewrite (check_two d1 d2 H1 H2 Ho1), Ho2 in E.
  rewrite (proj2 (Z.ltb_lt (_ / 8) _)) in E by (Z.div_mod_to_equations; lia). by rewrite E.
Qed.

End TwoFragments.

(** With two fragments held, one that does not come before the first is taken
    for a duplicate of it. *)
Lemma third_fragment_wrong rx f1 f2 l d :
  rx_fragmentlist rx = f1 :: f2 :: l -> fragment_data_ok d ->
  GET_FRAGMENT_OFFSET_HEADER (buffer f1) < GET_FRAGMENT_OFFSET_HEADER d ->
  size f1 = zlen (buffer f1) ->
  recv rx d = Some (CAPWAP_WRONG_FRAGMENT, rx).
Proof.
  intros El Hd Ho Hs. unfold recv, capwap_packet_rxmng_add_recv_packet.
  rewrite not_empty, (proj1 Hd), aligned_rem, El by done.
  destruct (negb (GET_FRAGMENT_ID_HEADER d =? _)); [done|].
  unfold order_fragment. rewrite (proj2 (Z.ltb_ge _ _)) by lia. rewrite andb_false_r.
  destruct (Z.eqb_spec (size f1) (zlen d)) as [E|]; [|done]. cbn [negb].
  rewrite E, Nat2Z.id, (take_ge d), take_ge by lia.
  rewrite bool_decide_eq_false_2; [done|]. intros Eb. rewrite Eb in Ho. lia.
Qed.

(** ** The sender's fragments *)

Definition fragment_header (b : list Z) (fragmentid fragmentoffset : Z) (lastone : bool) : list Z :=
  SET_FLAG_L_HEADER
    (SET_FRAGMENT_OFFSET_HEADER (SET_FRAGMENT_ID_HEADER (SET_FLAG_F_HEADER b true) fragmentid)
       fragmentoffset) lastone.

Lemma fragment_header_flags b id off lastone :
  8 <= zlen b ->
  zlen (fragment_header b id off lastone) = zlen b /\
  IS_FLAG_F_HEADER (fragment_header b id off lastone) = true /\
  IS_FLAG_L_HEADER (fragment_header b id off lastone) = lastone.
Proof.
  intros Hb. unfold fragment_header, SET_FLAG_L_HEADER, SET_FLAG_F_HEADER, set_flag,
    SET_FRAGMENT_OFFSET_HEADER, SET_FRAGMENT_ID_HEADER, IS_FLAG_F_HEADER, IS_FLAG_L_HEADER, is_flag.
  set (w := [Z.lor _ _; _]). assert (Hw : zlen w = 2) by done. clearbody w.
  split; [blen|]. split; hdr; rewrite ?get_field_write_after by (first [reflexivity | cbn; blen]); hdr; [done|].
  by destruct lastone.
Qed.

(** The first of the sender's fragments opens a reassembly or is refused. *)
Lemma recv_sent_fragment d :
  0 < zlen d -> IS_FLAG_F_HEADER d = true -> IS_FLAG_L_HEADER d = false ->
  exists result rx, recv capwap_packet_rxmng_create_message d = Some (result, rx) /\
  (result = CAPWAP_WRONG_FRAGMENT \/
   (result = CAPWAP_REQUEST_MORE_FRAGMENT /\ rx_fragmentlist rx <> [])).
Proof.
  intros Hd HF HL. unfold recv, capwap_packet_rxmng_add_recv_packet. rewrite HF, (proj2 (Z.ltb_lt _ _) Hd).
  cbn [negb]. destruct (negb (Z.rem _ 8 =? 0)); [by eexists _, _; split; [done|left]|]. cbn. rewrite HL.
  eexists _, _. split; [done|by right].
Qed.

Lemma recv_plain_overlap rx d :
  0 < zlen d -> IS_FLAG_F_HEADER d = false -> rx_fragmentlist rx <> [] ->
  recv rx d = Some (CAPWAP_WRONG_FRAGMENT, rx).
Proof.
  intros Hd HF Hne. unfold recv, capwap_packet_rxmng_add_recv_packet. rewrite HF, (proj2 (Z.ltb_lt _ _) Hd).
  cbn [negb].
  by destruct (rx_fragmentlist rx).
Qed.

Lemma is_flag_take f n b :
  field_ok f = true -> (8 <= n)%nat -> is_flag f (take n b) = is_flag f b.
Proof. intros. unfold is_flag. by rewrite get_field_take. Qed.

(** Two fragments, the first ending on a 64-bit boundary: the offset computed
    for the second is zero, it is sent as a whole packet and the receiver
    refuses it. *)
Lemma two_sent_fragments_refused f1 f2 fragmentid :
  8 <= zlen (buffer f1) -> 8 <= zlen (buffer f2) -> 8 <= offset f1 -> 8 <= offset f2 ->
  offset f1 mod 8 = 0 ->
  capwap_packet_rxmng_create_from_requestfragmentpacket
    (get_fragment_packets [f1; f2] fragmentid 0) = Some None.
Proof.
  intros Hb1 Hb2 Ho1 Ho2 Hm. cbn [get_fragment_packets Z.eqb andb].
  rewrite Z.rem_mod_nonneg, Hm by lia. change (wrap16 (0 + 0) =? 0) with true.
  cbn [andb].
  fold (fragment_header (buffer f1) fragmentid 0 false). fold (plain_header (buffer f2)).
  destruct (fragment_header_flags (buffer f1) fragmentid 0 false Hb1) as (Hl1 & HF1 & HL1).
  destruct (plain_header_spec (buffer f2) 8 Hb2 ltac:(lia)) as (Hl2 & _ & HF2 & _).
  unfold capwap_packet_rxmng_create_from_requestfragmentpacket.
  cbn [append_fragments offset buffer].
  set (d1 := take (Z.to_nat (offset f1)) _). set (d2 := take (Z.to_nat (offset f2)) (plain_header (buffer f2))).
  assert (Hd1 : 0 < zlen d1) by (unfold d1; rewrite length_take; lia).
  assert (Hd2 : 0 < zlen d2) by (unfold d2; rewrite length_take; lia).
  destruct (recv_sent_fragment d1 Hd1) as (r1 & rx1 & Er & Hr1).
  - unfold d1, IS_FLAG_F_HEADER. rewrite is_flag_take by (done || lia). exact HF1.
  - unfold d1, IS_FLAG_L_HEADER. rewrite is_flag_take by (done || lia). exact HL1.
  - unfold recv in Er. rewrite Er. obind. destruct Hr1 as [->|[-> Hne]]; [done|].
    change (CAPWAP_REQUEST_MORE_FRAGMENT =? CAPWAP_WRONG_FRAGMENT) with false. cbn match.
    pose proof (recv_plain_overlap rx1 d2 Hd2) as E. unfold recv in E. rewrite E; [done| |done].
    unfold d2, IS_FLAG_F_HEADER. rewrite is_flag_take by (done || lia). exact HF2.
Qed.
