(* ===== verification/TransportProps.v ===== *)
(** Properties of the packet managers: building a control message, reading it
    back, and messages of several fragments. *)
From S2P Require Import Prelude Io Header HeaderProps Tx TxSpec Rx RxSpec.
From S2P Require Import ElementsControl ElementsImage Element Packet PacketSpec Message FragmentSpec.

(** ** Transmission *)

(** A message under construction: header of eight bytes, type 13, sequence 7. *)
Definition sample_pre : list Z := take 8 blank_header ++ be32 13 ++ [7].
Definition sample_rest : list Z := zeros 100.
Definition sample_tx : capwap_packet_txmng := tx_view 116 112 sample_pre [] sample_rest 0.
Definition sample_resultcode : message_element :=
  existT K_resultcode {| ResultCode.code := 1 |}.

Lemma sample_resultcode_wf : element_wf K_resultcode {| ResultCode.code := 1 |}.
Proof. reflexivity. Qed.

(** A new control message is refused when the MTU is too small for the
    header and the control header, an assertion fails when it has room for them
    and less than eight bytes more, and otherwise the message is a single fragment with the
    header copied, the type and the sequence number in network byte order, the
    minimal length and an empty body. *)
Lemma create_ctrl_message_correct `{Indeterminate} header type seq mtu :
  let hl := GET_HLEN_HEADER header * 4 in
  hl <= zlen header -> 0 < mtu < 65536 ->
  (mtu < hl + 16 -> capwap_packet_txmng_create_ctrl_message header type seq mtu = None) /\
  (hl + 16 <= mtu ->
   exists rest,
     capwap_packet_txmng_create_ctrl_message header type seq mtu =
       Some (tx_view mtu (fragment_size mtu hl)
               (take (Z.to_nat hl) header ++ be32 type ++ [wrap8 seq]) [] rest 0) /\
     zlen rest = mtu - (hl + 8)).
Proof.
  intros hl Hl Hm. pose proof (hlen_range header). split; intros Hmtu.
  - by apply create_ctrl_refused.
  - apply create_ctrl_view; [done|lia|lia].
Qed.

Lemma create_ctrl_message_correct_witness :
  exists rest,
    @capwap_packet_txmng_create_ctrl_message zero_memory blank_header 13 7 1400 =
      Some (tx_view 1400 1400 (take 8 blank_header ++ be32 13 ++ [7]) [] rest 0) /\ zlen rest = 1384.
Proof.
  apply (@create_ctrl_message_correct zero_memory blank_header 13 7 1400); by_computation.
Defined.

(** While there is room in the fragment, adding a well-formed element
    appends exactly its type, its length and its value to the body, the length
    of the element and of the message being right, and nothing else of the
    message changes. *)
Lemma add_message_element_appends `{Indeterminate} m sz pre body rest w k (d : element_data k) :
  let e : message_element := existT k d in
  element_wf k d -> is_u16 w -> tx_fits sz pre body rest (zlen (bytes_of e)) ->
  exists rest' w',
    capwap_packet_txmng_add_message_element (tx_view m sz pre body rest w) e =
      Some (tx_view m sz pre (body ++ bytes_of e) rest' w') /\
    zlen rest' = zlen rest - zlen (bytes_of e).
Proof.
  intros e Hwf Hw Hfit. apply element_safe in Hwf.
  destruct (add_message_element_view m sz pre body rest w (vendor (kind_id k)) (type (kind_id k))
    (calls_of e) Hw Hwf Hfit) as (rest' & w' & E & _ & Hr).
  by exists rest', w'.
Qed.

Lemma add_message_element_appends_witness :
  exists rest' w',
    @capwap_packet_txmng_add_message_element zero_memory sample_tx sample_resultcode =
      Some (tx_view 116 112 sample_pre ([] ++ [0; 33; 0; 4; 0; 0; 0; 1]) rest' w') /\
    zlen rest' = 100 - 8.
Proof.
  apply (@add_message_element_appends zero_memory 116 112 sample_pre [] sample_rest 0 K_resultcode
    {| ResultCode.code := 1 |}).
  - apply sample_resultcode_wf.
  - lia.
  - unfold tx_fits. split_and!; by_computation.
Defined.

(** Any sequence of write calls that pass their assertions and fit in the
    fragment appends the bytes the calls stand for, in order: the manager
    implements the writer interface the elements are written against. *)
Lemma write_calls_append `{Indeterminate} m sz pre body rest w cs :
  is_u16 w -> forallb call_asserts cs = true -> tx_fits sz pre body rest (zlen (wire cs)) ->
  exists rest',
    exec (tx_view m sz pre body rest w) cs =
      Some (tx_view m sz pre (body ++ wire cs) rest' (wrap16 (w + zlen (wire cs)))) /\
    zlen rest' = zlen rest - zlen (wire cs).
Proof.
  intros Hw Ha Hf. destruct (exec_view m sz pre body rest w cs Hw Ha Hf) as (rest' & E & Hr & _).
  by exists rest'.
Qed.

Lemma write_calls_append_witness :
  exists rest',
    @exec _ (@tx_ops zero_memory) sample_tx [WriteU16 258; WriteBlock [9; 9]; WriteU8 5] =
      Some (tx_view 116 112 sample_pre ([] ++ [1; 2; 9; 9; 5]) rest' 5) /\ zlen rest' = 100 - 5.
Proof.
  apply (@write_calls_append zero_memory 116 112 sample_pre [] sample_rest 0
    [WriteU16 258; WriteBlock [9; 9]; WriteU8 5]); [lia|reflexivity|].
  unfold tx_fits. split_and!; by_computation.
Defined.

(** the integer writers store the value and yet report failure: the block
    writer returns what is left to write, zero, where they expect the number
    of bytes written. *)
Lemma writers_report_failure `{Indeterminate} m sz pre body rest w x :
  tx_fits sz pre body rest 4 ->
  let tx := tx_view m sz pre body rest w in
  write_u16 tx x = Some (-1, tx_view m sz pre (body ++ be16 x) (drop 2 rest) (wrap16 (w + 2))) /\
  write_u32 tx x = Some (-1, tx_view m sz pre (body ++ be32 x) (drop 4 rest) (wrap16 (w + 4))).
Proof.
  intros (Hp & Hs & Hr) tx. cbn [write_u16 write_u32 tx_ops].
  unfold capwap_fragment_write_u16, capwap_fragment_write_u32, tx.
  rewrite !write_block_full by (unfold tx_fits; rewrite ?length_be16, ?length_be32; lia). done.
Qed.

Lemma writers_report_failure_witness :
  fst <$> write_u16 (WriteOps := @tx_ops zero_memory) sample_tx 258 = Some (-1).
Proof.
  destruct (@writers_report_failure zero_memory 116 112 sample_pre [] sample_rest 0 258) as [E _].
  { unfold tx_fits. split_and!; by_computation. }
  unfold sample_tx. by rewrite E.
Defined.

(** a block larger than the room left in the fragment is not continued in
    a new fragment: every turn of the loop copies the head of the block to the
    same place, so that the fragment keeps the bytes that fit, the others are
    lost, and the writer counts all of them as written. *)
Lemma block_overrun_truncated `{Indeterminate} m sz pre body rest w data (r : nat) :
  5 <= zlen pre -> sz = zlen pre + 3 + zlen body + Z.of_nat r -> sz < 65536 ->
  (0 < r < length data)%nat -> zlen data < 65536 -> Z.of_nat r <= zlen rest -> is_u16 w ->
  capwap_fragment_write_block (tx_view m sz pre body rest w) data =
    Some (0, tx_view m sz pre (body ++ take r data) (drop r rest) (wrap16 (w + zlen data))).
Proof. intros. apply write_block_overrun; lia || done. Qed.

Lemma block_overrun_truncated_witness :
  @capwap_fragment_write_block zero_memory (tx_view 24 18 sample_pre [] [0; 0] 0) [1; 2; 3; 4] =
    Some (0, tx_view 24 18 sample_pre ([] ++ [1; 2]) [] 4).
Proof.
  apply (@block_overrun_truncated zero_memory 24 18 sample_pre [] [0; 0] 0 [1; 2; 3; 4] 2);
    by_computation.
Defined.

(** ** Reception *)

(** Reading a block from the fragments of a packet is reading the stream of
    their payloads: the assertion fails for the same lengths, same bytes, same budget left, and the reader stays in that
    relation, across fragment boundaries. *)
Lemma read_block_is_stream_read rx s n :
  rx_stream rx s ->
  match capwap_fragment_read_block rx n, stream_block s n with
  | Some (bs, rx'), Some (bs', s') => bs = bs' /\ rx_stream rx' s'
  | None, None => True
  | _, _ => False
  end.
Proof. apply read_block_refines. Qed.

(** Two fragments of a packet, with payloads [1; 2; 3] and [4; 5]. *)
Definition sample_fragment (payload : list Z) : capwap_fragment_packet_item :=
  capwap_packet_rxmng_create_fragment_item (take 8 blank_header ++ payload).
Definition sample_rx : capwap_packet_rxmng :=
  let l := [sample_fragment [1; 2; 3]; sample_fragment [4; 5]] in
  Rxmng l 5 (ControlMessage 0 0 0 0) (ReadPos l 8) (ReadPos l 8) 5.

Lemma sample_rx_stream : rx_stream sample_rx (Stream 5 [1; 2; 3; 4; 5]).
Proof.
  split; [reflexivity|]. split; [|by vm_compute]. split; [|by_computation].
  constructor; [|constructor; [|constructor]]; unfold fragment_ok; split_and!; by_computation.
Qed.

Lemma read_block_is_stream_read_witness :
  fst <$> capwap_fragment_read_block sample_rx 4 = Some [1; 2; 3; 4].
Proof.
  pose proof (read_block_is_stream_read sample_rx (Stream 5 [1; 2; 3; 4; 5]) 4 sample_rx_stream) as E.
  destruct (capwap_fragment_read_block sample_rx 4) as [[bs rx']|]; [|done]. by destruct E as [-> _].
Defined.

(** a packet that is not a fragment is complete at once: its control header
    is decoded and the reader stands at the first message element. *)
Lemma whole_packet_received data m body :
  IS_FLAG_F_HEADER data = false -> zlen data < 65536 ->
  GET_HLEN_HEADER data * 4 <= zlen data ->
  drop (Z.to_nat (GET_HLEN_HEADER data * 4)) data = control_bytes m body -> control_ok m ->
  exists rx,
    capwap_packet_rxmng_add_recv_packet capwap_packet_rxmng_create_message data =
      Some (CAPWAP_RECEIVE_COMPLETE_PACKET, rx) /\
    rx_ctrlmsg rx = m /\ rx_header rx = data /\
    readpos_ok (rx_readbodypos rx) /\ pending (rx_readbodypos rx) = body.
Proof. apply recv_single_spec. Qed.

Definition sample_control : capwap_control_message := ControlMessage 13 7 5 0.
Definition sample_packet : list Z := take 8 blank_header ++ control_bytes sample_control [8; 9].

Lemma whole_packet_received_witness :
  exists rx,
    capwap_packet_rxmng_add_recv_packet capwap_packet_rxmng_create_message sample_packet =
      Some (CAPWAP_RECEIVE_COMPLETE_PACKET, rx) /\
    rx_ctrlmsg rx = sample_control /\ rx_header rx = sample_packet /\
    readpos_ok (rx_readbodypos rx) /\ pending (rx_readbodypos rx) = [8; 9].
Proof.
  apply (whole_packet_received sample_packet sample_control [8; 9]).
  - vm_compute; reflexivity.
  - by_computation.
  - by_computation.
  - vm_compute; reflexivity.
  - by_computation.
Defined.

(** ** Fragments *)

(** A fragment with its id, offset field and last flag. *)
Definition sample_piece (offset : Z) (lastone : bool) (payload : list Z) : list Z :=
  fragment_header (take 8 blank_header) 42 offset lastone ++ payload.

(** A message of 128 bytes in two halves; the second is at offset 8, in the
    64-bit words the receiver counts, which the masked field can express. *)
Definition sample_message : list Z := control_bytes (ControlMessage 13 7 123 0) (zeros 120).
Definition sample_piece1 : list Z := sample_piece 0 false (take 64 sample_message).
Definition sample_piece2 : list Z := sample_piece 8 true (drop 64 sample_message).

(** Two fragments received in order, the second flagged last and placed
    where the receiver expects it, are reassembled: the message is complete,
    its control header is decoded and the body is the concatenation of the
    payloads after it. *)
Lemma two_fragments_reassembled d1 d2 m body :
  fragment_data_ok d1 -> fragment_data_ok d2 ->
  IS_FLAG_L_HEADER d1 = false -> IS_FLAG_L_HEADER d2 = true ->
  GET_FRAGMENT_ID_HEADER d2 = GET_FRAGMENT_ID_HEADER d1 -> GET_FRAGMENT_OFFSET_HEADER d1 = 0 ->
  GET_FRAGMENT_OFFSET_HEADER d2 = zlen (data_payload d1) / 8 ->
  data_payload d1 ++ data_payload d2 = control_bytes m body -> control_ok m ->
  exists rx1 rx2,
    capwap_packet_rxmng_add_recv_packet capwap_packet_rxmng_create_message d1 =
      Some (CAPWAP_REQUEST_MORE_FRAGMENT, rx1) /\
    capwap_packet_rxmng_add_recv_packet rx1 d2 = Some (CAPWAP_RECEIVE_COMPLETE_PACKET, rx2) /\
    rx_ctrlmsg rx2 = m /\ rx_header rx2 = d1 /\
    readpos_ok (rx_readbodypos rx2) /\ pending (rx_readbodypos rx2) = body.
Proof.
  intros H1 H2 HL1 HL2 Hid Ho1 Ho2 Hp Hm.
  destruct (two_fragments_complete d1 d2 H1 H2 HL1 HL2 Hid Ho1 m body Ho2 Hp Hm) as (rx2 & E & ?).
  unfold rx_after_first in E. pose proof (recv_first_fragment d1 H1 HL1) as E1.
  rewrite E1 in E. revert E. obind. intros E. eexists _, rx2. split; [exact E1|]. by split.
Qed.

Lemma two_fragments_reassembled_witness :
  exists rx1 rx2,
    capwap_packet_rxmng_add_recv_packet capwap_packet_rxmng_create_message sample_piece1 =
      Some (CAPWAP_REQUEST_MORE_FRAGMENT, rx1) /\
    capwap_packet_rxmng_add_recv_packet rx1 sample_piece2 = Some (CAPWAP_RECEIVE_COMPLETE_PACKET, rx2) /\
    rx_ctrlmsg rx2 = ControlMessage 13 7 123 0 /\ rx_header rx2 = sample_piece1 /\
    readpos_ok (rx_readbodypos rx2) /\ pending (rx_readbodypos rx2) = zeros 120.
Proof.
  apply (two_fragments_reassembled sample_piece1 sample_piece2 (ControlMessage 13 7 123 0) (zeros 120)).
  1, 2: by_computation.
  1-6: vm_compute; reflexivity.
  by_computation.
Defined.

(** the offset field counts bytes, and the receiver 64-bit words: two
    fragments whose offsets count bytes are never completed, the receiver
    keeps waiting for more. *)
Lemma byte_offsets_never_complete d1 d2 :
  fragment_data_ok d1 -> fragment_data_ok d2 ->
  IS_FLAG_L_HEADER d1 = false -> IS_FLAG_L_HEADER d2 = true ->
  GET_FRAGMENT_ID_HEADER d2 = GET_FRAGMENT_ID_HEADER d1 -> GET_FRAGMENT_OFFSET_HEADER d1 = 0 ->
  GET_FRAGMENT_OFFSET_HEADER d2 = zlen (data_payload d1) ->
  fst <$> ('(_, rx1) ← capwap_packet_rxmng_add_recv_packet capwap_packet_rxmng_create_message d1;
           capwap_packet_rxmng_add_recv_packet rx1 d2) = Some CAPWAP_REQUEST_MORE_FRAGMENT.
Proof.
  intros H1 H2 HL1 HL2 Hid Ho1 Ho2. pose proof (two_fragments_byte_offset d1 d2 H1 H2 HL1 HL2 Hid Ho1 Ho2) as E.
  revert E. unfold rx_after_first, recv. obind. by destruct (capwap_packet_rxmng_add_recv_packet _ d1) as [[]|].
Qed.

Lemma byte_offsets_never_complete_witness :
  fst <$> ('(_, rx1) ← capwap_packet_rxmng_add_recv_packet capwap_packet_rxmng_create_message sample_piece1;
           capwap_packet_rxmng_add_recv_packet rx1 (sample_piece 64 true (drop 64 sample_message))) =
    Some CAPWAP_REQUEST_MORE_FRAGMENT.
Proof.
  apply (byte_offsets_never_complete sample_piece1 (sample_piece 64 true (drop 64 sample_message))).
  1, 2: by_computation.
  all: vm_compute; reflexivity.
Defined.

(** once two fragments are held, a further one that follows the first is
    refused: it is compared with the first fragment as a duplicate of it, so
    that no message of three fragments is ever reassembled. *)
Lemma third_fragment_refused rx f1 f2 l d :
  rx_fragmentlist rx = f1 :: f2 :: l -> fragment_data_ok d ->
  GET_FRAGMENT_OFFSET_HEADER (buffer f1) < GET_FRAGMENT_OFFSET_HEADER d ->
  size f1 = zlen (buffer f1) ->
  capwap_packet_rxmng_add_recv_packet rx d = Some (CAPWAP_WRONG_FRAGMENT, rx).
Proof. apply third_fragment_wrong. Qed.

Lemma third_fragment_refused_witness :
  let frag d := capwap_packet_rxmng_create_fragment_item d in
  let rx := rx_set_fragments capwap_packet_rxmng_create_message
              [frag sample_piece1; frag (sample_piece 8 false (zeros 64))] in
  capwap_packet_rxmng_add_recv_packet rx (sample_piece 16 true (zeros 64)) = Some (CAPWAP_WRONG_FRAGMENT, rx).
Proof.
  intros frag rx.
  apply (third_fragment_refused rx (frag sample_piece1) (frag (sample_piece 8 false (zeros 64))) []).
  - reflexivity.
  - by_computation.
  - by_computation.
  - vm_compute; reflexivity.
Defined.

(** a message the sender splits in two, the first fragment ending on a
    64-bit boundary, is not understood by the receiver: the offset is advanced
    by the remainder of the division by eight instead of the quotient, the
    second fragment leaves flagged as a whole packet, and is refused as such. *)
Lemma sent_fragments_refused tx f1 f2 fragmentid :
  fragmentlist tx = [f1; f2] ->
  8 <= zlen (buffer f1) -> 8 <= zlen (buffer f2) -> 8 <= offset f1 -> 8 <= offset f2 ->
  offset f1 mod 8 = 0 ->
  capwap_packet_rxmng_create_from_requestfragmentpacket
    (capwap_packet_txmng_get_fragment_packets tx fragmentid) = Some None.
Proof.
  intros E. unfold capwap_packet_txmng_get_fragment_packets. rewrite E.
  apply two_sent_fragments_refused.
Qed.

Lemma sent_fragments_refused_witness :
  let f p := Fragment 24 24 (take 8 blank_header ++ p) in
  let tx := Txmng 24 [f (zeros 16); f (replicate 16 1)] 8 0 in
  capwap_packet_rxmng_create_from_requestfragmentpacket
    (capwap_packet_txmng_get_fragment_packets tx 5) = Some None.
Proof.
  intros f tx. apply (sent_fragments_refused tx (f (zeros 16)) (f (replicate 16 1)) 5).
  - reflexivity.
  - by_computation.
  - by_computation.
  - by_computation.
  - by_computation.
  - reflexivity.
Defined.
