(* ===== verification/PacketProps.v ===== *)
(** Properties of control messages: decoding, validation, and the trip of a
    message from the sender's calls to the receiver's elements. *)
From S2P Require Import Prelude Io Header HeaderProps Tx TxSpec Rx RxSpec.
From S2P Require Import ElementsAcList ElementsControl ElementsImage Element Termination.
From S2P Require Import Packet PacketInv Validate PacketSpec DecodeSpec Message.

(** ** End to end *)

Definition sample_elements : list message_element :=
  [existT K_resultcode {| ResultCode.code := 1 |};
   existT K_location {| Location.value := [108; 97; 98; 0] |}].

Lemma sample_elements_acceptable `{Indeterminate} : Forall (acceptable 1) sample_elements.
Proof.
  constructor; [|constructor; [|constructor]].
  - split_and!; done.
  - split_and!; try done. split; [|done]. exists [108; 97; 98]. split_and!; done || by_computation.
Qed.

(** C1: for every header that satisfies its invariant, every message type and
    sequence number, every MTU that leaves eight bytes after the control header,
    and every list of elements that are well formed and of receivable kinds, fit
    in one fragment and repeat no element that may occur once: the message is
    built without a failed assertion, leaves as one packet whatever the fragment id, and the receiver of that
    packet reads the same type and sequence number, decodes the body to the
    end, and holds under each id exactly the elements of that kind, in the
    order in which they were sent. *)
Theorem message_end_to_end `{Indeterminate} header msgtype seqnum mtu es :
  let hl := GET_HLEN_HEADER header * 4 in
  header_inv header -> is_u32 msgtype -> is_u8 seqnum -> hl + 16 <= mtu < 65536 ->
  hl + 8 + zlen (message_bytes es) <= fragment_size mtu hl ->
  Forall (acceptable (GET_WBID_HEADER header)) es ->
  (forall k, category (element_ops k) = CAPWAP_MESSAGE_ELEMENT_SINGLE ->
   (length (of_kind k es) <= 1)%nat) ->
  exists tx tx' f,
    capwap_packet_txmng_create_ctrl_message header msgtype seqnum mtu = Some tx /\
    add_elements tx es = Some tx' /\
    (forall fragmentid, capwap_packet_txmng_get_fragment_packets tx' fragmentid = [f]) /\
    forall fuel, zlen (message_bytes es) < Z.of_nat fuel ->
    exists rx rx' msgs,
      capwap_packet_rxmng_create_from_requestfragmentpacket [f] = Some (Some rx) /\
      cm_type (rx_ctrlmsg rx) = msgtype /\ cm_seq (rx_ctrlmsg rx) = seqnum /\
      capwap_parsing_packet fuel rx = Done (PARSING_COMPLETE, msgs, rx') /\
      messages_ok msgs /\ (forall k, collected msgs k = of_kind k es).
Proof.
  intros hl Hh Ht Hs Hm Hfit Hes Hone.
  destruct (proj2 (store_all_succeeds [] es messages_ok_nil)) as [msgs Hst].
  { intros k Hk. by apply Hone. }
  destruct (send_message header msgtype seqnum mtu es Hh Ht Hs Hm Hfit Hes) as (tx & tx' & f & E1 & E2 & E3 & E4).
  exists tx, tx', f. do 3 (split; [done|]). intros fuel Hfuel.
  destruct (receive_message header msgtype seqnum mtu es msgs Hh Ht Hs Hm Hfit Hes Hst fuel f Hfuel E4)
    as (rx & rx' & R1 & R2 & R3).
  exists rx, rx', msgs. rewrite R2. split_and!; try done.
  - apply (store_all_ok [] es msgs messages_ok_nil Hst).
  - intros k. by rewrite (store_all_collected [] es msgs k Hst).
Qed.

Lemma message_end_to_end_witness :
  exists tx tx' f,
    @capwap_packet_txmng_create_ctrl_message zero_memory blank_header 3 7 1400 = Some tx /\
    @add_elements zero_memory tx sample_elements = Some tx' /\
    (forall fragmentid, capwap_packet_txmng_get_fragment_packets tx' fragmentid = [f]) /\
    exists rx rx' msgs,
      capwap_packet_rxmng_create_from_requestfragmentpacket [f] = Some (Some rx) /\
      @capwap_parsing_packet zero_memory 100 rx = Done (PARSING_COMPLETE, msgs, rx') /\
      collected msgs K_location = [existT K_location {| Location.value := [108; 97; 98; 0] |}].
Proof.
  destruct (@message_end_to_end zero_memory blank_header 3 7 1400 sample_elements)
    as (tx & tx' & f & E1 & E2 & E3 & E4).
  - by_computation.
  - lia.
  - lia.
  - by_computation.
  - by_computation.
  - apply sample_elements_acceptable.
  - intros k _. destruct k; vm_compute; lia.
  - exists tx, tx', f. do 3 (split; [done|]).
    destruct (E4 100%nat) as (rx & rx' & msgs & R1 & _ & _ & R2 & _ & R3); [by_computation|].
    exists rx, rx', msgs. split; [done|]. split; [done|]. by rewrite R3.
Defined.

(** ** Decoding arbitrary packets *)

(** C16: decoding the fragments of a packet is decoding the stream of its body:
    same code, same elements, whether it ends, fails an assertion or loops. *)
Theorem parsing_packet_is_stream_decoding `{Indeterminate} fuel rx :
  readpos_ok (rx_readbodypos rx) ->
  same_end rx_stream (capwap_parsing_packet fuel rx)
    (parsing_loop fuel (GET_WBID_HEADER (rx_header rx))
       (wrap16 (cm_length (rx_ctrlmsg rx) - CAPWAP_CONTROL_MESSAGE_MIN_LENGTH)) []
       (Stream (rx_readerpacketallowed rx) (pending (rx_readbodypos rx)))).
Proof. apply parsing_packet_refines. Qed.

(** A packet with a given body, received whole. *)
Definition sample_received (body : list Z) : capwap_packet_rxmng :=
  default capwap_packet_rxmng_create_message
    (snd <$> capwap_packet_rxmng_add_recv_packet capwap_packet_rxmng_create_message
       (take 8 blank_header ++ control_bytes (ControlMessage 13 7 (3 + zlen body) 0) body)).

(** A Result Code. *)
Definition sample_body : list Z := [0; 33; 0; 4; 0; 0; 0; 1].

Lemma sample_received_ok body :
  zlen body < 60000 ->
  readpos_ok (rx_readbodypos (sample_received body)) /\
  pending (rx_readbodypos (sample_received body)) = body.
Proof.
  intros Hb. set (h := take 8 blank_header). assert (Hh : zlen h = 8) by (vm_compute; reflexivity).
  set (m := ControlMessage 13 7 (3 + zlen body) 0).
  assert (Hf : forall f, field_ok f = true -> get_field f (h ++ control_bytes m body) = get_field f h).
  { unfold field_ok, sizeof_capwap_header. intros f Hf. split_andb. unfold get_field.
    by rewrite byte_at_app by lia. }
  assert (Hl : GET_HLEN_HEADER (h ++ control_bytes m body) = 2).
  { unfold GET_HLEN_HEADER. by rewrite Hf. }
  destruct (recv_single_spec (h ++ control_bytes m body) m body) as (rx & E & _ & _ & H).
  - unfold IS_FLAG_F_HEADER, is_flag. by rewrite Hf.
  - unfold control_bytes. rewrite !length_app, length_be32, length_be16. cbn [length]. lia.
  - rewrite Hl, length_app. lia.
  - by rewrite Hl, drop_app_length' by lia.
  - unfold m, control_ok. cbn. lia.
  - unfold sample_received. fold h. fold m. by rewrite E.
Qed.

Lemma sample_body_ok :
  readpos_ok (rx_readbodypos (sample_received sample_body)) /\
  pending (rx_readbodypos (sample_received sample_body)) = sample_body.
Proof. apply sample_received_ok. by_computation. Qed.

Lemma parsing_packet_is_stream_decoding_witness :
  same_end rx_stream (@capwap_parsing_packet zero_memory 9 (sample_received sample_body))
    (@parsing_loop zero_memory _ _ 9 1 8 [] (Stream 0 sample_body)).
Proof.
  pose proof (@parsing_packet_is_stream_decoding zero_memory 9 (sample_received sample_body)) as E.
  specialize (E (proj1 sample_body_ok)). rewrite (proj2 sample_body_ok) in E. exact E.
Defined.

(** C11: decoding ends on every packet in which no position looks like an
    address list of a bad length, however wrong its lengths and its contents
    are: it returns a code and the elements, or the assertion of [read_block]
    stops it at a block of no bytes.  The fuel needed is bounded by the size of
    the body plus the range of a 16-bit counter. *)
Theorem parsing_packet_terminates `{Indeterminate} fuel rx :
  let bytes := pending (rx_readbodypos rx) in
  readpos_ok (rx_readbodypos rx) -> bytes_ok bytes -> may_loop bytes = false ->
  zlen bytes + 65536 < Z.of_nat fuel ->
  capwap_parsing_packet fuel rx = Asserted \/ exists r, capwap_parsing_packet fuel rx = Done r.
Proof.
  intros bytes Hok Hb Hl Hf. pose proof (parsing_packet_refines fuel rx Hok) as Href.
  pose proof (parsing_loop_ends fuel (GET_WBID_HEADER (rx_header rx))
    (wrap16 (cm_length (rx_ctrlmsg rx) - CAPWAP_CONTROL_MESSAGE_MIN_LENGTH)) []
    (Stream (rx_readerpacketallowed rx) bytes) Hb Hf (may_loop_false bytes Hl)) as E.
  fold bytes in Href. destruct (capwap_parsing_packet fuel rx) as [r| |]; [right; by exists r|by left|].
  by destruct (parsing_loop _ _ _ _ _).
Qed.

Lemma parsing_packet_terminates_witness :
  let x := @capwap_parsing_packet zero_memory (Z.to_nat 70000) (sample_received sample_body) in
  x = Asserted \/ exists r, x = Done r.
Proof.
  apply (@parsing_packet_terminates zero_memory); [apply sample_body_ok|..];
    rewrite (proj2 sample_body_ok).
  - by_computation.
  - vm_compute. reflexivity.
  - rewrite Z2Nat.id by lia. vm_compute. reflexivity.
Defined.

(** C32: a packet whose first element is an AC IPv4 List or AC IPv6 List of a
    length that is not a whole number of addresses, below one address or above
    the bound of the guard, alone or inside a Vendor Specific Payload, makes
    the decoder loop for ever: no amount of fuel is enough. *)
Theorem address_list_loops_forever `{Indeterminate} fuel rx t1 t0 l1 l0 value :
  readpos_ok (rx_readbodypos rx) ->
  pending (rx_readbodypos rx) = t1 :: t0 :: l1 :: l0 :: value ->
  bytes_ok (t1 :: t0 :: l1 :: l0 :: value) ->
  stuck_payload (val16 t1 t0) (val16 l1 l0) value = true ->
  val16 l1 l0 <= wrap16 (cm_length (rx_ctrlmsg rx) - CAPWAP_CONTROL_MESSAGE_MIN_LENGTH) ->
  capwap_parsing_packet fuel rx = Looping.
Proof.
  intros Hok Hp Hb Hst Hlen. pose proof (parsing_packet_refines fuel rx Hok) as Href.
  rewrite Hp, parsing_loop_stuck in Href by done.
  by destruct (capwap_parsing_packet fuel rx) as [[? ?]| |].
Qed.

(** An AC IPv4 List of three bytes. *)
Definition sample_stuck : list Z := [0; 2; 0; 3; 10; 0; 0].

Lemma address_list_loops_forever_witness :
  @capwap_parsing_packet zero_memory 1000 (sample_received sample_stuck) = Looping.
Proof.
  apply (@address_list_loops_forever zero_memory 1000 (sample_received sample_stuck) 0 2 0 3 [10; 0; 0]).
  - apply sample_received_ok. by_computation.
  - apply sample_received_ok. by_computation.
  - by_computation.
  - vm_compute. reflexivity.
  - by_computation.
Defined.

(** C6: whatever the packet, the elements the decoder hands out are well typed:
    each id occurs once, the data under an id are values of the kind the
    tables give for it, there is at least one, and just one for an element
    that may occur once. *)
Theorem parsed_messages_well_typed `{Indeterminate} fuel rx code ms rx' :
  capwap_parsing_packet fuel rx = Done (code, ms, rx') -> messages_ok ms.
Proof. unfold capwap_parsing_packet. exact (parsing_loop_ok _ _ _ _ _ _ _ _ messages_ok_nil). Qed.

Lemma parsed_messages_well_typed_witness :
  @messages_ok zero_memory
    [ItemList (kind_id K_resultcode) 0 [existT K_resultcode {| ResultCode.code := 1 |}]].
Proof.
  eapply (@parsed_messages_well_typed zero_memory 9 (sample_received sample_body)).
  vm_compute. reflexivity.
Defined.

(** ** Validation and message types *)

(** C18: [capwap_validate_parsed_packet] accepts a message exactly when it
    satisfies the requirement of its type: of every group of elements one is
    present, those of the 802.11 binding too when it is in use, or the message
    carries an error Result Code where that is an excuse. *)
Theorem validate_iff_requirement messages type binding r :
  In (type, r) requirements ->
  capwap_validate_parsed_packet messages type binding = 0 <-> satisfies messages binding r.
Proof. apply validate_satisfies. Qed.

Lemma validate_iff_requirement_witness :
  capwap_validate_parsed_packet
    [ItemList (kind_id K_resultcode) 0 [existT K_resultcode {| ResultCode.code := 1 |}]]
    CAPWAP_CLEAR_CONFIGURATION_RESPONSE 1 = 0.
Proof.
  apply (validate_iff_requirement _ _ _ (any_of [K_resultcode])).
  - vm_compute. tauto.
  - left. split; [|intros _; constructor]. constructor; [|constructor]. by constructor.
Defined.

(** a Station Configuration Request is accepted when it adds a station,
    with its 802.11 data when that binding is in use, or else deletes one;
    message types without a requirement are all refused; and the only results
    are 0 and -1. *)
Lemma validate_other_types messages type binding :
  (capwap_validate_parsed_packet messages CAPWAP_STATION_CONFIGURATION_REQUEST binding = 0 <->
   (has messages K_addstation = true /\
    (binding = CAPWAP_WIRELESS_BINDING_IEEE80211 -> has messages K_80211_station = true)) \/
   (has messages K_addstation = false /\ has messages K_deletestation = true)) /\
  (type <> CAPWAP_STATION_CONFIGURATION_REQUEST -> ~ In type (map fst requirements) ->
   capwap_validate_parsed_packet messages type binding = -1) /\
  (capwap_validate_parsed_packet messages type binding = 0 \/
   capwap_validate_parsed_packet messages type binding = -1).
Proof.
  split; [|split].
  - unfold capwap_validate_parsed_packet.
    destruct (Z.eqb_spec binding CAPWAP_WIRELESS_BINDING_IEEE80211) as [Eb|Eb];
    cbv [CAPWAP_STATION_CONFIGURATION_REQUEST CAPWAP_DISCOVERY_REQUEST CAPWAP_DISCOVERY_RESPONSE
      CAPWAP_JOIN_REQUEST CAPWAP_JOIN_RESPONSE CAPWAP_CONFIGURATION_STATUS_REQUEST
      CAPWAP_CONFIGURATION_STATUS_RESPONSE CAPWAP_CONFIGURATION_UPDATE_REQUEST
      CAPWAP_CONFIGURATION_UPDATE_RESPONSE CAPWAP_WTP_EVENT_REQUEST CAPWAP_WTP_EVENT_RESPONSE
      CAPWAP_CHANGE_STATE_EVENT_REQUEST CAPWAP_CHANGE_STATE_EVENT_RESPONSE CAPWAP_ECHO_REQUEST
      CAPWAP_ECHO_RESPONSE CAPWAP_IMAGE_DATA_REQUEST CAPWAP_IMAGE_DATA_RESPONSE
      CAPWAP_RESET_REQUEST CAPWAP_RESET_RESPONSE CAPWAP_PRIMARY_DISCOVERY_REQUEST
      CAPWAP_PRIMARY_DISCOVERY_RESPONSE CAPWAP_DATA_TRANSFER_REQUEST CAPWAP_DATA_TRANSFER_RESPONSE
      CAPWAP_CLEAR_CONFIGURATION_REQUEST CAPWAP_CLEAR_CONFIGURATION_RESPONSE Z.eqb Pos.eqb];
    destruct (has messages K_addstation), (has messages K_80211_station),
      (has messages K_deletestation); cbn; intuition congruence.
  - intros Hs Hin. unfold capwap_validate_parsed_packet. cbn [map fst requirements In] in Hin.
    repeat match goal with |- context [type =? ?t] =>
      destruct (Z.eqb_spec type t) as [->|];
      [first [done | congruence | exfalso; apply Hin; repeat first [left; reflexivity | right]]|]
    end.
    done.
  - unfold capwap_validate_parsed_packet. cbn zeta.
    repeat match goal with |- context [if type =? ?t then _ else _] => destruct (type =? t) end;
      try (left; reflexivity); try (right; reflexivity);
      repeat match goal with |- context [if ?b then 0 else -1] => destruct b end; auto;
      destruct (has messages K_addstation);
      repeat match goal with |- context [if ?b then 0 else -1] => destruct b end; auto.
Qed.

(** under an id of the tables the untyped data are of that kind, so the cast
    to a Result Code is sound: an error result is reported exactly when the
    message has a Result Code whose code is not one of success. *)
Lemma error_resultcode_iff `{Indeterminate} ms :
  messages_ok ms ->
  has_error_resultcode ms = true <->
  exists d, collected ms K_resultcode = [existT K_resultcode d] /\
    ResultCode.CAPWAP_RESULTCODE_OK (ResultCode.code d) = false.
Proof.
  intros [_ Hall]. unfold has_error_resultcode, collected, capwap_get_message_element_data.
  destruct (capwap_get_message_element ms (kind_id K_resultcode)) as [m|] eqn:E; cbn.
  2:{ split; [done|]. by intros (d & ? & _). }
  apply get_message_element_some in E as [Hin Hid]. rewrite Forall_forall in Hall.
  destruct (Hall m Hin) as (k & Hk & Hcat & Hkind & _ & Hs). rewrite Hid in Hk.
  injection Hk as <-. specialize (Hs Hcat).
  destruct (il_data m) as [|[k d] [|]]; [done| |done].
  apply Forall_cons in Hkind as [Hk _]. cbn in Hk. subst k. cbn.
  rewrite negb_true_iff. split; [intros; by exists d|]. intros (d' & Ed & Hd').
  apply (f_equal (fun l => match l with existT K_resultcode x :: _ => Some x | _ => None end)) in Ed.
  by injection Ed as <-.
Qed.

Lemma error_resultcode_iff_witness :
  has_error_resultcode
    [ItemList (kind_id K_resultcode) 0 [existT K_resultcode {| ResultCode.code := 1 |}]] = true.
Proof.
  apply (@error_resultcode_iff zero_memory).
  - split; [apply NoDup_singleton|]. constructor; [|constructor]. exists K_resultcode.
    split_and!; try done. by constructor.
  - by exists {| ResultCode.code := 1 |}.
Defined.

(** a message type is a request type exactly when it is an odd type of the
    protocol or of the 802.11 binding, so that [capwap_check_message_type],
    which calls an unknown odd type a request, is consistent with it. *)
Lemma request_types_are_odd type :
  capwap_is_request_type type =
    (CAPWAP_VALID_MESSAGE_TYPE type || CAPWAP_VALID_IEEE80211_MESSAGE_TYPE type) && Z.odd type.
Proof.
  destruct (CAPWAP_VALID_MESSAGE_TYPE type) eqn:E1.
  - unfold CAPWAP_VALID_MESSAGE_TYPE, CAPWAP_DISCOVERY_REQUEST,
      CAPWAP_STATION_CONFIGURATION_RESPONSE in E1. split_andb.
    assert (Ht : In type (map Z.of_nat (seq 1 26))).
    { apply in_map_iff. exists (Z.to_nat type). split; [lia|]. apply in_seq. lia. }
    cbn in Ht. repeat destruct Ht as [<-|Ht]; done.
  - destruct (CAPWAP_VALID_IEEE80211_MESSAGE_TYPE type) eqn:E2.
    + unfold CAPWAP_VALID_IEEE80211_MESSAGE_TYPE, CAPWAP_IEEE80211_WLAN_CONFIGURATION_REQUEST,
        CAPWAP_IEEE80211_WLAN_CONFIGURATION_RESPONSE in E2. split_andb.
      assert (type = 3398913 \/ type = 3398914) as [->| ->] by lia; done.
    + cbn. unfold capwap_is_request_type. unfold CAPWAP_VALID_MESSAGE_TYPE,
        CAPWAP_VALID_IEEE80211_MESSAGE_TYPE, CAPWAP_DISCOVERY_REQUEST,
        CAPWAP_STATION_CONFIGURATION_RESPONSE, CAPWAP_IEEE80211_WLAN_CONFIGURATION_REQUEST,
        CAPWAP_IEEE80211_WLAN_CONFIGURATION_RESPONSE in *.
      apply andb_false_iff in E1. apply andb_false_iff in E2. bools.
      repeat match goal with |- context [type =? ?t] => rewrite (proj2 (Z.eqb_neq type t)) end;
        try done; unfold CAPWAP_JOIN_REQUEST, CAPWAP_CONFIGURATION_STATUS_REQUEST,
          CAPWAP_CONFIGURATION_UPDATE_REQUEST, CAPWAP_WTP_EVENT_REQUEST,
          CAPWAP_CHANGE_STATE_EVENT_REQUEST, CAPWAP_ECHO_REQUEST, CAPWAP_IMAGE_DATA_REQUEST,
          CAPWAP_RESET_REQUEST, CAPWAP_PRIMARY_DISCOVERY_REQUEST, CAPWAP_DATA_TRANSFER_REQUEST,
          CAPWAP_CLEAR_CONFIGURATION_REQUEST, CAPWAP_STATION_CONFIGURATION_REQUEST; lia.
Qed.

(** [capwap_check_message_type] accepts the types of the protocol and, under
    the 802.11 binding, those of the binding, of a packet whose first fragment
    holds a control header; of the others it reports the odd ones as unknown
    requests. *)
Lemma check_message_type_correct rx packet l :
  rx_fragmentlist rx = packet :: l ->
  let payload := wrap16 (offset packet - GET_HLEN_HEADER (buffer packet) * 4) in
  let type := cm_type (rx_ctrlmsg rx) in
  let known := CAPWAP_VALID_MESSAGE_TYPE type = true \/
    (GET_WBID_HEADER (buffer packet) = CAPWAP_WIRELESS_BINDING_IEEE80211 /\
     CAPWAP_VALID_IEEE80211_MESSAGE_TYPE type = true) in
  (capwap_check_message_type rx = VALID_MESSAGE_TYPE <-> 8 <= payload /\ known) /\
  (capwap_check_message_type rx = INVALID_REQUEST_MESSAGE_TYPE <->
   8 <= payload /\ ~ known /\ Z.odd type = true).
Proof.
  intros El payload type known. unfold capwap_check_message_type, rx_header. rewrite El.
  fold payload type. unfold sizeof_capwap_control_message, VALID_MESSAGE_TYPE,
    INVALID_MESSAGE_TYPE, INVALID_REQUEST_MESSAGE_TYPE. rewrite Zmod_odd.
  destruct (Z.leb_spec 8 payload); [|intuition lia].
  destruct (CAPWAP_VALID_MESSAGE_TYPE type) eqn:E1; [unfold known; intuition congruence|].
  destruct (Z.eqb_spec (GET_WBID_HEADER (buffer packet)) CAPWAP_WIRELESS_BINDING_IEEE80211);
    destruct (CAPWAP_VALID_IEEE80211_MESSAGE_TYPE type) eqn:E2; cbn [andb];
    destruct (Z.odd type); cbn; unfold known; intuition congruence.
Qed.

Lemma check_message_type_correct_witness :
  capwap_check_message_type (sample_received sample_body) = VALID_MESSAGE_TYPE.
Proof.
  destruct (check_message_type_correct (sample_received sample_body)
    (capwap_packet_rxmng_create_fragment_item
       (take 8 blank_header ++ control_bytes (ControlMessage 13 7 11 0) sample_body)) []) as [H _].
  - vm_compute. reflexivity.
  - apply H. split; [by_computation|left; vm_compute; reflexivity].
Defined.

(** the comparison of sequence numbers is that of serial numbers modulo
    256: [s1] is smaller when [s2] is one to 127 steps ahead of it around the
    circle; in particular never both ways. *)
Lemma sequence_smaller_serial s1 s2 :
  is_u8 s1 -> is_u8 s2 ->
  (IS_SEQUENCE_SMALLER s1 s2 = true <-> 0 < (s2 - s1) mod 256 < 128) /\
  (IS_SEQUENCE_SMALLER s1 s2 = true -> IS_SEQUENCE_SMALLER s2 s1 = false).
Proof.
  intros H1 H2. unfold IS_SEQUENCE_SMALLER. 
  rewrite !orb_true_iff, !andb_true_iff, !Z.ltb_lt, !orb_false_iff, !andb_false_iff, !Z.ltb_ge.
  split; [|lia]. Z.div_mod_to_equations. lia.
Qed.

Lemma sequence_smaller_serial_witness :
  IS_SEQUENCE_SMALLER 250 3 = true /\ IS_SEQUENCE_SMALLER 3 250 = false.
Proof.
  destruct (sequence_smaller_serial 250 3) as [H1 H2]; [lia|lia|].
  assert (E : IS_SEQUENCE_SMALLER 250 3 = true) by (apply H1; vm_compute; split; reflexivity).
  split; [exact E|exact (H2 E)].
Defined.
