(* ===== verification/Ieee80211.v ===== *)
(** IEEE 802.11 management frames (src/common/binding/ieee80211/ieee80211.c).

    A pointer into a buffer is the string of bytes from there to the end of the
    buffer; a function that writes a frame gets the buffer and the position to
    write at.  [None] is an access outside a buffer or a failed assertion.
    Integers of 802.11 frames are little-endian. *)
From stdpp Require Import option.
From S2P Require Import Prelude Bitfield Io Header CapwapArray.
#[local] Open Scope Z_scope.

(** ** Constants *)

Definition ETH_ALEN : Z := 6.
Definition IEEE80211_RADIO_TYPE_80211G : Z := 4.
Definition IEEE80211_SUPPORTEDRATE_MAX_COUNT : Z := 16.
Definition IEEE80211_MTU : Z := 7981.

Definition IEEE80211_FRAMECONTROL_TYPE_MGMT : Z := 0.
Definition IEEE80211_FRAMECONTROL_TYPE_DATA : Z := 2.
Definition IEEE80211_FRAMECONTROL_MGMT_SUBTYPE_ASSOCIATION_REQUEST : Z := 0.
Definition IEEE80211_FRAMECONTROL_MGMT_SUBTYPE_ASSOCIATION_RESPONSE : Z := 1.
Definition IEEE80211_FRAMECONTROL_MGMT_SUBTYPE_REASSOCIATION_REQUEST : Z := 2.
Definition IEEE80211_FRAMECONTROL_MGMT_SUBTYPE_REASSOCIATION_RESPONSE : Z := 3.
Definition IEEE80211_FRAMECONTROL_MGMT_SUBTYPE_PROBE_REQUEST : Z := 4.
Definition IEEE80211_FRAMECONTROL_MGMT_SUBTYPE_PROBE_RESPONSE : Z := 5.
Definition IEEE80211_FRAMECONTROL_MGMT_SUBTYPE_BEACON : Z := 8.
Definition IEEE80211_FRAMECONTROL_MGMT_SUBTYPE_DISASSOCIATION : Z := 10.
Definition IEEE80211_FRAMECONTROL_MGMT_SUBTYPE_AUTHENTICATION : Z := 11.
Definition IEEE80211_FRAMECONTROL_MGMT_SUBTYPE_DEAUTHENTICATION : Z := 12.

Definition IEEE80211_FRAME_CONTROL_MASK_TYPE : Z := 12.
Definition IEEE80211_FRAME_CONTROL_MASK_SUBTYPE : Z := 240.
Definition IEEE80211_FRAME_CONTROL_MASK_TODS : Z := 256.
Definition IEEE80211_FRAME_CONTROL_MASK_FROMDS : Z := 512.

Definition IEEE80211_IE_SSID : Z := 0.
Definition IEEE80211_IE_SSID_MAX_LENGTH : Z := 32.
Definition IEEE80211_IE_SUPPORTED_RATES : Z := 1.
Definition IEEE80211_IE_SUPPORTED_RATES_MIN_LENGTH : Z := 1.
Definition IEEE80211_IE_SUPPORTED_RATES_MAX_LENGTH : Z := 8.
Definition IEEE80211_IE_DSSS : Z := 3.
Definition IEEE80211_IE_DSSS_LENGTH : Z := 1.
Definition IEEE80211_IE_COUNTRY : Z := 7.
Definition IEEE80211_IE_COUNTRY_MIN_LENGTH : Z := 6.
Definition IEEE80211_IE_CHALLENGE_TEXT : Z := 16.
Definition IEEE80211_IE_CHALLENGE_TEXT_MIN_LENGTH : Z := 3.
Definition IEEE80211_IE_ERP : Z := 42.
Definition IEEE80211_IE_ERP_LENGTH : Z := 1.
Definition IEEE80211_IE_EXTENDED_SUPPORTED_RATES : Z := 50.
Definition IEEE80211_IE_EXTENDED_SUPPORTED_MIN_LENGTH : Z := 1.
Definition IEEE80211_IE_EDCA_PARAMETER_SET : Z := 12.
Definition IEEE80211_IE_EDCA_PARAMETER_SET_LENGTH : Z := 18.
Definition IEEE80211_IE_QOS_CAPABILITY : Z := 46.
Definition IEEE80211_IE_QOS_CAPABILITY_LENGTH : Z := 1.
Definition IEEE80211_IE_POWER_CONSTRAINT : Z := 32.
Definition IEEE80211_IE_POWER_CONSTRAINT_LENGTH : Z := 1.
Definition IEEE80211_IE_SSID_LIST : Z := 84.
Definition IEEE80211_IE_VENDOR_SPECIFIC : Z := 221.
Definition MICROSOFT_OUI : Z := 20722.
Definition WMM_TYPE : Z := 2.
Definition WMM_INFORMATION_ELEMENT : Z := 0.

Definition IEEE80211_AID_MAX_VALUE : Z := 2007.
Definition IEEE80211_AID_BITFIELD_SIZE : Z := 63.
Definition IEEE80211_ERP_INFO_NON_ERP_PRESENT : Z := 1.
Definition IEEE80211_ERP_INFO_USE_PROTECTION : Z := 2.
Definition IEEE80211_ERP_INFO_BARKER_PREAMBLE_MODE : Z := 4.
Definition IEEE80221_CREATE_BEACON_FLAGS_PROBE_RESPONSE_OFFLOAD : Z := 1.

Definition IEEE80211_VALID_SSID : Z := 1.
Definition IEEE80211_WILDCARD_SSID : Z := 0.
Definition IEEE80211_WRONG_SSID : Z := -1.

(** [__cpu_to_le16] and [__le16_to_cpu], as bytes. *)
Definition le16 (x : Z) : list Z := [wrap8 x; wrap8 (x / 256)].
Definition le16_at (pos : Z) (b : list Z) : Z :=
  byte_at b pos + 256 * byte_at b (pos + 1).

(** ** Writing information elements

    Each returns the number of bytes, or -1, and the buffer. *)

Definition ieee80211_ie_set_ssid (buffer : list Z) (pos : Z) (ssid : list Z) (hidessid : bool)
    : option (Z * list Z) :=
  if hidessid then b ← Array.store pos [IEEE80211_IE_SSID; 0] buffer; Some (2, b)
  else
    let len := wrap8 (Z.of_nat (strlen ssid)) in
    b ← Array.store pos [IEEE80211_IE_SSID; len] buffer;
    if IEEE80211_IE_SSID_MAX_LENGTH <? len then Some (-1, b) else
    b ← Array.store (pos + 2) (take (Z.to_nat len) ssid) b;
    Some (2 + len, b).

Definition ieee80211_ie_set_supportedrates (buffer : list Z) (pos : Z) (supportedrates : list Z)
    (supportedratescount : Z) : option (Z * list Z) :=
  if negb (0 <? supportedratescount) then None else
  let count := if 8 <? supportedratescount then 8 else supportedratescount in
  b ← Array.store pos [IEEE80211_IE_SUPPORTED_RATES; count] buffer;
  rates ← Array.fetch count supportedrates;
  b ← Array.store (pos + 2) rates b;
  Some (2 + count, b).

Definition ieee80211_ie_set_extendedsupportedrates (buffer : list Z) (pos : Z)
    (supportedrates : list Z) (supportedratescount : Z) : option (Z * list Z) :=
  if supportedratescount <=? IEEE80211_IE_SUPPORTED_RATES_MAX_LENGTH then Some (0, buffer) else
  let len := wrap8 (supportedratescount - IEEE80211_IE_SUPPORTED_RATES_MAX_LENGTH) in
  b ← Array.store pos [IEEE80211_IE_EXTENDED_SUPPORTED_RATES; len] buffer;
  rates ← Array.fetch supportedratescount supportedrates;
  b ← Array.store (pos + 2) (drop (Z.to_nat IEEE80211_IE_SUPPORTED_RATES_MAX_LENGTH) rates) b;
  Some (2 + len, b).

Definition ieee80211_ie_set_dsss (buffer : list Z) (pos channel : Z) : option (Z * list Z) :=
  b ← Array.store pos [IEEE80211_IE_DSSS; IEEE80211_IE_DSSS_LENGTH; channel] buffer;
  Some (3, b).

Definition ieee80211_ie_set_erp (buffer : list Z) (pos mode erpinfo : Z) : option (Z * list Z) :=
  if Z.land mode IEEE80211_RADIO_TYPE_80211G =? 0 then Some (0, buffer) else
  b ← Array.store pos [IEEE80211_IE_ERP; IEEE80211_IE_ERP_LENGTH; erpinfo] buffer;
  Some (3, b).

(** ** Reading information elements *)

Record ieee80211_ie_items := IeItems {
  ssid : option (list Z);
  supported_rates : option (list Z);
  dsss : option (list Z);
  country : option (list Z);
  challenge_text : option (list Z);
  erp : option (list Z);
  extended_supported_rates : option (list Z);
  edca_parameter_set : option (list Z);
  qos_capability : option (list Z);
  power_constraint : option (list Z);
  ssid_list : option (list Z);
  wmm_ie : option (list Z);
  ht_cap : option (list Z);
  ht_oper : option (list Z)
}.

Definition no_items : ieee80211_ie_items :=
  IeItems None None None None None None None None None None None None None None.

(** The three tests on a vendor-specific element, each made only when those
    before it hold. *)
Definition is_wmm_information (data : list Z) : option bool :=
  o0 ← data !! 2%nat; o1 ← data !! 3%nat; o2 ← data !! 4%nat;
  if negb (Z.lor (Z.lor (Z.shiftl o0 16) (Z.shiftl o1 8)) o2 =? MICROSOFT_OUI) then Some false else
  oui_type ← data !! 5%nat;
  if negb (oui_type =? WMM_TYPE) then Some false else
  oui_subtype ← data !! 6%nat;
  Some (oui_subtype =? WMM_INFORMATION_ELEMENT).

(** One turn of the [switch]; the inner [None] is the return of -1. *)
Definition ie_item (id len : Z) (data : list Z) (i : ieee80211_ie_items)
    : option (option ieee80211_ie_items) :=
  let '(IeItems s sr d c ct e x ed q p l w hc ho) := i in
  if id =? IEEE80211_IE_SSID then
    Some (if IEEE80211_IE_SSID_MAX_LENGTH <? len then None
          else Some (IeItems (Some data) sr d c ct e x ed q p l w hc ho))
  else if id =? IEEE80211_IE_SUPPORTED_RATES then
    Some (if (len <? IEEE80211_IE_SUPPORTED_RATES_MIN_LENGTH) ||
             (IEEE80211_IE_SUPPORTED_RATES_MAX_LENGTH <? len) then None
          else Some (IeItems s (Some data) d c ct e x ed q p l w hc ho))
  else if id =? IEEE80211_IE_DSSS then
    Some (if negb (len =? IEEE80211_IE_DSSS_LENGTH) then None
          else Some (IeItems s sr (Some data) c ct e x ed q p l w hc ho))
  else if id =? IEEE80211_IE_COUNTRY then
    Some (if len <? IEEE80211_IE_COUNTRY_MIN_LENGTH then None
          else Some (IeItems s sr d (Some data) ct e x ed q p l w hc ho))
  else if id =? IEEE80211_IE_CHALLENGE_TEXT then
    Some (if len <? IEEE80211_IE_CHALLENGE_TEXT_MIN_LENGTH then None
          else Some (IeItems s sr d c (Some data) e x ed q p l w hc ho))
  else if id =? IEEE80211_IE_ERP then
    Some (if negb (len =? IEEE80211_IE_ERP_LENGTH) then None
          else Some (IeItems s sr d c ct (Some data) x ed q p l w hc ho))
  else if id =? IEEE80211_IE_EXTENDED_SUPPORTED_RATES then
    Some (if len <? IEEE80211_IE_EXTENDED_SUPPORTED_MIN_LENGTH then None
          else Some (IeItems s sr d c ct e (Some data) ed q p l w hc ho))
  else if id =? IEEE80211_IE_EDCA_PARAMETER_SET then
    Some (if negb (len =? IEEE80211_IE_EDCA_PARAMETER_SET_LENGTH) then None
          else Some (IeItems s sr d c ct e x (Some data) q p l w hc ho))
  else if id =? IEEE80211_IE_QOS_CAPABILITY then
    Some (if negb (len =? IEEE80211_IE_QOS_CAPABILITY_LENGTH) then None
          else Some (IeItems s sr d c ct e x ed (Some data) p l w hc ho))
  else if id =? IEEE80211_IE_POWER_CONSTRAINT then
    Some (if negb (len =? IEEE80211_IE_POWER_CONSTRAINT_LENGTH) then None
          else Some (IeItems s sr d c ct e x ed q (Some data) l w hc ho))
  else if id =? IEEE80211_IE_SSID_LIST then
    Some (Some (IeItems s sr d c ct e x ed q p (Some data) w hc ho))
  else if id =? IEEE80211_IE_VENDOR_SPECIFIC then
    wmm ← is_wmm_information data;
    Some (Some (if (wmm : bool) then IeItems s sr d c ct e x ed q p l (Some data) hc ho else i))
  else Some (Some i).

(** The loop over the elements, with the value returned. *)
Fixpoint ie_loop (fuel : nat) (items : ieee80211_ie_items) (data : list Z) (length : Z)
    : option (Z * ieee80211_ie_items) :=
  if length <? 2 then Some (if length =? 0 then 0 else -1, items) else
  match fuel with
  | O => None
  | S fuel =>
      id ← data !! 0%nat; len ← data !! 1%nat;
      r ← ie_item id len data items;
      match r with
      | None => Some (-1, items)
      | Some items => ie_loop fuel items (drop (Z.to_nat (2 + len)) data) (length - (2 + len))
      end
  end.

(** Each turn takes at least two bytes. *)
Definition ieee80211_retrieve_information_elements_position (data : list Z) (length : Z)
    : option (Z * ieee80211_ie_items) :=
  ie_loop (Z.to_nat length) no_items data length.

(** ** Association identifiers *)

(** The search for a free identifier, from word [i] on: the identifier and the
    words, or [None] for a return of -1. *)
Fixpoint aid_search (i : Z) (words : list Z) : option (Z * list Z) :=
  match words with
  | [] => None
  | w :: words =>
      if w =? 4294967295 then '(aid, words) ← aid_search (i + 1) words; Some (aid, w :: words)
      else
        j ← free_bit 32 0 w;
        let aid := wrap16 (i * 32 + j + 1) in
        if aid <=? IEEE80211_AID_MAX_VALUE then Some (aid, Z.lor w (Z.shiftl 1 j) :: words) else None
  end.

(** The value returned, the identifier, and the bit field. *)
Definition ieee80211_aid_create (aidbitfield : list Z) : Z * Z * list Z :=
  match aid_search 0 aidbitfield with
  | Some (aid, words) => (0, aid, words)
  | None => (-1, 0, aidbitfield)
  end.

Definition ieee80211_aid_free (aidbitfield : list Z) (aid : Z) : option (list Z) :=
  if (0 <? aid) && (aid <=? IEEE80211_AID_MAX_VALUE) then clear_bit aid aidbitfield else None.

(** ** Channels and addresses *)

Definition ieee80211_frequency_to_channel (freq : Z) : Z :=
  if (2412 <=? freq) && (freq <=? 2472) then (freq - 2407) / 5
  else if freq =? 2484 then 14
  else if (4915 <=? freq) && (freq <=? 4980) then (freq - 4000) / 5
  else if (5035 <=? freq) && (freq <=? 5825) then (freq - 5000) / 5
  else 0.

Definition ieee80211_is_broadcast_addr (addr : list Z) : bool :=
  forallb (fun i => byte_at addr i =? 255) [0; 1; 2; 3; 4; 5].

Definition IEEE80211_FRAME_CONTROL (type stype : Z) : list Z :=
  le16 (Z.lor (Z.shiftl type 2) (Z.shiftl stype 4)).
Definition IEEE80211_FRAME_CONTROL_GET_TYPE (framecontrol : Z) : Z :=
  Z.shiftr (Z.land framecontrol IEEE80211_FRAME_CONTROL_MASK_TYPE) 2.
Definition IEEE80211_FRAME_CONTROL_GET_SUBTYPE (framecontrol : Z) : Z :=
  Z.shiftr (Z.land framecontrol IEEE80211_FRAME_CONTROL_MASK_SUBTYPE) 4.

(** The fields of [struct ieee80211_header]. *)
Definition framecontrol (h : list Z) : Z := le16_at 0 h.
Definition address1 (h : list Z) : list Z := slice 4 6 h.
Definition address2 (h : list Z) : list Z := slice 10 6 h.
Definition address3 (h : list Z) : list Z := slice 16 6 h.
Definition sizeof_ieee80211_header : Z := 24.

(** The choice the three accessors share: by the type of the frame and the two
    bits that tell its direction; [None] is NULL. *)
Definition select_addr (h mgmt ibss tods fromds : list Z) : option (list Z) :=
  let fc := framecontrol h in
  let type := IEEE80211_FRAME_CONTROL_GET_TYPE fc in
  if type =? IEEE80211_FRAMECONTROL_TYPE_MGMT then Some mgmt
  else if type =? IEEE80211_FRAMECONTROL_TYPE_DATA then
    let ds := Z.land fc (Z.lor IEEE80211_FRAME_CONTROL_MASK_TODS IEEE80211_FRAME_CONTROL_MASK_FROMDS) in
    if ds =? 0 then Some ibss
    else if ds =? IEEE80211_FRAME_CONTROL_MASK_TODS then Some tods
    else if ds =? IEEE80211_FRAME_CONTROL_MASK_FROMDS then Some fromds
    else None
  else None.

Definition ieee80211_get_sa_addr (h : list Z) : option (list Z) :=
  select_addr h (address2 h) (address2 h) (address2 h) (address3 h).
Definition ieee80211_get_da_addr (h : list Z) : option (list Z) :=
  select_addr h (address1 h) (address1 h) (address3 h) (address1 h).
Definition ieee80211_get_bssid_addr (h : list Z) : option (list Z) :=
  select_addr h (address3 h) (address3 h) (address1 h) (address2 h).

(** ** Names of networks *)

(** [!memcmp(s, p, n)]; [None] when either is shorter. *)
Definition equal_bytes (n : Z) (s p : list Z) : option bool :=
  a ← Array.fetch n s; b ← Array.fetch n p; Some (bool_decide (a = b)).

(** [ssidlength == len && !memcmp(ssid, pos, ssidlength)]. *)
Definition same_ssid (ssid : list Z) (len : Z) (pos : list Z) : option bool :=
  let ssidlength := Z.of_nat (strlen ssid) in
  if ssidlength =? len then equal_bytes ssidlength ssid pos else Some false.

(** The walk over the list of names: the name is in it. *)
Fixpoint ssid_listed (fuel : nat) (name : list Z) (pos : list Z) (length : Z) : option bool :=
  if length <? 2 then Some false else
  match fuel with
  | O => None
  | S fuel =>
      id ← pos !! 0%nat; len ← pos !! 1%nat;
      let length := length - 2 in
      if negb (id =? IEEE80211_IE_SSID) || (len =? 0) || (length <? len) then Some false else
      b ← same_ssid name len (drop 2 pos);
      if (b : bool) then Some true
      else ssid_listed fuel name (drop (Z.to_nat (2 + len)) pos) (length - len)
  end.

Definition ieee80211_is_valid_ssid (name : list Z) (iessid isssidlist : option (list Z)) : option Z :=
  match iessid with
  | None => Some IEEE80211_WRONG_SSID
  | Some iessid =>
      len ← iessid !! 1%nat;
      b ← same_ssid name len (drop 2 iessid);
      if (b : bool) then Some IEEE80211_VALID_SSID else
      b ← match isssidlist with
          | None => Some false
          | Some l => n ← l !! 1%nat; ssid_listed (Z.to_nat n) name (drop 2 l) n
          end;
      Some (if (b : bool) then IEEE80211_VALID_SSID
            else if len =? 0 then IEEE80211_WILDCARD_SSID else IEEE80211_WRONG_SSID)
  end.

Definition ieee80211_get_erpinfo (mode : Z) (olbc : bool) (stationnonerpcount stationnoshortpreamblecount : Z)
    (shortpreamble : bool) : Z :=
  if Z.land mode IEEE80211_RADIO_TYPE_80211G =? 0 then 0 else
  let result := if olbc then IEEE80211_ERP_INFO_USE_PROTECTION else 0 in
  let result :=
    if 0 <? stationnonerpcount
    then Z.lor result (Z.lor IEEE80211_ERP_INFO_NON_ERP_PRESENT IEEE80211_ERP_INFO_USE_PROTECTION)
    else result in
  if negb shortpreamble || (0 <? stationnoshortpreamblecount)
  then Z.lor result IEEE80211_ERP_INFO_BARKER_PREAMBLE_MODE else result.
