(* ===== verification/Ieee80211Frame.v ===== *)
(** The management frames the controller and the radios send
    (src/common/binding/ieee80211/ieee80211.c, [ieee80211_create_*]).

    A frame is written into a buffer from a position on; the result is the
    value returned with the buffer.  As in the source, the size of the buffer is
    not consulted: a write past its end is [None]. *)
From stdpp Require Import option.
From S2P Require Import Prelude Io Header CapwapArray Ieee80211.
#[local] Open Scope Z_scope.

(** The common part of [struct ieee80211_header_mgmt], then [body], the fixed
    fields of the subtype. *)
Definition mgmt_header (subtype : Z) (da sa bssid body : list Z) : list Z :=
  IEEE80211_FRAME_CONTROL IEEE80211_FRAMECONTROL_TYPE_MGMT subtype ++ le16 0 ++
  take 6 da ++ take 6 sa ++ take 6 bssid ++ le16 0 ++ body.

(** An information element written at [pos]: the code after it runs with the
    new position, or the function returns -1. *)
Definition add_ie (f : list Z -> Z -> option (Z * list Z)) (buffer : list Z) (pos : Z)
    {A} (fail : list Z -> A) (k : list Z -> Z -> option A) : option A :=
  '(result, buffer) ← f buffer pos;
  if result <? 0 then Some (fail buffer) else k buffer (pos + result).

(** Elements given as they are: [n] bytes of [ies], when [n] is not 0. *)
Definition add_ies (n : Z) (ies buffer : list Z) (pos : Z) : option (list Z) :=
  if n =? 0 then Some buffer else bs ← Array.fetch n ies; Array.store pos bs buffer.

(** ** Probe response *)

Record ieee80211_probe_response_params := ProbeParams {
  pr_bssid : list Z;
  pr_station : list Z;
  pr_beaconperiod : Z;
  pr_capability : Z;
  pr_ssid : list Z;
  pr_supportedratescount : Z;
  pr_supportedrates : list Z;
  pr_channel : Z;
  pr_mode : Z;
  pr_erpinfo : Z;
  pr_response_ies_len : Z;
  pr_response_ies : list Z
}.

(** The fixed fields of beacons and probe responses. *)
Definition beacon_body (beaconperiod capability : Z) : list Z :=
  zeros 8 ++ le16 beaconperiod ++ le16 capability.

Definition ieee80211_create_probe_response (buffer : list Z) (start : Z)
    (p : ieee80211_probe_response_params) : option (Z * list Z) :=
  let header := mgmt_header IEEE80211_FRAMECONTROL_MGMT_SUBTYPE_PROBE_RESPONSE
                  (pr_station p) (pr_bssid p) (pr_bssid p)
                  (beacon_body (pr_beaconperiod p) (pr_capability p)) in
  buffer ← Array.store start header buffer;
  let fail b := (-1, b) in
  add_ie (fun b pos => ieee80211_ie_set_ssid b pos (pr_ssid p) false) buffer (start + 36) fail
    (fun buffer pos =>
  add_ie (fun b pos => ieee80211_ie_set_supportedrates b pos (pr_supportedrates p)
                         (pr_supportedratescount p)) buffer pos fail (fun buffer pos =>
  add_ie (fun b pos => ieee80211_ie_set_dsss b pos (pr_channel p)) buffer pos fail
    (fun buffer pos =>
  add_ie (fun b pos => ieee80211_ie_set_erp b pos (pr_mode p) (pr_erpinfo p)) buffer pos fail
    (fun buffer pos =>
  add_ie (fun b pos => ieee80211_ie_set_extendedsupportedrates b pos (pr_supportedrates p)
                         (pr_supportedratescount p)) buffer pos fail (fun buffer pos =>
  buffer ← add_ies (pr_response_ies_len p) (pr_response_ies p) buffer pos;
  Some (pos + pr_response_ies_len p - start, buffer)))))).

(** ** Beacon *)

Record ieee80211_beacon_params := BeaconParams {
  bp_flags : Z;
  headbeacon : Z;
  headbeaconlength : Z;
  tailbeacon : Z;
  tailbeaconlength : Z;
  bp_bssid : list Z;
  bp_beaconperiod : Z;
  bp_capability : Z;
  bp_ssid : list Z;
  ssid_hidden : bool;
  bp_supportedratescount : Z;
  bp_supportedrates : list Z;
  bp_channel : Z;
  bp_mode : Z;
  bp_erpinfo : Z;
  beacon_ies_len : Z;
  beacon_ies : list Z;
  bp_response_ies_len : Z;
  bp_response_ies : list Z;
  proberesponseoffload : Z;
  proberesponseoffloadlength : Z
}.

(** The fields the function fills in; pointers are positions in the buffer. *)
Definition set_head (length : Z) (p : ieee80211_beacon_params) : ieee80211_beacon_params :=
  BeaconParams (bp_flags p) 0 length (tailbeacon p) (tailbeaconlength p) (bp_bssid p)
    (bp_beaconperiod p) (bp_capability p) (bp_ssid p) (ssid_hidden p) (bp_supportedratescount p)
    (bp_supportedrates p) (bp_channel p) (bp_mode p) (bp_erpinfo p) (beacon_ies_len p) (beacon_ies p)
    (bp_response_ies_len p) (bp_response_ies p) (proberesponseoffload p) (proberesponseoffloadlength p).
Definition set_tail (pos length : Z) (p : ieee80211_beacon_params) : ieee80211_beacon_params :=
  BeaconParams (bp_flags p) (headbeacon p) (headbeaconlength p) pos length (bp_bssid p)
    (bp_beaconperiod p) (bp_capability p) (bp_ssid p) (ssid_hidden p) (bp_supportedratescount p)
    (bp_supportedrates p) (bp_channel p) (bp_mode p) (bp_erpinfo p) (beacon_ies_len p) (beacon_ies p)
    (bp_response_ies_len p) (bp_response_ies p) (proberesponseoffload p) (proberesponseoffloadlength p).
Definition set_offload (pos length : Z) (p : ieee80211_beacon_params) : ieee80211_beacon_params :=
  BeaconParams (bp_flags p) (headbeacon p) (headbeaconlength p) (tailbeacon p) (tailbeaconlength p)
    (bp_bssid p) (bp_beaconperiod p) (bp_capability p) (bp_ssid p) (ssid_hidden p)
    (bp_supportedratescount p) (bp_supportedrates p) (bp_channel p) (bp_mode p) (bp_erpinfo p)
    (beacon_ies_len p) (beacon_ies p) (bp_response_ies_len p) (bp_response_ies p) pos length.

(** The parameters of the offloaded probe response: no station, no elements of
    its own; [memcpy] of the rates within the two arrays of 16 bytes. *)
Definition offload_params (p : ieee80211_beacon_params) : option ieee80211_probe_response_params :=
  rates ← Array.fetch (bp_supportedratescount p) (bp_supportedrates p);
  rates ← Array.store 0 rates (zeros IEEE80211_SUPPORTEDRATE_MAX_COUNT);
  Some (ProbeParams (bp_bssid p) (zeros 6) (bp_beaconperiod p) (bp_capability p) (bp_ssid p)
    (bp_supportedratescount p) rates (bp_channel p) (bp_mode p) (bp_erpinfo p) 0 []).

(** The probe response that follows the beacon in the buffer. *)
Definition offload_probe_response (buffer : list Z) (pos : Z) (p : ieee80211_beacon_params)
    : option (Z * list Z * ieee80211_beacon_params) :=
  pr ← offload_params p;
  '(length, buffer) ← ieee80211_create_probe_response buffer pos pr;
  if length <? 0 then Some (-1, buffer, set_offload pos length p) else
  buffer ← add_ies (bp_response_ies_len p) (bp_response_ies p) buffer (pos + length);
  Some (pos + length + bp_response_ies_len p, buffer,
        set_offload pos (length + bp_response_ies_len p) p).

Definition ieee80211_create_beacon (buffer : list Z) (p : ieee80211_beacon_params)
    : option (Z * list Z * ieee80211_beacon_params) :=
  let header := mgmt_header IEEE80211_FRAMECONTROL_MGMT_SUBTYPE_BEACON
                  (replicate 6 255) (bp_bssid p) (bp_bssid p)
                  (beacon_body (bp_beaconperiod p) (bp_capability p)) in
  buffer ← Array.store 0 header buffer;
  let fail p b := (-1, b, p) in
  let p := set_head 36 p in
  add_ie (fun b pos => ieee80211_ie_set_ssid b pos (bp_ssid p) (ssid_hidden p)) buffer 36 (fail p)
    (fun buffer pos => let p := set_head pos p in
  add_ie (fun b pos => ieee80211_ie_set_supportedrates b pos (bp_supportedrates p)
                         (bp_supportedratescount p)) buffer pos (fail p) (fun buffer pos =>
  let p := set_head pos p in
  add_ie (fun b pos => ieee80211_ie_set_dsss b pos (bp_channel p)) buffer pos (fail p)
    (fun buffer pos =>
  let p := set_head pos p in
  let tail := pos in
  let p := set_tail tail 0 p in
  add_ie (fun b pos => ieee80211_ie_set_erp b pos (bp_mode p) (bp_erpinfo p)) buffer pos (fail p)
    (fun buffer pos => let p := set_tail tail (pos - tail) p in
  add_ie (fun b pos => ieee80211_ie_set_extendedsupportedrates b pos (bp_supportedrates p)
                         (bp_supportedratescount p)) buffer pos (fail p) (fun buffer pos =>
  buffer ← add_ies (beacon_ies_len p) (beacon_ies p) buffer pos;
  let pos := pos + beacon_ies_len p in
  let p := set_tail tail (pos - tail) p in
  if Z.land (bp_flags p) IEEE80221_CREATE_BEACON_FLAGS_PROBE_RESPONSE_OFFLOAD =? 0
  then Some (pos, buffer, p)
  else offload_probe_response buffer pos p))))).

(** ** The other frames *)

Record ieee80211_authentication_params := AuthParams {
  au_bssid : list Z;
  au_station : list Z;
  algorithm : Z;
  transactionseqnumber : Z;
  au_statuscode : Z
}.

Definition ieee80211_create_authentication_response (buffer : list Z)
    (p : ieee80211_authentication_params) : option (Z * list Z) :=
  let header := mgmt_header IEEE80211_FRAMECONTROL_MGMT_SUBTYPE_AUTHENTICATION
                  (au_station p) (au_bssid p) (au_bssid p)
                  (le16 (algorithm p) ++ le16 (transactionseqnumber p) ++ le16 (au_statuscode p)) in
  buffer ← Array.store 0 header buffer;
  Some (30, buffer).

Record ieee80211_associationresponse_params := AssocParams {
  ar_bssid : list Z;
  ar_station : list Z;
  ar_capability : Z;
  ar_statuscode : Z;
  ar_aid : Z;
  ar_supportedratescount : Z;
  ar_supportedrates : list Z;
  ar_response_ies_len : Z;
  ar_response_ies : list Z
}.

Definition ieee80211_create_associationresponse_response (buffer : list Z)
    (p : ieee80211_associationresponse_params) : option (Z * list Z) :=
  let header := mgmt_header IEEE80211_FRAMECONTROL_MGMT_SUBTYPE_ASSOCIATION_RESPONSE
                  (ar_station p) (ar_bssid p) (ar_bssid p)
                  (le16 (ar_capability p) ++ le16 (ar_statuscode p) ++ le16 (ar_aid p)) in
  buffer ← Array.store 0 header buffer;
  let fail b := (-1, b) in
  add_ie (fun b pos => ieee80211_ie_set_supportedrates b pos (ar_supportedrates p)
                         (ar_supportedratescount p)) buffer 30 fail (fun buffer pos =>
  add_ie (fun b pos => ieee80211_ie_set_extendedsupportedrates b pos (ar_supportedrates p)
                         (ar_supportedratescount p)) buffer pos fail (fun buffer pos =>
  buffer ← add_ies (ar_response_ies_len p) (ar_response_ies p) buffer pos;
  Some (pos + ar_response_ies_len p, buffer))).

Record ieee80211_deauthentication_params := DeauthParams {
  de_bssid : list Z;
  de_station : list Z;
  de_reasoncode : Z
}.

Definition ieee80211_create_deauthentication (buffer : list Z)
    (p : ieee80211_deauthentication_params) : option (Z * list Z) :=
  let header := mgmt_header IEEE80211_FRAMECONTROL_MGMT_SUBTYPE_DEAUTHENTICATION
                  (de_station p) (de_bssid p) (de_bssid p) (le16 (de_reasoncode p)) in
  buffer ← Array.store 0 header buffer;
  Some (26, buffer).

Record ieee80211_disassociation_params := DisassocParams {
  di_bssid : list Z;
  di_station : list Z;
  di_reasoncode : Z
}.

Definition ieee80211_create_disassociation (buffer : list Z)
    (p : ieee80211_disassociation_params) : option (Z * list Z) :=
  let header := mgmt_header IEEE80211_FRAMECONTROL_MGMT_SUBTYPE_DISASSOCIATION
                  (di_station p) (di_bssid p) (di_bssid p) (le16 (di_reasoncode p)) in
  buffer ← Array.store 0 header buffer;
  Some (26, buffer).
