(* ===== verification/Ieee80211Spec.v ===== *)
(** Lemmas about information elements, association identifiers and network
    names: what the readers of [Ieee80211] compute, on sequences of elements. *)
From stdpp Require Import option.
From S2P Require Import Prelude Bitfield Io Header CapwapArray Ieee80211.
#[local] Open Scope Z_scope.


(** ** Elements *)

Record ie := Ie { ie_id : Z; ie_value : list Z }.

Definition ie_bytes (e : ie) : list Z := ie_id e :: zlen (ie_value e) :: ie_value e.
Definition ies_bytes (es : list ie) : list Z := mjoin (ie_bytes <$> es).

(** An element that has an encoding. *)
Definition ie_wf (e : ie) : Prop := is_u8 (ie_id e) /\ bytes_ok (ie_value e) /\ zlen (ie_value e) < 256.

(** The lengths 802.11 allows for the elements the reader knows. *)
Definition ie_lengths : list (Z * (Z * Z)) :=
  [(IEEE80211_IE_SSID, (0, 32)); (IEEE80211_IE_SUPPORTED_RATES, (1, 8)); (IEEE80211_IE_DSSS, (1, 1));
   (IEEE80211_IE_COUNTRY, (6, 255)); (IEEE80211_IE_CHALLENGE_TEXT, (3, 255)); (IEEE80211_IE_ERP, (1, 1));
   (IEEE80211_IE_EXTENDED_SUPPORTED_RATES, (1, 255)); (IEEE80211_IE_EDCA_PARAMETER_SET, (18, 18));
   (IEEE80211_IE_QOS_CAPABILITY, (1, 1)); (IEEE80211_IE_POWER_CONSTRAINT, (1, 1))].

Definition length_ok (id len : Z) : bool :=
  match List.find (fun '(k, _) => k =? id) ie_lengths with
  | Some (_, (lo, hi)) => (lo <=? len) && (len <=? hi)
  | None => true
  end.
Definition ie_ok (e : ie) : bool := length_ok (ie_id e) (zlen (ie_value e)).

(** The pointer to the last element of a sequence that satisfies a test. *)
Fixpoint find_last (sel : ie -> bool) (es : list ie) (tail : list Z) : option (list Z) :=
  match es with
  | [] => None
  | e :: es =>
      match find_last sel es tail with
      | Some s => Some s
      | None => if sel e then Some (ie_bytes e ++ ies_bytes es ++ tail) else None
      end
  end.

Definition has_id (id : Z) (e : ie) : bool := ie_id e =? id.

(** A vendor-specific element of Microsoft (00:50:f2), type 2, subtype 0. *)
Definition is_wmm (e : ie) : bool :=
  (ie_id e =? IEEE80211_IE_VENDOR_SPECIFIC) && bool_decide (take 5 (ie_value e) = [0; 80; 242; 2; 0]).

(** Vendor-specific elements hold the fields the reader looks at. *)
Definition vendor_ok (e : ie) : bool :=
  negb (ie_id e =? IEEE80211_IE_VENDOR_SPECIFIC) || (5 <=? zlen (ie_value e)).

Definition items_of (es : list ie) (tail : list Z) : ieee80211_ie_items :=
  let at_id id := find_last (has_id id) es tail in
  IeItems (at_id IEEE80211_IE_SSID) (at_id IEEE80211_IE_SUPPORTED_RATES) (at_id IEEE80211_IE_DSSS)
    (at_id IEEE80211_IE_COUNTRY) (at_id IEEE80211_IE_CHALLENGE_TEXT) (at_id IEEE80211_IE_ERP)
    (at_id IEEE80211_IE_EXTENDED_SUPPORTED_RATES) (at_id IEEE80211_IE_EDCA_PARAMETER_SET)
    (at_id IEEE80211_IE_QOS_CAPABILITY) (at_id IEEE80211_IE_POWER_CONSTRAINT)
    (at_id IEEE80211_IE_SSID_LIST) (find_last is_wmm es tail) None None.

(** ** The reader *)

(** The pointers of [j] where it has them, those of [i] elsewhere. *)
Definition over (i j : ieee80211_ie_items) : ieee80211_ie_items :=
  let pick (f : ieee80211_ie_items -> option (list Z)) := match f j with Some s => Some s | None => f i end in
  IeItems (pick ssid) (pick supported_rates) (pick dsss) (pick country) (pick challenge_text)
    (pick erp) (pick extended_supported_rates) (pick edca_parameter_set) (pick qos_capability)
    (pick power_constraint) (pick ssid_list) (pick wmm_ie) (pick ht_cap) (pick ht_oper).

(** What one turn records. *)
Definition item_at (id : Z) (wmm : bool) (data : list Z) : ieee80211_ie_items :=
  let at_id k := if id =? k then Some data else None in
  IeItems (at_id IEEE80211_IE_SSID) (at_id IEEE80211_IE_SUPPORTED_RATES) (at_id IEEE80211_IE_DSSS)
    (at_id IEEE80211_IE_COUNTRY) (at_id IEEE80211_IE_CHALLENGE_TEXT) (at_id IEEE80211_IE_ERP)
    (at_id IEEE80211_IE_EXTENDED_SUPPORTED_RATES) (at_id IEEE80211_IE_EDCA_PARAMETER_SET)
    (at_id IEEE80211_IE_QOS_CAPABILITY) (at_id IEEE80211_IE_POWER_CONSTRAINT)
    (at_id IEEE80211_IE_SSID_LIST)
    (if (id =? IEEE80211_IE_VENDOR_SPECIFIC) && wmm then Some data else None) None None.

(** Computes the tests on constants in the goal, leaving those on variables. *)
Ltac closed_tests :=
  repeat match goal with
    | |- context [Z.eqb ?a ?b] =>
        let v := eval vm_compute in (Z.eqb a b) in
        first [constr_eq v true | constr_eq v false]; change (Z.eqb a b) with v
    end; cbv iota.

Lemma ie_item_eq id len data i :
  0 <= len < 256 ->
  ie_item id len data i =
    if id =? IEEE80211_IE_VENDOR_SPECIFIC
    then wmm ← is_wmm_information data; Some (Some (over i (item_at id wmm data)))
    else Some (if length_ok id len then Some (over i (item_at id false data)) else None).
Proof.
  intros Hl. destruct i. unfold ie_item. cbv beta iota.
  repeat match goal with
    | |- (if id =? ?k then Some (if _ then None else _) else _) = _ =>
        destruct (Z.eqb_spec id k) as [->|];
          [cbv -[Z.leb Z.ltb Z.eqb andb orb negb]; closed_tests;
           repeat match goal with |- context [if ?b then _ else _] => destruct b eqn:? end;
           bools; try reflexivity; lia|]
    end.
  destruct (Z.eqb_spec id IEEE80211_IE_SSID_LIST) as [->|]; [reflexivity|].
  destruct (Z.eqb_spec id IEEE80211_IE_VENDOR_SPECIFIC) as [->|].
  - destruct (is_wmm_information data) as [[]|]; reflexivity.
  - unfold length_ok, ie_lengths, item_at, over. cbn [List.find].
    repeat match goal with |- context [?k =? id] => rewrite (proj2 (Z.eqb_neq k id)) by congruence end.
    repeat match goal with |- context [id =? ?k] => rewrite (proj2 (Z.eqb_neq id k)) by congruence end.
    reflexivity.
Qed.

Lemma over_assoc i j k : over (over i j) k = over i (over j k).
Proof. destruct i, j, k. unfold over. cbn. f_equal; by repeat case_match. Qed.

Lemma over_none j : over no_items j = j.
Proof. destruct j. unfold over. cbn. f_equal; by case_match. Qed.

Lemma items_of_cons e es tail :
  items_of (e :: es) tail =
    over (item_at (ie_id e) (is_wmm e) (ie_bytes e ++ ies_bytes es ++ tail)) (items_of es tail).
Proof.
  unfold items_of, over, item_at, has_id. cbn.
  assert (Hw : is_wmm e = (ie_id e =? IEEE80211_IE_VENDOR_SPECIFIC) && is_wmm e)
    by (unfold is_wmm; by destruct (ie_id e =? _)).
  rewrite <- Hw. f_equal.
Qed.

(** ** Elements in a string of bytes *)

Lemma ies_bytes_cons e es : ies_bytes (e :: es) = ie_bytes e ++ ies_bytes es.
Proof. done. Qed.

Lemma length_ie_bytes e : zlen (ie_bytes e) = 2 + zlen (ie_value e).
Proof. unfold ie_bytes. cbn. lia. Qed.

Lemma drop_ie_bytes e rest : drop (Z.to_nat (2 + zlen (ie_value e))) (ie_bytes e ++ rest) = rest.
Proof. apply drop_app_length'. pose proof (length_ie_bytes e). lia. Qed.

Lemma lor_shiftl a b n : 0 <= n -> 0 <= b < 2 ^ n -> Z.lor (Z.shiftl a n) b = a * 2 ^ n + b.
Proof.
  intros Hn Hb. rewrite <- Z.shiftl_mul_pow2 by lia. symmetry. apply Z.add_nocarry_lor.
  apply Z.bits_inj'. intros k Hk. rewrite Z.land_spec, Z.bits_0, Z.shiftl_spec by lia.
  destruct (decide (k < n)) as [Hlt|Hge]; [by rewrite Z.testbit_neg_r by lia|].
  rewrite andb_comm. destruct (decide (b = 0)) as [->|Hnz]; [by rewrite Z.bits_0|].
  rewrite Z.bits_above_log2; [done|lia|].
  apply Z.lt_le_trans with n; [apply Z.log2_lt_pow2; lia|lia].
Qed.

(** The test on a vendor-specific element is the test on its first bytes. *)
Lemma is_wmm_information_spec e rest :
  bytes_ok (ie_value e) -> ie_id e = IEEE80211_IE_VENDOR_SPECIFIC -> 5 <= zlen (ie_value e) ->
  is_wmm_information (ie_bytes e ++ rest) = Some (is_wmm e).
Proof.
  intros Hb Hid Hl. unfold is_wmm_information, is_wmm, ie_bytes. rewrite Hid.
  destruct (ie_value e) as [|o0 [|o1 [|o2 [|t [|s v]]]]]; cbn [length] in Hl; try lia.
  cbn [app lookup list_lookup]. obind. rewrite Z.eqb_refl. cbn [andb take].
  unfold bytes_ok in Hb. rewrite !Forall_cons in Hb. destruct Hb as (? & ? & ? & _).
  change (take 0 v) with (@nil Z).
  replace (Z.shiftl o0 16) with (Z.shiftl (Z.shiftl o0 8) 8) by (by rewrite Z.shiftl_shiftl by lia).
  rewrite <- Z.shiftl_lor, !lor_shiftl by lia.
  unfold MICROSOFT_OUI, WMM_TYPE, WMM_INFORMATION_ELEMENT.
  destruct (Z.eqb_spec ((o0 * 2 ^ 8 + o1) * 2 ^ 8 + o2) 20722) as [E|E]; cbn [negb].
  - assert (o0 = 0 /\ o1 = 80 /\ o2 = 242) as (-> & -> & ->) by lia.
    destruct (Z.eqb_spec t 2) as [->|]; cbn [negb].
    + f_equal. apply Bool.eq_iff_eq_true. rewrite Z.eqb_eq, bool_decide_eq_true. split; [by intros ->|by intros [= ->]].
    + f_equal. symmetry. apply bool_decide_eq_false. by intros [= ->].
  - f_equal. symmetry. apply bool_decide_eq_false. intros [= -> -> -> _ _]. done.
Qed.

(** One turn on an element. *)
Lemma ie_item_spec e rest i :
  ie_wf e -> vendor_ok e = true ->
  ie_item (ie_id e) (zlen (ie_value e)) (ie_bytes e ++ rest) i =
    Some (if ie_ok e then Some (over i (item_at (ie_id e) (is_wmm e) (ie_bytes e ++ rest))) else None).
Proof.
  intros (Hid & Hb & Hl) Hv. rewrite ie_item_eq by lia. unfold ie_ok.
  destruct (Z.eqb_spec (ie_id e) IEEE80211_IE_VENDOR_SPECIFIC) as [E|E].
  - unfold vendor_ok in Hv. rewrite is_wmm_information_spec; [|done..|bools; lia].
    obind. by rewrite E.
  - destruct (length_ok _ _); [|done]. unfold item_at. by rewrite (proj2 (Z.eqb_neq _ _) E).
Qed.

Lemma ie_loop_step fuel i e rest n :
  ie_wf e -> vendor_ok e = true -> 2 <= n ->
  ie_loop (S fuel) i (ie_bytes e ++ rest) n =
    if ie_ok e
    then ie_loop fuel (over i (item_at (ie_id e) (is_wmm e) (ie_bytes e ++ rest))) rest
           (n - (2 + zlen (ie_value e)))
    else Some (-1, i).
Proof.
  intros Hwf Hv Hn. cbn [ie_loop]. decide_if. cbn [ie_bytes app lookup list_lookup]. obind.
  change (ie_id e :: zlen (ie_value e) :: ie_value e ++ rest) with (ie_bytes e ++ rest).
  rewrite ie_item_spec by done. obind. destruct (ie_ok e); [|done]. by rewrite drop_ie_bytes.
Qed.

(** The turns on acceptable elements, whatever follows them. *)
Lemma ie_loop_prefix es : forall fuel i rest n,
  Forall ie_wf es -> forallb ie_ok es = true -> forallb vendor_ok es = true -> 0 <= n ->
  ie_loop (length es + fuel) i (ies_bytes es ++ rest) (zlen (ies_bytes es) + n) =
    ie_loop fuel (over i (items_of es rest)) rest n.
Proof.
  induction es as [|e es IH]; intros fuel i rest n Hwf Hok Hv Hn.
  - destruct i; reflexivity.
  - apply Forall_cons in Hwf as [He Hwf]. cbn in Hok, Hv. cbn [length Nat.add].
    apply andb_true_iff in Hok as [Hok1 Hok], Hv as [Hv1 Hv].
    rewrite items_of_cons, <- over_assoc, ies_bytes_cons, <- app_assoc.
    rewrite length_app. pose proof (length_ie_bytes e).
    rewrite ie_loop_step by (done || lia). rewrite Hok1.
    replace (_ - _) with (zlen (ies_bytes es) + n) by lia. by apply IH.
Qed.

Lemma length_ies_bytes es : 2 * zlen es <= zlen (ies_bytes es).
Proof.
  induction es as [|e es IH]; [done|]. rewrite ies_bytes_cons, length_app.
  pose proof (length_ie_bytes e). cbn [length]. lia.
Qed.

(** The pointers found in a sequence of elements. *)
Lemma retrieve_spec es tail :
  Forall ie_wf es -> forallb ie_ok es = true -> forallb vendor_ok es = true ->
  ieee80211_retrieve_information_elements_position (ies_bytes es ++ tail) (zlen (ies_bytes es)) =
    Some (0, items_of es tail).
Proof.
  intros. unfold ieee80211_retrieve_information_elements_position.
  pose proof (length_ies_bytes es) as Hl.
  pose proof (ie_loop_prefix es (Z.to_nat (zlen (ies_bytes es)) - length es) no_items tail 0) as E.
  rewrite Z.add_0_r, over_none in E. replace (_ + _)%nat with (Z.to_nat (zlen (ies_bytes es))) in E by lia.
  rewrite E by done. by destruct (_ - _)%nat.
Qed.

(** ** Any bytes *)

Lemma is_wmm_information_some data : 7 <= zlen data -> is_Some (is_wmm_information data).
Proof.
  intros Hl. destruct data as [|a [|b [|o0 [|o1 [|o2 [|t [|s v]]]]]]]; cbn [length] in Hl; try lia.
  unfold is_wmm_information. cbn [lookup list_lookup]. obind. by repeat case_match.
Qed.

Lemma ie_item_some id len data i :
  is_u8 len -> 7 <= zlen data ->
  exists o, ie_item id len data i = Some o /\ (length_ok id len = true <-> is_Some o).
Proof.
  intros Hl Hd. rewrite ie_item_eq by done.
  destruct (Z.eqb_spec id IEEE80211_IE_VENDOR_SPECIFIC) as [->|].
  - destruct (is_wmm_information_some data Hd) as [w ->]. obind. by eexists.
  - destruct (length_ok id len); eexists; (split; [done|]); split; done.
Qed.

(** [bs] is a sequence of elements with allowed lengths. *)
Definition elements (bs : list Z) : Prop :=
  exists es, bs = ies_bytes es /\ Forall ie_wf es /\ forallb ie_ok es = true.

Lemma elements_nil : elements [].
Proof. by exists []. Qed.

Lemma elements_cons id len rest :
  is_u8 id -> is_u8 len -> bytes_ok rest ->
  (elements (id :: len :: rest) <->
   length_ok id len = true /\ len <= zlen rest /\ elements (drop (Z.to_nat len) rest)).
Proof.
  intros Hid Hlen Hr. split.
  - intros ([|e es] & E & Hwf & Hok); [done|]. rewrite ies_bytes_cons in E.
    unfold ie_bytes in E. cbn in E, Hok. injection E as -> -> ->.
    apply Forall_cons in Hwf as [_ Hwf]. apply andb_true_iff in Hok as [Hok1 Hok].
    rewrite length_app, Nat2Z.id, drop_app_length. split_and!; [done|lia|]. by exists es.
  - intros (Hok & Hle & es & E & Hwf & Hoks).
    exists (Ie id (take (Z.to_nat len) rest) :: es).
    assert (Hl : zlen (take (Z.to_nat len) rest) = len) by (rewrite length_take; lia).
    rewrite ies_bytes_cons. unfold ie_bytes. cbn [ie_id ie_value]. rewrite Hl, <- E. cbn [app].
    rewrite take_drop. split; [done|]. split.
    + constructor; [|done]. split_and!; cbn [ie_id ie_value]; [lia..|by apply bytes_ok_take|lia].
    + cbn. unfold ie_ok. cbn [ie_id ie_value]. by rewrite Hl, Hok.
Qed.

Lemma ie_loop_short fuel i data n : n < 0 -> ie_loop fuel i data n = Some (-1, i).
Proof. intros Hn. destruct fuel; cbn [ie_loop]; do 2 decide_if; done. Qed.

(** The loop returns on any bytes that five more follow, 0 exactly for a
    sequence of elements with allowed lengths. *)
Lemma ie_loop_any : forall fuel i data n,
  bytes_ok data -> 0 <= n -> n + 5 <= zlen data -> n <= Z.of_nat fuel ->
  exists r i', ie_loop fuel i data n = Some (r, i') /\ (r = 0 \/ r = -1) /\
    (r = 0 <-> elements (take (Z.to_nat n) data)).
Proof.
  induction fuel as [|fuel IH]; intros i data n Hb Hn Hd Hf; cbn [ie_loop].
  { assert (n = 0) as -> by lia. do 2 eexists. split; [done|]. cbn. split; [by left|].
    split; [intros _; apply elements_nil|done]. }
  destruct (Z.ltb_spec n 2) as [Hn2|Hn2].
  - do 2 eexists. split; [done|]. assert (n = 0 \/ n = 1) as [-> | ->] by lia; cbn.
    + split; [by left|]. split; [intros _; apply elements_nil|done].
    + split; [by right|]. split; [done|]. intros (es & E & _).
      pose proof (f_equal length E) as El. pose proof (length_ies_bytes es).
      destruct es as [|e es]; rewrite length_take in El; cbn [length] in *; [cbn in El; lia|lia].
  - destruct data as [|id [|len rest]]; cbn [length] in Hd; [lia..|].
    cbn [lookup list_lookup]. obind. apply Forall_cons in Hb as [Hid Hb].
    apply Forall_cons in Hb as [Hlen Hb].
    destruct (ie_item_some id len (id :: len :: rest) i Hlen) as (o & -> & Ho); [cbn [length]; lia|].
    obind. replace (Z.to_nat n) with (S (S (Z.to_nat (n - 2)))) by lia. cbn [take].
    assert (Hc : elements (id :: len :: take (Z.to_nat (n - 2)) rest) <->
       length_ok id len = true /\ 2 + len <= n /\
       elements (take (Z.to_nat (n - (2 + len))) (drop (Z.to_nat len) rest))).
    { rewrite elements_cons by (done || by apply bytes_ok_take).
      rewrite length_take, skipn_firstn_comm. split; intros (? & ? & He); split_and!; try done; try lia;
        (replace (Z.to_nat (n - (2 + len))) with (Z.to_nat (n - 2) - Z.to_nat len)%nat in * by lia; done). }
    destruct o as [i'|].
    + replace (drop (Z.to_nat (2 + len)) (id :: len :: rest)) with (drop (Z.to_nat len) rest)
        by (by replace (Z.to_nat (2 + len)) with (S (S (Z.to_nat len))) by lia).
      destruct (Z.le_gt_cases (2 + len) n) as [Hle|Hgt].
      * destruct (IH i' (drop (Z.to_nat len) rest) (n - (2 + len))) as (r & i'' & E & Hr & He);
          [by apply bytes_ok_drop|lia|rewrite length_drop; lia|lia|].
        exists r, i''. split; [done|]. split; [done|]. rewrite He, Hc. intuition eauto.
      * exists (-1), i'. split; [apply ie_loop_short; lia|].
        split; [by right|]. split; [done|]. rewrite Hc. lia.
    + exists (-1), i. split; [done|]. split; [by right|]. split; [done|]. rewrite Hc, Ho.
      intros ([? [=]] & _).
Qed.

(** Every vendor-specific element of the bytes has its first seven bytes among
    them, which is what the reader looks at. *)
Fixpoint whole_vendors (fuel : nat) (data : list Z) : bool :=
  match fuel, data with
  | S fuel, id :: len :: rest =>
      (negb (id =? IEEE80211_IE_VENDOR_SPECIFIC) || (5 <=? zlen rest)) && whole_vendors fuel (drop (Z.to_nat len) rest)
  | _, _ => true
  end.

(** The loop stays inside of such bytes, with nothing after them. *)
Lemma ie_loop_inside : forall fuel i data,
  bytes_ok data -> zlen data <= Z.of_nat fuel -> whole_vendors fuel data = true ->
  is_Some (ie_loop fuel i data (zlen data)).
Proof.
  induction fuel as [|fuel IH]; intros i data Hb Hf Hv; cbn [ie_loop].
  { destruct data; [by eexists|cbn in Hf; lia]. }
  destruct data as [|id [|len rest]]; [by eexists..|]. rewrite (proj2 (Z.ltb_ge _ _)) by (cbn [length]; lia).
  cbn [lookup list_lookup]. obind. apply Forall_cons in Hb as [_ Hb]. apply Forall_cons in Hb as [Hlen Hb].
  cbn [whole_vendors] in Hv. apply andb_true_iff in Hv as [Hid Hv].
  assert (Ho : exists o, ie_item id len (id :: len :: rest) i = Some o).
  { rewrite ie_item_eq by done. destruct (Z.eqb_spec id IEEE80211_IE_VENDOR_SPECIFIC) as [->|]; [|by destruct (length_ok id len); eexists].
    apply Z.leb_le in Hid. destruct (is_wmm_information_some (IEEE80211_IE_VENDOR_SPECIFIC :: len :: rest)) as [w ->]; [cbn [length]; lia|].
    obind. by eexists. }
  destruct Ho as [o ->]. obind. destruct o as [i'|]; [|by eexists].
  replace (drop (Z.to_nat (2 + len)) (id :: len :: rest)) with (drop (Z.to_nat len) rest)
    by (by replace (Z.to_nat (2 + len)) with (S (S (Z.to_nat len))) by lia).
  destruct (Z.le_gt_cases len (zlen rest)) as [Hle|Hgt]; [|rewrite ie_loop_short by (cbn [length]; lia); by eexists].
  replace (zlen (id :: len :: rest) - (2 + len)) with (zlen (drop (Z.to_nat len) rest)) by (rewrite length_drop; cbn [length]; lia).
  apply IH; [by apply bytes_ok_drop|rewrite length_drop; cbn [length] in Hf; lia|done].
Qed.

(** A vendor-specific element of fewer than three bytes at the end of the
    buffer makes the reader look past the end. *)
Lemma retrieve_overread es v :
  Forall ie_wf es -> forallb ie_ok es = true -> forallb vendor_ok es = true -> zlen v < 3 ->
  let bs := ies_bytes (es ++ [Ie IEEE80211_IE_VENDOR_SPECIFIC v]) in
  ieee80211_retrieve_information_elements_position bs (zlen bs) = None.
Proof.
  intros Hwf Hok Hvo Hv bs. unfold ieee80211_retrieve_information_elements_position.
  set (e := Ie IEEE80211_IE_VENDOR_SPECIFIC v). pose proof (length_ies_bytes es) as Hl.
  assert (Hbs : bs = ies_bytes es ++ ie_bytes e).
  { unfold bs, ies_bytes. rewrite fmap_app, join_app. cbn. by rewrite app_nil_r. }
  assert (Hn : zlen bs = zlen (ies_bytes es) + (2 + zlen v)) by (rewrite Hbs, length_app; cbn; lia).
  replace (Z.to_nat (zlen bs)) with (length es + S (Z.to_nat (zlen bs) - S (length es)))%nat by lia.
  rewrite Hn, Hbs, ie_loop_prefix by (done || lia). cbn [ie_loop]. decide_if.
  cbn [ie_bytes lookup list_lookup]. obind. rewrite ie_item_eq by (cbn; lia).
  cbn [ie_id e]. rewrite Z.eqb_refl. unfold is_wmm_information. cbn [ie_value e].
  destruct v as [|a [|b [|c v]]]; cbn [length] in Hv; [reflexivity..|lia].
Qed.

(** ** Pointers to elements *)

(** A pointer to an element: its header and its value can be read. *)
Definition pointer_ok (p : list Z) : Prop :=
  exists id len rest, p = id :: len :: rest /\ is_u8 len /\ len <= zlen rest.

(** The pointers the controller follows. *)
Definition items_ok (i : ieee80211_ie_items) : Prop :=
  (forall p, ssid i = Some p -> pointer_ok p) /\ (forall p, supported_rates i = Some p -> pointer_ok p) /\
  (forall p, extended_supported_rates i = Some p -> pointer_ok p).

Lemma over_pointers id wmm data i : items_ok i -> pointer_ok data -> items_ok (over i (item_at id wmm data)).
Proof.
  intros (H1 & H2 & H3) Hd. unfold over, item_at.
  split_and!; cbn; intros p; destruct (id =? _); intros [= <-] || (intros E; eauto); done.
Qed.

Lemma ie_item_pointers id len data i i' :
  0 <= len < 256 -> ie_item id len data i = Some (Some i') -> items_ok i -> pointer_ok data -> items_ok i'.
Proof.
  intros Hl. rewrite ie_item_eq by done. intros E Hi Hd. destruct (id =? IEEE80211_IE_VENDOR_SPECIFIC).
  - destruct (is_wmm_information data) as [wmm|]; [|done]. cbn in E. injection E as <-. by apply over_pointers.
  - destruct (length_ok id len); [|done]. injection E as <-. by apply over_pointers.
Qed.

(** The pointers of an accepted sequence of elements can be followed. *)
Lemma ie_loop_pointers : forall fuel i data n i',
  bytes_ok data -> n <= zlen data -> items_ok i -> ie_loop fuel i data n = Some (0, i') -> items_ok i'.
Proof.
  induction fuel as [|fuel IH]; intros i data n i' Hb Hn Hi; cbn [ie_loop]; destruct (n <? 2) eqn:En;
    try (by intros [= _ <-]).
  bools. destruct data as [|id [|len rest]]; try done. cbn [lookup list_lookup]. obind.
  assert (is_u8 len) as Hlen by (unfold bytes_ok in Hb; rewrite !Forall_cons in Hb; apply Hb).
  destruct (ie_item id len (id :: len :: rest) i) as [[i1|]|] eqn:E; obind; [|done..].
  destruct (Z.ltb_spec (n - (2 + len)) 0) as [Hs|Hs]; [by rewrite ie_loop_short|].
  apply IH.
  - by apply bytes_ok_drop.
  - rewrite length_drop. cbn [length] in *. lia.
  - eapply ie_item_pointers; [exact Hlen|exact E|done|]. exists id, len, rest. split_and!; try done; try lia.
    cbn [length] in Hn. lia.
Qed.

(** ** Association identifiers *)

Lemma full_word_only w : is_u32 w -> (forall m, 0 <= m < 32 -> Z.testbit w m = true) -> w = 4294967295.
Proof.
  intros Hw Hb. apply Z.bits_inj'. intros k Hk. destruct (decide (k < 32)).
  - rewrite Hb, full_word by lia. done.
  - change 4294967295 with (Z.ones 32). rewrite Z.ones_spec_high by lia.
    apply Z.bits_above_log2; [lia|]. destruct (decide (w = 0)) as [->|]; [cbn; lia|].
    apply Z.lt_le_trans with 32; [apply Z.log2_lt_pow2; lia|lia].
Qed.

(** The search takes the index [set_bitfield] takes, if it is an identifier. *)
Lemma aid_search_spec words : forall i,
  words_ok words -> 0 <= i -> i + zlen words <= IEEE80211_AID_BITFIELD_SIZE ->
  aid_search i words =
    let '(v, words') := set_bitfield i words in
    if (0 <? v) && (v <=? IEEE80211_AID_MAX_VALUE) then Some (v, words') else None.
Proof.
  unfold IEEE80211_AID_BITFIELD_SIZE.
  induction words as [|w words IH]; intros i Hw Hi Hl; [done|]. cbn [length] in Hl.
  apply Forall_cons in Hw as [Hw Hws]. cbn [aid_search set_bitfield].
  pose proof (word_spec w) as Hs. destruct (Z.eqb_spec w 4294967295) as [->|Hne]; cbn [negb] in *.
  - rewrite IH by (done || lia). destruct (set_bitfield (i + 1) words) as [v words'].
    by destruct ((0 <? v) && _).
  - destruct (free_bit 32 0 w) as [j|]; obind.
    + rewrite wrap16_small by lia. rewrite (proj2 (Z.ltb_lt 0 _)) by lia. done.
    + by apply full_word_only in Hs.
Qed.

Lemma aid_create_spec words :
  words_ok words -> zlen words = IEEE80211_AID_BITFIELD_SIZE ->
  let '(r, aid, words') := ieee80211_aid_create words in
  length words' = length words /\
  ((r = 0 /\ 1 <= aid <= IEEE80211_AID_MAX_VALUE /\ in_use words aid = false /\
    (forall k, 1 <= k < aid -> in_use words k = true) /\
    forall k, 1 <= k -> in_use words' k = (k =? aid) || in_use words k) \/
   (r = -1 /\ aid = 0 /\ words' = words /\
    forall k, 1 <= k <= IEEE80211_AID_MAX_VALUE -> in_use words k = true)).
Proof.
  intros Hw Hl. unfold ieee80211_aid_create. rewrite aid_search_spec by (done || lia).
  pose proof (set_bitfield_spec 0 words) as Hs. destruct (set_bitfield 0 words) as [v words'].
  rewrite Hl in Hs. unfold IEEE80211_AID_BITFIELD_SIZE, IEEE80211_AID_MAX_VALUE in *.
  destruct Hs as (Hlen & [(-> & -> & Hall)|(Hv & Hb & Hmin & Hset)]).
  - cbn. split; [done|]. right. split_and!; [done..|]. intros k Hk. rewrite in_use_bit. apply Hall. lia.
  - destruct (Z.leb_spec v 2007) as [Hle|Hgt].
    + rewrite (proj2 (Z.ltb_lt 0 v)) by lia. cbn. split; [done|]. left.
      rewrite in_use_bit. split_and!; [done|lia..|done| |].
      * intros k Hk. rewrite in_use_bit. apply Hmin. lia.
      * intros k Hk. rewrite !in_use_bit, Hset by lia. f_equal. apply Bool.eq_iff_eq_true. bools. lia.
    + rewrite andb_false_r. split; [done|]. right. split_and!; [done..|].
      intros k Hk. rewrite in_use_bit. apply Hmin. lia.
Qed.

(** ** Names of networks *)

Lemma strlen_le s : (strlen s <= length s)%nat.
Proof. induction s as [|c s IH]; cbn; [lia|]. destruct (c =? 0); lia. Qed.

Lemma length_cstr s : length (cstr s) = strlen s.
Proof. unfold cstr. rewrite length_take. pose proof (strlen_le s). lia. Qed.

Lemma same_ssid_spec name v rest :
  same_ssid name (zlen v) (v ++ rest) = Some (bool_decide (cstr name = v)).
Proof.
  unfold same_ssid. destruct (Z.eqb_spec (Z.of_nat (strlen name)) (zlen v)) as [E|E].
  - unfold equal_bytes, Array.fetch. pose proof (strlen_le name). rewrite length_app.
    decide_if. obind. decide_if. rewrite Nat2Z.id. f_equal. apply bool_decide_ext.
    fold (cstr name). by rewrite take_app_length' by lia.
  - f_equal. symmetry. apply bool_decide_eq_false. intros <-. by rewrite length_cstr in E.
Qed.

Lemma ssid_listed_spec name vs : forall fuel rest,
  Forall (fun v => 0 < zlen v < 256) vs -> (length vs <= fuel)%nat ->
  let bs := ies_bytes (Ie IEEE80211_IE_SSID <$> vs) in
  ssid_listed fuel name (bs ++ rest) (zlen bs) = Some (bool_decide (cstr name ∈ vs)).
Proof.
  induction vs as [|v vs IH]; intros fuel rest Hvs Hf.
  - destruct fuel; reflexivity.
  - cbn [fmap list_fmap]. rewrite ies_bytes_cons. apply Forall_cons in Hvs as [Hv Hvs].
    set (bs := ies_bytes (Ie IEEE80211_IE_SSID <$> vs)) in *. cbn [length] in Hf.
    destruct fuel as [|fuel]; [lia|]. rewrite <- app_assoc, length_app.
    pose proof (length_ie_bytes (Ie IEEE80211_IE_SSID v)) as Hl. cbn [ie_value] in Hl.
    cbn [ssid_listed]. decide_if. cbn [ie_bytes ie_id ie_value app lookup list_lookup]. obind.
    rewrite Z.eqb_refl. cbn [negb orb]. decide_if.
    rewrite !skipn_cons, drop_0. rewrite same_ssid_spec. obind.
    destruct (bool_decide (cstr name = v)) eqn:E.
    + f_equal. symmetry. apply bool_decide_eq_true in E as ->. apply bool_decide_eq_true. by left.
    + replace (drop _ _) with (bs ++ rest)
        by (symmetry; apply (drop_ie_bytes (Ie IEEE80211_IE_SSID v))).
      replace (_ - _ - _) with (zlen bs) by lia. unfold bs. rewrite IH by (done || lia). f_equal.
      apply bool_decide_eq_false in E. apply bool_decide_ext. rewrite elem_of_cons. tauto.
Qed.

Lemma is_valid_ssid_spec name v vs r1 r2 :
  zlen v < 256 -> Forall (fun v => 0 < zlen v < 256) vs ->
  let names := ies_bytes (Ie IEEE80211_IE_SSID <$> vs) in
  zlen names < 256 ->
  ieee80211_is_valid_ssid name (Some (ie_bytes (Ie IEEE80211_IE_SSID v) ++ r1))
    (Some (ie_bytes (Ie IEEE80211_IE_SSID_LIST names) ++ r2)) =
  Some (if bool_decide (cstr name ∈ v :: vs) then IEEE80211_VALID_SSID
        else if bool_decide (v = []) then IEEE80211_WILDCARD_SSID else IEEE80211_WRONG_SSID).
Proof.
  intros Hv Hvs names Hn. unfold ieee80211_is_valid_ssid, ie_bytes.
  cbn [ie_id ie_value app lookup list_lookup]. obind. rewrite !skipn_cons, !drop_0, same_ssid_spec. obind.
  destruct (bool_decide (cstr name = v)) eqn:E.
  - apply bool_decide_eq_true in E as ->. rewrite bool_decide_eq_true_2; [done|by left].
  - pose proof (length_ies_bytes (Ie IEEE80211_IE_SSID <$> vs)) as Hl. rewrite length_fmap in Hl.
    unfold names. rewrite ssid_listed_spec by (done || lia). obind. f_equal.
    apply bool_decide_eq_false in E.
    replace (bool_decide (cstr name ∈ v :: vs)) with (bool_decide (cstr name ∈ vs))
      by (apply bool_decide_ext; rewrite elem_of_cons; tauto).
    destruct (bool_decide _); [done|]. destruct v as [|c v]; [done|]. cbn [length]. decide_if. done.
Qed.

(** ** Addresses *)

Lemma land_pow2 a n : 0 <= n -> Z.land a (2 ^ n) = if Z.testbit a n then 2 ^ n else 0.
Proof.
  intros Hn. apply Z.bits_inj'. intros k Hk. rewrite Z.land_spec, Z.pow2_bits_eqb by lia.
  destruct (Z.eqb_spec n k) as [<-|Hne].
  - destruct (Z.testbit a n); rewrite ?Z.bits_0; [|done]. by rewrite Z.pow2_bits_true.
  - rewrite andb_false_r. destruct (Z.testbit a n); rewrite ?Z.bits_0; [|done].
    by rewrite Z.pow2_bits_false.
Qed.

(** The two bits that tell the direction of a data frame. *)
Lemma ds_cases fc :
  Z.land fc (Z.lor IEEE80211_FRAME_CONTROL_MASK_TODS IEEE80211_FRAME_CONTROL_MASK_FROMDS) =
    Z.lor (if Z.testbit fc 8 then 256 else 0) (if Z.testbit fc 9 then 512 else 0).
Proof.
  change IEEE80211_FRAME_CONTROL_MASK_TODS with (2 ^ 8).
  change IEEE80211_FRAME_CONTROL_MASK_FROMDS with (2 ^ 9).
  by rewrite Z.land_lor_distr_r, !land_pow2 by lia.
Qed.

(** The accessors, by the bits of the frame control. *)
Lemma select_addr_spec h mgmt ibss tods fromds :
  select_addr h mgmt ibss tods fromds =
    let fc := framecontrol h in
    let type := IEEE80211_FRAME_CONTROL_GET_TYPE fc in
    if type =? 0 then Some mgmt else if type =? 2 then
      match Z.testbit fc 8, Z.testbit fc 9 with
      | false, false => Some ibss
      | true, false => Some tods
      | false, true => Some fromds
      | true, true => None
      end
    else None.
Proof.
  unfold select_addr. rewrite ds_cases. cbv zeta.
  unfold IEEE80211_FRAMECONTROL_TYPE_MGMT, IEEE80211_FRAMECONTROL_TYPE_DATA.
  destruct (_ =? 0); [done|]. destruct (_ =? 2); [|done].
  by destruct (Z.testbit (framecontrol h) 8), (Z.testbit (framecontrol h) 9).
Qed.
