(* ===== verification/Ieee80211FrameSpec.v ===== *)
(** Lemmas about the management frames: the bytes each function writes, as a
    header and a sequence of information elements. *)
From stdpp Require Import option.
From S2P Require Import Prelude Bitfield Io Header CapwapArray Ieee80211 Ieee80211Frame Ieee80211Spec.
#[local] Open Scope Z_scope.

(** ** Writing in sequence *)

Lemma store_some pos bs b :
  0 <= pos -> pos + zlen bs <= zlen b -> Array.store pos bs b = Some (write_at pos bs b).
Proof. intros. unfold Array.store. by decide_if. Qed.

Lemma write_at_at_end start a c b :
  0 <= start -> start + zlen a + zlen c <= zlen b ->
  write_at (start + zlen a) c (write_at start a b) = write_at start (a ++ c) b.
Proof.
  intros Hs Hl. apply list_eq. intros i.
  rewrite !lookup_write_at by (rewrite ?length_write_at, ?length_app; lia). rewrite length_app.
  repeat case_decide; try lia; [by rewrite lookup_app_r by lia; f_equal; lia|..];
    rewrite ?lookup_app_l by lia; try done; by rewrite lookup_app_l by lia.
Qed.

(** [f] writes the bytes [bs] wherever they fit. *)
Definition writes (f : list Z -> Z -> option (Z * list Z)) (bs : list Z) : Prop :=
  forall b pos, 0 <= pos -> pos + zlen bs <= zlen b -> f b pos = Some (zlen bs, write_at pos bs b).

Lemma add_ie_spec {A} f bs b start acc (fail : list Z -> A) k :
  writes f bs -> 0 <= start -> start + zlen (acc ++ bs) <= zlen b ->
  add_ie f (write_at start acc b) (start + zlen acc) fail k =
    k (write_at start (acc ++ bs) b) (start + zlen (acc ++ bs)).
Proof.
  intros Hf Hs Hl. rewrite length_app in Hl. unfold add_ie.
  rewrite Hf by (rewrite ?length_write_at; lia). obind. decide_if.
  rewrite write_at_at_end by lia. f_equal. rewrite length_app. lia.
Qed.

Lemma add_ies_spec n ies b start acc :
  0 <= n <= zlen ies -> 0 <= start -> start + zlen acc + n <= zlen b ->
  add_ies n ies (write_at start acc b) (start + zlen acc) =
    Some (write_at start (acc ++ take (Z.to_nat n) ies) b).
Proof.
  intros Hn Hs Hl. unfold add_ies. destruct (Z.eqb_spec n 0) as [->|Hne].
  - by rewrite app_nil_r.
  - unfold Array.fetch. decide_if. obind.
    assert (Ht : zlen (take (Z.to_nat n) ies) = n) by (rewrite length_take; lia).
    rewrite store_some by (rewrite ?length_write_at; lia). by rewrite write_at_at_end by lia.
Qed.

(** ** The elements written *)

Definition ssid_ie (name : list Z) (hide : bool) : ie :=
  Ie IEEE80211_IE_SSID (if hide then [] else cstr name).
Definition rates_ie (rates : list Z) (n : Z) : ie :=
  Ie IEEE80211_IE_SUPPORTED_RATES (take (Z.to_nat (Z.min n 8)) rates).
Definition dsss_ie (channel : Z) : ie := Ie IEEE80211_IE_DSSS [channel].
Definition erp_ies (mode erpinfo : Z) : list ie :=
  if Z.land mode IEEE80211_RADIO_TYPE_80211G =? 0 then [] else [Ie IEEE80211_IE_ERP [erpinfo]].
Definition extended_ies (rates : list Z) (n : Z) : list ie :=
  if n <=? 8 then [] else [Ie IEEE80211_IE_EXTENDED_SUPPORTED_RATES (drop 8 (take (Z.to_nat n) rates))].

Lemma writes_ssid name hide :
  (strlen name <= 32)%nat ->
  writes (fun b pos => ieee80211_ie_set_ssid b pos name hide) (ie_bytes (ssid_ie name hide)).
Proof.
  intros Hn b pos Hp Hl. rewrite length_ie_bytes in *. unfold ieee80211_ie_set_ssid, ssid_ie in *.
  cbn [ie_value] in *. destruct hide.
  - rewrite store_some by (cbn in *; lia). done.
  - rewrite length_cstr in Hl. rewrite wrap8_small by lia.
    rewrite store_some by (cbn [length]; lia). obind. unfold IEEE80211_IE_SSID_MAX_LENGTH. decide_if.
    rewrite Nat2Z.id. fold (cstr name). rewrite store_some;
      [|lia|rewrite length_write_at, length_cstr; cbn [length]; lia]. obind.
    change 2 with (zlen [IEEE80211_IE_SSID; Z.of_nat (strlen name)]).
    rewrite write_at_at_end by (rewrite ?length_cstr; cbn [length]; lia).
    unfold ie_bytes. cbn [ie_id ie_value]. by rewrite length_cstr.
Qed.

Lemma writes_rates rates n :
  0 < n <= zlen rates ->
  writes (fun b pos => ieee80211_ie_set_supportedrates b pos rates n) (ie_bytes (rates_ie rates n)).
Proof.
  intros Hn b pos Hp Hl. rewrite length_ie_bytes in *. unfold ieee80211_ie_set_supportedrates, rates_ie in *.
  cbn [ie_value] in *. decide_if.
  replace (if 8 <? n then 8 else n) with (Z.min n 8) by (destruct (Z.ltb_spec 8 n); lia).
  assert (Ht : zlen (take (Z.to_nat (Z.min n 8)) rates) = Z.min n 8) by (rewrite length_take; lia).
  rewrite store_some by (cbn [length]; lia). obind. unfold Array.fetch. decide_if. obind.
  rewrite store_some; [|lia|rewrite length_write_at; cbn [length]; lia]. obind.
  change (pos + 2) with (pos + zlen [IEEE80211_IE_SUPPORTED_RATES; Z.min n 8]).
  rewrite write_at_at_end by (cbn [length]; lia). unfold ie_bytes. cbn [ie_id ie_value]. by rewrite Ht.
Qed.

Lemma writes_extended rates n :
  n <= zlen rates -> n <= 16 ->
  writes (fun b pos => ieee80211_ie_set_extendedsupportedrates b pos rates n)
    (ies_bytes (extended_ies rates n)).
Proof.
  intros Hn H16 b pos Hp Hl. unfold ieee80211_ie_set_extendedsupportedrates, extended_ies in *.
  unfold IEEE80211_IE_SUPPORTED_RATES_MAX_LENGTH. destruct (Z.leb_spec n 8) as [Hle|Hgt].
  - unfold write_at. cbn. by rewrite Nat.add_0_r, take_drop.
  - set (v := drop 8 (take (Z.to_nat n) rates)) in *.
    assert (Hv : zlen v = n - 8) by (unfold v; rewrite length_drop, length_take; lia).
    unfold ies_bytes in *. cbn [fmap list_fmap mjoin list_join] in *. rewrite app_nil_r in *.
    rewrite length_ie_bytes in *. cbn [ie_value] in *. rewrite wrap8_small by lia.
    rewrite store_some by (cbn [length]; lia). obind. unfold Array.fetch. decide_if. obind.
    change (drop (Z.to_nat 8) (take (Z.to_nat n) rates)) with v.
    rewrite store_some; [|lia|rewrite length_write_at; cbn [length]; lia]. obind.
    change (pos + 2) with (pos + zlen [IEEE80211_IE_EXTENDED_SUPPORTED_RATES; n - 8]).
    rewrite write_at_at_end by (cbn [length]; lia). unfold ie_bytes. cbn [ie_id ie_value]. by rewrite Hv.
Qed.

Lemma writes_dsss channel :
  writes (fun b pos => ieee80211_ie_set_dsss b pos channel) (ie_bytes (dsss_ie channel)).
Proof.
  intros b pos Hp Hl. unfold ieee80211_ie_set_dsss.
  rewrite store_some by (cbn [length]; cbn in Hl; lia). done.
Qed.

Lemma writes_erp mode erpinfo :
  writes (fun b pos => ieee80211_ie_set_erp b pos mode erpinfo) (ies_bytes (erp_ies mode erpinfo)).
Proof.
  intros b pos Hp Hl. unfold ieee80211_ie_set_erp, erp_ies in *. destruct (_ =? 0).
  - unfold write_at. cbn. by rewrite Nat.add_0_r, take_drop.
  - rewrite store_some by (cbn [length]; cbn in Hl; lia). done.
Qed.

#[export] Hint Resolve writes_ssid writes_rates writes_extended writes_dsss writes_erp : capwap.

Lemma ies_bytes_app a b : ies_bytes (a ++ b) = ies_bytes a ++ ies_bytes b.
Proof. unfold ies_bytes. by rewrite fmap_app, join_app. Qed.

(** ** Whole frames *)

Lemma length_mgmt_header subtype da sa bssid body :
  length da = 6%nat -> length sa = 6%nat -> length bssid = 6%nat ->
  zlen (mgmt_header subtype da sa bssid body) = 24 + zlen body.
Proof.
  intros. unfold mgmt_header. rewrite !length_app, !length_take. cbn [IEEE80211_FRAME_CONTROL le16 length]. lia.
Qed.

(** Runs the code after one more element. *)
Ltac next_ie :=
  erewrite add_ie_spec;
    [|solve [eauto with capwap] || (apply writes_rates; lia) || (apply writes_extended; lia)
     |lia|rewrite ?length_app; lia].

Definition probe_header (p : ieee80211_probe_response_params) : list Z :=
  mgmt_header IEEE80211_FRAMECONTROL_MGMT_SUBTYPE_PROBE_RESPONSE (pr_station p) (pr_bssid p) (pr_bssid p)
    (beacon_body (pr_beaconperiod p) (pr_capability p)).

Lemma length_probe_header p :
  length (pr_station p) = 6%nat -> length (pr_bssid p) = 6%nat -> zlen (probe_header p) = 36.
Proof. intros. unfold probe_header. by rewrite length_mgmt_header. Qed.

(** The elements of a beacon or probe response, before and after the place of
    the traffic indication map. *)
Definition head_ies (name : list Z) (hide : bool) (rates : list Z) (n channel : Z) : list ie :=
  [ssid_ie name hide; rates_ie rates n; dsss_ie channel].
Definition tail_ies (mode erpinfo : Z) (rates : list Z) (n : Z) : list ie :=
  erp_ies mode erpinfo ++ extended_ies rates n.

Definition probe_ies (p : ieee80211_probe_response_params) : list ie :=
  head_ies (pr_ssid p) false (pr_supportedrates p) (pr_supportedratescount p) (pr_channel p) ++
  tail_ies (pr_mode p) (pr_erpinfo p) (pr_supportedrates p) (pr_supportedratescount p).

Definition probe_frame (p : ieee80211_probe_response_params) : list Z :=
  probe_header p ++ ies_bytes (probe_ies p) ++ take (Z.to_nat (pr_response_ies_len p)) (pr_response_ies p).

(** The arrays have the sizes of the source and the counts fit them. *)
Definition rates_wf (rates : list Z) (n : Z) : Prop :=
  zlen rates = IEEE80211_SUPPORTEDRATE_MAX_COUNT /\ 0 < n <= IEEE80211_SUPPORTEDRATE_MAX_COUNT /\
  bytes_ok rates.
Definition probe_wf (p : ieee80211_probe_response_params) : Prop :=
  length (pr_station p) = 6%nat /\ length (pr_bssid p) = 6%nat /\
  (strlen (pr_ssid p) <= 32)%nat /\ rates_wf (pr_supportedrates p) (pr_supportedratescount p) /\
  0 <= pr_response_ies_len p <= zlen (pr_response_ies p).

Lemma create_probe_response_spec p b start :
  probe_wf p -> 0 <= start -> start + zlen (probe_frame p) <= zlen b ->
  ieee80211_create_probe_response b start p = Some (zlen (probe_frame p), write_at start (probe_frame p) b).
Proof.
  intros (Hst & Hbs & Hss & (Hr & Hn & _) & He) Hs Hl. unfold IEEE80211_SUPPORTEDRATE_MAX_COUNT in *.
  unfold probe_frame, probe_ies, head_ies, tail_ies in *.
  pose proof (length_probe_header p Hst Hbs) as Hh.
  cbn [app] in *. rewrite !ies_bytes_cons, ies_bytes_app in *.
  rewrite !length_app, length_take in Hl.
  unfold ieee80211_create_probe_response. fold (probe_header p). rewrite store_some by lia. obind.
  replace (start + 36) with (start + zlen (probe_header p)) by lia.
  do 5 next_ie.
  rewrite add_ies_spec by (rewrite ?length_app; lia). obind. rewrite !app_assoc. f_equal. f_equal.
  rewrite !length_app, length_take. lia.
Qed.

(** ** Beacons *)

Definition beacon_header (p : ieee80211_beacon_params) : list Z :=
  mgmt_header IEEE80211_FRAMECONTROL_MGMT_SUBTYPE_BEACON (replicate 6 255) (bp_bssid p) (bp_bssid p)
    (beacon_body (bp_beaconperiod p) (bp_capability p)).

Definition beacon_head (p : ieee80211_beacon_params) : list Z :=
  beacon_header p ++
  ies_bytes (head_ies (bp_ssid p) (ssid_hidden p) (bp_supportedrates p) (bp_supportedratescount p)
               (bp_channel p)).

Definition beacon_tail (p : ieee80211_beacon_params) : list Z :=
  ies_bytes (tail_ies (bp_mode p) (bp_erpinfo p) (bp_supportedrates p) (bp_supportedratescount p)) ++
  take (Z.to_nat (beacon_ies_len p)) (beacon_ies p).

(** The probe response the radio is to answer with: the same network, its name
    shown, to no station. *)
Definition offload_of (p : ieee80211_beacon_params) : ieee80211_probe_response_params :=
  ProbeParams (bp_bssid p) (zeros 6) (bp_beaconperiod p) (bp_capability p) (bp_ssid p)
    (bp_supportedratescount p)
    (take (Z.to_nat (bp_supportedratescount p)) (bp_supportedrates p) ++
     zeros (16 - bp_supportedratescount p))
    (bp_channel p) (bp_mode p) (bp_erpinfo p) 0 [].

Definition offloaded (p : ieee80211_beacon_params) : bool :=
  negb (Z.land (bp_flags p) IEEE80221_CREATE_BEACON_FLAGS_PROBE_RESPONSE_OFFLOAD =? 0).

Definition beacon_offload (p : ieee80211_beacon_params) : list Z :=
  if offloaded p
  then probe_frame (offload_of p) ++ take (Z.to_nat (bp_response_ies_len p)) (bp_response_ies p)
  else [].

Definition beacon_wf (p : ieee80211_beacon_params) : Prop :=
  length (bp_bssid p) = 6%nat /\ (strlen (bp_ssid p) <= 32)%nat /\
  rates_wf (bp_supportedrates p) (bp_supportedratescount p) /\
  0 <= beacon_ies_len p <= zlen (beacon_ies p) /\
  0 <= bp_response_ies_len p <= zlen (bp_response_ies p).

Lemma length_beacon_header p : length (bp_bssid p) = 6%nat -> zlen (beacon_header p) = 36.
Proof. intros. unfold beacon_header. by rewrite length_mgmt_header. Qed.

Lemma offload_params_spec p : beacon_wf p -> offload_params p = Some (offload_of p) /\ probe_wf (offload_of p).
Proof.
  intros (Hb & Hs & (Hr & Hn & Hok) & _). unfold IEEE80211_SUPPORTEDRATE_MAX_COUNT in *.
  assert (Ht : zlen (take (Z.to_nat (bp_supportedratescount p)) (bp_supportedrates p)) =
    bp_supportedratescount p) by (rewrite length_take; lia).
  split.
  - unfold offload_params, Array.fetch. decide_if. obind.
    rewrite store_some; [|lia|rewrite length_zeros; unfold IEEE80211_SUPPORTEDRATE_MAX_COUNT; lia].
    obind. unfold offload_of. do 2 f_equal.
    unfold write_at, zeros. rewrite drop_replicate. change (Z.to_nat 0) with 0%nat.
    rewrite take_0, app_nil_l.
    f_equal. f_equal. unfold IEEE80211_SUPPORTEDRATE_MAX_COUNT. lia.
  - assert (rates_wf (pr_supportedrates (offload_of p)) (pr_supportedratescount (offload_of p))).
    { cbn. split_and!; unfold IEEE80211_SUPPORTEDRATE_MAX_COUNT; [rewrite length_app, length_zeros|..]; try lia.
      apply bytes_ok_app. split; [by apply bytes_ok_take|apply zeros_ok]. }
    unfold probe_wf. cbn [offload_of pr_station pr_bssid pr_ssid pr_response_ies pr_response_ies_len].
    split_and!; done.
Qed.

(** The elements of the offloaded probe response are those of the beacon. *)
Lemma offload_ies p :
  beacon_wf p ->
  probe_ies (offload_of p) =
    head_ies (bp_ssid p) false (bp_supportedrates p) (bp_supportedratescount p) (bp_channel p) ++
    tail_ies (bp_mode p) (bp_erpinfo p) (bp_supportedrates p) (bp_supportedratescount p).
Proof.
  intros (Hb & Hs & (Hr & Hn & Hok) & _). unfold IEEE80211_SUPPORTEDRATE_MAX_COUNT in *.
  unfold probe_ies, head_ies, tail_ies, rates_ie, extended_ies. cbn.
  set (n := bp_supportedratescount p) in *. set (rates := bp_supportedrates p) in *.
  assert (Ht : length (take (Z.to_nat n) rates) = Z.to_nat n) by (rewrite length_take; lia).
  rewrite !take_app_le, take_take by lia. rewrite (Nat.min_l (Z.to_nat (Z.min n 8))) by lia.
  rewrite (take_ge (take (Z.to_nat n) rates)) by lia. done.
Qed.

Ltac beacon_fields :=
  cbn [set_head set_tail set_offload bp_flags headbeacon headbeaconlength tailbeacon tailbeaconlength
       bp_bssid bp_beaconperiod bp_capability bp_ssid ssid_hidden bp_supportedratescount
       bp_supportedrates bp_channel bp_mode bp_erpinfo beacon_ies_len beacon_ies bp_response_ies_len
       bp_response_ies proberesponseoffload proberesponseoffloadlength].

(** The parameters after a beacon was made: where its parts are. *)
Definition beacon_layout (p : ieee80211_beacon_params) : ieee80211_beacon_params :=
  let head := zlen (beacon_head p) in
  let tail := zlen (beacon_tail p) in
  let p' := set_tail head tail (set_head head p) in
  if offloaded p then set_offload (head + tail) (zlen (beacon_offload p)) p' else p'.

Lemma offload_spec p p' b acc :
  beacon_wf p -> offloaded p = true ->
  offload_params p' = offload_params p -> bp_response_ies p' = bp_response_ies p ->
  bp_response_ies_len p' = bp_response_ies_len p ->
  zlen (acc ++ beacon_offload p) <= zlen b ->
  offload_probe_response (write_at 0 acc b) (zlen acc) p' =
    Some (zlen (acc ++ beacon_offload p), write_at 0 (acc ++ beacon_offload p) b,
          set_offload (zlen acc) (zlen (beacon_offload p)) p').
Proof.
  intros Hwf Ho Hp' Hr Hrl Hl. unfold offload_probe_response. rewrite Hp', Hr, Hrl.
  destruct (offload_params_spec p Hwf) as [-> Hpw]. obind. destruct Hwf as (_ & _ & _ & _ & He).
  unfold beacon_offload in *. rewrite Ho in *. rewrite !length_app, length_take in Hl.
  rewrite create_probe_response_spec; [|done|lia|rewrite length_write_at; lia]. obind. decide_if.
  rewrite <- (Z.add_0_l (zlen acc)), write_at_at_end by lia. rewrite Z.add_0_l.
  replace (zlen acc + zlen (probe_frame (offload_of p))) with (0 + zlen (acc ++ probe_frame (offload_of p)))
    by (rewrite length_app; lia).
  rewrite add_ies_spec by (rewrite ?length_app; lia). obind. rewrite app_assoc.
  do 3 f_equal; rewrite ?length_app, ?length_take; lia.
Qed.

Lemma set_tail_tail a b c d p : set_tail a b (set_tail c d p) = set_tail a b p.
Proof. done. Qed.

Lemma set_head_head a c p : set_head a (set_head c p) = set_head a p.
Proof. done. Qed.

Lemma create_beacon_spec p b :
  beacon_wf p ->
  let bs := beacon_head p ++ beacon_tail p ++ beacon_offload p in
  zlen bs <= zlen b ->
  ieee80211_create_beacon b p = Some (zlen bs, write_at 0 bs b, beacon_layout p).
Proof.
  intros Hwf bs Hl. pose proof Hwf as (Hbs & Hss & (Hr & Hn & _) & He & _).
  unfold IEEE80211_SUPPORTEDRATE_MAX_COUNT in *. pose proof (length_beacon_header p Hbs) as Hh.
  set (off := beacon_offload p) in *.
  assert (Ebs : bs = beacon_header p ++ ie_bytes (ssid_ie (bp_ssid p) (ssid_hidden p)) ++
    ie_bytes (rates_ie (bp_supportedrates p) (bp_supportedratescount p)) ++
    ie_bytes (dsss_ie (bp_channel p)) ++ ies_bytes (erp_ies (bp_mode p) (bp_erpinfo p)) ++
    ies_bytes (extended_ies (bp_supportedrates p) (bp_supportedratescount p)) ++
    take (Z.to_nat (beacon_ies_len p)) (beacon_ies p) ++ off).
  { unfold bs, beacon_head, beacon_tail, head_ies, tail_ies. rewrite !ies_bytes_cons, ies_bytes_app.
    cbn [ies_bytes fmap list_fmap mjoin list_join]. by rewrite app_nil_r, <- !app_assoc. }
  pose proof Hl as Hl'. rewrite Ebs, !length_app, length_take in Hl'.
  unfold ieee80211_create_beacon. fold (beacon_header p). rewrite store_some by lia. obind. beacon_fields.
  replace 36 with (0 + zlen (beacon_header p)) by lia.
  do 5 (next_ie; beacon_fields).
  rewrite add_ies_spec by (rewrite ?length_app; lia). obind. beacon_fields.
  rewrite !set_tail_tail, !set_head_head.
  assert (Eh : beacon_head p = ((beacon_header p ++ ie_bytes (ssid_ie (bp_ssid p) (ssid_hidden p))) ++
    ie_bytes (rates_ie (bp_supportedrates p) (bp_supportedratescount p))) ++ ie_bytes (dsss_ie (bp_channel p))).
  { unfold beacon_head, head_ies. rewrite !ies_bytes_cons.
    cbn [ies_bytes fmap list_fmap mjoin list_join]. by rewrite app_nil_r, <- !app_assoc. }
  rewrite <- !Eh. set (n := 0 + zlen ((_ ++ _) ++ _) + _).
  assert (Et : ((beacon_head p ++ ies_bytes (erp_ies (bp_mode p) (bp_erpinfo p))) ++
    ies_bytes (extended_ies (bp_supportedrates p) (bp_supportedratescount p))) ++
    take (Z.to_nat (beacon_ies_len p)) (beacon_ies p) = beacon_head p ++ beacon_tail p)
    by (unfold beacon_tail, tail_ies; by rewrite ies_bytes_app, <- !app_assoc).
  assert (Hnn : n = zlen (beacon_head p ++ beacon_tail p))
    by (unfold n; rewrite <- Et, !length_app, length_take; lia).
  rewrite Et, Hnn. rewrite length_app at 2. unfold beacon_layout, offloaded, bs, off.
  destruct (Z.land (bp_flags p) _ =? 0) eqn:Ef; cbn [negb].
  - unfold beacon_offload, offloaded. rewrite Ef. cbn [negb]. rewrite !app_nil_r. do 3 f_equal; lia.
  - rewrite (offload_spec p); [|done|by unfold offloaded; rewrite Ef|done..|unfold bs, off in Hl; by rewrite <- app_assoc].
    rewrite <- app_assoc, !Z.add_0_l.
    replace (zlen (beacon_head p ++ beacon_tail p)) with (zlen (beacon_head p) + zlen (beacon_tail p))
      by (rewrite length_app; lia).
    by rewrite Z.add_simpl_l.
Qed.

(** ** Association responses *)

Definition assoc_header (p : ieee80211_associationresponse_params) : list Z :=
  mgmt_header IEEE80211_FRAMECONTROL_MGMT_SUBTYPE_ASSOCIATION_RESPONSE (ar_station p) (ar_bssid p)
    (ar_bssid p) (le16 (ar_capability p) ++ le16 (ar_statuscode p) ++ le16 (ar_aid p)).

Definition assoc_ies (p : ieee80211_associationresponse_params) : list ie :=
  rates_ie (ar_supportedrates p) (ar_supportedratescount p) ::
  extended_ies (ar_supportedrates p) (ar_supportedratescount p).

Definition assoc_frame (p : ieee80211_associationresponse_params) : list Z :=
  assoc_header p ++ ies_bytes (assoc_ies p) ++ take (Z.to_nat (ar_response_ies_len p)) (ar_response_ies p).

Definition assoc_wf (p : ieee80211_associationresponse_params) : Prop :=
  length (ar_station p) = 6%nat /\ length (ar_bssid p) = 6%nat /\
  rates_wf (ar_supportedrates p) (ar_supportedratescount p) /\
  0 <= ar_response_ies_len p <= zlen (ar_response_ies p).

Lemma create_associationresponse_spec p b :
  assoc_wf p -> zlen (assoc_frame p) <= zlen b ->
  ieee80211_create_associationresponse_response b p =
    Some (zlen (assoc_frame p), write_at 0 (assoc_frame p) b).
Proof.
  intros (Hst & Hbs & (Hr & Hn & _) & He) Hl. unfold IEEE80211_SUPPORTEDRATE_MAX_COUNT in *.
  unfold assoc_frame, assoc_ies in *.
  assert (Hh : zlen (assoc_header p) = 30) by (unfold assoc_header; by rewrite length_mgmt_header).
  rewrite ies_bytes_cons, !length_app, length_take in *.
  unfold ieee80211_create_associationresponse_response. fold (assoc_header p).
  rewrite store_some by lia. obind. replace 30 with (0 + zlen (assoc_header p)) by lia.
  do 2 next_ie. rewrite add_ies_spec by (rewrite ?length_app; lia). obind. rewrite <- !app_assoc.
  f_equal. f_equal. rewrite !length_app. lia.
Qed.

(** ** Reading the frames *)

Definition good_ies (es : list ie) : Prop :=
  Forall ie_wf es /\ forallb ie_ok es = true /\ forallb vendor_ok es = true.

Lemma good_ies_app a b : good_ies a -> good_ies b -> good_ies (a ++ b).
Proof.
  intros (A1 & A2 & A3) (B1 & B2 & B3). split_and!; rewrite ?forallb_app, ?Forall_app; auto;
    by apply andb_true_iff.
Qed.

Lemma good_ie id v :
  is_u8 id -> id <> IEEE80211_IE_VENDOR_SPECIFIC -> bytes_ok v -> zlen v < 256 ->
  length_ok id (zlen v) = true -> good_ies [Ie id v].
Proof.
  intros Hid Hne Hv Hl Hok. split_and!; cbn.
  - constructor; [|constructor]. split; [exact Hid|]. by split.
  - unfold ie_ok. cbn. by rewrite Hok.
  - unfold vendor_ok. cbn. by rewrite (proj2 (Z.eqb_neq _ _) Hne).
Qed.

(** The length rule of a known element, by computation of its bounds. *)
Ltac known_length :=
  match goal with |- length_ok ?id _ = true =>
    unfold length_ok; let v := eval vm_compute in (List.find (fun '(k, _) => k =? id) ie_lengths) in
    change (List.find (fun '(k, _) => k =? id) ie_lengths) with v; cbv iota; apply andb_true_iff;
    rewrite !Z.leb_le end.

Ltac good_element := apply good_ie; [cbv; split; discriminate || reflexivity|discriminate| | |known_length].

Lemma good_ssid name hide : (strlen name <= 32)%nat -> chars_ok (cstr name) -> good_ies [ssid_ie name hide].
Proof.
  intros Hn Hc. unfold ssid_ie. destruct hide.
  - good_element; [constructor|cbn; lia..].
  - pose proof (length_cstr name). good_element; [by apply chars_bytes|lia..].
Qed.

Lemma good_rates rates n : rates_wf rates n -> good_ies [rates_ie rates n].
Proof.
  intros (Hr & Hn & Hb). unfold IEEE80211_SUPPORTEDRATE_MAX_COUNT in *. unfold rates_ie.
  assert (zlen (take (Z.to_nat (Z.min n 8)) rates) = Z.min n 8) by (rewrite length_take; lia).
  good_element; [by apply bytes_ok_take|lia..].
Qed.

Lemma good_extended rates n : rates_wf rates n -> good_ies (extended_ies rates n).
Proof.
  intros (Hr & Hn & Hb). unfold IEEE80211_SUPPORTEDRATE_MAX_COUNT in *. unfold extended_ies.
  destruct (Z.leb_spec n 8) as [|Hgt]; [by split_and!|].
  assert (zlen (drop 8 (take (Z.to_nat n) rates)) = n - 8) by (rewrite length_drop, length_take; lia).
  good_element; [by apply bytes_ok_drop, bytes_ok_take|lia..].
Qed.

Lemma good_byte id x : is_u8 x -> id = IEEE80211_IE_DSSS \/ id = IEEE80211_IE_ERP -> good_ies [Ie id [x]].
Proof.
  intros Hx [-> | ->]; good_element; cbn [length]; try lia; by apply Forall_singleton.
Qed.

Lemma good_erp mode erpinfo : is_u8 erpinfo -> good_ies (erp_ies mode erpinfo).
Proof. intros. unfold erp_ies. destruct (_ =? 0); [by split_and!|]. apply good_byte; auto. Qed.

#[export] Hint Resolve good_ies_app good_ssid good_rates good_extended good_erp : capwap.

Lemma good_network name hide rates n channel mode erpinfo :
  (strlen name <= 32)%nat -> chars_ok (cstr name) -> rates_wf rates n -> is_u8 channel -> is_u8 erpinfo ->
  good_ies (head_ies name hide rates n channel ++ tail_ies mode erpinfo rates n).
Proof.
  intros Hn Hc Hr Hch He. apply good_ies_app; [|unfold tail_ies; auto with capwap].
  unfold head_ies. apply (good_ies_app [_]); [by apply good_ssid|].
  apply (good_ies_app [_]); [by apply good_rates|]. apply good_byte; auto.
Qed.

(** The addresses of a management frame. *)
Lemma mgmt_addresses subtype da sa bssid body rest :
  length da = 6%nat -> length sa = 6%nat -> length bssid = 6%nat ->
  IEEE80211_FRAME_CONTROL_GET_TYPE
    (le16_at 0 (IEEE80211_FRAME_CONTROL IEEE80211_FRAMECONTROL_TYPE_MGMT subtype)) = 0 ->
  let h := mgmt_header subtype da sa bssid body ++ rest in
  ieee80211_get_da_addr h = Some da /\ ieee80211_get_sa_addr h = Some sa /\
  ieee80211_get_bssid_addr h = Some bssid.
Proof.
  intros Hd Hs Hb Ht h.
  assert (Hf : framecontrol h = le16_at 0 (IEEE80211_FRAME_CONTROL IEEE80211_FRAMECONTROL_TYPE_MGMT subtype))
    by done.
  unfold ieee80211_get_da_addr, ieee80211_get_sa_addr, ieee80211_get_bssid_addr.
  rewrite !select_addr_spec. cbv zeta. rewrite Hf, Ht. cbn [Z.eqb].
  unfold h, mgmt_header. rewrite !(take_ge _ 6) by lia.
  do 6 (destruct da as [|? da]; [done|]). destruct da; [|done].
  do 6 (destruct sa as [|? sa]; [done|]). destruct sa; [|done].
  do 6 (destruct bssid as [|? bssid]; [done|]). destruct bssid; [|done]. done.
Qed.
