(* ===== verification/Ieee80211Props.v ===== *)
(** Properties of the 802.11 frames: reading information elements, writing
    frames that can be read back, addresses, names and identifiers. *)
From stdpp Require Import option.
From S2P Require Import Prelude Bitfield Io Header CapwapArray.
From S2P Require Import Ieee80211 Ieee80211Frame Ieee80211Spec Ieee80211FrameSpec.
#[local] Open Scope Z_scope.

(** ** Information elements *)

(** The reader of information elements returns on every string of bytes,
    reading at most five bytes past it, and accepts it exactly when it is a
    sequence of whole elements, each of a length 802.11 allows for its
    identifier. *)
Lemma information_elements_accepted data n :
  bytes_ok data -> 0 <= n -> n + 5 <= zlen data ->
  exists r items, ieee80211_retrieve_information_elements_position data n = Some (r, items) /\
    (r = 0 \/ r = -1) /\
    (r = 0 <-> exists es, take (Z.to_nat n) data = ies_bytes es /\ Forall ie_wf es /\
                          forallb ie_ok es = true).
Proof. intros Hb Hn Hd. apply (ie_loop_any (Z.to_nat n) no_items data n Hb Hn Hd). lia. Qed.

(** A network name of two characters and a channel; a rates element of no
    rates. *)
Lemma information_elements_accepted_witness :
  (exists items, ieee80211_retrieve_information_elements_position
     [0; 2; 65; 66; 3; 1; 6; 0; 0; 0; 0; 0] 7 = Some (0, items)) /\
  (exists items, ieee80211_retrieve_information_elements_position
     [1; 0; 0; 0; 0; 0; 0] 2 = Some (-1, items)).
Proof.
  split.
  - destruct (information_elements_accepted [0; 2; 65; 66; 3; 1; 6; 0; 0; 0; 0; 0] 7)
      as (r & items & E & _ & Hr); [by_computation|lia|cbn; lia|].
    assert (r = 0) as ->; [|by exists items].
    apply Hr. exists [Ie 0 [65; 66]; Ie 3 [6]]. split; [reflexivity|]. split; [by_computation|reflexivity].
  - destruct (information_elements_accepted [1; 0; 0; 0; 0; 0; 0] 2)
      as (r & items & E & _ & _); [by_computation|lia|cbn; lia|].
    vm_compute in E. injection E as <- <-. eexists. reflexivity.
Defined.

(** On a sequence of acceptable elements the reader finds, for each
    identifier it knows, the last element with that identifier, whatever follows
    the sequence in memory; it never finds the HT elements. *)
Lemma information_elements_found es tail :
  good_ies es ->
  ieee80211_retrieve_information_elements_position (ies_bytes es ++ tail) (zlen (ies_bytes es)) =
    Some (0, items_of es tail).
Proof. intros (Hwf & Hok & Hv). by apply retrieve_spec. Qed.

Lemma information_elements_found_witness :
  exists items, ieee80211_retrieve_information_elements_position [0; 0; 3; 1; 6; 0; 1; 65; 9] 8 =
      Some (0, items) /\ ssid items = Some [0; 1; 65; 9] /\ dsss items = Some [3; 1; 6; 0; 1; 65; 9].
Proof.
  exists (items_of [Ie 0 []; Ie 3 [6]; Ie 0 [65]] [9]). split; [|split; reflexivity].
  apply (information_elements_found [Ie 0 []; Ie 3 [6]; Ie 0 [65]] [9]).
  split; [by_computation|]. split; reflexivity.
Defined.

(** A vendor-specific element of fewer than three bytes, last in the buffer,
    makes the reader look past the end of the buffer. *)
Lemma vendor_element_overread es v :
  good_ies es -> zlen v < 3 ->
  let bs := ies_bytes (es ++ [Ie IEEE80211_IE_VENDOR_SPECIFIC v]) in
  ieee80211_retrieve_information_elements_position bs (zlen bs) = None.
Proof. intros (Hwf & Hok & Hv). by apply retrieve_overread. Qed.

(** a network name is valid exactly when it is the name asked for or one of
    the list of names; otherwise an empty name is a wildcard, and any other is
    wrong. *)
Lemma ssid_matching name v vs r1 r2 :
  zlen v < 256 -> Forall (fun v => 0 < zlen v < 256) vs ->
  let names := ies_bytes (Ie IEEE80211_IE_SSID <$> vs) in
  zlen names < 256 ->
  ieee80211_is_valid_ssid name (Some (ie_bytes (Ie IEEE80211_IE_SSID v) ++ r1))
    (Some (ie_bytes (Ie IEEE80211_IE_SSID_LIST names) ++ r2)) =
  Some (if bool_decide (cstr name ∈ v :: vs) then IEEE80211_VALID_SSID
        else if bool_decide (v = []) then IEEE80211_WILDCARD_SSID else IEEE80211_WRONG_SSID).
Proof. apply is_valid_ssid_spec. Qed.

Lemma ssid_matching_witness :
  ieee80211_is_valid_ssid [65; 66; 0] (Some [0; 0]) (Some [84; 7; 0; 1; 65; 0; 2; 65; 66]) =
    Some IEEE80211_VALID_SSID.
Proof.
  apply (ssid_matching [65; 66; 0] [] [[65]; [65; 66]] [] []); [cbn; lia|by_computation|cbn; lia].
Defined.

(** ** Association identifiers *)

(** A new association gets the smallest identifier between 1 and 2007 that
    is not in use, and marks that one only; it is refused, with nothing
    changed, exactly when all of them are in use. *)
Lemma aid_allocation words :
  words_ok words -> zlen words = IEEE80211_AID_BITFIELD_SIZE ->
  let '(r, aid, words') := ieee80211_aid_create words in
  (r = 0 /\ 1 <= aid <= 2007 /\ in_use words aid = false /\
   (forall k, 1 <= k < aid -> in_use words k = true) /\
   forall k, 1 <= k -> in_use words' k = (k =? aid) || in_use words k) \/
  (r = -1 /\ aid = 0 /\ words' = words /\ forall k, 1 <= k <= 2007 -> in_use words k = true).
Proof.
  intros Hw Hl. pose proof (aid_create_spec words Hw Hl) as Hs.
  destruct (ieee80211_aid_create words) as [[r aid] words']. exact (proj2 Hs).
Qed.

Lemma aid_allocation_witness :
  exists words, ieee80211_aid_create (replicate 63 0) = (0, 1, words) /\ in_use words 1 = true.
Proof.
  pose proof (aid_allocation (replicate 63 0)) as Hs.
  destruct (ieee80211_aid_create (replicate 63 0)) as [[r aid] words] eqn:E.
  destruct Hs as [(-> & _ & _ & Hmin & Hu)|(_ & _ & _ & Hall)]; [by_computation|reflexivity|..].
  - assert (aid = 1) as -> by (vm_compute in E; congruence).
    exists words. split; [done|]. rewrite Hu by lia. reflexivity.
  - specialize (Hall 1 ltac:(lia)). discriminate Hall.
Defined.

(** ** Frames *)

(** the addresses of a frame: the receiver, the sender and the network of a
    management frame, or of a data frame that is not relayed between two access
    points, are its three addresses in some order, and the accessors return
    them all or none. *)
Lemma frame_addresses h :
  match ieee80211_get_da_addr h, ieee80211_get_sa_addr h, ieee80211_get_bssid_addr h with
  | Some da, Some sa, Some bssid => [da; sa; bssid] ≡ₚ [address1 h; address2 h; address3 h]
  | None, None, None =>
      let fc := framecontrol h in
      let type := IEEE80211_FRAME_CONTROL_GET_TYPE fc in
      type <> 0 /\ (type = 2 -> Z.testbit fc 8 = true /\ Z.testbit fc 9 = true)
  | _, _, _ => False
  end.
Proof.
  unfold ieee80211_get_da_addr, ieee80211_get_sa_addr, ieee80211_get_bssid_addr.
  rewrite !select_addr_spec. cbv zeta. destruct (Z.eqb_spec (IEEE80211_FRAME_CONTROL_GET_TYPE (framecontrol h)) 0).
  { reflexivity. }
  destruct (Z.eqb_spec (IEEE80211_FRAME_CONTROL_GET_TYPE (framecontrol h)) 2) as [E|E]; [|done].
  destruct (Z.testbit (framecontrol h) 8), (Z.testbit (framecontrol h) 9); try done; solve_Permutation.
Qed.

(** C36: a probe response fits in the buffer it is given when its bytes do, and
    a station that reads it finds the addresses, the name, the rates, the
    channel and the other elements it was made from. *)
Theorem probe_response_read_back p extra b start :
  probe_wf p -> chars_ok (cstr (pr_ssid p)) -> is_u8 (pr_channel p) -> is_u8 (pr_erpinfo p) ->
  good_ies extra -> pr_response_ies p = ies_bytes extra ->
  pr_response_ies_len p = zlen (ies_bytes extra) ->
  0 <= start -> start + zlen (probe_frame p) <= zlen b ->
  exists n b', ieee80211_create_probe_response b start p = Some (n, b') /\ length b' = length b /\
    let frame := slice start n b' in
    ieee80211_get_da_addr frame = Some (pr_station p) /\
    ieee80211_get_sa_addr frame = Some (pr_bssid p) /\
    ieee80211_get_bssid_addr frame = Some (pr_bssid p) /\
    ieee80211_retrieve_information_elements_position (drop 36 frame) (n - 36) =
      Some (0, items_of (probe_ies p ++ extra) []).
Proof.
  intros Hwf Hc Hch He Hex Hies Hlen Hs Hl. pose proof Hwf as (Hst & Hbs & Hss & Hr & _).
  exists (zlen (probe_frame p)), (write_at start (probe_frame p) b).
  rewrite create_probe_response_spec by done. split; [done|]. split; [by apply length_write_at|].
  rewrite slice_write_same by done. unfold probe_frame in *.
  rewrite Hlen, Hies, Nat2Z.id, take_ge, <- ies_bytes_app by done.
  pose proof (length_probe_header p Hst Hbs) as Hh. cbv zeta. unfold probe_header in *.
  destruct (mgmt_addresses IEEE80211_FRAMECONTROL_MGMT_SUBTYPE_PROBE_RESPONSE (pr_station p) (pr_bssid p)
    (pr_bssid p) (beacon_body (pr_beaconperiod p) (pr_capability p)) (ies_bytes (probe_ies p ++ extra)))
    as (-> & -> & ->); [done..|]. split_and!; [done..|].
  rewrite drop_app_length' by lia. rewrite length_app.
  replace (_ - 36) with (zlen (ies_bytes (probe_ies p ++ extra))) by lia.
  rewrite <- (app_nil_r (ies_bytes (probe_ies p ++ extra))) at 1.
  destruct (good_ies_app (probe_ies p) extra) as (W & O & V); [by apply good_network|done|].
  by apply retrieve_spec.
Qed.

(** A network "AB" on channel 6 with nine rates and protection information. *)
Definition sample_rates : list Z := [2; 4; 11; 22; 12; 18; 24; 36; 48; 0; 0; 0; 0; 0; 0; 0].
Definition sample_probe : ieee80211_probe_response_params :=
  ProbeParams [2; 0; 0; 0; 0; 1] [2; 0; 0; 0; 0; 9] 100 1 [65; 66; 0] 9 sample_rates 6 4 3 0 [].

Lemma probe_response_read_back_witness :
  exists b, ieee80211_create_probe_response (replicate 100 0) 10 sample_probe = Some (59, b) /\
    ieee80211_retrieve_information_elements_position (drop 36 (slice 10 59 b)) 23 =
      Some (0, items_of (probe_ies sample_probe) []).
Proof.
  destruct (probe_response_read_back sample_probe [] (replicate 100 0) 10)
    as (n & b & E & _ & _ & _ & _ & Hi).
  - unfold probe_wf, rates_wf, IEEE80211_SUPPORTEDRATE_MAX_COUNT. cbn. split_and!; try lia. by_computation.
  - by_computation.
  - cbn. lia.
  - cbn. lia.
  - split_and!; [constructor|reflexivity..].
  - reflexivity.
  - reflexivity.
  - lia.
  - vm_compute. discriminate.
  - pose proof E as E'. vm_compute in E. injection E as <- <-. eexists. split; [exact E'|]. exact Hi.
Defined.

(** A beacon is written as a head that ends where the traffic indication
    map goes, a tail, and, when it is asked for, the probe response the radio is
    to send by itself; the parameters tell where each part is, no byte outside
    them changes, and the offloaded response has the elements of the beacon
    with the name shown. *)
Lemma beacon_layout_correct p b :
  beacon_wf p ->
  zlen (beacon_head p ++ beacon_tail p ++ beacon_offload p) <= zlen b ->
  exists n b' p', ieee80211_create_beacon b p = Some (n, b', p') /\
    slice (headbeacon p') (headbeaconlength p') b' = beacon_head p /\
    slice (tailbeacon p') (tailbeaconlength p') b' = beacon_tail p /\
    tailbeacon p' = headbeaconlength p' /\
    (offloaded p = true ->
     slice (proberesponseoffload p') (proberesponseoffloadlength p') b' = beacon_offload p /\
     n = proberesponseoffload p' + proberesponseoffloadlength p') /\
    (offloaded p = false -> n = tailbeacon p' + tailbeaconlength p') /\
    drop (Z.to_nat n) b' = drop (Z.to_nat n) b /\ length b' = length b.
Proof.
  intros Hwf Hl. set (bs := beacon_head p ++ beacon_tail p ++ beacon_offload p) in *.
  exists (zlen bs), (write_at 0 bs b), (beacon_layout p).
  rewrite create_beacon_spec by done. split; [done|].
  assert (Hsl : forall k m, 0 <= k -> 0 <= m -> k + m <= zlen bs ->
    slice k m (write_at 0 bs b) = take (Z.to_nat m) (drop (Z.to_nat k) bs)).
  { intros k m Hk Hm Hkm. unfold slice, write_at. rewrite take_0, app_nil_l.
    rewrite drop_app_le by lia. by rewrite take_app_le by (rewrite length_drop; lia). }
  assert (Hb : zlen bs = zlen (beacon_head p) + zlen (beacon_tail p) + zlen (beacon_offload p))
    by (unfold bs; rewrite !length_app; lia).
  assert (Hd : drop (Z.to_nat (zlen bs)) (write_at 0 bs b) = drop (Z.to_nat (zlen bs)) b).
  { unfold write_at. rewrite take_0, app_nil_l, Nat2Z.id, drop_app_length. done. }
  assert (H1 : slice 0 (zlen (beacon_head p)) (write_at 0 bs b) = beacon_head p).
  { rewrite Hsl by lia. rewrite Nat2Z.id, drop_0. unfold bs. by rewrite take_app_length. }
  assert (H2 : slice (zlen (beacon_head p)) (zlen (beacon_tail p)) (write_at 0 bs b) = beacon_tail p).
  { rewrite Hsl by lia. rewrite !Nat2Z.id. unfold bs. by rewrite drop_app_length, take_app_length. }
  assert (H3 : slice (zlen (beacon_head p) + zlen (beacon_tail p)) (zlen (beacon_offload p)) (write_at 0 bs b)
     = beacon_offload p).
  { rewrite Hsl by lia. rewrite Nat2Z.id. unfold bs. rewrite app_assoc, drop_app_length'
      by (rewrite length_app; lia). by rewrite take_ge. }
  unfold beacon_layout. destruct (offloaded p) eqn:Eo; beacon_fields; split_and!; try done; try lia;
    try (by apply length_write_at).
  intros _. assert (zlen (beacon_offload p) = 0) by (unfold beacon_offload; by rewrite Eo). lia.
Qed.

Definition sample_beacon : ieee80211_beacon_params :=
  BeaconParams 1 0 0 0 0 [2; 0; 0; 0; 0; 1] 100 1 [65; 66; 0] true 9 sample_rates 6 4 3 0 [] 0 [] 0 0.

Lemma beacon_layout_correct_witness :
  exists n b p, ieee80211_create_beacon (replicate 200 0) sample_beacon = Some (n, b, p) /\
    tailbeacon p = 51 /\ slice (tailbeacon p) (tailbeaconlength p) b = [42; 1; 3; 50; 1; 48].
Proof.
  destruct (beacon_layout_correct sample_beacon (replicate 200 0))
    as (n & b & p & E & _ & Ht & _).
  - unfold beacon_wf, rates_wf, IEEE80211_SUPPORTEDRATE_MAX_COUNT. cbn. split_and!; try lia. by_computation.
  - vm_compute. discriminate.
  - exists n, b, p. split; [exact E|]. split.
    + vm_compute in E. injection E as <- <- <-. reflexivity.
    + rewrite Ht. reflexivity.
Defined.
