(* ===== verification/AcJson.v ===== *)
(** The 802.11 message elements in the documents of the back end
    (src/ac/ac_80211_json.c and ac_80211_json_*.c).

    A document has an entry per radio; the controller collects elements in the
    [ac_json_ieee80211_wtpradio] structure, by radio and kind, from a received
    message or from a document, and writes them to a document or to a message.
    [None] is an access outside an array. *)
From stdpp Require Import option strings.
From S2P Require Import Prelude Io Header CapwapArray Elements80211a Elements80211b Element.
From S2P Require Import Tx Rx Packet Base64 Json.
#[local] Open Scope Z_scope.

Definition IEEE80211_BINDING_JSON_ROOT : string := "WTPRadio"%string.
Definition CAPWAP_ANTENNA_DIVERSITY_DISABLE : Z := 0.
Definition CAPWAP_ANTENNA_DIVERSITY_ENABLE : Z := 1.
Definition CAPWAP_OFDMCONTROL_BAND_MASK : Z := 127.
Definition CAPWAP_RATESET_MINLENGTH : Z := 2.
Definition CAPWAP_SUPPORTEDRATES_MINLENGTH : Z := 2.
Definition CAPWAP_RADIO_TYPE_MASK : Z := 15.

(** ** The elements of a radio *)

Record ac_json_ieee80211_item := JsonItem {
  valid : bool;
  addwlan : option AddWlan.capwap_80211_addwlan_element;
  antenna : option Antenna.capwap_80211_antenna_element;
  assignbssid : option AssignBssid.capwap_80211_assignbssid_element;
  deletewlan : option DeleteWlan.capwap_80211_deletewlan_element;
  directsequencecontrol : option DirectSequenceControl.capwap_80211_directsequencecontrol_element;
  iearray : option (list Ie.capwap_80211_ie_element);
  macoperation : option MacOperation.capwap_80211_macoperation_element;
  miccountermeasures : option MicCountermeasures.capwap_80211_miccountermeasures_element;
  multidomaincapability : option MultiDomainCapability.capwap_80211_multidomaincapability_element;
  ofdmcontrol : option OfdmControl.capwap_80211_ofdmcontrol_element;
  rateset : option RateSet.capwap_80211_rateset_element;
  rsnaerrorreport : option RsnaErrorReport.capwap_80211_rsnaerrorreport_element;
  statistics : option Statistics.capwap_80211_statistics_element;
  supportedrates : option SupportedRates.capwap_80211_supportedrates_element;
  txpower : option TxPower.capwap_80211_txpower_element;
  txpowerlevel : option TxPowerLevel.capwap_80211_txpowerlevel_element;
  updatewlan : option UpdateWlan.capwap_80211_updatewlan_element;
  wtpqos : option WtpQos.capwap_80211_wtpqos_element;
  wtpradioconf : option WtpRadioConf.capwap_80211_wtpradioconf_element;
  wtpradiofailalarm : option WtpRadioFailAlarm.capwap_80211_wtpradiofailalarm_element;
  wtpradioinformation : option WtpRadioInformation.capwap_80211_wtpradioinformation_element
}.

(** [struct ac_json_ieee80211_wtpradio]: the items of the radios, from radio 1 on. *)
Definition ac_json_ieee80211_wtpradio : Type := list ac_json_ieee80211_item.

Definition ac_json_ieee80211_init : ac_json_ieee80211_wtpradio :=
  replicate (Z.to_nat RADIOID_MAX_COUNT) (JsonItem false None None None None None None None None None None None None None None None None None None None None None).

(** The field of a kind: [None] for a null pointer, and for a kind that has no
    field. *)
Definition slot (k : element_kind) (item : ac_json_ieee80211_item) : option (element_data k) :=
  match k with
  | K_80211_addwlan => addwlan item
  | K_80211_antenna => antenna item
  | K_80211_assignbssid => assignbssid item
  | K_80211_deletewlan => deletewlan item
  | K_80211_directsequencecontrol => directsequencecontrol item
  | K_80211_macoperation => macoperation item
  | K_80211_miccountermeasures => miccountermeasures item
  | K_80211_multidomaincapability => multidomaincapability item
  | K_80211_ofdmcontrol => ofdmcontrol item
  | K_80211_rateset => rateset item
  | K_80211_rsnaerrorreport => rsnaerrorreport item
  | K_80211_statistics => statistics item
  | K_80211_supportedrates => supportedrates item
  | K_80211_txpower => txpower item
  | K_80211_txpowerlevel => txpowerlevel item
  | K_80211_updatewlan => updatewlan item
  | K_80211_wtpqos => wtpqos item
  | K_80211_wtpradioconf => wtpradioconf item
  | K_80211_wtpradiofailalarm => wtpradiofailalarm item
  | K_80211_wtpradioinformation => wtpradioinformation item
  | _ => None
  end.

Definition set_slot (k : element_kind) (d : element_data k) (item : ac_json_ieee80211_item)
    : ac_json_ieee80211_item :=
  match k as k return element_data k -> ac_json_ieee80211_item with
  | K_80211_addwlan => fun d => JsonItem true (Some d) (antenna item) (assignbssid item) (deletewlan item) (directsequencecontrol item) (iearray item) (macoperation item) (miccountermeasures item) (multidomaincapability item) (ofdmcontrol item) (rateset item) (rsnaerrorreport item) (statistics item) (supportedrates item) (txpower item) (txpowerlevel item) (updatewlan item) (wtpqos item) (wtpradioconf item) (wtpradiofailalarm item) (wtpradioinformation item)
  | K_80211_antenna => fun d => JsonItem true (addwlan item) (Some d) (assignbssid item) (deletewlan item) (directsequencecontrol item) (iearray item) (macoperation item) (miccountermeasures item) (multidomaincapability item) (ofdmcontrol item) (rateset item) (rsnaerrorreport item) (statistics item) (supportedrates item) (txpower item) (txpowerlevel item) (updatewlan item) (wtpqos item) (wtpradioconf item) (wtpradiofailalarm item) (wtpradioinformation item)
  | K_80211_assignbssid => fun d => JsonItem true (addwlan item) (antenna item) (Some d) (deletewlan item) (directsequencecontrol item) (iearray item) (macoperation item) (miccountermeasures item) (multidomaincapability item) (ofdmcontrol item) (rateset item) (rsnaerrorreport item) (statistics item) (supportedrates item) (txpower item) (txpowerlevel item) (updatewlan item) (wtpqos item) (wtpradioconf item) (wtpradiofailalarm item) (wtpradioinformation item)
  | K_80211_deletewlan => fun d => JsonItem true (addwlan item) (antenna item) (assignbssid item) (Some d) (directsequencecontrol item) (iearray item) (macoperation item) (miccountermeasures item) (multidomaincapability item) (ofdmcontrol item) (rateset item) (rsnaerrorreport item) (statistics item) (supportedrates item) (txpower item) (txpowerlevel item) (updatewlan item) (wtpqos item) (wtpradioconf item) (wtpradiofailalarm item) (wtpradioinformation item)
  | K_80211_directsequencecontrol => fun d => JsonItem true (addwlan item) (antenna item) (assignbssid item) (deletewlan item) (Some d) (iearray item) (macoperation item) (miccountermeasures item) (multidomaincapability item) (ofdmcontrol item) (rateset item) (rsnaerrorreport item) (statistics item) (supportedrates item) (txpower item) (txpowerlevel item) (updatewlan item) (wtpqos item) (wtpradioconf item) (wtpradiofailalarm item) (wtpradioinformation item)
  | K_80211_macoperation => fun d => JsonItem true (addwlan item) (antenna item) (assignbssid item) (deletewlan item) (directsequencecontrol item) (iearray item) (Some d) (miccountermeasures item) (multidomaincapability item) (ofdmcontrol item) (rateset item) (rsnaerrorreport item) (statistics item) (supportedrates item) (txpower item) (txpowerlevel item) (updatewlan item) (wtpqos item) (wtpradioconf item) (wtpradiofailalarm item) (wtpradioinformation item)
  | K_80211_miccountermeasures => fun d => JsonItem true (addwlan item) (antenna item) (assignbssid item) (deletewlan item) (directsequencecontrol item) (iearray item) (macoperation item) (Some d) (multidomaincapability item) (ofdmcontrol item) (rateset item) (rsnaerrorreport item) (statistics item) (supportedrates item) (txpower item) (txpowerlevel item) (updatewlan item) (wtpqos item) (wtpradioconf item) (wtpradiofailalarm item) (wtpradioinformation item)
  | K_80211_multidomaincapability => fun d => JsonItem true (addwlan item) (antenna item) (assignbssid item) (deletewlan item) (directsequencecontrol item) (iearray item) (macoperation item) (miccountermeasures item) (Some d) (ofdmcontrol item) (rateset item) (rsnaerrorreport item) (statistics item) (supportedrates item) (txpower item) (txpowerlevel item) (updatewlan item) (wtpqos item) (wtpradioconf item) (wtpradiofailalarm item) (wtpradioinformation item)
  | K_80211_ofdmcontrol => fun d => JsonItem true (addwlan item) (antenna item) (assignbssid item) (deletewlan item) (directsequencecontrol item) (iearray item) (macoperation item) (miccountermeasures item) (multidomaincapability item) (Some d) (rateset item) (rsnaerrorreport item) (statistics item) (supportedrates item) (txpower item) (txpowerlevel item) (updatewlan item) (wtpqos item) (wtpradioconf item) (wtpradiofailalarm item) (wtpradioinformation item)
  | K_80211_rateset => fun d => JsonItem true (addwlan item) (antenna item) (assignbssid item) (deletewlan item) (directsequencecontrol item) (iearray item) (macoperation item) (miccountermeasures item) (multidomaincapability item) (ofdmcontrol item) (Some d) (rsnaerrorreport item) (statistics item) (supportedrates item) (txpower item) (txpowerlevel item) (updatewlan item) (wtpqos item) (wtpradioconf item) (wtpradiofailalarm item) (wtpradioinformation item)
  | K_80211_rsnaerrorreport => fun d => JsonItem true (addwlan item) (antenna item) (assignbssid item) (deletewlan item) (directsequencecontrol item) (iearray item) (macoperation item) (miccountermeasures item) (multidomaincapability item) (ofdmcontrol item) (rateset item) (Some d) (statistics item) (supportedrates item) (txpower item) (txpowerlevel item) (updatewlan item) (wtpqos item) (wtpradioconf item) (wtpradiofailalarm item) (wtpradioinformation item)
  | K_80211_statistics => fun d => JsonItem true (addwlan item) (antenna item) (assignbssid item) (deletewlan item) (directsequencecontrol item) (iearray item) (macoperation item) (miccountermeasures item) (multidomaincapability item) (ofdmcontrol item) (rateset item) (rsnaerrorreport item) (Some d) (supportedrates item) (txpower item) (txpowerlevel item) (updatewlan item) (wtpqos item) (wtpradioconf item) (wtpradiofailalarm item) (wtpradioinformation item)
  | K_80211_supportedrates => fun d => JsonItem true (addwlan item) (antenna item) (assignbssid item) (deletewlan item) (directsequencecontrol item) (iearray item) (macoperation item) (miccountermeasures item) (multidomaincapability item) (ofdmcontrol item) (rateset item) (rsnaerrorreport item) (statistics item) (Some d) (txpower item) (txpowerlevel item) (updatewlan item) (wtpqos item) (wtpradioconf item) (wtpradiofailalarm item) (wtpradioinformation item)
  | K_80211_txpower => fun d => JsonItem true (addwlan item) (antenna item) (assignbssid item) (deletewlan item) (directsequencecontrol item) (iearray item) (macoperation item) (miccountermeasures item) (multidomaincapability item) (ofdmcontrol item) (rateset item) (rsnaerrorreport item) (statistics item) (supportedrates item) (Some d) (txpowerlevel item) (updatewlan item) (wtpqos item) (wtpradioconf item) (wtpradiofailalarm item) (wtpradioinformation item)
  | K_80211_txpowerlevel => fun d => JsonItem true (addwlan item) (antenna item) (assignbssid item) (deletewlan item) (directsequencecontrol item) (iearray item) (macoperation item) (miccountermeasures item) (multidomaincapability item) (ofdmcontrol item) (rateset item) (rsnaerrorreport item) (statistics item) (supportedrates item) (txpower item) (Some d) (updatewlan item) (wtpqos item) (wtpradioconf item) (wtpradiofailalarm item) (wtpradioinformation item)
  | K_80211_updatewlan => fun d => JsonItem true (addwlan item) (antenna item) (assignbssid item) (deletewlan item) (directsequencecontrol item) (iearray item) (macoperation item) (miccountermeasures item) (multidomaincapability item) (ofdmcontrol item) (rateset item) (rsnaerrorreport item) (statistics item) (supportedrates item) (txpower item) (txpowerlevel item) (Some d) (wtpqos item) (wtpradioconf item) (wtpradiofailalarm item) (wtpradioinformation item)
  | K_80211_wtpqos => fun d => JsonItem true (addwlan item) (antenna item) (assignbssid item) (deletewlan item) (directsequencecontrol item) (iearray item) (macoperation item) (miccountermeasures item) (multidomaincapability item) (ofdmcontrol item) (rateset item) (rsnaerrorreport item) (statistics item) (supportedrates item) (txpower item) (txpowerlevel item) (updatewlan item) (Some d) (wtpradioconf item) (wtpradiofailalarm item) (wtpradioinformation item)
  | K_80211_wtpradioconf => fun d => JsonItem true (addwlan item) (antenna item) (assignbssid item) (deletewlan item) (directsequencecontrol item) (iearray item) (macoperation item) (miccountermeasures item) (multidomaincapability item) (ofdmcontrol item) (rateset item) (rsnaerrorreport item) (statistics item) (supportedrates item) (txpower item) (txpowerlevel item) (updatewlan item) (wtpqos item) (Some d) (wtpradiofailalarm item) (wtpradioinformation item)
  | K_80211_wtpradiofailalarm => fun d => JsonItem true (addwlan item) (antenna item) (assignbssid item) (deletewlan item) (directsequencecontrol item) (iearray item) (macoperation item) (miccountermeasures item) (multidomaincapability item) (ofdmcontrol item) (rateset item) (rsnaerrorreport item) (statistics item) (supportedrates item) (txpower item) (txpowerlevel item) (updatewlan item) (wtpqos item) (wtpradioconf item) (Some d) (wtpradioinformation item)
  | K_80211_wtpradioinformation => fun d => JsonItem true (addwlan item) (antenna item) (assignbssid item) (deletewlan item) (directsequencecontrol item) (iearray item) (macoperation item) (miccountermeasures item) (multidomaincapability item) (ofdmcontrol item) (rateset item) (rsnaerrorreport item) (statistics item) (supportedrates item) (txpower item) (txpowerlevel item) (updatewlan item) (wtpqos item) (wtpradioconf item) (wtpradiofailalarm item) (Some d)
  | _ => fun _ => item
  end d.

Definition set_iearray (l : list Ie.capwap_80211_ie_element) (item : ac_json_ieee80211_item)
    : ac_json_ieee80211_item :=
  JsonItem true (addwlan item) (antenna item) (assignbssid item) (deletewlan item) (directsequencecontrol item) (Some l) (macoperation item) (miccountermeasures item) (multidomaincapability item) (ofdmcontrol item) (rateset item) (rsnaerrorreport item) (statistics item) (supportedrates item) (txpower item) (txpowerlevel item) (updatewlan item) (wtpqos item) (wtpradioconf item) (wtpradiofailalarm item) (wtpradioinformation item).

(** [&wtpradio->items[radioid - 1]]. *)
Definition item_of (w : ac_json_ieee80211_wtpradio) (radioid : Z) : option ac_json_ieee80211_item :=
  if radioid - 1 <? 0 then None else w !! Z.to_nat (radioid - 1).

Section Operations.
Context `{Indeterminate} `{Target}.

(** The body of the [addmessageelement] callbacks: 0 when the radio has such an
    element that is not to be replaced, 1 with the clone of [data] stored. *)
Definition add_single (k : element_kind) (w : ac_json_ieee80211_wtpradio) (radioid : Z) (data : element_data k)
    (overwrite : bool) : option (Z * ac_json_ieee80211_wtpradio) :=
  item ← item_of w radioid;
  match slot k item with
  | Some _ => if overwrite then Some (1, <[Z.to_nat (radioid - 1) := set_slot k (clone (element_ops k) data) item]> w)
              else Some (0, w)
  | None => Some (1, <[Z.to_nat (radioid - 1) := set_slot k (clone (element_ops k) data) item]> w)
  end.

(** [length] entries of an array of rates or levels: an entry that is a number
    is stored at its own index and counted. *)
Fixpoint fill_numbers (cast : Z -> Z) (i : nat) (l : list json) (count : Z) (values : list Z) : Z * list Z :=
  match l with
  | [] => (count, values)
  | j :: l =>
      match int_of j with
      | Some n => fill_numbers cast (S i) l (count + 1) (<[i := cast n]> values)
      | None => fill_numbers cast (S i) l count values
      end
  end.

(** [count] values of an array as a document. *)
Definition numbers_json (count : Z) (values : list Z) : option json :=
  l ← Array.fetch count values; Some (JArray (json_object_new_int <$> l)).

(** ** IEEE80211AddWLAN *)

Definition ac_json_80211_addwlan_createmessageelement (jsonparent : json) (radioid : Z)
    : option AddWlan.capwap_80211_addwlan_element := None.

Definition ac_json_80211_addwlan_addmessageelement (w : ac_json_ieee80211_wtpradio)
    (data : AddWlan.capwap_80211_addwlan_element) (overwrite : bool) : option (Z * ac_json_ieee80211_wtpradio) :=
  add_single K_80211_addwlan w (AddWlan.radioid data) data overwrite.

Definition ac_json_80211_addwlan_createjson (jsonparent : json) (data : AddWlan.capwap_80211_addwlan_element)
    : option json := Some jsonparent.

(** ** IEEE80211Antenna *)

Definition ac_json_80211_antenna_createmessageelement (jsonparent : json) (radioid : Z)
    : option Antenna.capwap_80211_antenna_element :=
  diversity ← get_boolean jsonparent "Diversity";
  combiner ← get_int jsonparent "Combiner";
  l ← get_array jsonparent "AntennaSelection";
  Some {| Antenna.radioid := wrap8 radioid;
          Antenna.diversity := if diversity : bool then CAPWAP_ANTENNA_DIVERSITY_ENABLE
                               else CAPWAP_ANTENNA_DIVERSITY_DISABLE;
          Antenna.combiner := wrap8 combiner;
          Antenna.selections := omap (fun j => wrap8 <$> int_of j) l |}.

Definition ac_json_80211_antenna_addmessageelement (w : ac_json_ieee80211_wtpradio)
    (data : Antenna.capwap_80211_antenna_element) (overwrite : bool) : option (Z * ac_json_ieee80211_wtpradio) :=
  add_single K_80211_antenna w (Antenna.radioid data) data overwrite.

Definition ac_json_80211_antenna_createjson (jsonparent : json) (data : Antenna.capwap_80211_antenna_element)
    : option json :=
  Some (json_object_object_add jsonparent "IEEE80211Antenna" (json_object
    [("Diversity"%string, json_object_new_boolean
        (if Antenna.diversity data =? CAPWAP_ANTENNA_DIVERSITY_ENABLE then 1 else 0));
     ("Combiner"%string, json_object_new_int (Antenna.combiner data));
     ("AntennaSelection"%string, JArray (json_object_new_int <$> Antenna.selections data))])).

(** ** IEEE80211AssignBSSID *)

Definition ac_json_80211_assignbssid_createmessageelement (jsonparent : json) (radioid : Z)
    : option AssignBssid.capwap_80211_assignbssid_element := None.

Definition ac_json_80211_assignbssid_addmessageelement (w : ac_json_ieee80211_wtpradio)
    (data : AssignBssid.capwap_80211_assignbssid_element) (overwrite : bool) : option (Z * ac_json_ieee80211_wtpradio) :=
  add_single K_80211_assignbssid w (AssignBssid.radioid data) data overwrite.

Definition ac_json_80211_assignbssid_createjson (jsonparent : json) (data : AssignBssid.capwap_80211_assignbssid_element)
    : option json := Some jsonparent.

(** ** IEEE80211DeleteWLAN *)

Definition ac_json_80211_deletewlan_createmessageelement (jsonparent : json) (radioid : Z)
    : option DeleteWlan.capwap_80211_deletewlan_element := None.

Definition ac_json_80211_deletewlan_addmessageelement (w : ac_json_ieee80211_wtpradio)
    (data : DeleteWlan.capwap_80211_deletewlan_element) (overwrite : bool) : option (Z * ac_json_ieee80211_wtpradio) :=
  add_single K_80211_deletewlan w (DeleteWlan.radioid data) data overwrite.

Definition ac_json_80211_deletewlan_createjson (jsonparent : json) (data : DeleteWlan.capwap_80211_deletewlan_element)
    : option json := Some jsonparent.

(** ** IEEE80211DirectSequenceControl *)

Definition ac_json_80211_directsequencecontrol_createmessageelement (jsonparent : json) (radioid : Z)
    : option DirectSequenceControl.capwap_80211_directsequencecontrol_element :=
  currentchannel ← get_int jsonparent "CurrentChan";
  currentcca ← get_int jsonparent "CurrentCCA";
  enerydetectthreshold ← get_int jsonparent "EnergyDetectThreshold";
  Some {| DirectSequenceControl.radioid := wrap8 radioid;
          DirectSequenceControl.currentchannel := wrap8 currentchannel;
          DirectSequenceControl.currentcca := wrap8 currentcca;
          DirectSequenceControl.enerydetectthreshold := wrap32 enerydetectthreshold |}.

Definition ac_json_80211_directsequencecontrol_addmessageelement (w : ac_json_ieee80211_wtpradio)
    (data : DirectSequenceControl.capwap_80211_directsequencecontrol_element) (overwrite : bool) : option (Z * ac_json_ieee80211_wtpradio) :=
  add_single K_80211_directsequencecontrol w (DirectSequenceControl.radioid data) data overwrite.

Definition ac_json_80211_directsequencecontrol_createjson (jsonparent : json) (data : DirectSequenceControl.capwap_80211_directsequencecontrol_element)
    : option json :=
  Some (json_object_object_add jsonparent "IEEE80211DirectSequenceControl" (json_object
    [("CurrentChan"%string, json_object_new_int (DirectSequenceControl.currentchannel data));
     ("CurrentCCA"%string, json_object_new_int (DirectSequenceControl.currentcca data));
     ("EnergyDetectThreshold"%string, json_object_new_int (to_int (DirectSequenceControl.enerydetectthreshold data)))])).

(** ** IEEE80211IE *)

Definition ac_json_80211_ie_createmessageelement (jsonparent : json) (radioid : Z)
    : option Ie.capwap_80211_ie_element := None.

(** Appended to the elements of the radio. *)
Definition ac_json_80211_ie_addmessageelement (w : ac_json_ieee80211_wtpradio)
    (data : Ie.capwap_80211_ie_element) (overwrite : bool) : option (Z * ac_json_ieee80211_wtpradio) :=
  item ← item_of w (Ie.radioid data);
  Some (1, <[Z.to_nat (Ie.radioid data - 1) :=
             set_iearray (default [] (iearray item) ++ [clone (element_ops K_80211_ie) data]) item]> w).

Definition ac_json_80211_ie_createjson (jsonparent : json) (data : list Ie.capwap_80211_ie_element)
    : option json := Some jsonparent.

(** ** IEEE80211MACOperation *)

Definition ac_json_80211_macoperation_createmessageelement (jsonparent : json) (radioid : Z)
    : option MacOperation.capwap_80211_macoperation_element :=
  rtsthreshold ← get_int jsonparent "RTSThreshold";
  shortretry ← get_int jsonparent "ShortRetry";
  longretry ← get_int jsonparent "LongRetry";
  fragthreshold ← get_int jsonparent "FragmentationThreshold";
  txmsdulifetime ← get_int jsonparent "TxMSDULifetime";
  rxmsdulifetime ← get_int jsonparent "RxMSDULifetime";
  Some {| MacOperation.radioid := wrap8 radioid; MacOperation.rtsthreshold := wrap16 rtsthreshold;
          MacOperation.shortretry := wrap8 shortretry; MacOperation.longretry := wrap8 longretry;
          MacOperation.fragthreshold := wrap16 fragthreshold;
          MacOperation.txmsdulifetime := wrap32 txmsdulifetime;
          MacOperation.rxmsdulifetime := wrap32 rxmsdulifetime |}.

Definition ac_json_80211_macoperation_addmessageelement (w : ac_json_ieee80211_wtpradio)
    (data : MacOperation.capwap_80211_macoperation_element) (overwrite : bool) : option (Z * ac_json_ieee80211_wtpradio) :=
  add_single K_80211_macoperation w (MacOperation.radioid data) data overwrite.

Definition ac_json_80211_macoperation_createjson (jsonparent : json) (data : MacOperation.capwap_80211_macoperation_element)
    : option json :=
  Some (json_object_object_add jsonparent "IEEE80211MACOperation" (json_object
    [("RTSThreshold"%string, json_object_new_int (MacOperation.rtsthreshold data));
     ("ShortRetry"%string, json_object_new_int (MacOperation.shortretry data));
     ("LongRetry"%string, json_object_new_int (MacOperation.longretry data));
     ("FragmentationThreshold"%string, json_object_new_int (MacOperation.fragthreshold data));
     ("TxMSDULifetime"%string, json_object_new_int (to_int (MacOperation.txmsdulifetime data)));
     ("RxMSDULifetime"%string, json_object_new_int (to_int (MacOperation.rxmsdulifetime data)))])).

(** ** IEEE80211MicCounterMeasures *)

Definition ac_json_80211_miccountermeasures_createmessageelement (jsonparent : json) (radioid : Z)
    : option MicCountermeasures.capwap_80211_miccountermeasures_element := None.

Definition ac_json_80211_miccountermeasures_addmessageelement (w : ac_json_ieee80211_wtpradio)
    (data : MicCountermeasures.capwap_80211_miccountermeasures_element) (overwrite : bool) : option (Z * ac_json_ieee80211_wtpradio) :=
  add_single K_80211_miccountermeasures w (MicCountermeasures.radioid data) data overwrite.

Definition ac_json_80211_miccountermeasures_createjson (jsonparent : json) (data : MicCountermeasures.capwap_80211_miccountermeasures_element)
    : option json := Some jsonparent.

(** ** IEEE80211MultiDomainCapability *)

Definition ac_json_80211_multidomaincapability_createmessageelement (jsonparent : json) (radioid : Z)
    : option MultiDomainCapability.capwap_80211_multidomaincapability_element :=
  firstchannel ← get_int jsonparent "FirstChannel";
  numberchannels ← get_int jsonparent "NumberChannels";
  maxtxpowerlevel ← get_int jsonparent "MaxTxPowerLevel";
  Some {| MultiDomainCapability.radioid := wrap8 radioid;
          MultiDomainCapability.firstchannel := wrap16 firstchannel;
          MultiDomainCapability.numberchannels := wrap16 numberchannels;
          MultiDomainCapability.maxtxpowerlevel := wrap16 maxtxpowerlevel |}.

Definition ac_json_80211_multidomaincapability_addmessageelement (w : ac_json_ieee80211_wtpradio)
    (data : MultiDomainCapability.capwap_80211_multidomaincapability_element) (overwrite : bool) : option (Z * ac_json_ieee80211_wtpradio) :=
  add_single K_80211_multidomaincapability w (MultiDomainCapability.radioid data) data overwrite.

Definition ac_json_80211_multidomaincapability_createjson (jsonparent : json) (data : MultiDomainCapability.capwap_80211_multidomaincapability_element)
    : option json :=
  Some (json_object_object_add jsonparent "IEEE80211MultiDomainCapability" (json_object
    [("FirstChannel"%string, json_object_new_int (MultiDomainCapability.firstchannel data));
     ("NumberChannels"%string, json_object_new_int (MultiDomainCapability.numberchannels data));
     ("MaxTxPowerLevel"%string, json_object_new_int (MultiDomainCapability.maxtxpowerlevel data))])).

(** ** IEEE80211OFDMControl *)

Definition ac_json_80211_ofdmcontrol_createmessageelement (jsonparent : json) (radioid : Z)
    : option OfdmControl.capwap_80211_ofdmcontrol_element :=
  currentchannel ← get_int jsonparent "CurrentChan";
  bandsupport ← get_int jsonparent "BandSupport";
  tithreshold ← get_int jsonparent "TIThreshold";
  Some {| OfdmControl.radioid := wrap8 radioid; OfdmControl.currentchannel := wrap8 currentchannel;
          OfdmControl.bandsupport := Z.land (wrap8 bandsupport) CAPWAP_OFDMCONTROL_BAND_MASK;
          OfdmControl.tithreshold := wrap32 tithreshold |}.

Definition ac_json_80211_ofdmcontrol_addmessageelement (w : ac_json_ieee80211_wtpradio)
    (data : OfdmControl.capwap_80211_ofdmcontrol_element) (overwrite : bool) : option (Z * ac_json_ieee80211_wtpradio) :=
  add_single K_80211_ofdmcontrol w (OfdmControl.radioid data) data overwrite.

Definition ac_json_80211_ofdmcontrol_createjson (jsonparent : json) (data : OfdmControl.capwap_80211_ofdmcontrol_element)
    : option json :=
  Some (json_object_object_add jsonparent "IEEE80211OFDMControl" (json_object
    [("CurrentChan"%string, json_object_new_int (OfdmControl.currentchannel data));
     ("BandSupport"%string, json_object_new_int (OfdmControl.bandsupport data));
     ("TIThreshold"%string, json_object_new_int (to_int (OfdmControl.tithreshold data)))])).

(** ** IEEE80211Rateset *)

Definition ac_json_80211_rateset_createmessageelement (jsonparent : json) (radioid : Z)
    : option RateSet.capwap_80211_rateset_element :=
  l ← array_of jsonparent;
  if (zlen l <? CAPWAP_RATESET_MINLENGTH) || (RateSet.CAPWAP_RATESET_MAXLENGTH <? zlen l) then None else
  let '(count, values) := fill_numbers wrap8 0 l 0 (zeros RateSet.CAPWAP_RATESET_MAXLENGTH) in
  Some {| RateSet.radioid := wrap8 radioid; RateSet.ratesetcount := count; RateSet.rateset := values |}.

Definition ac_json_80211_rateset_addmessageelement (w : ac_json_ieee80211_wtpradio)
    (data : RateSet.capwap_80211_rateset_element) (overwrite : bool) : option (Z * ac_json_ieee80211_wtpradio) :=
  add_single K_80211_rateset w (RateSet.radioid data) data overwrite.

Definition ac_json_80211_rateset_createjson (jsonparent : json) (data : RateSet.capwap_80211_rateset_element)
    : option json :=
  v ← numbers_json (RateSet.ratesetcount data) (RateSet.rateset data);
  Some (json_object_object_add jsonparent "IEEE80211Rateset" v).

(** ** IEEE80211RSNAErrorReport *)

Definition ac_json_80211_rsnaerrorreport_createmessageelement (jsonparent : json) (radioid : Z)
    : option RsnaErrorReport.capwap_80211_rsnaerrorreport_element := None.

Definition ac_json_80211_rsnaerrorreport_addmessageelement (w : ac_json_ieee80211_wtpradio)
    (data : RsnaErrorReport.capwap_80211_rsnaerrorreport_element) (overwrite : bool) : option (Z * ac_json_ieee80211_wtpradio) :=
  add_single K_80211_rsnaerrorreport w (RsnaErrorReport.radioid data) data overwrite.

Definition ac_json_80211_rsnaerrorreport_createjson (jsonparent : json) (data : RsnaErrorReport.capwap_80211_rsnaerrorreport_element)
    : option json := Some jsonparent.

(** ** IEEE80211Statistics *)

Definition ac_json_80211_statistics_createmessageelement (jsonparent : json) (radioid : Z)
    : option Statistics.capwap_80211_statistics_element := None.

Definition ac_json_80211_statistics_addmessageelement (w : ac_json_ieee80211_wtpradio)
    (data : Statistics.capwap_80211_statistics_element) (overwrite : bool) : option (Z * ac_json_ieee80211_wtpradio) :=
  add_single K_80211_statistics w (Statistics.radioid data) data overwrite.

Definition ac_json_80211_statistics_createjson (jsonparent : json) (data : Statistics.capwap_80211_statistics_element)
    : option json := Some jsonparent.

(** ** IEEE80211SupportedRates *)

Definition ac_json_80211_supportedrates_createmessageelement (jsonparent : json) (radioid : Z)
    : option SupportedRates.capwap_80211_supportedrates_element :=
  l ← array_of jsonparent;
  if (zlen l <? CAPWAP_SUPPORTEDRATES_MINLENGTH) || (SupportedRates.CAPWAP_SUPPORTEDRATES_MAXLENGTH <? zlen l) then None else
  let '(count, values) := fill_numbers wrap8 0 l 0 (zeros SupportedRates.CAPWAP_SUPPORTEDRATES_MAXLENGTH) in
  Some {| SupportedRates.radioid := wrap8 radioid; SupportedRates.supportedratescount := count; SupportedRates.supportedrates := values |}.

Definition ac_json_80211_supportedrates_addmessageelement (w : ac_json_ieee80211_wtpradio)
    (data : SupportedRates.capwap_80211_supportedrates_element) (overwrite : bool) : option (Z * ac_json_ieee80211_wtpradio) :=
  add_single K_80211_supportedrates w (SupportedRates.radioid data) data overwrite.

Definition ac_json_80211_supportedrates_createjson (jsonparent : json) (data : SupportedRates.capwap_80211_supportedrates_element)
    : option json :=
  v ← numbers_json (SupportedRates.supportedratescount data) (SupportedRates.supportedrates data);
  Some (json_object_object_add jsonparent "IEEE80211SupportedRates" v).

(** ** IEEE80211TxPower *)

Definition ac_json_80211_txpower_createmessageelement (jsonparent : json) (radioid : Z)
    : option TxPower.capwap_80211_txpower_element :=
  currenttxpower ← get_int jsonparent "CurrentTxPower";
  Some {| TxPower.radioid := wrap8 radioid; TxPower.currenttxpower := wrap16 currenttxpower |}.

Definition ac_json_80211_txpower_addmessageelement (w : ac_json_ieee80211_wtpradio)
    (data : TxPower.capwap_80211_txpower_element) (overwrite : bool) : option (Z * ac_json_ieee80211_wtpradio) :=
  add_single K_80211_txpower w (TxPower.radioid data) data overwrite.

Definition ac_json_80211_txpower_createjson (jsonparent : json) (data : TxPower.capwap_80211_txpower_element)
    : option json :=
  Some (json_object_object_add jsonparent "IEEE80211TxPower" (json_object
    [("CurrentTxPower"%string, json_object_new_int (TxPower.currenttxpower data))])).

(** ** IEEE80211TXPowerLevel *)

Definition ac_json_80211_txpowerlevel_createmessageelement (jsonparent : json) (radioid : Z)
    : option TxPowerLevel.capwap_80211_txpowerlevel_element :=
  l ← array_of jsonparent;
  if TxPowerLevel.CAPWAP_TXPOWERLEVEL_MAXLENGTH <? zlen l then None else
  let '(count, values) := fill_numbers wrap16 0 l 0 (zeros TxPowerLevel.CAPWAP_TXPOWERLEVEL_MAXLENGTH) in
  Some {| TxPowerLevel.radioid := wrap8 radioid; TxPowerLevel.numlevels := count;
          TxPowerLevel.powerlevel := values |}.

Definition ac_json_80211_txpowerlevel_addmessageelement (w : ac_json_ieee80211_wtpradio)
    (data : TxPowerLevel.capwap_80211_txpowerlevel_element) (overwrite : bool) : option (Z * ac_json_ieee80211_wtpradio) :=
  add_single K_80211_txpowerlevel w (TxPowerLevel.radioid data) data overwrite.

Definition ac_json_80211_txpowerlevel_createjson (jsonparent : json) (data : TxPowerLevel.capwap_80211_txpowerlevel_element)
    : option json :=
  v ← numbers_json (TxPowerLevel.numlevels data) (TxPowerLevel.powerlevel data);
  Some (json_object_object_add jsonparent "IEEE80211TXPowerLevel" v).

(** ** IEEE80211UpdateWLAN *)

Definition ac_json_80211_updatewlan_createmessageelement (jsonparent : json) (radioid : Z)
    : option UpdateWlan.capwap_80211_updatewlan_element := None.

Definition ac_json_80211_updatewlan_addmessageelement (w : ac_json_ieee80211_wtpradio)
    (data : UpdateWlan.capwap_80211_updatewlan_element) (overwrite : bool) : option (Z * ac_json_ieee80211_wtpradio) :=
  add_single K_80211_updatewlan w (UpdateWlan.radioid data) data overwrite.

Definition ac_json_80211_updatewlan_createjson (jsonparent : json) (data : UpdateWlan.capwap_80211_updatewlan_element)
    : option json := Some jsonparent.

(** ** IEEE80211WTPQoS *)

Definition ac_json_80211_wtpqos_createmessageelement (jsonparent : json) (radioid : Z)
    : option WtpQos.capwap_80211_wtpqos_element := None.

Definition ac_json_80211_wtpqos_addmessageelement (w : ac_json_ieee80211_wtpradio)
    (data : WtpQos.capwap_80211_wtpqos_element) (overwrite : bool) : option (Z * ac_json_ieee80211_wtpradio) :=
  add_single K_80211_wtpqos w (WtpQos.radioid data) data overwrite.

Definition ac_json_80211_wtpqos_createjson (jsonparent : json) (data : WtpQos.capwap_80211_wtpqos_element)
    : option json := Some jsonparent.

(** ** IEEE80211WTPRadioConfiguration *)

Definition ac_json_80211_wtpradioconf_createmessageelement (jsonparent : json) (radioid : Z)
    : option WtpRadioConf.capwap_80211_wtpradioconf_element :=
  shortpreamble ← get_int jsonparent "ShortPreamble";
  maxbssid ← get_int jsonparent "NumBSSIDs";
  dtimperiod ← get_int jsonparent "DTIMPeriod";
  text ← get_string jsonparent "BSSID";
  bssid ← capwap_scanf_macaddress text MACADDRESS_EUI48_LENGTH;
  beaconperiod ← get_int jsonparent "BeaconPeriod";
  country ← get_string jsonparent "CountryString";
  if negb (Z.of_nat (strlen country) =? WtpRadioConf.CAPWAP_WTP_RADIO_CONF_COUNTRY_LENGTH - 1) then None else
  Some {| WtpRadioConf.radioid := wrap8 radioid; WtpRadioConf.shortpreamble := wrap8 shortpreamble;
          WtpRadioConf.maxbssid := wrap8 maxbssid; WtpRadioConf.dtimperiod := wrap8 dtimperiod;
          WtpRadioConf.bssid := bssid; WtpRadioConf.beaconperiod := wrap16 beaconperiod;
          WtpRadioConf.country := cstr country ++ [0] |}.

Definition ac_json_80211_wtpradioconf_addmessageelement (w : ac_json_ieee80211_wtpradio)
    (data : WtpRadioConf.capwap_80211_wtpradioconf_element) (overwrite : bool) : option (Z * ac_json_ieee80211_wtpradio) :=
  add_single K_80211_wtpradioconf w (WtpRadioConf.radioid data) data overwrite.

(** The country is read up to its terminator, which has to be in the array. *)
Definition ac_json_80211_wtpradioconf_createjson (jsonparent : json) (data : WtpRadioConf.capwap_80211_wtpradioconf_element)
    : option json :=
  text ← capwap_printf_macaddress (WtpRadioConf.bssid data) MACADDRESS_EUI48_LENGTH;
  if (strlen (WtpRadioConf.country data) =? length (WtpRadioConf.country data))%nat then None else
  Some (json_object_object_add jsonparent "IEEE80211WTPRadioConfiguration" (json_object
    [("ShortPreamble"%string, json_object_new_int (WtpRadioConf.shortpreamble data));
     ("NumBSSIDs"%string, json_object_new_int (WtpRadioConf.maxbssid data));
     ("DTIMPeriod"%string, json_object_new_int (WtpRadioConf.dtimperiod data));
     ("BSSID"%string, json_object_new_string text);
     ("BeaconPeriod"%string, json_object_new_int (WtpRadioConf.beaconperiod data));
     ("CountryString"%string, json_object_new_string (WtpRadioConf.country data))])).

(** ** IEEE80211WTPRadioFailAlarm *)

Definition ac_json_80211_wtpradiofailalarm_createmessageelement (jsonparent : json) (radioid : Z)
    : option WtpRadioFailAlarm.capwap_80211_wtpradiofailalarm_element :=
  value ← get_int jsonparent "Type";
  status ← get_int jsonparent "Status";
  Some {| WtpRadioFailAlarm.radioid := wrap8 radioid; WtpRadioFailAlarm.type := wrap8 value;
          WtpRadioFailAlarm.status := wrap8 status; WtpRadioFailAlarm.pad := 0 |}.

Definition ac_json_80211_wtpradiofailalarm_addmessageelement (w : ac_json_ieee80211_wtpradio)
    (data : WtpRadioFailAlarm.capwap_80211_wtpradiofailalarm_element) (overwrite : bool) : option (Z * ac_json_ieee80211_wtpradio) :=
  add_single K_80211_wtpradiofailalarm w (WtpRadioFailAlarm.radioid data) data overwrite.

Definition ac_json_80211_wtpradiofailalarm_createjson (jsonparent : json) (data : WtpRadioFailAlarm.capwap_80211_wtpradiofailalarm_element)
    : option json :=
  Some (json_object_object_add jsonparent "IEEE80211WTPRadioFailAlarm" (json_object
    [("Type"%string, json_object_new_int (WtpRadioFailAlarm.type data));
     ("Status"%string, json_object_new_int (WtpRadioFailAlarm.status data))])).

(** ** IEEE80211WTPRadioInformation *)

Definition ac_json_80211_wtpradioinformation_createmessageelement (jsonparent : json) (radioid : Z)
    : option WtpRadioInformation.capwap_80211_wtpradioinformation_element :=
  radiotype ← get_int jsonparent "Mode";
  Some {| WtpRadioInformation.radioid := wrap8 radioid;
          WtpRadioInformation.radiotype := Z.land (wrap32 radiotype) CAPWAP_RADIO_TYPE_MASK |}.

Definition ac_json_80211_wtpradioinformation_addmessageelement (w : ac_json_ieee80211_wtpradio)
    (data : WtpRadioInformation.capwap_80211_wtpradioinformation_element) (overwrite : bool) : option (Z * ac_json_ieee80211_wtpradio) :=
  add_single K_80211_wtpradioinformation w (WtpRadioInformation.radioid data) data overwrite.

Definition ac_json_80211_wtpradioinformation_createjson (jsonparent : json) (data : WtpRadioInformation.capwap_80211_wtpradioinformation_element)
    : option json :=
  Some (json_object_object_add jsonparent "IEEE80211WTPRadioInformation" (json_object
    [("Mode"%string, json_object_new_int (to_int (WtpRadioInformation.radiotype data)))])).

(** ** The table of handlers *)

Record ac_json_ieee80211_ops (T : Type) := JsonOps {
  json_type : string;
  j_create : json -> Z -> option T;
  add_message_element : ac_json_ieee80211_wtpradio -> T -> bool -> option (Z * ac_json_ieee80211_wtpradio);
  create_json : json -> T -> option json
}.

(** The handlers of a kind, when the table has them. *)
Definition ac_json_80211_ops (k : element_kind) : option (ac_json_ieee80211_ops (element_data k)) :=
  match k as k return option (ac_json_ieee80211_ops (element_data k)) with
  | K_80211_addwlan => Some (JsonOps _ "IEEE80211AddWLAN" ac_json_80211_addwlan_createmessageelement
      ac_json_80211_addwlan_addmessageelement ac_json_80211_addwlan_createjson)
  | K_80211_antenna => Some (JsonOps _ "IEEE80211Antenna" ac_json_80211_antenna_createmessageelement
      ac_json_80211_antenna_addmessageelement ac_json_80211_antenna_createjson)
  | K_80211_assignbssid => Some (JsonOps _ "IEEE80211AssignBSSID" ac_json_80211_assignbssid_createmessageelement
      ac_json_80211_assignbssid_addmessageelement ac_json_80211_assignbssid_createjson)
  | K_80211_deletewlan => Some (JsonOps _ "IEEE80211DeleteWLAN" ac_json_80211_deletewlan_createmessageelement
      ac_json_80211_deletewlan_addmessageelement ac_json_80211_deletewlan_createjson)
  | K_80211_directsequencecontrol => Some (JsonOps _ "IEEE80211DirectSequenceControl" ac_json_80211_directsequencecontrol_createmessageelement
      ac_json_80211_directsequencecontrol_addmessageelement ac_json_80211_directsequencecontrol_createjson)
  | K_80211_ie => Some (JsonOps _ "IEEE80211IE" ac_json_80211_ie_createmessageelement
      ac_json_80211_ie_addmessageelement (fun jsonparent data => ac_json_80211_ie_createjson jsonparent [data]))
  | K_80211_macoperation => Some (JsonOps _ "IEEE80211MACOperation" ac_json_80211_macoperation_createmessageelement
      ac_json_80211_macoperation_addmessageelement ac_json_80211_macoperation_createjson)
  | K_80211_miccountermeasures => Some (JsonOps _ "IEEE80211MicCounterMeasures" ac_json_80211_miccountermeasures_createmessageelement
      ac_json_80211_miccountermeasures_addmessageelement ac_json_80211_miccountermeasures_createjson)
  | K_80211_multidomaincapability => Some (JsonOps _ "IEEE80211MultiDomainCapability" ac_json_80211_multidomaincapability_createmessageelement
      ac_json_80211_multidomaincapability_addmessageelement ac_json_80211_multidomaincapability_createjson)
  | K_80211_ofdmcontrol => Some (JsonOps _ "IEEE80211OFDMControl" ac_json_80211_ofdmcontrol_createmessageelement
      ac_json_80211_ofdmcontrol_addmessageelement ac_json_80211_ofdmcontrol_createjson)
  | K_80211_rateset => Some (JsonOps _ "IEEE80211Rateset" ac_json_80211_rateset_createmessageelement
      ac_json_80211_rateset_addmessageelement ac_json_80211_rateset_createjson)
  | K_80211_rsnaerrorreport => Some (JsonOps _ "IEEE80211RSNAErrorReport" ac_json_80211_rsnaerrorreport_createmessageelement
      ac_json_80211_rsnaerrorreport_addmessageelement ac_json_80211_rsnaerrorreport_createjson)
  | K_80211_statistics => Some (JsonOps _ "IEEE80211Statistics" ac_json_80211_statistics_createmessageelement
      ac_json_80211_statistics_addmessageelement ac_json_80211_statistics_createjson)
  | K_80211_supportedrates => Some (JsonOps _ "IEEE80211SupportedRates" ac_json_80211_supportedrates_createmessageelement
      ac_json_80211_supportedrates_addmessageelement ac_json_80211_supportedrates_createjson)
  | K_80211_txpower => Some (JsonOps _ "IEEE80211TxPower" ac_json_80211_txpower_createmessageelement
      ac_json_80211_txpower_addmessageelement ac_json_80211_txpower_createjson)
  | K_80211_txpowerlevel => Some (JsonOps _ "IEEE80211TXPowerLevel" ac_json_80211_txpowerlevel_createmessageelement
      ac_json_80211_txpowerlevel_addmessageelement ac_json_80211_txpowerlevel_createjson)
  | K_80211_updatewlan => Some (JsonOps _ "IEEE80211UpdateWLAN" ac_json_80211_updatewlan_createmessageelement
      ac_json_80211_updatewlan_addmessageelement ac_json_80211_updatewlan_createjson)
  | K_80211_wtpqos => Some (JsonOps _ "IEEE80211WTPQoS" ac_json_80211_wtpqos_createmessageelement
      ac_json_80211_wtpqos_addmessageelement ac_json_80211_wtpqos_createjson)
  | K_80211_wtpradioconf => Some (JsonOps _ "IEEE80211WTPRadioConfiguration" ac_json_80211_wtpradioconf_createmessageelement
      ac_json_80211_wtpradioconf_addmessageelement ac_json_80211_wtpradioconf_createjson)
  | K_80211_wtpradiofailalarm => Some (JsonOps _ "IEEE80211WTPRadioFailAlarm" ac_json_80211_wtpradiofailalarm_createmessageelement
      ac_json_80211_wtpradiofailalarm_addmessageelement ac_json_80211_wtpradiofailalarm_createjson)
  | K_80211_wtpradioinformation => Some (JsonOps _ "IEEE80211WTPRadioInformation" ac_json_80211_wtpradioinformation_createmessageelement
      ac_json_80211_wtpradioinformation_addmessageelement ac_json_80211_wtpradioinformation_createjson)
  | _ => None
  end.

(** The entries of the table, without the holes. *)
Definition ac_json_80211_message_elements : list element_kind :=
  [K_80211_addwlan; K_80211_antenna; K_80211_assignbssid; K_80211_deletewlan; K_80211_directsequencecontrol; K_80211_ie; K_80211_macoperation; K_80211_miccountermeasures; K_80211_multidomaincapability; K_80211_ofdmcontrol; K_80211_rateset; K_80211_rsnaerrorreport; K_80211_statistics; K_80211_supportedrates; K_80211_txpower; K_80211_txpowerlevel; K_80211_updatewlan; K_80211_wtpqos; K_80211_wtpradioconf; K_80211_wtpradiofailalarm; K_80211_wtpradioinformation].

Definition ac_json_80211_getops_by_capwaptype (type : capwap_message_element_id) : option element_kind :=
  List.find (fun k => message_element_id_eq (kind_id k) type) ac_json_80211_message_elements.

Definition ac_json_80211_getops_by_jsontype (type : string) : option element_kind :=
  List.find (fun k => match ac_json_80211_ops k with
                      | Some ops => bool_decide (json_type _ ops = type)
                      | None => false
                      end) ac_json_80211_message_elements.

(** ** Collecting elements *)

(** The id is the one of the kind of [data]. *)
Definition ac_json_ieee80211_addmessageelement (w : ac_json_ieee80211_wtpradio) (data : message_element)
    (overwrite : bool) : option (Z * ac_json_ieee80211_wtpradio) :=
  match ac_json_80211_getops_by_capwaptype (kind_id (projT1 data)) with
  | None => Some (0, w)
  | Some _ => ops ← ac_json_80211_ops (projT1 data); add_message_element _ ops w (projT2 data) overwrite
  end.

(** The elements of an item of a message, until one is refused. *)
Fixpoint add_elements_of (w : ac_json_ieee80211_wtpradio) (l : list message_element)
    : option (Z * ac_json_ieee80211_wtpradio) :=
  match l with
  | [] => Some (1, w)
  | d :: l =>
      '(r, w) ← ac_json_ieee80211_addmessageelement w d false;
      if r =? 0 then Some (0, w) else add_elements_of w l
  end.

Definition ac_json_ieee80211_parsingmessageelement (w : ac_json_ieee80211_wtpradio)
    (m : capwap_message_element_itemlist) : option (Z * ac_json_ieee80211_wtpradio) :=
  if (il_category m =? CAPWAP_MESSAGE_ELEMENT_SINGLE) || (il_category m =? CAPWAP_MESSAGE_ELEMENT_ARRAY)
  then add_elements_of w (il_data m) else Some (0, w).

(** The entries of a radio of a document: the ones that have handlers and are
    accepted replace what was there. *)
Fixpoint parse_entries (w : ac_json_ieee80211_wtpradio) (radioid : Z) (l : list (string * json))
    : option ac_json_ieee80211_wtpradio :=
  match l with
  | [] => Some w
  | (name, v) :: l =>
      w ← match ac_json_80211_getops_by_jsontype name with
          | None => Some w
          | Some k =>
              ops ← ac_json_80211_ops k;
              match j_create _ ops v radioid with
              | None => Some w
              | Some d => snd <$> ac_json_ieee80211_addmessageelement w (existT k d) true
              end
          end;
      parse_entries w radioid l
  end.

Fixpoint parse_radios (w : ac_json_ieee80211_wtpradio) (l : list json) : option ac_json_ieee80211_wtpradio :=
  match l with
  | [] => Some w
  | j :: l =>
      w ← match j, get_int j "RadioID" with
          | JObject entries, Some radioid =>
              if IS_VALID_RADIOID radioid then parse_entries w radioid entries else Some w
          | _, _ => Some w
          end;
      parse_radios w l
  end.

Definition ac_json_ieee80211_parsingjson (w : ac_json_ieee80211_wtpradio) (jsonroot : json)
    : option (Z * ac_json_ieee80211_wtpradio) :=
  match array_of jsonroot with
  | None => Some (0, w)
  | Some l => w ← parse_radios w l; Some (1, w)
  end.

(** ** Writing elements *)

(** The fields of an item in order, each added to the object of the radio. *)
Fixpoint item_json (ks : list element_kind) (jsonitems : json) (item : ac_json_ieee80211_item) : option json :=
  match ks with
  | [] => Some jsonitems
  | k :: ks =>
      jsonitems ← match slot k item with
                  | Some d => ops ← ac_json_80211_ops k; create_json _ ops jsonitems d
                  | None => Some jsonitems
                  end;
      item_json ks jsonitems item
  end.

Fixpoint items_json (i : Z) (w : ac_json_ieee80211_wtpradio) : option (list json) :=
  match w with
  | [] => Some []
  | item :: w =>
      if valid item then
        j ← item_json ac_json_80211_message_elements
              (json_object [("RadioID"%string, json_object_new_int (i + 1))]) item;
        l ← items_json (i + 1) w; Some (j :: l)
      else items_json (i + 1) w
  end.

Definition ac_json_ieee80211_getjson (w : ac_json_ieee80211_wtpradio) : option json :=
  l ← items_json 0 w; Some (JArray l).

(** The elements of a kind of an item, and all of them in the order of the
    table. *)
Definition kind_elements (item : ac_json_ieee80211_item) (k : element_kind) : list message_element :=
  match k with
  | K_80211_ie => (existT K_80211_ie : Ie.capwap_80211_ie_element -> message_element) <$> default [] (iearray item)
  | k => match slot k item with Some d => [existT k d] | None => [] end
  end.

Definition item_elements (item : ac_json_ieee80211_item) : list message_element :=
  if valid item then ac_json_80211_message_elements ≫= kind_elements item else [].

(** The elements added to a message in turn. *)
Fixpoint add_to_packet (tx : capwap_packet_txmng) (l : list message_element) : option capwap_packet_txmng :=
  match l with
  | [] => Some tx
  | e :: l => tx ← capwap_packet_txmng_add_message_element tx e; add_to_packet tx l
  end.

Definition ac_json_ieee80211_buildpacket (w : ac_json_ieee80211_wtpradio) (tx : capwap_packet_txmng)
    : option capwap_packet_txmng := add_to_packet tx (w ≫= item_elements).
End Operations.
