(* ===== verification/AcJsonProps.v ===== *)
(** The 802.11 elements as documents: what the controller writes for the back
    end it reads back, and the radios it has room for. *)
From stdpp Require Import option list strings.
From S2P Require Import Prelude Io CapwapArray Elements80211a Elements80211b Element Tx Rx Packet Base64 Json Ieee80211 AcJson.
#[local] Open Scope Z_scope.

(** ** Reading back *)

(** The radio of an element of a kind that documents carry. *)
Definition json_radioid (k : element_kind) : element_data k -> Z :=
  match k with
  | K_80211_antenna => Antenna.radioid
  | K_80211_directsequencecontrol => DirectSequenceControl.radioid
  | K_80211_macoperation => MacOperation.radioid
  | K_80211_multidomaincapability => MultiDomainCapability.radioid
  | K_80211_ofdmcontrol => OfdmControl.radioid
  | K_80211_rateset => RateSet.radioid
  | K_80211_supportedrates => SupportedRates.radioid
  | K_80211_txpower => TxPower.radioid
  | K_80211_txpowerlevel => TxPowerLevel.radioid
  | K_80211_wtpradioconf => WtpRadioConf.radioid
  | K_80211_wtpradiofailalarm => WtpRadioFailAlarm.radioid
  | K_80211_wtpradioinformation => WtpRadioInformation.radioid
  | _ => fun _ => 0
  end.

(** The values a document keeps: the reader masks some fields and takes a
    diversity for a truth value. *)
Definition json_plain (k : element_kind) : element_data k -> Prop :=
  match k with
  | K_80211_antenna => fun d => Antenna.diversity d = 0 \/ Antenna.diversity d = 1
  | K_80211_ofdmcontrol => fun d => 0 <= OfdmControl.bandsupport d < 128
  | K_80211_rateset => fun d => bytes_ok (RateSet.rateset d)
  | K_80211_supportedrates => fun d => bytes_ok (SupportedRates.supportedrates d)
  | K_80211_wtpradioconf => fun d => bytes_ok (WtpRadioConf.bssid d) /\
      exists s, WtpRadioConf.country d = s ++ [0] /\ chars_ok s
  | K_80211_wtpradiofailalarm => fun d => WtpRadioFailAlarm.pad d = 0
  | K_80211_wtpradioinformation => fun d => 0 <= WtpRadioInformation.radiotype d < 16
  | K_80211_directsequencecontrol | K_80211_macoperation | K_80211_multidomaincapability
  | K_80211_txpower | K_80211_txpowerlevel => fun _ => True
  | _ => fun _ => False
  end.

(** A number of up to 32 bits survives. *)
Definition clamp (n : Z) : Z := Z.max (-2147483648) (Z.min 2147483647 n).

Lemma read_u8 x : is_u8 x -> wrap8 (clamp x) = x.
Proof. intros. unfold clamp. rewrite Z.min_r, Z.max_r by lia. by apply wrap8_small. Qed.
Lemma read_u16 x : is_u16 x -> wrap16 (clamp x) = x.
Proof. intros. unfold clamp. rewrite Z.min_r, Z.max_r by lia. by apply wrap16_small. Qed.
Lemma read_u32 x : is_u32 x -> wrap32 (clamp (to_int x)) = x.
Proof.
  intros Hx. unfold clamp, to_int. pose proof (Z.mod_pos_bound (x + 2147483648) 4294967296 eq_refl).
  rewrite Z.min_r, Z.max_r by lia. unfold wrap32. Z.div_mod_to_equations. lia.
Qed.

(** Numbers written and filled in again. *)
Lemma fill_written cast l : forall done rest count,
  Forall (fun x => cast (clamp x) = x) l -> length rest = length l ->
  forall tl, fill_numbers cast (length done) (json_object_new_int <$> l) count (done ++ rest ++ tl) =
    (count + zlen l, done ++ l ++ tl).
Proof.
  induction l as [|x l IH]; intros done rest count Hl Hr tl.
  - destruct rest; [|done]. cbn. f_equal. lia.
  - destruct rest as [|y rest]; [done|]. apply Forall_cons in Hl as [Hx Hl]. cbn [fmap list_fmap fill_numbers int_of json_object_new_int].
    fold (clamp x). rewrite Hx. injection Hr as Hr. specialize (IH (done ++ [x]) rest (count + 1) Hl Hr tl). rewrite length_app in IH. cbn [length] in IH.
    rewrite Nat.add_1_r, <-!app_assoc in IH. cbn [app] in IH.
    replace (<[length done := x]> (done ++ (y :: rest) ++ tl)) with (done ++ x :: rest ++ tl).
    + rewrite IH. f_equal. cbn [length]. lia.
    + rewrite insert_app_r_alt by lia. by rewrite Nat.sub_diag.
Qed.

(** A text that has no terminator. *)
Lemma strlen_chars s : chars_ok s -> strlen s = length s.
Proof. induction 1 as [|c s Hc _ IH]; [done|]. cbn. rewrite (proj2 (Z.eqb_neq _ _)) by lia. by rewrite IH. Qed.
Lemma cstr_chars s : chars_ok s -> cstr s = s.
Proof. intros Hs. unfold cstr. by rewrite strlen_chars, firstn_all. Qed.

Section ReadBack.
Context `{Indeterminate} `{Target}.

Lemma numbers_read_back cast count max values l :
  count <= max -> zlen l = count -> values = l ++ zeros (max - count) -> Forall (fun x => cast (clamp x) = x) l ->
  numbers_json count values = Some (JArray (json_object_new_int <$> l)) /\
  fill_numbers cast 0 (json_object_new_int <$> l) 0 (zeros max) = (count, values).
Proof.
  intros Hc Hl -> Hb. split.
  - unfold numbers_json, Array.fetch. rewrite length_app, length_zeros.
    rewrite !(proj2 (Z.leb_le _ _)) by lia. cbn [andb mbind option_bind]. rewrite take_app_length' by lia. done.
  - assert (Hz : zeros max = [] ++ zeros count ++ zeros (max - count)).
    { unfold zeros. cbn [app]. rewrite <-replicate_add. f_equal. lia. }
    rewrite Hz. rewrite (fill_written cast l [] (zeros count) 0 Hb); [cbn [app]; f_equal; lia|]. rewrite length_zeros. lia.
Qed.

Lemma bytes_read l : bytes_ok l -> Forall (fun x => wrap8 (clamp x) = x) l.
Proof. intros Hl. apply (Forall_impl _ _ _ Hl). intros x Hx. by apply read_u8. Qed.

Lemma words_read l : Forall (fun x => is_u16 x) l -> Forall (fun x => wrap16 (clamp x) = x) l.
Proof. intros Hl. apply (Forall_impl _ _ _ Hl). intros x Hx. by apply read_u16. Qed.

Lemma selections_read l : Forall (fun x => is_u8 x) l -> omap (fun j => wrap8 <$> int_of j) (json_object_new_int <$> l) = l.
Proof.
  induction 1 as [|x l Hx _ IH]; [done|]. cbn. fold (clamp x). rewrite read_u8 by done. by rewrite IH.
Qed.

(** The entry an operation writes, read by the same operations. *)
Ltac entry :=
  eexists _, _; split; [reflexivity|split; [reflexivity|]];
  lazy -[wrap8 wrap16 wrap32 Z.max Z.min to_int Z.land Z.eqb fmap list_fmap omap int_of];
  cbn [int_of]; repeat match goal with |- context [Z.max (-2147483648) (Z.min 2147483647 ?x)] => fold (clamp x) end;
  rewrite ?wrap8_small by lia; repeat first [rewrite read_u8 by lia | rewrite read_u16 by lia | rewrite read_u32 by lia].

(** The kinds whose entry is an array of numbers. *)
Lemma rateset_entry (d : RateSet.capwap_80211_rateset_element) parent :
  RateSet.wf d -> bytes_ok (RateSet.rateset d) ->
  exists v, ac_json_80211_rateset_createjson parent d = Some (json_object_object_add parent "IEEE80211Rateset" v) /\
    ac_json_80211_rateset_createmessageelement v (RateSet.radioid d) = Some d.
Proof.
  destruct d as [r count values]. unfold RateSet.wf. cbn. intros (W1 & W2 & l & W3 & W4) Hp. subst values. apply Forall_app in Hp as [Hp _].
  destruct (numbers_read_back wrap8 count RateSet.CAPWAP_RATESET_MAXLENGTH _ l (proj2 W2) W3 eq_refl) as [E1 E2]; [by apply bytes_read|].
  unfold ac_json_80211_rateset_createjson, ac_json_80211_rateset_createmessageelement.
  cbn [RateSet.ratesetcount RateSet.rateset RateSet.radioid]. rewrite E1. eexists. split; [reflexivity|].
  cbv beta iota delta [array_of mbind option_bind]. rewrite length_fmap, W3.
  rewrite (proj2 (Z.ltb_ge count CAPWAP_RATESET_MINLENGTH)) by (unfold CAPWAP_RATESET_MINLENGTH; lia).
  rewrite (proj2 (Z.ltb_ge RateSet.CAPWAP_RATESET_MAXLENGTH count)) by lia. cbn [orb]. rewrite E2. by rewrite wrap8_small.
Qed.

Lemma supportedrates_entry (d : SupportedRates.capwap_80211_supportedrates_element) parent :
  SupportedRates.wf d -> bytes_ok (SupportedRates.supportedrates d) ->
  exists v, ac_json_80211_supportedrates_createjson parent d = Some (json_object_object_add parent "IEEE80211SupportedRates" v) /\
    ac_json_80211_supportedrates_createmessageelement v (SupportedRates.radioid d) = Some d.
Proof.
  destruct d as [r count values]. unfold SupportedRates.wf. cbn. intros (W1 & W2 & l & W3 & W4) Hp. subst values. apply Forall_app in Hp as [Hp _].
  destruct (numbers_read_back wrap8 count SupportedRates.CAPWAP_SUPPORTEDRATES_MAXLENGTH _ l (proj2 W2) W3 eq_refl) as [E1 E2]; [by apply bytes_read|].
  unfold ac_json_80211_supportedrates_createjson, ac_json_80211_supportedrates_createmessageelement.
  cbn [SupportedRates.supportedratescount SupportedRates.supportedrates SupportedRates.radioid]. rewrite E1. eexists. split; [reflexivity|].
  cbv beta iota delta [array_of mbind option_bind]. rewrite length_fmap, W3.
  rewrite (proj2 (Z.ltb_ge count CAPWAP_SUPPORTEDRATES_MINLENGTH)) by (unfold CAPWAP_SUPPORTEDRATES_MINLENGTH; lia).
  rewrite (proj2 (Z.ltb_ge SupportedRates.CAPWAP_SUPPORTEDRATES_MAXLENGTH count)) by lia. cbn [orb]. rewrite E2. by rewrite wrap8_small.
Qed.

Lemma txpowerlevel_entry (d : TxPowerLevel.capwap_80211_txpowerlevel_element) parent :
  TxPowerLevel.wf d ->
  exists v, ac_json_80211_txpowerlevel_createjson parent d = Some (json_object_object_add parent "IEEE80211TXPowerLevel" v) /\
    ac_json_80211_txpowerlevel_createmessageelement v (TxPowerLevel.radioid d) = Some d.
Proof.
  destruct d as [r count values]. unfold TxPowerLevel.wf. cbn. intros (W1 & W2 & l & W3 & Hp & W4). subst values.
  destruct (numbers_read_back wrap16 count TxPowerLevel.CAPWAP_TXPOWERLEVEL_MAXLENGTH _ l (proj2 W2) W3 eq_refl) as [E1 E2]; [by apply words_read|].
  unfold ac_json_80211_txpowerlevel_createjson, ac_json_80211_txpowerlevel_createmessageelement.
  cbn [TxPowerLevel.numlevels TxPowerLevel.powerlevel TxPowerLevel.radioid]. rewrite E1. eexists. split; [reflexivity|].
  cbv beta iota delta [array_of mbind option_bind]. rewrite length_fmap, W3.
  rewrite (proj2 (Z.ltb_ge TxPowerLevel.CAPWAP_TXPOWERLEVEL_MAXLENGTH count)) by lia. cbn [orb]. rewrite E2. by rewrite wrap8_small.
Qed.

Lemma wtpradioconf_entry (d : WtpRadioConf.capwap_80211_wtpradioconf_element) parent :
  WtpRadioConf.wf d -> json_plain K_80211_wtpradioconf d ->
  exists v, ac_json_80211_wtpradioconf_createjson parent d =
      Some (json_object_object_add parent "IEEE80211WTPRadioConfiguration" v) /\
    ac_json_80211_wtpradioconf_createmessageelement v (WtpRadioConf.radioid d) = Some d.
Proof.
  destruct d as [r sp mb dt b bp c]. unfold WtpRadioConf.wf. cbn. intros (W1 & W2 & W3 & W4 & W5 & W6 & W7) (Hb & s & -> & Hs).
  set (p := print_octets (take (Z.to_nat MACADDRESS_EUI48_LENGTH) b)).
  assert (Et : capwap_printf_macaddress b MACADDRESS_EUI48_LENGTH = Some (p ++ [0])) by reflexivity.
  pose proof (macaddress_read_back b MACADDRESS_EUI48_LENGTH _ Hb W5 Et) as Hr.
  assert (Hp : chars_ok p) by (apply print_chars, Forall_take, Hb). clearbody p.
  unfold capwap_scanf_macaddress in Hr. rewrite cstr_terminated in Hr by done.
  unfold ac_json_80211_wtpradioconf_createjson. cbn [WtpRadioConf.bssid WtpRadioConf.country]. rewrite Et.
  cbv beta iota delta [mbind option_bind]. rewrite strlen_terminated, length_app by done.
  rewrite (proj2 (Nat.eqb_neq _ _)) by (cbn; lia). eexists. split; [reflexivity|].
  assert (Hl : Z.of_nat (strlen s) = 3).
  { rewrite strlen_chars by done. rewrite length_app in W7. cbn in W7. unfold WtpRadioConf.CAPWAP_WTP_RADIO_CONF_COUNTRY_LENGTH in W7. lia. }
  lazy -[wrap8 wrap16 Z.max Z.min Z.eqb Z.of_nat cstr strlen scan_octets app zeros]. rewrite !cstr_terminated, !cstr_chars by done.
  change (scan_octets 6 p = Some b) in Hr. change (6 =? 6) with true. cbn iota. rewrite Hr, Hl. cbn iota.
  repeat match goal with |- context [Z.max (-2147483648) (Z.min 2147483647 ?x)] => fold (clamp x) end.
  change (3 =? 3) with true. cbn iota. rewrite wrap8_small, !read_u8, read_u16 by lia. done.
Qed.

Lemma document_entry k (d : element_data k) parent :
  element_wf k d -> json_plain k d ->
  exists ops v, ac_json_80211_ops k = Some ops /\
    create_json _ ops parent d = Some (json_object_object_add parent (json_type _ ops) v) /\
    j_create _ ops v (json_radioid k d) = Some d.
Proof.
  intros Hwf Hp. destruct k; try done; destruct d; cbn in Hp.
  - (* antenna *) destruct Hwf as (W1 & W2 & W3 & _ & W4). unfold IS_VALID_RADIOID, RADIOID_MAX_COUNT in W1. cbn in *. bools.
    entry. change (fun n : Z => JInt n) with json_object_new_int. rewrite selections_read by done. destruct Hp as [-> | ->]; reflexivity.
  - (* directsequencecontrol *) destruct Hwf as (W1 & W2 & W3 & W4 & _). cbn in *. by entry.
  - (* macoperation *) destruct Hwf as (W1 & W2 & W3 & W4 & W5 & W6 & W7). cbn in *. by entry.
  - (* multidomain *) destruct Hwf as (W1 & W2 & W3 & W4). cbn in *. by entry.
  - (* ofdm *) destruct Hwf as (W1 & W2 & W3 & W4). cbn in *. entry. rewrite (land_mask _ 127 7 eq_refl) by lia. done.
  - destruct (rateset_entry _ parent Hwf Hp) as (v & E1 & E2). by eexists _, v.
  - destruct (supportedrates_entry _ parent Hwf Hp) as (v & E1 & E2). by eexists _, v.
  - (* txpower *) destruct Hwf as (W1 & W2). cbn in *. by entry.
  - destruct (txpowerlevel_entry _ parent Hwf) as (v & E1 & E2). by eexists _, v.
  - destruct (wtpradioconf_entry _ parent Hwf Hp) as (v & E1 & E2). by eexists _, v.
  - (* fail alarm *) destruct Hwf as (W1 & W2 & W3 & _). cbn in *. subst. by entry.
  - (* radio information *) destruct Hwf as (W1 & W2). cbn in *. entry. rewrite (land_mask _ 15 4 eq_refl) by lia. done.
Qed.
End ReadBack.

(** C31: an element of one of twelve kinds, written into the document of its
    radio, is found there under its name, the name leads back to its kind, and
    the reader of that kind returns the same element.  The element is well formed
    and has what a document can carry ([json_plain]): the diversity of an antenna
    is 0 or 1, the bands of an OFDM control are below 128, the radio types below
    16, the pad of a failure alarm is 0, rates and the BSSID are bytes, and the
    country is a text without NUL, ended by one. *)
Theorem document_element_read_back `{Indeterminate} `{Target} k (d : element_data k) entries :
  element_wf k d -> json_plain k d ->
  exists ops obj v, ac_json_80211_ops k = Some ops /\ create_json _ ops (JObject entries) d = Some obj /\
    compat_json_object_object_get obj (json_type _ ops) = Some v /\
    ac_json_80211_getops_by_jsontype (json_type _ ops) = Some k /\ j_create _ ops v (json_radioid k d) = Some d.
Proof.
  intros Hwf Hp. destruct (document_entry k d (JObject entries) Hwf Hp) as (ops & v & E1 & E2 & E3).
  exists ops, (json_object_object_add (JObject entries) (json_type _ ops) v), v. split_and!; try done.
  - apply entry_get_put.
  - destruct k; try done; injection E1 as <-; reflexivity.
Qed.

Lemma document_element_read_back_witness :
  exists ops obj v, @ac_json_80211_ops zero_memory lp64 K_80211_rateset = Some ops /\
    compat_json_object_object_get obj "IEEE80211Rateset" = Some v /\
    j_create _ ops v 1 = Some (RateSet.Build_capwap_80211_rateset_element 1 2 [2; 4; 0; 0; 0; 0; 0; 0]).
Proof.
  destruct (@document_element_read_back zero_memory lp64 K_80211_rateset
    (RateSet.Build_capwap_80211_rateset_element 1 2 [2; 4; 0; 0; 0; 0; 0; 0]) []) as (ops & obj & v & E1 & _ & E3 & _ & E4).
  - split_and!; try done. by exists [2; 4].
  - by repeat constructor.
  - exists ops, obj, v. injection E1 as E1. subst ops. split; [reflexivity|]. split; [exact E3|exact E4].
Defined.

(** The kinds that documents carry. *)
Definition json_kind (k : element_kind) : bool :=
  match k with
  | K_80211_antenna | K_80211_directsequencecontrol | K_80211_macoperation | K_80211_multidomaincapability
  | K_80211_ofdmcontrol | K_80211_rateset | K_80211_supportedrates | K_80211_txpower | K_80211_txpowerlevel
  | K_80211_wtpradioconf | K_80211_wtpradiofailalarm | K_80211_wtpradioinformation => true
  | _ => false
  end.

Lemma item_of_total (w : ac_json_ieee80211_wtpradio) r :
  zlen w = RADIOID_MAX_COUNT -> (is_Some (item_of w r) <-> IS_VALID_RADIOID r = true).
Proof.
  intros Hw. unfold item_of, IS_VALID_RADIOID. rewrite andb_true_iff, !Z.leb_le.
  destruct (Z.ltb_spec (r - 1) 0); [split; [by intros [? ?]|lia]|]. rewrite lookup_lt_is_Some. lia.
Qed.

Lemma add_single_total `{Indeterminate} k w r (d : element_data k) overwrite :
  zlen w = RADIOID_MAX_COUNT -> (is_Some (add_single k w r d overwrite) <-> IS_VALID_RADIOID r = true).
Proof.
  intros Hw. rewrite <-(item_of_total w r Hw). unfold add_single.
  destruct (item_of w r) as [item|]; [|split; by intros [? ?]]. split; [by eexists|]. intros _.
  cbv beta iota delta [mbind option_bind]. repeat case_match; eexists; reflexivity.
Qed.

(** An element is stored for its radio exactly when the number of the radio
    is one of the 31 the controller has room for; the handlers do not look at it,
    so that an element of a message with another number, which the decoder
    accepts, is written outside of the array. *)
Lemma radio_number_unchecked `{Indeterminate} `{Target} k (d : element_data k) w overwrite :
  json_kind k = true -> zlen w = RADIOID_MAX_COUNT ->
  (is_Some (ac_json_ieee80211_addmessageelement w (existT k d) overwrite) <->
   IS_VALID_RADIOID (json_radioid k d) = true).
Proof.
  intros Hk Hw. rewrite <-(add_single_total k w (json_radioid k d) d overwrite Hw). destruct k; try discriminate Hk; reflexivity.
Qed.

Lemma radio_number_unchecked_witness :
  @ac_json_ieee80211_addmessageelement zero_memory lp64 ac_json_ieee80211_init
    (existT K_80211_wtpradioinformation (WtpRadioInformation.Build_capwap_80211_wtpradioinformation_element 0 1)) false = None.
Proof.
  destruct (@radio_number_unchecked zero_memory lp64 K_80211_wtpradioinformation
    (WtpRadioInformation.Build_capwap_80211_wtpradioinformation_element 0 1) ac_json_ieee80211_init false) as [Hs _].
  - reflexivity.
  - reflexivity.
  - destruct (@ac_json_ieee80211_addmessageelement zero_memory lp64 _ _ _) as [x|]; [|reflexivity].
    discriminate (Hs (ex_intro _ x eq_refl)).
Defined.
