(* ===== verification/AcWorld.v ===== *)
(** The state of one session of the access controller that concerns wireless
    networks and stations (src/ac/ac_wlans.h, ac_session.h, ac.h), and the
    state-and-failure monad its operations run in.

    A network is told by its radio and its BSSID, a station by its address; the
    session keeps its stations in [stations] and finds them through the hash
    table [table].  [authtable] and [authsession] are the authoritative stations
    of the whole controller ([g_ac.authstations]): the session that serves each
    station.  What a session sends to the radios, to itself and to other
    sessions is appended to [out].  An operation that touches a null or dangling
    pointer, fails an assertion or never ends has no result. *)
From stdpp Require Import option gmap.
From S2P Require Import Prelude Bitfield Io Header CapwapHash CapwapHashSpec CapwapHashDelete.
From S2P Require Import Timeout Ieee80211 Ieee80211Frame.
From S2P Require Import Elements80211a.
#[local] Open Scope Z_scope.

Definition mac : Type := list Z.

(** ** Hash tables of stations *)

(** [memcmp] of two strings of the same length. *)
Fixpoint memcmp (a b : list Z) : Z :=
  match a, b with
  | [], [] => 0
  | [], _ => -1
  | _, [] => 1
  | x :: a, y :: b => if x <? y then -1 else if y <? x then 1 else memcmp a b
  end.

Definition AC_WLANS_STATIONS_HASH_SIZE : Z := 256.
Definition AC_STATIONS_HASH_SIZE : Z := 65536.

Definition ac_wlans_item_gethash (key : mac) (hashsize : Z) : Z :=
  Z.lxor (Z.lxor (byte_at key 3) (byte_at key 4)) (byte_at key 5) mod AC_WLANS_STATIONS_HASH_SIZE.
Definition ac_wlans_item_cmp (key1 key2 : mac) : Z := memcmp key1 key2.

Definition ac_stations_item_gethash (key : mac) (hashsize : Z) : Z :=
  Z.lxor (Z.lor (Z.shiftl (byte_at key 4) 8) (byte_at key 5)) (Z.shiftl (byte_at key 3) 4)
  mod AC_STATIONS_HASH_SIZE.
Definition ac_stations_item_cmp (key1 key2 : mac) : Z := memcmp key1 key2.

(** The table of a session and that of the controller hold stations told by
    their addresses, with different hash functions. *)
Definition session_hash : HashOps mac mac := {|
  item_gethash := ac_wlans_item_gethash;
  item_getkey := fun address => address;
  item_cmp := ac_wlans_item_cmp
|}.
Definition auth_hash : HashOps mac mac := {|
  item_gethash := ac_stations_item_gethash;
  item_getkey := fun address => address;
  item_cmp := ac_stations_item_cmp
|}.

(** ** Networks and stations *)

Definition RADIOID_ANY : Z := 0.
Definition AC_STATION_TIMEOUT_ASSOCIATION_COMPLETE : Z := 30000.
Definition AC_STATION_TIMEOUT_ACTION_DEAUTHENTICATE : Z := 1.
Definition AC_STATION_FLAGS_ENABLED : Z := 1.
Definition AC_STATION_FLAGS_AUTHENTICATED : Z := 2.
Definition AC_STATION_FLAGS_ASSOCIATE : Z := 4.
Definition AC_STATION_FLAGS_AUTHORIZED : Z := 8.
Definition CAPWAP_ADD_WLAN_AUTHTYPE_OPEN : Z := 0.
Definition CAPWAP_ADD_WLAN_AUTHTYPE_WEP : Z := 1.
Definition CAPWAP_ADD_WLAN_MACMODE_LOCAL : Z := 0.
Definition CAPWAP_ADD_WLAN_MACMODE_SPLIT : Z := 1.

(** A pointer to a network: its radio and its BSSID. *)
Definition wlan_ref : Type := Z * mac.

Record ac_wlan := Wlan {
  wlan_address : mac;
  wlan_wlanid : Z;
  aidbitfield : list Z;
  wlan_stations : list mac;
  wlan_capability : Z;
  keyindex : Z;
  keystatus : Z;
  keylength : Z;
  key : option (list Z);
  grouptsc : list Z;
  qos : Z;
  authmode : Z;
  macmode : Z;
  tunnelmode : Z;
  suppressssid : Z;
  wlan_ssid : list Z
}.

Record ac_device := Device {
  radioid : Z;
  wlans : option (list ac_wlan);
  dev_supportedratescount : Z;
  dev_supportedrates : list Z
}.

Record ac_station := Station {
  flags : Z;
  wlan : option wlan_ref;
  timeoutaction : Z;
  idtimeout : Z;
  capability : Z;
  listeninterval : Z;
  aid : Z;
  supportedratescount : Z;
  supportedrates : list Z;
  authalgorithm : Z
}.

Definition set_aidbitfield (bits : list Z) (x : ac_wlan) : ac_wlan :=
  Wlan (wlan_address x) (wlan_wlanid x) bits (wlan_stations x) (wlan_capability x) (keyindex x)
    (keystatus x) (keylength x) (key x) (grouptsc x) (qos x) (authmode x) (macmode x) (tunnelmode x)
    (suppressssid x) (wlan_ssid x).
Definition set_wlan_stations (l : list mac) (x : ac_wlan) : ac_wlan :=
  Wlan (wlan_address x) (wlan_wlanid x) (aidbitfield x) l (wlan_capability x) (keyindex x)
    (keystatus x) (keylength x) (key x) (grouptsc x) (qos x) (authmode x) (macmode x) (tunnelmode x)
    (suppressssid x) (wlan_ssid x).

Definition set_wlans (l : option (list ac_wlan)) (d : ac_device) : ac_device :=
  Device (radioid d) l (dev_supportedratescount d) (dev_supportedrates d).

Definition set_flags (f : Z) (s : ac_station) : ac_station :=
  Station f (wlan s) (timeoutaction s) (idtimeout s) (capability s) (listeninterval s) (aid s)
    (supportedratescount s) (supportedrates s) (authalgorithm s).
Definition set_wlan (r : option wlan_ref) (s : ac_station) : ac_station :=
  Station (flags s) r (timeoutaction s) (idtimeout s) (capability s) (listeninterval s) (aid s)
    (supportedratescount s) (supportedrates s) (authalgorithm s).
Definition set_timer (action id : Z) (s : ac_station) : ac_station :=
  Station (flags s) (wlan s) action id (capability s) (listeninterval s) (aid s)
    (supportedratescount s) (supportedrates s) (authalgorithm s).
Definition set_capability (c i : Z) (s : ac_station) : ac_station :=
  Station (flags s) (wlan s) (timeoutaction s) (idtimeout s) c i (aid s)
    (supportedratescount s) (supportedrates s) (authalgorithm s).
Definition set_aid (a : Z) (s : ac_station) : ac_station :=
  Station (flags s) (wlan s) (timeoutaction s) (idtimeout s) (capability s) (listeninterval s) a
    (supportedratescount s) (supportedrates s) (authalgorithm s).
Definition set_rates (n : Z) (rates : list Z) (s : ac_station) : ac_station :=
  Station (flags s) (wlan s) (timeoutaction s) (idtimeout s) (capability s) (listeninterval s) (aid s)
    n rates (authalgorithm s).
Definition set_authalgorithm (a : Z) (s : ac_station) : ac_station :=
  Station (flags s) (wlan s) (timeoutaction s) (idtimeout s) (capability s) (listeninterval s) (aid s)
    (supportedratescount s) (supportedrates s) a.

(** [flags & f] and [flags &= ~f]. *)
Definition has_flag (f : Z) (s : ac_station) : bool := negb (Z.land (flags s) f =? 0).
Definition add_flag (f : Z) (s : ac_station) : ac_station := set_flags (Z.lor (flags s) f) s.
Definition clear_flags (f : Z) (s : ac_station) : ac_station := set_flags (Z.land (flags s) (Z.lnot f)) s.

(** [memset] of a new station. *)
Definition new_station : ac_station :=
  Station 0 None 0 CAPWAP_TIMEOUT_INDEX_NO_SET 0 0 0 0 (zeros IEEE80211_SUPPORTEDRATE_MAX_COUNT) 0.

(** ** The world *)

(** The callback of a timer, with its context: [ac_stations_timeout] on a
    station, [ac_dfa_retransmition_timeout] or [ac_dfa_teardown_timeout] on the
    session. *)
Inductive timer_callback := StationTimeout (station : mac) | RetransmitionTimeout | TeardownTimeout.

(** What the operations send. *)
Inductive event :=
| SendData (radioid : Z) (frame : list Z)
    (** [ac_kmod_send_data], to the radio *)
| ActionAddStation (radioid : Z) (address : mac) (wlanid associationid capabilities : Z) (rates : list Z)
| ActionDeleteStation (radioid : Z) (address : mac)
    (** [ac_session_send_action] to the session itself *)
| ActionRoaming (session : Z) (address : mac)
    (** [ac_session_send_action] to another session *).

Record world := World {
  session_id : Z;
  devices : list ac_device;
  table : capwap_hash mac;
  stations : gmap mac ac_station;
  timeout : capwap_timeout timer_callback;
  authtable : capwap_hash mac;
  authsession : gmap mac Z;
  out : list event
}.

Definition set_devices (d : list ac_device) (w : world) : world :=
  World (session_id w) d (table w) (stations w) (timeout w) (authtable w) (authsession w) (out w).
Definition set_stations (s : gmap mac ac_station) (w : world) : world :=
  World (session_id w) (devices w) (table w) s (timeout w) (authtable w) (authsession w) (out w).
Definition set_table (t : capwap_hash mac) (s : gmap mac ac_station) (w : world) : world :=
  World (session_id w) (devices w) t s (timeout w) (authtable w) (authsession w) (out w).
Definition set_timeout (t : capwap_timeout timer_callback) (w : world) : world :=
  World (session_id w) (devices w) (table w) (stations w) t (authtable w) (authsession w) (out w).
Definition set_auth (t : capwap_hash mac) (s : gmap mac Z) (w : world) : world :=
  World (session_id w) (devices w) (table w) (stations w) (timeout w) t s (out w).

(** ** The monad *)

(** Programs on a state that may fail. *)
Definition ST (S A : Type) : Type := S -> option (A * S).

Section State.
Context {S : Type}.

Definition ret {A} (a : A) : ST S A := fun w => Some (a, w).
Definition bind {A B} (m : ST S A) (k : A -> ST S B) : ST S B :=
  fun w => match m w with Some (a, w) => k a w | None => None end.
Definition lift {A} (o : option A) : ST S A := fun w => match o with Some a => Some (a, w) | None => None end.
Definition gets {A} (f : S -> A) : ST S A := fun w => Some (f w, w).
Definition update (f : S -> S) : ST S unit := fun w => Some (tt, f w).
Definition guard (b : bool) : ST S unit := lift (if b then Some tt else None).
(** [if (b) { m }] *)
Definition when (b : bool) (m : ST S unit) : ST S unit := if b then m else ret tt.
End State.

(** Programs on the networks and stations of a session. *)
Definition M : Type -> Type := ST world.

Declare Scope ac_scope.
Delimit Scope ac_scope with ac.
Notation "x <- m ;; k" := (bind m (fun x => k))
  (at level 100, m at next level, right associativity) : ac_scope.
Notation "m ;; k" := (bind m (fun _ => k)) (at level 100, right associativity) : ac_scope.
#[global] Open Scope ac_scope.

(** ** Accesses through pointers *)

Definition load_station (s : mac) : M ac_station := x <- gets (fun w => stations w !! s);; lift x.
Definition modify_station (s : mac) (f : ac_station -> ac_station) : M unit :=
  x <- load_station s;; update (fun w => set_stations (<[s := f x]> (stations w)) w).

Definition find_wlan (bssid : mac) (l : list ac_wlan) : option ac_wlan :=
  List.find (fun x => bool_decide (wlan_address x = bssid)) l.

Definition wlans_of (w : world) (r : Z) : list ac_wlan :=
  match devices w !! Z.to_nat (r - 1) with
  | Some d => default [] (wlans d)
  | None => []
  end.

Definition load_device (r : Z) : M ac_device :=
  x <- gets (fun w => devices w !! Z.to_nat (r - 1));; lift x.
Definition load_wlan (p : wlan_ref) : M ac_wlan :=
  x <- gets (fun w => find_wlan p.2 (wlans_of w p.1));; lift x.

(** The network with a BSSID, changed. *)
Definition update_wlan (bssid : mac) (f : ac_wlan -> ac_wlan) (l : list ac_wlan) : list ac_wlan :=
  (fun x => if bool_decide (wlan_address x = bssid) then f x else x) <$> l.

Definition update_device (r : Z) (f : ac_device -> ac_device) (w : world) : world :=
  set_devices (alter f (Z.to_nat (r - 1)) (devices w)) w.

Definition modify_wlan (p : wlan_ref) (f : ac_wlan -> ac_wlan) : M unit :=
  load_wlan p;;
  update (update_device p.1 (fun d => set_wlans (update_wlan p.2 f <$> wlans d) d)).

(** The network a station refers to; a null pointer is a failure. *)
Definition station_wlan (s : mac) : M wlan_ref := x <- load_station s;; lift (wlan x).

Definition emit (e : event) : M unit :=
  update (fun w => World (session_id w) (devices w) (table w) (stations w) (timeout w) (authtable w)
                     (authsession w) (out w ++ [e])).
