(* ===== verification/AcWlans.v ===== *)
(** Networks and stations of a session (src/ac/ac_wlans.c).

    [fuel] bounds the searches of the hash tables and the walks over lists.  The
    locks around the controller's table are left out: each use of the table is
    one step.  Logging is left out. *)
From stdpp Require Import option gmap.
From S2P Require Import Prelude Bitfield Io Header CapwapHash CapwapHashSpec CapwapHashDelete.
From S2P Require Import Timeout Ieee80211 Ieee80211Frame Elements80211a AcWorld.
#[local] Open Scope Z_scope.

Section Operations.
Context `{Indeterminate} `{Target} (fuel : nat).

(** ** Hash tables *)

(** [capwap_hash_search(session->wlans->stations, address)]: it is there. *)
Definition session_search (address : mac) : M bool :=
  t <- gets table;;
  r <- lift (@capwap_hash_search mac mac session_hash fuel t address);;
  ret (match r with Some _ => true | None => false end).

(** [capwap_hash_search(g_ac.authstations, address)]: the session of the
    station found. *)
Definition auth_search (address : mac) : M (option Z) :=
  t <- gets authtable;;
  r <- lift (@capwap_hash_search mac mac auth_hash fuel t address);;
  match r with
  | Some a => s <- gets (fun w => authsession w !! a);; x <- lift s;; ret (Some x)
  | None => ret None
  end.

(** [capwap_hash_delete(g_ac.authstations, address)]. *)
Definition auth_delete (address : mac) : M unit :=
  t <- gets authtable;; m <- gets authsession;;
  t <- lift (@capwap_hash_delete mac mac auth_hash _ fuel t address);;
  update (set_auth t (delete address m)).

(** [capwap_hash_add(g_ac.authstations, station)]. *)
Definition auth_add (address : mac) : M unit :=
  t <- gets authtable;; m <- gets authsession;; id <- gets session_id;;
  t <- lift (@capwap_hash_add mac mac auth_hash _ fuel t address);;
  update (set_auth t (<[address := id]> m)).

(** ** Stations *)

(** [capwap_itemlist_remove] of the item of a station. *)
Definition without (station : mac) (l : list mac) : list mac :=
  List.filter (fun a => negb (bool_decide (a = station))) l.

(** The first part of the reset: the identifier of the station is given back,
    and its network forgets it. *)
Definition leave_network (station : mac) (st : ac_station) : M unit :=
  match wlan st with
  | Some p =>
      when (negb (aid st =? 0))
        (x <- load_wlan p;;
         when (macmode x =? CAPWAP_ADD_WLAN_MACMODE_SPLIT)
           (bits <- lift (ieee80211_aid_free (aidbitfield x) (aid st));;
            modify_wlan p (set_aidbitfield bits));;
         modify_station station (set_aid 0));;
      modify_wlan p (fun x => set_wlan_stations (without station (wlan_stations x)) x)
  | None => ret tt
  end.

Definition ac_stations_reset_station (station : mac) (new : option wlan_ref) : M unit :=
  st <- load_station station;;
  leave_network station st;;
  when (negb (idtimeout st =? CAPWAP_TIMEOUT_INDEX_NO_SET))
    (t <- gets timeout;;
     t <- lift (capwap_timeout_deletetimer fuel t (idtimeout st));;
     update (set_timeout t);;
     modify_station station (set_timer (timeoutaction st) CAPWAP_TIMEOUT_INDEX_NO_SET));;
  modify_station station (set_flags 0);;
  modify_station station (set_wlan new);;
  match new with
  | Some p => modify_wlan p (fun x => set_wlan_stations (wlan_stations x ++ [station]) x)
  | None => ret tt
  end.

Definition ac_stations_destroy_station (station : mac) : M unit :=
  authoritative <- auth_search station;;
  id <- gets session_id;;
  when (bool_decide (authoritative = Some id)) (auth_delete station);;
  ac_stations_reset_station station None;;
  t <- gets table;; m <- gets stations;;
  t <- lift (@capwap_hash_delete mac mac session_hash _ fuel t station);;
  update (set_table t (delete station m)).

(** ** Networks *)

Definition ac_wlans_get_bssid (r : Z) (bssid : mac) : M (option wlan_ref) :=
  guard (IS_VALID_RADIOID r);;
  l <- gets (fun w => wlans_of w r);;
  ret ((fun x => (r, wlan_address x)) <$> find_wlan bssid l).

Definition ac_wlans_get_bssid_with_wlanid (r wlanid : Z) : M (option wlan_ref) :=
  guard (IS_VALID_RADIOID r && IS_VALID_WLANID wlanid);;
  l <- gets (fun w => wlans_of w r);;
  ret ((fun x => (r, wlan_address x)) <$> List.find (fun x => wlan_wlanid x =? wlanid) l).

(** The structure [memset] and filled from the message element; [strcpy] fails
    past the 33 bytes of the name. *)
Definition ac_wlans_create_bssid (wlanid : Z) (bssid : mac) (a : AddWlan.capwap_80211_addwlan_element)
    : option ac_wlan :=
  if negb (IS_VALID_WLANID wlanid) then None else
  if 32 <? Z.of_nat (strlen (AddWlan.ssid a)) then None else
  Some (Wlan (take 6 bssid) wlanid (replicate (Z.to_nat IEEE80211_AID_BITFIELD_SIZE) 0) []
    (AddWlan.capability a) (AddWlan.keyindex a) (AddWlan.keystatus a) (AddWlan.keylength a)
    (k ← AddWlan.key a;
     if 0 <? AddWlan.keylength a then Some (take (Z.to_nat (AddWlan.keylength a)) k) else None)
    (AddWlan.grouptsc a) (AddWlan.qos a) (AddWlan.authmode a) (AddWlan.macmode a)
    (AddWlan.tunnelmode a) (AddWlan.suppressssid a)
    (write_at 0 (cstr (AddWlan.ssid a) ++ [0]) (zeros 33))).

(** 0, or -1 when the radio has a network with that BSSID. *)
Definition ac_wlans_assign_bssid (r : Z) (x : ac_wlan) : M Z :=
  guard (IS_VALID_RADIOID r && IS_VALID_WLANID (wlan_wlanid x));;
  found <- ac_wlans_get_bssid r (wlan_address x);;
  match found with
  | Some _ => ret (-1)
  | None =>
      load_device r;;
      update (update_device r (fun d => set_wlans (Some (default [] (wlans d) ++ [x])) d));;
      ret 0
  end.

(** [while (wlan->stations->first)]: every station of the network. *)
Fixpoint destroy_stations (n : nat) (p : wlan_ref) : M unit :=
  x <- load_wlan p;;
  match wlan_stations x with
  | [] => ret tt
  | station :: _ =>
      match n with
      | O => lift None
      | S n => ac_stations_destroy_station station;; destroy_stations n p
      end
  end.

(** The network found leaves the list of the radio; [ac_wlans_assign_bssid]
    keeps the addresses of a radio distinct, so it is the only one removed. *)
Definition ac_wlans_delete_bssid (r : Z) (bssid : mac) : M unit :=
  found <- ac_wlans_get_bssid r bssid;;
  match found with
  | Some p =>
      destroy_stations fuel p;;
      update (update_device r (fun d =>
        set_wlans (List.filter (fun x => negb (bool_decide (wlan_address x = bssid))) <$> wlans d) d))
  | None => ret tt
  end.

(** [while (items->first)] of one radio. *)
Fixpoint delete_wlans (n : nat) (r : Z) : M unit :=
  l <- gets (fun w => wlans_of w r);;
  match l with
  | [] => ret tt
  | x :: _ =>
      match n with
      | O => lift None
      | S n => ac_wlans_delete_bssid r (wlan_address x);; delete_wlans n r
      end
  end.

Fixpoint destroy_radios (radios : list Z) : M unit :=
  match radios with
  | [] => ret tt
  | r :: radios => delete_wlans fuel r;; destroy_radios radios
  end.

(** The networks and stations are gone; the assertion on the count. *)
Definition ac_wlans_destroy : M unit :=
  destroy_radios (seqZ 1 RADIOID_MAX_COUNT);;
  t <- gets table;;
  guard (CapwapHash.count t =? 0).

(** ** Stations of networks *)

(** [radioid == RADIOID_ANY || radioid == station->wlan->device->radioid] and
    the test on the BSSID, which follow the pointer to the network. *)
Definition ac_stations_get_station (r : Z) (bssid : option mac) (address : mac) : M (option mac) :=
  found <- session_search address;;
  if negb found then ret None else
  st <- load_station address;;
  if negb (has_flag AC_STATION_FLAGS_ENABLED st) then ret None else
  if (r =? RADIOID_ANY) && bool_decide (bssid = None) then ret (Some address) else
  p <- lift (wlan st);;
  if ((r =? RADIOID_ANY) || (r =? p.1)) && match bssid with None => true | Some b => bool_decide (b = p.2) end
  then ret (Some address) else ret None.

(** The new station is put into the table and the controller told; the result
    is NULL when the radio has no such network. *)
Definition ac_stations_create_station (r : Z) (bssid address : mac) : M (option mac) :=
  found <- ac_wlans_get_bssid r bssid;;
  match found with
  | None => ret None
  | Some p =>
      known <- session_search address;;
      when (negb known)
        (t <- gets table;; m <- gets stations;;
         t <- lift (@capwap_hash_add mac mac session_hash _ fuel t address);;
         update (set_table t (<[address := new_station]> m)));;
      ac_stations_reset_station address (Some p);;
      modify_station address (add_flag AC_STATION_FLAGS_ENABLED);;
      authoritative <- auth_search address;;
      id <- gets session_id;;
      when (negb (bool_decide (authoritative = Some id)))
        (auth_add address;;
         match authoritative with
         | Some other => emit (ActionRoaming other address)
         | None => ret tt
         end);;
      ret (Some address)
  end.

Definition ac_stations_authorize_station (station : mac) : M unit :=
  st <- load_station station;;
  when (has_flag AC_STATION_FLAGS_AUTHENTICATED st && has_flag AC_STATION_FLAGS_ASSOCIATE st &&
        negb (has_flag AC_STATION_FLAGS_AUTHORIZED st))
    (p <- lift (wlan st);;
     x <- load_wlan p;;
     rates <- lift (CapwapArray.Array.fetch (supportedratescount st) (supportedrates st));;
     emit (ActionAddStation p.1 station (wlan_wlanid x) (aid st) (capability st) rates)).

(** The first [n] bytes of the buffer a frame was written to. *)
Definition frame_of (n : Z) (buffer : list Z) : list Z := take (Z.to_nat n) buffer.

Definition ac_stations_deauthorize_station (station : mac) : M unit :=
  st <- load_station station;;
  if has_flag AC_STATION_FLAGS_AUTHORIZED st then
    p <- lift (wlan st);;
    modify_station station (clear_flags (Z.lor (Z.lor AC_STATION_FLAGS_AUTHENTICATED AC_STATION_FLAGS_ASSOCIATE)
                                           AC_STATION_FLAGS_AUTHORIZED));;
    emit (ActionDeleteStation p.1 station)
  else
    when (has_flag AC_STATION_FLAGS_AUTHENTICATED st)
      (p <- lift (wlan st);;
       r <- lift (ieee80211_create_deauthentication (fresh IEEE80211_MTU) (DeauthParams p.2 station 2));;
       when (0 <? r.1)
         (modify_station station (clear_flags (Z.lor AC_STATION_FLAGS_AUTHENTICATED AC_STATION_FLAGS_ASSOCIATE));;
          emit (SendData p.1 (frame_of r.1 r.2)))).

Definition ac_stations_delete_station (station : mac) : M unit :=
  ac_stations_deauthorize_station station;;
  ac_stations_destroy_station station.

(** The callback of the timer of a station. *)
Definition ac_stations_timeout (index : Z) (station : mac) : M unit :=
  st <- load_station station;;
  when ((idtimeout st =? index) && (timeoutaction st =? AC_STATION_TIMEOUT_ACTION_DEAUTHENTICATE))
    (ac_stations_delete_station station).

End Operations.

(** A session without networks: [ac_wlans_init]. *)
Definition ac_wlans_init (id : Z) (timers : capwap_timeout timer_callback) (auth : capwap_hash mac)
    (owners : gmap mac Z) : world :=
  World id ((fun r => Device r None 0 (zeros IEEE80211_SUPPORTEDRATE_MAX_COUNT)) <$> seqZ 1 RADIOID_MAX_COUNT)
    (capwap_hash_create AC_WLANS_STATIONS_HASH_SIZE) ∅ timers auth owners [].
