(* ===== verification/AcIeee80211.v ===== *)
(** The management frames a session receives from its radios
    (src/ac/ac_ieee80211_data.c), and the answers of the radios to station
    requests (src/ac/ac_dfa_run.c).

    [kmod n] is the result of the [n]-th send to the kernel module, 0 for
    success; [now] the clock; [stale_length] the value an uninitialised [int]
    happens to hold. *)
From stdpp Require Import option gmap.
From S2P Require Import Prelude Bitfield Io Header CapwapHash CapwapHashSpec CapwapHashDelete CapwapArray.
From S2P Require Import Timeout Ieee80211 Ieee80211Frame ElementsImage AcWorld AcWlans.
#[local] Open Scope Z_scope.

Definition IEEE80211_STATUS_SUCCESS : Z := 0.
Definition IEEE80211_STATUS_UNSPECIFIED_FAILURE : Z := 1.
Definition IEEE80211_STATUS_NOT_SUPPORTED_AUTHENTICATION_ALGORITHM : Z := 13.
Definition IEEE80211_STATUS_UNKNOWN_AUTHENTICATION_TRANSACTION : Z := 14.
Definition IEEE80211_STATUS_AP_UNABLE_TO_HANDLE_NEW_STA : Z := 17.
Definition IEEE80211_AUTHENTICATION_ALGORITHM_OPEN : Z := 0.
Definition IEEE80211_AUTHENTICATION_ALGORITHM_SHARED_KEY : Z := 1.
Definition IEEE80211_AID_FIELD : Z := 49152.

(** The fields of [struct ieee80211_header_mgmt]: [da], [sa] and [bssid] are
    the three addresses; the fixed fields of the subtypes follow the header. *)
Definition auth_algorithm (mgmt : list Z) : Z := le16_at 24 mgmt.
Definition auth_transactionseqnumber (mgmt : list Z) : Z := le16_at 26 mgmt.
Definition auth_statuscode (mgmt : list Z) : Z := le16_at 28 mgmt.
Definition assocreq_capability (mgmt : list Z) : Z := le16_at 24 mgmt.
Definition assocreq_listeninterval (mgmt : list Z) : Z := le16_at 26 mgmt.
Definition assocresp_capability (mgmt : list Z) : Z := le16_at 24 mgmt.
Definition assocresp_statuscode (mgmt : list Z) : Z := le16_at 26 mgmt.
Definition assocresp_aid (mgmt : list Z) : Z := le16_at 28 mgmt.

Section Handlers.
Context `{Indeterminate} `{Target} (fuel : nat) (kmod : nat -> Z) (now : timeval) (stale_length : Z).

Definition ac_kmod_send_data (r : Z) (frame : list Z) : M Z :=
  n <- gets (fun w => length (out w));;
  emit (SendData r frame);;
  ret (kmod n).

(** The information elements of a frame, after the [size] bytes of its fixed
    part: the value returned and the pointers. *)
Definition elements_of (mgmt : list Z) (mgmtlength size : Z) : M (Z * ieee80211_ie_items) :=
  lift (ieee80211_retrieve_information_elements_position (drop (Z.to_nat size) mgmt) (mgmtlength - size)).

Definition from_station (mgmt : list Z) : bool :=
  negb (bool_decide (address3 mgmt = address2 mgmt)) && bool_decide (address3 mgmt = address1 mgmt).
Definition from_radio (mgmt : list Z) : bool :=
  bool_decide (address3 mgmt = address2 mgmt) && negb (bool_decide (address3 mgmt = address1 mgmt)).

Definition ac_ieee80211_mgmt_probe_request_packet (mgmt : list Z) (mgmtlength : Z) : M unit :=
  if bool_decide (address3 mgmt = address2 mgmt) then ret tt else
  elements_of mgmt mgmtlength 24;; ret tt.

(** ** Authentication *)

(** The status of the answer to an authentication, and the algorithm agreed. *)
Definition authentication_status (algorithm transactionseqnumber mode : Z) : Z :=
  if (algorithm =? IEEE80211_AUTHENTICATION_ALGORITHM_OPEN) && (mode =? CAPWAP_ADD_WLAN_AUTHTYPE_OPEN)
  then if transactionseqnumber =? 1 then IEEE80211_STATUS_SUCCESS
       else IEEE80211_STATUS_UNKNOWN_AUTHENTICATION_TRANSACTION
  else IEEE80211_STATUS_NOT_SUPPORTED_AUTHENTICATION_ALGORITHM.

(** The answer of a network whose MAC is split. *)
Definition authentication_split (station : mac) (p : wlan_ref) (x : ac_wlan) (mgmt : list Z)
    (mgmtlength : Z) : M unit :=
  ie <- elements_of mgmt mgmtlength 30;;
  if negb (ie.1 =? 0) then ret tt else
  let algorithm := auth_algorithm mgmt in
  let transactionseqnumber := auth_transactionseqnumber mgmt in
  let status := authentication_status algorithm transactionseqnumber (authmode x) in
  when (status =? IEEE80211_STATUS_SUCCESS)
    (modify_station station (set_authalgorithm IEEE80211_AUTHENTICATION_ALGORITHM_OPEN));;
  r <- lift (ieee80211_create_authentication_response (fresh IEEE80211_MTU)
               (AuthParams (wlan_address x) (address2 mgmt) algorithm
                  (wrap16 (transactionseqnumber + 1)) status));;
  if 0 <? r.1 then
    sent <- ac_kmod_send_data p.1 (frame_of r.1 r.2);;
    if sent =? 0 then modify_station station (add_flag AC_STATION_FLAGS_AUTHENTICATED)
    else ac_stations_delete_station fuel station
  else ac_stations_delete_station fuel station.

(** The request of a station, once the elements are accepted. *)
Definition authentication_request (r : Z) (mgmt : list Z) (mgmtlength : Z) : M unit :=
  created <- ac_stations_create_station fuel r (address3 mgmt) (address2 mgmt);;
  match created with
  | None => ret tt
  | Some station =>
      st <- load_station station;;
      match wlan st with
      | None => ret tt
      | Some p =>
          t <- gets timeout;;
          t <- lift (capwap_timeout_set fuel t (idtimeout st) AC_STATION_TIMEOUT_ASSOCIATION_COMPLETE
                       (StationTimeout station) now);;
          update (set_timeout t.2);;
          modify_station station (set_timer AC_STATION_TIMEOUT_ACTION_DEAUTHENTICATE t.1);;
          x <- load_wlan p;;
          if macmode x =? CAPWAP_ADD_WLAN_MACMODE_LOCAL then ret tt
          else when (macmode x =? CAPWAP_ADD_WLAN_MACMODE_SPLIT)
                 (authentication_split station p x mgmt mgmtlength)
      end
  end.

(** The answer of a radio to a station, seen by the controller. *)
Definition authentication_response (r : Z) (mgmt : list Z) : M unit :=
  found <- ac_stations_get_station fuel r (Some (address3 mgmt)) (address1 mgmt);;
  match found with
  | None => ret tt
  | Some station =>
      st <- load_station station;;
      match wlan st with
      | None => ret tt
      | Some p =>
          x <- load_wlan p;;
          when ((macmode x =? CAPWAP_ADD_WLAN_MACMODE_LOCAL) &&
                (auth_statuscode mgmt =? IEEE80211_STATUS_SUCCESS) &&
                (auth_algorithm mgmt =? IEEE80211_AUTHENTICATION_ALGORITHM_OPEN) &&
                (auth_transactionseqnumber mgmt =? 2))
            (modify_station station (add_flag AC_STATION_FLAGS_AUTHENTICATED))
      end
  end.

Definition ac_ieee80211_mgmt_authentication_packet (r : Z) (mgmt : list Z) (mgmtlength : Z) : M unit :=
  ie <- elements_of mgmt mgmtlength 30;;
  if negb (ie.1 =? 0) then ret tt else
  if from_station mgmt then authentication_request r mgmt mgmtlength
  else when (from_radio mgmt) (authentication_response r mgmt).

(** ** Association *)

(** [len] of the element a pointer leads to, and [len] bytes of its value. *)
Definition ie_len (p : list Z) : option Z := p !! 1%nat.
Definition ie_rates (p : list Z) : option (list Z) :=
  len ← ie_len p; Array.fetch len (drop 2 p).

(** The rates of a station, from the two elements: [None] inside when they are
    missing or more than 16; [rates] is the array of the station before. *)
Definition station_rates (ie : ieee80211_ie_items) (rates : list Z) : option (option (Z * list Z)) :=
  match supported_rates ie with
  | None => Some None
  | Some sr =>
      n ← ie_len sr;
      m ← match extended_supported_rates ie with Some x => ie_len x | None => Some 0 end;
      if n + m <=? IEEE80211_SUPPORTEDRATE_MAX_COUNT then
        bs ← ie_rates sr;
        rates ← Array.store 0 bs rates;
        rates ← match extended_supported_rates ie with
                | Some x => bs ← ie_rates x; Array.store n bs rates
                | None => Some rates
                end;
        Some (Some (n + m, rates))
      else Some None
  end.

(** The status of the answer to an association, with the identifier and the
    rates of the station set when it succeeds. *)
Definition association_status (station : mac) (p : wlan_ref) (x : ac_wlan) (ie : ieee80211_ie_items)
    (mgmt : list Z) : M Z :=
  valid <- lift (ieee80211_is_valid_ssid (wlan_ssid x) (ssid ie) None);;
  if negb (valid =? IEEE80211_VALID_SSID) then ret IEEE80211_STATUS_UNSPECIFIED_FAILURE else
  st <- load_station station;;
  rates <- lift (station_rates ie (supportedrates st));;
  match rates with
  | None => ret IEEE80211_STATUS_UNSPECIFIED_FAILURE
  | Some (n, rates) =>
      modify_station station (set_capability (assocreq_capability mgmt) (assocreq_listeninterval mgmt));;
      let '(result, a, bits) := ieee80211_aid_create (aidbitfield x) in
      modify_wlan p (set_aidbitfield bits);;
      modify_station station (set_aid a);;
      if negb (result =? 0) then ret IEEE80211_STATUS_AP_UNABLE_TO_HANDLE_NEW_STA else
      modify_station station (set_rates n rates);;
      ret IEEE80211_STATUS_SUCCESS
  end.

(** The parameters of the response: [memset] clears fewer bytes than the
    structure has, so that the length of the extra elements is what the stack
    held. *)
Definition association_params (p : wlan_ref) (x : ac_wlan) (d : ac_device) (sa : mac) (status a : Z)
    : option ieee80211_associationresponse_params :=
  rates ← Array.fetch (dev_supportedratescount d) (dev_supportedrates d);
  rates ← Array.store 0 rates (fresh IEEE80211_SUPPORTEDRATE_MAX_COUNT);
  Some (AssocParams (wlan_address x) sa (wlan_capability x) status (Z.lor IEEE80211_AID_FIELD a)
          (dev_supportedratescount d) rates stale_length []).

Definition association_split (station : mac) (p : wlan_ref) (mgmt : list Z) (mgmtlength : Z) : M unit :=
  ie <- elements_of mgmt mgmtlength 28;;
  if negb (ie.1 =? 0) then ac_stations_delete_station fuel station else
  x <- load_wlan p;;
  status <- association_status station p x ie.2 mgmt;;
  st <- load_station station;;
  d <- load_device p.1;;
  params <- lift (association_params p x d (address2 mgmt) status (aid st));;
  r <- lift (ieee80211_create_associationresponse_response (fresh IEEE80211_MTU) params);;
  if 0 <? r.1 then
    sent <- ac_kmod_send_data p.1 (frame_of r.1 r.2);;
    if sent =? 0 then
      modify_station station (add_flag AC_STATION_FLAGS_ASSOCIATE);;
      ac_stations_authorize_station station
    else ac_stations_delete_station fuel station
  else ac_stations_delete_station fuel station.

Definition ac_ieee80211_mgmt_association_request_packet (r : Z) (mgmt : list Z) (mgmtlength : Z) : M unit :=
  ie <- elements_of mgmt mgmtlength 28;;
  if negb (ie.1 =? 0) then ret tt else
  when (from_station mgmt)
    (found <- ac_stations_get_station fuel r (Some (address3 mgmt)) (address2 mgmt);;
     match found with
     | None => ret tt
     | Some station =>
         st <- load_station station;;
         match wlan st with
         | None => ret tt
         | Some p =>
             if negb (has_flag AC_STATION_FLAGS_AUTHENTICATED st)
             then ac_stations_delete_station fuel station else
             modify_station station (set_capability (assocreq_capability mgmt) (assocreq_listeninterval mgmt));;
             rates <- lift (station_rates ie.2 (supportedrates st));;
             match rates with
             | None => ret tt
             | Some (n, rates) =>
                 modify_station station (set_rates n rates);;
                 x <- load_wlan p;;
                 if macmode x =? CAPWAP_ADD_WLAN_MACMODE_LOCAL then ret tt
                 else when (macmode x =? CAPWAP_ADD_WLAN_MACMODE_SPLIT)
                        (association_split station p mgmt mgmtlength)
             end
         end
     end).

Definition ac_ieee80211_mgmt_association_response_packet (r : Z) (mgmt : list Z) (mgmtlength : Z) : M unit :=
  ie <- elements_of mgmt mgmtlength 30;;
  if negb (ie.1 =? 0) then ret tt else
  when (from_radio mgmt)
    (found <- ac_stations_get_station fuel r (Some (address3 mgmt)) (address1 mgmt);;
     match found with
     | None => ret tt
     | Some station =>
         st <- load_station station;;
         match wlan st with
         | None => ret tt
         | Some p =>
             x <- load_wlan p;;
             when ((macmode x =? CAPWAP_ADD_WLAN_MACMODE_LOCAL) &&
                   (assocresp_statuscode mgmt =? IEEE80211_STATUS_SUCCESS))
               (modify_station station (set_capability (assocresp_capability mgmt) (listeninterval st));;
                modify_station station (set_aid (assocresp_aid mgmt));;
                modify_station station (add_flag AC_STATION_FLAGS_ASSOCIATE);;
                rates <- lift (station_rates ie.2 (supportedrates st));;
                match rates with
                | None => ret tt
                | Some (n, rates) =>
                    modify_station station (set_rates n rates);;
                    ac_stations_authorize_station station
                end)
         end
     end).

(** ** The other frames *)

(** Reassociation and disassociation are read and ignored. *)
Definition ac_ieee80211_mgmt_reassociation_request_packet (mgmt : list Z) (mgmtlength : Z) : M unit :=
  elements_of mgmt mgmtlength 34;; ret tt.
Definition ac_ieee80211_mgmt_reassociation_response_packet (mgmt : list Z) (mgmtlength : Z) : M unit :=
  elements_of mgmt mgmtlength 30;; ret tt.
Definition ac_ieee80211_mgmt_disassociation_packet (mgmt : list Z) (mgmtlength : Z) : M unit :=
  elements_of mgmt mgmtlength 26;; ret tt.

Definition ac_ieee80211_mgmt_deauthentication_packet (r : Z) (mgmt : list Z) (mgmtlength : Z) : M unit :=
  ie <- elements_of mgmt mgmtlength 26;;
  if negb (ie.1 =? 0) then ret tt else
  let stationaddress :=
    if negb (bool_decide (address3 mgmt = address2 mgmt)) then address2 mgmt else address1 mgmt in
  found <- ac_stations_get_station fuel r None stationaddress;;
  match found with
  | None => ret tt
  | Some station =>
      modify_station station (clear_flags (Z.lor AC_STATION_FLAGS_AUTHENTICATED AC_STATION_FLAGS_ASSOCIATE));;
      ac_stations_delete_station fuel station
  end.

Definition ac_ieee80211_mgmt_packet (r : Z) (mgmt : list Z) (mgmtlength subtype : Z) : M unit :=
  if subtype =? IEEE80211_FRAMECONTROL_MGMT_SUBTYPE_PROBE_REQUEST then
    when (24 <=? mgmtlength) (ac_ieee80211_mgmt_probe_request_packet mgmt mgmtlength)
  else if subtype =? IEEE80211_FRAMECONTROL_MGMT_SUBTYPE_AUTHENTICATION then
    when (30 <=? mgmtlength) (ac_ieee80211_mgmt_authentication_packet r mgmt mgmtlength)
  else if subtype =? IEEE80211_FRAMECONTROL_MGMT_SUBTYPE_ASSOCIATION_REQUEST then
    when (28 <=? mgmtlength) (ac_ieee80211_mgmt_association_request_packet r mgmt mgmtlength)
  else if subtype =? IEEE80211_FRAMECONTROL_MGMT_SUBTYPE_ASSOCIATION_RESPONSE then
    when (30 <=? mgmtlength) (ac_ieee80211_mgmt_association_response_packet r mgmt mgmtlength)
  else if subtype =? IEEE80211_FRAMECONTROL_MGMT_SUBTYPE_REASSOCIATION_REQUEST then
    when (34 <=? mgmtlength) (ac_ieee80211_mgmt_reassociation_request_packet mgmt mgmtlength)
  else if subtype =? IEEE80211_FRAMECONTROL_MGMT_SUBTYPE_REASSOCIATION_RESPONSE then
    when (30 <=? mgmtlength) (ac_ieee80211_mgmt_reassociation_response_packet mgmt mgmtlength)
  else if subtype =? IEEE80211_FRAMECONTROL_MGMT_SUBTYPE_DISASSOCIATION then
    when (26 <=? mgmtlength) (ac_ieee80211_mgmt_disassociation_packet mgmt mgmtlength)
  else if subtype =? IEEE80211_FRAMECONTROL_MGMT_SUBTYPE_DEAUTHENTICATION then
    when (26 <=? mgmtlength) (ac_ieee80211_mgmt_deauthentication_packet r mgmt mgmtlength)
  else ret tt.

Definition ac_ieee80211_packet (r : Z) (header : list Z) (length : Z) : M unit :=
  guard (IS_VALID_RADIOID r && (sizeof_ieee80211_header <=? length));;
  let fc := framecontrol header in
  when (IEEE80211_FRAME_CONTROL_GET_TYPE fc =? IEEE80211_FRAMECONTROL_TYPE_MGMT)
    (ac_ieee80211_mgmt_packet r header length (IEEE80211_FRAME_CONTROL_GET_SUBTYPE fc)).

(** ** Answers to station requests *)

(** The radio answered to Add Station, with a result code. *)
Definition execute_ieee80211_station_configuration_response_addstation
    (r wlanid : Z) (address : mac) (code : Z) : M unit :=
  found <- ac_wlans_get_bssid_with_wlanid r wlanid;;
  match found with
  | None => ret tt
  | Some p =>
      station <- ac_stations_get_station fuel r (Some p.2) address;;
      match station with
      | None => ret tt
      | Some station =>
          if ResultCode.CAPWAP_RESULTCODE_OK code then
            modify_station station (add_flag AC_STATION_FLAGS_AUTHORIZED);;
            st <- load_station station;;
            t <- gets timeout;;
            t <- lift (capwap_timeout_deletetimer fuel t (idtimeout st));;
            update (set_timeout t);;
            modify_station station (set_timer (timeoutaction st) CAPWAP_TIMEOUT_INDEX_NO_SET)
          else ac_stations_delete_station fuel station
      end
  end.

(** The radio answered to Delete Station. *)
Definition execute_ieee80211_station_configuration_response_deletestation (r : Z) (address : mac) : M unit :=
  station <- ac_stations_get_station fuel r None address;;
  match station with
  | None => ret tt
  | Some station => ac_stations_delete_station fuel station
  end.

(** Another session took a station over ([AC_SESSION_ACTION_STATION_ROAMING],
    src/ac/ac_session.c). *)
Definition action_station_roaming (address : mac) : M unit :=
  station <- ac_stations_get_station fuel RADIOID_ANY None address;;
  match station with
  | None => ret tt
  | Some station => ac_stations_delete_station fuel station
  end.

(** ** Timers *)

(** [capwap_timeout_hasexpired] with the call of the callback, for the callbacks
    of stations. *)
Definition timeout_hasexpired (t : timeval) : M unit :=
  timers <- gets timeout;;
  r <- lift (capwap_timeout_hasexpired fuel timers t);;
  update (set_timeout r.2);;
  match callback <$> r.1.2 with
  | Some (StationTimeout station) => ac_stations_timeout fuel r.1.1 station
  | _ => ret tt
  end.

End Handlers.
