(* ===== verification/AcInv.v ===== *)
(** The invariant of a session's networks and stations, kept by the operations
    of src/ac/ac_wlans.c; each of them is shown to have a result.

    First the rules for the operations of a session: the hash tables of stations
    satisfy the laws of a key alone in its bucket, and the weakest precondition [wp]
    of an operation, which includes that it has a result.  The hash tables are used
    under the condition that makes their searches end: no two stations share a
    bucket ([world_ok], [room]). *)
From stdpp Require Import option gmap sets.
From S2P Require Import Prelude Bitfield Io Header CapwapHash CapwapHashSpec CapwapHashDelete.
From S2P Require Import CapwapArray Timeout TimeoutSpec Ieee80211 Ieee80211Frame Ieee80211Spec.
From S2P Require Import Ieee80211FrameSpec Elements80211a AcWorld AcWlans.
#[local] Open Scope Z_scope.

(** ** The tables of stations *)

Lemma memcmp_eq a b : memcmp a b = 0 <-> a = b.
Proof.
  revert b. induction a as [|x a IH]; intros [|y b]; cbn; try done.
  destruct (Z.ltb_spec x y); [split; [done|intros [= ??]; lia]|].
  destruct (Z.ltb_spec y x); [split; [done|intros [= ??]; lia]|].
  rewrite IH. assert (x = y) as -> by lia. split; [by intros ->|by intros [= ->]].
Qed.

Lemma memcmp_antisym a b : memcmp a b < 0 <-> 0 < memcmp b a.
Proof.
  revert b. induction a as [|x a IH]; intros [|y b]; cbn; try lia.
  destruct (Z.ltb_spec x y), (Z.ltb_spec y x); try lia. apply IH.
Qed.

Lemma memcmp_trans a b c : memcmp a b < 0 -> memcmp b c < 0 -> memcmp a c < 0.
Proof.
  revert b c. induction a as [|x a IH]; intros [|y b] [|z c]; cbn; try lia.
  destruct (Z.ltb_spec x y), (Z.ltb_spec y x), (Z.ltb_spec y z), (Z.ltb_spec z y),
    (Z.ltb_spec x z), (Z.ltb_spec z x); try lia. apply IH.
Qed.

Lemma memcmp_laws : CmpLaws mac memcmp.
Proof. split; [apply memcmp_eq|apply memcmp_antisym|apply memcmp_trans]. Qed.

Lemma session_hash_laws : @HashLaws mac mac session_hash.
Proof. split. exact memcmp_laws. Qed.
Lemma auth_hash_laws : @HashLaws mac mac auth_hash.
Proof. split. exact memcmp_laws. Qed.
Lemma session_keys : @KeyItems mac session_hash.
Proof. done. Qed.
Lemma auth_keys : @KeyItems mac auth_hash.
Proof. done. Qed.

Lemma session_sized : @sized mac mac session_hash AC_WLANS_STATIONS_HASH_SIZE.
Proof. split; [done|]. intros k. by apply Z.mod_pos_bound. Qed.
Lemma auth_sized : @sized mac mac auth_hash AC_STATIONS_HASH_SIZE.
Proof. split; [done|]. intros k. by apply Z.mod_pos_bound. Qed.

(** ** Programs *)

(** [m] has a result in [w], and it satisfies [Q]. *)
Definition wp {S A} (m : ST S A) (w : S) (Q : A -> S -> Prop) : Prop :=
  exists a w', m w = Some (a, w') /\ Q a w'.

Lemma wp_ret {S A} (a : A) (w : S) (Q : A -> S -> Prop) : Q a w -> wp (ret a) w Q.
Proof. intros. by exists a, w. Qed.

Lemma wp_bind {S A B} (m : ST S A) (k : A -> ST S B) w Q :
  wp m w (fun a w' => wp (k a) w' Q) -> wp (bind m k) w Q.
Proof. intros (a & w' & E & b & w'' & E' & HQ). exists b, w''. unfold bind. by rewrite E. Qed.

Lemma wp_assoc {S A B C} (m : ST S A) (k : A -> ST S B) (k' : B -> ST S C) w Q :
  wp (bind (bind m k) k') w Q -> wp (bind m (fun a => bind (k a) k')) w Q.
Proof. unfold wp, bind. intros (c & w' & E & HQ). exists c, w'. by destruct (m w) as [[a w1]|]. Qed.

Lemma wp_mono {S A} (m : ST S A) w (P Q : A -> S -> Prop) :
  wp m w P -> (forall a w', P a w' -> Q a w') -> wp m w Q.
Proof. intros (a & w' & E & HP) HPQ. exists a, w'. auto. Qed.

Lemma wp_gets {S A} (f : S -> A) w (Q : A -> S -> Prop) : Q (f w) w -> wp (gets f) w Q.
Proof. intros. by exists (f w), w. Qed.

Lemma wp_update {S} (f : S -> S) w (Q : unit -> S -> Prop) : Q tt (f w) -> wp (update f) w Q.
Proof. intros. by exists tt, (f w). Qed.

Lemma wp_lift {S A} (o : option A) a (w : S) (Q : A -> S -> Prop) : o = Some a -> Q a w -> wp (lift o) w Q.
Proof. intros -> ?. by exists a, w. Qed.

Lemma wp_guard {S} b (w : S) (Q : unit -> S -> Prop) : b = true -> Q tt w -> wp (guard b) w Q.
Proof. intros -> ?. by exists tt, w. Qed.

Lemma wp_when {S} (b : bool) (m : ST S unit) w Q :
  (b = true -> wp m w Q) -> (b = false -> Q tt w) -> wp (when b m) w Q.
Proof. intros Ht Hf. destruct b; [by apply Ht|]. apply wp_ret. by apply Hf. Qed.

Lemma wp_load_station s st w (Q : ac_station -> world -> Prop) :
  stations w !! s = Some st -> Q st w -> wp (load_station s) w Q.
Proof. intros E HQ. apply wp_bind, wp_gets. rewrite E. by apply (wp_lift _ st). Qed.

Lemma wp_modify_station s st f w (Q : unit -> world -> Prop) :
  stations w !! s = Some st -> Q tt (set_stations (<[s := f st]> (stations w)) w) ->
  wp (modify_station s f) w Q.
Proof. intros E HQ. apply wp_bind. apply (wp_load_station s st); [done|]. by apply wp_update. Qed.

Lemma wp_emit e w (Q : unit -> world -> Prop) :
  (forall w', session_id w' = session_id w -> devices w' = devices w -> table w' = table w ->
     stations w' = stations w -> timeout w' = timeout w -> authtable w' = authtable w ->
     authsession w' = authsession w -> out w' = out w ++ [e] -> Q tt w') ->
  wp (emit e) w Q.
Proof. intros HQ. apply wp_update. by apply HQ. Qed.

(** ** Networks by reference *)

Definition valid_ref (p : wlan_ref) : bool := IS_VALID_RADIOID p.1.

Definition wlan_at (w : world) (p : wlan_ref) : option ac_wlan :=
  if valid_ref p then find_wlan p.2 (wlans_of w p.1) else None.

Lemma valid_index r q :
  IS_VALID_RADIOID r = true -> IS_VALID_RADIOID q = true -> Z.to_nat (r - 1) = Z.to_nat (q - 1) -> r = q.
Proof. unfold IS_VALID_RADIOID. intros. bools. lia. Qed.

Lemma find_update_wlan b b' f l :
  (forall x, wlan_address (f x) = wlan_address x) ->
  find_wlan b (update_wlan b' f l) =
    if bool_decide (b = b') then f <$> find_wlan b l else find_wlan b l.
Proof.
  intros Hf. unfold find_wlan, update_wlan. induction l as [|x l IH]; [by case_bool_decide|]. cbn.
  destruct (bool_decide_reflect (wlan_address x = b')) as [E|E]; cbn.
  - rewrite Hf, E. destruct (bool_decide_reflect (b' = b)) as [<-|Hne].
    + by rewrite bool_decide_true.
    + rewrite IH. by rewrite bool_decide_false by congruence.
  - rewrite IH. destruct (bool_decide_reflect (wlan_address x = b)) as [E'|E']; [|done].
    rewrite bool_decide_false by congruence. done.
Qed.

(** Everything but the networks is the same; the rates of the radios too. *)
Definition same_but_wlans (w w' : world) : Prop :=
  session_id w' = session_id w /\ table w' = table w /\ stations w' = stations w /\
  timeout w' = timeout w /\ authtable w' = authtable w /\ authsession w' = authsession w /\
  out w' = out w /\ set_wlans None <$> devices w' = set_wlans None <$> devices w.

Lemma same_but_wlans_refl w : same_but_wlans w w.
Proof. by split_and!. Qed.

Lemma same_but_wlans_trans w1 w2 w3 :
  same_but_wlans w1 w2 -> same_but_wlans w2 w3 -> same_but_wlans w1 w3.
Proof. intros (?&?&?&?&?&?&?&?) (?&?&?&?&?&?&?&?). split_and!; congruence. Qed.

Lemma wp_load_wlan p x w (Q : ac_wlan -> world -> Prop) :
  wlan_at w p = Some x -> Q x w -> wp (load_wlan p) w Q.
Proof.
  unfold wlan_at. destruct (valid_ref p); [|done]. intros E HQ. apply wp_bind, wp_gets. by apply (wp_lift _ x).
Qed.

Lemma wlans_update_device w r f q :
  IS_VALID_RADIOID r = true -> IS_VALID_RADIOID q = true ->
  wlans_of (update_device r f w) q =
    if bool_decide (q = r)
    then match devices w !! Z.to_nat (r - 1) with Some d => default [] (wlans (f d)) | None => [] end
    else wlans_of w q.
Proof.
  intros Hr Hq. unfold wlans_of, update_device. cbn. case_bool_decide as E.
  - subst q. rewrite list_lookup_alter_eq. by destruct (devices w !! _).
  - rewrite list_lookup_alter_ne; [done|]. intros Hn. apply E. symmetry. by apply valid_index.
Qed.

Lemma devices_update w r f :
  (forall d, set_wlans None (f d) = set_wlans None d) ->
  set_wlans None <$> devices (update_device r f w) = set_wlans None <$> devices w.
Proof.
  intros Hf. cbn. generalize (Z.to_nat (r - 1)). induction (devices w) as [|d l IH]; intros [|i]; try done; cbn.
  - by rewrite Hf.
  - f_equal. apply IH.
Qed.

(** Changing one network. *)
Lemma wp_modify_wlan p x f w (Q : unit -> world -> Prop) :
  wlan_at w p = Some x -> (forall y, wlan_address (f y) = wlan_address y) ->
  (forall w', same_but_wlans w w' ->
     (forall q, wlan_at w' q = if bool_decide (q = p) then Some (f x) else wlan_at w q) -> Q tt w') ->
  wp (modify_wlan p f) w Q.
Proof.
  intros E Hf HQ. apply wp_bind. apply (wp_load_wlan p x); [done|]. apply wp_update. apply HQ.
  - split_and!; try done. by apply devices_update.
  - intros q. unfold wlan_at in *. destruct (valid_ref p) eqn:Hp; [|done].
    destruct (valid_ref q) eqn:Hq; [|rewrite bool_decide_false; [done|intros ->; congruence]].
    rewrite wlans_update_device by done. destruct (bool_decide_reflect (q.1 = p.1)) as [Er|Er].
    + rewrite Er. unfold wlans_of in *. destruct (devices w !! _) as [d|]; [|done].
      cbn [wlans set_wlans].
      assert (Ed : default [] (update_wlan p.2 f <$> wlans d) = update_wlan p.2 f (default [] (wlans d)))
        by (by destruct (wlans d)).
      rewrite Ed, find_update_wlan by done. destruct (bool_decide_reflect (q.2 = p.2)) as [Eb|Eb].
      * rewrite bool_decide_true by (destruct p, q; cbn in *; congruence). by rewrite Eb, E.
      * rewrite bool_decide_false; [done|]. by intros ->.
    + rewrite bool_decide_false; [done|]. by intros ->.
Qed.

(** ** The invariant *)

Definition is_split (x : ac_wlan) : bool := macmode x =? CAPWAP_ADD_WLAN_MACMODE_SPLIT.

(** A station of the session, or one the controller knows. *)
Definition known (w : world) (a : mac) : Prop :=
  is_Some (stations w !! a) \/ is_Some (authsession w !! a).

(** Two addresses do not meet in a bucket of the table of a session, or of the
    controller's table. *)
Definition apart (a b : mac) : Prop :=
  ac_wlans_item_gethash a AC_WLANS_STATIONS_HASH_SIZE = ac_wlans_item_gethash b AC_WLANS_STATIONS_HASH_SIZE ->
  a = b.
Definition auth_apart (a b : mac) : Prop :=
  ac_stations_item_gethash a AC_STATIONS_HASH_SIZE = ac_stations_item_gethash b AC_STATIONS_HASH_SIZE -> a = b.

(** An address has buckets of its own. *)
Definition room (w : world) (a : mac) : Prop :=
  (forall b, is_Some (stations w !! b) -> apart b a) /\ (forall b, known w b -> auth_apart b a).

(** What a station keeps, by itself. *)
Record station_ok (st : ac_station) : Prop := StationOk {
  st_aid : wlan st = None -> aid st = 0;
  st_flags : wlan st = None -> flags st = 0;
  st_timer : idtimeout st = CAPWAP_TIMEOUT_INDEX_NO_SET \/ small (idtimeout st);
  st_rates : zlen (supportedrates st) = IEEE80211_SUPPORTEDRATE_MAX_COUNT;
  st_count : 0 <= supportedratescount st <= IEEE80211_SUPPORTEDRATE_MAX_COUNT
}.

(** What a network keeps, by itself. *)
Record wlan_ok (x : ac_wlan) : Prop := WlanOk {
  wl_nodup : NoDup (wlan_stations x);
  wl_words : words_ok (aidbitfield x);
  wl_size : zlen (aidbitfield x) = IEEE80211_AID_BITFIELD_SIZE;
  wl_address : length (wlan_address x) = 6%nat
}.

Section Invariant.
Context `{Target}.

Record world_ok (w : world) : Prop := WorldOk {
  (** The table of the session holds its stations. *)
  w_table : @hash_inv mac mac session_hash _ (table w);
  w_size : hashsize (table w) = AC_WLANS_STATIONS_HASH_SIZE;
  w_lookup : forall a, is_Some (@hash_lookup mac mac session_hash (table w) a) <-> is_Some (stations w !! a);
  w_apart : forall a b, is_Some (stations w !! a) -> is_Some (stations w !! b) -> apart a b;
  (** The controller's table holds the stations with an authoritative session. *)
  w_auth : @hash_inv mac mac auth_hash _ (authtable w);
  w_auth_size : hashsize (authtable w) = AC_STATIONS_HASH_SIZE;
  w_auth_lookup : forall a, is_Some (@hash_lookup mac mac auth_hash (authtable w) a) <->
                            is_Some (authsession w !! a);
  w_auth_apart : forall a b, known w a -> known w b -> auth_apart a b;
  (** A station refers to its network, and a network lists its stations. *)
  w_ref : forall a st p, stations w !! a = Some st -> wlan st = Some p ->
            exists x, wlan_at w p = Some x /\ a ∈ wlan_stations x;
  w_members : forall p x a, wlan_at w p = Some x -> a ∈ wlan_stations x ->
            exists st, stations w !! a = Some st /\ wlan st = Some p;
  w_station : forall a st, stations w !! a = Some st -> station_ok st;
  w_wlan : forall p x, wlan_at w p = Some x -> wlan_ok x;
  (** Where the controller gives out association identifiers, they are marked
      as used, and no two stations of a network share one. *)
  w_aid : forall a st p x, stations w !! a = Some st -> wlan st = Some p -> wlan_at w p = Some x ->
            is_split x = true -> aid st <> 0 ->
            1 <= aid st <= IEEE80211_AID_MAX_VALUE /\ in_use (aidbitfield x) (aid st) = true;
  w_unique : forall a b st su p x, stations w !! a = Some st -> stations w !! b = Some su ->
            wlan st = Some p -> wlan su = Some p -> wlan_at w p = Some x -> is_split x = true ->
            aid st <> 0 -> aid st = aid su -> a = b;
  (** Timers: one that will run on a station is the timer of that station. *)
  w_timers : timers_ok (timeout w);
  w_used : timers_used (timeout w);
  w_callback : forall it a, it ∈ itemstimeout (timeout w) -> callback it = StationTimeout a ->
            exists st, stations w !! a = Some st /\ idtimeout st = index it
}.

Lemma session_alone w a :
  world_ok w -> (forall b, is_Some (stations w !! b) -> apart b a) -> @alone mac session_hash (table w) a.
Proof. intros Hok Ha b Hb. rewrite (w_size w Hok). apply Ha. by apply (w_lookup w Hok). Qed.

Lemma auth_alone w a :
  world_ok w -> (forall b, known w b -> auth_apart b a) -> @alone mac auth_hash (authtable w) a.
Proof. intros Hok Ha b Hb. rewrite (w_auth_size w Hok). apply Ha. right. by apply (w_auth_lookup w Hok). Qed.

Lemma station_room w a : world_ok w -> is_Some (stations w !! a) -> room w a.
Proof.
  intros Hok Ha. split; intros b Hb; [by apply (w_apart w Hok)|]. apply (w_auth_apart w Hok); [done|]. by left.
Qed.

(** ** Changes of one part of the world *)

Lemma ok_set_auth w t m :
  world_ok w -> @hash_inv mac mac auth_hash _ t -> hashsize t = AC_STATIONS_HASH_SIZE ->
  (forall a, is_Some (@hash_lookup mac mac auth_hash t a) <-> is_Some (m !! a)) ->
  (forall a b, known (set_auth t m w) a -> known (set_auth t m w) b -> auth_apart a b) ->
  world_ok (set_auth t m w).
Proof. intros [] Ht Hs Hl Ha. by constructor. Qed.

(** One station changed in fields of its own, or a new station. *)
Lemma ok_insert w t a st' :
  world_ok w -> @hash_inv mac mac session_hash _ t -> hashsize t = AC_WLANS_STATIONS_HASH_SIZE ->
  (forall b, is_Some (@hash_lookup mac mac session_hash t b) <-> b = a \/ is_Some (stations w !! b)) ->
  room w a -> station_ok st' ->
  match stations w !! a with
  | Some st => wlan st' = wlan st /\ idtimeout st' = idtimeout st /\ aid st' = aid st
  | None => wlan st' = None
  end ->
  world_ok (set_table t (<[a := st']> (stations w)) w).
Proof.
  intros Hok Ht Hs Hl [Hr1 Hr2] Hst Hf.
  assert (Hold : forall b su, <[a := st']> (stations w) !! b = Some su -> b = a /\ su = st' \/
                   b <> a /\ stations w !! b = Some su).
  { intros b su. rewrite lookup_insert_Some. naive_solver. }
  assert (Hdom : forall b, is_Some (<[a := st']> (stations w) !! b) -> b = a \/ is_Some (stations w !! b)).
  { intros b [su [[-> _]|[_ E]]%Hold]; [by left|right; by eexists]. }
  assert (Hr3 : forall b, known (set_table t (<[a := st']> (stations w)) w) b -> b = a \/ known w b).
  { intros b [Hb|Hb]; [destruct (Hdom b Hb); [by left|right; by left]|right; by right]. }
  assert (Hpre : forall b su, <[a := st']> (stations w) !! b = Some su -> wlan su <> None ->
    exists sv, stations w !! b = Some sv /\ wlan su = wlan sv /\ aid su = aid sv).
  { intros b su [[-> ->]|[_ E]]%Hold Hw; [|by exists su]. destruct (stations w !! a) as [sv|]; [|done].
    exists sv. naive_solver. }
  destruct Hok. constructor; cbn [table stations authtable authsession timeout set_table]; try done.
  - intros b. rewrite Hl. split; [intros [->|[su E]]|apply Hdom].
    + rewrite lookup_insert_eq. by eexists.
    + destruct (decide (b = a)) as [->|]; [rewrite lookup_insert_eq; by eexists|].
      rewrite lookup_insert_ne by done. by eexists.
  - intros b c [->|Hb]%Hdom [->|Hc]%Hdom; [done| |by apply Hr1|by apply w_apart0].
    intros E. symmetry. by apply Hr1.
  - intros b c [->|Hb]%Hr3 [->|Hc]%Hr3; [done| |by apply Hr2|by apply w_auth_apart0].
    intros E. symmetry. by apply Hr2.
  - intros b su p E Ep. destruct (Hpre b su E) as (sv & Ev & Ew & _); [congruence|].
    apply (w_ref0 b sv p); [done|congruence].
  - intros p x b Ex Hb. destruct (w_members0 p x b Ex Hb) as (su & E & Ep).
    destruct (decide (b = a)) as [->|]; [|exists su; by rewrite lookup_insert_ne].
    exists st'. rewrite lookup_insert_eq. rewrite E in Hf. split; [done|]. destruct Hf. congruence.
  - intros b su [[-> ->]|[_ E]]%Hold; [done|by apply (w_station0 b)].
  - intros b su p x E Ep Ex Hsp Ha. destruct (Hpre b su E) as (sv & Ev & Ew & Ea); [congruence|].
    rewrite Ea in *. by apply (w_aid0 b sv p x); try congruence.
  - intros b c su sv p x E1 E2 Ep1 Ep2 Ex Hsp Ha Hab.
    destruct (Hpre b su E1) as (su' & Eu & Ew1 & Ea1); [congruence|].
    destruct (Hpre c sv E2) as (sv' & Ev & Ew2 & Ea2); [congruence|].
    by apply (w_unique0 b c su' sv' p x); try congruence.
  - intros it b Hit Hcb. destruct (w_callback0 it b Hit Hcb) as (su & E & Eid).
    destruct (decide (b = a)) as [->|]; [|exists su; by rewrite lookup_insert_ne].
    exists st'. rewrite lookup_insert_eq. rewrite E in Hf. split; [done|]. destruct Hf as (_ & -> & _). done.
Qed.

(** A change of the fields of a station that the invariant does not link to
    others. *)
Lemma ok_modify_station w a st st' :
  world_ok w -> stations w !! a = Some st -> station_ok st' ->
  wlan st' = wlan st -> idtimeout st' = idtimeout st -> aid st' = aid st ->
  world_ok (set_stations (<[a := st']> (stations w)) w).
Proof.
  intros Hok E Hst Hw Hi Ha. apply (ok_insert w (table w)); try by destruct Hok.
  - intros b. rewrite (w_lookup w Hok). split; [by right|]. intros [->|Hb]; [by eexists|done].
  - apply station_room; [done|by eexists].
  - by rewrite E.
Qed.

(** ** Resetting a station *)

(** The network [q] after station [a], which was [st], left its network. *)
Definition leave_bits (st : ac_station) (q : wlan_ref) (x : ac_wlan) : list Z :=
  if bool_decide (wlan st = Some q) && negb (aid st =? 0) && is_split x
  then default (aidbitfield x) (clear_bit (aid st) (aidbitfield x)) else aidbitfield x.
Definition leave_wlan (a : mac) (st : ac_station) (q : wlan_ref) (x : ac_wlan) : ac_wlan :=
  set_aidbitfield (leave_bits st q x) (set_wlan_stations (without a (wlan_stations x)) x).
Definition enter_wlan (a : mac) (new : option wlan_ref) (q : wlan_ref) (x : ac_wlan) : ac_wlan :=
  if bool_decide (new = Some q) then set_wlan_stations (wlan_stations x ++ [a]) x else x.

Definition reset_of (st : ac_station) (new : option wlan_ref) : ac_station :=
  set_wlan new (set_flags 0 (set_timer (timeoutaction st) CAPWAP_TIMEOUT_INDEX_NO_SET (set_aid 0 st))).

(** The parts that stay. *)
Definition same_session (w w' : world) : Prop :=
  session_id w' = session_id w /\ table w' = table w /\ authtable w' = authtable w /\
  authsession w' = authsession w /\ out w' = out w /\
  set_wlans None <$> devices w' = set_wlans None <$> devices w.

(** [w'] is [w] after the reset of a station. *)
Record reset_to (w w' : world) (a : mac) (st : ac_station) (new : option wlan_ref) : Prop := ResetTo {
  r_same : same_session w w';
  r_stations : stations w' = <[a := reset_of st new]> (stations w);
  r_wlans : forall q, wlan_at w' q = (enter_wlan a new q ∘ leave_wlan a st q) <$> wlan_at w q;
  r_timers : timers_ok (timeout w');
  r_used : timers_used (timeout w');
  r_items : itemstimeout (timeout w') = remove_timer (idtimeout st) (itemstimeout (timeout w));
  r_free : timers_free (timeout w) -> timers_free (timeout w')
}.

Lemma elem_of_without a b l : b ∈ without a l <-> b ∈ l /\ b <> a.
Proof.
  unfold without. rewrite !list_elem_of_In, filter_In. rewrite negb_true_iff, bool_decide_eq_false. done.
Qed.

Lemma NoDup_without a l : NoDup l -> NoDup (without a l).
Proof. intros Hl. apply NoDup_ListNoDup, List.NoDup_filter, NoDup_ListNoDup, Hl. Qed.

Lemma without_notin a l : a ∉ l -> without a l = l.
Proof.
  unfold without. induction l as [|b l IH]; [done|]. intros [Hb Hl]%not_elem_of_cons. cbn.
  rewrite bool_decide_false by done. cbn. by rewrite IH.
Qed.

(** Leaving changes nothing for a station that is not there. *)
Lemma leave_other w a st q x :
  world_ok w -> stations w !! a = Some st -> wlan_at w q = Some x -> wlan st <> Some q -> leave_wlan a st q x = x.
Proof.
  intros Hok E Ex Hne. unfold leave_wlan, leave_bits. rewrite bool_decide_false by done. cbn.
  rewrite without_notin; [by destruct x|]. intros Hin.
  destruct (w_members w Hok q x a Ex Hin) as (su & E' & Hw). congruence.
Qed.

(** The invariant holds after the reset. *)
Lemma leave_enter_fields a st new q x :
  let x' := enter_wlan a new q (leave_wlan a st q x) in
  is_split x' = is_split x /\ aidbitfield x' = leave_bits st q x /\
  wlan_stations x' = without a (wlan_stations x) ++ (if bool_decide (new = Some q) then [a] else []) /\
  wlan_address x' = wlan_address x.
Proof. unfold enter_wlan. case_bool_decide; cbn; by rewrite ?app_nil_r. Qed.

Lemma leave_bits_spec w a st q x :
  world_ok w -> stations w !! a = Some st -> wlan_at w q = Some x ->
  words_ok (leave_bits st q x) /\ length (leave_bits st q x) = length (aidbitfield x) /\
  forall k, 1 <= k -> in_use (leave_bits st q x) k =
    in_use (aidbitfield x) k && negb (bool_decide (wlan st = Some q) && is_split x && (k =? aid st)).
Proof.
  intros Hok E Ex. pose proof (w_wlan w Hok q x Ex) as [_ Hwd Hsz _]. unfold leave_bits.
  destruct (bool_decide_reflect (wlan st = Some q)) as [Ew|Ew]; cbn [andb]; [|split_and!; try done].
  2: { intros k _. by rewrite andb_true_r. }
  destruct (is_split x) eqn:Hsp; [|rewrite andb_false_r; split_and!; try done; intros; by rewrite andb_true_r].
  destruct (Z.eqb_spec (aid st) 0) as [Ha|Ha]; cbn [negb andb].
  { split_and!; try done. intros k Hk. rewrite (proj2 (Z.eqb_neq _ _)) by lia. by rewrite andb_true_r. }
  destruct (w_aid w Hok a st q x E Ew Ex Hsp Ha) as [Hr _].
  destruct (clear_bit_spec (aidbitfield x) (aid st)) as (bits & Eb & Hl & Hu).
  { rewrite Hsz. unfold IEEE80211_AID_BITFIELD_SIZE, IEEE80211_AID_MAX_VALUE in *. lia. }
  rewrite Eb. cbn. split_and!; [by eapply words_ok_clear|done|].
  intros k Hk. rewrite Hu by done. apply andb_comm.
Qed.

Section ResetOk.
Context (w w' : world) (a : mac) (st : ac_station) (new : option wlan_ref).
Context (Hok : world_ok w) (E : stations w !! a = Some st).
Context (Hnew : forall p, new = Some p -> is_Some (wlan_at w p)) (Hto : reset_to w w' a st new).

Lemma reset_station_at b su :
  stations w' !! b = Some su <-> b = a /\ su = reset_of st new \/ b <> a /\ stations w !! b = Some su.
Proof using Hto. clear - Hto. rewrite (r_stations _ _ _ _ _ Hto), lookup_insert_Some. naive_solver. Qed.

Lemma reset_dom b : is_Some (stations w' !! b) <-> is_Some (stations w !! b).
Proof using E Hto.
  split.
  - intros [su [[-> _]|[_ Hb]]%reset_station_at]; by eexists.
  - intros [su Hb]. destruct (decide (b = a)) as [->|Hne].
    + exists (reset_of st new). apply reset_station_at. by left.
    + exists su. apply reset_station_at. by right.
Qed.

Lemma reset_wlan_at q x' :
  wlan_at w' q = Some x' ->
  exists x, wlan_at w q = Some x /\ x' = enter_wlan a new q (leave_wlan a st q x).
Proof using Hto.
  rewrite (r_wlans _ _ _ _ _ Hto). destruct (wlan_at w q) as [x|]; [|done]. intros [= <-]. by exists x.
Qed.

Lemma reset_ref b su p :
  stations w' !! b = Some su -> wlan su = Some p -> exists x, wlan_at w' p = Some x /\ b ∈ wlan_stations x.
Proof using All.
  intros Hb Hp. rewrite (r_wlans _ _ _ _ _ Hto).
  pose proof (fun x => leave_enter_fields a st new p x) as Hf.
  apply reset_station_at in Hb as [[-> ->]|[Hne Hb]].
  - cbn in Hp. destruct (Hnew p Hp) as [x Ex]. rewrite Ex. eexists. split; [done|].
    destruct (Hf x) as (_ & _ & Hl & _). cbn. rewrite Hl, bool_decide_true by done. set_solver.
  - destruct (w_ref w Hok b su p Hb Hp) as (x & Ex & Hin). rewrite Ex. eexists. split; [done|].
    destruct (Hf x) as (_ & _ & Hl & _). cbn. rewrite Hl. apply elem_of_app. left. by apply elem_of_without.
Qed.

Lemma reset_members q x' b :
  wlan_at w' q = Some x' -> b ∈ wlan_stations x' -> exists su, stations w' !! b = Some su /\ wlan su = Some q.
Proof using All.
  intros (x & Ex & ->)%reset_wlan_at. destruct (leave_enter_fields a st new q x) as (_ & _ & -> & _).
  intros [[Hin Hne]%elem_of_without|Hin]%elem_of_app.
  - destruct (w_members w Hok q x b Ex Hin) as (su & Hb & Hw). exists su. split; [|done].
    apply reset_station_at. by right.
  - case_bool_decide; [|set_solver]. apply list_elem_of_singleton in Hin as ->.
    exists (reset_of st new). split; [|done]. apply reset_station_at. by left.
Qed.

Lemma reset_wlan_ok q x' : wlan_at w' q = Some x' -> wlan_ok x'.
Proof using All.
  intros (x & Ex & ->)%reset_wlan_at. destruct (leave_enter_fields a st new q x) as (_ & Hb & Hl & Had).
  destruct (leave_bits_spec w a st q x Hok E Ex) as (Hw & Hlen & _).
  pose proof (w_wlan w Hok q x Ex) as [Hnd _ Hsz Hsix]. constructor; rewrite ?Hb, ?Hl, ?Hlen, ?Had; try done.
  apply NoDup_app. split_and!; [by apply NoDup_without| |by case_bool_decide; [apply NoDup_singleton|constructor]].
  intros b [_ Hne]%elem_of_without. case_bool_decide; set_solver.
Qed.

(** The identifiers of the other stations stay in use. *)
Lemma reset_aid b su q x' :
  stations w' !! b = Some su -> wlan su = Some q -> wlan_at w' q = Some x' -> is_split x' = true ->
  aid su <> 0 ->
  b <> a /\ stations w !! b = Some su /\ 1 <= aid su <= IEEE80211_AID_MAX_VALUE /\
  in_use (aidbitfield x') (aid su) = true.
Proof using All.
  intros Hb Hw (x & Ex & ->)%reset_wlan_at. destruct (leave_enter_fields a st new q x) as (-> & -> & _).
  intros Hsp Ha. apply reset_station_at in Hb as [[-> ->]|[Hne Hb]]; [done|].
  destruct (w_aid w Hok b su q x Hb Hw Ex Hsp Ha) as [Hr Hu]. split_and!; try done; try lia.
  destruct (leave_bits_spec w a st q x Hok E Ex) as (_ & _ & Hin). rewrite Hin, Hu, Hsp by lia.
  destruct (bool_decide_reflect (wlan st = Some q)) as [Ew|]; [|done].
  destruct (Z.eqb_spec (aid su) (aid st)) as [Ea|]; [|done]. exfalso. apply Hne.
  by apply (w_unique w Hok b a su st q x).
Qed.

Lemma reset_world_ok : world_ok w'.
Proof using All.
  pose proof (r_same _ _ _ _ _ Hto) as (Hid & Ht & Hat & Has & Ho & Hd).
  assert (Hk : forall b, known w' b <-> known w b).
  { intros b. unfold known. by rewrite reset_dom, Has. }
  constructor; rewrite ?Ht, ?Hat, ?Has; try (by destruct Hok).
  - intros b. rewrite reset_dom. apply (w_lookup w Hok).
  - intros b c. rewrite !reset_dom. apply (w_apart w Hok).
  - intros b c. rewrite !Hk. apply (w_auth_apart w Hok).
  - apply reset_ref.
  - apply reset_members.
  - intros b su [[-> ->]|[_ Hb]]%reset_station_at; [|by apply (w_station w Hok b)].
    destruct (w_station w Hok a st E) as [_ _ _ Hr Hc]. constructor; try done. by left.
  - apply reset_wlan_ok.
  - intros b su q x' Hb Hw Hx Hs Ha. by destruct (reset_aid b su q x' Hb Hw Hx Hs Ha) as (_ & _ & ?).
  - intros b c su sv q x' Hb Hc Hw1 Hw2 Hx Hs Ha Hab.
    destruct (reset_aid b su q x' Hb Hw1 Hx Hs Ha) as (_ & Hb' & _).
    destruct (reset_aid c sv q x' Hc Hw2 Hx Hs) as (_ & Hc' & _); [congruence|].
    apply reset_wlan_at in Hx as (x & Ex & ->). destruct (leave_enter_fields a st new q x) as (Esp & _).
    apply (w_unique w Hok b c su sv q x); try done. congruence.
  - apply (r_timers _ _ _ _ _ Hto).
  - apply (r_used _ _ _ _ _ Hto).
  - intros it b. rewrite (r_items _ _ _ _ _ Hto). unfold remove_timer. rewrite list_elem_of_In, filter_In.
    intros [Hin Hi] Hcb. rewrite <- list_elem_of_In in Hin.
    destruct (w_callback w Hok it b Hin Hcb) as (su & Hb & Hix). exists su. split; [|done].
    apply reset_station_at. destruct (decide (b = a)) as [->|]; [|by right].
    exfalso. assert (su = st) as -> by congruence. rewrite Hix, Z.eqb_refl in Hi. done.
Qed.

End ResetOk.

Context (fuel : nat) (Hfuel : enough fuel).

(** ** The tables *)

Lemma wp_session_search w a Q :
  world_ok w -> room w a ->
  Q (bool_decide (is_Some (stations w !! a))) w -> wp (session_search fuel a) w Q.
Proof using Hfuel.
  intros Hok [Hr _] HQ. apply wp_bind, wp_gets, wp_bind.
  eapply wp_lift.
  { apply (@alone_search mac session_hash session_hash_laws session_keys _);
      [apply (w_table w Hok)|by apply session_alone|done]. }
  apply wp_ret. pose proof (w_lookup w Hok a) as Hl. destruct (@hash_lookup mac mac session_hash _ a).
  - rewrite bool_decide_true in HQ; [done|]. apply Hl. by eexists.
  - rewrite bool_decide_false in HQ; [done|]. intros Hs%Hl. by destruct Hs.
Qed.

Lemma wp_auth_search w a Q :
  world_ok w -> room w a -> Q (authsession w !! a) w -> wp (auth_search fuel a) w Q.
Proof using Hfuel.
  intros Hok [_ Hr] HQ. apply wp_bind, wp_gets, wp_bind.
  eapply wp_lift.
  { apply (@alone_search mac auth_hash auth_hash_laws auth_keys _);
      [apply (w_auth w Hok)|by apply auth_alone|done]. }
  pose proof (w_auth_lookup w Hok a) as Hl. destruct (@hash_lookup mac mac auth_hash _ a) as [b|] eqn:E.
  - apply (@lookup_found mac auth_hash auth_hash_laws auth_keys) in E. subst b.
    destruct (proj1 Hl) as [id Eid]; [by eexists|]. rewrite Eid in HQ.
    apply wp_bind, wp_gets, wp_bind. apply (wp_lift _ id); [done|]. by apply wp_ret.
  - apply wp_ret. destruct (authsession w !! a); [|done]. destruct (proj2 Hl) as [? ?]; [by eexists|done].
Qed.

Lemma wp_auth_delete w a Q :
  world_ok w -> room w a ->
  (forall t, world_ok (set_auth t (delete a (authsession w)) w) ->
     Q tt (set_auth t (delete a (authsession w)) w)) ->
  wp (auth_delete fuel a) w Q.
Proof using Hfuel.
  intros Hok [Hr1 Hr] HQ. apply wp_bind, wp_gets, wp_bind, wp_gets, wp_bind.
  destruct (@alone_delete mac _ auth_hash auth_hash_laws auth_keys _ fuel (authtable w) a)
    as (t & E & Hinv & Hs & Hl); [apply (w_auth w Hok)|by apply auth_alone|done|].
  eapply wp_lift; [exact E|]. apply wp_update, HQ. apply ok_set_auth; try done.
  - by rewrite Hs, (w_auth_size w Hok).
  - intros b. rewrite Hl. case_bool_decide as Eb.
    + subst b. rewrite lookup_delete_eq. split; intros [? ?]; done.
    + rewrite lookup_delete_ne by done. apply (w_auth_lookup w Hok).
  - assert (Hk : forall b, known (set_auth t (delete a (authsession w)) w) b -> known w b).
    { intros b [Hb|Hb]; [by left|right]. cbn in Hb. by apply lookup_delete_is_Some in Hb as [_ ?]. }
    intros b c Hb%Hk Hc%Hk. by apply (w_auth_apart w Hok).
Qed.

Lemma wp_auth_add w a Q :
  world_ok w -> room w a ->
  (forall t, world_ok (set_auth t (<[a := session_id w]> (authsession w)) w) ->
     Q tt (set_auth t (<[a := session_id w]> (authsession w)) w)) ->
  wp (auth_add fuel a) w Q.
Proof using Hfuel.
  intros Hok [Hr1 Hr] HQ. apply wp_bind, wp_gets, wp_bind, wp_gets, wp_bind, wp_gets, wp_bind.
  destruct (@alone_add mac _ auth_hash auth_hash_laws auth_keys _ fuel (authtable w) a)
    as (t & E & Hinv & Hs & Hl); [apply (w_auth w Hok)|by apply auth_alone|].
  eapply wp_lift; [exact E|]. apply wp_update, HQ. apply ok_set_auth; try done.
  - by rewrite Hs, (w_auth_size w Hok).
  - intros b. rewrite Hl, lookup_insert_is_Some'. case_bool_decide as Eb.
    + subst b. split; [by left|by eexists].
    + rewrite (w_auth_lookup w Hok). split; [by right|]. intros [->|?]; done.
  - assert (Hk : forall b, known (set_auth t (<[a:=session_id w]> (authsession w)) w) b -> b = a \/ known w b).
    { intros b [Hb|Hb]; [right; by left|]. cbn in Hb. apply lookup_insert_is_Some' in Hb as [->|Hb]; [by left|].
      right. by right. }
    intros b c [->|Hb]%Hk [->|Hc]%Hk; [done| |by apply Hr|by apply (w_auth_apart w Hok)].
    intros E'. symmetry. by apply Hr.
Qed.

(** ** The reset, step by step *)

Lemma leave_spec w a st Q :
  world_ok w -> stations w !! a = Some st ->
  (forall w', same_session w w' -> timeout w' = timeout w ->
     stations w' = <[a := set_aid 0 st]> (stations w) ->
     (forall q, wlan_at w' q = leave_wlan a st q <$> wlan_at w q) -> Q tt w') ->
  wp (leave_network a st) w Q.
Proof.
  intros Hok E HQ. unfold leave_network. pose proof (w_station w Hok a st E) as Hst.
  destruct (wlan st) as [p|] eqn:Ew.
  2: { apply wp_ret, HQ; try done.
    - symmetry. rewrite insert_id; [done|]. rewrite E. f_equal. destruct Hst as [Ha _ _ _ _].
      specialize (Ha Ew). destruct st. cbn in *. by subst.
    - intros q. destruct (wlan_at w q) as [x|] eqn:Ex; [|done]. cbn. f_equal. symmetry.
      apply (leave_other w); congruence. }
  destruct (w_ref w Hok a st p E Ew) as (x & Ex & Hin). apply wp_bind.
  (* the identifier *)
  assert (Hmid : wp (when (negb (aid st =? 0))
        (x <- load_wlan p;;
         when (macmode x =? CAPWAP_ADD_WLAN_MACMODE_SPLIT)
           (bits <- lift (ieee80211_aid_free (aidbitfield x) (aid st));;
            modify_wlan p (set_aidbitfield bits));;
         modify_station a (set_aid 0))) w
      (fun _ w1 => same_session w w1 /\ timeout w1 = timeout w /\
         stations w1 = <[a := set_aid 0 st]> (stations w) /\
         forall q, wlan_at w1 q = if bool_decide (q = p) then Some (set_aidbitfield (leave_bits st p x) x)
                                  else wlan_at w q)).
  { apply wp_when; intros Ha.
    - apply wp_bind, (wp_load_wlan p x); [done|]. apply wp_bind, wp_when; intros Hm.
      + destruct (w_aid w Hok a st p x E Ew Ex Hm) as [Hr Hu]; [by bools|].
        destruct (clear_bit_spec (aidbitfield x) (aid st)) as (bits & Eb & _).
        { rewrite (wl_size x (w_wlan w Hok p x Ex)).
          unfold IEEE80211_AID_BITFIELD_SIZE, IEEE80211_AID_MAX_VALUE in *. lia. }
        apply wp_bind, (wp_lift _ bits).
        { unfold ieee80211_aid_free. unfold IEEE80211_AID_MAX_VALUE in *. decide_if. done. }
        apply (wp_modify_wlan p x); [done..|]. intros w1 (?&?&Est&?&?&?&?&?) Hw1.
        apply (wp_modify_station a st); [by rewrite Est|]. cbn.
        split_and!; cbn; try done; [by rewrite Est|]. intros q. unfold leave_bits, is_split.
        rewrite (bool_decide_true (wlan st = Some p)), Ha, Hm, Eb by done. apply Hw1.
      + apply (wp_modify_station a st); [done|]. split_and!; cbn; try done. intros q.
        unfold leave_bits, is_split. rewrite Hm, andb_false_r.
        change (wlan_at w q = if bool_decide (q = p) then Some (set_aidbitfield (aidbitfield x) x) else wlan_at w q).
        case_bool_decide; [subst q; rewrite Ex; by destruct x|done].
    - bools. split_and!; try done.
      + symmetry. rewrite insert_id; [done|]. rewrite E. f_equal. destruct st. cbn in *. by subst.
      + intros q. unfold leave_bits. rewrite Ha, Z.eqb_refl. cbn. rewrite andb_false_r. cbn.
        case_bool_decide; [subst q; rewrite Ex; by destruct x|done]. }
  eapply wp_mono; [exact Hmid|]. intros [] w1 (Hs & Ht & Est & Hw1).
  apply (wp_modify_wlan p (set_aidbitfield (leave_bits st p x) x)); [|done|].
  { rewrite Hw1. by rewrite bool_decide_true. }
  intros w2 (?&?&?&?&?&?&?&?) Hw2. destruct Hs as (?&?&?&?&?&?). apply HQ.
  - split_and!; congruence.
  - congruence.
  - congruence.
  - intros q. rewrite Hw2, Hw1. case_bool_decide as Eq; [subst q; by rewrite Ex|].
    destruct (wlan_at w q) as [y|] eqn:Ey; [|done]. cbn. f_equal. symmetry.
    apply (leave_other w); congruence.
Qed.

Lemma reset_spec w a st new Q :
  world_ok w -> stations w !! a = Some st -> (forall p, new = Some p -> is_Some (wlan_at w p)) ->
  (forall w', reset_to w w' a st new -> Q tt w') ->
  wp (ac_stations_reset_station fuel a new) w Q.
Proof using Hfuel.
  intros Hok E Hnew HQ. pose proof (w_station w Hok a st E) as Hst.
  apply wp_bind, (wp_load_station a st); [done|]. apply wp_bind. apply leave_spec; [done..|].
  intros w1 (?&?&?&?&?&?) Et1 Es1 Hw1. apply wp_bind.
  assert (Htimer : wp (when (negb (idtimeout st =? CAPWAP_TIMEOUT_INDEX_NO_SET))
    (t <- gets timeout;; t <- lift (capwap_timeout_deletetimer fuel t (idtimeout st));;
     update (set_timeout t);;
     modify_station a (set_timer (timeoutaction st) CAPWAP_TIMEOUT_INDEX_NO_SET))) w1
    (fun _ w2 => same_session w w2 /\ devices w2 = devices w1 /\
       stations w2 = <[a := set_timer (timeoutaction st) CAPWAP_TIMEOUT_INDEX_NO_SET (set_aid 0 st)]> (stations w) /\
       timers_ok (timeout w2) /\ timers_used (timeout w2) /\
       itemstimeout (timeout w2) = remove_timer (idtimeout st) (itemstimeout (timeout w)) /\
       (timers_free (timeout w) -> timers_free (timeout w2)))).
  { apply wp_when; intros Hi; bools.
    - apply wp_bind, wp_gets, wp_bind. rewrite Et1.
      destruct (release_spec fuel (timeout w) (idtimeout st) (w_timers w Hok) (w_used w Hok) Hfuel (st_timer st Hst))
        as (t & Ed & Ht & Hu & Hl & Hf).
      apply (wp_lift _ t); [done|]. apply wp_bind, wp_update.
      apply (wp_modify_station a (set_aid 0 st)); [cbn; by rewrite Es1, lookup_insert_eq|].
      split_and!; cbn; try done. by rewrite Es1, insert_insert_eq.
    - rewrite Hi, Et1. split_and!; try done.
      + rewrite Es1. f_equal. destruct st. cbn in *. by subst.
      + apply (w_timers w Hok).
      + apply (w_used w Hok).
      + by rewrite remove_timer_zero by apply (w_timers w Hok). }
  eapply wp_mono; [exact Htimer|]. intros [] w2 ((?&?&?&?&?&?) & Ed2 & Es2 & Ht2 & Hu2 & Hi2 & Hf2).
  apply wp_bind. eapply wp_modify_station; [rewrite Es2; apply lookup_insert_eq|].
  apply wp_bind. eapply wp_modify_station; [cbn; apply lookup_insert_eq|].
  set (w3 := set_stations _ _). assert (Hw3 : forall q, wlan_at w3 q = leave_wlan a st q <$> wlan_at w q).
  { intros q. rewrite <- Hw1. unfold wlan_at, wlans_of. cbn. by rewrite Ed2. }
  assert (Es3 : stations w3 = <[a := reset_of st new]> (stations w)).
  { cbn. by rewrite Es2, !insert_insert_eq. }
  assert (Hs3 : same_session w w3) by (split_and!; cbn; done).
  assert (Et3 : timeout w3 = timeout w2) by done.
  clearbody w3. destruct new as [p|].
  - destruct (Hnew p eq_refl) as [x Ex].
    apply (wp_modify_wlan p (leave_wlan a st p x)); [by rewrite Hw3, Ex|done|].
    intros w4 (?&?&?&?&?&?&?&?) Hw4. destruct Hs3 as (?&?&?&?&?&?).
    assert (Et4 : timeout w4 = timeout w2) by congruence.
    apply HQ. constructor; rewrite ?Et4; try done; [by split_and!; congruence|congruence|].
    intros q. rewrite Hw4, Hw3. unfold enter_wlan. cbn. case_bool_decide as Eq.
    + subst q. rewrite Ex. cbn. by rewrite bool_decide_true.
    + destruct (wlan_at w q); [|done]. cbn. by rewrite bool_decide_false by congruence.
  - apply wp_ret, HQ. constructor; rewrite ?Et3; try done.
Qed.

(** ** Destroying a station *)

(** A station that refers to nothing leaves the table. *)
Lemma ok_delete w t a st :
  world_ok w -> stations w !! a = Some st -> wlan st = None -> idtimeout st = CAPWAP_TIMEOUT_INDEX_NO_SET ->
  @hash_inv mac mac session_hash _ t -> hashsize t = AC_WLANS_STATIONS_HASH_SIZE ->
  (forall b, is_Some (@hash_lookup mac mac session_hash t b) <-> b <> a /\ is_Some (stations w !! b)) ->
  world_ok (set_table t (delete a (stations w)) w).
Proof.
  intros Hok E Hw Hi Ht Hs Hl.
  assert (Hold : forall b su, delete a (stations w) !! b = Some su <-> b <> a /\ stations w !! b = Some su).
  { intros b su. rewrite lookup_delete_Some. naive_solver. }
  assert (Hdom : forall b, is_Some (delete a (stations w) !! b) <-> b <> a /\ is_Some (stations w !! b)).
  { intros b. rewrite lookup_delete_is_Some. naive_solver. }
  assert (Hk : forall b, known (set_table t (delete a (stations w)) w) b -> known w b).
  { intros b [Hb|Hb]; [left; by apply Hdom in Hb as [_ ?]|by right]. }
  destruct Hok. constructor; cbn [table stations authtable authsession timeout set_table]; try done.
  - intros b. by rewrite Hdom, Hl.
  - intros b c [_ Hb]%Hdom [_ Hc]%Hdom. by apply w_apart0.
  - intros b c Hb%Hk Hc%Hk. by apply w_auth_apart0.
  - intros b su p [_ Hb]%Hold. by apply w_ref0.
  - intros p x b Ex Hb. destruct (w_members0 p x b Ex Hb) as (su & Eb & Ep). exists su. split; [|done].
    apply Hold. split; [congruence|done].
  - intros b su [_ Hb]%Hold. by apply (w_station0 b).
  - intros b su p x [_ Hb]%Hold. by apply (w_aid0 b).
  - intros b c su sv p x [_ Hb]%Hold [_ Hc]%Hold. by apply (w_unique0 b c su sv p x).
  - intros it b Hit Hcb. destruct (w_callback0 it b Hit Hcb) as (su & Eb & Eid). exists su. split; [|done].
    apply Hold. split; [|done]. intros ->. assert (su = st) as -> by congruence.
    pose proof (ok_small _ w_timers0) as Hsm. rewrite Forall_forall in Hsm.
    assert (small (index it)) as [Hge _] by (apply Hsm, list_elem_of_fmap; by exists it).
    unfold CAPWAP_TIMEOUT_INDEX_NO_SET in Hi. lia.
Qed.

(** [w'] is [w] without a station, with what was sent. *)
Record destroyed (w w' : world) (a : mac) (st : ac_station) (sent : list event) : Prop := Destroyed {
  d_ok : world_ok w';
  d_id : session_id w' = session_id w;
  d_stations : stations w' = delete a (stations w);
  d_auth : authsession w' =
             if bool_decide (authsession w !! a = Some (session_id w)) then delete a (authsession w)
             else authsession w;
  d_out : out w' = out w ++ sent;
  d_devices : set_wlans None <$> devices w' = set_wlans None <$> devices w;
  d_wlans : forall q, wlan_at w' q = leave_wlan a st q <$> wlan_at w q;
  d_items : itemstimeout (timeout w') = remove_timer (idtimeout st) (itemstimeout (timeout w))
}.

Lemma destroy_spec w a st Q :
  world_ok w -> stations w !! a = Some st -> (forall w', destroyed w w' a st [] -> Q tt w') ->
  wp (ac_stations_destroy_station fuel a) w Q.
Proof using Hfuel.
  intros Hok E HQ. assert (Hr : room w a) by (apply station_room; [done|by eexists]).
  apply wp_bind, wp_auth_search; [done..|]. apply wp_bind, wp_gets, wp_bind.
  assert (Hauth : wp (when (bool_decide (authsession w !! a = Some (session_id w))) (auth_delete fuel a)) w
    (fun _ w1 => world_ok w1 /\ exists t, w1 = set_auth t
       (if bool_decide (authsession w !! a = Some (session_id w)) then delete a (authsession w) else authsession w) w)).
  { case_bool_decide.
    - apply wp_auth_delete; [done..|]. intros t Hok1. split; [done|]. by exists t.
    - apply wp_ret. split; [done|]. exists (authtable w). by destruct w. }
  eapply wp_mono; [exact Hauth|]. cbn beta. intros [] w1 [Hok1 [t1 E1]].
  assert (Est1 : stations w1 = stations w) by by rewrite E1. assert (Et1 : timeout w1 = timeout w) by by rewrite E1.
  assert (Hw1 : forall q, wlan_at w1 q = wlan_at w q) by by rewrite E1.
  assert (E' : stations w1 !! a = Some st) by by rewrite Est1.
  apply wp_bind, (reset_spec w1 a st None); [done..|]. intros w2 Hto.
  assert (Hok2 : world_ok w2) by (by apply (reset_world_ok w1 w2 a st None)).
  destruct Hto as [(Hid & _ & _ & Has & Ho & Hd) Hst Hwl _ _ Hit _]. clear Hauth.
  apply wp_bind, wp_gets, wp_bind, wp_gets, wp_bind.
  assert (E2 : stations w2 !! a = Some (reset_of st None)) by (rewrite Hst; apply lookup_insert_eq).
  destruct (@alone_delete mac _ session_hash session_hash_laws session_keys _ fuel (table w2) a)
    as (t & Et & Hinv & Hs & Hl); [apply (w_table w2 Hok2)| |done|].
  { apply session_alone; [done|]. apply station_room; [done|by eexists]. }
  apply (wp_lift _ t); [done|]. apply wp_update, HQ. constructor; cbn [session_id stations authsession out timeout devices set_table].
  - apply (ok_delete w2 t a (reset_of st None)); try done; [by rewrite Hs, (w_size w2 Hok2)|].
    intros b. rewrite Hl. destruct (bool_decide_reflect (b = a)) as [Eb|Eb]; [split; [by intros [? ?]|naive_solver]|].
    rewrite (w_lookup w2 Hok2). naive_solver.
  - by rewrite Hid, E1.
  - rewrite Hst, Est1. apply delete_insert_eq.
  - rewrite Has, E1. done.
  - by rewrite Ho, E1, app_nil_r.
  - by rewrite Hd, E1.
  - intros q. change (wlan_at w2 q = leave_wlan a st q <$> wlan_at w q). rewrite Hwl, Hw1.
    by destruct (wlan_at w q).
  - by rewrite Hit, Et1.
Qed.

End Invariant.
