(* ===== verification/AcStation.v ===== *)
(** Specifications of the operations on stations and networks
    (src/ac/ac_wlans.c): each returns, keeps the invariant, and does to the
    world what is said here. *)
From stdpp Require Import option gmap sets.
From S2P Require Import Prelude Bitfield Io Header CapwapHash CapwapHashSpec CapwapHashDelete.
From S2P Require Import CapwapArray Timeout TimeoutSpec.
From S2P Require Import Ieee80211 Ieee80211Frame Ieee80211Spec Ieee80211FrameSpec.
From S2P Require Import Elements80211a AcWorld AcWlans AcInv.
#[local] Open Scope Z_scope.

Section Specs.
Context `{Indeterminate} `{Target} (fuel : nat) (Hfuel : enough fuel).

(** [w'] is [w] with one station changed, and what was sent. *)
Record touched (w w' : world) (a : mac) (st' : ac_station) (sent : list event) : Prop := Touched {
  t_ok : world_ok w';
  t_id : session_id w' = session_id w;
  t_devices : devices w' = devices w;
  t_table : table w' = table w;
  t_stations : stations w' = <[a := st']> (stations w);
  t_timeout : timeout w' = timeout w;
  t_authtable : authtable w' = authtable w;
  t_auth : authsession w' = authsession w;
  t_out : out w' = out w ++ sent
}.

(** A station changed only in fields of its own. *)
Record own_change (st st' : ac_station) : Prop := OwnChange {
  oc_ok : station_ok st';
  oc_wlan : wlan st' = wlan st;
  oc_timer : idtimeout st' = idtimeout st;
  oc_aid : aid st' = aid st
}.

Lemma ok_emit w e :
  world_ok w ->
  world_ok (World (session_id w) (devices w) (table w) (stations w) (timeout w) (authtable w)
              (authsession w) (out w ++ [e])).
Proof. intros []. by constructor. Qed.

Lemma touched_refl w a st : world_ok w -> stations w !! a = Some st -> touched w w a st [].
Proof. intros Hok E. constructor; try done; [by rewrite insert_id|by rewrite app_nil_r]. Qed.

Lemma touched_modify w w' a st st' f sent Q :
  touched w w' a st sent -> own_change st (f st) ->
  (forall w2, touched w w2 a (f st) sent -> Q tt w2) -> st' = f st -> wp (modify_station a f) w' Q.
Proof.
  intros [] [] HQ ->. apply (wp_modify_station a st); [rewrite t_stations0; apply lookup_insert_eq|].
  apply HQ. constructor; cbn; try done.
  - apply (ok_modify_station w' a st); try done. rewrite t_stations0. apply lookup_insert_eq.
  - by rewrite t_stations0, insert_insert_eq.
Qed.

Lemma touched_emit w w' a st e sent Q :
  touched w w' a st sent -> (forall w2, touched w w2 a st (sent ++ [e]) -> Q tt w2) -> wp (emit e) w' Q.
Proof.
  intros [] HQ. apply wp_update, HQ. constructor; cbn; try done; [by apply ok_emit|].
  by rewrite t_out0, app_assoc.
Qed.

Lemma own_flags st f : station_ok st -> wlan st <> None -> own_change st (set_flags f st).
Proof. intros [] Hw. constructor; try done. Qed.

Lemma has_added f st : f <> 0 -> has_flag f (add_flag f st) = true.
Proof.
  intros Hf. unfold has_flag, add_flag. cbn. rewrite Z.land_lor_distr_l, Z.land_diag.
  apply negb_true_iff, Z.eqb_neq. by intros [_ Hz]%Z.lor_eq_0_iff.
Qed.

(** Adding a flag keeps the others, when they are different bits. *)
Lemma has_other f g st : Z.land f g = 0 -> has_flag f (add_flag g st) = has_flag f st.
Proof.
  intros Hfg. unfold has_flag, add_flag. cbn. by rewrite Z.land_lor_distr_l, (Z.land_comm g f), Hfg, Z.lor_0_r.
Qed.

(** ** Networks by address *)

Lemma find_wlan_address b l x : find_wlan b l = Some x -> wlan_address x = b.
Proof. intros [_ E]%List.find_some. by apply bool_decide_eq_true in E. Qed.

Lemma wlan_at_address w p x : wlan_at w p = Some x -> wlan_address x = p.2.
Proof. unfold wlan_at. destruct (valid_ref p); [|done]. apply find_wlan_address. Qed.

Lemma wp_get_bssid w r b Q :
  IS_VALID_RADIOID r = true ->
  Q (match wlan_at w (r, b) with Some _ => Some (r, b) | None => None end) w ->
  wp (ac_wlans_get_bssid r b) w Q.
Proof.
  intros Hr HQ. apply wp_bind, wp_guard; [done|]. apply wp_bind, wp_gets, wp_ret.
  unfold wlan_at, valid_ref in HQ. cbn in HQ. rewrite Hr in HQ.
  destruct (find_wlan b (wlans_of w r)) as [x|] eqn:E; [|done]. cbn. by rewrite (find_wlan_address b _ x E).
Qed.

(** ** Taking leave of a station *)

Definition deauthentication (b a : mac) : list Z :=
  frame_of 26 (write_at 0 (mgmt_header IEEE80211_FRAMECONTROL_MGMT_SUBTYPE_DEAUTHENTICATION a b b (le16 2))
                 (fresh IEEE80211_MTU)).

(** What is sent about a station that is deleted: a request to the radio when
    it was authorized, a frame to the station when it was authenticated. *)
Definition farewell (a : mac) (st : ac_station) : list event :=
  match wlan st with
  | Some p =>
      if has_flag AC_STATION_FLAGS_AUTHORIZED st then [ActionDeleteStation p.1 a]
      else if has_flag AC_STATION_FLAGS_AUTHENTICATED st then [SendData p.1 (deauthentication p.2 a)]
      else []
  | None => []
  end.

Lemma length_mgmt_header_le subtype da sa bssid body :
  zlen (mgmt_header subtype da sa bssid body) <= 24 + zlen body.
Proof.
  unfold mgmt_header. rewrite !length_app. unfold IEEE80211_FRAME_CONTROL, le16. cbn [length].
  rewrite !length_take. lia.
Qed.

Lemma create_deauthentication_spec b a :
  ieee80211_create_deauthentication (fresh IEEE80211_MTU) (DeauthParams b a 2) =
    Some (26, write_at 0 (mgmt_header IEEE80211_FRAMECONTROL_MGMT_SUBTYPE_DEAUTHENTICATION a b b (le16 2))
                (fresh IEEE80211_MTU)).
Proof.
  unfold ieee80211_create_deauthentication. cbn [de_station de_bssid de_reasoncode].
  rewrite store_some; [done|lia|]. pose proof (length_mgmt_header_le
    IEEE80211_FRAMECONTROL_MGMT_SUBTYPE_DEAUTHENTICATION a b b (le16 2)) as Hl.
  cbn [length le16] in Hl. rewrite length_fresh. unfold IEEE80211_MTU. lia.
Qed.

Lemma has_flag_wlan f st : station_ok st -> has_flag f st = true -> exists p, wlan st = Some p.
Proof.
  intros Hst Hf. destruct (wlan st) as [p|] eqn:E; [by exists p|].
  unfold has_flag in Hf. rewrite (st_flags st Hst E) in Hf. done.
Qed.

Lemma deauthorize_spec w a st Q :
  world_ok w -> stations w !! a = Some st ->
  (forall w' f, touched w w' a (set_flags f st) (farewell a st) -> Q tt w') ->
  wp (ac_stations_deauthorize_station a) w Q.
Proof.
  intros Hok E HQ. pose proof (w_station w Hok a st E) as Hst. pose proof (touched_refl w a st Hok E) as Ht.
  apply wp_bind, (wp_load_station a st); [done|]. unfold farewell in HQ.
  assert (Hnone : touched w w a (set_flags (flags st) st) []) by by destruct st.
  destruct (has_flag AC_STATION_FLAGS_AUTHORIZED st) eqn:Hz.
  - destruct (has_flag_wlan _ st Hst Hz) as [p Ep]. rewrite Ep in HQ. apply wp_bind, (wp_lift _ p); [done|].
    apply wp_bind. eapply touched_modify; [exact Ht|apply own_flags; [done|congruence]| |done].
    intros w1 H1. eapply touched_emit; [exact H1|]. intros w2 H2. by apply (HQ w2 _ H2).
  - apply wp_when; intros Hu.
    + destruct (has_flag_wlan _ st Hst Hu) as [p Ep]. rewrite Ep, Hu in HQ. apply wp_bind, (wp_lift _ p); [done|].
      apply wp_bind. eapply wp_lift; [apply create_deauthentication_spec|]. apply wp_when; [|done]. intros _.
      apply wp_bind. eapply touched_modify; [exact Ht|apply own_flags; [done|congruence]| |done].
      intros w1 H1. eapply touched_emit; [exact H1|]. intros w2 H2. by apply (HQ w2 _ H2).
    + apply (HQ w (flags st)). rewrite Hu. by destruct (wlan st).
Qed.

Lemma delete_station_spec w a st Q :
  world_ok w -> stations w !! a = Some st ->
  (forall w', destroyed w w' a st (farewell a st) -> Q tt w') ->
  wp (ac_stations_delete_station fuel a) w Q.
Proof using Hfuel.
  intros Hok E HQ. apply wp_bind. apply (deauthorize_spec w a st); [done..|]. intros w1 f [].
  apply (destroy_spec fuel Hfuel w1 a (set_flags f st)); [done|rewrite t_stations0; apply lookup_insert_eq|].
  intros w2 []. apply HQ. constructor; try congruence.
  - rewrite d_stations, t_stations0. apply delete_insert_eq.
  - by rewrite d_auth, t_auth0, t_id0.
  - by rewrite d_out, t_out0, app_nil_r.
  - intros q. rewrite d_wlans. unfold wlan_at, wlans_of. by rewrite t_devices0.
  - by rewrite d_items, t_timeout0.
Qed.

(** ** Finding a station *)

Definition station_matches (w : world) (r : Z) (bssid : option mac) (a : mac) : bool :=
  match stations w !! a with
  | Some st =>
      has_flag AC_STATION_FLAGS_ENABLED st &&
      match wlan st with
      | Some p => ((r =? RADIOID_ANY) || (r =? p.1)) &&
                  match bssid with None => true | Some b => bool_decide (b = p.2) end
      | None => false
      end
  | None => false
  end.

Lemma wp_get_station w r bssid a Q :
  world_ok w -> room w a -> Q (if station_matches w r bssid a then Some a else None) w ->
  wp (ac_stations_get_station fuel r bssid a) w Q.
Proof using Hfuel.
  intros Hok Hr HQ. apply wp_bind, (wp_session_search fuel Hfuel); [done..|]. unfold station_matches in HQ.
  destruct (stations w !! a) as [st|] eqn:E; cbn; [|by apply wp_ret].
  apply wp_bind, (wp_load_station a st); [done|].
  destruct (has_flag AC_STATION_FLAGS_ENABLED st) eqn:He; cbn in *; [|by apply wp_ret].
  destruct (has_flag_wlan _ st (w_station w Hok a st E) He) as [p Ep]. rewrite Ep in *.
  destruct (r =? RADIOID_ANY) eqn:Er; cbn [andb orb] in *.
  - destruct bssid as [b|]; cbn.
    + apply wp_bind, (wp_lift _ p); [done|]. cbn. case_bool_decide; by apply wp_ret.
    + by apply wp_ret.
  - apply wp_bind, (wp_lift _ p); [done|]. destruct (_ && _); by apply wp_ret.
Qed.

Lemma station_matches_true w r bssid a :
  station_matches w r bssid a = true ->
  exists st p, stations w !! a = Some st /\ wlan st = Some p /\ (r = RADIOID_ANY \/ r = p.1) /\
    (forall b, bssid = Some b -> b = p.2).
Proof.
  unfold station_matches. destruct (stations w !! a) as [st|]; [|done]. intros [_ Hm]%andb_true_iff.
  destruct (wlan st) as [p|] eqn:Ep; [|done]. apply andb_true_iff in Hm as [Hr Hb]. bools.
  exists st, p. split_and!; try done. intros b ->. by apply bool_decide_eq_true in Hb.
Qed.

(** ** Creating a station *)

Definition roaming_notice (w : world) (a : mac) : list event :=
  match authsession w !! a with
  | Some other => if bool_decide (other = session_id w) then [] else [ActionRoaming other a]
  | None => []
  end.

(** The station before it is (re)created. *)
Definition prior (w : world) (a : mac) : ac_station := default new_station (stations w !! a).
Definition created_station (w : world) (p : wlan_ref) (a : mac) : ac_station :=
  add_flag AC_STATION_FLAGS_ENABLED (reset_of (prior w a) (Some p)).

Record created (w w' : world) (p : wlan_ref) (a : mac) : Prop := Created {
  c_ok : world_ok w';
  c_id : session_id w' = session_id w;
  c_stations : stations w' = <[a := created_station w p a]> (stations w);
  c_auth : authsession w' = <[a := session_id w]> (authsession w);
  c_out : out w' = out w ++ roaming_notice w a;
  c_devices : set_wlans None <$> devices w' = set_wlans None <$> devices w;
  c_wlans : forall q, wlan_at w' q = (enter_wlan a (Some p) q ∘ leave_wlan a (prior w a) q) <$> wlan_at w q;
  c_items : itemstimeout (timeout w') = remove_timer (idtimeout (prior w a)) (itemstimeout (timeout w));
  c_free : timers_free (timeout w) -> timers_free (timeout w')
}.

Lemma new_station_ok : station_ok new_station.
Proof. constructor; try done. by left. Qed.

(** The first part: the station is in the table. *)
Lemma register_spec w a Q :
  world_ok w -> room w a ->
  (forall w1, world_ok w1 -> same_session (set_table (table w1) (stations w) w) w1 -> devices w1 = devices w ->
     timeout w1 = timeout w -> stations w1 = <[a := prior w a]> (stations w) -> Q tt w1) ->
  wp (known <- session_search fuel a;;
      when (negb known)
        (t <- gets table;; m <- gets stations;;
         t <- lift (@capwap_hash_add mac mac session_hash _ fuel t a);;
         update (set_table t (<[a := new_station]> m)))) w Q.
Proof using Hfuel.
  intros Hok Hr HQ. apply wp_bind, (wp_session_search fuel Hfuel); [done..|].
  unfold prior in HQ. destruct (stations w !! a) as [st|] eqn:E; cbn.
  - apply wp_ret, HQ; try done. by rewrite insert_id.
  - apply wp_bind, wp_gets, wp_bind, wp_gets, wp_bind.
    destruct (@alone_add mac _ session_hash session_hash_laws session_keys _ fuel (table w) a)
      as (t & Et & Hinv & Hs & Hl); [apply (w_table w Hok)|by apply session_alone, Hr|].
    apply (wp_lift _ t); [done|]. apply wp_update, HQ; try done.
    apply ok_insert; try done.
    + by rewrite Hs, (w_size w Hok).
    + intros b. rewrite Hl. case_bool_decide as Eb; [|rewrite (w_lookup w Hok); naive_solver].
      split; [by left|by eexists].
    + apply new_station_ok.
    + by rewrite E.
Qed.

Lemma station_create_spec w r b a Q :
  world_ok w -> room w a -> IS_VALID_RADIOID r = true ->
  (wlan_at w (r, b) = None -> Q None w) ->
  (forall x w', wlan_at w (r, b) = Some x -> created w w' (r, b) a -> Q (Some a) w') ->
  wp (ac_stations_create_station fuel r b a) w Q.
Proof using Hfuel.
  intros Hok Hr Hv Hnone Hsome. apply wp_bind, wp_get_bssid; [done|].
  destruct (wlan_at w (r, b)) as [x|] eqn:Ex; [|apply wp_ret; by apply Hnone].
  apply wp_assoc, wp_bind, register_spec; [done..|]. intros w1 Hok1 (?&?&?&?&?&?) Ed1 Et1 Es1.
  assert (Hwl1 : forall q, wlan_at w1 q = wlan_at w q) by (intros q; unfold wlan_at, wlans_of; by rewrite Ed1).
  assert (E1 : stations w1 !! a = Some (prior w a)) by (rewrite Es1; apply lookup_insert_eq).
  assert (Hnew : forall p, Some (r, b) = Some p -> is_Some (wlan_at w1 p)).
  { intros p [= <-]. rewrite Hwl1, Ex. by eexists. }
  apply wp_bind, (reset_spec fuel Hfuel w1 a (prior w a)); [done..|]. intros w2 Hto.
  pose proof (reset_world_ok w1 w2 a _ _ Hok1 E1 Hnew Hto) as Hok2.
  destruct Hto as [(Hid & _ & _ & Has & Ho & Hd) Hst Hwl _ _ Hit Hfree]. cbn in *.
  assert (E2 : stations w2 !! a = Some (reset_of (prior w a) (Some (r, b)))) by (rewrite Hst; apply lookup_insert_eq).
  apply wp_bind. eapply touched_modify; [by apply touched_refl|apply own_flags; [by apply (w_station w2 Hok2 a)|done]| |done].
  fold (add_flag AC_STATION_FLAGS_ENABLED (reset_of (prior w a) (Some (r, b)))). fold (created_station w (r, b) a).
  intros w3 []. rewrite app_nil_r in t_out0.
  assert (Hr3 : room w3 a).
  { apply station_room; [done|]. rewrite t_stations0, lookup_insert_eq. by eexists. }
  assert (Eauth : authsession w3 = authsession w) by congruence.
  assert (Eid : session_id w3 = session_id w) by congruence.
  apply wp_bind, (wp_auth_search fuel Hfuel); [done..|]. rewrite Eauth. apply wp_bind, wp_gets, wp_bind. rewrite Eid.
  assert (Hwl3 : forall q, wlan_at w3 q =
    (enter_wlan a (Some (r, b)) q ∘ leave_wlan a (prior w a) q) <$> wlan_at w q).
  { intros q. rewrite <- Hwl1, <- Hwl. unfold wlan_at, wlans_of. by rewrite t_devices0. }
  assert (Hdone : forall w4, world_ok w4 -> session_id w4 = session_id w -> devices w4 = devices w3 ->
    stations w4 = stations w3 -> timeout w4 = timeout w3 ->
    authsession w4 = <[a := session_id w]> (authsession w) -> out w4 = out w ++ roaming_notice w a ->
    wp (ret (Some a)) w4 Q).
  { intros w4 Hok4 Ei4 Ed4 Es4 Et4 Ea4 Eo4. apply wp_ret, (Hsome x); [done|]. constructor; try done.
    - rewrite Es4, t_stations0, Hst, Es1. by rewrite !insert_insert_eq.
    - rewrite Ed4, t_devices0, Hd, Ed1. done.
    - intros q. rewrite <- Hwl3. unfold wlan_at, wlans_of. by rewrite Ed4.
    - rewrite Et4, t_timeout0, Hit, Et1. done.
    - rewrite Et4, t_timeout0. intros Hf. apply Hfree. by rewrite Et1. }
  unfold roaming_notice in Hdone. clear Hsome Hnone.
  destruct (authsession w !! a) as [o|] eqn:Eo; cbn in *.
  - destruct (bool_decide_reflect (Some o = Some (session_id w))) as [Hi|Hi]; cbn.
    + apply wp_ret. injection Hi as Hi. apply Hdone; try done; try congruence.
      * rewrite <- Hi, insert_id; done.
      * rewrite bool_decide_true by done. rewrite app_nil_r. congruence.
    + apply wp_bind, (wp_auth_add fuel Hfuel); [done..|]. intros t4 Hok4. apply wp_update. cbn.
      apply Hdone; cbn; try congruence; try done.
      * by apply (ok_emit _ (ActionRoaming o a)) in Hok4.
      * rewrite bool_decide_false by congruence. f_equal. congruence.
  - apply wp_bind, (wp_auth_add fuel Hfuel); [done..|]. intros t4 Hok4. apply wp_ret.
    apply Hdone; cbn; try congruence; try done. rewrite app_nil_r. congruence.
Qed.

(** ** The timer of a station *)

(** Looking up a station after another change to the same station. *)
Lemma insert_cases {A} (m : gmap mac A) a x b y :
  <[a := x]> m !! b = Some y -> b = a /\ y = x \/ b <> a /\ m !! b = Some y.
Proof. rewrite lookup_insert_Some. naive_solver. Qed.

Lemma ok_timer w a st action i t :
  world_ok w -> stations w !! a = Some st -> timers_ok t -> timers_used t ->
  i = CAPWAP_TIMEOUT_INDEX_NO_SET \/ small i ->
  (forall it b, it ∈ itemstimeout t -> callback it = StationTimeout b ->
     if bool_decide (b = a) then index it = i else it ∈ itemstimeout (timeout w)) ->
  world_ok (set_stations (<[a := set_timer action i st]> (stations w)) (set_timeout t w)).
Proof.
  intros Hok E Ht Hu Hi Hl.
  assert (Hpre : forall b su, <[a := set_timer action i st]> (stations w) !! b = Some su ->
    exists sv, stations w !! b = Some sv /\ wlan su = wlan sv /\ aid su = aid sv).
  { intros b su [[-> ->]|[_ Eb]]%insert_cases; [by exists st|by exists su]. }
  assert (Hdom : forall b, is_Some (<[a := set_timer action i st]> (stations w) !! b) <-> is_Some (stations w !! b)).
  { intros b. rewrite lookup_insert_is_Some'. split; [intros [->|?]; [by eexists|done]|by right]. }
  destruct Hok. constructor; cbn [table stations authtable authsession timeout set_stations set_timeout]; try done.
  - intros b. by rewrite Hdom.
  - intros b c. rewrite !Hdom. apply w_apart.
  - intros b c Hb Hc. unfold known in Hb, Hc. cbn in Hb, Hc. rewrite Hdom in Hb, Hc. by apply w_auth_apart.
  - intros b su p (sv & Eb & Ew & _)%Hpre Ep. apply (w_ref b sv); [done|congruence].
  - intros p x b Ex Hb. destruct (w_members p x b Ex Hb) as (su & Eb & Ep).
    destruct (decide (b = a)) as [->|]; [|exists su; by rewrite lookup_insert_ne].
    eexists. rewrite lookup_insert_eq. split; [done|]. cbn. congruence.
  - intros b su [[-> ->]|[_ Eb]]%insert_cases; [|by apply (w_station b)].
    by destruct (w_station a st E); constructor.
  - intros b su p x (sv & Eb & Ew & Ea)%Hpre Ep. rewrite Ea. apply (w_aid b sv p x); congruence.
  - intros b c su sv p x (su' & Eb & Ew1 & Ea1)%Hpre (sv' & Ec & Ew2 & Ea2)%Hpre ?? Ex Hsp Ha Hab.
    by apply (w_unique b c su' sv' p x); try congruence.
  - intros it b Hin Hcb. specialize (Hl it b Hin Hcb). case_bool_decide as Eb.
    + subst b. eexists. by rewrite lookup_insert_eq.
    + rewrite lookup_insert_ne by done. by apply w_callback.
Qed.

(** A timer that runs on a station is the one the station knows of. *)
Lemma station_timer w a st it :
  world_ok w -> stations w !! a = Some st -> it ∈ itemstimeout (timeout w) -> callback it = StationTimeout a ->
  index it = idtimeout st /\ small (index it).
Proof.
  intros Hok E Hin Hcb. destruct (w_callback w Hok it a Hin Hcb) as (su & Eb & Hix). split; [congruence|].
  pose proof (ok_small _ (w_timers w Hok)) as Hs. rewrite Forall_forall in Hs.
  apply Hs, list_elem_of_fmap. by exists it.
Qed.

(** Starting the timer of a station that has none. *)
Lemma start_timer_spec w a st action d now :
  world_ok w -> stations w !! a = Some st -> idtimeout st = CAPWAP_TIMEOUT_INDEX_NO_SET ->
  timers_free (timeout w) ->
  exists i t, capwap_timeout_set fuel (timeout w) (idtimeout st) d (StationTimeout a) now = Some (i, t) /\
    small i /\ itemstimeout t = capwap_timeout_additem (itemstimeout (timeout w))
                 (TimeoutItem i d (capwap_timeout_setexpire d now) (StationTimeout a)) /\
    world_ok (set_stations (<[a := set_timer action i st]> (stations w)) (set_timeout t w)).
Proof.
  intros Hok E Hz Hfree. rewrite Hz.
  destruct (set_free_spec fuel (timeout w) d (StationTimeout a) now (w_timers w Hok) (w_used w Hok) Hfree)
    as (i & t & Es & Ht & Hu & Hi & _ & Hl).
  exists i, t. split_and!; try done. apply ok_timer; try done; [by right|].
  intros it b. rewrite Hl. unfold capwap_timeout_additem. rewrite additem_perm. cbn.
  intros [->|Hin]%elem_of_cons Hcb.
  - injection Hcb as <-. by rewrite bool_decide_true.
  - case_bool_decide as Eb; [|done]. subst b. destruct (station_timer w a st it Hok E Hin Hcb) as [Hix [Hge _]].
    unfold CAPWAP_TIMEOUT_INDEX_NO_SET in Hz. lia.
Qed.

(** Releasing the timer of a station, if it has one. *)
Lemma stop_timer_spec w a st action :
  world_ok w -> stations w !! a = Some st ->
  exists t, capwap_timeout_deletetimer fuel (timeout w) (idtimeout st) = Some t /\
    itemstimeout t = remove_timer (idtimeout st) (itemstimeout (timeout w)) /\
    world_ok (set_stations (<[a := set_timer action CAPWAP_TIMEOUT_INDEX_NO_SET st]> (stations w)) (set_timeout t w)).
Proof using Hfuel.
  intros Hok E.
  destruct (release_spec fuel (timeout w) (idtimeout st) (w_timers w Hok) (w_used w Hok) Hfuel
    (st_timer st (w_station w Hok a st E))) as (t & Ed & Ht & Hu & Hl & _).
  exists t. split_and!; try done.
  apply ok_timer; try done; [by left|]. intros it b. rewrite Hl. unfold remove_timer.
  rewrite list_elem_of_In, filter_In, <- list_elem_of_In. intros [Hin Hi] Hcb. case_bool_decide as Eb; [|done].
  subst b. destruct (station_timer w a st it Hok E Hin Hcb) as [Hix _]. rewrite Hix, Z.eqb_refl in Hi. done.
Qed.

(** ** Association identifiers *)

Lemma ok_set_aid w a st p x v :
  world_ok w -> stations w !! a = Some st -> wlan st = Some p -> wlan_at w p = Some x ->
  (is_split x = true -> v <> 0 ->
   (1 <= v <= IEEE80211_AID_MAX_VALUE /\ in_use (aidbitfield x) v = true) /\
   forall b su, b <> a -> stations w !! b = Some su -> wlan su = Some p -> aid su <> v) ->
  world_ok (set_stations (<[a := set_aid v st]> (stations w)) w).
Proof.
  intros Hok E Ep Ex Hv.
  assert (Hdom : forall b, is_Some (<[a := set_aid v st]> (stations w) !! b) <-> is_Some (stations w !! b)).
  { intros b. rewrite lookup_insert_is_Some'. split; [intros [->|?]; [by eexists|done]|by right]. }
  destruct Hok. constructor; cbn [table stations authtable authsession timeout set_stations]; try done.
  - intros b. by rewrite Hdom.
  - intros b c. rewrite !Hdom. apply w_apart.
  - intros b c Hb Hc. unfold known in Hb, Hc. cbn in Hb, Hc. rewrite Hdom in Hb, Hc. by apply w_auth_apart.
  - intros b su q [[-> ->]|[_ Eb]]%insert_cases Eq; [by apply (w_ref a st)|by apply (w_ref b su)].
  - intros q y b Ey Hb. destruct (w_members q y b Ey Hb) as (su & Eb & Eq).
    destruct (decide (b = a)) as [->|]; [|exists su; by rewrite lookup_insert_ne].
    eexists. rewrite lookup_insert_eq. split; [done|]. cbn. congruence.
  - intros b su [[-> ->]|[_ Eb]]%insert_cases; [|by apply (w_station b)].
    destruct (w_station a st E). constructor; try done. cbn. congruence.
  - intros b su q y [[-> ->]|[_ Eb]]%insert_cases; [|by apply (w_aid b su q y)].
    cbn. intros Eq Ey Hsp Ha. change (wlan_at w q = Some y) in Ey. assert (y = x) as -> by congruence. by apply Hv.
  - assert (Hone : forall b su y, b <> a -> stations w !! b = Some su -> wlan su = Some p -> wlan_at w p = Some y ->
      is_split y = true -> v <> 0 -> aid su <> v).
    { intros b su y Hb Eb Eq Ey Hsp Hnz. assert (y = x) as -> by congruence. by apply (proj2 (Hv Hsp Hnz) b). }
    intros b c su sv q y [[-> ->]|[Hb Eb]]%insert_cases [[-> ->]|[Hc Ec]]%insert_cases Eq1 Eq2 Ey Hsp Ha Hab.
    all: change (wlan_at w q = Some y) in Ey.
    + done.
    + cbn in *. assert (q = p) as -> by congruence. exfalso. by eapply (Hone c sv).
    + cbn in *. assert (q = p) as -> by congruence. exfalso. by eapply (Hone b su); try congruence.
    + by apply (w_unique b c su sv q y).
  - intros it b Hit Hcb. destruct (w_callback it b Hit Hcb) as (su & Eb & Hix).
    destruct (decide (b = a)) as [->|]; [|exists su; by rewrite lookup_insert_ne].
    eexists. rewrite lookup_insert_eq. split; [done|]. cbn. congruence.
Qed.

(** More identifiers marked as used. *)
Lemma ok_more_bits w w' p x bits :
  world_ok w -> wlan_at w p = Some x -> words_ok bits -> length bits = length (aidbitfield x) ->
  (forall k, 1 <= k -> in_use (aidbitfield x) k = true -> in_use bits k = true) ->
  same_but_wlans w w' ->
  (forall q, wlan_at w' q = if bool_decide (q = p) then Some (set_aidbitfield bits x) else wlan_at w q) ->
  world_ok w'.
Proof.
  intros Hok Ex Hw Hl Hmore (Hid & Ht & Hs & Hto & Hat & Has & _) Hq.
  assert (Hold : forall q y, wlan_at w' q = Some y -> exists z, wlan_at w q = Some z /\
    wlan_stations y = wlan_stations z /\ is_split y = is_split z /\ wlan_ok y /\
    forall k, 1 <= k -> in_use (aidbitfield z) k = true -> in_use (aidbitfield y) k = true).
  { intros q y. rewrite Hq. case_bool_decide as Eq.
    - intros [= <-]. subst q. exists x. split_and!; try done. destruct (w_wlan w Hok p x Ex). constructor; try done.
      cbn. by rewrite Hl.
    - intros Ey. exists y. split_and!; try done. by apply (w_wlan w Hok q). }
  destruct Hok. unfold known in *. constructor; unfold known; rewrite ?Ht, ?Hs, ?Hto, ?Hat, ?Has; try done.
  - intros a st q Ea Eq. destruct (w_ref a st q Ea Eq) as (y & Ey & Hin). rewrite Hq. case_bool_decide as E'.
    + subst q. eexists. split; [done|]. cbn. by assert (x = y) as -> by congruence.
    + by exists y.
  - intros q y a (z & Ez & -> & _)%Hold. by apply (w_members q z).
  - by intros q y (z & _ & _ & _ & ? & _)%Hold.
  - intros a st q y Ea Eq (z & Ez & _ & Hsp & _ & Hin)%Hold Hy Hnz.
    destruct (w_aid a st q z Ea Eq Ez) as [Hr Hu]; [congruence|done|]. split; [done|]. apply Hin; [lia|done].
  - intros a b st su q y Ea Eb Eq1 Eq2 (z & Ez & _ & Hsp & _)%Hold Hy.
    apply (w_unique a b st su q z); try done. congruence.
Qed.

End Specs.
