(* ===== verification/AcNetwork.v ===== *)
(** Specifications of the deletion of networks and of the end of a session
    (src/ac/ac_wlans.c). *)
From stdpp Require Import option gmap sets.
From S2P Require Import Prelude Bitfield Io Header CapwapHash CapwapHashSpec CapwapHashDelete.
From S2P Require Import CapwapArray Timeout TimeoutSpec.
From S2P Require Import Ieee80211 Ieee80211Frame Ieee80211Spec Ieee80211FrameSpec.
From S2P Require Import Elements80211a AcWorld AcWlans AcInv AcStation.
#[local] Open Scope Z_scope.

Section Specs.
Context `{Indeterminate} `{Target} (fuel : nat) (Hfuel : enough fuel).

(** ** The stations of a network *)

(** [w'] is [w] without the stations [l], which were those of network [p]. *)
Record emptied (w w' : world) (p : wlan_ref) (l : list mac) : Prop := Emptied {
  e_ok : world_ok w';
  e_id : session_id w' = session_id w;
  e_stations : forall a, stations w' !! a = if bool_decide (a ∈ l) then None else stations w !! a;
  e_auth : forall a, authsession w' !! a =
             if bool_decide (a ∈ l /\ authsession w !! a = Some (session_id w)) then None
             else authsession w !! a;
  e_out : out w' = out w;
  e_devices : set_wlans None <$> devices w' = set_wlans None <$> devices w;
  e_wlan : exists x, wlan_at w' p = Some x /\ wlan_stations x = [];
  e_others : forall q, q <> p -> wlan_at w' q = wlan_at w q
}.

Lemma destroy_stations_spec n p : forall w x Q,
  world_ok w -> wlan_at w p = Some x -> (length (wlan_stations x) <= n)%nat ->
  (forall w', emptied w w' p (wlan_stations x) -> Q tt w') ->
  wp (destroy_stations fuel n p) w Q.
Proof using Hfuel.
  induction n as [|n IH]; intros w x Q Hok Ex Hn HQ; cbn [destroy_stations];
    apply wp_bind, (wp_load_wlan p x); try done; destruct (wlan_stations x) as [|a l] eqn:El;
    cbn [length] in Hn; try lia.
  1, 2: by apply wp_ret, HQ; constructor; try done; exists x.
  destruct (w_members w Hok p x a Ex) as (st & Est & Ep); [rewrite El; set_solver|].
  apply wp_bind, (destroy_spec fuel Hfuel w a st); [done..|]. intros w1 [].
  pose proof (w_wlan w Hok p x Ex) as [Hnd _ _ _]. rewrite El in Hnd. apply NoDup_cons in Hnd as [Hni Hnd].
  assert (Hl : wlan_stations (leave_wlan a st p x) = l).
  { cbn. rewrite El. unfold without. cbn. rewrite bool_decide_true by done. cbn. by apply without_notin. }
  apply (IH w1 (leave_wlan a st p x)); [done|by rewrite d_wlans, Ex|rewrite Hl; lia|].
  rewrite Hl. intros w2 []. apply HQ. constructor; try congruence.
  - intros b. rewrite e_stations0, d_stations. destruct (decide (b = a)) as [->|Hne].
    + rewrite lookup_delete_eq, (bool_decide_true (a ∈ a :: l)) by set_solver. by rewrite bool_decide_false by done.
    + rewrite lookup_delete_ne by done. by rewrite (bool_decide_ext (b ∈ a :: l) (b ∈ l)) by set_solver.
  - intros b. rewrite e_auth0, d_id. destruct (decide (b = a)) as [->|Hne].
    + rewrite bool_decide_false by set_solver. rewrite d_auth.
      destruct (bool_decide_reflect (authsession w !! a = Some (session_id w))) as [Hi|Hi].
      * rewrite lookup_delete_eq, bool_decide_true by set_solver. done.
      * rewrite bool_decide_false by set_solver. done.
    + assert (Eb : authsession w1 !! b = authsession w !! b).
      { rewrite d_auth. destruct (bool_decide _); [by rewrite lookup_delete_ne|done]. }
      rewrite Eb. rewrite (bool_decide_ext (b ∈ a :: l /\ authsession w !! b = Some (session_id w))
                             (b ∈ l /\ authsession w !! b = Some (session_id w))) by set_solver. done.
  - by rewrite e_out0, d_out, app_nil_r.
  - intros q Hq. rewrite e_others0, d_wlans by done. destruct (wlan_at w q) as [y|] eqn:Ey; [|done].
    cbn. f_equal. apply (leave_other w); congruence.
Qed.

(** ** Removing a network *)

Definition remove_wlan (b : mac) (d : ac_device) : ac_device :=
  set_wlans (List.filter (fun x => negb (bool_decide (wlan_address x = b))) <$> wlans d) d.

Lemma find_removed b c l :
  find_wlan c (List.filter (fun x => negb (bool_decide (wlan_address x = b))) l) =
    if bool_decide (c = b) then None else find_wlan c l.
Proof.
  unfold find_wlan. induction l as [|x l IH]; [by case_bool_decide|]. cbn.
  destruct (bool_decide_reflect (wlan_address x = b)) as [E|E]; cbn; rewrite IH;
    destruct (bool_decide_reflect (wlan_address x = c)) as [E'|E']; try done.
  - by rewrite bool_decide_true by congruence.
  - by rewrite bool_decide_false by congruence.
Qed.

Lemma wlan_at_removed w p q :
  valid_ref p = true ->
  wlan_at (update_device p.1 (remove_wlan p.2) w) q = if bool_decide (q = p) then None else wlan_at w q.
Proof.
  intros Hp. unfold wlan_at. destruct (valid_ref q) eqn:Hq.
  2: { rewrite bool_decide_false; [done|]. intros ->. congruence. }
  rewrite wlans_update_device by done. destruct (bool_decide_reflect (q.1 = p.1)) as [Er|Er].
  - rewrite Er. unfold wlans_of. destruct (devices w !! _) as [d|]; [|by case_bool_decide].
    unfold remove_wlan. cbn [wlans set_wlans].
    assert (Ed : forall f, default [] (List.filter f <$> wlans d) = List.filter f (default [] (wlans d)))
      by (intros f; by destruct (wlans d)).
    rewrite Ed, find_removed. erewrite bool_decide_ext; [done|].
    split; [|by intros ->]. destruct p, q. cbn in *. congruence.
  - rewrite bool_decide_false; [done|]. by intros ->.
Qed.

Lemma ok_remove_wlan w p x :
  world_ok w -> wlan_at w p = Some x -> wlan_stations x = [] ->
  world_ok (update_device p.1 (remove_wlan p.2) w).
Proof.
  intros Hok Ex El. assert (Hp : valid_ref p = true) by (unfold wlan_at in Ex; by destruct (valid_ref p)).
  pose proof (fun q => wlan_at_removed w p q Hp) as Hw.
  assert (Hold : forall q y, wlan_at (update_device p.1 (remove_wlan p.2) w) q = Some y -> wlan_at w q = Some y).
  { intros q y. rewrite Hw. by case_bool_decide. }
  destruct Hok. constructor; try done.
  - intros a st q Ea Eq. destruct (w_ref a st q Ea Eq) as (y & Ey & Hin). exists y. split; [|done].
    rewrite Hw, bool_decide_false; [done|]. intros ->. assert (y = x) as -> by congruence. rewrite El in Hin. by apply elem_of_nil in Hin.
  - intros q y a Ey%Hold. by apply (w_members q y).
  - intros q y Ey%Hold. by apply (w_wlan q).
  - intros a st q y Ea Eq Ey%Hold. by apply (w_aid a st q).
  - intros a b st su q y Ea Eb Eq1 Eq2 Ey%Hold. by apply (w_unique a b st su q y).
Qed.

(** [w'] is [w] without network [p] and its stations. *)
Record unassigned (w w' : world) (p : wlan_ref) (l : list mac) : Prop := Unassigned {
  u_ok : world_ok w';
  u_id : session_id w' = session_id w;
  u_stations : forall a, stations w' !! a = if bool_decide (a ∈ l) then None else stations w !! a;
  u_auth : forall a, authsession w' !! a =
             if bool_decide (a ∈ l /\ authsession w !! a = Some (session_id w)) then None
             else authsession w !! a;
  u_out : out w' = out w;
  u_devices : set_wlans None <$> devices w' = set_wlans None <$> devices w;
  u_wlans : forall q, wlan_at w' q = if bool_decide (q = p) then None else wlan_at w q
}.

Lemma delete_bssid_spec w r b x Q :
  world_ok w -> IS_VALID_RADIOID r = true -> wlan_at w (r, b) = Some x -> (length (wlan_stations x) <= fuel)%nat ->
  (forall w', unassigned w w' (r, b) (wlan_stations x) -> Q tt w') ->
  wp (ac_wlans_delete_bssid fuel r b) w Q.
Proof using Hfuel.
  intros Hok Hr Ex Hn HQ. apply wp_bind, wp_get_bssid; [done|]. rewrite Ex.
  apply wp_bind, (destroy_stations_spec fuel (r, b) w x); [done..|]. intros w1 [].
  apply wp_update, HQ. destruct e_wlan0 as (y & Ey & El).
  constructor; try done.
  - by apply (ok_remove_wlan w1 (r, b) y).
  - rewrite <- e_devices0. by apply devices_update.
  - intros q. rewrite (wlan_at_removed w1 (r, b)) by done. case_bool_decide; [done|]. by apply e_others0.
Qed.

Lemma delete_bssid_absent w r b Q :
  IS_VALID_RADIOID r = true -> wlan_at w (r, b) = None -> Q tt w -> wp (ac_wlans_delete_bssid fuel r b) w Q.
Proof. intros Hr Ex HQ. apply wp_bind, wp_get_bssid; [done|]. rewrite Ex. by apply wp_ret. Qed.

(** ** New networks *)

Lemma find_added b l x :
  find_wlan b (l ++ [x]) =
    match find_wlan b l with Some y => Some y | None => if bool_decide (wlan_address x = b) then Some x else None end.
Proof.
  unfold find_wlan. induction l as [|y l IH]; cbn; [done|]. by destruct (bool_decide (wlan_address y = b)).
Qed.

(** [w'] is [w] with one more network, which has no stations. *)
Lemma ok_add_wlan w w' p x :
  world_ok w -> wlan_at w p = None -> wlan_ok x -> wlan_stations x = [] ->
  table w' = table w -> stations w' = stations w -> timeout w' = timeout w -> authtable w' = authtable w ->
  authsession w' = authsession w ->
  (forall q, wlan_at w' q = if bool_decide (q = p) then Some x else wlan_at w q) -> world_ok w'.
Proof.
  intros Hok Hn Hx Hl Ht Hs Hto Hat Has Hq.
  destruct Hok. unfold known in *. constructor; unfold known; rewrite ?Ht, ?Hs, ?Hto, ?Hat, ?Has; try done.
  - intros a st q Ea Eq. destruct (w_ref a st q Ea Eq) as (y & Ey & Hin). exists y. split; [|done].
    rewrite Hq, bool_decide_false; [done|]. intros ->. congruence.
  - intros q y a. rewrite Hq. case_bool_decide; [|by apply w_members]. intros [= <-]. rewrite Hl. by intros ?%elem_of_nil.
  - intros q y. rewrite Hq. case_bool_decide; [by intros [= <-]|by apply w_wlan].
  - intros a st q y Ea Eq Ey. rewrite Hq in Ey. case_bool_decide as Ep; [|by apply (w_aid a st q)].
    destruct (w_ref a st q Ea Eq) as (z & Ez & _). congruence.
  - intros a b st su q y Ea Eb Eq1 Eq2 Ey. rewrite Hq in Ey. case_bool_decide as Ep; [|by apply (w_unique a b st su q y)].
    destruct (w_ref a st q Ea Eq1) as (z & Ez & _). congruence.
Qed.

Lemma assign_bssid_spec w r x Q :
  world_ok w -> IS_VALID_RADIOID r = true -> IS_VALID_WLANID (wlan_wlanid x) = true -> wlan_ok x ->
  wlan_stations x = [] -> is_Some (devices w !! Z.to_nat (r - 1)) ->
  (is_Some (wlan_at w (r, wlan_address x)) -> Q (-1) w) ->
  (forall w', wlan_at w (r, wlan_address x) = None -> world_ok w' -> same_but_wlans w w' ->
     (forall q, wlan_at w' q = if bool_decide (q = (r, wlan_address x)) then Some x else wlan_at w q) -> Q 0 w') ->
  wp (ac_wlans_assign_bssid r x) w Q.
Proof.
  intros Hok Hr Hwid Hx Hl [d Ed] Hold Hnew. apply wp_bind, wp_guard; [by rewrite Hr, Hwid|].
  apply wp_bind, wp_get_bssid; [done|]. destruct (wlan_at w (r, wlan_address x)) as [y|] eqn:Ey.
  { apply wp_ret, Hold. by eexists. }
  apply wp_bind, wp_bind, wp_gets, (wp_lift _ d); [done|]. apply wp_bind, wp_update, wp_ret.
  set (w' := update_device _ _ w).
  assert (Hsame : same_but_wlans w w') by (split_and!; try done; by apply devices_update).
  assert (Hq : forall q, wlan_at w' q = if bool_decide (q = (r, wlan_address x)) then Some x else wlan_at w q).
  { intros q. unfold wlan_at in *. destruct (valid_ref q) eqn:Hv.
    2: { rewrite bool_decide_false; [done|]. intros ->. unfold valid_ref in Hv. cbn in Hv. congruence. }
    unfold valid_ref in *. cbn [fst snd] in *. rewrite Hr in Ey. unfold w'. rewrite wlans_update_device by done.
    destruct (bool_decide_reflect (q.1 = r)) as [Er|Er].
    - unfold wlans_of in *. rewrite Er, Ed in *. cbn [wlans set_wlans from_option id]. rewrite find_added.
      destruct q as [qr qb]. cbn in *. subst qr. destruct (bool_decide_reflect (wlan_address x = qb)) as [Eb|Eb].
      + subst qb. by rewrite Ey, bool_decide_true.
      + rewrite bool_decide_false by congruence. by destruct (find_wlan qb _).
    - rewrite bool_decide_false; [done|]. by intros ->. }
  apply Hnew; [done| |done|done]. by apply (ok_add_wlan w w' (r, wlan_address x) x).
Qed.

(** The structure filled from an Add WLAN element. *)
Lemma create_bssid_spec wlanid b e x :
  (6 <= length b)%nat -> ac_wlans_create_bssid wlanid b e = Some x ->
  wlan_ok x /\ wlan_stations x = [] /\ wlan_wlanid x = wlanid /\ IS_VALID_WLANID wlanid = true /\
  wlan_address x = take 6 b.
Proof.
  intros Hb. unfold ac_wlans_create_bssid. destruct (IS_VALID_WLANID wlanid) eqn:Hw; [|done]. cbn [negb].
  destruct (32 <? _); [done|]. intros [= <-]. split_and!; try done. constructor; try done.
  - constructor.
  - cbn. by repeat constructor.
  - cbn. rewrite length_take. lia.
Qed.

(** ** A new session *)

(** Every station has a network: the case between operations. *)
Definition settled (w : world) : Prop := forall a st, stations w !! a = Some st -> wlan st <> None.

Lemma init_wlans id timers auth owners q : wlan_at (ac_wlans_init id timers auth owners) q = None.
Proof.
  unfold wlan_at. destruct (valid_ref q); [|done]. unfold wlans_of, ac_wlans_init. cbn [devices].
  rewrite list_lookup_fmap. by destruct (seqZ 1 RADIOID_MAX_COUNT !! _).
Qed.

Lemma init_world_ok id timers auth owners :
  timers_ok timers -> timers_used timers -> Forall (fun it => callback it = TeardownTimeout) (itemstimeout timers) ->
  @hash_inv mac mac auth_hash _ auth -> hashsize auth = AC_STATIONS_HASH_SIZE ->
  (forall a, is_Some (@hash_lookup mac mac auth_hash auth a) <-> is_Some (owners !! a)) ->
  (forall a b, is_Some (owners !! a) -> is_Some (owners !! b) -> auth_apart a b) ->
  world_ok (ac_wlans_init id timers auth owners) /\ settled (ac_wlans_init id timers auth owners).
Proof.
  intros Ht Hu Hcb Ha Has Hal Hap.
  destruct (@hash_create_inv mac mac session_hash _ AC_WLANS_STATIONS_HASH_SIZE session_sized) as [Hinv Hl].
  assert (Hno : forall a : mac, (∅ : gmap mac ac_station) !! a = None) by apply lookup_empty.
  assert (Hk : forall a, known (ac_wlans_init id timers auth owners) a -> is_Some (owners !! a)).
  { intros a [Hx|Hx]; [|done]. cbn in Hx. rewrite Hno in Hx. by destruct Hx. }
  split; [|intros a st E; cbn in E; by rewrite Hno in E].
  constructor; try done; try (by intros p x E%eq_sym; rewrite init_wlans in E);
    try (by intros p x a E; rewrite init_wlans in E); cbn [table stations authtable timeout ac_wlans_init].
  - intros a. rewrite Hl, Hno. done.
  - intros a b. rewrite Hno. by intros [? ?].
  - intros a b Hx%Hk Hy%Hk. by apply Hap.
  - intros it a Hin E. rewrite Forall_forall in Hcb. specialize (Hcb it Hin). cbn in Hcb. congruence.
Qed.

(** ** The end of a session *)

(** No network has more stations than the loops have fuel. *)
Definition crowd_ok (w : world) : Prop :=
  forall p x, wlan_at w p = Some x -> (length (wlan_stations x) <= fuel)%nat.

(** [w'] has some networks of [w], and some of its stations. *)
Record shrunk (w w' : world) (gone : wlan_ref -> Prop) : Prop := Shrunk {
  s_ok : world_ok w';
  s_stations : forall a st, stations w' !! a = Some st -> stations w !! a = Some st;
  s_out : out w' = out w;
  s_gone : forall q, gone q -> wlan_at w' q = None;
  s_sub : forall q x, wlan_at w' q = Some x -> wlan_at w q = Some x
}.

Lemma shrunk_crowd w w' gone : shrunk w w' gone -> crowd_ok w -> crowd_ok w'.
Proof. intros [] Hc q x Ex%s_sub0. by apply (Hc q). Qed.

Lemma shrunk_trans w1 w2 w3 g1 g2 :
  shrunk w1 w2 g1 -> shrunk w2 w3 g2 -> shrunk w1 w3 (fun q => g1 q \/ g2 q).
Proof.
  intros [] []. constructor; try done; [auto|congruence| |auto].
  intros q [Hq|Hq]; [|by auto]. destruct (wlan_at w3 q) as [x|] eqn:Ex; [|done].
  apply s_sub1 in Ex. by rewrite s_gone0 in Ex.
Qed.

Lemma delete_wlans_spec n r : forall w c Q,
  IS_VALID_RADIOID r = true -> world_ok w -> crowd_ok w ->
  (forall b, is_Some (wlan_at w (r, b)) -> b ∈ c) -> (length c <= n)%nat ->
  (forall w', shrunk w w' (fun q => q.1 = r) -> Q tt w') ->
  wp (delete_wlans fuel n r) w Q.
Proof using Hfuel.
  induction n as [|n IH]; intros w c Q Hr Hok Hc Hcov Hn HQ; cbn [delete_wlans]; apply wp_bind, wp_gets;
    destruct (wlans_of w r) as [|x l] eqn:El.
  1, 3: by apply wp_ret, HQ; constructor; try done; intros [r' b] Er; cbn in Er; subst r'; unfold wlan_at;
        destruct (valid_ref _); [|done]; cbn; rewrite El.
  all: assert (Ex : wlan_at w (r, wlan_address x) = Some x) by
    (unfold wlan_at, valid_ref; cbn; rewrite Hr, El; unfold find_wlan; cbn; by rewrite bool_decide_true).
  all: assert (Hin : wlan_address x ∈ c) by (apply Hcov; by rewrite Ex).
  { destruct c; [set_solver|cbn in Hn; lia]. }
  apply wp_bind, (delete_bssid_spec w r (wlan_address x) x); [done..|by apply (Hc (r, wlan_address x))|].
  intros w1 [].
  assert (Hs1 : shrunk w w1 (fun q => q = (r, wlan_address x))).
  { constructor; try done.
    - intros a st. rewrite u_stations0. by case_bool_decide.
    - intros q ->. by rewrite u_wlans0, bool_decide_true.
    - intros q y. rewrite u_wlans0. by case_bool_decide. }
  apply (IH w1 (without (wlan_address x) c)); [done..|by eapply shrunk_crowd| | |].
  - intros b [y Ey]. apply elem_of_without. split.
    + apply Hcov. exists y. by apply (s_sub _ _ _ Hs1).
    + intros ->. rewrite u_wlans0, bool_decide_true in Ey; done.
  - apply list_elem_of_split in Hin as (c1 & c2 & ->). unfold without. rewrite List.filter_app. cbn.
    rewrite bool_decide_true by done. cbn. rewrite length_app in *. cbn in Hn.
    pose proof (List.filter_length_le (fun a => negb (bool_decide (a = wlan_address x))) c1).
    pose proof (List.filter_length_le (fun a => negb (bool_decide (a = wlan_address x))) c2). lia.
  - intros w2 Hs2. apply HQ. destruct (shrunk_trans _ _ _ _ _ Hs1 Hs2) as [? ? ? Hg ?]. constructor; try done.
    intros q Hq. apply Hg. by right.
Qed.

(** No radio has more networks than the loops have fuel. *)
Definition radios_ok (w : world) : Prop :=
  forall r, exists c, (length c <= fuel)%nat /\ forall b, is_Some (wlan_at w (r, b)) -> b ∈ c.

Lemma shrunk_radios w w' gone : shrunk w w' gone -> radios_ok w -> radios_ok w'.
Proof.
  intros [] Hr r. destruct (Hr r) as (c & Hl & Hc). exists c. split; [done|]. intros b [x Ex%s_sub0].
  apply Hc. by eexists.
Qed.

Lemma destroy_radios_spec radios : forall w Q,
  Forall (fun r => IS_VALID_RADIOID r = true) radios -> world_ok w -> crowd_ok w -> radios_ok w ->
  (forall w', shrunk w w' (fun q => q.1 ∈ radios) -> Q tt w') ->
  wp (destroy_radios fuel radios) w Q.
Proof using Hfuel.
  induction radios as [|r radios IH]; intros w Q Hv Hok Hc Hr HQ; cbn [destroy_radios].
  - apply wp_ret, HQ. constructor; try done. set_solver.
  - apply Forall_cons in Hv as [Hv Hvs]. destruct (Hr r) as (c & Hl & Hcov).
    apply wp_bind, (delete_wlans_spec fuel r w c); [done..|]. intros w1 Hs1.
    apply IH; [done|apply Hs1|by eapply shrunk_crowd|by eapply shrunk_radios|]. intros w2 Hs2.
    apply HQ. destruct (shrunk_trans _ _ _ _ _ Hs1 Hs2) as [? ? ? Hg ?]. constructor; try done.
    intros q [Hq|Hq]%elem_of_cons; apply Hg; [by left|by right].
Qed.

Lemma valid_radio_range r : IS_VALID_RADIOID r = true <-> r ∈ seqZ 1 RADIOID_MAX_COUNT.
Proof.
  rewrite elem_of_seqZ. unfold IS_VALID_RADIOID, RADIOID_MAX_COUNT. bools. lia.
Qed.

(** The end of a session: its stations and networks are gone, and the
    assertion holds. *)
Lemma wlans_destroy_spec w Q :
  world_ok w -> settled w -> crowd_ok w -> radios_ok w ->
  (forall w', world_ok w' -> stations w' = ∅ -> out w' = out w -> (forall q, wlan_at w' q = None) -> Q tt w') ->
  wp (ac_wlans_destroy fuel) w Q.
Proof using Hfuel.
  intros Hok Hset Hc Hr HQ. apply wp_bind, destroy_radios_spec; [|done..|].
  { apply Forall_forall. intros r Hin. by apply valid_radio_range. }
  intros w1 []. assert (Hno : forall q, wlan_at w1 q = None).
  { intros q. destruct (wlan_at w1 q) as [x|] eqn:Ex; [|done]. rewrite <- Ex. apply s_gone0, valid_radio_range.
    unfold wlan_at, valid_ref in Ex. by destruct (IS_VALID_RADIOID q.1). }
  assert (Hempty : stations w1 = ∅).
  { apply map_empty. intros a. destruct (stations w1 !! a) as [st|] eqn:E; [|done]. exfalso.
    destruct (wlan st) as [p|] eqn:Ep; [|by apply (Hset a st); [apply s_stations0|]].
    destruct (w_ref w1 s_ok0 a st p E Ep) as (x & Ex & _). by rewrite Hno in Ex. }
  apply wp_bind, wp_gets, wp_guard; [|by apply HQ]. apply Z.eqb_eq.
  apply (@lookup_none_count mac session_hash session_hash_laws _); [apply (w_table w1 s_ok0)|].
  intros a. apply eq_None_not_Some. rewrite (w_lookup w1 s_ok0), Hempty, lookup_empty. by intros [? ?].
Qed.

End Specs.
