(* ===== verification/AcFrame.v ===== *)
(** Specifications of the handlers of management frames
    (src/ac/ac_ieee80211_data.c): each returns on any frame and keeps the
    invariant, and the answers to stations are the ones said here. *)
From stdpp Require Import option gmap sets.
From S2P Require Import Prelude Bitfield Io Header CapwapHash CapwapHashSpec CapwapHashDelete.
From S2P Require Import CapwapArray Timeout TimeoutSpec.
From S2P Require Import Ieee80211 Ieee80211Frame Ieee80211Spec Ieee80211FrameSpec.
From S2P Require Import Elements80211a ElementsImage AcWorld AcWlans AcIeee80211.
From S2P Require Import AcInv AcStation AcNetwork.
#[local] Open Scope Z_scope.

(** ** Elements of frames *)

(** The frame as [ac_session_action_recv_ieee80211_mgmt_packet] hands it over:
    nothing of the buffer comes after it. *)
Definition frame_ok (mgmt : list Z) (n : Z) : Prop := bytes_ok mgmt /\ zlen mgmt = n.

(** The reader of the elements after [size] bytes stays inside of the frame; it
    may leave it for a short vendor element ([vendor_element_overread]). *)
Definition readable (mgmt : list Z) (n size : Z) : Prop :=
  is_Some (ieee80211_retrieve_information_elements_position (drop (Z.to_nat size) mgmt) (n - size)).

Lemma vendors_readable mgmt n size :
  frame_ok mgmt n -> 0 <= size <= n ->
  whole_vendors (Z.to_nat (n - size)) (drop (Z.to_nat size) mgmt) = true -> readable mgmt n size.
Proof.
  intros [Hb Hl] Hs Hv. unfold readable, ieee80211_retrieve_information_elements_position.
  assert (Hz : zlen (drop (Z.to_nat size) mgmt) = n - size) by (rewrite length_drop; lia).
  rewrite <- Hz in *. apply ie_loop_inside; [by apply bytes_ok_drop|lia|done].
Qed.

Lemma wp_elements mgmt n size w Q :
  frame_ok mgmt n -> 0 <= size <= n -> readable mgmt n size ->
  (forall r i,
     ieee80211_retrieve_information_elements_position (drop (Z.to_nat size) mgmt) (n - size) = Some (r, i) ->
     (r = 0 -> items_ok i) -> Q (r, i) w) ->
  wp (elements_of mgmt n size) w Q.
Proof.
  intros [Hb Hl] Hs [[r i] E] HQ.
  eapply wp_lift; [exact E|]. apply HQ; [done|]. intros ->.
  eapply ie_loop_pointers; [| | |exact E]; [by apply bytes_ok_drop|rewrite length_drop; lia|done].
Qed.

Lemma pointer_rates p : pointer_ok p ->
  exists n bs, ie_len p = Some n /\ is_u8 n /\ ie_rates p = Some bs /\ zlen bs = n.
Proof.
  intros (id & n & rest & -> & Hn & Hl). exists n, (take (Z.to_nat n) rest). split_and!; try done; try lia.
  - unfold ie_rates, ie_len. cbn [lookup list_lookup]. obind. rewrite skipn_cons, skipn_cons, drop_0.
    unfold Array.fetch. by decide_if.
  - rewrite length_take. lia.
Qed.

(** The rates of a station are read without leaving the arrays. *)
Lemma station_rates_total i rates :
  items_ok i -> zlen rates = IEEE80211_SUPPORTEDRATE_MAX_COUNT ->
  exists o, station_rates i rates = Some o /\
    forall n rates', o = Some (n, rates') ->
      0 <= n <= IEEE80211_SUPPORTEDRATE_MAX_COUNT /\ zlen rates' = IEEE80211_SUPPORTEDRATE_MAX_COUNT.
Proof.
  intros (_ & Hs & Hx) Hr. unfold station_rates. destruct (supported_rates i) as [sr|]; [|by exists None].
  destruct (pointer_rates sr (Hs sr eq_refl)) as (n & bs & En & Hn & Ebs & Hbs). rewrite En. obind.
  destruct (extended_supported_rates i) as [x|].
  - destruct (pointer_rates x (Hx x eq_refl)) as (m & cs & Em & Hm & Ecs & Hcs). rewrite Em. obind.
    destruct (Z.leb_spec (n + m) IEEE80211_SUPPORTEDRATE_MAX_COUNT); [|by exists None].
    rewrite Ebs. obind. rewrite store_some by lia. obind. rewrite Ecs. obind.
    rewrite store_some by (rewrite ?length_write_at; lia). obind. eexists. split; [done|].
    intros k rs [= <- <-]. split; [lia|]. rewrite !length_write_at by (rewrite ?length_write_at; lia). done.
  - obind. destruct (Z.leb_spec (n + 0) IEEE80211_SUPPORTEDRATE_MAX_COUNT); [|by exists None].
    rewrite Ebs. obind. rewrite store_some by lia. obind. eexists. split; [done|].
    intros k rs [= <- <-]. split; [lia|]. rewrite length_write_at by lia. done.
Qed.

(** Whether there are rates does not depend on the array they are put into. *)
Lemma station_rates_again i r1 r2 k rs :
  items_ok i -> zlen r1 = IEEE80211_SUPPORTEDRATE_MAX_COUNT -> zlen r2 = IEEE80211_SUPPORTEDRATE_MAX_COUNT ->
  station_rates i r1 = Some (Some (k, rs)) -> exists rs', station_rates i r2 = Some (Some (k, rs')).
Proof.
  intros (_ & Hs & Hx) H1 H2. unfold station_rates. destruct (supported_rates i) as [sr|]; [|done].
  destruct (pointer_rates sr (Hs sr eq_refl)) as (n & bs & En & Hn & Ebs & Hbs). rewrite En. obind.
  destruct (extended_supported_rates i) as [x|].
  - destruct (pointer_rates x (Hx x eq_refl)) as (m & cs & Em & Hm & Ecs & Hcs). rewrite Em. obind.
    destruct (Z.leb_spec (n + m) IEEE80211_SUPPORTEDRATE_MAX_COUNT); [|done].
    rewrite Ebs. obind. rewrite !store_some by lia. obind. rewrite Ecs. obind.
    rewrite !store_some by (rewrite ?length_write_at; lia). obind. intros [= <- _]. by eexists.
  - obind. destruct (Z.leb_spec (n + 0) IEEE80211_SUPPORTEDRATE_MAX_COUNT); [|done].
    rewrite Ebs. obind. rewrite !store_some by lia. obind. intros [= <- _]. by eexists.
Qed.

(** The pointers of the elements a frame was accepted with. *)
Lemma elements_pointers mgmt n size i :
  frame_ok mgmt n -> 0 <= size <= n ->
  ieee80211_retrieve_information_elements_position (drop (Z.to_nat size) mgmt) (n - size) = Some (0, i) ->
  items_ok i.
Proof.
  intros [Hb Hl] Hs E. eapply ie_loop_pointers; [| | |exact E]; [by apply bytes_ok_drop|rewrite length_drop; lia|done].
Qed.

Lemma valid_ssid_total name i :
  items_ok i -> exists v, ieee80211_is_valid_ssid name (ssid i) None = Some v.
Proof.
  intros (Hs & _). unfold ieee80211_is_valid_ssid. destruct (ssid i) as [p|]; [|by eexists].
  destruct (Hs p eq_refl) as (id & n & rest & -> & Hn & Hl). cbn [lookup list_lookup]. obind.
  rewrite skipn_cons, skipn_cons, drop_0. unfold same_ssid, equal_bytes, Array.fetch.
  pose proof (strlen_le name). destruct (Z.eqb_spec (Z.of_nat (strlen name)) n) as [E|E].
  - decide_if. obind. decide_if. obind. case_bool_decide; by eexists.
  - obind. by eexists.
Qed.

(** ** What every handler keeps *)

Section Handlers.
Context `{Indeterminate} `{Target} (fuel : nat) (Hfuel : enough fuel) (kmod : nat -> Z) (now : timeval).

(** The rates of the radio of a network are set. *)
Definition rated (w : world) : Prop :=
  forall p x, wlan_at w p = Some x ->
    exists d, devices w !! Z.to_nat (p.1 - 1) = Some d /\ rates_wf (dev_supportedrates d) (dev_supportedratescount d).

Record session_ok (w : world) : Prop := SessionOk {
  so_world : world_ok w;
  so_settled : settled w;
  so_rated : rated w
}.

(** The networks of [w'] are those of [w], and its radios too. *)
Record kept (w w' : world) : Prop := Kept {
  k_ok : world_ok w';
  k_settled : settled w';
  k_id : session_id w' = session_id w;
  k_devices : set_wlans None <$> devices w' = set_wlans None <$> devices w;
  k_wlans : forall q, is_Some (wlan_at w' q) <-> is_Some (wlan_at w q)
}.

Lemma kept_refl w : world_ok w -> settled w -> kept w w.
Proof. by constructor. Qed.

Lemma kept_trans w1 w2 w3 : kept w1 w2 -> kept w2 w3 -> kept w1 w3.
Proof. intros [] []. constructor; try congruence; try done. intros q. by rewrite k_wlans1. Qed.

Lemma kept_session w w' : session_ok w -> kept w w' -> session_ok w'.
Proof.
  intros [_ _ Hr] []. constructor; try done. intros p x Ex.
  destruct (proj1 (k_wlans0 p)) as [y Ey]; [by eexists|]. destruct (Hr p y Ey) as (d & Ed & Hd).
  pose proof (f_equal (fun l => l !! Z.to_nat (p.1 - 1)) k_devices0) as E. cbn in E.
  rewrite !list_lookup_fmap, Ed in E. cbn in E.
  destruct (devices w' !! Z.to_nat (p.1 - 1)) as [d'|]; [|done]. exists d'. split; [done|].
  injection E as _ Ec Er. by rewrite Ec, Er.
Qed.

Lemma touched_kept w w' a st st' sent :
  settled w -> stations w !! a = Some st -> wlan st' = wlan st -> touched w w' a st' sent -> kept w w'.
Proof.
  intros Hs E Ew []. constructor; try done.
  - intros b su. rewrite t_stations, lookup_insert_Some. intros [[-> <-]|[_ Eb]]; [rewrite Ew|]; by eapply Hs.
  - by rewrite t_devices.
  - intros q. unfold wlan_at, wlans_of. by rewrite t_devices.
Qed.

Lemma destroyed_kept w w' a st sent : settled w -> destroyed w w' a st sent -> kept w w'.
Proof.
  intros Hs []. constructor; try done.
  - intros b su. rewrite d_stations, lookup_delete_Some. intros [_ Eb]. by eapply Hs.
  - intros q. rewrite d_wlans. apply fmap_is_Some.
Qed.

Lemma created_kept w w' p a : settled w -> created w w' p a -> kept w w'.
Proof.
  intros Hs []. constructor; try done.
  - intros b su. rewrite c_stations, lookup_insert_Some. intros [[-> <-]|[_ Eb]]; [done|by eapply Hs].
  - intros q. rewrite c_wlans. apply fmap_is_Some.
Qed.

Lemma wp_delete_kept w a st Q :
  world_ok w -> settled w -> stations w !! a = Some st ->
  (forall w', kept w w' -> stations w' = delete a (stations w) -> Q tt w') ->
  wp (ac_stations_delete_station fuel a) w Q.
Proof using Hfuel.
  intros Hok Hs E HQ. apply (delete_station_spec fuel Hfuel w a st); [done..|]. intros w' Hd.
  apply HQ; [by eapply destroyed_kept|apply Hd].
Qed.

(** A send to the kernel module. *)
Lemma wp_send_data w w' a st r frame sent Q :
  touched w w' a st sent ->
  (forall w2, touched w w2 a st (sent ++ [SendData r frame]) -> Q (kmod (length (out w'))) w2) ->
  wp (ac_kmod_send_data kmod r frame) w' Q.
Proof.
  intros Ht HQ. apply wp_bind, wp_gets, wp_bind. eapply touched_emit; [exact Ht|]. intros w2 H2.
  apply wp_ret, HQ, H2.
Qed.

(** ** Authentication *)

Definition authentication_frame (b a : mac) (alg seq status : Z) : list Z :=
  mgmt_header IEEE80211_FRAMECONTROL_MGMT_SUBTYPE_AUTHENTICATION a b b (le16 alg ++ le16 seq ++ le16 status).

(** A frame written at the start of a buffer. *)
Lemma frame_of_write f b : frame_of (zlen f) (write_at 0 f b) = f.
Proof. unfold frame_of, write_at. cbn. rewrite take_0, app_nil_l, Nat2Z.id. apply take_app_length. Qed.

(** The addresses of a frame have 6 bytes. *)
Lemma length_slice_6 k mgmt : 0 <= k -> k + 6 <= zlen mgmt -> length (slice k 6 mgmt) = 6%nat.
Proof. intros. unfold slice. rewrite length_take, length_drop. lia. Qed.

(** The answer to a frame, from a network. *)
Definition authentication_answer (x : ac_wlan) (mgmt : list Z) : list Z :=
  authentication_frame (wlan_address x) (address2 mgmt) (auth_algorithm mgmt)
    (wrap16 (auth_transactionseqnumber mgmt + 1))
    (authentication_status (auth_algorithm mgmt) (auth_transactionseqnumber mgmt) (authmode x)).

Lemma create_authentication_spec p :
  ieee80211_create_authentication_response (fresh IEEE80211_MTU) p =
    Some (30, write_at 0 (mgmt_header IEEE80211_FRAMECONTROL_MGMT_SUBTYPE_AUTHENTICATION (au_station p)
                (au_bssid p) (au_bssid p)
                (le16 (algorithm p) ++ le16 (transactionseqnumber p) ++ le16 (au_statuscode p)))
                (fresh IEEE80211_MTU)).
Proof.
  unfold ieee80211_create_authentication_response. rewrite store_some; [done|lia|].
  pose proof (length_mgmt_header_le IEEE80211_FRAMECONTROL_MGMT_SUBTYPE_AUTHENTICATION (au_station p) (au_bssid p)
    (au_bssid p) (le16 (algorithm p) ++ le16 (transactionseqnumber p) ++ le16 (au_statuscode p))) as Hl.
  change (zlen (le16 _ ++ le16 _ ++ le16 _)) with 6 in Hl. rewrite length_fresh. unfold IEEE80211_MTU. lia.
Qed.

(** The station a split network answers to: marked as authenticated whatever the
    status of the answer is. *)
Definition answered (mgmt : list Z) (x : ac_wlan) (st : ac_station) : ac_station :=
  add_flag AC_STATION_FLAGS_AUTHENTICATED
    (if authentication_status (auth_algorithm mgmt) (auth_transactionseqnumber mgmt) (authmode x)
        =? IEEE80211_STATUS_SUCCESS
     then set_authalgorithm IEEE80211_AUTHENTICATION_ALGORITHM_OPEN st else st).

Lemma own_authalgorithm st alg : station_ok st -> own_change st (set_authalgorithm alg st).
Proof. intros []. by constructor. Qed.

Lemma authentication_split_spec w a st p x mgmt n i Q :
  world_ok w -> settled w -> stations w !! a = Some st -> wlan st = Some p -> wlan_at w p = Some x ->
  ieee80211_retrieve_information_elements_position (drop (Z.to_nat 30) mgmt) (n - 30) = Some (0, i) ->
  length (address2 mgmt) = 6%nat ->
  (forall w', kept w w' ->
     (kmod (length (out w)) = 0 ->
      touched w w' a (answered mgmt x st) [SendData p.1 (authentication_answer x mgmt)]) -> Q tt w') ->
  wp (authentication_split fuel kmod a p x mgmt n) w Q.
Proof using Hfuel.
  intros Hok Hset E Ep Ex Ei H6 HQ. pose proof (w_station w Hok a st E) as Hst.
  apply wp_bind. eapply wp_lift; [exact Ei|]. cbn [fst negb Z.eqb]. apply wp_bind.
  set (status := authentication_status _ _ _).
  set (st1 := if status =? IEEE80211_STATUS_SUCCESS
              then set_authalgorithm IEEE80211_AUTHENTICATION_ALGORITHM_OPEN st else st).
  assert (H1 : wp (when (status =? IEEE80211_STATUS_SUCCESS)
    (modify_station a (set_authalgorithm IEEE80211_AUTHENTICATION_ALGORITHM_OPEN))) w
    (fun _ w1 => touched w w1 a st1 [])).
  { apply wp_when; intros Hs; unfold st1; rewrite Hs; [|by apply touched_refl].
    eapply touched_modify; [by apply touched_refl|by apply own_authalgorithm| |done]. done. }
  assert (Hw1 : wlan st1 = Some p) by (unfold st1; by destruct (_ =? _)).
  assert (Hst1 : station_ok st1) by (unfold st1; destruct (_ =? _); [by apply own_authalgorithm|done]).
  eapply wp_mono; [exact H1|]. intros [] w1 T1. apply wp_bind. eapply wp_lift; [apply create_authentication_spec|].
  cbn [fst snd Z.ltb Z.compare]. apply wp_bind. eapply wp_send_data; [exact T1|]. intros w2 T2.
  rewrite (t_out _ _ _ _ _ T1), app_nil_r. cbn [app] in T2.
  match type of T2 with context [frame_of 30 (write_at 0 ?h _)] => assert (Hh : zlen h = 30) end.
  { pose proof (wl_address x (w_wlan w Hok p x Ex)). by rewrite length_mgmt_header. }
  rewrite <- Hh, frame_of_write in T2.
  destruct (Z.eqb_spec (kmod (length (out w))) 0) as [Hk|Hk].
  - eapply touched_modify; [exact T2|apply own_flags; [done|congruence]| |done].
    intros w3 T3. apply HQ; [|by intros _]. eapply touched_kept; [done|exact E| |exact T3]. cbn. congruence.
  - pose proof (touched_kept w w2 a st st1 _ Hset E ltac:(congruence) T2) as K2.
    apply (wp_delete_kept w2 a st1); [apply K2|apply K2|rewrite (t_stations _ _ _ _ _ T2); apply lookup_insert_eq|].
    intros w3 K3 _. apply HQ; [by eapply kept_trans|done].
Qed.

(** What an accepted authentication leaves behind. *)
Record authenticated (w w' : world) (r : Z) (a : mac) (x : ac_wlan) (mgmt : list Z) : Prop := Authenticated {
  au_timer : exists i, small i /\
    stations w' !! a = Some (answered mgmt x (set_timer AC_STATION_TIMEOUT_ACTION_DEAUTHENTICATE i
                               (created_station w (r, address3 mgmt) a))) /\
    itemstimeout (timeout w') =
      capwap_timeout_additem (remove_timer (idtimeout (prior w a)) (itemstimeout (timeout w)))
        (TimeoutItem i AC_STATION_TIMEOUT_ASSOCIATION_COMPLETE
           (capwap_timeout_setexpire AC_STATION_TIMEOUT_ASSOCIATION_COMPLETE now) (StationTimeout a));
  au_others : forall b, b <> a -> stations w' !! b = stations w !! b;
  au_wlans : forall q, wlan_at w' q =
    (enter_wlan a (Some (r, address3 mgmt)) q ∘ leave_wlan a (prior w a) q) <$> wlan_at w q;
  au_auth : authsession w' = <[a := session_id w]> (authsession w);
  au_out : out w' = out w ++ roaming_notice w a ++ [SendData r (authentication_answer x mgmt)]
}.

Lemma same_network a st new q x :
  let x' := enter_wlan a new q (leave_wlan a st q x) in
  macmode x' = macmode x /\ authmode x' = authmode x /\ wlan_address x' = wlan_address x.
Proof. unfold enter_wlan. by case_bool_decide. Qed.

Lemma answered_same mgmt x x' st : authmode x' = authmode x -> answered mgmt x' st = answered mgmt x st.
Proof. unfold answered. by intros ->. Qed.

Lemma authentication_request_spec w r mgmt n i Q :
  world_ok w -> settled w -> IS_VALID_RADIOID r = true -> room w (address2 mgmt) -> timers_free (timeout w) ->
  ieee80211_retrieve_information_elements_position (drop (Z.to_nat 30) mgmt) (n - 30) = Some (0, i) ->
  length (address2 mgmt) = 6%nat ->
  (forall w', kept w w' ->
     (forall x, wlan_at w (r, address3 mgmt) = Some x -> is_split x = true ->
        kmod (length (out w ++ roaming_notice w (address2 mgmt))) = 0 ->
        authenticated w w' r (address2 mgmt) x mgmt) -> Q tt w') ->
  wp (authentication_request fuel kmod now r mgmt n) w Q.
Proof using Hfuel.
  intros Hok Hset Hr Hroom Hfree Ei H6 HQ. set (a := address2 mgmt) in *. set (p := (r, address3 mgmt)) in *.
  apply wp_bind, (station_create_spec fuel Hfuel); [done..| |].
  { intros Hn. apply wp_ret, HQ; [by apply kept_refl|]. intros x Ex. change (wlan_at w p = None) in Hn. congruence. }
  change (r, address3 mgmt) with p. change (address2 mgmt) with a. intros x w1 Ex Hc. pose proof (created_kept w w1 p a Hset Hc) as K1.
  pose proof Hc as [Hok1 Hid1 Hs1 Ha1 Ho1 _ Hw1 Hi1 Hf1].
  assert (E1 : stations w1 !! a = Some (created_station w p a)) by (rewrite Hs1; apply lookup_insert_eq).
  apply wp_bind, (wp_load_station a _ _ _ E1). cbn [wlan created_station add_flag set_flags reset_of set_wlan].
  apply wp_bind, wp_gets, wp_bind.
  destruct (start_timer_spec fuel w1 a _ AC_STATION_TIMEOUT_ACTION_DEAUTHENTICATE
    AC_STATION_TIMEOUT_ASSOCIATION_COMPLETE now Hok1 E1 eq_refl (Hf1 Hfree)) as (k & t & Et & Hk & Hl & Hok2).
  eapply wp_lift; [exact Et|]. apply wp_bind, wp_update, wp_bind.
  eapply wp_modify_station; [exact E1|]. cbn [fst snd]. set (w2 := set_stations _ _) in *.
  assert (Hset2 : settled w2).
  { intros b su [[-> ->]|[_ Eb]]%insert_cases; [done|]. by apply (k_settled _ _ K1 b). }
  assert (K2 : kept w w2) by (eapply kept_trans; [exact K1|by constructor]).
  set (x1 := enter_wlan a (Some p) p (leave_wlan a (prior w a) p x)).
  assert (Ex2 : wlan_at w2 p = Some x1) by (change (wlan_at w1 p = Some x1); by rewrite Hw1, Ex).
  destruct (same_network a (prior w a) (Some p) p x) as (Hm & Hau & Had). fold x1 in Hm, Hau, Had.
  apply wp_bind. eapply wp_load_wlan; [exact Ex2|]. rewrite Hm.
  destruct (Z.eqb_spec (macmode x) CAPWAP_ADD_WLAN_MACMODE_LOCAL) as [Hloc|_].
  { apply wp_ret, HQ; [done|]. intros y Ey Hsp. assert (y = x) as -> by congruence.
    unfold is_split in Hsp. by rewrite Hloc in Hsp. }
  apply wp_when; intros Hsp.
  - set (st2 := set_timer AC_STATION_TIMEOUT_ACTION_DEAUTHENTICATE k (created_station w p a)).
    assert (E2 : stations w2 !! a = Some st2) by apply lookup_insert_eq.
    eapply authentication_split_spec; [done|done|exact E2|done|exact Ex2|exact Ei|done|]. intros w3 K3 T3.
    apply HQ; [by eapply kept_trans|]. intros y Ey _ Hkm. assert (y = x) as -> by congruence.
    change (out w2) with (out w1) in T3. rewrite Ho1 in T3. specialize (T3 Hkm). destruct T3. constructor.
    + exists k. split; [done|]. rewrite t_stations, lookup_insert_eq. split; [by rewrite (answered_same _ x)|].
      rewrite t_timeout. cbn. by rewrite Hl, Hi1.
    + intros b Hb. rewrite t_stations, lookup_insert_ne by done. cbn. rewrite lookup_insert_ne, Hs1 by done.
      by rewrite lookup_insert_ne.
    + intros q. rewrite <- Hw1. unfold wlan_at, wlans_of. by rewrite t_devices.
    + rewrite t_auth. cbn. done.
    + rewrite t_out. cbn. rewrite Ho1, <- app_assoc. unfold authentication_answer. by rewrite Had, Hau.
  - apply HQ; [done|]. intros y Ey Hy. assert (y = x) as -> by congruence. unfold is_split in Hy. congruence.
Qed.

(** ** Association *)

Lemma own_capability st c i : station_ok st -> own_change st (set_capability c i st).
Proof. intros []. by constructor. Qed.

Lemma own_rates st n rates :
  station_ok st -> 0 <= n <= IEEE80211_SUPPORTEDRATE_MAX_COUNT -> zlen rates = IEEE80211_SUPPORTEDRATE_MAX_COUNT ->
  own_change st (set_rates n rates st).
Proof. intros []. by constructor. Qed.

(** [aid_create] leaves the words in range. *)
Lemma aid_create_words words :
  words_ok words -> zlen words = IEEE80211_AID_BITFIELD_SIZE -> words_ok (ieee80211_aid_create words).2.
Proof.
  intros Hw Hl. unfold ieee80211_aid_create. rewrite aid_search_spec by (done || lia).
  pose proof (words_ok_set words 0 Hw). destruct (set_bitfield 0 words) as [v ws]. by destruct (_ && _).
Qed.

(** The station after a request for association that was read, and its
    network; what does not change is said too. *)
Record associating (w w' : world) (a : mac) (st st' : ac_station) (p : wlan_ref) (x x' : ac_wlan) : Prop :=
  Associating {
  as_kept : kept w w';
  as_station : stations w' !! a = Some st';
  as_flags : flags st' = flags st;
  as_wlan : wlan st' = Some p;
  as_network : wlan_at w' p = Some x';
  as_same : set_aidbitfield [] x' = set_aidbitfield [] x;
  as_out : out w' = out w;
  as_others : forall b, b <> a -> stations w' !! b = stations w !! b
}.

Lemma associating_refl w a st p x :
  world_ok w -> settled w -> stations w !! a = Some st -> wlan st = Some p -> wlan_at w p = Some x ->
  associating w w a st st p x x.
Proof. intros. constructor; try done. Qed.

Lemma associating_modify w w' a st st' p x x' f Q :
  associating w w' a st st' p x x' -> own_change st' (f st') -> flags (f st') = flags st' ->
  (forall w2, associating w w2 a st (f st') p x x' -> Q tt w2) -> wp (modify_station a f) w' Q.
Proof.
  intros [] Ho Hf HQ.
  eapply touched_modify; [apply touched_refl; [apply as_kept0|exact as_station0]|exact Ho| |done].
  intros w2 T. pose proof (touched_kept w' w2 a st' (f st') [] (k_settled _ _ as_kept0) as_station0
    (oc_wlan _ _ Ho) T) as K. destruct T. apply HQ. constructor.
  - by eapply kept_trans.
  - rewrite t_stations. apply lookup_insert_eq.
  - congruence.
  - rewrite (oc_wlan _ _ Ho). done.
  - rewrite <- as_network0. unfold wlan_at, wlans_of. by rewrite t_devices.
  - done.
  - by rewrite t_out, app_nil_r.
  - intros b Hb. rewrite t_stations, lookup_insert_ne; auto.
Qed.

(** The identifier given to the station: free before, in use after. *)
Lemma associating_aid w w' a st st' p x x' Q :
  associating w w' a st st' p x x' -> is_split x = true -> aidbitfield x' = aidbitfield x ->
  let '(result, v, bits) := ieee80211_aid_create (aidbitfield x) in
  (forall w2, associating w w2 a st (set_aid v st') p x (set_aidbitfield bits x') -> Q tt w2) ->
  wp (modify_wlan p (set_aidbitfield bits);; modify_station a (set_aid v)) w' Q.
Proof.
  intros [] Hsp Hbits. pose proof (k_ok _ _ as_kept0) as Hok.
  destruct (w_wlan w' Hok p x' as_network0) as [_ Hwords Hsize _]. rewrite Hbits in Hwords, Hsize.
  pose proof (aid_create_spec (aidbitfield x) Hwords Hsize) as Ha.
  pose proof (aid_create_words (aidbitfield x) Hwords Hsize) as Hw.
  destruct (ieee80211_aid_create (aidbitfield x)) as [[result v] bits]. cbn in Hw.
  destruct Ha as [Hlen Ha]. intros HQ. apply wp_bind.
  assert (Hspx : is_split x' = true) by (unfold is_split in *; injection as_same0; intros; congruence).
  apply (wp_modify_wlan p x'); [done..|]. intros w1 Hsame Hw1.
  assert (Hok1 : world_ok w1).
  { eapply (ok_more_bits w' w1 p x' bits); try done; [by rewrite Hbits|]. rewrite Hbits. intros k Hk Hu.
    destruct Ha as [(_ & _ & _ & _ & Hin)|(_ & _ & -> & _)]; [|done]. rewrite Hin, Hu by done. apply orb_true_r. }
  destruct Hsame as (Hid & Ht & Hs & Hto & Hat & Has & Ho & Hd).
  assert (E1 : stations w1 !! a = Some st') by by rewrite Hs.
  assert (Ex1 : wlan_at w1 p = Some (set_aidbitfield bits x')) by (rewrite Hw1; by rewrite bool_decide_true).
  apply (wp_modify_station a st'); [done|]. apply HQ.
  assert (Hok2 : world_ok (set_stations (<[a := set_aid v st']> (stations w1)) w1)).
  { apply (ok_set_aid w1 a st' p (set_aidbitfield bits x')); try done. intros _ Hv.
    destruct Ha as [(_ & Hr & Hfree & _ & Hin)|(_ & Hz & _)]; [|done].
    split; [split; [done|]; cbn; rewrite Hin by lia; by rewrite Z.eqb_refl|].
    intros b su Hb Eb Epb Hav. rewrite Hs in Eb.
    destruct (w_aid w' Hok b su p x' Eb Epb as_network0 Hspx) as [_ Hu]; [congruence|].
    rewrite Hbits, Hav, Hfree in Hu. done. }
  constructor; cbn; try done.
  - destruct as_kept0. constructor; cbn; try congruence; try done.
    + intros b su [[-> ->]|[_ Eb]]%insert_cases; [cbn; congruence|]. rewrite Hs in Eb. by eapply k_settled0.
    + intros q. rewrite <- k_wlans0. change (is_Some (wlan_at w1 q) <-> is_Some (wlan_at w' q)). rewrite Hw1.
      case_bool_decide as Eq; [subst q; rewrite as_network0; split; by eexists|done].
  - apply lookup_insert_eq.
  - congruence.
  - intros b Hb. rewrite lookup_insert_ne, Hs by done. auto.
Qed.

(** The status of the answer, the station and the identifiers in use, after a
    request that could be read. *)
Definition association_result (mgmt : list Z) (x : ac_wlan) (ie : ieee80211_ie_items) (st : ac_station)
    : Z * ac_station * list Z :=
  if bool_decide (ieee80211_is_valid_ssid (wlan_ssid x) (ssid ie) None = Some IEEE80211_VALID_SSID) then
    match station_rates ie (supportedrates st) with
    | Some (Some (n, rates)) =>
        let '(result, k, bits) := ieee80211_aid_create (aidbitfield x) in
        let st := set_aid k (set_capability (assocreq_capability mgmt) (assocreq_listeninterval mgmt) st) in
        if result =? 0 then (IEEE80211_STATUS_SUCCESS, set_rates n rates st, bits)
        else (IEEE80211_STATUS_AP_UNABLE_TO_HANDLE_NEW_STA, st, bits)
    | _ => (IEEE80211_STATUS_UNSPECIFIED_FAILURE, st, aidbitfield x)
    end
  else (IEEE80211_STATUS_UNSPECIFIED_FAILURE, st, aidbitfield x).

Lemma association_status_spec w a st p x ie mgmt Q :
  world_ok w -> settled w -> stations w !! a = Some st -> wlan st = Some p -> wlan_at w p = Some x ->
  is_split x = true -> items_ok ie ->
  let '(status, st', bits) := association_result mgmt x ie st in
  (forall w', associating w w' a st st' p x (set_aidbitfield bits x) -> Q status w') ->
  wp (association_status a p x ie mgmt) w Q.
Proof.
  intros Hok Hset E Ep Ex Hsp Hi. destruct (valid_ssid_total (wlan_ssid x) ie Hi) as [v Ev].
  pose proof (associating_refl w a st p x Hok Hset E Ep Ex) as A0.
  assert (Hsame : set_aidbitfield (aidbitfield x) x = x) by by destruct x.
  assert (Hrun : forall Q, wp (if negb (v =? IEEE80211_VALID_SSID) then ret IEEE80211_STATUS_UNSPECIFIED_FAILURE else
    st <- load_station a;; rates <- lift (station_rates ie (supportedrates st));;
    match rates with
    | None => ret IEEE80211_STATUS_UNSPECIFIED_FAILURE
    | Some (n, rates) =>
        modify_station a (set_capability (assocreq_capability mgmt) (assocreq_listeninterval mgmt));;
        let '(result, k, bits) := ieee80211_aid_create (aidbitfield x) in
        modify_wlan p (set_aidbitfield bits);; modify_station a (set_aid k);;
        if negb (result =? 0) then ret IEEE80211_STATUS_AP_UNABLE_TO_HANDLE_NEW_STA else
        modify_station a (set_rates n rates);; ret IEEE80211_STATUS_SUCCESS
    end) w Q -> wp (association_status a p x ie mgmt) w Q).
  { intros Q' Hrun. by apply wp_bind, (wp_lift _ v). }
  unfold association_result. rewrite Ev. destruct (Z.eqb_spec v IEEE80211_VALID_SSID) as [Hv|Hv].
  2: { rewrite bool_decide_false by congruence. rewrite Hsame. intros HQ. by apply Hrun, wp_ret, HQ. }
  rewrite bool_decide_true by congruence. pose proof (w_station w Hok a st E) as Hst.
  destruct (station_rates_total ie (supportedrates st) Hi (st_rates st Hst)) as (o & Eo & Ho). rewrite Eo.
  destruct o as [[n rates]|].
  2: { rewrite Hsame. intros HQ. apply Hrun. cbn [negb]. apply wp_bind, (wp_load_station a st); [done|].
       apply wp_bind, (wp_lift _ None); [done|]. by apply wp_ret, HQ. }
  destruct (Ho n rates eq_refl) as [Hn Hrates].
  pose proof (own_capability st (assocreq_capability mgmt) (assocreq_listeninterval mgmt) Hst) as Hoc.
  destruct (ieee80211_aid_create (aidbitfield x)) as [[result k] bits] eqn:Ec.
  assert (Hcont : forall Q, (forall w2, associating w w2 a st
      (set_aid k (set_capability (assocreq_capability mgmt) (assocreq_listeninterval mgmt) st)) p x
      (set_aidbitfield bits x) ->
      wp (if negb (result =? 0) then ret IEEE80211_STATUS_AP_UNABLE_TO_HANDLE_NEW_STA else
          modify_station a (set_rates n rates);; ret IEEE80211_STATUS_SUCCESS) w2 Q) ->
    wp (association_status a p x ie mgmt) w Q).
  { intros Q' HQ. apply Hrun. cbn [negb]. apply wp_bind, (wp_load_station a st); [done|].
    apply wp_bind. eapply wp_lift; [exact Eo|]. apply wp_bind.
    eapply associating_modify; [exact A0|exact Hoc|done|]. intros w1 A1.
    pose proof (fun Q => associating_aid w w1 a st _ p x x Q A1 Hsp eq_refl) as Haid. rewrite Ec in Haid.
    apply wp_assoc, wp_bind, Haid. done. }
  destruct (result =? 0) eqn:Er; intros HQ; apply Hcont; intros w2 A2; cbn [negb]; [|by apply wp_ret, HQ].
  apply wp_bind. eapply associating_modify; [exact A2| |done|].
  { destruct A2. apply own_rates; [|done..]. by apply (w_station w2 (k_ok _ _ as_kept0) a). }
  intros w3 A3. by apply wp_ret, HQ.
Qed.

(** The request to the radio to serve a station. *)
Definition authorize_events (a : mac) (st : ac_station) (p : wlan_ref) (x : ac_wlan) : list event :=
  if has_flag AC_STATION_FLAGS_AUTHENTICATED st && has_flag AC_STATION_FLAGS_ASSOCIATE st &&
     negb (has_flag AC_STATION_FLAGS_AUTHORIZED st)
  then [ActionAddStation p.1 a (wlan_wlanid x) (aid st) (capability st)
          (take (Z.to_nat (supportedratescount st)) (supportedrates st))]
  else [].

Lemma authorize_spec w w' a st p x sent Q :
  touched w w' a st sent -> wlan st = Some p -> wlan_at w' p = Some x ->
  (forall w2, touched w w2 a st (sent ++ authorize_events a st p x) -> Q tt w2) ->
  wp (ac_stations_authorize_station a) w' Q.
Proof.
  intros T Ep Ex HQ. assert (E : stations w' !! a = Some st) by (rewrite (t_stations _ _ _ _ _ T); apply lookup_insert_eq).
  apply wp_bind, (wp_load_station a st); [done|]. unfold authorize_events in HQ.
  destruct (w_station w' (t_ok _ _ _ _ _ T) a st E) as [_ _ _ Hr Hc].
  apply wp_when; intros Hf; rewrite Hf in HQ; [|apply HQ; by rewrite app_nil_r].
  apply wp_bind, (wp_lift _ p); [done|]. apply wp_bind, (wp_load_wlan p x); [done|]. apply wp_bind.
  eapply wp_lift; [unfold Array.fetch; rewrite Hr; by decide_if|].
  eapply touched_emit; [exact T|exact HQ].
Qed.

(** The response of the controller. *)
Definition association_answer (x : ac_wlan) (d : ac_device) (sa : mac) (status a : Z) : list Z :=
  assoc_frame (AssocParams (wlan_address x) sa (wlan_capability x) status (Z.lor IEEE80211_AID_FIELD a)
    (dev_supportedratescount d)
    (write_at 0 (take (Z.to_nat (dev_supportedratescount d)) (dev_supportedrates d))
       (fresh IEEE80211_SUPPORTEDRATE_MAX_COUNT)) 0 []).

Lemma association_response_spec x d sa status v :
  length sa = 6%nat -> length (wlan_address x) = 6%nat ->
  rates_wf (dev_supportedrates d) (dev_supportedratescount d) ->
  exists params, (forall p, association_params 0 p x d sa status v = Some params) /\
    ieee80211_create_associationresponse_response (fresh IEEE80211_MTU) params =
      Some (zlen (association_answer x d sa status v),
            write_at 0 (association_answer x d sa status v) (fresh IEEE80211_MTU)) /\
    30 <= zlen (association_answer x d sa status v).
Proof.
  intros Hsa Hx (Hr & Hn & Hb). unfold IEEE80211_SUPPORTEDRATE_MAX_COUNT in *.
  set (rates := take (Z.to_nat (dev_supportedratescount d)) (dev_supportedrates d)).
  assert (Hrates : zlen rates = dev_supportedratescount d) by (unfold rates; rewrite length_take; lia).
  assert (Hf16 : zlen (fresh 16) = 16) by by rewrite length_fresh.
  eexists. split.
  { intros p. unfold association_params, Array.fetch. decide_if. obind. fold rates.
    rewrite store_some by (unfold IEEE80211_SUPPORTEDRATE_MAX_COUNT; lia). obind. done. }
  set (params := AssocParams _ _ _ _ _ _ _ _ _). fold (association_answer x d sa status v).
  change (association_answer x d sa status v) with (assoc_frame params).
  assert (Hwf : assoc_wf params).
  { refine (conj Hsa (conj Hx (conj _ _))); [|cbn; lia]. cbn. unfold rates_wf, IEEE80211_SUPPORTEDRATE_MAX_COUNT. split_and!; [|lia..|].
    - rewrite length_write_at; [done|lia|]. rewrite Hrates. unfold IEEE80211_SUPPORTEDRATE_MAX_COUNT. lia.
    - apply bytes_ok_write_at; [by apply bytes_ok_take|apply fresh_ok]. }
  assert (Hlen : 30 <= zlen (assoc_frame params) <= 60).
  { assert (Hh : zlen (assoc_header params) = 30) by (unfold assoc_header; by rewrite length_mgmt_header).
    set (rs := ar_supportedrates params). set (m := ar_supportedratescount params).
    assert (H1 : zlen (ie_bytes (rates_ie rs m)) <= 10).
    { rewrite length_ie_bytes. cbn [ie_value rates_ie]. rewrite length_take. lia. }
    assert (H2 : zlen (ies_bytes (extended_ies rs m)) <= 20).
    { unfold extended_ies. destruct (m <=? 8); [done|]. rewrite ies_bytes_cons, app_nil_r, length_ie_bytes.
      cbn [ie_value]. rewrite length_drop, length_take. unfold m. cbn. lia. }
    unfold assoc_frame, assoc_ies. fold rs m. change (take _ (ar_response_ies params)) with (@nil Z).
    rewrite app_nil_r, ies_bytes_cons, !length_app. lia. }
  split; [|lia]. apply create_associationresponse_spec; [done|]. rewrite length_fresh. unfold IEEE80211_MTU. lia.
Qed.

(** What the answer to a request for association leaves behind. *)
Definition associated (w w' : world) (a : mac) (st : ac_station) (p : wlan_ref) (x : ac_wlan)
    (ie : ieee80211_ie_items) (mgmt : list Z) : Prop :=
  let '(status, st1, bits) := association_result mgmt x ie st in
  let st2 := add_flag AC_STATION_FLAGS_ASSOCIATE st1 in
  exists w1 d, associating w w1 a st st1 p x (set_aidbitfield bits x) /\
    touched w1 w' a st2
      (SendData p.1 (association_answer x d (address2 mgmt) status (aid st1)) :: authorize_events a st2 p x).

Lemma association_split_spec w a st p x mgmt n i Q :
  session_ok w -> stations w !! a = Some st -> wlan st = Some p -> wlan_at w p = Some x -> is_split x = true ->
  ieee80211_retrieve_information_elements_position (drop (Z.to_nat 28) mgmt) (n - 28) = Some (0, i) ->
  items_ok i -> length (address2 mgmt) = 6%nat ->
  (forall w', kept w w' ->
     (kmod (length (out w)) = 0 -> associated w w' a st p x i mgmt) -> Q tt w') ->
  wp (association_split fuel kmod 0 a p mgmt n) w Q.
Proof using Hfuel.
  intros Hso E Ep Ex Hsp Ei Hi H6 HQ. pose proof Hso as [Hok Hset _].
  apply wp_bind. eapply wp_lift; [exact Ei|]. cbn [fst snd negb Z.eqb].
  apply wp_bind, (wp_load_wlan p x); [done|]. apply wp_bind.
  pose proof (association_status_spec w a st p x i mgmt) as Hstatus. unfold associated in HQ.
  destruct (association_result mgmt x i st) as [[status st1] bits].
  apply Hstatus; [done..|]. clear Hstatus. intros w1 A.
  pose proof A as [K1 E1 Hf1 Ew1 Ex1 Hsame Ho1 _].
  apply wp_bind, (wp_load_station a st1); [done|].
  destruct (so_rated w1 (kept_session w w1 Hso K1) p _ Ex1) as (d & Ed & Hd).
  apply wp_bind, wp_bind, wp_gets, (wp_lift _ d); [done|]. apply wp_bind.
  destruct (association_response_spec x d (address2 mgmt) status (aid st1) H6
    (wl_address x (w_wlan w Hok p x Ex)) Hd) as (params & Ep1 & Er & Hlen).
  apply (wp_lift _ params); [apply Ep1|]. apply wp_bind. eapply wp_lift; [exact Er|]. cbn [fst snd].
  rewrite (proj2 (Z.ltb_lt 0 _)) by lia. rewrite frame_of_write. apply wp_bind.
  eapply wp_send_data; [apply touched_refl; [apply K1|exact E1]|]. cbn [app]. intros w2 T2. rewrite Ho1.
  assert (K2 : kept w w2).
  { eapply kept_trans; [exact K1|]. eapply touched_kept; [apply K1|exact E1|done|exact T2]. }
  destruct (Z.eqb_spec (kmod (length (out w))) 0) as [Hk|Hk].
  - apply wp_bind. eapply touched_modify; [exact T2| | |done].
    { apply own_flags; [by apply (w_station w1 (k_ok _ _ K1) a)|congruence]. }
    intros w3 T3. eapply authorize_spec; [exact T3|exact Ew1| |].
    { rewrite <- Ex1. unfold wlan_at, wlans_of. by rewrite (t_devices _ _ _ _ _ T3). }
    intros w4 T4. apply HQ; [|intros _; by exists w1, d].
    eapply kept_trans; [exact K1|]. eapply touched_kept; [apply K1|exact E1| |exact T4]. done.
  - apply (wp_delete_kept w2 a st1); [apply K2|apply K2|rewrite (t_stations _ _ _ _ _ T2); apply lookup_insert_eq|].
    intros w3 K3 _. apply HQ; [by eapply kept_trans|done].
Qed.

(** The addresses of a frame have buckets of their own. *)
Definition frame_room (w : world) (mgmt : list Z) : Prop := room w (address1 mgmt) /\ room w (address2 mgmt).

Lemma address2_length mgmt n : frame_ok mgmt n -> 17 <= n -> length (address2 mgmt) = 6%nat.
Proof. intros [_ Hn] Hl. apply length_slice_6; lia. Qed.

(** A station with what its request says. *)
Definition requesting (mgmt : list Z) (n : Z) (rates : list Z) (st : ac_station) : ac_station :=
  set_rates n rates (set_capability (assocreq_capability mgmt) (assocreq_listeninterval mgmt) st).

Lemma association_request_spec w r mgmt n Q :
  session_ok w -> frame_ok mgmt n -> readable mgmt n 28 -> 28 <= n -> room w (address2 mgmt) ->
  (forall w', kept w w' ->
     (forall i st p x k rates,
        ieee80211_retrieve_information_elements_position (drop (Z.to_nat 28) mgmt) (n - 28) = Some (0, i) ->
        from_station mgmt = true -> station_matches w r (Some (address3 mgmt)) (address2 mgmt) = true ->
        stations w !! (address2 mgmt : mac) = Some st -> wlan st = Some p -> wlan_at w p = Some x -> is_split x = true ->
        has_flag AC_STATION_FLAGS_AUTHENTICATED st = true ->
        station_rates i (supportedrates st) = Some (Some (k, rates)) -> kmod (length (out w)) = 0 ->
        exists w1, touched w w1 (address2 mgmt) (requesting mgmt k rates st) [] /\
          associated w1 w' (address2 mgmt) (requesting mgmt k rates st) p x i mgmt) -> Q tt w') ->
  wp (ac_ieee80211_mgmt_association_request_packet fuel kmod 0 r mgmt n) w Q.
Proof using Hfuel.
  intros Hso Hfr Hrd Hn Hroom HQ. pose proof Hso as [Hok Hset _]. set (a := address2 mgmt) in *.
  pose proof (kept_refl w Hok Hset) as K0. apply wp_bind, wp_elements; [done|lia|done|]. intros v i Ei Hi. cbn [fst snd].
  destruct (Z.eqb_spec v 0) as [->|Hv]; cbn [negb]; [|apply wp_ret, HQ; [done|]; intros i' *; congruence].
  specialize (Hi eq_refl).
  apply wp_when; intros Hfs; [|apply HQ; [done|]; intros; congruence].
  apply wp_bind, (wp_get_station fuel Hfuel); [done..|]. change (address2 mgmt) with a.
  destruct (station_matches w r (Some (address3 mgmt)) a) eqn:Hm; [|apply wp_ret, HQ; [done|]; intros; congruence].
  destruct (station_matches_true _ _ _ _ Hm) as (st & p & E & Ep & _).
  apply wp_bind, (wp_load_station a st); [done|]. rewrite Ep. pose proof (w_station w Hok a st E) as Hst.
  destruct (has_flag AC_STATION_FLAGS_AUTHENTICATED st) eqn:Hau; cbn [negb].
  2: { apply (wp_delete_kept w a st); [done..|]. intros w1 K1 _. apply HQ; [done|]. intros; congruence. }
  pose proof (own_capability st (assocreq_capability mgmt) (assocreq_listeninterval mgmt) Hst) as Hoc.
  apply wp_bind. eapply touched_modify; [by apply touched_refl|exact Hoc| |done]. intros w1 T1.
  pose proof (touched_kept w w1 a st _ [] Hset E (oc_wlan _ _ Hoc) T1) as K1.
  destruct (station_rates_total i (supportedrates st) Hi (st_rates st Hst)) as (o & Eo & Ho).
  apply wp_bind, (wp_lift _ o); [done|].
  destruct o as [[k rates]|]; [|apply wp_ret, HQ; [done|]; intros; congruence].
  destruct (Ho k rates eq_refl) as [Hk Hrates].
  pose proof (own_rates _ k rates (oc_ok _ _ Hoc) Hk Hrates) as Hor.
  apply wp_bind. eapply touched_modify; [exact T1|exact Hor| |done]. intros w2 T2.
  fold (requesting mgmt k rates st) in T2.
  pose proof (touched_kept w w2 a st (requesting mgmt k rates st) [] Hset E eq_refl T2) as K2.
  destruct (w_ref w Hok a st p E Ep) as (x & Ex & _).
  assert (Ex2 : wlan_at w2 p = Some x) by (rewrite <- Ex; unfold wlan_at, wlans_of; by rewrite (t_devices _ _ _ _ _ T2)).
  apply wp_bind, (wp_load_wlan p x); [done|].
  destruct (Z.eqb_spec (macmode x) CAPWAP_ADD_WLAN_MACMODE_LOCAL) as [Hloc|_].
  { apply wp_ret, HQ; [done|]. intros i' st' p' x' ? ? ? _ _ E' Ep' Ex' Hsp. assert (x' = x) as -> by congruence.
    unfold is_split in Hsp. by rewrite Hloc in Hsp. }
  apply wp_when; intros Hsp.
  2: { apply HQ; [done|]. intros i' st' p' x' ? ? ? _ _ E' Ep' Ex' Hsp'. assert (x' = x) as -> by congruence.
       unfold is_split in Hsp'. congruence. }
  eapply (association_split_spec w2 a (requesting mgmt k rates st)); [by eapply kept_session| |done|exact Ex2|done|exact Ei|done| |].
  { rewrite (t_stations _ _ _ _ _ T2). apply lookup_insert_eq. }
  { apply (address2_length mgmt n); [done|lia]. }
  intros w3 K3 H3. apply HQ; [by eapply kept_trans|].
  intros i' st' p' x' k' rates' Ei' _ _ E' Ep' Ex' _ _ Er' Hkm.
  assert (i' = i) as -> by congruence. assert (st' = st) as -> by congruence.
  assert (p' = p) as -> by congruence. assert (x' = x) as -> by congruence.
  assert (k' = k /\ rates' = rates) as [-> ->] by (split; congruence).
  exists w2. split; [done|]. apply H3. by rewrite (t_out _ _ _ _ _ T2), app_nil_r.
Qed.

(** The whole effect of a request for association that is answered. *)
Lemma association_outcome w r mgmt n i st p x k rates :
  session_ok w -> frame_ok mgmt n -> 28 <= n -> room w (address2 mgmt) ->
  ieee80211_retrieve_information_elements_position (drop (Z.to_nat 28) mgmt) (n - 28) = Some (0, i) ->
  from_station mgmt = true -> station_matches w r (Some (address3 mgmt)) (address2 mgmt) = true ->
  stations w !! (address2 mgmt : mac) = Some st -> wlan st = Some p -> wlan_at w p = Some x -> is_split x = true ->
  has_flag AC_STATION_FLAGS_AUTHENTICATED st = true ->
  station_rates i (supportedrates st) = Some (Some (k, rates)) -> kmod (length (out w)) = 0 ->
  let '(status, st1, bits) := association_result mgmt x i (requesting mgmt k rates st) in
  let st2 := add_flag AC_STATION_FLAGS_ASSOCIATE st1 in
  exists w' d, ac_ieee80211_mgmt_association_request_packet fuel kmod 0 r mgmt n w = Some (tt, w') /\
    session_ok w' /\ stations w' !! (address2 mgmt : mac) = Some st2 /\
    (forall b : mac, b <> address2 mgmt -> stations w' !! b = stations w !! b) /\
    wlan_at w' p = Some (set_aidbitfield bits x) /\ flags st1 = flags st /\ wlan st1 = Some p /\
    out w' = out w ++ SendData p.1 (association_answer x d (address2 mgmt) status (aid st1)) ::
                      authorize_events (address2 mgmt) st2 p x.
Proof using Hfuel.
  intros Hso Hfr Hn Hroom Ei Hfs Hm E Ep Ex Hsp Hau Er Hkm.
  destruct (association_request_spec w r mgmt n (fun _ w' => kept w w' /\ exists w1,
     touched w w1 (address2 mgmt) (requesting mgmt k rates st) [] /\
     associated w1 w' (address2 mgmt) (requesting mgmt k rates st) p x i mgmt)) as ([] & w' & Erun & K & w1 & T1 & A);
    try done; [by eexists|..].
  { intros w' K Hd. split; [done|]. by eapply Hd. }
  unfold associated in A. destruct (association_result mgmt x i (requesting mgmt k rates st)) as [[status st1] bits].
  destruct A as (w2 & d & [K2 E2 Hf2 Ew2 Ex2 _ Ho2 Hot2] & T2). exists w', d. split_and!.
  - done.
  - by eapply kept_session.
  - rewrite (t_stations _ _ _ _ _ T2). apply lookup_insert_eq.
  - intros b Hb. rewrite (t_stations _ _ _ _ _ T2), lookup_insert_ne by done. rewrite Hot2 by done.
    rewrite (t_stations _ _ _ _ _ T1). by rewrite lookup_insert_ne.
  - rewrite <- Ex2. unfold wlan_at, wlans_of. by rewrite (t_devices _ _ _ _ _ T2).
  - done.
  - done.
  - by rewrite (t_out _ _ _ _ _ T2), Ho2, (t_out _ _ _ _ _ T1), app_nil_r.
Qed.

End Handlers.
