(* ===== verification/AcDispatch.v ===== *)
(** The remaining handlers, the dispatch of received frames, the answers to
    station requests, roaming and timers: each returns and keeps the
    invariant. *)
From stdpp Require Import option gmap sets.
From S2P Require Import Prelude Bitfield Io Header CapwapHash CapwapHashSpec CapwapHashDelete.
From S2P Require Import CapwapArray Timeout TimeoutSpec.
From S2P Require Import Ieee80211 Ieee80211Frame Ieee80211Spec Ieee80211FrameSpec.
From S2P Require Import Elements80211a ElementsImage AcWorld AcWlans AcIeee80211.
From S2P Require Import AcInv AcStation AcNetwork AcFrame.
#[local] Open Scope Z_scope.

Section Dispatch.
Context `{Indeterminate} `{Target} (fuel : nat) (Hfuel : enough fuel) (kmod : nat -> Z) (now : timeval).

(** ** Authentication, from either side *)

Lemma authentication_response_spec w r mgmt Q :
  world_ok w -> settled w -> room w (address1 mgmt) -> (forall w', kept w w' -> Q tt w') ->
  wp (authentication_response fuel r mgmt) w Q.
Proof using Hfuel.
  intros Hok Hset Hr HQ. pose proof (kept_refl w Hok Hset) as K0.
  apply wp_bind, (wp_get_station fuel Hfuel); [done..|].
  destruct (station_matches _ _ _ _) eqn:Hm; [|by apply wp_ret, HQ].
  destruct (station_matches_true _ _ _ _ Hm) as (st & p & E & Ep & _).
  apply wp_bind. eapply wp_load_station; [exact E|]. rewrite Ep. destruct (w_ref w Hok _ st p E Ep) as (x & Ex & _).
  apply wp_bind, (wp_load_wlan p x); [done|]. apply wp_when; intros _; [|by apply HQ].
  eapply touched_modify; [by eapply touched_refl| | |done].
  { apply own_flags; [by eapply w_station|congruence]. }
  intros w1 T. apply HQ. eapply touched_kept; [done|exact E| |exact T]. done.
Qed.

Lemma authentication_spec w r mgmt n Q :
  world_ok w -> settled w -> frame_ok mgmt n -> readable mgmt n 30 -> 30 <= n -> IS_VALID_RADIOID r = true -> frame_room w mgmt ->
  timers_free (timeout w) -> (forall w', kept w w' -> Q tt w') ->
  wp (ac_ieee80211_mgmt_authentication_packet fuel kmod now r mgmt n) w Q.
Proof using Hfuel.
  intros Hok Hset Hfr Hrd Hn Hr [Hr1 Hr2] Hfree HQ. apply wp_bind, wp_elements; [done|lia|done|]. intros v i Ei _. cbn [fst].
  destruct (Z.eqb_spec v 0) as [->|Hv]; cbn [negb]; [|by apply wp_ret, HQ, kept_refl].
  destruct (from_station mgmt).
  - eapply authentication_request_spec; [done..|exact Ei| |].
    + apply (address2_length mgmt n); [done|lia].
    + intros w' K _. by apply HQ.
  - apply wp_when; [intros _|intros _; by apply HQ, kept_refl]. by apply authentication_response_spec.
Qed.

(** The whole effect of a request for authentication that is answered. *)
Lemma authentication_outcome w r mgmt n i x :
  session_ok w -> frame_ok mgmt n -> 30 <= n -> IS_VALID_RADIOID r = true -> room w (address2 mgmt) ->
  timers_free (timeout w) ->
  ieee80211_retrieve_information_elements_position (drop (Z.to_nat 30) mgmt) (n - 30) = Some (0, i) ->
  from_station mgmt = true -> wlan_at w (r, address3 mgmt) = Some x -> is_split x = true ->
  kmod (length (out w ++ roaming_notice w (address2 mgmt))) = 0 ->
  exists w', ac_ieee80211_mgmt_authentication_packet fuel kmod now r mgmt n w = Some (tt, w') /\
    session_ok w' /\ authenticated now w w' r (address2 mgmt) x mgmt.
Proof using Hfuel.
  intros Hso Hfr Hn Hr Hroom Hfree Ei Hfs Ex Hsp Hk. pose proof Hso as [Hok Hset _].
  assert (Hw : wp (ac_ieee80211_mgmt_authentication_packet fuel kmod now r mgmt n) w
    (fun _ w' => session_ok w' /\ authenticated now w w' r (address2 mgmt) x mgmt)).
  { apply wp_bind, wp_elements; [done|lia|by eexists|]. intros v j Ej _. assert (v = 0 /\ j = i) as [-> ->] by (split; congruence).
    cbn [fst negb Z.eqb]. rewrite Hfs. eapply authentication_request_spec; [done..|exact Ei| |].
    + apply (address2_length mgmt n); [done|lia].
    + intros w' K Ha. split; [by eapply kept_session|]. by apply Ha. }
  destruct Hw as ([] & w' & E & Hw). by exists w'.
Qed.

(** The status code a frame of authentication carries. *)
Lemma authentication_frame_status b a alg seq status :
  length b = 6%nat -> length a = 6%nat -> 0 <= status < 256 ->
  auth_statuscode (authentication_frame b a alg seq status) = status.
Proof.
  intros Hb Ha Hs. do 7 (destruct b as [|? b]; try done). do 7 (destruct a as [|? a]; try done).
  change (wrap8 status + 256 * wrap8 (status / 256) = status). unfold wrap8.
  rewrite Z.mod_small by lia. rewrite (Z.div_small status) by lia. rewrite Zmod_0_l. lia.
Qed.

(** ** The answer of a radio to a request for association *)

Lemma association_response_packet_spec w r mgmt n Q :
  world_ok w -> settled w -> frame_ok mgmt n -> readable mgmt n 30 -> 30 <= n -> room w (address1 mgmt) ->
  (forall w', kept w w' -> Q tt w') ->
  wp (ac_ieee80211_mgmt_association_response_packet fuel r mgmt n) w Q.
Proof using Hfuel.
  intros Hok Hset Hfr Hrd Hn Hroom HQ. pose proof (kept_refl w Hok Hset) as K0.
  apply wp_bind, wp_elements; [done|lia|done|]. intros v i Ei Hi. cbn [fst snd].
  destruct (Z.eqb_spec v 0) as [->|Hv]; cbn [negb]; [|by apply wp_ret, HQ]. specialize (Hi eq_refl).
  apply wp_when; [intros _|intros _; by apply HQ]. apply wp_bind, (wp_get_station fuel Hfuel); [done..|].
  remember (address1 mgmt : mac) as a eqn:Ea. clear Ea.
  destruct (station_matches w r (Some (address3 mgmt)) a) eqn:Hm; [|by apply wp_ret, HQ].
  destruct (station_matches_true _ _ _ _ Hm) as (st & p & E & Ep & _).
  pose proof (w_station w Hok a st E) as Hst.
  apply wp_bind, (wp_load_station a st); [done|]. rewrite Ep. destruct (w_ref w Hok a st p E Ep) as (x & Ex & _).
  apply wp_bind, (wp_load_wlan p x); [done|]. apply wp_when; intros Hc; [|by apply HQ].
  apply andb_true_iff in Hc as [Hloc _].
  pose proof (own_capability st (assocresp_capability mgmt) (listeninterval st) Hst) as Hoc.
  apply wp_bind. eapply touched_modify; [by apply touched_refl|exact Hoc| |done]. intros w1 T1.
  pose proof (touched_kept w w1 a st _ [] Hset E (oc_wlan _ _ Hoc) T1) as K1.
  assert (E1 : stations w1 !! a = Some (set_capability (assocresp_capability mgmt) (listeninterval st) st))
    by (rewrite (t_stations _ _ _ _ _ T1); apply lookup_insert_eq).
  apply wp_bind. eapply wp_modify_station; [exact E1|]. set (st2 := set_aid _ _). set (w2 := set_stations _ w1).
  assert (Ex1 : wlan_at w1 p = Some x) by (rewrite <- Ex; unfold wlan_at, wlans_of; by rewrite (t_devices _ _ _ _ _ T1)).
  assert (Hok2 : world_ok w2).
  { eapply (ok_set_aid w1 a _ p x); [apply K1|exact E1|done|done|]. intros Hsp. bools.
    unfold is_split in Hsp. by rewrite Hloc in Hsp. }
  assert (K2 : kept w w2).
  { eapply kept_trans; [exact K1|]. constructor; try done. intros b su [[-> ->]|[_ Eb]]%insert_cases;
      [cbn; congruence|]. by apply (k_settled _ _ K1 b). }
  assert (E2 : stations w2 !! a = Some st2) by apply lookup_insert_eq.
  apply wp_bind. eapply touched_modify; [by apply touched_refl| | |done].
  { apply own_flags; [by apply (w_station w2 Hok2 a)|cbn; congruence]. }
  intros w3 T3. pose proof (touched_kept w2 w3 a st2 (add_flag _ st2) _ (k_settled _ _ K2) E2 eq_refl T3) as K3.
  assert (K03 : kept w w3) by (by eapply kept_trans).
  destruct (station_rates_total i (supportedrates st) Hi (st_rates st Hst)) as (o & Eo & Ho).
  apply wp_bind, (wp_lift _ o); [done|]. destruct o as [[k rates]|]; [|by apply wp_ret, HQ].
  destruct (Ho k rates eq_refl) as [Hk Hrates].
  assert (E3 : stations w3 !! a = Some (add_flag AC_STATION_FLAGS_ASSOCIATE st2))
    by (rewrite (t_stations _ _ _ _ _ T3); apply lookup_insert_eq).
  apply wp_bind. eapply touched_modify; [exact T3|apply own_rates; [by apply (w_station w3 (k_ok _ _ K3) a)|done..]| |done].
  intros w4 T4. eapply authorize_spec; [exact T4|cbn; exact Ep| |].
  { rewrite <- Ex1. unfold wlan_at, wlans_of. by rewrite (t_devices _ _ _ _ _ T4). }
  intros w5 T5. apply HQ. eapply kept_trans; [exact K2|].
  eapply touched_kept; [apply K2|exact E2| |exact T5]. done.
Qed.

(** The status code an answer to a request for association carries. *)
Lemma association_answer_status x d sa status v :
  length (wlan_address x) = 6%nat -> length sa = 6%nat -> 0 <= status < 256 ->
  assocresp_statuscode (association_answer x d sa status v) = status.
Proof.
  intros Hx Ha Hs. unfold association_answer, assoc_frame, assoc_header. cbn [ar_station ar_bssid ar_capability ar_statuscode ar_aid].
  generalize (wlan_address x), Hx. intros b Hb. do 7 (destruct b as [|? b]; try done). do 7 (destruct sa as [|? sa]; try done).
  change (wrap8 status + 256 * wrap8 (status / 256) = status). unfold wrap8.
  rewrite Z.mod_small by lia. rewrite (Z.div_small status) by lia. rewrite Zmod_0_l. lia.
Qed.

(** ** Deauthentication *)

Lemma deauthentication_spec w r mgmt n Q :
  world_ok w -> settled w -> frame_ok mgmt n -> readable mgmt n 26 -> 26 <= n -> frame_room w mgmt ->
  (forall w', kept w w' -> Q tt w') ->
  wp (ac_ieee80211_mgmt_deauthentication_packet fuel r mgmt n) w Q.
Proof using Hfuel.
  intros Hok Hset Hfr Hrd Hn [Hr1 Hr2] HQ. pose proof (kept_refl w Hok Hset) as K0.
  apply wp_bind, wp_elements; [done|lia|done|]. intros v i Ei _. cbn [fst].
  destruct (Z.eqb_spec v 0) as [->|Hv]; cbn [negb]; [|by apply wp_ret, HQ].
  set (a := if negb (bool_decide (address3 mgmt = address2 mgmt)) then address2 mgmt else address1 mgmt).
  assert (Hroom : room w a) by (unfold a; by destruct (negb _)). clearbody a. change mac in a.
  apply wp_bind, (wp_get_station fuel Hfuel); [done..|].
  destruct (station_matches w r None a) eqn:Hm; [|by apply wp_ret, HQ].
  destruct (station_matches_true _ _ _ _ Hm) as (st & p & E & Ep & _).
  apply wp_bind. eapply touched_modify; [by eapply touched_refl| | |done].
  { apply own_flags; [by apply (w_station w Hok a)|congruence]. }
  intros w1 T. pose proof (touched_kept w w1 a st (clear_flags _ st) _ Hset E eq_refl T) as K1.
  eapply (wp_delete_kept fuel Hfuel); [apply K1|apply K1|rewrite (t_stations _ _ _ _ _ T); apply lookup_insert_eq|].
  intros w2 K2 _. apply HQ. by eapply kept_trans.
Qed.

(** ** Dispatch *)

(** Frames that are read and ignored. *)
Lemma ignored_spec w mgmt n size Q :
  world_ok w -> settled w -> frame_ok mgmt n -> readable mgmt n size -> 0 <= size <= n -> (forall w', kept w w' -> Q tt w') ->
  wp (elements_of mgmt n size;; ret tt) w Q.
Proof.
  intros Hok Hset Hfr Hrd Hn HQ. apply wp_bind, wp_elements; [done|lia|done|]. intros. by apply wp_ret, HQ, kept_refl.
Qed.

(** Where the elements of a frame start. *)
Definition elements_offset (subtype : Z) : option Z :=
  if subtype =? IEEE80211_FRAMECONTROL_MGMT_SUBTYPE_PROBE_REQUEST then Some 24
  else if subtype =? IEEE80211_FRAMECONTROL_MGMT_SUBTYPE_AUTHENTICATION then Some 30
  else if subtype =? IEEE80211_FRAMECONTROL_MGMT_SUBTYPE_ASSOCIATION_REQUEST then Some 28
  else if subtype =? IEEE80211_FRAMECONTROL_MGMT_SUBTYPE_ASSOCIATION_RESPONSE then Some 30
  else if subtype =? IEEE80211_FRAMECONTROL_MGMT_SUBTYPE_REASSOCIATION_REQUEST then Some 34
  else if subtype =? IEEE80211_FRAMECONTROL_MGMT_SUBTYPE_REASSOCIATION_RESPONSE then Some 30
  else if subtype =? IEEE80211_FRAMECONTROL_MGMT_SUBTYPE_DISASSOCIATION then Some 26
  else if subtype =? IEEE80211_FRAMECONTROL_MGMT_SUBTYPE_DEAUTHENTICATION then Some 26
  else None.

(** The vendor elements of a frame have the bytes that are looked at inside of
    the frame. *)
Definition vendors_inside (mgmt : list Z) (n subtype : Z) : Prop :=
  forall size, elements_offset subtype = Some size -> size <= n ->
    whole_vendors (Z.to_nat (n - size)) (drop (Z.to_nat size) mgmt) = true.

Lemma frame_readable mgmt n subtype size :
  frame_ok mgmt n -> vendors_inside mgmt n subtype -> elements_offset subtype = Some size -> 0 <= size <= n ->
  readable mgmt n size.
Proof. intros Hfr Hv He Hs. apply vendors_readable; [done|lia|]. by apply Hv; [|lia]. Qed.

Lemma mgmt_packet_spec w r mgmt n subtype Q :
  session_ok w -> frame_ok mgmt n -> vendors_inside mgmt n subtype -> IS_VALID_RADIOID r = true -> frame_room w mgmt ->
  timers_free (timeout w) -> (forall w', kept w w' -> Q tt w') ->
  wp (ac_ieee80211_mgmt_packet fuel kmod now 0 r mgmt n subtype) w Q.
Proof using Hfuel.
  intros Hso Hfr Hv Hr Hroom Hfree HQ. pose proof Hso as [Hok Hset _]. pose proof (kept_refl w Hok Hset) as K0.
  assert (Hrd : forall size, elements_offset subtype = Some size -> 0 <= size <= n -> readable mgmt n size)
    by (intros; by eapply frame_readable). clear Hv.
  unfold ac_ieee80211_mgmt_packet. unfold elements_offset in Hrd.
  repeat (case_match; [apply wp_when; intros Hn; bools; [specialize (Hrd _ eq_refl ltac:(lia))|by apply HQ]|]).
  - unfold ac_ieee80211_mgmt_probe_request_packet. case_bool_decide; [by apply wp_ret, HQ|].
    by apply ignored_spec; [..|lia|].
  - by apply authentication_spec.
  - eapply association_request_spec; try done; [apply Hroom|]. intros w' K _. by apply HQ.
  - by apply association_response_packet_spec; [..|apply Hroom|].
  - by apply ignored_spec; [..|lia|].
  - by apply ignored_spec; [..|lia|].
  - by apply ignored_spec; [..|lia|].
  - by apply deauthentication_spec.
  - by apply wp_ret, HQ.
Qed.

Lemma packet_spec w r mgmt n Q :
  session_ok w -> frame_ok mgmt n -> vendors_inside mgmt n (IEEE80211_FRAME_CONTROL_GET_SUBTYPE (framecontrol mgmt)) ->
  sizeof_ieee80211_header <= n -> IS_VALID_RADIOID r = true -> frame_room w mgmt -> timers_free (timeout w) -> (forall w', kept w w' -> Q tt w') ->
  wp (ac_ieee80211_packet fuel kmod now 0 r mgmt n) w Q.
Proof using Hfuel.
  intros Hso Hfr Hv Hn Hr Hroom Hfree HQ. pose proof Hso as [Hok Hset _].
  apply wp_bind, wp_guard; [rewrite Hr; cbn; by apply Z.leb_le|].
  apply wp_when; intros _; [by apply mgmt_packet_spec|by apply HQ, kept_refl].
Qed.

(** ** Answers to station requests *)

Lemma wp_get_bssid_with_wlanid w r wlanid Q :
  IS_VALID_RADIOID r = true -> IS_VALID_WLANID wlanid = true -> (forall o, Q o w) ->
  wp (ac_wlans_get_bssid_with_wlanid r wlanid) w Q.
Proof.
  intros Hr Hw HQ. apply wp_bind, wp_guard; [by rewrite Hr, Hw|]. by apply wp_bind, wp_gets, wp_ret.
Qed.

Lemma addstation_response_spec w r wlanid a code Q :
  world_ok w -> settled w -> IS_VALID_RADIOID r = true -> IS_VALID_WLANID wlanid = true -> room w a ->
  (forall w', kept w w' -> Q tt w') ->
  wp (execute_ieee80211_station_configuration_response_addstation fuel r wlanid a code) w Q.
Proof using Hfuel.
  intros Hok Hset Hr Hw Hroom HQ. pose proof (kept_refl w Hok Hset) as K0.
  apply wp_bind, wp_get_bssid_with_wlanid; [done..|]. intros [p|]; [|by apply wp_ret, HQ].
  apply wp_bind, (wp_get_station fuel Hfuel); [done..|].
  destruct (station_matches w r (Some p.2) a) eqn:Hm; [|by apply wp_ret, HQ].
  destruct (station_matches_true _ _ _ _ Hm) as (st & q & E & Eq & _).
  destruct (ResultCode.CAPWAP_RESULTCODE_OK code).
  2: { apply (wp_delete_kept fuel Hfuel w a st); [done..|]. intros w1 K1 _. by apply HQ. }
  apply wp_bind. eapply touched_modify; [by apply touched_refl| | |done].
  { apply own_flags; [by apply (w_station w Hok a)|congruence]. }
  intros w1 T1. pose proof (touched_kept w w1 a st (add_flag _ st) _ Hset E eq_refl T1) as K1.
  assert (E1 : stations w1 !! a = Some (add_flag AC_STATION_FLAGS_AUTHORIZED st))
    by (rewrite (t_stations _ _ _ _ _ T1); apply lookup_insert_eq).
  apply wp_bind. eapply wp_load_station; [exact E1|]. apply wp_bind, wp_gets, wp_bind.
  destruct (stop_timer_spec fuel Hfuel w1 a _ (timeoutaction st) (k_ok _ _ K1) E1) as (t & Et & _ & Hok2).
  eapply wp_lift; [exact Et|]. apply wp_bind, wp_update. eapply wp_modify_station; [exact E1|].
  apply HQ. eapply kept_trans; [exact K1|]. constructor; try done.
  intros b su [[-> ->]|[_ Eb]]%insert_cases; [cbn; congruence|]. by apply (k_settled _ _ K1 b).
Qed.

(** The station a request or another session names is deleted. *)
Lemma delete_named_spec w r a Q :
  world_ok w -> settled w -> room w a ->
  (station_matches w r None a = false -> Q tt w) ->
  (forall st w', stations w !! a = Some st -> station_matches w r None a = true ->
     destroyed w w' a st (farewell a st) -> Q tt w') ->
  wp (station <- ac_stations_get_station fuel r None a;;
      match station with None => ret tt | Some station => ac_stations_delete_station fuel station end) w Q.
Proof using Hfuel.
  intros Hok Hset Hroom Hno Hyes. apply wp_bind, (wp_get_station fuel Hfuel); [done..|].
  destruct (station_matches w r None a) eqn:Hm; [|by apply wp_ret, Hno].
  destruct (station_matches_true _ _ _ _ Hm) as (st & q & E & _).
  apply (delete_station_spec fuel Hfuel w a st); [done..|]. intros w' Hd. by apply (Hyes st).
Qed.

(** ** Timers *)

Lemma ok_set_timeout w t :
  world_ok w -> timers_ok t -> timers_used t ->
  (forall it, it ∈ itemstimeout t -> it ∈ itemstimeout (timeout w)) -> world_ok (set_timeout t w).
Proof. intros [] Ht Hu Hs. constructor; try done. intros it a Hin%Hs. by apply w_callback. Qed.

(** The first timer has expired, and is that of a station: a station that has
    not completed its association is deleted. *)
Lemma station_timeout_spec w it l a t Q :
  world_ok w -> settled w -> itemstimeout (timeout w) = it :: l -> callback it = StationTimeout a ->
  capwap_timeout_getdelta (expire it) t <= 0 ->
  (forall st w', stations w !! a = Some st -> idtimeout st = index it -> kept w w' ->
     (timeoutaction st = AC_STATION_TIMEOUT_ACTION_DEAUTHENTICATE ->
      stations w' = delete a (stations w) /\ out w' = out w ++ farewell a st) ->
     (timeoutaction st <> AC_STATION_TIMEOUT_ACTION_DEAUTHENTICATE ->
      stations w' = stations w /\ out w' = out w) -> Q tt w') ->
  wp (timeout_hasexpired fuel t) w Q.
Proof using Hfuel.
  intros Hok Hset El Hcb Hd HQ. destruct (w_callback w Hok it a) as (st & E & Hix); [rewrite El; by left|done|].
  apply wp_bind, wp_gets, wp_bind.
  destruct (hasexpired_spec fuel (timeout w) it l t (w_timers w Hok) Hfuel El Hd) as (t' & Et & Hok' & Hw' & El').
  eapply wp_lift; [exact Et|]. apply wp_bind, wp_update. cbn [fst snd option_map fmap option_fmap]. rewrite Hcb.
  assert (Hok1 : world_ok (set_timeout t' w)).
  { apply ok_set_timeout; [done..| |].
    - pose proof (w_used w Hok) as Hu. unfold timers_used in *. rewrite El', Hw'. rewrite El in Hu. cbn in Hu.
      by apply Forall_cons in Hu as [_ Hu].
    - intros i Hi. rewrite El' in Hi. rewrite El. by right. }
  apply wp_bind, (wp_load_station a st); [done|]. rewrite Hix, Z.eqb_refl. cbn [andb].
  apply wp_when; intros Hact; bools.
  - apply (delete_station_spec fuel Hfuel (set_timeout t' w) a st); [done..|]. intros w2 Hdel.
    apply (HQ st); [done..| | |done].
    + pose proof (destroyed_kept (set_timeout t' w) w2 a st _ Hset Hdel) as [].
      by constructor.
    + intros _. split; apply Hdel.
  - apply (HQ st); [done..|by constructor|done|done].
Qed.

End Dispatch.
