(* ===== verification/AcProps.v ===== *)
(** Properties of the access controller: networks, stations, management frames
    and roaming. *)
From stdpp Require Import option gmap sets.
From S2P Require Import Prelude Bitfield Io Header CapwapHash CapwapHashSpec CapwapHashDelete.
From S2P Require Import CapwapArray Timeout TimeoutSpec.
From S2P Require Import Ieee80211 Ieee80211Frame Ieee80211Spec Ieee80211FrameSpec.
From S2P Require Import Elements80211a ElementsImage AcWorld AcWlans AcIeee80211.
From S2P Require Import AcInv AcStation AcNetwork AcFrame AcDispatch.
#[local] Open Scope Z_scope.

(** ** A sample session

    Session 7 serves radio 1, which has one network with a split MAC and open
    authentication, called "cap". *)

Definition sample_bssid : mac := [2; 0; 0; 0; 0; 1].
Definition sample_station : mac := [2; 0; 0; 0; 0; 9].

Definition sample_element : AddWlan.capwap_80211_addwlan_element := {|
  AddWlan.radioid := 1; AddWlan.wlanid := 1; AddWlan.capability := 1; AddWlan.keyindex := 0;
  AddWlan.keystatus := 0; AddWlan.keylength := 0; AddWlan.key := None; AddWlan.grouptsc := zeros 6;
  AddWlan.qos := 0; AddWlan.authmode := 0; AddWlan.macmode := 1; AddWlan.tunnelmode := 2;
  AddWlan.suppressssid := 0; AddWlan.ssid := [99; 97; 112; 0] |}.

Definition sample_wlan : ac_wlan :=
  Wlan sample_bssid 1 (replicate 63 0) [] 1 0 0 0 None (zeros 6) 0 0 1 2 0 ([99; 97; 112] ++ zeros 30).

Definition sample_radio_rates : list Z := [2; 4; 11; 22; 0; 0; 0; 0; 0; 0; 0; 0; 0; 0; 0; 0].

Definition sample_session (id : Z) (owners : gmap mac Z) (auth : capwap_hash mac) : world :=
  update_device 1 (fun d => Device 1 (Some [sample_wlan]) 4 sample_radio_rates)
    (ac_wlans_init id capwap_timeout_init auth owners).

Definition no_owners : capwap_hash mac := capwap_hash_create AC_STATIONS_HASH_SIZE.
Definition sample_world : world := sample_session 7 ∅ no_owners.

Lemma sample_wlan_created : ac_wlans_create_bssid 1 sample_bssid sample_element = Some sample_wlan.
Proof. reflexivity. Qed.

Lemma sample_wlan_at id owners auth q :
  wlan_at (sample_session id owners auth) q = if bool_decide (q = (1, sample_bssid)) then Some sample_wlan else None.
Proof.
  unfold wlan_at. destruct (valid_ref q) eqn:Hv; [|rewrite bool_decide_false; [done|by intros ->]].
  unfold sample_session. rewrite wlans_update_device; [|done|done].
  destruct (bool_decide_reflect (q.1 = 1)) as [Er|Er].
  - destruct q as [r b]. cbn in Er. subst r.
    change (find_wlan b [sample_wlan] = if bool_decide ((1, b) = (1, sample_bssid)) then Some sample_wlan else None).
    unfold find_wlan. cbn [List.find wlan_address sample_wlan].
    erewrite bool_decide_ext; [done|]. split; congruence.
  - rewrite bool_decide_false by (by intros ->).
    pose proof (init_wlans id capwap_timeout_init auth owners q) as E. unfold wlan_at in E. by rewrite Hv in E.
Qed.

Lemma no_timers_used C : @timers_used C capwap_timeout_init.
Proof. constructor. Qed.

Lemma sample_session_ok (T : Target) id owners auth :
  @hash_inv mac mac auth_hash _ auth -> hashsize auth = AC_STATIONS_HASH_SIZE ->
  (forall a, is_Some (@hash_lookup mac mac auth_hash auth a) <-> is_Some (owners !! a)) ->
  (forall a b, is_Some (owners !! a) -> is_Some (owners !! b) -> auth_apart a b) ->
  session_ok (sample_session id owners auth).
Proof.
  intros Hinv Hsz Hl Hap.
  destruct (init_world_ok id capwap_timeout_init auth owners init_ok (no_timers_used _) (Forall_nil_2 _) Hinv Hsz Hl Hap)
    as [Hok Hset].
  destruct (create_bssid_spec 1 sample_bssid sample_element sample_wlan (le_n 6) eq_refl) as (Hwl & _).
  constructor; [|done|].
  - eapply (ok_add_wlan (ac_wlans_init id capwap_timeout_init auth owners) _ (1, sample_bssid) sample_wlan);
      try done.
    intros q. rewrite init_wlans. apply sample_wlan_at.
  - intros p x. rewrite sample_wlan_at. case_bool_decide as E; [|done]. intros _. subst p.
    eexists. split; [reflexivity|]. repeat split; try done; by_computation.
Qed.

Lemma sample_world_ok (T : Target) : session_ok sample_world.
Proof.
  destruct (@hash_create_inv mac mac auth_hash _ AC_STATIONS_HASH_SIZE auth_sized) as [Hinv Hl].
  apply sample_session_ok; try done.
  - intros a. unfold no_owners. rewrite Hl, lookup_empty. split; by intros [? ?].
  - intros a b. rewrite lookup_empty. by intros [? ?].
Qed.

Lemma sample_room a : room sample_world a.
Proof.
  assert (Hs : forall b, stations sample_world !! b = None) by apply lookup_empty.
  assert (Ha : forall b, authsession sample_world !! b = None) by apply lookup_empty.
  split; intros b; [rewrite Hs; by intros [? ?]|]. unfold known. rewrite Hs, Ha. by intros [[? ?]|[? ?]].
Qed.

Lemma sample_timers : timers_free (timeout sample_world).
Proof. exists 1. split; [unfold small, CAPWAP_TIMEOUT_HASH_COUNT; lia|reflexivity]. Qed.

(** A request for authentication of the sample station, with an algorithm, and
    a request for association with the network. *)
Definition sample_auth (alg : Z) : list Z :=
  [176; 0; 0; 0] ++ sample_bssid ++ sample_station ++ sample_bssid ++ [0; 0] ++ [alg; 0; 1; 0; 0; 0].
Definition sample_assoc (name : list Z) : list Z :=
  [0; 0; 0; 0] ++ sample_bssid ++ sample_station ++ sample_bssid ++ [0; 0] ++ [1; 0; 10; 0] ++
  [0; 3] ++ name ++ [1; 2; 2; 4].

Definition sent_ok (n : nat) : Z := 0.
Definition sample_now : timeval := Timeval 1000 0.

Lemma sample_auth_ok alg : is_u8 alg -> frame_ok (sample_auth alg) 30.
Proof. intros Ha. split; [|done]. unfold sample_auth, bytes_ok. cbn. repeat constructor; lia. Qed.

(** ** Management frames *)

(** C8: the controller handles every management frame whose vendor elements are
    not cut short, of any type and content, to the end - no null or dangling
    pointer is followed, no assertion fails, no array is overrun and every search
    ends - and afterwards the session is consistent again: tables and stations
    agree, networks and stations refer to each other, association identifiers of a
    network are in use and distinct, and the timers that will run on a station are
    the timers of that station.  No network appears or disappears.  It is assumed
    that no two stations share a bucket of a hash table ([session_ok]), nor the
    addresses of the frame with another station ([frame_room]), that one of the
    first 128 timers is free, and that the length which the answer to a request
    for association starts from, and which is never set, is 0. *)
Theorem management_frames_handled `{Indeterminate} `{Target} fuel kmod now w r mgmt n :
  enough fuel -> session_ok w -> frame_ok mgmt n ->
  vendors_inside mgmt n (IEEE80211_FRAME_CONTROL_GET_SUBTYPE (framecontrol mgmt)) -> sizeof_ieee80211_header <= n ->
  IS_VALID_RADIOID r = true -> frame_room w mgmt -> timers_free (timeout w) ->
  exists w', ac_ieee80211_packet fuel kmod now 0 r mgmt n w = Some (tt, w') /\ session_ok w' /\
    session_id w' = session_id w /\ forall q, is_Some (wlan_at w' q) <-> is_Some (wlan_at w q).
Proof.
  intros Hf Hso Hfr Hv Hn Hr Hroom Ht.
  destruct (packet_spec fuel Hf kmod now w r mgmt n (fun _ => kept w) Hso Hfr Hv Hn Hr Hroom Ht) as ([] & w' & E & K);
    [done|].
  exists w'. split_and!; [done|by eapply kept_session|apply K|apply K].
Qed.

Lemma management_frames_handled_witness :
  exists w', @ac_ieee80211_packet zero_memory lp64 3 sent_ok sample_now 0 1 (sample_auth 0) 30 sample_world
    = Some (tt, w') /\ @session_ok lp64 w'.
Proof.
  destruct (@management_frames_handled zero_memory lp64 3 sent_ok sample_now sample_world 1 (sample_auth 0) 30)
    as (w' & E & Hok & _).
  - unfold enough. lia.
  - apply sample_world_ok.
  - apply sample_auth_ok. lia.
  - intros size [= <-] _. reflexivity.
  - by_computation.
  - reflexivity.
  - split; apply sample_room.
  - apply sample_timers.
  - exists w'. split; [exact E|exact Hok].
Defined.

(** A request for authentication with a network whose MAC is split, once it
    is answered: the station is in the table, refers to the network, holds no
    association identifier and is marked as authenticated; a timer of 30 seconds
    runs on it; this session is the authoritative one; what was sent is a notice
    to the session that had the station before, if any, and the answer; and no
    other station changed. *)
Lemma authentication_effect `{Indeterminate} `{Target} fuel kmod now w r mgmt n i x :
  enough fuel -> session_ok w -> frame_ok mgmt n -> 30 <= n -> IS_VALID_RADIOID r = true ->
  room w (address2 mgmt) -> timers_free (timeout w) ->
  ieee80211_retrieve_information_elements_position (drop (Z.to_nat 30) mgmt) (n - 30) = Some (0, i) ->
  from_station mgmt = true -> wlan_at w (r, address3 mgmt) = Some x -> is_split x = true ->
  kmod (length (out w ++ roaming_notice w (address2 mgmt))) = 0 ->
  exists w', ac_ieee80211_mgmt_authentication_packet fuel kmod now r mgmt n w = Some (tt, w') /\
    session_ok w' /\ authenticated now w w' r (address2 mgmt) x mgmt.
Proof. intros Hf. by apply authentication_outcome. Qed.

(** The sample station after its request, with an algorithm. *)
Lemma sample_authenticated alg :
  is_u8 alg ->
  exists w', @ac_ieee80211_mgmt_authentication_packet zero_memory lp64 3 sent_ok sample_now 1 (sample_auth alg) 30
      sample_world = Some (tt, w') /\ @session_ok lp64 w' /\
    @authenticated sample_now sample_world w' 1 sample_station sample_wlan (sample_auth alg).
Proof.
  intros Ha. apply (@authentication_outcome zero_memory lp64 3 (le_n 3) sent_ok sample_now sample_world 1 (sample_auth alg) 30
    no_items sample_wlan); try done.
  - apply sample_world_ok.
  - by apply sample_auth_ok.
  - apply sample_room.
  - apply sample_timers.
Qed.

Lemma authentication_effect_witness :
  exists w', @ac_ieee80211_mgmt_authentication_packet zero_memory lp64 3 sent_ok sample_now 1 (sample_auth 0) 30
      sample_world = Some (tt, w') /\ @session_ok lp64 w' /\ authsession w' !! sample_station = Some 7 /\
    out w' = [SendData 1 (authentication_frame sample_bssid sample_station 0 2 0)].
Proof.
  destruct (@authentication_effect zero_memory lp64 3 sent_ok sample_now sample_world 1 (sample_auth 0) 30
    no_items sample_wlan) as (w' & E & Hok & [_ _ _ Ha Ho]).
  - unfold enough. lia.
  - apply sample_world_ok.
  - apply sample_auth_ok. lia.
  - lia.
  - reflexivity.
  - apply sample_room.
  - apply sample_timers.
  - reflexivity.
  - reflexivity.
  - unfold sample_world. rewrite sample_wlan_at. reflexivity.
  - reflexivity.
  - reflexivity.
  - exists w'. split; [exact E|]. split; [exact Hok|]. split; [rewrite Ha; apply lookup_insert_eq|].
    rewrite Ho. reflexivity.
Defined.

(** A request for authentication that the controller refuses - because the
    algorithm is not the one of the network, or the transaction number is not 1
    - is answered with the reason, and the station is marked as authenticated
    all the same: its next request for association will be accepted. *)
Lemma refused_authentication_accepted `{Indeterminate} `{Target} fuel kmod now w r mgmt n i x :
  enough fuel -> session_ok w -> frame_ok mgmt n -> 30 <= n -> IS_VALID_RADIOID r = true ->
  room w (address2 mgmt) -> timers_free (timeout w) ->
  ieee80211_retrieve_information_elements_position (drop (Z.to_nat 30) mgmt) (n - 30) = Some (0, i) ->
  from_station mgmt = true -> wlan_at w (r, address3 mgmt) = Some x -> is_split x = true ->
  kmod (length (out w ++ roaming_notice w (address2 mgmt))) = 0 ->
  auth_algorithm mgmt <> IEEE80211_AUTHENTICATION_ALGORITHM_OPEN \/ auth_transactionseqnumber mgmt <> 1 ->
  exists w' st sent answer,
    ac_ieee80211_mgmt_authentication_packet fuel kmod now r mgmt n w = Some (tt, w') /\
    stations w' !! (address2 mgmt : mac) = Some st /\ has_flag AC_STATION_FLAGS_AUTHENTICATED st = true /\
    out w' = out w ++ sent ++ [SendData r answer] /\ auth_statuscode answer <> IEEE80211_STATUS_SUCCESS.
Proof.
  intros Hf Hso Hfr Hn Hr Hroom Ht Ei Hfs Ex Hsp Hk Hbad.
  destruct (authentication_outcome fuel Hf kmod now w r mgmt n i x) as (w' & E & _ & [(k & _ & Es & _) _ _ _ Ho]); try done.
  assert (Hst : authentication_status (auth_algorithm mgmt) (auth_transactionseqnumber mgmt) (authmode x) = 13 \/
                authentication_status (auth_algorithm mgmt) (auth_transactionseqnumber mgmt) (authmode x) = 14).
  { unfold authentication_status. destruct (Z.eqb_spec (auth_algorithm mgmt) IEEE80211_AUTHENTICATION_ALGORITHM_OPEN);
      destruct (authmode x =? _); cbn; try (by left).
    destruct (Z.eqb_spec (auth_transactionseqnumber mgmt) 1); [naive_solver|by right]. }
  eexists w', _, _, _. split; [exact E|]. split; [exact Es|]. split; [|split; [exact Ho|]].
  - unfold answered. by destruct (_ =? _).
  - pose proof (address2_length mgmt n Hfr ltac:(lia)).
    pose proof (wl_address x (w_wlan w (so_world w Hso) _ x Ex)).
    unfold authentication_answer. rewrite authentication_frame_status; [|done|done|lia]. unfold IEEE80211_STATUS_SUCCESS. lia.
Qed.

Lemma refused_authentication_accepted_witness :
  exists w' st, @ac_ieee80211_mgmt_authentication_packet zero_memory lp64 3 sent_ok sample_now 1 (sample_auth 1) 30
      sample_world = Some (tt, w') /\ stations w' !! sample_station = Some st /\
    has_flag AC_STATION_FLAGS_AUTHENTICATED st = true.
Proof.
  destruct (@refused_authentication_accepted zero_memory lp64 3 sent_ok sample_now sample_world 1 (sample_auth 1) 30
    no_items sample_wlan) as (w' & st & sent & answer & E & Es & Hf & _).
  - unfold enough. lia.
  - apply sample_world_ok.
  - apply sample_auth_ok. lia.
  - lia.
  - reflexivity.
  - apply sample_room.
  - apply sample_timers.
  - reflexivity.
  - reflexivity.
  - unfold sample_world. rewrite sample_wlan_at. reflexivity.
  - reflexivity.
  - reflexivity.
  - left. discriminate.
  - exists w', st. split; [exact E|]. split; [exact Es|exact Hf].
Defined.

(** ** Association *)

Section Association.
Context `{Indeterminate} `{Target} (fuel : nat) (kmod : nat -> Z) (w : world) (r : Z) (mgmt : list Z) (n : Z).
Context (i : ieee80211_ie_items) (st : ac_station) (p : wlan_ref) (x : ac_wlan) (k : Z) (rates : list Z).

(** A request for association that reaches the controller from an
    authenticated station of a network with a split MAC, and carries rates. *)
Record association_requested : Prop := AssociationRequested {
  ar_session : session_ok w;
  ar_frame : frame_ok mgmt n;
  ar_length : 28 <= n;
  ar_room : room w (address2 mgmt);
  ar_elements :
    ieee80211_retrieve_information_elements_position (drop (Z.to_nat 28) mgmt) (n - 28) = Some (0, i);
  ar_from : from_station mgmt = true;
  ar_matches : station_matches w r (Some (address3 mgmt)) (address2 mgmt) = true;
  ar_found : stations w !! (address2 mgmt : mac) = Some st;
  ar_ref : wlan st = Some p;
  ar_network : wlan_at w p = Some x;
  ar_split : is_split x = true;
  ar_authenticated : has_flag AC_STATION_FLAGS_AUTHENTICATED st = true;
  ar_rates : station_rates i (supportedrates st) = Some (Some (k, rates));
  ar_sent : kmod (length (out w)) = 0
}.

(** C19: a request for association of an authenticated station of a network with
    a split MAC, with elements that are accepted, rates and the right name of the
    network, while an identifier is free, is granted: the station gets the
    smallest identifier that was not in use, which no other station of the network
    has, and is marked as associated; it is answered, and the radio is asked to
    serve it unless it does already; the session is consistent afterwards.  The
    answer can be sent, no two stations share a bucket of a hash table, and the
    length which the answer starts from, and which is never set, is 0. *)
Theorem association_granted :
  enough fuel -> association_requested ->
  ieee80211_is_valid_ssid (wlan_ssid x) (ssid i) None = Some IEEE80211_VALID_SSID ->
  (exists j, 1 <= j <= IEEE80211_AID_MAX_VALUE /\ in_use (aidbitfield x) j = false) ->
  exists w' st' x' d,
    ac_ieee80211_mgmt_association_request_packet fuel kmod 0 r mgmt n w = Some (tt, w') /\ session_ok w' /\
    stations w' !! (address2 mgmt : mac) = Some st' /\ wlan_at w' p = Some x' /\
    has_flag AC_STATION_FLAGS_ASSOCIATE st' = true /\ wlan st' = Some p /\
    in_use (aidbitfield x) (aid st') = false /\ (forall j, 1 <= j < aid st' -> in_use (aidbitfield x) j = true) /\
    in_use (aidbitfield x') (aid st') = true /\
    (forall (b : mac) su, b <> address2 mgmt -> stations w' !! b = Some su -> wlan su = Some p -> aid su <> aid st') /\
    out w' = out w ++ SendData p.1 (association_answer x d (address2 mgmt) IEEE80211_STATUS_SUCCESS (aid st')) ::
                      authorize_events (address2 mgmt) st' p x.
Proof.
  intros Hf [] Hv (j & Hj & Hfree). pose proof (so_world w ar_session0) as Hok.
  pose proof (association_outcome fuel Hf kmod w r mgmt n i st p x k rates) as Ho. unfold association_result in Ho.
  rewrite (bool_decide_true _ Hv) in Ho. cbn [requesting set_rates set_capability supportedrates] in Ho.
  assert (Hi : items_ok i) by (by eapply elements_pointers; [| |exact ar_elements0]; [|lia]).
  pose proof (st_rates st (w_station w Hok _ st ar_found0)) as H16.
  destruct (station_rates_total i (supportedrates st) Hi H16) as (o & Eo & Hr).
  destruct (Hr k rates ltac:(congruence)) as [_ Hlen].
  destruct (station_rates_again i _ rates k rates Hi H16 Hlen ar_rates0) as [rs Ers]. rewrite Ers in Ho.
  destruct (w_wlan w Hok p x ar_network0) as [_ Hwords Hsize _].
  pose proof (aid_create_spec (aidbitfield x) Hwords Hsize) as Ha.
  destruct (ieee80211_aid_create (aidbitfield x)) as [[result v] bits].
  destruct Ha as [_ [(-> & Hrange & Hnew & Hmin & Hin)|(_ & _ & _ & Hall)]];
    [|by rewrite Hall in Hfree]. cbn [Z.eqb] in Ho.
  destruct Ho as (w' & d & E & Hso & Es & Hothers & Ex & _ & Ew & Hout); try done.
  eexists w', _, _, d. split; [exact E|]. split; [done|]. split; [exact Es|]. split; [exact Ex|].
  cbn [aid add_flag set_flags set_rates set_aid wlan set_capability requesting aidbitfield set_aidbitfield].
  split_and!; try done.
  - by apply has_added.
  - rewrite Hin by lia. by rewrite Z.eqb_refl.
  - intros b su Hb Eb Ep Hav. apply Hb.
    eapply (w_unique w' (so_world w' Hso) b _ su _ p _ Eb Es Ep Ew Ex); [done|rewrite Hav; lia|done].
Qed.

(** A request for association with another name is answered with a failure,
    and the station is marked as associated all the same, and the radio is asked
    to serve it, with an identifier that was not given out by the network. *)
Lemma refused_association_served :
  enough fuel -> association_requested ->
  ieee80211_is_valid_ssid (wlan_ssid x) (ssid i) None <> Some IEEE80211_VALID_SSID ->
  has_flag AC_STATION_FLAGS_AUTHORIZED st = false ->
  exists w' st' answer,
    ac_ieee80211_mgmt_association_request_packet fuel kmod 0 r mgmt n w = Some (tt, w') /\
    stations w' !! (address2 mgmt : mac) = Some st' /\ has_flag AC_STATION_FLAGS_ASSOCIATE st' = true /\
    aid st' = aid st /\ wlan_at w' p = Some x /\
    out w' = out w ++ [SendData p.1 answer;
                       ActionAddStation p.1 (address2 mgmt) (wlan_wlanid x) (aid st) (assocreq_capability mgmt)
                         (take (Z.to_nat k) rates)] /\
    assocresp_statuscode answer = IEEE80211_STATUS_UNSPECIFIED_FAILURE.
Proof.
  intros Hf [] Hv Hz.
  pose proof (association_outcome fuel Hf kmod w r mgmt n i st p x k rates) as Ho. unfold association_result in Ho.
  rewrite (bool_decide_false _ Hv) in Ho.
  destruct Ho as (w' & d & E & Hso & Es & _ & Ex & _ & _ & Hout); try done.
  assert (Hev : authorize_events (address2 mgmt) (add_flag AC_STATION_FLAGS_ASSOCIATE (requesting mgmt k rates st)) p x =
    [ActionAddStation p.1 (address2 mgmt) (wlan_wlanid x) (aid st) (assocreq_capability mgmt)
       (take (Z.to_nat k) rates)]).
  { unfold authorize_events. rewrite has_added, !has_other by done. unfold has_flag in *.
    change (flags (requesting mgmt k rates st)) with (flags st). by rewrite ar_authenticated0, Hz. }
  rewrite Hev in Hout. eexists w', _, _. split; [exact E|]. split; [exact Es|]. split; [by apply has_added|].
  split; [done|]. split; [rewrite Ex; by destruct x|]. split; [exact Hout|].
  apply association_answer_status; [|by apply (address2_length mgmt n); [|lia]|done].
  apply (wl_address x). by eapply w_wlan; [apply ar_session0|].
Qed.

End Association.

(** The sample station after its authentication asks for an association. *)
Definition sample_wlan' : ac_wlan := set_wlan_stations [sample_station] sample_wlan.
Definition sample_items (name : list Z) : ieee80211_ie_items :=
  IeItems (Some (drop 28 (sample_assoc name))) (Some (drop 33 (sample_assoc name)))
    None None None None None None None None None None None None.

Lemma sample_association_requested name :
  name = [99; 97; 112] \/ name = [99; 97; 116] ->
  exists w st,
    association_requested (H0 := lp64) sent_ok w 1 (sample_assoc name) 37 (sample_items name) st (1, sample_bssid)
      sample_wlan' 2 ([2; 4] ++ zeros 14) /\ has_flag AC_STATION_FLAGS_AUTHORIZED st = false.
Proof.
  intros Hname. destruct (sample_authenticated 0) as (w & E & Hso & [(t & Ht & Es & _) _ Hw _ Ho]); [lia|].
  match type of Es with _ = Some ?st => exists w, st end. split; [|reflexivity].
  assert (Ex : wlan_at w (1, sample_bssid) = Some sample_wlan').
  { rewrite Hw. unfold sample_world. rewrite sample_wlan_at. reflexivity. }
  assert (Ha : address2 (sample_assoc name) = sample_station) by reflexivity.
  constructor; rewrite ?Ha.
  - exact Hso.
  - split; [|destruct Hname as [->| ->]; by_computation].
    destruct Hname as [->| ->]; unfold bytes_ok; cbn; repeat constructor; lia.
  - lia.
  - apply (@station_room lp64); [apply Hso|by rewrite Es].
  - destruct Hname as [->| ->]; reflexivity.
  - reflexivity.
  - unfold station_matches. rewrite Es. reflexivity.
  - exact Es.
  - reflexivity.
  - exact Ex.
  - reflexivity.
  - reflexivity.
  - destruct Hname as [->| ->]; reflexivity.
  - reflexivity.
Qed.

Lemma association_granted_witness :
  exists w w' st', @ac_ieee80211_mgmt_association_request_packet zero_memory lp64 3 sent_ok 0 1
      (sample_assoc [99; 97; 112]) 37 w = Some (tt, w') /\ @session_ok lp64 w' /\
    stations w' !! sample_station = Some st' /\ in_use (aidbitfield sample_wlan) (aid st') = false.
Proof.
  destruct (sample_association_requested [99; 97; 112]) as (w & st & Hreq & _); [by left|].
  destruct (@association_granted zero_memory lp64 3 sent_ok w 1 (sample_assoc [99; 97; 112]) 37
    (sample_items [99; 97; 112]) st (1, sample_bssid) sample_wlan' 2 ([2; 4] ++ zeros 14))
    as (w' & st' & x' & d & E & Hso & Es & _ & _ & _ & Hfree & _).
  - unfold enough. lia.
  - exact Hreq.
  - reflexivity.
  - exists 1. split; [unfold IEEE80211_AID_MAX_VALUE; lia|reflexivity].
  - exists w, w', st'. split; [exact E|]. split; [exact Hso|]. split; [exact Es|exact Hfree].
Defined.

Lemma refused_association_served_witness :
  exists w w' st', @ac_ieee80211_mgmt_association_request_packet zero_memory lp64 3 sent_ok 0 1
      (sample_assoc [99; 97; 116]) 37 w = Some (tt, w') /\ stations w' !! sample_station = Some st' /\
    has_flag AC_STATION_FLAGS_ASSOCIATE st' = true.
Proof.
  destruct (sample_association_requested [99; 97; 116]) as (w & st & Hreq & Hz); [by right|].
  destruct (@refused_association_served zero_memory lp64 3 sent_ok w 1 (sample_assoc [99; 97; 116]) 37
    (sample_items [99; 97; 116]) st (1, sample_bssid) sample_wlan' 2 ([2; 4] ++ zeros 14))
    as (w' & st' & answer & E & Es & Hf & _).
  - unfold enough. lia.
  - exact Hreq.
  - discriminate.
  - exact Hz.
  - exists w, w', st'. split; [exact E|]. split; [exact Es|exact Hf].
Defined.

(** ** Timers of stations *)

(** C23: a station that authenticates and does nothing more is forgotten: once 30
    seconds have passed the timer fires, finds its station, and the station is
    deleted with a deauthentication frame to it.  The network has a split MAC, the
    other timers of the session expire after this one, one of the first 128 timers
    is free, and no two stations share a bucket of a hash table. *)
Theorem idle_station_removed `{Indeterminate} `{Target} fuel kmod now later w r mgmt n i x :
  enough fuel -> session_ok w -> frame_ok mgmt n -> 30 <= n -> IS_VALID_RADIOID r = true ->
  room w (address2 mgmt) -> timers_free (timeout w) ->
  ieee80211_retrieve_information_elements_position (drop (Z.to_nat 30) mgmt) (n - 30) = Some (0, i) ->
  from_station mgmt = true -> wlan_at w (r, address3 mgmt) = Some x -> is_split x = true ->
  kmod (length (out w ++ roaming_notice w (address2 mgmt))) = 0 ->
  Forall (fun it => capwap_timeout_getdelta (capwap_timeout_setexpire AC_STATION_TIMEOUT_ASSOCIATION_COMPLETE now)
                      (expire it) < 0) (itemstimeout (timeout w)) ->
  capwap_timeout_getdelta (capwap_timeout_setexpire AC_STATION_TIMEOUT_ASSOCIATION_COMPLETE now) later <= 0 ->
  exists w1 w2, ac_ieee80211_mgmt_authentication_packet fuel kmod now r mgmt n w = Some (tt, w1) /\
    is_Some (stations w1 !! (address2 mgmt : mac)) /\ timeout_hasexpired fuel later w1 = Some (tt, w2) /\
    session_ok w2 /\ stations w2 = delete (address2 mgmt) (stations w1) /\
    out w2 = out w1 ++ [SendData r (deauthentication (address3 mgmt) (address2 mgmt))].
Proof.
  intros Hf Hso Hfr Hn Hr Hroom Ht Ei Hfs Ex Hsp Hk Hnone Hlate.
  destruct (authentication_outcome fuel Hf kmod now w r mgmt n i x) as (w1 & E & Hso1 & [(t & Hsm & Es & Hl) _ _ _ Ho]);
    try done.
  rewrite additem_first in Hl by (by apply Forall_remove_timer).
  destruct (station_timeout_spec fuel Hf w1 _ _ (address2 mgmt) later (fun _ w2 => kept w1 w2 /\
    stations w2 = delete (address2 mgmt : mac) (stations w1) /\
    out w2 = out w1 ++ [SendData r (deauthentication (address3 mgmt) (address2 mgmt))])
    (so_world _ Hso1) (so_settled _ Hso1) Hl eq_refl Hlate) as ([] & w2 & E2 & K & Hst & Hout).
  { intros su w2 Esu _ K Hdel _. assert (Hsu : Some su = stations w1 !! (address2 mgmt : mac)) by done.
    rewrite Es in Hsu. injection Hsu as ->. split; [done|]. destruct Hdel as [Hd Hout].
    - unfold answered. by destruct (_ =? _).
    - split; [done|]. rewrite Hout. f_equal. unfold farewell, answered. by destruct (_ =? _). }
  exists w1, w2. split_and!; [done|by rewrite Es|done|by eapply kept_session|done|done].
Qed.

Lemma idle_station_removed_witness :
  exists w1 w2, @ac_ieee80211_mgmt_authentication_packet zero_memory lp64 3 sent_ok sample_now 1 (sample_auth 0) 30
      sample_world = Some (tt, w1) /\
    @timeout_hasexpired zero_memory lp64 3 (Timeval 1030 0) w1 = Some (tt, w2) /\
    stations w2 = delete sample_station (stations w1).
Proof.
  destruct (@idle_station_removed zero_memory lp64 3 sent_ok sample_now (Timeval 1030 0) sample_world 1 (sample_auth 0) 30
    no_items sample_wlan) as (w1 & w2 & E1 & _ & E2 & _ & Hs & _).
  - unfold enough. lia.
  - apply sample_world_ok.
  - apply sample_auth_ok. lia.
  - lia.
  - reflexivity.
  - apply sample_room.
  - apply sample_timers.
  - reflexivity.
  - reflexivity.
  - unfold sample_world. rewrite sample_wlan_at. reflexivity.
  - reflexivity.
  - reflexivity.
  - constructor.
  - by_computation.
  - exists w1, w2. split; [exact E1|]. split; [exact E2|exact Hs].
Defined.

(** ** Networks *)

(** C24: deleting a network deletes its stations first, each of them from the
    table of the session, and from the controller's table when this session was
    its authority; the other networks and stations stay as they are, nothing is
    sent, and the session is consistent afterwards.  The session is consistent
    before, with no two stations in one bucket of a hash table ([world_ok]):
    below the first two levels of a bucket the search does not end. *)
Theorem network_deleted `{Indeterminate} `{Target} fuel w r b x :
  enough fuel -> world_ok w -> IS_VALID_RADIOID r = true -> wlan_at w (r, b) = Some x ->
  (length (wlan_stations x) <= fuel)%nat ->
  exists w', ac_wlans_delete_bssid fuel r b w = Some (tt, w') /\ world_ok w' /\
    (forall a, stations w' !! a = if bool_decide (a ∈ wlan_stations x) then None else stations w !! a) /\
    (forall a, authsession w' !! a =
       if bool_decide (a ∈ wlan_stations x /\ authsession w !! a = Some (session_id w)) then None
       else authsession w !! a) /\
    (forall q, wlan_at w' q = if bool_decide (q = (r, b)) then None else wlan_at w q) /\ out w' = out w.
Proof.
  intros Hf Hok Hr Ex Hn.
  destruct (delete_bssid_spec fuel Hf w r b x (fun _ w' => unassigned w w' (r, b) (wlan_stations x)) Hok Hr Ex Hn)
    as ([] & w' & E & []); [done|]. exists w'. by split_and!.
Qed.

(** The sample network with a station. *)
Lemma network_deleted_witness :
  exists w w', wlan_at w (1, sample_bssid) = Some sample_wlan' /\ is_Some (stations w !! sample_station) /\
    @ac_wlans_delete_bssid lp64 3 1 sample_bssid w = Some (tt, w') /\ stations w' !! sample_station = None.
Proof.
  destruct (sample_association_requested [99; 97; 112]) as (w & st & [] & _); [by left|].
  destruct (@network_deleted zero_memory lp64 3 w 1 sample_bssid sample_wlan') as (w' & E & _ & Hs & _).
  - unfold enough. lia.
  - apply ar_session0.
  - reflexivity.
  - exact ar_network0.
  - cbn. lia.
  - exists w, w'. split; [exact ar_network0|]. split; [exists st; exact ar_found0|]. split; [exact E|].
    rewrite Hs. reflexivity.
Defined.

(** At the end of a session every network is deleted and every station with
    it; the loops end, and the assertion that the table of stations is empty
    holds. *)
Lemma session_ended `{Indeterminate} `{Target} fuel w :
  enough fuel -> session_ok w -> crowd_ok fuel w -> radios_ok fuel w ->
  exists w', ac_wlans_destroy fuel w = Some (tt, w') /\ stations w' = ∅ /\ (forall q, wlan_at w' q = None) /\
    out w' = out w.
Proof.
  intros Hf [Hok Hset _] Hc Hr.
  destruct (wlans_destroy_spec fuel Hf w (fun _ w' => stations w' = ∅ /\ out w' = out w /\ forall q, wlan_at w' q = None)
    Hok Hset Hc Hr) as ([] & w' & E & Hs & Ho & Hq); [done|]. by exists w'.
Qed.

Lemma session_ended_witness :
  exists w w', is_Some (stations w !! sample_station) /\ @ac_wlans_destroy lp64 3 w = Some (tt, w') /\
    stations w' = ∅.
Proof.
  destruct (sample_authenticated 0) as (w & _ & Hso & [(t & _ & Es & _) _ Hw _ _]); [lia|].
  assert (Hwl : forall q x, wlan_at w q = Some x -> q = (1, sample_bssid) /\ x = sample_wlan').
  { intros q x. rewrite Hw. unfold sample_world. rewrite sample_wlan_at. case_bool_decide as Eq; [|done].
    subst q. intros Ex. split; [done|]. injection Ex as <-. reflexivity. }
  destruct (@session_ended zero_memory lp64 3 w) as (w' & E & Hs & _).
  - unfold enough. lia.
  - exact Hso.
  - intros q x [_ ->]%Hwl. cbn. lia.
  - intros r. exists [sample_bssid]. split; [cbn; lia|]. intros b [x [[= _ ->] _]%Hwl]. by left.
  - exists w, w'. split; [by rewrite Es|]. split; [exact E|exact Hs].
Defined.

(** ** Roaming *)

(** The table of the controller, as another session of it sees it. *)
Definition share_auth (from to : world) : world := set_auth (authtable from) (authsession from) to.

Lemma share_auth_ok `{Target} v w w' a p :
  world_ok v -> authsession w = authsession v -> is_Some (stations v !! a) -> created w w' p a ->
  world_ok (share_auth w' v).
Proof.
  intros Hok Hsame Ha []. apply ok_set_auth; try done; try apply c_ok.
  assert (Hk : forall b, known (share_auth w' v) b -> known v b).
  { intros b [Hb|Hb]; [by left|]. cbn in Hb. rewrite c_auth, Hsame, lookup_insert_is_Some' in Hb.
    destruct Hb as [->|Hb]; [by left|by right]. }
  intros b c Hb%Hk Hc%Hk. by apply (w_auth_apart v Hok).
Qed.

(** C20: a station that moves from one session of the controller to another: the
    new session becomes its authority and tells the old one, once; and when the
    old one handles the notice it deletes the station from its own tables, and
    leaves the new authority alone.  Both sessions are consistent, and the station
    has buckets of its own in the tables of the new session and of the controller
    ([room]): in a bucket of more than two levels the search for the new station
    does not end. *)
Theorem station_roams `{Indeterminate} `{Target} fuel v w r b a x :
  enough fuel -> session_ok v -> session_ok w -> session_id v <> session_id w ->
  authtable w = authtable v -> authsession w = authsession v -> authsession v !! a = Some (session_id v) ->
  station_matches v RADIOID_ANY None a = true -> room w a -> IS_VALID_RADIOID r = true ->
  wlan_at w (r, b) = Some x ->
  exists w' v', ac_stations_create_station fuel r b a w = Some (Some a, w') /\ session_ok w' /\
    out w' = out w ++ [ActionRoaming (session_id v) a] /\ authsession w' !! a = Some (session_id w) /\
    is_Some (stations w' !! a) /\
    action_station_roaming fuel a (share_auth w' v) = Some (tt, v') /\ world_ok v' /\
    stations v' = delete a (stations v) /\ authsession v' = authsession w'.
Proof.
  intros Hf [Hokv Hsetv _] Hsow Hne Htab Hsame Hown Hm Hroom Hr Ex.
  destruct (station_create_spec fuel Hf w r b a (fun o w' => o = Some a /\ created w w' (r, b) a) (so_world w Hsow) Hroom Hr)
    as (o & w' & E & -> & Hc); [congruence|done|].
  destruct (station_matches_true _ _ _ _ Hm) as (st & p & Est & _).
  pose proof (share_auth_ok v w w' a (r, b) Hokv Hsame ltac:(by eexists) Hc) as Hokv'.
  destruct (delete_named_spec fuel Hf (share_auth w' v) RADIOID_ANY a
    (fun _ v' => exists st, destroyed (share_auth w' v) v' a st (farewell a st))) as ([] & v' & E' & su & Hd); try done.
  { apply station_room; [done|by eexists]. }
  { intros Hno. change (station_matches v RADIOID_ANY None a = false) in Hno. congruence. }
  { intros su v' _ _ Hd. by exists su. }
  exists w', v'. pose proof Hc as []. split_and!; try done.
  - eapply kept_session; [exact Hsow|]. eapply created_kept; [apply Hsow|exact Hc].
  - rewrite c_out. unfold roaming_notice. rewrite Hsame, Hown. by rewrite bool_decide_false.
  - rewrite c_auth. apply lookup_insert_eq.
  - rewrite c_stations, lookup_insert_eq. by eexists.
  - apply Hd.
  - apply Hd.
  - rewrite (d_auth _ _ _ _ _ Hd). cbn. rewrite bool_decide_false; [done|].
    rewrite c_auth, lookup_insert_eq. congruence.
Qed.

(** Session 3 serves the sample station, then session 7 does. *)
Lemma station_roams_witness :
  exists v w w' v', session_id v = 3 /\ session_id w = 7 /\
    @ac_stations_create_station lp64 3 1 sample_bssid sample_station w = Some (Some sample_station, w') /\
    @action_station_roaming zero_memory lp64 3 sample_station (share_auth w' v) = Some (tt, v') /\
    stations v' !! sample_station = None /\ authsession v' !! sample_station = Some 7.
Proof.
  destruct (@hash_create_inv mac mac auth_hash lp64 AC_STATIONS_HASH_SIZE auth_sized) as [Hinv Hl].
  assert (Hso : @session_ok lp64 (sample_session 3 ∅ no_owners)).
  { apply sample_session_ok; try done.
    - intros a. unfold no_owners. rewrite Hl, lookup_empty. split; by intros [? ?].
    - intros a b. rewrite lookup_empty. by intros [? ?]. }
  assert (Hroom : room (sample_session 3 ∅ no_owners) sample_station) by exact (sample_room sample_station).
  destruct (@station_create_spec lp64 3 (le_n 3) (sample_session 3 ∅ no_owners) 1 sample_bssid sample_station
    (fun o v => @created lp64 (sample_session 3 ∅ no_owners) v (1, sample_bssid) sample_station))
    as (o & v & _ & Hc); [apply Hso|exact Hroom|done| |by intros|].
  { rewrite sample_wlan_at. done. }
  assert (Hsov : @session_ok lp64 v).
  { eapply kept_session; [exact Hso|]. eapply created_kept; [apply Hso|exact Hc]. }
  pose proof Hc as [Hokv Hid Hst Hau _ _ _ _ _]. set (w := sample_session 7 (authsession v) (authtable v)).
  assert (Hsow : @session_ok lp64 w).
  { apply sample_session_ok; [apply Hokv|apply Hokv|apply Hokv|]. intros a b Ha Hb.
    apply (w_auth_apart v Hokv); by right. }
  assert (Hone : forall a, is_Some (authsession v !! a) -> a = sample_station).
  { intros a. rewrite Hau, lookup_insert_is_Some'. intros [->|[? Hx]]; [done|]. discriminate Hx. }
  destruct (@station_roams zero_memory lp64 3 v w 1 sample_bssid sample_station sample_wlan)
    as (w' & v' & E1 & _ & _ & Ha & _ & E2 & _ & Hs & Has).
  - unfold enough. lia.
  - exact Hsov.
  - exact Hsow.
  - rewrite Hid. discriminate.
  - reflexivity.
  - reflexivity.
  - rewrite Hau, Hid. apply lookup_insert_eq.
  - unfold station_matches. rewrite Hst, lookup_insert_eq. reflexivity.
  - split; intros b.
    + intros [? Hb]. discriminate Hb.
    + intros [[? Hb]|Hb]; [discriminate Hb|]. rewrite (Hone b Hb). done.
  - reflexivity.
  - unfold w. rewrite sample_wlan_at. reflexivity.
  - exists v, w, w', v'. split; [exact Hid|]. split; [reflexivity|]. split; [exact E1|]. split; [exact E2|].
    split; [rewrite Hs; apply lookup_delete_eq|]. rewrite Has. exact Ha.
Defined.
