(* ===== verification/AcSession.v ===== *)
(** A session of the access controller (src/ac/ac_session.h, ac_session.c): its
    state, its surroundings, and the operations that every part of it uses.

    A session is a thread that serves one WTP.  [ac_session_t] is its structure;
    [wlans_of_session] holds its networks, stations and timers ([world]).
    [listed] tells whether it is in [g_ac.sessions].  Everything the session does
    to its surroundings is appended to [log]: datagrams, requests to the back
    end, calls of the kernel module.  What the surroundings answer is given by
    [Environment], as a function of the log.  A null or dangling pointer, a
    failed assertion and an endless loop have no result. *)
From stdpp Require Import option list strings.
From S2P Require Import Prelude Io Header CapwapArray Timeout CapwapHash.
From S2P Require Import ElementsAcList ElementsAc ElementsControl ElementsImage ElementsWtp ElementsWtpDesc.
From S2P Require Import Elements80211a Element Tx Rx Packet Validate Base64 Json Ieee80211 Ieee80211Frame.
From S2P Require Import PacketInv AcJson AcWorld AcWlans AcIeee80211.
#[local] Open Scope Z_scope.

(** ** Constants (ac.h, capwap_dfa.h, ac_backend.h) *)

Definition CAPWAP_IDLE_STATE : Z := 1.
Definition CAPWAP_DTLS_CONNECT_STATE : Z := 4.
Definition CAPWAP_DTLS_TEARDOWN_STATE : Z := 5.
Definition CAPWAP_JOIN_STATE : Z := 6.
Definition CAPWAP_POSTJOIN_STATE : Z := 7.
Definition CAPWAP_IMAGE_DATA_STATE : Z := 8.
Definition CAPWAP_CONFIGURE_STATE : Z := 9.
Definition CAPWAP_RESET_STATE : Z := 10.
Definition CAPWAP_DATA_CHECK_STATE : Z := 11.
Definition CAPWAP_DATA_CHECK_TO_RUN_STATE : Z := 12.
Definition CAPWAP_RUN_STATE : Z := 13.
Definition CAPWAP_DEAD_STATE : Z := 14.

Definition AC_DTLS_INTERVAL : Z := 60000.
Definition AC_JOIN_INTERVAL : Z := 60000.
Definition AC_CHANGE_STATE_PENDING_INTERVAL : Z := 25000.
Definition AC_DATA_CHECK_INTERVAL : Z := 30000.
Definition AC_RETRANSMIT_INTERVAL : Z := 3000.
Definition AC_MAX_RETRANSMIT : Z := 5.
Definition AC_MAX_ECHO_INTERVAL : Z := 256000.
Definition AC_MAX_DATA_KEEPALIVE_INTERVAL : Z := 256000.

Definition HTTP_RESULT_OK : Z := 200.
Definition CAPWAP_RADIOID_NONE : Z := 0.
Definition VLAN_MAX : Z := 4096.

(** ** The structures *)

Inductive sockaddr_capwap :=
| Inet (address : list Z) (port : Z)
| Inet6 (address : list Z) (port : Z)
| OtherFamily.

(** [struct ac_state] *)
Record ac_state := AcState {
  ecn : EcnSupport.capwap_ecnsupport_element;
  transport : Transport.capwap_transport_element;
  timers : Timers.capwap_timers_element;
  decrypterrorreport_interval : Z;
  idletimeout : IdleTimeout.capwap_idletimeout_element;
  wtpfallback : WtpFallback.capwap_wtpfallback_element;
  acipv4list : AcIPv4List.capwap_acipv4list_element;
  acipv6list : AcIPv6List.capwap_acipv6list_element
}.

(** [struct ac_packet] *)
Record ac_packet := AcPacket { plainbuffer : bool; packet_buffer : list Z }.

(** What [struct capwap_dtls] says to the session. *)
Inductive dtls_action := ActionNone | ActionHandshake | ActionError | ActionShutdown | ActionData.
Record capwap_dtls := Dtls {
  dtls_enable : bool;
  dtls_action_of : dtls_action;
  localaddr : sockaddr_capwap;
  peeraddr : sockaddr_capwap
}.

Definition NOTIFY_ACTION_CHANGE_STATE : Z := 0.
Definition NOTIFY_ACTION_RECEIVE_REQUEST_CONTROLMESSAGE : Z := 1.
Definition NOTIFY_ACTION_RECEIVE_RESPONSE_CONTROLMESSAGE : Z := 1.

(** [session_state] and [ctrlmsg_type] are the same memory. *)
Record ac_session_notify_event_t := NotifyEvent { idevent : list Z; notify_action : Z; session_state : Z }.

Record ac_notify_addwlan_t := NotifyAddWlan {
  na_radioid : Z; na_wlanid : Z; na_capability : Z; na_qos : Z; na_authmode : Z; na_macmode : Z;
  na_tunnelmode : Z; na_suppressssid : Z; na_ssid : list Z
}.

Record ac_notify_station_configuration_ieee8011_add_station := NotifyAddStation {
  ns_radioid : Z; ns_address : mac; ns_wlanid : Z; ns_associationid : Z; ns_capabilities : Z;
  ns_supportedrates : list Z
}.

(** [struct ac_session_action] with its data. *)
Inductive ac_session_action :=
| AC_SESSION_ACTION_CLOSE
| AC_SESSION_ACTION_RESET_WTP (vendor : Z) (name : list Z)
| AC_SESSION_ACTION_NOTIFY_EVENT (event : ac_session_notify_event_t)
| AC_SESSION_ACTION_RECV_KEEPALIVE
| AC_SESSION_ACTION_RECV_IEEE80211_MGMT_PACKET (packet : list Z)
| AC_SESSION_ACTION_ADDWLAN (notify : ac_notify_addwlan_t)
| AC_SESSION_ACTION_STATION_CONFIGURATION_IEEE80211_ADD_STATION
    (notify : ac_notify_station_configuration_ieee8011_add_station)
| AC_SESSION_ACTION_STATION_CONFIGURATION_IEEE80211_DELETE_STATION (radioid : Z) (address : mac)
| AC_SESSION_ACTION_STATION_ROAMING (address : mac).

(** ** The surroundings *)

Inductive output :=
| Send (datagram : list Z)
| NewCrypt
| Handshake (datagram : list Z)
| Decrypt (datagram : list Z)
| CloseCrypt
| Soap (method : string) (params : list (list Z))
| KmodNewDataSession (binding mtu : Z)
| KmodDeleteDataSession
| KmodAddWlan (radioid wlanid : Z) (bssid : mac) (macmode tunnelmode : Z)
| KmodAuthorizeStation (address : mac) (ifindex radioid wlanid vlan : Z)
| KmodSendData (radioid : Z) (frame : list Z)
| Roaming (session : Z) (address : mac).

(** [struct ac_soap_response]: the status, and the return node, if there is one,
    with its text, if it has any. *)
Record ac_soap_response := SoapResponse { responsecode : Z; xmlResponseReturn : option (option (list Z)) }.

(** The outcomes of a handshake and of a decryption; [Want] is
    [SSL_ERROR_WANT_READ] or [SSL_ERROR_WANT_WRITE]. *)
Inductive ssl_status := SslSuccess | SslWant | SslFailure.
Inductive ssl_text := SslText (plain : list Z) | SslEnd | SslNoText (status : ssl_status).

(** What happens outside of the controller, given what the session did so far. *)
Class Environment := {
  (** [capwap_sendto] or, with DTLS, [wolfSSL_write] *)
  sendto : list output -> list Z -> Z;
  (** wolfSSL; the handshake gets the datagram received, if any *)
  wolfSSL_new : list output -> bool;
  wolfSSL_accept : list output -> list Z -> ssl_status;
  wolfSSL_read : list output -> list Z -> ssl_text;
  (** the back end *)
  soap : list output -> string -> list (list Z) -> option ac_soap_response;
  (** the kernel module; for the frames of one operation, their number *)
  kmod_call : list output -> output -> Z;
  kmod_send : list output -> nat -> Z;
  (** json-c, the resolver, and [inet_ntop] *)
  json_tokener_parse : list Z -> option json;
  json_object_to_json_string : json -> list Z;
  getaddrinfo : list Z -> option (list Z) -> bool -> option sockaddr_capwap;
  inet_ntop : list Z -> list Z
}.

(** [struct ac_if_datachannel] *)
Record ac_if_datachannel := DataChannel {
  dc_index : Z; dc_ifindex : Z; dc_ifname : list Z; dc_mtu : Z; dc_bridge : list Z
}.

Definition AC_IFDATACHANNEL_HASH_SIZE : Z := 16.

Definition ac_ifdatachannel_item_gethash (key hashsize : Z) : Z := key mod AC_IFDATACHANNEL_HASH_SIZE.
Definition ac_ifdatachannel_item_cmp (value1 value2 : Z) : Z :=
  if value1 =? value2 then 0 else if value1 <? value2 then -1 else 1.
#[export] Instance ifdatachannel_hash : HashOps ac_if_datachannel Z := {|
  item_gethash := ac_ifdatachannel_item_gethash;
  item_getkey := dc_index;
  item_cmp := ac_ifdatachannel_item_cmp
|}.

(** What a session reads of [g_ac]; [other_sessions] are the session id and the
    WTP id of the other sessions in [g_ac.sessions]. *)
Record ac_t := Ac {
  enabledtls : bool;
  ac_dfa : ac_state;
  ac_mtu : Z;
  ac_binding : list Z;
  acname : AcName.capwap_acname_element;
  descriptor : AcDescriptor.capwap_acdescriptor_element;
  addrlist : list sockaddr_capwap;
  other_sessions : list (list Z * option (list Z));
  ifdatachannel : capwap_hash ac_if_datachannel
}.

(** ** The session *)

Record ac_session_t := Session {
  running : bool;
  listed : bool;
  wtpid : option (list Z);
  state : Z;
  dfa : ac_state;
  binding : Z;
  sessionid : list Z;
  session_mtu : Z;
  dtls : capwap_dtls;
  wlans_of_session : world;
  idtimercontrol : Z;
  idtimerkeepalivedead : Z;
  actions : list ac_session_action;
  packets : list ac_packet;
  notifyevent : list ac_session_notify_event_t;
  fragmentid : Z;
  rxmngpacket : option capwap_packet_rxmng;
  localseqnumber : Z;
  requestfragmentpacket : list capwap_fragment_packet_item;
  retransmitcount : Z;
  remotetype : Z;
  remoteseqnumber : Z;
  responsefragmentpacket : list capwap_fragment_packet_item;
  log : list output
}.

Definition set_running (v : bool) (s : ac_session_t) : ac_session_t :=
  Session v (listed s) (wtpid s) (state s) (dfa s) (binding s) (sessionid s) (session_mtu s) (dtls s)
    (wlans_of_session s) (idtimercontrol s) (idtimerkeepalivedead s) (actions s) (packets s) (notifyevent s)
    (fragmentid s) (rxmngpacket s) (localseqnumber s) (requestfragmentpacket s) (retransmitcount s)
    (remotetype s) (remoteseqnumber s) (responsefragmentpacket s) (log s).
Definition set_listed (v : bool) (s : ac_session_t) : ac_session_t :=
  Session (running s) v (wtpid s) (state s) (dfa s) (binding s) (sessionid s) (session_mtu s) (dtls s)
    (wlans_of_session s) (idtimercontrol s) (idtimerkeepalivedead s) (actions s) (packets s) (notifyevent s)
    (fragmentid s) (rxmngpacket s) (localseqnumber s) (requestfragmentpacket s) (retransmitcount s)
    (remotetype s) (remoteseqnumber s) (responsefragmentpacket s) (log s).
Definition set_wtpid (v : option (list Z)) (s : ac_session_t) : ac_session_t :=
  Session (running s) (listed s) v (state s) (dfa s) (binding s) (sessionid s) (session_mtu s) (dtls s)
    (wlans_of_session s) (idtimercontrol s) (idtimerkeepalivedead s) (actions s) (packets s) (notifyevent s)
    (fragmentid s) (rxmngpacket s) (localseqnumber s) (requestfragmentpacket s) (retransmitcount s)
    (remotetype s) (remoteseqnumber s) (responsefragmentpacket s) (log s).
Definition set_state (v : Z) (s : ac_session_t) : ac_session_t :=
  Session (running s) (listed s) (wtpid s) v (dfa s) (binding s) (sessionid s) (session_mtu s) (dtls s)
    (wlans_of_session s) (idtimercontrol s) (idtimerkeepalivedead s) (actions s) (packets s) (notifyevent s)
    (fragmentid s) (rxmngpacket s) (localseqnumber s) (requestfragmentpacket s) (retransmitcount s)
    (remotetype s) (remoteseqnumber s) (responsefragmentpacket s) (log s).
Definition set_dfa (v : ac_state) (s : ac_session_t) : ac_session_t :=
  Session (running s) (listed s) (wtpid s) (state s) v (binding s) (sessionid s) (session_mtu s) (dtls s)
    (wlans_of_session s) (idtimercontrol s) (idtimerkeepalivedead s) (actions s) (packets s) (notifyevent s)
    (fragmentid s) (rxmngpacket s) (localseqnumber s) (requestfragmentpacket s) (retransmitcount s)
    (remotetype s) (remoteseqnumber s) (responsefragmentpacket s) (log s).
Definition set_binding (v : Z) (s : ac_session_t) : ac_session_t :=
  Session (running s) (listed s) (wtpid s) (state s) (dfa s) v (sessionid s) (session_mtu s) (dtls s)
    (wlans_of_session s) (idtimercontrol s) (idtimerkeepalivedead s) (actions s) (packets s) (notifyevent s)
    (fragmentid s) (rxmngpacket s) (localseqnumber s) (requestfragmentpacket s) (retransmitcount s)
    (remotetype s) (remoteseqnumber s) (responsefragmentpacket s) (log s).
Definition set_sessionid (v : list Z) (s : ac_session_t) : ac_session_t :=
  Session (running s) (listed s) (wtpid s) (state s) (dfa s) (binding s) v (session_mtu s) (dtls s)
    (wlans_of_session s) (idtimercontrol s) (idtimerkeepalivedead s) (actions s) (packets s) (notifyevent s)
    (fragmentid s) (rxmngpacket s) (localseqnumber s) (requestfragmentpacket s) (retransmitcount s)
    (remotetype s) (remoteseqnumber s) (responsefragmentpacket s) (log s).
Definition set_session_mtu (v : Z) (s : ac_session_t) : ac_session_t :=
  Session (running s) (listed s) (wtpid s) (state s) (dfa s) (binding s) (sessionid s) v (dtls s)
    (wlans_of_session s) (idtimercontrol s) (idtimerkeepalivedead s) (actions s) (packets s) (notifyevent s)
    (fragmentid s) (rxmngpacket s) (localseqnumber s) (requestfragmentpacket s) (retransmitcount s)
    (remotetype s) (remoteseqnumber s) (responsefragmentpacket s) (log s).
Definition set_dtls (v : capwap_dtls) (s : ac_session_t) : ac_session_t :=
  Session (running s) (listed s) (wtpid s) (state s) (dfa s) (binding s) (sessionid s) (session_mtu s) v
    (wlans_of_session s) (idtimercontrol s) (idtimerkeepalivedead s) (actions s) (packets s) (notifyevent s)
    (fragmentid s) (rxmngpacket s) (localseqnumber s) (requestfragmentpacket s) (retransmitcount s)
    (remotetype s) (remoteseqnumber s) (responsefragmentpacket s) (log s).
Definition set_wlans_of_session (v : world) (s : ac_session_t) : ac_session_t :=
  Session (running s) (listed s) (wtpid s) (state s) (dfa s) (binding s) (sessionid s) (session_mtu s) (dtls
    s) v (idtimercontrol s) (idtimerkeepalivedead s) (actions s) (packets s) (notifyevent s) (fragmentid s)
    (rxmngpacket s) (localseqnumber s) (requestfragmentpacket s) (retransmitcount s) (remotetype s)
    (remoteseqnumber s) (responsefragmentpacket s) (log s).
Definition set_idtimercontrol (v : Z) (s : ac_session_t) : ac_session_t :=
  Session (running s) (listed s) (wtpid s) (state s) (dfa s) (binding s) (sessionid s) (session_mtu s) (dtls
    s) (wlans_of_session s) v (idtimerkeepalivedead s) (actions s) (packets s) (notifyevent s) (fragmentid s)
    (rxmngpacket s) (localseqnumber s) (requestfragmentpacket s) (retransmitcount s) (remotetype s)
    (remoteseqnumber s) (responsefragmentpacket s) (log s).
Definition set_idtimerkeepalivedead (v : Z) (s : ac_session_t) : ac_session_t :=
  Session (running s) (listed s) (wtpid s) (state s) (dfa s) (binding s) (sessionid s) (session_mtu s) (dtls
    s) (wlans_of_session s) (idtimercontrol s) v (actions s) (packets s) (notifyevent s) (fragmentid s)
    (rxmngpacket s) (localseqnumber s) (requestfragmentpacket s) (retransmitcount s) (remotetype s)
    (remoteseqnumber s) (responsefragmentpacket s) (log s).
Definition set_actions (v : list ac_session_action) (s : ac_session_t) : ac_session_t :=
  Session (running s) (listed s) (wtpid s) (state s) (dfa s) (binding s) (sessionid s) (session_mtu s) (dtls
    s) (wlans_of_session s) (idtimercontrol s) (idtimerkeepalivedead s) v (packets s) (notifyevent s)
    (fragmentid s) (rxmngpacket s) (localseqnumber s) (requestfragmentpacket s) (retransmitcount s)
    (remotetype s) (remoteseqnumber s) (responsefragmentpacket s) (log s).
Definition set_packets (v : list ac_packet) (s : ac_session_t) : ac_session_t :=
  Session (running s) (listed s) (wtpid s) (state s) (dfa s) (binding s) (sessionid s) (session_mtu s) (dtls
    s) (wlans_of_session s) (idtimercontrol s) (idtimerkeepalivedead s) (actions s) v (notifyevent s)
    (fragmentid s) (rxmngpacket s) (localseqnumber s) (requestfragmentpacket s) (retransmitcount s)
    (remotetype s) (remoteseqnumber s) (responsefragmentpacket s) (log s).
Definition set_notifyevent (v : list ac_session_notify_event_t) (s : ac_session_t) : ac_session_t :=
  Session (running s) (listed s) (wtpid s) (state s) (dfa s) (binding s) (sessionid s) (session_mtu s) (dtls
    s) (wlans_of_session s) (idtimercontrol s) (idtimerkeepalivedead s) (actions s) (packets s) v (fragmentid
    s) (rxmngpacket s) (localseqnumber s) (requestfragmentpacket s) (retransmitcount s) (remotetype s)
    (remoteseqnumber s) (responsefragmentpacket s) (log s).
Definition set_fragmentid (v : Z) (s : ac_session_t) : ac_session_t :=
  Session (running s) (listed s) (wtpid s) (state s) (dfa s) (binding s) (sessionid s) (session_mtu s) (dtls
    s) (wlans_of_session s) (idtimercontrol s) (idtimerkeepalivedead s) (actions s) (packets s) (notifyevent
    s) v (rxmngpacket s) (localseqnumber s) (requestfragmentpacket s) (retransmitcount s) (remotetype s)
    (remoteseqnumber s) (responsefragmentpacket s) (log s).
Definition set_rxmngpacket (v : option capwap_packet_rxmng) (s : ac_session_t) : ac_session_t :=
  Session (running s) (listed s) (wtpid s) (state s) (dfa s) (binding s) (sessionid s) (session_mtu s) (dtls
    s) (wlans_of_session s) (idtimercontrol s) (idtimerkeepalivedead s) (actions s) (packets s) (notifyevent
    s) (fragmentid s) v (localseqnumber s) (requestfragmentpacket s) (retransmitcount s) (remotetype s)
    (remoteseqnumber s) (responsefragmentpacket s) (log s).
Definition set_localseqnumber (v : Z) (s : ac_session_t) : ac_session_t :=
  Session (running s) (listed s) (wtpid s) (state s) (dfa s) (binding s) (sessionid s) (session_mtu s) (dtls
    s) (wlans_of_session s) (idtimercontrol s) (idtimerkeepalivedead s) (actions s) (packets s) (notifyevent
    s) (fragmentid s) (rxmngpacket s) v (requestfragmentpacket s) (retransmitcount s) (remotetype s)
    (remoteseqnumber s) (responsefragmentpacket s) (log s).
Definition set_requestfragmentpacket (v : list capwap_fragment_packet_item) (s : ac_session_t) : ac_session_t :=
  Session (running s) (listed s) (wtpid s) (state s) (dfa s) (binding s) (sessionid s) (session_mtu s) (dtls
    s) (wlans_of_session s) (idtimercontrol s) (idtimerkeepalivedead s) (actions s) (packets s) (notifyevent
    s) (fragmentid s) (rxmngpacket s) (localseqnumber s) v (retransmitcount s) (remotetype s) (remoteseqnumber
    s) (responsefragmentpacket s) (log s).
Definition set_retransmitcount (v : Z) (s : ac_session_t) : ac_session_t :=
  Session (running s) (listed s) (wtpid s) (state s) (dfa s) (binding s) (sessionid s) (session_mtu s) (dtls
    s) (wlans_of_session s) (idtimercontrol s) (idtimerkeepalivedead s) (actions s) (packets s) (notifyevent
    s) (fragmentid s) (rxmngpacket s) (localseqnumber s) (requestfragmentpacket s) v (remotetype s)
    (remoteseqnumber s) (responsefragmentpacket s) (log s).
Definition set_remotetype (v : Z) (s : ac_session_t) : ac_session_t :=
  Session (running s) (listed s) (wtpid s) (state s) (dfa s) (binding s) (sessionid s) (session_mtu s) (dtls
    s) (wlans_of_session s) (idtimercontrol s) (idtimerkeepalivedead s) (actions s) (packets s) (notifyevent
    s) (fragmentid s) (rxmngpacket s) (localseqnumber s) (requestfragmentpacket s) (retransmitcount s) v
    (remoteseqnumber s) (responsefragmentpacket s) (log s).
Definition set_remoteseqnumber (v : Z) (s : ac_session_t) : ac_session_t :=
  Session (running s) (listed s) (wtpid s) (state s) (dfa s) (binding s) (sessionid s) (session_mtu s) (dtls
    s) (wlans_of_session s) (idtimercontrol s) (idtimerkeepalivedead s) (actions s) (packets s) (notifyevent
    s) (fragmentid s) (rxmngpacket s) (localseqnumber s) (requestfragmentpacket s) (retransmitcount s)
    (remotetype s) v (responsefragmentpacket s) (log s).
Definition set_responsefragmentpacket (v : list capwap_fragment_packet_item) (s : ac_session_t) : ac_session_t :=
  Session (running s) (listed s) (wtpid s) (state s) (dfa s) (binding s) (sessionid s) (session_mtu s) (dtls
    s) (wlans_of_session s) (idtimercontrol s) (idtimerkeepalivedead s) (actions s) (packets s) (notifyevent
    s) (fragmentid s) (rxmngpacket s) (localseqnumber s) (requestfragmentpacket s) (retransmitcount s)
    (remotetype s) (remoteseqnumber s) v (log s).
Definition set_log (v : list output) (s : ac_session_t) : ac_session_t :=
  Session (running s) (listed s) (wtpid s) (state s) (dfa s) (binding s) (sessionid s) (session_mtu s) (dtls
    s) (wlans_of_session s) (idtimercontrol s) (idtimerkeepalivedead s) (actions s) (packets s) (notifyevent
    s) (fragmentid s) (rxmngpacket s) (localseqnumber s) (requestfragmentpacket s) (retransmitcount s)
    (remotetype s) (remoteseqnumber s) (responsefragmentpacket s) v.

(** Programs on a session. *)
Definition MS : Type -> Type := ST ac_session_t.

(** ** Constructors of elements *)

Definition element (k : element_kind) (d : element_data k) : message_element := existT k d.
Definition resultcode_element (code : Z) : message_element :=
  element K_resultcode (ResultCode.Build_capwap_resultcode_element code).

(** The data of the element a kind names, in a parsed packet: NULL when there is
    none.  [first_of] is the access to an element that occurs once, [all_of] the
    array of one that may occur more often. *)
Definition data_of (k : element_kind) (e : message_element) : option (element_data k) :=
  match projT1 e as k', k as k return element_data k' -> option (element_data k) with
  | K_acdescriptor, K_acdescriptor => fun d => Some d
  | K_acipv4list, K_acipv4list => fun d => Some d
  | K_acipv6list, K_acipv6list => fun d => Some d
  | K_acname, K_acname => fun d => Some d
  | K_acnamepriority, K_acnamepriority => fun d => Some d
  | K_actimestamp, K_actimestamp => fun d => Some d
  | K_addmacacl, K_addmacacl => fun d => Some d
  | K_addstation, K_addstation => fun d => Some d
  | K_controlipv4, K_controlipv4 => fun d => Some d
  | K_controlipv6, K_controlipv6 => fun d => Some d
  | K_timers, K_timers => fun d => Some d
  | K_datatransferdata, K_datatransferdata => fun d => Some d
  | K_datatransfermode, K_datatransfermode => fun d => Some d
  | K_decrypterrorreport, K_decrypterrorreport => fun d => Some d
  | K_decrypterrorreportperiod, K_decrypterrorreportperiod => fun d => Some d
  | K_deletemacacl, K_deletemacacl => fun d => Some d
  | K_deletestation, K_deletestation => fun d => Some d
  | K_discoverytype, K_discoverytype => fun d => Some d
  | K_duplicateipv4, K_duplicateipv4 => fun d => Some d
  | K_duplicateipv6, K_duplicateipv6 => fun d => Some d
  | K_idletimeout, K_idletimeout => fun d => Some d
  | K_imagedata, K_imagedata => fun d => Some d
  | K_imageidentifier, K_imageidentifier => fun d => Some d
  | K_imageinfo, K_imageinfo => fun d => Some d
  | K_initdownload, K_initdownload => fun d => Some d
  | K_location, K_location => fun d => Some d
  | K_maximumlength, K_maximumlength => fun d => Some d
  | K_localipv4, K_localipv4 => fun d => Some d
  | K_radioadmstate, K_radioadmstate => fun d => Some d
  | K_radiooprstate, K_radiooprstate => fun d => Some d
  | K_resultcode, K_resultcode => fun d => Some d
  | K_returnedmessage, K_returnedmessage => fun d => Some d
  | K_sessionid, K_sessionid => fun d => Some d
  | K_statisticstimer, K_statisticstimer => fun d => Some d
  | K_vendorpayload, K_vendorpayload => fun d => Some d
  | K_wtpboarddata, K_wtpboarddata => fun d => Some d
  | K_wtpdescriptor, K_wtpdescriptor => fun d => Some d
  | K_wtpfallback, K_wtpfallback => fun d => Some d
  | K_wtpframetunnelmode, K_wtpframetunnelmode => fun d => Some d
  | K_wtpmactype, K_wtpmactype => fun d => Some d
  | K_wtpname, K_wtpname => fun d => Some d
  | K_wtpradiostat, K_wtpradiostat => fun d => Some d
  | K_wtprebootstat, K_wtprebootstat => fun d => Some d
  | K_wtpstaticipaddress, K_wtpstaticipaddress => fun d => Some d
  | K_localipv6, K_localipv6 => fun d => Some d
  | K_transport, K_transport => fun d => Some d
  | K_mtudiscovery, K_mtudiscovery => fun d => Some d
  | K_ecnsupport, K_ecnsupport => fun d => Some d
  | K_80211_addwlan, K_80211_addwlan => fun d => Some d
  | K_80211_antenna, K_80211_antenna => fun d => Some d
  | K_80211_assignbssid, K_80211_assignbssid => fun d => Some d
  | K_80211_deletewlan, K_80211_deletewlan => fun d => Some d
  | K_80211_directsequencecontrol, K_80211_directsequencecontrol => fun d => Some d
  | K_80211_ie, K_80211_ie => fun d => Some d
  | K_80211_mac_profile, K_80211_mac_profile => fun d => Some d
  | K_80211_macoperation, K_80211_macoperation => fun d => Some d
  | K_80211_miccountermeasures, K_80211_miccountermeasures => fun d => Some d
  | K_80211_multidomaincapability, K_80211_multidomaincapability => fun d => Some d
  | K_80211_ofdmcontrol, K_80211_ofdmcontrol => fun d => Some d
  | K_80211_rateset, K_80211_rateset => fun d => Some d
  | K_80211_rsnaerrorreport, K_80211_rsnaerrorreport => fun d => Some d
  | K_80211_station, K_80211_station => fun d => Some d
  | K_80211_stationqos, K_80211_stationqos => fun d => Some d
  | K_80211_stationkey, K_80211_stationkey => fun d => Some d
  | K_80211_statistics, K_80211_statistics => fun d => Some d
  | K_80211_supported_mac_profiles, K_80211_supported_mac_profiles => fun d => Some d
  | K_80211_supportedrates, K_80211_supportedrates => fun d => Some d
  | K_80211_txpower, K_80211_txpower => fun d => Some d
  | K_80211_txpowerlevel, K_80211_txpowerlevel => fun d => Some d
  | K_80211_updatestationqos, K_80211_updatestationqos => fun d => Some d
  | K_80211_updatewlan, K_80211_updatewlan => fun d => Some d
  | K_80211_wtpqos, K_80211_wtpqos => fun d => Some d
  | K_80211_wtpradioconf, K_80211_wtpradioconf => fun d => Some d
  | K_80211_wtpradiofailalarm, K_80211_wtpradiofailalarm => fun d => Some d
  | K_80211_wtpradioinformation, K_80211_wtpradioinformation => fun d => Some d
  | K_tp_wtp_timestamp, K_tp_wtp_timestamp => fun d => Some d
  | K_80211n_radioconf, K_80211n_radioconf => fun d => Some d
  | K_80211n_station_info, K_80211n_station_info => fun d => Some d
  | K_tp_80211_encryption_capability, K_tp_80211_encryption_capability => fun d => Some d
  | K_tp_80211_update_key, K_tp_80211_update_key => fun d => Some d
  | _, _ => fun _ => None
  end (projT2 e).
Definition all_of (k : element_kind) (messages : list capwap_message_element_itemlist)
    : option (list (element_data k)) :=
  match capwap_get_message_element_data messages (kind_id k) with
  | Some l => Some (omap (data_of k) l)
  | None => None
  end.
Definition first_of (k : element_kind) (messages : list capwap_message_element_itemlist)
    : option (element_data k) :=
  match all_of k messages with Some l => head l | None => None end.

(** A parsed packet: what the handlers of the states receive. *)
Record parsed_packet := Parsed {
  pp_binding : Z;      (* [GET_WBID_HEADER(packet->rxmngpacket->header)] *)
  pp_ctrlmsg : capwap_control_message;
  pp_messages : list capwap_message_element_itemlist
}.

(** ** Calls of the surroundings *)

Definition emit_output (o : output) : MS unit := update (fun s => set_log (log s ++ [o]) s).

Section Session.
Context {I : Indeterminate} {T : Target} {E : Environment}.

(** The connection can be written: there is no DTLS, or the handshake is over. *)
Definition can_send (x : capwap_dtls) : bool :=
  negb (dtls_enable x) || match dtls_action_of x with ActionData => true | _ => false end.

(** [capwap_sendto] or [capwap_crypt_sendto] *)
Definition ENOTCONN : Z := 107.
Definition capwap_crypt_sendto (datagram : list Z) : MS Z :=
  x <- gets dtls;;
  if can_send x then
    err <- gets (fun s => sendto (log s) datagram);;
    emit_output (Send datagram);;
    ret err
  else ret (- ENOTCONN).

(** [capwap_crypt_sendto_fragmentpacket] and [capwap_sendto_fragmentpacket]:
    fragment by fragment, until one is not sent. *)
Fixpoint capwap_crypt_sendto_fragmentpacket (l : list capwap_fragment_packet_item) : MS bool :=
  match l with
  | [] => ret true
  | fragmentpacket :: l =>
      guard (0 <? offset fragmentpacket);;
      err <- capwap_crypt_sendto (take (Z.to_nat (offset fragmentpacket)) (buffer fragmentpacket));;
      if err <=? 0 then ret false else capwap_crypt_sendto_fragmentpacket l
  end.

Definition ac_session_send_soap_request (method : string) (params : list (list Z))
    : MS (option ac_soap_response) :=
  response <- gets (fun s => soap (log s) method params);;
  emit_output (Soap method params);;
  ret response.

(** The requests about the WTP of the session: its id is the first parameter. *)
Definition soap_of_wtp (method : string) (params : list (list Z)) : MS (option ac_soap_response) :=
  id <- gets wtpid;; id <- lift id;;
  ac_session_send_soap_request method (id :: params).

Definition kmod (o : output) : MS Z :=
  result <- gets (fun s => kmod_call (log s) o);;
  emit_output o;;
  ret result.

(** [ac_soap_updatebackendevent]; the status is printed by [capwap_itoa]. *)
Definition SOAP_EVENT_STATUS_COMPLETE : list Z := [49].
Definition SOAP_EVENT_STATUS_GENERIC_ERROR : list Z := [45; 49].
Definition SOAP_EVENT_STATUS_CANCEL : list Z := [45; 50].
Definition ac_soap_updatebackendevent (id status : list Z) : MS unit :=
  ac_session_send_soap_request "updateBackendEvent" [id; status];; ret tt.

(** ** Timers of the session *)

Context (fuel : nat) (now : timeval).

Definition on_timers (f : capwap_timeout timer_callback -> option (capwap_timeout timer_callback)) : MS unit :=
  w <- gets wlans_of_session;;
  t <- lift (f (timeout w));;
  update (set_wlans_of_session (set_timeout t w)).

(** [capwap_timeout_set(session->timeout, id, durate, callback, session, NULL)];
    the index it returns is not kept. *)
Definition session_timeout_set (id durate : Z) (callback : timer_callback) : MS unit :=
  on_timers (fun t => snd <$> capwap_timeout_set fuel t id durate callback now).
Definition set_control_timer (durate : Z) (callback : timer_callback) : MS unit :=
  id <- gets idtimercontrol;; session_timeout_set id durate callback.
Definition set_keepalive_timer (durate : Z) (callback : timer_callback) : MS unit :=
  id <- gets idtimerkeepalivedead;; session_timeout_set id durate callback.
Definition session_timeout_unset (id : Z) : MS unit :=
  on_timers (fun t => capwap_timeout_unset fuel t id).

(** ** Operations of networks and stations in a session *)

(** [ac_session_send_action] of the session to itself: the action is queued when
    the session is in the list, and forgotten otherwise. *)
Definition ac_session_send_action (a : ac_session_action) : MS unit :=
  l <- gets listed;;
  when l (update (fun s => set_actions (actions s ++ [a]) s)).

Definition route_event (e : event) : MS unit :=
  match e with
  | SendData r frame => emit_output (KmodSendData r frame)
  | ActionAddStation r address wlanid associationid capabilities rates =>
      ac_session_send_action (AC_SESSION_ACTION_STATION_CONFIGURATION_IEEE80211_ADD_STATION
        (NotifyAddStation r address wlanid associationid capabilities rates))
  | ActionDeleteStation r address =>
      ac_session_send_action (AC_SESSION_ACTION_STATION_CONFIGURATION_IEEE80211_DELETE_STATION r address)
  | ActionRoaming session address => emit_output (Roaming session address)
  end.

Fixpoint route_events (l : list event) : MS unit :=
  match l with
  | [] => ret tt
  | e :: l => route_event e;; route_events l
  end.

Definition clear_out (w : world) : world :=
  World (session_id w) (devices w) (table w) (stations w) (timeout w) (authtable w) (authsession w) [].

(** An operation of [world]; what it sends is delivered at its end. *)
Definition in_world {A} (m : M A) : MS A :=
  w <- gets wlans_of_session;;
  r <- lift (m w);;
  update (set_wlans_of_session (clear_out r.2));;
  route_events (out r.2);;
  ret r.1.

(** ** States *)

(** The first event in the queue of those that wait for something. *)
Fixpoint take_event (p : ac_session_notify_event_t -> bool) (l : list ac_session_notify_event_t)
    : option (ac_session_notify_event_t * list ac_session_notify_event_t) :=
  match l with
  | [] => None
  | e :: l =>
      if p e then Some (e, l)
      else match take_event p l with
           | Some (found, l) => Some (found, e :: l)
           | None => None
           end
  end.

(** The event found is reported with a status, then removed. *)
Definition notify_event (p : ac_session_notify_event_t -> bool) (status : list Z) : MS unit :=
  events <- gets notifyevent;;
  match take_event p events with
  | None => ret tt
  | Some (e, rest) =>
      ac_soap_updatebackendevent (idevent e) status;;
      update (set_notifyevent rest)
  end.

Definition ac_dfa_change_state (st : Z) : MS unit :=
  old <- gets state;;
  when (negb (st =? old))
    (update (set_state st);;
     notify_event (fun e => (notify_action e =? NOTIFY_ACTION_CHANGE_STATE) && (session_state e =? st))
       SOAP_EVENT_STATUS_COMPLETE).

Fixpoint cancel_events (l : list ac_session_notify_event_t) : MS unit :=
  match l with
  | [] => ret tt
  | e :: l =>
      ac_soap_updatebackendevent (idevent e) SOAP_EVENT_STATUS_CANCEL;;
      update (set_notifyevent l);;
      cancel_events l
  end.

(** The session must be in the list: removing an item that was removed before
    empties [g_ac.sessions]. *)
Definition ac_session_teardown : MS unit :=
  l <- gets listed;; guard l;;
  update (set_listed false);;
  update (set_packets []);;
  d <- gets dtls;;
  when (dtls_enable d) (emit_output CloseCrypt);;
  events <- gets notifyevent;;
  cancel_events events;;
  control <- gets idtimercontrol;;
  when (negb (control =? CAPWAP_TIMEOUT_INDEX_NO_SET))
    (session_timeout_unset control;; update (set_idtimercontrol CAPWAP_TIMEOUT_INDEX_NO_SET));;
  dead <- gets idtimerkeepalivedead;;
  when (negb (dead =? CAPWAP_TIMEOUT_INDEX_NO_SET))
    (session_timeout_unset dead;; update (set_idtimerkeepalivedead CAPWAP_TIMEOUT_INDEX_NO_SET));;
  ac_dfa_change_state CAPWAP_DTLS_TEARDOWN_STATE.

Definition ac_free_reference_last_request : MS unit := update (set_requestfragmentpacket []).
Definition ac_free_reference_last_response : MS unit :=
  update (set_responsefragmentpacket []);;
  update (set_remotetype 0);;
  update (set_remoteseqnumber 0).

(** ** Callbacks of the timers of the session *)

Definition ac_dfa_retransmition_timeout : MS unit :=
  request <- gets requestfragmentpacket;;
  match request with
  | [] => ac_session_teardown
  | _ =>
      update (fun s => set_retransmitcount (retransmitcount s + 1) s);;
      n <- gets retransmitcount;;
      if AC_MAX_RETRANSMIT <=? n then
        ac_free_reference_last_request;;
        ac_session_teardown
      else
        capwap_crypt_sendto_fragmentpacket request;;
        set_control_timer AC_RETRANSMIT_INTERVAL RetransmitionTimeout
  end.

Definition ac_dfa_teardown_timeout : MS unit := ac_session_teardown.

(** [capwap_timeout_hasexpired] with the call of the callback. *)
Definition session_hasexpired : MS unit :=
  w <- gets wlans_of_session;;
  r <- lift (capwap_timeout_hasexpired fuel (timeout w) now);;
  update (set_wlans_of_session (set_timeout r.2 w));;
  match callback <$> r.1.2 with
  | None => ret tt
  | Some (StationTimeout station) => in_world (ac_stations_timeout fuel r.1.1 station)
  | Some RetransmitionTimeout => ac_dfa_retransmition_timeout
  | Some TeardownTimeout => ac_dfa_teardown_timeout
  end.

(** ** Messages *)

(** [capwap_header_init] of a [struct capwap_header_data] and
    [capwap_packet_txmng_create_ctrl_message]. *)
Definition create_ctrl_message (binding type seq mtu : Z) : option capwap_packet_txmng :=
  capwap_packet_txmng_create_ctrl_message
    (capwap_header_init (fresh CAPWAP_HEADER_MAX_SIZE) CAPWAP_RADIOID_NONE binding) type seq mtu.

(** [if (list->count > 1) { session->fragmentid++; }] *)
Definition count_fragments (l : list capwap_fragment_packet_item) : MS unit :=
  when (1 <? zlen l) (update (fun s => set_fragmentid (wrap16 (fragmentid s + 1)) s)).

(** The end of every response: its fragments replace the last response, with the
    type and the number of the request, and are sent.  The result says whether
    they were. *)
Definition send_response (tx : capwap_packet_txmng) (c : capwap_control_message) : MS bool :=
  ac_free_reference_last_response;;
  id <- gets fragmentid;;
  update (fun s => set_responsefragmentpacket
                     (responsefragmentpacket s ++ capwap_packet_txmng_get_fragment_packets tx id) s);;
  response <- gets responsefragmentpacket;;
  count_fragments response;;
  update (set_remotetype (cm_type c));;
  update (set_remoteseqnumber (cm_seq c));;
  capwap_crypt_sendto_fragmentpacket response.

(** The fragments of a request are kept until it is answered. *)
Definition send_request (type : Z) (elements : list message_element) : MS bool :=
  s <- gets (fun s => s);;
  tx <- lift (create_ctrl_message (binding s) type (localseqnumber s) (session_mtu s));;
  tx <- lift (add_to_packet tx elements);;
  update (fun s => set_requestfragmentpacket
                     (requestfragmentpacket s ++ capwap_packet_txmng_get_fragment_packets tx (fragmentid s)) s);;
  request <- gets requestfragmentpacket;;
  count_fragments request;;
  capwap_crypt_sendto_fragmentpacket request.

(** [ac_send_invalid_request]: an answer with a result code, which is not kept.
    The type is the odd type of the request plus one. *)
Definition ac_send_invalid_request (rx : capwap_packet_rxmng) (errorcode : Z) : MS unit :=
  guard (negb (zlen (rx_fragmentlist rx) =? 0));;
  s <- gets (fun s => s);;
  tx <- lift (create_ctrl_message (GET_WBID_HEADER (rx_header rx)) (cm_type (rx_ctrlmsg rx) + 1)
                (cm_seq (rx_ctrlmsg rx)) (session_mtu s));;
  tx <- lift (add_to_packet tx [resultcode_element errorcode]);;
  let response := capwap_packet_txmng_get_fragment_packets tx (fragmentid s) in
  count_fragments response;;
  capwap_crypt_sendto_fragmentpacket response;;
  ret tt.

(** ** The controller *)

Context (ac : ac_t).

(** The sessions in [g_ac.sessions]. *)
Definition all_sessions (s : ac_session_t) : list (list Z * option (list Z)) :=
  other_sessions ac ++ if listed s then [(sessionid s, wtpid s)] else [].

Definition ac_valid_binding (b : Z) : bool := existsb (fun x => b =? x) (ac_binding ac).

Definition ac_has_sessionid (id : list Z) : MS bool :=
  gets (fun s => existsb (fun x => bool_decide (x.1 = id)) (all_sessions s)).

(** -1, which is true, for an empty id. *)
Definition ac_has_wtpid (id : list Z) : MS bool :=
  gets (fun s =>
    if bool_decide (id = []) then true
    else existsb (fun x => match x.2 with Some y => bool_decide (y = id) | None => false end) (all_sessions s)).

Definition CAPWAP_BOARD_SUBELEMENT_MACADDRESS : Z := 4.
Definition CAPWAP_MACADDRESS_EUI48_BUFFER : Z := 18.
Definition CAPWAP_MACADDRESS_EUI64_BUFFER : Z := 24.

(** The text of the address, without its terminator.  For a length that is not
    one of an EUI nothing is printed, and the memory is as [capwap_alloc] left
    it. *)
Definition ac_get_printable_wtpid (d : WtpBoardData.capwap_wtpboarddata_element) : option (list Z) :=
  match WtpBoardData.capwap_wtpboarddata_get_subelement d CAPWAP_BOARD_SUBELEMENT_MACADDRESS with
  | None => None
  | Some x =>
      let size := if WtpBoardData.length x =? MACADDRESS_EUI48_LENGTH then CAPWAP_MACADDRESS_EUI48_BUFFER
                  else CAPWAP_MACADDRESS_EUI64_BUFFER in
      Some (cstr (match capwap_printf_macaddress (WtpBoardData.data x) (WtpBoardData.length x) with
                  | Some text => text
                  | None => fresh size
                  end))
  end.

(** [g_ac.descriptor] after [ac_update_statistics]: no stations, and the number
    of sessions. *)
Definition ac_update_statistics (count : Z) : AcDescriptor.capwap_acdescriptor_element :=
  let d := descriptor ac in
  {| AcDescriptor.stations := 0;
     AcDescriptor.stationlimit := AcDescriptor.stationlimit d;
     AcDescriptor.activewtp := wrap16 count;
     AcDescriptor.maxwtp := AcDescriptor.maxwtp d;
     AcDescriptor.security := AcDescriptor.security d;
     AcDescriptor.rmacfield := AcDescriptor.rmacfield d;
     AcDescriptor.dtlspolicy := AcDescriptor.dtlspolicy d;
     AcDescriptor.descsubelement := AcDescriptor.descsubelement d |}.

(** [ac_get_control_information] and the Control IP elements made from it. *)
Definition ac_get_control_information (count : Z) : list (sockaddr_capwap * Z) :=
  (fun a => (a, wrap16 count)) <$> addrlist ac.

Definition control_element (c : sockaddr_capwap * Z) : list message_element :=
  match c.1 with
  | Inet a _ => [element K_controlipv4 (ControlIPv4.Build_capwap_controlipv4_element a c.2)]
  | Inet6 a _ => [element K_controlipv6 (ControlIPv6.Build_capwap_controlipv6_element a c.2)]
  | OtherFamily => []
  end.

End Session.
