(* ===== verification/AcActions.v ===== *)
(** What a session exchanges with the back end and the texts in it: the parameters
    of requests and the documents of answers (src/ac/ac_soap.c, ac_session.c), and
    addresses (src/common/capwap_network.c); and the actions a session executes
    (src/ac/ac_session.c): requests to the WTP on behalf of the back end and of the
    stations, frames of the data channel, and notifications.  An action runs only
    when no request waits for its answer. *)
From stdpp Require Import option list strings.
From S2P Require Import Prelude Io Header CapwapArray Timeout CapwapHash Element Packet Base64 Json.
From S2P Require Import AcWorld AcSession ElementsAc ElementsControl ElementsImage Elements80211a.
From S2P Require Import Elements80211b Tx Rx Ieee80211 Ieee80211Frame AcWlans AcIeee80211.
#[local] Open Scope Z_scope.

Section Backend.
Context {T : Target} {C : CharSign} {E : Environment}.

(** The document, printed and encoded for a parameter.  The string returned by
    [json_object_to_json_string] has a terminator. *)
Definition json_param (j : json) : option (list Z) :=
  e ← ac_base64_string_encode (json_object_to_json_string j ++ [0]); Some (cstr e).

(** [ac_soapclient_parse_json_response]: NULL when there is no document.  The
    text is decoded in a buffer of [AC_BASE64_DECODE_LENGTH] bytes; writing past
    its end is a failure. *)
Definition ac_soapclient_parse_json_response {S} (response : ac_soap_response) : ST S (option json) :=
  if negb (responsecode response =? HTTP_RESULT_OK) then ret None else
  match xmlResponseReturn response with
  | None | Some None => ret None
  | Some (Some text) =>
      let length := Z.of_nat (strlen (text ++ [0])) in
      if length =? 0 then ret None else
      let decoded := ac_base64_string_decode (text ++ [0]) in
      guard (zlen decoded <=? AC_BASE64_DECODE_LENGTH length);;
      ret (json_tokener_parse (cstr decoded))
  end.

(** The answer is the text [true]. *)
Definition answers_true (response : ac_soap_response) : bool :=
  (responsecode response =? HTTP_RESULT_OK) &&
  match xmlResponseReturn response with
  | Some (Some text) => bool_decide (text = chars "true")
  | _ => false
  end.

(** ** Addresses *)

(** [strchr]: the text before the character, and after it. *)
Fixpoint split_at (c : Z) (s : list Z) : option (list Z * list Z) :=
  match s with
  | [] => None
  | x :: s =>
      if x =? c then Some ([], s)
      else match split_at c s with Some (a, b) => Some (x :: a, b) | None => None end
  end.

(** An address, or an IPv6 address between brackets, then a colon and a port.
    The third argument of [getaddrinfo] is whether the address must be a numeric
    IPv6 one. *)
Definition capwap_address_from_string (ip : list Z) : option sockaddr_capwap :=
  match ip with
  | [] => None
  | 91 :: rest =>
      match split_at 93 rest with
      | None => None
      | Some (host, []) => getaddrinfo host None true
      | Some (host, c :: service) =>
          if c =? 58 then getaddrinfo host (Some service) true else None
      end
  | _ =>
      match split_at 58 ip with
      | None => getaddrinfo ip None false
      | Some (host, service) => getaddrinfo host (Some service) false
      end
  end.

End Backend.

Definition AC_NO_ERROR : Z := -1000.
Definition AC_ERROR_TIMEOUT : Z := -1001.
Definition CAPWAP_ERROR_AGAIN : Z := 0.
Definition CAPWAP_ERROR_SHUTDOWN : Z := -1.
Definition CAPWAP_ERROR_CLOSE : Z := -2.
Definition CAPWAP_ADD_WLAN_TUNNELMODE_LOCAL : Z := 0.

Section Actions.
Context {I : Indeterminate} {T : Target} {C : CharSign} {E : Environment}.
Context (fuel : nat) (now : timeval) (ac : ac_t) (stale_length : Z).

(** After a request: the retransmission timer, or the end of the session when it
    could not be sent. *)
Definition await_answer (sent : bool) : MS unit :=
  if sent then
    update (set_retransmitcount 0);;
    set_control_timer fuel now AC_RETRANSMIT_INTERVAL RetransmitionTimeout
  else
    ac_free_reference_last_request;;
    ac_session_teardown fuel.

Definition no_pending_request : MS unit :=
  request <- gets requestfragmentpacket;; guard (bool_decide (request = [])).

(** ** Stations *)

Definition ac_session_action_authorizestation_request (radioid wlanid : Z) (address : mac)
    : MS (option ac_soap_response) :=
  text <- lift (capwap_printf_macaddress address MACADDRESS_EUI48_LENGTH);;
  param <- lift (json_param (json_object
    [("RadioID"%string, json_object_new_int radioid);
     ("WLANID"%string, json_object_new_int wlanid);
     ("Station"%string, json_object_new_string text)]));;
  soap_of_wtp "authorizeStation" [param].

(** The interface the document names, in the table of data channels; -1 when
    there is none. *)
Definition datachannel_ifindex (index : Z) : MS Z :=
  datachannel <- lift (capwap_hash_search fuel (ifdatachannel ac) index);;
  ret (match datachannel with Some d => dc_ifindex d | None => -1 end).

(** The name of the VLAN for a network that bridges in the WTP. *)
Definition station_vlan (x : ac_wlan) (jsonsection : json) : option (list Z) :=
  if tunnelmode x =? CAPWAP_ADD_WLAN_TUNNELMODE_LOCAL then
    match get_string jsonsection "VLAN" with
    | Some s => if Z.of_nat (strlen (s ++ [0])) <? AddStation.CAPWAP_ADDSTATION_VLAN_MAX_LENGTH
                then Some (s ++ [0]) else None
    | None => None
    end
  else None.

(** The VLAN of the data channel otherwise, under one name with a dot in it. *)
Definition channel_vlan (x : ac_wlan) (jsonroot : json) : Z :=
  if negb (tunnelmode x =? CAPWAP_ADD_WLAN_TUNNELMODE_LOCAL) then
    match get_int jsonroot "DataChannelInterface.VLAN" with
    | Some v => if (0 <? v) && (v <? VLAN_MAX) then v else 0
    | None => 0
    end
  else 0.

Definition addstation_elements (n : ac_notify_station_configuration_ieee8011_add_station)
    (vlan : option (list Z)) : list message_element :=
  let rates := ns_supportedrates n in
  [element K_addstation (AddStation.Build_capwap_addstation_element (ns_radioid n) MACADDRESS_EUI48_LENGTH
     (ns_address n) vlan);
   element K_80211_station (Station.Build_capwap_80211_station_element (ns_radioid n) (ns_associationid n) 0
     (ns_address n) (ns_capabilities n) (ns_wlanid n) (zlen rates)
     (write_at 0 rates (zeros Station.CAPWAP_STATION_RATES_MAXLENGTH)))].

(** 0 when the request was sent and the kernel module knows the station. *)
Definition ac_session_action_authorizestation_response (response : ac_soap_response)
    (notify : ac_notify_station_configuration_ieee8011_add_station) : MS Z :=
  jsonroot <- ac_soapclient_parse_json_response response;;
  match jsonroot with
  | None => ret (-1)
  | Some jsonroot =>
      match get_object jsonroot "DataChannelInterface" with
      | None => ret (-1)
      | Some jsonsection =>
          match get_int jsonsection "Index" with
          | None => ret (-1)
          | Some v =>
              ifindex <- datachannel_ifindex (wrap_ulong v);;
              if ifindex <? 0 then ret (-1) else
              p <- in_world (ac_wlans_get_bssid_with_wlanid (ns_radioid notify) (ns_wlanid notify));;
              match p with
              | None => ret (-1)
              | Some p =>
                  x <- in_world (load_wlan p);;
                  sent <- send_request CAPWAP_STATION_CONFIGURATION_REQUEST
                            (addstation_elements notify (station_vlan x jsonsection));;
                  if sent : bool then
                    r <- kmod (KmodAuthorizeStation (ns_address notify) ifindex (ns_radioid notify)
                                 (ns_wlanid notify) (channel_vlan x jsonroot));;
                    if r =? 0 then await_answer true;; ret 0
                    else await_answer false;; ret (-1)
                  else await_answer false;; ret (-1)
              end
          end
      end
  end.

Definition ac_session_action_station_configuration_ieee8011_add_station
    (notify : ac_notify_station_configuration_ieee8011_add_station) : MS Z :=
  no_pending_request;;
  if negb (IS_VALID_RADIOID (ns_radioid notify)) || negb (IS_VALID_WLANID (ns_wlanid notify))
  then ret AC_NO_ERROR else
  response <- ac_session_action_authorizestation_request (ns_radioid notify) (ns_wlanid notify)
                (ns_address notify);;
  match response with
  | None => ret AC_NO_ERROR
  | Some response =>
      ac_session_action_authorizestation_response response notify;;
      ret AC_NO_ERROR
  end.

Definition ac_session_action_station_configuration_ieee8011_delete_station (radioid : Z) (address : mac) : MS Z :=
  no_pending_request;;
  if negb (IS_VALID_RADIOID radioid) then ret AC_NO_ERROR else
  sent <- send_request CAPWAP_STATION_CONFIGURATION_REQUEST
    [element K_deletestation
       (DeleteStation.Build_capwap_deletestation_element radioid MACADDRESS_EUI48_LENGTH address)];;
  await_answer sent;;
  ret AC_NO_ERROR.

(** ** The WTP and its networks *)

Definition ac_session_action_resetwtp (vendor : Z) (name : list Z) : MS Z :=
  no_pending_request;;
  sent <- send_request CAPWAP_RESET_REQUEST
    [element K_imageidentifier (ImageIdentifier.Build_capwap_imageidentifier_element vendor name)];;
  (if sent : bool then
     update (set_retransmitcount 0);;
     ac_dfa_change_state CAPWAP_RESET_STATE;;
     set_control_timer fuel now AC_RETRANSMIT_INTERVAL RetransmitionTimeout
   else await_answer false);;
  ret AC_NO_ERROR.

(** The element of a notification; what the notification does not set is 0. *)
Definition addwlan_element (n : ac_notify_addwlan_t) : message_element :=
  element K_80211_addwlan (AddWlan.Build_capwap_80211_addwlan_element (na_radioid n) (na_wlanid n)
    (na_capability n) 0 0 0 None (zeros AddWlan.CAPWAP_ADD_WLAN_GROUPTSC_LENGTH) (na_qos n) (na_authmode n)
    (na_macmode n) (na_tunnelmode n) (na_suppressssid n) (na_ssid n)).

Definition ac_session_action_addwlan (notify : ac_notify_addwlan_t) : MS Z :=
  no_pending_request;;
  if negb (IS_VALID_RADIOID (na_radioid notify)) || negb (IS_VALID_WLANID (na_wlanid notify))
  then ret AC_NO_ERROR else
  p <- in_world (ac_wlans_get_bssid_with_wlanid (na_radioid notify) (na_wlanid notify));;
  match p with
  | Some _ => ret AC_NO_ERROR
  | None =>
      sent <- send_request CAPWAP_IEEE80211_WLAN_CONFIGURATION_REQUEST [addwlan_element notify];;
      await_answer sent;;
      ret AC_NO_ERROR
  end.

(** A frame from the data channel, with its CAPWAP header. *)
Definition ac_session_action_recv_ieee80211_mgmt_packet (packet : list Z) : MS Z :=
  s <- gets (fun s => s);;
  let headersize := GET_HLEN_HEADER packet * 4 in
  let length := zlen packet in
  (if (GET_WBID_HEADER packet =? CAPWAP_WIRELESS_BINDING_IEEE80211) &&
      (sizeof_ieee80211_header <=? length - headersize)
   then in_world (ac_ieee80211_packet fuel (kmod_send (log s)) now stale_length (GET_RID_HEADER packet)
                    (drop (Z.to_nat headersize) packet) (length - headersize))
   else ret tt);;
  ret AC_NO_ERROR.

(** The data channel is alive; the first time, the session starts to run. *)
Definition action_recv_keepalive : MS Z :=
  set_keepalive_timer fuel now AC_MAX_DATA_KEEPALIVE_INTERVAL TeardownTimeout;;
  st <- gets state;;
  if st =? CAPWAP_DATA_CHECK_TO_RUN_STATE then
    response <- soap_of_wtp "runningWTPSession" [];;
    match response with
    | Some response =>
        if responsecode response =? HTTP_RESULT_OK then
          ac_dfa_change_state CAPWAP_RUN_STATE;;
          set_control_timer fuel now AC_MAX_ECHO_INTERVAL TeardownTimeout;;
          ret AC_NO_ERROR
        else ret CAPWAP_ERROR_CLOSE
    | None => ret CAPWAP_ERROR_CLOSE
    end
  else ret AC_NO_ERROR.

Definition ac_session_action_execute (action : ac_session_action) : MS Z :=
  match action with
  | AC_SESSION_ACTION_CLOSE => ret CAPWAP_ERROR_CLOSE
  | AC_SESSION_ACTION_RESET_WTP vendor name => ac_session_action_resetwtp vendor name
  | AC_SESSION_ACTION_ADDWLAN notify => ac_session_action_addwlan notify
  | AC_SESSION_ACTION_RECV_KEEPALIVE => action_recv_keepalive
  | AC_SESSION_ACTION_RECV_IEEE80211_MGMT_PACKET packet => ac_session_action_recv_ieee80211_mgmt_packet packet
  | AC_SESSION_ACTION_NOTIFY_EVENT e =>
      update (fun s => set_notifyevent (notifyevent s ++ [e]) s);; ret AC_NO_ERROR
  | AC_SESSION_ACTION_STATION_CONFIGURATION_IEEE80211_ADD_STATION notify =>
      ac_session_action_station_configuration_ieee8011_add_station notify
  | AC_SESSION_ACTION_STATION_CONFIGURATION_IEEE80211_DELETE_STATION radioid address =>
      ac_session_action_station_configuration_ieee8011_delete_station radioid address
  | AC_SESSION_ACTION_STATION_ROAMING address => in_world (action_station_roaming fuel address);; ret AC_NO_ERROR
  end.

End Actions.
