(* ===== verification/AcDfaJoin.v ===== *)
(** The first states of a session.  The encrypted control channel
    (src/common/capwap_dtls.c, src/ac/ac_dfa_dtls.c): the state of the connection
    around the calls of wolfSSL, and the setup of it; the controller is the
    server.  The Join state (src/ac/ac_dfa_join.c): a WTP asks to join, the back
    end is asked whether it may, is told what the WTP is, and says what to
    answer. *)
From stdpp Require Import option list strings.
From S2P Require Import Prelude Io Header CapwapArray Timeout CapwapHash.
From S2P Require Import ElementsAcList ElementsAc ElementsControl ElementsImage ElementsWtp ElementsWtpDesc.
From S2P Require Import Elements80211a Elements80211b Element Tx Rx Packet Base64 Json AcJson.
From S2P Require Import AcWorld AcSession AcActions.
#[local] Open Scope Z_scope.

(** ** DTLS *)

Definition CAPWAP_HANDSHAKE_ERROR : Z := -1.
Definition CAPWAP_HANDSHAKE_CONTINUE : Z := 0.
Definition CAPWAP_HANDSHAKE_COMPLETE : Z := 1.

Section Dtls.
Context {E : Environment} {T : Target}.
Context (fuel : nat) (now : timeval).

Definition set_dtls_state (enable : bool) (a : dtls_action) : MS unit :=
  update (fun s => set_dtls (Dtls enable a (localaddr (dtls s)) (peeraddr (dtls s))) s).

Definition capwap_crypt_createsession : MS bool :=
  ok <- gets (fun s => wolfSSL_new (log s));;
  emit_output NewCrypt;;
  when ok (set_dtls_state true ActionNone);;
  ret ok.

Definition capwap_crypt_handshake (datagram : list Z) : MS Z :=
  d <- gets dtls;;
  guard (dtls_enable d && match dtls_action_of d with ActionNone | ActionHandshake => true | _ => false end);;
  result <- gets (fun s => wolfSSL_accept (log s) datagram);;
  emit_output (Handshake datagram);;
  match result with
  | SslSuccess => set_dtls_state true ActionData;; ret CAPWAP_HANDSHAKE_COMPLETE
  | SslWant => set_dtls_state true ActionHandshake;; ret CAPWAP_HANDSHAKE_CONTINUE
  | SslFailure => set_dtls_state true ActionError;; ret CAPWAP_HANDSHAKE_ERROR
  end.

Definition capwap_crypt_open : MS Z := capwap_crypt_handshake [].

(** The value returned, and the plain text in the buffer of [maxsize] bytes. *)
Definition capwap_decrypt_packet (encrybuffer : list Z) : MS (Z * list Z) :=
  d <- gets dtls;;
  guard (dtls_enable d && (0 <? zlen encrybuffer));;
  match dtls_action_of d with
  | ActionHandshake =>
      r <- capwap_crypt_handshake encrybuffer;;
      ret (if r =? CAPWAP_HANDSHAKE_ERROR then (CAPWAP_ERROR_CLOSE, []) else (CAPWAP_ERROR_AGAIN, []))
  | ActionData =>
      text <- gets (fun s => wolfSSL_read (log s) encrybuffer);;
      emit_output (Decrypt encrybuffer);;
      match text with
      | SslText (b :: plain) => ret (zlen (b :: plain), b :: plain)
      | SslText [] | SslEnd => set_dtls_state true ActionShutdown;; ret (CAPWAP_ERROR_SHUTDOWN, [])
      | SslNoText SslWant => ret (CAPWAP_ERROR_AGAIN, [])
      | SslNoText _ => ret (CAPWAP_ERROR_CLOSE, [])
      end
  | _ => lift None
  end.

Definition ac_dtls_setup : MS bool :=
  ok <- capwap_crypt_createsession;;
  if negb ok then ret false else
  r <- capwap_crypt_open;;
  if r =? CAPWAP_HANDSHAKE_ERROR then ret false else
  ac_dfa_change_state CAPWAP_DTLS_CONNECT_STATE;;
  set_control_timer fuel now AC_DTLS_INTERVAL TeardownTimeout;;
  ret true.

End Dtls.

(** ** Join *)

Definition CAPWAP_RESULTCODE_FAILURE : Z := 1.
Definition CAPWAP_RESULTCODE_JOIN_FAILURE_UNKNOWN_SOURCE : Z := 5.
Definition CAPWAP_RESULTCODE_JOIN_FAILURE_ID_ALREADY_IN_USE : Z := 7.
Definition CAPWAP_RESULTCODE_JOIN_FAILURE_BINDING_NOT_SUPPORTED : Z := 9.
Definition CAPWAP_RESULTCODE_MSG_UNEXPECTED_INVALID_CURRENT_STATE : Z := 18.
Definition CAPWAP_WTP_NATIVE_FRAME_TUNNEL : Z := 8.
Definition CAPWAP_WTP_8023_FRAME_TUNNEL : Z := 4.
Definition CAPWAP_WTP_LOCAL_BRIDGING : Z := 2.

(** A 32-bit number converted to [int]. *)
Definition as_int (x : Z) : Z := if x <? 2147483648 then x else x - 4294967296.

(** [json_object_new_boolean(((mode & flag) ? 1 : 0))] *)
Definition flag_json (mode flag : Z) : json :=
  json_object_new_boolean (if Z.land mode flag =? 0 then 0 else 1).

Section Join.
Context {I : Indeterminate} {T : Target} {C : CharSign} {E : Environment}.
Context (fuel : nat) (now : timeval) (ac : ac_t).

(** ** What the back end is told *)

(** The loop over the messages: the 802.11 elements, until one is refused. *)
Fixpoint collect_80211 (w : ac_json_ieee80211_wtpradio) (l : list capwap_message_element_itemlist)
    : option (Z * ac_json_ieee80211_wtpradio) :=
  match l with
  | [] => Some (1, w)
  | m :: l =>
      if IS_80211_MESSAGE_ELEMENTS (il_id m) then
        '(r, w) ← ac_json_ieee80211_parsingmessageelement w m;
        if r =? 0 then Some (0, w) else collect_80211 w l
      else collect_80211 w l
  end.

(** The radios, added to a document for the 802.11 binding; NULL when an element
    is refused. *)
Definition binding_json (binding : Z) (messages : list capwap_message_element_itemlist) (jsonparam : json)
    : option (option json) :=
  if binding =? CAPWAP_WIRELESS_BINDING_IEEE80211 then
    '(r, w) ← collect_80211 ac_json_ieee80211_init messages;
    if r =? 0 then Some None else
    jsonarray ← ac_json_ieee80211_getjson w;
    Some (Some (json_object_object_add jsonparam IEEE80211_BINDING_JSON_ROOT jsonarray))
  else Some (Some jsonparam).

Definition board_json (b : WtpBoardData.capwap_wtpboarddata_board_subelement) : option json :=
  e ← ac_base64_binary_encode (WtpBoardData.data b) (WtpBoardData.length b);
  Some (json_object [("BoardDataType"%string, json_object_new_int (WtpBoardData.type b));
                     ("BoardDataValue"%string, json_object_new_string (e ++ [0]))]).

Definition encrypt_json (x : WtpDescriptor.capwap_wtpdescriptor_encrypt_subelement) : json :=
  json_object [("WBID"%string, json_object_new_int (WtpDescriptor.wbid x));
               ("EncryptionCapabilities"%string, json_object_new_int (WtpDescriptor.capabilities x))].

Definition desc_json (x : WtpDescriptor.capwap_wtpdescriptor_desc_subelement) : json :=
  json_object [("DescriptorVendorIdentifier"%string, json_object_new_int (as_int (WtpDescriptor.vendor x)));
               ("DescriptorType"%string, json_object_new_int (WtpDescriptor.type x));
               ("DescriptorData"%string, json_object_new_string (WtpDescriptor.data x))].

Definition rebootstat_json (x : WtpRebootStat.capwap_wtprebootstat_element) : json :=
  json_object [("RebootCount"%string, json_object_new_int (WtpRebootStat.rebootcount x));
               ("ACInitiatedCount"%string, json_object_new_int (WtpRebootStat.acinitiatedcount x));
               ("LinkFailureCount"%string, json_object_new_int (WtpRebootStat.linkfailurecount x));
               ("SWFailureCount"%string, json_object_new_int (WtpRebootStat.swfailurecount x));
               ("HWFailureCount"%string, json_object_new_int (WtpRebootStat.hwfailurecount x));
               ("OtherFailureCount"%string, json_object_new_int (WtpRebootStat.otherfailurecount x));
               ("UnknownFailureCount"%string, json_object_new_int (WtpRebootStat.unknownfailurecount x));
               ("LastFailureType"%string, json_object_new_int (WtpRebootStat.lastfailuretype x))].

Definition address_json (address : list Z) : json :=
  json_object [("Address"%string, json_object_new_string (inet_ntop address ++ [0]))].

(** An entry that is only there when the element is. *)
Definition optional_entry {A} (key : string) (f : A -> json) (o : option A) (obj : json) : json :=
  match o with Some x => json_object_object_add obj key (f x) | None => obj end.

(** The document of a Join Request; the elements are mandatory, the last three
    excepted.  NULL when an 802.11 element is refused. *)
Definition join_document (packet : parsed_packet) : option (option json) :=
  let messages := pp_messages packet in
  location ← first_of K_location messages;
  board ← first_of K_wtpboarddata messages;
  boards ← mapM board_json (WtpBoardData.boardsubelement board);
  desc ← first_of K_wtpdescriptor messages;
  name ← first_of K_wtpname messages;
  tunnel ← first_of K_wtpframetunnelmode messages;
  mactype ← first_of K_wtpmactype messages;
  let mode := WtpFrameTunnelMode.mode tunnel in
  let jsonparam := json_object
    [("Binding"%string, json_object [("Type"%string, json_object_new_int (pp_binding packet))]);
     ("LocationData"%string,
        json_object [("Location"%string, json_object_new_string (Location.value location))]);
     ("WTPBoardData"%string,
        json_object [("VendorIdentifier"%string, json_object_new_int (as_int (WtpBoardData.vendor board)));
                     ("BoardDataSubElement"%string, JArray boards)]);
     ("WTPDescriptor"%string,
        json_object [("MaxRadios"%string, json_object_new_int (WtpDescriptor.maxradios desc));
                     ("RadiosInUse"%string, json_object_new_int (WtpDescriptor.radiosinuse desc));
                     ("EncryptionSubElement"%string, JArray (encrypt_json <$> WtpDescriptor.encryptsubelement desc));
                     ("DescriptorSubElement"%string, JArray (desc_json <$> WtpDescriptor.descsubelement desc))]);
     ("WTPName"%string, json_object [("Name"%string, json_object_new_string (WtpName.name name))]);
     ("WTPFrameTunnelMode"%string,
        json_object [("NativeFrameTunnel"%string, flag_json mode CAPWAP_WTP_NATIVE_FRAME_TUNNEL);
                     ("FrameTunnelMode8023"%string, flag_json mode CAPWAP_WTP_8023_FRAME_TUNNEL);
                     ("LocalBridge"%string, flag_json mode CAPWAP_WTP_LOCAL_BRIDGING)]);
     ("WTPMACType"%string, json_object [("Type"%string, json_object_new_int (WtpMacType.type mactype))])] in
  radios ← binding_json (pp_binding packet) messages jsonparam;
  match radios with
  | None => Some None
  | Some jsonparam =>
      ecn ← first_of K_ecnsupport messages;
      let jsonparam := json_object_object_add jsonparam "ECNSupport"
        (json_object [("Mode"%string, json_object_new_int (EcnSupport.flag ecn))]) in
      let jsonparam := optional_entry "CAPWAPLocalIPv4Address" (fun x => address_json (LocalIPv4.address x))
                         (first_of K_localipv4 messages) jsonparam in
      let jsonparam := optional_entry "CAPWAPLocalIPv6Address" (fun x => address_json (LocalIPv6.address x))
                         (first_of K_localipv6 messages) jsonparam in
      Some (Some (optional_entry "WTPRebootStatistics" rebootstat_json (first_of K_wtprebootstat messages) jsonparam))
  end.

(** A document sent to the back end, and the answer. *)
Definition send_document (method : string) (document : option (option json)) : MS (option ac_soap_response) :=
  j <- lift document;;
  match j with
  | None => ret None
  | Some j => param <- lift (json_param j);; soap_of_wtp method [param]
  end.

Definition ac_dfa_state_join_parsing_request (packet : parsed_packet) : MS (option ac_soap_response) :=
  send_document "joinWTPSession" (join_document packet).

(** ** What the back end says *)

Definition ac_dfa_state_join_check_authorizejoin (response : ac_soap_response) : Z :=
  if answers_true response then ResultCode.CAPWAP_RESULTCODE_SUCCESS
  else CAPWAP_RESULTCODE_JOIN_FAILURE_UNKNOWN_SOURCE.

(** The addresses of a family among the entries of a list of a document. *)
Definition entry_address (j : json) : option sockaddr_capwap :=
  s ← get_string j "ACIPAddress"; capwap_address_from_string (cstr (s ++ [0])).
Definition inet_address (a : sockaddr_capwap) : option (list Z) :=
  match a with Inet x _ => Some x | _ => None end.
Definition inet6_address (a : sockaddr_capwap) : option (list Z) :=
  match a with Inet6 x _ => Some x | _ => None end.

(** An AC IP List element: the addresses of the document, or those of the
    session when the document has no list.  No element without addresses. *)
Definition acipv4list_elements (addresses : option (list (list Z))) (own : AcIPv4List.capwap_acipv4list_element)
    : list message_element :=
  let l := default (AcIPv4List.addresses own) addresses in
  if bool_decide (l = []) then [] else [element K_acipv4list (AcIPv4List.Build_capwap_acipv4list_element l)].
Definition acipv6list_elements (addresses : option (list (list Z))) (own : AcIPv6List.capwap_acipv6list_element)
    : list message_element :=
  let l := default (AcIPv6List.addresses own) addresses in
  if bool_decide (l = []) then [] else [element K_acipv6list (AcIPv6List.Build_capwap_acipv6list_element l)].

(** The addresses of a family in the list a document has under a name. *)
Definition document_addresses (family : sockaddr_capwap -> option (list Z)) (key : string) (jsonroot : json)
    : option (list (list Z)) :=
  match get_array jsonroot key with
  | Some l => Some (omap (fun j => match entry_address j with Some a => family a | None => None end) l)
  | None => None
  end.

(** The radios of the document and, for the radios it does not name, those of
    the request. *)
Fixpoint add_radioinformation (w : ac_json_ieee80211_wtpradio)
    (l : list WtpRadioInformation.capwap_80211_wtpradioinformation_element) : option ac_json_ieee80211_wtpradio :=
  match l with
  | [] => Some w
  | d :: l =>
      '(_, w) ← ac_json_ieee80211_addmessageelement w (element K_80211_wtpradioinformation d) false;
      add_radioinformation w l
  end.

Definition join_radios (packet : parsed_packet) (jsonroot : json) (tx : capwap_packet_txmng)
    : option capwap_packet_txmng :=
  if pp_binding packet =? CAPWAP_WIRELESS_BINDING_IEEE80211 then
    w ← (match compat_json_object_object_get jsonroot IEEE80211_BINDING_JSON_ROOT with
         | Some j => snd <$> ac_json_ieee80211_parsingjson ac_json_ieee80211_init j
         | None => Some ac_json_ieee80211_init
         end);
    radios ← all_of K_80211_wtpradioinformation (pp_messages packet);
    w ← add_radioinformation w radios;
    ac_json_ieee80211_buildpacket w tx
  else Some tx.

Definition local_element (a : sockaddr_capwap) : list message_element :=
  match a with
  | Inet x _ => [element K_localipv4 (LocalIPv4.Build_capwap_localipv4_element x)]
  | Inet6 x _ => [element K_localipv6 (LocalIPv6.Build_capwap_localipv6_element x)]
  | OtherFamily => []
  end.

(** The elements after the radios. *)
Definition join_elements (s : ac_session_t) (jsonroot : json) : list message_element :=
  [element K_ecnsupport (ecn (dfa s))] ++
  (ac_get_control_information ac (zlen (all_sessions ac s)) ≫= control_element) ++
  local_element (localaddr (dtls s)) ++
  acipv4list_elements (document_addresses inet_address "ACIPv4List" jsonroot) (acipv4list (dfa s)) ++
  acipv6list_elements (document_addresses inet6_address "ACIPv6List" jsonroot) (acipv6list (dfa s)) ++
  [element K_transport (transport (dfa s))].

Definition ac_dfa_state_join_create_response (packet : parsed_packet) (response : ac_soap_response)
    (tx : capwap_packet_txmng) : MS (Z * capwap_packet_txmng) :=
  jsonroot <- ac_soapclient_parse_json_response response;;
  match jsonroot with
  | None => ret (CAPWAP_RESULTCODE_FAILURE, tx)
  | Some jsonroot =>
      s <- gets (fun s => s);;
      tx <- lift (add_to_packet tx
              [element K_acdescriptor (ac_update_statistics ac (zlen (all_sessions ac s)));
               element K_acname (acname ac)]);;
      tx <- lift (join_radios packet jsonroot tx);;
      tx <- lift (add_to_packet tx (join_elements s jsonroot));;
      ret (ResultCode.CAPWAP_RESULTCODE_SUCCESS, tx)
  end.

(** ** The handler *)

(** The checks of a Join Request; when it is accepted the session gets the
    identity of the WTP. *)
Definition join_authorize (packet : parsed_packet) : MS Z :=
  id <- lift (first_of K_sessionid (pp_messages packet));;
  used <- ac_has_sessionid ac (SessionId.id id);;
  if used : bool then ret CAPWAP_RESULTCODE_JOIN_FAILURE_ID_ALREADY_IN_USE else
  board <- lift (first_of K_wtpboarddata (pp_messages packet));;
  match ac_get_printable_wtpid board with
  | None => ret CAPWAP_RESULTCODE_JOIN_FAILURE_UNKNOWN_SOURCE
  | Some wtp =>
      known <- ac_has_wtpid ac wtp;;
      if known : bool then ret CAPWAP_RESULTCODE_JOIN_FAILURE_UNKNOWN_SOURCE else
      response <- ac_session_send_soap_request "authorizeWTPSession" [wtp];;
      let code := match response with
                  | Some response => ac_dfa_state_join_check_authorizejoin response
                  | None => CAPWAP_RESULTCODE_JOIN_FAILURE_UNKNOWN_SOURCE
                  end in
      when (ResultCode.CAPWAP_RESULTCODE_OK code)
        (update (set_wtpid (Some wtp));;
         update (set_sessionid (SessionId.id id));;
         update (set_binding (pp_binding packet)));;
      ret code
  end.

Definition join_resultcode (packet : parsed_packet) : MS Z :=
  if negb (ac_valid_binding ac (pp_binding packet))
  then ret CAPWAP_RESULTCODE_JOIN_FAILURE_BINDING_NOT_SUPPORTED
  else if negb (cm_type (pp_ctrlmsg packet) =? CAPWAP_JOIN_REQUEST)
  then ret CAPWAP_RESULTCODE_MSG_UNEXPECTED_INVALID_CURRENT_STATE
  else join_authorize packet.

(** Without an answer to the document the code stays the one of the checks. *)
Definition join_response (packet : parsed_packet) (code : Z) (tx : capwap_packet_txmng)
    : MS (Z * capwap_packet_txmng) :=
  if ResultCode.CAPWAP_RESULTCODE_OK code then
    response <- ac_dfa_state_join_parsing_request packet;;
    match response with
    | Some response => ac_dfa_state_join_create_response packet response tx
    | None => ret (code, tx)
    end
  else ret (code, tx).

Definition ac_dfa_state_join (packet : parsed_packet) : MS unit :=
  code <- join_resultcode packet;;
  mtu <- gets session_mtu;;
  tx <- lift (create_ctrl_message (pp_binding packet) CAPWAP_JOIN_RESPONSE (cm_seq (pp_ctrlmsg packet)) mtu);;
  r <- join_response packet code tx;;
  tx <- lift (add_to_packet r.2 [resultcode_element r.1]);;
  sent <- send_response tx (pp_ctrlmsg packet);;
  if sent && ResultCode.CAPWAP_RESULTCODE_OK r.1 then
    ac_dfa_change_state CAPWAP_POSTJOIN_STATE;;
    set_control_timer fuel now AC_JOIN_INTERVAL TeardownTimeout
  else ac_session_teardown fuel.

End Join.
