(* ===== verification/AcDfaConfigure.v ===== *)
(** The Configure state (src/ac/ac_dfa_configure.c): the back end is told the
    state of the WTP and its radios, and says how to configure them. *)
From stdpp Require Import option list strings.
From S2P Require Import Prelude Io Header CapwapArray Timeout CapwapHash.
From S2P Require Import ElementsAcList ElementsAc ElementsControl ElementsImage ElementsWtp ElementsWtpDesc.
From S2P Require Import Elements80211a Elements80211b Element Tx Rx Packet Base64 Json AcJson Ieee80211 Ieee80211Frame.
From S2P Require Import AcWorld AcSession AcActions AcDfaJoin.
#[local] Open Scope Z_scope.

Section Configure.
Context {I : Indeterminate} {T : Target} {C : CharSign} {E : Environment}.
Context (fuel : nat) (now : timeval) (ac : ac_t).

(** ** What the back end is told *)

Definition radioadm_json (x : RadioAdmState.capwap_radioadmstate_element) : json :=
  json_object [("RadioID"%string, json_object_new_int (RadioAdmState.radioid x));
               ("AdminState"%string, json_object_new_int (RadioAdmState.state x))].

Definition acname_json (x : AcNamePriority.capwap_acnamepriority_element) : json :=
  json_object [("Priority"%string, json_object_new_int (AcNamePriority.priority x));
               ("ACName"%string, json_object_new_string (AcNamePriority.name x))].

Definition staticip_json (x : WtpStaticIpAddress.capwap_wtpstaticipaddress_element) : json :=
  json_object
    [("IPAddress"%string, json_object_new_string (inet_ntop (WtpStaticIpAddress.address x) ++ [0]));
     ("Netmask"%string, json_object_new_string (inet_ntop (WtpStaticIpAddress.netmask x) ++ [0]));
     ("Gateway"%string, json_object_new_string (inet_ntop (WtpStaticIpAddress.gateway x) ++ [0]));
     ("Static"%string, json_object_new_int (WtpStaticIpAddress.staticip x))].

Definition acnames_json (l : list AcNamePriority.capwap_acnamepriority_element) : json :=
  JArray (acname_json <$> l).

Definition configure_document (packet : parsed_packet) : option (option json) :=
  let messages := pp_messages packet in
  adm ← all_of K_radioadmstate messages;
  timer ← first_of K_statisticstimer messages;
  reboot ← first_of K_wtprebootstat messages;
  let jsonparam := json_object
    [("RadioAdministrativeState"%string, JArray (radioadm_json <$> adm));
     ("StatisticsTimer"%string,
        json_object [("StatisticsTimer"%string, json_object_new_int (StatisticsTimer.timer timer))]);
     ("WTPRebootStatistics"%string, rebootstat_json reboot)] in
  let names := match all_of K_acnamepriority messages with Some [] => None | o => o end in
  let jsonparam := optional_entry "ACNamePriority" acnames_json names jsonparam in
  let jsonparam := optional_entry "WTPStaticIPAddressInformation" staticip_json
                     (first_of K_wtpstaticipaddress messages) jsonparam in
  binding_json (pp_binding packet) messages jsonparam.

Definition ac_dfa_state_configure_parsing_request (packet : parsed_packet) : MS (option ac_soap_response) :=
  send_document "configureStatusWTPSession" (configure_document packet).

(** ** What the back end says *)

(** A number of a section of the document, when it is in range, instead of the
    one of the session. *)
Definition overwrite (jsonroot : json) (section key : string) (limit own : Z) : Z :=
  match get_object jsonroot section with
  | None => own
  | Some j =>
      match get_int j key with
      | Some v => if (0 <? v) && (v <? limit) then v else own
      | None => own
      end
  end.

Definition response_timers (s : ac_session_t) (jsonroot : json) : message_element :=
  element K_timers (Timers.Build_capwap_timers_element
    (overwrite jsonroot "CAPWAPTimers" "Discovery" 256 (Timers.discovery (timers (dfa s))))
    (overwrite jsonroot "CAPWAPTimers" "EchoRequest" 256 (Timers.echorequest (timers (dfa s))))).

(** The interval an entry gives to a radio. *)
Definition entry_interval (radioid : Z) (jsonvalue : json) : option Z :=
  match get_int jsonvalue "RadioID" with
  | Some v =>
      if (0 <? v) && (v <? 256) && (v =? radioid) then
        match get_int jsonvalue "ReportInterval" with
        | Some v => if (0 <? v) && (v <? 65536) then Some v else None
        | None => None
        end
      else None
  | None => None
  end.

(** The loop [for (j = 0; j < length; j++)] reads the entry [i] in every turn,
    [i] being the number of the radio in the request. *)
Definition report_interval (entries : option (list json)) (i : nat) (radioid own : Z) : Z :=
  match entries with
  | None => own
  | Some l =>
      match l !! i with
      | Some jsonvalue => if 0 <? zlen l then default own (entry_interval radioid jsonvalue) else own
      | None => own
      end
  end.

Fixpoint report_elements (entries : option (list json)) (own : Z) (i : nat)
    (l : list RadioAdmState.capwap_radioadmstate_element) : list message_element :=
  match l with
  | [] => []
  | x :: l =>
      element K_decrypterrorreportperiod (DecryptErrorReportPeriod.Build_capwap_decrypterrorreportperiod_element
        (RadioAdmState.radioid x) (report_interval entries i (RadioAdmState.radioid x) own)) ::
      report_elements entries own (S i) l
  end.

(** [value > 0] is the only condition on the idle timeout; a number of JSON is an
    [int]. *)
Definition response_idletimeout (s : ac_session_t) (jsonroot : json) : message_element :=
  element K_idletimeout (IdleTimeout.Build_capwap_idletimeout_element
    (overwrite jsonroot "IdleTimeout" "Timeout" 2147483648 (IdleTimeout.timeout (idletimeout (dfa s))))).

Definition response_wtpfallback (s : ac_session_t) (jsonroot : json) : message_element :=
  element K_wtpfallback (WtpFallback.Build_capwap_wtpfallback_element
    (overwrite jsonroot "WTPFallback" "Mode" 256 (WtpFallback.mode (wtpfallback (dfa s))))).

(** The lists of addresses: each turn of the loop reads the entry [i], [i] being
    the number of radios, left there by the loop above. *)
Definition addresses_at (family : sockaddr_capwap -> option (list Z)) (key : string) (i : nat) (jsonroot : json)
    : option (list (list Z)) :=
  match get_array jsonroot key with
  | None => None
  | Some l =>
      Some (match l !! i with
            | Some j =>
                match entry_address j with
                | Some a => match family a with Some x => replicate (length l) x | None => [] end
                | None => []
                end
            | None => []
            end)
  end.

(** An IPv4 address in a section. *)
Definition section_inet (j : json) (key : string) : option (list Z) :=
  s ← get_string j key; a ← capwap_address_from_string (cstr (s ++ [0])); inet_address a.

Definition staticip_elements (jsonroot : json) : list message_element :=
  match (j ← get_object jsonroot "WTPStaticIPAddressInformation";
         address ← section_inet j "IPAddress";
         netmask ← section_inet j "Netmask";
         gateway ← section_inet j "Gateway";
         value ← get_int j "Static";
         Some (WtpStaticIpAddress.Build_capwap_wtpstaticipaddress_element address netmask gateway (wrap8 value)))
  with
  | Some x => [element K_wtpstaticipaddress x]
  | None => []
  end.

Definition configure_elements (s : ac_session_t) (adm : list RadioAdmState.capwap_radioadmstate_element)
    (jsonroot : json) : list message_element :=
  [response_timers s jsonroot] ++
  report_elements (get_array jsonroot "DecryptionErrorReportPeriod") (decrypterrorreport_interval (dfa s)) 0 adm ++
  [response_idletimeout s jsonroot; response_wtpfallback s jsonroot] ++
  acipv4list_elements (addresses_at inet_address "ACIPv4List" (length adm) jsonroot) (acipv4list (dfa s)) ++
  acipv6list_elements (addresses_at inet6_address "ACIPv6List" (length adm) jsonroot) (acipv6list (dfa s)) ++
  staticip_elements jsonroot.

(** The rates of a radio, copied into its device; [None] past the array. *)
Definition device_rates (item : ac_json_ieee80211_item) (d : ac_device) : option ac_device :=
  if valid item then
    match rateset item, AcJson.supportedrates item with
    | Some r, _ =>
        rates ← Array.store 0 (take (Z.to_nat (RateSet.ratesetcount r)) (RateSet.rateset r)) (dev_supportedrates d);
        Some (Device (radioid d) (wlans d) (RateSet.ratesetcount r) rates)
    | None, Some r =>
        rates ← Array.store 0 (take (Z.to_nat (SupportedRates.supportedratescount r))
                                 (SupportedRates.supportedrates r)) (dev_supportedrates d);
        Some (Device (radioid d) (wlans d) (SupportedRates.supportedratescount r) rates)
    | None, None => Some d
    end
  else Some d.

Fixpoint devices_rates (items : list ac_json_ieee80211_item) (l : list ac_device) : option (list ac_device) :=
  match items, l with
  | item :: items, d :: l => d ← device_rates item d; l ← devices_rates items l; Some (d :: l)
  | _, _ => Some l
  end.

Definition ac_dfa_state_configure_set_radio_configuration (w : ac_json_ieee80211_wtpradio) : MS unit :=
  x <- gets wlans_of_session;;
  l <- lift (devices_rates w (devices x));;
  update (set_wlans_of_session (set_devices l x)).

(** The elements of the radios, and the rates the session keeps. *)
Definition configure_radios (packet : parsed_packet) (jsonroot : json) (tx : capwap_packet_txmng)
    : MS capwap_packet_txmng :=
  if pp_binding packet =? CAPWAP_WIRELESS_BINDING_IEEE80211 then
    match compat_json_object_object_get jsonroot IEEE80211_BINDING_JSON_ROOT with
    | None => ret tx
    | Some j =>
        r <- lift (ac_json_ieee80211_parsingjson ac_json_ieee80211_init j);;
        if r.1 =? 0 then ret tx else
        tx <- lift (ac_json_ieee80211_buildpacket r.2 tx);;
        ac_dfa_state_configure_set_radio_configuration r.2;;
        ret tx
    end
  else ret tx.

Definition ac_dfa_state_configure_create_response (packet : parsed_packet) (response : ac_soap_response)
    (tx : capwap_packet_txmng) : MS (Z * capwap_packet_txmng) :=
  jsonroot <- ac_soapclient_parse_json_response response;;
  match jsonroot with
  | None => ret (CAPWAP_RESULTCODE_FAILURE, tx)
  | Some jsonroot =>
      s <- gets (fun s => s);;
      adm <- lift (all_of K_radioadmstate (pp_messages packet));;
      tx <- lift (add_to_packet tx (configure_elements s adm jsonroot));;
      tx <- configure_radios packet jsonroot tx;;
      ret (ResultCode.CAPWAP_RESULTCODE_SUCCESS, tx)
  end.

(** ** The handler *)

(** The result code is added only to a refusal. *)
Definition add_failure (code : Z) (tx : capwap_packet_txmng) : option capwap_packet_txmng :=
  if ResultCode.CAPWAP_RESULTCODE_OK code then Some tx else add_to_packet tx [resultcode_element code].

Definition ac_dfa_state_configure (packet : parsed_packet) : MS unit :=
  mtu <- gets session_mtu;;
  tx <- lift (create_ctrl_message (pp_binding packet) CAPWAP_CONFIGURATION_STATUS_RESPONSE
                (cm_seq (pp_ctrlmsg packet)) mtu);;
  response <- ac_dfa_state_configure_parsing_request packet;;
  r <- match response with
       | Some response => ac_dfa_state_configure_create_response packet response tx
       | None => ret (CAPWAP_RESULTCODE_FAILURE, tx)
       end;;
  tx <- lift (add_failure r.1 r.2);;
  send_response tx (pp_ctrlmsg packet);;
  if ResultCode.CAPWAP_RESULTCODE_OK r.1 then
    ac_dfa_change_state CAPWAP_DATA_CHECK_STATE;;
    set_control_timer fuel now AC_CHANGE_STATE_PENDING_INTERVAL TeardownTimeout
  else ac_session_teardown fuel.

(** [ac_dfa_state_imagedata] (src/ac/ac_dfa_imagedata.c) *)
Definition ac_dfa_state_imagedata (packet : parsed_packet) : MS unit := ac_session_teardown fuel.

(** [ac_dfa_state_postjoin] (src/ac/ac_dfa_join.c) *)
Definition ac_dfa_state_postjoin (packet : parsed_packet) : MS unit :=
  if cm_type (pp_ctrlmsg packet) =? CAPWAP_CONFIGURATION_STATUS_REQUEST then
    ac_dfa_change_state CAPWAP_CONFIGURE_STATE;;
    ac_dfa_state_configure packet
  else if cm_type (pp_ctrlmsg packet) =? CAPWAP_IMAGE_DATA_REQUEST then
    ac_dfa_change_state CAPWAP_IMAGE_DATA_STATE;;
    ac_dfa_state_imagedata packet
  else ac_session_teardown fuel.

End Configure.
