(* ===== verification/AcRun.v ===== *)
(** The states from Data Check to the end of a session (src/ac/ac_dfa_datacheck.c,
    ac_dfa_run.c, ac_dfa_reset.c, ac_dfa_teardown.c), and the thread of a session
    (src/ac/ac_session.c): it takes an action or a packet, collects the fragments of
    a message, decodes and checks it and gives it to the handler of its state, until
    the session is torn down. *)
From stdpp Require Import option list strings.
From S2P Require Import Prelude Io Header CapwapArray Timeout CapwapHash ElementsAc ElementsControl.
From S2P Require Import ElementsImage Elements80211a Elements80211b Element Tx Rx Packet Base64.
From S2P Require Import Json AcJson AcWorld AcWlans AcIeee80211 AcSession AcActions AcDfaJoin.
From S2P Require Import AcDfaConfigure Validate.
#[local] Open Scope Z_scope.

Section Run.
Context {I : Indeterminate} {T : Target} {C : CharSign} {E : Environment}.
Context (fuel : nat) (now : timeval).

(** ** Data Check *)

Definition radioops_json (x : RadioOprState.capwap_radiooprstate_element) : json :=
  json_object [("RadioID"%string, json_object_new_int (RadioOprState.radioid x));
               ("State"%string, json_object_new_int (RadioOprState.state x));
               ("Cause"%string, json_object_new_int (RadioOprState.cause x))].

Definition datacheck_document (packet : parsed_packet) : option (option json) :=
  let messages := pp_messages packet in
  ops ← all_of K_radiooprstate messages;
  code ← first_of K_resultcode messages;
  binding_json (pp_binding packet) messages
    (json_object
       [("RadioOperationalState"%string, JArray (radioops_json <$> ops));
        ("ResultCode"%string, json_object [("Code"%string, json_object_new_int (as_int (ResultCode.code code)))]);
        ("ReturnedMessageElement"%string, JArray [])]).

Definition ac_dfa_state_datacheck_parsing_request (packet : parsed_packet) : MS (option ac_soap_response) :=
  send_document "changeStateWTPSession" (datacheck_document packet).

Definition ac_dfa_state_datacheck_create_response (response : ac_soap_response) : MS Z :=
  jsonroot <- ac_soapclient_parse_json_response response;;
  ret (match jsonroot with
       | None => CAPWAP_RESULTCODE_FAILURE
       | Some _ => ResultCode.CAPWAP_RESULTCODE_SUCCESS
       end).

(** The answer of the back end, then the data session in the kernel module. *)
Definition datacheck_result (response : option ac_soap_response) : MS Z :=
  match response with
  | None => ret CAPWAP_RESULTCODE_FAILURE
  | Some response =>
      result <- ac_dfa_state_datacheck_create_response response;;
      if ResultCode.CAPWAP_RESULTCODE_OK result then
        s <- gets (fun s => s);;
        r <- kmod (KmodNewDataSession (wrap8 (binding s)) (session_mtu s));;
        ret (if negb (r =? 0) then CAPWAP_RESULTCODE_FAILURE else result)
      else ret result
  end.

(** The type of the message is not looked at. *)
Definition ac_dfa_state_datacheck (packet : parsed_packet) : MS unit :=
  mtu <- gets session_mtu;;
  tx <- lift (create_ctrl_message (pp_binding packet) CAPWAP_CHANGE_STATE_EVENT_RESPONSE
                (cm_seq (pp_ctrlmsg packet)) mtu);;
  response <- ac_dfa_state_datacheck_parsing_request packet;;
  result <- datacheck_result response;;
  tx <- lift (add_failure result tx);;
  send_response tx (pp_ctrlmsg packet);;
  if ResultCode.CAPWAP_RESULTCODE_OK result then
    ac_dfa_change_state CAPWAP_DATA_CHECK_TO_RUN_STATE;;
    set_control_timer fuel now AC_DATA_CHECK_INTERVAL TeardownTimeout;;
    set_keepalive_timer fuel now AC_MAX_DATA_KEEPALIVE_INTERVAL TeardownTimeout
  else ac_session_teardown fuel.

(** ** Run *)

(** 0 when the back end confirms the session; the response is kept even when it
    could not be sent. *)
Definition receive_echo_request (packet : parsed_packet) : MS Z :=
  response <- soap_of_wtp "checkWTPSession" [];;
  if match response with Some response => answers_true response | None => false end then
    mtu <- gets session_mtu;;
    tx <- lift (create_ctrl_message (pp_binding packet) CAPWAP_ECHO_RESPONSE (cm_seq (pp_ctrlmsg packet)) mtu);;
    send_response tx (pp_ctrlmsg packet);;
    ret 0
  else ret (-1).

(** The request that waits for its answer, decoded; NULL when there is none. *)
Definition pending_request : MS (option (Z * list capwap_message_element_itemlist)) :=
  request <- gets requestfragmentpacket;;
  rx <- lift (capwap_packet_rxmng_create_from_requestfragmentpacket request);;
  match rx with
  | None => ret None
  | Some rx =>
      r <- lift (value_of (capwap_parsing_packet fuel rx));;
      ret (Some r.1)
  end.

(** The radio gave the network its BSSID. *)
Definition execute_ieee80211_wlan_configuration_addwlan
    (packet : parsed_packet) (request : list capwap_message_element_itemlist) : MS unit :=
  addwlan <- lift (first_of K_80211_addwlan request);;
  match first_of K_80211_assignbssid (pp_messages packet) with
  | None => ret tt
  | Some a =>
      if (AssignBssid.radioid a =? AddWlan.radioid addwlan) && (AssignBssid.wlanid a =? AddWlan.wlanid addwlan) then
        r <- kmod (KmodAddWlan (AssignBssid.radioid a) (AssignBssid.wlanid a) (AssignBssid.bssid a)
                     (AddWlan.macmode addwlan) (AddWlan.tunnelmode addwlan));;
        if r =? 0 then
          x <- lift (ac_wlans_create_bssid (AssignBssid.wlanid a) (AssignBssid.bssid a) addwlan);;
          in_world (ac_wlans_assign_bssid (AssignBssid.radioid a) x);;
          ret tt
        else ret tt
      else ret tt
  end.

(** Updating and deleting a network do nothing. *)
Definition receive_ieee80211_wlan_configuration_response (packet : parsed_packet) : MS unit :=
  code <- lift (first_of K_resultcode (pp_messages packet));;
  (if ResultCode.CAPWAP_RESULTCODE_OK (ResultCode.code code) then
     request <- pending_request;;
     match request with
     | None => ret tt
     | Some (r, request) =>
         if (r =? PARSING_COMPLETE) && bool_decide (is_Some (capwap_get_message_element request (kind_id K_80211_addwlan)))
         then execute_ieee80211_wlan_configuration_addwlan packet request
         else ret tt
     end
   else ret tt);;
  ac_free_reference_last_request.

Definition station_response_addstation (packet : parsed_packet) (request : list capwap_message_element_itemlist)
    : MS unit :=
  code <- lift (first_of K_resultcode (pp_messages packet));;
  addstation <- lift (first_of K_addstation request);;
  if pp_binding packet =? CAPWAP_WIRELESS_BINDING_IEEE80211 then
    match first_of K_80211_station request with
    | None => ret tt
    | Some st =>
        in_world (execute_ieee80211_station_configuration_response_addstation fuel (Station.radioid st)
                    (Station.wlanid st) (AddStation.address addstation) (ResultCode.code code))
    end
  else ret tt.

Definition station_response_deletestation (packet : parsed_packet) (request : list capwap_message_element_itemlist)
    : MS unit :=
  lift (first_of K_resultcode (pp_messages packet));;
  d <- lift (first_of K_deletestation request);;
  in_world (execute_ieee80211_station_configuration_response_deletestation fuel (DeleteStation.radioid d)
              (DeleteStation.address d)).

(** There must be a request: it is decoded without looking. *)
Definition receive_ieee80211_station_configuration_response (packet : parsed_packet) : MS unit :=
  request <- pending_request;;
  request <- lift request;;
  (if request.1 =? PARSING_COMPLETE then
     if bool_decide (is_Some (capwap_get_message_element request.2 (kind_id K_addstation)))
     then station_response_addstation packet request.2
     else if bool_decide (is_Some (capwap_get_message_element request.2 (kind_id K_deletestation)))
     then station_response_deletestation packet request.2
     else ret tt
   else ret tt);;
  ac_free_reference_last_request.

Definition set_echo_timer : MS unit := set_control_timer fuel now AC_MAX_ECHO_INTERVAL TeardownTimeout.

(** The messages that only set the timer. *)
Definition run_noted (type : Z) : bool :=
  (type =? CAPWAP_CONFIGURATION_UPDATE_RESPONSE) || (type =? CAPWAP_CHANGE_STATE_EVENT_REQUEST) ||
  (type =? CAPWAP_CLEAR_CONFIGURATION_RESPONSE) || (type =? CAPWAP_WTP_EVENT_REQUEST) ||
  (type =? CAPWAP_DATA_TRANSFER_REQUEST) || (type =? CAPWAP_DATA_TRANSFER_RESPONSE).

Definition run_message (packet : parsed_packet) : MS unit :=
  let type := cm_type (pp_ctrlmsg packet) in
  if run_noted type then set_echo_timer
  else if type =? CAPWAP_ECHO_REQUEST then
    r <- receive_echo_request packet;;
    if r =? 0 then set_echo_timer else ac_session_teardown fuel
  else if type =? CAPWAP_STATION_CONFIGURATION_RESPONSE then
    receive_ieee80211_station_configuration_response packet;; set_echo_timer
  else if type =? CAPWAP_IEEE80211_WLAN_CONFIGURATION_RESPONSE then
    receive_ieee80211_wlan_configuration_response packet;; set_echo_timer
  else ret tt.

(** A response is looked at when its number is that of the last request, and the
    number is used up. *)
Definition ac_dfa_state_run (packet : parsed_packet) : MS unit :=
  let c := pp_ctrlmsg packet in
  seq <- gets localseqnumber;;
  if capwap_is_request_type (cm_type c) || (seq =? cm_seq c) then
    when (negb (capwap_is_request_type (cm_type c))) (update (set_localseqnumber (wrap8 (seq + 1))));;
    run_message packet
  else ret tt.

(** ** Reset *)

Definition ac_dfa_state_reset (packet : parsed_packet) : MS unit :=
  s <- gets (fun s => s);;
  let c := pp_ctrlmsg packet in
  if (pp_binding packet =? binding s) && (cm_type c =? CAPWAP_RESET_RESPONSE) && (localseqnumber s =? cm_seq c) then
    update (set_localseqnumber (wrap8 (localseqnumber s + 1)));;
    ac_free_reference_last_request;;
    ac_session_teardown fuel
  else ret tt.

(** ** The end *)

Definition ac_dfa_state_teardown : MS unit :=
  id <- gets wtpid;;
  match id with
  | Some _ => soap_of_wtp "teardownWTPSession" [];; ret tt
  | None => ret tt
  end;;
  ac_dfa_change_state CAPWAP_DEAD_STATE.

End Run.

Definition CAPWAP_RESULTCODE_MSG_UNEXPECTED_UNRECOGNIZED_REQUEST : Z := 19.
Definition CAPWAP_RESULTCODE_FAILURE_MISSING_MANDATORY_MSG_ELEMENT : Z := 20.
Definition CAPWAP_RESULTCODE_FAILURE_UNRECOGNIZED_MESSAGE_ELEMENT : Z := 21.
Definition CAPWAP_MAX_PACKET_SIZE : Z := 65535.

Section Thread.
Context {I : Indeterminate} {T : Target} {C : CharSign} {E : Environment}.
Context (fuel : nat) (now : timeval) (ac : ac_t) (stale_length : Z).

(** ** The state machine *)

Definition ac_dfa_execute (packet : parsed_packet) : MS unit :=
  st <- gets state;;
  if st =? CAPWAP_DTLS_CONNECT_STATE then ac_session_teardown fuel
  else if st =? CAPWAP_JOIN_STATE then ac_dfa_state_join fuel now ac packet
  else if st =? CAPWAP_POSTJOIN_STATE then ac_dfa_state_postjoin fuel now packet
  else if st =? CAPWAP_IMAGE_DATA_STATE then ac_dfa_state_imagedata fuel packet
  else if st =? CAPWAP_CONFIGURE_STATE then ac_dfa_state_configure fuel now packet
  else if st =? CAPWAP_RESET_STATE then ac_dfa_state_reset fuel packet
  else if st =? CAPWAP_DATA_CHECK_STATE then ac_dfa_state_datacheck fuel now packet
  else if st =? CAPWAP_RUN_STATE then ac_dfa_state_run fuel now packet
  else ac_session_teardown fuel.

(** ** A message *)

(** The event that waits for a message.  The two kinds of message have the same
    number, so that any event of that number is taken. *)
Definition notify_message (request : bool) (messages : list capwap_message_element_itemlist) : MS unit :=
  let status :=
    if request then SOAP_EVENT_STATUS_COMPLETE
    else match first_of K_resultcode messages with
         | Some r => if ResultCode.CAPWAP_RESULTCODE_OK (ResultCode.code r) then SOAP_EVENT_STATUS_COMPLETE
                     else SOAP_EVENT_STATUS_GENERIC_ERROR
         | None => SOAP_EVENT_STATUS_COMPLETE
         end in
  notify_event (fun e =>
    (request && (notify_action e =? NOTIFY_ACTION_RECEIVE_REQUEST_CONTROLMESSAGE)) ||
    (negb request && (notify_action e =? NOTIFY_ACTION_RECEIVE_RESPONSE_CONTROLMESSAGE))) status.

(** A message that is decoded: it must have its mandatory elements. *)
Definition parsed_message (rx : capwap_packet_rxmng) (messages : list capwap_message_element_itemlist) : MS unit :=
  let c := rx_ctrlmsg rx in
  let binding := GET_WBID_HEADER (rx_header rx) in
  if capwap_validate_parsed_packet messages (cm_type c) binding =? 0 then
    notify_message (capwap_is_request_type (cm_type c)) messages;;
    ac_dfa_execute (Parsed binding c messages)
  else when (capwap_is_request_type (cm_type c))
         (ac_send_invalid_request rx CAPWAP_RESULTCODE_FAILURE_MISSING_MANDATORY_MSG_ELEMENT).

(** [capwap_free_parsed_packet] of a structure that was not written: its two
    pointers are what the memory holds, and must be null. *)
Definition free_unwritten_packet : MS unit := guard (indet =? 0).

Definition new_message (rx : capwap_packet_rxmng) : MS unit :=
  let c := rx_ctrlmsg rx in
  let res := capwap_check_message_type rx in
  if res =? VALID_MESSAGE_TYPE then
    r <- lift (value_of (capwap_parsing_packet fuel rx));;
    if r.1.1 =? PARSING_COMPLETE then parsed_message rx r.1.2
    else when ((r.1.1 =? UNRECOGNIZED_MESSAGE_ELEMENT) && capwap_is_request_type (cm_type c))
           (ac_send_invalid_request rx CAPWAP_RESULTCODE_FAILURE_UNRECOGNIZED_MESSAGE_ELEMENT)
  else
    when (res =? INVALID_REQUEST_MESSAGE_TYPE)
      (ac_send_invalid_request rx CAPWAP_RESULTCODE_MSG_UNEXPECTED_UNRECOGNIZED_REQUEST);;
    free_unwritten_packet.

(** A request with the type and the number of the last one answered is answered
    again in the same way. *)
Definition complete_message (rx : capwap_packet_rxmng) : MS unit :=
  let c := rx_ctrlmsg rx in
  s <- gets (fun s => s);;
  if capwap_is_request_type (cm_type c) && (remotetype s =? cm_type c) && (remoteseqnumber s =? cm_seq c) then
    capwap_crypt_sendto_fragmentpacket (responsefragmentpacket s);;
    free_unwritten_packet
  else new_message rx.

(** A packet of the control channel. *)
Definition receive_packet (b : list Z) : MS unit :=
  check <- lift (capwap_sanity_check CAPWAP_UNDEF_STATE b false);;
  if check =? CAPWAP_PLAIN_PACKET then
    rx <- gets rxmngpacket;;
    r <- lift (capwap_packet_rxmng_add_recv_packet (default capwap_packet_rxmng_create_message rx) b);;
    update (set_rxmngpacket (Some r.2));;
    if r.1 =? CAPWAP_RECEIVE_COMPLETE_PACKET then
      complete_message r.2;;
      update (set_rxmngpacket None)
    else when (negb (r.1 =? CAPWAP_REQUEST_MORE_FRAGMENT)) (update (set_rxmngpacket None))
  else ret tt.

(** ** A turn *)

(** A packet taken from the queue: the value returned, and the buffer. *)
Definition read_packet (p : ac_packet) : MS (Z * list Z) :=
  d <- gets dtls;;
  if negb (plainbuffer p) && dtls_enable d then
    r <- capwap_decrypt_packet (packet_buffer p);;
    d' <- gets dtls;;
    st <- gets state;;
    when ((r.1 =? CAPWAP_ERROR_AGAIN) &&
          match dtls_action_of d, dtls_action_of d' with ActionHandshake, ActionData => true | _, _ => false end &&
          (st =? CAPWAP_DTLS_CONNECT_STATE))
      (ac_dfa_change_state CAPWAP_JOIN_STATE;;
       set_control_timer fuel now AC_JOIN_INTERVAL TeardownTimeout);;
    ret r
  else
    let packetlength := zlen (packet_buffer p) in
    ret (if packetlength <=? CAPWAP_MAX_PACKET_SIZE then (packetlength, packet_buffer p) else (0, [])).

(** Nothing is queued: a timer that expired is run; otherwise the thread waits. *)
Definition wait_packet : MS (option (Z * list Z)) :=
  w <- gets wlans_of_session;;
  let r := capwap_timeout_getcoming (timeout w) now in
  update (set_wlans_of_session (set_timeout r.2 w));;
  if r.1 =? 0 then
    session_hasexpired fuel now;;
    ret (Some (AC_ERROR_TIMEOUT, []))
  else ret None.

(** [ac_network_read], one turn of its loop: nothing when it waits. *)
Definition ac_network_read : MS (option (Z * list Z)) :=
  s <- gets (fun s => s);;
  if negb (running s) then ret (Some (CAPWAP_ERROR_CLOSE, []))
  else match requestfragmentpacket s, actions s, packets s with
  | [], a :: rest, _ =>
      update (set_actions rest);;
      r <- ac_session_action_execute fuel now ac stale_length a;;
      ret (Some (r, []))
  | _, _, p :: rest =>
      update (set_packets rest);;
      r <- read_packet p;;
      ret (Some r)
  | _, _, [] => wait_packet
  end.

(** The body of the loop of [ac_session_run]. *)
Definition session_turn : MS unit :=
  r <- ac_network_read;;
  match r with
  | None => ret tt
  | Some (length, b) =>
      if length <? 0 then
        when ((length =? CAPWAP_ERROR_SHUTDOWN) || (length =? CAPWAP_ERROR_CLOSE)) (ac_session_teardown fuel)
      else if 0 <? length then receive_packet b
      else ret tt
  end.

(** What comes before the loop, and after it. *)
Definition session_begin : MS unit :=
  if enabledtls ac then
    ok <- ac_dtls_setup fuel now;;
    when (negb ok) (ac_session_teardown fuel)
  else
    ac_dfa_change_state CAPWAP_JOIN_STATE;;
    set_control_timer fuel now AC_JOIN_INTERVAL TeardownTimeout.

(** The references of the session are all released. *)
Definition ac_session_destroy : MS unit :=
  emit_output KmodDeleteDataSession;;
  update (set_packets []);;
  in_world (ac_wlans_destroy fuel).

Definition session_end : MS unit :=
  ac_dfa_state_teardown;;
  ac_session_destroy.

End Thread.

(** ** Runs

    The other threads add packets and actions to a session that is in the list,
    and ask it to end; between turns, and while it waits, in any order. *)

Inductive session_step {I : Indeterminate} {T : Target} {C : CharSign} {E : Environment} (fuel : nat)
    : ac_session_t -> ac_session_t -> Prop :=
| step_begin now ac s s' :
    state s = CAPWAP_IDLE_STATE -> session_begin fuel now ac s = Some (tt, s') -> session_step fuel s s'
| step_turn now ac stale_length s s' :
    state s <> CAPWAP_IDLE_STATE -> state s <> CAPWAP_DTLS_TEARDOWN_STATE -> state s <> CAPWAP_DEAD_STATE ->
    session_turn fuel now ac stale_length s = Some (tt, s') -> session_step fuel s s'
| step_end s s' :
    state s = CAPWAP_DTLS_TEARDOWN_STATE -> session_end fuel s = Some (tt, s') -> session_step fuel s s'
| step_packet p s : listed s = true -> session_step fuel s (set_packets (packets s ++ [p]) s)
| step_action a s s' : ac_session_send_action a s = Some (tt, s') -> session_step fuel s s'
| step_close s : listed s = true -> session_step fuel s (set_running false s).
