(* ===== verification/AcController.v ===== *)
(** The main thread of the controller (src/ac/ac_execute.c) and the discovery
    thread (src/ac/ac_discovery.c): a packet goes to the session of its sender,
    to discovery, or to a new session.  At the end, the concrete session of the
    witnesses: a controller, surroundings that agree to everything, and a WTP that
    joins, is configured, and runs. *)
From stdpp Require Import option list gmap strings.
From S2P Require Import Prelude Io Header CapwapArray Timeout CapwapHash ElementsAcList ElementsAc.
From S2P Require Import ElementsImage Elements80211b Element Tx Rx Packet Validate Base64 Json.
From S2P Require Import AcJson AcWorld AcWlans AcSession AcRun ElementsControl ElementsWtp.
From S2P Require Import ElementsWtpDesc Elements80211a Ieee80211 AcActions.
#[local] Open Scope Z_scope.

(** ** Addresses *)

(** 0 when the addresses and the ports are the same. *)
Definition capwap_compare_ip (addr1 addr2 : sockaddr_capwap) : Z :=
  match addr1, addr2 with
  | Inet a p, Inet b q | Inet6 a p, Inet6 b q => if bool_decide (a = b) && (p =? q) then 0 else -1
  | _, _ => -1
  end.

(** ** DTLS records *)

Definition SIZEOF_DTLS_LAYERS : Z := 14.
Definition DTLS_RECORD_LAYER_HANDSHAKE_CONTENT_TYPE : Z := 22.
Definition DTLS_1_0_VERSION : Z := 65279.
Definition DTLS_1_2_VERSION : Z := 65277.
Definition DTLS_HANDSHAKE_LAYER_CLIENT_HELLO : Z := 1.

Definition capwap_crypt_has_dtls_clienthello (b : list Z) : bool :=
  let version := val16 (byte_at b 1) (byte_at b 2) in
  (SIZEOF_DTLS_LAYERS <? zlen b) && (byte_at b 0 =? DTLS_RECORD_LAYER_HANDSHAKE_CONTENT_TYPE) &&
  ((version =? DTLS_1_0_VERSION) || (version =? DTLS_1_2_VERSION)) &&
  (byte_at b 13 =? DTLS_HANDSHAKE_LAYER_CLIENT_HELLO).

(** ** The controller *)

(** A packet that waits for the discovery thread, with its sender. *)
Record ac_discovery_packet := DiscoveryPacket { sender : sockaddr_capwap; discovery_data : list Z }.

(** [ac] is the part of [g_ac] that does not change; the controller numbers its
    sessions.  [authstations] are the stations of all sessions. *)
Record controller := Controller {
  ac_of : ac_t;
  sessions : list ac_session_t;
  next_id : Z;
  authstations : capwap_hash mac;
  owners : gmap mac Z;
  discovery_packets : list ac_discovery_packet
}.

Definition set_sessions (l : list ac_session_t) (c : controller) : controller :=
  Controller (ac_of c) l (next_id c) (authstations c) (owners c) (discovery_packets c).

Section Controller.
Context {I : Indeterminate} {T : Target}.

(** The settings of the controller, with the local address of the session when
    the controller has no addresses of its family. *)
Definition session_dfa (d : ac_state) (local : sockaddr_capwap) : ac_state :=
  let v4 := AcIPv4List.addresses (acipv4list d) in
  let v6 := AcIPv6List.addresses (acipv6list d) in
  AcState (ecn d) (transport d) (timers d) (decrypterrorreport_interval d) (idletimeout d) (wtpfallback d)
    (AcIPv4List.Build_capwap_acipv4list_element
       (match v4, local with [], Inet a _ => [a] | _, _ => v4 end))
    (AcIPv6List.Build_capwap_acipv6list_element
       (match v6, local with [], Inet6 a _ => [a] | _, _ => v6 end)).

Definition ac_create_session (c : controller) (fromaddr toaddr : sockaddr_capwap) : ac_session_t :=
  let '(control, t) := capwap_timeout_createtimer capwap_timeout_init in
  let '(keepalive, t) := capwap_timeout_createtimer t in
  {| running := true; listed := true; wtpid := None; state := CAPWAP_IDLE_STATE;
     dfa := session_dfa (ac_dfa (ac_of c)) toaddr; binding := 0; sessionid := zeros 16;
     session_mtu := ac_mtu (ac_of c); dtls := Dtls false ActionNone toaddr fromaddr;
     wlans_of_session := ac_wlans_init (next_id c) t (authstations c) (owners c);
     idtimercontrol := control; idtimerkeepalivedead := keepalive;
     actions := []; packets := []; notifyevent := []; fragmentid := 0; rxmngpacket := None;
     localseqnumber := 0; requestfragmentpacket := []; retransmitcount := 0; remotetype := 0;
     remoteseqnumber := 0; responsefragmentpacket := []; log := [] |}.

Definition add_session (s : ac_session_t) (c : controller) : controller :=
  Controller (ac_of c) (sessions c ++ [s]) (next_id c + 1) (authstations c) (owners c) (discovery_packets c).

(** [ac_session_add_packet]; an empty packet fails the assertion. *)
Definition ac_session_add_packet (b : list Z) (plain : bool) (s : ac_session_t) : option ac_session_t :=
  if negb (0 <? zlen b) then None else
  Some (set_packets (packets s ++ [AcPacket plain b]) s).

Definition ac_discovery_add_packet (b : list Z) (from : sockaddr_capwap) (c : controller) : controller :=
  Controller (ac_of c) (sessions c) (next_id c) (authstations c) (owners c)
    (discovery_packets c ++ [DiscoveryPacket from b]).

(** [ac_search_session_from_wtpaddress]: the place of the first session with the
    address. *)
Fixpoint ac_search_session_from_wtpaddress (address : sockaddr_capwap) (l : list ac_session_t) : option nat :=
  match l with
  | [] => None
  | s :: l =>
      if capwap_compare_ip address (peeraddr (dtls s)) =? 0 then Some O
      else S <$> ac_search_session_from_wtpaddress address l
  end.

(** The type of the message in a packet that is not fragmented, when there is
    room for a control header. *)
Definition control_type (b : list Z) : option Z :=
  if IS_FLAG_F_HEADER b then None else
  let headersize := GET_HLEN_HEADER b * 4 in
  if headersize + sizeof_capwap_control_message <=? zlen b
  then Some (val32 (byte_at b headersize) (byte_at b (headersize + 1)) (byte_at b (headersize + 2))
               (byte_at b (headersize + 3)))
  else None.

(** A packet whose sender has no session.  [None]: an assertion fails, the one
    of [capwap_sanity_check] on a packet of less than two bytes. *)
Definition unknown_sender (b : list Z) (from to : sockaddr_capwap) (c : controller) : option controller :=
  if negb (wrap16 (zlen (sessions c)) <? AcDescriptor.maxwtp (descriptor (ac_of c))) then Some c else
  check ← capwap_sanity_check CAPWAP_UNDEF_STATE b (enabledtls (ac_of c));
  let s := ac_create_session c from to in
  if check =? CAPWAP_PLAIN_PACKET then
    match control_type b with
    | None => Some c
    | Some type =>
        if type =? CAPWAP_DISCOVERY_REQUEST then Some (ac_discovery_add_packet b from c)
        else if negb (enabledtls (ac_of c)) && (type =? CAPWAP_JOIN_REQUEST)
        then s ← ac_session_add_packet b true s; Some (add_session s c)
        else Some c
    end
  else if check =? CAPWAP_DTLS_PACKET then
    if capwap_crypt_has_dtls_clienthello (drop (Z.to_nat sizeof_capwap_dtls_header) b)
    then s ← ac_session_add_packet b false s; Some (add_session s c)
    else Some c
  else Some c.

(** A packet of an existing session waits as it came, [plainbuffer] being 0. *)
Definition ac_dfa_process_packet (b : list Z) (from to : sockaddr_capwap) (c : controller) : option controller :=
  match ac_search_session_from_wtpaddress from (sessions c) with
  | Some i =>
      s ← sessions c !! i;
      s ← ac_session_add_packet b false s;
      Some (set_sessions (<[i := s]> (sessions c)) c)
  | None => unknown_sender b from to c
  end.

(** [ac_close_sessions] *)
Definition ac_close_sessions (c : controller) : controller :=
  set_sessions (set_running false <$> sessions c) c.

(** ** Discovery *)

Section Discovery.
Context (E : Environment) (fuel : nat).

(** The state of the discovery thread, with the datagrams it gave to the network
    and where to. *)
Record ac_discovery_t := Discovery { d_fragmentid : Z; d_sent : list (sockaddr_capwap * list Z) }.

(** [capwap_sendto_fragmentpacket] *)
Fixpoint capwap_sendto_fragmentpacket (to : sockaddr_capwap) (l : list capwap_fragment_packet_item)
    (sent : list (sockaddr_capwap * list Z)) : option (bool * list (sockaddr_capwap * list Z)) :=
  match l with
  | [] => Some (true, sent)
  | f :: l =>
      if offset f <=? 0 then None else
      let datagram := take (Z.to_nat (offset f)) (buffer f) in
      if sendto ((fun x => Send x.2) <$> sent) datagram <=? 0 then Some (false, sent ++ [(to, datagram)])
      else capwap_sendto_fragmentpacket to l (sent ++ [(to, datagram)])
  end.

(** The elements of a Discovery Response: the radios are those of the request. *)
Definition discovery_elements (ac : ac_t) (count : Z) (packet : parsed_packet) : option (list message_element) :=
  radios ← (if pp_binding packet =? CAPWAP_WIRELESS_BINDING_IEEE80211
            then all_of K_80211_wtpradioinformation (pp_messages packet) else Some []);
  Some ([element K_acdescriptor (ac_update_statistics ac count); element K_acname (acname ac)] ++
        (element K_80211_wtpradioinformation <$> radios) ++
        (ac_get_control_information ac count ≫= control_element)).

(** NULL for a binding that is not supported. *)
Definition ac_create_discovery_response (ac : ac_t) (count : Z) (packet : parsed_packet)
    : option (option capwap_packet_txmng) :=
  if negb (ac_valid_binding ac (pp_binding packet)) then Some None else
  tx ← create_ctrl_message (pp_binding packet) CAPWAP_DISCOVERY_RESPONSE (cm_seq (pp_ctrlmsg packet)) (ac_mtu ac);
  elements ← discovery_elements ac count packet;
  tx ← add_to_packet tx elements;
  Some (Some tx).

(** A message the discovery thread accepts: complete, of a known type, and valid. *)
Definition discovery_message (data : list Z) : option (option parsed_packet) :=
  '(check, rx) ← capwap_packet_rxmng_add_recv_packet capwap_packet_rxmng_create_message data;
  if negb (check =? CAPWAP_RECEIVE_COMPLETE_PACKET) || negb (capwap_check_message_type rx =? VALID_MESSAGE_TYPE)
  then Some None else
  '(r, messages, _) ← value_of (capwap_parsing_packet fuel rx);
  let binding := GET_WBID_HEADER (rx_header rx) in
  if (r =? PARSING_COMPLETE) && (capwap_validate_parsed_packet messages (cm_type (rx_ctrlmsg rx)) binding =? 0)
  then Some (Some (Parsed binding (rx_ctrlmsg rx) messages))
  else Some None.

(** One packet taken by [ac_discovery_run]. *)
Definition ac_discovery_turn (ac : ac_t) (count : Z) (p : ac_discovery_packet) (d : ac_discovery_t)
    : option ac_discovery_t :=
  m ← discovery_message (discovery_data p);
  match m with
  | None => Some d
  | Some packet =>
      r ← ac_create_discovery_response ac count packet;
      match r with
      | None => Some d
      | Some tx =>
          let response := capwap_packet_txmng_get_fragment_packets tx (d_fragmentid d) in
          let id := if 1 <? zlen response then wrap16 (d_fragmentid d + 1) else d_fragmentid d in
          '(_, sent) ← capwap_sendto_fragmentpacket (sender p) response (d_sent d);
          Some (Discovery id sent)
      end
  end.

End Discovery.

End Controller.

#[local] Existing Instances zero_memory lp64.

(** [char] is signed. *)
#[local] Instance sample_char : CharSign := true.

(** ** Surroundings that agree *)

(** [e30=] is the empty object. *)
Definition sample_answer (method : string) : ac_soap_response :=
  if bool_decide (method = "authorizeWTPSession"%string \/ method = "checkWTPSession"%string)
  then SoapResponse 200 (Some (Some (chars "true")))
  else SoapResponse 200 (Some (Some (chars "e30="))).

Definition sample_env : Environment := {|
  sendto := fun _ datagram => zlen datagram;
  wolfSSL_new := fun _ => true;
  wolfSSL_accept := fun _ _ => SslSuccess;
  wolfSSL_read := fun _ datagram => SslText datagram;
  soap := fun _ method _ => Some (sample_answer method);
  kmod_call := fun _ _ => 0;
  kmod_send := fun _ _ => 0;
  json_tokener_parse := fun _ => Some (JObject []);
  json_object_to_json_string := fun _ => chars "{}";
  getaddrinfo := fun _ _ _ => None;
  inet_ntop := fun _ => chars "127.0.0.1"
|}.
#[local] Existing Instance sample_env.

(** ** The controller *)

Definition sample_settings : ac_state :=
  AcState (EcnSupport.Build_capwap_ecnsupport_element 0) (Transport.Build_capwap_transport_element 2)
    (Timers.Build_capwap_timers_element 20 30) 120 (IdleTimeout.Build_capwap_idletimeout_element 300)
    (WtpFallback.Build_capwap_wtpfallback_element 1) (AcIPv4List.Build_capwap_acipv4list_element [])
    (AcIPv6List.Build_capwap_acipv6list_element []).

Definition sample_descriptor : AcDescriptor.capwap_acdescriptor_element :=
  {| AcDescriptor.stations := 0; AcDescriptor.stationlimit := 100; AcDescriptor.activewtp := 0;
     AcDescriptor.maxwtp := 10; AcDescriptor.security := 4; AcDescriptor.rmacfield := 2;
     AcDescriptor.dtlspolicy := 2;
     AcDescriptor.descsubelement := [AcDescriptor.Build_capwap_acdescriptor_desc_subelement 23456 4 4 [97; 98; 99; 100; 0];
                                     AcDescriptor.Build_capwap_acdescriptor_desc_subelement 23456 5 4 [97; 98; 99; 100; 0]] |}.

Definition sample_local : sockaddr_capwap := Inet [127; 0; 0; 1] 5246.
Definition sample_peer : sockaddr_capwap := Inet [127; 0; 0; 2] 6000.

Definition sample_ac : ac_t :=
  Ac false sample_settings 1400 [CAPWAP_WIRELESS_BINDING_IEEE80211] (AcName.Build_capwap_acname_element (chars "ac" ++ [0]))
    sample_descriptor [sample_local] [] (capwap_hash_create AC_IFDATACHANNEL_HASH_SIZE).

Definition sample_controller : controller :=
  Controller sample_ac [] 7 (capwap_hash_create AC_STATIONS_HASH_SIZE) ∅ [].

(** ** The WTP *)

(** A message of the WTP, in one packet. *)
Definition wtp_message (type seq : Z) (elements : list message_element) : list Z :=
  default []
    (tx ← create_ctrl_message CAPWAP_WIRELESS_BINDING_IEEE80211 type seq 1400;
     tx ← add_to_packet tx elements;
     f ← head (capwap_packet_txmng_get_fragment_packets tx 0);
     Some (take (Z.to_nat (offset f)) (buffer f))).

Definition radioinformation : message_element :=
  element K_80211_wtpradioinformation (WtpRadioInformation.Build_capwap_80211_wtpradioinformation_element 1 1).

Definition wtp_id : list Z := chars "02:00:00:00:00:05".

Definition join_request : list Z := wtp_message CAPWAP_JOIN_REQUEST 1
  [element K_location (Location.Build_capwap_location_element (chars "lab" ++ [0]));
   element K_wtpboarddata {| WtpBoardData.vendor := 23456;
     WtpBoardData.boardsubelement :=
       [WtpBoardData.Build_capwap_wtpboarddata_board_subelement 0 3 [49; 50; 51];
        WtpBoardData.Build_capwap_wtpboarddata_board_subelement 1 3 [49; 50; 51];
        WtpBoardData.Build_capwap_wtpboarddata_board_subelement 4 6 [2; 0; 0; 0; 0; 5]] |};
   element K_wtpdescriptor {| WtpDescriptor.maxradios := 1; WtpDescriptor.radiosinuse := 1;
     WtpDescriptor.encryptsubelement := [WtpDescriptor.Build_capwap_wtpdescriptor_encrypt_subelement 1 0];
     WtpDescriptor.descsubelement :=
       [WtpDescriptor.Build_capwap_wtpdescriptor_desc_subelement 23456 0 [49; 0];
        WtpDescriptor.Build_capwap_wtpdescriptor_desc_subelement 23456 1 [49; 0];
        WtpDescriptor.Build_capwap_wtpdescriptor_desc_subelement 23456 2 [49; 0]] |};
   element K_wtpname (WtpName.Build_capwap_wtpname_element (chars "wtp" ++ [0]));
   element K_sessionid (SessionId.Build_capwap_sessionid_element (replicate 16 3));
   element K_wtpframetunnelmode (WtpFrameTunnelMode.Build_capwap_wtpframetunnelmode_element 8);
   element K_wtpmactype (WtpMacType.Build_capwap_wtpmactype_element 1);
   element K_ecnsupport (EcnSupport.Build_capwap_ecnsupport_element 0);
   element K_localipv4 (LocalIPv4.Build_capwap_localipv4_element [127; 0; 0; 2]);
   radioinformation].

Definition configuration_request : list Z := wtp_message CAPWAP_CONFIGURATION_STATUS_REQUEST 2
  [element K_acname (AcName.Build_capwap_acname_element (chars "ac" ++ [0]));
   element K_radioadmstate (RadioAdmState.Build_capwap_radioadmstate_element 1 1);
   element K_statisticstimer (StatisticsTimer.Build_capwap_statisticstimer_element 120);
   element K_wtprebootstat (WtpRebootStat.Build_capwap_wtprebootstat_element 0 0 0 0 0 0 0 0);
   radioinformation].

Definition change_state_request : list Z := wtp_message CAPWAP_CHANGE_STATE_EVENT_REQUEST 3
  [element K_radiooprstate (RadioOprState.Build_capwap_radiooprstate_element 1 1 0); resultcode_element 0].

Definition echo_request (seq : Z) : list Z := wtp_message CAPWAP_ECHO_REQUEST seq [].

(** ** Its session *)

Definition sample_time : timeval := Timeval 1000 0.

(** A packet is added and the session takes a turn. *)
Definition receives (b : list Z) : MS unit :=
  s <- gets (fun s => s);;
  s <- lift (ac_session_add_packet b false s);;
  update (fun _ => s);;
  session_turn 3000 sample_time sample_ac 0.
Definition executes (a : ac_session_action) : MS unit :=
  ac_session_send_action a;; session_turn 3000 sample_time sample_ac 0.

Definition sample_start : ac_session_t := ac_create_session sample_controller sample_peer sample_local.

Definition left_by (m : MS unit) (s : ac_session_t) : ac_session_t :=
  match m s with Some (_, s) => s | None => s end.
