(* ===== verification/AcBackendThread.v ===== *)
(** The thread of the back end (src/ac/ac_backend.c): it joins one of the back
    ends of the configuration, waits for events, hands them to the sessions of
    the WTPs they name, and goes to the next back end when one is lost.

    A request of this thread is told by the back end it goes to, its method and
    its parameters; the answers are those of the class [Transport].  The lock of
    the back end is held by the thread while it is not connected: the sessions
    take it to build their requests ([ac_backend_createrequest_with_session]). *)
From stdpp Require Import option list gmap strings.
From S2P Require Import Prelude Io Header CapwapArray Timeout CapwapHash Elements80211a.
From S2P Require Import Element Packet Base64 Json AcWorld AcSession AcActions AcController.
#[local] Open Scope Z_scope.

Definition SOAP_EVENT_STATUS_RUNNING : list Z := [48].

(** [idevent] of [struct ac_session_notify_event_t] has room for 65 characters. *)
Definition IDEVENT_SIZE : Z := 65.

(** [struct ac_backend_t]; there is no request between two calls. *)
Record ac_backend_t := Backend {
  endthread : bool;
  activebackend : Z;
  backendstatus : bool;
  errorjoinbackend : Z;
  backendsessionid : option (list Z)
}.

(** A request, and the messages for the main thread. *)
Record soap_call := SoapCall { call_server : Z; call_method : string; call_params : list (list Z) }.
Inductive ac_session_msgqueue_item_t :=
| AC_MESSAGE_QUEUE_CLOSE_THREAD (threadid : Z)
| AC_MESSAGE_QUEUE_UPDATE_CONFIGURATION (jsonroot : json)
| AC_MESSAGE_QUEUE_CLOSE_ALLSESSIONS.

(** What the thread reads and writes: its own state, the sessions, the queue to
    the main thread, and the requests made so far. *)
Record backend_state := BackendState {
  backend : ac_backend_t;
  control : controller;
  msgqueue : list ac_session_msgqueue_item_t;
  calls : list soap_call
}.

(** [ac_soapclient_prepare_request], which makes a socket; the answer of a back
    end to a request, if there is one; and whether a message is put in the
    queue. *)
Class Transport := {
  prepare_request : list soap_call -> bool;
  recv_response : list soap_call -> soap_call -> option ac_soap_response;
  queue_send : list ac_session_msgqueue_item_t -> bool
}.

Definition set_backend (b : ac_backend_t) (x : backend_state) : backend_state :=
  BackendState b (control x) (msgqueue x) (calls x).
Definition set_backendsessionid (id : option (list Z)) (b : ac_backend_t) : ac_backend_t :=
  Backend (endthread b) (activebackend b) (backendstatus b) (errorjoinbackend b) id.

(** Programs of the thread. *)
Definition MB : Type -> Type := ST backend_state.

Section Backend.
Context {T : Target} {C : CharSign} {E : Environment} {X : Transport}.

Definition modify_backend (f : ac_backend_t -> ac_backend_t) : MB unit :=
  update (fun x => set_backend (f (backend x)) x).

(** [ac_soapclient_send_request] and [ac_soapclient_recv_response] *)
Definition exchange (method : string) (params : list (list Z)) : MB (option ac_soap_response) :=
  x <- gets (fun x => x);;
  let call := SoapCall (activebackend (backend x)) method params in
  update (fun x => BackendState (backend x) (control x) (msgqueue x) (calls x ++ [call]));;
  ret (recv_response (calls x) call).

(** A request that is not made when the thread is to end, or without a socket. *)
Definition request (method : string) (params : list (list Z)) : MB (option (option ac_soap_response)) :=
  x <- gets (fun x => x);;
  if negb (endthread (backend x)) && prepare_request (calls x)
  then r <- exchange method params;; ret (Some r)
  else ret None.

(** [ASSERT(g_ac_backend.backendsessionid != NULL)] *)
Definition session_of_backend : MB (list Z) :=
  x <- gets (fun x => x);; lift (backendsessionid (backend x)).

(** ** Events *)

Fixpoint ac_search_session_from_wtpid (id : list Z) (l : list ac_session_t) : option nat :=
  match l with
  | [] => None
  | s :: l =>
      if match wtpid s with Some w => bool_decide (w = id) | None => false end then Some O
      else S <$> ac_search_session_from_wtpid id l
  end.

(** [ac_session_send_action], in turn, to a session of the list. *)
Definition send_actions (i : nat) (l : list ac_session_action) : MB unit :=
  update (fun x => BackendState (backend x)
    (set_sessions (alter (fun s => set_actions (actions s ++ l) s) i (sessions (control x))) (control x))
    (msgqueue x) (calls x)).

(** [strcpy(notify.idevent, idevent)] and the two actions. *)
Definition notify_actions (i : nat) (id : list Z) (act st : Z) (a : ac_session_action) : MB Z :=
  guard (zlen id <? IDEVENT_SIZE);;
  send_actions i [AC_SESSION_ACTION_NOTIFY_EVENT (NotifyEvent id act st); a];;
  ret 0.

Definition ac_backend_parsing_closewtpsession_event (id : list Z) (jsonparams : json) : MB Z :=
  match get_string jsonparams "WTPId" with
  | None => ret (-1)
  | Some wtp =>
      x <- gets (fun x => x);;
      match ac_search_session_from_wtpid (cstr wtp) (sessions (control x)) with
      | None => ret (-1)
      | Some i => notify_actions i id NOTIFY_ACTION_CHANGE_STATE CAPWAP_DEAD_STATE AC_SESSION_ACTION_CLOSE
      end
  end.

Definition ac_backend_parsing_resetwtp_event (id : list Z) (jsonparams : json) : MB Z :=
  match get_string jsonparams "WTPId", get_object jsonparams "ImageIdentifier" with
  | Some wtp, Some jsonimage =>
      match get_int jsonimage "Vendor", get_string jsonimage "Data" with
      | Some vendor, Some data =>
          x <- gets (fun x => x);;
          match ac_search_session_from_wtpid (cstr wtp) (sessions (control x)), cstr data with
          | Some i, _ :: _ =>
              notify_actions i id NOTIFY_ACTION_CHANGE_STATE CAPWAP_DEAD_STATE
                (AC_SESSION_ACTION_RESET_WTP (wrap32 vendor) (cstr data))
          | _, _ => ret (-1)
          end
      | _, _ => ret (-1)
      end
  | _, _ => ret (-1)
  end.

(** The parameters of a network. *)
Definition addwlan_params (jsonparams : json) : option (list Z * ac_notify_addwlan_t) :=
  wtp ← get_string jsonparams "WTPID";
  radioid ← get_int jsonparams "RadioID";
  wlanid ← get_int jsonparams "WLANID";
  capability ← get_int jsonparams "Capability";
  qos ← get_int jsonparams "DefaultQoS";
  authmode ← get_int jsonparams "AuthType";
  macmode ← get_int jsonparams "MACMode";
  tunnelmode ← get_int jsonparams "TunnelMode";
  hidessid ← get_boolean jsonparams "SuppressSSID";
  ssid ← get_string jsonparams "SSID";
  if AddWlan.CAPWAP_ADD_WLAN_SSID_LENGTH <? Z.of_nat (strlen ssid) then None else
  Some (cstr wtp, NotifyAddWlan (wrap8 radioid) (wrap8 wlanid) (wrap16 capability) (wrap8 qos) (wrap8 authmode)
                    (wrap8 macmode) (wrap8 tunnelmode) (if hidessid : bool then 1 else 0) (capwap_duplicate_string ssid)).

Definition ac_backend_parsing_addwlan_event (id : list Z) (jsonparams : json) : MB Z :=
  match addwlan_params jsonparams with
  | None => ret (-1)
  | Some (wtp, addwlan) =>
      x <- gets (fun x => x);;
      match ac_search_session_from_wtpid wtp (sessions (control x)) with
      | None => ret (-1)
      | Some i =>
          notify_actions i id NOTIFY_ACTION_RECEIVE_RESPONSE_CONTROLMESSAGE
            CAPWAP_IEEE80211_WLAN_CONFIGURATION_RESPONSE (AC_SESSION_ACTION_ADDWLAN addwlan)
      end
  end.

Definition ac_backend_parsing_updatewlan_event (id : list Z) (jsonparams : json) : MB Z := ret (-1).
Definition ac_backend_parsing_deletewlan_event (id : list Z) (jsonparams : json) : MB Z := ret (-1).

(** The result is not looked at. *)
Definition ac_backend_soap_update_event (id status : list Z) : MB unit :=
  session <- session_of_backend;;
  request "updateBackendEvent" [session; id; status];;
  ret tt.

(** The action of an event, by its name. *)
Definition event_action (action id : list Z) (jsonparams : json) : MB Z :=
  if bool_decide (action = chars "CloseWTPSession") then ac_backend_parsing_closewtpsession_event id jsonparams
  else if bool_decide (action = chars "ResetWTP") then ac_backend_parsing_resetwtp_event id jsonparams
  else if bool_decide (action = chars "AddWLAN") then ac_backend_parsing_addwlan_event id jsonparams
  else if bool_decide (action = chars "UpdateWLAN") then ac_backend_parsing_updatewlan_event id jsonparams
  else if bool_decide (action = chars "DeleteWLAN") then ac_backend_parsing_deletewlan_event id jsonparams
  else ret (-1).

Definition ac_backend_parsing_event (jsonitem : json) : MB Z :=
  match get_string jsonitem "EventID", get_string jsonitem "Action", get_object jsonitem "Params" with
  | Some id, Some action, Some jsonparams =>
      result <- event_action (cstr action) (cstr id) jsonparams;;
      ac_backend_soap_update_event (cstr id)
        (if result =? 0 then SOAP_EVENT_STATUS_RUNNING else SOAP_EVENT_STATUS_GENERIC_ERROR);;
      ret result
  | _, _, _ => ret (-1)
  end.

(** The events of an answer, until one fails. *)
Fixpoint parsing_events (l : list json) (result : Z) : MB Z :=
  match l with
  | [] => ret result
  | jsonitem :: l =>
      if is_object jsonitem then
        result <- ac_backend_parsing_event jsonitem;;
        if negb (result =? 0) then ret result else parsing_events l result
      else parsing_events l result
  end.

(** ** Requests of the thread *)

(** The document of an answer. *)
Definition answer_document (r : option ac_soap_response) : MB (option json) :=
  match r with
  | Some response => ac_soapclient_parse_json_response response
  | None => ret None
  end.

(** The timeout of the request is set before it is known that there is one. *)
Definition ac_backend_soap_waitevent : MB Z :=
  session <- session_of_backend;;
  x <- gets (fun x => x);;
  if endthread (backend x) then ret (-1) else
  guard (prepare_request (calls x));;
  r <- exchange "waitBackendEvent" [session];;
  jsonroot <- answer_document r;;
  match jsonroot with
  | Some (JArray []) => ret 0
  | Some (JArray l) => parsing_events l (-1)
  | _ => ret (-1)
  end.

Definition ac_backend_soap_getconfiguration : MB Z :=
  session <- session_of_backend;;
  r <- request "getConfiguration" [session];;
  match r with
  | None => ret (-1)
  | Some r =>
      jsonroot <- answer_document r;;
      match jsonroot with
      | None => ret (-1)
      | Some jsonroot =>
          x <- gets (fun x => x);;
          if queue_send (msgqueue x) then
            update (fun x => BackendState (backend x) (control x)
                       (msgqueue x ++ [AC_MESSAGE_QUEUE_UPDATE_CONFIGURATION jsonroot]) (calls x));;
            ret 0
          else ret (-1)
      end
  end.

(** The name of the controller and the version of the protocol. *)
Context (backendacid backendversion : list Z).

(** The session with the back end is the text of its answer. *)
Definition joined_session (r : option ac_soap_response) : option (list Z) :=
  match r with
  | Some response =>
      if responsecode response =? HTTP_RESULT_OK then
        match xmlResponseReturn response with
        | Some (Some (c :: text)) => Some (c :: text)
        | _ => None
        end
      else None
  | None => None
  end.

Definition ac_backend_soap_join (forcereset : bool) : MB Z :=
  x <- gets (fun x => x);;
  guard (match backendsessionid (backend x) with None => true | Some _ => false end);;
  r <- request "joinBackend" [backendacid; backendversion; if forcereset then chars "true" else chars "false"];;
  match r with
  | None => ret (-1)
  | Some r =>
      modify_backend (set_backendsessionid (joined_session r));;
      match joined_session r with
      | None => ret (-1)
      | Some _ =>
          if forcereset then
            result <- ac_backend_soap_getconfiguration;;
            if result =? 0 then ret 0
            else modify_backend (set_backendsessionid None);; ret (-1)
          else ret 0
      end
  end.

Definition ac_backend_soap_leave : MB unit :=
  x <- gets (fun x => x);;
  match backendstatus (backend x), backendsessionid (backend x) with
  | true, Some session =>
      if prepare_request (calls x) then exchange "leaveBackend" [session];; ret tt else ret tt
  | _, _ => ret tt
  end.

Definition ac_backend_isconnect (b : ac_backend_t) : bool := backendstatus b.

(** ** The loop and the lock *)

(** The number of back ends of the configuration. *)
Context (availablebackends : Z).

(** Where the thread is: before its loop, at its test, in one of the two
    requests, before it takes the lock again, and after the loop. *)
Inductive backend_pc := Start | Top | Waiting | Relock | Joining | Retry | Leaving | Freeing | Done.

(** Who holds the lock of the back end; a session that does has, or has not yet,
    found the controller connected. *)
Inductive lock_holder := Unlocked | ByThread | BySession (checked : bool).

Record backend_system := BackendSystem {
  shared : backend_state;
  pc : backend_pc;
  connected : bool;
  forcereset : bool;
  backendlock : lock_holder
}.

Definition next_backend (b : ac_backend_t) : Z := (activebackend b + 1) mod availablebackends.

(** The connection is lost. *)
Definition lost_backend (b : ac_backend_t) : ac_backend_t :=
  Backend (endthread b) (next_backend b) (backendstatus b) (errorjoinbackend b) None.
(** The controller joined. *)
Definition joined_backend (b : ac_backend_t) : ac_backend_t :=
  Backend (endthread b) (activebackend b) true 0 (backendsessionid b).
(** It did not; the next back end is tried, or none is left. *)
Definition refused_backend (b : ac_backend_t) : ac_backend_t :=
  Backend (endthread b) (next_backend b) (backendstatus b) (errorjoinbackend b + 1) (backendsessionid b).
Definition left_backend (b : ac_backend_t) : ac_backend_t :=
  Backend (endthread b) (activebackend b) false 0 (backendsessionid b).
Definition stopped_backend (b : ac_backend_t) : ac_backend_t :=
  Backend (endthread b) (activebackend b) false (errorjoinbackend b) (backendsessionid b).

Definition on_backend (f : ac_backend_t -> ac_backend_t) (x : backend_state) : backend_state :=
  set_backend (f (backend x)) x.

(** [ac_msgqueue_close_allsessions]; its result is not looked at. *)
Definition ac_msgqueue_close_allsessions (x : backend_state) : backend_state :=
  if queue_send (msgqueue x)
  then BackendState (backend x) (control x) (msgqueue x ++ [AC_MESSAGE_QUEUE_CLOSE_ALLSESSIONS]) (calls x)
  else x.

(** One step of [ac_backend_run]; nothing when it waits for the lock. *)
Definition thread_step (y : backend_system) : option backend_system :=
  let 'BackendSystem x l c f lock := y in
  match l with
  | Start => match lock with Unlocked => Some (BackendSystem x Top false true ByThread) | _ => None end
  | Top =>
      Some (BackendSystem x (if endthread (backend x) then Leaving else if c then Waiting else Joining) c f lock)
  | Waiting =>
      '(r, x) ← ac_backend_soap_waitevent x;
      Some (if r =? 0 then BackendSystem x Top c f lock
            else if endthread (backend x) then BackendSystem x Leaving c f lock
            else BackendSystem x Relock false f lock)
  | Relock =>
      match lock with
      | Unlocked => Some (BackendSystem (on_backend lost_backend x) Top c f ByThread)
      | _ => None
      end
  | Joining =>
      '(r, x) ← ac_backend_soap_join f x;
      Some (if r =? 0 then BackendSystem (on_backend joined_backend x) Top true false Unlocked
            else
              let x := on_backend refused_backend x in
              if availablebackends <=? errorjoinbackend (backend x)
              then BackendSystem (ac_msgqueue_close_allsessions (on_backend left_backend x)) Retry c true Unlocked
              else BackendSystem x Top c f lock)
  | Retry => match lock with Unlocked => Some (BackendSystem x Top c f ByThread) | _ => None end
  | Leaving =>
      '(_, x) ← ac_backend_soap_leave x;
      Some (BackendSystem (on_backend stopped_backend x) Freeing c f lock)
  | Freeing =>
      Some (BackendSystem (on_backend (set_backendsessionid None) x) Done c f (if c then lock else Unlocked))
  | Done => None
  end.

(** [ac_backend_createrequest_with_session], as a session runs it: the lock, the
    test, and, when the request could be [prepared], the use of the session of the
    back end, which must be there. *)
Definition session_request_step (prepared : bool) (y : backend_system) : option backend_system :=
  let 'BackendSystem x l c f lock := y in
  match lock with
  | Unlocked => Some (BackendSystem x l c f (BySession false))
  | BySession false =>
      Some (BackendSystem x l c f (if ac_backend_isconnect (backend x) then BySession true else Unlocked))
  | BySession true =>
      match prepared, backendsessionid (backend x) with
      | true, None => None
      | _, _ => Some (BackendSystem x l c f Unlocked)
      end
  | ByThread => None
  end.

(** [g_ac_backend.endthread = 1] *)
Definition ac_backend_stop (y : backend_system) : backend_system :=
  let 'BackendSystem x l c f lock := y in
  BackendSystem (on_backend (fun b => Backend true (activebackend b) (backendstatus b) (errorjoinbackend b)
    (backendsessionid b)) x) l c f lock.

(** The other threads change the sessions and empty the queue. *)
Inductive backend_step : backend_system -> backend_system -> Prop :=
| step_thread y y' : thread_step y = Some y' -> backend_step y y'
| step_session y y' prepared : session_request_step prepared y = Some y' -> backend_step y y'
| step_stop y : backend_step y (ac_backend_stop y)
| step_others x l c f lock c' q' :
    backend_step (BackendSystem x l c f lock)
      (BackendSystem (BackendState (backend x) c' q' (calls x)) l c f lock).

(** [ac_backend_start]: the structure is cleared. *)
Definition ac_backend_start (c : controller) : backend_system :=
  BackendSystem (BackendState (Backend false 0 false 0 None) c [] []) Start false true Unlocked.

End Backend.
