(* ===== verification/AcBackendThreadSpec.v ===== *)
(** The thread of the back end: what its operations keep, the invariant of its
    lock, and the effect of an event on the sessions.

    The lock protects the session of the back end: whenever the thread does not
    hold it, a controller that counts as connected has one. *)
From stdpp Require Import option list gmap strings.
From S2P Require Import Prelude Packet Base64 Json AcWorld AcSession AcActions AcController AcBackendThread.
#[local] Open Scope Z_scope.

(** ** Operations that keep the state of the back end *)

(** The state of the back end stays, and the sessions change only by actions that
    are added to them. *)
Definition more_actions (s s' : ac_session_t) : Prop := exists l, s' = set_actions (actions s ++ l) s.

Record keeps (x x' : backend_state) : Prop := Keeps {
  k_backend : backend x' = backend x;
  k_sessions : Forall2 more_actions (sessions (control x)) (sessions (control x'));
  k_calls : exists l, calls x' = calls x ++ l
}.

Lemma set_actions_same s : set_actions (actions s) s = s.
Proof. by destruct s. Qed.

Lemma more_actions_refl s : more_actions s s.
Proof. exists []. by rewrite app_nil_r, set_actions_same. Qed.

Lemma more_actions_trans s1 s2 s3 : more_actions s1 s2 -> more_actions s2 s3 -> more_actions s1 s3.
Proof. intros [l1 ->] [l2 ->]. exists (l1 ++ l2). cbn [actions set_actions]. by rewrite app_assoc. Qed.

Lemma all_more_refl l : Forall2 more_actions l l.
Proof. apply Forall_Forall2_diag, Forall_forall. intros s _. apply more_actions_refl. Qed.

Lemma all_more_trans l1 l2 l3 : Forall2 more_actions l1 l2 -> Forall2 more_actions l2 l3 -> Forall2 more_actions l1 l3.
Proof. apply Forall2_trans. intros ? ? ?. apply more_actions_trans. Qed.

Lemma keeps_refl x : keeps x x.
Proof. split; [done|apply all_more_refl|]. exists []. by rewrite app_nil_r. Qed.

Lemma keeps_trans x1 x2 x3 : keeps x1 x2 -> keeps x2 x3 -> keeps x1 x3.
Proof.
  intros [B1 S1 [l1 L1]] [B2 S2 [l2 L2]]. split; [congruence|by eapply all_more_trans|].
  exists (l1 ++ l2). by rewrite L2, L1, app_assoc.
Qed.

Definition keeps_op {A} (m : MB A) : Prop := forall x a x', m x = Some (a, x') -> keeps x x'.

Lemma keeps_ret {A} (a : A) : keeps_op (ret a).
Proof. intros x b x' [= _ <-]. apply keeps_refl. Qed.

Lemma keeps_bind {A B} (m : MB A) (k : A -> MB B) :
  keeps_op m -> (forall a, keeps_op (k a)) -> keeps_op (bind m k).
Proof.
  intros Hm Hk x b x' E. unfold bind in E. destruct (m x) as [[a x1]|] eqn:E1; [|done].
  eapply keeps_trans; [by eapply Hm|by eapply Hk].
Qed.

Lemma keeps_gets {A} (f : backend_state -> A) : keeps_op (gets f).
Proof. intros x b x' [= _ <-]. apply keeps_refl. Qed.

Lemma keeps_lift {A} (o : option A) : keeps_op (lift o).
Proof. intros x b x' E. destruct o; [|done]. injection E as _ <-. apply keeps_refl. Qed.

Lemma keeps_guard b : keeps_op (guard b).
Proof. apply keeps_lift. Qed.

Lemma keeps_update f : (forall x, keeps x (f x)) -> keeps_op (update f).
Proof. intros Hf x b x' [= _ <-]. apply Hf. Qed.

Create HintDb keeps.
#[export] Hint Resolve @keeps_ret @keeps_gets @keeps_lift keeps_guard : keeps.

(** An operation of parts that keep the state, by the structure of its body. *)
Ltac keeps_step :=
  lazymatch goal with
  | |- forall _, _ => intros ?
  | |- keeps_op (bind _ _) => apply keeps_bind
  | |- keeps_op (if ?b then _ else _) => destruct b
  | |- keeps_op (match ?x with _ => _ end) => destruct x
  | |- keeps_op _ => solve [eauto with keeps nocore]
  end.
Ltac keeps_op := repeat keeps_step.

Section Operations.
Context {T : Target} {C : CharSign} {E : Environment} {X : Transport}.

Lemma keeps_exchange method params : keeps_op (exchange method params).
Proof.
  unfold exchange. apply keeps_bind; [apply keeps_gets|]. intros y. apply keeps_bind; [|intros; apply keeps_ret].
  apply keeps_update. intros x. split; [done|apply all_more_refl|by eexists].
Qed.
Hint Resolve keeps_exchange : keeps.

Lemma keeps_request method params : keeps_op (request method params).
Proof. unfold request. keeps_op. Qed.
Lemma keeps_session : keeps_op session_of_backend.
Proof. unfold session_of_backend. keeps_op. Qed.
Hint Resolve keeps_request keeps_session : keeps.

Lemma keeps_send_actions i l : keeps_op (send_actions i l).
Proof.
  apply keeps_update. intros x. split; [done| |exists []; by rewrite app_nil_r]. cbn.
  apply Forall2_same_length_lookup. rewrite length_alter. split; [done|]. intros j s s' E1 E2.
  rewrite list_lookup_alter in E2. destruct (decide (i = j)) as [->|Hne].
  - rewrite E1 in E2. injection E2 as <-. by exists l.
  - rewrite E1 in E2. injection E2 as <-. apply more_actions_refl.
Qed.
Hint Resolve keeps_send_actions : keeps.

Lemma keeps_notify i id act st a : keeps_op (notify_actions i id act st a).
Proof. unfold notify_actions. keeps_op. Qed.
Hint Resolve keeps_notify : keeps.

Lemma keeps_event action id params : keeps_op (event_action action id params).
Proof.
  unfold event_action, ac_backend_parsing_closewtpsession_event, ac_backend_parsing_resetwtp_event,
    ac_backend_parsing_addwlan_event, ac_backend_parsing_updatewlan_event, ac_backend_parsing_deletewlan_event.
  keeps_op.
Qed.
Hint Resolve keeps_event : keeps.

Lemma keeps_update_event id status : keeps_op (ac_backend_soap_update_event id status).
Proof. unfold ac_backend_soap_update_event. keeps_op. Qed.
Hint Resolve keeps_update_event : keeps.

Lemma keeps_parsing_event j : keeps_op (ac_backend_parsing_event j).
Proof. unfold ac_backend_parsing_event. keeps_op. Qed.
Hint Resolve keeps_parsing_event : keeps.

Lemma keeps_parsing_events l r : keeps_op (parsing_events l r).
Proof. revert r. induction l as [|j l IH]; intros r; cbn [parsing_events]; keeps_op. Qed.
Hint Resolve keeps_parsing_events : keeps.

Lemma keeps_answer r : keeps_op (answer_document r).
Proof. unfold answer_document, ac_soapclient_parse_json_response. keeps_op. Qed.
Hint Resolve keeps_answer : keeps.

Lemma keeps_waitevent : keeps_op ac_backend_soap_waitevent.
Proof. unfold ac_backend_soap_waitevent. keeps_op. Qed.

Lemma keeps_getconfiguration : keeps_op ac_backend_soap_getconfiguration.
Proof.
  unfold ac_backend_soap_getconfiguration. keeps_op. apply keeps_update. intros x.
  split; [done|apply all_more_refl|exists []; by rewrite app_nil_r].
Qed.

Lemma keeps_leave : keeps_op ac_backend_soap_leave.
Proof. unfold ac_backend_soap_leave. keeps_op. Qed.
End Operations.

(** ** The lock *)

Section Lock.
Context {T : Target} {C : CharSign} {E : Environment} {X : Transport}.
Context (backendacid backendversion : list Z) (availablebackends : Z).

(** The thread joins with a session, or has none. *)
Lemma join_outcome f x r x' :
  backendsessionid (backend x) = None ->
  ac_backend_soap_join backendacid backendversion f x = Some (r, x') ->
  (r = 0 /\ exists id, backend x' = set_backendsessionid (Some id) (backend x)) \/ (r <> 0 /\ backend x' = backend x).
Proof.
  intros Hn. assert (set_backendsessionid None (backend x) = backend x) as Hs
    by (destruct (backend x); cbn in *; by subst).
  unfold ac_backend_soap_join, bind at 1, gets. unfold bind at 1, guard. rewrite Hn. cbn [lift]. unfold bind at 1.
  destruct (request _ _ x) as [[o x1]|] eqn:E1; [|done]. apply keeps_request in E1 as [B1 _ _].
  destruct o as [o|]; [|intros [= <- <-]; by right]. unfold modify_backend, bind at 1, update.
  destruct (joined_session o) as [id|].
  2:{ intros [= <- <-]. right. cbn. by rewrite B1. }
  destruct f; [|intros [= <- <-]; left; cbn; rewrite B1; by eauto]. unfold bind at 1.
  destruct (ac_backend_soap_getconfiguration _) as [[r2 x2]|] eqn:E2; [|done].
  apply keeps_getconfiguration in E2 as [B2 _ _]. cbn in B2. destruct (Z.eqb_spec r2 0) as [->|Hr].
  - intros [= <- <-]. left. rewrite B2, B1. by eauto.
  - intros [= <- <-]. right. split; [done|]. cbn. rewrite B2, B1, <- Hs. by destruct (backend x).
Qed.

Definition ending (l : backend_pc) : bool := match l with Freeing | Done => true | _ => false end.

(** Who holds the lock, whether the thread is connected, and what is known of the
    session of the back end, by the place of the thread. *)
Record backend_inv (y : backend_system) : Prop := BackendInv {
  i_lock : match pc y with
           | Start | Waiting | Relock | Retry | Done => backendlock y <> ByThread
           | Joining => backendlock y = ByThread
           | Top | Leaving | Freeing => backendlock y = ByThread <-> connected y = false
           end;
  i_connected : match pc y with
                | Waiting => connected y = true
                | Start | Relock | Joining | Retry => connected y = false
                | _ => True
                end;
  i_none : match pc y with
           | Start | Joining | Retry => backendsessionid (backend (shared y)) = None
           | Top => connected y = false -> backendsessionid (backend (shared y)) = None
           | _ => True
           end;
  i_session : connected y = true -> ending (pc y) = false -> is_Some (backendsessionid (backend (shared y)));
  i_free : backendlock y <> ByThread -> ending (pc y) = false -> backendstatus (backend (shared y)) = true ->
           is_Some (backendsessionid (backend (shared y)));
  i_checked : backendlock y = BySession true -> ending (pc y) = false ->
              is_Some (backendsessionid (backend (shared y)))
}.

Lemma backend_inv_start c : backend_inv (ac_backend_start c).
Proof. by split. Qed.

Lemma backend_inv_thread y y' :
  backend_inv y -> thread_step backendacid backendversion availablebackends y = Some y' -> backend_inv y'.
Proof.
  destruct y as [x l c f lock]. intros [Hl Hc Hn Hs Hf Hk]. unfold thread_step. cbn [pc shared connected backendlock] in *.
  destruct l; cbn [ending] in *.
  - destruct lock; [|done..]. intros [= <-]. split; cbn; try done.
  - intros [= <-]. destruct (endthread (backend x)), c; split; cbn in *; try done; intuition congruence.
  - destruct (ac_backend_soap_waitevent x) as [[r x1]|] eqn:E1; [|done]. apply keeps_waitevent in E1 as [B _ _].
    intros [= <-]. destruct (r =? 0), (endthread (backend x1)); split; cbn in *; rewrite ?B; try done;
      intuition congruence.
  - destruct lock; [|done..]. intros [= <-]. split; cbn; try done; intuition congruence.
  - destruct (ac_backend_soap_join _ _ f x) as [[r x1]|] eqn:E1; [|done].
    apply join_outcome in E1 as [[-> [id B]]|[Hr B]]; [| |done].
    + intros [= <-]. split; cbn; rewrite ?B; cbn; try done; intuition congruence.
    + cbv beta iota delta [mbind option_bind]. rewrite (proj2 (Z.eqb_neq _ _) Hr). intros [= <-]. subst.
      destruct (_ <=? _); [unfold ac_msgqueue_close_allsessions; destruct (queue_send _)|]; split; cbn in *;
        rewrite ?B; cbn; try done; intuition congruence.
  - destruct lock; [|done..]. intros [= <-]. split; cbn in *; try done; intuition congruence.
  - destruct (ac_backend_soap_leave x) as [[r x1]|] eqn:E1; [|done]. apply keeps_leave in E1 as [B _ _].
    intros [= <-]. by split; cbn in *.
  - intros [= <-]. split; cbn in *; try done. destruct c; [|done]. intuition congruence.
  - done.
Qed.

Lemma backend_inv_session prepared y y' : backend_inv y -> session_request_step prepared y = Some y' -> backend_inv y'.
Proof.
  destruct y as [x l c f lock]. intros [Hl Hc Hn Hs Hf Hk]. unfold session_request_step, ac_backend_isconnect.
  cbn [pc shared connected backendlock] in *.
  destruct lock as [| |[]]; [|done| |]; [|destruct prepared, (backendsessionid (backend x)) eqn:Ei; try done|];
    intros [= <-]; try destruct (backendstatus (backend x)) eqn:Hq; split; cbn in *; rewrite ?Ei in *; try done;
    destruct l; try (by apply Hf); intuition (try congruence).
Qed.

Lemma backend_inv_step y y' :
  backend_inv y -> backend_step backendacid backendversion availablebackends y y' -> backend_inv y'.
Proof.
  intros Hi Hs. destruct Hs as [y y' Hs|y y' p Hs|y|x l c f lock c' q']; [by eapply backend_inv_thread|by eapply backend_inv_session| |].
  - destruct y as [x l c f lock], Hi as [Hl Hc Hn Hs Hf Hk]. by split.
  - destruct Hi as [Hl Hc Hn Hs Hf Hk]. by split.
Qed.

Lemma backend_inv_reachable c y :
  rtc (backend_step backendacid backendversion availablebackends) (ac_backend_start c) y -> backend_inv y.
Proof. apply (rtc_ind_r backend_inv); [apply backend_inv_start|]. intros ? ? _ Hs Hi. by eapply backend_inv_step. Qed.

(** ** Runs of the thread *)

Lemma leave_runs x : exists x', ac_backend_soap_leave x = Some (tt, x').
Proof.
  unfold ac_backend_soap_leave, bind, gets. destruct (backendstatus (backend x)), (backendsessionid (backend x)); eauto.
  destruct (prepare_request _); [|by eauto]. unfold exchange, bind, gets, update, ret. eauto.
Qed.

Fixpoint thread_steps (k : nat) (y : backend_system) : option backend_system :=
  match k with
  | O => Some y
  | S k => y ← thread_step backendacid backendversion availablebackends y; thread_steps k y
  end.

Lemma thread_steps_rtc k y y' :
  thread_steps k y = Some y' -> rtc (backend_step backendacid backendversion availablebackends) y y'.
Proof.
  revert y. induction k as [|k IH]; intros y; cbn; [by intros [= ->]|].
  destruct (thread_step _ _ _ y) as [y1|] eqn:E1; [|done]. intros E2%IH. eapply rtc_l; [by apply step_thread|done].
Qed.

(** The request to join the back end with a number. *)
Definition join_call (f : bool) (server : Z) : soap_call :=
  SoapCall server "joinBackend" [backendacid; backendversion; if f then chars "true" else chars "false"].

Definition add_call (c : soap_call) (x : backend_state) : backend_state :=
  BackendState (backend x) (control x) (msgqueue x) (calls x ++ [c]).

Lemma join_refused f x :
  backendsessionid (backend x) = None -> endthread (backend x) = false -> prepare_request (calls x) = true ->
  joined_session (recv_response (calls x) (join_call f (activebackend (backend x)))) = None ->
  ac_backend_soap_join backendacid backendversion f x =
    Some (-1, add_call (join_call f (activebackend (backend x))) x).
Proof.
  intros Hn He Hp Hj. unfold ac_backend_soap_join, request, exchange, bind, gets, guard, lift.
  rewrite Hn, He, Hp. cbn [negb andb update ret]. unfold update. fold (join_call f (activebackend (backend x))).
  rewrite Hj. unfold modify_backend, update, ret. do 2 f_equal. unfold add_call, set_backend. cbn. f_equal.
  destruct (backend x). cbn in *. by subst.
Qed.

(** One try that fails, when it is not the last one. *)
Lemma try_refused x f :
  let a := activebackend (backend x) in
  backendsessionid (backend x) = None -> endthread (backend x) = false -> prepare_request (calls x) = true ->
  joined_session (recv_response (calls x) (join_call f a)) = None ->
  thread_steps 2 (BackendSystem x Top false f ByThread) =
    let x' := on_backend (refused_backend availablebackends) (add_call (join_call f a) x) in
    Some (if availablebackends <=? errorjoinbackend (backend x) + 1
          then BackendSystem (ac_msgqueue_close_allsessions (on_backend left_backend x')) Retry false true Unlocked
          else BackendSystem x' Top false f ByThread).
Proof.
  intros a Hn He Hp Hj. cbn [thread_steps]. cbn [thread_step]. rewrite He. cbv beta iota delta [mbind option_bind].
  cbn [thread_step]. rewrite join_refused by done. cbv beta iota delta [mbind option_bind].
  by destruct (availablebackends <=? errorjoinbackend (backend x) + 1) eqn:Ee; cbn -[Z.leb Z.add]; rewrite Ee.
Qed.

(** The back ends that [k] tries reach, from one of them. *)
Definition tried (a : Z) (k : nat) : list Z :=
  (fun i => (a + Z.of_nat i) mod availablebackends) <$> seq 0 k.

Lemma tried_S a k : 0 <= a < availablebackends -> tried a (S k) = a :: tried ((a + 1) mod availablebackends) k.
Proof.
  intros Ha. unfold tried. cbn [seq fmap list_fmap]. f_equal; [rewrite Z.add_0_r; by apply Z.mod_small|].
  rewrite <- seq_shift, <- list_fmap_compose. apply list_fmap_ext. intros _ i _. cbn [compose].
  rewrite Zplus_mod_idemp_l. f_equal. lia.
Qed.

Lemma tried_all a server :
  0 <= server < availablebackends -> server ∈ tried a (Z.to_nat availablebackends).
Proof.
  intros Hs. apply list_elem_of_fmap. exists (Z.to_nat ((server - a) mod availablebackends)).
  pose proof (Z.mod_pos_bound (server - a) availablebackends ltac:(lia)). split.
  - rewrite Z2Nat.id, Zplus_mod_idemp_r by lia. replace (a + (server - a)) with server by lia. by rewrite Z.mod_small.
  - apply elem_of_seq. lia.
Qed.

Lemma thread_steps_add j k y y' : thread_steps j y = Some y' -> thread_steps (j + k) y = thread_steps k y'.
Proof.
  revert y. induction j as [|j IH]; intros y; cbn; [by intros [= ->]|].
  destruct (thread_step _ _ _ y); [apply IH|done].
Qed.

(** The state after tries that all failed. *)
Definition unreachable (f : bool) (k : nat) (x : backend_state) : backend_state :=
  let b := backend x in
  BackendState (Backend (endthread b) ((activebackend b + Z.of_nat k) mod availablebackends) false 0 None)
    (control x) (msgqueue x) (calls x ++ (join_call f <$> tried (activebackend b) k)).

Lemma tries_refused k f x :
  (forall l, prepare_request l = true) -> (forall l server, joined_session (recv_response l (join_call f server)) = None) ->
  0 <= activebackend (backend x) < availablebackends -> errorjoinbackend (backend x) + Z.of_nat (S k) = availablebackends ->
  backendsessionid (backend x) = None -> endthread (backend x) = false ->
  thread_steps (2 * S k) (BackendSystem x Top false f ByThread) =
    Some (BackendSystem (ac_msgqueue_close_allsessions (unreachable f (S k) x)) Retry false true Unlocked).
Proof.
  intros Hp Hj. revert x. induction k as [|k IH]; intros x Ha Hk Hn He.
  - change (2 * 1)%nat with 2%nat. rewrite (try_refused x f) by done. rewrite (proj2 (Z.leb_le _ _)) by lia. cbv zeta. do 3 f_equal.
    unfold unreachable. rewrite tried_S by done. unfold on_backend, set_backend. cbn. unfold left_backend, refused_backend, next_backend. cbn. by rewrite Hn.
  - replace (2 * S (S k))%nat with (2 + 2 * S k)%nat by lia.
    erewrite (thread_steps_add 2); [|rewrite try_refused by done; cbv zeta; rewrite (proj2 (Z.leb_gt _ _)) by lia; done].
    rewrite IH; cbn [backend on_backend set_backend refused_backend add_call activebackend errorjoinbackend
      backendsessionid endthread]; [|by apply Z.mod_pos_bound; lia|lia|done|done].
    do 3 f_equal. unfold unreachable. rewrite (tried_S _ (S k)) by done.
    unfold on_backend, set_backend, refused_backend, next_backend. cbn -[tried Z.of_nat].
    rewrite Zplus_mod_idemp_l, <- app_assoc. do 3 f_equal. lia.
Qed.

(** A join that asks for the configuration and gets it. *)
Lemma join_configures x id response doc :
  let join := join_call true (activebackend (backend x)) in
  let get := SoapCall (activebackend (backend x)) "getConfiguration" [id] in
  (forall l, prepare_request l = true) -> backendsessionid (backend x) = None -> endthread (backend x) = false ->
  joined_session (recv_response (calls x) join) = Some id ->
  recv_response (calls x ++ [join]) get = Some response ->
  (forall z : backend_state, ac_soapclient_parse_json_response response z = Some (Some doc, z)) ->
  queue_send (msgqueue x) = true ->
  ac_backend_soap_join backendacid backendversion true x =
    Some (0, BackendState (set_backendsessionid (Some id) (backend x)) (control x)
               (msgqueue x ++ [AC_MESSAGE_QUEUE_UPDATE_CONFIGURATION doc]) (calls x ++ [join; get])).
Proof.
  intros join get Hp Hn He Hj Hg Hd Hq. unfold ac_backend_soap_join. unfold bind at 1, gets. unfold bind at 1, guard, lift.
  rewrite Hn. unfold request at 1, exchange at 1. unfold bind at 1 2 3 4 5, gets, update, ret. rewrite He, Hp.
  cbn [negb andb]. fold (join_call true (activebackend (backend x))). fold join. rewrite Hj.
  unfold modify_backend at 1, bind at 1, update. unfold bind at 1.
  unfold ac_backend_soap_getconfiguration, session_of_backend, request, exchange, bind, gets, lift, update, ret.
  cbn [backendsessionid backend set_backend set_backendsessionid endthread activebackend calls]. rewrite He, Hp.
  cbn [negb andb backend set_backend set_backendsessionid activebackend calls control msgqueue].
  fold get. rewrite Hg. unfold answer_document. rewrite Hd. cbn [msgqueue]. rewrite Hq. cbn.
  by rewrite <- app_assoc.
Qed.
End Lock.

(** ** Events *)

(** The binds of the option monad. *)
Ltac ostep := cbv beta iota delta [mbind option_bind].

Section Events.
Context {T : Target} {C : CharSign} {E : Environment} {X : Transport}.

(** What an event asks for: the id of the WTP, what ends the event, and the
    action. *)
Definition event_request (action : list Z) (jsonparams : json) : option (list Z * (Z * Z * ac_session_action)) :=
  if bool_decide (action = chars "CloseWTPSession") then
    wtp ← get_string jsonparams "WTPId";
    Some (cstr wtp, (NOTIFY_ACTION_CHANGE_STATE, CAPWAP_DEAD_STATE, AC_SESSION_ACTION_CLOSE))
  else if bool_decide (action = chars "ResetWTP") then
    wtp ← get_string jsonparams "WTPId";
    image ← get_object jsonparams "ImageIdentifier";
    vendor ← get_int image "Vendor"; data ← get_string image "Data";
    if bool_decide (cstr data = []) then None else
    Some (cstr wtp, (NOTIFY_ACTION_CHANGE_STATE, CAPWAP_DEAD_STATE,
                     AC_SESSION_ACTION_RESET_WTP (wrap32 vendor) (cstr data)))
  else if bool_decide (action = chars "AddWLAN") then
    '(wtp, n) ← addwlan_params jsonparams;
    Some (wtp, (NOTIFY_ACTION_RECEIVE_RESPONSE_CONTROLMESSAGE, CAPWAP_IEEE80211_WLAN_CONFIGURATION_RESPONSE,
                AC_SESSION_ACTION_ADDWLAN n))
  else None.

Definition send_to (i : nat) (l : list ac_session_action) (x : backend_state) : backend_state :=
  BackendState (backend x)
    (set_sessions (alter (fun s => set_actions (actions s ++ l) s) i (sessions (control x))) (control x))
    (msgqueue x) (calls x).

(** The place of the session an event is for, and what it gets. *)
Definition event_target (action id : list Z) (jsonparams : json) (x : backend_state)
    : option (nat * list ac_session_action) :=
  '(wtp, (act, st, a)) ← event_request action jsonparams;
  i ← ac_search_session_from_wtpid wtp (sessions (control x));
  Some (i, [AC_SESSION_ACTION_NOTIFY_EVENT (NotifyEvent id act st); a]).

Lemma notify_sends i id act st a x :
  zlen id < IDEVENT_SIZE ->
  notify_actions i id act st a x = Some (0, send_to i [AC_SESSION_ACTION_NOTIFY_EVENT (NotifyEvent id act st); a] x).
Proof. intros Hid. unfold notify_actions, guard, bind, lift. by rewrite (proj2 (Z.ltb_lt _ _) Hid). Qed.

Lemma event_action_spec action id jsonparams x :
  zlen id < IDEVENT_SIZE ->
  event_action action id jsonparams x =
    match event_target action id jsonparams x with
    | Some (i, l) => Some (0, send_to i l x)
    | None => Some (-1, x)
    end.
Proof.
  intros Hid. unfold event_action, event_target, event_request.
  repeat case_bool_decide; try reflexivity.
  - unfold ac_backend_parsing_closewtpsession_event. destruct (get_string _ _) as [wtp|]; [|done].
    unfold bind, gets. ostep. destruct (ac_search_session_from_wtpid _ _); ostep; [|reflexivity].
    by apply notify_sends.
  - unfold ac_backend_parsing_resetwtp_event. destruct (get_string jsonparams _) as [wtp|]; [|done]. ostep.
    destruct (get_object _ _) as [image|]; [|done]. destruct (get_int _ _); [|done]. ostep.
    destruct (get_string _ _) as [data|]; [|done]. unfold bind, gets. ostep.
    destruct (cstr data) as [|c t]; [by destruct (ac_search_session_from_wtpid _ _)|]. rewrite bool_decide_false by done.
    ostep. destruct (ac_search_session_from_wtpid _ _); ostep; [|reflexivity]. by apply notify_sends.
  - unfold ac_backend_parsing_addwlan_event. destruct (addwlan_params _) as [[wtp n]|]; [|done].
    unfold bind, gets. ostep. destruct (ac_search_session_from_wtpid _ _); ostep; [|reflexivity].
    by apply notify_sends.
Qed.

(** The first session of the WTP, if there is one. *)
Lemma search_wtpid_spec id l :
  match ac_search_session_from_wtpid id l with
  | Some i => exists s, l !! i = Some s /\ wtpid s = Some id /\
                forall j s', (j < i)%nat -> l !! j = Some s' -> wtpid s' <> Some id
  | None => Forall (fun s => wtpid s <> Some id) l
  end.
Proof.
  induction l as [|s l IH]; cbn; [constructor|].
  assert ((match wtpid s with Some w => bool_decide (w = id) | None => false end) = bool_decide (wtpid s = Some id)) as ->.
  { destruct (wtpid s) as [w|]; [|by rewrite bool_decide_false]. apply bool_decide_ext. split; congruence. }
  case_bool_decide as Hs; [exists s; split_and!; [done..|lia]|].
  destruct (ac_search_session_from_wtpid id l) as [i|]; cbn; [|by constructor].
  destruct IH as (s1 & E1 & W1 & Hj). exists s1. split_and!; [done..|]. intros [|j] s' Hlt; cbn; [by intros [= <-]|].
  intros Ej. apply (Hj j); [lia|done].
Qed.

(** The report of the state of an event. *)
Definition report (id status session : list Z) (x : backend_state) : backend_state :=
  if negb (endthread (backend x)) && prepare_request (calls x)
  then add_call (SoapCall (activebackend (backend x)) "updateBackendEvent" [session; id; status]) x else x.

Lemma update_event_spec id status session x :
  backendsessionid (backend x) = Some session ->
  ac_backend_soap_update_event id status x = Some (tt, report id status session x).
Proof.
  intros Hs. unfold ac_backend_soap_update_event, session_of_backend, request, report, bind, gets, lift. rewrite Hs.
  by destruct (negb _ && _).
Qed.

(** An event is handed over and reported to run, or reported as an error. *)
Lemma parsing_event_spec jsonitem id action jsonparams session x :
  get_string jsonitem "EventID" = Some id -> get_string jsonitem "Action" = Some action ->
  get_object jsonitem "Params" = Some jsonparams -> backendsessionid (backend x) = Some session ->
  zlen (cstr id) < IDEVENT_SIZE ->
  ac_backend_parsing_event jsonitem x =
    match event_target (cstr action) (cstr id) jsonparams x with
    | Some (i, l) => Some (0, report (cstr id) SOAP_EVENT_STATUS_RUNNING session (send_to i l x))
    | None => Some (-1, report (cstr id) SOAP_EVENT_STATUS_GENERIC_ERROR session x)
    end.
Proof.
  intros E1 E2 E3 Hs Hid. unfold ac_backend_parsing_event. rewrite E1, E2, E3. unfold bind at 1.
  rewrite event_action_spec by done.
  destruct (event_target _ _ _ _) as [[i l]|]; unfold bind; by erewrite update_event_spec.
Qed.
End Events.
