(* ===== verification/AcDataChannel.v ===== *)
(** The configuration that comes from the back end (src/ac/ac_execute.c): the
    interfaces of the kernel that carry the data of the stations, one for each
    entry of the document, in the table [g_ac.ifdatachannel]; and the queue
    through which the other threads reach the main thread.

    The entries of a document are a list in which [JNull] is a null pointer, as
    in json-c: the walk over the table clears the entries it has found.  The
    lemmas at the end give the table after a document, entry by entry. *)
From stdpp Require Import option list gmap strings pretty.
From S2P Require Import Prelude Io CapwapHash CapwapHashSpec CapwapHashDelete Base64 Json.
From S2P Require Import AcSession AcController AcBackendThread.
#[local] Open Scope Z_scope.

Definition MAX_MTU : Z := 9000.
Definition MIN_MTU : Z := 500.
Definition AC_IFACE_MAX_INDEX : Z := 256.
Definition AC_IFACE_NAME (index : Z) : list Z := chars ("capwap" +:+ pretty (Z.to_N index)).
Definition IFNAMSIZ : Z := 16.

(** The messages to the kernel module about interfaces. *)
Inductive iface_call :=
| NLSMARTCAPWAP_CMD_ADD_IFACE (ifname : list Z) (mtu : Z)
| NLSMARTCAPWAP_CMD_DELETE_IFACE (ifindex : Z).

(** [ac_kmod_send_and_recv_msg] for a new interface: its result, and the index of
    the interface in the answer, zero without one. *)
Class Interfaces := { add_iface : list iface_call -> list Z -> Z -> Z * Z }.

(** The table, and the messages sent so far. *)
Record datachannels := DataChannels { channels : capwap_hash ac_if_datachannel; messages_sent : list iface_call }.

Section DataChannels.
Context {T : Target} {N : Interfaces} (fuel : nat).

Definition ac_kmod_create_iface (sent : list iface_call) (ifname : list Z) (mtu : Z) : Z :=
  let '(result, ifindex) := add_iface sent ifname mtu in
  if result =? 0 then (if ifindex =? 0 then -1 else to_int ifindex) else result.

(** The name and the interface of a data channel, unless there is none. *)
Definition ac_update_configuration_create_datachannelinterfaces (sent : list iface_call) (index mtu : Z)
    : Z * list Z :=
  (ac_kmod_create_iface sent (AC_IFACE_NAME index) (wrap16 mtu), AC_IFACE_NAME index).

(** The MTU of an entry, in range; the bridge is read only when the MTU is a
    string, which it is not. *)
Definition ac_update_configuration_getdatachannel_params (jsonvalue : json) : option (Z * option (list Z)) :=
  match get_int jsonvalue "MTU" with
  | Some mtu => if (MIN_MTU <=? mtu) && (mtu <=? MAX_MTU) then Some (mtu, None) else None
  | None => None
  end.

(** The index of an entry. *)
Definition entry_index (jsonvalue : json) : option Z :=
  if is_object jsonvalue then get_int jsonvalue "Index" else None.

(** The loop over the entries: the first one for the interface is cleared. *)
Fixpoint clear_entry (index : Z) (interfaces : list json) : option (list json) :=
  match interfaces with
  | [] => None
  | jsonvalue :: l =>
      if match entry_index jsonvalue with Some n => index =? wrap_ulong n | None => false end
      then Some (JNull :: l)
      else cons jsonvalue <$> clear_entry index l
  end.

(** The callback; the interfaces it gives up are freed after the walk, the last
    one first. *)
Definition ac_update_configuration_datachannelinterfaces (iface : ac_if_datachannel)
    (param : list json * list ac_if_datachannel) : Z * (list json * list ac_if_datachannel) :=
  let '(interfaces, freed) := param in
  match clear_entry (dc_index iface) interfaces with
  | Some interfaces => (HASH_CONTINUE, (interfaces, freed))
  | None => (HASH_DELETE_AND_CONTINUE, (interfaces, iface :: freed))
  end.

Definition ac_ifdatachannel_item_free (sent : list iface_call) (d : ac_if_datachannel) : list iface_call :=
  if 0 <=? dc_ifindex d then sent ++ [NLSMARTCAPWAP_CMD_DELETE_IFACE (dc_ifindex d)] else sent.

(** The item whose place a new one takes in [capwap_hash_add]. *)
Fixpoint replaced_item (key : Z) (t : capwap_hash_item ac_if_datachannel) : option ac_if_datachannel :=
  match t with
  | Leaf => None
  | Item d _ l r =>
      let result := item_cmp key (item_getkey d) in
      if result =? 0 then Some d else if result <? 0 then replaced_item key l else replaced_item key r
  end.

(** [capwap_hash_add] with its [item_free]. *)
Definition add_channel (x : datachannels) (d : ac_if_datachannel) : option datachannels :=
  let hash := channels x in
  root ← bucket hash (item_gethash (dc_index d) (hashsize hash));
  hash ← capwap_hash_add fuel hash d;
  Some (DataChannels hash
    (match replaced_item (dc_index d) root with
     | Some old => ac_ifdatachannel_item_free (messages_sent x) old
     | None => messages_sent x
     end)).

(** One entry of the second loop. *)
Definition new_interface (x : datachannels) (jsonvalue : json) : option datachannels :=
  match entry_index jsonvalue with
  | None => Some x
  | Some index =>
      if (0 <=? index) && (index <? AC_IFACE_MAX_INDEX) then
        match ac_update_configuration_getdatachannel_params jsonvalue with
        | None => Some x
        | Some (mtu, bridge) =>
            let name := match bridge with
                        | Some b => if Z.of_nat (strlen b) <? IFNAMSIZ then cstr b else []
                        | None => []
                        end in
            let '(ifindex, ifname) :=
              ac_update_configuration_create_datachannelinterfaces (messages_sent x) index mtu in
            let x := DataChannels (channels x) (messages_sent x ++ [NLSMARTCAPWAP_CMD_ADD_IFACE ifname (wrap16 mtu)]) in
            if ifindex <? 0 then Some x else add_channel x (DataChannel index ifindex ifname mtu name)
        end
      else Some x
  end.

Fixpoint new_interfaces (x : datachannels) (interfaces : list json) : option datachannels :=
  match interfaces with
  | [] => Some x
  | jsonvalue :: l => x ← new_interface x jsonvalue; new_interfaces x l
  end.

Definition ac_update_configuration (jsonroot : json) (x : datachannels) : option datachannels :=
  match get_array jsonroot "DataChannelInterfaces" with
  | None => Some x
  | Some interfaces =>
      '(hash, (interfaces, freed)) ←
        capwap_hash_foreach ac_update_configuration_datachannelinterfaces (channels x) (interfaces, []);
      new_interfaces (DataChannels hash (foldl ac_ifdatachannel_item_free (messages_sent x) freed)) interfaces
  end.

(** ** The queue *)

(** What the main thread changes: the threads of the sessions, the data channels,
    and the sessions. *)
Record main_state := MainState { sessionsthread : list Z; data : datachannels; main_control : controller }.

Fixpoint remove_thread (threadid : Z) (l : list Z) : list Z :=
  match l with
  | [] => []
  | t :: l => if t =? threadid then l else t :: remove_thread threadid l
  end.

Definition ac_session_msgqueue_parsing_item (item : ac_session_msgqueue_item_t) (m : main_state)
    : option main_state :=
  match item with
  | AC_MESSAGE_QUEUE_CLOSE_THREAD threadid =>
      Some (MainState (remove_thread threadid (sessionsthread m)) (data m) (main_control m))
  | AC_MESSAGE_QUEUE_UPDATE_CONFIGURATION jsonroot =>
      data ← ac_update_configuration jsonroot (data m);
      Some (MainState (sessionsthread m) data (main_control m))
  | AC_MESSAGE_QUEUE_CLOSE_ALLSESSIONS =>
      Some (MainState (sessionsthread m) (data m) (ac_close_sessions (main_control m)))
  end.

(** [ac_msgqueue_notify_closethread]: the message is sent twice. *)
Definition ac_msgqueue_notify_closethread (threadid : Z) (q : list ac_session_msgqueue_item_t)
    : list ac_session_msgqueue_item_t :=
  q ++ [AC_MESSAGE_QUEUE_CLOSE_THREAD threadid; AC_MESSAGE_QUEUE_CLOSE_THREAD threadid].

(** [ac_wait_terminate_allsessions]: the messages of the queue until no thread is
    left; other messages are dropped.  Without a message it waits. *)
Fixpoint ac_wait_terminate_allsessions (q : list ac_session_msgqueue_item_t) (threads : list Z)
    : list ac_session_msgqueue_item_t * list Z :=
  match threads, q with
  | [], _ | _, [] => (q, threads)
  | _, AC_MESSAGE_QUEUE_CLOSE_THREAD threadid :: q =>
      ac_wait_terminate_allsessions q (remove_thread threadid threads)
  | _, _ :: q => ac_wait_terminate_allsessions q threads
  end.

End DataChannels.

(** ** The table after a document *)

#[export] Instance datachannel_cmp_laws : CmpLaws Z ac_ifdatachannel_item_cmp.
Proof. split; unfold ac_ifdatachannel_item_cmp; intros; repeat case_match; bools; lia. Qed.
#[export] Instance datachannel_hash_laws : HashLaws ac_if_datachannel Z.
Proof. split. exact datachannel_cmp_laws. Qed.

Lemma datachannel_sized : sized (D := ac_if_datachannel) (K := Z) AC_IFDATACHANNEL_HASH_SIZE.
Proof.
  split; [done|]. intros k. cbn. unfold ac_ifdatachannel_item_gethash. apply Z.mod_pos_bound. done.
Qed.

Section Entries.
Context {T : Target}.
Implicit Types (l : list json) (ds : list ac_if_datachannel) (ks : list Z).

(** The key of an entry, as the table has it, and the entry when its key is not
    among those of the table. *)
Definition entry_key (j : json) : option Z := wrap_ulong <$> entry_index j.
Definition entry_keys (l : list json) : list Z := omap entry_key l.
Definition cleared (ks : list Z) (j : json) : json :=
  match entry_key j with
  | Some k => if bool_decide (k ∈ ks) then JNull else j
  | None => j
  end.

Lemma entry_keys_cons j l :
  entry_keys (j :: l) = match entry_key j with Some k => k :: entry_keys l | None => entry_keys l end.
Proof. by unfold entry_keys; cbn; destruct (entry_key j). Qed.

Lemma clear_key k j l :
  clear_entry k (j :: l) = if bool_decide (entry_key j = Some k) then Some (JNull :: l) else cons j <$> clear_entry k l.
Proof.
  cbn [clear_entry]. unfold entry_key. destruct (entry_index j) as [n|]; cbn; [|by rewrite bool_decide_false].
  destruct (Z.eqb_spec k (wrap_ulong n)) as [->|Hne]; [by rewrite bool_decide_true|].
  rewrite bool_decide_false; [done|]. congruence.
Qed.

Lemma cleared_none j : cleared [] j = j.
Proof. unfold cleared. destruct (entry_key j); [|done]. by rewrite bool_decide_false by set_solver. Qed.

Lemma cleared_other k l : k ∉ entry_keys l -> cleared [k] <$> l = l.
Proof.
  induction l as [|j l IH]; [done|]. rewrite entry_keys_cons. intros Hk. cbn. unfold cleared at 1.
  destruct (entry_key j) as [k'|]; [|by rewrite IH]. rewrite bool_decide_false, IH by set_solver. done.
Qed.

(** With distinct keys, the first entry with a key is the only one. *)
Lemma clear_entry_named k l :
  NoDup (entry_keys l) -> k ∈ entry_keys l -> clear_entry k l = Some (cleared [k] <$> l).
Proof.
  induction l as [|j l IH]; [by intros _ ?%elem_of_nil|]. rewrite entry_keys_cons, clear_key. cbn.
  unfold cleared at 1. destruct (entry_key j) as [k'|] eqn:Ej.
  - intros [Hn Hd]%NoDup_cons Hk. case_bool_decide as Hb.
    + injection Hb as ->. by rewrite cleared_other, bool_decide_true by set_solver.
    + rewrite bool_decide_false by set_solver. rewrite IH; [done..|set_solver].
  - intros Hd Hk. rewrite bool_decide_false by done. by rewrite IH.
Qed.

Lemma cleared_keys ks l : entry_keys (cleared ks <$> l) = filter (fun k => k ∉ ks) (entry_keys l).
Proof.
  induction l as [|j l IH]; [done|]. cbn [fmap list_fmap]. rewrite !entry_keys_cons, IH. unfold cleared at 1.
  destruct (entry_key j) as [k|] eqn:Ej; [|by rewrite Ej]. case_bool_decide as Hb.
  - rewrite filter_cons_False by tauto. done.
  - rewrite Ej, filter_cons_True by done. done.
Qed.

Lemma cleared_cons k ks l : cleared ks <$> (cleared [k] <$> l) = cleared (k :: ks) <$> l.
Proof.
  induction l as [|j l IH]; [done|]. cbn. f_equal; [|done]. unfold cleared at 2 3.
  destruct (entry_key j) as [k'|] eqn:Ej; [|by unfold cleared; rewrite Ej].
  destruct (decide (k' = k)) as [->|Hne].
  - by rewrite !bool_decide_true by set_solver.
  - rewrite bool_decide_false by set_solver. unfold cleared. rewrite Ej. do 2 case_bool_decide; set_solver.
Qed.

(** The walk over interfaces that are all in the document deletes none. *)
Lemma walk_named ds l :
  NoDup (entry_keys l) -> NoDup (dc_index <$> ds) -> (dc_index <$> ds) ⊆ entry_keys l ->
  walk ac_update_configuration_datachannelinterfaces ds [] (l, []) =
    (HASH_CONTINUE, [], (cleared (dc_index <$> ds) <$> l, [])).
Proof.
  revert l. induction ds as [|d ds IH]; intros l Hl Hd Hs.
  { cbn. do 2 f_equal. rewrite <- (list_fmap_id l) at 1. apply list_fmap_ext. intros. by rewrite cleared_none. }
  cbn in Hd, Hs. apply NoDup_cons in Hd as [Hn Hd]. cbn [walk ac_update_configuration_datachannelinterfaces].
  rewrite clear_entry_named by set_solver. cbn -[walk cleared]. rewrite IH.
  - by rewrite cleared_cons.
  - rewrite cleared_keys. by apply NoDup_filter.
  - done.
  - intros k Hk. rewrite cleared_keys, list_elem_of_filter. set_solver.
Qed.
End Entries.

(** ** New interfaces *)

Lemma seq_add_length {D K} `{HashOps D K} (data : D) ds : zlen (seq_add data ds) <= zlen ds + 1.
Proof. induction ds as [|d ds IH]; cbn; [lia|]. repeat case_match; cbn; lia. Qed.

Lemma hash_add_total {D K} `{HashLaws D K} `{Target} fuel hash (data : D) hash' :
  hash_inv hash -> 2 * (total (items hash) + 1) <= Z.of_nat fuel -> capwap_hash_add fuel hash data = Some hash' ->
  total (items hash') <= total (items hash) + 1.
Proof.
  intros Hinv Hf. destruct (hash_bucket hash (item_getkey data) Hinv) as (t & Et & Hok).
  unfold capwap_hash_add. rewrite Et. obind. unfold bucket in Et. pose proof (total_lookup _ _ _ Et).
  destruct (add_item_spec fuel data t Hok) as (t' & n & -> & _ & Hio & Hn); [lia|]. obind.
  intros [= <-]. cbn [items set_bucket]. rewrite (total_insert _ _ t) by done. rewrite Hio.
  pose proof (seq_add_length data (inorder t)). lia.
Qed.

Section Added.
Context {T : Target} {N : Interfaces}.
Implicit Types (l : list json) (x : datachannels).

(** What a document asks for at an index: an MTU in range. *)
Definition entry_asks (j : json) : option (Z * Z) :=
  match entry_index j with
  | Some i =>
      if (0 <=? i) && (i <? AC_IFACE_MAX_INDEX)
      then (fun p => (i, p.1)) <$> ac_update_configuration_getdatachannel_params j
      else None
  | None => None
  end.

(** A data channel as the code makes it, from the interface of the kernel. *)
Definition made_channel (i mtu ifindex : Z) : ac_if_datachannel := DataChannel i ifindex (AC_IFACE_NAME i) mtu [].

(** The channel at an index after a document: it was there, or the document asks
    for it and the kernel made its interface. *)
Definition made (i mtu : Z) (o : option ac_if_datachannel) : Prop :=
  exists sent, let ifindex := ac_kmod_create_iface sent (AC_IFACE_NAME i) (wrap16 mtu) in
    o = if ifindex <? 0 then None else Some (made_channel i mtu ifindex).

Lemma params_bridge j mtu bridge : ac_update_configuration_getdatachannel_params j = Some (mtu, bridge) -> bridge = None.
Proof. unfold ac_update_configuration_getdatachannel_params. repeat case_match; congruence. Qed.

Lemma new_interface_asked fuel x j :
  new_interface fuel x j =
    match entry_asks j with
    | None => Some x
    | Some (i, mtu) =>
        let ifindex := ac_kmod_create_iface (messages_sent x) (AC_IFACE_NAME i) (wrap16 mtu) in
        let x := DataChannels (channels x) (messages_sent x ++ [NLSMARTCAPWAP_CMD_ADD_IFACE (AC_IFACE_NAME i) (wrap16 mtu)]) in
        if ifindex <? 0 then Some x else add_channel fuel x (made_channel i mtu ifindex)
    end.
Proof.
  unfold new_interface, entry_asks. destruct (entry_index j) as [i|]; [|done]. destruct (_ && _); [|done].
  destruct (ac_update_configuration_getdatachannel_params j) as [[mtu bridge]|] eqn:E; [|done].
  apply params_bridge in E as ->. done.
Qed.

Lemma add_channel_spec fuel x d :
  hash_inv (channels x) -> 2 * (total (items (channels x)) + 1) <= Z.of_nat fuel ->
  exists x', add_channel fuel x d = Some x' /\ hash_inv (channels x') /\
    total (items (channels x')) <= total (items (channels x)) + 1 /\
    (forall k, hash_lookup (channels x') k = if bool_decide (k = dc_index d) then Some d else hash_lookup (channels x) k).
Proof.
  intros Hi Hf. destruct (hash_bucket (channels x) (dc_index d) Hi) as (t & Et & _).
  destruct (hash_add_spec fuel (channels x) d Hi Hf) as (h & E & Hi' & _ & Hl).
  unfold add_channel. rewrite Et. obind. rewrite E. obind. eexists. split_and!; [done..| |].
  - by eapply hash_add_total.
  - intros k. cbn [channels]. rewrite Hl. cbn. unfold ac_ifdatachannel_item_cmp.
    destruct (Z.eqb_spec k (dc_index d)); [by rewrite bool_decide_true|]. rewrite bool_decide_false by done.
    by destruct (k <? _).
Qed.

(** The key of an entry that asks for a channel is its index. *)
Lemma asked_key j i mtu : entry_asks j = Some (i, mtu) -> entry_key j = Some i.
Proof.
  unfold entry_asks, entry_key. destruct (entry_index j) as [n|]; [|done]. destruct (_ && _) eqn:Hr; [|done].
  destruct (ac_update_configuration_getdatachannel_params j); [|done]. cbn. intros [= -> _]. f_equal.
  apply wrap_ulong_small. unfold AC_IFACE_MAX_INDEX in Hr. bools. lia.
Qed.

Lemma new_interfaces_spec fuel x l :
  hash_inv (channels x) -> 2 * (total (items (channels x)) + zlen l + 1) <= Z.of_nat fuel ->
  NoDup (entry_keys l) -> (forall k, k ∈ entry_keys l -> hash_lookup (channels x) k = None) ->
  exists x', new_interfaces fuel x l = Some x' /\ hash_inv (channels x') /\
    (forall j i mtu, j ∈ l -> entry_asks j = Some (i, mtu) -> made i mtu (hash_lookup (channels x') i)) /\
    (forall k, k ∉ (omap entry_asks l).*1 -> hash_lookup (channels x') k = hash_lookup (channels x) k).
Proof.
  revert x. induction l as [|j l IH]; intros x Hi Hf Hn Hnew.
  { exists x. split_and!; [done..| |done]. by intros ? ? ? ?%elem_of_nil. }
  cbn [new_interfaces]. rewrite new_interface_asked. rewrite entry_keys_cons in Hn, Hnew.
  destruct (entry_asks j) as [[i mtu]|] eqn:Ea.
  - pose proof (asked_key _ _ _ Ea) as Ek. rewrite Ek in Hn, Hnew. apply NoDup_cons in Hn as [Hni Hn].
    set (ifindex := ac_kmod_create_iface _ _ _).
    assert (Hnot : i ∉ (omap entry_asks l).*1).
    { intros Hin. apply Hni. apply list_elem_of_fmap in Hin as ([i' m] & -> & (j' & Hj & Ej)%list_elem_of_omap).
      apply list_elem_of_omap. exists j'. split; [done|]. by eapply asked_key. }
    set (x1 := DataChannels _ _).
    assert (exists x2, (if ifindex <? 0 then Some x1 else add_channel fuel x1 (made_channel i mtu ifindex)) = Some x2 /\
      hash_inv (channels x2) /\ total (items (channels x2)) <= total (items (channels x)) + 1 /\
      forall k, hash_lookup (channels x2) k =
        if bool_decide (k = i) then (if ifindex <? 0 then None else Some (made_channel i mtu ifindex))
        else hash_lookup (channels x) k) as (x2 & E2 & Hi2 & Ht2 & Hl2).
    { destruct (ifindex <? 0).
      - exists x1. split_and!; [done|done|cbn; lia|]. intros k. case_bool_decide as Hk; [|done]. subst k.
        apply Hnew. set_solver.
      - destruct (add_channel_spec fuel x1 (made_channel i mtu ifindex)) as (x2 & E2 & ?); [done|cbn in *; lia|].
        by exists x2. }
    cbn zeta. rewrite E2. obind. destruct (IH x2) as (x3 & E3 & Hi3 & Ha3 & Hl3); [done|cbn in *; lia|done| |].
    { intros k Hk. rewrite Hl2, bool_decide_false by set_solver. apply Hnew. set_solver. }
    exists x3. split_and!; [done|done| |].
    + intros j' i' m' [->|Hj]%elem_of_cons Ej; [|by eapply Ha3]. rewrite Ea in Ej. injection Ej as <- <-.
      rewrite Hl3, Hl2, bool_decide_true by done. by exists (messages_sent x).
    + intros k Hk. cbn in Hk. rewrite Ea in Hk. cbn in Hk. rewrite Hl3, Hl2 by set_solver. by rewrite bool_decide_false by set_solver.
  - obind. destruct (IH x) as (x3 & E3 & Hi3 & Ha3 & Hl3); [done|cbn in *; lia| | |].
    { destruct (entry_key j); [by apply NoDup_cons in Hn as [_ ?]|done]. }
    { intros k Hk. apply Hnew. destruct (entry_key j); set_solver. }
    exists x3. split_and!; [done|done| |].
    + intros j' i' m' [->|Hj]%elem_of_cons Ej; [congruence|by eapply Ha3].
    + intros k Hk. cbn in Hk. rewrite Ea in Hk. by apply Hl3.
Qed.
End Added.

(** ** A document *)

Section Configured.
Context {T : Target} {N : Interfaces}.

Lemma datachannels_nodup (hash : capwap_hash ac_if_datachannel) :
  hash_inv hash -> NoDup (dc_index <$> all_items (items hash)).
Proof.
  intros Hi%hash_inv_sorted. destruct Hi as (_ & _ & _ & Hb).
  refine (proj1 (all_items_nodup (items hash) (hashsize hash) 0 _)). intros i t E. destruct (Hb i t E) as [[_ Ho] Hf].
  split; [done|]. eapply Forall_impl; [exact Hf|]. cbn. lia.
Qed.

Lemma lookup_absent (hash : capwap_hash ac_if_datachannel) :
  hash_inv hash -> forall k, hash_lookup hash k = None <-> k ∉ dc_index <$> all_items (items hash).
Proof.
  intros Hi k. split.
  - intros Hk (d & -> & Hd)%list_elem_of_fmap.
    pose proof (all_items_lookup hash d (hash_inv_sorted _ Hi) Hd) as E. cbn in E. congruence.
  - intros Hk. destruct (hash_lookup hash k) as [d|] eqn:E; [|done]. destruct Hk.
    unfold hash_lookup in E. destruct (bucket hash _) as [t|] eqn:Et; [|done].
    apply List.find_some in E as [Hin Hc]. apply Z.eqb_eq in Hc. apply (proj1 (cmp_eq (cmp := ac_ifdatachannel_item_cmp) _ _)) in Hc. cbn in Hc.
    apply list_elem_of_fmap. exists d. split; [done|]. unfold all_items. apply list_elem_of_join. exists (inorder t).
    split; [by apply list_elem_of_In|]. apply list_elem_of_fmap. exists t. split; [done|].
    by eapply list_elem_of_lookup_2.
Qed.

Lemma foreach_named hash l :
  hash_inv hash -> NoDup (entry_keys l) -> (forall k, is_Some (hash_lookup hash k) -> k ∈ entry_keys l) ->
  capwap_hash_foreach ac_update_configuration_datachannelinterfaces hash (l, []) =
    Some (hash, (cleared (dc_index <$> all_items (items hash)) <$> l, [])).
Proof.
  intros Hi Hn Hs. unfold capwap_hash_foreach. rewrite foreach_buckets_walk, walk_named; [done..| |].
  - by apply datachannels_nodup.
  - intros k (d & -> & Hd)%list_elem_of_fmap. apply Hs. exists d.
    exact (all_items_lookup hash d (hash_inv_sorted _ Hi) Hd).
Qed.

Lemma asked_cleared ks j k mtu : entry_asks (cleared ks j) = Some (k, mtu) -> entry_asks j = Some (k, mtu).
Proof. unfold cleared. destruct (entry_key j); [|done]. by case_bool_decide. Qed.

Lemma cleared_asked ks j k mtu : k ∉ ks -> entry_asks j = Some (k, mtu) -> cleared ks j = j.
Proof. intros Hk E. unfold cleared. rewrite (asked_key _ _ _ E). by rewrite bool_decide_false. Qed.

(** The table after a document that names all of its channels: they stay as they
    are, and the others that the document asks for are made. *)
Lemma update_configuration_spec fuel jsonroot l x :
  get_array jsonroot "DataChannelInterfaces" = Some l -> NoDup (entry_keys l) ->
  hash_inv (channels x) -> (forall k, is_Some (hash_lookup (channels x) k) -> k ∈ entry_keys l) ->
  2 * (total (items (channels x)) + zlen l + 1) <= Z.of_nat fuel ->
  exists x', ac_update_configuration fuel jsonroot x = Some x' /\ hash_inv (channels x') /\
    (forall k d, hash_lookup (channels x) k = Some d -> hash_lookup (channels x') k = Some d) /\
    (forall j k mtu, j ∈ l -> entry_asks j = Some (k, mtu) -> hash_lookup (channels x) k = None ->
       made k mtu (hash_lookup (channels x') k)) /\
    (forall k, k ∉ (omap entry_asks l).*1 -> hash_lookup (channels x') k = hash_lookup (channels x) k).
Proof.
  intros Ea Hn Hi Hs Hf. unfold ac_update_configuration. rewrite Ea, foreach_named by done. obind.
  set (ks := dc_index <$> all_items (items (channels x))).
  pose proof (lookup_absent (channels x) Hi) as Hks. fold ks in Hks.
  destruct (new_interfaces_spec fuel (DataChannels (channels x) (messages_sent x)) (cleared ks <$> l))
    as (x' & E' & Hi' & Ha & Hl); cbn [channels] in *.
  - done.
  - rewrite length_fmap. lia.
  - rewrite cleared_keys. by apply NoDup_filter.
  - intros k. rewrite cleared_keys, list_elem_of_filter. intros [Hk _]. by apply Hks.
  - exists x'. split_and!; [done|done| | |].
    + intros k d Hd. rewrite Hl; [done|]. intros ([k' m] & -> & (j & Hj & Ej)%list_elem_of_omap)%list_elem_of_fmap.
      apply list_elem_of_fmap in Hj as (j0 & -> & Hj0). cbn in *.
      pose proof (asked_key _ _ _ Ej) as Ek. unfold cleared in Ek.
      destruct (entry_key j0) as [k0|] eqn:E0; [|congruence]. case_bool_decide as Hb; [done|].
      rewrite E0 in Ek. injection Ek as ->. apply Hks in Hb. congruence.
    + intros j k mtu Hj Ej Hk%Hks. eapply Ha; [|exact Ej]. apply list_elem_of_fmap. exists j. split; [|done].
      symmetry. by eapply cleared_asked.
    + intros k Hk. apply Hl. intros Hin. apply Hk.
      apply list_elem_of_fmap in Hin as ([k' m] & -> & (j & Hj & Ej)%list_elem_of_omap).
      apply list_elem_of_fmap in Hj as (j0 & -> & Hj0). apply list_elem_of_fmap. exists (k', m). split; [done|].
      apply list_elem_of_omap. exists j0. split; [done|]. by eapply asked_cleared.
Qed.
End Configured.
