(* ===== verification/AcSessionSpec.v ===== *)
(** Rules for the operations of a session: what each of them leaves alone.

    [wlp m s Q]: when [m] has a result from [s], it satisfies [Q].  An operation
    is [quiet] when it neither changes the state of the session nor its identity
    nor its place in the list, and only adds to the log.  The other operations
    move the session to a state ([moved]) or tear it down ([torn]). *)
From stdpp Require Import option list strings.
From S2P Require Import Prelude Io Header CapwapArray Timeout CapwapHash.
From S2P Require Import ElementsImage Element Tx Rx Packet Validate Base64 Json.
From S2P Require Import AcWorld AcWlans AcSession AcActions AcDfaJoin AcDfaConfigure AcRun.
#[local] Open Scope Z_scope.

(** ** Partial correctness *)

Definition wlp {S A} (m : ST S A) (s : S) (Q : A -> S -> Prop) : Prop :=
  forall a s', m s = Some (a, s') -> Q a s'.

Section Rules.
Context {S : Type}.
Implicit Types (s : S).

Lemma wlp_ret {A} (a : A) s (Q : A -> S -> Prop) : Q a s -> wlp (ret a) s Q.
Proof. by intros ? ?? [= <- <-]. Qed.

Lemma wlp_bind {A B} (m : ST S A) (k : A -> ST S B) s Q :
  wlp m s (fun a s' => wlp (k a) s' Q) -> wlp (bind m k) s Q.
Proof.
  intros H b s'. unfold bind. destruct (m s) as [[a s1]|] eqn:E; [|done]. intros E'. by apply (H a s1 E).
Qed.

Lemma wlp_gets {A} (f : S -> A) s (Q : A -> S -> Prop) : Q (f s) s -> wlp (gets f) s Q.
Proof. by intros ? ?? [= <- <-]. Qed.

Lemma wlp_update (f : S -> S) s (Q : unit -> S -> Prop) : Q tt (f s) -> wlp (update f) s Q.
Proof. by intros ? ?? [= <- <-]. Qed.

Lemma wlp_lift {A} (o : option A) s (Q : A -> S -> Prop) :
  (forall a, o = Some a -> Q a s) -> wlp (lift o) s Q.
Proof. intros H a s'. unfold lift. destruct o as [x|]; [|done]. intros [= <- <-]. by apply H. Qed.

Lemma wlp_guard b s (Q : unit -> S -> Prop) : (b = true -> Q tt s) -> wlp (guard b) s Q.
Proof. intros H. apply wlp_lift. intros []. destruct b; [|done]. intros _. by apply H. Qed.

Lemma wlp_when (b : bool) (m : ST S unit) s Q :
  (b = true -> wlp m s Q) -> (b = false -> Q tt s) -> wlp (when b m) s Q.
Proof. intros Ht Hf. destruct b; [by apply Ht|]. apply wlp_ret. by apply Hf. Qed.

Lemma wlp_assoc {A B C} (m : ST S A) (k : A -> ST S B) (k' : B -> ST S C) s Q :
  wlp (bind (bind m k) k') s Q -> wlp (bind m (fun a => bind (k a) k')) s Q.
Proof. unfold wlp, bind. intros H c s'. specialize (H c s'). by destruct (m s) as [[a s1]|]. Qed.

Lemma wlp_mono {A} (m : ST S A) s (P Q : A -> S -> Prop) :
  wlp m s P -> (forall a s', P a s' -> Q a s') -> wlp m s Q.
Proof. intros H HPQ a s' E. by apply HPQ, H. Qed.
End Rules.

(** The steps that have only one rule. *)
Ltac wlp_step :=
  lazymatch goal with
  | |- wlp (bind _ _) _ _ => apply wlp_bind
  | |- wlp (ret _) _ _ => apply wlp_ret
  | |- wlp (gets _) _ _ => apply wlp_gets
  | |- wlp (update _) _ _ => apply wlp_update
  | |- wlp (lift _) _ _ => apply wlp_lift; intros
  | |- wlp (guard _) _ _ => apply wlp_guard; intros
  | |- wlp (emit_output _) _ _ => apply wlp_update
  end.
Ltac wlp_steps := repeat wlp_step.

(** ** Quiet operations *)

Record quiet (s s' : ac_session_t) : Prop := Quiet {
  q_state : state s' = state s;
  q_listed : listed s' = listed s;
  q_wtpid : wtpid s' = wtpid s;
  q_log : exists l, log s' = log s ++ l
}.

Lemma quiet_refl s : quiet s s.
Proof. split; try done. exists []. by rewrite app_nil_r. Qed.

Lemma quiet_trans s1 s2 s3 : quiet s1 s2 -> quiet s2 s3 -> quiet s1 s3.
Proof.
  intros [? ? ? [l El]] [? ? ? [l' El']]. split; try congruence.
  exists (l ++ l'). by rewrite El', El, app_assoc.
Qed.

Definition quiet_op {A} (m : MS A) : Prop := forall s, wlp m s (fun _ => quiet s).

Lemma quiet_ret {A} (a : A) : quiet_op (ret a).
Proof. intros s. apply wlp_ret, quiet_refl. Qed.

Lemma quiet_bind {A B} (m : MS A) (k : A -> MS B) :
  quiet_op m -> (forall a, quiet_op (k a)) -> quiet_op (bind m k).
Proof.
  intros Hm Hk s. apply wlp_bind. intros a s1 E1 b s2 E2.
  eapply quiet_trans; [by apply (Hm s a)|by apply (Hk a s1 b)].
Qed.

Lemma quiet_gets {A} (f : ac_session_t -> A) : quiet_op (gets f).
Proof. intros s. apply wlp_gets, quiet_refl. Qed.

Lemma quiet_lift {A} (o : option A) : quiet_op (lift o).
Proof. intros s. apply wlp_lift. intros a _. apply quiet_refl. Qed.

Lemma quiet_guard b : quiet_op (guard b).
Proof. apply quiet_lift. Qed.

Lemma quiet_when b (m : MS unit) : quiet_op m -> quiet_op (when b m).
Proof. intros H. destruct b; [done|apply quiet_ret]. Qed.

Lemma quiet_update f : (forall s, quiet s (f s)) -> quiet_op (update f).
Proof. intros H s. apply wlp_update, H. Qed.

Create HintDb quiet.
#[export] Hint Resolve quiet_refl quiet_ret quiet_gets quiet_lift quiet_guard : quiet.

(** An operation of quiet parts, by the structure of its body. *)
Ltac quiet_step :=
  lazymatch goal with
  | |- forall _, _ => intros ?
  | |- quiet_op (bind _ _) => apply quiet_bind
  | |- quiet_op (ret _) => apply quiet_ret
  | |- quiet_op (gets _) => apply quiet_gets
  | |- quiet_op (lift _) => apply quiet_lift
  | |- quiet_op (guard _) => apply quiet_guard
  | |- quiet_op (when _ _) => apply quiet_when
  | |- quiet_op (if ?b then _ else _) => destruct b
  | |- quiet_op (match ?x with _ => _ end) => destruct x
  | |- quiet_op (let '(_, _) := ?x in _) => destruct x
  | |- quiet_op (update _) => first [solve [eauto with quiet nocore] | apply quiet_update; intros ?; by split; try (exists []; by rewrite app_nil_r)]
  | |- quiet_op _ => solve [eauto with quiet nocore]
  end.
Ltac quiet_op := repeat quiet_step.

Lemma quiet_emit o : quiet_op (emit_output o).
Proof. apply quiet_update. intros s. split; try done. by exists [o]. Qed.
#[export] Hint Resolve quiet_emit : quiet.

Section Quiet.
Context {I : Indeterminate} {T : Target} {C : CharSign} {E : Environment}.
Context (fuel : nat) (now : timeval).

Lemma quiet_sendto datagram : quiet_op (capwap_crypt_sendto datagram).
Proof. unfold capwap_crypt_sendto. quiet_op. Qed.
Hint Resolve quiet_sendto : quiet.

Lemma quiet_send l : quiet_op (capwap_crypt_sendto_fragmentpacket l).
Proof.
  induction l as [|f l IH]; cbn [capwap_crypt_sendto_fragmentpacket]; [apply quiet_ret|].
  quiet_op.
Qed.

Lemma quiet_soap method params : quiet_op (ac_session_send_soap_request method params).
Proof. unfold ac_session_send_soap_request. quiet_op. Qed.
Hint Resolve quiet_send quiet_soap : quiet.

Lemma quiet_soap_of_wtp method params : quiet_op (soap_of_wtp method params).
Proof. unfold soap_of_wtp. quiet_op. Qed.
Lemma quiet_kmod o : quiet_op (kmod o).
Proof. unfold kmod. quiet_op. Qed.
Lemma quiet_on_timers f : quiet_op (on_timers f).
Proof. unfold on_timers. quiet_op. Qed.
Hint Resolve quiet_soap_of_wtp quiet_kmod quiet_on_timers : quiet.

Lemma quiet_control_timer d cb : quiet_op (set_control_timer fuel now d cb).
Proof. unfold set_control_timer, session_timeout_set. quiet_op. Qed.
Lemma quiet_keepalive_timer d cb : quiet_op (set_keepalive_timer fuel now d cb).
Proof. unfold set_keepalive_timer, session_timeout_set. quiet_op. Qed.
Lemma quiet_unset id : quiet_op (session_timeout_unset fuel id).
Proof. unfold session_timeout_unset. quiet_op. Qed.
Hint Resolve quiet_control_timer quiet_keepalive_timer quiet_unset : quiet.

Lemma quiet_route l : quiet_op (route_events l).
Proof.
  induction l as [|e l IH]; cbn [route_events]; [apply quiet_ret|].
  apply quiet_bind; [|done]. destruct e; cbn [route_event]; unfold ac_session_send_action; quiet_op.
Qed.
Hint Resolve quiet_route : quiet.

Lemma quiet_in_world {A} (m : M A) : quiet_op (in_world m).
Proof. unfold in_world. quiet_op. Qed.

Lemma quiet_notify p status : quiet_op (notify_event p status).
Proof. unfold notify_event, ac_soap_updatebackendevent. quiet_op. Qed.
Lemma quiet_cancel l : quiet_op (cancel_events l).
Proof.
  induction l as [|e l IH]; cbn [cancel_events]; [apply quiet_ret|].
  unfold ac_soap_updatebackendevent. quiet_op.
Qed.
Lemma quiet_free_request : quiet_op ac_free_reference_last_request.
Proof. unfold ac_free_reference_last_request. quiet_op. Qed.
Lemma quiet_count l : quiet_op (count_fragments l).
Proof. unfold count_fragments. quiet_op. Qed.
Hint Resolve @quiet_in_world quiet_notify quiet_cancel quiet_free_request quiet_count : quiet.

Lemma quiet_send_response tx c : quiet_op (send_response tx c).
Proof. unfold send_response, ac_free_reference_last_response. quiet_op. Qed.
Lemma quiet_send_request type l : quiet_op (send_request type l).
Proof. unfold send_request. quiet_op. Qed.
Lemma quiet_invalid rx code : quiet_op (ac_send_invalid_request rx code).
Proof. unfold ac_send_invalid_request. quiet_op. Qed.

Lemma quiet_json response : quiet_op (ac_soapclient_parse_json_response response).
Proof. unfold ac_soapclient_parse_json_response. quiet_op. Qed.
Lemma quiet_document method d : quiet_op (send_document method d).
Proof. unfold send_document. quiet_op. Qed.
End Quiet.
#[export] Hint Resolve quiet_send quiet_soap quiet_soap_of_wtp quiet_kmod quiet_on_timers quiet_control_timer
  quiet_keepalive_timer quiet_unset quiet_route @quiet_in_world quiet_notify quiet_cancel quiet_free_request
  quiet_count quiet_send_response quiet_send_request quiet_invalid quiet_json quiet_document : quiet.

(** ** Moves *)

(** The identity and the place of the session are the same, and the log grew. *)
Record kept (s s' : ac_session_t) : Prop := Kept {
  k_listed : listed s' = listed s;
  k_wtpid : wtpid s' = wtpid s;
  k_log : exists l, log s' = log s ++ l
}.

Lemma quiet_kept s s' : quiet s s' -> kept s s'.
Proof. by intros []. Qed.

Lemma session_kept_trans s1 s2 s3 : kept s1 s2 -> kept s2 s3 -> kept s1 s3.
Proof.
  intros [? ? [l El]] [? ? [l' El']]. split; try congruence.
  exists (l ++ l'). by rewrite El', El, app_assoc.
Qed.

(** The session was torn down. *)
Record torn (s s' : ac_session_t) : Prop := Torn {
  t_before : listed s = true;
  t_state : state s' = CAPWAP_DTLS_TEARDOWN_STATE;
  t_listed : listed s' = false;
  t_packets : packets s' = [];
  t_events : notifyevent s' = [];
  t_control : idtimercontrol s' = CAPWAP_TIMEOUT_INDEX_NO_SET;
  t_keepalive : idtimerkeepalivedead s' = CAPWAP_TIMEOUT_INDEX_NO_SET;
  t_log : exists l, log s' = log s ++ l
}.

Lemma torn_kept s1 s2 s3 : kept s1 s2 -> torn s2 s3 -> torn s1 s3.
Proof.
  intros [? ? [l El]] [? ? ? ? ? ? ? [l' El']]. split; try congruence.
  exists (l ++ l'). by rewrite El', El, app_assoc.
Qed.

(** The states an operation may move to without tearing the session down. *)
Definition calm (l : list Z) (s s' : ac_session_t) : Prop :=
  kept s s' /\ (state s' = state s \/ state s' ∈ l).
Definition after (l : list Z) (s s' : ac_session_t) : Prop := calm l s s' \/ torn s s'.

Definition calm_op {A} (l : list Z) (m : MS A) : Prop := forall s, wlp m s (fun _ => calm l s).
Definition after_op {A} (l : list Z) (m : MS A) : Prop := forall s, wlp m s (fun _ => after l s).

Lemma calm_trans l s1 s2 s3 : calm l s1 s2 -> calm l s2 s3 -> calm l s1 s3.
Proof.
  intros [K1 H1] [K2 H2]. split; [by eapply session_kept_trans|].
  destruct H2 as [E|]; [|by right]. rewrite E. done.
Qed.

Lemma calm_after l s1 s2 s3 : calm l s1 s2 -> after l s2 s3 -> after l s1 s3.
Proof.
  intros H1 [H2|H2]; [left; by eapply calm_trans|right]. eapply torn_kept; [apply H1|done].
Qed.

Lemma calm_quiet {A} l (m : MS A) : quiet_op m -> calm_op l m.
Proof. intros H s a s' E. specialize (H s a s' E). split; [by apply quiet_kept|]. left. apply H. Qed.
Lemma after_calm {A} l (m : MS A) : calm_op l m -> after_op l m.
Proof. intros H s a s' E. left. by apply (H s a). Qed.

Lemma calm_bind {A B} l (m : MS A) (k : A -> MS B) :
  calm_op l m -> (forall a, calm_op l (k a)) -> calm_op l (bind m k).
Proof.
  intros Hm Hk s. apply wlp_bind. intros a s1 E1 b s2 E2.
  eapply calm_trans; [by apply (Hm s a)|by apply (Hk a s1 b)].
Qed.

Lemma after_bind {A B} l (m : MS A) (k : A -> MS B) :
  calm_op l m -> (forall a, after_op l (k a)) -> after_op l (bind m k).
Proof.
  intros Hm Hk s. apply wlp_bind. intros a s1 E1 b s2 E2.
  eapply calm_after; [by apply (Hm s a)|by apply (Hk a s1 b)].
Qed.

(** Nothing is left to do after the part that may tear the session down. *)
Lemma after_last {A B} l (m : MS A) (f : A -> B) : after_op l m -> after_op l (bind m (fun a => ret (f a))).
Proof. intros Hm s. apply wlp_bind. intros a s1 E1. apply wlp_ret. by apply (Hm s a). Qed.

Lemma after_weaken {A} l l' (m : MS A) : l ⊆ l' -> after_op l m -> after_op l' m.
Proof.
  intros Hl H s a s' E. destruct (H s a s' E) as [[K Hs]|]; [left|by right]. split; [done|].
  destruct Hs; [by left|right; by apply Hl].
Qed.

Lemma change_state_spec {E : Environment} st s :
  wlp (ac_dfa_change_state st) s (fun _ s' => kept s s' /\ state s' = st).
Proof.
  unfold ac_dfa_change_state. apply wlp_bind, wlp_gets. apply wlp_when; intros Hb.
  - apply wlp_bind, wlp_update. intros a s' E1. by destruct (quiet_notify _ _ _ a s' E1).
  - split; [apply quiet_kept, quiet_refl|]. by apply negb_false_iff, Z.eqb_eq in Hb.
Qed.

(** An operation that moves to one state is calm for any list that has it. *)
Lemma calm_change_state {E : Environment} l st : st ∈ l -> calm_op l (ac_dfa_change_state st).
Proof. intros Hst s a s' E1. destruct (change_state_spec st s a s' E1) as [K Hs]. split; [done|right; by rewrite Hs]. Qed.

Ltac in_list := repeat (apply list_elem_of_here || apply list_elem_of_further).

Ltac after_step :=
  lazymatch goal with
  | |- forall _, _ => intros ?
  | |- calm_op _ (ac_dfa_change_state _) => apply calm_change_state; in_list
  | |- calm_op _ (bind _ _) => first [solve [apply calm_quiet; quiet_op] | apply calm_bind]
  | |- calm_op _ (when ?b _) => destruct b; unfold when
  | |- calm_op _ (if ?b then _ else _) => destruct b
  | |- calm_op _ (match ?x with _ => _ end) => destruct x
  | |- calm_op _ _ => solve [eauto with quiet nocore | apply calm_quiet; quiet_op]
  | |- after_op _ (bind ?m (fun _ => ret _)) =>
      first [solve [apply after_calm, calm_quiet; quiet_op] | apply (after_last _ m (fun _ => _))]
  | |- after_op _ (bind _ _) => first [solve [apply after_calm, calm_quiet; quiet_op] | apply after_bind]
  | |- after_op _ (when ?b _) => destruct b; unfold when
  | |- after_op _ (if ?b then _ else _) => destruct b
  | |- after_op _ (match ?x with _ => _ end) => destruct x
  | |- after_op _ (ac_dfa_change_state _) => apply after_calm
  | |- after_op _ _ => solve [eauto with quiet nocore | apply after_calm, calm_quiet; quiet_op]
  end.
Ltac after_op := repeat after_step.

Section Moves.
Context {I : Indeterminate} {T : Target} {C : CharSign} {E : Environment}.
Context (fuel : nat) (now : timeval) (ac : ac_t) (stale_length : Z).

(** ** Tearing down *)

(** What the operations of [ac_session_teardown] after the list leave alone: the
    events and the two timers are as given. *)
Definition winding (s s' : ac_session_t) (events : list ac_session_notify_event_t) (control keepalive : Z) : Prop :=
  quiet s s' /\ packets s' = packets s /\ notifyevent s' = events /\ idtimercontrol s' = control /\
  idtimerkeepalivedead s' = keepalive.

Lemma winding_trans s1 s2 s3 e2 c2 k2 e3 c3 k3 :
  winding s1 s2 e2 c2 k2 -> winding s2 s3 e3 c3 k3 -> winding s1 s3 e3 c3 k3.
Proof.
  intros (Q & ? & _) (Q' & ? & ? & ? & ?). unfold winding. split_and!; try congruence. by eapply quiet_trans.
Qed.

Lemma cancel_spec l : forall s, notifyevent s = l ->
  wlp (cancel_events l) s (fun _ s' => winding s s' [] (idtimercontrol s) (idtimerkeepalivedead s)).
Proof.
  induction l as [|e l IH]; intros s Hl; cbn [cancel_events].
  - apply wlp_ret. split; [apply quiet_refl|done].
  - unfold ac_soap_updatebackendevent, ac_session_send_soap_request. wlp_steps.
    eapply wlp_mono; [by apply IH|]. intros [] s' W. eapply winding_trans; [|exact W].
    split; [|done]. split; try done. by eexists.
Qed.

Lemma unset_fields id s :
  wlp (session_timeout_unset fuel id) s
    (fun _ s' => winding s s' (notifyevent s) (idtimercontrol s) (idtimerkeepalivedead s)).
Proof.
  unfold session_timeout_unset, on_timers. wlp_steps. split; [|done]. split; try done. exists []. by rewrite app_nil_r.
Qed.

Lemma stop_control_spec s :
  wlp (control <- gets idtimercontrol;;
       when (negb (control =? CAPWAP_TIMEOUT_INDEX_NO_SET))
         (session_timeout_unset fuel control;; update (set_idtimercontrol CAPWAP_TIMEOUT_INDEX_NO_SET))) s
    (fun _ s' => winding s s' (notifyevent s) CAPWAP_TIMEOUT_INDEX_NO_SET (idtimerkeepalivedead s)).
Proof.
  wlp_steps. apply wlp_when; intros Hb.
  - apply wlp_bind. eapply wlp_mono; [apply unset_fields|]. intros [] s' ([] & ? & ? & ? & ?). apply wlp_update.
    unfold winding. split_and!; done || by split.
  - apply negb_false_iff, Z.eqb_eq in Hb. unfold winding. split_and!; try done. apply quiet_refl.
Qed.

Lemma stop_keepalive_spec s :
  wlp (dead <- gets idtimerkeepalivedead;;
       when (negb (dead =? CAPWAP_TIMEOUT_INDEX_NO_SET))
         (session_timeout_unset fuel dead;; update (set_idtimerkeepalivedead CAPWAP_TIMEOUT_INDEX_NO_SET))) s
    (fun _ s' => winding s s' (notifyevent s) (idtimercontrol s) CAPWAP_TIMEOUT_INDEX_NO_SET).
Proof.
  wlp_steps. apply wlp_when; intros Hb.
  - apply wlp_bind. eapply wlp_mono; [apply unset_fields|]. intros [] s' ([] & ? & ? & ? & ?). apply wlp_update.
    unfold winding. split_and!; done || by split.
  - apply negb_false_iff, Z.eqb_eq in Hb. unfold winding. split_and!; try done. apply quiet_refl.
Qed.

(** The end of [ac_session_teardown]: no event is left to report. *)
Lemma change_state_quietly st s :
  notifyevent s = [] -> wlp (ac_dfa_change_state st) s (fun _ s' =>
    state s' = st /\ listed s' = listed s /\ packets s' = packets s /\ notifyevent s' = [] /\
    idtimercontrol s' = idtimercontrol s /\ idtimerkeepalivedead s' = idtimerkeepalivedead s /\ log s' = log s).
Proof.
  intros Hn. unfold ac_dfa_change_state. wlp_steps. apply wlp_when; intros Hb.
  - unfold notify_event. wlp_steps. cbn [notifyevent set_state]. rewrite Hn. cbn [take_event]. by apply wlp_ret.
  - apply negb_false_iff, Z.eqb_eq in Hb. by split_and!.
Qed.

Lemma teardown_torn s : wlp (ac_session_teardown fuel) s (fun _ => torn s).
Proof.
  unfold ac_session_teardown. apply wlp_bind, wlp_gets, wlp_bind, wlp_guard. intros Hl.
  do 2 apply wlp_bind, wlp_update. apply wlp_bind, wlp_gets, wlp_bind.
  set (s1 := set_packets [] (set_listed false s)).
  apply (wlp_mono _ _ (fun _ s' => winding s1 s' (notifyevent s) (idtimercontrol s) (idtimerkeepalivedead s))).
  { apply wlp_when; intros _; [apply wlp_update|]; (split; [|done]); [|apply quiet_refl]. split; try done. by eexists. }
  intros [] s2 W2. apply wlp_bind, wlp_gets, wlp_bind. eapply wlp_mono; [by apply cancel_spec|].
  intros [] s3 W3. apply wlp_assoc, wlp_bind. eapply wlp_mono; [apply stop_control_spec|].
  intros [] s4 W4. apply wlp_assoc, wlp_bind. eapply wlp_mono; [apply stop_keepalive_spec|]. intros [] s5 W5.
  pose proof (winding_trans _ _ _ _ _ _ _ _ _ W2 (winding_trans _ _ _ _ _ _ _ _ _ W3
    (winding_trans _ _ _ _ _ _ _ _ _ W4 W5))) as ([Qs Ql Qw [g Qg]] & Hp & Hn & Hc & Hk).
  assert (He : notifyevent s5 = []) by (rewrite Hn; by destruct W4 as (_ & _ & -> & _); destruct W3 as (_ & _ & -> & _)).
  assert (Hz : idtimercontrol s5 = CAPWAP_TIMEOUT_INDEX_NO_SET) by (rewrite Hc; by destruct W4 as (_ & _ & _ & -> & _)).
  eapply wlp_mono; [by apply change_state_quietly|]. intros [] s6 (Hs & Hl6 & Hp6 & Hn6 & Hc6 & Hk6 & Hg).
  split; try congruence; [by rewrite Hl6, Ql|by rewrite Hp6, Hp|]. exists g. by rewrite Hg, Qg.
Qed.

Lemma after_teardown l : after_op l (ac_session_teardown fuel).
Proof. intros s a s' E1. right. by apply (teardown_torn s a). Qed.
Hint Resolve after_teardown : quiet.

(** ** The handlers *)

Lemma quiet_echo packet : quiet_op (receive_echo_request packet).
Proof. unfold receive_echo_request. quiet_op. Qed.
Lemma quiet_pending : quiet_op (pending_request fuel).
Proof. unfold pending_request. quiet_op. Qed.
Hint Resolve quiet_echo quiet_pending : quiet.

Lemma quiet_wlan_response packet : quiet_op (receive_ieee80211_wlan_configuration_response fuel packet).
Proof.
  unfold receive_ieee80211_wlan_configuration_response, execute_ieee80211_wlan_configuration_addwlan. quiet_op.
Qed.
Lemma quiet_station_response packet : quiet_op (receive_ieee80211_station_configuration_response fuel packet).
Proof.
  unfold receive_ieee80211_station_configuration_response, station_response_addstation,
    station_response_deletestation. quiet_op.
Qed.
Hint Resolve quiet_wlan_response quiet_station_response : quiet.

Lemma after_run packet : after_op [] (ac_dfa_state_run fuel now packet).
Proof. unfold ac_dfa_state_run, run_message, set_echo_timer. after_op. Qed.
Lemma after_reset packet : after_op [] (ac_dfa_state_reset fuel packet).
Proof. unfold ac_dfa_state_reset. after_op. Qed.
Lemma quiet_configure_response packet response tx :
  quiet_op (ac_dfa_state_configure_create_response packet response tx).
Proof.
  unfold ac_dfa_state_configure_create_response, configure_radios, ac_dfa_state_configure_set_radio_configuration.
  quiet_op.
Qed.
Hint Resolve quiet_configure_response : quiet.
Lemma after_configure packet : after_op [CAPWAP_DATA_CHECK_STATE] (ac_dfa_state_configure fuel now packet).
Proof. unfold ac_dfa_state_configure, ac_dfa_state_configure_parsing_request. after_op. Qed.

Lemma after_await sent : after_op [] (await_answer fuel now sent).
Proof. unfold await_answer. after_op. Qed.

Lemma quiet_authorize_request r w a : quiet_op (ac_session_action_authorizestation_request r w a).
Proof. unfold ac_session_action_authorizestation_request. quiet_op. Qed.
Lemma quiet_no_pending : quiet_op no_pending_request.
Proof. unfold no_pending_request. quiet_op. Qed.
Hint Resolve after_await quiet_authorize_request quiet_no_pending : quiet.

Lemma after_authorize response notify :
  after_op [] (ac_session_action_authorizestation_response fuel now ac response notify).
Proof. unfold ac_session_action_authorizestation_response, datachannel_ifindex. after_op. Qed.
Hint Resolve after_authorize : quiet.

Lemma after_add_station notify :
  after_op [] (ac_session_action_station_configuration_ieee8011_add_station fuel now ac notify).
Proof. unfold ac_session_action_station_configuration_ieee8011_add_station. after_op. Qed.
Lemma after_delete_station r a :
  after_op [] (ac_session_action_station_configuration_ieee8011_delete_station fuel now r a).
Proof. unfold ac_session_action_station_configuration_ieee8011_delete_station. after_op. Qed.
Lemma after_addwlan notify : after_op [] (ac_session_action_addwlan fuel now notify).
Proof. unfold ac_session_action_addwlan. after_op. Qed.
Lemma after_resetwtp vendor name :
  after_op [CAPWAP_RESET_STATE] (ac_session_action_resetwtp fuel now vendor name).
Proof.
  unfold ac_session_action_resetwtp. after_op. eapply after_weaken; [|apply after_await]. by apply list_subseteq_nil.
Qed.
Lemma quiet_mgmt packet : quiet_op (ac_session_action_recv_ieee80211_mgmt_packet fuel now stale_length packet).
Proof. unfold ac_session_action_recv_ieee80211_mgmt_packet. quiet_op. Qed.

Lemma after_retransmit : after_op [] (ac_dfa_retransmition_timeout fuel now).
Proof. unfold ac_dfa_retransmition_timeout. after_op. Qed.
Hint Resolve after_retransmit : quiet.
Lemma after_expired : after_op [] (session_hasexpired fuel now).
Proof. unfold session_hasexpired, ac_dfa_teardown_timeout. after_op. Qed.

(** Handlers that always leave for another state, or tear the session down. *)
Definition ends_op {A} (l : list Z) (m : MS A) : Prop :=
  forall s, wlp m s (fun _ s' => kept s s' /\ state s' ∈ l \/ torn s s').

Lemma ends_teardown l : ends_op l (ac_session_teardown fuel).
Proof. intros s a s' E1. right. by apply (teardown_torn s a). Qed.

Lemma ends_op_bind {A B} l l' (m : MS A) (k : A -> MS B) :
  calm_op l' m -> (forall a, ends_op l (k a)) -> ends_op l (bind m k).
Proof.
  intros Hm Hk s. apply wlp_bind. intros a s1 E1 b s2 E2. destruct (Hm s a s1 E1) as [K _].
  destruct (Hk a s1 b s2 E2) as [[K' Hs]|Ht]; [left|right; by eapply torn_kept]. split; [by eapply session_kept_trans|done].
Qed.

(** A move to a state, and quiet operations. *)
Lemma ends_change {A} l st (m : MS A) :
  st ∈ l -> quiet_op m -> ends_op l (bind (ac_dfa_change_state st) (fun _ => m)).
Proof.
  intros Hst Hm s. apply wlp_bind. eapply wlp_mono; [apply change_state_spec|]. intros [] s1 [K Hs] b s2 E2. left.
  destruct (Hm s1 b s2 E2) as [Qs Ql Qw Qg]. split; [eapply session_kept_trans; [exact K|by split]|]. by rewrite Qs, Hs.
Qed.

Lemma ends_configure packet : ends_op [CAPWAP_DATA_CHECK_STATE] (ac_dfa_state_configure fuel now packet).
Proof.
  unfold ac_dfa_state_configure, ac_dfa_state_configure_parsing_request.
  repeat (eapply (ends_op_bind _ []); [after_op|intros ?]).
  destruct (ResultCode.CAPWAP_RESULTCODE_OK _); [|apply ends_teardown].
  apply ends_change; [in_list|apply quiet_control_timer].
Qed.

Lemma ends_postjoin packet : ends_op [CAPWAP_DATA_CHECK_STATE] (ac_dfa_state_postjoin fuel now packet).
Proof.
  unfold ac_dfa_state_postjoin, ac_dfa_state_imagedata.
  destruct (_ =? _); [|destruct (_ =? _); [|apply ends_teardown]].
  - apply (ends_op_bind _ [CAPWAP_CONFIGURE_STATE]); [after_op|]. intros _. apply ends_configure.
  - apply (ends_op_bind _ [CAPWAP_IMAGE_DATA_STATE]); [after_op|]. intros _. apply ends_teardown.
Qed.

(** ** What the back end and the kernel module agreed to *)

(** The session did [o] when its surroundings were as [P] says. *)
Definition asked (s : ac_session_t) (o : output) (P : list output -> Prop) : Prop :=
  exists l1 l2, log s = l1 ++ o :: l2 /\ P l1.

Lemma asked_grows s s' o P : asked s o P -> (exists l, log s' = log s ++ l) -> asked s' o P.
Proof. intros (l1 & l2 & El & HP) [l El']. exists l1, (l2 ++ l). split; [|done]. by rewrite El', El, <-app_assoc. Qed.

(** The back end authorised the WTP of the session. *)
Definition authorised (s : ac_session_t) : Prop :=
  exists w, wtpid s = Some w /\ asked s (Soap "authorizeWTPSession" [w]) (fun h =>
    exists r, soap h "authorizeWTPSession" [w] = Some r /\ answers_true r = true).

(** The kernel module made the data session. *)
Definition data_session (s : ac_session_t) : Prop :=
  exists b m, asked s (KmodNewDataSession b m) (fun h => kmod_call h (KmodNewDataSession b m) = 0).

(** The back end was told that the session runs, and agreed. *)
Definition confirmed (s : ac_session_t) : Prop :=
  exists w, wtpid s = Some w /\ asked s (Soap "runningWTPSession" [w]) (fun h =>
    exists r, soap h "runningWTPSession" [w] = Some r /\ responsecode r = HTTP_RESULT_OK).

Lemma kept_authorised s s' : kept s s' -> authorised s -> authorised s'.
Proof.
  intros [_ Hw Hl] (w & Ew & Ha). exists w. split; [congruence|]. by eapply asked_grows.
Qed.
Lemma kept_data_session s s' : kept s s' -> data_session s -> data_session s'.
Proof. intros [_ _ Hl] (b & m & Ha). exists b, m. by eapply asked_grows. Qed.
Lemma kept_confirmed s s' : kept s s' -> confirmed s -> confirmed s'.
Proof.
  intros [_ Hw Hl] (w & Ew & Ha). exists w. split; [congruence|]. by eapply asked_grows.
Qed.

(** ** The three handlers that ask *)

Lemma session_kept_refl s : kept s s.
Proof. apply quiet_kept, quiet_refl. Qed.

(** A handler that is done with a quiet part. *)
Lemma wlp_quiet {A} (m : MS A) s (Q : A -> ac_session_t -> Prop) :
  quiet_op m -> (forall a s', quiet s s' -> Q a s') -> wlp m s Q.
Proof. intros H HQ a s' E1. by apply HQ, (H s a). Qed.

Lemma datacheck_result_spec response s :
  wlp (datacheck_result response) s (fun r s' => quiet s s' /\
    (ResultCode.CAPWAP_RESULTCODE_OK r = true -> data_session s')).
Proof.
  unfold datacheck_result. destruct response as [response|]; [|by apply wlp_ret; split; [apply quiet_refl|]].
  unfold ac_dfa_state_datacheck_create_response. apply wlp_bind.
  apply wlp_bind, wlp_quiet; [apply quiet_json|]. intros j s1 Q1. apply wlp_ret.
  destruct j; [|by apply wlp_ret]. cbn [ResultCode.CAPWAP_RESULTCODE_OK].
  change (ResultCode.CAPWAP_RESULTCODE_OK ResultCode.CAPWAP_RESULTCODE_SUCCESS) with true. cbn iota.
  unfold kmod. wlp_steps. cbn [log]. split.
  - eapply quiet_trans; [exact Q1|]. split; try done. by eexists.
  - destruct (_ =? 0) eqn:Hr; [|done]. intros _. apply Z.eqb_eq in Hr.
    exists (wrap8 (binding s1)), (session_mtu s1), (log s1), []. done.
Qed.

Lemma datacheck_spec packet s :
  wlp (ac_dfa_state_datacheck fuel now packet) s (fun _ s' =>
    kept s s' /\ state s' = CAPWAP_DATA_CHECK_TO_RUN_STATE /\ data_session s' \/ torn s s').
Proof.
  unfold ac_dfa_state_datacheck, ac_dfa_state_datacheck_parsing_request.
  apply wlp_bind, wlp_gets, wlp_bind, wlp_lift. intros tx _.
  apply wlp_bind, wlp_quiet; [apply quiet_document|]. intros response s1 Q1%quiet_kept. apply wlp_bind.
  eapply wlp_mono; [apply datacheck_result_spec|]. intros r s2 [Q2%quiet_kept Hd].
  apply wlp_bind, wlp_lift. intros tx' _. apply wlp_bind, wlp_quiet; [apply quiet_send_response|]. intros _ s3 Q3%quiet_kept.
  pose proof (session_kept_trans _ _ _ Q1 (session_kept_trans _ _ _ Q2 Q3)) as K.
  destruct (ResultCode.CAPWAP_RESULTCODE_OK r) eqn:Hr.
  - set (m := bind _ _). assert (Hm : ends_op [CAPWAP_DATA_CHECK_TO_RUN_STATE] m)
      by (apply ends_change; [in_list|quiet_op]).
    eapply wlp_mono; [apply Hm|]. intros _ s4 [[K4 Hs]|Ht]; [left|right; by eapply torn_kept].
    apply list_elem_of_singleton in Hs. split_and!; [by eapply session_kept_trans|done|].
    eapply kept_data_session; [exact K4|]. eapply kept_data_session; [exact Q3|]. by apply Hd.
  - eapply wlp_mono; [apply teardown_torn|]. intros [] s4 Ht. right. by eapply torn_kept.
Qed.

Lemma keepalive_spec s :
  wlp (action_recv_keepalive fuel now) s (fun r s' => r < 0 /\
    (quiet s s' \/ kept s s' /\ state s = CAPWAP_DATA_CHECK_TO_RUN_STATE /\ state s' = CAPWAP_RUN_STATE /\ confirmed s')).
Proof.
  unfold action_recv_keepalive. apply wlp_bind, wlp_quiet; [apply quiet_keepalive_timer|]. intros _ s1 Q1.
  apply wlp_bind, wlp_gets. destruct (_ =? _) eqn:Hst; [|apply wlp_ret; split; [done|by left]].
  apply Z.eqb_eq in Hst. unfold soap_of_wtp, ac_session_send_soap_request. wlp_steps.
  set (s2 := set_log _ s1).
  assert (Q2 : quiet s1 s2) by (split; try done; by eexists).
  assert (Hq : CAPWAP_ERROR_CLOSE < 0 /\ (quiet s s2 \/ kept s s2 /\ state s = CAPWAP_DATA_CHECK_TO_RUN_STATE /\
    state s2 = CAPWAP_RUN_STATE /\ confirmed s2)) by (split; [done|left; by eapply quiet_trans]).
  destruct (soap (log s1) _ _) as [r|] eqn:Er; [|by apply wlp_ret].
  destruct (_ =? HTTP_RESULT_OK) eqn:Hr; [|by apply wlp_ret]. apply Z.eqb_eq in Hr.
  apply wlp_bind. eapply wlp_mono; [apply change_state_spec|]. intros [] s3 [K3 Hs].
  apply wlp_bind, wlp_quiet; [apply quiet_control_timer|]. intros _ s4 Q4. apply wlp_ret. split; [done|right].
  pose proof (quiet_kept _ _ Q1) as K1. pose proof (quiet_kept _ _ Q2) as K2. pose proof (quiet_kept _ _ Q4) as K4.
  split_and!.
  - eapply session_kept_trans; [exact K1|]. eapply session_kept_trans; [exact K2|]. by eapply session_kept_trans.
  - rewrite <-Hst. symmetry. apply Q1.
  - rewrite <-Hs. apply Q4.
  - apply (kept_confirmed s2); [exact (session_kept_trans _ _ _ K3 K4)|]. exists a. split; [done|]. exists (log s1), []. split; [done|].
    by exists r.
Qed.

(** The join handler gives the session its identity when the back end agrees. *)
Lemma join_authorize_spec packet s :
  wlp (join_authorize ac packet) s (fun code s' => listed s' = listed s /\ (exists l, log s' = log s ++ l) /\
    state s' = state s /\ (ResultCode.CAPWAP_RESULTCODE_OK code = true -> authorised s')).
Proof.
  assert (H0 : exists l, log s = log s ++ l) by (exists []; by rewrite app_nil_r).
  unfold join_authorize, ac_has_sessionid, ac_has_wtpid, ac_session_send_soap_request. wlp_steps.
  destruct (existsb _ _); [by apply wlp_ret|]. wlp_steps.
  destruct (ac_get_printable_wtpid _) as [w|]; [|by apply wlp_ret]. wlp_steps.
  match goal with |- wlp (if ?b then _ else _) _ _ => destruct b end; [by apply wlp_ret|].
  wlp_steps. set (s1 := set_log _ s). set (code := match soap _ _ _ with Some _ => _ | None => _ end).
  apply wlp_when; intros Hc; wlp_steps; (split_and!; [done|by eexists|done|intros Hc']); [|congruence].
  exists w. split; [done|]. exists (log s), []. split; [done|]. unfold code in Hc.
  destruct (soap _ _ _) as [r|] eqn:Er; [|done]. exists r. split; [done|]. revert Hc.
  unfold ac_dfa_state_join_check_authorizejoin. by destruct (answers_true r).
Qed.

(** A refusal stays one. *)
Lemma join_response_spec packet code tx s :
  wlp (join_response ac packet code tx) s (fun r s' => quiet s s' /\
    (ResultCode.CAPWAP_RESULTCODE_OK r.1 = true -> ResultCode.CAPWAP_RESULTCODE_OK code = true)).
Proof.
  unfold join_response. destruct (ResultCode.CAPWAP_RESULTCODE_OK code) eqn:Hc; [|apply wlp_ret; split; [apply quiet_refl|]; cbn; congruence].
  apply wlp_quiet; [|by intros].
  unfold ac_dfa_state_join_parsing_request, ac_dfa_state_join_create_response. quiet_op.
Qed.

Lemma join_spec packet s :
  wlp (ac_dfa_state_join fuel now ac packet) s (fun _ s' =>
    listed s' = listed s /\ (exists l, log s' = log s ++ l) /\ state s' = CAPWAP_POSTJOIN_STATE /\ authorised s' \/
    torn s s').
Proof.
  unfold ac_dfa_state_join, join_resultcode. apply wlp_bind.
  apply (wlp_mono _ _ (fun code s' => listed s' = listed s /\ (exists l, log s' = log s ++ l) /\
    (ResultCode.CAPWAP_RESULTCODE_OK code = true -> authorised s'))).
  { assert (H0 : exists l, log s = log s ++ l) by (exists []; by rewrite app_nil_r).
    destruct (negb _); [by apply wlp_ret|]. destruct (negb _); [by apply wlp_ret|].
    eapply wlp_mono; [apply join_authorize_spec|]. by intros code s' (? & ? & ? & ?). }
  intros code s1 (Hl & [g Hg] & Ha). apply wlp_bind, wlp_gets, wlp_bind, wlp_lift. intros tx _. apply wlp_bind.
  eapply wlp_mono; [apply join_response_spec|]. intros r s2 [Q2 Hr].
  apply wlp_bind, wlp_lift. intros tx' _. apply wlp_bind, wlp_quiet; [apply quiet_send_response|]. intros sent s3 Q3.
  pose proof (session_kept_trans _ _ _ (quiet_kept _ _ Q2) (quiet_kept _ _ Q3)) as [K1 K2 [g' K3]].
  assert (Hlog : exists l, log s3 = log s ++ l) by (exists (g ++ g'); by rewrite K3, Hg, app_assoc).
  destruct (_ && _) eqn:Hok.
  - apply andb_true_iff in Hok as [_ Hok]. apply wlp_bind. eapply wlp_mono; [apply change_state_spec|].
    intros [] s4 [K4 Hs]. apply wlp_quiet; [apply quiet_control_timer|]. intros _ s5 Q5. left.
    destruct (session_kept_trans _ _ _ K4 (quiet_kept _ _ Q5)) as [L1 L2 [g5 L3]]. split_and!.
    + congruence.
    + destruct Hlog as [l El]. exists (l ++ g5). by rewrite L3, El, app_assoc.
    + rewrite <-Hs. apply Q5.
    + apply (kept_authorised s1); [|by apply Ha, Hr]. split; [congruence|congruence|].
      exists (g' ++ g5). by rewrite L3, K3, app_assoc.
  - eapply wlp_mono; [apply teardown_torn|]. intros [] s4 [? ? ? ? ? ? ? [g5 Hg5]]. right. split; try done; [congruence|].
    destruct Hlog as [l El]. exists (l ++ g5). by rewrite Hg5, El, app_assoc.
Qed.

(** ** Transitions *)

(** The session entered Configure for a Configuration Status Request, and the
    handler of that state left it in Data Check. *)
Definition through_configure (s s' : ac_session_t) : Prop :=
  exists t packet s0 s1 s2,
    quiet s s0 /\ cm_type (pp_ctrlmsg packet) = CAPWAP_CONFIGURATION_STATUS_REQUEST /\
    ac_dfa_change_state CAPWAP_CONFIGURE_STATE s0 = Some (tt, s1) /\ state s1 = CAPWAP_CONFIGURE_STATE /\
    ac_dfa_state_configure fuel t packet s1 = Some (tt, s2) /\ state s2 = CAPWAP_DATA_CHECK_STATE /\ quiet s2 s'.

Lemma through_configure_before s1 s2 s3 : quiet s1 s2 -> through_configure s2 s3 -> through_configure s1 s3.
Proof. intros Q (t & p & a & b & c & Qa & H). exists t, p, a, b, c. split; [by eapply quiet_trans|done]. Qed.

Lemma through_configure_after s1 s2 s3 : through_configure s1 s2 -> quiet s2 s3 -> through_configure s1 s3.
Proof.
  intros (t & p & a & b & c & ? & ? & ? & ? & ? & ? & Qc) Q. exists t, p, a, b, c. split_and!; try done. by eapply quiet_trans.
Qed.

(** What one turn of the session may do. *)
Inductive transition (s s' : ac_session_t) : Prop :=
| tr_quiet : quiet s s' -> transition s s'
| tr_torn : torn s s' -> transition s s'
| tr_reset : kept s s' -> state s' = CAPWAP_RESET_STATE -> transition s s'
| tr_connect : kept s s' -> state s = CAPWAP_DTLS_CONNECT_STATE -> state s' = CAPWAP_JOIN_STATE -> transition s s'
| tr_join : listed s' = listed s -> (exists l, log s' = log s ++ l) -> state s = CAPWAP_JOIN_STATE ->
    state s' = CAPWAP_POSTJOIN_STATE -> authorised s' -> transition s s'
| tr_postjoin : kept s s' -> state s = CAPWAP_POSTJOIN_STATE -> state s' = CAPWAP_DATA_CHECK_STATE ->
    through_configure s s' -> transition s s'
| tr_configure : kept s s' -> state s = CAPWAP_CONFIGURE_STATE -> state s' = CAPWAP_DATA_CHECK_STATE -> transition s s'
| tr_datacheck : kept s s' -> state s = CAPWAP_DATA_CHECK_STATE -> state s' = CAPWAP_DATA_CHECK_TO_RUN_STATE ->
    data_session s' -> transition s s'
| tr_run : kept s s' -> state s = CAPWAP_DATA_CHECK_TO_RUN_STATE -> state s' = CAPWAP_RUN_STATE -> confirmed s' ->
    transition s s'.

Lemma transition_quiet s1 s2 s3 : quiet s1 s2 -> transition s2 s3 -> transition s1 s3.
Proof.
  intros Q H. pose proof (quiet_kept _ _ Q) as K. pose proof (q_state _ _ Q) as Qs.
  destruct H as [Q'|H|K'|K'|Hl [l El]|K' Hs Hd Hc|K'|K'|K'].
  - apply tr_quiet. by eapply quiet_trans.
  - apply tr_torn. by eapply torn_kept.
  - apply tr_reset; [by eapply session_kept_trans|done].
  - apply tr_connect; [by eapply session_kept_trans|congruence|done].
  - apply tr_join; try done; [destruct K; congruence| |congruence].
    destruct K as [_ _ [l' El']]. exists (l' ++ l). by rewrite El, El', app_assoc.
  - apply tr_postjoin; [by eapply session_kept_trans|congruence|done|by eapply through_configure_before].
  - apply tr_configure; [by eapply session_kept_trans|congruence|done].
  - apply tr_datacheck; [by eapply session_kept_trans|congruence|done|done].
  - apply tr_run; [by eapply session_kept_trans|congruence|done|done].
Qed.

(** Whatever a turn did, the session can only be torn down when it was not. *)
Lemma transition_torn s1 s2 s3 : transition s1 s2 -> torn s2 s3 -> torn s1 s3.
Proof.
  intros H [Hb ? ? ? ? ? ? [l El]].
  assert (Hk : listed s2 = listed s1 /\ exists l, log s2 = log s1 ++ l).
  { destruct H as [[]|[]|[]|[]| |[]|[]|[]|[]]; try done. congruence. }
  destruct Hk as [Hl [l' El']]. split; try done; [congruence|]. exists (l' ++ l). by rewrite El, El', app_assoc.
Qed.

Lemma after_transition s s' : after [] s s' -> transition s s'.
Proof. intros [[[] [Hs|[]%not_elem_of_nil]]|H]; [by apply tr_quiet|by apply tr_torn]. Qed.

(** ** A turn *)

(** The only way out of the state after Join, but the end. *)
Lemma postjoin_configures packet s s' :
  ac_dfa_state_postjoin fuel now packet s = Some (tt, s') -> state s' = CAPWAP_DATA_CHECK_STATE -> through_configure s s'.
Proof.
  unfold ac_dfa_state_postjoin, ac_dfa_state_imagedata. intros E1 Hs.
  assert (Ht : forall s0, ac_session_teardown fuel s0 = Some (tt, s') -> False).
  { intros s0 E2. pose proof (t_state _ _ (teardown_torn s0 tt s' E2)). rewrite Hs in *. done. }
  destruct (Z.eqb_spec (cm_type (pp_ctrlmsg packet)) CAPWAP_CONFIGURATION_STATUS_REQUEST) as [Hty|_].
  2:{ destruct (_ =? _); [|by apply Ht in E1]. unfold bind in E1.
      destruct (ac_dfa_change_state _ s) as [[[] s1]|]; [|done]. by apply Ht in E1. }
  unfold bind in E1. destruct (ac_dfa_change_state CAPWAP_CONFIGURE_STATE s) as [[[] s1]|] eqn:E2; [|done].
  exists now, packet, s, s1, s'. split_and!; try done; [apply quiet_refl| |apply quiet_refl].
  by destruct (change_state_spec _ s tt s1 E2).
Qed.

Lemma wlp_after {A} (m : MS A) s : after_op [] m -> wlp m s (fun _ => transition s).
Proof. intros H a s' E1. by apply after_transition, (H s a). Qed.

Lemma execute_transition packet s :
  wlp (ac_dfa_execute fuel now ac packet) s (fun _ => transition s).
Proof.
  unfold ac_dfa_execute. apply wlp_bind, wlp_gets.
  destruct (Z.eqb_spec (state s) CAPWAP_DTLS_CONNECT_STATE) as [Hst|_]; [by apply wlp_after, after_teardown|].
  destruct (Z.eqb_spec (state s) CAPWAP_JOIN_STATE) as [Hst|_].
  { eapply wlp_mono; [apply join_spec|]. intros [] s' [(? & ? & ? & ?)|?]; [by apply tr_join|by apply tr_torn]. }
  destruct (Z.eqb_spec (state s) CAPWAP_POSTJOIN_STATE) as [Hst|_].
  { intros [] s' E1. destruct (ends_postjoin packet s tt s' E1) as [[K Hs%list_elem_of_singleton]|?]; [|by apply tr_torn].
    apply tr_postjoin; try done. by apply (postjoin_configures packet). }
  destruct (Z.eqb_spec (state s) CAPWAP_IMAGE_DATA_STATE) as [Hst|_]; [by apply wlp_after, after_teardown|].
  destruct (Z.eqb_spec (state s) CAPWAP_CONFIGURE_STATE) as [Hst|_].
  { eapply wlp_mono; [apply ends_configure|]. intros [] s' [[K Hs%list_elem_of_singleton]|?]; [|by apply tr_torn].
    by apply tr_configure. }
  destruct (Z.eqb_spec (state s) CAPWAP_RESET_STATE) as [Hst|_]; [by apply wlp_after, after_reset|].
  destruct (Z.eqb_spec (state s) CAPWAP_DATA_CHECK_STATE) as [Hst|_].
  { eapply wlp_mono; [apply datacheck_spec|]. intros [] s' [(? & ? & ?)|?]; [by apply tr_datacheck|by apply tr_torn]. }
  destruct (Z.eqb_spec (state s) CAPWAP_RUN_STATE) as [Hst|_]; [by apply wlp_after, after_run|].
  by apply wlp_after, after_teardown.
Qed.

Lemma complete_transition rx s :
  wlp (complete_message fuel now ac rx) s (fun _ => transition s).
Proof.
  assert (Hq : forall A (m : MS A) s, quiet_op m -> wlp m s (fun _ => transition s)).
  { intros A m s0 H a s' E1. by apply tr_quiet, (H s0 a). }
  unfold complete_message, new_message, parsed_message, free_unwritten_packet. apply wlp_bind, wlp_gets.
  destruct (_ && _); [apply Hq; quiet_op|].
  destruct (capwap_check_message_type rx =? _); [|apply Hq; quiet_op]. apply wlp_bind, wlp_lift. intros r _.
  destruct (r.1.1 =? _); [|apply Hq; quiet_op]. destruct (capwap_validate_parsed_packet _ _ _ =? 0); [|apply Hq; quiet_op].
  unfold notify_message. apply wlp_bind, wlp_quiet; [quiet_op|]. intros _ s1 Q1.
  eapply wlp_mono; [apply execute_transition|]. intros [] s2 H. by eapply transition_quiet.
Qed.

Lemma clear_rx_transition s s' : transition s s' -> transition s (set_rxmngpacket None s').
Proof.
  intros [Q|H|K|K| |K Hs Hd Hc|K|K|K].
  - apply tr_quiet. by destruct Q.
  - apply tr_torn. by destruct H.
  - apply tr_reset; [by destruct K|done].
  - apply tr_connect; [by destruct K|done|done].
  - by apply tr_join.
  - apply tr_postjoin; [by destruct K|done|done|]. eapply through_configure_after; [exact Hc|].
    split; try done. exists []. by rewrite app_nil_r.
  - apply tr_configure; [by destruct K|done|done].
  - apply tr_datacheck; [by destruct K|done|done|done].
  - apply tr_run; [by destruct K|done|done|done].
Qed.

Lemma receive_transition b s : wlp (receive_packet fuel now ac b) s (fun _ => transition s).
Proof.
  unfold receive_packet. apply wlp_bind, wlp_lift. intros check _.
  destruct (check =? _); [|apply wlp_ret, tr_quiet, quiet_refl].
  apply wlp_bind, wlp_gets, wlp_bind, wlp_lift. intros r _. apply wlp_bind, wlp_update. set (s1 := set_rxmngpacket _ s).
  assert (Q : quiet s s1) by (split; try done; exists []; by rewrite app_nil_r).
  destruct (_ =? _).
  - apply wlp_bind. eapply wlp_mono; [apply complete_transition|]. intros [] s2 H. apply wlp_update, clear_rx_transition.
    by eapply transition_quiet.
  - apply wlp_when; intros _; [apply wlp_update|]; apply tr_quiet; [|done]. by destruct Q.
Qed.

(** The value an action returns, but for two of them. *)
Definition no_error (m : MS Z) : Prop := forall s, wlp m s (fun r _ => r = AC_NO_ERROR).

Lemma no_error_bind {A} (m : MS A) (k : A -> MS Z) : (forall a, no_error (k a)) -> no_error (bind m k).
Proof. intros H s. apply wlp_bind. intros a s1 _. apply H. Qed.
Lemma no_error_ret : no_error (ret AC_NO_ERROR).
Proof. intros s. by apply wlp_ret. Qed.

Ltac no_error :=
  repeat match goal with
  | |- no_error (ret _) => apply no_error_ret
  | |- no_error (bind _ _) => apply no_error_bind; intros ?
  | |- no_error (if ?b then _ else _) => destruct b
  | |- no_error (match ?x with _ => _ end) => destruct x
  end.

Lemma no_error_transition (m : MS Z) l s :
  no_error m -> after_op l m -> l ⊆ [CAPWAP_RESET_STATE] -> wlp m s (fun r s' => r < 0 /\ transition s s').
Proof.
  intros Hr H Hl r s' E1. split; [by rewrite (Hr _ _ _ E1)|]. destruct (H s r s' E1) as [[K [Hs|Hs]]|Ht].
  - apply tr_quiet. by destruct K.
  - apply Hl, list_elem_of_singleton in Hs. by apply tr_reset.
  - by apply tr_torn.
Qed.

Lemma action_transition a s :
  wlp (ac_session_action_execute fuel now ac stale_length a) s (fun r s' => r < 0 /\ transition s s').
Proof.
  destruct a; cbn [ac_session_action_execute].
  - apply wlp_ret. split; [done|apply tr_quiet, quiet_refl].
  - eapply no_error_transition; [unfold ac_session_action_resetwtp; no_error|apply after_resetwtp|done].
  - eapply (no_error_transition _ []); [no_error|apply after_calm, calm_quiet; quiet_op|apply list_subseteq_nil].
  - eapply wlp_mono; [apply keepalive_spec|]. intros r s' [Hr [Q|(K & ? & ? & ?)]]; (split; [done|]);
      [by apply tr_quiet|by apply tr_run].
  - eapply (no_error_transition _ []); [unfold ac_session_action_recv_ieee80211_mgmt_packet; no_error| |apply list_subseteq_nil].
    apply after_calm, calm_quiet, quiet_mgmt.
  - eapply no_error_transition; [unfold ac_session_action_addwlan; no_error|apply after_addwlan|apply list_subseteq_nil].
  - eapply no_error_transition; [|apply after_add_station|apply list_subseteq_nil].
    unfold ac_session_action_station_configuration_ieee8011_add_station. no_error.
  - eapply no_error_transition; [|apply after_delete_station|apply list_subseteq_nil].
    unfold ac_session_action_station_configuration_ieee8011_delete_station. no_error.
  - eapply (no_error_transition _ []); [no_error|apply after_calm, calm_quiet; quiet_op|apply list_subseteq_nil].
Qed.

Lemma quiet_handshake d : quiet_op (capwap_crypt_handshake d).
Proof. unfold capwap_crypt_handshake, set_dtls_state. quiet_op. Qed.
Hint Resolve quiet_handshake : quiet.
Lemma quiet_decrypt b : quiet_op (capwap_decrypt_packet b).
Proof. unfold capwap_decrypt_packet, set_dtls_state. quiet_op. Qed.

(** A packet that is handed on changed nothing; the one that ends the handshake
    is not handed on. *)
Lemma read_transition p s :
  wlp (read_packet fuel now p) s (fun r s' => transition s s' /\ (0 < r.1 -> quiet s s')).
Proof.
  unfold read_packet. apply wlp_bind, wlp_gets. destruct (_ && _).
  2:{ apply wlp_ret. split; [|intros _]; [apply tr_quiet|]; apply quiet_refl. }
  apply wlp_bind, wlp_quiet; [apply quiet_decrypt|]. intros r s1 Q1. apply wlp_bind, wlp_gets, wlp_bind, wlp_gets, wlp_bind.
  apply wlp_when; intros Hb; [|apply wlp_ret; split; [by apply tr_quiet|done]].
  apply andb_true_iff in Hb as [[Hr%Z.eqb_eq _]%andb_true_iff Hs%Z.eqb_eq]. apply wlp_bind.
  eapply wlp_mono; [apply change_state_spec|]. intros [] s2 [K2 Hs2]. apply wlp_quiet; [apply quiet_control_timer|].
  intros _ s3 Q3. apply wlp_ret. split; [|rewrite Hr; done].
  eapply transition_quiet; [exact Q1|]. apply tr_connect; [|done|].
  - eapply session_kept_trans; [exact K2|by apply quiet_kept].
  - rewrite <-Hs2. apply Q3.
Qed.

Lemma wait_transition s :
  wlp (wait_packet fuel now) s (fun r s' => transition s s' /\ forall n b, r = Some (n, b) -> 0 < n -> quiet s s').
Proof.
  unfold wait_packet. apply wlp_bind, wlp_gets, wlp_bind, wlp_update. set (s1 := set_wlans_of_session _ s).
  assert (Q : quiet s s1) by (split; try done; exists []; by rewrite app_nil_r).
  destruct (_ =? 0); [|apply wlp_ret; split; [by apply tr_quiet|done]].
  apply wlp_bind. eapply wlp_mono; [apply wlp_after, after_expired|]. intros [] s2 H. apply wlp_ret.
  split; [by eapply transition_quiet|by intros ?? [= <- _]].
Qed.

Lemma network_transition s :
  wlp (ac_network_read fuel now ac stale_length) s (fun r s' => transition s s' /\
    forall n b, r = Some (n, b) -> 0 < n -> quiet s s').
Proof.
  unfold ac_network_read. apply wlp_bind, wlp_gets.
  destruct (negb (running s)); [apply wlp_ret; split; [apply tr_quiet, quiet_refl|intros ?? [= <- _]; done]|].
  assert (Hread : forall (p : ac_packet) rest, wlp (update (set_packets rest);; r <- read_packet fuel now p;; ret (Some r)) s
    (fun r s' => transition s s' /\ forall n b, r = Some (n, b) -> 0 < n -> quiet s s')).
  { intros p rest. apply wlp_bind, wlp_update, wlp_bind. set (s1 := set_packets rest s).
    assert (Q : quiet s s1) by (split; try done; exists []; by rewrite app_nil_r).
    eapply wlp_mono; [apply read_transition|]. intros [n b] s2 [H Hq]. apply wlp_ret. split; [by eapply transition_quiet|].
    intros ?? [= <- <-] Hn. eapply quiet_trans; [exact Q|by apply Hq]. }
  destruct (requestfragmentpacket s), (actions s) as [|a rest]; try (destruct (packets s); [apply wait_transition|apply Hread]).
  apply wlp_bind, wlp_update, wlp_bind. set (s1 := set_actions rest s).
  assert (Q : quiet s s1) by (split; try done; exists []; by rewrite app_nil_r).
  eapply wlp_mono; [apply action_transition|]. intros r s2 [Hr H]. apply wlp_ret.
  split; [by eapply transition_quiet|intros ?? [= <- _]; lia].
Qed.

Lemma turn_transition s : wlp (session_turn fuel now ac stale_length) s (fun _ => transition s).
Proof.
  unfold session_turn. apply wlp_bind. eapply wlp_mono; [apply network_transition|]. intros r s1 [H Hq].
  destruct r as [[n b]|]; [|by apply wlp_ret]. destruct (Z.ltb_spec n 0).
  - apply wlp_when; intros _; [|done]. eapply wlp_mono; [apply teardown_torn|]. intros [] s2 Ht. apply tr_torn.
    by eapply transition_torn.
  - destruct (Z.ltb_spec 0 n); [|by apply wlp_ret]. eapply wlp_mono; [apply receive_transition|].
    intros [] s2 H2. eapply transition_quiet; [|exact H2]. by apply (Hq n b).
Qed.

End Moves.
