(* ===== verification/AcSessionTotal.v ===== *)
(** Operations of a session that always have a result, and the session they
    leave: sending, the timers, the end of the session, retransmission, the
    answer to a repeated request. *)
From stdpp Require Import option list strings.
From S2P Require Import Prelude Io Header CapwapArray Timeout TimeoutSpec CapwapHash.
From S2P Require Import ElementsImage Element Tx Rx Packet Validate Base64 Json.
From S2P Require Import AcWorld AcWlans AcSession AcActions AcDfaJoin AcDfaConfigure AcRun.
From S2P Require Import AcInv AcNetwork AcFrame AcSessionSpec.
#[local] Open Scope Z_scope.

(** The timers of the session are in order. *)
Record armed `{Target} (s : ac_session_t) : Prop := Armed {
  a_timers : timers_ok (timeout (wlans_of_session s));
  a_control : small (idtimercontrol s);
  a_keepalive : small (idtimerkeepalivedead s);
  a_distinct : idtimercontrol s <> idtimerkeepalivedead s
}.

(** Fragments that can be sent. *)
Definition sendable (l : list capwap_fragment_packet_item) : Prop := Forall (fun f => 0 < offset f) l.

(** The steps that have only one rule. *)
Ltac wp_step :=
  lazymatch goal with
  | |- wp (bind _ _) _ _ => apply wp_bind
  | |- wp (ret _) _ _ => apply wp_ret
  | |- wp (gets _) _ _ => apply wp_gets
  | |- wp (update _) _ _ => apply wp_update
  | |- wp (emit_output _) _ _ => apply wp_update
  end.
Ltac wp_steps := repeat wp_step.

Lemma wp_eq {S A} (m : ST S A) s a s' (Q : A -> S -> Prop) : m s = Some (a, s') -> Q a s' -> wp m s Q.
Proof. intros E1 H. by exists a, s'. Qed.

Section Total.
Context {I : Indeterminate} {T : Target} {C : CharSign} {E : Environment}.
Context (fuel : nat) (Hfuel : enough fuel) (now : timeval).

(** ** Sending *)

Definition datagram_of (f : capwap_fragment_packet_item) : list Z := take (Z.to_nat (offset f)) (buffer f).

(** What is sent of a message, and whether all of it is. *)
Fixpoint sent_of (x : capwap_dtls) (h : list output) (l : list capwap_fragment_packet_item) : bool * list output :=
  match l with
  | [] => (true, [])
  | f :: l =>
      if negb (can_send x) then (false, []) else
      if sendto h (datagram_of f) <=? 0 then (false, [Send (datagram_of f)])
      else let r := sent_of x (h ++ [Send (datagram_of f)]) l in (r.1, Send (datagram_of f) :: r.2)
  end.

Lemma send_total l : forall s, sendable l ->
  capwap_crypt_sendto_fragmentpacket l s = Some ((sent_of (dtls s) (log s) l).1, set_log (log s ++ (sent_of (dtls s) (log s) l).2) s).
Proof.
  induction l as [|f l IH]; intros s Hl; cbn [capwap_crypt_sendto_fragmentpacket sent_of].
  - unfold ret. cbn. rewrite app_nil_r. by destruct s.
  - apply Forall_cons in Hl as [Hf Hl]. unfold bind, guard, lift, capwap_crypt_sendto, bind, gets, emit_output, update, ret.
    rewrite (proj2 (Z.ltb_lt _ _)) by done. fold (datagram_of f).
    destruct (can_send (dtls s)) eqn:Ex; cbn [negb]; [|by rewrite app_nil_r; destruct s].
    destruct (_ <=? 0); [done|]. rewrite IH by done. cbn [log dtls set_log]. by rewrite <-app_assoc.
Qed.

(** A message is sent as a whole when no datagram is refused. *)
Lemma sent_all x h l : (sent_of x h l).1 = true -> (sent_of x h l).2 = (fun f => Send (datagram_of f)) <$> l.
Proof.
  revert h. induction l as [|f l IH]; intros h; cbn [sent_of]; [done|]. destruct (negb _); [done|]. destruct (_ <=? 0); [done|]. cbn. intros H.
  by rewrite IH.
Qed.

(** ** Timers *)

Definition with_timers (t : capwap_timeout timer_callback) (s : ac_session_t) : ac_session_t :=
  set_wlans_of_session (set_timeout t (wlans_of_session s)) s.

Lemma set_timer_total i d cb s :
  timers_ok (timeout (wlans_of_session s)) -> small i ->
  exists t, session_timeout_set fuel now i d cb s = Some (tt, with_timers t s) /\ timers_ok t /\
    timeoutbitfield t = timeoutbitfield (timeout (wlans_of_session s)) /\
    itemstimeout t = capwap_timeout_additem (remove_timer i (itemstimeout (timeout (wlans_of_session s))))
                       (TimeoutItem i d (capwap_timeout_setexpire d now) cb).
Proof.
  intros Ht Hi. destruct (set_spec fuel _ i d cb now Ht Hfuel Hi) as (t & Et & Hok & Hb & Hit). exists t.
  split; [|done]. unfold session_timeout_set, on_timers, bind, gets, lift, update. by rewrite Et.
Qed.

Lemma unset_total i s :
  timers_ok (timeout (wlans_of_session s)) -> small i ->
  exists t, session_timeout_unset fuel i s = Some (tt, with_timers t s) /\ timers_ok t /\
    timeoutbitfield t = timeoutbitfield (timeout (wlans_of_session s)) /\
    itemstimeout t = remove_timer i (itemstimeout (timeout (wlans_of_session s))).
Proof.
  intros Ht Hi. destruct (unset_spec fuel _ i Ht Hfuel Hi) as (t & Et & Hok & Hb & Hit). exists t.
  split; [|done]. unfold session_timeout_unset, on_timers, bind, gets, lift, update. by rewrite Et.
Qed.

(** ** The end of a session *)

Definition cancelled (l : list ac_session_notify_event_t) : list output :=
  (fun e => Soap "updateBackendEvent" [idevent e; SOAP_EVENT_STATUS_CANCEL]) <$> l.

Lemma cancel_total l : forall s, notifyevent s = l ->
  cancel_events l s = Some (tt, set_notifyevent [] (set_log (log s ++ cancelled l) s)).
Proof.
  induction l as [|e l IH]; intros s Hl; cbn [cancel_events].
  - unfold ret. cbn. rewrite app_nil_r. destruct s. cbn in *. by subst.
  - unfold ac_soap_updatebackendevent, ac_session_send_soap_request, bind, gets, emit_output, update, ret.
    rewrite IH by done. cbn. by rewrite <-app_assoc.
Qed.

(** The session after [ac_session_teardown], with the timers that are left. *)
Definition ended (t : capwap_timeout timer_callback) (s : ac_session_t) : ac_session_t :=
  set_state CAPWAP_DTLS_TEARDOWN_STATE
    (set_idtimerkeepalivedead CAPWAP_TIMEOUT_INDEX_NO_SET
      (set_idtimercontrol CAPWAP_TIMEOUT_INDEX_NO_SET
        (with_timers t
          (set_notifyevent []
            (set_log (log s ++ (if dtls_enable (dtls s) then [CloseCrypt] else []) ++ cancelled (notifyevent s))
              (set_packets [] (set_listed false s))))))).

Lemma small_nonzero i : small i -> (i =? CAPWAP_TIMEOUT_INDEX_NO_SET) = false.
Proof. unfold small, CAPWAP_TIMEOUT_INDEX_NO_SET. intros. apply Z.eqb_neq. lia. Qed.

Lemma teardown_total s Q :
  armed s -> listed s = true -> state s <> CAPWAP_DTLS_TEARDOWN_STATE ->
  (forall t, timers_ok t -> timeoutbitfield t = timeoutbitfield (timeout (wlans_of_session s)) ->
     itemstimeout t = remove_timer (idtimerkeepalivedead s) (remove_timer (idtimercontrol s)
                        (itemstimeout (timeout (wlans_of_session s)))) -> Q tt (ended t s)) ->
  wp (ac_session_teardown fuel) s Q.
Proof.
  intros [Ht Hc Hk _] Hl Hs HQ. unfold ac_session_teardown. wp_steps. apply wp_guard; [done|]. wp_steps.
  apply (wp_eq _ _ tt (set_log (log s ++ if dtls_enable (dtls s) then [CloseCrypt] else [])
    (set_packets [] (set_listed false s)))).
  { cbn. destruct (dtls_enable (dtls s)); [done|]. cbn. rewrite app_nil_r. by destruct s. }
  wp_steps. eapply wp_eq; [by apply cancel_total|]. wp_steps.
  cbn [notifyevent log set_log set_packets set_listed idtimercontrol set_notifyevent].
  set (s1 := set_notifyevent [] _). change (idtimercontrol s1) with (idtimercontrol s).
  rewrite (small_nonzero _ Hc). cbn [negb when]. wp_steps.
  destruct (unset_total (idtimercontrol s) s1 Ht Hc) as (t1 & E1 & Hok1 & Hb1 & Hi1). eapply wp_eq; [exact E1|]. wp_steps.
  set (s2 := set_idtimercontrol _ _). change (idtimerkeepalivedead s2) with (idtimerkeepalivedead s).
  rewrite (small_nonzero _ Hk). cbn [negb when]. wp_steps.
  destruct (unset_total (idtimerkeepalivedead s) s2 Hok1 Hk) as (t2 & E2 & Hok2 & Hb2 & Hi2).
  eapply wp_eq; [exact E2|]. wp_steps. unfold ac_dfa_change_state. wp_steps. cbn [state].
  rewrite (proj2 (Z.eqb_neq _ _)) by (cbn; congruence). cbn [negb when]. wp_steps.
  unfold notify_event. wp_steps. change (notifyevent _) with (@nil ac_session_notify_event_t). cbn [take_event]. wp_steps.
  assert (HQ2 : Q tt (ended t2 s)) by (apply HQ; [done|by rewrite Hb2|by rewrite Hi2; cbn; rewrite Hi1]).
  unfold ended in HQ2. rewrite app_assoc in HQ2. exact HQ2.
Qed.

(** Tearing down is what [torn] says. *)
Lemma ended_torn t s : listed s = true -> torn s (ended t s).
Proof. intros Hl. split; try done. by eexists. Qed.

(** ** Retransmission *)

(** The session after a retransmission that is not the last one. *)
Definition resent (t : capwap_timeout timer_callback) (s : ac_session_t) : ac_session_t :=
  with_timers t (set_log (log s ++ (sent_of (dtls s) (log s) (requestfragmentpacket s)).2)
    (set_retransmitcount (retransmitcount s + 1) s)).

Lemma retransmit_again s Q :
  armed s -> requestfragmentpacket s <> [] -> sendable (requestfragmentpacket s) ->
  retransmitcount s + 1 < AC_MAX_RETRANSMIT ->
  (forall t, timers_ok t ->
     itemstimeout t = capwap_timeout_additem (remove_timer (idtimercontrol s) (itemstimeout (timeout (wlans_of_session s))))
                        (TimeoutItem (idtimercontrol s) AC_RETRANSMIT_INTERVAL
                           (capwap_timeout_setexpire AC_RETRANSMIT_INTERVAL now) RetransmitionTimeout) ->
     Q tt (resent t s)) ->
  wp (ac_dfa_retransmition_timeout fuel now) s Q.
Proof.
  intros [Ht Hc Hk _] Hr Hs Hn HQ. unfold ac_dfa_retransmition_timeout. wp_steps.
  destruct (requestfragmentpacket s) as [|f l] eqn:Er; [done|]. wp_steps. cbn [retransmitcount set_retransmitcount].
  rewrite (proj2 (Z.leb_gt _ _)) by lia. wp_steps. eapply wp_eq; [by apply send_total|].
  unfold set_control_timer. wp_steps. cbn [log set_retransmitcount].
  set (s1 := set_log _ _). change (idtimercontrol s1) with (idtimercontrol s).
  destruct (set_timer_total (idtimercontrol s) AC_RETRANSMIT_INTERVAL RetransmitionTimeout s1 Ht Hc) as (t & E1 & Hok & _ & Hi).
  eapply wp_eq; [exact E1|]. specialize (HQ t Hok Hi). unfold resent in HQ. rewrite Er in HQ. exact HQ.
Qed.

Lemma retransmit_last s Q :
  armed s -> listed s = true -> state s <> CAPWAP_DTLS_TEARDOWN_STATE -> requestfragmentpacket s <> [] ->
  AC_MAX_RETRANSMIT <= retransmitcount s + 1 ->
  (forall t, timers_ok t ->
     Q tt (ended t (set_requestfragmentpacket [] (set_retransmitcount (retransmitcount s + 1) s)))) ->
  wp (ac_dfa_retransmition_timeout fuel now) s Q.
Proof.
  intros Ha Hl Hs Hr Hn HQ. unfold ac_dfa_retransmition_timeout. wp_steps.
  destruct (requestfragmentpacket s) as [|f l] eqn:Er; [done|]. wp_steps. cbn [retransmitcount set_retransmitcount].
  rewrite (proj2 (Z.leb_le _ _)) by lia. unfold ac_free_reference_last_request. wp_steps.
  apply teardown_total; [|done|done|by intros t Hok _ _; apply HQ].
  by destruct Ha.
Qed.

End Total.

(** The loop of [ac_session_run] while nothing arrives: one turn at each time. *)
Fixpoint turns {I : Indeterminate} {T : Target} {C : CharSign} {E : Environment} (fuel : nat) (ac : ac_t)
    (stale_length : Z) (times : list timeval) : MS unit :=
  match times with
  | [] => ret tt
  | now :: times => session_turn fuel now ac stale_length;; turns fuel ac stale_length times
  end.

(** Every turn comes when the retransmission timer, which expires at [e], is due,
    and the [others] expire after the next expiry of it. *)
Fixpoint turns_due (others : list (capwap_timeout_item timer_callback)) (e : timeval) (times : list timeval) : Prop :=
  match times with
  | [] => True
  | now :: times =>
      let next := capwap_timeout_setexpire AC_RETRANSMIT_INTERVAL now in
      capwap_timeout_getdelta e now <= 0 /\
      Forall (fun o => capwap_timeout_getdelta next (expire o) < 0) others /\
      turns_due others next times
  end.

(** A request waits for its answer, nothing is queued, the connection can be
    written, and the timer that comes first is the one for retransmission. *)
Record unanswered `{Target} (others : list (capwap_timeout_item timer_callback)) (e : timeval) (s : ac_session_t)
    : Prop := Unanswered {
  un_armed : armed s;
  un_running : running s = true;
  un_listed : listed s = true;
  un_state : state s <> CAPWAP_DTLS_TEARDOWN_STATE;
  un_packets : packets s = [];
  un_request : requestfragmentpacket s <> [];
  un_open : can_send (dtls s) = true;
  un_sendable : sendable (requestfragmentpacket s);
  un_timers : exists d, itemstimeout (timeout (wlans_of_session s)) =
                TimeoutItem (idtimercontrol s) d e RetransmitionTimeout :: others
}.

Section Retransmissions.
Context {I : Indeterminate} {T : Target} {C : CharSign} {E : Environment}.
Context (fuel : nat) (Hfuel : enough fuel) (ac : ac_t) (stale_length : Z).

(** What is sent in [n] retransmissions. *)
Fixpoint resends (n : nat) (x : capwap_dtls) (h : list output) (l : list capwap_fragment_packet_item) : list output :=
  match n with
  | O => []
  | S n => (sent_of x h l).2 ++ resends n x (h ++ (sent_of x h l).2) l
  end.

Lemma armed_timers t s : armed s -> timers_ok t -> armed (with_timers t s).
Proof. intros [] Ht. by split. Qed.

(** A turn with nothing queued runs the callback of a timer that is due. *)
Lemma turn_expires now others e s Q :
  unanswered others e s -> capwap_timeout_getdelta e now <= 0 ->
  (forall t, timers_ok t -> itemstimeout t = others -> wp (ac_dfa_retransmition_timeout fuel now) (with_timers t s) Q) ->
  wp (session_turn fuel now ac stale_length) s Q.
Proof using Hfuel.
  intros [Ha Hrun _ _ Hp Hr _ _ [d El]] Hd HQ. unfold session_turn, ac_network_read. wp_steps. rewrite Hrun. cbn [negb].
  assert (Hw : wp (wait_packet fuel now) s (fun r s' => r = Some (AC_ERROR_TIMEOUT, []) /\ Q tt s')).
  { unfold wait_packet. wp_steps. destruct (hasexpired_spec fuel _ _ _ now (a_timers s Ha) Hfuel El Hd) as (t & E1 & Hok & _ & Hl).
    unfold capwap_timeout_getcoming. rewrite El. cbn [expire]. rewrite (proj2 (Z.leb_le _ _)) by done. cbn [fst snd Z.eqb].
    wp_steps. unfold session_hasexpired. wp_steps. apply (wp_lift _ _ _ _ E1). wp_steps. cbn [fst snd fmap option_fmap option_map callback].
    specialize (HQ t Hok Hl). eapply wp_mono; [exact HQ|]. intros [] s' H. by apply wp_ret. }
  destruct (requestfragmentpacket s) as [|f l] eqn:Er; [done|]. rewrite Hp.
  destruct (actions s); (eapply wp_mono; [exact Hw|]); intros r s' [-> H]; by apply wp_ret.
Qed.

(** The request is sent again until the last attempt, which ends the session. *)
Lemma turns_retransmit others times : forall e s Q n,
  unanswered others e s -> turns_due others e times ->
  length times = S n -> retransmitcount s + Z.of_nat (S n) = AC_MAX_RETRANSMIT ->
  (forall t, timers_ok t -> Q tt (ended t (set_requestfragmentpacket [] (set_retransmitcount AC_MAX_RETRANSMIT
     (set_log (log s ++ resends n (dtls s) (log s) (requestfragmentpacket s)) s))))) ->
  wp (turns fuel ac stale_length times) s Q.
Proof using Hfuel.
  induction times as [|now times IH]; intros e s Q n Hu Hd Hn Hc HQ; [done|].
  destruct Hd as (Hd & Ho & Hds). cbn [turns]. apply wp_bind, (turn_expires _ _ _ _ _ Hu Hd).
  intros t Hok Hl. pose proof Hu as [Ha Hrun Hli Hs Hp Hr Hopen Hsend [d El]]. injection Hn as Hn. destruct n as [|n].
  - apply retransmit_last; try done; [by apply armed_timers|cbn; lia|]. intros t' Hok'. apply nil_length_inv in Hn as ->.
    apply wp_ret. specialize (HQ t' Hok'). cbn [resends] in HQ. rewrite app_nil_r in HQ.
    cbn [retransmitcount with_timers set_wlans_of_session]. replace (retransmitcount s + 1) with AC_MAX_RETRANSMIT by lia.
    by destruct s.
  - apply retransmit_again; try done; [by apply armed_timers|cbn; lia|]. intros t' Hok' Hl'.
    cbn in Hl'. rewrite Hl in Hl'. eapply (IH _ _ _ n); [|exact Hds|done| |].
    + split; try done; [by destruct Ha|]. exists AC_RETRANSMIT_INTERVAL. cbn. rewrite Hl'.
      rewrite remove_timer_notin; [|pose proof (ok_nodup _ (a_timers s Ha)) as Hnd; rewrite El in Hnd; by apply NoDup_cons in Hnd as [? _]].
      by rewrite additem_first.
    + cbn [retransmitcount resent with_timers set_wlans_of_session set_log set_retransmitcount]. lia.
    + intros t'' Hok''. specialize (HQ t'' Hok''). cbn [resends] in HQ. rewrite app_assoc in HQ. exact HQ.
Qed.

(** When nothing is refused, whole copies of the request. *)
Lemma resends_all n x h l :
  can_send x = true ->
  Forall (fun f => forall h, 0 < sendto h (datagram_of f)) l ->
  resends n x h l = concat (replicate n ((fun f => Send (datagram_of f)) <$> l)).
Proof.
  intros Hx Hs. assert (Ha : forall h, (sent_of x h l).1 = true).
  { clear n h. induction Hs as [|f l Hf _ IH]; intros h; cbn [sent_of]; [done|].
    rewrite Hx. cbn [negb]. rewrite (proj2 (Z.leb_gt _ _)) by apply Hf. apply IH. }
  revert h. induction n as [|n IH]; intros h; cbn [resends replicate concat]; [done|]. by rewrite IH, sent_all.
Qed.
End Retransmissions.

(** ** The end of a closed session *)

Section End_.
Context {I : Indeterminate} {T : Target} {C : CharSign} {E : Environment}.
Context (fuel : nat) (Hfuel : enough fuel).

(** Forgetting timers, the stations keep theirs. *)
Lemma ok_fewer_timers w t :
  world_ok w -> timers_ok t -> timeoutbitfield t = timeoutbitfield (timeout w) ->
  (forall it, it ∈ itemstimeout t -> it ∈ itemstimeout (timeout w)) -> world_ok (set_timeout t w).
Proof.
  intros [] Ht Hb Hi. split; try done.
  - unfold timers_used in *. cbn. rewrite Hb. rewrite Forall_forall in *. intros k (it & -> & Hit)%list_elem_of_fmap.
    apply w_used, list_elem_of_fmap. exists it. split; [done|by apply Hi].
  - cbn. intros it a Hit. by apply w_callback, Hi.
Qed.

Lemma remove_timer_subset {X} i (l : list (capwap_timeout_item X)) it : it ∈ remove_timer i l -> it ∈ l.
Proof. unfold remove_timer. rewrite !list_elem_of_In. by intros [? _]%filter_In. Qed.

(** What is left when the thread of the session ends. *)
Definition dead (w : world) (s : ac_session_t) : ac_session_t :=
  set_wlans_of_session (clear_out w) (set_packets [] (set_state CAPWAP_DEAD_STATE
    (set_log (log s ++ (match wtpid s with Some id => [Soap "teardownWTPSession" [id]] | None => [] end) ++
                [KmodDeleteDataSession]) s))).

Lemma dead_log w s :
  log (dead w s) = log s ++ (match wtpid s with Some id => [Soap "teardownWTPSession" [id]] | None => [] end) ++
                   [KmodDeleteDataSession].
Proof. reflexivity. Qed.

Lemma ended_wtpid t s : wtpid (ended t s) = wtpid s.
Proof. reflexivity. Qed.

Lemma end_total s Q :
  state s <> CAPWAP_DEAD_STATE -> notifyevent s = [] -> world_ok (wlans_of_session s) ->
  settled (wlans_of_session s) -> crowd_ok fuel (wlans_of_session s) -> radios_ok fuel (wlans_of_session s) ->
  out (wlans_of_session s) = [] ->
  (forall w', world_ok w' -> stations w' = ∅ -> (forall q, wlan_at w' q = None) -> Q tt (dead w' s)) ->
  wp (session_end fuel) s Q.
Proof using Hfuel.
  intros Hs He Hok Hset Hc Hr Ho HQ. unfold session_end, ac_dfa_state_teardown, ac_session_destroy.
  assert (Ht : (match wtpid s with Some _ => soap_of_wtp "teardownWTPSession" [];; ret tt | None => ret tt end) s =
    Some (tt, set_log (log s ++ match wtpid s with Some id => [Soap "teardownWTPSession" [id]] | None => [] end) s)).
  { destruct (wtpid s) as [id|] eqn:Eid.
    - unfold soap_of_wtp, ac_session_send_soap_request, bind, gets, lift, emit_output, update, ret. by rewrite Eid.
    - unfold ret. rewrite app_nil_r. by destruct s. }
  wp_steps. eapply wp_eq; [exact Ht|]. unfold ac_dfa_change_state. wp_steps. cbn [state set_log].
  rewrite (proj2 (Z.eqb_neq _ _)) by congruence. cbn [negb when]. wp_steps. unfold notify_event. wp_steps.
  cbn [notifyevent set_state set_log]. rewrite He. cbn [take_event]. wp_steps. unfold in_world. wp_steps.
  destruct (wlans_destroy_spec fuel Hfuel (wlans_of_session s) (fun _ w' => world_ok w' /\ stations w' = ∅ /\
    out w' = [] /\ forall q, wlan_at w' q = None) Hok Hset Hc Hr) as ([] & w' & E1 & Hok' & Hs' & Ho' & Hq').
  { intros w' ? ? Eo ?. by rewrite Eo. }
  apply (wp_lift _ (tt, w')); [exact E1|]. wp_steps. cbn [snd]. rewrite Ho'. cbn [route_events]. wp_steps.
  specialize (HQ w' Hok' Hs' Hq'). unfold dead in HQ. rewrite app_assoc in HQ. exact HQ.
Qed.
End End_.
