(* ===== verification/AcSessionMessage.v ===== *)
(** The messages a session builds, end to end: what leaves, what is kept, and
    what is read back from it; the answer to an Echo Request, and a network
    asked of the WTP and added when the WTP agrees. *)
From stdpp Require Import option list strings.
From S2P Require Import Prelude Io Header HeaderProps CapwapArray Bitfield Timeout TimeoutSpec CapwapHash.
From S2P Require Import ElementsImage Elements80211a Element Tx TxSpec Rx RxSpec Packet PacketInv PacketSpec Message Validate.
From S2P Require Import Base64 Json Ieee80211 AcJson AcWorld AcWlans AcSession AcActions AcDfaJoin AcRun.
From S2P Require Import AcInv AcNetwork AcFrame AcSessionSpec AcSessionTotal.
#[local] Open Scope Z_scope.

Section Message.
Context {I : Indeterminate} {T : Target} {C : CharSign} {E : Environment}.

(** ** One datagram *)

Definition session_header (binding : Z) : list Z :=
  capwap_header_init (fresh CAPWAP_HEADER_MAX_SIZE) CAPWAP_RADIOID_NONE binding.

(** The packet of a message of the controller. *)
Definition ctrl_datagram (binding type seq : Z) (es : list message_element) : list Z :=
  sent_packet (session_header binding) type seq es.

Record message_fits (binding type seq mtu : Z) (es : list message_element) : Prop := MessageFits {
  mf_binding : 0 <= binding < 32;
  mf_type : is_u32 type;
  mf_seq : is_u8 seq;
  mf_mtu : 24 <= mtu < 65536;
  mf_size : 16 + zlen (message_bytes es) <= fragment_size mtu 8;
  mf_elements : Forall (acceptable binding) es
}.

Lemma session_header_spec b :
  0 <= b < 32 -> header_inv (session_header b) /\ GET_HLEN_HEADER (session_header b) * 4 = 8 /\
  GET_WBID_HEADER (session_header b) = b.
Proof.
  intros Hb. assert (Hl : zlen (fresh CAPWAP_HEADER_MAX_SIZE) = CAPWAP_HEADER_MAX_SIZE) by (by rewrite length_fresh).
  destruct (header_init_plain (fresh CAPWAP_HEADER_MAX_SIZE) CAPWAP_RADIOID_NONE b Hl (fresh_ok _)) as (Hi & _ & _ & _ & Hw & _).
  destruct (header_init_fields (fresh CAPWAP_HEADER_MAX_SIZE) CAPWAP_RADIOID_NONE b Hl) as (_ & _ & Hh & _).
  unfold session_header. rewrite Hh, Hw, Z.mod_small by done. done.
Qed.

Lemma add_to_packet_elements tx es : add_to_packet tx es = add_elements tx es.
Proof.
  revert tx. induction es as [|e es IH]; intros tx; cbn; [done|].
  destruct (capwap_packet_txmng_add_message_element tx e); cbn; [apply IH|done].
Qed.

(** A message that fits leaves as one datagram, from which its elements are read
    back. *)
Lemma message_built b type seq mtu es :
  message_fits b type seq mtu es ->
  exists tx tx' f,
    create_ctrl_message b type seq mtu = Some tx /\ add_to_packet tx es = Some tx' /\
    (forall id, capwap_packet_txmng_get_fragment_packets tx' id = [f]) /\
    datagram_of f = ctrl_datagram b type seq es /\ 0 < offset f.
Proof.
  intros [Hb Ht Hs Hm Hsize Hes]. destruct (session_header_spec b Hb) as (Hi & Hh & Hw).
  destruct (send_message (session_header b) type seq mtu es) as (tx & tx' & f & E1 & E2 & E3 & E4);
    rewrite ?Hh, ?Hw; try done.
  exists tx, tx', f. rewrite add_to_packet_elements. do 4 (split; [done|]).
  destruct (Z.ltb_spec 0 (offset f)); [done|]. exfalso.
  replace (Z.to_nat (offset f)) with 0%nat in E4 by lia. rewrite take_0 in E4.
  destruct (plain_header_spec (take (Z.to_nat 8) (session_header b) ++
    control_bytes (ControlMessage type seq (3 + zlen (message_bytes es)) 0) (message_bytes es)) 8) as [Hl _]; [|lia|].
  { destruct Hi as [Hl _]. rewrite length_app, length_take. unfold CAPWAP_HEADER_MAX_SIZE in Hl. lia. }
  unfold sent_packet in E4. rewrite Hh in E4. rewrite <-E4 in Hl. destruct Hi as [Hl' _].
  rewrite length_app, length_take in Hl. unfold CAPWAP_HEADER_MAX_SIZE in Hl'. cbn in Hl. lia.
Qed.

Lemma message_read_back b type seq mtu es fuel f :
  message_fits b type seq mtu es ->
  (forall k, category (element_ops k) = CAPWAP_MESSAGE_ELEMENT_SINGLE -> (length (of_kind k es) <= 1)%nat) ->
  zlen (message_bytes es) < Z.of_nat fuel -> datagram_of f = ctrl_datagram b type seq es ->
  exists rx rx' msgs,
    capwap_packet_rxmng_create_from_requestfragmentpacket [f] = Some (Some rx) /\
    capwap_parsing_packet fuel rx = Done (PARSING_COMPLETE, msgs, rx') /\ forall k, collected msgs k = of_kind k es.
Proof.
  intros [Hb Ht Hs Hm Hsize Hes] Hone Hfuel Hf. destruct (session_header_spec b Hb) as (Hi & Hh & Hw).
  destruct (proj2 (store_all_succeeds [] es messages_ok_nil)) as [msgs Hst]; [intros k Hk; by apply Hone|].
  destruct (receive_message (session_header b) type seq mtu es msgs) with (fuel := fuel) (f := f)
    as (rx & rx' & R1 & R2 & R3); rewrite ?Hh, ?Hw; try done.
  exists rx, rx', msgs. do 2 (split; [done|]). intros k. by rewrite (store_all_collected [] es msgs k Hst).
Qed.

(** ** Receiving *)

Lemma plain_header_start b :
  8 <= zlen b -> GET_VERSION_HEADER (plain_header b) = GET_VERSION_HEADER b /\
  GET_TYPE_HEADER (plain_header b) = GET_TYPE_HEADER b.
Proof.
  intros Hb. unfold plain_header, SET_FLAG_L_HEADER, SET_FLAG_F_HEADER, set_flag,
    SET_FRAGMENT_OFFSET_HEADER, SET_FRAGMENT_ID_HEADER, GET_VERSION_HEADER, GET_TYPE_HEADER.
  set (w := [Z.lor _ _; _]). assert (Hw : zlen w = 2) by done. clearbody w.
  split; hdr; rewrite !get_field_write_after by (first [reflexivity | cbn; blen]); hdr; done.
Qed.

Definition control_of (type seq : Z) (es : list message_element) : capwap_control_message :=
  ControlMessage type seq (3 + zlen (message_bytes es)) 0.

Lemma datagram_fields b type seq mtu es :
  message_fits b type seq mtu es ->
  let d := ctrl_datagram b type seq es in
  zlen d = 16 + zlen (message_bytes es) /\ zlen d < 65536 /\
  GET_VERSION_HEADER d = CAPWAP_PROTOCOL_VERSION /\ GET_TYPE_HEADER d = CAPWAP_PREAMBLE_HEADER /\
  GET_HLEN_HEADER d = 2 /\ GET_WBID_HEADER d = b /\ IS_FLAG_F_HEADER d = false /\
  drop 8 d = control_bytes (control_of type seq es) (message_bytes es).
Proof.
  intros [Hb Ht Hs Hm Hsize Hes] d. destruct (session_header_spec b Hb) as ([Hl _] & Hh & Hw).
  assert (Hf : zlen (fresh CAPWAP_HEADER_MAX_SIZE) = CAPWAP_HEADER_MAX_SIZE) by (by rewrite length_fresh).
  destruct (header_init_fields (fresh CAPWAP_HEADER_MAX_SIZE) CAPWAP_RADIOID_NONE b Hf) as (Hv & Hty & _).
  fold (session_header b) in Hv, Hty.
  assert (Hz : fragment_size mtu 8 < 65536).
  { pose proof (fragment_size_bounds mtu 8 ltac:(lia)). lia. }
  unfold CAPWAP_HEADER_MAX_SIZE in Hl. set (h := take 8 (session_header b)).
  set (x := h ++ control_bytes (control_of type seq es) (message_bytes es)).
  assert (Ed : d = plain_header x).
  { unfold d, ctrl_datagram, sent_packet. rewrite Hh. done. }
  assert (Hh8 : zlen h = 8) by (unfold h; rewrite length_take; lia).
  assert (Hx : zlen x = 16 + zlen (message_bytes es)).
  { unfold x, control_bytes. rewrite !length_app, length_be32, length_be16. cbn [length]. lia. }
  assert (Hfield : forall g, field_ok g = true -> get_field g x = get_field g (session_header b)).
  { intros g Hg. rewrite <-(get_field_take g 8 x), <-(get_field_take g 8 (session_header b)) by (done || lia).
    by f_equal. }
  destruct (plain_header_spec x 8) as (P1 & P2 & P3 & P4 & P5); [lia..|]. destruct (plain_header_start x) as [P6 P7]; [lia|].
  rewrite <-Ed in *. unfold GET_HLEN_HEADER, GET_WBID_HEADER, GET_VERSION_HEADER, GET_TYPE_HEADER in *.
  rewrite Hfield in P4, P5, P6, P7 by done. split_and!; try done; try lia; try congruence.
Qed.

Definition known_type (b type : Z) : bool :=
  CAPWAP_VALID_MESSAGE_TYPE type ||
  ((b =? CAPWAP_WIRELESS_BINDING_IEEE80211) && CAPWAP_VALID_IEEE80211_MESSAGE_TYPE type).

(** The packet is complete at once, and its control header is read. *)
Lemma datagram_complete b type seq mtu es :
  message_fits b type seq mtu es ->
  let d := ctrl_datagram b type seq es in
  capwap_sanity_check CAPWAP_UNDEF_STATE d false = Some CAPWAP_PLAIN_PACKET /\
  exists rx,
    capwap_packet_rxmng_add_recv_packet capwap_packet_rxmng_create_message d = Some (CAPWAP_RECEIVE_COMPLETE_PACKET, rx) /\
    rx_ctrlmsg rx = control_of type seq es /\ rx_fragmentlist rx = [capwap_packet_rxmng_create_fragment_item d].
Proof.
  intros Hfit d. destruct (datagram_fields b type seq mtu es Hfit) as (F1 & F2 & F3 & F4 & F5 & F6 & F7 & F8).
  fold d in F1, F2, F3, F4, F5, F6, F7, F8. split.
  - unfold capwap_sanity_check, sizeof_capwap_preamble, sizeof_capwap_header. rewrite F3, F4, F5, F1.
    rewrite (proj2 (Z.ltb_lt _ _)) by lia. cbn [negb].
    rewrite !Z.eqb_refl. cbn [negb andb]. rewrite !(proj2 (Z.leb_le _ _)) by lia. done.
  - destruct (recv_single_complete d (control_of type seq es) (message_bytes es)) as (r & S1 & S2 & S3 & _); [done|lia|lia|..].
    { by rewrite F5. }
    { destruct Hfit as [_ Ht Hs _ _ _]. unfold control_of, control_ok. cbn. lia. }
    by exists r.
Qed.

Lemma datagram_received b type seq mtu es msgs fuel rx :
  message_fits b type seq mtu es -> known_type b type = true -> store_all [] es = Some msgs ->
  zlen (message_bytes es) < Z.of_nat fuel ->
  let d := ctrl_datagram b type seq es in
  capwap_packet_rxmng_add_recv_packet capwap_packet_rxmng_create_message d = Some (CAPWAP_RECEIVE_COMPLETE_PACKET, rx) ->
  rx_ctrlmsg rx = control_of type seq es -> rx_fragmentlist rx = [capwap_packet_rxmng_create_fragment_item d] ->
  GET_WBID_HEADER (rx_header rx) = b /\ capwap_check_message_type rx = VALID_MESSAGE_TYPE /\
  exists rx', capwap_parsing_packet fuel rx = Done (PARSING_COMPLETE, msgs, rx').
Proof.
  intros Hfit Hk Hst Hfuel d S1 S2 S3. destruct (datagram_fields b type seq mtu es Hfit) as (F1 & F2 & F3 & F4 & F5 & F6 & F7 & F8).
  fold d in F1, F2, F3, F4, F5, F6, F7, F8.
  destruct (session_header_spec b (mf_binding _ _ _ _ _ Hfit)) as (Hi & Hh & Hw).
  set (f := Fragment (zlen d) (zlen d) d).
  assert (Hd : take (Z.to_nat (offset f)) (buffer f) = d) by (cbn; rewrite Nat2Z.id; by rewrite firstn_all).
  destruct (receive_message (session_header b) type seq mtu es msgs) with (fuel := fuel) (f := f)
    as (rx0 & rx' & R1 & R2 & R3); rewrite ?Hh, ?Hw; try apply Hfit; try done.
  unfold capwap_packet_rxmng_create_from_requestfragmentpacket in R1. cbn [append_fragments] in R1. rewrite Hd, S1 in R1.
  injection R1 as ->. split; [unfold rx_header; by rewrite S3|]. split; [|by exists rx'].
  unfold capwap_check_message_type, rx_header. rewrite S2, S3.
  cbn [cm_type control_of buffer capwap_packet_rxmng_create_fragment_item offset].
  rewrite F5, F6, (wrap16_small (zlen d)) by lia. rewrite wrap16_small by lia. unfold sizeof_capwap_control_message.
  rewrite (proj2 (Z.leb_le _ _)) by lia. unfold known_type in Hk. by destruct (CAPWAP_VALID_MESSAGE_TYPE type), (_ && _).
Qed.

(** An element that was sent is the one found. *)
Lemma data_of_element k (d : element_data k) : data_of k (existT k d) = Some d.
Proof. by destruct k. Qed.

Lemma first_collected msgs k d l :
  collected msgs k = existT k d :: l -> first_of k msgs = Some d.
Proof.
  unfold collected, first_of, all_of. destruct (capwap_get_message_element_data msgs _) as [l'|]; [|done].
  intros Hl. change (l' = existT k d :: l) in Hl. subst l'. cbn. by rewrite data_of_element.
Qed.

(** ** From the wire to the handler *)

Lemma bind_some {S A B} (m : ST S A) (k : A -> ST S B) s a s' : m s = Some (a, s') -> bind m k s = k a s'.
Proof. unfold bind. by intros ->. Qed.
Lemma bind_same {S A B} (m m' : ST S A) (k : A -> ST S B) s : m s = m' s -> bind m k s = bind m' k s.
Proof. unfold bind. by intros ->. Qed.
Lemma lift_some {S A} (o : option A) a (s : S) : o = Some a -> lift o s = Some (a, s).
Proof. by intros ->. Qed.
Lemma guard_true {S} b (s : S) : b = true -> guard b s = Some (tt, s).
Proof. by intros ->. Qed.

(** A packet is decrypted when it did not come as plain text and the session has
    DTLS; the packets of an existing session never come as plain text. *)
Definition encrypted (x : capwap_dtls) (p : ac_packet) : bool := negb (plainbuffer p) && dtls_enable x.

(** Reading the packet [p] delivers the datagram [d]: the handshake is over and
    wolfSSL decrypts the packet to it, or the session has no DTLS and the packet
    is the datagram. *)
Definition delivers (x : capwap_dtls) (l : list output) (p : ac_packet) (d : list Z) : Prop :=
  if encrypted x p
  then dtls_action_of x = ActionData /\ packet_buffer p <> [] /\ wolfSSL_read l (packet_buffer p) = SslText d
  else packet_buffer p = d.

(** A session that gets packets of its own can also send. *)
Lemma delivers_can_send x l p d : plainbuffer p = false -> delivers x l p d -> can_send x = true.
Proof.
  unfold delivers, encrypted, can_send. intros ->. cbn [negb andb]. destruct (dtls_enable x); [|done]. by intros (-> & _ & _).
Qed.

Definition read_log (x : capwap_dtls) (p : ac_packet) : list output :=
  if encrypted x p then [Decrypt (packet_buffer p)] else [].

(** The session after its first packet [p] was read. *)
Definition taken (p : ac_packet) (rest : list ac_packet) (s : ac_session_t) : ac_session_t :=
  set_log (log s ++ read_log (dtls s) p) (set_packets rest s).

(** The packet [p], which waits first in the queue of the session, delivers [d]. *)
Record offered (s : ac_session_t) (p : ac_packet) (d : list Z) (rest : list ac_packet) : Prop := Offered {
  of_running : running s = true;
  of_first : requestfragmentpacket s <> [] \/ actions s = [];
  of_queue : packets s = p :: rest;
  of_read : delivers (dtls s) (log s) p d;
  of_reader : rxmngpacket s = None
}.
(** No event of the back end waits for a message. *)
Record takes (s : ac_session_t) (p : ac_packet) (d : list Z) (rest : list ac_packet) : Prop := Takes {
  tk_running : running s = true;
  tk_first : requestfragmentpacket s <> [] \/ actions s = [];
  tk_queue : packets s = p :: rest;
  tk_read : delivers (dtls s) (log s) p d;
  tk_reader : rxmngpacket s = None;
  tk_events : notifyevent s = []
}.

Lemma takes_offered s p d rest : takes s p d rest -> offered s p d rest.
Proof. by intros [? ? ? ? ? ?]. Qed.

Lemma read_packet_delivers s p d fuel now :
  delivers (dtls s) (log s) p d -> 0 < zlen d <= CAPWAP_MAX_PACKET_SIZE ->
  read_packet fuel now p s = Some ((zlen d, d), set_log (log s ++ read_log (dtls s) p) s).
Proof.
  intros Hr Hd. unfold read_packet, delivers, read_log in *. erewrite bind_some; [|reflexivity].
  fold (encrypted (dtls s) p). destruct (encrypted (dtls s) p) eqn:Ee.
  - destruct Hr as (Ha & Hne & Ht). unfold encrypted in Ee. apply andb_true_iff in Ee as [_ Ee].
    assert (Hp : (0 <? zlen (packet_buffer p)) = true) by (destruct (packet_buffer p); [done|apply Z.ltb_lt; cbn; lia]).
    assert (E1 : capwap_decrypt_packet (packet_buffer p) s =
      Some ((zlen d, d), set_log (log s ++ [Decrypt (packet_buffer p)]) s)).
    { unfold capwap_decrypt_packet. erewrite bind_some; [|reflexivity].
      erewrite bind_some; [|apply guard_true; by rewrite Ee, Hp]. rewrite Ha.
      erewrite bind_some; [|reflexivity]. erewrite bind_some; [|reflexivity]. rewrite Ht.
      by destruct d as [|b d]; [cbn in Hd; lia|]. }
    erewrite bind_some; [|exact E1]. erewrite bind_some; [|reflexivity]. erewrite bind_some; [|reflexivity].
    cbn [fst]. replace (zlen d =? CAPWAP_ERROR_AGAIN) with false by (unfold CAPWAP_ERROR_AGAIN; lia). done.
  - rewrite Hr, (proj2 (Z.leb_le _ _)), app_nil_r by lia. by destruct s.
Qed.

Lemma turn_reads s p d rest fuel now ac n :
  offered s p d rest -> 0 < zlen d <= CAPWAP_MAX_PACKET_SIZE ->
  session_turn fuel now ac n s = receive_packet fuel now ac d (taken p rest s).
Proof.
  intros [Hr Hf Hq Hd _] Hl. unfold session_turn, ac_network_read.
  assert (E1 : (update (set_packets rest);; r <- read_packet fuel now p;; ret (Some r)) s =
    Some (Some (zlen d, d), taken p rest s)).
  { erewrite bind_some; [|reflexivity].
    erewrite bind_some; [|exact (read_packet_delivers (set_packets rest s) p d fuel now Hd Hl)]. done. }
  erewrite bind_some.
  2:{ erewrite bind_some; [|reflexivity]. rewrite Hr. cbn [negb]. rewrite Hq.
      destruct (requestfragmentpacket s) eqn:E2; [destruct Hf as [?| E3]; [done|rewrite E3]|destruct (actions s)]; exact E1. }
  cbv iota beta. by rewrite (proj2 (Z.ltb_ge _ _)), (proj2 (Z.ltb_lt _ _)) by lia.
Qed.

Lemma notify_nothing p status s : notifyevent s = [] -> notify_event p status s = Some (tt, s).
Proof. intros H. unfold notify_event, bind, gets, ret. by rewrite H. Qed.

(** The packet is a whole message, which is then looked at. *)
Lemma turn_completes b type seq mtu es fuel now ac n s p rest :
  message_fits b type seq mtu es -> offered s p (ctrl_datagram b type seq es) rest ->
  exists rx,
    capwap_packet_rxmng_add_recv_packet capwap_packet_rxmng_create_message (ctrl_datagram b type seq es) =
      Some (CAPWAP_RECEIVE_COMPLETE_PACKET, rx) /\
    rx_ctrlmsg rx = control_of type seq es /\
    rx_fragmentlist rx = [capwap_packet_rxmng_create_fragment_item (ctrl_datagram b type seq es)] /\
    session_turn fuel now ac n s =
      bind (complete_message fuel now ac rx) (fun _ => update (set_rxmngpacket None))
        (set_rxmngpacket (Some rx) (taken p rest s)).
Proof.
  intros Hfit Ht. destruct (datagram_complete b type seq mtu es Hfit) as (Hsan & rx & R1 & R2 & R3).
  destruct (datagram_fields b type seq mtu es Hfit) as (F1 & F2 & _). exists rx. do 3 (split; [done|]).
  rewrite (turn_reads _ _ _ rest _ _ _ _ Ht) by (done || unfold CAPWAP_MAX_PACKET_SIZE; lia).
  unfold receive_packet. set (d := ctrl_datagram b type seq es) in *.
  erewrite bind_some; [|by apply lift_some]. rewrite Z.eqb_refl.
  erewrite bind_some; [|reflexivity]. change (rxmngpacket (taken p rest s)) with (rxmngpacket s).
  rewrite (of_reader _ _ _ _ Ht).
  change (default capwap_packet_rxmng_create_message None) with capwap_packet_rxmng_create_message.
  erewrite bind_some; [|by apply lift_some].
  erewrite bind_some; [|reflexivity]. cbn [fst snd]. by rewrite Z.eqb_refl.
Qed.

(** A message that is not a repetition and has its mandatory elements is told to
    the event that waits for it and given to the handler of the state. *)
Lemma turn_notices b type seq mtu es msgs fuel now ac n s p rest :
  message_fits b type seq mtu es -> known_type b type = true -> store_all [] es = Some msgs ->
  zlen (message_bytes es) < Z.of_nat fuel -> capwap_validate_parsed_packet msgs type b = 0 ->
  offered s p (ctrl_datagram b type seq es) rest ->
  capwap_is_request_type type && (remotetype s =? type) && (remoteseqnumber s =? seq) = false ->
  exists rx, session_turn fuel now ac n s =
    bind (notify_message (capwap_is_request_type type) msgs;;
          ac_dfa_execute fuel now ac (Parsed b (control_of type seq es) msgs)) (fun _ => update (set_rxmngpacket None))
      (set_rxmngpacket (Some rx) (taken p rest s)).
Proof.
  intros Hfit Hk Hst Hfuel Hv Ht Hrep.
  destruct (turn_completes b type seq mtu es fuel now ac n s p rest Hfit Ht) as (rx & R1 & R2 & R3 & R4).
  destruct (datagram_received b type seq mtu es msgs fuel rx) as (R5 & R6 & rx' & R7); [done..|].
  exists rx. rewrite R4. set (s1 := set_rxmngpacket _ _). apply bind_same.
  unfold complete_message, new_message, parsed_message.
  erewrite bind_some; [|reflexivity]. rewrite R2. cbn [cm_type cm_seq control_of].
  change (remotetype s1) with (remotetype s). change (remoteseqnumber s1) with (remoteseqnumber s). rewrite Hrep, R5, R6.
  change (VALID_MESSAGE_TYPE =? VALID_MESSAGE_TYPE) with true. cbn iota.
  erewrite bind_some; [|apply lift_some; by rewrite R7]. cbn [fst snd]. change (PARSING_COMPLETE =? PARSING_COMPLETE) with true. cbn iota.
  rewrite Hv. reflexivity.
Qed.

Lemma turn_delivers b type seq mtu es msgs fuel now ac n s p rest :
  message_fits b type seq mtu es -> known_type b type = true -> store_all [] es = Some msgs ->
  zlen (message_bytes es) < Z.of_nat fuel -> capwap_validate_parsed_packet msgs type b = 0 ->
  takes s p (ctrl_datagram b type seq es) rest ->
  capwap_is_request_type type && (remotetype s =? type) && (remoteseqnumber s =? seq) = false ->
  exists rx, session_turn fuel now ac n s =
    bind (ac_dfa_execute fuel now ac (Parsed b (control_of type seq es) msgs)) (fun _ => update (set_rxmngpacket None))
      (set_rxmngpacket (Some rx) (taken p rest s)).
Proof.
  intros Hfit Hk Hst Hfuel Hv Ht Hrep.
  destruct (turn_notices b type seq mtu es msgs fuel now ac n s p rest) as [rx E1]; [done..|by apply takes_offered|done|].
  exists rx. rewrite E1. apply bind_same. erewrite bind_some; [done|]. apply notify_nothing. apply (tk_events _ _ _ _ Ht).
Qed.

(** A request that was answered before is answered in the same way, and the
    structure that was never written is freed. *)
Lemma turn_repeats b type seq mtu es fuel now ac n s p rest :
  message_fits b type seq mtu es -> takes s p (ctrl_datagram b type seq es) rest ->
  capwap_is_request_type type = true -> remotetype s = type -> remoteseqnumber s = seq ->
  sendable (responsefragmentpacket s) ->
  session_turn fuel now ac n s =
    if indet =? 0
    then Some (tt, let s1 := taken p rest s in set_log (log s1 ++ (sent_of (dtls s) (log s1) (responsefragmentpacket s)).2) s1)
    else None.
Proof.
  intros Hfit Ht Hreq Hty Hseq Hsend.
  destruct (turn_completes b type seq mtu es fuel now ac n s p rest Hfit (takes_offered _ _ _ _ Ht)) as (rx & _ & R2 & _ & R4).
  rewrite R4. set (s1 := set_rxmngpacket _ _). unfold bind at 1, complete_message.
  erewrite bind_some; [|reflexivity]. rewrite R2. cbn [cm_type cm_seq control_of].
  change (remotetype s1) with (remotetype s). change (remoteseqnumber s1) with (remoteseqnumber s).
  rewrite Hreq, Hty, Hseq, !Z.eqb_refl. cbn [andb]. change (responsefragmentpacket s1) with (responsefragmentpacket s).
  erewrite bind_some; [|by apply send_total]. unfold free_unwritten_packet, guard, lift, update.
  destruct (indet =? 0); [|done]. pose proof (tk_reader _ _ _ _ Ht) as Hn. destruct s. cbn in Hn. subst. done.
Qed.

(** ** Answers *)

(** The session after an answer in one datagram to the request [c]: the answer is
    kept with the type and the number of the request. *)
Definition answered (c : capwap_control_message) (f : capwap_fragment_packet_item) (s : ac_session_t) : ac_session_t :=
  set_log (log s ++ (sent_of (dtls s) (log s) [f]).2)
    (set_remoteseqnumber (cm_seq c) (set_remotetype (cm_type c) (set_responsefragmentpacket [f] s))).

Lemma answered_log c f s :
  can_send (dtls s) = true -> log (answered c f s) = log s ++ [Send (datagram_of f)].
Proof. intros Hx. unfold answered. cbn [log set_log sent_of]. rewrite Hx. cbn [negb]. by destruct (_ <=? 0). Qed.

Lemma response_total tx c f s :
  (forall id, capwap_packet_txmng_get_fragment_packets tx id = [f]) -> 0 < offset f ->
  send_response tx c s = Some ((sent_of (dtls s) (log s) [f]).1, answered c f s).
Proof.
  intros Hf Ho. unfold send_response, ac_free_reference_last_response, bind, gets, update. rewrite Hf.
  unfold count_fragments. cbn [responsefragmentpacket set_remoteseqnumber set_remotetype set_responsefragmentpacket app].
  change (1 <? zlen [f]) with false. cbn [when]. unfold ret. rewrite send_total; [|by repeat constructor].
  by destruct s.
Qed.

Lemma soap_of_wtp_total method params s w :
  wtpid s = Some w ->
  soap_of_wtp method params s =
    Some (soap (log s) method (w :: params), set_log (log s ++ [Soap method (w :: params)]) s).
Proof.
  intros Hw. unfold soap_of_wtp, ac_session_send_soap_request, bind, gets, lift, emit_output, update, ret. by rewrite Hw.
Qed.

(** An Echo Request, when the back end confirms the session. *)
Lemma echo_total packet s w r :
  wtpid s = Some w -> soap (log s) "checkWTPSession" [w] = Some r -> answers_true r = true ->
  message_fits (pp_binding packet) CAPWAP_ECHO_RESPONSE (cm_seq (pp_ctrlmsg packet)) (session_mtu s) [] ->
  exists f, datagram_of f = ctrl_datagram (pp_binding packet) CAPWAP_ECHO_RESPONSE (cm_seq (pp_ctrlmsg packet)) [] /\
    receive_echo_request packet s =
      Some (0, answered (pp_ctrlmsg packet) f (set_log (log s ++ [Soap "checkWTPSession" [w]]) s)).
Proof.
  intros Hw Hr Ha Hfit. destruct (message_built _ _ _ _ _ Hfit) as (tx & tx' & f & E1 & E2 & E3 & E4 & E5).
  injection E2 as <-. exists f. split; [done|]. unfold receive_echo_request.
  erewrite bind_some; [|by apply soap_of_wtp_total]. rewrite Hr, Ha.
  erewrite bind_some; [|reflexivity]. cbn [session_mtu set_log].
  erewrite bind_some; [|by apply lift_some]. by erewrite bind_some; [|by apply response_total].
Qed.

Lemma echo_refused packet s w :
  wtpid s = Some w ->
  match soap (log s) "checkWTPSession" [w] with Some r => answers_true r | None => false end = false ->
  receive_echo_request packet s = Some (-1, set_log (log s ++ [Soap "checkWTPSession" [w]]) s).
Proof.
  intros Hw Hr. unfold receive_echo_request. erewrite bind_some; [|by apply soap_of_wtp_total]. by rewrite Hr.
Qed.

(** The handlers of the Run state and of an Echo Request. *)
Lemma execute_run fuel now ac packet s :
  state s = CAPWAP_RUN_STATE -> ac_dfa_execute fuel now ac packet s = ac_dfa_state_run fuel now packet s.
Proof. intros Hs. unfold ac_dfa_execute. erewrite bind_some; [|reflexivity]. by rewrite Hs. Qed.

Lemma run_echo fuel now packet s :
  cm_type (pp_ctrlmsg packet) = CAPWAP_ECHO_REQUEST ->
  ac_dfa_state_run fuel now packet s =
    (r <- receive_echo_request packet;; if r =? 0 then set_echo_timer fuel now else ac_session_teardown fuel) s.
Proof. intros Hs. unfold ac_dfa_state_run, run_message. rewrite Hs. reflexivity. Qed.

Lemma wp_same {S A} (m m' : ST S A) s Q : m s = m' s -> wp m' s Q -> wp m s Q.
Proof. unfold wp. by intros ->. Qed.

Lemma wp_unit {S} (m : ST S unit) s Q : wp m s (fun _ => Q) -> exists s', m s = Some (tt, s') /\ Q s'.
Proof. intros ([] & s' & ? & ?). by exists s'. Qed.

Lemma torn_reader s s' v : torn s s' -> torn s (set_rxmngpacket v s').
Proof. intros []. by split. Qed.

Lemma wp_turn (m h : MS unit) s s1 Q :
  m s = bind h (fun _ => update (set_rxmngpacket None)) s1 ->
  wp h s1 (fun _ s2 => Q tt (set_rxmngpacket None s2)) -> wp m s Q.
Proof. intros E1 ([] & s2 & E2 & HQ). exists tt, (set_rxmngpacket None s2). rewrite E1. unfold bind. by rewrite E2. Qed.

(** ** Requests *)

(** A request in one datagram is kept until it is answered. *)
Lemma request_total type es s :
  requestfragmentpacket s = [] -> message_fits (binding s) type (localseqnumber s) (session_mtu s) es ->
  exists f, datagram_of f = ctrl_datagram (binding s) type (localseqnumber s) es /\ 0 < offset f /\
    send_request type es s =
      Some ((sent_of (dtls s) (log s) [f]).1, set_log (log s ++ (sent_of (dtls s) (log s) [f]).2) (set_requestfragmentpacket [f] s)).
Proof.
  intros Hn Hfit. destruct (message_built _ _ _ _ _ Hfit) as (tx & tx' & f & E1 & E2 & E3 & E4 & E5).
  exists f. do 2 (split; [done|]). unfold send_request. erewrite bind_some; [|reflexivity].
  erewrite bind_some; [|by apply lift_some]. erewrite bind_some; [|by apply lift_some].
  erewrite bind_some; [|reflexivity]. rewrite E3, Hn. cbn [app]. erewrite bind_some; [|reflexivity].
  cbn [requestfragmentpacket set_requestfragmentpacket]. unfold count_fragments. change (1 <? zlen [f]) with false.
  cbn [when]. erewrite bind_some; [|reflexivity]. by rewrite send_total; [|by repeat constructor].
Qed.

Lemma sent_one x h f :
  can_send x = true -> 0 < sendto h (datagram_of f) -> sent_of x h [f] = (true, [Send (datagram_of f)]).
Proof. intros Hx H. cbn. rewrite Hx. cbn [negb]. by rewrite (proj2 (Z.leb_gt _ _)). Qed.

(** An operation of [world] that sends nothing. *)
Lemma wp_in_world {A} (m : M A) s (Q : A -> ac_session_t -> Prop) :
  wp m (wlans_of_session s) (fun a w => out w = [] /\ Q a (set_wlans_of_session w s)) -> wp (in_world m) s Q.
Proof.
  intros (a & w & E1 & Ho & HQ). unfold in_world. wp_steps. apply (wp_lift _ (a, w)); [done|]. wp_steps.
  cbn [snd fst]. rewrite Ho. cbn [route_events]. wp_steps.
  assert (Hc : clear_out w = w) by (destruct w; cbn in *; by subst). by rewrite Hc.
Qed.

(** The timers of the session are marked as used. *)
Definition reserved (s : ac_session_t) : Prop :=
  in_use (timeoutbitfield (timeout (wlans_of_session s))) (idtimercontrol s) = true /\
  in_use (timeoutbitfield (timeout (wlans_of_session s))) (idtimerkeepalivedead s) = true.

(** Setting a timer of the session keeps the stations in order. *)
Lemma ok_session_timer w t i d e cb :
  world_ok w -> timers_ok t -> timeoutbitfield t = timeoutbitfield (timeout w) ->
  in_use (timeoutbitfield (timeout w)) i = true -> (forall a, cb <> StationTimeout a) ->
  itemstimeout t = capwap_timeout_additem (remove_timer i (itemstimeout (timeout w))) (TimeoutItem i d e cb) ->
  world_ok (set_timeout t w).
Proof.
  intros [] Ht Hb Hi Hcb Hit.
  assert (Hin : forall it, it ∈ itemstimeout t -> it = TimeoutItem i d e cb \/ it ∈ itemstimeout (timeout w)).
  { intros it. rewrite Hit. unfold capwap_timeout_additem. rewrite additem_perm. cbn [app]. intros [->|H]%elem_of_cons; [by left|right]. exact (remove_timer_subset _ _ _ H). }
  split; try done; cbn.
  - unfold timers_used in *. rewrite Hb. rewrite Forall_forall in *. intros k Hk. revert Hk.
    rewrite list_elem_of_fmap. intros (it & -> & H%Hin). destruct H as [->|H]; [done|]. apply w_used.
    apply list_elem_of_fmap. by exists it.
  - intros it a H%Hin Ha. destruct H as [->|H]; [by destruct (Hcb a)|by apply w_callback].
Qed.

End Message.
