(* ===== verification/AcSessionWlan.v ===== *)
(** A network, from the action of the controller to the radio: the request is
    sent and kept, and the answer of the WTP adds the network with its BSSID. *)
From stdpp Require Import option list strings.
From S2P Require Import Prelude Io Header CapwapArray Bitfield Timeout TimeoutSpec CapwapHash.
From S2P Require Import ElementsImage Elements80211a Element Tx TxSpec Rx Packet PacketInv PacketSpec Message Validate.
From S2P Require Import Base64 Json Ieee80211 AcJson AcWorld AcWlans AcSession AcActions AcRun AcController.
From S2P Require Import AcInv AcNetwork AcFrame AcSessionSpec AcSessionTotal AcSessionMessage.
#[local] Open Scope Z_scope.

Section Network.
Context {I : Indeterminate} {T : Target} {C : CharSign} {E : Environment}.
Context (fuel : nat) (Hfuel : enough fuel) (now : timeval).

(** The radio of the notification has no network with its number. *)
Definition wlanid_free (w : world) (r wlanid : Z) : Prop :=
  List.find (fun x => wlan_wlanid x =? wlanid) (wlans_of w r) = None.

Definition valid_notify (n : ac_notify_addwlan_t) : Prop :=
  IS_VALID_RADIOID (na_radioid n) = true /\ IS_VALID_WLANID (na_wlanid n) = true.

(** The session that waits for the answer to the request [f]. *)
Definition waiting (t : capwap_timeout timer_callback) (f : capwap_fragment_packet_item) (s : ac_session_t) : ac_session_t :=
  with_timers t (set_retransmitcount 0 (set_log (log s ++ [Send (datagram_of f)]) (set_requestfragmentpacket [f] s))).

Definition addwlan_datagram (s : ac_session_t) (n : ac_notify_addwlan_t) : list Z :=
  ctrl_datagram (binding s) CAPWAP_IEEE80211_WLAN_CONFIGURATION_REQUEST (localseqnumber s) [addwlan_element n].

Lemma addwlan_total n s Q :
  armed s -> reserved s -> world_ok (wlans_of_session s) -> out (wlans_of_session s) = [] ->
  requestfragmentpacket s = [] -> valid_notify n ->
  wlanid_free (wlans_of_session s) (na_radioid n) (na_wlanid n) ->
  message_fits (binding s) CAPWAP_IEEE80211_WLAN_CONFIGURATION_REQUEST (localseqnumber s) (session_mtu s)
    [addwlan_element n] ->
  can_send (dtls s) = true -> 0 < sendto (log s) (addwlan_datagram s n) ->
  (forall f t, datagram_of f = addwlan_datagram s n -> timers_ok t -> world_ok (set_timeout t (wlans_of_session s)) ->
     timeoutbitfield t = timeoutbitfield (timeout (wlans_of_session s)) -> Q AC_NO_ERROR (waiting t f s)) ->
  wp (ac_session_action_addwlan fuel now n) s Q.
Proof using Hfuel.
  intros Ha [Hres _] Hok Ho Hn [Hr Hw] Hfree Hfit Hopen Hsend HQ. unfold ac_session_action_addwlan, no_pending_request. wp_steps.
  apply wp_guard; [by apply bool_decide_eq_true|]. rewrite Hr, Hw. cbn [negb orb]. wp_steps. apply wp_in_world.
  unfold ac_wlans_get_bssid_with_wlanid. wp_steps. apply wp_guard; [by rewrite Hr, Hw|]. wp_steps. split; [done|].
  unfold wlanid_free in Hfree. rewrite Hfree. cbn [fmap option_fmap option_map]. wp_steps.
  assert (Hs : set_wlans_of_session (wlans_of_session s) s = s) by by destruct s. rewrite Hs.
  destruct (request_total CAPWAP_IEEE80211_WLAN_CONFIGURATION_REQUEST [addwlan_element n] s Hn Hfit) as (f & Ef & Hoff & E1).
  fold (addwlan_datagram s n) in Ef. rewrite sent_one in E1 by (done || by rewrite Ef). cbn [fst snd] in E1.
  eapply wp_eq; [exact E1|]. unfold await_answer, set_control_timer. wp_steps.
  set (s1 := set_retransmitcount _ _). destruct Ha as [Ht Hc Hk Hd].
  destruct (set_timer_total fuel Hfuel now (idtimercontrol s) AC_RETRANSMIT_INTERVAL RetransmitionTimeout s1 Ht Hc)
    as (t & E2 & Hok2 & Hb & Hi). eapply wp_eq; [exact E2|]. wp_steps.
  apply HQ; try done. by apply (ok_session_timer _ t _ _ _ _ Hok Hok2 Hb Hres) in Hi.
Qed.

(** ** The answer *)

Definition addwlan_data (n : ac_notify_addwlan_t) : AddWlan.capwap_80211_addwlan_element :=
  AddWlan.Build_capwap_80211_addwlan_element (na_radioid n) (na_wlanid n)
    (na_capability n) 0 0 0 None (zeros AddWlan.CAPWAP_ADD_WLAN_GROUPTSC_LENGTH) (na_qos n) (na_authmode n)
    (na_macmode n) (na_tunnelmode n) (na_suppressssid n) (na_ssid n).

(** The request that waits is read back from the fragments that were kept. *)
Lemma pending_addwlan b seq mtu n f s :
  message_fits b CAPWAP_IEEE80211_WLAN_CONFIGURATION_REQUEST seq mtu [addwlan_element n] ->
  zlen (message_bytes [addwlan_element n]) < Z.of_nat fuel ->
  datagram_of f = ctrl_datagram b CAPWAP_IEEE80211_WLAN_CONFIGURATION_REQUEST seq [addwlan_element n] ->
  requestfragmentpacket s = [f] ->
  exists msgs, pending_request fuel s = Some (Some (PARSING_COMPLETE, msgs), s) /\
    first_of K_80211_addwlan msgs = Some (addwlan_data n).
Proof.
  intros Hfit Hf Ef Hs. destruct (message_read_back b _ seq mtu [addwlan_element n] fuel f Hfit) as (rx & rx' & msgs & R1 & R2 & R3).
  { intros k _. destruct k; vm_compute; lia. } { done. } { done. }
  exists msgs. split.
  - unfold pending_request, bind, gets, lift, ret. by rewrite Hs, R1, R2.
  - apply (first_collected msgs K_80211_addwlan (addwlan_data n) []). by rewrite R3.
Qed.

(** What the WTP answers. *)
Definition wlan_answer (r wlanid : Z) (bssid : mac) : list message_element :=
  [resultcode_element 0;
   element K_80211_assignbssid (AssignBssid.Build_capwap_80211_assignbssid_element r wlanid bssid)].

Lemma wlan_answer_parsed r wlanid bssid :
  exists msgs, store_all [] (wlan_answer r wlanid bssid) = Some msgs /\
    capwap_validate_parsed_packet msgs CAPWAP_IEEE80211_WLAN_CONFIGURATION_RESPONSE CAPWAP_WIRELESS_BINDING_IEEE80211 = 0 /\
    first_of K_resultcode msgs = Some (ResultCode.Build_capwap_resultcode_element 0) /\
    first_of K_80211_assignbssid msgs = Some (AssignBssid.Build_capwap_80211_assignbssid_element r wlanid bssid).
Proof. eexists. split; [reflexivity|]. split_and!; reflexivity. Qed.

(** The session after the answer: the kernel module knows the network, and the
    request is forgotten. *)
Definition wlan_added (n : ac_notify_addwlan_t) (bssid : mac) (w : world) (s : ac_session_t) : ac_session_t :=
  set_requestfragmentpacket [] (set_wlans_of_session w
    (set_log (log s ++ [KmodAddWlan (na_radioid n) (na_wlanid n) bssid (na_macmode n) (na_tunnelmode n)]) s)).

(** [w'] is [w] with the network the notification describes. *)
Record network_of (n : ac_notify_addwlan_t) (bssid : mac) (w w' : world) : Prop := NetworkOf {
  no_world : world_ok w';
  no_rest : same_but_wlans w w';
  no_network : exists x, ac_wlans_create_bssid (na_wlanid n) bssid (addwlan_data n) = Some x /\
    forall q, wlan_at w' q = if bool_decide (q = (na_radioid n, bssid)) then Some x else wlan_at w q
}.

Lemma addwlan_created b n bssid :
  IS_VALID_WLANID (na_wlanid n) = true -> Forall (acceptable b) [addwlan_element n] ->
  exists x, ac_wlans_create_bssid (na_wlanid n) bssid (addwlan_data n) = Some x.
Proof.
  intros Hw [Hwf _]%Forall_cons. destruct Hwf as [Hwf _]. change (AddWlan.wf (addwlan_data n)) in Hwf.
  destruct Hwf as (_ & _ & _ & _ & _ & _ & _ & _ & _ & _ & _ & _ & _ & x & Ex & Hc & Hl).
  unfold ac_wlans_create_bssid. rewrite Hw. cbn [negb]. rewrite Ex, strlen_terminated by done.
  unfold AddWlan.CAPWAP_ADD_WLAN_SSID_LENGTH in Hl. rewrite (proj2 (Z.ltb_ge _ _)) by lia. by eexists.
Qed.

Lemma wlan_response_total b seq mtu n f bssid msgs packet s Q :
  message_fits b CAPWAP_IEEE80211_WLAN_CONFIGURATION_REQUEST seq mtu [addwlan_element n] ->
  zlen (message_bytes [addwlan_element n]) < Z.of_nat fuel ->
  datagram_of f = ctrl_datagram b CAPWAP_IEEE80211_WLAN_CONFIGURATION_REQUEST seq [addwlan_element n] ->
  requestfragmentpacket s = [f] -> world_ok (wlans_of_session s) -> out (wlans_of_session s) = [] ->
  valid_notify n -> length bssid = 6%nat -> is_Some (devices (wlans_of_session s) !! Z.to_nat (na_radioid n - 1)) ->
  wlan_at (wlans_of_session s) (na_radioid n, bssid) = None ->
  kmod_call (log s) (KmodAddWlan (na_radioid n) (na_wlanid n) bssid (na_macmode n) (na_tunnelmode n)) = 0 ->
  pp_messages packet = msgs -> first_of K_resultcode msgs = Some (ResultCode.Build_capwap_resultcode_element 0) ->
  first_of K_80211_assignbssid msgs =
    Some (AssignBssid.Build_capwap_80211_assignbssid_element (na_radioid n) (na_wlanid n) bssid) ->
  (forall w', network_of n bssid (wlans_of_session s) w' -> Q tt (wlan_added n bssid w' s)) ->
  wp (receive_ieee80211_wlan_configuration_response fuel packet) s Q.
Proof.
  intros Hfit Hf Ef Hs Hok Ho [Hr Hw] Hl Hdev Hno Hkm Hp Hc Ha HQ. unfold receive_ieee80211_wlan_configuration_response.
  rewrite Hp. wp_steps. eapply wp_lift; [exact Hc|]. wp_steps.
  change (ResultCode.CAPWAP_RESULTCODE_OK (ResultCode.code (ResultCode.Build_capwap_resultcode_element 0))) with true. cbn iota.
  wp_steps. destruct (pending_addwlan b seq mtu n f s Hfit Hf Ef Hs) as (req & E1 & E2). eapply wp_eq; [exact E1|]. cbn iota.
  assert (Hreq : is_Some (capwap_get_message_element req (kind_id K_80211_addwlan))).
  { unfold first_of, all_of, capwap_get_message_element_data in E2. by destruct (capwap_get_message_element req _). }
  rewrite (bool_decide_true _ Hreq). change (PARSING_COMPLETE =? PARSING_COMPLETE) with true. cbn [andb].
  unfold execute_ieee80211_wlan_configuration_addwlan. rewrite Hp. wp_steps. eapply wp_lift; [exact E2|]. rewrite Ha.
  cbn [AssignBssid.radioid AssignBssid.wlanid AssignBssid.bssid AddWlan.radioid AddWlan.wlanid AddWlan.macmode AddWlan.tunnelmode addwlan_data].
  rewrite !Z.eqb_refl. cbn [andb]. unfold kmod. wp_steps. rewrite Hkm. cbn [Z.eqb]. wp_steps.
  destruct (addwlan_created b n bssid Hw (mf_elements _ _ _ _ _ Hfit)) as [x Ex].
  apply (wp_lift _ x); [done|]. wp_steps. destruct (create_bssid_spec (na_wlanid n) bssid (addwlan_data n) x) as (X1 & X2 & X3 & X4 & X5);
    [lia|done|]. rewrite take_ge in X5 by lia.
  apply wp_in_world. apply assign_bssid_spec; rewrite ?X3, ?X5; try done.
  { intros [y Hy]. assert (None = Some y) by exact (eq_trans (eq_sym Hno) Hy). done. }
  intros w' _ Hok' Hsame Hq. split; [destruct Hsame as (_ & _ & _ & _ & _ & _ & -> & _); done|]. wp_steps.
  unfold ac_free_reference_last_request. wp_steps. apply HQ. split; [done|done|]. by exists x.
Qed.

(** ** The two turns *)

(** The action is taken first, and the request leaves. *)
Lemma turn_addwlan ac stale n s rest Q :
  running s = true -> actions s = AC_SESSION_ACTION_ADDWLAN n :: rest ->
  armed s -> reserved s -> world_ok (wlans_of_session s) -> out (wlans_of_session s) = [] ->
  requestfragmentpacket s = [] -> valid_notify n ->
  wlanid_free (wlans_of_session s) (na_radioid n) (na_wlanid n) ->
  message_fits (binding s) CAPWAP_IEEE80211_WLAN_CONFIGURATION_REQUEST (localseqnumber s) (session_mtu s)
    [addwlan_element n] ->
  can_send (dtls s) = true -> 0 < sendto (log s) (addwlan_datagram s n) ->
  (forall f t, datagram_of f = addwlan_datagram s n -> timers_ok t -> world_ok (set_timeout t (wlans_of_session s)) ->
     timeoutbitfield t = timeoutbitfield (timeout (wlans_of_session s)) ->
     Q tt (waiting t f (set_actions rest s))) ->
  wp (session_turn fuel now ac stale) s Q.
Proof using Hfuel.
  intros Hrun Hact Ha Hres Hok Ho Hn Hv Hfree Hfit Hopen Hsend HQ. unfold session_turn, ac_network_read. wp_steps.
  rewrite Hrun, Hn, Hact. cbn [negb]. wp_steps. cbn [ac_session_action_execute].
  apply addwlan_total; try done; [by destruct Ha|]. intros f t Ef Ht Hw Hb. wp_steps. refine (wp_ret tt _ _ _). by apply HQ.
Qed.

(** The handler of the Run state, for the answer to the last request. *)
Lemma run_dispatches b c msgs s :
  cm_type c = CAPWAP_IEEE80211_WLAN_CONFIGURATION_RESPONSE -> cm_seq c = localseqnumber s ->
  ac_dfa_state_run fuel now (Parsed b c msgs) s =
    (receive_ieee80211_wlan_configuration_response fuel (Parsed b c msgs);; set_echo_timer fuel now)
      (set_localseqnumber (wrap8 (localseqnumber s + 1)) s).
Proof.
  intros Hty Hseq. unfold ac_dfa_state_run, run_message. cbn [pp_ctrlmsg]. rewrite Hty.
  erewrite bind_some; [|reflexivity]. rewrite Hseq, Z.eqb_refl. reflexivity.
Qed.

(** The answer, in the Run state. *)
Lemma run_wlan_answer b seq mtu n f bssid msgs c s Q :
  armed s -> reserved s ->
  message_fits b CAPWAP_IEEE80211_WLAN_CONFIGURATION_REQUEST seq mtu [addwlan_element n] ->
  zlen (message_bytes [addwlan_element n]) < Z.of_nat fuel ->
  datagram_of f = ctrl_datagram b CAPWAP_IEEE80211_WLAN_CONFIGURATION_REQUEST seq [addwlan_element n] ->
  requestfragmentpacket s = [f] -> world_ok (wlans_of_session s) -> out (wlans_of_session s) = [] ->
  valid_notify n -> length bssid = 6%nat -> is_Some (devices (wlans_of_session s) !! Z.to_nat (na_radioid n - 1)) ->
  wlan_at (wlans_of_session s) (na_radioid n, bssid) = None ->
  kmod_call (log s) (KmodAddWlan (na_radioid n) (na_wlanid n) bssid (na_macmode n) (na_tunnelmode n)) = 0 ->
  cm_type c = CAPWAP_IEEE80211_WLAN_CONFIGURATION_RESPONSE -> cm_seq c = localseqnumber s ->
  first_of K_resultcode msgs = Some (ResultCode.Build_capwap_resultcode_element 0) ->
  first_of K_80211_assignbssid msgs =
    Some (AssignBssid.Build_capwap_80211_assignbssid_element (na_radioid n) (na_wlanid n) bssid) ->
  (forall w' t, network_of n bssid (wlans_of_session s) w' -> timers_ok t -> world_ok (set_timeout t w') ->
     Q tt (with_timers t (wlan_added n bssid w' (set_localseqnumber (wrap8 (localseqnumber s + 1)) s)))) ->
  wp (ac_dfa_state_run fuel now (Parsed b c msgs)) s Q.
Proof using Hfuel.
  intros Harm [Hres _] Hfit Hf Ef Hs Hok Ho Hv Hl Hdev Hno Hkm Hty Hseq Hc Ha HQ. unfold wp at 1.
  rewrite run_dispatches by done. change (wp (receive_ieee80211_wlan_configuration_response fuel (Parsed b c msgs);;
    set_echo_timer fuel now) (set_localseqnumber (wrap8 (localseqnumber s + 1)) s) Q). wp_steps. apply (wlan_response_total b seq mtu n f bssid msgs); try done. intros w' Hn. destruct Harm as [Ht Hct Hk Hd].
  unfold set_echo_timer, set_control_timer. wp_steps. set (s1 := wlan_added _ _ _ _).
  pose proof (no_rest _ _ _ _ Hn) as (_ & _ & _ & Htm & _). cbn [wlans_of_session set_localseqnumber] in Htm.
  destruct (set_timer_total fuel Hfuel now (idtimercontrol s) AC_MAX_ECHO_INTERVAL TeardownTimeout s1) as (t & E2 & Hok2 & Hb & Hi);
    [by cbn; rewrite Htm|done|].
  eapply wp_eq; [exact E2|]. apply HQ; try done.
  refine (ok_session_timer w' t (idtimercontrol s) _ _ TeardownTimeout (no_world _ _ _ _ Hn) Hok2 Hb _ _ Hi); [by rewrite Htm|done].
Qed.

End Network.

(** ** The whole exchange *)

(** The packet of the WTP that gives the network a BSSID. *)
Definition wlan_answer_packet `{Indeterminate} (seq : Z) (n : ac_notify_addwlan_t) (bssid : mac) : list Z :=
  ctrl_datagram CAPWAP_WIRELESS_BINDING_IEEE80211 CAPWAP_IEEE80211_WLAN_CONFIGURATION_RESPONSE seq
    (wlan_answer (na_radioid n) (na_wlanid n) bssid).

(** The session can ask for the network [n], and the WTP may answer [bssid] with
    the bytes [bytes], which are the answer or, with DTLS, decrypted to it; [told]
    is what the back end is told of the answer. *)
Record can_add `{Indeterminate} `{Target} `{Environment} (fuel : nat) (s : ac_session_t) (n : ac_notify_addwlan_t) (bssid : mac)
    (bytes : list Z) (told : list output) : Prop := CanAdd {
  ca_running : running s = true;
  ca_state : state s = CAPWAP_RUN_STATE;
  ca_binding : binding s = CAPWAP_WIRELESS_BINDING_IEEE80211;
  ca_armed : armed s;
  ca_reserved : reserved s;
  ca_world : world_ok (wlans_of_session s);
  ca_out : out (wlans_of_session s) = [];
  ca_idle : requestfragmentpacket s = [] /\ packets s = [] /\ rxmngpacket s = None;
  ca_valid : valid_notify n;
  ca_free : wlanid_free (wlans_of_session s) (na_radioid n) (na_wlanid n);
  ca_radio : is_Some (devices (wlans_of_session s) !! Z.to_nat (na_radioid n - 1));
  ca_bssid : length bssid = 6%nat /\ wlan_at (wlans_of_session s) (na_radioid n, bssid) = None;
  ca_request : message_fits CAPWAP_WIRELESS_BINDING_IEEE80211 CAPWAP_IEEE80211_WLAN_CONFIGURATION_REQUEST
                 (localseqnumber s) (session_mtu s) [addwlan_element n];
  ca_answer : message_fits CAPWAP_WIRELESS_BINDING_IEEE80211 CAPWAP_IEEE80211_WLAN_CONFIGURATION_RESPONSE
                (localseqnumber s) (session_mtu s) (wlan_answer (na_radioid n) (na_wlanid n) bssid);
  ca_fuel : zlen (message_bytes [addwlan_element n]) < Z.of_nat fuel /\
            zlen (message_bytes (wlan_answer (na_radioid n) (na_wlanid n) bssid)) < Z.of_nat fuel;
  ca_sent : 0 < sendto (log s) (addwlan_datagram s n);
  ca_read : delivers (dtls s) (log s ++ [Send (addwlan_datagram s n)]) (AcPacket false bytes)
              (wlan_answer_packet (localseqnumber s) n bssid);
  ca_bytes : 0 < zlen bytes;
  ca_kmod : kmod_call (((log s ++ [Send (addwlan_datagram s n)]) ++ read_log (dtls s) (AcPacket false bytes)) ++ told)
              (KmodAddWlan (na_radioid n) (na_wlanid n) bssid (na_macmode n) (na_tunnelmode n)) = 0
}.

(** The session after the back end was told of the event that waited. *)
Definition noticed (evs : list ac_session_notify_event_t) (told : list output) (s : ac_session_t) : ac_session_t :=
  set_notifyevent evs (set_log (log s ++ told) s).

Lemma noticed_nothing s : notifyevent s = [] -> noticed [] [] s = s.
Proof. intros Hn. unfold noticed. rewrite app_nil_r. destruct s. cbn in *. by subst. Qed.

(** The session [s2] after the network was added to [s1], which was [s]. *)
Record with_network `{Indeterminate} `{Target} (n : ac_notify_addwlan_t) (bssid : mac) (rest : list ac_session_action)
    (evs : list ac_session_notify_event_t) (heard : list output) (told : list output) (s s1 s2 : ac_session_t) : Prop := WithNetwork {
  wn_state : state s2 = CAPWAP_RUN_STATE;
  wn_request : requestfragmentpacket s2 = [];
  wn_world : world_ok (wlans_of_session s2);
  wn_log : log s2 = log s1 ++ heard ++ told ++ [KmodAddWlan (na_radioid n) (na_wlanid n) bssid (na_macmode n) (na_tunnelmode n)];
  wn_network : exists x, ac_wlans_create_bssid (na_wlanid n) bssid (addwlan_data n) = Some x /\
    forall q, wlan_at (wlans_of_session s2) q =
      if bool_decide (q = (na_radioid n, bssid)) then Some x else wlan_at (wlans_of_session s) q;
  wn_events : notifyevent s2 = evs;
  wn_actions : actions s2 = rest
}.

Lemma network_turns `{Indeterminate} `{Target} `{CharSign} `{Environment} fuel now now' ac stale s n bssid bytes rest evs told :
  let heard := read_log (dtls s) (AcPacket false bytes) in
  enough fuel -> can_add fuel s n bssid bytes told -> actions s = AC_SESSION_ACTION_ADDWLAN n :: rest ->
  (forall msgs s', log s' = (log s ++ [Send (addwlan_datagram s n)]) ++ heard -> notifyevent s' = notifyevent s ->
     wtpid s' = wtpid s -> first_of K_resultcode msgs = Some (ResultCode.Build_capwap_resultcode_element 0) ->
     notify_message false msgs s' = Some (tt, noticed evs told s')) ->
  exists s1 s1' s2,
    session_turn fuel now ac stale s = Some (tt, s1) /\
    log s1 = log s ++ [Send (addwlan_datagram s n)] /\
    ac_session_add_packet bytes false s1 = Some s1' /\
    session_turn fuel now' ac stale s1' = Some (tt, s2) /\ with_network n bssid rest evs heard told s s1 s2.
Proof.
  intros heard Hf [Hrun Hst Hb Ha Hr Hw Ho (Hi1 & Hi2 & Hi3) Hv Hfree Hdev [Hl Hno] Hq Hans [Hf1 Hf2] Hsend Hread Hbytes Hk] Hact Hnote.
  pose proof (delivers_can_send _ _ (AcPacket false bytes) _ eq_refl Hread) as Hopen.
  assert (Hturn : exists f t, session_turn fuel now ac stale s = Some (tt, waiting t f (set_actions rest s)) /\
    datagram_of f = addwlan_datagram s n /\ timers_ok t /\ world_ok (set_timeout t (wlans_of_session s)) /\
    timeoutbitfield t = timeoutbitfield (timeout (wlans_of_session s))).
  { destruct (turn_addwlan fuel Hf now ac stale n s rest (fun _ s' => exists f t, s' = waiting t f (set_actions rest s) /\
      datagram_of f = addwlan_datagram s n /\ timers_ok t /\ world_ok (set_timeout t (wlans_of_session s)) /\
      timeoutbitfield t = timeoutbitfield (timeout (wlans_of_session s)))) as ([] & s' & E1 & f & t & -> & Hrest);
      try done; [by rewrite Hb|by intros f t ? ? ? ?; exists f, t|by exists f, t]. }
  destruct Hturn as (f & t & E1 & Ef & Ht & Hw1 & Hb1). set (s1 := waiting t f (set_actions rest s)) in *.
  set (d := wlan_answer_packet (localseqnumber s) n bssid) in *. set (p := AcPacket false bytes) in *.
  set (s2 := set_packets (packets s1 ++ [p]) s1).
  assert (Hlog : log s1 = log s ++ [Send (addwlan_datagram s n)])
    by (change (log s ++ [Send (datagram_of f)] = log s ++ [Send (addwlan_datagram s n)]); by rewrite Ef).
  assert (Hadd : ac_session_add_packet bytes false s1 = Some s2)
    by (unfold ac_session_add_packet; by rewrite (proj2 (Z.ltb_lt _ _) Hbytes)).
  assert (Htake : offered s2 p d []).
  { split; [exact Hrun|by left| | |exact Hi3].
    - change (packets s ++ [p] = [p]). by rewrite Hi2.
    - change (delivers (dtls s) (log s1) p d). by rewrite Hlog. }
  destruct (wlan_answer_parsed (na_radioid n) (na_wlanid n) bssid) as (msgs & M1 & M2 & M3 & M4).
  destruct (turn_notices CAPWAP_WIRELESS_BINDING_IEEE80211 CAPWAP_IEEE80211_WLAN_CONFIGURATION_RESPONSE (localseqnumber s)
    (session_mtu s) (wlan_answer (na_radioid n) (na_wlanid n) bssid) msgs fuel now' ac stale s2 p []) as [rx E2]; try done.
  exists s1, s2. set (s3 := noticed evs told (set_rxmngpacket (Some rx) (taken p [] s2))).
  assert (Hres : exists s4, session_turn fuel now' ac stale s2 = Some (tt, s4) /\ exists w' t',
    s4 = set_rxmngpacket None (with_timers t' (wlan_added n bssid w' (set_localseqnumber (wrap8 (localseqnumber s + 1)) s3))) /\
    network_of n bssid (set_timeout t (wlans_of_session s)) w' /\ world_ok (set_timeout t' w')).
  { apply wp_unit. eapply wp_turn; [exact E2|].
    apply wp_bind. eapply wp_eq; [refine (Hnote msgs _ _ _ _ M3); [change (log s1 ++ heard = (log s ++ [Send (addwlan_datagram s n)]) ++ heard); by rewrite Hlog|reflexivity|reflexivity]|].
    eapply wp_same; [by apply execute_run|].
    refine (run_wlan_answer fuel Hf now' CAPWAP_WIRELESS_BINDING_IEEE80211 (localseqnumber s) (session_mtu s) n f bssid msgs
      (control_of CAPWAP_IEEE80211_WLAN_CONFIGURATION_RESPONSE (localseqnumber s) (wlan_answer (na_radioid n) (na_wlanid n) bssid)) s3 _
      _ _ Hq Hf1 _ eq_refl Hw1 Ho Hv Hl Hdev Hno _ eq_refl eq_refl M3 M4 _).
    - destruct Ha. by split.
    - destruct Hr as [Hr1 Hr2]. split; [change (in_use (timeoutbitfield t) (idtimercontrol s) = true)|
        change (in_use (timeoutbitfield t) (idtimerkeepalivedead s) = true)]; by rewrite Hb1.
    - rewrite Ef. unfold addwlan_datagram. by rewrite Hb.
    - change (kmod_call ((log s1 ++ heard) ++ told)
        (KmodAddWlan (na_radioid n) (na_wlanid n) bssid (na_macmode n) (na_tunnelmode n)) = 0). by rewrite Hlog.
    - intros w' t' Hn _ Hw'. by exists w', t'. }
  destruct Hres as (s4 & E4 & w' & t' & -> & [Hw2 Hs2 (x & Ex & Hx)] & Hw3). eexists.
  split; [exact E1|]. split; [exact Hlog|]. split; [exact Hadd|]. split; [exact E4|]. split; [exact Hst|reflexivity|exact Hw3| |by exists x|reflexivity|reflexivity].
  change (((log s1 ++ heard) ++ told) ++ [KmodAddWlan (na_radioid n) (na_wlanid n) bssid (na_macmode n) (na_tunnelmode n)] =
    log s1 ++ heard ++ told ++ [KmodAddWlan (na_radioid n) (na_wlanid n) bssid (na_macmode n) (na_tunnelmode n)]).
  by rewrite <- !app_assoc.
Qed.
