(* ===== verification/AcSessionProps.v ===== *)
(** The correctness of sessions: which states a session goes through and what
    was agreed before, how it ends, and how it answers. *)
From stdpp Require Import option list gmap strings relations.
From S2P Require Import Prelude Io Header CapwapArray Bitfield Timeout TimeoutSpec CapwapHash CapwapHashSpec.
From S2P Require Import ElementsImage Element Tx Rx Packet Validate Base64 Json.
From S2P Require Import AcWorld AcWlans AcSession AcActions AcDfaJoin AcDfaConfigure AcRun.
From S2P Require Import AcController AcInv AcNetwork AcFrame AcSessionSpec AcSessionTotal AcSessionMessage AcSessionWlan.

#[local] Open Scope Z_scope.

(** ** The invariant of a session *)

(** The states of a WTP that joined. *)
Definition joined (st : Z) : bool :=
  (st =? CAPWAP_POSTJOIN_STATE) || (st =? CAPWAP_CONFIGURE_STATE) || (st =? CAPWAP_DATA_CHECK_STATE) ||
  (st =? CAPWAP_DATA_CHECK_TO_RUN_STATE) || (st =? CAPWAP_RUN_STATE).

Definition finished (st : Z) : Prop := st = CAPWAP_DTLS_TEARDOWN_STATE \/ st = CAPWAP_DEAD_STATE.

Section Invariant.
Context {I : Indeterminate} {T : Target} {C : CharSign} {E : Environment}.

Record session_inv (s : ac_session_t) : Prop := SessionInv {
  si_listed : listed s = true <-> ~ finished (state s);
  si_authorised : joined (state s) = true -> authorised s;
  si_data : state s = CAPWAP_DATA_CHECK_TO_RUN_STATE \/ state s = CAPWAP_RUN_STATE -> data_session s;
  si_confirmed : state s = CAPWAP_RUN_STATE -> confirmed s
}.

Lemma inv_kept s s' :
  session_inv s -> kept s s' -> ~ finished (state s) -> ~ finished (state s') ->
  (joined (state s') = true -> joined (state s) = true \/ authorised s') ->
  (state s' = CAPWAP_DATA_CHECK_TO_RUN_STATE \/ state s' = CAPWAP_RUN_STATE ->
     (state s = CAPWAP_DATA_CHECK_TO_RUN_STATE \/ state s = CAPWAP_RUN_STATE) \/ data_session s') ->
  (state s' = CAPWAP_RUN_STATE -> state s = CAPWAP_RUN_STATE \/ confirmed s') -> session_inv s'.
Proof.
  intros [Hl Ha Hd Hc] K Ho Ho' Ja Jd Jc. split.
  - rewrite (k_listed _ _ K), Hl. tauto.
  - intros H. destruct (Ja H); [|done]. eapply kept_authorised; [exact K|by apply Ha].
  - intros H. destruct (Jd H); [|done]. eapply kept_data_session; [exact K|by apply Hd].
  - intros H. destruct (Jc H); [|done]. eapply kept_confirmed; [exact K|by apply Hc].
Qed.

Lemma inv_torn s s' : torn s s' -> session_inv s'.
Proof.
  intros [_ Hs Hl _ _ _ _ _]. split; rewrite ?Hs, ?Hl; try done; [|by intros [|]].
  split; [done|]. intros Hn. destruct Hn. by left.
Qed.

Lemma inv_quiet s s' : session_inv s -> quiet s s' -> session_inv s'.
Proof.
  intros [Hl Ha Hd Hc] Q. pose proof (quiet_kept _ _ Q) as K. destruct Q as [Qs Ql _ _].
  split; rewrite ?Qs, ?Ql; [done| | |]; intros H.
  - eapply kept_authorised; [exact K|by apply Ha].
  - eapply kept_data_session; [exact K|by apply Hd].
  - eapply kept_confirmed; [exact K|by apply Hc].
Qed.

Lemma joined_over st : joined st = true -> ~ finished st.
Proof. intros H [->| ->]; vm_compute in H; congruence. Qed.

Lemma inv_transition fuel s s' : session_inv s -> ~ finished (state s) -> transition fuel s s' -> session_inv s'.
Proof.
  intros Hi Ho [Q|H|K Hs|K Hf Hs|Hl Hg Hf Hs Ha|K Hf Hs _|K Hf Hs|K Hf Hs Hd|K Hf Hs Hc].
  - by eapply inv_quiet.
  - by eapply inv_torn.
  - apply (inv_kept s); rewrite ?Hs; try done; [by intros [|]|by intros [|]].
  - apply (inv_kept s); rewrite ?Hs; try done; [by intros [|]|by intros [|]].
  - split; rewrite ?Hs; try done; [|by intros [|]]. rewrite Hl, (si_listed s Hi), Hf. split; intros _; by intros [|].
  - apply (inv_kept s); rewrite ?Hs; try done; [by intros [|]| |by intros [|]]. intros _. left. by rewrite Hf.
  - apply (inv_kept s); rewrite ?Hs; try done; [by intros [|]| |by intros [|]]. intros _. left. by rewrite Hf.
  - apply (inv_kept s); rewrite ?Hs; try done; [by intros [|]| |by right]. intros _. left. by rewrite Hf.
  - apply (inv_kept s); rewrite ?Hs; try done; [by intros [|]| | |by right]; intros _; left; [by rewrite Hf|by left].
Qed.

(** The states before the loop and after it. *)
Lemma begin_spec fuel now ac s :
  wlp (session_begin fuel now ac) s (fun _ s' =>
    kept s s' /\ (state s' = CAPWAP_DTLS_CONNECT_STATE \/ state s' = CAPWAP_JOIN_STATE) \/ torn s s').
Proof.
  unfold session_begin. destruct (enabledtls ac).
  - apply wlp_bind. unfold ac_dtls_setup, capwap_crypt_createsession, capwap_crypt_open.
    apply wlp_bind, wlp_quiet; [unfold set_dtls_state; quiet_op|]. intros ok s1 Q1. destruct ok; cbn [negb].
    + apply wlp_bind, wlp_quiet; [apply quiet_handshake|]. intros r s2 Q2.
      pose proof (quiet_kept _ _ (quiet_trans _ _ _ Q1 Q2)) as K. destruct (_ =? _); wlp_steps; cbn [negb when].
      * eapply wlp_mono; [apply teardown_torn|]. intros [] s3 Ht. right. by eapply torn_kept.
      * eapply wlp_mono; [apply change_state_spec|]. intros [] s3 [K3 Hs]. apply wlp_bind, wlp_quiet; [apply quiet_control_timer|].
        intros _ s4 Q4. apply wlp_ret. cbn [negb when]. apply wlp_ret. left. split; [|left; rewrite <-Hs; apply Q4].
        eapply session_kept_trans; [exact K|]. eapply session_kept_trans; [exact K3|by apply quiet_kept].
    + apply wlp_ret. cbn [negb when]. eapply wlp_mono; [apply teardown_torn|]. intros [] s3 Ht. right.
      eapply torn_kept; [by apply quiet_kept|done].
  - apply wlp_bind. eapply wlp_mono; [apply change_state_spec|]. intros [] s1 [K1 Hs].
    apply wlp_quiet; [apply quiet_control_timer|]. intros _ s2 Q2. left. split; [|right; rewrite <-Hs; apply Q2].
    eapply session_kept_trans; [exact K1|by apply quiet_kept].
Qed.

Lemma end_spec fuel s : wlp (session_end fuel) s (fun _ s' => kept s s' /\ state s' = CAPWAP_DEAD_STATE).
Proof.
  unfold session_end, ac_dfa_state_teardown, ac_session_destroy. apply wlp_bind, wlp_bind, wlp_gets.
  apply wlp_bind, wlp_quiet; [quiet_op|]. intros _ s1 Q1.
  eapply wlp_mono; [apply change_state_spec|]. intros [] s2 [K2 Hs]. apply wlp_quiet; [quiet_op|]. intros _ s3 Q3.
  split; [|rewrite <-Hs; apply Q3]. eapply session_kept_trans; [by apply quiet_kept|]. eapply session_kept_trans; [exact K2|by apply quiet_kept].
Qed.

Lemma inv_step fuel s s' : session_inv s -> session_step fuel s s' -> session_inv s'.
Proof.
  intros Hi H. destruct H as [now ac s s' Hs E1|now ac n s s' H1 H2 H3 E1|s s' Hs E1|p s Hl|a s s' E1|s Hl].
  - destruct (begin_spec fuel now ac s tt s' E1) as [[K Hs']|Ht]; [|by eapply inv_torn].
    apply (inv_kept s); try done; [rewrite Hs; by intros [|]|..]; destruct Hs' as [-> | ->]; (done || by intros [|]).
  - apply (inv_transition fuel s); [done|by intros [|]|]. by apply (turn_transition fuel now ac n s tt).
  - destruct (end_spec fuel s tt s' E1) as [K Hs'].
    split; rewrite ?Hs'; try done; [|by intros [|]]. rewrite (k_listed _ _ K), (si_listed s Hi), Hs.
    split; intros Hn; exfalso; apply Hn; [by left|by right].
  - eapply inv_quiet; [exact Hi|]. split; try done. exists []. by rewrite app_nil_r.
  - eapply inv_quiet; [exact Hi|]. revert E1. unfold ac_session_send_action, bind, gets, when, update, ret.
    destruct (listed s); intros [= <-]; (split; try done; exists []; by rewrite app_nil_r).
  - eapply inv_quiet; [exact Hi|]. split; try done. exists []. by rewrite app_nil_r.
Qed.

Lemma create_inv c from to : session_inv (ac_create_session c from to).
Proof.
  unfold ac_create_session. destruct (capwap_timeout_createtimer _) as [i t]. destruct (capwap_timeout_createtimer t) as [j t'].
  split; cbn [state listed]; try done; [|by intros [|]]. split; [intros _; by intros [|]|done].
Qed.

(** ** The state machine *)

(** The moves between states, as the diagram of RFC 5415 has them for the
    controller. *)
Inductive dfa_step : Z -> Z -> Prop :=
| dfa_dtls : dfa_step CAPWAP_IDLE_STATE CAPWAP_DTLS_CONNECT_STATE
| dfa_plain : dfa_step CAPWAP_IDLE_STATE CAPWAP_JOIN_STATE
| dfa_connected : dfa_step CAPWAP_DTLS_CONNECT_STATE CAPWAP_JOIN_STATE
| dfa_joined : dfa_step CAPWAP_JOIN_STATE CAPWAP_POSTJOIN_STATE
| dfa_configured : dfa_step CAPWAP_CONFIGURE_STATE CAPWAP_DATA_CHECK_STATE
| dfa_checked : dfa_step CAPWAP_DATA_CHECK_STATE CAPWAP_DATA_CHECK_TO_RUN_STATE
| dfa_run : dfa_step CAPWAP_DATA_CHECK_TO_RUN_STATE CAPWAP_RUN_STATE
| dfa_reset st : ~ finished st -> st <> CAPWAP_IDLE_STATE -> dfa_step st CAPWAP_RESET_STATE
| dfa_teardown st : ~ finished st -> dfa_step st CAPWAP_DTLS_TEARDOWN_STATE
| dfa_dead : dfa_step CAPWAP_DTLS_TEARDOWN_STATE CAPWAP_DEAD_STATE.

(** One step of a session is one move of the diagram, or none; but for the state
    after Join, which is left for Configure and Data Check in one turn. *)
Definition dfa_move (fuel : nat) (s s' : ac_session_t) : Prop :=
  state s' = state s \/ dfa_step (state s) (state s') \/
  state s = CAPWAP_POSTJOIN_STATE /\ state s' = CAPWAP_DATA_CHECK_STATE /\ through_configure fuel s s'.

Lemma transition_dfa fuel s s' :
  ~ finished (state s) -> state s <> CAPWAP_IDLE_STATE -> transition fuel s s' -> dfa_move fuel s s'.
Proof.
  intros Hf Hi [Q|H|K Hs|K H1 Hs|Hl Hg H1 Hs Ha|K H1 Hs Hc|K H1 Hs|K H1 Hs Hd|K H1 Hs Hc]; [left; apply Q|right..].
  5:{ by right. }
  all: left.
  - rewrite (t_state _ _ H). by constructor.
  - rewrite Hs. by constructor.
  - rewrite H1, Hs. constructor.
  - rewrite H1, Hs. constructor.
  - rewrite H1, Hs. constructor.
  - rewrite H1, Hs. constructor.
  - rewrite H1, Hs. constructor.
Qed.

Lemma step_dfa fuel s s' : session_step fuel s s' -> dfa_move fuel s s'.
Proof.
  intros H. destruct H as [now ac s s' Hs E1|now ac n s s' H1 H2 H3 E1|s s' Hs E1|p s Hl|a s s' E1|s Hl]; try by left.
  - right. left. rewrite Hs. destruct (begin_spec fuel now ac s tt s' E1) as [[_ [-> | ->]]|Ht]; [constructor..|].
    rewrite (t_state _ _ Ht). constructor. by intros [|].
  - apply transition_dfa; [by intros [|]|done|]. by apply (turn_transition fuel now ac n s tt).
  - right. left. destruct (end_spec fuel s tt s' E1) as [_ ->]. rewrite Hs. constructor.
  - left. revert E1. unfold ac_session_send_action, bind, gets, when, update, ret. by destruct (listed s); intros [= <-].
Qed.

(** The step that entered the state of the last session of a run. *)
Lemma entered fuel s s' :
  rtc (session_step fuel) s s' -> state s <> state s' ->
  exists s1 s2, rtc (session_step fuel) s s1 /\ session_step fuel s1 s2 /\ rtc (session_step fuel) s2 s' /\
    state s1 <> state s' /\ state s2 = state s'.
Proof.
  induction 1 as [s|s1 s2 s3 H1 Hr IH]; intros Hne; [done|]. destruct (decide (state s2 = state s3)) as [Heq|Hneq].
  - exists s1, s2. split_and!; done.
  - destruct (IH Hneq) as (a & b & Ha & Hab & Hb & Hs). exists a, b. split_and!; try done; try apply Hs. by eapply rtc_l.
Qed.

(** What a session in the Run state went through since [s]: Join, the state after
    it, Configure within the turn that reached Data Check, and the wait for the
    keep-alive of the data channel. *)
Definition went_through (fuel : nat) (s s' : ac_session_t) : Prop :=
  exists s1 s2 s3 s4,
    rtc (session_step fuel) s s1 /\ state s1 = CAPWAP_JOIN_STATE /\
    rtc (session_step fuel) s1 s2 /\ state s2 = CAPWAP_POSTJOIN_STATE /\
    session_step fuel s2 s3 /\ through_configure fuel s2 s3 /\ state s3 = CAPWAP_DATA_CHECK_STATE /\
    rtc (session_step fuel) s3 s4 /\ state s4 = CAPWAP_DATA_CHECK_TO_RUN_STATE /\
    rtc (session_step fuel) s4 s'.

Lemma entered_from fuel st' st s s' :
  (forall a, dfa_step a st' -> a = st) -> st' <> CAPWAP_DATA_CHECK_STATE ->
  state s <> st' -> state s' = st' -> rtc (session_step fuel) s s' ->
  exists s1, rtc (session_step fuel) s s1 /\ state s1 = st /\ rtc (session_step fuel) s1 s'.
Proof.
  intros Hm Hd Hs Hs' Hr. destruct (entered fuel s s' Hr) as (a & b & Ha & Hab & Hb & Hna & Hbs); [congruence|].
  exists a. split_and!; [done| |by eapply rtc_l]. destruct (step_dfa _ _ _ Hab) as [E1|[H1|(_ & E1 & _)]]; [congruence| |congruence].
  apply Hm. by rewrite <-Hs', <-Hbs.
Qed.

(** No session rests in Configure. *)
Lemma never_configure fuel s s' :
  state s <> CAPWAP_CONFIGURE_STATE -> rtc (session_step fuel) s s' -> state s' <> CAPWAP_CONFIGURE_STATE.
Proof.
  intros Hs. induction 1 as [s|s1 s2 s3 H1 _ IH]; [done|]. apply IH.
  destruct (step_dfa _ _ _ H1) as [->|[H2|(_ & -> & _)]]; [done| |done]. intros E1. rewrite E1 in H2. inversion H2.
Qed.

Lemma run_went_through fuel s s' :
  state s = CAPWAP_IDLE_STATE -> state s' = CAPWAP_RUN_STATE -> rtc (session_step fuel) s s' -> went_through fuel s s'.
Proof.
  intros Hs Hs' Hr.
  destruct (entered_from fuel CAPWAP_RUN_STATE CAPWAP_DATA_CHECK_TO_RUN_STATE s s') as (s4 & R4 & H4 & T4);
    [by inversion 1|done|by rewrite Hs|done..|].
  destruct (entered_from fuel CAPWAP_DATA_CHECK_TO_RUN_STATE CAPWAP_DATA_CHECK_STATE s s4) as (sd & R3 & H3 & T3);
    [by inversion 1|done|by rewrite Hs|done..|].
  destruct (entered fuel s sd R3) as (s2 & s3 & Ha & Hab & Hb & Hna & Hbs); [by rewrite Hs, H3|]. rewrite H3 in *.
  pose proof (never_configure fuel s s2 ltac:(by rewrite Hs) Ha) as Hnc.
  destruct (step_dfa _ _ _ Hab) as [E1|[H1|(H2 & _ & Hc)]]; [congruence|rewrite Hbs in H1; inversion H1; (discriminate || congruence)|].
  destruct (entered_from fuel CAPWAP_POSTJOIN_STATE CAPWAP_JOIN_STATE s s2) as (s1 & R1 & H1 & T1);
    [by inversion 1|done|by rewrite Hs|done..|].
  exists s1, s2, s3, s4. split_and!; try done. by etransitivity.
Qed.

Lemma run_inv fuel s s' : session_inv s -> rtc (session_step fuel) s s' -> session_inv s'.
Proof. intros Hi. induction 1; [done|]. eauto using inv_step. Qed.

End Invariant.

(** ** A new session *)

(** The controller's table of stations is in order. *)
Record owners_ok `{Target} (c : controller) : Prop := OwnersOk {
  ow_inv : @hash_inv mac mac auth_hash _ (authstations c);
  ow_size : hashsize (authstations c) = AC_STATIONS_HASH_SIZE;
  ow_lookup : forall a, is_Some (@hash_lookup mac mac auth_hash (authstations c) a) <-> is_Some (owners c !! a);
  ow_apart : forall a b, is_Some (owners c !! a) -> is_Some (owners c !! b) -> auth_apart a b
}.

Lemma timers_ok_bits `{Target} {A} (t t' : capwap_timeout A) :
  timers_ok t -> itemsreference t' = itemsreference t -> itemstimeout t' = itemstimeout t ->
  length (timeoutbitfield t') = length (timeoutbitfield t) -> timers_ok t'.
Proof. intros [] E1 E2 E3. split; rewrite ?E1, ?E2, ?E3; done. Qed.

(** The two timers of a new session. *)
Lemma new_timers `{Target} {A} :
  let '(i, t1) := capwap_timeout_createtimer (@capwap_timeout_init A) in
  let '(j, t2) := capwap_timeout_createtimer t1 in
  i = 1 /\ j = 2 /\ timers_ok t2 /\ itemstimeout t2 = [] /\
  in_use (timeoutbitfield t2) i = true /\ in_use (timeoutbitfield t2) j = true.
Proof.
  pose proof (createtimer_spec (@capwap_timeout_init A)) as H1.
  destruct (capwap_timeout_createtimer capwap_timeout_init) as [i t1] eqn:E1.
  pose proof (createtimer_spec t1) as H2. vm_compute in E1. injection E1 as <- <-.
  destruct (capwap_timeout_createtimer _) as [j t2] eqn:E2. vm_compute in E2. injection E2 as <- <-.
  destruct H1 as (A1 & A2 & A3 & _), H2 as (B1 & B2 & B3 & _).
  split_and!; try reflexivity. eapply timers_ok_bits; [|exact B1|exact B2|exact B3].
  eapply timers_ok_bits; [apply init_ok|exact A1|exact A2|exact A3].
Qed.

(** What a new session starts with. *)
Record fresh_session `{Target} (s : ac_session_t) : Prop := FreshSession {
  fs_armed : armed s;
  fs_reserved : reserved s;
  fs_world : world_ok (wlans_of_session s);
  fs_settled : settled (wlans_of_session s);
  fs_empty : forall q, wlan_at (wlans_of_session s) q = None;
  fs_out : out (wlans_of_session s) = []
}.

Lemma create_fresh `{Indeterminate} `{Target} c from to : owners_ok c -> fresh_session (ac_create_session c from to).
Proof.
  intros [H1 H2 H3 H4]. pose proof (@new_timers _ timer_callback) as Ht. unfold ac_create_session.
  destruct (capwap_timeout_createtimer capwap_timeout_init) as [i t1]. destruct (capwap_timeout_createtimer t1) as [j t2].
  destruct Ht as (-> & -> & Hok & Hi & U1 & U2).
  destruct (init_world_ok (next_id c) t2 (authstations c) (owners c)) as [Hw Hs]; try done.
  { unfold timers_used. rewrite Hi. constructor. } { rewrite Hi. constructor. }
  split; try done. intros q. apply init_wlans.
Qed.

(** ** A concrete run *)

#[local] Existing Instances zero_memory lp64 sample_char sample_env.

Definition session_begun : ac_session_t := left_by (session_begin 3000 sample_time sample_ac) sample_start.
Definition session_joined : ac_session_t := left_by (receives join_request) session_begun.
Definition session_configured : ac_session_t := left_by (receives configuration_request) session_joined.
Definition session_checked : ac_session_t := left_by (receives change_state_request) session_configured.
Definition session_running : ac_session_t := left_by (executes AC_SESSION_ACTION_RECV_KEEPALIVE) session_checked.

Definition has_result (m : MS unit) (s : ac_session_t) : bool := match m s with Some _ => true | None => false end.

Lemma ran m s : has_result m s = true -> m s = Some (tt, left_by m s).
Proof. unfold has_result, left_by. by destruct (m s) as [[[] s']|]. Qed.

Lemma steps_receives b s s' :
  listed s = true -> state s <> CAPWAP_IDLE_STATE -> ~ finished (state s) -> receives b s = Some (tt, s') ->
  rtc (session_step 3000) s s'.
Proof.
  intros Hl Hi Hf E1. eapply rtc_l; [by apply (step_packet 3000 (AcPacket false b))|]. apply rtc_once.
  eapply (step_turn 3000 sample_time sample_ac 0); [done|intros E2; apply Hf; by left|intros E2; apply Hf; by right|].
  revert E1. unfold receives, ac_session_add_packet, bind, gets, lift, update. by destruct (negb _).
Qed.

Lemma steps_executes a s s' :
  listed s = true -> state s <> CAPWAP_IDLE_STATE -> ~ finished (state s) -> executes a s = Some (tt, s') ->
  rtc (session_step 3000) s s'.
Proof.
  intros Hl Hi Hf E1. set (s1 := set_actions (actions s ++ [a]) s).
  assert (Ea : ac_session_send_action a s = Some (tt, s1)) by (unfold ac_session_send_action, bind, gets; by rewrite Hl).
  eapply rtc_l; [by apply (step_action 3000 a s s1)|]. apply rtc_once.
  eapply (step_turn 3000 sample_time sample_ac 0);
    [done|intros E2; apply Hf; by left|intros E2; apply Hf; by right|].
  revert E1. unfold executes, bind. by rewrite Ea.
Qed.

Ltac live := first [vm_compute; congruence | intros [H|H]; vm_compute in H; congruence].

Lemma sample_run_steps : rtc (session_step 3000) sample_start session_running.
Proof.
  transitivity session_begun.
  { apply rtc_once. apply (step_begin 3000 sample_time sample_ac); [reflexivity|]. apply ran. vm_compute. reflexivity. }
  transitivity session_joined.
  { apply (steps_receives join_request); [vm_compute; reflexivity|live|live|].
    apply ran. vm_compute. reflexivity. }
  transitivity session_configured.
  { apply (steps_receives configuration_request); [vm_compute; reflexivity|live|live|]. apply ran. vm_compute. reflexivity. }
  transitivity session_checked.
  { apply (steps_receives change_state_request); [vm_compute; reflexivity|live|live|]. apply ran. vm_compute. reflexivity. }
  apply (steps_executes AC_SESSION_ACTION_RECV_KEEPALIVE); [vm_compute; reflexivity|live|live|].
  apply ran. vm_compute. reflexivity.
Qed.

(** ** What was agreed before a session runs *)

(** C2: in every run of a session, whatever packets and actions the other threads
    add and whenever they ask it to end: a session past the Join state belongs to
    a WTP that the back end authorised, a session in the Run state has a data
    session in the kernel module and was confirmed by the back end, and the
    session is in the list of the controller exactly until it is torn down. *)
Theorem running_session_agreed `{Indeterminate} `{Target} `{CharSign} `{Environment} fuel c from to s :
  rtc (session_step fuel) (ac_create_session c from to) s ->
  (joined (state s) = true -> authorised s) /\
  (state s = CAPWAP_RUN_STATE -> data_session s /\ confirmed s) /\
  (listed s = true <-> ~ finished (state s)).
Proof.
  intros Hr. destruct (run_inv fuel _ s (create_inv c from to) Hr) as [Hl Ha Hd Hc].
  split_and!; [done| |done]. intros Hs. split; [apply Hd; by right|by apply Hc].
Qed.

Lemma running_session_agreed_witness :
  state session_running = CAPWAP_RUN_STATE /\ authorised session_running /\ confirmed session_running.
Proof.
  assert (Hs : state session_running = CAPWAP_RUN_STATE) by (vm_compute; reflexivity).
  destruct (@running_session_agreed zero_memory lp64 sample_char sample_env 3000 sample_controller sample_peer sample_local
    session_running sample_run_steps) as (Ha & Hr & _).
  split; [exact Hs|]. split; [apply Ha; rewrite Hs; reflexivity|]. apply Hr, Hs.
Defined.

(** C4: the session implements the state machine of the controller.  Each step of
    a run moves the session as the diagram allows or not at all; the state after
    Join is left for Data Check only by entering Configure and running its
    handler; and a session that runs came through Join, Configure, Data Check and
    the wait for the data channel, in this order. *)
Theorem session_refines_dfa `{Indeterminate} `{Target} `{CharSign} `{Environment} fuel c from to s :
  rtc (session_step fuel) (ac_create_session c from to) s ->
  (forall s', session_step fuel s s' ->
     state s' = state s \/ dfa_step (state s) (state s') \/
     state s = CAPWAP_POSTJOIN_STATE /\ state s' = CAPWAP_DATA_CHECK_STATE /\ through_configure fuel s s') /\
  (state s = CAPWAP_RUN_STATE -> went_through fuel (ac_create_session c from to) s).
Proof.
  intros Hr. split; [intros s'; apply step_dfa|]. intros Hs. apply run_went_through; try done.
Qed.

Lemma session_refines_dfa_witness :
  state session_running = CAPWAP_RUN_STATE /\ went_through 3000 sample_start session_running.
Proof.
  assert (Hs : state session_running = CAPWAP_RUN_STATE) by (vm_compute; reflexivity).
  split; [exact Hs|].
  apply (@session_refines_dfa zero_memory lp64 sample_char sample_env 3000 sample_controller sample_peer sample_local
    session_running sample_run_steps), Hs.
Defined.

(** ** A session in the Run state, for the witnesses *)

Definition sample_ready : ac_session_t :=
  set_state CAPWAP_RUN_STATE (set_wtpid (Some wtp_id) (set_binding 1 sample_start)).

Lemma sample_owners : @owners_ok lp64 sample_controller.
Proof.
  destruct (@hash_create_inv mac mac auth_hash _ AC_STATIONS_HASH_SIZE auth_sized) as [Hinv Hl].
  split; try done.
  - intros a. cbn [authstations owners sample_controller]. rewrite Hl, lookup_empty. split; by intros [? ?].
  - intros a b. cbn [owners sample_controller]. rewrite lookup_empty. by intros [? ?].
Qed.

Lemma sample_ready_fresh : @fresh_session lp64 sample_ready.
Proof.
  destruct (create_fresh sample_controller sample_peer sample_local sample_owners) as [[] ? ? ? ? ?]. by split.
Qed.

(** ** Retransmission *)

(** C13: a request that is never answered is sent again four times, and the fifth
    expiry of the timer ends the session: while nothing arrives, each turn of the
    thread that comes when the retransmission timer is due sends the request again
    and arms the timer for the next turn, until the fifth one takes the session out
    of the list of the controller, stops its timers and cancels the events that
    wait.  The packets of the request can be sent, and no other timer expires before
    the next retransmission. *)
Theorem retransmission_bounded `{Indeterminate} `{Target} `{CharSign} `{Environment} fuel ac stale_length others e times s :
  enough fuel -> unanswered others e s -> turns_due others e times -> length times = 5%nat -> retransmitcount s = 0 ->
  Forall (fun f => forall h, 0 < sendto h (datagram_of f)) (requestfragmentpacket s) ->
  exists s', turns fuel ac stale_length times s = Some (tt, s') /\ torn s s' /\ requestfragmentpacket s' = [] /\
    log s' = log s ++ concat (replicate 4 ((fun f => Send (datagram_of f)) <$> requestfragmentpacket s)) ++
             (if dtls_enable (dtls s) then [CloseCrypt] else []) ++ cancelled (notifyevent s).
Proof.
  intros Hf Hu Hd Ht Hn Hok. pose proof (un_open _ _ _ Hu) as Hopen. rewrite <-(resends_all 4 (dtls s) (log s)) by done.
  destruct (turns_retransmit fuel Hf ac stale_length others times e s (fun _ s' => torn s s' /\ requestfragmentpacket s' = [] /\
    log s' = log s ++ resends 4 (dtls s) (log s) (requestfragmentpacket s) ++
             (if dtls_enable (dtls s) then [CloseCrypt] else []) ++ cancelled (notifyevent s)) 4)
    as ([] & s' & E1 & HQ); [done..|by rewrite Hn| |by exists s'].
  intros t _. split_and!; [|done|].
  - split; try done; [apply Hu|]. cbn. rewrite <-app_assoc. by eexists.
  - cbn [log ended set_state set_idtimerkeepalivedead set_idtimercontrol with_timers set_wlans_of_session set_notifyevent
      set_log set_requestfragmentpacket set_retransmitcount dtls set_packets set_listed notifyevent]. by rewrite <-app_assoc.
Qed.

(** A request was sent at [sample_time], with the timers of the code. *)
Definition sample_unanswered : ac_session_t :=
  left_by (set_keepalive_timer 3 sample_time AC_MAX_DATA_KEEPALIVE_INTERVAL TeardownTimeout;; await_answer 3 sample_time true)
    (set_requestfragmentpacket [Fragment 16 16 (zeros 16)] sample_ready).

Lemma sample_unanswered_ok :
  @unanswered lp64 [TimeoutItem 2 AC_MAX_DATA_KEEPALIVE_INTERVAL (Timeval 1256 0) TeardownTimeout] (Timeval 1003 0) sample_unanswered.
Proof.
  assert (Hf : enough 3) by (unfold enough; lia). destruct sample_ready_fresh as [[Ht Hc Hk Hd] _ _ _ _ _].
  set (s := set_requestfragmentpacket [Fragment 16 16 (zeros 16)] sample_ready).
  destruct (@set_timer_total lp64 3 Hf sample_time (idtimerkeepalivedead s) AC_MAX_DATA_KEEPALIVE_INTERVAL TeardownTimeout s Ht Hk)
    as (t1 & E1 & Hok1 & _ & Hl1).
  set (s1 := set_retransmitcount 0 (with_timers t1 s)).
  destruct (@set_timer_total lp64 3 Hf sample_time (idtimercontrol s) AC_RETRANSMIT_INTERVAL RetransmitionTimeout s1 Hok1 Hc)
    as (t2 & E2 & Hok2 & _ & Hl2).
  assert (Es : sample_unanswered = with_timers t2 s1).
  { unfold sample_unanswered, left_by, set_keepalive_timer, await_answer, set_control_timer, bind, gets, update.
    fold s. rewrite E1. change (idtimercontrol (set_retransmitcount 0 (with_timers t1 s))) with (idtimercontrol s).
    fold s1. by rewrite E2. }
  rewrite Es. split; [by split|reflexivity|reflexivity|by change (CAPWAP_RUN_STATE <> CAPWAP_DTLS_TEARDOWN_STATE)|reflexivity
    |by change ([Fragment 16 16 (zeros 16)] <> [])|reflexivity|change (sendable [Fragment 16 16 (zeros 16)]); by repeat constructor|]. exists AC_RETRANSMIT_INTERVAL. cbn in Hl2 |- *. rewrite Hl2. cbn in Hl1. rewrite Hl1.
  reflexivity.
Qed.

Lemma retransmission_bounded_witness :
  exists s', @turns zero_memory lp64 sample_char sample_env 3 sample_ac 0
      [Timeval 1005 0; Timeval 1010 0; Timeval 1015 0; Timeval 1020 0; Timeval 1025 0] sample_unanswered = Some (tt, s') /\
    state s' = CAPWAP_DTLS_TEARDOWN_STATE /\ log s' = replicate 4 (Send (zeros 16)).
Proof.
  set (others := [TimeoutItem 2 AC_MAX_DATA_KEEPALIVE_INTERVAL (Timeval 1256 0) TeardownTimeout]).
  destruct (@retransmission_bounded zero_memory lp64 sample_char sample_env 3 sample_ac 0 others (Timeval 1003 0)
    [Timeval 1005 0; Timeval 1010 0; Timeval 1015 0; Timeval 1020 0; Timeval 1025 0] sample_unanswered)
    as (s' & E1 & Ht & _ & Hlog).
  - unfold enough. lia.
  - apply sample_unanswered_ok.
  - cbv [turns_due others]. split_and!; (done || (apply Forall_singleton; vm_compute; reflexivity) || (vm_compute; congruence)).
  - reflexivity.
  - vm_compute. reflexivity.
  - replace (requestfragmentpacket sample_unanswered) with [Fragment 16 16 (zeros 16)] by (vm_compute; reflexivity). repeat constructor.
  - exists s'. split; [exact E1|]. split; [apply Ht|]. rewrite Hlog. vm_compute. reflexivity.
Defined.
