(* ===== verification/AcAnswerProps.v ===== *)
(** How a session answers: packets to handlers, repeated requests, Echo, new
    networks, the end; and the messages on which it fails. *)
From stdpp Require Import option list gmap strings relations.
From S2P Require Import Prelude Io Header CapwapArray Bitfield Timeout TimeoutSpec CapwapHash CapwapHashSpec.
From S2P Require Import ElementsImage Elements80211a Element Tx TxSpec Rx Packet PacketInv PacketSpec Message Validate.
From S2P Require Import Base64 Json Ieee80211 AcJson.
From S2P Require Import AcWorld AcWlans AcSession AcActions AcDfaJoin AcDfaConfigure AcRun.
From S2P Require Import AcController AcInv AcNetwork AcFrame AcSessionSpec AcSessionTotal AcSessionMessage.
From S2P Require Import AcSessionWlan AcSessionProps.
#[local] Open Scope Z_scope.
#[local] Existing Instances zero_memory lp64 sample_char sample_env.

(** ** The end *)

(** C14: a session that was asked to end is torn down in its next turn, whatever
    packets, actions and timers wait for it, and its thread then ends: the back end
    is told, the data session is deleted, and no network and no station is left.
    This needs the tables in order ([session_ok]), which asks that no two of its
    stations share a bucket of the hash table: below the first two levels of a
    bucket the search does not end. *)
Theorem closed_session_ends `{Indeterminate} `{Target} `{CharSign} `{Environment} fuel now ac stale s :
  enough fuel -> armed s -> listed s = true -> running s = false -> ~ finished (state s) ->
  session_ok (wlans_of_session s) -> crowd_ok fuel (wlans_of_session s) -> radios_ok fuel (wlans_of_session s) ->
  out (wlans_of_session s) = [] ->
  exists s1 s2, session_turn fuel now ac stale s = Some (tt, s1) /\ torn s s1 /\ session_end fuel s1 = Some (tt, s2) /\
    state s2 = CAPWAP_DEAD_STATE /\ stations (wlans_of_session s2) = ∅ /\
    (forall q, wlan_at (wlans_of_session s2) q = None) /\
    log s2 = log s1 ++ (match wtpid s with Some id => [Soap "teardownWTPSession" [id]] | None => [] end) ++
             [KmodDeleteDataSession].
Proof.
  intros Hf Ha Hl Hr Hs [Hok Hset _] Hc Hra Ho.
  assert (E1 : exists t, session_turn fuel now ac stale s = Some (tt, ended t s) /\ timers_ok t /\
    timeoutbitfield t = timeoutbitfield (timeout (wlans_of_session s)) /\
    forall it, it ∈ itemstimeout t -> it ∈ itemstimeout (timeout (wlans_of_session s))).
  { destruct (teardown_total fuel Hf s (fun _ s' => exists t, s' = ended t s /\ timers_ok t /\
      timeoutbitfield t = timeoutbitfield (timeout (wlans_of_session s)) /\
      forall it, it ∈ itemstimeout t -> it ∈ itemstimeout (timeout (wlans_of_session s))))
      as ([] & s' & E1 & t & -> & Ht & Hb & Hi); [done|done|intros E2; apply Hs; by left| |].
    - intros t Ht Hb Hi. exists t. split_and!; [done..|]. intros it. rewrite Hi. intros Hin.
      by apply remove_timer_subset, remove_timer_subset in Hin.
    - exists t. split_and!; [|done..]. unfold session_turn, ac_network_read, bind, gets, ret. by rewrite Hr. }
  destruct E1 as (t & E1 & Ht & Hb & Hi).
  destruct (end_total fuel Hf (ended t s) (fun _ s' => exists w', s' = dead w' (ended t s) /\ stations w' = ∅ /\
    forall q, wlan_at w' q = None)) as ([] & s2 & E2 & w' & -> & Hst & Hq); try done.
  - by apply ok_fewer_timers.
  - intros w' _ ? ?. by exists w'.
  - eexists _, _. split; [exact E1|]. split; [by apply ended_torn|]. split; [exact E2|].
    split; [reflexivity|]. split; [exact Hst|].
    split; [exact Hq|]. by rewrite dead_log, ended_wtpid.
Qed.

Lemma closed_session_ends_witness :
  exists s1 s2, session_turn 3 sample_time sample_ac 0 (set_running false sample_ready) = Some (tt, s1) /\
    session_end 3 s1 = Some (tt, s2) /\ state s2 = CAPWAP_DEAD_STATE /\
    log s2 = log s1 ++ [Soap "teardownWTPSession" [wtp_id]; KmodDeleteDataSession].
Proof.
  destruct sample_ready_fresh as [[] ? ? ? He ?].
  destruct (@closed_session_ends zero_memory lp64 sample_char sample_env 3 sample_time sample_ac 0 (set_running false sample_ready))
    as (s1 & s2 & E1 & _ & E2 & Hs & _ & _ & Hlog).
  - unfold enough. lia.
  - split; assumption.
  - reflexivity.
  - reflexivity.
  - by intros [|].
  - split; [assumption|assumption|]. intros p x Hx. by rewrite He in Hx.
  - intros p x Hx. by rewrite He in Hx.
  - intros r. exists []. split; [cbn; lia|]. intros b. rewrite He. by intros [? ?].
  - assumption.
  - exists s1, s2. split; [exact E1|]. split; [exact E2|]. split; [exact Hs|exact Hlog].
Defined.

(** ** From the wire to the handler *)

(** C7: a control message of one packet, of a known type, with its mandatory
    elements and not a repetition, is taken from the queue, decoded, and given
    with its binding, its control header and its elements to the handler of the
    state, and nothing else of the session changes before.  The packet is one as
    the controller queues it: with DTLS it holds what the library decrypts to the
    message, and the decryption is logged; without DTLS it holds the message. *)
Theorem message_reaches_handler `{Indeterminate} `{Target} `{CharSign} `{Environment}
    b type seq mtu es msgs fuel now ac stale s p rest :
  message_fits b type seq mtu es -> known_type b type = true -> store_all [] es = Some msgs ->
  zlen (message_bytes es) < Z.of_nat fuel -> capwap_validate_parsed_packet msgs type b = 0 ->
  takes s p (ctrl_datagram b type seq es) rest ->
  capwap_is_request_type type && (remotetype s =? type) && (remoteseqnumber s =? seq) = false ->
  exists rx, session_turn fuel now ac stale s =
    bind (ac_dfa_execute fuel now ac (Parsed b (control_of type seq es) msgs)) (fun _ => update (set_rxmngpacket None))
      (set_rxmngpacket (Some rx) (taken p rest s)).
Proof. apply turn_delivers. Qed.

Definition echo_packet (seq : Z) : list Z := ctrl_datagram 1 CAPWAP_ECHO_REQUEST seq [].

Lemma echo_fits type seq mtu : is_u32 type -> is_u8 seq -> 16 <= fragment_size mtu 8 -> 24 <= mtu < 65536 ->
  message_fits 1 type seq mtu [].
Proof. intros. by split. Qed.

Lemma ready_takes seq :
  takes (set_packets [AcPacket false (echo_packet seq)] sample_ready) (AcPacket false (echo_packet seq)) (echo_packet seq) [].
Proof. split; try done. by right. Qed.

(** A session with DTLS after its handshake, and an Echo Request for it; the
    library of the sample leaves packets as they are. *)
Definition sample_secured (seq : Z) : ac_session_t :=
  set_packets [AcPacket false (echo_packet seq)] (set_dtls (Dtls true ActionData sample_local sample_peer) sample_ready).

Lemma secured_takes seq : takes (sample_secured seq) (AcPacket false (echo_packet seq)) (echo_packet seq) [].
Proof. split; try done. by right. Qed.

Lemma message_reaches_handler_witness :
  exists rx, session_turn 3 sample_time sample_ac 0 (set_packets [AcPacket false (echo_packet 9)] sample_ready) =
    bind (ac_dfa_execute 3 sample_time sample_ac (Parsed 1 (ControlMessage CAPWAP_ECHO_REQUEST 9 3 0) []))
      (fun _ => update (set_rxmngpacket None)) (set_rxmngpacket (Some rx) sample_ready).
Proof.
  destruct (@message_reaches_handler zero_memory lp64 sample_char sample_env 1 CAPWAP_ECHO_REQUEST 9 1400 [] [] 3
    sample_time sample_ac 0 _ _ [] (echo_fits CAPWAP_ECHO_REQUEST 9 1400 ltac:(split; done) ltac:(split; done) ltac:(done) ltac:(done))
    eq_refl eq_refl ltac:(reflexivity) eq_refl (ready_takes 9) eq_refl) as [rx E1].
  exists rx. rewrite E1. reflexivity.
Defined.

(** ** Answers *)

(** C29: a request with the type and the number of the last one answered is
    answered with the same packets, up to the first one that cannot be sent, and
    nothing else of the session changes, as long as the memory of the packet structure that was never written holds
    zeros; otherwise the release of that structure follows a pointer that was
    never set. *)
Theorem repeated_request_answered `{Indeterminate} `{Target} `{CharSign} `{Environment}
    b type seq mtu es fuel now ac stale s p rest :
  message_fits b type seq mtu es -> takes s p (ctrl_datagram b type seq es) rest ->
  capwap_is_request_type type = true -> remotetype s = type -> remoteseqnumber s = seq ->
  sendable (responsefragmentpacket s) ->
  (indet = 0 -> session_turn fuel now ac stale s =
     Some (tt, let s1 := taken p rest s in
               set_log (log s1 ++ (sent_of (dtls s) (log s1) (responsefragmentpacket s)).2) s1)) /\
  (indet <> 0 -> session_turn fuel now ac stale s = None).
Proof.
  intros Hfit Ht Hreq Hty Hseq Hsend. rewrite (turn_repeats b type seq mtu es fuel now ac stale s p rest) by done.
  split; intros Hi; [by rewrite Hi|]. by rewrite (proj2 (Z.eqb_neq _ _)).
Qed.

Definition sample_answered : ac_session_t :=
  set_remotetype CAPWAP_ECHO_REQUEST (set_remoteseqnumber 9
    (set_responsefragmentpacket [Fragment 16 16 (zeros 16)] (set_packets [AcPacket false (echo_packet 9)] sample_ready))).

Lemma repeated_request_answered_witness :
  exists s', session_turn 3 sample_time sample_ac 0 sample_answered = Some (tt, s') /\ packets s' = [] /\ log s' = [Send (zeros 16)].
Proof.
  destruct (@repeated_request_answered zero_memory lp64 sample_char sample_env 1 CAPWAP_ECHO_REQUEST 9 1400 [] 3
    sample_time sample_ac 0 sample_answered (AcPacket false (echo_packet 9)) []) as [E1 _].
  - apply echo_fits; done.
  - split; try done. by right.
  - reflexivity.
  - reflexivity.
  - reflexivity.
  - repeat constructor.
  - eexists. split; [exact (E1 eq_refl)|]. split; reflexivity.
Defined.

(** C22: in the Run state an Echo Request, which came encrypted when the session
    has DTLS, is answered by an Echo Response with its
    number when the back end confirms the session, the answer is kept for a
    repetition, and the session gets another interval; when the back end does
    not, the session is torn down. *)
Theorem echo_answered `{Indeterminate} `{Target} `{CharSign} `{Environment} b seq mtu fuel now ac stale s p rest w :
  let heard := log s ++ read_log (dtls s) p in
  enough fuel -> armed s -> listed s = true -> state s = CAPWAP_RUN_STATE -> wtpid s = Some w ->
  message_fits b CAPWAP_ECHO_REQUEST seq mtu [] -> message_fits b CAPWAP_ECHO_RESPONSE seq (session_mtu s) [] ->
  takes s p (ctrl_datagram b CAPWAP_ECHO_REQUEST seq []) rest -> plainbuffer p = false ->
  (remotetype s =? CAPWAP_ECHO_REQUEST) && (remoteseqnumber s =? seq) = false ->
  exists s', session_turn fuel now ac stale s = Some (tt, s') /\
    if match soap heard "checkWTPSession" [w] with Some r => answers_true r | None => false end then
      state s' = CAPWAP_RUN_STATE /\ packets s' = rest /\
      datagram_of <$> responsefragmentpacket s' = [ctrl_datagram b CAPWAP_ECHO_RESPONSE seq []] /\
      remotetype s' = CAPWAP_ECHO_REQUEST /\ remoteseqnumber s' = seq /\
      log s' = heard ++ [Soap "checkWTPSession" [w]; Send (ctrl_datagram b CAPWAP_ECHO_RESPONSE seq [])] /\
      TimeoutItem (idtimercontrol s) AC_MAX_ECHO_INTERVAL (capwap_timeout_setexpire AC_MAX_ECHO_INTERVAL now) TeardownTimeout
        ∈ itemstimeout (timeout (wlans_of_session s'))
    else torn s s'.
Proof.
  intros heard Hf Ha Hl Hs Hw Hreq Hresp Ht Hpl Hrep.
  pose proof (delivers_can_send _ _ _ _ Hpl (tk_read _ _ _ _ Ht)) as Hopen.
  destruct (turn_delivers b CAPWAP_ECHO_REQUEST seq mtu [] [] fuel now ac stale s p rest) as [rx E1]; try done.
  { change (zlen (message_bytes [])) with 0. unfold enough in Hf. lia. }
  apply wp_unit. eapply wp_turn; [exact E1|]. set (s1 := set_rxmngpacket _ _). eapply wp_same; [by apply execute_run|].
  eapply wp_same; [by apply run_echo|].
  destruct (match soap heard _ _ with Some r => answers_true r | None => false end) eqn:Hr.
  - destruct (soap heard "checkWTPSession" [w]) as [r|] eqn:Er; [|done].
    destruct (echo_total (Parsed b (control_of CAPWAP_ECHO_REQUEST seq []) []) s1 w r) as (f & Ef & E2); try done.
    wp_steps. eapply wp_eq; [exact E2|]. cbn [Z.eqb]. unfold set_echo_timer, set_control_timer. wp_steps.
    set (s2 := answered _ _ _). destruct Ha as [Hti Hc Hk Hd].
    destruct (set_timer_total fuel Hf now (idtimercontrol s) AC_MAX_ECHO_INTERVAL TeardownTimeout s2 Hti Hc) as (t & E3 & Hok & Hb & Hi).
    eapply wp_eq; [exact E3|]. split_and!; [done|done|by cbn; rewrite Ef|done|done| |].
    + change (log s2 = heard ++ [Soap "checkWTPSession" [w]; Send (ctrl_datagram b CAPWAP_ECHO_RESPONSE seq [])]).
      unfold s2. rewrite answered_log, Ef by done. cbn [log set_log]. by rewrite <-app_assoc.
    + change (TimeoutItem (idtimercontrol s) AC_MAX_ECHO_INTERVAL (capwap_timeout_setexpire AC_MAX_ECHO_INTERVAL now)
        TeardownTimeout ∈ itemstimeout t).
      rewrite Hi. unfold capwap_timeout_additem. rewrite additem_perm. by left.
  - wp_steps. eapply wp_eq; [by apply echo_refused|]. cbn [Z.eqb].
    apply (teardown_total fuel Hf); try done; [by destruct Ha|cbn; by rewrite Hs|]. intros t _ _ _.
    apply (torn_kept s s1); [by apply quiet_kept; split; try done; eexists|].
    set (s2 := set_log _ s1). apply (torn_kept s1 s2); [by split; [..|eexists]|].
    apply torn_reader. by apply ended_torn.
Qed.

Lemma echo_answered_witness :
  exists s', session_turn 3 sample_time sample_ac 0 (sample_secured 9) = Some (tt, s') /\
    log s' = [Decrypt (echo_packet 9); Soap "checkWTPSession" [wtp_id]; Send (ctrl_datagram 1 CAPWAP_ECHO_RESPONSE 9 [])].
Proof.
  destruct sample_ready_fresh as [[] _ _ _ _ _].
  destruct (@echo_answered zero_memory lp64 sample_char sample_env 1 9 1400 3 sample_time sample_ac 0
    (sample_secured 9) (AcPacket false (echo_packet 9)) [] wtp_id) as (s' & E1 & Hs).
  - unfold enough. lia.
  - split; assumption.
  - reflexivity.
  - reflexivity.
  - reflexivity.
  - apply echo_fits; done.
  - apply echo_fits; done.
  - apply secured_takes.
  - reflexivity.
  - reflexivity.
  - exists s'. split; [exact E1|]. destruct Hs as (_ & _ & _ & _ & _ & Hlog & _). exact Hlog.
Defined.

(** ** Networks *)

(** A network is added end to end.  The action sends a WLAN Configuration
    Request and keeps it; when the WTP answers it with success and a BSSID, the
    request is decoded again from what was kept, the kernel module and the
    session get the network with the settings of the action and the BSSID of the
    answer, and the request is forgotten. *)
Lemma network_added `{Indeterminate} `{Target} `{CharSign} `{Environment} fuel now now' ac stale s n bssid bytes rest :
  enough fuel -> can_add fuel s n bssid bytes [] -> notifyevent s = [] -> actions s = AC_SESSION_ACTION_ADDWLAN n :: rest ->
  exists s1 s1' s2,
    session_turn fuel now ac stale s = Some (tt, s1) /\
    log s1 = log s ++ [Send (addwlan_datagram s n)] /\
    ac_session_add_packet bytes false s1 = Some s1' /\ session_turn fuel now' ac stale s1' = Some (tt, s2) /\
    state s2 = CAPWAP_RUN_STATE /\ requestfragmentpacket s2 = [] /\ world_ok (wlans_of_session s2) /\
    log s2 = log s1 ++ read_log (dtls s) (AcPacket false bytes) ++ [KmodAddWlan (na_radioid n) (na_wlanid n) bssid (na_macmode n) (na_tunnelmode n)] /\
    exists x, ac_wlans_create_bssid (na_wlanid n) bssid (addwlan_data n) = Some x /\
      forall q, wlan_at (wlans_of_session s2) q =
        if bool_decide (q = (na_radioid n, bssid)) then Some x else wlan_at (wlans_of_session s) q.
Proof.
  intros Hf Hc Hn Ha. destruct (network_turns fuel now now' ac stale s n bssid bytes rest [] [] Hf Hc Ha) as
    (s1 & s1' & s2 & E1 & L1 & E2 & E3 & Hn2).
  - intros msgs s' _ Hn' _ _. rewrite noticed_nothing by congruence. apply notify_nothing. congruence.
  - destruct Hn2. exists s1, s1', s2. by split_and!.
Qed.

Definition sample_notify : ac_notify_addwlan_t := NotifyAddWlan 1 1 1 0 0 1 2 0 (chars "cap" ++ [0]).
Definition sample_bss : mac := [2; 0; 0; 0; 0; 1].

Definition sample_wlan_answer : list Z := wlan_answer_packet 0 sample_notify sample_bss.

Lemma sample_can_add told : can_add 3000 sample_ready sample_notify sample_bss sample_wlan_answer told.
Proof.
  destruct sample_ready_fresh as [? ? ? ? He ?]. split; try done.
  - split; try done. constructor; [|constructor]. split; [|done]. split_and!; try done. exists (chars "cap").
    split_and!; try done. repeat constructor; lia.
  - split; try done. constructor; [|constructor; [|constructor]]; split; done.
Qed.

Lemma sample_quiet : notifyevent sample_ready = [].
Proof. by destruct sample_ready_fresh. Qed.

Lemma network_added_witness :
  exists s1 s1' s2, session_turn 3000 sample_time sample_ac 0 (set_actions [AC_SESSION_ACTION_ADDWLAN sample_notify] sample_ready)
      = Some (tt, s1) /\
    ac_session_add_packet sample_wlan_answer false s1 = Some s1' /\ session_turn 3000 sample_time sample_ac 0 s1' = Some (tt, s2) /\
    is_Some (wlan_at (wlans_of_session s2) (1, sample_bss)).
Proof.
  destruct (@network_added zero_memory lp64 sample_char sample_env 3000 sample_time sample_time sample_ac 0
    (set_actions [AC_SESSION_ACTION_ADDWLAN sample_notify] sample_ready) sample_notify sample_bss sample_wlan_answer [])
    as (s1 & s1' & s2 & E1 & _ & E2 & E3 & _ & _ & _ & _ & x & _ & Hq).
  - unfold enough. lia.
  - destruct (sample_can_add []) as [? ? ? [] ? ? ? ? ? ? ? ? ? ? ? ? ? ? ?]. by split.
  - exact sample_quiet.
  - reflexivity.
  - exists s1, s1', s2. split; [exact E1|]. split; [exact E2|]. split; [exact E3|]. rewrite Hq. by eexists.
Defined.

(** ** Messages on which a session fails *)

(** In the Data Check state every message is taken for a Change State Event
    Request, without a look at its type: an Echo Request, which the validation
    accepts without elements, makes the controller follow a null pointer. *)
Lemma echo_in_data_check_fails `{Indeterminate} `{Target} `{CharSign} `{Environment} b seq mtu fuel now ac stale s p rest :
  state s = CAPWAP_DATA_CHECK_STATE -> message_fits b CAPWAP_ECHO_REQUEST seq mtu [] -> (0 < fuel)%nat ->
  takes s p (ctrl_datagram b CAPWAP_ECHO_REQUEST seq []) rest ->
  (remotetype s =? CAPWAP_ECHO_REQUEST) && (remoteseqnumber s =? seq) = false ->
  session_turn fuel now ac stale s = None.
Proof.
  intros Hs Hfit Hf Ht Hrep.
  destruct (turn_delivers b CAPWAP_ECHO_REQUEST seq mtu [] [] fuel now ac stale s p rest) as [rx E1]; try done.
  { change (zlen (message_bytes [])) with 0. lia. }
  rewrite E1. unfold bind at 1, ac_dfa_execute. erewrite bind_some; [|reflexivity]. set (s1 := set_rxmngpacket _ _).
  change (state s1) with (state s). rewrite Hs.
  change (match ac_dfa_state_datacheck fuel now (Parsed b (control_of CAPWAP_ECHO_REQUEST seq []) []) s1 with
    | Some (_, s2) => update (set_rxmngpacket None) s2 | None => None end = None).
  unfold ac_dfa_state_datacheck. erewrite bind_some; [|reflexivity]. unfold bind at 1, lift at 1. by destruct (create_ctrl_message _ _ _ _).
Qed.

Lemma echo_in_data_check_fails_witness :
  session_turn 3 sample_time sample_ac 0
    (set_packets [AcPacket false (echo_packet 9)] (set_state CAPWAP_DATA_CHECK_STATE sample_ready)) = None.
Proof.
  apply (@echo_in_data_check_fails zero_memory lp64 sample_char sample_env 1 9 1400 3 sample_time sample_ac 0
    (set_packets [AcPacket false (echo_packet 9)] (set_state CAPWAP_DATA_CHECK_STATE sample_ready))
    (AcPacket false (echo_packet 9)) []).
  - reflexivity.
  - apply echo_fits; done.
  - lia.
  - split; try done. by right.
  - reflexivity.
Defined.

Lemma run_station_response `{Indeterminate} `{Target} `{Environment} fuel now packet s :
  cm_type (pp_ctrlmsg packet) = CAPWAP_STATION_CONFIGURATION_RESPONSE -> requestfragmentpacket s = [] ->
  cm_seq (pp_ctrlmsg packet) = localseqnumber s -> ac_dfa_state_run fuel now packet s = None.
Proof.
  intros Hty Hn Hseq. unfold ac_dfa_state_run, run_message. rewrite Hty. erewrite bind_some; [|reflexivity].
  rewrite Hseq, Z.eqb_refl. set (s1 := set_localseqnumber (wrap8 (localseqnumber s + 1)) s).
  change (bind (receive_ieee80211_station_configuration_response fuel packet) (fun _ => set_echo_timer fuel now) s1 = None).
  unfold receive_ieee80211_station_configuration_response, pending_request, bind, gets.
  change (requestfragmentpacket s1) with (requestfragmentpacket s). by rewrite Hn.
Qed.

(** In the Run state a Station Configuration Response with the next number,
    when no request waits for an answer, makes the controller follow the null
    pointer of the request. *)
Lemma unsolicited_station_response_fails `{Indeterminate} `{Target} `{CharSign} `{Environment}
    b code mtu fuel now ac stale s p rest :
  state s = CAPWAP_RUN_STATE -> requestfragmentpacket s = [] ->
  message_fits b CAPWAP_STATION_CONFIGURATION_RESPONSE (localseqnumber s) mtu [resultcode_element code] ->
  zlen (message_bytes [resultcode_element code]) < Z.of_nat fuel ->
  takes s p (ctrl_datagram b CAPWAP_STATION_CONFIGURATION_RESPONSE (localseqnumber s) [resultcode_element code]) rest ->
  session_turn fuel now ac stale s = None.
Proof.
  intros Hs Hn Hfit Hf Ht.
  destruct (turn_delivers b CAPWAP_STATION_CONFIGURATION_RESPONSE (localseqnumber s) mtu [resultcode_element code]
    _ fuel now ac stale s p rest Hfit eq_refl eq_refl Hf eq_refl Ht eq_refl) as [rx E1].
  rewrite E1. unfold bind at 1. rewrite execute_run by exact Hs. by rewrite run_station_response.
Qed.

Definition sample_station_packet : list Z := ctrl_datagram 1 CAPWAP_STATION_CONFIGURATION_RESPONSE 0 [resultcode_element 0].

Lemma unsolicited_station_response_fails_witness :
  session_turn 3000 sample_time sample_ac 0 (set_packets [AcPacket false sample_station_packet] sample_ready) = None.
Proof.
  apply (@unsolicited_station_response_fails zero_memory lp64 sample_char sample_env 1 0 1400 3000 sample_time sample_ac 0
    (set_packets [AcPacket false sample_station_packet] sample_ready) (AcPacket false sample_station_packet) []).
  - reflexivity.
  - reflexivity.
  - split; try done. constructor; [|constructor]. split; done.
  - done.
  - split; try done. by right.
Defined.
