(* ===== verification/AcBackendProps.v ===== *)
(** The documents exchanged with the back end, and the main thread of the
    controller: what is written is read back within its buffer, when it is not,
    and where each packet goes. *)
From stdpp Require Import option list gmap strings.
From S2P Require Import Prelude Io Header CapwapArray Timeout CapwapHash ElementsAcList ElementsAc.
From S2P Require Import ElementsImage Elements80211b Element Tx TxSpec Rx Packet PacketInv PacketSpec Message Validate.
From S2P Require Import Base64 Json Ieee80211 AcJson AcWorld AcWlans AcSession AcActions AcRun AcController.
From S2P Require Import AcSessionSpec AcSessionTotal AcSessionMessage.
#[local] Open Scope Z_scope.
#[local] Existing Instances zero_memory lp64 sample_char sample_env.

(** ** Documents *)

(** C30: a document that the controller prints and encodes for the back end is,
    as the text of an answer, decoded into the same printed document, inside of
    the buffer that is allocated for it.  The printed document must not be empty;
    where [char] is unsigned it may hold any bytes but NUL, and where [char] is
    signed it must be ASCII, since the encoder takes a byte from 128 on for a
    negative place of its table. *)
Theorem document_read_back `{CharSign} `{Environment} {P} j (s : P) :
  let text := json_object_to_json_string j in
  chars_ok text -> plain_ok text -> text <> [] ->
  exists param, json_param j = Some param /\ chars_ok param /\
    ac_soapclient_parse_json_response (SoapResponse HTTP_RESULT_OK (Some (Some param))) s =
      Some (json_tokener_parse text, s).
Proof.
  intros text Hc Hp Hne. destruct (binary_roundtrip (length text) text [] Hp (le_n _)) as (e & Ee & He & Hl & Hd).
  assert (Hce : chars_ok e) by (apply (Forall_impl _ _ _ He); lia).
  assert (Hz : zlen (e ++ [0]) = zlen e + 1) by (rewrite length_app; cbn; lia).
  assert (Hpos : 0 < zlen text) by (destruct text; [done|cbn; lia]).
  exists e. split_and!; [|done|].
  - unfold json_param, ac_base64_string_encode, ac_base64_binary_encode. fold text.
    rewrite strlen_terminated by done. rewrite Nat2Z.id, Ee.
    change (Some (cstr (e ++ [0])) = Some e). by rewrite cstr_terminated.
  - unfold ac_soapclient_parse_json_response. cbn [responsecode xmlResponseReturn]. rewrite Z.eqb_refl. cbn [negb].
    rewrite strlen_terminated by done. rewrite (proj2 (Z.eqb_neq _ _)) by (Z.div_mod_to_equations; lia).
    assert (Hdec : ac_base64_string_decode (e ++ [0]) = text ++ [0]).
    { unfold ac_base64_string_decode, ac_base64_binary_decode. rewrite strlen_terminated, Nat2Z.id, take_app_length by done.
      by rewrite Hd. }
    rewrite Hdec. erewrite bind_some; [|apply guard_true, Z.leb_le; unfold AC_BASE64_DECODE_LENGTH; rewrite length_app; cbn;
      Z.div_mod_to_equations; lia]. by rewrite cstr_terminated.
Qed.

Lemma document_read_back_witness :
  exists param, json_param (JObject []) = Some param /\
    ac_soapclient_parse_json_response (SoapResponse HTTP_RESULT_OK (Some (Some param))) sample_start =
      Some (Some (JObject []), sample_start).
Proof.
  destruct (@document_read_back sample_char sample_env ac_session_t (JObject []) sample_start) as (param & E1 & _ & E2).
  - by repeat constructor.
  - by repeat constructor.
  - discriminate.
  - exists param. split; [exact E1|exact E2].
Defined.

(** ** Texts that are too short *)

(** The number of bytes in [n] characters of the alphabet. *)
Definition decoded_length (n : nat) : nat := n / 4 * 3 + (n mod 4 - 1).

Lemma next_letter `{CharSign} c rest : decode_char c <> 0 -> next_element (c :: rest) = (decode_char c, rest).
Proof. intros Hc. cbn. by rewrite (proj2 (Z.eqb_neq _ _)). Qed.

Lemma decode_letters `{CharSign} e : Forall (fun c => decode_char c <> 0) e -> forall n,
  length (decode_elements n e).1 = (n `min` length e)%nat /\ (decode_elements n e).2 = drop n e.
Proof.
  induction 1 as [|c e Hc _ IH]; intros [|n]; try done. cbn [decode_elements].
  rewrite next_letter, (proj2 (Z.eqb_neq _ _)) by done. specialize (IH n). destruct (decode_elements n e) as [codes rest].
  cbn in *. destruct IH as [-> ->]. done.
Qed.

Lemma length_decoded `{CharSign} fuel : forall e,
  Forall (fun c => decode_char c <> 0) e -> (length e <= fuel)%nat ->
  length (binary_decode fuel e) = decoded_length (length e).
Proof.
  induction fuel as [|fuel IH]; intros e He Hf; [by destruct e; [|cbn in Hf; lia]|].
  destruct e as [|c e]; [done|]. cbn [binary_decode]. destruct (decode_letters (c :: e) He 4) as [Hl Hr].
  destruct (decode_elements 4 (c :: e)) as [codes rest]. cbn [fst snd] in Hl, Hr. subst rest.
  rewrite length_app, IH; [|by apply Forall_drop|rewrite length_drop; cbn [length] in *; lia].
  unfold decode_block. rewrite length_take, length_drop, Hl. cbn [length] in *. set (n := length e) in *. clearbody n.
  unfold decoded_length. destruct (decide (4 <= S n)%nat) as [H4|H4].
  - assert (exists m, S n = m + 1 * 4)%nat as [m ->] by (exists (S n - 4)%nat; lia).
    rewrite (Nat.min_l 4) by lia. replace (m + 1 * 4 - 4)%nat with m by lia. rewrite Nat.div_add, Nat.Div0.mod_add by lia. lia.
  - rewrite (Nat.min_r 4) by lia. replace (S n - 4)%nat with 0%nat by lia.
    rewrite (Nat.div_small (S n)), (Nat.mod_small (S n)) by lia. cbn. lia.
Qed.

(** An answer of the back end whose text is two or three characters of the
    alphabet longer than a whole number of groups, without the padding, is
    decoded past the end of the buffer that is allocated for it. *)
Lemma unpadded_document_overruns `{CharSign} `{Environment} {P} text (s : P) :
  chars_ok text -> Forall (fun c => decode_char c <> 0) text -> (2 <= length text mod 4)%nat ->
  ac_soapclient_parse_json_response (SoapResponse HTTP_RESULT_OK (Some (Some text))) s = None.
Proof.
  intros Hc Hd Hm. unfold ac_soapclient_parse_json_response. cbn [responsecode xmlResponseReturn]. rewrite Z.eqb_refl. cbn [negb].
  rewrite strlen_terminated by done. destruct text as [|c text]; [cbn in Hm; lia|]. set (t := c :: text) in *.
  rewrite (proj2 (Z.eqb_neq _ _)) by (cbn; lia).
  assert (Hl : length (ac_base64_string_decode (t ++ [0])) = S (decoded_length (length t))).
  { unfold ac_base64_string_decode, ac_base64_binary_decode. rewrite strlen_terminated, Nat2Z.id, take_app_length by done.
    rewrite length_app, length_decoded by done. cbn. lia. }
  rewrite Hl. unfold decoded_length, AC_BASE64_DECODE_LENGTH, bind, guard, lift.
  rewrite (proj2 (Z.leb_gt _ _)); [done|]. pose proof (Nat.div_mod_eq (length t) 4).
  assert (Z.of_nat (length t) / 4 = Z.of_nat (length t / 4)) as -> by (by rewrite Nat2Z.inj_div). lia.
Qed.

Lemma unpadded_document_overruns_witness :
  ac_soapclient_parse_json_response (SoapResponse HTTP_RESULT_OK (Some (Some (chars "e30")))) sample_start = None.
Proof.
  apply (@unpadded_document_overruns sample_char sample_env ac_session_t (chars "e30") sample_start).
  - by repeat constructor.
  - by repeat constructor.
  - cbn. lia.
Defined.

(** ** The main thread *)

Definition peer (s : ac_session_t) : sockaddr_capwap := peeraddr (dtls s).

(** An address of a packet that was received. *)
Definition is_inet (a : sockaddr_capwap) : Prop := a <> OtherFamily.

Lemma compare_ip_eq a b : is_inet a -> capwap_compare_ip a b = 0 <-> a = b.
Proof.
  intros Ha. destruct a as [x p|x p|], b as [y q|y q|]; cbn; try (split; congruence); try done.
  all: split; [|by intros [= -> ->]; rewrite bool_decide_true, Z.eqb_refl].
  all: case_bool_decide; [|done]; destruct (Z.eqb_spec p q); [congruence|done].
Qed.

Lemma search_spec from l :
  is_inet from ->
  match ac_search_session_from_wtpaddress from l with
  | Some i => exists s, l !! i = Some s /\ peer s = from
  | None => from ∉ peer <$> l
  end.
Proof.
  intros Hf. induction l as [|s l IH]; cbn [ac_search_session_from_wtpaddress]; [apply not_elem_of_nil|].
  destruct (Z.eqb_spec (capwap_compare_ip from (peeraddr (dtls s))) 0) as [E1|E1].
  - exists s. split; [done|]. symmetry. by apply (compare_ip_eq from).
  - rewrite compare_ip_eq in E1 by done.
    destruct (ac_search_session_from_wtpaddress from l) as [i|]; cbn; [exact IH|].
    apply not_elem_of_cons. split; [exact E1|done].
Qed.

(** Not more sessions than WTPs allowed, and one for each address. *)
Record controller_ok (c : controller) : Prop := ControllerOk {
  co_bound : zlen (sessions c) <= AcDescriptor.maxwtp (descriptor (ac_of c));
  co_distinct : NoDup (peer <$> sessions c)
}.

Lemma ok_same_sessions c c' :
  controller_ok c -> ac_of c' = ac_of c -> peer <$> sessions c' = peer <$> sessions c -> controller_ok c'.
Proof.
  intros [Hb Hd] Ha Hp. split; rewrite ?Ha, ?Hp; [|done].
  apply (f_equal length) in Hp. rewrite !length_fmap in Hp. by rewrite Hp.
Qed.

Lemma ok_new_session c s :
  controller_ok c -> zlen (sessions c) < AcDescriptor.maxwtp (descriptor (ac_of c)) -> peer s ∉ peer <$> sessions c ->
  controller_ok (add_session s c).
Proof.
  intros [Hb Hd] Hr Hn. split; cbn [sessions add_session ac_of].
  - rewrite length_app. cbn. lia.
  - rewrite fmap_app. apply NoDup_app. split_and!; [done| |apply NoDup_singleton].
    intros a Ha ->%list_elem_of_singleton. done.
Qed.

(** The session made for a packet whose sender has none. *)
Definition new_session_for (b : list Z) (from : sockaddr_capwap) (s : ac_session_t) : Prop :=
  peer s = from /\ packet_buffer <$> packets s = [b] /\ state s = CAPWAP_IDLE_STATE /\ listed s = true.

Lemma create_added `{Indeterminate} b plain c from to :
  0 < zlen b ->
  exists s, ac_session_add_packet b plain (ac_create_session c from to) = Some s /\ new_session_for b from s.
Proof.
  intros Hb. unfold ac_session_add_packet. rewrite (proj2 (Z.ltb_lt _ _)) by done. cbn [negb]. eexists. split; [done|].
  unfold ac_create_session. destruct (capwap_timeout_createtimer _) as [i t]. by destruct (capwap_timeout_createtimer t) as [j t'].
Qed.

Lemma unknown_sender_spec `{Indeterminate} b from to c :
  1 < zlen b -> is_u16 (AcDescriptor.maxwtp (descriptor (ac_of c))) -> controller_ok c ->
  exists c', unknown_sender b from to c = Some c' /\ ac_of c' = ac_of c /\
  (sessions c' = sessions c \/
   zlen (sessions c) < AcDescriptor.maxwtp (descriptor (ac_of c)) /\
   exists s, c' = add_session s c /\ new_session_for b from s).
Proof.
  intros Hz Hm [Hb _]. unfold unknown_sender. rewrite wrap16_small by lia.
  destruct (Z.ltb_spec (zlen (sessions c)) (AcDescriptor.maxwtp (descriptor (ac_of c)))) as [Hr|]; cbn [negb]; [|by exists c; auto].
  destruct (capwap_sanity_check _ _ _) as [check|] eqn:Ec.
  2:{ unfold capwap_sanity_check, sizeof_capwap_preamble in Ec. by rewrite (proj2 (Z.ltb_lt _ _)) in Ec. }
  obind.
  assert (Hnew : forall plain, exists c', (s ← ac_session_add_packet b plain (ac_create_session c from to); Some (add_session s c))
    = Some c' /\ ac_of c' = ac_of c /\ exists s, c' = add_session s c /\ new_session_for b from s).
  { intros plain. destruct (create_added b plain c from to) as (s & Es & Hs); [lia|]. rewrite Es. obind. eexists. split; [done|].
    split; [done|]. by exists s. }
  destruct (_ =? CAPWAP_PLAIN_PACKET); [destruct (control_type b) as [ty|]; [|by exists c; auto]|].
  - destruct (ty =? CAPWAP_DISCOVERY_REQUEST); [eexists; split; [done|]; split; [done|by left]|].
    destruct (_ && _); [|by exists c; auto]. destruct (Hnew true) as (c' & E1 & E2 & E3). exists c'. auto.
  - destruct (_ =? CAPWAP_DTLS_PACKET); [|by exists c; auto].
    destruct (capwap_crypt_has_dtls_clienthello _); [|by exists c; auto].
    destruct (Hnew false) as (c' & E1 & E2 & E3). exists c'. auto.
Qed.

(** C12: a packet of two bytes or more goes to the session of its sender, at the
    end of its queue, and to no other; a packet of another sender makes a session
    only while there are fewer sessions than WTPs allowed, and the session starts
    with that packet.  The controller never has more sessions than WTPs allowed,
    nor two sessions for one address. *)
Theorem packet_dispatched `{Indeterminate} b from to c :
  1 < zlen b -> is_u16 (AcDescriptor.maxwtp (descriptor (ac_of c))) -> is_inet from -> controller_ok c ->
  exists c', ac_dfa_process_packet b from to c = Some c' /\ controller_ok c' /\
  ((exists i s, sessions c !! i = Some s /\ peer s = from /\
      sessions c' = <[i := set_packets (packets s ++ [AcPacket false b]) s]> (sessions c)) \/
   ((from ∉ (peer <$> sessions c)) /\
    (sessions c' = sessions c \/ exists s, sessions c' = sessions c ++ [s] /\ new_session_for b from s))).
Proof.
  intros Hz Hm Hf Hok. unfold ac_dfa_process_packet. pose proof (search_spec from (sessions c) Hf) as Hs.
  destruct (ac_search_session_from_wtpaddress from (sessions c)) as [i|].
  - destruct Hs as (s & Es & Hp). rewrite Es. unfold ac_session_add_packet. rewrite (proj2 (Z.ltb_lt _ _)) by lia. cbn [negb].
    obind. eexists. split; [done|]. split; [|left; by exists i, s].
    eapply ok_same_sessions; [exact Hok|done|]. cbn [sessions set_sessions].
    apply list_eq. intros k. rewrite !list_lookup_fmap. destruct (decide (k = i)) as [->|Hk].
    + rewrite list_lookup_insert_eq by (by eapply lookup_lt_Some). by rewrite Es.
    + by rewrite list_lookup_insert_ne.
  - destruct (unknown_sender_spec b from to c Hz Hm Hok) as (c' & E1 & Ha & Hc). exists c'. split; [done|].
    destruct Hc as [Hc|(Hr & s & Hc & Hn)].
    + split; [|right; split; [done|by left]]. eapply ok_same_sessions; [exact Hok|done|by rewrite Hc].
    + rewrite Hc. split; [apply ok_new_session; try done; by destruct Hn as [-> _]|]. right. split; [done|right]. by exists s.
Qed.

Lemma packet_dispatched_witness :
  exists c s, ac_dfa_process_packet join_request sample_peer sample_local sample_controller = Some c /\
    sessions c = [s] /\ packets s = [AcPacket true join_request].
Proof.
  assert (Hp : (fun c => packets <$> sessions c) <$> ac_dfa_process_packet join_request sample_peer sample_local sample_controller =
      Some [[AcPacket true join_request]]) by (vm_compute; reflexivity).
  destruct (@packet_dispatched zero_memory join_request sample_peer sample_local sample_controller) as (c & Ec & _ & [H|[_ [H|H]]]).
  - vm_compute. reflexivity.
  - split; done.
  - done.
  - split; [done|constructor].
  - exfalso. destruct H as (i & s & Hs & _). done.
  - exfalso. rewrite Ec in Hp. injection Hp as Hp. rewrite H in Hp. discriminate Hp.
  - destruct H as (s & Hs & _). exists c, s. split; [exact Ec|]. split; [exact Hs|].
    rewrite Ec in Hp. injection Hp as Hp. rewrite Hs in Hp. injection Hp as Hp. exact Hp.
Defined.

(** An empty datagram, which the reader of the control socket passes on, fails an
    assertion: in the queue of the session of its sender, or in the check of its
    first bytes. *)
Lemma empty_datagram_asserted `{Indeterminate} from to c :
  wrap16 (zlen (sessions c)) < AcDescriptor.maxwtp (descriptor (ac_of c)) -> ac_dfa_process_packet [] from to c = None.
Proof.
  intros Hr. unfold ac_dfa_process_packet, unknown_sender. rewrite (proj2 (Z.ltb_lt _ _)) by done.
  destruct (ac_search_session_from_wtpaddress from (sessions c)) as [i|]; [|done]. by destruct (sessions c !! i).
Qed.

(** ** Discovery *)

Lemma discovery_read `{Indeterminate} fuel b seq mtu es msgs :
  message_fits b CAPWAP_DISCOVERY_REQUEST seq mtu es -> store_all [] es = Some msgs ->
  zlen (message_bytes es) < Z.of_nat fuel -> capwap_validate_parsed_packet msgs CAPWAP_DISCOVERY_REQUEST b = 0 ->
  discovery_message fuel (ctrl_datagram b CAPWAP_DISCOVERY_REQUEST seq es) =
    Some (Some (Parsed b (control_of CAPWAP_DISCOVERY_REQUEST seq es) msgs)).
Proof.
  intros Hreq Hst Hfuel Hv.
  destruct (datagram_complete b CAPWAP_DISCOVERY_REQUEST seq mtu es Hreq) as (_ & rx & R1 & R2 & R3).
  destruct (datagram_received b CAPWAP_DISCOVERY_REQUEST seq mtu es msgs fuel rx Hreq eq_refl Hst Hfuel R1 R2 R3) as (R4 & R5 & rx' & R6).
  unfold discovery_message. rewrite R1. obind. rewrite R5. cbn match. rewrite R6. cbn [value_of]. obind.
  rewrite R4, R2. cbn [cm_type control_of]. by rewrite Hv.
Qed.

(** The control addresses of the controller, each with the number of sessions. *)
Definition control_addresses (ac : ac_t) (count : Z) : list message_element :=
  concat ((fun a => match a with
    | Inet x _ => [element K_controlipv4 (ControlIPv4.Build_capwap_controlipv4_element x count)]
    | Inet6 x _ => [element K_controlipv6 (ControlIPv6.Build_capwap_controlipv6_element x count)]
    | OtherFamily => []
    end) <$> addrlist ac).

(** What a Discovery Response tells: the descriptor with no stations and the
    number of sessions, the name, for 802.11 the radios of the request, and the
    control addresses. *)
Definition response_elements (ac : ac_t) (count b : Z) (es : list message_element) : list message_element :=
  let d := descriptor ac in
  [element K_acdescriptor (AcDescriptor.Build_capwap_acdescriptor_element 0 (AcDescriptor.stationlimit d) count
     (AcDescriptor.maxwtp d) (AcDescriptor.security d) (AcDescriptor.rmacfield d) (AcDescriptor.dtlspolicy d)
     (AcDescriptor.descsubelement d));
   element K_acname (acname ac)] ++
  (if decide (b = CAPWAP_WIRELESS_BINDING_IEEE80211) then of_kind K_80211_wtpradioinformation es else []) ++
  control_addresses ac count.

(** The data of the elements of a kind, wrapped again. *)
Lemma data_of_kind k (l : list message_element) : Forall (fun e => projT1 e = k) l -> element k <$> omap (data_of k) l = l.
Proof.
  induction 1 as [|[k' d] l Hk _ IH]; [done|]. cbn in Hk. subst k'. cbn. rewrite data_of_element. cbn. by f_equal.
Qed.

Lemma discovery_elements_spec `{Indeterminate} ac count b es msgs c :
  is_u16 count -> store_all [] es = Some msgs -> capwap_validate_parsed_packet msgs CAPWAP_DISCOVERY_REQUEST b = 0 ->
  discovery_elements ac count (Parsed b c msgs) = Some (response_elements ac count b es).
Proof.
  intros Hn Hst Hv. unfold discovery_elements, response_elements. cbn [pp_binding pp_messages].
  assert (Hc : (ac_get_control_information ac count ≫= control_element) = control_addresses ac count).
  { unfold ac_get_control_information, control_addresses. rewrite wrap16_small by lia.
    induction (addrlist ac) as [|a l IH]; [done|]. rewrite !fmap_cons, bind_cons, IH. by destruct a. }
  assert (Hd : ac_update_statistics ac count = AcDescriptor.Build_capwap_acdescriptor_element 0
    (AcDescriptor.stationlimit (descriptor ac)) count (AcDescriptor.maxwtp (descriptor ac)) (AcDescriptor.security (descriptor ac))
    (AcDescriptor.rmacfield (descriptor ac)) (AcDescriptor.dtlspolicy (descriptor ac)) (AcDescriptor.descsubelement (descriptor ac))).
  { unfold ac_update_statistics. by rewrite wrap16_small by lia. }
  rewrite Hc, Hd. case_decide as Hb; [|by rewrite (proj2 (Z.eqb_neq _ _) Hb)]. subst b. rewrite Z.eqb_refl.
  pose proof (store_all_collected [] es msgs K_80211_wtpradioinformation Hst) as Hr. unfold collected at 1 in Hr.
  unfold all_of. destruct (capwap_get_message_element_data msgs (kind_id K_80211_wtpradioinformation)) as [l|] eqn:El.
  - obind. assert (Hl : l = of_kind K_80211_wtpradioinformation es) by exact Hr. rewrite data_of_kind; [by rewrite Hl|].
    rewrite Hl. unfold of_kind. apply Forall_forall. intros e He. by apply list_elem_of_filter in He as [? _].
  - exfalso. unfold capwap_get_message_element_data in El. apply fmap_None in El.
    unfold capwap_validate_parsed_packet in Hv. cbn in Hv.
    assert (Hh : has msgs K_80211_wtpradioinformation = false) by (unfold has; by rewrite El).
    by rewrite Hh, andb_false_r in Hv.
Qed.

(** C28: a Discovery Request with its mandatory elements is answered, to its
    sender, by a Discovery Response with its number, which carries the descriptor
    with the number of sessions, the name, the radios of the request and the
    control addresses of the controller; a request for a binding that the
    controller does not serve is ignored.  Request and response are of one packet
    each. *)
Theorem discovery_answered `{Indeterminate} (E : Environment) fuel ac count from b seq mtu es msgs d :
  message_fits b CAPWAP_DISCOVERY_REQUEST seq mtu es -> store_all [] es = Some msgs ->
  zlen (message_bytes es) < Z.of_nat fuel -> capwap_validate_parsed_packet msgs CAPWAP_DISCOVERY_REQUEST b = 0 ->
  is_u16 count -> message_fits b CAPWAP_DISCOVERY_RESPONSE seq (ac_mtu ac) (response_elements ac count b es) ->
  ac_discovery_turn E fuel ac count (DiscoveryPacket from (ctrl_datagram b CAPWAP_DISCOVERY_REQUEST seq es)) d =
    if ac_valid_binding ac b
    then Some (Discovery (d_fragmentid d)
           (d_sent d ++ [(from, ctrl_datagram b CAPWAP_DISCOVERY_RESPONSE seq (response_elements ac count b es))]))
    else Some d.
Proof.
  intros Hreq Hst Hfuel Hv Hn Hresp.
  pose proof (discovery_elements_spec ac count b es msgs (control_of CAPWAP_DISCOVERY_REQUEST seq es) Hn Hst Hv) as Hels.
  destruct (message_built b CAPWAP_DISCOVERY_RESPONSE seq (ac_mtu ac) _ Hresp) as (tx & tx' & f & E1 & E2 & E3 & E4 & E5).
  unfold ac_discovery_turn. cbn [discovery_data]. rewrite (discovery_read fuel b seq mtu es msgs) by done.
  unfold ac_create_discovery_response. obind. cbn [pp_binding pp_ctrlmsg cm_seq control_of].
  destruct (ac_valid_binding ac b); [|done]. cbn [negb].
  rewrite E1. obind. fold (control_of CAPWAP_DISCOVERY_REQUEST seq es). rewrite Hels. obind.
  rewrite E2. obind. rewrite E3. change (1 <? zlen [f]) with false. cbn [capwap_sendto_fragmentpacket].
  rewrite (proj2 (Z.leb_gt _ _)) by done. fold (datagram_of f). rewrite E4. by destruct (_ <=? 0).
Qed.

Definition discovery_request_elements : list message_element :=
  [element K_discoverytype (ElementsControl.DiscoveryType.Build_capwap_discoverytype_element 1);
   element K_wtpboarddata {| ElementsWtpDesc.WtpBoardData.vendor := 23456;
     ElementsWtpDesc.WtpBoardData.boardsubelement :=
       [ElementsWtpDesc.WtpBoardData.Build_capwap_wtpboarddata_board_subelement 0 3 [49; 50; 51];
        ElementsWtpDesc.WtpBoardData.Build_capwap_wtpboarddata_board_subelement 4 6 [2; 0; 0; 0; 0; 5]] |};
   element K_wtpdescriptor {| ElementsWtpDesc.WtpDescriptor.maxradios := 1; ElementsWtpDesc.WtpDescriptor.radiosinuse := 1;
     ElementsWtpDesc.WtpDescriptor.encryptsubelement := [ElementsWtpDesc.WtpDescriptor.Build_capwap_wtpdescriptor_encrypt_subelement 1 0];
     ElementsWtpDesc.WtpDescriptor.descsubelement :=
       (fun type => ElementsWtpDesc.WtpDescriptor.Build_capwap_wtpdescriptor_desc_subelement 23456 type [49; 0]) <$> [0; 1; 2] |};
   element K_wtpframetunnelmode (ElementsWtp.WtpFrameTunnelMode.Build_capwap_wtpframetunnelmode_element 8);
   element K_wtpmactype (ElementsWtp.WtpMacType.Build_capwap_wtpmactype_element 1);
   radioinformation].
Lemma discovery_request_fits : message_fits 1 CAPWAP_DISCOVERY_REQUEST 4 1400 discovery_request_elements.
Proof.
  split; try done. repeat (constructor; [split; [|done]|]); [..|constructor]; try done.
  - split_and!; try done. repeat constructor.
  - split_and!; try done; repeat constructor; try done; exists (chars "1"); split_and!; try done; by repeat constructor.
Qed.

Definition discovery_response_elements : list message_element :=
  [element K_acdescriptor (ac_update_statistics sample_ac 2); element K_acname (acname sample_ac); radioinformation;
   element K_controlipv4 (ControlIPv4.Build_capwap_controlipv4_element [127; 0; 0; 1] 2)].

Lemma discovery_response_fits : message_fits 1 CAPWAP_DISCOVERY_RESPONSE 4 1400 discovery_response_elements.
Proof.
  split; try done. repeat (constructor; [split; [|done]|]); [..|constructor]; try done.
  - split_and!; try done; repeat constructor; try done; exists (chars "abcd"); split_and!; try done; by repeat constructor.
  - exists (chars "ac"). split_and!; try done. by repeat constructor.
Qed.

Lemma discovery_answered_witness :
  ac_discovery_turn sample_env 3000 sample_ac 2
    (DiscoveryPacket sample_peer (ctrl_datagram 1 CAPWAP_DISCOVERY_REQUEST 4 discovery_request_elements)) (Discovery 0 []) =
  Some (Discovery 0 [(sample_peer, ctrl_datagram 1 CAPWAP_DISCOVERY_RESPONSE 4 discovery_response_elements)]).
Proof.
  assert (Hs : exists msgs, store_all [] discovery_request_elements = Some msgs /\
    capwap_validate_parsed_packet msgs CAPWAP_DISCOVERY_REQUEST 1 = 0).
  { eexists. split; vm_compute; reflexivity. }
  destruct Hs as (msgs & Hst & Hv).
  apply (@discovery_answered zero_memory sample_env 3000 sample_ac 2 sample_peer 1 4 1400 discovery_request_elements
    msgs (Discovery 0 [])).
  - exact discovery_request_fits.
  - exact Hst.
  - vm_compute. reflexivity.
  - exact Hv.
  - done.
  - exact discovery_response_fits.
Defined.
