(* ===== verification/AcEventProps.v ===== *)
(** The back end and the controller: the lock and the loop of the thread, the
    configuration, and events from the back end to the WTP and back. *)
From stdpp Require Import option list gmap strings relations.
From S2P Require Import Prelude Io Header CapwapArray Bitfield Timeout TimeoutSpec CapwapHash CapwapHashSpec.
From S2P Require Import ElementsImage Elements80211a Element Tx TxSpec Rx Packet PacketInv PacketSpec Message Validate.
From S2P Require Import Base64 Json Ieee80211 AcJson AcWorld AcWlans AcSession AcActions AcRun.
From S2P Require Import AcController.
From S2P Require Import AcBackendThread AcBackendThreadSpec AcDataChannel.
From S2P Require Import AcInv AcSessionSpec AcSessionTotal AcSessionMessage AcSessionWlan AcSessionProps AcAnswerProps.
#[local] Open Scope Z_scope.
#[local] Existing Instances zero_memory lp64 sample_char sample_env.

(** ** A back end for the witnesses *)

Definition sample_session : list Z := chars "S1".

(** It takes part in everything, and answers with the session. *)
Definition sample_transport : Transport := {|
  prepare_request := fun _ => true;
  recv_response := fun _ call =>
    Some (SoapResponse 200 (Some (Some (if bool_decide (call_method call = "joinBackend"%string)
                                        then sample_session else chars "e30="))));
  queue_send := fun _ => true
|}.

(** It answers nothing. *)
Definition silent_transport : Transport := {|
  prepare_request := fun _ => true;
  recv_response := fun _ _ => None;
  queue_send := fun _ => true
|}.

Abbreviation sample_run k :=
  (@thread_steps sample_char sample_env sample_transport (chars "AC") (chars "1.0") 2 k (ac_backend_start sample_controller)).

(** ** The lock *)

(** C26: in every interleaving of the thread of the back end with the sessions,
    until the thread cleans up, its assertions hold: it waits for events with a
    session of the back end, it joins without one and with the lock, and a
    session that has the lock, or can take it, never finds the controller
    connected without a session of the back end. *)
Theorem backend_session_protected `{CharSign} `{Environment} `{Transport} backendacid backendversion n c y :
  rtc (backend_step backendacid backendversion n) (ac_backend_start c) y -> ending (pc y) = false ->
  (pc y = Waiting -> is_Some (backendsessionid (backend (shared y)))) /\
  (pc y = Joining -> backendsessionid (backend (shared y)) = None /\ backendlock y = ByThread) /\
  (backendlock y <> ByThread -> forall prepared, is_Some (session_request_step prepared y)).
Proof.
  intros [Hl Hc Hn Hs _ Hk]%backend_inv_reachable He. destruct y as [x l c' f lock]. cbn [pc shared connected backendlock] in *.
  split_and!; [intros ->; by apply Hs|by intros ->|]. intros Hlock prepared. unfold session_request_step.
  destruct lock as [| |[]]; [by eauto|done| |by eauto]. destruct (Hk eq_refl He) as [id ->]. destruct prepared; eauto.
Qed.

Lemma backend_session_protected_witness :
  exists y, sample_run 4 = Some y /\ pc y = Waiting /\ is_Some (session_request_step true y).
Proof.
  eexists. split; [reflexivity|]. split; [reflexivity|].
  eapply (@backend_session_protected sample_char sample_env sample_transport (chars "AC") (chars "1.0") 2 sample_controller).
  - apply (thread_steps_rtc _ _ _ 4). reflexivity.
  - reflexivity.
  - discriminate.
Defined.

(** The cleanup is not protected.  From any connected state a session can
    have the lock, have found the controller connected, and have no session of
    the back end to put in its request, because the thread that ends frees it
    without the lock. *)
Lemma shutdown_unprotected `{CharSign} `{Environment} `{Transport} backendacid backendversion n f x :
  backendstatus (backend x) = true ->
  exists y, rtc (backend_step backendacid backendversion n) (BackendSystem x Top true f Unlocked) y /\
    backendlock y = BySession true /\ backendsessionid (backend (shared y)) = None /\ session_request_step true y = None.
Proof.
  intros Hs. set (x1 := on_backend (fun b => Backend true (activebackend b) (backendstatus b) (errorjoinbackend b)
    (backendsessionid b)) x). destruct (leave_runs x1) as [x2 E2].
  exists (BackendSystem (on_backend (set_backendsessionid None) (on_backend stopped_backend x2)) Done true f (BySession true)).
  split_and!; try done.
  eapply rtc_l; [apply step_stop|].
  eapply rtc_l; [eapply (step_session _ _ _ _ _ true); reflexivity|].
  eapply rtc_l; [eapply (step_session _ _ _ _ _ true); cbn; unfold ac_backend_isconnect; cbn; rewrite Hs; reflexivity|].
  eapply rtc_l; [apply step_thread; reflexivity|].
  eapply rtc_l; [apply step_thread; cbn [thread_step endthread backend on_backend set_backend]; fold x1; by rewrite E2|].
  eapply rtc_l; [apply step_thread; reflexivity|]. apply rtc_refl.
Qed.

Definition sample_connected : backend_state :=
  default (shared (ac_backend_start sample_controller)) (shared <$> sample_run 3).

Lemma shutdown_unprotected_witness :
  exists y, sample_run 3 = Some (BackendSystem sample_connected Top true false Unlocked) /\
    rtc (@backend_step sample_char sample_env sample_transport (chars "AC") (chars "1.0") 2)
      (BackendSystem sample_connected Top true false Unlocked) y /\ session_request_step true y = None.
Proof.
  destruct (@shutdown_unprotected sample_char sample_env sample_transport (chars "AC") (chars "1.0") 2 false sample_connected)
    as (y & E1 & _ & _ & E2); [reflexivity|].
  exists y. split; [reflexivity|]. split; [exact E1|exact E2].
Defined.

(** ** The back ends *)

(** C27: when no back end can be joined, the thread asks each of them once, from
    the active one on and around, in two steps a try, and then gives up: it counts
    as not connected, frees the lock, is back at the back end it began with, and
    leaves in the queue of the main thread the message that all sessions are to
    end.  The requests can all be prepared, and the queue takes the message. *)
Theorem backends_all_tried `{CharSign} `{Environment} `{Transport} backendacid backendversion n f x :
  (forall l, prepare_request l = true) ->
  (forall l server, joined_session (recv_response l (join_call backendacid backendversion f server)) = None) ->
  0 <= activebackend (backend x) < n -> errorjoinbackend (backend x) = 0 ->
  backendsessionid (backend x) = None -> endthread (backend x) = false -> queue_send (msgqueue x) = true ->
  let servers := (fun k => (activebackend (backend x) + k) mod n) <$> seqZ 0 n in
  (forall server, 0 <= server < n -> server ∈ servers) /\
  exists y,
    thread_steps backendacid backendversion n (2 * Z.to_nat n) (BackendSystem x Top false f ByThread) = Some y /\
    calls (shared y) = calls x ++ (join_call backendacid backendversion f <$> servers) /\
    pc y = Retry /\ backendlock y = Unlocked /\ backendstatus (backend (shared y)) = false /\
    activebackend (backend (shared y)) = activebackend (backend x) /\ forcereset y = true /\
    msgqueue (shared y) = msgqueue x ++ [AC_MESSAGE_QUEUE_CLOSE_ALLSESSIONS].
Proof.
  intros Hp Hj Ha He Hs Ht Hq servers.
  assert (Hservers : servers = tried n (activebackend (backend x)) (Z.to_nat n)).
  { unfold servers, tried, seqZ. rewrite <- list_fmap_compose. apply list_fmap_ext. intros _ i _. cbn. by rewrite Z.add_0_r. }
  split; [intros server; rewrite Hservers; apply tried_all|].
  pose proof (tries_refused backendacid backendversion n (Nat.pred (Z.to_nat n)) f x Hp Hj Ha ltac:(lia) Hs Ht) as E.
  replace (S (Nat.pred (Z.to_nat n))) with (Z.to_nat n) in E by lia.
  assert (Hq' : queue_send (msgqueue (unreachable backendacid backendversion n f (Z.to_nat n) x)) = true) by exact Hq.
  eexists. split; [exact E|]. unfold ac_msgqueue_close_allsessions. rewrite Hq', Hservers. split_and!; try done.
  cbn. rewrite Z2Nat.id, Z.add_mod, Z_mod_same_full, Z.add_0_r, Z.mod_mod by lia. by apply Z.mod_small.
Qed.

Lemma backends_all_tried_witness :
  exists y, @thread_steps sample_char sample_env silent_transport (chars "AC") (chars "1.0") 2 4
      (BackendSystem (shared (ac_backend_start sample_controller)) Top false true ByThread) = Some y /\ pc y = Retry.
Proof.
  edestruct (@backends_all_tried sample_char sample_env silent_transport
    (chars "AC") (chars "1.0") 2 true (shared (ac_backend_start sample_controller))) as (_ & y & E1 & _ & E2 & _);
    try reflexivity; [done|by exists y].
Defined.

(** ** The configuration *)

(** C25: the thread joins the first back end and has its configuration.  Three
    steps after its start it asked the back end to be joined with a reset and then
    for the configuration of the session it got; it is connected with that
    session, the lock is free, and the document is what it left for the main
    thread.  The document goes no further: the queue is read only when the
    controller ends, by a loop that drops it. *)
Theorem configuration_queued `{CharSign} `{Environment} `{Transport} backendacid backendversion n c id response doc :
  let join := join_call backendacid backendversion true 0 in
  let get := SoapCall 0 "getConfiguration" [id] in
  (forall l, prepare_request l = true) -> joined_session (recv_response [] join) = Some id ->
  recv_response [join] get = Some response ->
  (forall z : backend_state, ac_soapclient_parse_json_response response z = Some (Some doc, z)) ->
  queue_send [] = true ->
  exists y,
    thread_steps backendacid backendversion n 3 (ac_backend_start c) = Some y /\
    calls (shared y) = [join; get] /\ connected y = true /\ backendlock y = Unlocked /\
    backendstatus (backend (shared y)) = true /\ backendsessionid (backend (shared y)) = Some id /\
    msgqueue (shared y) = [AC_MESSAGE_QUEUE_UPDATE_CONFIGURATION doc] /\
    forall t threads, ac_wait_terminate_allsessions (msgqueue (shared y)) (t :: threads) = ([], t :: threads).
Proof.
  intros join get Hp Hj Hg Hd Hq.
  pose proof (join_configures backendacid backendversion (shared (ac_backend_start c)) id response doc Hp eq_refl eq_refl Hj Hg Hd Hq) as E2.
  eexists. split.
  { cbn [thread_steps]. cbn [thread_step ac_backend_start]. ostep. cbn [thread_step shared backend endthread]. ostep.
    cbn [thread_step]. cbn [ac_backend_start shared] in E2. rewrite E2. ostep. reflexivity. }
  by split_and!.
Qed.

Definition sample_document : json := JObject [("DataChannelInterfaces"%string, JArray [])].
Definition document_env : Environment := {|
  sendto := @sendto sample_env; wolfSSL_new := @wolfSSL_new sample_env; wolfSSL_accept := @wolfSSL_accept sample_env;
  wolfSSL_read := @wolfSSL_read sample_env; soap := @soap sample_env; kmod_call := @kmod_call sample_env;
  kmod_send := @kmod_send sample_env; json_tokener_parse := fun _ => Some sample_document;
  json_object_to_json_string := @json_object_to_json_string sample_env; getaddrinfo := @getaddrinfo sample_env;
  inet_ntop := @inet_ntop sample_env
|}.

Lemma configuration_queued_witness :
  exists y, @thread_steps sample_char document_env sample_transport (chars "AC") (chars "1.0") 2 3
      (ac_backend_start sample_controller) = Some y /\
    msgqueue (shared y) = [AC_MESSAGE_QUEUE_UPDATE_CONFIGURATION sample_document].
Proof.
  destruct (@configuration_queued sample_char document_env sample_transport (chars "AC") (chars "1.0") 2
    sample_controller sample_session (SoapResponse 200 (Some (Some (chars "e30=")))) sample_document)
    as (y & E1 & _ & _ & _ & _ & _ & E2 & _).
  - done.
  - reflexivity.
  - reflexivity.
  - intros z. reflexivity.
  - reflexivity.
  - exists y. split; [exact E1|exact E2].
Defined.

(** ** Events *)

(** The event with its three parts, the back end that sent it, and the session of
    its WTP. *)
Record event_for (jsonitem : json) (id action : list Z) (jsonparams : json) (i : nat) (s : ac_session_t) (x : backend_state)
    (wtp : list Z) : Prop := EventFor {
  ev_id : get_string jsonitem "EventID" = Some id;
  ev_action : get_string jsonitem "Action" = Some action;
  ev_params : get_object jsonitem "Params" = Some jsonparams;
  ev_short : zlen (cstr id) < IDEVENT_SIZE;
  ev_backend : is_Some (backendsessionid (backend x));
  ev_session : sessions (control x) !! i = Some s;
  ev_wtp : ac_search_session_from_wtpid wtp (sessions (control x)) = Some i;
  ev_running : running s = true;
  ev_idle : requestfragmentpacket s = [] /\ actions s = [] /\ notifyevent s = []
}.

(** The session gets the notice and the action of the event. *)
Lemma event_sent `{Transport} jsonitem id action jsonparams i s x wtp act st a :
  event_for jsonitem id action jsonparams i s x wtp -> event_request (cstr action) jsonparams = Some (wtp, (act, st, a)) ->
  exists x', ac_backend_parsing_event jsonitem x = Some (0, x') /\
    sessions (control x') !! i = Some (set_actions [AC_SESSION_ACTION_NOTIFY_EVENT (NotifyEvent (cstr id) act st); a] s).
Proof.
  intros [E1 E2 E3 Hid [session Hs] Ei Hw _ (_ & Ha & _)] Hr.
  assert (Ht : event_target (cstr action) (cstr id) jsonparams x =
    Some (i, [AC_SESSION_ACTION_NOTIFY_EVENT (NotifyEvent (cstr id) act st); a])).
  { unfold event_target. rewrite Hr. ostep. by rewrite Hw. }
  eexists. split; [rewrite (parsing_event_spec jsonitem id action jsonparams session x) by done; by rewrite Ht|].
  unfold report. destruct (negb _ && _); cbn; rewrite list_lookup_alter, decide_True, Ei by done; cbn; by rewrite Ha.
Qed.

(** The notice is taken first, and waits. *)
Lemma turn_notice `{Indeterminate} `{Target} `{CharSign} `{Environment} fuel now ac stale e rest s :
  running s = true -> requestfragmentpacket s = [] ->
  session_turn fuel now ac stale (set_actions (AC_SESSION_ACTION_NOTIFY_EVENT e :: rest) s) =
    Some (tt, set_notifyevent (notifyevent s ++ [e]) (set_actions rest s)).
Proof.
  intros Hr Hq. unfold session_turn, ac_network_read, bind, gets, update, ret.
  cbn [running set_actions requestfragmentpacket actions]. by rewrite Hr, Hq.
Qed.

(** The message that the notice of a response waits for, and any other message
    without a failure, has the back end told that the event is complete. *)
Lemma message_completes `{Environment} request msgs id st s :
  notifyevent s = [NotifyEvent id NOTIFY_ACTION_RECEIVE_RESPONSE_CONTROLMESSAGE st] ->
  (request = true \/ first_of K_resultcode msgs = Some (ResultCode.Build_capwap_resultcode_element 0)) ->
  notify_message request msgs s =
    Some (tt, noticed [] [Soap "updateBackendEvent" [id; SOAP_EVENT_STATUS_COMPLETE]] s).
Proof.
  intros Hn Hc. unfold notify_message. destruct request; [clear Hc|destruct Hc as [|Hc]; [done|]; rewrite Hc].
  all: unfold notify_event, bind, gets; rewrite Hn; reflexivity.
Qed.


Definition sample_event (action : string) (jsonparams : json) : json := JObject
  [("EventID"%string, JString (chars "E1")); ("Action"%string, JString (chars action)); ("Params"%string, jsonparams)].
Definition sample_backend : backend_state :=
  BackendState (Backend false 0 true 0 (Some sample_session)) (set_sessions [sample_ready] sample_controller) [] [].

Lemma sample_event_for action jsonparams :
  is_object jsonparams = true ->
  event_for (sample_event action jsonparams) (chars "E1") (chars action) jsonparams 0 sample_ready sample_backend wtp_id.
Proof.
  intros Hj. split; try reflexivity; [change ((if is_object jsonparams then Some jsonparams else None) = Some jsonparams); by rewrite Hj|by eexists|]. split; [reflexivity|]. split; [reflexivity|exact sample_quiet].
Qed.


(** An event that closes the session of a WTP is never reported complete.
    Its notice waits for the Dead state, and the end of the session, which is what
    the event asks for, cancels the notices before that state. *)
Lemma close_event_cancelled `{Indeterminate} `{Target} `{CharSign} `{Environment} `{Transport}
    fuel now1 now2 ac stale x jsonitem id action jsonparams i s wtp :
  enough fuel -> event_for jsonitem id action jsonparams i s x wtp -> cstr action = chars "CloseWTPSession" ->
  cstr <$> get_string jsonparams "WTPId" = Some wtp -> armed s -> listed s = true -> ~ finished (state s) ->
  exists x' s0 s1 s2,
    ac_backend_parsing_event jsonitem x = Some (0, x') /\ sessions (control x') !! i = Some s0 /\
    session_turn fuel now1 ac stale s0 = Some (tt, s1) /\ session_turn fuel now2 ac stale s1 = Some (tt, s2) /\
    state s2 = CAPWAP_DTLS_TEARDOWN_STATE /\ notifyevent s2 = [] /\
    log s2 = log s ++ (if dtls_enable (dtls s) then [CloseCrypt] else []) ++
             [Soap "updateBackendEvent" [cstr id; SOAP_EVENT_STATUS_CANCEL]].
Proof.
  intros Hf Hev Hact Hwtp Harm Hl Hfin.
  destruct (event_sent _ _ _ _ _ _ _ _ NOTIFY_ACTION_CHANGE_STATE CAPWAP_DEAD_STATE AC_SESSION_ACTION_CLOSE Hev) as (x' & Ex & Es).
  { unfold event_request. rewrite Hact. destruct (get_string _ _) as [w|]; [|done]. by injection Hwtp as <-. }
  destruct Hev as [_ _ _ _ _ _ _ Hr (Hq & Ha & Hn)].
  set (e := NotifyEvent (cstr id) NOTIFY_ACTION_CHANGE_STATE CAPWAP_DEAD_STATE) in *.
  set (s1 := set_notifyevent [e] (set_actions [AC_SESSION_ACTION_CLOSE] s)).
  set (s2 := set_actions [] s1).
  assert (Harm2 : armed s2) by (destruct Harm; by split).
  destruct (teardown_total fuel Hf s2 (fun _ s' => exists t, s' = ended t s2) Harm2 Hl) as ([] & s3 & E3 & t & ->).
  { intros E. apply Hfin. by left. }
  { intros t _ _ _. by exists t. }
  eexists x', _, s1, (ended t s2). split; [exact Ex|]. split; [exact Es|]. split; [rewrite turn_notice by done; by rewrite Hn|].
  split; [|split; [reflexivity|split; [reflexivity|reflexivity]]]. rewrite <- E3.
  unfold session_turn, ac_network_read, bind, gets, update, ret.
  change (running s1) with (running s). change (requestfragmentpacket s1) with (requestfragmentpacket s). by rewrite Hr, Hq.
Qed.

Lemma close_event_cancelled_witness :
  exists x' s0 s1 s2,
    @ac_backend_parsing_event sample_transport
      (sample_event "CloseWTPSession" (JObject [("WTPId"%string, JString wtp_id)])) sample_backend = Some (0, x') /\
    sessions (control x') !! 0%nat = Some s0 /\
    session_turn 3 sample_time sample_ac 0 s0 = Some (tt, s1) /\ session_turn 3 sample_time sample_ac 0 s1 = Some (tt, s2) /\
    log s2 = [Soap "updateBackendEvent" [chars "E1"; chars "-2"]].
Proof.
  destruct sample_ready_fresh as [Ha _ _ _ _ _].
  destruct (@close_event_cancelled zero_memory lp64 sample_char sample_env sample_transport 3 sample_time sample_time sample_ac 0
    sample_backend (sample_event "CloseWTPSession" (JObject [("WTPId"%string, JString wtp_id)])) (chars "E1")
    (chars "CloseWTPSession") (JObject [("WTPId"%string, JString wtp_id)]) 0 sample_ready wtp_id)
    as (x' & s0 & s1 & s2 & E1 & E2 & E3 & E4 & _ & _ & Hlog).
  - unfold enough. lia.
  - by apply sample_event_for.
  - reflexivity.
  - reflexivity.
  - exact Ha.
  - reflexivity.
  - intros [E|E]; discriminate E.
  - exists x', s0, s1, s2. do 4 (split; [assumption|]). exact Hlog.
Defined.

(** An event that waits for the answer to a request is reported complete by
    any request of the WTP, because the two kinds of notice have the same number:
    an Echo Request, while the request for a network is still waiting for its
    answer, has the back end told that the network is there. *)
Lemma echo_completes_event `{Indeterminate} `{Target} `{CharSign} `{Environment} b seq mtu fuel now ac stale s p rest w id st r :
  let heard := log s ++ read_log (dtls s) p in
  let told := Soap "updateBackendEvent" [id; SOAP_EVENT_STATUS_COMPLETE] in
  enough fuel -> armed s -> state s = CAPWAP_RUN_STATE -> wtpid s = Some w -> requestfragmentpacket s <> [] ->
  notifyevent s = [NotifyEvent id NOTIFY_ACTION_RECEIVE_RESPONSE_CONTROLMESSAGE st] ->
  message_fits b CAPWAP_ECHO_REQUEST seq mtu [] -> message_fits b CAPWAP_ECHO_RESPONSE seq (session_mtu s) [] ->
  offered s p (ctrl_datagram b CAPWAP_ECHO_REQUEST seq []) rest -> plainbuffer p = false ->
  (remotetype s =? CAPWAP_ECHO_REQUEST) && (remoteseqnumber s =? seq) = false ->
  soap (heard ++ [told]) "checkWTPSession" [w] = Some r -> answers_true r = true ->
  exists s', session_turn fuel now ac stale s = Some (tt, s') /\
    notifyevent s' = [] /\ requestfragmentpacket s' = requestfragmentpacket s /\
    (forall q, wlan_at (wlans_of_session s') q = wlan_at (wlans_of_session s) q) /\
    log s' = heard ++ [told; Soap "checkWTPSession" [w]; Send (ctrl_datagram b CAPWAP_ECHO_RESPONSE seq [])].
Proof.
  intros heard told Hf Ha Hs Hw Hq Hn Hreq Hresp Ht Hpl Hrep Er Hr.
  pose proof (delivers_can_send _ _ _ _ Hpl (of_read _ _ _ _ Ht)) as Hopen.
  destruct (turn_notices b CAPWAP_ECHO_REQUEST seq mtu [] [] fuel now ac stale s p rest) as [rx E1]; try done.
  { change (zlen (message_bytes [])) with 0. unfold enough in Hf. lia. }
  apply wp_unit. eapply wp_turn; [exact E1|]. apply wp_bind.
  eapply wp_eq; [apply (message_completes true [] id st); [exact Hn|by left]|].
  set (s1 := noticed _ _ _). eapply wp_same; [by apply execute_run|]. eapply wp_same; [by apply run_echo|].
  destruct (echo_total (Parsed b (control_of CAPWAP_ECHO_REQUEST seq []) []) s1 w r) as (f & Ef & E2); try done.
  wp_steps. eapply wp_eq; [exact E2|]. cbn [Z.eqb]. unfold set_echo_timer, set_control_timer. wp_steps.
  set (s2 := answered _ _ _). destruct Ha as [Hti Hc Hk Hd].
  destruct (set_timer_total fuel Hf now (idtimercontrol s) AC_MAX_ECHO_INTERVAL TeardownTimeout s2 Hti Hc) as (t & E3 & Hok & Hb & Hi).
  eapply wp_eq; [exact E3|]. split_and!; [done|done|done|].
  change (log s2 = heard ++ [told; Soap "checkWTPSession" [w]; Send (ctrl_datagram b CAPWAP_ECHO_RESPONSE seq [])]).
  unfold s2. rewrite answered_log, Ef by done. cbn [log set_log]. change (log s1) with (heard ++ [told]). by rewrite <- !app_assoc.
Qed.

Lemma echo_completes_event_witness :
  let f := Fragment 16 16 (zeros 16) in
  exists s', session_turn 3 sample_time sample_ac 0
      (set_notifyevent [NotifyEvent (chars "E1") NOTIFY_ACTION_RECEIVE_RESPONSE_CONTROLMESSAGE CAPWAP_IEEE80211_WLAN_CONFIGURATION_RESPONSE]
        (set_requestfragmentpacket [f] (set_packets [AcPacket false (echo_packet 9)] sample_ready))) = Some (tt, s') /\
    requestfragmentpacket s' = [f] /\ notifyevent s' = [].
Proof.
  intros f. destruct sample_ready_fresh as [[] _ _ _ _ _].
  destruct (@echo_completes_event zero_memory lp64 sample_char sample_env 1 9 1400 3 sample_time sample_ac 0
    (set_notifyevent [NotifyEvent (chars "E1") NOTIFY_ACTION_RECEIVE_RESPONSE_CONTROLMESSAGE CAPWAP_IEEE80211_WLAN_CONFIGURATION_RESPONSE]
      (set_requestfragmentpacket [f] (set_packets [AcPacket false (echo_packet 9)] sample_ready))) (AcPacket false (echo_packet 9)) [] wtp_id (chars "E1")
    CAPWAP_IEEE80211_WLAN_CONFIGURATION_RESPONSE (sample_answer "checkWTPSession")) as (s' & E1 & E2 & E3 & _).
  - unfold enough. lia.
  - split; assumption.
  - reflexivity.
  - reflexivity.
  - discriminate.
  - reflexivity.
  - apply echo_fits; done.
  - apply echo_fits; done.
  - split; try reflexivity. by left.
  - reflexivity.
  - reflexivity.
  - reflexivity.
  - reflexivity.
  - exists s'. split; [exact E1|]. split; [exact E3|exact E2].
Defined.
