(* ===== verification/KmodCapwap.v ===== *)
(** The data channel of the kernel module (src/kmod/capwap.c): fragments and
    their reassembly, keep-alives, the conversion between 802.3 and 802.11
    frames, the reception of a packet and the sending of a frame.

    A socket buffer is the list of its bytes with its time stamp and its control
    block; pulling and pushing drop and prepend bytes.  The bit fields of the
    header are those of Header: the two programs share the layout.  A read or a
    write outside a buffer, the corruption of a list and a loop that never ends
    are the absence of a result.  What the module does outside - packets sent,
    notices to the controller, frames given to an interface - is appended to a
    log, and the answers of the kernel are arbitrary functions of the log so far
    ([KernelEnv]).  The tests of the 802.11 frame control are those of the
    kernel, [Linux80211]; what the theorems rely on is [Linux80211Laws].  The
    functions that capwap.c leaves to the rest of the module are the class
    [Dependent]. *)
From stdpp Require Import option.
From S2P Require Import Prelude Io Header.
#[local] Open Scope Z_scope.

(** ** Data (kmod/capwap.h, kmod/socket.h) *)

Definition AF_UNSPEC : Z := 0.
Definition KAF_INET : Z := 2.
Definition KAF_INET6 : Z := 10.

(** [union capwap_addr]: the family, the bytes of the address and the port. *)
Record capwap_addr := KAddr { ss_family : Z; sin_addr : list Z; sin_port : Z }.

Definition CAPWAP_FRAGMENT_QUEUE : Z := 16.
Definition CAPWAP_FRAGMENT_ENABLE : Z := 1.
Definition CAPWAP_FRAGMENT_LAST : Z := 4.

Definition SKB_CAPWAP_FLAG_FROM_DATA_CHANNEL : Z := 1.
Definition SKB_CAPWAP_FLAG_FROM_USER_SPACE : Z := 2.
Definition SKB_CAPWAP_FLAG_FROM_AC_TAP : Z := 4.
Definition SKB_CAPWAP_FLAG_FRAGMENT : Z := 4096.

Record sc_skb_capwap_cb := Cb {
  cb_flags : Z;
  cb_sessionid : list Z;
  cb_radioid : Z;
  cb_binding : Z;
  cb_winfo_rssi : Z;
  cb_winfo_snr : Z;
  cb_winfo_rate : Z;
  frag_offset : Z;
  frag_length : Z
}.

Record sk_buff := Skb { skb_data : list Z; skb_tstamp : Z; skb_cb : sc_skb_capwap_cb }.

Definition skb_len (skb : sk_buff) : Z := zlen (skb_data skb).
Definition skb_offset (skb : sk_buff) : Z := frag_offset (skb_cb skb).
Definition skb_length (skb : sk_buff) : Z := frag_length (skb_cb skb).

Definition with_data (data : list Z) (skb : sk_buff) : sk_buff :=
  Skb data (skb_tstamp skb) (skb_cb skb).
Definition with_tstamp (t : Z) (skb : sk_buff) : sk_buff := Skb (skb_data skb) t (skb_cb skb).

Record sc_capwap_fragment := Fragment {
  f_flags : Z;
  f_tstamp : Z;
  f_fragmentid : Z;
  f_fragments : list sk_buff;
  f_lastfragment : option sk_buff;
  f_recvlength : Z;
  f_totallength : Z
}.

(** [lru_list] holds the positions of the queues that are in use, the one that
    was not touched for longest first. *)
Record sc_capwap_session := KSession {
  ks_mtu : Z;
  ks_peeraddr : capwap_addr;
  ks_sessionid : list Z;
  ks_fragmentid : Z;
  ks_lru : list nat;
  ks_queues : list sc_capwap_fragment
}.

Definition with_fragments (lru : list nat) (queues : list sc_capwap_fragment)
    (session : sc_capwap_session) : sc_capwap_session :=
  KSession (ks_mtu session) (ks_peeraddr session) (ks_sessionid session) (ks_fragmentid session)
    lru queues.
Definition with_peeraddr (a : capwap_addr) (session : sc_capwap_session) : sc_capwap_session :=
  KSession (ks_mtu session) a (ks_sessionid session) (ks_fragmentid session)
    (ks_lru session) (ks_queues session).
Definition with_fragmentid (n : Z) (session : sc_capwap_session) : sc_capwap_session :=
  KSession (ks_mtu session) (ks_peeraddr session) (ks_sessionid session) n
    (ks_lru session) (ks_queues session).

(** ** The outside *)

Inductive kevent :=
| SentPacket (to : capwap_addr) (packet : list Z)
| NotifyKeepAlive (from : capwap_addr) (sessionid : list Z)
| NotifyData (sessionid : list Z) (packet : list Z)
| IfaceRegistered (ifname : list Z)
| IfaceUnregistered (ifindex : Z)
| IfaceReceive (ifindex : Z) (vlan : Z) (frame : list Z)
| IfaceDropped (ifindex : Z).

(** [sendmsg log to packet] is what [kernel_sendmsg] returns, [ktime_get] the
    clock, [register_netdev] the index of a new interface or an error, [hash_32]
    and [ipv6_addr_hash] the hash functions of the kernel. *)
Class KernelEnv := {
  sendmsg : list kevent -> capwap_addr -> list Z -> Z;
  ktime_get : list kevent -> Z;
  register_netdev : list kevent -> Z;
  hash_32 : Z -> Z -> Z;
  ipv6_addr_hash : list Z -> Z
}.

(** The tests of a frame control (16 bits) and the positions of the addresses in
    a frame, from linux/ieee80211.h. *)
Class Linux80211 := {
  ieee80211_is_data : Z -> bool;
  ieee80211_has_a4 : Z -> bool;
  ieee80211_is_data_qos : Z -> bool;
  ieee80211_has_order : Z -> bool;
  ieee80211_is_ctl : Z -> bool;
  ieee80211_is_mgmt : Z -> bool;
  ieee80211_is_data_present : Z -> bool;
  ieee80211_get_DA : Z -> Z;
  ieee80211_get_SA : Z -> Z
}.

(** [sc_socket_send] (kmod/socket.c). *)
Definition sc_socket_send `{KernelEnv} (packet : list Z) (to : capwap_addr) (log : list kevent) :
    Z * list kevent :=
  (sendmsg log to packet, log ++ [SentPacket to packet]).

(** ** Fragments *)

(** [list_del] of a node of the list. *)
Definition lru_del (i : nat) (l : list nat) : option (list nat) :=
  if bool_decide (i ∈ l) then Some (filter (.≠ i) l) else None.

Definition set_queue (i : nat) (f : sc_capwap_fragment) (session : sc_capwap_session) :
    sc_capwap_session :=
  with_fragments (ks_lru session) (<[i := f]> (ks_queues session)) session.
Definition set_lru (l : list nat) (session : sc_capwap_session) : sc_capwap_session :=
  with_fragments l (ks_queues session) session.

(** [sc_capwap_fragment_free] of the queue [i]. *)
Definition sc_capwap_fragment_free (i : nat) (session : sc_capwap_session) :
    option sc_capwap_session :=
  fragment ← ks_queues session !! i;
  lru ← lru_del i (ks_lru session);
  Some (set_queue i
    (Fragment 0 (f_tstamp fragment) (f_fragmentid fragment) [] (f_lastfragment fragment)
       (f_recvlength fragment) (f_totallength fragment))
    (set_lru lru session)).

Definition NSEC_PER_SEC : Z := 1000000000.

Definition sc_capwap_defrag_evictor (session : sc_capwap_session) (now : Z) :
    option sc_capwap_session :=
  match ks_lru session with
  | [] => Some session
  | i :: _ =>
      fragment ← ks_queues session !! i;
      let delta := now - f_tstamp fragment in
      if (delta <? - NSEC_PER_SEC) || (NSEC_PER_SEC <? delta)
      then sc_capwap_fragment_free i session else Some session
  end.

Section Module.
Context {I : Indeterminate} {E : KernelEnv} {L : Linux80211}.

(** [skb_put] and [memcpy] of the body of each fragment, the first byte free
    being [put]; [skb_put] panics at the end of the buffer. *)
Fixpoint append_bodies (skbfrag : list sk_buff) (put : Z) (buffer : list Z) : option (list Z) :=
  match skbfrag with
  | [] => Some (take (Z.to_nat put) buffer)
  | skb :: skbfrag =>
      let offset := GET_HLEN_HEADER (skb_data skb) * 4 in
      let len := skb_len skb - offset in
      if (0 <=? len) && (put + len <=? zlen buffer) then
        append_bodies skbfrag (put + len) (write_at put (slice offset len (skb_data skb)) buffer)
      else None
  end.

(** The bytes of [alloc_skb(size)]. *)
Definition alloc_skb (size : Z) : list Z := replicate (Z.to_nat size) indet.

Definition sc_capwap_reasm (fragment : sc_capwap_fragment) : option (list Z) :=
  match f_fragments fragment with
  | [] => None
  | skbfrag :: _ =>
      let len := GET_HLEN_HEADER (skb_data skbfrag) * 4 in
      let buffer := alloc_skb (len + f_totallength fragment) in
      if (len <=? skb_len skbfrag) && (sizeof_capwap_header <=? zlen buffer) then
        let buffer := write_at 0 (slice 0 len (skb_data skbfrag)) buffer in
        let buffer := SET_FLAG_F_HEADER buffer false in
        let buffer := SET_FLAG_L_HEADER buffer false in
        let buffer := write_at 4 [0; 0] buffer in
        let buffer := write_at 6 [0; 0] buffer in
        append_bodies (f_fragments fragment) len buffer
      else None
  end.

(** Where a fragment goes in the list of those that arrived: after [before] and
    in front of [after], or nowhere. *)
Inductive position :=
| At (before after : list sk_buff)
| Duplicate
| Overlap.

(** The loop over the list, [before] being the part already walked. *)
Fixpoint search_position (cb : sc_skb_capwap_cb) (before l : list sk_buff) : position :=
  match l with
  | [] => At before []
  | next :: rest =>
      if skb_offset next =? frag_offset cb then Duplicate
      else if frag_offset cb <? skb_offset next then
        if frag_offset cb + frag_length cb <=? skb_offset next then At before l else Overlap
      else search_position cb (before ++ [next]) rest
  end.

Definition fragment_position (cb : sc_skb_capwap_cb) (fragment : sc_capwap_fragment) : position :=
  match f_lastfragment fragment with
  | None => At [] []
  | Some prev =>
      if skb_offset prev <? frag_offset cb then
        if skb_offset prev + skb_length prev <=? frag_offset cb
        then At (f_fragments fragment) [] else Overlap
      else search_position cb [] (f_fragments fragment)
  end.

(** The fields that are set when a queue that is not in use is taken. *)
Definition init_fragment (frag_id : Z) (fragment : sc_capwap_fragment) : sc_capwap_fragment :=
  Fragment CAPWAP_FRAGMENT_ENABLE (f_tstamp fragment) frag_id [] None 0 0.

Definition has_flag (flags flag : Z) : bool := negb (Z.land flags flag =? 0).
Definition fragment_enabled (fragment : sc_capwap_fragment) : bool :=
  has_flag (f_flags fragment) CAPWAP_FRAGMENT_ENABLE.

(** The insertion of a buffer and the update of the lengths. *)
Definition insert_fragment (skb : sk_buff) (before after : list sk_buff)
    (fragment : sc_capwap_fragment) : sc_capwap_fragment :=
  let lastfragment := match after with [] => Some skb | _ => f_lastfragment fragment end in
  let recvlength := to_int (f_recvlength fragment + skb_length skb) in
  let '(flags, totallength) :=
    if IS_FLAG_L_HEADER (skb_data skb) then
      (Z.lor (f_flags fragment) CAPWAP_FRAGMENT_LAST, skb_offset skb + skb_length skb)
    else (f_flags fragment, f_totallength fragment) in
  Fragment flags (f_tstamp fragment) (f_fragmentid fragment) (before ++ skb :: after) lastfragment
    recvlength totallength.

Definition touch_fragment (t : Z) (fragment : sc_capwap_fragment) : sc_capwap_fragment :=
  Fragment (f_flags fragment) t (f_fragmentid fragment) (f_fragments fragment)
    (f_lastfragment fragment) (f_recvlength fragment) (f_totallength fragment).

Definition fragment_complete (fragment : sc_capwap_fragment) : bool :=
  has_flag (f_flags fragment) CAPWAP_FRAGMENT_LAST &&
  (f_recvlength fragment =? f_totallength fragment).

(** The control block of a fragment. *)
Definition fragment_cb (skb : sk_buff) : sc_skb_capwap_cb :=
  let cb := skb_cb skb in
  Cb (Z.lor (cb_flags cb) SKB_CAPWAP_FLAG_FRAGMENT) (cb_sessionid cb) (cb_radioid cb)
    (cb_binding cb) (cb_winfo_rssi cb) (cb_winfo_snr cb) (cb_winfo_rate cb)
    (val16 (byte_at (skb_data skb) 6) (byte_at (skb_data skb) 7))
    (wrap16 (skb_len skb - wrap16 (GET_HLEN_HEADER (skb_data skb) * 4))).

Definition empty_cb : sc_skb_capwap_cb := Cb 0 (zeros 16) 0 0 0 0 0 0 0.

(** The queue [i] for the message [frag_id]: [None] when another message has it. *)
Definition enter_fragment (i : nat) (frag_id : Z) (fragment : sc_capwap_fragment)
    (session : sc_capwap_session) : option (sc_capwap_fragment * sc_capwap_session) :=
  if fragment_enabled fragment && negb (f_fragmentid fragment =? frag_id) then None
  else if fragment_enabled fragment then Some (fragment, session)
  else
    let fragment := init_fragment frag_id fragment in
    Some (fragment, set_queue i fragment (set_lru (ks_lru session ++ [i]) session)).

(** The search of the position, the insertion and, when nothing is missing, the
    message. *)
Definition place_fragment (i : nat) (skb : sk_buff) (fragment : sc_capwap_fragment)
    (session : sc_capwap_session) : option (sc_capwap_session * option sk_buff) :=
  match fragment_position (skb_cb skb) fragment with
  | Duplicate => Some (session, None)
  | Overlap => session ← sc_capwap_fragment_free i session; Some (session, None)
  | At before after =>
      let fragment := insert_fragment skb before after fragment in
      let session := set_queue i fragment session in
      if fragment_complete fragment then
        data ← sc_capwap_reasm fragment;
        session ← sc_capwap_fragment_free i session;
        Some (session, Some (Skb data 0 empty_cb))
      else
        let session := set_queue i (touch_fragment (skb_tstamp skb) fragment) session in
        if bool_decide (last (ks_lru session) = Some i) then Some (session, None) else
        lru ← lru_del i (ks_lru session);
        Some (set_lru (lru ++ [i]) session, None)
  end.

(** [sc_capwap_defrag]; the caller gives a buffer of the size of a header at
    least.  The result is the session and the message, when it is complete. *)
Definition sc_capwap_defrag (session : sc_capwap_session) (skb : sk_buff) :
    option (sc_capwap_session * option sk_buff) :=
  let header := skb_data skb in
  if skb_len skb <? sizeof_capwap_header then None else
  let headersize := wrap16 (GET_HLEN_HEADER header * 4) in
  if skb_len skb <? headersize then Some (session, None) else
  let frag_id := val16 (byte_at header 4) (byte_at header 5) in
  let skb := Skb header (skb_tstamp skb) (fragment_cb skb) in
  let i := Z.to_nat (frag_id mod CAPWAP_FRAGMENT_QUEUE) in
  fragment ← ks_queues session !! i;
  match enter_fragment i frag_id fragment session with
  | None => Some (session, None)
  | Some (fragment, session) => place_fragment i skb fragment session
  end.

(** ** 802.3 and 802.11 frames *)

Definition sc_rfc1042_header : list Z := [170; 170; 3; 0; 0; 0].
Definition sc_bridge_tunnel_header : list Z := [170; 170; 3; 0; 0; 248].
Definition ETH_ALEN : Z := 6.
Definition ETH_HLEN : Z := 14.
Definition ETH_P_AARP : Z := 33011.
Definition ETH_P_IPX : Z := 33079.
Definition ETH_P_802_3_MIN : Z := 1536.

(** [frame_control] is little endian. *)
Definition frame_control (frame : list Z) : Z := val16 (byte_at frame 1) (byte_at frame 0).

Definition sc_capwap_80211_hdrlen (fc : Z) : Z :=
  if ieee80211_is_data fc then
    let hdrlen := if ieee80211_has_a4 fc then 30 else 24 in
    if ieee80211_is_data_qos fc then
      let hdrlen := hdrlen + 2 in
      if ieee80211_has_order fc then hdrlen + 4 else hdrlen
    else hdrlen
  else if ieee80211_is_ctl fc then
    if Z.land fc 224 =? 192 then 10 else 16
  else 24.

(** [frame_control], [duration_id], three addresses and [seq_ctrl]; a data frame
    from the distribution system is 0x0208. *)
Definition ieee80211_data_header (addr1 addr2 addr3 : list Z) : list Z :=
  [8; 2] ++ [0; 0] ++ addr1 ++ addr2 ++ addr3 ++ [0; 0].

Definition sc_capwap_8023_to_80211 (skb : sk_buff) (bssid : list Z) : option sk_buff :=
  let eh := skb_data skb in
  if skb_len skb <? ETH_HLEN then None else
  let ethertype := val16 (byte_at eh 12) (byte_at eh 13) in
  let hdr := ieee80211_data_header (slice 0 ETH_ALEN eh) bssid (slice ETH_ALEN ETH_ALEN eh) in
  let '(encaps_data, skip_header_bytes) :=
    if (ethertype =? ETH_P_AARP) || (ethertype =? ETH_P_IPX) then
      (sc_bridge_tunnel_header, ETH_HLEN - 2)
    else if ETH_P_802_3_MIN <=? ethertype then (sc_rfc1042_header, ETH_HLEN - 2)
    else ([], ETH_HLEN) in
  Some (with_data (hdr ++ encaps_data ++ drop (Z.to_nat skip_header_bytes) eh) skb).

(** The result of the conversion and the buffer, unchanged when it fails. *)
Definition sc_capwap_80211_to_8023 (skb : sk_buff) : option (Z * sk_buff) :=
  let hdr := skb_data skb in
  let fc := frame_control hdr in
  let hdrlen := sc_capwap_80211_hdrlen fc in
  if (skb_len skb <? 2) || (skb_len skb <? ieee80211_get_DA fc + ETH_ALEN) ||
     (skb_len skb <? ieee80211_get_SA fc + ETH_ALEN) then None else
  let dst := slice (ieee80211_get_DA fc) ETH_ALEN hdr in
  let src := slice (ieee80211_get_SA fc) ETH_ALEN hdr in
  if skb_len skb <? hdrlen + 8 then Some (-1, skb) else
  let payload := drop (Z.to_nat hdrlen) hdr in
  let ethertype := val16 (byte_at payload 6) (byte_at payload 7) in
  if (bool_decide (slice 0 ETH_ALEN payload = sc_rfc1042_header) &&
      negb (ethertype =? ETH_P_AARP) && negb (ethertype =? ETH_P_IPX)) ||
     bool_decide (slice 0 ETH_ALEN payload = sc_bridge_tunnel_header)
  then Some (0, with_data (dst ++ src ++ drop (Z.to_nat (hdrlen + 6)) hdr) skb)
  else Some (0, with_data (dst ++ src ++ be16 (zlen payload) ++ payload) skb).

(** ** Sessions and keep-alives *)

Definition free_fragment : sc_capwap_fragment := Fragment 0 0 0 [] None 0 0.

(** [sc_capwap_initsession] of a session whose other fields are set before or
    afterwards. *)
Definition sc_capwap_initsession (session : sc_capwap_session) : sc_capwap_session :=
  with_fragments [] (replicate (Z.to_nat CAPWAP_FRAGMENT_QUEUE) free_fragment) session.

Fixpoint free_fragments (l : list nat) (session : sc_capwap_session) : option sc_capwap_session :=
  match l with
  | [] => Some session
  | i :: l => session ← sc_capwap_fragment_free i session; free_fragments l session
  end.
Definition sc_capwap_freesession (session : sc_capwap_session) : option sc_capwap_session :=
  free_fragments (ks_lru session) session.

Definition sc_capwap_newfragmentid (session : sc_capwap_session) : Z * sc_capwap_session :=
  (ks_fragmentid session, with_fragmentid (wrap16 (ks_fragmentid session + 1)) session).

Definition sizeof_data_message : Z := 2.
Definition sizeof_message_element : Z := 4.
Definition sizeof_sessionid_element : Z := 16.
Definition CAPWAP_KEEP_ALIVE_MAX_SIZE : Z :=
  sizeof_capwap_header + sizeof_data_message + sizeof_message_element + sizeof_sessionid_element.
Definition KCAPWAP_ELEMENT_SESSIONID : Z := 35.
Definition CAPWAP_WIRELESS_BINDING_IEEE80211 : Z := 1.
Definition ENOENT : Z := 2.
Definition EIO : Z := 5.
Definition ENOMEM : Z := 12.
Definition EINVAL : Z := 22.

Definition sc_capwap_createkeepalive (sessionid buffer : list Z) (size : Z) : Z * list Z :=
  if size <? CAPWAP_KEEP_ALIVE_MAX_SIZE then (- ENOMEM, buffer) else
  let buffer := write_at 0 (zeros sizeof_capwap_header) buffer in
  let buffer := SET_VERSION_HEADER buffer CAPWAP_PROTOCOL_VERSION in
  let buffer := SET_TYPE_HEADER buffer CAPWAP_PREAMBLE_HEADER in
  let buffer := SET_HLEN_HEADER buffer (sizeof_capwap_header / 4) in
  let buffer := SET_WBID_HEADER buffer CAPWAP_WIRELESS_BINDING_IEEE80211 in
  let buffer := SET_FLAG_K_HEADER buffer true in
  let buffer := write_at 8
    (be16 (sizeof_data_message + sizeof_message_element + sizeof_sessionid_element)) buffer in
  let buffer := write_at 10 (be16 KCAPWAP_ELEMENT_SESSIONID) buffer in
  let buffer := write_at 12 (be16 sizeof_sessionid_element) buffer in
  (CAPWAP_KEEP_ALIVE_MAX_SIZE, write_at 14 sessionid buffer).

(** ** Reception *)

(** What capwap.c leaves to the rest of the module, over its state [K] and its
    pointers [P] to sessions: the session behind a pointer, the packets of a
    session, and a keep-alive from an unknown address. *)
Class Dependent (K P : Type) := {
  get_session : P -> K -> option sc_capwap_session;
  put_session : P -> sc_capwap_session -> K -> K;
  get_log : K -> list kevent;
  put_log : list kevent -> K -> K;
  recvunknownkeepalive : capwap_addr -> list Z -> K -> option (option P * K);
  parsingdatapacket : P -> sk_buff -> K -> option K;
  parsingmgmtpacket : P -> sk_buff -> K -> option K
}.

Definition emit `{Dependent K P} (e : kevent) (k : K) : K := put_log (get_log k ++ [e]) k.

Section Reception.
Context {K P : Type} {D : Dependent K P}.

(** The elements of a keep-alive, [message] being the position of the next one
    and [headersize] the bytes left, an [uint16_t]. *)
Fixpoint keepalive_elements (fuel : nat) (session : option P) (sockaddr : capwap_addr)
    (data : list Z) (message headersize : Z) (k : K) : option (Z * K) :=
  match fuel with
  | O => None
  | S fuel =>
      if headersize =? 0 then Some (- EINVAL, k) else
      if zlen data <? message + sizeof_message_element then None else
      let type := val16 (byte_at data message) (byte_at data (message + 1)) in
      let msglength := val16 (byte_at data (message + 2)) (byte_at data (message + 3)) in
      if headersize <? msglength + sizeof_message_element then Some (- EINVAL, k) else
      if (type =? KCAPWAP_ELEMENT_SESSIONID) && (msglength =? sizeof_sessionid_element) then
        if zlen data <? message + sizeof_message_element + sizeof_sessionid_element then None else
        let sessionid := slice (message + sizeof_message_element) sizeof_sessionid_element data in
        match session with
        | None =>
            '(found, k) ← recvunknownkeepalive sockaddr sessionid k;
            match found with
            | None => Some (- EINVAL, k)
            | Some _ => Some (0, emit (NotifyKeepAlive sockaddr sessionid) k)
            end
        | Some p =>
            session ← get_session p k;
            if bool_decide (ks_sessionid session = sessionid)
            then Some (0, emit (NotifyKeepAlive sockaddr sessionid) k)
            else Some (- EINVAL, k)
        end
      else
        let msglength := wrap16 (msglength + sizeof_message_element) in
        keepalive_elements fuel session sockaddr data (message + msglength)
          (wrap16 (headersize - msglength)) k
  end.

Definition parsing_keepalive (session : option P) (sockaddr : capwap_addr) (data : list Z) (k : K) :
    option (Z * K) :=
  if IS_FLAG_F_HEADER data then Some (- EINVAL, k) else
  let length := zlen data in
  let headersize := wrap16 (GET_HLEN_HEADER data * 4) in
  if length <? headersize + sizeof_data_message then Some (- EINVAL, k) else
  let length := length - headersize in
  let dataheader := headersize in
  let headersize := val16 (byte_at data dataheader) (byte_at data (dataheader + 1)) in
  if length <? headersize then Some (- EINVAL, k) else
  let headersize := wrap16 (headersize - sizeof_data_message) in
  keepalive_elements (Z.to_nat headersize + 1) session sockaddr data
    (dataheader + sizeof_data_message) headersize k.

(** A whole packet goes to the data or to the management handler; one of another
    binding, or another kind of frame, goes nowhere. *)
Definition parsing_message (session : P) (skb : sk_buff) (k : K) : option K :=
  let header := skb_data skb in
  if skb_len skb <? 3 then None else
  if negb (IS_FLAG_T_HEADER header) then parsingdatapacket session skb k
  else if GET_WBID_HEADER header =? CAPWAP_WIRELESS_BINDING_IEEE80211 then
    let hdr := GET_HLEN_HEADER header * 4 in
    if skb_len skb <? hdr + 2 then None else
    let fc := frame_control (drop (Z.to_nat hdr) header) in
    if ieee80211_is_data_present fc then parsingdatapacket session skb k
    else if ieee80211_is_mgmt fc || ieee80211_is_ctl fc then parsingmgmtpacket session skb k
    else Some k
  else Some k.

Definition sc_capwap_parsingpacket (session : option P) (sockaddr : capwap_addr) (skb : sk_buff)
    (k : K) : option (Z * K) :=
  let header := skb_data skb in
  if skb_len skb <? sizeof_capwap_header then Some (- EINVAL, k)
  else if negb (GET_VERSION_HEADER header =? CAPWAP_PROTOCOL_VERSION) then Some (- EINVAL, k)
  else if negb (GET_TYPE_HEADER header =? CAPWAP_PREAMBLE_HEADER) then Some (- EINVAL, k)
  else if IS_FLAG_K_HEADER header then parsing_keepalive session sockaddr header k
  else match session with
  | None => Some (- EINVAL, k)
  | Some p =>
      let skb := if skb_tstamp skb =? 0 then with_tstamp (ktime_get (get_log k)) skb else skb in
      s ← get_session p k;
      s ← sc_capwap_defrag_evictor s (skb_tstamp skb);
      if IS_FLAG_F_HEADER header then
        '(s, complete) ← sc_capwap_defrag s skb;
        let k := put_session p s k in
        match complete with
        | None => Some (0, k)
        | Some skb => k ← parsing_message p skb k; Some (0, k)
        end
      else
        k ← parsing_message p skb (put_session p s k);
        Some (0, k)
  end.
End Reception.

(** ** Sending *)

Definition NLSMARTCAPWAP_FLAGS_TUNNEL_8023 : Z := 1.

(** [f] on the bytes from [pos] on. *)
Definition at_position (pos : Z) (f : list Z -> list Z) (buffer : list Z) : list Z :=
  take (Z.to_nat pos) buffer ++ f (drop (Z.to_nat pos) buffer).

(** The header of one packet, over the 8 bytes it takes; the first packet also
    has the optional parts, [options] and their flags. *)
Definition forward_header (radioid binding flags : Z) (m w : bool) (hlen : Z) (header : list Z) :
    list Z :=
  let header := write_at 0 (zeros sizeof_capwap_header) header in
  let header := SET_VERSION_HEADER header CAPWAP_PROTOCOL_VERSION in
  let header := SET_TYPE_HEADER header CAPWAP_PREAMBLE_HEADER in
  let header := SET_WBID_HEADER header binding in
  let header := SET_RID_HEADER header radioid in
  let header :=
    SET_FLAG_T_HEADER header (negb (has_flag flags NLSMARTCAPWAP_FLAGS_TUNNEL_8023)) in
  let header := if m then SET_FLAG_M_HEADER header true else header in
  let header := if w then SET_FLAG_W_HEADER header true else header in
  SET_HLEN_HEADER header hlen.

(** The optional parts, copied behind the header when they are there. *)
Definition forward_options (radioaddr : option (list Z)) (radioaddrlength : Z)
    (winfo : option (list Z)) (winfolength : Z) (header : list Z) : list Z :=
  let '(header, headeroption) :=
    match radioaddr with
    | Some radioaddr =>
        (write_at sizeof_capwap_header (take (Z.to_nat radioaddrlength) radioaddr) header,
         sizeof_capwap_header + radioaddrlength)
    | None => (header, sizeof_capwap_header)
    end in
  match winfo with
  | Some winfo => write_at headeroption (take (Z.to_nat winfolength) winfo) header
  | None => header
  end.

Definition forward_fragment (last : bool) (fragmentid fragmentoffset : Z) (header : list Z) :
    list Z :=
  let header := SET_FLAG_F_HEADER header true in
  let header := if last then SET_FLAG_L_HEADER header true else header in
  let header := write_at 4 (be16 fragmentid) header in
  write_at 6 (be16 fragmentoffset) header.

Section Forward.
Context (mtu : Z) (peeraddr : capwap_addr) (radioid binding flags : Z).
Context (radioaddr : option (list Z)) (radioaddrlength : Z).
Context (winfo : option (list Z)) (winfolength : Z).
Context (requestfragment : bool) (fragmentid : Z).

(** The loop: [header] is the position of the next header in the buffer; the
    result is the number of bytes that were not sent. *)
Fixpoint forward_loop (fuel : nat) (buffer : list Z) (header fragmentoffset packetlength : Z)
    (log : list kevent) : option (Z * list kevent) :=
  if packetlength <=? 0 then Some (packetlength, log) else
  match fuel with
  | O => None
  | S fuel =>
      let '(buffer, size) :=
        if fragmentoffset =? 0 then
          let size := sizeof_capwap_header + radioaddrlength + winfolength in
          (at_position header (fun b =>
             forward_options radioaddr radioaddrlength winfo winfolength
               (forward_header radioid binding flags (bool_decide (is_Some radioaddr))
                  (bool_decide (is_Some winfo)) (Z.quot size 4) b)) buffer, size)
        else
          (at_position header
             (forward_header radioid binding flags false false (sizeof_capwap_header / 4)) buffer,
           sizeof_capwap_header) in
      let room := mtu - size in
      if negb (packetlength <=? room) && negb requestfragment then Some (packetlength, log) else
      let length := if packetlength <=? room then packetlength else room - Z.rem room 8 in
      let buffer :=
        if requestfragment then
          at_position header (forward_fragment (packetlength =? length) fragmentid fragmentoffset)
            buffer
        else buffer in
      if (0 <=? header) && (0 <=? size + length) && (header + size + length <=? zlen buffer) then
        let '(err, log) := sc_socket_send (slice header (size + length) buffer) peeraddr log in
        if err <? 0 then Some (packetlength, log) else
        forward_loop fuel buffer (header + size + length - sizeof_capwap_header)
          (fragmentoffset + length) (packetlength - length) log
      else None
  end.
End Forward.

(** [sc_capwap_forwarddata] on the bytes of a buffer, or of a copy of it with
    room in front; no caller looks at the buffer afterwards.  The room in front
    holds arbitrary bytes.  Each turn of the loop sends at least one byte, or
    none for ever, so that a turn per byte is enough. *)
Definition sc_capwap_forwarddata (session : sc_capwap_session) (radioid binding : Z)
    (data : list Z) (flags : Z) (radioaddr : option (list Z)) (radioaddrlength : Z)
    (winfo : option (list Z)) (winfolength : Z) (log : list kevent) :
    option (Z * sc_capwap_session * list kevent) :=
  let packetlength := zlen data in
  let reserve := sizeof_capwap_header + radioaddrlength + winfolength in
  let requestfragment := ks_mtu session <? packetlength + reserve in
  let '(fragmentid, session) :=
    if requestfragment then sc_capwap_newfragmentid session else (0, session) in
  '(unsent, log) ←
    forward_loop (ks_mtu session) (ks_peeraddr session) radioid binding flags radioaddr
      radioaddrlength winfo winfolength requestfragment fragmentid (length data)
      (alloc_skb reserve ++ data) 0 0 packetlength log;
  Some (if unsent =? 0 then 0 else - EIO, session, log).

Definition CAPWAP_RADIO_EUI48_LENGTH_PADDED : Z := 8.
Definition CAPWAP_WINFO_DESTWLAN_LENGTH_PADDED : Z := 8.
Definition CAPWAP_WINFO_FRAMEINFO_LENGTH_PADDED : Z := 8.

Definition sc_capwap_setradiomacaddress (size : Z) (bssid : list Z) : list Z :=
  write_at 1 bssid (write_at 0 [MACADDRESS_EUI48_LENGTH] (zeros size)).

Definition sc_capwap_setwinfo_frameinfo (size rssi snr rate : Z) : list Z :=
  write_at 1 ([wrap8 rssi; wrap8 snr] ++ be16 rate) (write_at 0 [4] (zeros size)).

Definition sc_capwap_setwinfo_destwlans (size wlanidbitmap : Z) : list Z :=
  write_at 1 (be16 wlanidbitmap) (write_at 0 [4] (zeros size)).
End Module.

(** ** What the theorems rely on *)

(** The tests of the frame control, as the standard defines its bits: the type is
    in bits 2 and 3, the subtype in bits 4 to 7, then come the flags To DS, From
    DS and, at bit 15, Order. *)
Class Linux80211Laws (L : Linux80211) := {
  is_data_spec fc : ieee80211_is_data fc = (Z.land fc 12 =? 8);
  has_a4_spec fc : ieee80211_has_a4 fc = (Z.land fc 768 =? 768);
  is_data_qos_spec fc : ieee80211_is_data_qos fc = (Z.land fc 140 =? 136);
  has_order_spec fc : ieee80211_has_order fc = negb (Z.land fc 32768 =? 0);
  is_ctl_spec fc : ieee80211_is_ctl fc = (Z.land fc 12 =? 4);
  is_mgmt_spec fc : ieee80211_is_mgmt fc = (Z.land fc 12 =? 0);
  is_data_present_spec fc : ieee80211_is_data_present fc = (Z.land fc 76 =? 8);
  get_DA_spec fc : ieee80211_get_DA fc = if Z.land fc 256 =? 0 then 4 else 16;
  get_SA_spec fc : ieee80211_get_SA fc =
    if Z.land fc 768 =? 768 then 24 else if Z.land fc 512 =? 0 then 10 else 16
}.

(** A session behind a pointer is a variable. *)
Class DependentLaws {K P} (D : Dependent K P) := {
  get_put_session p s k : is_Some (get_session p k) -> get_session p (put_session p s k) = Some s;
  put_put_session p s s' k : put_session p s (put_session p s' k) = put_session p s k;
  log_put_session p s k : get_log (put_session p s k) = get_log k
}.
