(* ===== verification/KmodCapwapSpec.v ===== *)
(** The data channel of the kernel module, specified: the invariant
    [fragments_ok] of the queues of fragments, which every packet keeps; a
    message as a list of fragments ([pieces]) and its reassembly in any order;
    the packets that [sc_capwap_forwarddata] sends; frames and keep-alives. *)
From stdpp Require Import option sorting.
From S2P Require Import Prelude Io Header KmodCapwap.
#[local] Open Scope Z_scope.

(** ** Lists and buffers *)

Lemma StronglySorted_app_iff {A} (R : A -> A -> Prop) l1 l2 :
  StronglySorted R (l1 ++ l2) <->
  StronglySorted R l1 /\ StronglySorted R l2 /\ Forall (fun x => Forall (R x) l2) l1.
Proof.
  induction l1 as [|x l1 IH]; cbn.
  - split; [|by intros (_ & ? & _)]. intros; repeat split; [constructor|done|constructor].
  - split.
    + inversion_clear 1 as [|? ? Hs Hf]. apply IH in Hs as (? & ? & ?).
      apply Forall_app in Hf as [? ?]. repeat split; [by constructor|done|by constructor].
    + intros (H1 & ? & H2). inversion_clear H1. inversion_clear H2.
      constructor; [by apply IH|]. by apply Forall_app.
Qed.

(** Strictly growing numbers of an interval are at most as many as it has. *)
Lemma ascending_length (l : list Z) : forall lo hi, lo <= hi ->
  StronglySorted Z.lt l -> Forall (fun x => lo <= x < hi) l -> zlen l <= hi - lo.
Proof.
  induction l as [|x l IH]; intros lo hi Hlh Hs Hr; cbn [length]; [lia|].
  inversion_clear Hs as [|? ? Hs' Hx]. inversion_clear Hr as [|? ? Hx' Hr'].
  assert (zlen l <= hi - (x + 1)); [|lia].
  apply IH; [lia|done|]. rewrite Forall_forall in *. intros y Hy.
  specialize (Hx y Hy). specialize (Hr' y Hy). lia.
Qed.

Definition sum_list (l : list Z) : Z := foldr Z.add 0 l.

Lemma sum_list_app l1 l2 : sum_list (l1 ++ l2) = sum_list l1 + sum_list l2.
Proof. unfold sum_list. induction l1; cbn [app foldr]; lia. Qed.

Lemma sum_list_bound (l : list Z) b :
  Forall (fun x => 0 <= x <= b) l -> 0 <= sum_list l <= zlen l * b.
Proof. unfold sum_list. induction 1; cbn [foldr length] in *; nia. Qed.

Lemma sum_list_perm l1 l2 : l1 ≡ₚ l2 -> sum_list l1 = sum_list l2.
Proof. unfold sum_list. induction 1; cbn [foldr]; lia. Qed.

Lemma get_field_app f h rest : field_ok f = true -> 8 <= zlen h -> get_field f (h ++ rest) = get_field f h.
Proof.
  unfold field_ok, sizeof_capwap_header. intros. split_andb. unfold get_field.
  by rewrite byte_at_app by lia.
Qed.

Lemma slice_all b n : n = zlen b -> slice 0 n b = b.
Proof. intros ->. unfold slice. cbn [Z.to_nat drop]. apply take_ge. lia. Qed.

Lemma slice_rest pos b n : 0 <= pos -> n = zlen b - pos -> slice pos n b = drop (Z.to_nat pos) b.
Proof. intros ? ->. unfold slice. apply take_ge. rewrite length_drop. lia. Qed.

(** ** A received fragment *)

Definition header_size (data : list Z) : Z := GET_HLEN_HEADER data * 4.
Definition body (data : list Z) : list Z := drop (Z.to_nat (header_size data)) data.

(** What can be received as a datagram, with a header that is not cut. *)
Definition packet_ok (data : list Z) : Prop :=
  bytes_ok data /\ zlen data <= 65535 /\ sizeof_capwap_header <= header_size data <= zlen data.

Lemma header_size_range data : 0 <= header_size data <= 124.
Proof.
  unfold header_size, GET_HLEN_HEADER. pose proof (get_field_range f_hlen data eq_refl) as H.
  cbn in H. lia.
Qed.

Definition skb_ok (skb : sk_buff) : Prop :=
  packet_ok (skb_data skb) /\ 0 <= skb_offset skb < 65536 /\
  skb_length skb = zlen (body (skb_data skb)).

Lemma length_body data : header_size data <= zlen data -> zlen (body data) = zlen data - header_size data.
Proof. intros. unfold body. rewrite length_drop. pose proof (header_size_range data). lia. Qed.

Lemma skb_length_range skb : skb_ok skb -> 0 <= skb_length skb <= 65535.
Proof. intros ((_ & ? & ?) & _ & ->). rewrite length_body by lia. pose proof (header_size_range (skb_data skb)). lia. Qed.

(** The buffer as the queue keeps it. *)
Definition received (skb : sk_buff) : sk_buff := Skb (skb_data skb) (skb_tstamp skb) (fragment_cb skb).

Lemma received_ok skb : packet_ok (skb_data skb) -> skb_ok (received skb).
Proof.
  intros (Hb & Hl & Hh). pose proof (header_size_range (skb_data skb)).
  unfold sizeof_capwap_header in *.
  split; [done|]. unfold skb_offset, skb_length. cbn. unfold received. cbn. split.
  - apply val16_range; by apply byte_at_range.
  - rewrite length_body by lia. unfold skb_len. fold (header_size (skb_data skb)).
    rewrite (wrap16_small (header_size _)) by lia. rewrite wrap16_small; lia.
Qed.

(** ** The queues *)

Definition ordered : list sk_buff -> Prop := StronglySorted (fun a b => skb_offset a < skb_offset b).
Definition total (l : list sk_buff) : Z := sum_list (skb_length <$> l).

Definition is_last (f : sc_capwap_fragment) : bool := has_flag (f_flags f) CAPWAP_FRAGMENT_LAST.

Record queue_ok (i : nat) (f : sc_capwap_fragment) : Prop := {
  q_id : 0 <= f_fragmentid f < 65536 /\ Z.to_nat (f_fragmentid f mod CAPWAP_FRAGMENT_QUEUE) = i;
  q_ordered : ordered (f_fragments f);
  q_skbs : Forall skb_ok (f_fragments f);
  q_last : f_lastfragment f = last (f_fragments f);
  q_recv : f_recvlength f = to_int (total (f_fragments f));
  q_total : 0 <= f_totallength f <= 131070
}.

Record fragments_ok (s : sc_capwap_session) : Prop := {
  s_sixteen : length (ks_queues s) = 16%nat;
  s_nodup : NoDup (ks_lru s);
  s_lru i : i ∈ ks_lru s <-> exists f, ks_queues s !! i = Some f /\ fragment_enabled f = true;
  s_queue i f : ks_queues s !! i = Some f -> fragment_enabled f = true -> queue_ok i f
}.

(** The lengths received never reach the width of [int]: their sum is read back
    from [recvlength] whenever that is a length. *)
Lemma total_bound l : ordered l -> Forall skb_ok l -> 0 <= total l < 4294967296.
Proof.
  intros Ho Hk.
  assert (Hn : zlen l <= 65536).
  { pose proof (ascending_length (skb_offset <$> l) 0 65536) as H. rewrite length_fmap in H.
    assert (zlen l <= 65536 - 0); [|lia]. apply H; [lia| |].
    - clear -Ho. induction Ho as [|x l Hs IH Hf]; cbn; constructor; [done|].
      by apply Forall_fmap.
    - apply Forall_fmap. eapply Forall_impl; [exact Hk|]. by intros x (_ & ? & _). }
  pose proof (sum_list_bound (skb_length <$> l) 65535) as H. rewrite length_fmap in H.
  unfold total. destruct H as [? ?]; [|nia].
  apply Forall_fmap. eapply Forall_impl; [exact Hk|]. intros x Hx. by apply skb_length_range.
Qed.

Lemma recv_total i f : queue_ok i f -> f_recvlength f = f_totallength f -> total (f_fragments f) = f_totallength f.
Proof.
  intros Hq He. rewrite (q_recv _ _ Hq) in He.
  pose proof (total_bound _ (q_ordered _ _ Hq) (q_skbs _ _ Hq)). pose proof (q_total _ _ Hq).
  unfold to_int in He. Z.div_mod_to_equations. lia.
Qed.

(** ** The place of a fragment *)

Section Position.
Context {I : Indeterminate}.

(** The place is between the fragments below and those above. *)
Lemma search_position_sorted cb l : forall before b a,
  ordered l -> Forall (fun x => skb_offset x < frag_offset cb) before ->
  search_position cb before l = At b a ->
  before ++ l = b ++ a /\ Forall (fun x => skb_offset x < frag_offset cb) b /\
  Forall (fun x => frag_offset cb < skb_offset x) a.
Proof.
  induction l as [|x l IH]; intros before b a Ho Hb; cbn.
  - intros [= <- <-]. by simplify_list_eq.
  - inversion_clear Ho as [|? ? Ho' Hx].
    destruct (_ =? _) eqn:?; [done|]. destruct (_ <? _) eqn:?.
    + destruct (_ <=? _); [|done]. intros [= <- <-]. repeat split; [done|].
      constructor; [lia|]. eapply Forall_impl; [exact Hx|]. cbn. lia.
    + intros H. apply IH in H; [|done|].
      * by rewrite <- (assoc_L (++)) in H.
      * apply Forall_app. split; [done|]. constructor; [lia|constructor].
Qed.

Lemma last_greatest l x y : ordered l -> last l = Some x -> y ∈ l -> skb_offset y <= skb_offset x.
Proof.
  intros Ho Hl Hy. apply last_Some in Hl as [l' ->].
  apply StronglySorted_app_iff in Ho as (_ & _ & Hf).
  apply elem_of_app in Hy as [Hy|Hy].
  - rewrite Forall_forall in Hf. specialize (Hf y Hy). inversion_clear Hf. lia.
  - apply list_elem_of_singleton in Hy as ->. lia.
Qed.

Lemma fragment_position_sorted cb f b a :
  ordered (f_fragments f) -> f_lastfragment f = last (f_fragments f) ->
  fragment_position cb f = At b a ->
  f_fragments f = b ++ a /\ Forall (fun x => skb_offset x < frag_offset cb) b /\
  Forall (fun x => frag_offset cb < skb_offset x) a.
Proof.
  intros Ho Hl. unfold fragment_position. rewrite Hl.
  destruct (last (f_fragments f)) as [x|] eqn:E.
  - destruct (_ <? _) eqn:?.
    + destruct (_ <=? _); [|done]. intros [= <- <-]. rewrite app_nil_r. repeat split; [|constructor].
      apply Forall_forall. intros y Hy. pose proof (last_greatest _ _ _ Ho E Hy). lia.
    + intros H. apply search_position_sorted in H; [done..|constructor].
  - apply last_None in E as ->. intros [= <- <-]. repeat split; constructor.
Qed.

(** Two fragments that do not share a byte. *)
Definition apart (off len : Z) (x : sk_buff) : Prop :=
  skb_offset x <> off /\ (skb_offset x + skb_length x <= off \/ off + len <= skb_offset x).

Lemma search_position_found cb l : forall before,
  Forall (apart (frag_offset cb) (frag_length cb)) l -> Forall (fun x => 0 <= skb_length x) l ->
  exists b a, search_position cb before l = At b a.
Proof.
  induction l as [|x l IH]; intros before Ha Hn; cbn; [eauto|].
  inversion_clear Ha as [|? ? [Hne Hx] Ha']. inversion_clear Hn.
  destruct (_ =? _) eqn:?; [lia|]. destruct (_ <? _) eqn:?; [|eauto].
  destruct (_ <=? _) eqn:?; [eauto|lia].
Qed.

Lemma fragment_position_found cb f :
  f_lastfragment f = last (f_fragments f) ->
  Forall (apart (frag_offset cb) (frag_length cb)) (f_fragments f) ->
  Forall (fun x => 0 <= skb_length x) (f_fragments f) -> 0 <= frag_length cb ->
  exists b a, fragment_position cb f = At b a.
Proof.
  intros Hl Ha Hn Hc. unfold fragment_position. rewrite Hl.
  destruct (last (f_fragments f)) as [x|] eqn:E; [|eauto].
  destruct (_ <? _) eqn:?; [|by apply search_position_found].
  destruct (_ <=? _) eqn:?; [eauto|].
  apply last_Some in E as [l' E]. rewrite E in Ha. apply Forall_app in Ha as [_ Ha].
  inversion_clear Ha as [|? ? [? [?|?]]]; lia.
Qed.

(** ** The message of a complete queue *)

Lemma append_bodies_spec l : forall put buffer,
  Forall skb_ok l -> 0 <= put -> put + total l <= zlen buffer ->
  append_bodies l put buffer = Some (take (Z.to_nat put) buffer ++ mjoin (body ∘ skb_data <$> l)).
Proof.
  induction l as [|x l IH]; intros put buffer Hl Hp Ht; cbn.
  - by rewrite app_nil_r.
  - inversion_clear Hl as [|? ? Hx Hl']. pose proof (skb_length_range x Hx).
    destruct Hx as ((_ & _ & Hh) & _ & Hx). fold (header_size (skb_data x)).
    unfold total in Ht. cbn [fmap list_fmap sum_list foldr] in Ht. fold (total l) in Ht.
    assert (0 <= total l).
    { apply (sum_list_bound _ 65535), Forall_fmap. eapply Forall_impl; [exact Hl'|].
      intros y Hy. by apply skb_length_range. }
    rewrite length_body in Hx by lia. pose proof (header_size_range (skb_data x)).
    assert (Hsum : sum_list (skb_length <$> l) = total l) by done. unfold sum_list in Hsum.
    change (foldr Z.add 0 (skb_length <$> l)) with (total l) in Ht.
    unfold skb_len.
    replace (0 <=? _) with true by lia. replace (_ <=? _) with true by lia. cbn [andb].
    rewrite slice_rest by lia. fold (body (skb_data x)).
    assert (Hb : zlen (body (skb_data x)) = zlen (skb_data x) - header_size (skb_data x))
      by (apply length_body; lia).
    rewrite IH; [|done|lia|rewrite length_write_at; lia].
    f_equal. unfold write_at. rewrite (assoc_L (++) (take _ _) (body _)), take_app_length'.
    + by rewrite <- (assoc_L (++)).
    + rewrite length_app, length_take. lia.
Qed.

(** The header of a fragment as the header of a whole message. *)
Definition whole_header (h : list Z) : list Z :=
  write_at 6 [0; 0] (write_at 4 [0; 0] (SET_FLAG_L_HEADER (SET_FLAG_F_HEADER h false) false)).

Lemma length_whole_header h : 8 <= zlen h -> length (whole_header h) = length h.
Proof.
  intros H. unfold whole_header, SET_FLAG_L_HEADER, SET_FLAG_F_HEADER, set_flag.
  assert (L : forall v w, length (set_field f_flag_l v (set_field f_flag_f w h)) = length h).
  { intros. rewrite !length_set_field; try done; rewrite ?length_set_field; done. }
  rewrite length_write_at; rewrite ?length_write_at; rewrite ?L; cbn; lia.
Qed.

Lemma whole_header_app h rest : 8 <= zlen h -> whole_header (h ++ rest) = whole_header h ++ rest.
Proof.
  intros H. unfold whole_header, SET_FLAG_L_HEADER, SET_FLAG_F_HEADER, set_flag.
  assert (L : forall v w, length (set_field f_flag_l v (set_field f_flag_f w h)) = length h).
  { intros. rewrite !length_set_field; try done; rewrite ?length_set_field; done. }
  rewrite !set_field_app by (rewrite ?length_set_field; done).
  rewrite write_at_app_l by (rewrite ?L; cbn; lia).
  apply write_at_app_l; [lia|]. rewrite length_write_at; rewrite ?L; cbn; lia.
Qed.

Definition message_header (data : list Z) : list Z :=
  whole_header (take (Z.to_nat (header_size data)) data).

(** The whole message: the header of the first fragment, and every body. *)
Definition message_of (l : list sk_buff) : list Z :=
  match l with
  | [] => []
  | x :: _ => message_header (skb_data x) ++ mjoin (body ∘ skb_data <$> l)
  end.

Lemma sc_capwap_reasm_spec f :
  f_fragments f <> [] -> Forall skb_ok (f_fragments f) -> total (f_fragments f) = f_totallength f ->
  0 <= f_totallength f ->
  sc_capwap_reasm f = Some (message_of (f_fragments f)).
Proof.
  unfold sc_capwap_reasm, message_of. destruct (f_fragments f) as [|x l] eqn:E; [done|].
  intros _ Hl Ht Hn. assert (Hx := Forall_inv Hl). destruct Hx as ((_ & _ & Hh) & _ & _).
  fold (header_size (skb_data x)). unfold sizeof_capwap_header, skb_len, alloc_skb in *.
  rewrite length_replicate.
  destruct (_ && _) eqn:Eg; [clear Eg|apply andb_false_iff in Eg; bools; lia].
  assert (Hs : length (take (Z.to_nat (header_size (skb_data x))) (skb_data x)) =
               Z.to_nat (header_size (skb_data x))) by (rewrite length_take; lia).
  set (b := write_at 0 _ _).
  assert (b = take (Z.to_nat (header_size (skb_data x))) (skb_data x) ++
              replicate (Z.to_nat (f_totallength f)) indet) as ->.
  { unfold b, write_at, slice. change (Z.to_nat 0) with 0%nat. rewrite take_0, drop_0, Nat.add_0_l, Hs.
    rewrite app_nil_l.
    rewrite drop_replicate. do 2 f_equal. lia. }
  match goal with |- append_bodies _ _ ?w = _ => change w with (whole_header
    (take (Z.to_nat (header_size (skb_data x))) (skb_data x) ++
     replicate (Z.to_nat (f_totallength f)) indet)) end.
  rewrite whole_header_app by (rewrite Hs; lia).
  assert (Hw := length_whole_header (take (Z.to_nat (header_size (skb_data x))) (skb_data x))).
  rewrite Hs in Hw. specialize (Hw ltac:(lia)).
  rewrite append_bodies_spec; [|done|lia|].
  - f_equal. f_equal. by rewrite take_app_length'.
  - rewrite length_app, Hw, length_replicate. lia.
Qed.

(** ** The queues under each operation *)

Definition same_peer (s s' : sc_capwap_session) : Prop :=
  ks_mtu s' = ks_mtu s /\ ks_peeraddr s' = ks_peeraddr s /\ ks_sessionid s' = ks_sessionid s /\
  ks_fragmentid s' = ks_fragmentid s.

Lemma same_peer_refl s : same_peer s s.
Proof. done. Qed.

Lemma same_peer_trans s1 s2 s3 : same_peer s1 s2 -> same_peer s2 s3 -> same_peer s1 s3.
Proof. unfold same_peer. naive_solver congruence. Qed.

Lemma fragment_enabled_init id f : fragment_enabled (init_fragment id f) = true.
Proof. done. Qed.

Lemma init_fragment_ok id f : 0 <= id < 65536 ->
  queue_ok (Z.to_nat (id mod CAPWAP_FRAGMENT_QUEUE)) (init_fragment id f).
Proof. intros. split; cbn; [done|constructor|constructor|done|done|lia]. Qed.

Lemma set_queue_ok i f s :
  fragments_ok s -> i ∈ ks_lru s -> queue_ok i f -> fragment_enabled f = true ->
  fragments_ok (set_queue i f s).
Proof.
  intros Hs Hi Hq He. assert (Hl : (i < length (ks_queues s))%nat).
  { apply (s_lru _ Hs) in Hi as (g & Hg & _). by eapply lookup_lt_Some. }
  split; cbn.
  - rewrite length_insert. apply Hs.
  - apply Hs.
  - intros j. rewrite (s_lru _ Hs). destruct (decide (i = j)) as [<-|].
    + rewrite list_lookup_insert_eq by done. split; [eauto|]. intros _. by apply (s_lru _ Hs).
    + by rewrite list_lookup_insert_ne.
  - intros j g. destruct (decide (i = j)) as [<-|].
    + rewrite list_lookup_insert_eq by done. by intros [= <-].
    + rewrite list_lookup_insert_ne by done. apply (s_queue _ Hs).
Qed.

Lemma lru_del_elem i l : i ∈ l -> lru_del i l = Some (filter (.≠ i) l).
Proof. intros. unfold lru_del. by rewrite bool_decide_true. Qed.

Lemma sc_capwap_fragment_free_ok i s :
  fragments_ok s -> i ∈ ks_lru s ->
  exists s', sc_capwap_fragment_free i s = Some s' /\ fragments_ok s' /\ same_peer s s' /\
    (forall j, j <> i -> ks_queues s' !! j = ks_queues s !! j) /\
    (exists f, ks_queues s' !! i = Some f /\ fragment_enabled f = false).
Proof.
  intros Hs Hi. unfold sc_capwap_fragment_free.
  pose proof (proj1 (s_lru _ Hs i) Hi) as (f & Hf & He).
  rewrite Hf, lru_del_elem by done. cbn. pose proof (lookup_lt_Some _ _ _ Hf).
  eexists. split; [done|]. split; [|split; [done|]]; [split; cbn|].
  - rewrite length_insert. apply Hs.
  - apply NoDup_filter, Hs.
  - intros j. rewrite list_elem_of_filter, (s_lru _ Hs).
    destruct (decide (i = j)) as [<-|].
    + rewrite list_lookup_insert_eq by done. naive_solver.
    + rewrite list_lookup_insert_ne by done. naive_solver.
  - intros j g. destruct (decide (i = j)) as [<-|].
    + rewrite list_lookup_insert_eq by done. by intros [= <-].
    + rewrite list_lookup_insert_ne by done. apply (s_queue _ Hs).
  - cbn. split; [intros; by rewrite list_lookup_insert_ne|].
    rewrite list_lookup_insert_eq by done. eauto.
Qed.

Lemma enter_fragment_ok id f s :
  let i := Z.to_nat (id mod CAPWAP_FRAGMENT_QUEUE) in
  fragments_ok s -> 0 <= id < 65536 -> ks_queues s !! i = Some f ->
  match enter_fragment i id f s with
  | None => True
  | Some (g, s') =>
      fragments_ok s' /\ same_peer s s' /\ i ∈ ks_lru s' /\ queue_ok i g /\
      fragment_enabled g = true /\ ks_queues s' !! i = Some g /\
      (forall j, j <> i -> ks_queues s' !! j = ks_queues s !! j)
  end.
Proof.
  intros i Hs Hid Hf. unfold enter_fragment. destruct (fragment_enabled f) eqn:He; cbn [andb].
  - destruct (negb _); [done|].
    refine (conj Hs (conj (same_peer_refl s) (conj _ (conj _ (conj He (conj Hf (fun _ _ => eq_refl))))))).
    + by apply (s_lru _ Hs); eauto.
    + by apply (s_queue _ Hs).
  - assert (Hn : i ∉ ks_lru s).
    { intros Hi. apply (s_lru _ Hs) in Hi as (g & Hg & ?). simplify_eq. congruence. }
    pose proof (lookup_lt_Some _ _ _ Hf).
    assert (Hl : i ∈ ks_lru s ++ [i]) by (apply elem_of_app; right; by apply list_elem_of_singleton).
    refine (conj _ (conj (same_peer_refl s) (conj Hl (conj (init_fragment_ok id f Hid) (conj eq_refl (conj _ _)))))).
    + split; cbn.
      * rewrite length_insert. apply Hs.
      * apply NoDup_app. repeat split; [apply Hs| |by apply NoDup_singleton].
        intros j Hj ->%list_elem_of_singleton. done.
      * intros j. rewrite elem_of_app, list_elem_of_singleton, (s_lru _ Hs).
        destruct (decide (i = j)) as [<-|].
        -- rewrite list_lookup_insert_eq by done. split; [|by right]. intros _. eauto.
        -- rewrite list_lookup_insert_ne by done. naive_solver.
      * intros j g. destruct (decide (i = j)) as [<-|].
        -- rewrite list_lookup_insert_eq by done. intros [= <-] _. by apply init_fragment_ok.
        -- rewrite list_lookup_insert_ne by done. apply (s_queue _ Hs).
    + cbn. by rewrite list_lookup_insert_eq.
    + cbn. intros. by rewrite list_lookup_insert_ne.
Qed.

Lemma to_int_add x y : to_int (to_int x + y) = to_int (x + y).
Proof. unfold to_int. Z.div_mod_to_equations. lia. Qed.

Lemma total_place b x a : total (b ++ x :: a) = total (b ++ a) + skb_length x.
Proof. unfold total. rewrite !fmap_app, !sum_list_app. cbn [fmap list_fmap]. unfold sum_list. cbn [foldr]. lia. Qed.

Lemma has_flag_lor flags flag flag' :
  Z.land flag flag' = 0 -> has_flag (Z.lor flags flag) flag' = has_flag flags flag'.
Proof. intros H. unfold has_flag. by rewrite Z.land_lor_distr_l, H, Z.lor_0_r. Qed.

Lemma insert_fragment_enabled x b a f :
  fragment_enabled (insert_fragment x b a f) = fragment_enabled f.
Proof.
  unfold insert_fragment, fragment_enabled. destruct (IS_FLAG_L_HEADER _); cbn [f_flags]; [|done].
  by apply has_flag_lor.
Qed.

Lemma insert_fragment_ok i x b a f :
  queue_ok i f -> skb_ok x -> f_fragments f = b ++ a ->
  Forall (fun y => skb_offset y < skb_offset x) b -> Forall (fun y => skb_offset x < skb_offset y) a ->
  queue_ok i (insert_fragment x b a f).
Proof.
  intros Hq Hx E Hb Ha. pose proof (q_ordered _ _ Hq) as Ho. pose proof (q_skbs _ _ Hq) as Hk.
  rewrite E in Ho, Hk. apply StronglySorted_app_iff in Ho as (Hob & Hoa & Hba).
  apply Forall_app in Hk as [Hkb Hka]. pose proof (skb_length_range x Hx).
  assert (Hids : f_fragmentid (insert_fragment x b a f) = f_fragmentid f /\
    f_fragments (insert_fragment x b a f) = b ++ x :: a /\
    f_lastfragment (insert_fragment x b a f) = match a with [] => Some x | _ => f_lastfragment f end /\
    f_recvlength (insert_fragment x b a f) = to_int (f_recvlength f + skb_length x)).
  { unfold insert_fragment. by destruct (IS_FLAG_L_HEADER _). }
  destruct Hids as (E1 & E2 & E3 & E4). split.
  - rewrite E1. apply Hq.
  - rewrite E2. apply StronglySorted_app_iff. split; [done|]. split; [by constructor|].
    rewrite Forall_forall in Hba, Hb |- *. intros y Hy. constructor; [by apply Hb|by apply Hba].
  - rewrite E2. apply Forall_app. split; [done|by constructor].
  - rewrite E2, E3, (q_last _ _ Hq), E. destruct a as [|y a].
    + by rewrite last_snoc.
    + rewrite !last_app, !last_cons. cbn. by destruct (last a).
  - rewrite E2, E4, (q_recv _ _ Hq), E, to_int_add. by rewrite total_place.
  - unfold insert_fragment. destruct (IS_FLAG_L_HEADER _); cbn; [|apply Hq].
    destruct Hx as (_ & ? & _). lia.
Qed.

Lemma insert_fragments x b a f : f_fragments (insert_fragment x b a f) = b ++ x :: a.
Proof. unfold insert_fragment. by destruct (IS_FLAG_L_HEADER _). Qed.

(** A queue that was used moves to the end of the list. *)
Lemma move_tail_ok i s :
  fragments_ok s -> i ∈ ks_lru s -> fragments_ok (set_lru (filter (.≠ i) (ks_lru s) ++ [i]) s).
Proof.
  intros Hs Hi. split; cbn; try apply Hs.
  - apply NoDup_app. repeat split; [apply NoDup_filter, Hs| |by apply NoDup_singleton].
    intros j [??]%list_elem_of_filter ->%list_elem_of_singleton. done.
  - intros j. rewrite <- (s_lru _ Hs), elem_of_app, list_elem_of_filter, list_elem_of_singleton.
    destruct (decide (j = i)); naive_solver.
Qed.

Lemma touch_fragment_ok i t f : queue_ok i f -> queue_ok i (touch_fragment t f).
Proof. intros Hq. split; apply Hq. Qed.

(** The number of the message a fragment belongs to. *)
Definition frag_id (x : sk_buff) : Z := val16 (byte_at (skb_data x) 4) (byte_at (skb_data x) 5).

(** The fragments of a queue that is in use are fragments of its message, and
    satisfy [P]. *)
Definition holds (P : sk_buff -> Prop) (f : sc_capwap_fragment) : Prop :=
  Forall (fun x => P x /\ frag_id x = f_fragmentid f) (f_fragments f).
Definition held (P : sk_buff -> Prop) (s : sc_capwap_session) : Prop :=
  forall j f, ks_queues s !! j = Some f -> fragment_enabled f = true -> holds P f.

Lemma held_mono (P Q : sk_buff -> Prop) s : (forall x, P x -> Q x) -> held P s -> held Q s.
Proof. intros H Hs j f Hj He. eapply Forall_impl; [exact (Hs j f Hj He)|]. intros x [? ?]. by split; [apply H|]. Qed.

Lemma set_queue_held P i f s : held P s -> holds P f -> held P (set_queue i f s).
Proof.
  intros Hs Hf j g. cbn. intros [(-> & -> & _)|[_ Hj]]%list_lookup_insert_Some; [done|]. by apply (Hs j).
Qed.

Lemma fragment_free_held P i s s' : held P s -> sc_capwap_fragment_free i s = Some s' -> held P s'.
Proof.
  intros Hs. unfold sc_capwap_fragment_free. intros (f & Hf & H)%bind_Some. apply bind_Some in H as (l & _ & [= <-]).
  intros j g. cbn. intros [(-> & <- & _)|[_ Hj]]%list_lookup_insert_Some; [done|]. by apply (Hs j).
Qed.

Lemma insert_holds P x b a f :
  f_fragments f = b ++ a -> holds P f -> P x -> frag_id x = f_fragmentid f -> holds P (insert_fragment x b a f).
Proof.
  unfold holds. intros E Hf Hx Hid. rewrite E in Hf. apply Forall_app in Hf as [Hb Ha].
  unfold insert_fragment. destruct (IS_FLAG_L_HEADER _); cbn; apply Forall_app; (split; [done|]); by constructor.
Qed.

(** What a queue hands over: fragments of one message that satisfy [P], in the
    order of their offsets, put together. *)
Definition handed_over (P : sk_buff -> Prop) (o : option sk_buff) : Prop :=
  forall m, o = Some m ->
  exists l id, l <> [] /\ ordered l /\ Forall (fun x => P x /\ frag_id x = id) l /\ Forall skb_ok l /\
    total l <= 131070 /\ skb_data m = message_of l.

Lemma place_fragment_ok P i x f s :
  fragments_ok s -> i ∈ ks_lru s -> queue_ok i f -> fragment_enabled f = true -> skb_ok x ->
  held P s -> holds P f -> P x -> frag_id x = f_fragmentid f ->
  exists s' o, place_fragment i x f s = Some (s', o) /\ fragments_ok s' /\ same_peer s s' /\ held P s' /\ handed_over P o.
Proof.
  intros Hs Hi Hq He Hx Hheld Hholds HP Hid. unfold place_fragment.
  destruct (fragment_position _ f) as [b a| |] eqn:E.
  - apply fragment_position_sorted in E as (E & Hb & Ha); [|apply Hq..].
    assert (Hq' := insert_fragment_ok _ _ _ _ _ Hq Hx E Hb Ha).
    assert (He' : fragment_enabled (insert_fragment x b a f) = true)
      by by rewrite insert_fragment_enabled.
    assert (Hs' := set_queue_ok _ _ _ Hs Hi Hq' He').
    assert (Hh' := insert_holds P _ _ _ _ E Hholds HP Hid).
    assert (Hheld' := set_queue_held P i _ s Hheld Hh').
    destruct (fragment_complete _) eqn:Ec.
    + unfold fragment_complete in Ec. split_andb.
      assert (Ht : total (f_fragments (insert_fragment x b a f)) = f_totallength (insert_fragment x b a f))
        by (apply (recv_total _ _ Hq'); lia).
      pose proof (q_total _ _ Hq'). rewrite sc_capwap_reasm_spec; [|rewrite insert_fragments; by destruct b|apply Hq'|done|lia].
      obind.
      destruct (sc_capwap_fragment_free_ok i _ Hs' Hi) as (s' & Efree & ? & ? & _). rewrite Efree.
      eexists _, _. split; [done|]. split; [done|]. split; [done|]. split; [by eapply fragment_free_held|].
      intros m [= <-]. eexists _, _. split; [|split; [apply Hq'|split; [exact Hh'|split; [apply Hq'|split; [|done]]]]]; [|lia].
      rewrite insert_fragments. by destruct b.
    + cbn [ks_lru set_queue with_fragments].
      assert (Hs'' := set_queue_ok _ _ _ Hs' Hi (touch_fragment_ok _ (skb_tstamp x) _ Hq') He').
      assert (Hheld'' := set_queue_held P i (touch_fragment (skb_tstamp x) (insert_fragment x b a f)) _ Hheld' Hh').
      case_bool_decide.
      * eexists _, _. done.
      * rewrite lru_del_elem by done. obind.
        eexists _, _. split; [done|]. split; [exact (move_tail_ok _ _ Hs'' Hi)|]. done.
  - eexists _, _. done.
  - destruct (sc_capwap_fragment_free_ok i _ Hs Hi) as (s' & Efree & ? & ? & _). rewrite Efree. cbn.
    eexists _, _. split; [done|]. split; [done|]. split; [done|]. split; [by eapply fragment_free_held|done].
Qed.

Lemma frag_id_range data : bytes_ok data -> 0 <= val16 (byte_at data 4) (byte_at data 5) < 65536.
Proof. intros. apply val16_range; by apply byte_at_range. Qed.

Lemma queue_lookup s id : fragments_ok s ->
  exists f, ks_queues s !! Z.to_nat (id mod CAPWAP_FRAGMENT_QUEUE) = Some f.
Proof.
  intros Hs. apply lookup_lt_is_Some. rewrite (s_sixteen _ Hs). unfold CAPWAP_FRAGMENT_QUEUE.
  pose proof (Z.mod_pos_bound id 16). lia.
Qed.

(** The first tests of [sc_capwap_defrag] pass for a whole packet. *)
Lemma sc_capwap_defrag_packet s skb :
  packet_ok (skb_data skb) ->
  sc_capwap_defrag s skb =
    let id := val16 (byte_at (skb_data skb) 4) (byte_at (skb_data skb) 5) in
    let i := Z.to_nat (id mod CAPWAP_FRAGMENT_QUEUE) in
    f ← ks_queues s !! i;
    match enter_fragment i id f s with
    | None => Some (s, None)
    | Some (f, s) => place_fragment i (received skb) f s
    end.
Proof.
  intros (_ & ? & Hh). unfold sc_capwap_defrag, skb_len. fold (header_size (skb_data skb)).
  unfold sizeof_capwap_header in *. pose proof (header_size_range (skb_data skb)).
  rewrite (wrap16_small (header_size _)) by lia.
  replace (zlen (skb_data skb) <? 8) with false by lia.
  by replace (zlen (skb_data skb) <? header_size (skb_data skb)) with false by lia.
Qed.

Lemma enter_fragment_held P i id f s g s' :
  held P s -> ks_queues s !! i = Some f -> enter_fragment i id f s = Some (g, s') ->
  held P s' /\ holds P g /\ f_fragmentid g = id.
Proof.
  intros Hs Hf. unfold enter_fragment. destruct (fragment_enabled f) eqn:He; cbn [andb].
  - destruct (Z.eqb_spec (f_fragmentid f) id); cbn [negb]; [|done]. intros [= <- <-]. split_and!; [done|by apply (Hs i)|done].
  - intros [= <- <-]. split_and!; [|constructor|done]. apply set_queue_held; [exact Hs|constructor].
Qed.

Lemma sc_capwap_defrag_ok P s skb :
  fragments_ok s -> packet_ok (skb_data skb) -> held P s -> P (received skb) ->
  exists s' o, sc_capwap_defrag s skb = Some (s', o) /\ fragments_ok s' /\ same_peer s s' /\ held P s' /\ handed_over P o.
Proof.
  intros Hs Hp Hheld HP. rewrite sc_capwap_defrag_packet by done. cbn zeta.
  set (id := val16 _ _). set (i := Z.to_nat _).
  destruct (queue_lookup s id Hs) as [f Hf]. fold i in Hf. rewrite Hf. obind.
  pose proof (enter_fragment_ok id f s Hs (frag_id_range _ (proj1 Hp)) Hf) as H. fold i in H.
  pose proof (enter_fragment_held P i id f s) as Hent.
  destruct (enter_fragment i id f s) as [[g s1]|].
  2: { exists s, None. split; [done|]. split; [done|]. split; [apply same_peer_refl|]. split; [done|by intros ?]. }
  destruct H as (Hs1 & Hp1 & Hi & Hq & He & _). destruct (Hent g s1 Hheld Hf eq_refl) as (Hheld1 & Hholds & Hid).
  destruct (place_fragment_ok P i (received skb) g s1 Hs1 Hi Hq He (received_ok _ Hp) Hheld1 Hholds HP (eq_sym Hid))
    as (s' & o & -> & ? & ? & ? & ?).
  eexists _, _. split; [done|]. split; [done|]. split; [by eapply same_peer_trans|done].
Qed.

Lemma sc_capwap_defrag_evictor_ok P s now :
  fragments_ok s -> held P s ->
  exists s', sc_capwap_defrag_evictor s now = Some s' /\ fragments_ok s' /\ same_peer s s' /\ held P s'.
Proof.
  intros Hs Hheld. unfold sc_capwap_defrag_evictor. destruct (ks_lru s) as [|i l] eqn:E; [eauto using same_peer_refl|].
  assert (Hi : i ∈ ks_lru s) by (rewrite E; constructor).
  pose proof (proj1 (s_lru _ Hs i) Hi) as (f & -> & _). obind.
  destruct (_ || _); [|eauto using same_peer_refl].
  destruct (sc_capwap_fragment_free_ok i s Hs Hi) as (s' & Efree & ? & ? & _). exists s'. split_and!; try done.
  by eapply fragment_free_held.
Qed.
End Position.
