(* ===== verification/KmodReassembly.v ===== *)
(** Reassembly in any order: a message as the list of its packets ([pieces]), the
    state of a queue that collects them ([holding]), and the message that is
    delivered when the last of them arrives. *)
From stdpp Require Import option sorting.
From S2P Require Import Prelude Io Header KmodCapwap KmodCapwapSpec.
#[local] Open Scope Z_scope.

(** ** Pairs that stay apart *)

Lemma ForallOrdPairs_perm {A} (R : A -> A -> Prop) l l' :
  (forall x y, R x y -> R y x) -> l ≡ₚ l' -> ForallOrdPairs R l -> ForallOrdPairs R l'.
Proof.
  intros Hsym. induction 1 as [|x l l' Hp IH|x y l|l l' l'' _ IH1 _ IH2]; intros H; auto.
  - inversion_clear H. constructor; [by rewrite <- Hp|auto].
  - inversion_clear H as [|? ? Hy H']. inversion_clear H' as [|? ? Hx Hl].
    inversion_clear Hy. constructor; [constructor; auto|constructor; auto].
Qed.

Definition apart_skbs (x y : sk_buff) : Prop := apart (skb_offset x) (skb_length x) y.

Lemma apart_skbs_sym x y : apart_skbs x y -> apart_skbs y x.
Proof. unfold apart_skbs, apart. lia. Qed.

(** ** A message in packets *)

Definition packet_id (data : list Z) : Z := val16 (byte_at data 4) (byte_at data 5).
Definition packet_offset (data : list Z) : Z := val16 (byte_at data 6) (byte_at data 7).

(** A fragment of the message [id] at [off], the last one or not. *)
Record piece (id off : Z) (final : bool) (data : list Z) : Prop := {
  p_packet : packet_ok data;
  p_version : GET_VERSION_HEADER data = CAPWAP_PROTOCOL_VERSION;
  p_type : GET_TYPE_HEADER data = CAPWAP_PREAMBLE_HEADER;
  p_keepalive : IS_FLAG_K_HEADER data = false;
  p_fragment : IS_FLAG_F_HEADER data = true;
  p_final : IS_FLAG_L_HEADER data = final;
  p_id : packet_id data = id;
  p_offset : packet_offset data = off;
  p_body : 0 < zlen (body data)
}.

(** The fragments of a message from [off] on, in order and without a hole. *)
Fixpoint pieces (id off : Z) (l : list (list Z)) : Prop :=
  match l with
  | [] => True
  | data :: rest =>
      piece id off (bool_decide (rest = [])) data /\ pieces id (off + zlen (body data)) rest
  end.

Definition payload (l : list (list Z)) : list Z := mjoin (body <$> l).

Lemma payload_cons d l : payload (d :: l) = body d ++ payload l.
Proof. done. Qed.

Definition is_final (x : sk_buff) : bool := IS_FLAG_L_HEADER (skb_data x).

(** What the packets of a message are once they are in a queue. *)
Record whole (id n : Z) (l : list sk_buff) : Prop := {
  w_skbs : Forall skb_ok l;
  w_id : Forall (fun x => packet_id (skb_data x) = id) l;
  w_positive : Forall (fun x => 0 < skb_length x) l;
  w_apart : ForallOrdPairs apart_skbs l;
  w_final : Forall (fun x => is_final x = true -> skb_offset x + skb_length x = n) l;
  w_finished : Exists (fun x => is_final x = true) l;
  w_total : total l = n
}.

#[export] Instance whole_perm id n : Proper ((≡ₚ) ==> iff) (whole id n).
Proof.
  assert (H : forall l l', l ≡ₚ l' -> whole id n l -> whole id n l').
  { intros l l' Hp [H1 H2 H3 H4 H5 H6 H7]. split.
    - by rewrite <- Hp.
    - by rewrite <- Hp.
    - by rewrite <- Hp.
    - eapply ForallOrdPairs_perm; [exact apart_skbs_sym|done..].
    - by rewrite <- Hp.
    - by rewrite <- Hp.
    - unfold total. erewrite sum_list_perm; [exact H7|]. by rewrite Hp. }
  intros l l' Hp. split; apply H; [done|by symmetry].
Qed.

Lemma total_cons x l : total (x :: l) = skb_length x + total l.
Proof. done. Qed.

Lemma total_perm l l' : l ≡ₚ l' -> total l = total l'.
Proof. intros Hp. unfold total. apply sum_list_perm. by rewrite Hp. Qed.

Lemma total_app l l' : total (l ++ l') = total l + total l'.
Proof. unfold total. by rewrite fmap_app, sum_list_app. Qed.

Lemma total_nonneg l : Forall (fun x => 0 < skb_length x) l -> zlen l <= total l.
Proof. induction 1; [done|]. rewrite total_cons. cbn [length]. lia. Qed.

(** Pieces in a queue are a whole message. *)
Lemma received_piece id off final x :
  piece id off final (skb_data x) ->
  skb_offset (received x) = off /\ skb_length (received x) = zlen (body (skb_data x)).
Proof.
  intros Hp. pose proof (received_ok x (p_packet _ _ _ _ Hp)) as (_ & _ & E).
  split; [apply (p_offset _ _ _ _ Hp)|apply E].
Qed.

Lemma pieces_forall id l : forall off, pieces id off l ->
  Forall (fun d => packet_ok d /\ packet_id d = id /\ 0 < zlen (body d) /\ off <= packet_offset d /\
    (IS_FLAG_L_HEADER d = true -> packet_offset d + zlen (body d) = off + zlen (payload l)) /\
    packet_offset d + zlen (body d) <= off + zlen (payload l)) l.
Proof.
  induction l as [|d l IH]; intros off; [constructor|]. intros [Hp Hl]. specialize (IH _ Hl).
  assert (Hlen : zlen (payload (d :: l)) = zlen (body d) + zlen (payload l)).
  { rewrite payload_cons, length_app. lia. }
  destruct Hp. constructor.
  - split; [done|]. split; [done|]. split; [done|]. split; [lia|]. split; [|lia].
    rewrite p_final0. intros ->%bool_decide_eq_true. rewrite Hlen. unfold payload. cbn. lia.
  - eapply Forall_impl; [exact IH|]. intros e (? & ? & ? & ? & HL & ?).
    split; [done|]. split; [done|]. split; [done|]. split; [lia|]. split; [|lia].
    intros He. specialize (HL He). lia.
Qed.

Lemma pieces_piece id l : forall off, pieces id off l ->
  Forall (fun d => exists off final, piece id off final d) l.
Proof. induction l as [|d l IH]; intros off; [constructor|]. intros [Hp Hl]. constructor; eauto. Qed.

Lemma pieces_apart id (l : list sk_buff) : forall off,
  pieces id off (skb_data <$> l) -> ForallOrdPairs apart_skbs (received <$> l).
Proof.
  induction l as [|x l IH]; intros off; [constructor|]. intros [Hp Hl].
  constructor; [|by eapply IH]. apply Forall_fmap. apply pieces_forall in Hl.
  apply Forall_fmap in Hl. eapply Forall_impl; [exact Hl|].
  intros y (Hy & _ & ? & ? & _). destruct (received_piece _ _ _ _ Hp) as [E1 E2].
  pose proof (received_ok y Hy) as (_ & _ & E3).
  unfold apart_skbs, apart. cbn [compose]. rewrite E1, E2.
  change (skb_offset (received y)) with (packet_offset (skb_data y)).
  pose proof (p_body _ _ _ _ Hp). lia.
Qed.

Lemma pieces_total id (l : list sk_buff) : forall off,
  pieces id off (skb_data <$> l) -> total (received <$> l) = zlen (payload (skb_data <$> l)).
Proof.
  induction l as [|x l IH]; intros off; [done|]. intros [Hp Hl].
  cbn [fmap list_fmap]. rewrite total_cons, (proj2 (received_piece _ _ _ _ Hp)).
  rewrite (IH _ Hl), payload_cons, length_app. lia.
Qed.

Lemma pieces_final id (l : list sk_buff) : forall off, l <> [] ->
  pieces id off (skb_data <$> l) -> Exists (fun x => is_final x = true) (received <$> l).
Proof.
  induction l as [|x l IH]; intros off Hn; [done|]. intros [Hp Hl]. cbn.
  destruct l as [|y l]; [|right; by eapply IH].
  left. apply (p_final _ _ _ _ Hp).
Qed.

Lemma pieces_whole id (l : list sk_buff) :
  l <> [] -> pieces id 0 (skb_data <$> l) ->
  whole id (zlen (payload (skb_data <$> l))) (received <$> l).
Proof.
  intros Hn Hl. pose proof (pieces_forall _ _ _ Hl) as Hf. apply Forall_fmap in Hf.
  assert (Hr : forall Q : sk_buff -> Prop, (forall x, packet_ok (skb_data x) /\
    packet_id (skb_data x) = id /\ 0 < skb_length (received x) /\
    (is_final x = true -> skb_offset (received x) + skb_length (received x) =
       zlen (payload (skb_data <$> l))) -> Q (received x)) -> Forall Q (received <$> l)).
  { intros Q HQ. apply Forall_fmap. eapply Forall_impl; [exact Hf|].
    intros x (Hx & ? & ? & ? & Hfin & ?). apply HQ. pose proof (received_ok x Hx) as (_ & _ & E).
    rewrite E. split; [done|]. split; [done|]. split; [done|]. intros H'. apply (Hfin H'). }
  split.
  - apply Hr. intros x (? & _). by apply received_ok.
  - apply Hr. by intros x (_ & ? & _).
  - apply Hr. by intros x (_ & _ & ? & _).
  - by eapply pieces_apart.
  - apply Hr. by intros x (_ & _ & _ & ?).
  - by eapply pieces_final.
  - by eapply pieces_total.
Qed.

Lemma whole_bound id n l : whole id n l -> 0 <= n <= 131070.
Proof.
  intros Hw. pose proof (w_finished _ _ _ Hw) as Hx. apply Exists_exists in Hx as (x & Hx & Hf).
  pose proof (w_final _ _ _ Hw) as Hn. pose proof (w_skbs _ _ _ Hw) as Hk.
  rewrite Forall_forall in Hn, Hk. specialize (Hn x Hx Hf). specialize (Hk x Hx).
  pose proof (skb_length_range x Hk). destruct Hk as (_ & ? & _). lia.
Qed.

(** ** A queue that collects a message *)

Definition slot (id : Z) : nat := Z.to_nat (id mod CAPWAP_FRAGMENT_QUEUE).

(** The queue [f] has exactly the fragments [got] of the message. *)
Record collected (n : Z) (got : list sk_buff) (f : sc_capwap_fragment) : Prop := {
  c_fragments : f_fragments f ≡ₚ got;
  c_last : is_last f = true <-> Exists (fun x => is_final x = true) got;
  c_total : is_last f = true -> f_totallength f = n
}.

Inductive holding (id n : Z) (s : sc_capwap_session) : list sk_buff -> Prop :=
| holding_none f :
    ks_queues s !! slot id = Some f -> fragment_enabled f = false -> holding id n s []
| holding_some f got :
    ks_queues s !! slot id = Some f -> fragment_enabled f = true -> f_fragmentid f = id ->
    collected n got f -> f_tstamp f ∈ skb_tstamp <$> got -> holding id n s got.

Section Collect.
Context {I : Indeterminate}.

Lemma enter_holding id n s got :
  fragments_ok s -> holding id n s got -> 0 <= id < 65536 ->
  exists f g s1, ks_queues s !! slot id = Some f /\
    enter_fragment (slot id) id f s = Some (g, s1) /\ f_fragmentid g = id /\ collected n got g.
Proof.
  intros Hs Hh Hid. destruct Hh as [f Hf He|f got Hf He E Hc _]; exists f; unfold enter_fragment; rewrite He; cbn [andb].
  - eexists _, _. split; [done|]. split; [done|]. split; [done|]. split; cbn; [done| |done].
    split; [done|]. by intros ?%Exists_nil.
  - rewrite E, Z.eqb_refl. cbn [negb]. eauto 10.
Qed.

Lemma insert_is_last x b a f : is_last (insert_fragment x b a f) = is_final x || is_last f.
Proof.
  unfold is_last, insert_fragment, is_final. destruct (IS_FLAG_L_HEADER _); cbn [f_flags orb]; [|done].
  unfold has_flag, CAPWAP_FRAGMENT_LAST. rewrite Z.land_lor_distr_l. change (Z.land 4 4) with 4.
  destruct (Z.lor _ 4 =? 0) eqn:E; [|done]. apply Z.eqb_eq, Z.lor_eq_0_iff in E. lia.
Qed.

Lemma insert_totallength x b a f :
  f_totallength (insert_fragment x b a f) =
    if is_final x then skb_offset x + skb_length x else f_totallength f.
Proof. unfold insert_fragment, is_final. by destruct (IS_FLAG_L_HEADER _). Qed.

Lemma insert_collected n x b a f got :
  collected n got f -> f_fragments f = b ++ a ->
  (is_final x = true -> skb_offset x + skb_length x = n) ->
  collected n (x :: got) (insert_fragment x b a f).
Proof.
  intros [H1 H2 H3] E Hx. split.
  - rewrite insert_fragments, <- H1, E. by rewrite Permutation_middle.
  - rewrite insert_is_last, orb_true_iff, H2. by rewrite Exists_cons.
  - rewrite insert_is_last, insert_totallength. destruct (is_final x); [by auto|done].
Qed.

(** A queue is complete when the last of the fragments is in it. *)
Lemma complete_iff id n rest i f got :
  queue_ok i f -> collected n got f -> whole id n (rest ++ got) ->
  fragment_complete f = bool_decide (rest = []).
Proof.
  intros Hq [H1 H2 H3] Hw. pose proof (whole_bound _ _ _ Hw) as Hn.
  assert (Ht := w_total _ _ _ Hw). rewrite total_app, <- (total_perm _ _ H1) in Ht.
  pose proof (total_bound _ (q_ordered _ _ Hq) (q_skbs _ _ Hq)) as Hb.
  pose proof (w_positive _ _ _ Hw) as Hpos. apply Forall_app in Hpos as [Hpos _].
  apply total_nonneg in Hpos.
  unfold fragment_complete. fold (is_last f). rewrite (q_recv _ _ Hq), to_int_small by lia.
  case_bool_decide as Hr.
  - subst rest. pose proof (w_finished _ _ _ Hw) as Hx. cbn [app] in Hx. apply H2 in Hx.
    rewrite Hx, (H3 Hx). cbn [andb]. cbn in Ht. apply Z.eqb_eq. rewrite <- Ht. done.
  - destruct (is_last f) eqn:El; [|done]. rewrite (H3 eq_refl). cbn [andb]. apply Z.eqb_neq.
    destruct rest; [done|]. cbn [length] in Hpos. lia.
Qed.

Lemma touch_collected n got t f : collected n got f -> collected n got (touch_fragment t f).
Proof. intros [H1 H2 H3]. by split. Qed.

(** What is left of a queue that got the fragment [x], [rest] being missing. *)
Definition collects (id n : Z) (got rest : list sk_buff) (x : sk_buff) (s' : sc_capwap_session)
    (o : option sk_buff) : Prop :=
  if decide (rest = []) then
    holding id n s' [] /\
    exists l, o = Some (Skb (message_of l) 0 empty_cb) /\ l ≡ₚ x :: got /\ ordered l
  else o = None /\ holding id n s' (x :: got).

Lemma place_found id n rest got x g i :
  queue_ok i g -> collected n got g -> whole id n (x :: rest ++ got) ->
  exists b a, fragment_position (skb_cb x) g = At b a.
Proof.
  intros Hq Hc Hw. pose proof (w_apart _ _ _ Hw) as Ha. inversion_clear Ha as [|? ? Ha1 _].
  apply Forall_app in Ha1 as [_ Ha]. rewrite <- (c_fragments _ _ _ Hc) in Ha.
  pose proof (Forall_inv (w_skbs _ _ _ Hw)) as Hx.
  apply fragment_position_found; [apply Hq|exact Ha| |apply (skb_length_range _ Hx)].
  eapply Forall_impl; [apply Hq|]. intros y Hy. by apply skb_length_range.
Qed.

Lemma place_collect id n got rest x g s :
  fragments_ok s -> slot id ∈ ks_lru s -> queue_ok (slot id) g -> fragment_enabled g = true ->
  ks_queues s !! slot id = Some g -> f_fragmentid g = id -> collected n got g ->
  whole id n (x :: rest ++ got) ->
  exists s' o, place_fragment (slot id) x g s = Some (s', o) /\ fragments_ok s' /\ same_peer s s' /\
    collects id n got rest x s' o.
Proof.
  intros Hs Hi Hq Hen Hg Hgid Hc Hw.
  destruct (place_found id n rest got x g _ Hq Hc Hw) as (b & a & Epos).
  pose proof (Forall_inv (w_skbs _ _ _ Hw)) as Hx. pose proof (Forall_inv (w_final _ _ _ Hw)) as Hfin.
  unfold place_fragment, collects. rewrite Epos.
  apply fragment_position_sorted in Epos as (Eg & Hb & Ha'); [|apply Hq..].
  assert (Hq' := insert_fragment_ok _ _ _ _ _ Hq Hx Eg Hb Ha').
  assert (He' : fragment_enabled (insert_fragment x b a g) = true) by by rewrite insert_fragment_enabled.
  assert (Hs' := set_queue_ok _ _ _ Hs Hi Hq' He').
  assert (Hc' := insert_collected n _ b a g got Hc Eg Hfin).
  assert (Hcomp : fragment_complete (insert_fragment x b a g) = bool_decide (rest = []))
    by (eapply complete_iff; [done..|]; by rewrite <- Permutation_middle).
  rewrite Hcomp. destruct (decide (rest = [])) as [Hrest|Hrest].
  - rewrite bool_decide_true in Hcomp |- * by done.
    unfold fragment_complete in Hcomp. apply andb_true_iff in Hcomp as [_ Hfull%Z.eqb_eq].
    rewrite sc_capwap_reasm_spec; [|rewrite insert_fragments; by destruct b|apply Hq'
      |by apply (recv_total _ _ Hq')|apply Hq'].
    obind. destruct (sc_capwap_fragment_free_ok (slot id) _ Hs' Hi) as (s' & -> & ? & ? & _ & f' & ? & ?).
    eexists _, _. split; [done|]. split; [done|]. split; [done|].
    split; [by eapply holding_none|]. eexists. split; [done|]. split; [apply Hc'|apply Hq'].
  - clear Hcomp. rewrite bool_decide_false by done. cbn [ks_lru set_queue with_fragments].
    assert (Hs'' := set_queue_ok _ _ _ Hs' Hi (touch_fragment_ok _ (skb_tstamp x) _ Hq') He').
    assert (Hhold : forall lru, holding id n (set_lru lru (set_queue (slot id)
      (touch_fragment (skb_tstamp x) (insert_fragment x b a g))
      (set_queue (slot id) (insert_fragment x b a g) s))) (x :: got)).
    { intros lru. pose proof (lookup_lt_Some _ _ _ Hg).
      eapply holding_some; [cbn; by rewrite list_lookup_insert_eq by (by rewrite length_insert)|done| | |].
      - unfold insert_fragment. destruct (IS_FLAG_L_HEADER _); exact Hgid.
      - by apply touch_collected.
      - constructor. }
    case_bool_decide.
    + eexists _, _. split; [reflexivity|]. split; [done|]. split; [done|].
      split; [done|]. apply (Hhold (ks_lru s)).
    + rewrite lru_del_elem by done. obind.
      eexists _, _. split; [reflexivity|]. split; [exact (move_tail_ok _ _ Hs'' Hi)|].
      split; [done|]. split; [done|]. apply Hhold.
Qed.

(** The next fragment of a message. *)
Lemma collect_step id n s got rest x :
  fragments_ok s -> holding id n s got -> whole id n (received x :: rest ++ got) ->
  exists s' o, sc_capwap_defrag s x = Some (s', o) /\ fragments_ok s' /\ same_peer s s' /\
    collects id n got rest (received x) s' o.
Proof.
  intros Hs Hh Hw. pose proof (Forall_inv (w_skbs _ _ _ Hw)) as Hx.
  pose proof (Forall_inv (w_id _ _ _ Hw)) as Hid. change (packet_id (skb_data x) = id) in Hid.
  assert (Hp : packet_ok (skb_data x)) by apply Hx.
  pose proof (frag_id_range _ (proj1 Hp)) as Hr. fold (packet_id (skb_data x)) in Hr. rewrite Hid in Hr.
  rewrite sc_capwap_defrag_packet by done. cbn zeta.
  fold (packet_id (skb_data x)). rewrite Hid. fold (slot id).
  destruct (enter_holding _ _ _ _ Hs Hh Hr) as (f & g & s1 & Hf & He & Hgid & Hc).
  pose proof (enter_fragment_ok id f s Hs Hr Hf) as H. fold (slot id) in H.
  rewrite Hf. obind. rewrite He in H |- *. destruct H as (Hs1 & Hp1 & Hi & Hq & Hen & Hg & _).
  destruct (place_collect id n got rest _ g s1 Hs1 Hi Hq Hen Hg Hgid Hc Hw) as (s' & o & E & ? & ? & ?).
  exists s', o. split; [done|]. split; [done|]. split; [by eapply same_peer_trans|done].
Qed.
End Collect.

(** ** The packets of a message, one by one *)

(** Two times that are no more than a second apart. *)
Definition close (t t' : Z) : Prop := - NSEC_PER_SEC <= t - t' <= NSEC_PER_SEC.

(** A queue that was used within the last second is not dropped. *)
Lemma evictor_holding id n s got now :
  fragments_ok s -> holding id n s got -> Forall (fun x => close now (skb_tstamp x)) got ->
  exists s', sc_capwap_defrag_evictor s now = Some s' /\ fragments_ok s' /\ same_peer s s' /\
    holding id n s' got.
Proof.
  intros Hs Hh Hc. unfold sc_capwap_defrag_evictor.
  destruct (ks_lru s) as [|i l] eqn:El; [by eauto using same_peer_refl|].
  assert (Hi : i ∈ ks_lru s) by (rewrite El; constructor).
  pose proof (proj1 (s_lru _ Hs i) Hi) as (f & Hf & He). rewrite Hf. obind.
  destruct (_ || _) eqn:Ed; [|by eauto using same_peer_refl].
  destruct (sc_capwap_fragment_free_ok i s Hs Hi) as (s' & E & ? & ? & Hoth & Hown).
  exists s'. split; [done|]. split; [done|]. split; [done|].
  destruct (decide (i = slot id)) as [->|Hne].
  - exfalso. destruct Hh as [g Hg Hd|g got Hg _ _ _ Ht]; [congruence|].
    rewrite Hf in Hg. injection Hg as <-.
    apply list_elem_of_fmap in Ht as (x & Ex & Hx). rewrite Forall_forall in Hc.
    specialize (Hc x Hx). rewrite Ex in Ed. unfold close in Hc. apply orb_true_iff in Ed. lia.
  - destruct Hh as [g Hg Hd|g got Hg ? ? ? ?].
    + apply (holding_none _ _ _ g); [|done]. by rewrite (Hoth (slot id) (not_eq_sym Hne)).
    + apply (holding_some _ _ _ g); [|done..]. by rewrite (Hoth (slot id) (not_eq_sym Hne)).
Qed.

Section Receive.
Context {I : Indeterminate} {E : KernelEnv} {L : Linux80211}.
Context {K P : Type} {D : Dependent K P} {DL : DependentLaws D}.

(** The packets of a session, one after the other. *)
Fixpoint receive_packets (p : P) (sockaddr : capwap_addr) (l : list sk_buff) (k : K) : option K :=
  match l with
  | [] => Some k
  | skb :: l =>
      '(_, k) ← sc_capwap_parsingpacket (Some p) sockaddr skb k;
      receive_packets p sockaddr l k
  end.

(** A fragment that is received. *)
Lemma parsing_fragment p a skb k s id off final :
  piece id off final (skb_data skb) -> skb_tstamp skb <> 0 -> get_session p k = Some s ->
  sc_capwap_parsingpacket (Some p) a skb k =
    s ← sc_capwap_defrag_evictor s (skb_tstamp skb);
    '(s, complete) ← sc_capwap_defrag s skb;
    match complete with
    | None => Some (0, put_session p s k)
    | Some skb => k ← parsing_message p skb (put_session p s k); Some (0, k)
    end.
Proof.
  intros Hp Ht Hs. destruct Hp as [(_ & _ & Hh) Hv Hty Hk Hf _ _ _ _]. unfold sc_capwap_parsingpacket, skb_len.
  unfold sizeof_capwap_header in *. replace (zlen (skb_data skb) <? 8) with false by lia.
  rewrite Hv, Hty, Hk, Hf, Hs. cbn [negb Z.eqb CAPWAP_PROTOCOL_VERSION CAPWAP_PREAMBLE_HEADER].
  by replace (skb_tstamp skb =? 0) with false by lia.
Qed.

(** Buffers stamped within the second after [t]. *)
Definition stamped (t : Z) (l : list sk_buff) : Prop :=
  Forall (fun x => skb_tstamp x <> 0 /\ t <= skb_tstamp x <= t + NSEC_PER_SEC) l.

Lemma stamped_close t l x :
  stamped t l -> t <= skb_tstamp x <= t + NSEC_PER_SEC -> Forall (fun y => close (skb_tstamp x) (skb_tstamp y)) l.
Proof. intros Hl Hx. eapply Forall_impl; [exact Hl|]. intros y [_ ?]. unfold close. lia. Qed.

Lemma receive_pieces id n t p a l : forall got s k,
  l <> [] -> Forall (fun x => exists off final, piece id off final (skb_data x)) l ->
  stamped t l -> stamped t got ->
  get_session p k = Some s -> fragments_ok s -> holding id n s got ->
  whole id n ((received <$> l) ++ got) ->
  exists s' m, fragments_ok s' /\ same_peer s s' /\ holding id n s' [] /\ ordered m /\
    m ≡ₚ (received <$> l) ++ got /\
    receive_packets p a l k = parsing_message p (Skb (message_of m) 0 empty_cb) (put_session p s' k).
Proof.
  induction l as [|x l IH]; intros got s k Hne Hp Ht Htg Hget Hs Hh Hw; [done|].
  inversion_clear Hp as [|? ? (off & final & Hx) Hl]. inversion_clear Ht as [|? ? [Hx0 Hxt] Htl].
  cbn [receive_packets]. rewrite (parsing_fragment p a x k s _ _ _ Hx Hx0 Hget).
  destruct (evictor_holding _ _ _ _ (skb_tstamp x) Hs Hh (stamped_close _ _ _ Htg Hxt))
    as (s1 & -> & Hs1 & Hp1 & Hh1). obind.
  destruct (collect_step id n s1 got (list_fmap _ _ received l) x Hs1 Hh1 Hw)
    as (s2 & o & -> & Hs2 & Hp2 & Hc).
  unfold collects in Hc. destruct (decide _) as [Hnil|Hnn].
  - apply fmap_nil_inv in Hnil as ->. destruct Hc as (Hh2 & m & -> & Hm & Ho).
    exists s2, m. split; [done|]. split; [by eapply same_peer_trans|]. split; [done|].
    split; [done|]. split; [done|]. by destruct (parsing_message _ _ _).
  - destruct Hc as [-> Hh2].
    destruct (IH (received x :: got) s2 (put_session p s2 k)) as (s' & m & ? & ? & ? & ? & Hm & Em); try done.
    + intros ->. done.
    + by constructor.
    + apply get_put_session. by rewrite Hget.
    + by rewrite <- Permutation_middle.
    + exists s', m. split; [done|]. split; [by do 2 (eapply same_peer_trans; [done|])|].
      split; [done|]. split; [done|]. split; [by rewrite Hm, <- Permutation_middle|].
      by rewrite Em, put_put_session.
Qed.

(** ** The order of the packets *)

(** The fragments in order are the message as it was sent. *)
Lemma pieces_ordered id l : forall off, pieces id off l ->
  StronglySorted (fun d d' => packet_offset d < packet_offset d') l.
Proof.
  induction l as [|d l IH]; intros off; [constructor|]. intros [Hp Hl].
  constructor; [by eapply IH|]. apply pieces_forall in Hl. eapply Forall_impl; [exact Hl|].
  intros e (_ & _ & _ & He & _). pose proof (p_body _ _ _ _ Hp). pose proof (p_offset _ _ _ _ Hp). lia.
Qed.

Lemma ordered_pieces id l (m arrived : list sk_buff) :
  pieces id 0 l -> skb_data <$> arrived ≡ₚ l -> m ≡ₚ received <$> arrived -> ordered m ->
  skb_data <$> m = l.
Proof.
  intros Hl Ha Hm Ho.
  apply (StronglySorted_unique_strong (fun d d' => packet_offset d < packet_offset d')).
  - intros d d' _ _ ? ?. lia.
  - assert (Hk : Forall (fun x => skb_offset x = packet_offset (skb_data x)) m).
    { rewrite Hm. apply Forall_fmap, Forall_true. done. }
    clear -Ho Hk. induction Ho as [|x m _ IH Hx]; cbn; [constructor|].
    inversion_clear Hk as [|? ? Hk1 Hk2]. constructor; [by apply IH|]. apply Forall_fmap.
    rewrite Forall_forall in *. intros y Hy. cbn. rewrite <- Hk1, <- (Hk2 y Hy). by apply Hx.
  - by eapply pieces_ordered.
  - rewrite Hm, <- list_fmap_compose. by rewrite <- Ha.
Qed.

(** The message in one packet: the header of the first fragment without the
    fragment fields, then the bodies. *)
Definition joined (l : list (list Z)) : list Z :=
  match l with
  | [] => []
  | d :: _ => message_header d ++ payload l
  end.

Lemma message_of_joined m : message_of m = joined (skb_data <$> m).
Proof. destruct m as [|x m]; [done|]. cbn [message_of joined fmap list_fmap]. unfold payload. by rewrite list_fmap_compose. Qed.

Lemma receive_any_order id l t p a arrived s k :
  l <> [] -> pieces id 0 l -> skb_data <$> arrived ≡ₚ l -> stamped t arrived ->
  get_session p k = Some s -> fragments_ok s -> holding id (zlen (payload l)) s [] ->
  exists s', fragments_ok s' /\ same_peer s s' /\ holding id (zlen (payload l)) s' [] /\
    receive_packets p a arrived k =
      parsing_message p (Skb (joined l) 0 empty_cb) (put_session p s' k).
Proof.
  intros Hne Hl Ha Ht Hget Hs Hh.
  destruct (Permutation_map_inv skb_data _ (symmetry Ha)) as (sorted & El & Hp). symmetry in Hp.
  change (map skb_data sorted) with (skb_data <$> sorted) in El. rewrite El in *.
  assert (Hw : whole id (zlen (payload (skb_data <$> sorted))) ((received <$> arrived) ++ [])).
  { rewrite app_nil_r, <- Hp. apply pieces_whole; [by intros ->|done]. }
  destruct (receive_pieces id (zlen (payload (skb_data <$> sorted))) t p a arrived [] s k)
    as (s' & m & ? & ? & ? & Hm & Hperm & Hr); try done.
  - intros ->. apply Permutation_nil_r in Hp as ->. done.
  - rewrite <- Hp. pose proof (pieces_piece _ _ 0 Hl) as Hpp. exact (proj1 (Forall_fmap _ _ _) Hpp).
  - constructor.
  - exists s'. split; [done|]. split; [done|]. split; [done|]. rewrite app_nil_r in Hperm.
    by rewrite Hr, message_of_joined, (ordered_pieces _ _ _ _ Hl Ha Hperm Hm).
Qed.
End Receive.
