(* ===== verification/KmodForward.v ===== *)
(** Sending: the packets of [sc_capwap_forwarddata] for a frame that does not fit
    the MTU are the pieces of one message, and joined they are the packet that is
    sent when it fits.  The conversions of frames and the keep-alive. *)
From stdpp Require Import option.
From S2P Require Import Prelude Io Header KmodCapwap KmodCapwapSpec KmodReassembly.
#[local] Open Scope Z_scope.

(** ** Headers *)

Section Headers.
Context {I : Indeterminate} {E : KernelEnv} {L : Linux80211}.

(** The 8 bytes of the header of a packet. *)
Definition fixed_header (radioid binding flags : Z) (m w : bool) (hlen : Z) : list Z :=
  forward_header radioid binding flags m w hlen (zeros 8).

Ltac header_unfold :=
  unfold fixed_header, forward_header, forward_fragment, SET_VERSION_HEADER, SET_TYPE_HEADER,
    SET_WBID_HEADER, SET_RID_HEADER, SET_FLAG_T_HEADER, SET_FLAG_M_HEADER, SET_FLAG_W_HEADER,
    SET_FLAG_F_HEADER, SET_FLAG_L_HEADER, SET_HLEN_HEADER, GET_VERSION_HEADER, GET_TYPE_HEADER,
    GET_HLEN_HEADER, GET_WBID_HEADER, IS_FLAG_T_HEADER, IS_FLAG_F_HEADER, IS_FLAG_L_HEADER, IS_FLAG_K_HEADER,
    IS_FLAG_M_HEADER, IS_FLAG_W_HEADER, is_flag, set_flag, sizeof_capwap_header.

(** Small positions as natural numbers. *)
Ltac positions :=
  change (Z.to_nat 0) with 0%nat in *; change (Z.to_nat 1) with 1%nat in *;
  change (Z.to_nat 2) with 2%nat in *; change (Z.to_nat 3) with 3%nat in *;
  change (Z.to_nat 4) with 4%nat in *; change (Z.to_nat 5) with 5%nat in *;
  change (Z.to_nat 6) with 6%nat in *; change (Z.to_nat 7) with 7%nat in *; cbn in *.

Lemma length_fixed_header r b fl m w h : length (fixed_header r b fl m w h) = 8%nat.
Proof. header_unfold. destruct m, w; blen. Qed.

Lemma forward_header_app r b fl m w h h8 rest :
  zlen h8 = 8 -> forward_header r b fl m w h (h8 ++ rest) = fixed_header r b fl m w h ++ rest.
Proof.
  intros H8. header_unfold.
  assert (Hz : forall l, zlen l = 8 -> write_at 0 (zeros 8) (l ++ rest) = zeros 8 ++ rest).
  { intros l Hl. rewrite write_at_app_l by (rewrite ?length_zeros; lia). f_equal.
    unfold write_at. rewrite drop_ge by (rewrite length_zeros; lia). by rewrite app_nil_r. }
  rewrite Hz by done. replace (write_at 0 (zeros 8) (zeros 8)) with (zeros 8) by done.
  destruct m, w; by repeat (rewrite set_field_app by (first [reflexivity | blen])).
Qed.

Lemma fixed_header_bytes r b fl m w h :
  exists b0 b1 b2 b3, fixed_header r b fl m w h = [b0; b1; b2; b3; 0; 0; 0; 0].
Proof.
  header_unfold. destruct m, w; eexists _, _, _, _;
    cbv -[set_bits wrap8 wrap16 Z.land Z.shiftr Z.shiftl has_flag negb]; reflexivity.
Qed.

Lemma fixed_header_ok r b fl m w h : bytes_ok (fixed_header r b fl m w h).
Proof.
  header_unfold. assert (bytes_ok (zeros 8)) by (repeat constructor; lia).
  assert (bytes_ok (write_at 0 (zeros 8) (zeros 8))) by (by apply bytes_ok_write_at).
  destruct m, w; repeat (apply bytes_ok_set_field; [done|]); done.
Qed.

Lemma fixed_header_fields r b fl m w h :
  0 <= h < 32 ->
  let d := fixed_header r b fl m w h in
  get_field f_version d = 0 /\ get_field f_type d = 0 /\ get_field f_hlen d = h /\
  get_field f_flag_k d = 0 /\ get_field f_flag_f d = 0 /\ get_field f_flag_l d = 0.
Proof.
  intros Hh d. unfold d. header_unfold. replace (write_at 0 (zeros 8) (zeros 8)) with (zeros 8) by done.
  destruct m, w; hdr; (split; [done|]); (split; [done|]); (split; [by apply hlen_set|done]).
Qed.

(** The T bit: an 802.11 frame, unless the flag of 802.3 is given. *)
Lemma fixed_header_tunnel r b fl m w h : 0 <= h < 32 ->
  IS_FLAG_T_HEADER (fixed_header r b fl m w h) = negb (has_flag fl NLSMARTCAPWAP_FLAGS_TUNNEL_8023).
Proof.
  intros Hh. header_unfold. replace (write_at 0 (zeros 8) (zeros 8)) with (zeros 8) by done.
  destruct (has_flag _ _); destruct m, w; hdr; done.
Qed.

(** The header of a fragment: one byte differs, and the last four. *)
Lemma fragment_header_bytes final id off b0 b1 b2 b3 :
  forward_fragment final id off [b0; b1; b2; b3; 0; 0; 0; 0] =
    [b0; b1; b2; if final then set_bits 6 1 1 (set_bits 7 1 1 b3) else set_bits 7 1 1 b3]
      ++ be16 id ++ be16 off.
Proof. by destruct final. Qed.

(** The fields of the header of a fragment. *)
Lemma fragment_header_fields r b fl m w h final id off :
  0 <= h < 32 -> is_u16 id -> is_u16 off ->
  let d := forward_fragment final id off (fixed_header r b fl m w h) in
  length d = 8%nat /\ bytes_ok d /\
  GET_VERSION_HEADER d = CAPWAP_PROTOCOL_VERSION /\ GET_TYPE_HEADER d = CAPWAP_PREAMBLE_HEADER /\
  IS_FLAG_K_HEADER d = false /\ IS_FLAG_F_HEADER d = true /\ IS_FLAG_L_HEADER d = final /\
  GET_HLEN_HEADER d = h /\ packet_id d = id /\ packet_offset d = off.
Proof.
  intros Hh Hid Hoff. pose proof (fixed_header_fields r b fl m w h Hh) as Hf.
  pose proof (fixed_header_ok r b fl m w h) as Hok.
  destruct (fixed_header_bytes r b fl m w h) as (b0 & b1 & b2 & b3 & Eb). cbn zeta in *. rewrite Eb in *.
  rewrite fragment_header_bytes. destruct Hf as (H1 & H2 & H3 & H4 & H5 & H6).
  unfold get_field, byte_at in H1, H2, H3, H4, H5, H6. cbn in H1, H2, H3, H4, H5, H6. positions.
  inversion Hok as [|? ? K0 Hok1]. inversion Hok1 as [|? ? K1 Hok2]. inversion Hok2 as [|? ? K2 Hok3].
  inversion Hok3 as [|? ? K3 _]. subst.
  assert (K3' : is_u8 (if final then set_bits 6 1 1 (set_bits 7 1 1 b3) else set_bits 7 1 1 b3)).
  { destruct final; repeat (apply set_bits_range; [lia..|]); done. }
  split; [done|]. split; [by repeat (apply Forall_cons_2; [first [done|apply wrap8_range]|])|].
  header_unfold. unfold packet_id, packet_offset, get_field, byte_at, be16. cbn [f_byte f_lo f_width f_version f_type f_hlen f_flag_k f_flag_f f_flag_l app].
  positions. split; [done|]. split; [done|].
  split; [destruct final; rewrite !get_set_bits_other by lia; by rewrite H4|].
  split; [destruct final; [rewrite get_set_bits_other by lia|]; by rewrite get_set_bits by lia|].
  split; [destruct final; [by rewrite get_set_bits by lia|rewrite get_set_bits_other by lia; by rewrite H6]|].
  split; [done|]. split; by apply val16_be16.
Qed.

Lemma set_bits_clear lo w x : 0 <= lo -> 0 <= w -> get_bits lo w x = 0 -> set_bits lo w 0 x = x.
Proof.
  intros Hlo Hw Hx. unfold set_bits. rewrite Z.land_0_l, Z.shiftl_0_l, Z.lor_0_r.
  apply Z.bits_inj'. intros n Hn. rewrite Z.ldiff_spec, Z.shiftl_spec, Z.testbit_ones by lia.
  destruct ((0 <=? n - lo) && (n - lo <? w)) eqn:Ein; cbn; [|by rewrite andb_true_r].
  rewrite andb_false_r. symmetry.
  assert (Hb : Z.testbit (get_bits lo w x) (n - lo) = false) by (rewrite Hx; apply Z.testbit_0_l).
  unfold get_bits in Hb. rewrite Z.land_spec, Z.shiftr_spec, Z.testbit_ones, Ein, andb_true_r in Hb by lia.
  by replace (n - lo + lo) with n in Hb by lia.
Qed.

Lemma set_bits_twice lo w v x :
  0 <= lo -> 0 <= w -> set_bits lo w 0 (set_bits lo w v x) = set_bits lo w 0 x.
Proof.
  intros. unfold set_bits. rewrite Z.land_0_l, Z.shiftl_0_l, !Z.lor_0_r. bits.
  rewrite Z.lor_spec, Z.ldiff_spec, !Z.shiftl_spec, Z.land_spec, Z.testbit_ones by lia.
  destruct ((0 <=? n - lo) && (n - lo <? w)); cbn; [by rewrite !andb_false_r|].
  by rewrite andb_false_r, orb_false_r, !andb_true_r.
Qed.

(** Without its fragment fields the header is that of a whole message. *)
Lemma whole_fragment_header r b fl m w h id :
  0 <= h < 32 ->
  whole_header (forward_fragment false id 0 (fixed_header r b fl m w h)) = fixed_header r b fl m w h.
Proof.
  intros Hh. pose proof (fixed_header_fields r b fl m w h Hh) as (_ & _ & _ & _ & H5 & H6).
  destruct (fixed_header_bytes r b fl m w h) as (b0 & b1 & b2 & b3 & Eb). rewrite Eb in *.
  rewrite fragment_header_bytes. unfold get_field, byte_at in H5, H6. cbn in H5, H6. positions.
  unfold whole_header, SET_FLAG_L_HEADER, SET_FLAG_F_HEADER, set_flag, set_field, be16, byte_at.
  unfold write_at. cbn [f_byte f_lo f_width f_flag_f f_flag_l length]. positions.
  by rewrite (set_bits_twice 7), (set_bits_clear 7), (set_bits_clear 6) by (done || lia).
Qed.
(** ** The packets of a frame *)

Lemma forward_fragment_app final id off h rest :
  zlen h = 8 -> forward_fragment final id off (h ++ rest) = forward_fragment final id off h ++ rest.
Proof.
  intros Hh. unfold forward_fragment, SET_FLAG_F_HEADER, SET_FLAG_L_HEADER, set_flag.
  rewrite set_field_app by (done || lia).
  assert (H1 := length_set_field f_flag_f 1 h eq_refl ltac:(lia)).
  destruct final.
  - assert (H2 := length_set_field f_flag_l 1 (set_field f_flag_f 1 h) eq_refl ltac:(lia)).
    rewrite set_field_app by (done || lia). rewrite write_at_app_l by (rewrite ?length_be16; lia).
    apply write_at_app_l; rewrite ?length_write_at; rewrite ?length_be16; lia.
  - rewrite write_at_app_l by (rewrite ?length_be16; lia).
    apply write_at_app_l; rewrite ?length_write_at; rewrite ?length_be16; lia.
Qed.

Lemma at_position_app pre f b : at_position (zlen pre) f (pre ++ b) = pre ++ f b.
Proof. unfold at_position. by rewrite Nat2Z.id, take_app_length, drop_app_length. Qed.

Lemma slice_app pre n b : slice (zlen pre) n (pre ++ b) = take (Z.to_nat n) b.
Proof. unfold slice. by rewrite Nat2Z.id, drop_app_length. Qed.

(** The optional parts of a header. *)
Definition option_bytes (radioaddr winfo : option (list Z)) : list Z :=
  default [] radioaddr ++ default [] winfo.

Definition option_length (o : option (list Z)) : Z := zlen (default [] o).

Lemma forward_options_app ra wi h room rest :
  zlen h = 8 -> zlen room = option_length ra + option_length wi ->
  forward_options ra (option_length ra) wi (option_length wi) (h ++ room ++ rest) =
    h ++ option_bytes ra wi ++ rest.
Proof.
  intros Hh Hr. unfold forward_options, option_bytes, option_length, sizeof_capwap_header in *.
  assert (W : forall pre bs room rest, length room = length bs ->
    write_at (zlen pre) bs (pre ++ room ++ rest) = pre ++ bs ++ rest).
  { clear. intros pre bs rm rest Hb. unfold write_at. rewrite Nat2Z.id, take_app_length.
    rewrite (assoc_L (++) pre rm rest), drop_app_length'; [done|]. rewrite length_app. lia. }
  destruct ra as [ra|], wi as [wi|]; cbn [default from_option id length] in *;
    rewrite ?(take_ge ra), ?(take_ge wi) by lia.
  - replace room with (take (length ra) room ++ drop (length ra) room) by apply take_drop.
    rewrite <- (assoc_L (++) (take _ _)). rewrite <- Hh.
    rewrite W by (rewrite length_take; lia).
    rewrite (assoc_L (++) h), <- Nat2Z.inj_add, <- length_app, W by (rewrite length_drop; lia).
    by rewrite <- !(assoc_L (++)).
  - rewrite app_nil_r, <- Hh. apply W. lia.
  - rewrite app_nil_l, <- Hh. apply W. lia.
  - destruct room; [done|cbn in Hr; lia].
Qed.

Lemma room_before (l : list Z) :
  8 <= zlen l -> exists pre room, l = pre ++ room /\ zlen room = 8 /\ zlen pre = zlen l - 8.
Proof.
  intros. exists (take (length l - 8) l), (drop (length l - 8) l).
  split; [by rewrite take_drop|]. rewrite length_take, length_drop. lia.
Qed.

(** The header of a fragment, optional parts and bytes of the frame. *)
Lemma fragment_piece r b fl m w final id off opts chunk :
  is_u16 id -> is_u16 off -> bytes_ok opts -> bytes_ok chunk -> (8 + zlen opts) mod 4 = 0 ->
  8 + zlen opts <= 124 -> 8 + zlen opts + zlen chunk <= 65535 -> 0 < zlen chunk ->
  let h := forward_fragment final id off (fixed_header r b fl m w ((8 + zlen opts) / 4)) in
  let d := h ++ opts ++ chunk in
  piece id off final d /\ body d = chunk /\ header_size d = 8 + zlen opts.
Proof.
  intros Hid Hoff Ho Hc Hm Hmax Hlen Hpos h d.
  assert (Hh : 0 <= (8 + zlen opts) / 4 < 32) by (Z.div_mod_to_equations; lia).
  destruct (fragment_header_fields r b fl m w _ final id off Hh Hid Hoff)
    as (Hl & Hok & Hv & Ht & Hk & Hf & Hfin & Hhl & Hpid & Hpoff). fold h in Hl, Hok, Hv, Ht, Hk, Hf, Hfin, Hhl, Hpid, Hpoff.
  assert (G : forall f, field_ok f = true -> get_field f d = get_field f h)
    by (intros; apply get_field_app; [done|lia]).
  assert (B : forall i, 0 <= i < 8 -> byte_at d i = byte_at h i) by (intros; apply byte_at_app; lia).
  assert (Hs : header_size d = 8 + zlen opts).
  { unfold header_size, GET_HLEN_HEADER. rewrite G by done. unfold GET_HLEN_HEADER in Hhl. rewrite Hhl.
    Z.div_mod_to_equations. lia. }
  assert (Hb : body d = chunk).
  { unfold body. rewrite Hs. unfold d. rewrite (assoc_L (++)), drop_app_length'; [done|].
    rewrite length_app. lia. }
  split; [|done]. unfold GET_VERSION_HEADER, GET_TYPE_HEADER, IS_FLAG_K_HEADER, IS_FLAG_F_HEADER,
    IS_FLAG_L_HEADER, is_flag, packet_id, packet_offset in *.
  split; unfold GET_VERSION_HEADER, GET_TYPE_HEADER, IS_FLAG_K_HEADER, IS_FLAG_F_HEADER,
    IS_FLAG_L_HEADER, is_flag, packet_id, packet_offset; rewrite ?G, ?B by (done || lia); try done.
  - split; [unfold d; rewrite !bytes_ok_app; auto|]. rewrite Hs. unfold d, sizeof_capwap_header.
    rewrite !length_app. lia.
  - by rewrite Hb.
Qed.

Section Loop.
Context (mtu : Z) (peer : capwap_addr) (r b fl : Z) (ra wi : option (list Z)) (id : Z).
Hypothesis Hmtu : 16 <= mtu <= 65535.
Hypothesis Hid : is_u16 id.
Hypothesis Hsent : forall log packet, 0 <= sendmsg log peer packet.

#[local] Abbreviation loop := (forward_loop mtu peer r b fl ra (option_length ra) wi (option_length wi) true id).

(** The bytes a packet takes of the [n] that are left. *)
Definition chunk_length (size n : Z) : Z :=
  if n <=? mtu - size then n else mtu - size - Z.rem (mtu - size) 8.

Lemma chunk_length_range size n :
  0 < n -> 8 <= mtu - size -> 0 < chunk_length size n <= n /\ chunk_length size n <= mtu - size.
Proof.
  intros. unfold chunk_length. destruct (_ <=? _) eqn:?; [lia|].
  rewrite Z.rem_mod_nonneg by lia. Z.div_mod_to_equations. lia.
Qed.

(** The buffer at the end of a turn: the packet, and the room for the next header
    over the last bytes of it. *)
Lemma turn_buffer (pre h rest : list Z) n :
  8 <= zlen h -> 0 <= n <= zlen rest ->
  slice (zlen pre) (zlen h + n) (pre ++ h ++ rest) = h ++ take (Z.to_nat n) rest /\
  exists pre' room, zlen room = 8 /\ zlen pre' = zlen pre + zlen h + n - 8 /\
    pre ++ h ++ rest = pre' ++ room ++ drop (Z.to_nat n) rest.
Proof.
  intros Hh Hn. split.
  - rewrite slice_app. replace (Z.to_nat (zlen h + n)) with (length h + Z.to_nat n)%nat by lia.
    by rewrite take_app_add.
  - destruct (room_before (pre ++ h ++ take (Z.to_nat n) rest)) as (pre' & room & Er & H8 & Hp).
    + rewrite !length_app. lia.
    + exists pre', room. rewrite !length_app, length_take in Hp. split; [done|]. split; [lia|].
      rewrite (assoc_L (++) pre'), <- Er, <- !(assoc_L (++)). by rewrite take_drop.
Qed.

Lemma pieces_nil off l : pieces id off l -> payload l = [] -> l = [].
Proof.
  destruct l as [|d l]; [done|]. intros [Hp _]. rewrite payload_cons. intros H.
  apply app_eq_nil in H as [H _]. pose proof (p_body _ _ _ _ Hp). rewrite H in *. cbn in *. lia.
Qed.

(** What [fuel] turns do, from the second header on. *)
Definition later_packets (fuel : nat) : Prop :=
  forall pre room rest off log,
  (length rest <= fuel)%nat -> zlen room = 8 -> 0 < off -> off + zlen rest <= 65535 -> bytes_ok rest ->
  exists l, loop fuel (pre ++ room ++ rest) (zlen pre) off (zlen rest) log =
      Some (0, log ++ (SentPacket peer <$> l)) /\ pieces id off l /\ payload l = rest.

(** The end of a turn: the packet is sent, and what is left is sent later. *)
Lemma turn_sends fuel pre h rest off log n :
  later_packets fuel -> (length rest <= S fuel)%nat -> 8 <= zlen h -> 0 < n <= zlen rest ->
  0 <= off -> off + zlen rest <= 65535 -> bytes_ok rest ->
  piece id off (zlen rest =? n) (h ++ take (Z.to_nat n) rest) ->
  body (h ++ take (Z.to_nat n) rest) = take (Z.to_nat n) rest ->
  exists l,
    (if (0 <=? zlen pre) && (0 <=? zlen h + n) && (zlen pre + zlen h + n <=? zlen (pre ++ h ++ rest)) then
       let '(err, log) := sc_socket_send (slice (zlen pre) (zlen h + n) (pre ++ h ++ rest)) peer log in
       if err <? 0 then Some (zlen rest, log) else
       loop fuel (pre ++ h ++ rest) (zlen pre + zlen h + n - sizeof_capwap_header) (off + n)
         (zlen rest - n) log
     else None) = Some (0, log ++ (SentPacket peer <$> (h ++ take (Z.to_nat n) rest) :: l)) /\
    pieces id off ((h ++ take (Z.to_nat n) rest) :: l) /\
    payload ((h ++ take (Z.to_nat n) rest) :: l) = rest.
Proof.
  intros Hlater Hf Hh Hn Ho Hmax Hok Hp Hb.
  destruct (turn_buffer pre h rest n) as (Hslice & pre' & room & Hr & Hpre & Hbuf); [lia..|].
  destruct (_ && _) eqn:Eg; [clear Eg|apply andb_false_iff in Eg; rewrite !length_app in Eg; bools; lia].
  rewrite Hslice. unfold sc_socket_send. replace (_ <? 0) with false by (pose proof (Hsent log (h ++ take (Z.to_nat n) rest)); lia).
  set (log' := log ++ _).
  assert (Hrest : zlen (drop (Z.to_nat n) rest) = zlen rest - n) by (rewrite length_drop; lia).
  destruct (Hlater pre' room (drop (Z.to_nat n) rest) (off + n) log') as (l & El & Hl & Hpay);
    [rewrite length_drop; lia|done|lia|lia|by apply bytes_ok_drop|].
  exists l. unfold sizeof_capwap_header. rewrite Hbuf, <- Hrest, <- Hpre, El. unfold log'.
  split; [by rewrite <- (assoc_L (++))|]. rewrite payload_cons, Hb, Hpay, take_drop. split; [|done].
  split; [|rewrite Hb, length_take; by replace (off + _) with (off + n) by lia].
  replace (bool_decide (l = [])) with (zlen rest =? n); [done|].
  destruct (zlen rest =? n) eqn:Er; symmetry.
  - apply bool_decide_eq_true, (pieces_nil _ _ Hl). rewrite Hpay. apply length_zero_iff_nil. lia.
  - apply bool_decide_eq_false. intros ->. rewrite <- Hpay in Hrest. cbn in Hrest. lia.
Qed.

Lemma loop_later fuel : later_packets fuel.
Proof.
  induction fuel as [|fuel IH]; intros pre room rest off log Hf Hr Ho Hmax Hok.
  { destruct rest; [|cbn in Hf; lia]. exists []. split; [cbn; by rewrite (app_nil_r log)|done]. }
  destruct (decide (rest = [])) as [->|Hne].
  { exists []. split; [cbn; by rewrite (app_nil_r log)|done]. }
  assert (Hpos : 0 < zlen rest) by (destruct rest; [done|cbn [length]; lia]).
  pose proof (chunk_length_range 8 (zlen rest) Hpos ltac:(lia)) as Hc.
  set (n := chunk_length 8 (zlen rest)) in *.
  cbn [forward_loop]. replace (zlen rest <=? 0) with false by lia. replace (off =? 0) with false by lia.
  rewrite andb_false_r. fold (chunk_length sizeof_capwap_header (zlen rest)).
  change (chunk_length sizeof_capwap_header (zlen rest)) with n.
  rewrite at_position_app, forward_header_app, at_position_app by done.
  pose proof (length_fixed_header r b fl false false (sizeof_capwap_header / 4)) as Hlf.
  rewrite forward_fragment_app by lia.
  destruct (fragment_piece r b fl false false (zlen rest =? n) id off [] (take (Z.to_nat n) rest))
    as (Hp & Hb & _); [done|lia|constructor|by apply bytes_ok_take|done|done| | |];
    [rewrite length_take; cbn [length]; lia..|].
  cbn [length app] in Hp, Hb. change (8 + Z.of_nat 0) with sizeof_capwap_header in Hp, Hb.
  destruct (fragment_header_fields r b fl false false (sizeof_capwap_header / 4) (zlen rest =? n) id off)
    as (Hlh & _); [done|done|lia|].
  set (h := forward_fragment _ id off _) in *.
  destruct (turn_sends fuel pre h rest off log n) as (l & El & Hl & Hpay); [done|done|lia..|done|done|done|].
  exists ((h ++ take (Z.to_nat n) rest) :: l). split; [|done].
  replace (zlen h) with sizeof_capwap_header in El by (by rewrite Hlh). exact El.
Qed.

Lemma option_bytes_length : zlen (option_bytes ra wi) = option_length ra + option_length wi.
Proof. unfold option_bytes, option_length. rewrite length_app. lia. Qed.

(** The packet of a frame that fits. *)
Definition whole_packet (data : list Z) : list Z :=
  fixed_header r b fl (bool_decide (is_Some ra)) (bool_decide (is_Some wi))
    ((8 + zlen (option_bytes ra wi)) / 4) ++ option_bytes ra wi ++ data.

Hypothesis Hopt : bytes_ok (option_bytes ra wi).
Hypothesis Hwords : (8 + zlen (option_bytes ra wi)) mod 4 = 0 /\ 8 + zlen (option_bytes ra wi) <= 124.
Hypothesis Hroom : 8 <= mtu - (8 + zlen (option_bytes ra wi)).

Lemma loop_first fuel room rest log :
  zlen room = 8 + zlen (option_bytes ra wi) -> (length rest <= fuel)%nat ->
  mtu < zlen rest + 8 + zlen (option_bytes ra wi) -> zlen rest <= 65535 -> bytes_ok rest ->
  exists l, loop fuel (room ++ rest) 0 0 (zlen rest) log =
      Some (0, log ++ (SentPacket peer <$> l)) /\ l <> [] /\ pieces id 0 l /\ joined l = whole_packet rest.
Proof.
  intros Hr Hf Hbig Hmax Hok.
  destruct fuel as [|fuel]; [lia|].
  set (opts := option_bytes ra wi) in *. set (size := 8 + zlen opts) in *.
  assert (Hpos : 0 < zlen rest) by lia.
  pose proof (chunk_length_range size (zlen rest) Hpos ltac:(lia)) as Hc.
  assert (Hnf : (zlen rest =? chunk_length size (zlen rest)) = false) by lia.
  set (n := chunk_length size (zlen rest)) in *.
  cbn [forward_loop]. replace (zlen rest <=? 0) with false by lia. change (0 =? 0) with true. cbn match.
  assert (Esz : sizeof_capwap_header + option_length ra + option_length wi = size).
  { unfold size, opts. rewrite option_bytes_length. unfold sizeof_capwap_header. lia. }
  rewrite Esz, andb_false_r, Z.quot_div_nonneg by (unfold size; lia).
  fold (chunk_length size (zlen rest)). change (chunk_length size (zlen rest)) with n.
  replace room with (take 8 room ++ drop 8 room) by apply take_drop. rewrite <- (assoc_L (++) (take 8 room)).
  assert (A : forall f l, at_position 0 f l = f l) by done. rewrite !A.
  rewrite forward_header_app by (rewrite length_take; lia).
  set (m := bool_decide (is_Some ra)). set (w := bool_decide (is_Some wi)).
  pose proof (length_fixed_header r b fl m w (size / 4)) as Hlf.
  rewrite forward_options_app; [|lia|rewrite length_drop, <- option_bytes_length; fold opts; lia].
  fold opts. rewrite forward_fragment_app by lia. rewrite Hnf.
  destruct (fragment_piece r b fl m w false id 0 opts (take (Z.to_nat n) rest)) as (Hp & Hb & Hhs);
    [done|lia|done|by apply bytes_ok_take|apply Hwords|apply Hwords| | |];
    [rewrite length_take; unfold size in *; lia..|]. fold size in Hp, Hb, Hhs.
  destruct (fragment_header_fields r b fl m w (size / 4) false id 0) as (Hlh & _);
    [unfold size; Z.div_mod_to_equations; lia|done|lia|].
  set (h := forward_fragment false id 0 _) in *.
  rewrite (assoc_L (++) h opts) in *.
  assert (Hho : zlen (h ++ opts) = size) by (rewrite length_app; unfold size; lia).
  destruct (turn_sends fuel [] (h ++ opts) rest 0 log n) as (l & El & Hl & Hpay);
    [apply loop_later|done|unfold size in *; lia|lia|lia|lia|done|by rewrite Hnf|done|].
  exists (((h ++ opts) ++ take (Z.to_nat n) rest) :: l). rewrite Hho in El. split; [exact El|].
  split; [done|]. split; [done|]. unfold joined, whole_packet. fold opts size m w.
  rewrite Hpay. unfold message_header. rewrite Hhs, take_app_length' by (unfold size in *; lia).
  rewrite whole_header_app by lia. unfold h. rewrite whole_fragment_header by (unfold size; Z.div_mod_to_equations; lia).
  by rewrite <- (assoc_L (++)).
Qed.
End Loop.

(** Optional parts that fill whole words of the header. *)
Definition options_ok (ra wi : option (list Z)) : Prop :=
  bytes_ok (option_bytes ra wi) /\
  (8 + zlen (option_bytes ra wi)) mod 4 = 0 /\ 8 + zlen (option_bytes ra wi) <= 124.

(** A frame that does not fit is sent as the pieces of the packet. *)
Lemma sc_capwap_forwarddata_pieces s r b fl ra wi data log :
  (forall log packet, 0 <= sendmsg log (ks_peeraddr s) packet) -> options_ok ra wi ->
  16 + zlen (option_bytes ra wi) <= ks_mtu s <= 65535 -> is_u16 (ks_fragmentid s) ->
  ks_mtu s < 8 + zlen (option_bytes ra wi) + zlen data -> zlen data <= 65535 -> bytes_ok data ->
  exists l,
    sc_capwap_forwarddata s r b data fl ra (option_length ra) wi (option_length wi) log =
      Some (0, with_fragmentid (wrap16 (ks_fragmentid s + 1)) s,
        log ++ (SentPacket (ks_peeraddr s) <$> l)) /\
    l <> [] /\ pieces (ks_fragmentid s) 0 l /\ joined l = whole_packet r b fl ra wi data.
Proof.
  intros Hsent (Ho & Hw & Hmax) Hmtu Hid Hbig Hd Hok.
  unfold sc_capwap_forwarddata. cbn zeta. unfold sizeof_capwap_header, sc_capwap_newfragmentid.
  pose proof (option_bytes_length ra wi) as Hol.
  replace (ks_mtu s <? _) with true by lia. cbn [fst snd].
  destruct (loop_first (ks_mtu s) (ks_peeraddr s) r b fl ra wi (ks_fragmentid s)) with
    (fuel := length data) (room := alloc_skb (8 + option_length ra + option_length wi)) (rest := data)
    (log := log) as (l & El & ?); try done; try lia.
  { unfold alloc_skb. rewrite length_replicate. unfold option_length in *. lia. }
  exists l. split; [|done]. cbn [ks_mtu ks_peeraddr with_fragmentid]. rewrite El. obind. done.
Qed.

(** A frame that fits is sent in one packet. *)
Lemma loop_whole fuel mtu peer r b fl ra wi data log :
  (forall log packet, 0 <= sendmsg log peer packet) ->
  8 + zlen (option_bytes ra wi) + zlen data <= mtu -> 0 < zlen data ->
  forward_loop mtu peer r b fl ra (option_length ra) wi (option_length wi) false 0 (S fuel)
    (alloc_skb (8 + option_length ra + option_length wi) ++ data) 0 0 (zlen data) log =
    Some (0, log ++ [SentPacket peer (whole_packet r b fl ra wi data)]).
Proof.
  intros Hsent Hfit Hpos. pose proof (option_bytes_length ra wi) as Hol.
  cbn [forward_loop]. replace (zlen data <=? 0) with false by lia. change (0 =? 0) with true. cbn match.
  unfold sizeof_capwap_header. set (size := 8 + option_length ra + option_length wi).
  replace (zlen data <=? mtu - size) with true by (unfold size; lia). cbn [negb andb].
  assert (A : forall f l, at_position 0 f l = f l) by done. rewrite A.
  assert (Hsize : 0 <= size) by (unfold size, option_length; lia).
  unfold alloc_skb. replace (Z.to_nat size) with (8 + Z.to_nat (size - 8))%nat
    by (unfold size, option_length in *; lia).
  rewrite replicate_add, <- (assoc_L (++)), forward_header_app by (by rewrite length_replicate).
  rewrite forward_options_app; [|by rewrite length_fixed_header|rewrite length_replicate; unfold size, option_length in *; lia].
  rewrite Z.quot_div_nonneg by lia. replace size with (8 + zlen (option_bytes ra wi)) by (unfold size; lia).
  fold (whole_packet r b fl ra wi data).
  assert (Hlen : zlen (whole_packet r b fl ra wi data) = 8 + zlen (option_bytes ra wi) + zlen data).
  { unfold whole_packet. rewrite !length_app, length_fixed_header. lia. }
  rewrite Hlen, !Z.leb_refl, slice_all by lia.
  replace (0 <=? _) with true by lia. cbn [andb]. unfold sc_socket_send.
  replace (_ <? 0) with false by (pose proof (Hsent log (whole_packet r b fl ra wi data)); lia).
  rewrite Z.sub_diag. by destruct fuel.
Qed.

Lemma sc_capwap_forwarddata_whole s r b fl ra wi data log :
  (forall log packet, 0 <= sendmsg log (ks_peeraddr s) packet) ->
  8 + zlen (option_bytes ra wi) + zlen data <= ks_mtu s -> 0 < zlen data ->
  sc_capwap_forwarddata s r b data fl ra (option_length ra) wi (option_length wi) log =
    Some (0, s, log ++ [SentPacket (ks_peeraddr s) (whole_packet r b fl ra wi data)]).
Proof.
  intros Hsent Hfit Hpos. pose proof (option_bytes_length ra wi) as Hol.
  unfold sc_capwap_forwarddata. cbn zeta. unfold sizeof_capwap_header.
  replace (ks_mtu s <? _) with false by lia.
  pose proof (loop_whole (pred (length data)) (ks_mtu s) _ r b fl ra wi data log Hsent Hfit Hpos) as H.
  replace (S (pred (length data))) with (length data) in H by lia. by rewrite H.
Qed.

(** ** Frames *)

(** An Ethernet frame: two addresses, a type and the rest. *)
Definition ethernet (dst src : list Z) (ethertype : Z) (rest : list Z) : list Z :=
  dst ++ src ++ be16 ethertype ++ rest.

Lemma ethernet_fields dst src t rest :
  zlen dst = 6 -> zlen src = 6 -> is_u16 t ->
  let e := ethernet dst src t rest in
  slice 0 6 e = dst /\ slice 6 6 e = src /\ val16 (byte_at e 12) (byte_at e 13) = t /\
  drop 12 e = be16 t ++ rest /\ drop 14 e = rest /\ zlen e = 14 + zlen rest.
Proof.
  intros Hd Hs Ht e.
  destruct dst as [|d0 [|d1 [|d2 [|d3 [|d4 [|d5 [|]]]]]]]; cbn [length] in Hd; try lia.
  destruct src as [|s0 [|s1 [|s2 [|s3 [|s4 [|s5 [|]]]]]]]; cbn [length] in Hs; try lia.
  unfold e, ethernet, slice, byte_at, be16.
  repeat split; try done; [by apply val16_be16|]. cbn [app length]. lia.
Qed.

(** Frames whose conversion can be undone: a type, or a length that counts the
    bytes and that no SNAP header follows. *)
Definition convertible (t : Z) (rest : list Z) : Prop :=
  ETH_P_802_3_MIN <= t \/
  (t = zlen rest /\ 8 <= zlen rest /\ slice 0 6 rest <> sc_rfc1042_header /\
   slice 0 6 rest <> sc_bridge_tunnel_header).

Section Frames.
Context {LL : Linux80211Laws L}.

(** A data frame from the distribution system has a header of 24 bytes, the
    destination in the first address and the source in the third. *)
Lemma to_8023_payload dst bssid src payload t cb :
  zlen dst = 6 -> zlen bssid = 6 -> zlen src = 6 -> 8 <= zlen payload ->
  let ethertype := val16 (byte_at payload 6) (byte_at payload 7) in
  sc_capwap_80211_to_8023 (Skb (ieee80211_data_header dst bssid src ++ payload) t cb) =
    if (bool_decide (slice 0 ETH_ALEN payload = sc_rfc1042_header) &&
        negb (ethertype =? ETH_P_AARP) && negb (ethertype =? ETH_P_IPX)) ||
       bool_decide (slice 0 ETH_ALEN payload = sc_bridge_tunnel_header)
    then Some (0, Skb (dst ++ src ++ drop 6 payload) t cb)
    else Some (0, Skb (dst ++ src ++ be16 (zlen payload) ++ payload) t cb).
Proof.
  intros Hd Hb Hs Hp et.
  destruct dst as [|d0 [|d1 [|d2 [|d3 [|d4 [|d5 [|]]]]]]]; cbn [length] in Hd; try lia.
  destruct src as [|s0 [|s1 [|s2 [|s3 [|s4 [|s5 [|]]]]]]]; cbn [length] in Hs; try lia.
  destruct bssid as [|b0 [|b1 [|b2 [|b3 [|b4 [|b5 [|]]]]]]]; cbn [length] in Hb; try lia.
  unfold sc_capwap_80211_to_8023, ieee80211_data_header. cbn [skb_data app].
  set (f := 8 :: _). assert (Efc : frame_control f = 520) by done. rewrite Efc.
  assert (Eh : sc_capwap_80211_hdrlen 520 = 24).
  { unfold sc_capwap_80211_hdrlen. by rewrite is_data_spec, has_a4_spec, is_data_qos_spec. }
  rewrite Eh, get_DA_spec, get_SA_spec. unfold skb_len. cbn [skb_data].
  assert (Hl : zlen f = 24 + zlen payload) by (unfold f; cbn [length]; lia).
  change (if Z.land 520 256 =? 0 then 4 else 16) with 4.
  change (if Z.land 520 768 =? 768 then 24 else if Z.land 520 512 =? 0 then 10 else 16) with 16.
  unfold ETH_ALEN. rewrite Hl. destruct (_ || _ || _) eqn:Eg; [bools; lia|clear Eg].
  replace (24 + zlen payload <? 24 + 8) with false by lia. cbn match.
  change (drop (Z.to_nat 24) f) with payload. fold et.
  change (drop (Z.to_nat (24 + 6)) f) with (drop 6 payload).
  change (slice 4 6 f) with [d0; d1; d2; d3; d4; d5]. change (slice 16 6 f) with [s0; s1; s2; s3; s4; s5].
  unfold with_data. cbn [skb_tstamp skb_cb app]. done.
Qed.

Lemma frame_round_trip dst src et rest bssid t cb :
  zlen dst = 6 -> zlen src = 6 -> zlen bssid = 6 -> is_u16 et -> convertible et rest ->
  exists payload,
    sc_capwap_8023_to_80211 (Skb (ethernet dst src et rest) t cb) bssid =
      Some (Skb (ieee80211_data_header dst bssid src ++ payload) t cb) /\
    sc_capwap_80211_to_8023 (Skb (ieee80211_data_header dst bssid src ++ payload) t cb) =
      Some (0, Skb (ethernet dst src et rest) t cb).
Proof.
  intros Hd Hs Hb Het Hc. destruct (ethernet_fields dst src et rest Hd Hs Het) as (E1 & E2 & E3 & E4 & E5 & E6).
  unfold sc_capwap_8023_to_80211, skb_len, ETH_HLEN, ETH_ALEN. cbn [skb_data].
  replace (_ <? 14) with false by lia. rewrite E1, E2, E3.
  destruct ((et =? ETH_P_AARP) || (et =? ETH_P_IPX)) eqn:Eb.
  - eexists. split; [cbn match; change (Z.to_nat (14 - 2)) with 12%nat; by rewrite E4|].
    rewrite to_8023_payload by (done || (rewrite !length_app, length_be16; cbn [length sc_bridge_tunnel_header sc_rfc1042_header]; lia)).
    change (slice 0 ETH_ALEN (sc_bridge_tunnel_header ++ be16 et ++ rest)) with sc_bridge_tunnel_header.
    rewrite (bool_decide_true (sc_bridge_tunnel_header = sc_bridge_tunnel_header)), orb_true_r by done. done.
  - destruct (ETH_P_802_3_MIN <=? et) eqn:Em.
    + eexists. split; [cbn match; change (Z.to_nat (14 - 2)) with 12%nat; by rewrite E4|].
      rewrite to_8023_payload by (done || (rewrite !length_app, length_be16; cbn [length sc_bridge_tunnel_header sc_rfc1042_header]; lia)).
      change (slice 0 ETH_ALEN (sc_rfc1042_header ++ be16 et ++ rest)) with sc_rfc1042_header.
      change (byte_at (sc_rfc1042_header ++ be16 et ++ rest) 6) with (wrap8 (et / 256)).
      change (byte_at (sc_rfc1042_header ++ be16 et ++ rest) 7) with (wrap8 et).
      rewrite val16_be16 by done. apply orb_false_iff in Eb as [-> ->].
      by rewrite (bool_decide_true (sc_rfc1042_header = sc_rfc1042_header)).
    + destruct Hc as [?|(-> & Hl & Hr & Hbr)]; [lia|].
      eexists. split; [cbn match; change (Z.to_nat 14) with 14%nat; by rewrite E5|].
      rewrite to_8023_payload by (done || lia). unfold ETH_ALEN.
      by rewrite !bool_decide_false by done.
Qed.
End Frames.

(** ** Keep-alives *)

(** An element: its type and its value. *)
Definition encode_element (e : Z * list Z) : list Z := be16 e.1 ++ be16 (zlen e.2) ++ e.2.
Definition encode_elements (l : list (Z * list Z)) : list Z := mjoin (encode_element <$> l).

Definition is_sessionid (e : Z * list Z) : bool :=
  (e.1 =? KCAPWAP_ELEMENT_SESSIONID) && (zlen e.2 =? sizeof_sessionid_element).

(** The first session identifier of a keep-alive. *)
Fixpoint first_sessionid (l : list (Z * list Z)) : option (list Z) :=
  match l with
  | [] => None
  | e :: l => if is_sessionid e then Some e.2 else first_sessionid l
  end.

Definition element_ok (e : Z * list Z) : Prop := is_u16 e.1 /\ is_u16 (zlen e.2).

Section KeepAlive.
Context {K P : Type} {D : Dependent K P}.

(** What a keep-alive with this session identifier does. *)
Definition keepalive_for (session : option P) (a : capwap_addr) (sessionid : list Z) (k : K) :
    option (Z * K) :=
  match session with
  | None =>
      '(found, k) ← recvunknownkeepalive a sessionid k;
      match found with
      | None => Some (- EINVAL, k)
      | Some _ => Some (0, emit (NotifyKeepAlive a sessionid) k)
      end
  | Some p =>
      s ← get_session p k;
      if bool_decide (ks_sessionid s = sessionid)
      then Some (0, emit (NotifyKeepAlive a sessionid) k) else Some (- EINVAL, k)
  end.

Lemma keepalive_elements_spec session a k l : forall fuel pre rest,
  (length l < fuel)%nat -> Forall element_ok l -> zlen (encode_elements l) < 65536 ->
  keepalive_elements fuel session a (pre ++ encode_elements l ++ rest) (zlen pre)
    (zlen (encode_elements l)) k =
  match first_sessionid l with
  | Some sessionid => keepalive_for session a sessionid k
  | None => Some (- EINVAL, k)
  end.
Proof.
  induction l as [|[type value] l IH]; intros fuel pre rest Hf Hok Hmax;
    (destruct fuel as [|fuel]; [lia|]); [done|].
  inversion_clear Hok as [|? ? [Ht Hv] Hl]. cbn [fst snd] in Ht, Hv.
  assert (Ee : encode_elements ((type, value) :: l) = be16 type ++ be16 (zlen value) ++ value ++ encode_elements l).
  { change (encode_elements ((type, value) :: l)) with (encode_element (type, value) ++ encode_elements l).
    unfold encode_element. cbn [fst snd]. by rewrite <- !(assoc_L (++)). }
  rewrite Ee in *.
  assert (Hn : zlen (be16 type ++ be16 (zlen value) ++ value ++ encode_elements l) =
    4 + zlen value + zlen (encode_elements l)) by (rewrite !length_app, !length_be16; lia).
  rewrite Hn in *. set (tail := encode_elements l) in *.
  cbn [keepalive_elements]. replace (_ =? 0) with false by lia.
  assert (B : forall i, (i < 4)%nat -> byte_at (pre ++ (be16 type ++ be16 (zlen value) ++ value ++ tail) ++ rest) (zlen pre + Z.of_nat i) =
    default 0 ((be16 type ++ be16 (zlen value)) !! i)).
  { intros i Hi. unfold byte_at. rewrite lookup_app_r by lia.
    replace (Z.to_nat _ - _)%nat with i by lia. rewrite <- !(assoc_L (++)), (assoc_L (++) (be16 type)).
    by rewrite lookup_app_l by (rewrite length_app, !length_be16; lia). }
  pose proof (B 0%nat ltac:(lia) : _ = wrap8 (type / 256)) as B0.
  pose proof (B 1%nat ltac:(lia) : byte_at _ (zlen pre + 1) = wrap8 type) as B1.
  pose proof (B 2%nat ltac:(lia) : byte_at _ (zlen pre + 2) = wrap8 (zlen value / 256)) as B2.
  pose proof (B 3%nat ltac:(lia) : byte_at _ (zlen pre + 3) = wrap8 (zlen value)) as B3. clear B.
  change (Z.of_nat 0) with 0 in B0.
  rewrite Z.add_0_r in B0. rewrite B0, B1, B2, B3, !val16_be16 by done. clear B0 B1 B2 B3.
  unfold sizeof_message_element, sizeof_sessionid_element.
  assert (Hlen : zlen (pre ++ (be16 type ++ be16 (zlen value) ++ value ++ tail) ++ rest) =
    zlen pre + 4 + zlen value + zlen tail + zlen rest) by (rewrite !length_app, !length_be16; lia).
  rewrite Hlen. replace (_ <? zlen pre + 4) with false by lia.
  replace (_ <? zlen value + 4) with false by lia.
  set (pre' := pre ++ be16 type ++ be16 (zlen value)).
  assert (Hpre : zlen pre' = zlen pre + 4) by (unfold pre'; rewrite !length_app, !length_be16; lia).
  cbn [first_sessionid]. unfold is_sessionid at 1, sizeof_sessionid_element. cbn [fst snd].
  destruct ((type =? KCAPWAP_ELEMENT_SESSIONID) && (zlen value =? 16)) eqn:Es.
  - replace (_ <? zlen pre + 4 + 16) with false by (apply andb_true_iff in Es; lia).
    assert (Esl : slice (zlen pre + 4) 16 (pre ++ (be16 type ++ be16 (zlen value) ++ value ++ tail) ++ rest) = value).
    { rewrite <- Hpre. replace (pre ++ _) with (pre' ++ value ++ tail ++ rest)
        by (unfold pre'; by rewrite <- !(assoc_L (++))).
      rewrite slice_app, take_app_length'; [done|]. apply andb_true_iff in Es. lia. }
    rewrite Esl. done.
  - rewrite (wrap16_small (zlen value + 4)), (wrap16_small (_ - _)) by lia.
    replace (pre ++ _) with ((pre' ++ value) ++ tail ++ rest)
      by (unfold pre'; by rewrite <- !(assoc_L (++))).
    replace (zlen pre + (zlen value + 4)) with (zlen (pre' ++ value)) by (rewrite length_app; lia).
    replace (4 + zlen value + zlen tail - (zlen value + 4)) with (zlen tail) by lia.
    apply IH; [cbn in Hf; lia|done|lia].
Qed.

(** A packet with elements is a keep-alive: its header, the length of the data
    message, the elements. *)
Lemma parsing_keepalive_spec session a k h l rest skb :
  skb_data skb = h ++ be16 (2 + zlen (encode_elements l)) ++ encode_elements l ++ rest ->
  8 <= zlen h -> header_size h = zlen h ->
  GET_VERSION_HEADER h = CAPWAP_PROTOCOL_VERSION -> GET_TYPE_HEADER h = CAPWAP_PREAMBLE_HEADER ->
  IS_FLAG_K_HEADER h = true -> IS_FLAG_F_HEADER h = false ->
  Forall element_ok l -> 2 + zlen (encode_elements l) < 65536 ->
  sc_capwap_parsingpacket session a skb k =
    match first_sessionid l with
    | Some sessionid => keepalive_for session a sessionid k
    | None => Some (- EINVAL, k)
    end.
Proof.
  intros Hd Hh Hs Hv Ht Hk Hf Hok Hmax.
  assert (G : forall f, field_ok f = true -> get_field f (skb_data skb) = get_field f h).
  { intros f Hfo. rewrite Hd. by apply get_field_app. }
  unfold sc_capwap_parsingpacket, parsing_keepalive, skb_len, GET_VERSION_HEADER, GET_TYPE_HEADER,
    IS_FLAG_K_HEADER, IS_FLAG_F_HEADER, is_flag, GET_HLEN_HEADER, header_size in *.
  rewrite !G by done. rewrite Hv, Ht, Hk, Hf. unfold GET_HLEN_HEADER in Hs. rewrite Hs.
  assert (Hl : zlen (skb_data skb) = zlen h + 2 + zlen (encode_elements l) + zlen rest).
  { rewrite Hd, !length_app, length_be16. lia. }
  pose proof (get_field_range f_hlen h eq_refl) as Hr. cbn in Hr.
  rewrite (wrap16_small (zlen h)) by lia. unfold sizeof_capwap_header, sizeof_data_message.
  replace (_ <? 8) with false by lia. cbn [negb Z.eqb CAPWAP_PROTOCOL_VERSION CAPWAP_PREAMBLE_HEADER].
  replace (_ <? zlen h + 2) with false by lia.
  assert (B : val16 (byte_at (skb_data skb) (zlen h)) (byte_at (skb_data skb) (zlen h + 1)) =
    2 + zlen (encode_elements l)).
  { unfold byte_at. rewrite Hd, (lookup_app_r h _ (Z.to_nat (zlen h))), (lookup_app_r h _ (Z.to_nat (zlen h + 1))) by lia.
    replace (Z.to_nat (zlen h) - length h)%nat with 0%nat by lia.
    replace (Z.to_nat (zlen h + 1) - length h)%nat with 1%nat by lia. apply val16_be16. lia. }
  rewrite B. replace (_ <? 2 + _) with false by lia.
  replace (2 + zlen (encode_elements l) - 2) with (zlen (encode_elements l)) by lia.
  rewrite wrap16_small by lia. rewrite Hd, (assoc_L (++) h).
  replace (zlen h + 2) with (zlen (h ++ be16 (2 + zlen (encode_elements l)))) by (rewrite length_app, length_be16; lia).
  apply keepalive_elements_spec; [|done|lia].
  enough (length l <= length (encode_elements l))%nat by lia.
  clear. induction l as [|e l IH]; [done|].
  change (encode_elements (e :: l)) with (encode_element e ++ encode_elements l).
  rewrite length_app. unfold encode_element. rewrite length_app, length_be16. cbn [length]. lia.
Qed.
End KeepAlive.

(** The keep-alive that the module sends. *)
Definition keepalive_header : list Z := [0; 16; 2; 8; 0; 0; 0; 0].

Lemma sc_capwap_createkeepalive_spec sessionid buffer :
  zlen sessionid = 16 -> zlen buffer = CAPWAP_KEEP_ALIVE_MAX_SIZE ->
  sc_capwap_createkeepalive sessionid buffer CAPWAP_KEEP_ALIVE_MAX_SIZE =
    (CAPWAP_KEEP_ALIVE_MAX_SIZE,
     keepalive_header ++ be16 22 ++ encode_elements [(KCAPWAP_ELEMENT_SESSIONID, sessionid)]).
Proof.
  intros Hs Hb. change CAPWAP_KEEP_ALIVE_MAX_SIZE with 30 in *.
  unfold encode_elements, encode_element. cbn [fmap list_fmap fst snd]. rewrite Hs. cbn [mjoin list_join].
  do 30 (destruct buffer as [|? buffer]; [cbn in Hb; lia|]). destruct buffer; [|cbn [length] in Hb; lia].
  do 16 (destruct sessionid as [|? sessionid]; [cbn in Hs; lia|]). destruct sessionid; [|cbn [length] in Hs; lia].
  reflexivity.
Qed.

(** A keep-alive whose data message is empty is read past its end: the length
    wraps around. *)
Lemma empty_keepalive {K P} {D : Dependent K P} session a t cb (k : K) :
  sc_capwap_parsingpacket session a (Skb (keepalive_header ++ [0; 0]) t cb) k = None.
Proof. done. Qed.
End Headers.
