(* ===== verification/KmodSession.v ===== *)
(** The sessions, stations, connections and interfaces of the kernel module
    (src/kmod/capwap_private.c, station.c, iface.c, the addresses of socket.c and
    the commands of netlinkapp.c), and its threads.

    Pointers are numbers, and the objects behind them are in finite maps; a freed
    object is not there any more, and touching it is a failure.  The lists of the
    kernel ([struct list_head]) are kept as they are in memory: [links] has the
    previous and the next node of every node, a node being the member of an object
    or the head of a list.  The hash tables are arrays of chains, linked through a
    field of the objects.  Operations run in the state-and-failure monad [KM].
    The update lock is held by every operation that changes the tables, so an
    operation is one step; the counters of the interfaces are left out. *)
From stdpp Require Import option gmap.
From S2P Require Import Prelude Io Header KmodCapwap.
#[local] Open Scope Z_scope.

(** ** Lists of the kernel *)

Inductive kind :=
| SetupList | RunningList | SessionNode | SessionStations | SessionConnections
| StationList | StationNode | StationSession | StationDev
| ConnectionSession | ConnectionDev
| DevList | DevNode | DevStations | DevConnections.

#[export] Instance kind_eq_dec : EqDecision kind.
Proof. solve_decision. Defined.

Definition kind_code (x : kind) : nat :=
  match x with
  | SetupList => 0 | RunningList => 1 | SessionNode => 2 | SessionStations => 3
  | SessionConnections => 4 | StationList => 5 | StationNode => 6 | StationSession => 7
  | StationDev => 8 | ConnectionSession => 9 | ConnectionDev => 10 | DevList => 11 | DevNode => 12
  | DevStations => 13 | DevConnections => 14
  end%nat.
Definition code_kind (n : nat) : kind :=
  match n with
  | 0 => SetupList | 1 => RunningList | 2 => SessionNode | 3 => SessionStations
  | 4 => SessionConnections | 5 => StationList | 6 => StationNode | 7 => StationSession
  | 8 => StationDev | 9 => ConnectionSession | 10 => ConnectionDev | 11 => DevList | 12 => DevNode
  | 13 => DevStations | _ => DevConnections
  end%nat.

#[export] Program Instance kind_countable : Countable kind := inj_countable' kind_code code_kind _.
Next Obligation. by intros []. Qed.

(** A node: the member of the object, or the head of a list. *)
Definition node : Type := kind * nat.

(** The previous and the next node of each node. *)
Abbreviation links := (gmap node (node * node)).

Definition set_prev (n x : node) (l : links) : option links :=
  '(_, next) ← l !! n; Some (<[n := (x, next)]> l).
Definition set_next (n x : node) (l : links) : option links :=
  '(prev, _) ← l !! n; Some (<[n := (prev, x)]> l).

Definition INIT_LIST_HEAD (head : node) (l : links) : links := <[head := (head, head)]> l.

Definition list_add (new head : node) (l : links) : option links :=
  '(_, next) ← l !! head;
  l ← set_prev next new l;
  set_next head new (<[new := (head, next)]> l).

Definition list_del (entry : node) (l : links) : option links :=
  '(prev, next) ← l !! entry;
  l ← set_prev next prev l;
  set_next prev next l.

Definition list_replace (old new : node) (l : links) : option links :=
  '(_, next) ← l !! old;
  l ← set_next new next l;
  l ← set_prev next new l;
  '(prev, _) ← l !! old;
  l ← set_prev new prev l;
  set_next prev new l.

(** ** Data *)

Record sc_capwap_wlan := KWlan { kw_used : Z; kw_bssid : list Z; kw_macmode : Z; kw_tunnelmode : Z }.

Record sc_capwap_session_priv := KSessionPriv {
  sp_session : sc_capwap_session;
  sp_next_ipaddr : option nat;
  sp_next_sessionid : option nat;
  sp_isolation : Z;
  sp_binding : Z;
  sp_wlans : list sc_capwap_wlan
}.

Record sc_capwap_station := KStation {
  st_address : list Z;
  st_next_addr : option nat;
  st_sessionpriv : nat;
  st_devpriv : nat;
  st_vlan : Z;
  st_radioid : Z;
  st_wlanid : Z
}.

Record sc_capwap_connection := KConnection {
  cn_count : Z;
  cn_sessionpriv : nat;
  cn_devpriv : nat;
  cn_vlan : Z;
  cn_radioid : Z;
  cn_wlanidmask : Z
}.

(** An interface with its index and the flag [IFF_UP]. *)
Record sc_netdev_priv := KNetdev { nd_ifindex : Z; nd_up : bool; nd_next : option nat }.

(** A buffer in the queue of a thread: the interface it came from, its VLAN tag
    when the kernel took it off, its protocol and its network header. *)
Record sk_packet := KPacket {
  pk_skb : sk_buff;
  pk_dev : nat;
  pk_vlan : option Z;
  pk_protocol : Z;
  pk_network : list Z
}.

Record kmod := Kmod {
  km_sessions : gmap nat sc_capwap_session_priv;
  km_stations : gmap nat sc_capwap_station;
  km_connections : gmap nat sc_capwap_connection;
  km_devs : gmap nat sc_netdev_priv;
  km_links : links;
  km_hash_ipaddr : gmap Z nat;
  km_hash_sessionid : gmap Z nat;
  km_hash_addr : gmap Z nat;
  km_hash_iface : gmap Z nat;
  km_fresh : nat;
  km_queues : list (list sk_packet);
  km_pos : Z;
  km_log : list kevent
}.

Definition set_sessions (x : gmap nat sc_capwap_session_priv) (k : kmod) : kmod :=
  Kmod x (km_stations k) (km_connections k) (km_devs k) (km_links k) (km_hash_ipaddr k)
    (km_hash_sessionid k) (km_hash_addr k) (km_hash_iface k) (km_fresh k) (km_queues k) (km_pos k)
    (km_log k).
Definition set_stations (x : gmap nat sc_capwap_station) (k : kmod) : kmod :=
  Kmod (km_sessions k) x (km_connections k) (km_devs k) (km_links k) (km_hash_ipaddr k)
    (km_hash_sessionid k) (km_hash_addr k) (km_hash_iface k) (km_fresh k) (km_queues k) (km_pos k)
    (km_log k).
Definition set_connections (x : gmap nat sc_capwap_connection) (k : kmod) : kmod :=
  Kmod (km_sessions k) (km_stations k) x (km_devs k) (km_links k) (km_hash_ipaddr k)
    (km_hash_sessionid k) (km_hash_addr k) (km_hash_iface k) (km_fresh k) (km_queues k) (km_pos k)
    (km_log k).
Definition set_devs (x : gmap nat sc_netdev_priv) (k : kmod) : kmod :=
  Kmod (km_sessions k) (km_stations k) (km_connections k) x (km_links k) (km_hash_ipaddr k)
    (km_hash_sessionid k) (km_hash_addr k) (km_hash_iface k) (km_fresh k) (km_queues k) (km_pos k)
    (km_log k).
Definition set_links (x : links) (k : kmod) : kmod :=
  Kmod (km_sessions k) (km_stations k) (km_connections k) (km_devs k) x (km_hash_ipaddr k)
    (km_hash_sessionid k) (km_hash_addr k) (km_hash_iface k) (km_fresh k) (km_queues k) (km_pos k)
    (km_log k).
Definition set_hash_ipaddr (x : gmap Z nat) (k : kmod) : kmod :=
  Kmod (km_sessions k) (km_stations k) (km_connections k) (km_devs k) (km_links k) x
    (km_hash_sessionid k) (km_hash_addr k) (km_hash_iface k) (km_fresh k) (km_queues k) (km_pos k)
    (km_log k).
Definition set_hash_sessionid (x : gmap Z nat) (k : kmod) : kmod :=
  Kmod (km_sessions k) (km_stations k) (km_connections k) (km_devs k) (km_links k) (km_hash_ipaddr k)
    x (km_hash_addr k) (km_hash_iface k) (km_fresh k) (km_queues k) (km_pos k) (km_log k).
Definition set_hash_addr (x : gmap Z nat) (k : kmod) : kmod :=
  Kmod (km_sessions k) (km_stations k) (km_connections k) (km_devs k) (km_links k) (km_hash_ipaddr k)
    (km_hash_sessionid k) x (km_hash_iface k) (km_fresh k) (km_queues k) (km_pos k) (km_log k).
Definition set_hash_iface (x : gmap Z nat) (k : kmod) : kmod :=
  Kmod (km_sessions k) (km_stations k) (km_connections k) (km_devs k) (km_links k) (km_hash_ipaddr k)
    (km_hash_sessionid k) (km_hash_addr k) x (km_fresh k) (km_queues k) (km_pos k) (km_log k).
Definition set_fresh (x : nat) (k : kmod) : kmod :=
  Kmod (km_sessions k) (km_stations k) (km_connections k) (km_devs k) (km_links k) (km_hash_ipaddr k)
    (km_hash_sessionid k) (km_hash_addr k) (km_hash_iface k) x (km_queues k) (km_pos k) (km_log k).
Definition set_threads (q : list (list sk_packet)) (pos : Z) (k : kmod) : kmod :=
  Kmod (km_sessions k) (km_stations k) (km_connections k) (km_devs k) (km_links k) (km_hash_ipaddr k)
    (km_hash_sessionid k) (km_hash_addr k) (km_hash_iface k) (km_fresh k) q pos (km_log k).
Definition set_log (x : list kevent) (k : kmod) : kmod :=
  Kmod (km_sessions k) (km_stations k) (km_connections k) (km_devs k) (km_links k) (km_hash_ipaddr k)
    (km_hash_sessionid k) (km_hash_addr k) (km_hash_iface k) (km_fresh k) (km_queues k) (km_pos k) x.

(** ** The monad *)

Definition KM (A : Type) : Type := kmod -> option (A * kmod).
#[export] Instance km_ret : MRet KM := fun A a k => Some (a, k).
#[export] Instance km_bind : MBind KM := fun A B f m k => '(a, k) ← m k; f a k.

Definition fails {A} : KM A := fun _ => None.
Definition gets {A} (f : kmod -> A) : KM A := fun k => Some (f k, k).
Definition puts (f : kmod -> kmod) : KM unit := fun k => Some (tt, f k).
Definition must {A} (f : kmod -> option A) : KM A := fun k => a ← f k; Some (a, k).
Definition on_links (f : links -> option links) : KM unit :=
  fun k => l ← f (km_links k); Some (tt, set_links l k).
Definition kemit (e : kevent) : KM unit := puts (fun k => set_log (km_log k ++ [e]) k).

(** [kzalloc]: a pointer that was never used. *)
Definition kzalloc : KM nat := fun k => Some (km_fresh k, set_fresh (S (km_fresh k)) k).

Definition get_sessionpriv (p : nat) : KM sc_capwap_session_priv := must (fun k => km_sessions k !! p).
Definition put_sessionpriv (p : nat) (s : sc_capwap_session_priv) : KM unit :=
  puts (fun k => set_sessions (<[p := s]> (km_sessions k)) k).
Definition get_station (p : nat) : KM sc_capwap_station := must (fun k => km_stations k !! p).
Definition put_station (p : nat) (s : sc_capwap_station) : KM unit :=
  puts (fun k => set_stations (<[p := s]> (km_stations k)) k).
Definition get_connection (p : nat) : KM sc_capwap_connection := must (fun k => km_connections k !! p).
Definition put_connection (p : nat) (c : sc_capwap_connection) : KM unit :=
  puts (fun k => set_connections (<[p := c]> (km_connections k)) k).
Definition get_devpriv (p : nat) : KM sc_netdev_priv := must (fun k => km_devs k !! p).
Definition put_devpriv (p : nat) (d : sc_netdev_priv) : KM unit :=
  puts (fun k => set_devs (<[p := d]> (km_devs k)) k).

(** [list_for_each_entry_safe]: the next node is read before the body runs; a
    node that is not the member [member] of an object is not an entry. *)
Fixpoint for_each_safe (fuel : nat) (head : node) (member : kind) (body : nat -> KM unit) (pos : node) :
    KM unit :=
  if bool_decide (pos = head) then mret tt else
  match fuel with
  | O => fails
  | S fuel =>
      if bool_decide (pos.1 = member) then
        next ← must (fun k => snd <$> km_links k !! pos);
        body pos.2;; for_each_safe fuel head member body next
      else fails
  end.
Definition list_for_each_entry_safe (head : node) (member : kind) (body : nat -> KM unit) : KM unit :=
  fuel ← gets (fun k => size (km_links k));
  first ← must (fun k => snd <$> km_links k !! head);
  for_each_safe fuel head member body first.

(** The first entry of a list that satisfies a test. *)
Fixpoint find_entry (fuel : nat) (head : node) (member : kind) (test : nat -> KM bool) (pos : node) :
    KM (option nat) :=
  if bool_decide (pos = head) then mret None else
  match fuel with
  | O => fails
  | S fuel =>
      if bool_decide (pos.1 = member) then
        found ← test pos.2;
        if (found : bool) then mret (Some pos.2) else
        next ← must (fun k => snd <$> km_links k !! pos);
        find_entry fuel head member test next
      else fails
  end.
Definition list_find_entry (head : node) (member : kind) (test : nat -> KM bool) : KM (option nat) :=
  fuel ← gets (fun k => size (km_links k));
  first ← must (fun k => snd <$> km_links k !! head);
  find_entry fuel head member test first.

(** ** Chains of a hash table *)

(** The heads of the chains, and the link of an object to the next one. *)
Record table := Table {
  t_heads : kmod -> gmap Z nat;
  t_set_heads : gmap Z nat -> kmod -> kmod;
  t_size : kmod -> nat;
  t_next : nat -> kmod -> option (option nat);
  t_set_next : nat -> option nat -> kmod -> option kmod
}.

Section Chains.
Context (t : table).

(** [while (search->next && (search->next != object)) search = search->next]. *)
Fixpoint find_before (fuel : nat) (search object : nat) (k : kmod) : option (option nat) :=
  match fuel with
  | O => None
  | S fuel =>
      next ← t_next t search k;
      match next with
      | None => Some None
      | Some next => if bool_decide (next = object) then Some (Some search)
                     else find_before fuel next object k
      end
  end.

Definition chain_unlink (hash : Z) (object : nat) : KM unit := fun k =>
  match t_heads t k !! hash with
  | None => Some (tt, k)
  | Some search =>
      if bool_decide (search = object) then
        next ← t_next t object k;
        Some (tt, t_set_heads t (partial_alter (fun _ => next) hash (t_heads t k)) k)
      else
        before ← find_before (S (t_size t k)) search object k;
        match before with
        | None => Some (tt, k)
        | Some search =>
            next ← t_next t object k;
            k ← t_set_next t search next k;
            Some (tt, k)
        end
  end.

(** The object is put in front of its chain. *)
Definition chain_link (hash : Z) (object : nat) : KM unit := fun k =>
  k ← t_set_next t object (t_heads t k !! hash) k;
  Some (tt, t_set_heads t (<[hash := object]> (t_heads t k)) k).

Fixpoint chain_search (fuel : nat) (test : nat -> kmod -> option bool) (pos : option nat) (k : kmod) :
    option (option nat) :=
  match pos with
  | None => Some None
  | Some object =>
      match fuel with
      | O => None
      | S fuel =>
          found ← test object k;
          if (found : bool) then Some (Some object) else
          next ← t_next t object k;
          chain_search fuel test next k
      end
  end.
Definition chain_find (hash : Z) (test : nat -> kmod -> option bool) : KM (option nat) :=
  must (fun k => chain_search (t_size t k) test (t_heads t k !! hash) k).
End Chains.

Definition set_next_ipaddr (x : option nat) (s : sc_capwap_session_priv) : sc_capwap_session_priv :=
  KSessionPriv (sp_session s) x (sp_next_sessionid s) (sp_isolation s) (sp_binding s) (sp_wlans s).
Definition set_next_sessionid (x : option nat) (s : sc_capwap_session_priv) : sc_capwap_session_priv :=
  KSessionPriv (sp_session s) (sp_next_ipaddr s) x (sp_isolation s) (sp_binding s) (sp_wlans s).
Definition set_session (x : sc_capwap_session) (s : sc_capwap_session_priv) : sc_capwap_session_priv :=
  KSessionPriv x (sp_next_ipaddr s) (sp_next_sessionid s) (sp_isolation s) (sp_binding s) (sp_wlans s).
Definition set_kwlans (x : list sc_capwap_wlan) (s : sc_capwap_session_priv) : sc_capwap_session_priv :=
  KSessionPriv (sp_session s) (sp_next_ipaddr s) (sp_next_sessionid s) (sp_isolation s) (sp_binding s) x.
Definition set_next_addr (x : option nat) (s : sc_capwap_station) : sc_capwap_station :=
  KStation (st_address s) x (st_sessionpriv s) (st_devpriv s) (st_vlan s) (st_radioid s) (st_wlanid s).
Definition set_iface_next (x : option nat) (d : sc_netdev_priv) : sc_netdev_priv :=
  KNetdev (nd_ifindex d) (nd_up d) x.

(** [sc_session_hash_ipaddr], [sc_session_hash_sessionid], [sc_station_hash_addr]
    and [sc_iface_hash]. *)
Definition by_ipaddr : table := {|
  t_heads := km_hash_ipaddr; t_set_heads := set_hash_ipaddr; t_size k := size (km_sessions k);
  t_next p k := sp_next_ipaddr <$> km_sessions k !! p;
  t_set_next p x k :=
    s ← km_sessions k !! p; Some (set_sessions (<[p := set_next_ipaddr x s]> (km_sessions k)) k)
|}.
Definition by_sessionid : table := {|
  t_heads := km_hash_sessionid; t_set_heads := set_hash_sessionid; t_size k := size (km_sessions k);
  t_next p k := sp_next_sessionid <$> km_sessions k !! p;
  t_set_next p x k :=
    s ← km_sessions k !! p; Some (set_sessions (<[p := set_next_sessionid x s]> (km_sessions k)) k)
|}.
Definition by_address : table := {|
  t_heads := km_hash_addr; t_set_heads := set_hash_addr; t_size k := size (km_stations k);
  t_next p k := st_next_addr <$> km_stations k !! p;
  t_set_next p x k :=
    s ← km_stations k !! p; Some (set_stations (<[p := set_next_addr x s]> (km_stations k)) k)
|}.
Definition by_ifindex : table := {|
  t_heads := km_hash_iface; t_set_heads := set_hash_iface; t_size k := size (km_devs k);
  t_next p k := nd_next <$> km_devs k !! p;
  t_set_next p x k :=
    d ← km_devs k !! p; Some (set_devs (<[p := set_iface_next x d]> (km_devs k)) k)
|}.

Section Module.
Context {I : Indeterminate} {E : KernelEnv} {L : Linux80211}.

(** ** Addresses (socket.c) *)

Definition ETH_P_IP : Z := 2048.
Definition ETH_P_IPV6 : Z := 34525.
Definition EOVERFLOW : Z := 75.

Definition sc_addr_compare (a b : capwap_addr) : Z :=
  if ss_family a =? ss_family b then
    if (ss_family a =? KAF_INET) || (ss_family a =? KAF_INET6) then
      if bool_decide (sin_addr a = sin_addr b) && (sin_port a =? sin_port b) then 0 else -1
    else -1
  else -1.

(** The sender of a datagram, whose buffer starts with the UDP header. *)
Definition sc_socket_getpeeraddr (packet : sk_packet) : option (option capwap_addr) :=
  let nethdr := pk_network packet in
  let data := skb_data (pk_skb packet) in
  let port := val16 (byte_at data 0) (byte_at data 1) in
  if pk_protocol packet =? ETH_P_IP then
    if (zlen nethdr <? 20) || (zlen data <? 2) then None else
    if negb (Z.land (byte_at nethdr 0) 240 =? 64) then Some None else
    Some (Some (KAddr KAF_INET (slice 12 4 nethdr) port))
  else if pk_protocol packet =? ETH_P_IPV6 then
    if (zlen nethdr <? 40) || (zlen data <? 2) then None else
    if negb (Z.land (byte_at nethdr 0) 240 =? 96) then Some None else
    Some (Some (KAddr KAF_INET6 (slice 8 16 nethdr) port))
  else Some None.

(** ** Lookups (capwap_private.c, station.c, iface.c) *)

Definition SESSION_HASH_SIZE_SHIFT : Z := 16.
Definition SESSION_HASH_SIZE : Z := 65536.
Definition STATION_HASH_SIZE : Z := 65536.
Definition CAPWAP_IFACE_COUNT : Z := 8.

(** Four bytes as the host reads them. *)
Definition le32_at (b : list Z) (i : Z) : Z :=
  val32 (byte_at b (i + 3)) (byte_at b (i + 2)) (byte_at b (i + 1)) (byte_at b i).

Definition sc_capwap_hash_ipaddr (a : capwap_addr) : Z :=
  hash_32 (if ss_family a =? KAF_INET then le32_at (sin_addr a) 0 else ipv6_addr_hash (sin_addr a))
    SESSION_HASH_SIZE_SHIFT.

Definition sc_capwap_hash_sessionid (sessionid : list Z) : Z :=
  Z.lxor (Z.lxor (Z.lxor (le32_at sessionid 0) (le32_at sessionid 4)) (le32_at sessionid 8))
    (le32_at sessionid 12) mod SESSION_HASH_SIZE.

Definition sc_capwap_getsession_ipaddr (sockaddr : capwap_addr) : KM (option nat) :=
  chain_find by_ipaddr (sc_capwap_hash_ipaddr sockaddr) (fun p k =>
    s ← km_sessions k !! p;
    Some (sc_addr_compare sockaddr (ks_peeraddr (sp_session s)) =? 0)).

Definition sc_capwap_getsession_sessionid (sessionid : list Z) : KM (option nat) :=
  chain_find by_sessionid (sc_capwap_hash_sessionid sessionid) (fun p k =>
    s ← km_sessions k !! p;
    Some (bool_decide (ks_sessionid (sp_session s) = sessionid))).

Definition sc_stations_hash_addr (macaddress : list Z) : Z :=
  Z.lxor (Z.lor (Z.shiftl (byte_at macaddress 4) 8) (byte_at macaddress 5))
    (Z.shiftl (byte_at macaddress 3) 4) mod STATION_HASH_SIZE.

Definition sc_stations_search (macaddress : list Z) : KM (option nat) :=
  chain_find by_address (sc_stations_hash_addr macaddress) (fun p k =>
    s ← km_stations k !! p; Some (bool_decide (st_address s = macaddress))).

Definition CAPWAP_IFACE_HASH (ifindex : Z) : Z := ifindex mod CAPWAP_IFACE_COUNT.

Definition sc_iface_search (ifindex : Z) : KM (option nat) :=
  chain_find by_ifindex (CAPWAP_IFACE_HASH ifindex) (fun p k =>
    d ← km_devs k !! p; Some (nd_ifindex d =? ifindex)).

(** ** Stations (station.c) *)

Definition sc_stations_searchconnection (station : nat) : KM (option nat) :=
  s ← get_station station;
  list_find_entry (SessionConnections, st_sessionpriv s) ConnectionSession (fun c =>
    c ← get_connection c;
    mret ((cn_devpriv c =? st_devpriv s)%nat && (cn_radioid c =? st_radioid s) &&
          (cn_vlan c =? st_vlan s))).

Definition sc_stations_add (station : nat) : KM unit :=
  s ← get_station station;
  on_links (list_add (StationNode, station) (StationList, 0%nat));;
  chain_link by_address (sc_stations_hash_addr (st_address s)) station.

(** The members of a freed object are gone. *)
Definition free_nodes (l : list node) : KM unit :=
  puts (fun k => set_links (foldr delete (km_links k) l) k).

Definition sc_stations_free (station : nat) : KM unit :=
  s ← get_station station;
  chain_unlink by_address (sc_stations_hash_addr (st_address s)) station;;
  on_links (list_del (StationDev, station));;
  on_links (list_del (StationSession, station));;
  free_nodes [(StationNode, station); (StationDev, station); (StationSession, station)];;
  puts (fun k => set_stations (delete station (km_stations k)) k).

Definition sc_stations_setconnection (station : nat) : KM Z :=
  s ← get_station station;
  connection ← sc_stations_searchconnection station;
  connection ←
    match connection with
    | Some c => mret c
    | None =>
        c ← kzalloc;
        on_links (list_add (ConnectionSession, c) (SessionConnections, st_sessionpriv s));;
        on_links (list_add (ConnectionDev, c) (DevConnections, st_devpriv s));;
        put_connection c
          (KConnection 0 (st_sessionpriv s) (st_devpriv s) (st_vlan s) (st_radioid s) 0);;
        mret c
    end;
  c ← get_connection connection;
  put_connection connection
    (KConnection (cn_count c + 1) (cn_sessionpriv c) (cn_devpriv c) (cn_vlan c) (cn_radioid c)
       (wrap8 (Z.lor (cn_wlanidmask c) (Z.shiftl 1 (st_wlanid s - 1)))));;
  mret 0.

Definition sc_stations_releaseconnection (station : nat) : KM unit :=
  connection ← sc_stations_searchconnection station;
  match connection with
  | None => mret tt
  | Some connection =>
      c ← get_connection connection;
      let count := cn_count c - 1 in
      put_connection connection
        (KConnection count (cn_sessionpriv c) (cn_devpriv c) (cn_vlan c) (cn_radioid c)
           (cn_wlanidmask c));;
      if count =? 0 then
        on_links (list_del (ConnectionSession, connection));;
        on_links (list_del (ConnectionDev, connection));;
        free_nodes [(ConnectionSession, connection); (ConnectionDev, connection)];;
        puts (fun k => set_connections (delete connection (km_connections k)) k)
      else mret tt
  end.

(** ** Interfaces (iface.c) *)

Definition close_station (station : nat) : KM unit :=
  sc_stations_releaseconnection station;; sc_stations_free station.

(** [sc_iface_netdev_uninit]: the interface leaves the list when it is in its
    chain. *)
Definition sc_iface_netdev_uninit (priv : nat) : KM unit :=
  d ← get_devpriv priv;
  list_for_each_entry_safe (DevStations, priv) StationDev close_station;;
  let hash := CAPWAP_IFACE_HASH (nd_ifindex d) in
  known ← must (fun k =>
    match km_hash_iface k !! hash with
    | None => Some false
    | Some search =>
        if bool_decide (search = priv) then Some true else
        before ← find_before by_ifindex (S (size (km_devs k))) search priv k;
        Some (bool_decide (is_Some before))
    end);
  chain_unlink by_ifindex hash priv;;
  if (known : bool) then on_links (list_del (DevNode, priv)) else mret tt.

(** [sc_iface_create]: the index of the interface, or an error. *)
Definition sc_iface_create (ifname : list Z) : KM Z :=
  ifindex ← gets (fun k => register_netdev (km_log k));
  kemit (IfaceRegistered ifname);;
  if ifindex <? 0 then mret ifindex else
  priv ← kzalloc;
  put_devpriv priv (KNetdev ifindex false None);;
  puts (fun k => set_links (INIT_LIST_HEAD (DevStations, priv)
    (INIT_LIST_HEAD (DevConnections, priv) (km_links k))) k);;
  on_links (list_add (DevNode, priv) (DevList, 0%nat));;
  chain_link by_ifindex (CAPWAP_IFACE_HASH ifindex) priv;;
  mret ifindex.

(** [unregister_netdev] calls [sc_iface_netdev_uninit]; then the interface is
    freed. *)
Definition unregister_netdev (priv : nat) : KM unit :=
  d ← get_devpriv priv;
  sc_iface_netdev_uninit priv;;
  kemit (IfaceUnregistered (nd_ifindex d));;
  free_nodes [(DevNode, priv); (DevStations, priv); (DevConnections, priv)];;
  puts (fun k => set_devs (delete priv (km_devs k)) k).

Definition sc_iface_delete (ifindex : Z) : KM Z :=
  priv ← sc_iface_search ifindex;
  match priv with
  | None => mret (- ENOENT)
  | Some priv => unregister_netdev priv;; mret 0
  end.

Fixpoint iface_closeall (fuel : nat) : KM unit :=
  first ← must (fun k => snd <$> km_links k !! (DevList, 0%nat));
  if bool_decide (first = (DevList, 0%nat)) then mret tt else
  match fuel with
  | O => fails
  | S fuel => unregister_netdev first.2;; iface_closeall fuel
  end.
Definition sc_iface_closeall : KM unit :=
  fuel ← gets (fun k => size (km_devs k));
  iface_closeall fuel.

(** ** Sessions (capwap_private.c) *)

Definition CAPWAP_RADIOID_MAX_COUNT : Z := 31.
Definition CAPWAP_WLANID_MAX_COUNT : Z := 16.

(** The position of [wlans[radioid - 1][wlanid - 1]], [None] outside of the array. *)
Definition wlan_index (radioid wlanid : Z) : option nat :=
  if (1 <=? radioid) && (radioid <=? CAPWAP_RADIOID_MAX_COUNT) &&
     (1 <=? wlanid) && (wlanid <=? CAPWAP_WLANID_MAX_COUNT)
  then Some (Z.to_nat ((radioid - 1) * CAPWAP_WLANID_MAX_COUNT + (wlanid - 1))) else None.
Definition session_wlan (s : sc_capwap_session_priv) (radioid wlanid : Z) : option sc_capwap_wlan :=
  i ← wlan_index radioid wlanid; sp_wlans s !! i.

Definition sc_capwap_closesession (sessionpriv : nat) : KM unit :=
  s ← get_sessionpriv sessionpriv;
  list_for_each_entry_safe (SessionStations, sessionpriv) StationSession close_station;;
  (if negb (ss_family (ks_peeraddr (sp_session s)) =? AF_UNSPEC) then
     chain_unlink by_ipaddr (sc_capwap_hash_ipaddr (ks_peeraddr (sp_session s))) sessionpriv;;
     chain_unlink by_sessionid (sc_capwap_hash_sessionid (ks_sessionid (sp_session s))) sessionpriv
   else mret tt);;
  on_links (list_del (SessionNode, sessionpriv));;
  s ← get_sessionpriv sessionpriv;
  must (fun _ => sc_capwap_freesession (sp_session s));;
  free_nodes [(SessionNode, sessionpriv); (SessionStations, sessionpriv);
              (SessionConnections, sessionpriv)];;
  puts (fun k => set_sessions (delete sessionpriv (km_sessions k)) k).

Definition sc_capwap_closesessions : KM unit :=
  list_for_each_entry_safe (SetupList, 0%nat) SessionNode sc_capwap_closesession;;
  list_for_each_entry_safe (RunningList, 0%nat) SessionNode sc_capwap_closesession.

(** The session of the setup list with an identifier. *)
Definition find_setup (sessionid : list Z) : KM (option nat) :=
  list_find_entry (SetupList, 0%nat) SessionNode (fun p =>
    s ← get_sessionpriv p; mret (bool_decide (ks_sessionid (sp_session s) = sessionid))).

Definition sc_capwap_deletesetupsession (sessionid : list Z) : KM Z :=
  found ← find_setup sessionid;
  match found with
  | None => mret (- ENOENT)
  | Some p => sc_capwap_closesession p;; mret 0
  end.

Definition sc_capwap_deleterunningsession (sessionid : list Z) : KM Z :=
  found ← sc_capwap_getsession_sessionid sessionid;
  match found with
  | None => mret (- ENOENT)
  | Some p => sc_capwap_closesession p;; mret 0
  end.

Definition sc_capwap_deletesession (sessionid : list Z) : KM Z :=
  running ← sc_capwap_getsession_sessionid sessionid;
  match running with
  | Some _ => sc_capwap_deleterunningsession sessionid
  | None =>
      setup ← find_setup sessionid;
      match setup with
      | Some _ => sc_capwap_deletesetupsession sessionid
      | None => mret (- ENOENT)
      end
  end.

Definition no_address : capwap_addr := KAddr AF_UNSPEC [] 0.
Definition unused_wlan : sc_capwap_wlan := KWlan 0 (zeros 6) 0 0.

Definition sc_capwap_newsession (sessionid : list Z) (binding mtu : Z) : KM Z :=
  p ← kzalloc;
  put_sessionpriv p
    (KSessionPriv (sc_capwap_initsession (KSession mtu no_address sessionid 0 [] [])) None None 0 binding
       (replicate (Z.to_nat (CAPWAP_RADIOID_MAX_COUNT * CAPWAP_WLANID_MAX_COUNT)) unused_wlan));;
  puts (fun k => set_links (INIT_LIST_HEAD (SessionStations, p)
    (INIT_LIST_HEAD (SessionConnections, p) (km_links k))) k);;
  on_links (list_add (SessionNode, p) (SetupList, 0%nat));;
  mret 0.

Definition sc_capwap_recvunknownkeepalive (sockaddr : capwap_addr) (sessionid : list Z) :
    KM (option nat) :=
  found ← find_setup sessionid;
  match found with
  | None => mret None
  | Some p =>
      on_links (list_del (SessionNode, p));;
      s ← get_sessionpriv p;
      put_sessionpriv p (set_session (with_peeraddr sockaddr (sp_session s)) s);;
      on_links (list_add (SessionNode, p) (RunningList, 0%nat));;
      chain_link by_ipaddr (sc_capwap_hash_ipaddr sockaddr) p;;
      chain_link by_sessionid (sc_capwap_hash_sessionid sessionid) p;;
      mret (Some p)
  end.

Definition set_kwlan (radioid wlanid : Z) (f : sc_capwap_wlan -> sc_capwap_wlan)
    (s : sc_capwap_session_priv) : option sc_capwap_session_priv :=
  i ← wlan_index radioid wlanid; Some (set_kwlans (alter f i (sp_wlans s)) s).

Definition sc_capwap_addwlan (sessionid : list Z) (radioid wlanid : Z) (bssid : list Z)
    (macmode tunnelmode : Z) : KM Z :=
  found ← sc_capwap_getsession_sessionid sessionid;
  match found with
  | None => mret (- ENOENT)
  | Some p =>
      s ← get_sessionpriv p;
      s ← must (fun _ => set_kwlan radioid wlanid (fun _ => KWlan 1 bssid macmode tunnelmode) s);
      put_sessionpriv p s;; mret 0
  end.

Definition sc_capwap_removewlan (sessionid : list Z) (radioid wlanid : Z) : KM Z :=
  found ← sc_capwap_getsession_sessionid sessionid;
  match found with
  | None => mret (- ENOENT)
  | Some p =>
      s ← get_sessionpriv p;
      s ← must (fun _ => set_kwlan radioid wlanid
        (fun w => KWlan 0 (kw_bssid w) (kw_macmode w) (kw_tunnelmode w)) s);
      put_sessionpriv p s;; mret (- ENOENT)
  end.

(** A station that is known gets the new session and interface; the heads of
    their lists take its place in the lists it was in. *)
Definition update_station (station devpriv sessionpriv : nat) (radioid wlanid vlan : Z) : KM unit :=
  sc_stations_releaseconnection station;;
  s ← get_station station;
  put_station station
    (KStation (st_address s) (st_next_addr s) sessionpriv devpriv vlan radioid wlanid);;
  (if bool_decide (st_devpriv s = devpriv) then mret tt
   else on_links (list_replace (StationDev, station) (DevStations, devpriv)));;
  (if bool_decide (st_sessionpriv s = sessionpriv) then mret tt
   else on_links (list_replace (StationSession, station) (SessionStations, sessionpriv))).

Definition create_station (address : list Z) (devpriv sessionpriv : nat) (radioid wlanid vlan : Z) :
    KM nat :=
  station ← kzalloc;
  put_station station (KStation address None sessionpriv devpriv vlan radioid wlanid);;
  on_links (list_add (StationDev, station) (DevStations, devpriv));;
  on_links (list_add (StationSession, station) (SessionStations, sessionpriv));;
  sc_stations_add station;;
  mret station.

Definition sc_capwap_authstation (sessionid address : list Z) (ifindex radioid wlanid vlan : Z) : KM Z :=
  if negb (IS_VALID_RADIOID radioid) then mret (- EINVAL) else
  sessionpriv ← sc_capwap_getsession_sessionid sessionid;
  match sessionpriv with
  | None => mret (- EINVAL)
  | Some sessionpriv =>
      devpriv ← sc_iface_search ifindex;
      match devpriv with
      | None => mret (- EINVAL)
      | Some devpriv =>
          station ← sc_stations_search address;
          station ←
            match station with
            | Some station =>
                update_station station devpriv sessionpriv radioid wlanid vlan;; mret station
            | None => create_station address devpriv sessionpriv radioid wlanid vlan
            end;
          sc_stations_setconnection station
      end
  end.

Definition sc_capwap_deauthstation (sessionid address : list Z) : KM Z :=
  sessionpriv ← sc_capwap_getsession_sessionid sessionid;
  match sessionpriv with
  | None => mret (- ENOENT)
  | Some sessionpriv =>
      station ← sc_stations_search address;
      match station with
      | None => mret (- ENOENT)
      | Some station =>
          s ← get_station station;
          if bool_decide (st_sessionpriv s = sessionpriv) then
            close_station station;; mret 0
          else mret (- ENOENT)
      end
  end.

(** ** Packets *)

(** [sc_capwap_forwarddata] of the session behind a pointer. *)
Definition forwarddata (sessionpriv : nat) (radioid binding : Z) (data : list Z) (flags : Z)
    (radioaddr winfo : option (list Z)) : KM Z := fun k =>
  s ← km_sessions k !! sessionpriv;
  '(err, session, log) ←
    sc_capwap_forwarddata (sp_session s) radioid binding data flags radioaddr
      (zlen (default [] radioaddr)) winfo (zlen (default [] winfo)) (km_log k);
  Some (err, set_log log
    (set_sessions (<[sessionpriv := set_session session s]> (km_sessions k)) k)).

Definition CAPWAP_ADD_WLAN_TUNNELMODE_LOCAL : Z := 0.
Definition CAPWAP_ADD_WLAN_TUNNELMODE_8023 : Z := 1.
Definition CAPWAP_ADD_WLAN_TUNNELMODE_80211 : Z := 2.

Definition sc_capwap_sendpacket_wtp (sessionpriv : nat) (radioid wlanid : Z) (skb : sk_buff)
    (is80211 : bool) : KM Z :=
  s ← get_sessionpriv sessionpriv;
  wlan ← must (fun _ => session_wlan s radioid wlanid);
  if kw_used wlan =? 0 then mret (- EINVAL) else
  if is80211 && (kw_tunnelmode wlan =? CAPWAP_ADD_WLAN_TUNNELMODE_8023) then
    '(_, skb) ← must (fun _ => sc_capwap_80211_to_8023 skb);
    forwarddata sessionpriv radioid (sp_binding s) (skb_data skb) NLSMARTCAPWAP_FLAGS_TUNNEL_8023
      (Some (sc_capwap_setradiomacaddress CAPWAP_RADIO_EUI48_LENGTH_PADDED (kw_bssid wlan))) None
  else if negb is80211 && (kw_tunnelmode wlan =? CAPWAP_ADD_WLAN_TUNNELMODE_80211) then
    skb ← must (fun _ => sc_capwap_8023_to_80211 skb (kw_bssid wlan));
    forwarddata sessionpriv radioid (sp_binding s) (skb_data skb) 0 None None
  else forwarddata sessionpriv radioid (sp_binding s) (skb_data skb) 0 None None.

(** The connections of the VLAN on an interface, but those of [ignore]. *)
Definition sc_capwap_sendbroadcastpacket_wtp (netpriv : nat) (vlan : Z) (skb : sk_buff)
    (ignore : option nat) : KM unit :=
  list_for_each_entry_safe (DevConnections, netpriv) ConnectionDev (fun connection =>
    c ← get_connection connection;
    if (cn_vlan c =? vlan) && negb (bool_decide (Some (cn_sessionpriv c) = ignore)) then
      s ← get_sessionpriv (cn_sessionpriv c);
      forwarddata (cn_sessionpriv c) (cn_radioid c) (sp_binding s) (skb_data skb)
        NLSMARTCAPWAP_FLAGS_TUNNEL_8023 None
        (Some (sc_capwap_setwinfo_destwlans CAPWAP_WINFO_DESTWLAN_LENGTH_PADDED (cn_wlanidmask c)));;
      mret tt
    else mret tt).

Definition VLAN_VID_MASK : Z := 4095.

(** The frame goes to the interface of the station, with the VLAN of the station. *)
Definition sc_capwap_sendpacket_iface (station : nat) (skb : sk_buff) : KM unit :=
  s ← get_station station;
  d ← get_devpriv (st_devpriv s);
  if nd_up d then
    let vlan := if st_vlan s =? 0 then 0 else Z.land (st_vlan s) VLAN_VID_MASK in
    kemit (IfaceReceive (nd_ifindex d) vlan (skb_data skb))
  else kemit (IfaceDropped (nd_ifindex d)).

Definition is_multicast_ether_addr (address : list Z) : bool := Z.testbit (byte_at address 0) 0.

(** The destination and the source of a frame, with or without an 802.11 header. *)
Definition frame_addresses (is80211 : bool) (frame : list Z) : option (list Z * list Z) :=
  let '(dst, src) :=
    if is80211 then (ieee80211_get_DA (frame_control frame), ieee80211_get_SA (frame_control frame))
    else (0, ETH_ALEN) in
  if (zlen frame <? dst + ETH_ALEN) || (zlen frame <? src + ETH_ALEN) then None
  else Some (slice dst ETH_ALEN frame, slice src ETH_ALEN frame).

(** [sc_capwap_80211_to_8023] of a frame that has an 802.11 header. *)
Definition as_8023 (is80211 : bool) (skb : sk_buff) : KM sk_buff :=
  if is80211 then '(_, skb) ← must (fun _ => sc_capwap_80211_to_8023 skb); mret skb else mret skb.

(** [sc_capwap_restrictbroadcastpacket] restricts nothing yet. *)
Definition sc_capwap_restrictbroadcastpacket : bool := false.

Definition sc_capwap_parsingdatapacket (skb : sk_buff) : KM unit :=
  let header := skb_data skb in
  let is80211 := IS_FLAG_T_HEADER header in
  let hlen := GET_HLEN_HEADER header * 4 in
  if skb_len skb <? hlen then fails else
  let skb := with_data (drop (Z.to_nat hlen) header) skb in
  '(dstaddress, srcaddress) ← must (fun _ => frame_addresses is80211 (skb_data skb));
  srcstation ← sc_stations_search srcaddress;
  match srcstation with
  | None => mret tt
  | Some srcstation =>
      src ← get_station srcstation;
      srcsession ← get_sessionpriv (st_sessionpriv src);
      wlan ← must (fun _ => session_wlan srcsession (st_radioid src) (st_wlanid src));
      if kw_used wlan =? 0 then mret tt else
      if kw_tunnelmode wlan =? CAPWAP_ADD_WLAN_TUNNELMODE_LOCAL then mret tt else
      if is_multicast_ether_addr dstaddress then
        skb ← as_8023 is80211 skb;
        (if (sp_isolation srcsession =? 0) && negb sc_capwap_restrictbroadcastpacket then
           sc_capwap_sendbroadcastpacket_wtp (st_devpriv src) (st_vlan src) skb
             (Some (st_sessionpriv src))
         else mret tt);;
        sc_capwap_sendpacket_iface srcstation skb
      else
        dststation ← sc_stations_search dstaddress;
        match dststation with
        | Some dststation =>
            dst ← get_station dststation;
            if (sp_isolation srcsession =? 0) &&
               negb (bool_decide (st_sessionpriv src = st_sessionpriv dst)) then
              sc_capwap_sendpacket_wtp (st_sessionpriv dst) (st_radioid dst) (st_wlanid dst) skb
                is80211;;
              mret tt
            else mret tt
        | None =>
            skb ← as_8023 is80211 skb;
            sc_capwap_sendpacket_iface srcstation skb
        end
  end.

Definition sc_capwap_parsingmgmtpacket (session : nat) (skb : sk_buff) : KM unit :=
  s ← get_sessionpriv session;
  kemit (NotifyData (ks_sessionid (sp_session s)) (skb_data skb)).

(** What capwap.c needs of this file. *)
#[export] Instance kmod_dependent : Dependent kmod nat := {|
  get_session p k := sp_session <$> km_sessions k !! p;
  put_session p s k := set_sessions (alter (set_session s) p (km_sessions k)) k;
  get_log := km_log;
  put_log := set_log;
  recvunknownkeepalive := sc_capwap_recvunknownkeepalive;
  parsingdatapacket _ skb k := snd <$> sc_capwap_parsingdatapacket skb k;
  parsingmgmtpacket p skb k := snd <$> sc_capwap_parsingmgmtpacket p skb k
|}.

Definition send_packet (packet : list Z) (to : capwap_addr) : KM Z := fun k =>
  let '(ret, log) := sc_socket_send packet to (km_log k) in Some (ret, set_log log k).

Definition sc_capwap_sendkeepalive (sessionid : list Z) : KM Z :=
  found ← sc_capwap_getsession_sessionid sessionid;
  match found with
  | None => mret (- ENOENT)
  | Some p =>
      s ← get_sessionpriv p;
      let '(length, buffer) :=
        sc_capwap_createkeepalive (ks_sessionid (sp_session s))
          (replicate (Z.to_nat CAPWAP_KEEP_ALIVE_MAX_SIZE) indet) CAPWAP_KEEP_ALIVE_MAX_SIZE in
      ret ← send_packet (slice 0 length buffer) (ks_peeraddr (sp_session s));
      mret (if 0 <? ret then 0 else ret)
  end.

Definition VLAN_HLEN : Z := 4.
Definition ETH_P_8021Q : Z := 33024.
Definition ETH_P_8021AD : Z := 34984.
Definition sizeof_udphdr : Z := 8.

(** The VLAN of a frame from an interface, the frame without the tag, and the
    destination as it is read from the header that [eh] still points to: the bytes
    before the tag move by four, [eh] stays. *)
Definition retrieve_vlan (packet : sk_packet) : option (Z * list Z * list Z) :=
  let data := skb_data (pk_skb packet) in
  match pk_vlan packet with
  | Some vlan => if zlen data <? ETH_ALEN then None else Some (vlan, data, slice 0 ETH_ALEN data)
  | None =>
      if zlen data <? ETH_HLEN then None else
      if val16 (byte_at data 12) (byte_at data 13) =? ETH_P_8021Q then
        if zlen data <? ETH_HLEN + VLAN_HLEN then None else
        let vlan := Z.land (val16 (byte_at data 14) (byte_at data 15)) VLAN_VID_MASK in
        let memory := write_at VLAN_HLEN (slice 0 (2 * ETH_ALEN) data) data in
        Some (vlan, drop (Z.to_nat VLAN_HLEN) memory, slice 0 ETH_ALEN memory)
      else Some (0, data, slice 0 ETH_ALEN data)
  end.

(** [sc_capwap_thread_recvpacket]: what is not 0 makes the thread free the
    buffer. *)
Definition sc_capwap_thread_recvpacket (packet : sk_packet) : KM Z :=
  let skb := pk_skb packet in
  let cb := skb_cb skb in
  if has_flag (cb_flags cb) SKB_CAPWAP_FLAG_FROM_USER_SPACE then
    found ← sc_capwap_getsession_sessionid (cb_sessionid cb);
    match found with
    | Some p => forwarddata p (cb_radioid cb) (cb_binding cb) (skb_data skb) 0 None None;; mret 1
    | None => mret 1
    end
  else if has_flag (cb_flags cb) SKB_CAPWAP_FLAG_FROM_DATA_CHANNEL then
    peeraddr ← must (fun _ => sc_socket_getpeeraddr packet);
    match peeraddr with
    | None => mret (- EINVAL)
    | Some peeraddr =>
        if skb_len skb <? sizeof_udphdr then mret (- EOVERFLOW) else
        session ← sc_capwap_getsession_ipaddr peeraddr;
        sc_capwap_parsingpacket session peeraddr
          (with_data (drop (Z.to_nat sizeof_udphdr) (skb_data skb)) skb)
    end
  else if has_flag (cb_flags cb) SKB_CAPWAP_FLAG_FROM_AC_TAP then
    '(vlan, data, h_dest) ← must (fun _ => retrieve_vlan packet);
    if is_multicast_ether_addr h_dest then
      (if negb sc_capwap_restrictbroadcastpacket then
         sc_capwap_sendbroadcastpacket_wtp (pk_dev packet) vlan (with_data data skb) None
       else mret tt);;
      mret 1
    else
      station ← sc_stations_search h_dest;
      match station with
      | None => mret (- EINVAL)
      | Some station =>
          s ← get_station station;
          if st_vlan s =? vlan then
            sc_capwap_sendpacket_wtp (st_sessionpriv s) (st_radioid s) (st_wlanid s)
              (with_data data skb) false;;
            mret 1
          else mret (- EINVAL)
      end
  else mret 1.

(** ** Threads *)

(** A buffer goes to the queue of the next thread. *)
Definition sc_capwap_recvpacket (packet : sk_packet) : KM unit := fun k =>
  let count := zlen (km_queues k) in
  if count =? 0 then None else
  let pos := (km_pos k + 1) mod count in
  Some (tt, set_threads (alter (fun q => q ++ [packet]) (Z.to_nat pos) (km_queues k)) pos k).

Definition with_cb_flags (flags : Z) (skb : sk_buff) : sk_buff :=
  let cb := skb_cb skb in
  Skb (skb_data skb) (skb_tstamp skb)
    (Cb flags (cb_sessionid cb) (cb_radioid cb) (cb_binding cb) (cb_winfo_rssi cb) (cb_winfo_snr cb)
       (cb_winfo_rate cb) (frag_offset cb) (frag_length cb)).
Definition with_skb (skb : sk_buff) (packet : sk_packet) : sk_packet :=
  KPacket skb (pk_dev packet) (pk_vlan packet) (pk_protocol packet) (pk_network packet).

Definition sc_socket_recvpacket (packet : sk_packet) : KM unit :=
  sc_capwap_recvpacket
    (with_skb (with_cb_flags SKB_CAPWAP_FLAG_FROM_DATA_CHANNEL (pk_skb packet)) packet).

(** A frame that the system sends through an interface; frames with a service tag
    are dropped. *)
Definition sc_iface_netdev_tx (packet : sk_packet) (vlan_proto : Z) : KM unit :=
  d ← get_devpriv (pk_dev packet);
  let data := skb_data (pk_skb packet) in
  if nd_up d then
    if (vlan_proto =? ETH_P_8021AD) || (val16 (byte_at data 12) (byte_at data 13) =? ETH_P_8021AD)
    then kemit (IfaceDropped (nd_ifindex d))
    else sc_capwap_recvpacket
      (with_skb (with_cb_flags SKB_CAPWAP_FLAG_FROM_AC_TAP (pk_skb packet)) packet)
  else kemit (IfaceDropped (nd_ifindex d)).

(** A turn of the thread [i]. *)
Definition sc_capwap_thread (i : nat) : KM unit := fun k =>
  match km_queues k !! i with
  | Some (packet :: queue) =>
      '(_, k) ← sc_capwap_thread_recvpacket packet
        (set_threads (<[i := queue]> (km_queues k)) (km_pos k) k);
      Some (tt, k)
  | _ => Some (tt, k)
  end.

(** ** The module *)

Definition no_heads : links :=
  INIT_LIST_HEAD (SetupList, 0%nat) (INIT_LIST_HEAD (RunningList, 0%nat)
    (INIT_LIST_HEAD (StationList, 0%nat) (INIT_LIST_HEAD (DevList, 0%nat) ∅))).

(** [sc_capwap_init] with one thread for each processor, 32 at most. *)
Definition MAX_WORKER_THREAD : Z := 32.
Definition sc_capwap_init (cpus : nat) : kmod :=
  Kmod ∅ ∅ ∅ ∅ no_heads ∅ ∅ ∅ ∅ 0 (replicate (Nat.min cpus (Z.to_nat MAX_WORKER_THREAD)) []) 0 [].

Definition sc_capwap_close : KM unit :=
  sc_capwap_closesessions;; sc_iface_closeall.

(** ** Commands of the controller (netlinkapp.c) *)

Definition MIN_MTU : Z := 500.
Definition KMAX_MTU : Z := 9000.
Definition KDEFAULT_MTU : Z := 1450.
Definition ENOLINK : Z := 67.

(** A command with its attributes, [None] being an attribute that is missing. *)
Inductive command :=
| NewSession (sessionid : option (list Z)) (binding mtu : option Z)
| DeleteSession (sessionid : option (list Z))
| SendKeepAlive (sessionid : option (list Z))
| SendData (sessionid : option (list Z)) (radioid binding : option Z) (frame : option (list Z))
| AddWlan (sessionid : option (list Z)) (radioid wlanid : option Z) (bssid : option (list Z))
    (macmode tunnelmode : option Z)
| RemoveWlan (sessionid : option (list Z)) (radioid wlanid : option Z)
| AuthStation (sessionid address : option (list Z)) (ifindex radioid wlanid vlan : option Z)
| DeauthStation (sessionid address : option (list Z))
| AddIface (ifname : option (list Z)) (mtu : option Z)
| DeleteIface (ifindex : option Z).

Definition valid_mtu (mtu : Z) : bool := negb ((mtu <? MIN_MTU) || (KMAX_MTU <? mtu)).

Definition sc_netlink_new_session (sessionid : option (list Z)) (binding mtu : option Z) : KM Z :=
  match sessionid, binding with
  | Some sessionid, Some binding =>
      let mtu := default KDEFAULT_MTU mtu in
      if valid_mtu mtu then sc_capwap_newsession sessionid binding mtu else mret (- EINVAL)
  | _, _ => mret (- EINVAL)
  end.

Definition sc_netlink_delete_session (sessionid : option (list Z)) : KM Z :=
  match sessionid with
  | Some sessionid => sc_capwap_deletesession sessionid
  | None => mret (- EINVAL)
  end.

Definition sc_netlink_send_keepalive (sessionid : option (list Z)) : KM Z :=
  match sessionid with
  | Some sessionid => sc_capwap_sendkeepalive sessionid
  | None => mret (- EINVAL)
  end.

Definition sc_netlink_send_data (sessionid : option (list Z)) (radioid binding : option Z)
    (frame : option (list Z)) : KM Z :=
  match sessionid, radioid, binding, frame with
  | Some sessionid, Some radioid, Some binding, Some frame =>
      let flags := Z.lor (Z.lor SKB_CAPWAP_FLAG_FROM_USER_SPACE 256) (Z.lor 512 1024) in
      sc_capwap_recvpacket
        (KPacket (Skb frame 0 (Cb flags sessionid radioid binding 0 0 0 0 0)) 0 None 0 []);;
      mret 0
  | _, _, _, _ => mret (- EINVAL)
  end.

Definition sc_netlink_add_wlan (sessionid : option (list Z)) (radioid wlanid : option Z)
    (bssid : option (list Z)) (macmode tunnelmode : option Z) : KM Z :=
  match sessionid, radioid, wlanid, bssid, macmode, tunnelmode with
  | Some sessionid, Some radioid, Some wlanid, Some bssid, Some macmode, Some tunnelmode =>
      if negb (IS_VALID_RADIOID radioid) || negb (IS_VALID_WLANID wlanid) then mret (- EINVAL)
      else sc_capwap_addwlan sessionid radioid wlanid bssid macmode tunnelmode
  | _, _, _, _, _, _ => mret (- EINVAL)
  end.

Definition sc_netlink_remove_wlan (sessionid : option (list Z)) (radioid wlanid : option Z) : KM Z :=
  match sessionid, radioid, wlanid with
  | Some sessionid, Some radioid, Some wlanid =>
      if negb (IS_VALID_RADIOID radioid) || negb (IS_VALID_WLANID wlanid) then mret (- EINVAL)
      else sc_capwap_removewlan sessionid radioid wlanid
  | _, _, _ => mret (- EINVAL)
  end.

Definition sc_netlink_auth_station (sessionid address : option (list Z))
    (ifindex radioid wlanid vlan : option Z) : KM Z :=
  match sessionid, address, ifindex, radioid, wlanid with
  | Some sessionid, Some address, Some ifindex, Some radioid, Some wlanid =>
      if negb (IS_VALID_RADIOID radioid) || negb (IS_VALID_WLANID wlanid) then mret (- EINVAL)
      else sc_capwap_authstation sessionid address ifindex radioid wlanid (default 0 vlan)
  | _, _, _, _, _ => mret (- EINVAL)
  end.

Definition sc_netlink_deauth_station (sessionid address : option (list Z)) : KM Z :=
  match sessionid, address with
  | Some sessionid, Some address => sc_capwap_deauthstation sessionid address
  | _, _ => mret (- EINVAL)
  end.

(** The answer with the index of the interface can always be made and sent. *)
Definition sc_netlink_add_iface (ifname : option (list Z)) (mtu : option Z) : KM Z :=
  match ifname, mtu with
  | Some ifname, Some mtu =>
      if valid_mtu mtu then
        ifindex ← sc_iface_create ifname;
        mret (if ifindex <? 0 then ifindex else 0)
      else mret (- EINVAL)
  | _, _ => mret (- EINVAL)
  end.

Definition sc_netlink_delete_iface (ifindex : option Z) : KM Z :=
  match ifindex with
  | Some ifindex => sc_iface_delete ifindex
  | None => mret (- EINVAL)
  end.

(** The table of commands; without a controller, none is done. *)
Definition netlink_command (linked : bool) (c : command) : KM Z :=
  if negb linked then mret (- ENOLINK) else
  match c with
  | NewSession sessionid binding mtu => sc_netlink_new_session sessionid binding mtu
  | DeleteSession sessionid => sc_netlink_delete_session sessionid
  | SendKeepAlive sessionid => sc_netlink_send_keepalive sessionid
  | SendData sessionid radioid binding frame => sc_netlink_send_data sessionid radioid binding frame
  | AddWlan sessionid radioid wlanid bssid macmode tunnelmode =>
      sc_netlink_add_wlan sessionid radioid wlanid bssid macmode tunnelmode
  | RemoveWlan sessionid radioid wlanid => sc_netlink_remove_wlan sessionid radioid wlanid
  | AuthStation sessionid address ifindex radioid wlanid vlan =>
      sc_netlink_auth_station sessionid address ifindex radioid wlanid vlan
  | DeauthStation sessionid address => sc_netlink_deauth_station sessionid address
  | AddIface ifname mtu => sc_netlink_add_iface ifname mtu
  | DeleteIface ifindex => sc_netlink_delete_iface ifindex
  end.

(** The interface goes up or down. *)
Definition set_iface_up (up : bool) (priv : nat) : KM unit :=
  d ← get_devpriv priv;
  put_devpriv priv (KNetdev (nd_ifindex d) up (nd_next d)).

(** What happens to the module: a command, a datagram, a frame through an
    interface, the state of an interface, a turn of a thread, the end of the
    controller. *)
Inductive kmod_step : kmod -> kmod -> Prop :=
| step_command linked c ret k k' : netlink_command linked c k = Some (ret, k') -> kmod_step k k'
| step_datagram packet k k' : sc_socket_recvpacket packet k = Some (tt, k') -> kmod_step k k'
| step_frame packet proto k k' : sc_iface_netdev_tx packet proto k = Some (tt, k') -> kmod_step k k'
| step_up up priv k k' : set_iface_up up priv k = Some (tt, k') -> kmod_step k k'
| step_thread i k k' : sc_capwap_thread i k = Some (tt, k') -> kmod_step k k'
| step_close k k' : sc_capwap_close k = Some (tt, k') -> kmod_step k k'.
End Module.
