(* ===== verification/KmodLists.v ===== *)
(** The lists and the chains of the kernel module: what [list_add] and [list_del]
    do to the rings of nodes in memory, and what linking, unlinking and searching
    do to the chains of a hash table. *)
From stdpp Require Import option gmap.
From S2P Require Import Prelude Io Header KmodCapwap KmodSession.

(** ** Rings *)

(** Two nodes that follow each other. *)
Definition linked (l : links) (a b : node) : Prop :=
  snd <$> l !! a = Some b /\ fst <$> l !! b = Some a.

Fixpoint path (l : links) (a : node) (ns : list node) (b : node) : Prop :=
  match ns with
  | [] => linked l a b
  | n :: ns => linked l a n /\ path l n ns b
  end.

(** The list with the head [head] and the nodes [ns]. *)
Definition ring (l : links) (head : node) (ns : list node) : Prop :=
  path l head ns head /\ NoDup (head :: ns).

Lemma path_app l a ns1 n ns2 b : path l a (ns1 ++ n :: ns2) b <-> path l a ns1 n /\ path l n ns2 b.
Proof. revert a. induction ns1 as [|m ns1 IH]; intros a; cbn; [done|]. rewrite IH. tauto. Qed.

(** A path depends on its nodes only: on the next of all but the last, and on the
    previous of all but the first. *)
Lemma path_frame l l' a ns b :
  path l a ns b ->
  (forall n, n = a \/ n ∈ ns -> snd <$> l' !! n = snd <$> l !! n) ->
  (forall n, n = b \/ n ∈ ns -> fst <$> l' !! n = fst <$> l !! n) ->
  path l' a ns b.
Proof.
  revert a. induction ns as [|n ns IH]; intros a Hp Hs Hf.
  - destruct Hp as [H1 H2]. split; [rewrite Hs; [done|by left]|rewrite Hf; [done|by left]].
  - destruct Hp as [[H1 H2] Hp]. split.
    + split; [rewrite Hs; [done|by left]|rewrite Hf; [done|right; constructor]].
    + apply IH; [done| |].
      * intros m [->|Hm]; apply Hs; right; [constructor|by constructor].
      * intros m [->|Hm]; apply Hf; [by left|right; by constructor].
Qed.

Lemma ring_frame l l' head ns :
  ring l head ns -> (forall n, n ∈ head :: ns -> l' !! n = l !! n) -> ring l' head ns.
Proof.
  intros [Hp Hn] H. split; [|done]. eapply path_frame; [exact Hp| |];
    (intros n Hm; rewrite H; [done|]; apply elem_of_cons; tauto).
Qed.

(** The next and the previous of a node that is written. *)
Lemma set_next_Some n x l : is_Some (l !! n) ->
  exists l', set_next n x l = Some l' /\ snd <$> l' !! n = Some x /\ fst <$> l' !! n = fst <$> l !! n /\
    forall m, m <> n -> l' !! m = l !! m.
Proof.
  intros [[p y] H]. unfold set_next. rewrite H. obind. eexists. split; [done|].
  rewrite lookup_insert_eq. split; [done|]. split; [done|]. intros. by rewrite lookup_insert_ne.
Qed.

Lemma set_prev_Some n x l : is_Some (l !! n) ->
  exists l', set_prev n x l = Some l' /\ fst <$> l' !! n = Some x /\ snd <$> l' !! n = snd <$> l !! n /\
    forall m, m <> n -> l' !! m = l !! m.
Proof.
  intros [[p y] H]. unfold set_prev. rewrite H. obind. eexists. split; [done|].
  rewrite lookup_insert_eq. split; [done|]. split; [done|]. intros. by rewrite lookup_insert_ne.
Qed.

Lemma linked_lookup l a b : linked l a b -> exists p y, l !! a = Some (p, b) /\ l !! b = Some (a, y).
Proof.
  intros [H1 H2]. destruct (l !! a) as [[p x]|] eqn:Ea; [|done]. destruct (l !! b) as [[q y]|] eqn:Eb; [|done].
  cbn in *. simplify_eq. eauto.
Qed.

Lemma path_first l a ns b : path l a ns b -> linked l a (hd b ns).
Proof. destruct ns; cbn; [done|by intros [? _]]. Qed.

Lemma list_add_ring l head new ns :
  ring l head ns -> new ∉ head :: ns ->
  exists l', list_add new head l = Some l' /\ ring l' head (new :: ns) /\
    (forall n, n ∉ head :: new :: ns -> l' !! n = l !! n).
Proof.
  intros [Hp Hn] Hnew. remember (hd head ns) as next eqn:En.
  pose proof (path_first _ _ _ _ Hp) as Hl. rewrite <- En in Hl.
  destruct (linked_lookup _ _ _ Hl) as (p & y & Ha & Hb).
  assert (Hnext : next ∈ head :: ns).
  { rewrite En. destruct ns; cbn; [constructor|]. right. constructor. }
  assert (Hne : new <> next) by (intros ->; done).
  assert (Hnh : new <> head) by (intros ->; apply Hnew; constructor).
  unfold list_add. rewrite Ha. obind.
  destruct (set_prev_Some next new l) as (l1 & -> & F1 & S1 & O1); [by rewrite Hb|]. obind.
  destruct (set_next_Some head new (<[new := (head, next)]> l1)) as (l2 & -> & S2 & F2 & O2).
  { rewrite lookup_insert_ne by done. destruct (decide (head = next)) as [->|]; [|by rewrite O1, Ha].
    apply (fmap_is_Some fst). by rewrite F1. }
  exists l2. split; [done|].
  assert (Lnew : l2 !! new = Some (head, next)) by (rewrite O2 by done; by rewrite lookup_insert_eq).
  assert (Hfst : forall m, m <> new -> m <> next -> fst <$> l2 !! m = fst <$> l !! m).
  { intros m H1 H2. destruct (decide (m = head)) as [->|].
    - rewrite F2, lookup_insert_ne by done. by rewrite O1.
    - rewrite O2, lookup_insert_ne by done. by rewrite O1. }
  assert (Hsnd : forall m, m <> new -> m <> head -> snd <$> l2 !! m = snd <$> l !! m).
  { intros m H1 H2. rewrite O2, lookup_insert_ne by done.
    destruct (decide (m = next)) as [->|]; [done|by rewrite O1]. }
  assert (Hfn : fst <$> l2 !! next = Some new).
  { destruct (decide (next = head)) as [E|].
    - rewrite E, F2, lookup_insert_ne by done. by rewrite <- E.
    - by rewrite O2, lookup_insert_ne. }
  split; [split|].
  - cbn. split; [split; [done|by rewrite Lnew]|].
    subst next. destruct ns as [|n ns]; cbn in *.
    + split; [by rewrite Lnew|done].
    + destruct Hp as [_ Hp]. split; [split; [by rewrite Lnew|done]|].
      apply NoDup_cons in Hn as [Hh Hn]. apply NoDup_cons in Hn as [Hn1 Hn].
      rewrite !not_elem_of_cons in *.
      eapply path_frame; [exact Hp| |].
      * intros m [->|Hm]; apply Hsnd; try naive_solver; intros ->; naive_solver.
      * intros m [->|Hm]; apply Hfst; try naive_solver; intros ->; naive_solver.
  - apply NoDup_cons in Hn as [??]. rewrite !not_elem_of_cons in Hnew.
    apply NoDup_cons. split; [rewrite not_elem_of_cons; naive_solver|].
    apply NoDup_cons. naive_solver.
  - intros n Hn'. rewrite !not_elem_of_cons in Hn'.
    rewrite O2, lookup_insert_ne by naive_solver. apply O1. intros ->.
    apply elem_of_cons in Hnext. naive_solver.
Qed.

Lemma path_last l a ns b : path l a ns b -> linked l (default a (last ns)) b.
Proof.
  revert a. induction ns as [|n ns IH]; intros a; cbn [path]; [done|]. intros [_ Hp].
  apply IH in Hp. rewrite last_cons. by destruct (last ns).
Qed.

(** The last link of a path goes elsewhere. *)
Lemma path_retarget l l' b ns : forall x e,
  NoDup (x :: ns) -> path l x ns e ->
  (forall n, n ∈ ns -> fst <$> l' !! n = fst <$> l !! n) ->
  (forall n, n ∈ x :: ns -> n <> default x (last ns) -> snd <$> l' !! n = snd <$> l !! n) ->
  linked l' (default x (last ns)) b -> path l' x ns b.
Proof.
  induction ns as [|n ns IH]; intros x e Hn Hp Hf Hs Hl; [done|]. destruct Hp as [[H1 H2] Hp].
  assert (Hlast : default x (last (n :: ns)) = default n (last ns)) by (rewrite last_cons; by destruct (last ns)).
  rewrite Hlast in *. apply NoDup_cons in Hn as [Hx Hn].
  assert (Hin : default n (last ns) ∈ n :: ns).
  { destruct (last ns) eqn:El; cbn; [|constructor]. right. by apply last_Some_elem_of. }
  split; [split|].
  - rewrite Hs; [done|constructor|intros ->; done].
  - rewrite Hf; [done|constructor].
  - eapply IH; [done|done| | |done].
    + intros m Hm. apply Hf. by constructor.
    + intros m Hm. apply Hs. by constructor.
Qed.

Lemma list_del_ring l head ns1 e ns2 :
  ring l head (ns1 ++ e :: ns2) ->
  exists l', list_del e l = Some l' /\ ring l' head (ns1 ++ ns2) /\
    (forall n, n ∉ head :: ns1 ++ ns2 -> l' !! n = l !! n).
Proof.
  intros [Hp Hn]. apply path_app in Hp as [Hp1 Hp2].
  pose proof (path_last _ _ _ _ Hp1) as La. pose proof (path_first _ _ _ _ Hp2) as Lb.
  remember (default head (last ns1)) as a eqn:Ea. remember (hd head ns2) as b eqn:Eb.
  destruct (linked_lookup _ _ _ La) as (pa & ye & Ha & He).
  destruct (linked_lookup _ _ _ Lb) as (pe & yb & He' & Hb).
  rewrite He in He'. injection He' as <- ->.
  apply NoDup_cons in Hn as [Hhead Hn]. apply NoDup_app in Hn as (Hn1 & Hdisj & Hn2).
  apply NoDup_cons in Hn2 as [He2 Hn2]. rewrite elem_of_app, elem_of_cons in Hhead.
  assert (Ia : a = head \/ a ∈ ns1).
  { rewrite Ea. destruct (last ns1) as [x|] eqn:E; [right|by left]. by apply last_Some_elem_of. }
  assert (Ib : b = head \/ b ∈ ns2).
  { rewrite Eb. destruct ns2 as [|x ns2']; [by left|right; constructor]. }
  assert (Hd : forall x, x ∈ ns1 -> x <> e /\ x ∉ ns2).
  { intros x Hx. specialize (Hdisj x Hx). rewrite not_elem_of_cons in Hdisj. done. }
  unfold list_del. rewrite He. obind.
  destruct (set_prev_Some b a l) as (l1 & -> & F1 & S1 & O1); [by rewrite Hb|]. obind.
  destruct (set_next_Some a b l1) as (l2 & -> & S2 & F2 & O2).
  { destruct (decide (a = b)) as [->|]; [|by rewrite O1, Ha].
    apply (fmap_is_Some fst). by rewrite F1. }
  exists l2. split; [done|].
  assert (Hfst : forall m, m <> b -> fst <$> l2 !! m = fst <$> l !! m).
  { intros m H1. destruct (decide (m = a)) as [->|]; [by rewrite F2, O1|by rewrite O2, O1]. }
  assert (Hsnd : forall m, m <> a -> snd <$> l2 !! m = snd <$> l !! m).
  { intros m H1. rewrite O2 by done. destruct (decide (m = b)) as [->|]; [done|by rewrite O1]. }
  assert (Hfb : fst <$> l2 !! b = Some a).
  { destruct (decide (b = a)) as [E|]; [|by rewrite O2]. rewrite E, F2. rewrite E in F1. exact F1. }
  split; [split|].
  - assert (Hp1' : path l2 head ns1 b).
    { eapply path_retarget; [|exact Hp1| | |].
      - apply NoDup_cons. split; [naive_solver|done].
      - intros n Hx. apply Hfst. intros ->. destruct Ib as [->|Ib]; [naive_solver|]. by apply (Hd b Hx).
      - rewrite <- Ea. intros n _. apply Hsnd.
      - rewrite <- Ea. done. }
    destruct ns2 as [|c ns2]; cbn in Eb; subst b; [by rewrite app_nil_r|].
    apply path_app. split; [done|]. destruct Hp2 as [_ Hp2]. apply NoDup_cons in Hn2 as [Hc _].
    eapply path_frame; [exact Hp2| |].
    + intros n Hx. apply Hsnd. intros ->.
      assert (a ∈ c :: ns2) as Hac by (apply elem_of_cons; tauto).
      destruct Ia as [->|Ia]; [apply Hhead; right; by right|]. by apply (Hd a Ia).
    + intros n Hx. apply Hfst. intros ->. destruct Hx as [->|Hx]; [|done].
      apply Hhead. right. right. constructor.
  - apply NoDup_cons. split; [rewrite elem_of_app; naive_solver|].
    apply NoDup_app. split; [done|]. split; [|done]. intros x Hx. by apply Hd.
  - intros n Hn'. rewrite not_elem_of_cons, elem_of_app in Hn'.
    rewrite O2 by naive_solver. apply O1. naive_solver.
Qed.

(** ** Rings of sessions and other rings *)

(** The nodes of the lists of sessions. *)
Definition of_sessions (n : node) : bool :=
  match n.1 with SetupList | RunningList | SessionNode => true | _ => false end.

(** Lists of sessions and other lists do not mix. *)
Definition separate (l : links) : Prop :=
  forall n p x, l !! n = Some (p, x) -> of_sessions p = of_sessions n /\ of_sessions x = of_sessions n.

Definition same_rings (l l' : links) : Prop := forall n, of_sessions n = true -> l' !! n = l !! n.

(** Lists that are left alone. *)
Definition aside (l l' : links) : Prop := separate l' /\ same_rings l l'.

Lemma aside_trans l1 l2 l3 : aside l1 l2 -> aside l2 l3 -> aside l1 l3.
Proof. intros [_ H1] [? H2]. split; [done|]. intros n Hn. by rewrite H2, H1. Qed.

Lemma aside_insert n p x l :
  separate l -> of_sessions n = false -> of_sessions p = false -> of_sessions x = false ->
  aside l (<[n := (p, x)]> l).
Proof.
  intros Hl Hn Hp Hx. split.
  - intros m q y. rewrite lookup_insert_Some. intros [[<- [= <- <-]]|[_ H]]; [by rewrite Hn|by apply Hl in H].
  - intros m Hm. rewrite lookup_insert_ne; [done|]. intros ->. congruence.
Qed.

Lemma set_next_aside n x l l' :
  separate l -> of_sessions n = false -> of_sessions x = false -> set_next n x l = Some l' -> aside l l'.
Proof.
  intros Hl Hn Hx. unfold set_next. destruct (l !! n) as [[p y]|] eqn:E; [|done]. intros [= <-].
  apply aside_insert; try done. apply Hl in E as [-> _]. done.
Qed.

Lemma set_prev_aside n x l l' :
  separate l -> of_sessions n = false -> of_sessions x = false -> set_prev n x l = Some l' -> aside l l'.
Proof.
  intros Hl Hn Hx. unfold set_prev. destruct (l !! n) as [[p y]|] eqn:E; [|done]. intros [= <-].
  apply aside_insert; try done. apply Hl in E as [_ ->]. done.
Qed.

Lemma neighbours_aside l n p x :
  separate l -> of_sessions n = false -> l !! n = Some (p, x) -> of_sessions p = false /\ of_sessions x = false.
Proof. intros Hl Hn H. apply Hl in H as [-> ->]. done. Qed.

Lemma list_add_aside new head l l' :
  separate l -> of_sessions new = false -> of_sessions head = false ->
  list_add new head l = Some l' -> aside l l'.
Proof.
  intros Hl Hnew Hh H. apply bind_Some in H as ([p n0] & E & H). apply bind_Some in H as (l1 & E0 & H).
  destruct (neighbours_aside _ _ _ _ Hl Hh E) as [_ Hn].
  pose proof (set_prev_aside _ _ _ _ Hl Hn Hnew E0) as [Hl1 HR1].
  pose proof (aside_insert new head n0 _ Hl1 Hnew Hh Hn) as [Hl2 HR2].
  eapply aside_trans; [split; [exact Hl1|done]|]. eapply aside_trans; [split; [exact Hl2|done]|].
  exact (set_next_aside _ _ _ _ Hl2 Hh Hnew H).
Qed.

Lemma list_del_aside e l l' :
  separate l -> of_sessions e = false -> list_del e l = Some l' -> aside l l'.
Proof.
  intros Hl He H. apply bind_Some in H as ([p n0] & E & H). apply bind_Some in H as (l1 & E0 & H).
  destruct (neighbours_aside _ _ _ _ Hl He E) as [Hp Hn].
  pose proof (set_prev_aside _ _ _ _ Hl Hn Hp E0) as Ha. eapply aside_trans; [exact Ha|].
  exact (set_next_aside _ _ _ _ (proj1 Ha) Hp Hn H).
Qed.

Lemma list_replace_aside old new l l' :
  separate l -> of_sessions old = false -> of_sessions new = false ->
  list_replace old new l = Some l' -> aside l l'.
Proof.
  intros Hl Ho Hn H. apply bind_Some in H as ([p n0] & E & H). apply bind_Some in H as (l1 & E0 & H).
  apply bind_Some in H as (l2 & E1 & H). apply bind_Some in H as ([p' n1] & E2 & H).
  apply bind_Some in H as (l3 & E3 & H).
  destruct (neighbours_aside _ _ _ _ Hl Ho E) as [_ Hx].
  pose proof (set_next_aside _ _ _ _ Hl Hn Hx E0) as A1.
  pose proof (set_prev_aside _ _ _ _ (proj1 A1) Hx Hn E1) as A2.
  destruct (neighbours_aside _ _ _ _ (proj1 A2) Ho E2) as [Hp _].
  pose proof (set_prev_aside _ _ _ _ (proj1 A2) Hn Hp E3) as A3.
  pose proof (set_next_aside _ _ _ _ (proj1 A3) Hp Hn H) as A4.
  eapply aside_trans; [exact A1|]. eapply aside_trans; [exact A2|]. exact (aside_trans _ _ _ A3 A4).
Qed.

Lemma separate_delete l n : separate l -> separate (delete n l).
Proof. intros Hl m p x H. apply lookup_delete_Some in H as [_ H]. by apply Hl. Qed.

Lemma delete_aside l ns :
  separate l -> Forall (fun n => of_sessions n = false) ns -> aside l (foldr delete l ns).
Proof.
  intros Hl. induction 1 as [|n ns Hn _ [IH1 IH2]]; cbn; [by split|].
  split; [by apply separate_delete|]. intros m Hm.
  rewrite lookup_delete_ne by (intros ->; congruence). by apply IH2.
Qed.

(** The lists of sessions change among themselves. *)
Lemma set_next_separate n x l l' :
  separate l -> of_sessions x = of_sessions n -> set_next n x l = Some l' -> separate l'.
Proof.
  intros Hl Hx H. apply bind_Some in H as ([p y] & E & [= <-]). apply Hl in E as [Hp _].
  intros m q z. rewrite lookup_insert_Some. intros [[<- [= <- <-]]|[_ H]]; [done|by apply Hl in H].
Qed.

Lemma set_prev_separate n x l l' :
  separate l -> of_sessions x = of_sessions n -> set_prev n x l = Some l' -> separate l'.
Proof.
  intros Hl Hx H. apply bind_Some in H as ([p y] & E & [= <-]). apply Hl in E as [_ Hp].
  intros m q z. rewrite lookup_insert_Some. intros [[<- [= <- <-]]|[_ H]]; [done|by apply Hl in H].
Qed.

Lemma list_add_separate new head l l' :
  separate l -> of_sessions new = of_sessions head -> list_add new head l = Some l' -> separate l'.
Proof.
  intros Hl Hn H. apply bind_Some in H as ([p n0] & E & H). apply bind_Some in H as (l1 & E0 & H).
  apply Hl in E as [_ Hx]. eapply set_next_separate; [|exact Hn|exact H].
  assert (Hl1 : separate l1) by (refine (set_prev_separate _ _ _ _ Hl _ E0); congruence).
  intros m q z. rewrite lookup_insert_Some. intros [[<- [= <- <-]]|[_ Hm]]; [split; congruence|by apply Hl1 in Hm].
Qed.

Lemma list_del_separate e l l' : separate l -> list_del e l = Some l' -> separate l'.
Proof.
  intros Hl H. apply bind_Some in H as ([p n0] & E & H). apply bind_Some in H as (l1 & E0 & H).
  apply Hl in E as [Hp Hn]. refine (set_next_separate _ _ _ _ _ _ H); [|by rewrite Hn, Hp].
  refine (set_prev_separate _ _ _ _ Hl _ E0). by rewrite Hn, Hp.
Qed.

Lemma foldr_delete_separate l ns : separate l -> separate (foldr delete l ns).
Proof. intros Hl. induction ns; cbn; [done|by apply separate_delete]. Qed.

(** ** Searches in a ring *)

Lemma ring_size l head ns : ring l head ns -> (length ns <= size l)%nat.
Proof.
  intros [Hp Hn]. apply NoDup_cons in Hn as [_ Hn].
  rewrite <- (size_dom (D := gset node)), <- (size_list_to_set (C := gset node) ns) by done.
  apply subseteq_size. intros n. rewrite elem_of_list_to_set, elem_of_dom. intros Hm.
  apply list_elem_of_split in Hm as (l1 & l2 & ->). apply path_app in Hp as [_ Hp].
  apply path_first in Hp as [Hs _]. apply fmap_Some in Hs as (x & -> & _). by eexists.
Qed.

(** The first object of the list that passes the test is found. *)
Lemma find_entry_spec k head member test ps : forall fuel a,
  path (km_links k) a (pair member <$> ps) head -> (length ps <= fuel)%nat ->
  head ∉ pair member <$> ps -> (forall p, p ∈ ps -> exists b, test p k = Some (b, k)) ->
  exists r, find_entry fuel head member test (hd head (pair member <$> ps)) k = Some (r, k) /\
    match r with
    | Some p => p ∈ ps /\ test p k = Some (true, k)
    | None => forall p, p ∈ ps -> test p k = Some (false, k)
    end.
Proof.
  induction ps as [|p ps IH]; intros fuel a Hp Hf Hh Ht.
  - exists None. split; [|by intros p ?%elem_of_nil]. destruct fuel; cbn; by rewrite bool_decide_true.
  - destruct fuel as [|fuel]; [cbn in Hf; lia|]. cbn [hd fmap list_fmap find_entry].
    destruct Hp as [_ Hp]. rewrite bool_decide_false by (intros Hx; apply Hh; rewrite <- Hx; constructor).
    rewrite bool_decide_true by done. destruct (Ht p) as [b Hb]; [constructor|].
    unfold mbind, km_bind. cbn [snd]. rewrite Hb. obind. destruct b.
    + exists (Some p). split; [done|]. split; [constructor|done].
    + destruct (path_first _ _ _ _ Hp) as [Hs _]. unfold must. rewrite Hs. obind.
      change (list_fmap nat (kind * nat)%type (pair member) ps) with (pair member <$> ps).
      destruct (IH fuel _ Hp) as (r & -> & Hr); [cbn in Hf; lia| | |].
      * intros H. apply Hh. by constructor.
      * intros q Hq. apply Ht. by constructor.
      * exists r. split; [done|]. destruct r as [q|].
        -- destruct Hr. split; [by constructor|done].
        -- intros q [->|Hq]%elem_of_cons; [done|by apply Hr].
Qed.

Lemma list_find_entry_spec k head member test ps :
  ring (km_links k) head (pair member <$> ps) -> (forall p, p ∈ ps -> exists b, test p k = Some (b, k)) ->
  exists r, list_find_entry head member test k = Some (r, k) /\
    match r with
    | Some p => p ∈ ps /\ test p k = Some (true, k)
    | None => forall p, p ∈ ps -> test p k = Some (false, k)
    end.
Proof.
  intros Hr Ht. pose proof (ring_size _ _ _ Hr) as Hs. rewrite length_fmap in Hs. destruct Hr as [Hp Hn].
  apply NoDup_cons in Hn as [Hh _]. unfold list_find_entry, gets, must, mbind, km_bind.
  destruct (path_first _ _ _ _ Hp) as [Hf _]. obind. rewrite Hf. obind.
  by eapply find_entry_spec.
Qed.

(** ** Chains *)

(** What the links of a table are: variables of the objects, next to the heads. *)
Class TableLaws (t : table) := {
  next_set p x k k' : t_set_next t p x k = Some k' -> t_next t p k' = Some x;
  next_set_other p q x k k' : t_set_next t p x k = Some k' -> q <> p -> t_next t q k' = t_next t q k;
  heads_set_next p x k k' : t_set_next t p x k = Some k' -> t_heads t k' = t_heads t k;
  set_next_total p x k : is_Some (t_next t p k) -> is_Some (t_set_next t p x k);
  next_set_heads p hs k : t_next t p (t_set_heads t hs k) = t_next t p k;
  heads_set_heads hs k : t_heads t (t_set_heads t hs k) = hs;
  size_bound l k : NoDup l -> (forall p, p ∈ l -> is_Some (t_next t p k)) -> (length l <= t_size t k)%nat
}.

(** What a write to the table does not change, an operation on a chain does not. *)
Definition written (t : table) (R : kmod -> kmod -> Prop) : Prop :=
  (forall k, R k k) /\ (forall k1 k2 k3, R k1 k2 -> R k2 k3 -> R k1 k3) /\
  (forall k p x k', t_set_next t p x k = Some k' -> R k k') /\
  (forall k hs, R k (t_set_heads t hs k)).

Lemma chain_link_written t R h p k a k' : written t R -> chain_link t h p k = Some (a, k') -> R k k'.
Proof.
  intros (_ & Ht & Hn & Hh) E. apply bind_Some in E as (k1 & E1 & [= _ <-]).
  eapply Ht; [by eapply Hn|apply Hh].
Qed.

Lemma chain_unlink_written t R h p k a k' : written t R -> chain_unlink t h p k = Some (a, k') -> R k k'.
Proof.
  intros (Hr & _ & Hn & Hh) E. unfold chain_unlink in E.
  destruct (t_heads t k !! h); [|by injection E as _ <-]. case_bool_decide.
  - apply bind_Some in E as (next & _ & [= _ <-]). apply Hh.
  - apply bind_Some in E as ([b|] & _ & E); [|by injection E as _ <-].
    apply bind_Some in E as (next & _ & E). apply bind_Some in E as (k1 & E1 & [= _ <-]). by eapply Hn.
Qed.

Section Chain.
Context (t : table) {TL : TableLaws t}.

(** The objects from [pos] on. *)
Fixpoint chained (k : kmod) (pos : option nat) (l : list nat) : Prop :=
  match l with
  | [] => pos = None
  | p :: l => pos = Some p /\ exists next, t_next t p k = Some next /\ chained k next l
  end.

Definition chain (k : kmod) (hash : Z) (l : list nat) : Prop := chained k (t_heads t k !! hash) l /\ NoDup l.

Lemma chained_frame k k' l : forall pos,
  chained k pos l -> (forall p, p ∈ l -> t_next t p k' = t_next t p k) -> chained k' pos l.
Proof.
  induction l as [|p l IH]; intros pos; [done|]. intros (-> & next & Hn & Hc) H.
  split; [done|]. exists next. rewrite H by constructor. split; [done|].
  apply IH; [done|]. intros q Hq. apply H. by constructor.
Qed.

Lemma find_before_spec k object l1 : forall fuel search l2,
  (length l1 < fuel)%nat -> chained k (Some search) (search :: l1 ++ object :: l2) -> object ∉ search :: l1 ->
  find_before t fuel search object k = Some (Some (default search (last l1))).
Proof.
  induction l1 as [|p l1 IH]; intros fuel search l2 Hf (_ & next & Hn & Hc) Ho;
    (destruct fuel as [|fuel]; [cbn in Hf; lia|]); cbn [find_before]; rewrite Hn; obind.
  - destruct Hc as [-> _]. by rewrite bool_decide_true.
  - destruct Hc as (-> & Hc). rewrite !not_elem_of_cons in Ho.
    rewrite bool_decide_false by naive_solver. erewrite IH; [|cbn in Hf; lia|by split|rewrite not_elem_of_cons; naive_solver].
    rewrite last_cons. by destruct (last l1).
Qed.

(** The link that leads to an object goes past it. *)
Lemma chained_unlink k k' object l1 search l2 next :
  chained k (Some search) (search :: l1 ++ object :: l2) -> NoDup (search :: l1 ++ object :: l2) ->
  t_next t object k = Some next -> t_set_next t (default search (last l1)) next k = Some k' ->
  chained k' (Some search) (search :: l1 ++ l2).
Proof.
  revert search. induction l1 as [|p l1 IH]; intros search (_ & nx & Hn & Hc) Hd Ho Hs.
  - cbn in Hs, Hc. destruct Hc as (-> & nx' & Hn' & Hc). rewrite Ho in Hn'. injection Hn' as ->.
    split; [done|]. exists nx'. split; [by eapply next_set|].
    eapply chained_frame; [exact Hc|]. intros q Hq. eapply next_set_other; [exact Hs|].
    intros ->. apply NoDup_cons in Hd as [Hd _]. apply Hd. cbn. by constructor.
  - destruct Hc as (-> & Hc). split; [done|]. exists (Some p).
    apply NoDup_cons in Hd as [Hd1 Hd2].
    assert (Hlast : default search (last (p :: l1)) = default p (last l1)) by (rewrite last_cons; by destruct (last l1)).
    rewrite Hlast in Hs. split.
    + erewrite next_set_other; [exact Hn|exact Hs|]. intros ->. apply Hd1.
      destruct (last l1) eqn:E; cbn; [|constructor]. right. apply elem_of_app. left. by apply last_Some_elem_of.
    + cbn. eapply IH; [by split|done|done|done].
Qed.

(** The table has the objects of [M], by their hash. *)
Definition holds (k : kmod) (M : Z -> nat -> Prop) : Prop :=
  forall h, exists l, chain k h l /\ forall p, p ∈ l <-> M h p.

Lemma holds_ext k M M' : holds k M -> (forall h p, M h p <-> M' h p) -> holds k M'.
Proof. intros H E h. destruct (H h) as (l & Hc & Hl). exists l. split; [done|]. intros p. by rewrite Hl. Qed.

Lemma chained_next k l : forall pos p, chained k pos l -> p ∈ l -> is_Some (t_next t p k).
Proof.
  induction l as [|q l IH]; intros pos p Hc Hp; [by apply elem_of_nil in Hp|].
  destruct Hc as (_ & next & Hn & Hc). apply elem_of_cons in Hp as [->|Hp]; [by rewrite Hn|by eapply IH].
Qed.

Lemma holds_next k M h p : holds k M -> M h p -> is_Some (t_next t p k).
Proof. intros H Hm. destruct (H h) as (l & [Hc _] & Hl). eapply chained_next; [exact Hc|by apply Hl]. Qed.

Lemma holds_frame k k' M :
  holds k M -> t_heads t k' = t_heads t k ->
  (forall h p, M h p -> t_next t p k' = t_next t p k) -> holds k' M.
Proof.
  intros H Hh Hn h. destruct (H h) as (l & [Hc Hd] & Hl). exists l. split; [|done]. split; [|done].
  rewrite Hh. eapply chained_frame; [exact Hc|]. intros p Hp. apply (Hn h). by apply Hl.
Qed.

Lemma chain_link_holds k k' M h p :
  holds k M -> (forall h', ~ M h' p) -> chain_link t h p k = Some (tt, k') ->
  holds k' (fun h' q => (h' = h /\ q = p) \/ M h' q).
Proof.
  intros H Hp E. unfold chain_link in E. apply bind_Some in E as (k1 & E1 & [= <-]). intros h'.
  destruct (H h') as (l & [Hc Hd] & Hl).
  assert (Hne : forall q, q ∈ l -> q <> p) by (intros q Hq ->; by apply (Hp h'), Hl).
  assert (Hc' : chained (t_set_heads t (<[h := p]> (t_heads t k1)) k1) (t_heads t k !! h') l).
  { eapply chained_frame; [exact Hc|]. intros q Hq. rewrite next_set_heads. eapply next_set_other; [done|by apply Hne]. }
  destruct (decide (h' = h)) as [->|Hh].
  - exists (p :: l). split; [split|].
    + rewrite heads_set_heads, lookup_insert_eq. split; [done|]. exists (t_heads t k !! h).
      rewrite next_set_heads. split; [by eapply next_set|done].
    + apply NoDup_cons. split; [|done]. intros Hq. by apply (Hne p Hq).
    + intros q. rewrite elem_of_cons, Hl. naive_solver.
  - exists l. split; [split; [|done]|].
    + rewrite heads_set_heads, lookup_insert_ne by done. rewrite (heads_set_next _ _ _ _ E1) in Hc' |- *. exact Hc'.
    + intros q. rewrite Hl. naive_solver.
Qed.

Lemma chain_link_total k h p : is_Some (t_next t p k) -> exists k', chain_link t h p k = Some (tt, k').
Proof. intros H. unfold chain_link. destruct (set_next_total p (t_heads t k !! h) k H) as [k' ->]. eauto. Qed.

(** The chains of the other hashes. *)
Lemma other_chain k k' M h h' p :
  holds k M -> (forall h1 h2 q, M h1 q -> M h2 q -> h1 = h2) -> M h p -> h' <> h ->
  t_heads t k' !! h' = t_heads t k !! h' -> (forall q, M h' q -> t_next t q k' = t_next t q k) ->
  exists l, chain k' h' l /\ forall q, q ∈ l <-> M h' q /\ q <> p.
Proof.
  intros H Hu Hm Hh Hhead Hn. destruct (H h') as (l & [Hc Hd] & Hl). exists l. split; [split; [|done]|].
  - rewrite Hhead. eapply chained_frame; [exact Hc|]. intros q Hq. by apply Hn, Hl.
  - intros q. rewrite Hl. split; [|by intros []]. intros Hq. split; [done|]. intros ->. apply Hh. by eapply Hu.
Qed.

(** The first object of a chain leaves it. *)
Lemma unlink_first k M h p next l :
  holds k M -> (forall h1 h2 q, M h1 q -> M h2 q -> h1 = h2) -> M h p -> NoDup (p :: l) ->
  (forall q, q ∈ p :: l <-> M h q) -> chained k next l ->
  holds (t_set_heads t (partial_alter (fun _ => next) h (t_heads t k)) k) (fun h' q => M h' q /\ q <> p).
Proof.
  intros H Hu Hm Hd Hl Hc h'. apply NoDup_cons in Hd as [Hp Hd]. destruct (decide (h' = h)) as [->|Hh].
  - exists l. split; [split; [|done]|].
    + rewrite heads_set_heads, lookup_partial_alter_eq. eapply chained_frame; [exact Hc|]. intros. apply next_set_heads.
    + intros q. rewrite <- Hl, elem_of_cons. naive_solver.
  - apply (other_chain k _ M h h' p); try done; [|intros; apply next_set_heads].
    by rewrite heads_set_heads, lookup_partial_alter_ne.
Qed.

(** A later object leaves it. *)
Lemma unlink_later k k' M h p search l1 l2 next :
  holds k M -> (forall h1 h2 q, M h1 q -> M h2 q -> h1 = h2) -> M h p ->
  chain k h (search :: l1 ++ p :: l2) -> (forall q, q ∈ search :: l1 ++ p :: l2 <-> M h q) ->
  t_next t p k = Some next -> t_set_next t (default search (last l1)) next k = Some k' ->
  holds k' (fun h' q => M h' q /\ q <> p).
Proof.
  intros H Hu Hm [Hc Hd] Hl En Es h'. assert (Hhead := proj1 Hc). rewrite Hhead in Hc.
  assert (Hc2 := chained_unlink k k' p l1 search l2 next Hc Hd En Es).
  assert (Hd2 : NoDup (search :: l1 ++ l2) /\ p ∉ search :: l1 ++ l2).
  { assert (Hpm : search :: l1 ++ p :: l2 ≡ₚ p :: search :: l1 ++ l2) by solve_Permutation.
    rewrite Hpm in Hd. apply NoDup_cons in Hd. tauto. }
  destruct (decide (h' = h)) as [->|Hh].
  - exists (search :: l1 ++ l2). split; [split; [|apply Hd2]|].
    + by rewrite (heads_set_next _ _ _ _ Es), Hhead.
    + intros q. rewrite <- Hl, !elem_of_cons, !elem_of_app, elem_of_cons.
      destruct Hd2 as [_ Hp]. rewrite elem_of_cons, elem_of_app in Hp. naive_solver.
  - apply (other_chain k k' M h h' p); try done; [by rewrite (heads_set_next _ _ _ _ Es)|].
    intros q Hq. eapply next_set_other; [done|]. intros ->. apply Hh. eapply Hu; [exact Hq|]. apply Hl.
    destruct (last l1) eqn:El; cbn; [|constructor]. right. apply elem_of_app. left. by apply last_Some_elem_of.
Qed.

Lemma chain_unlink_holds k k' M h p :
  holds k M -> (forall h1 h2 q, M h1 q -> M h2 q -> h1 = h2) -> M h p ->
  chain_unlink t h p k = Some (tt, k') -> holds k' (fun h' q => M h' q /\ q <> p).
Proof.
  intros H Hu Hm E. destruct (H h) as (l & Hch & Hl). assert (Hpl := proj2 (Hl p) Hm). unfold chain_unlink in E.
  destruct l as [|search l]; [by apply elem_of_nil in Hpl|]. destruct Hch as [Hc Hd].
  assert (Hhead := proj1 Hc). rewrite Hhead in E. case_bool_decide as Hsp.
  - subst search. apply bind_Some in E as (next & En & [= <-]). destruct Hc as (_ & next' & Hn & Hc).
    simplify_eq. by eapply unlink_first.
  - apply elem_of_cons in Hpl as [->|Hpl]; [done|]. apply list_elem_of_split in Hpl as (l1 & l2 & ->).
    assert (Hfb : find_before t (S (t_size t k)) search p k = Some (Some (default search (last l1)))).
    { rewrite Hhead in Hc. eapply find_before_spec; [|exact Hc|].
      - pose proof (size_bound (search :: l1 ++ p :: l2) k Hd (fun q Hq => chained_next _ _ _ _ Hc Hq)) as Hsz.
        cbn in Hsz. rewrite length_app in Hsz. cbn in Hsz. lia.
      - rewrite not_elem_of_cons. split; [done|]. apply NoDup_cons in Hd as [_ Hd].
        apply NoDup_app in Hd as (_ & Hx & _). intros Hq. apply (Hx p Hq). constructor. }
    rewrite Hfb in E. apply bind_Some in E as (b & [= <-] & E). apply bind_Some in E as (next & En & E).
    apply bind_Some in E as (k1 & Es & [= <-]). eapply unlink_later; [done|done|done|by split|done|done|done].
Qed.

(** A search finds the first object of the chain that passes the test. *)
Lemma chain_search_spec k test l : forall fuel pos,
  (length l <= fuel)%nat -> chained k pos l -> (forall p, p ∈ l -> is_Some (test p k)) ->
  exists r, chain_search t fuel test pos k = Some r /\
    match r with
    | Some p => p ∈ l /\ test p k = Some true
    | None => forall p, p ∈ l -> test p k = Some false
    end.
Proof.
  induction l as [|p l IH]; intros fuel pos Hf Hc Ht.
  - rewrite Hc. exists None. split; [by destruct fuel|]. by intros p ?%elem_of_nil.
  - destruct Hc as (-> & next & Hn & Hc). destruct fuel as [|fuel]; [cbn in Hf; lia|]. cbn [chain_search].
    destruct (Ht p) as [b Hb]; [constructor|]. rewrite Hb. obind. destruct b.
    + exists (Some p). split; [done|]. split; [constructor|done].
    + rewrite Hn. destruct (IH fuel next) as (r & -> & Hr); [cbn in Hf; lia|done|intros; apply Ht; by constructor|].
      exists r. split; [done|]. destruct r as [q|].
      * destruct Hr. split; [by constructor|done].
      * intros q [->|Hq]%elem_of_cons; [done|by apply Hr].
Qed.

Lemma chain_find_spec k M h test :
  holds k M -> (forall p, M h p -> is_Some (test p k)) ->
  exists r, chain_find t h test k = Some (r, k) /\
    match r with
    | Some p => M h p /\ test p k = Some true
    | None => forall p, M h p -> test p k = Some false
    end.
Proof.
  intros H Ht. destruct (H h) as (l & [Hc Hd] & Hl). unfold chain_find, must.
  destruct (chain_search_spec k test l (t_size t k) _ ltac:(apply size_bound; [done|]; intros; by eapply chained_next) Hc)
    as (r & -> & Hr).
  { intros p Hp. apply Ht. by apply Hl. }
  exists r. split; [done|]. destruct r as [p|]; [|intros p Hp; by apply Hr, Hl].
  destruct Hr. split; [by apply Hl|done].
Qed.
End Chain.
