(* ===== verification/KmodSessionSpec.v ===== *)
(** The sessions of the kernel module, specified: the invariant [sessions_ok] - the
    two hash tables hold exactly the sessions that run, the two lists the sessions
    that are set up and those that run - and the proof that every step of the
    module keeps it. *)
From stdpp Require Import option gmap.
From S2P Require Import Prelude Io Header KmodCapwap KmodCapwapSpec KmodReassembly KmodForward.
From S2P Require Import KmodSession KmodLists.
#[local] Open Scope Z_scope.

Lemma map_size_bound {A} (m : gmap nat A) (l : list nat) :
  NoDup l -> (forall p, p ∈ l -> is_Some (m !! p)) -> (length l <= size m)%nat.
Proof.
  intros Hd Hl. rewrite <- (size_dom (D := gset nat)), <- (size_list_to_set (C := gset nat) l) by done.
  apply subseteq_size. intros p Hp. rewrite elem_of_list_to_set in Hp. by apply elem_of_dom, Hl.
Qed.

#[export] Instance by_ipaddr_laws : TableLaws by_ipaddr.
Proof.
  split; cbn.
  - intros p x k k' H. apply bind_Some in H as (s & E & [= <-]). cbn. by rewrite lookup_insert_eq.
  - intros p q x k k' H Hq. apply bind_Some in H as (s & E & [= <-]). cbn. by rewrite lookup_insert_ne.
  - intros p x k k' H. by apply bind_Some in H as (s & E & [= <-]).
  - intros p x k [y H]. apply fmap_Some in H as (s & -> & _). by eexists.
  - done.
  - done.
  - intros l k Hd Hl. apply map_size_bound; [done|]. intros p Hp. by apply Hl, fmap_is_Some in Hp.
Qed.

#[export] Instance by_sessionid_laws : TableLaws by_sessionid.
Proof.
  split; cbn.
  - intros p x k k' H. apply bind_Some in H as (s & E & [= <-]). cbn. by rewrite lookup_insert_eq.
  - intros p q x k k' H Hq. apply bind_Some in H as (s & E & [= <-]). cbn. by rewrite lookup_insert_ne.
  - intros p x k k' H. by apply bind_Some in H as (s & E & [= <-]).
  - intros p x k [y H]. apply fmap_Some in H as (s & -> & _). by eexists.
  - done.
  - done.
  - intros l k Hd Hl. apply map_size_bound; [done|]. intros p Hp. by apply Hl, fmap_is_Some in Hp.
Qed.

Section Spec.
Context {I : Indeterminate} {E : KernelEnv} {L : Linux80211}.

(** ** The invariant *)

(** A session runs once it has the address of its peer. *)
Definition runs (s : sc_capwap_session_priv) : Prop := ss_family (ks_peeraddr (sp_session s)) <> AF_UNSPEC.

(** The sessions that run and have the hash [h]. *)
Definition running_at (hash : sc_capwap_session -> Z) (k : kmod) (h : Z) (p : nat) : Prop :=
  exists s, km_sessions k !! p = Some s /\ runs s /\ hash (sp_session s) = h.
Definition ipaddr_hash (s : sc_capwap_session) : Z := sc_capwap_hash_ipaddr (ks_peeraddr s).
Definition sessionid_hash (s : sc_capwap_session) : Z := sc_capwap_hash_sessionid (ks_sessionid s).

(** The list [head] has the sessions that satisfy [Q]. *)
Definition lists (l : links) (m : gmap nat sc_capwap_session_priv) (head : kind)
    (Q : sc_capwap_session_priv -> Prop) : Prop :=
  exists ps, ring l (head, 0%nat) (pair SessionNode <$> ps) /\
    forall p, p ∈ ps <-> exists s, m !! p = Some s /\ Q s.

Definition waits (s : sc_capwap_session_priv) : Prop := ~ runs s.

Record sessions_ok (k : kmod) : Prop := {
  so_ipaddr : holds by_ipaddr k (running_at ipaddr_hash k);
  so_sessionid : holds by_sessionid k (running_at sessionid_hash k);
  so_setup : lists (km_links k) (km_sessions k) SetupList waits;
  so_running : lists (km_links k) (km_sessions k) RunningList runs;
  so_fresh p : is_Some (km_sessions k !! p) -> (p < km_fresh k)%nat;
  so_separate : separate (km_links k)
}.

Lemma running_at_unique f k h1 h2 p : running_at f k h1 p -> running_at f k h2 p -> h1 = h2.
Proof. intros (s & H1 & _ & <-) (s' & H2 & _ & <-). by simplify_eq. Qed.

(** ** What does not concern the sessions *)

(** What the tables and the lists of sessions depend on. *)
Definition core (s : sc_capwap_session_priv) : capwap_addr * list Z * option nat * option nat :=
  (ks_peeraddr (sp_session s), ks_sessionid (sp_session s), sp_next_ipaddr s, sp_next_sessionid s).

Record quiet (k k' : kmod) : Prop := {
  qu_core p : core <$> km_sessions k' !! p = core <$> km_sessions k !! p;
  qu_ipaddr : km_hash_ipaddr k' = km_hash_ipaddr k;
  qu_sessionid : km_hash_sessionid k' = km_hash_sessionid k;
  qu_links : aside (km_links k) (km_links k');
  qu_fresh : (km_fresh k <= km_fresh k')%nat
}.

Lemma quiet_then k1 k2 k3 : quiet k1 k2 -> quiet k2 k3 -> quiet k1 k3.
Proof.
  intros [C1 I1 S1 L1 F1] [C2 I2 S2 L2 F2]. split; [intros; by rewrite C2| | | |lia].
  - by rewrite I2. - by rewrite S2. - by eapply aside_trans.
Qed.

Lemma quiet_session k k' p s : quiet k k' -> km_sessions k !! p = Some s ->
  exists s', km_sessions k' !! p = Some s' /\ core s' = core s.
Proof. intros Hq Hs. pose proof (qu_core _ _ Hq p) as H. rewrite Hs in H. apply fmap_Some in H as (s' & ? & ?). eauto. Qed.

Lemma quiet_session_back k k' p s' : quiet k k' -> km_sessions k' !! p = Some s' ->
  exists s, km_sessions k !! p = Some s /\ core s' = core s.
Proof.
  intros Hq Hs. pose proof (qu_core _ _ Hq p) as H. rewrite Hs in H. symmetry in H.
  apply fmap_Some in H as (s & ? & ?). eauto.
Qed.

(** A property of the core of a session. *)
Lemma quiet_sessions k k' p (Q : sc_capwap_session_priv -> Prop) :
  quiet k k' -> (forall s s', core s = core s' -> Q s -> Q s') ->
  (exists s, km_sessions k !! p = Some s /\ Q s) <-> (exists s, km_sessions k' !! p = Some s /\ Q s).
Proof.
  intros Hq HQ. split; intros (s & Hs & H).
  - destruct (quiet_session _ _ _ _ Hq Hs) as (s' & ? & ?). exists s'. split; [done|]. by eapply HQ.
  - destruct (quiet_session_back _ _ _ _ Hq Hs) as (s' & ? & ?). exists s'. split; [done|]. by eapply HQ.
Qed.

Lemma core_runs s s' : core s = core s' -> runs s -> runs s'.
Proof. unfold core, runs. by intros [= -> _ _ _]. Qed.

Lemma lists_aside l l' m head Q :
  (head = SetupList \/ head = RunningList) -> same_rings l l' -> lists l m head Q -> lists l' m head Q.
Proof.
  intros Hh Hl (ps & Hr & Hps). exists ps. split; [|done]. eapply ring_frame; [exact Hr|]. intros n Hn.
  apply Hl. apply elem_of_cons in Hn as [->|Hn]; [by destruct Hh as [-> | ->]|].
  by apply list_elem_of_fmap in Hn as (q & -> & _).
Qed.

Lemma lists_quiet k k' head Q :
  (head = SetupList \/ head = RunningList) -> quiet k k' -> (forall s s', core s = core s' -> Q s -> Q s') ->
  lists (km_links k) (km_sessions k) head Q -> lists (km_links k') (km_sessions k') head Q.
Proof.
  intros Hh Hq HQ H. apply (lists_aside _ (km_links k')) in H as (ps & Hr & Hps); [|done|apply Hq].
  exists ps. split; [done|]. intros p. rewrite Hps. by apply quiet_sessions.
Qed.

Lemma sessions_ok_quiet k k' : sessions_ok k -> quiet k k' -> sessions_ok k'.
Proof.
  intros Hk Hq. split.
  - eapply holds_ext; [eapply holds_frame; [apply Hk|apply Hq|]|].
    + intros h p _. cbn. pose proof (qu_core _ _ Hq p) as H.
      apply (f_equal (fmap (fun c => c.1.2))) in H. rewrite <- !option_fmap_compose in H. exact H.
    + intros h p. apply quiet_sessions; [done|]. intros s s' Hc [Hr <-]. split; [by eapply core_runs|].
      unfold core in Hc. unfold ipaddr_hash. by injection Hc as -> _ _ _.
  - eapply holds_ext; [eapply holds_frame; [apply Hk|apply Hq|]|].
    + intros h p _. cbn. pose proof (qu_core _ _ Hq p) as H.
      apply (f_equal (fmap snd)) in H. rewrite <- !option_fmap_compose in H. exact H.
    + intros h p. apply quiet_sessions; [done|]. intros s s' Hc [Hr <-]. split; [by eapply core_runs|].
      unfold core in Hc. unfold sessionid_hash. by injection Hc as _ -> _ _.
  - eapply lists_quiet; [by left|done| |apply Hk]. intros s s' Hc Hn Hr. apply Hn. by eapply core_runs.
  - eapply lists_quiet; [by right|done|exact core_runs|apply Hk].
  - intros p [s Hs]. destruct (quiet_session_back _ _ _ _ Hq Hs) as (s' & Hs' & _).
    pose proof (so_fresh _ Hk p ltac:(by rewrite Hs')). pose proof (qu_fresh _ _ Hq). lia.
  - apply Hq.
Qed.

(** ** Operations that leave the sessions alone *)

Definition calm {A} (m : KM A) : Prop :=
  forall k a k', separate (km_links k) -> m k = Some (a, k') -> quiet k k'.

Lemma quiet_same k : separate (km_links k) -> quiet k k.
Proof. intros H. split; try done. Qed.

Lemma calm_ret {A} (a : A) : calm (mret a).
Proof. intros k b k' H [= <- <-]. by apply quiet_same. Qed.

Lemma calm_then {A B} (m : KM A) (f : A -> KM B) : calm m -> (forall a, calm (f a)) -> calm (m ≫= f).
Proof.
  intros Hm Hf k b k' H E'. apply bind_Some in E' as ([a k1] & E1 & E2).
  pose proof (Hm _ _ _ H E1) as Q1. eapply quiet_then; [exact Q1|]. eapply Hf; [apply Q1|exact E2].
Qed.

Lemma calm_fails {A} : calm (fails (A := A)).
Proof. by intros k a k' _ ?. Qed.

Lemma calm_gets {A} (f : kmod -> A) : calm (gets f).
Proof. intros k a k' H [= <- <-]. by apply quiet_same. Qed.

Lemma calm_must {A} (f : kmod -> option A) : calm (must f).
Proof. intros k a k' H E'. apply bind_Some in E' as (b & _ & [= <- <-]). by apply quiet_same. Qed.

Lemma calm_puts f : (forall k, separate (km_links k) -> quiet k (f k)) -> calm (puts f).
Proof. intros Hf k a k' H [= <- <-]. by apply Hf. Qed.

Lemma calm_on_links f :
  (forall l l', separate l -> f l = Some l' -> aside l l') -> calm (on_links f).
Proof.
  intros Hf k a k' H E'. apply bind_Some in E' as (l & El & [= <- <-]).
  pose proof (Hf _ _ H El). by split.
Qed.

Lemma calm_list_add new head :
  of_sessions new = false -> of_sessions head = false -> calm (on_links (list_add new head)).
Proof. intros. apply calm_on_links. intros l l' Hl. by apply list_add_aside. Qed.

Lemma calm_list_del e : of_sessions e = false -> calm (on_links (list_del e)).
Proof. intros. apply calm_on_links. intros l l' Hl. by apply list_del_aside. Qed.

Lemma calm_list_replace old new :
  of_sessions old = false -> of_sessions new = false -> calm (on_links (list_replace old new)).
Proof. intros. apply calm_on_links. intros l l' Hl. by apply list_replace_aside. Qed.

Lemma calm_free_nodes ns : Forall (fun n => of_sessions n = false) ns -> calm (free_nodes ns).
Proof. intros Hn. apply calm_puts. intros k H. split; try done. by apply delete_aside. Qed.

Lemma calm_kzalloc : calm kzalloc.
Proof. intros k a k' H [= <- <-]. split; try done. cbn. lia. Qed.

Lemma calm_kemit e : calm (kemit e).
Proof. by apply calm_puts. Qed.

Lemma calm_if {A} (b : bool) (m1 m2 : KM A) : calm m1 -> calm m2 -> calm (if b then m1 else m2).
Proof. by destruct b. Qed.

(** Tables of stations and interfaces. *)
Definition undisturbed (k k' : kmod) : Prop := separate (km_links k) -> quiet k k'.

Lemma undisturbed_written t :
  (forall k p x k', t_set_next t p x k = Some k' -> undisturbed k k') ->
  (forall k hs, undisturbed k (t_set_heads t hs k)) -> written t undisturbed.
Proof.
  intros Hn Hh. split; [exact quiet_same|]. split; [|done]. intros k1 k2 k3 H1 H2 H.
  eapply quiet_then; [by apply H1|]. apply H2, H1, H.
Qed.

Lemma address_undisturbed : written by_address undisturbed.
Proof.
  apply undisturbed_written; [|by split]. intros k p x k' E' H.
  apply bind_Some in E' as (s & _ & [= <-]). by split.
Qed.

Lemma ifindex_undisturbed : written by_ifindex undisturbed.
Proof.
  apply undisturbed_written; [|by split]. intros k p x k' E' H.
  apply bind_Some in E' as (s & _ & [= <-]). by split.
Qed.

Lemma calm_chain_link t h p : written t undisturbed -> calm (chain_link t h p).
Proof. intros Ht k a k' H E'. exact (chain_link_written _ _ _ _ _ _ _ Ht E' H). Qed.

Lemma calm_chain_unlink t h p : written t undisturbed -> calm (chain_unlink t h p).
Proof. intros Ht k a k' H E'. exact (chain_unlink_written _ _ _ _ _ _ _ Ht E' H). Qed.

Lemma calm_chain_find t h test : calm (chain_find t h test).
Proof. apply calm_must. Qed.

Lemma calm_for_each fuel head member body pos :
  (forall p, calm (body p)) -> calm (for_each_safe fuel head member body pos).
Proof.
  intros Hb. revert pos. induction fuel as [|fuel IH]; intros pos; cbn [for_each_safe];
    (apply calm_if; [apply calm_ret|]); [apply calm_fails|].
  apply calm_if; [|apply calm_fails]. apply calm_then; [apply calm_must|]. intros next.
  apply calm_then; [apply Hb|]. intros _. apply IH.
Qed.

Lemma calm_for_each_entry head member body :
  (forall p, calm (body p)) -> calm (list_for_each_entry_safe head member body).
Proof.
  intros Hb. apply calm_then; [apply calm_gets|]. intros fuel. apply calm_then; [apply calm_must|].
  intros first. by apply calm_for_each.
Qed.

Lemma calm_find_entry head member test :
  (forall p, calm (test p)) -> calm (list_find_entry head member test).
Proof.
  intros Ht. apply calm_then; [apply calm_gets|]. intros fuel. apply calm_then; [apply calm_must|].
  intros pos. revert pos. induction fuel as [|fuel IH]; intros pos; cbn [find_entry];
    (apply calm_if; [apply calm_ret|]); [apply calm_fails|].
  apply calm_if; [|apply calm_fails]. apply calm_then; [apply Ht|]. intros [|]; [apply calm_ret|].
  apply calm_then; [apply calm_must|]. intros next. apply IH.
Qed.

(** A session whose core is not changed. *)
Lemma quiet_put_session k p s s' :
  separate (km_links k) -> km_sessions k !! p = Some s -> core s' = core s ->
  quiet k (set_sessions (<[p := s']> (km_sessions k)) k).
Proof.
  intros H Hs Hc. split; try done. intros q. cbn. destruct (decide (q = p)) as [->|].
  - rewrite lookup_insert_eq, Hs. cbn. by rewrite Hc.
  - by rewrite lookup_insert_ne.
Qed.

Lemma calm_update {A} p (f : sc_capwap_session_priv -> option sc_capwap_session_priv) (m : KM A) :
  (forall s s', f s = Some s' -> core s' = core s) -> calm m ->
  calm (s ← get_sessionpriv p; s' ← must (fun _ => f s); put_sessionpriv p s';; m).
Proof.
  intros Hf Hm k a k' H E'. apply bind_Some in E' as ([s k1] & E1 & E').
  apply bind_Some in E1 as (s0 & Hs & [= -> ->]). apply bind_Some in E' as ([s' k2] & E2 & E').
  apply bind_Some in E2 as (s1 & Hs1 & [= -> ->]). apply bind_Some in E' as ([u k3] & [= _ <-] & E').
  assert (Q := quiet_put_session k2 p s s' H Hs (Hf _ _ Hs1)).
  eapply quiet_then; [exact Q|]. eapply Hm; [apply Q|exact E'].
Qed.
End Spec.

Create HintDb calm.
#[export] Hint Resolve calm_ret calm_fails calm_gets calm_must calm_kzalloc calm_kemit calm_chain_find : calm.

(** The operations are calm piece by piece. *)
Ltac calm_step :=
  match goal with
  | |- forall _, _ => intros
  | |- calm (let '(_, _) := ?x in _) => destruct x
  | |- calm (match ?x with _ => _ end) => destruct x
  | |- calm (_ ≫= _) => apply calm_then
  | |- calm (on_links (list_add _ _)) => apply calm_list_add; [reflexivity|reflexivity]
  | |- calm (on_links (list_del _)) => apply calm_list_del; reflexivity
  | |- calm (on_links (list_replace _ _)) => apply calm_list_replace; [reflexivity|reflexivity]
  | |- calm (free_nodes _) => apply calm_free_nodes; repeat constructor
  | |- calm (chain_link by_address _ _) => apply calm_chain_link, address_undisturbed
  | |- calm (chain_unlink by_address _ _) => apply calm_chain_unlink, address_undisturbed
  | |- calm (chain_link by_ifindex _ _) => apply calm_chain_link, ifindex_undisturbed
  | |- calm (chain_unlink by_ifindex _ _) => apply calm_chain_unlink, ifindex_undisturbed
  | |- calm (list_for_each_entry_safe _ _ _) => apply calm_for_each_entry
  | |- calm (list_find_entry _ _ _) => apply calm_find_entry
  | |- calm (puts _) => apply calm_puts; intros ? ?; by split
  | |- calm _ => solve [eauto with calm]
  end.
Ltac calm_op := repeat calm_step.

Section Operations.
Context {I : Indeterminate} {E : KernelEnv} {L : Linux80211}.

Lemma calm_searchconnection st : calm (sc_stations_searchconnection st).
Proof. unfold sc_stations_searchconnection, get_station, get_connection. calm_op. Qed.
Hint Resolve calm_searchconnection : calm.

Lemma calm_releaseconnection st : calm (sc_stations_releaseconnection st).
Proof. unfold sc_stations_releaseconnection, get_connection, put_connection. calm_op. Qed.
Hint Resolve calm_releaseconnection : calm.

Lemma calm_setconnection st : calm (sc_stations_setconnection st).
Proof. unfold sc_stations_setconnection, get_station, get_connection, put_connection. calm_op. Qed.
Hint Resolve calm_setconnection : calm.

Lemma calm_stations_free st : calm (sc_stations_free st).
Proof. unfold sc_stations_free, get_station. calm_op. Qed.
Hint Resolve calm_stations_free : calm.

Lemma calm_stations_add st : calm (sc_stations_add st).
Proof. unfold sc_stations_add, get_station. calm_op. Qed.
Hint Resolve calm_stations_add : calm.

Lemma calm_close_station st : calm (close_station st).
Proof. unfold close_station. calm_op. Qed.
Hint Resolve calm_close_station : calm.

(** Interfaces. *)
Lemma calm_netdev_uninit priv : calm (sc_iface_netdev_uninit priv).
Proof. unfold sc_iface_netdev_uninit, get_devpriv. calm_op. Qed.
Hint Resolve calm_netdev_uninit : calm.

Lemma calm_put_links f :
  (forall l, separate l -> aside l (f l)) -> calm (puts (fun k => set_links (f (km_links k)) k)).
Proof. intros Hf. apply calm_puts. intros k H. split; try done. by apply Hf. Qed.

Lemma init_aside n l : of_sessions n = false -> separate l -> aside l (INIT_LIST_HEAD n l).
Proof. intros. by apply aside_insert. Qed.

Lemma calm_init_lists n1 n2 :
  of_sessions n1 = false -> of_sessions n2 = false ->
  calm (puts (fun k => set_links (INIT_LIST_HEAD n1 (INIT_LIST_HEAD n2 (km_links k))) k)).
Proof.
  intros H1 H2. apply (calm_put_links (fun l => INIT_LIST_HEAD n1 (INIT_LIST_HEAD n2 l))). intros l Hl.
  pose proof (init_aside n2 l H2 Hl) as A. eapply aside_trans; [exact A|]. apply init_aside; [done|apply A].
Qed.

Lemma calm_iface_create name : calm (sc_iface_create name).
Proof.
  unfold sc_iface_create, put_devpriv.
  repeat (calm_step || (apply calm_init_lists; reflexivity)).
Qed.

Lemma calm_unregister_netdev priv : calm (unregister_netdev priv).
Proof. unfold unregister_netdev, get_devpriv. calm_op. Qed.
Hint Resolve calm_unregister_netdev : calm.

Lemma calm_iface_delete ifindex : calm (sc_iface_delete ifindex).
Proof. unfold sc_iface_delete, sc_iface_search. calm_op. Qed.

(** Commands on WLANs and stations. *)
Lemma set_kwlan_core radioid wlanid f s s' : set_kwlan radioid wlanid f s = Some s' -> core s' = core s.
Proof. intros H. by apply bind_Some in H as (i & _ & [= <-]). Qed.

Lemma calm_addwlan sessionid radioid wlanid bssid macmode tunnelmode :
  calm (sc_capwap_addwlan sessionid radioid wlanid bssid macmode tunnelmode).
Proof.
  apply calm_then; [apply calm_chain_find|]. intros [p|]; [|apply calm_ret].
  apply calm_update; [intros; by eapply set_kwlan_core|apply calm_ret].
Qed.

Lemma calm_removewlan sessionid radioid wlanid : calm (sc_capwap_removewlan sessionid radioid wlanid).
Proof.
  apply calm_then; [apply calm_chain_find|]. intros [p|]; [|apply calm_ret].
  apply calm_update; [intros; by eapply set_kwlan_core|apply calm_ret].
Qed.

Lemma calm_update_station st dev p radioid wlanid vlan : calm (update_station st dev p radioid wlanid vlan).
Proof. unfold update_station, get_station, put_station. calm_op. Qed.

Lemma calm_create_station address dev p radioid wlanid vlan :
  calm (create_station address dev p radioid wlanid vlan).
Proof. unfold create_station, put_station. calm_op. Qed.
Hint Resolve calm_update_station calm_create_station : calm.

Lemma calm_authstation sessionid address ifindex radioid wlanid vlan :
  calm (sc_capwap_authstation sessionid address ifindex radioid wlanid vlan).
Proof.
  unfold sc_capwap_authstation, sc_capwap_getsession_sessionid, sc_iface_search, sc_stations_search. calm_op.
Qed.

Lemma calm_deauthstation sessionid address : calm (sc_capwap_deauthstation sessionid address).
Proof.
  unfold sc_capwap_deauthstation, sc_capwap_getsession_sessionid, sc_stations_search, get_station. calm_op.
Qed.

(** Packets. *)
Lemma forwarddata_identity s radioid binding data flags ra rl wi wl log err s' log' :
  sc_capwap_forwarddata s radioid binding data flags ra rl wi wl log = Some (err, s', log') ->
  ks_peeraddr s' = ks_peeraddr s /\ ks_sessionid s' = ks_sessionid s.
Proof.
  unfold sc_capwap_forwarddata. intros H.
  destruct (_ <? _); apply bind_Some in H as ([unsent log1] & _ & [= _ <- _]); done.
Qed.

Lemma calm_forwarddata p radioid binding data flags ra wi :
  calm (forwarddata p radioid binding data flags ra wi).
Proof.
  intros k a k' H E'. apply bind_Some in E' as (s & Hs & E').
  apply bind_Some in E' as ([[err s'] log] & Ef & [= _ <-]).
  apply forwarddata_identity in Ef as [Hp Hi].
  assert (Hc : core (set_session s' s) = core s) by (unfold core; cbn; by rewrite Hp, Hi).
  destruct (quiet_put_session k p s (set_session s' s) H Hs Hc). by split.
Qed.
Hint Resolve calm_forwarddata : calm.

Lemma calm_sendpacket_wtp p radioid wlanid skb is80211 :
  calm (sc_capwap_sendpacket_wtp p radioid wlanid skb is80211).
Proof. unfold sc_capwap_sendpacket_wtp, get_sessionpriv. calm_op. Qed.

Lemma calm_sendbroadcastpacket_wtp netpriv vlan skb ignore :
  calm (sc_capwap_sendbroadcastpacket_wtp netpriv vlan skb ignore).
Proof. unfold sc_capwap_sendbroadcastpacket_wtp, get_connection, get_sessionpriv. calm_op. Qed.

Lemma calm_sendpacket_iface st skb : calm (sc_capwap_sendpacket_iface st skb).
Proof. unfold sc_capwap_sendpacket_iface, get_station, get_devpriv. calm_op. Qed.
Hint Resolve calm_sendpacket_wtp calm_sendbroadcastpacket_wtp calm_sendpacket_iface : calm.

Lemma calm_parsingdatapacket skb : calm (sc_capwap_parsingdatapacket skb).
Proof.
  unfold sc_capwap_parsingdatapacket, sc_stations_search, get_station, get_sessionpriv, as_8023. calm_op.
Qed.

Lemma calm_parsingmgmtpacket p skb : calm (sc_capwap_parsingmgmtpacket p skb).
Proof. unfold sc_capwap_parsingmgmtpacket, get_sessionpriv. calm_op. Qed.

Lemma calm_send_packet packet to : calm (send_packet packet to).
Proof. intros k a k' H [= _ <-]. by split. Qed.
Hint Resolve calm_send_packet : calm.

Lemma calm_sendkeepalive sessionid : calm (sc_capwap_sendkeepalive sessionid).
Proof. unfold sc_capwap_sendkeepalive, sc_capwap_getsession_sessionid, get_sessionpriv. calm_op. Qed.

Lemma calm_recvpacket packet : calm (sc_capwap_recvpacket packet).
Proof. intros k a k' H. unfold sc_capwap_recvpacket. destruct (_ =? _); [done|]. intros [= _ <-]. by split. Qed.
Hint Resolve calm_recvpacket : calm.

Lemma calm_netdev_tx packet proto : calm (sc_iface_netdev_tx packet proto).
Proof. unfold sc_iface_netdev_tx, get_devpriv. calm_op. Qed.

Lemma calm_set_iface_up up priv : calm (set_iface_up up priv).
Proof. unfold set_iface_up, get_devpriv, put_devpriv. calm_op. Qed.
End Operations.

(** ** The lists and the tables of sessions *)

(** A session leaves its list. *)
Lemma list_del_lists l m head other Q Q' p s :
  head <> other -> head <> SessionNode -> other <> SessionNode ->
  lists l m head Q -> lists l m other Q' -> (forall s, Q s -> ~ Q' s) -> m !! p = Some s -> Q s ->
  exists l', list_del (SessionNode, p) l = Some l' /\ lists l' (delete p m) head Q /\
    lists l' (delete p m) other Q'.
Proof.
  intros Hne Hh Ho (ps & Hr & Hps) (qs & Hr' & Hqs) HQ Hs HQs.
  assert (Hp : p ∈ ps) by (apply Hps; eauto). apply list_elem_of_split in Hp as (ps1 & ps2 & ->).
  assert (Hr1 := Hr). rewrite fmap_app, fmap_cons in Hr1.
  destruct (list_del_ring _ _ _ _ _ Hr1) as (l' & Hl & Hr2 & Hother). exists l'. split; [done|].
  destruct Hr as [_ Hr]. apply NoDup_cons in Hr as [_ Hr]. apply NoDup_fmap_1, NoDup_app in Hr as (_ & Hd1 & Hd2).
  apply NoDup_cons in Hd2 as [Hp2 _].
  assert (Hp1 : p ∉ ps1) by (intros H; apply (Hd1 p H); constructor).
  split; [exists (ps1 ++ ps2)|exists qs]; (split; [|intros q]).
  - by rewrite fmap_app.
  - setoid_rewrite lookup_delete_Some. specialize (Hps q). rewrite elem_of_app, elem_of_cons in Hps.
    rewrite elem_of_app. split.
    + intros Hq. destruct (proj1 Hps) as (s1 & ? & ?); [tauto|]. exists s1. split; [split; [|done]|done].
      intros <-. naive_solver.
    + intros (s1 & [Hqp ?] & ?). destruct (proj2 Hps) as [|[->|]]; eauto. done.
  - eapply ring_frame; [exact Hr'|]. intros n Hn. apply Hother. rewrite <- fmap_app.
    intros Hn'. apply elem_of_cons in Hn as [->|Hn].
    + apply elem_of_cons in Hn' as [[= ?]|Hn']; [done|]. by apply list_elem_of_fmap in Hn' as (? & [=] & _).
    + apply list_elem_of_fmap in Hn as (q & -> & Hq). apply Hqs in Hq as (s1 & ? & HQ1).
      apply elem_of_cons in Hn' as [[=]|Hn']; [done|].
      apply list_elem_of_fmap in Hn' as (q' & [= <-] & Hq'). destruct (proj1 (Hps q)) as (s2 & ? & ?).
      * rewrite elem_of_app, elem_of_cons. apply elem_of_app in Hq'. tauto.
      * simplify_eq. by eapply HQ.
  - setoid_rewrite lookup_delete_Some. rewrite Hqs. split; intros (s1 & H & ?); exists s1; [|naive_solver].
    split; [split; [|done]|done]. intros <-. simplify_eq. by eapply HQ.
Qed.

(** A session enters a list. *)
Lemma list_add_lists l m head other Q Q' p s :
  head <> other -> head <> SessionNode -> other <> SessionNode ->
  lists l m head Q -> lists l m other Q' -> (forall s, Q s -> ~ Q' s) -> m !! p = None -> Q s ->
  exists l', list_add (SessionNode, p) (head, 0%nat) l = Some l' /\
    lists l' (<[p := s]> m) head Q /\ lists l' (<[p := s]> m) other Q'.
Proof.
  intros Hne Hh Ho (ps & Hr & Hps) (qs & Hr' & Hqs) HQ Hp HQs.
  assert (Hpps : p ∉ ps) by (intros H; apply Hps in H as (? & ? & _); congruence).
  assert (Hpqs : p ∉ qs) by (intros H; apply Hqs in H as (? & ? & _); congruence).
  destruct (list_add_ring _ _ (SessionNode, p) _ Hr) as (l' & Hl & Hr2 & Hother).
  { intros [[=]|Hn]%elem_of_cons; [done|]. by apply list_elem_of_fmap in Hn as (? & [= <-] & ?). }
  exists l'. split; [done|]. split; [exists (p :: ps)|exists qs]; (split; [|intros q]).
  - done.
  - setoid_rewrite lookup_insert_Some. rewrite elem_of_cons, Hps. split.
    + intros [->|(s1 & ? & ?)]; [eauto|]. exists s1. split; [right|done]. split; [congruence|done].
    + intros (s1 & [[<- <-]|[]] & ?); eauto.
  - eapply ring_frame; [exact Hr'|]. intros n Hn. apply Hother. intros Hn'.
    apply elem_of_cons in Hn as [->|Hn].
    + apply elem_of_cons in Hn' as [[= ?]|Hn']; [done|]. apply elem_of_cons in Hn' as [[=]|Hn']; [done|].
      by apply list_elem_of_fmap in Hn' as (? & [=] & _).
    + apply list_elem_of_fmap in Hn as (q & -> & Hq). apply elem_of_cons in Hn' as [[=]|Hn']; [done|].
      apply elem_of_cons in Hn' as [[= ->]|Hn']; [done|].
      apply list_elem_of_fmap in Hn' as (q' & [= <-] & Hq').
      apply Hps in Hq' as (s1 & ? & ?). apply Hqs in Hq as (s2 & ? & ?). simplify_eq. by eapply HQ.
  - setoid_rewrite lookup_insert_Some. rewrite Hqs. split.
    + intros (s1 & ? & ?). exists s1. split; [right|done]. split; [congruence|done].
    + intros (s1 & [[<- <-]|[]] & ?); eauto. by apply HQ in HQs.
Qed.

Section Sessions.
Context {I : Indeterminate} {E : KernelEnv} {L : Linux80211}.

(** The sessions without the links of a table. *)
Definition same_session (k k' : kmod) : Prop :=
  forall p, sp_session <$> km_sessions k' !! p = sp_session <$> km_sessions k !! p.

(** What a table of sessions leaves alone. *)
Record ipaddr_only (k k' : kmod) : Prop := {
  io_session : same_session k k';
  io_next p : t_next by_sessionid p k' = t_next by_sessionid p k;
  io_heads : km_hash_sessionid k' = km_hash_sessionid k;
  io_links : km_links k' = km_links k;
  io_fresh : km_fresh k' = km_fresh k
}.
Record sessionid_only (k k' : kmod) : Prop := {
  do_session : same_session k k';
  do_next p : t_next by_ipaddr p k' = t_next by_ipaddr p k;
  do_heads : km_hash_ipaddr k' = km_hash_ipaddr k;
  do_links : km_links k' = km_links k;
  do_fresh : km_fresh k' = km_fresh k
}.

(** A field that a write to one session keeps. *)
Lemma field_insert {A} (f : sc_capwap_session_priv -> A) (m : gmap nat sc_capwap_session_priv) p s s' q :
  m !! p = Some s -> f s' = f s -> f <$> <[p := s']> m !! q = f <$> m !! q.
Proof.
  intros Hs Hf. destruct (decide (q = p)) as [->|]; [|by rewrite lookup_insert_ne].
  rewrite lookup_insert_eq, Hs. cbn. by rewrite Hf.
Qed.

Lemma ipaddr_written : written by_ipaddr ipaddr_only.
Proof.
  split; [by split|]. split; [|split; [|by split]].
  - intros k1 k2 k3 [] []. split; unfold same_session in *; intros; congruence.
  - intros k p x k' H. apply bind_Some in H as (s & Hs & [= <-]). split; try done; intros q; cbn; by eapply field_insert.
Qed.

Lemma sessionid_written : written by_sessionid sessionid_only.
Proof.
  split; [by split|]. split; [|split; [|by split]].
  - intros k1 k2 k3 [] []. split; unfold same_session in *; intros; congruence.
  - intros k p x k' H. apply bind_Some in H as (s & Hs & [= <-]). split; try done; intros q; cbn; by eapply field_insert.
Qed.

Lemma same_session_Some k k' p s : same_session k k' -> km_sessions k !! p = Some s ->
  exists s', km_sessions k' !! p = Some s' /\ sp_session s' = sp_session s.
Proof. intros H Hs. specialize (H p). rewrite Hs in H. apply fmap_Some in H as (s' & ? & ?). eauto. Qed.

Lemma same_session_sym k k' : same_session k k' -> same_session k' k.
Proof. intros H p. by rewrite H. Qed.

Lemma same_session_exists k k' p (Q : sc_capwap_session -> Prop) : same_session k k' ->
  (exists s, km_sessions k !! p = Some s /\ Q (sp_session s)) <->
  (exists s, km_sessions k' !! p = Some s /\ Q (sp_session s)).
Proof.
  intros H. split; intros (s & Hs & HQ).
  - destruct (same_session_Some _ _ _ _ H Hs) as (s' & ? & Es). exists s'. by rewrite Es.
  - destruct (same_session_Some _ _ _ _ (same_session_sym _ _ H) Hs) as (s' & ? & Es). exists s'. by rewrite Es.
Qed.

Lemma running_at_same f k k' h p : same_session k k' -> running_at f k h p <-> running_at f k' h p.
Proof.
  apply (same_session_exists k k' p (fun s => ss_family (ks_peeraddr s) <> AF_UNSPEC /\ f s = h)).
Qed.

(** ** Lookups *)

Lemma find_setup_spec k sessionid : sessions_ok k ->
  exists r, find_setup sessionid k = Some (r, k) /\
    match r with
    | Some p => exists s, km_sessions k !! p = Some s /\ waits s /\ ks_sessionid (sp_session s) = sessionid
    | None => forall p s, km_sessions k !! p = Some s -> waits s -> ks_sessionid (sp_session s) <> sessionid
    end.
Proof.
  intros Hk. destruct (so_setup _ Hk) as (ps & Hr & Hps).
  destruct (list_find_entry_spec k (SetupList, 0%nat) SessionNode (fun p =>
    s ← get_sessionpriv p; mret (bool_decide (ks_sessionid (sp_session s) = sessionid))) ps Hr)
    as (r & Hf & H).
  { intros p Hp. apply Hps in Hp as (s & Hs & _). unfold get_sessionpriv, must, mbind, km_bind. rewrite Hs. eauto. }
  assert (Ht : forall p s b, km_sessions k !! p = Some s ->
    (s ← get_sessionpriv p; mret (bool_decide (ks_sessionid (sp_session s) = sessionid))) k = Some (b, k) ->
    b = bool_decide (ks_sessionid (sp_session s) = sessionid)).
  { intros p s b Hs. unfold get_sessionpriv, must, mbind, km_bind. rewrite Hs. by intros [= <-]. }
  exists r. split; [exact Hf|]. destruct r as [p|].
  - destruct H as [Hp Hb]. apply Hps in Hp as (s & Hs & Hw). exists s. split; [done|]. split; [done|].
    apply (Ht _ _ _ Hs), eq_sym, bool_decide_eq_true in Hb. done.
  - intros p s Hs Hw. assert (Hp : p ∈ ps) by (apply Hps; eauto).
    apply H, (Ht _ _ _ Hs), eq_sym, bool_decide_eq_false in Hp. done.
Qed.

Lemma getsession_sessionid_spec k sessionid : sessions_ok k ->
  exists r, sc_capwap_getsession_sessionid sessionid k = Some (r, k) /\
    match r with
    | Some p => exists s, km_sessions k !! p = Some s /\ runs s /\ ks_sessionid (sp_session s) = sessionid
    | None => forall p s, km_sessions k !! p = Some s -> runs s -> ks_sessionid (sp_session s) <> sessionid
    end.
Proof.
  intros Hk. destruct (chain_find_spec by_sessionid k _ (sc_capwap_hash_sessionid sessionid) (fun p k =>
    s ← km_sessions k !! p; Some (bool_decide (ks_sessionid (sp_session s) = sessionid)))
    (so_sessionid _ Hk)) as (r & Hf & H).
  { intros p (s & Hs & _). rewrite Hs. by eexists. }
  exists r. split; [exact Hf|]. destruct r as [p|].
  - destruct H as [(s & Hs & Hr & _) Ht]. exists s. split; [done|]. split; [done|].
    rewrite Hs in Ht. injection Ht as Ht. by apply bool_decide_eq_true in Ht.
  - intros p s Hs Hr Hi. assert (Hp : running_at sessionid_hash k (sc_capwap_hash_sessionid sessionid) p)
      by (exists s; by rewrite <- Hi).
    apply H in Hp. rewrite Hs in Hp. injection Hp as Hp. by apply bool_decide_eq_false in Hp.
Qed.

Lemma addr_compare_hash a b : sc_addr_compare a b = 0 -> sc_capwap_hash_ipaddr a = sc_capwap_hash_ipaddr b.
Proof.
  unfold sc_addr_compare, sc_capwap_hash_ipaddr. destruct (ss_family a =? ss_family b) eqn:Ef; [|done].
  apply Z.eqb_eq in Ef. rewrite Ef. destruct (_ || _); [|done].
  destruct (bool_decide _) eqn:Ea; [|done]. apply bool_decide_eq_true in Ea. by rewrite Ea.
Qed.

Lemma getsession_ipaddr_spec k a : sessions_ok k ->
  exists r, sc_capwap_getsession_ipaddr a k = Some (r, k) /\
    match r with
    | Some p => exists s, km_sessions k !! p = Some s /\ runs s /\ sc_addr_compare a (ks_peeraddr (sp_session s)) = 0
    | None => forall p s, km_sessions k !! p = Some s -> runs s -> sc_addr_compare a (ks_peeraddr (sp_session s)) <> 0
    end.
Proof.
  intros Hk. destruct (chain_find_spec by_ipaddr k _ (sc_capwap_hash_ipaddr a) (fun p k =>
    s ← km_sessions k !! p; Some (sc_addr_compare a (ks_peeraddr (sp_session s)) =? 0))
    (so_ipaddr _ Hk)) as (r & Hf & H).
  { intros p (s & Hs & _). rewrite Hs. by eexists. }
  exists r. split; [exact Hf|]. destruct r as [p|].
  - destruct H as [(s & Hs & Hr & _) Ht]. exists s. split; [done|]. split; [done|].
    rewrite Hs in Ht. injection Ht as Ht. by apply Z.eqb_eq in Ht.
  - intros p s Hs Hr Hi. assert (Hp : running_at ipaddr_hash k (sc_capwap_hash_ipaddr a) p)
      by (exists s; split; [done|]; split; [done|]; by rewrite (addr_compare_hash _ _ Hi)).
    apply H in Hp. rewrite Hs in Hp. injection Hp as Hp. by apply Z.eqb_neq in Hp.
Qed.

(** ** The life of a session *)

Lemma fresh_session k : sessions_ok k -> km_sessions k !! km_fresh k = None.
Proof.
  intros Hk. destruct (km_sessions k !! km_fresh k) eqn:Hs; [|done].
  pose proof (so_fresh _ Hk (km_fresh k) ltac:(by rewrite Hs)). lia.
Qed.

(** A new session waits. *)
Lemma newsession_spec k sessionid binding mtu : sessions_ok k ->
  exists k', sc_capwap_newsession sessionid binding mtu k = Some (0, k') /\ sessions_ok k' /\
    km_sessions k !! km_fresh k = None /\
    exists s, km_sessions k' = <[km_fresh k := s]> (km_sessions k) /\ waits s /\
      ks_sessionid (sp_session s) = sessionid.
Proof.
  intros Hk. pose proof (fresh_session k Hk) as Hp. set (p := km_fresh k) in *.
  set (s := KSessionPriv (sc_capwap_initsession (KSession mtu no_address sessionid 0 [] [])) None None 0 binding
    (replicate (Z.to_nat (CAPWAP_RADIOID_MAX_COUNT * CAPWAP_WLANID_MAX_COUNT)) unused_wlan)).
  assert (Hw : waits s) by (intros H; by apply H).
  set (l1 := INIT_LIST_HEAD (SessionStations, p) (INIT_LIST_HEAD (SessionConnections, p) (km_links k))).
  assert (Ha : aside (km_links k) l1).
  { pose proof (init_aside (SessionConnections, p) _ eq_refl (so_separate _ Hk)) as A.
    eapply aside_trans; [exact A|]. by apply init_aside, A. }
  destruct (list_add_lists l1 (km_sessions k) SetupList RunningList waits runs p s) as (l2 & Hl & H1 & H2);
    try done; [eapply lists_aside; [by left|apply Ha|apply Hk]|eapply lists_aside; [by right|apply Ha|apply Hk]|].
  exists (set_links l2 (set_links l1 (set_sessions (<[p := s]> (km_sessions k)) (set_fresh (S p) k)))).
  assert (Hne : forall f h q, running_at f k h q -> q <> p) by (intros f h q (? & ? & _) ->; congruence).
  assert (Hrun : forall f h q, running_at f k h q <->
    running_at f (set_links l2 (set_links l1 (set_sessions (<[p := s]> (km_sessions k)) (set_fresh (S p) k)))) h q).
  { intros f h q. split.
    - intros H. pose proof (Hne _ _ _ H). destruct H as (s' & ? & ?). exists s'. cbn. by rewrite lookup_insert_ne.
    - intros (s' & Hs & ? & ?). cbn in Hs. apply lookup_insert_Some in Hs as [[<- <-]|[? ?]]; [done|]. by exists s'. }
  split; [|split; [|split; [done|by exists s]]].
  - unfold sc_capwap_newsession, kzalloc, put_sessionpriv, puts, on_links, mret, km_ret. unfold mbind, km_bind. obind.
    cbn [km_links set_links set_sessions set_fresh km_sessions]. fold p. fold l1. by rewrite Hl.
  - split; cbn [km_links set_links set_sessions set_fresh km_sessions km_fresh]; try done.
    + eapply holds_ext; [|exact (Hrun _)]. eapply holds_frame; [apply Hk|done|]. intros h q H. cbn.
      rewrite lookup_insert_ne; [done|]. apply not_eq_sym. by eapply Hne.
    + eapply holds_ext; [|exact (Hrun _)]. eapply holds_frame; [apply Hk|done|]. intros h q H. cbn.
      rewrite lookup_insert_ne; [done|]. apply not_eq_sym. by eapply Hne.
    + intros q [s' Hs]. apply lookup_insert_Some in Hs as [[<- _]|[_ Hs]]; [lia|].
      pose proof (so_fresh _ Hk q ltac:(by rewrite Hs)). fold p in H. lia.
    + eapply list_add_separate; [apply Ha| |exact Hl]. done.
Qed.

(** The sessions when [p] starts to run with the session [s1]. *)
Lemma running_at_started f k k' p s0 s1 : km_sessions k !! p = Some s0 -> waits s0 ->
  ss_family (ks_peeraddr s1) <> AF_UNSPEC ->
  (forall q, sp_session <$> km_sessions k' !! q = if decide (q = p) then Some s1 else sp_session <$> km_sessions k !! q) ->
  forall h q, (h = f s1 /\ q = p) \/ running_at f k h q <-> running_at f k' h q.
Proof.
  intros Hs0 Hw Hf Hs h q. specialize (Hs q). destruct (decide (q = p)) as [->|Hq].
  - apply fmap_Some in Hs as (s' & Hs' & ->). split.
    + intros [[-> _]|(s & Hs & Hr & _)]; [by exists s'|simplify_eq; by apply Hw in Hr].
    + intros (s & ? & _ & <-). simplify_eq. by left.
  - split.
    + intros [[_ ->]|(s & Hk & Hr & Hh)]; [done|]. rewrite Hk in Hs. apply fmap_Some in Hs as (s' & Hs' & Es).
      exists s'. unfold runs. by rewrite <- Es.
    + intros (s & Hk & Hr & Hh). right. rewrite Hk in Hs. symmetry in Hs. apply fmap_Some in Hs as (s' & Hs' & Es).
      exists s'. unfold runs. by rewrite <- Es.
Qed.

(** The lists when [p] starts to run. *)
Lemma started_lists k p s s1 : sessions_ok k -> km_sessions k !! p = Some s -> waits s -> runs s1 ->
  exists l1 l2, list_del (SessionNode, p) (km_links k) = Some l1 /\
    list_add (SessionNode, p) (RunningList, 0%nat) l1 = Some l2 /\ separate l2 /\
    lists l2 (<[p := s1]> (km_sessions k)) SetupList waits /\
    lists l2 (<[p := s1]> (km_sessions k)) RunningList runs.
Proof.
  intros Hk Hs Hw Hr.
  destruct (list_del_lists (km_links k) (km_sessions k) SetupList RunningList waits runs p s)
    as (l1 & H1 & HS & HR); try done; [apply Hk|apply Hk|].
  destruct (list_add_lists l1 (delete p (km_sessions k)) RunningList SetupList runs waits p s1)
    as (l2 & H2 & HR2 & HS2); try done; [intros s' H Hn; by apply Hn|apply lookup_delete_eq|].
  rewrite insert_delete_eq in HR2, HS2. exists l1, l2. split; [done|]. split; [done|]. split; [|done].
  refine (list_add_separate _ _ _ _ _ _ H2); [|done]. eapply list_del_separate; [apply Hk|exact H1].
Qed.

Lemma lists_same k k' l head (Q : sc_capwap_session -> Prop) :
  same_session k k' -> lists l (km_sessions k) head (fun s => Q (sp_session s)) ->
  lists l (km_sessions k') head (fun s => Q (sp_session s)).
Proof.
  intros H (ps & Hr & Hps). exists ps. split; [done|]. intros q. rewrite Hps. by apply same_session_exists.
Qed.

Lemma fresh_same k k' : same_session k k' -> km_fresh k' = km_fresh k ->
  (forall q, is_Some (km_sessions k !! q) -> (q < km_fresh k)%nat) ->
  forall q, is_Some (km_sessions k' !! q) -> (q < km_fresh k')%nat.
Proof.
  intros H Hf Hk q [s Hs]. rewrite Hf. apply Hk.
  destruct (same_session_Some _ _ _ _ (same_session_sym _ _ H) Hs) as (s' & -> & _). by eexists.
Qed.

(** The module when [p] starts to run. *)
Lemma started_ok k p s a l k4 k5 : let s1 := set_session (with_peeraddr a (sp_session s)) s in
  let k3 := set_links l (set_sessions (<[p := s1]> (km_sessions k)) k) in
  sessions_ok k -> km_sessions k !! p = Some s -> waits s -> runs s1 -> separate l ->
  lists l (<[p := s1]> (km_sessions k)) SetupList waits -> lists l (<[p := s1]> (km_sessions k)) RunningList runs ->
  chain_link by_ipaddr (ipaddr_hash (sp_session s1)) p k3 = Some (tt, k4) ->
  chain_link by_sessionid (sessionid_hash (sp_session s1)) p k4 = Some (tt, k5) ->
  sessions_ok k5 /\ (forall q, sp_session <$> km_sessions k5 !! q =
    if decide (q = p) then Some (sp_session s1) else sp_session <$> km_sessions k !! q).
Proof.
  intros s1 k3 Hk Hs Hw Hr Hsep HS HR H4 H5.
  pose proof (chain_link_written _ _ _ _ _ _ _ ipaddr_written H4) as W4.
  pose proof (chain_link_written _ _ _ _ _ _ _ sessionid_written H5) as W5.
  assert (W : same_session k3 k5) by (intros q; by rewrite (do_session _ _ W5), (io_session _ _ W4)).
  assert (H3k : forall q, sp_session <$> km_sessions k3 !! q =
    if decide (q = p) then Some (sp_session s1) else sp_session <$> km_sessions k !! q).
  { intros q. cbn. case_decide; [subst; by rewrite lookup_insert_eq|by rewrite lookup_insert_ne]. }
  assert (Hnew : forall f h q, (h = f (sp_session s1) /\ q = p) \/ running_at f k h q <-> running_at f k5 h q).
  { intros f. apply (running_at_started f k k5 p s (sp_session s1) Hs Hw Hr). intros q. by rewrite W. }
  assert (Hold : forall f h, ~ running_at f k h p) by (intros f h (s' & ? & ? & _); simplify_eq; by apply Hw).
  assert (Hl5 : km_links k5 = l) by by rewrite (do_links _ _ W5), (io_links _ _ W4).
  split; [split|by intros q; rewrite W].
  - eapply holds_ext; [|exact (Hnew ipaddr_hash)]. eapply holds_frame; [|apply (do_heads _ _ W5)|intros; apply (do_next _ _ W5)].
    eapply (chain_link_holds by_ipaddr); [|exact (Hold _)|exact H4]. eapply holds_frame; [apply Hk|done|].
    intros h q _. cbn. by eapply field_insert.
  - eapply holds_ext; [|exact (Hnew sessionid_hash)]. eapply (chain_link_holds by_sessionid); [|exact (Hold _)|exact H5].
    eapply holds_frame; [apply Hk|apply (io_heads _ _ W4)|]. intros h q _. rewrite (io_next _ _ W4). cbn. by eapply field_insert.
  - rewrite Hl5. by apply (lists_same k3 k5 l SetupList (fun s => ~ ss_family (ks_peeraddr s) <> AF_UNSPEC)).
  - rewrite Hl5. by apply (lists_same k3 k5 l RunningList (fun s => ss_family (ks_peeraddr s) <> AF_UNSPEC)).
  - apply (fresh_same k3 k5 W); [by rewrite (do_fresh _ _ W5), (io_fresh _ _ W4)|].
    intros q [s' Hs']. apply (so_fresh _ Hk). cbn in Hs'.
    apply lookup_insert_Some in Hs' as [[<- _]|[_ Hs']]; [by rewrite Hs|by rewrite Hs'].
  - by rewrite Hl5.
Qed.

(** A keep-alive from an unknown address starts the session that waits for it. *)
Lemma recvunknownkeepalive_spec k a sessionid : sessions_ok k -> ss_family a <> AF_UNSPEC ->
  exists r k', sc_capwap_recvunknownkeepalive a sessionid k = Some (r, k') /\ sessions_ok k' /\
    match r with
    | None => k' = k /\
        forall p s, km_sessions k !! p = Some s -> waits s -> ks_sessionid (sp_session s) <> sessionid
    | Some p => exists s, km_sessions k !! p = Some s /\ waits s /\ ks_sessionid (sp_session s) = sessionid /\
        forall q, sp_session <$> km_sessions k' !! q =
          if decide (q = p) then Some (with_peeraddr a (sp_session s)) else sp_session <$> km_sessions k !! q
    end.
Proof.
  intros Hk Ha. unfold sc_capwap_recvunknownkeepalive.
  destruct (find_setup_spec k sessionid Hk) as (r & Hf & H). unfold mbind at 1, km_bind at 1. rewrite Hf. obind.
  destruct r as [p|]; [|by exists None, k]. destruct H as (s & Hs & Hw & Hid).
  set (s1 := set_session (with_peeraddr a (sp_session s)) s).
  destruct (started_lists k p s s1 Hk Hs Hw Ha) as (l1 & l2 & H1 & H2 & Hsep & HS & HR).
  set (k3 := set_links l2 (set_sessions (<[p := s1]> (km_sessions k)) k)).
  destruct (chain_link_total by_ipaddr k3 (sc_capwap_hash_ipaddr a) p) as [k4 H4]; [cbn; by rewrite lookup_insert_eq|].
  pose proof (chain_link_written _ _ _ _ _ _ _ ipaddr_written H4) as W4.
  destruct (chain_link_total by_sessionid k4 (sc_capwap_hash_sessionid sessionid) p) as [k5 H5].
  { rewrite (io_next _ _ W4). cbn. by rewrite lookup_insert_eq. }
  assert (Hi : sc_capwap_hash_sessionid sessionid = sessionid_hash (sp_session s1)) by (rewrite <- Hid; done).
  assert (H5' := H5). rewrite Hi in H5'.
  destruct (started_ok k p s a l2 k4 k5 Hk Hs Hw Ha Hsep HS HR H4 H5') as [Hok Hq].
  exists (Some p), k5. split; [|split; [done|by exists s]].
  unfold on_links, get_sessionpriv, put_sessionpriv, must, puts, mret, km_ret. unfold mbind, km_bind. obind.
  rewrite H1. cbn [km_sessions set_links]. rewrite Hs. cbn [km_links set_sessions km_sessions set_links].
  fold s1. rewrite H2. change (set_links l2 _) with k3. by rewrite H4, H5.
Qed.

(** A session leaves the tables. *)
Definition unlink_session (p : nat) (s : sc_capwap_session) : KM unit :=
  if negb (ss_family (ks_peeraddr s) =? AF_UNSPEC) then
    chain_unlink by_ipaddr (ipaddr_hash s) p;; chain_unlink by_sessionid (sessionid_hash s) p
  else mret tt.

Lemma unlink_session_holds k k' p s : sessions_ok k -> km_sessions k !! p = Some s ->
  unlink_session p (sp_session s) k = Some (tt, k') ->
  same_session k k' /\ km_links k' = km_links k /\ km_fresh k' = km_fresh k /\
  holds by_ipaddr k' (fun h q => running_at ipaddr_hash k h q /\ q <> p) /\
  holds by_sessionid k' (fun h q => running_at sessionid_hash k h q /\ q <> p).
Proof.
  intros Hk Hs H. unfold unlink_session in H. destruct (ss_family _ =? AF_UNSPEC) eqn:Ef; cbn [negb] in H.
  - injection H as <-. apply Z.eqb_eq in Ef. split; [done|]. split; [done|]. split; [done|].
    assert (Hn : forall f h q, running_at f k h q <-> running_at f k h q /\ q <> p).
    { intros f h q. split; [|by intros []]. intros H. split; [done|]. intros ->.
      destruct H as (s' & ? & Hr & _). simplify_eq. by apply Hr. }
    split; (eapply holds_ext; [apply Hk|exact (Hn _)]).
  - apply bind_Some in H as ([[] k1] & H1 & H2). apply Z.eqb_neq in Ef.
    pose proof (chain_unlink_written _ _ _ _ _ _ _ ipaddr_written H1) as W1.
    pose proof (chain_unlink_written _ _ _ _ _ _ _ sessionid_written H2) as W2.
    split; [intros q; by rewrite (do_session _ _ W2), (io_session _ _ W1)|].
    split; [by rewrite (do_links _ _ W2), (io_links _ _ W1)|].
    split; [by rewrite (do_fresh _ _ W2), (io_fresh _ _ W1)|]. split.
    + eapply holds_frame; [|apply (do_heads _ _ W2)|intros; apply (do_next _ _ W2)].
      eapply (chain_unlink_holds by_ipaddr); [apply Hk|apply running_at_unique| |exact H1]. by exists s.
    + eapply (chain_unlink_holds by_sessionid); [|apply running_at_unique| |exact H2]; [|by exists s].
      eapply holds_frame; [apply Hk|apply (io_heads _ _ W1)|intros; apply (io_next _ _ W1)].
Qed.

(** The lists without a session. *)
Lemma unlisted k p s : sessions_ok k -> km_sessions k !! p = Some s ->
  exists l, list_del (SessionNode, p) (km_links k) = Some l /\
    lists l (delete p (km_sessions k)) SetupList waits /\ lists l (delete p (km_sessions k)) RunningList runs.
Proof.
  intros Hk Hs. destruct (decide (ss_family (ks_peeraddr (sp_session s)) = AF_UNSPEC)) as [Hw|Hr].
  - apply (list_del_lists _ _ SetupList RunningList waits runs p s); try done; [apply Hk|apply Hk|].
    intros Hr. by apply Hr.
  - destruct (list_del_lists (km_links k) (km_sessions k) RunningList SetupList runs waits p s)
      as (l & ? & ? & ?); try done; [apply Hk|apply Hk| |by exists l]. intros s' H Hn. by apply Hn.
Qed.

Lemma lists_freed l m head Q p : (head = SetupList \/ head = RunningList) -> m !! p = None -> lists l m head Q ->
  lists (foldr delete l [(SessionNode, p); (SessionStations, p); (SessionConnections, p)]) m head Q.
Proof.
  intros Hh Hp (ps & Hr & Hps). exists ps. split; [|done]. eapply ring_frame; [exact Hr|]. intros n Hn. cbn.
  assert (Hn' : n.1 <> SessionStations /\ n.1 <> SessionConnections /\ n <> (SessionNode, p)).
  { apply elem_of_cons in Hn as [->|Hn]; [by destruct Hh as [-> | ->]|].
    apply list_elem_of_fmap in Hn as (q & -> & Hq). apply Hps in Hq as (s & ? & _). split; [done|].
    split; [done|]. intros [= ->]. congruence. }
  destruct Hn' as (? & ? & ?). rewrite !lookup_delete_ne; [done|..]; intros <-; done.
Qed.

(** What names a session. *)
Definition named (s : sc_capwap_session_priv) : capwap_addr * list Z :=
  (ks_peeraddr (sp_session s), ks_sessionid (sp_session s)).

Lemma same_session_named k k' p : same_session k k' -> named <$> km_sessions k' !! p = named <$> km_sessions k !! p.
Proof.
  intros H. pose proof (f_equal (fmap (fun s => (ks_peeraddr s, ks_sessionid s))) (H p)) as Hp.
  by rewrite <- !option_fmap_compose in Hp.
Qed.

Lemma quiet_named k k' p : quiet k k' -> named <$> km_sessions k' !! p = named <$> km_sessions k !! p.
Proof.
  intros H. pose proof (f_equal (fmap (fun c => c.1.1)) (qu_core _ _ H p)) as Hp.
  by rewrite <- !option_fmap_compose in Hp.
Qed.

(** The module without a session. *)
Lemma closed_ok k1 k2 l p :
  let k' := set_sessions (delete p (km_sessions k2))
    (set_links (foldr delete l [(SessionNode, p); (SessionStations, p); (SessionConnections, p)]) k2) in
  sessions_ok k1 -> same_session k1 k2 -> km_fresh k2 = km_fresh k1 ->
  list_del (SessionNode, p) (km_links k1) = Some l ->
  lists l (delete p (km_sessions k1)) SetupList waits -> lists l (delete p (km_sessions k1)) RunningList runs ->
  holds by_ipaddr k2 (fun h q => running_at ipaddr_hash k1 h q /\ q <> p) ->
  holds by_sessionid k2 (fun h q => running_at sessionid_hash k1 h q /\ q <> p) ->
  sessions_ok k'.
Proof.
  intros k' Hk1 W Wf Hl HS HR Hip Hsid.
  assert (Hrun : forall f h q, running_at f k1 h q /\ q <> p <-> running_at f k' h q).
  { intros f h q. rewrite (running_at_same f k1 k2 h q W). unfold running_at. cbn. setoid_rewrite lookup_delete_Some. naive_solver. }
  assert (Hnext : forall {A} (f : sc_capwap_session_priv -> A) q, q <> p ->
    f <$> km_sessions k' !! q = f <$> km_sessions k2 !! q).
  { intros A f q Hq. cbn. by rewrite lookup_delete_ne. }
  assert (Hd : same_session (set_sessions (delete p (km_sessions k1)) k1) k').
  { intros q. cbn. destruct (decide (q = p)) as [->|]; [by rewrite !lookup_delete_eq|by rewrite !lookup_delete_ne]. }
  split.
  - eapply holds_ext; [|exact (Hrun _)]. eapply holds_frame; [exact Hip|done|]. intros h q [_ Hq]. by apply Hnext.
  - eapply holds_ext; [|exact (Hrun _)]. eapply holds_frame; [exact Hsid|done|]. intros h q [_ Hq]. by apply Hnext.
  - apply lists_freed; [by left|apply lookup_delete_eq|].
    exact (lists_same _ _ l SetupList (fun s => ~ ss_family (ks_peeraddr s) <> AF_UNSPEC) Hd HS).
  - apply lists_freed; [by right|apply lookup_delete_eq|].
    exact (lists_same _ _ l RunningList (fun s => ss_family (ks_peeraddr s) <> AF_UNSPEC) Hd HR).
  - intros q [s Hs]. cbn in Hs. apply lookup_delete_Some in Hs as [_ Hs].
    apply (fresh_same k1 k2 W Wf (so_fresh _ Hk1)). by eexists.
  - apply foldr_delete_separate. eapply list_del_separate; [apply Hk1|exact Hl].
Qed.

Lemma closesession_ok k k' p : sessions_ok k -> sc_capwap_closesession p k = Some (tt, k') ->
  sessions_ok k' /\ (forall q, q <> p -> named <$> km_sessions k' !! q = named <$> km_sessions k !! q) /\
  km_sessions k' !! p = None.
Proof.
  intros Hk H. apply bind_Some in H as ([s0 k0] & E0 & H). apply bind_Some in E0 as (s & Hs & [= <- <-]).
  apply bind_Some in H as ([[] k1] & E1 & H).
  assert (Q : quiet k k1).
  { eapply calm_for_each_entry; [|apply Hk|exact E1]. intros. apply calm_close_station. }
  pose proof (sessions_ok_quiet _ _ Hk Q) as Hk1. destruct (quiet_session _ _ _ _ Q Hs) as (s1 & Hs1 & Hc).
  apply bind_Some in H as ([[] k2] & E2 & H).
  assert (Hpeer : ks_peeraddr (sp_session s1) = ks_peeraddr (sp_session s)) by (unfold core in Hc; congruence).
  assert (Hid : ks_sessionid (sp_session s1) = ks_sessionid (sp_session s)) by (unfold core in Hc; congruence).
  assert (E2' : unlink_session p (sp_session s1) k1 = Some (tt, k2)).
  { unfold unlink_session, ipaddr_hash, sessionid_hash. by rewrite Hpeer, Hid. }
  destruct (unlink_session_holds _ _ _ _ Hk1 Hs1 E2') as (Wk & Wl & Wf & Hip & Hsid).
  destruct (unlisted _ _ _ Hk1 Hs1) as (l & Hl & HS & HR).
  apply bind_Some in H as ([[] k3] & E3 & H). apply bind_Some in E3 as (l' & El & [= <-]). rewrite Wl, Hl in El. injection El as <-.
  apply bind_Some in H as ([s2 k3] & E3 & H). apply bind_Some in E3 as (s3 & _ & [= <- <-]).
  apply bind_Some in H as ([s4 k4] & E4 & H). apply bind_Some in E4 as (s5 & _ & [= <- <-]).
  apply bind_Some in H as ([[] k5] & [= <-] & [= <-]). split; [|split].
  - by apply (closed_ok k1 k2 l p).
  - intros q Hq. cbn. rewrite lookup_delete_ne by done.
    by rewrite (same_session_named _ _ _ Wk), (quiet_named _ _ _ Q).
  - apply lookup_delete_eq.
Qed.

(** ** Every step *)

(** An operation that keeps the invariant. *)
Definition keeps {A} (m : KM A) : Prop :=
  forall k a k', sessions_ok k -> m k = Some (a, k') -> sessions_ok k'.

Lemma keeps_calm {A} (m : KM A) : calm m -> keeps m.
Proof. intros Hm k a k' Hk H. eapply sessions_ok_quiet; [done|]. eapply Hm; [apply Hk|exact H]. Qed.

Lemma keeps_then {A B} (m : KM A) (f : A -> KM B) : keeps m -> (forall a, keeps (f a)) -> keeps (m ≫= f).
Proof. intros Hm Hf k b k' Hk H. apply bind_Some in H as ([a k1] & E1 & E2). eapply Hf; [|exact E2]. by eapply Hm. Qed.

Lemma keeps_newsession sessionid binding mtu : keeps (sc_capwap_newsession sessionid binding mtu).
Proof.
  intros k a k' Hk H. destruct (newsession_spec k sessionid binding mtu Hk) as (k1 & H1 & ? & _). by simplify_eq.
Qed.

Lemma keeps_closesession p : keeps (sc_capwap_closesession p).
Proof. intros k [] k' Hk H. by apply (closesession_ok k k' p). Qed.

Lemma keeps_find_setup sessionid : keeps (find_setup sessionid).
Proof. intros k a k' Hk H. destruct (find_setup_spec k sessionid Hk) as (r & Hf & _). by simplify_eq. Qed.

Lemma keeps_deletesession sessionid : keeps (sc_capwap_deletesession sessionid).
Proof.
  assert (Hc : forall p, keeps (sc_capwap_closesession p;; mret 0)).
  { intros p. apply keeps_then; [apply keeps_closesession|]. intros _. apply keeps_calm, calm_ret. }
  apply keeps_then; [apply keeps_calm, calm_chain_find|]. intros [p|].
  - apply keeps_then; [apply keeps_calm, calm_chain_find|]. intros [q|]; [apply Hc|apply keeps_calm, calm_ret].
  - apply keeps_then; [apply keeps_find_setup|]. intros [q|]; [|apply keeps_calm, calm_ret].
    apply keeps_then; [apply keeps_find_setup|]. intros [q'|]; [apply Hc|apply keeps_calm, calm_ret].
Qed.

(** The queues of fragments do not name a session. *)
Definition same_name (s s' : sc_capwap_session) : Prop :=
  ks_peeraddr s' = ks_peeraddr s /\ ks_sessionid s' = ks_sessionid s.

Lemma fragment_free_name i s s' : sc_capwap_fragment_free i s = Some s' -> same_name s s'.
Proof. intros H. apply bind_Some in H as (f & _ & H). by apply bind_Some in H as (l & _ & [= <-]). Qed.

Lemma evictor_name s now s' : sc_capwap_defrag_evictor s now = Some s' -> same_name s s'.
Proof.
  unfold sc_capwap_defrag_evictor. destruct (ks_lru s); [by intros [= <-]|]. intros H.
  apply bind_Some in H as (f & _ & H). destruct (_ || _); [by eapply fragment_free_name|by injection H as <-].
Qed.

Lemma place_fragment_name i skb f s s' o : place_fragment i skb f s = Some (s', o) -> same_name s s'.
Proof.
  unfold place_fragment. destruct (fragment_position _ _) as [before after| |].
  - destruct (fragment_complete _).
    + intros H. apply bind_Some in H as (data & _ & H). apply bind_Some in H as (s1 & H1 & [= <- _]).
      by apply fragment_free_name in H1.
    + case_bool_decide; [by intros [= <- _]|]. intros Hl. by apply bind_Some in Hl as (l & _ & [= <- _]).
  - by intros [= <- _].
  - intros H. apply bind_Some in H as (s1 & H1 & [= <- _]). by eapply fragment_free_name.
Qed.

Lemma defrag_name s skb s' o : sc_capwap_defrag s skb = Some (s', o) -> same_name s s'.
Proof.
  unfold sc_capwap_defrag. destruct (_ <? _); [done|]. destruct (_ <? _); [by intros [= <- _]|]. intros H.
  apply bind_Some in H as (f & _ & H). unfold enter_fragment in H.
  destruct (_ && _); [by injection H as <- _|]. destruct (fragment_enabled f); [by eapply place_fragment_name|].
  by apply place_fragment_name in H.
Qed.

Lemma put_session_quiet k p s s' : separate (km_links k) -> get_session p k = Some s -> same_name s s' ->
  quiet k (put_session p s' k).
Proof.
  intros Hk Hs [Hp Hi]. cbn in Hs. apply fmap_Some in Hs as (s0 & Hs0 & ->). cbn.
  replace (alter (set_session s') p (km_sessions k)) with (<[p := set_session s' s0]> (km_sessions k)).
  - apply quiet_put_session with s0; [done|done|]. unfold core. cbn. by rewrite Hp, Hi.
  - apply map_eq. intros q. destruct (decide (p = q)) as [<-|].
    + by rewrite lookup_insert_eq, lookup_alter_eq, Hs0.
    + by rewrite lookup_insert_ne, lookup_alter_ne.
Qed.

Lemma parsing_message_ok p skb k k' : sessions_ok k -> parsing_message p skb k = Some k' -> sessions_ok k'.
Proof.
  intros Hk. unfold parsing_message.
  assert (Hdata : forall k', parsingdatapacket p skb k = Some k' -> sessions_ok k').
  { intros k1 H. apply fmap_Some in H as ([u k2] & H1 & ->). eapply keeps_calm; [apply calm_parsingdatapacket|done|exact H1]. }
  assert (Hmgmt : forall k', parsingmgmtpacket p skb k = Some k' -> sessions_ok k').
  { intros k1 H. apply fmap_Some in H as ([u k2] & H1 & ->). eapply keeps_calm; [apply calm_parsingmgmtpacket|done|exact H1]. }
  repeat (case_match; try done; eauto); by intros [= <-].
Qed.

Lemma keepalive_elements_ok fuel session a data : ss_family a <> AF_UNSPEC -> forall message headersize k r k',
  sessions_ok k -> keepalive_elements fuel session a data message headersize k = Some (r, k') -> sessions_ok k'.
Proof.
  intros Ha. assert (Hemit : forall k e, sessions_ok k -> sessions_ok (set_log (km_log k ++ [e]) k)).
  { intros k e Hk. by apply (keeps_calm _ (calm_kemit e) k tt). }
  induction fuel as [|fuel IH]; intros message headersize k r k' Hk; [done|]. cbn [keepalive_elements].
  destruct (_ =? 0); [by intros [= _ <-]|]. destruct (_ <? _); [done|]. destruct (_ <? _); [by intros [= _ <-]|].
  destruct (_ && _); [|by apply IH]. destruct (_ <? _); [done|]. destruct session as [p|]; intros H.
  - apply bind_Some in H as (s & _ & H). destruct (bool_decide _); injection H as _ <-; auto.
  - apply bind_Some in H as ([found k1] & H1 & H). cbn in H1.
    destruct (recvunknownkeepalive_spec k a (slice (message + sizeof_message_element) sizeof_sessionid_element data) Hk Ha)
      as (r1 & k2 & H2 & Hk2 & _).
    rewrite H2 in H1. injection H1 as <- <-. destruct r1; injection H as _ <-; auto.
Qed.

Lemma keeps_parsingpacket session a skb : ss_family a <> AF_UNSPEC ->
  keeps (sc_capwap_parsingpacket session a skb).
Proof.
  intros Ha k r k' Hk. unfold sc_capwap_parsingpacket.
  destruct (_ <? _); [by intros [= _ <-]|]. destruct (negb _); [by intros [= _ <-]|].
  destruct (negb _); [by intros [= _ <-]|]. destruct (IS_FLAG_K_HEADER _).
  - unfold parsing_keepalive. destruct (IS_FLAG_F_HEADER _); [by intros [= _ <-]|].
    destruct (_ <? _); [by intros [= _ <-]|]. destruct (_ <? _); [by intros [= _ <-]|].
    by apply keepalive_elements_ok.
  - destruct session as [p|]; [|by intros [= _ <-]]. intros H.
    apply bind_Some in H as (s & Hs & H). apply bind_Some in H as (s1 & Hs1 & H). apply evictor_name in Hs1.
    destruct (IS_FLAG_F_HEADER _).
    + apply bind_Some in H as ([s2 o] & Hs2 & H). apply defrag_name in Hs2.
      assert (Hput : sessions_ok (put_session p s2 k)).
      { eapply sessions_ok_quiet; [exact Hk|]. apply put_session_quiet with s; [apply Hk|done|].
        unfold same_name in *. naive_solver congruence. }
      destruct o as [m|]; [|by injection H as _ <-].
      apply bind_Some in H as (k1 & H1 & [= _ <-]). by eapply parsing_message_ok.
    + apply bind_Some in H as (k1 & H1 & [= _ <-]). eapply parsing_message_ok; [|exact H1].
      eapply sessions_ok_quiet; [exact Hk|]. by apply put_session_quiet with s; [apply Hk| |].
Qed.

Lemma getpeeraddr_family packet a : sc_socket_getpeeraddr packet = Some (Some a) -> ss_family a <> AF_UNSPEC.
Proof.
  unfold sc_socket_getpeeraddr.
  destruct (_ =? ETH_P_IP); [|destruct (_ =? ETH_P_IPV6); [|done]];
    (destruct (_ || _); [done|]; destruct (negb _); [done|]; by intros [= <-]).
Qed.

Lemma keeps_thread_recvpacket packet : keeps (sc_capwap_thread_recvpacket packet).
Proof.
  unfold sc_capwap_thread_recvpacket. destruct (has_flag _ _).
  { apply keeps_calm. unfold sc_capwap_getsession_sessionid. pose proof calm_forwarddata. calm_op; auto. }
  destruct (has_flag _ _).
  - intros k a k' Hk H. apply bind_Some in H as ([o k1] & E1 & H).
    apply bind_Some in E1 as (o' & Ho & [= <- <-]). destruct o' as [peer|]; [|by injection H as _ <-].
    apply getpeeraddr_family in Ho. destruct (_ <? _); [by injection H as _ <-|].
    apply bind_Some in H as ([session k1] & E1 & H). eapply keeps_parsingpacket; [exact Ho| |exact H].
    eapply keeps_calm; [apply calm_chain_find|exact Hk|exact E1].
  - destruct (has_flag _ _); [|apply keeps_calm, calm_ret]. apply keeps_calm.
    unfold sc_stations_search, get_station. pose proof calm_sendpacket_wtp. pose proof calm_sendbroadcastpacket_wtp.
    calm_op; auto.
Qed.

Lemma keeps_thread i : keeps (sc_capwap_thread i).
Proof.
  intros k a k' Hk. unfold sc_capwap_thread. destruct (km_queues k !! i) as [[|packet queue]|]; try by intros [= _ <-].
  intros H. apply bind_Some in H as ([r k1] & H1 & [= _ <-]). eapply keeps_thread_recvpacket; [|exact H1].
  eapply sessions_ok_quiet; [exact Hk|]. split; try done. split; [apply Hk|done].
Qed.

Lemma keeps_netlink_command linked c : keeps (netlink_command linked c).
Proof.
  unfold netlink_command. destruct (negb linked); [apply keeps_calm, calm_ret|].
  unfold sc_netlink_new_session, sc_netlink_delete_session, sc_netlink_send_keepalive, sc_netlink_send_data,
    sc_netlink_add_wlan, sc_netlink_remove_wlan, sc_netlink_auth_station, sc_netlink_deauth_station,
    sc_netlink_add_iface, sc_netlink_delete_iface.
  destruct c; repeat (case_match; try by apply keeps_calm, calm_ret).
  - apply keeps_newsession.
  - apply keeps_deletesession.
  - apply keeps_calm, calm_sendkeepalive.
  - apply keeps_calm, calm_then; [apply calm_recvpacket|]. intros. apply calm_ret.
  - apply keeps_calm, calm_addwlan.
  - apply keeps_calm, calm_removewlan.
  - apply keeps_calm, calm_authstation.
  - apply keeps_calm, calm_deauthstation.
  - apply keeps_calm, calm_then; [apply calm_iface_create|]. intros. apply calm_ret.
  - apply keeps_calm, calm_iface_delete.
Qed.

Lemma keeps_for_each fuel head member body pos :
  (forall p, keeps (body p)) -> keeps (for_each_safe fuel head member body pos).
Proof.
  intros Hb. revert pos. induction fuel as [|fuel IH]; intros pos; cbn [for_each_safe];
    (destruct (bool_decide (pos = head)); [apply keeps_calm, calm_ret|]); [apply keeps_calm, calm_fails|].
  destruct (bool_decide _); [|apply keeps_calm, calm_fails]. apply keeps_then; [apply keeps_calm, calm_must|].
  intros next. apply keeps_then; [apply Hb|]. intros _. apply IH.
Qed.

Lemma keeps_closesessions : keeps sc_capwap_closesessions.
Proof.
  assert (Hl : forall head, keeps (list_for_each_entry_safe head SessionNode sc_capwap_closesession)).
  { intros head. apply keeps_then; [apply keeps_calm, calm_gets|]. intros fuel.
    apply keeps_then; [apply keeps_calm, calm_must|]. intros first. apply keeps_for_each, keeps_closesession. }
  apply keeps_then; [apply Hl|]. intros _. apply Hl.
Qed.

Lemma calm_iface_closeall fuel : calm (iface_closeall fuel).
Proof.
  induction fuel as [|fuel IH]; cbn [iface_closeall]; (apply calm_then; [apply calm_must|]); intros first;
    (apply calm_if; [apply calm_ret|]); [apply calm_fails|].
  apply calm_then; [apply calm_unregister_netdev|]. intros _. apply IH.
Qed.

Lemma keeps_close : keeps sc_capwap_close.
Proof.
  apply keeps_then; [apply keeps_closesessions|]. intros _. apply keeps_calm, calm_then; [apply calm_gets|].
  apply calm_iface_closeall.
Qed.

Lemma kmod_step_ok k k' : sessions_ok k -> kmod_step k k' -> sessions_ok k'.
Proof.
  intros Hk H. destruct H as [linked c ret k k' H|packet k k' H|packet proto k k' H|up priv k k' H|i k k' H|k k' H].
  - exact (keeps_netlink_command _ _ _ _ _ Hk H).
  - exact (keeps_calm _ (calm_recvpacket _) _ _ _ Hk H).
  - exact (keeps_calm _ (calm_netdev_tx _ _) _ _ _ Hk H).
  - exact (keeps_calm _ (calm_set_iface_up _ _) _ _ _ Hk H).
  - exact (keeps_thread _ _ _ _ Hk H).
  - exact (keeps_close _ _ _ Hk H).
Qed.

Lemma kmod_init_ok cpus : sessions_ok (sc_capwap_init cpus).
Proof.
  assert (Hno : forall f h p, ~ running_at f (sc_capwap_init cpus) h p) by by intros f h p (s & ? & _).
  assert (Hl : forall head Q, head = SetupList \/ head = RunningList -> lists no_heads ∅ head Q).
  { intros head Q Hh. exists []. split; [|by intros p; split; [intros ?%elem_of_nil|intros (s & ? & _)]].
    split; [by destruct Hh as [-> | ->]|]. apply NoDup_singleton. }
  split; cbn; [| |apply Hl; by left|apply Hl; by right|by intros p [s ?]|].
  - intros h. exists []. split; [by split; [|constructor]|]. intros p. split; [by intros ?%elem_of_nil|by intros ?%Hno].
  - intros h. exists []. split; [by split; [|constructor]|]. intros p. split; [by intros ?%elem_of_nil|by intros ?%Hno].
  - intros n p x. unfold no_heads, INIT_LIST_HEAD. rewrite !lookup_insert_Some, lookup_empty. naive_solver.
Qed.
End Sessions.
