(* ===== verification/KmodProps.v ===== *)
(** The kernel module: its data channel reassembles what it fragments, whatever the
    order; its sessions are in the lists and tables they belong to; frames between
    stations; and three faults. *)
From stdpp Require Import option gmap relations.
From S2P Require Import Prelude Io Header KmodCapwap KmodCapwapSpec KmodReassembly KmodForward.
From S2P Require Import KmodSession KmodLists KmodSessionSpec.
#[local] Open Scope Z_scope.

(** ** A kernel for the witnesses *)

(** The tests of linux/ieee80211.h. *)
Definition sample_80211 : Linux80211 := {|
  ieee80211_is_data fc := Z.land fc 12 =? 8;
  ieee80211_has_a4 fc := Z.land fc 768 =? 768;
  ieee80211_is_data_qos fc := Z.land fc 140 =? 136;
  ieee80211_has_order fc := negb (Z.land fc 32768 =? 0);
  ieee80211_is_ctl fc := Z.land fc 12 =? 4;
  ieee80211_is_mgmt fc := Z.land fc 12 =? 0;
  ieee80211_is_data_present fc := Z.land fc 76 =? 8;
  ieee80211_get_DA fc := if Z.land fc 256 =? 0 then 4 else 16;
  ieee80211_get_SA fc := if Z.land fc 768 =? 768 then 24 else if Z.land fc 512 =? 0 then 10 else 16
|}.

(** Everything is sent; the interface has the index 3. *)
Definition sample_kernel : KernelEnv := {|
  sendmsg _ _ packet := zlen packet;
  ktime_get _ := 5;
  register_netdev _ := 3;
  hash_32 x _ := x mod 65536;
  ipv6_addr_hash _ := 0
|}.

#[local] Existing Instances zero_memory sample_80211 sample_kernel.

Definition first_id : list Z := replicate 16 7.
Definition second_id : list Z := replicate 16 8.
Definition first_mac : list Z := [2; 0; 0; 0; 0; 1].
Definition second_mac : list Z := [2; 0; 0; 0; 0; 2].

(** A datagram from an address. *)
Definition sample_datagram (source data : list Z) : sk_packet :=
  KPacket (Skb ([0; 99; 20; 127; 0; 0; 0; 0] ++ data) 0 empty_cb) 0 None ETH_P_IP
    ([69] ++ zeros 11 ++ source ++ zeros 4).
Definition sample_peer (host : Z) : capwap_addr := KAddr KAF_INET [10; 0; 0; host] 99.
Definition sample_keepalive (sessionid : list Z) : list Z :=
  snd (sc_capwap_createkeepalive sessionid (zeros CAPWAP_KEEP_ALIVE_MAX_SIZE) CAPWAP_KEEP_ALIVE_MAX_SIZE).

(** An interface and two sessions; the first one runs. *)
Definition sample_sessions : KM unit :=
  netlink_command true (AddIface (Some [101]) (Some 1500));;
  netlink_command true (NewSession (Some first_id) (Some 1) None);;
  netlink_command true (NewSession (Some second_id) (Some 1) None);;
  sc_socket_recvpacket (sample_datagram [10; 0; 0; 1] (sample_keepalive first_id));;
  sc_capwap_thread 1.

(** Both run, and each has a WLAN with a station: tunnels of 802.3 and of 802.11
    frames. *)
Definition sample_stations : KM unit :=
  sample_sessions;;
  sc_socket_recvpacket (sample_datagram [10; 0; 0; 2] (sample_keepalive second_id));;
  sc_capwap_thread 0;;
  netlink_command true (AddWlan (Some first_id) (Some 1) (Some 1) (Some [9; 9; 9; 9; 9; 9]) (Some 0) (Some 1));;
  netlink_command true (AddWlan (Some second_id) (Some 1) (Some 1) (Some [9; 9; 9; 9; 9; 8]) (Some 0) (Some 2));;
  netlink_command true (AuthStation (Some first_id) (Some first_mac) (Some 3) (Some 1) (Some 1) None);;
  netlink_command true (AuthStation (Some second_id) (Some second_mac) (Some 3) (Some 1) (Some 1) (Some 5));;
  set_iface_up true 0.

Definition after (m : KM unit) : kmod := default (sc_capwap_init 2) (snd <$> m (sc_capwap_init 2)).

(** ** Fragments *)

#[export] Instance kmod_dependent_laws {I : Indeterminate} {E : KernelEnv} {L : Linux80211} :
  DependentLaws kmod_dependent.
Proof.
  split; cbn.
  - intros p s k [x H]. apply fmap_Some in H as (s' & Hs & _). by rewrite lookup_alter_eq, Hs.
  - intros p s s' k. unfold set_sessions. cbn. f_equal. apply map_eq. intros q.
    destruct (decide (p = q)) as [<-|]; [|by rewrite !lookup_alter_ne].
    rewrite !lookup_alter_eq. by destruct (km_sessions k !! p).
  - done.
Qed.

(** C9: what the module sends in fragments, it reassembles. A frame that does not
    fit in the MTU of the session, sent with any optional headers, makes packets
    such that a receiver that gets them once each, in any order and within one
    second, while the queue of the message is free, handles exactly the packet that
    would have been sent whole. *)
Theorem kmod_fragments_reassembled {I : Indeterminate} {E : KernelEnv} {L : Linux80211}
    (s : sc_capwap_session) (radioid binding flags : Z) (ra wi : option (list Z)) (data : list Z) (log : list kevent)
    (Hsent : forall log packet, 0 <= sendmsg log (ks_peeraddr s) packet)
    (Hopt : options_ok ra wi) (Hmtu : 16 + zlen (option_bytes ra wi) <= ks_mtu s <= 65535)
    (Hid : is_u16 (ks_fragmentid s)) (Hbig : ks_mtu s < 8 + zlen (option_bytes ra wi) + zlen data)
    (Hmax : zlen data <= 65535) (Hdata : bytes_ok data) :
  exists packets,
    sc_capwap_forwarddata s radioid binding data flags ra (option_length ra) wi (option_length wi) log =
      Some (0, with_fragmentid (wrap16 (ks_fragmentid s + 1)) s,
        log ++ (SentPacket (ks_peeraddr s) <$> packets)) /\
    forall (k : kmod) (p : nat) (a : capwap_addr) (s' : sc_capwap_session) f t arrived,
      skb_data <$> arrived ≡ₚ packets -> stamped t arrived ->
      get_session p k = Some s' -> fragments_ok s' ->
      ks_queues s' !! slot (ks_fragmentid s) = Some f -> fragment_enabled f = false ->
      exists s'', fragments_ok s'' /\ same_peer s' s'' /\
        receive_packets p a arrived k =
          parsing_message p (Skb (whole_packet radioid binding flags ra wi data) 0 empty_cb) (put_session p s'' k).
Proof.
  destruct (sc_capwap_forwarddata_pieces s radioid binding flags ra wi data log) as (l & Hf & Hne & Hl & Hj); try done.
  exists l. split; [done|]. intros k p a s' f t arrived Ha Ht Hs Hok Hq He. rewrite <- Hj.
  destruct (receive_any_order (ks_fragmentid s) l t p a arrived s' k) as (s'' & ? & ? & _ & ?); try done.
  - by eapply holding_none.
  - by exists s''.
Qed.

Lemma initsession_ok s : fragments_ok (sc_capwap_initsession s).
Proof.
  split; cbn.
  - done.
  - constructor.
  - intros i. split; [by intros ?%elem_of_nil|]. intros (f & Hf & He).
    apply list_elem_of_lookup_2, elem_of_replicate in Hf as [-> _]. done.
  - intros i f Hf He. apply list_elem_of_lookup_2, elem_of_replicate in Hf as [-> _]. done.
Qed.

Definition sample_sender : sc_capwap_session :=
  sc_capwap_initsession (KSession 500 (sample_peer 7) first_id 65535 [] []).

(** Three packets, to a module whose first session runs. *)
Example kmod_fragments_reassembled_witness :
  exists packets,
    sc_capwap_forwarddata sample_sender 1 1 (replicate 1200 3) 0 None 0 None 0 [] =
      Some (0, with_fragmentid 0 sample_sender, SentPacket (sample_peer 7) <$> packets) /\
    forall arrived, skb_data <$> arrived ≡ₚ packets -> stamped 5 arrived ->
    exists s, fragments_ok s /\
      receive_packets 1%nat (sample_peer 1) arrived (after sample_sessions) =
        parsing_message 1%nat (Skb (whole_packet 1 1 0 None None (replicate 1200 3)) 0 empty_cb)
          (put_session 1%nat s (after sample_sessions)).
Proof.
  destruct (@kmod_fragments_reassembled zero_memory sample_kernel sample_80211 sample_sender 1 1 0 None None
    (replicate 1200 3) []) as (packets & Hf & H).
  - intros log packet. cbn. lia.
  - split; [by constructor|]. by vm_compute.
  - by vm_compute.
  - by vm_compute.
  - by vm_compute.
  - by vm_compute.
  - apply Forall_replicate. by vm_compute.
  - exists packets. split; [exact Hf|]. intros arrived Ha Ht.
    assert (Hs : get_session 1%nat (after sample_sessions) =
      Some (sc_capwap_initsession (KSession KDEFAULT_MTU (sample_peer 1) first_id 0 [] []))) by by vm_compute.
    destruct (H (after sample_sessions) 1%nat (sample_peer 1) _ free_fragment 5 arrived Ha Ht Hs (initsession_ok _)
      eq_refl eq_refl) as (s & Hok & _ & Hr). exists s. split; [exact Hok|exact Hr].
Defined.

(** The packets of a session, one after the other: the messages. *)
Fixpoint reassemble {I : Indeterminate} (l : list sk_buff) (s : sc_capwap_session) :
    option (sc_capwap_session * list sk_buff) :=
  match l with
  | [] => Some (s, [])
  | skb :: l =>
      s ← sc_capwap_defrag_evictor s (skb_tstamp skb);
      '(s, complete) ← sc_capwap_defrag s skb;
      '(s, messages) ← reassemble l s;
      Some (s, option_list complete ++ messages)
  end.

(** [x] is a packet of [l], with the place of its body. *)
Definition arrived_in (l : list sk_buff) (x : sk_buff) : Prop := exists y, y ∈ l /\ x = received y.

Lemma reassemble_ok {I : Indeterminate} all l : forall s, fragments_ok s -> held (arrived_in all) s ->
  Forall (fun x => packet_ok (skb_data x)) l -> Forall (fun x => x ∈ all) l ->
  exists s' messages, reassemble l s = Some (s', messages) /\ fragments_ok s' /\ same_peer s s' /\
    Forall (fun m => handed_over (arrived_in all) (Some m)) messages.
Proof.
  induction l as [|skb l IH]; intros s Hs Hh Hl Hin.
  - exists s, []. split; [done|]. split; [done|]. split; [apply same_peer_refl|constructor].
  - apply Forall_cons in Hl as [Hp Hl]. apply Forall_cons in Hin as [Hx Hin].
    destruct (sc_capwap_defrag_evictor_ok (arrived_in all) s (skb_tstamp skb) Hs Hh) as (s1 & E1 & H1 & P1 & Hh1).
    destruct (sc_capwap_defrag_ok (arrived_in all) s1 skb H1 Hp Hh1) as (s2 & o & E2 & H2 & P2 & Hh2 & Ho); [by exists skb|].
    destruct (IH s2 H2 Hh2 Hl Hin) as (s3 & ms & E3 & H3 & P3 & Hms).
    exists s3, (option_list o ++ ms). cbn [reassemble]. rewrite E1. obind. rewrite E2. obind. rewrite E3.
    split; [done|]. split; [done|]. split; [by eapply same_peer_trans, same_peer_trans|].
    apply Forall_app. split; [|done]. destruct o; by repeat constructor.
Qed.

(** C17: whatever fragments arrive, in any number and any order, duplicated,
    overlapping, of any messages, at any times, as long as each is a datagram with
    a header of eight bytes at least that is not cut short, the reassembly stays
    within its buffers and its sixteen queues: it never fails, its queues stay well
    formed, and each message it hands over is the header of the first and the
    bodies of all of some packets that arrived, which carry one message number and
    are put together in the ascending order of their offsets. *)
Theorem kmod_reassembly_in_bounds {I : Indeterminate} (s : sc_capwap_session) (l : list sk_buff)
    (Hl : Forall (fun x => packet_ok (skb_data x)) l) :
  exists s' messages, reassemble l (sc_capwap_initsession s) = Some (s', messages) /\ fragments_ok s' /\
    same_peer s s' /\
    Forall (fun m => exists pieces id, pieces <> [] /\ ordered pieces /\
      Forall (fun x => arrived_in l x /\ frag_id x = id) pieces /\ skb_data m = message_of pieces) messages.
Proof.
  destruct (reassemble_ok l l (sc_capwap_initsession s) (initsession_ok s)) as (s' & ms & ? & ? & ? & Hms); [|done|by apply Forall_forall|].
  { intros j f Hj He. cbn in Hj. apply lookup_replicate in Hj as [-> _]. done. }
  exists s', ms. split_and!; [done..|]. eapply Forall_impl; [exact Hms|]. intros m Hm.
  destruct (Hm m eq_refl) as (pieces & id & ? & ? & ? & _ & _ & ?). by exists pieces, id.
Qed.

(** The last fragment, twice, and the first. *)
Example kmod_reassembly_in_bounds_witness :
  let packet off last := forward_fragment last 9 off (fixed_header 1 1 0 false false 2) ++ replicate 8 off in
  let l := [Skb (packet 8 true) 1 empty_cb; Skb (packet 8 true) 2 empty_cb; Skb (packet 0 false) 3 empty_cb] in
  exists s' messages, reassemble l sample_sender = Some (s', messages) /\ fragments_ok s' /\
    (skb_data <$> messages) = [fixed_header 1 1 0 false false 2 ++ replicate 8 0 ++ replicate 8 8].
Proof.
  intros packet l.
  destruct (@kmod_reassembly_in_bounds zero_memory (KSession 500 (sample_peer 7) first_id 65535 [] []) l)
    as (s' & ms & E & H & _).
  - repeat apply Forall_cons_2; [..|apply Forall_nil_2];
      (split; [|by vm_compute]); cbn [skb_data]; apply (bool_decide_eq_true_1 (bytes_ok _)); by vm_compute.
  - exists s', ms. split; [exact E|]. split; [done|].
    assert (E' : (skb_data <$> (default [] (snd <$> reassemble l sample_sender))) =
      [fixed_header 1 1 0 false false 2 ++ replicate 8 0 ++ replicate 8 8]) by by vm_compute.
    unfold sample_sender in E'. by rewrite E in E'.
Defined.

(** ** Sessions *)

Lemma kmod_reachable_ok {I : Indeterminate} {E : KernelEnv} {L : Linux80211} cpus k :
  rtc kmod_step (sc_capwap_init cpus) k -> sessions_ok k.
Proof.
  intros H. pose proof (kmod_init_ok cpus) as H0. induction H as [|k1 k2 k3 Hs _ IH]; [done|].
  apply IH. by eapply kmod_step_ok.
Qed.

(** C10: after any sequence of commands, datagrams, frames, turns of the threads and
    ends of the controller, the sessions are where they belong: the sessions that have no address yet are
    exactly those of the setup list, those that have one exactly those of the
    running list and of the chains of both hash tables, each in the chain of its
    hash; the lists are rings, without a node that was freed. *)
Theorem kmod_sessions_invariant {I : Indeterminate} {E : KernelEnv} {L : Linux80211} (cpus : nat) (k : kmod)
    (Hk : rtc kmod_step (sc_capwap_init cpus) k) : sessions_ok k.
Proof. by eapply kmod_reachable_ok. Qed.

Lemma sample_sessions_reachable : rtc kmod_step (sc_capwap_init 2) (after sample_sessions).
Proof.
  assert (Hs : sample_sessions (sc_capwap_init 2) = Some (tt, after sample_sessions)) by by vm_compute.
  apply bind_Some in Hs as ([r1 k1] & H1 & Hs). apply bind_Some in Hs as ([r2 k2] & H2 & Hs).
  apply bind_Some in Hs as ([r3 k3] & H3 & Hs). apply bind_Some in Hs as ([[] k4] & H4 & H5).
  eapply rtc_l; [by eapply step_command|]. eapply rtc_l; [by eapply step_command|].
  eapply rtc_l; [by eapply step_command|]. eapply rtc_l; [by eapply step_datagram|].
  eapply rtc_once. by eapply step_thread.
Qed.

(** An interface, two sessions, a keep-alive. *)
Example kmod_sessions_invariant_witness : sessions_ok (after sample_sessions).
Proof. apply (kmod_sessions_invariant 2). exact sample_sessions_reachable. Defined.

Lemma keepalive_from_unknown {I : Indeterminate} {E : KernelEnv} {L : Linux80211} k a sessionid buffer t cb :
  zlen sessionid = 16 -> zlen buffer = CAPWAP_KEEP_ALIVE_MAX_SIZE ->
  sc_capwap_parsingpacket (None : option nat) a
    (Skb (snd (sc_capwap_createkeepalive sessionid buffer CAPWAP_KEEP_ALIVE_MAX_SIZE)) t cb) k =
  keepalive_for None a sessionid k.
Proof.
  intros Hs Hb. rewrite sc_capwap_createkeepalive_spec by done. cbn [snd].
  assert (Hl : 2 + zlen (encode_elements [(KCAPWAP_ELEMENT_SESSIONID, sessionid)]) = 22).
  { unfold encode_elements, encode_element. cbn [fmap list_fmap fst snd mjoin list_join].
    rewrite app_nil_r, !length_app, !length_be16. lia. }
  rewrite (parsing_keepalive_spec None a k keepalive_header [(KCAPWAP_ELEMENT_SESSIONID, sessionid)] []); try done.
  - unfold first_sessionid, is_sessionid. cbn [fst snd]. by rewrite Hs.
  - cbn [skb_data]. by rewrite app_nil_r, Hl.
  - apply Forall_singleton. split; cbn [fst snd]; [by vm_compute|]. rewrite Hs. by vm_compute.
  - lia.
Qed.

Lemma addr_compare_refl a : ss_family a = KAF_INET \/ ss_family a = KAF_INET6 -> sc_addr_compare a a = 0.
Proof.
  intros Ha. unfold sc_addr_compare. rewrite Z.eqb_refl, bool_decide_true, Z.eqb_refl by done.
  by destruct Ha as [-> | ->].
Qed.

(** The session that was started is the one both lookups find. *)
Lemma started_found {I : Indeterminate} {E : KernelEnv} {L : Linux80211} k k' a sessionid p s :
  sessions_ok k' -> ss_family a = KAF_INET \/ ss_family a = KAF_INET6 ->
  sc_capwap_getsession_ipaddr a k = Some (None, k) -> sc_capwap_getsession_sessionid sessionid k = Some (None, k) ->
  sessions_ok k -> ks_sessionid s = sessionid ->
  (forall q, sp_session <$> km_sessions k' !! q =
     if decide (q = p) then Some (with_peeraddr a s) else sp_session <$> km_sessions k !! q) ->
  sc_capwap_getsession_ipaddr a k' = Some (Some p, k') /\
  sc_capwap_getsession_sessionid sessionid k' = Some (Some p, k').
Proof.
  intros Hk' Ha Hip Hid Hk Hs Hq.
  destruct (getsession_ipaddr_spec k a Hk) as (r1 & E1 & N1). rewrite Hip in E1. injection E1 as <-.
  destruct (getsession_sessionid_spec k sessionid Hk) as (r2 & E2 & N2). rewrite Hid in E2. injection E2 as <-.
  assert (Hnew : exists s', km_sessions k' !! p = Some s' /\ sp_session s' = with_peeraddr a s).
  { pose proof (Hq p) as H. rewrite decide_True in H by done. apply fmap_Some in H as (s' & ? & ?). eauto. }
  destruct Hnew as (s' & Hs' & Es'). assert (Hr : runs s') by (unfold runs; rewrite Es'; cbn; by destruct Ha as [-> | ->]).
  assert (Hold : forall q s1, km_sessions k' !! q = Some s1 -> q <> p ->
    exists s0, km_sessions k !! q = Some s0 /\ sp_session s0 = sp_session s1).
  { intros q s1 H1 Hne. pose proof (Hq q) as H. rewrite decide_False, H1 in H by done. symmetry in H.
    apply fmap_Some in H as (s0 & ? & ?). eauto. }
  split.
  - destruct (getsession_ipaddr_spec k' a Hk') as ([q|] & -> & H).
    + destruct H as (s1 & H1 & R1 & C1). destruct (decide (q = p)) as [->|Hne]; [done|].
      destruct (Hold q s1 H1 Hne) as (s0 & H0 & E0). unfold runs in R1. rewrite <- E0 in C1, R1. by apply (N1 q s0) in C1.
    + exfalso. apply (H p s' Hs' Hr). rewrite Es'. by apply addr_compare_refl.
  - destruct (getsession_sessionid_spec k' sessionid Hk') as ([q|] & -> & H).
    + destruct H as (s1 & H1 & R1 & C1). destruct (decide (q = p)) as [->|Hne]; [done|].
      destruct (Hold q s1 H1 Hne) as (s0 & H0 & E0). unfold runs in R1. rewrite <- E0 in C1, R1. by apply (N2 q s0) in C1.
    + exfalso. apply (H p s' Hs' Hr). by rewrite Es'.
Qed.

(** C15: a session comes up. In every state the module can reach, the keep-alive of
    a WTP (what [sc_capwap_createkeepalive] makes) from an address and with an
    identifier that no running session has starts the session that was set up with
    the identifier: from then on both lookups, by the address and by the
    identifier, find it, and the controller is told. *)
Theorem kmod_keepalive_starts_session {I : Indeterminate} {E : KernelEnv} {L : Linux80211} (cpus : nat) (k : kmod)
    (a : capwap_addr) (sessionid buffer : list Z) (p : nat) (t : Z) (cb : sc_skb_capwap_cb)
    (Hk : rtc kmod_step (sc_capwap_init cpus) k)
    (Ha : ss_family a = KAF_INET \/ ss_family a = KAF_INET6)
    (Hid : zlen sessionid = 16) (Hbuf : zlen buffer = CAPWAP_KEEP_ALIVE_MAX_SIZE)
    (Hno_addr : sc_capwap_getsession_ipaddr a k = Some (None, k))
    (Hno_id : sc_capwap_getsession_sessionid sessionid k = Some (None, k))
    (Hsetup : find_setup sessionid k = Some (Some p, k)) :
  exists k', sc_capwap_parsingpacket None a
      (Skb (snd (sc_capwap_createkeepalive sessionid buffer CAPWAP_KEEP_ALIVE_MAX_SIZE)) t cb) k = Some (0, k') /\
    sc_capwap_getsession_ipaddr a k' = Some (Some p, k') /\
    sc_capwap_getsession_sessionid sessionid k' = Some (Some p, k') /\
    last (km_log k') = Some (NotifyKeepAlive a sessionid).
Proof.
  apply kmod_reachable_ok in Hk. rewrite keepalive_from_unknown by done.
  destruct (recvunknownkeepalive_spec k a sessionid Hk) as (r & k1 & Hr & Hk1 & H); [by destruct Ha as [-> | ->]|].
  destruct r as [q|].
  2: { destruct H as [_ H]. destruct (find_setup_spec k sessionid Hk) as (r & Hf & Hs). rewrite Hsetup in Hf.
       injection Hf as <-. destruct Hs as (s & H1 & H2 & H3). destruct (H p s H1 H2 H3). }
  assert (Hqp : q = p).
  { unfold sc_capwap_recvunknownkeepalive in Hr. apply bind_Some in Hr as ([o k2] & Ho & Hr). rewrite Hsetup in Ho.
    injection Ho as <- <-. cbn in Hr. repeat (apply bind_Some in Hr as ([? ?] & _ & Hr)). by injection Hr as <-. }
  subst q. destruct H as (s & Hs & Hw & Hsid & Hq).
  assert (Hk2 : sessions_ok (emit (NotifyKeepAlive a sessionid) k1)) by by apply (keeps_calm _ (calm_kemit (NotifyKeepAlive a sessionid)) k1 tt).
  destruct (started_found k _ a sessionid p (sp_session s) Hk2 Ha Hno_addr Hno_id Hk Hsid Hq) as [F1 F2].
  exists (emit (NotifyKeepAlive a sessionid) k1). split; [|split; [done|split; [done|]]].
  - unfold keepalive_for. cbn [recvunknownkeepalive kmod_dependent]. by rewrite Hr.
  - cbn. by rewrite last_snoc.
Qed.

(** The second session of the sample. *)
Example kmod_keepalive_starts_session_witness :
  exists k', sc_capwap_parsingpacket None (sample_peer 2) (Skb (sample_keepalive second_id) 0 empty_cb)
      (after sample_sessions) = Some (0, k') /\
    sc_capwap_getsession_ipaddr (sample_peer 2) k' = Some (Some 2%nat, k').
Proof.
  destruct (@kmod_keepalive_starts_session zero_memory sample_kernel sample_80211 2 (after sample_sessions) (sample_peer 2) second_id
    (zeros CAPWAP_KEEP_ALIVE_MAX_SIZE) 2 0 empty_cb) as (k' & H1 & H2 & _).
  - exact sample_sessions_reachable.
  - by left.
  - by vm_compute.
  - by vm_compute.
  - by vm_compute.
  - by vm_compute.
  - by vm_compute.
  - exists k'. split; [exact H1|exact H2].
Defined.

(** ** Frames *)

(** A frame that fits, sent to a WTP. *)
Lemma forwarddata_fits {I : Indeterminate} {E : KernelEnv} {L : Linux80211} k p s radioid binding flags frame :
  (forall log packet, 0 <= sendmsg log (ks_peeraddr (sp_session s)) packet) ->
  km_sessions k !! p = Some s -> 0 < zlen frame -> 8 + zlen frame <= ks_mtu (sp_session s) ->
  forwarddata p radioid binding frame flags None None k =
    Some (0, set_log (km_log k ++ [SentPacket (ks_peeraddr (sp_session s))
      (whole_packet radioid binding flags None None frame)]) k).
Proof.
  intros Hsent Hs Hpos Hfit. unfold forwarddata. rewrite Hs. obind.
  pose proof (sc_capwap_forwarddata_whole (sp_session s) radioid binding flags None None frame (km_log k) Hsent) as H.
  unfold option_length in H. cbn [default length] in *. rewrite H by (cbn [option_bytes default app length]; lia). obind.
  do 2 f_equal. unfold set_log, set_sessions. cbn. f_equal. apply map_eq. intros q.
  destruct (decide (p = q)) as [<-|]; [|by rewrite lookup_insert_ne].
  rewrite lookup_insert_eq, Hs. f_equal. by destruct s.
Qed.

(** C21: stations talk to each other. A data frame in 802.11 format, from a known
    station of one WTP to a known station of another, with both WLANs in use, the
    first one not bridged locally, the second one tunnelling 802.11 frames, no
    isolation, and within the MTU of the second session, is sent to the WTP of the
    destination: one packet, with the radio of the destination, whose contents are
    the frame as it was received. *)
Theorem kmod_station_forwarding {I : Indeterminate} {E : KernelEnv} {L : Linux80211} (k : kmod)
    (header frame srcaddr dstaddr : list Z) (t : Z) (cb : sc_skb_capwap_cb) (src dst : nat)
    (sst dstt : sc_capwap_station) (ss ds : sc_capwap_session_priv) (sw dw : sc_capwap_wlan)
    (Hheader : 8 <= zlen header /\ header_size header = zlen header /\ IS_FLAG_T_HEADER header = true)
    (Haddr : frame_addresses true frame = Some (dstaddr, srcaddr)) (Huni : is_multicast_ether_addr dstaddr = false)
    (Hsrc : sc_stations_search srcaddr k = Some (Some src, k)) (Hdst : sc_stations_search dstaddr k = Some (Some dst, k))
    (Hsst : km_stations k !! src = Some sst) (Hdst' : km_stations k !! dst = Some dstt)
    (Hss : km_sessions k !! st_sessionpriv sst = Some ss) (Hds : km_sessions k !! st_sessionpriv dstt = Some ds)
    (Hother : st_sessionpriv sst <> st_sessionpriv dstt) (Hiso : sp_isolation ss = 0)
    (Hsw : session_wlan ss (st_radioid sst) (st_wlanid sst) = Some sw)
    (Hsw' : kw_used sw <> 0 /\ kw_tunnelmode sw <> CAPWAP_ADD_WLAN_TUNNELMODE_LOCAL)
    (Hdw : session_wlan ds (st_radioid dstt) (st_wlanid dstt) = Some dw)
    (Hdw' : kw_used dw <> 0 /\ kw_tunnelmode dw = CAPWAP_ADD_WLAN_TUNNELMODE_80211)
    (Hsent : forall log packet, 0 <= sendmsg log (ks_peeraddr (sp_session ds)) packet)
    (Hfit : 0 < zlen frame /\ 8 + zlen frame <= ks_mtu (sp_session ds)) :
  sc_capwap_parsingdatapacket (Skb (header ++ frame) t cb) k =
    Some (tt, set_log (km_log k ++ [SentPacket (ks_peeraddr (sp_session ds))
      (whole_packet (st_radioid dstt) (sp_binding ds) 0 None None frame)]) k).
Proof.
  destruct Hheader as (Hh & Hsize & HT). destruct Hsw' as [Hu Hl]. destruct Hdw' as [Hu' Ht'].
  assert (HT' : IS_FLAG_T_HEADER (header ++ frame) = true).
  { rewrite <- HT. unfold IS_FLAG_T_HEADER, is_flag. by rewrite get_field_app. }
  assert (Hlen : GET_HLEN_HEADER (header ++ frame) * 4 = zlen header).
  { rewrite <- Hsize. unfold header_size, GET_HLEN_HEADER. by rewrite get_field_app. }
  unfold sc_capwap_parsingdatapacket, skb_len. cbn [skb_data]. rewrite HT', Hlen.
  replace (zlen (header ++ frame) <? zlen header) with false
    by (symmetry; apply Z.ltb_ge; rewrite length_app; lia).
  replace (drop (Z.to_nat (zlen header)) (header ++ frame)) with frame by by rewrite Nat2Z.id, drop_app_length.
  unfold get_station, get_sessionpriv, must, mbind, km_bind. cbn [skb_data with_data]. rewrite Haddr. obind.
  rewrite Hsrc. obind. rewrite Hsst. obind. rewrite Hss. obind. rewrite Hsw. obind.
  rewrite (proj2 (Z.eqb_neq _ _) Hu), (proj2 (Z.eqb_neq _ _) Hl), Huni, Hdst. obind. rewrite Hdst'. obind.
  rewrite Hiso, bool_decide_false by done. cbn [negb andb Z.eqb]. unfold sc_capwap_sendpacket_wtp, get_sessionpriv, must, mbind, km_bind.
  rewrite Hds. obind. rewrite Hdw. obind. rewrite (proj2 (Z.eqb_neq _ _) Hu'), Ht'. cbn [andb negb].
  change (CAPWAP_ADD_WLAN_TUNNELMODE_80211 =? CAPWAP_ADD_WLAN_TUNNELMODE_8023) with false. cbn [skb_data with_data].
  by rewrite (forwarddata_fits k _ ds) by (done || apply Hfit).
Qed.

(** The objects of the sample. *)
Definition sample_station (p : nat) : sc_capwap_station :=
  default (KStation [] None 0 0 0 0 0) (km_stations (after sample_stations) !! p).
Definition sample_session_priv (p : nat) : sc_capwap_session_priv :=
  default (KSessionPriv sample_sender None None 0 0 []) (km_sessions (after sample_stations) !! p).

(** The first station of the sample sends to the second one. *)
Example kmod_station_forwarding_witness :
  let k := after sample_stations in
  let frame := [8; 1; 0; 0] ++ [9; 9; 9; 9; 9; 9] ++ first_mac ++ second_mac ++ [0; 0; 1; 2; 3] in
  sc_capwap_parsingdatapacket (Skb (fixed_header 1 1 0 false false 2 ++ frame) 0 empty_cb) k =
    Some (tt, set_log (km_log k ++ [SentPacket (sample_peer 2) (whole_packet 1 1 0 None None frame)]) k).
Proof.
  intros k frame.
  assert (Hp : ks_peeraddr (sp_session (sample_session_priv 2)) = sample_peer 2) by by vm_compute.
  assert (Hb : sp_binding (sample_session_priv 2) = 1) by by vm_compute.
  assert (Hr : st_radioid (sample_station 5) = 1) by by vm_compute.
  pose proof (@kmod_station_forwarding zero_memory sample_kernel sample_80211 k (fixed_header 1 1 0 false false 2) frame
    first_mac second_mac 0 empty_cb 3 5 (sample_station 3) (sample_station 5)
    (sample_session_priv 1) (sample_session_priv 2) (KWlan 1 [9; 9; 9; 9; 9; 9] 0 1) (KWlan 1 [9; 9; 9; 9; 9; 8] 0 2)) as H.
  rewrite Hp, Hb, Hr in H. apply H; clear Hp Hb Hr H.
  all: try by vm_compute.
  intros log packet. cbn. lia.
Defined.

Lemma whole_packet_tunnel {I : Indeterminate} radioid binding frame :
  IS_FLAG_T_HEADER (whole_packet radioid binding 0 None None frame) = true /\
  IS_FLAG_T_HEADER (whole_packet radioid binding NLSMARTCAPWAP_FLAGS_TUNNEL_8023 None None frame) = false /\
  body (whole_packet radioid binding 0 None None frame) = frame.
Proof.
  unfold whole_packet. cbn [option_bytes default app length]. change ((8 + Z.of_nat 0) / 4) with 2.
  rewrite !(bool_decide_false (is_Some None)) by by intros [].
  assert (Hlen : forall fl, zlen (fixed_header radioid binding fl false false 2) = 8) by (intros; by rewrite length_fixed_header).
  assert (HT : forall fl, IS_FLAG_T_HEADER (fixed_header radioid binding fl false false 2 ++ frame) =
    negb (has_flag fl NLSMARTCAPWAP_FLAGS_TUNNEL_8023)).
  { intros fl. rewrite <- (fixed_header_tunnel radioid binding fl false false 2) by lia.
    unfold IS_FLAG_T_HEADER, is_flag. by rewrite get_field_app by (done || by rewrite Hlen). }
  split; [by rewrite HT|]. split; [by rewrite HT|].
  unfold body, header_size, GET_HLEN_HEADER. rewrite get_field_app by (done || by rewrite Hlen).
  destruct (fixed_header_fields radioid binding 0 false false 2) as (_ & _ & -> & _); [lia|].
  replace (Z.to_nat (2 * 4)) with (length (fixed_header radioid binding 0 false false 2)) by by rewrite length_fixed_header.
  by rewrite drop_app_length.
Qed.

(** C33: the frames of an 802.3 tunnel are mislabelled. An Ethernet frame for a
    station of a WLAN that tunnels 802.3 frames, within the MTU - from an interface, or from a
    station of such a WLAN - is sent unchanged, as it should be, but in a packet
    whose T bit says that it is an 802.11 frame: the flag for 802.3 is only set when
    a frame is converted. *)
Theorem kmod_8023_frame_mislabelled {I : Indeterminate} {E : KernelEnv} {L : Linux80211} (k : kmod) (p : nat)
    (s : sc_capwap_session_priv) (wlan : sc_capwap_wlan) (radioid wlanid : Z) (frame : list Z) (t : Z)
    (cb : sc_skb_capwap_cb)
    (Hs : km_sessions k !! p = Some s) (Hwlan : session_wlan s radioid wlanid = Some wlan)
    (Hused : kw_used wlan <> 0) (Hmode : kw_tunnelmode wlan = CAPWAP_ADD_WLAN_TUNNELMODE_8023)
    (Hsent : forall log packet, 0 <= sendmsg log (ks_peeraddr (sp_session s)) packet)
    (Hfit : 0 < zlen frame /\ 8 + zlen frame <= ks_mtu (sp_session s)) :
  exists packet,
    sc_capwap_sendpacket_wtp p radioid wlanid (Skb frame t cb) false k =
      Some (0, set_log (km_log k ++ [SentPacket (ks_peeraddr (sp_session s)) packet]) k) /\
    body packet = frame /\ IS_FLAG_T_HEADER packet = true.
Proof.
  destruct (whole_packet_tunnel radioid (sp_binding s) frame) as (HT & _ & Hb).
  exists (whole_packet radioid (sp_binding s) 0 None None frame). split; [|done].
  unfold sc_capwap_sendpacket_wtp, get_sessionpriv, must, mbind, km_bind. rewrite Hs. obind. rewrite Hwlan. obind.
  rewrite (proj2 (Z.eqb_neq _ _) Hused), Hmode. cbn [andb negb].
  change (CAPWAP_ADD_WLAN_TUNNELMODE_8023 =? CAPWAP_ADD_WLAN_TUNNELMODE_80211) with false. cbn [skb_data].
  by apply forwarddata_fits; (done || apply Hfit).
Qed.

(** Towards the first station of the sample. *)
Example kmod_8023_frame_mislabelled_witness :
  let k := after sample_stations in
  let frame := ethernet first_mac [4; 4; 4; 4; 4; 4] 2048 [1; 2; 3] in
  exists packet,
    sc_capwap_sendpacket_wtp 1 1 1 (Skb frame 0 empty_cb) false k =
      Some (0, set_log (km_log k ++ [SentPacket (sample_peer 1) packet]) k) /\
    body packet = frame /\ IS_FLAG_T_HEADER packet = true.
Proof.
  intros k frame.
  assert (Hp : ks_peeraddr (sp_session (sample_session_priv 1)) = sample_peer 1) by by vm_compute.
  pose proof (@kmod_8023_frame_mislabelled zero_memory sample_kernel sample_80211 k 1 (sample_session_priv 1)
    (KWlan 1 [9; 9; 9; 9; 9; 9] 0 1) 1 1 frame 0 empty_cb) as H.
  rewrite Hp in H. apply H; clear Hp H.
  all: try by vm_compute.
  intros log packet. cbn. lia.
Defined.

(** The destination that is read after the tag of a VLAN was removed. *)
Definition shifted (address : list Z) : list Z := slice 0 4 address ++ slice 0 2 address.

Lemma retrieve_vlan_tagged skb dev proto network dst src tci rest :
  zlen dst = 6 -> zlen src = 6 -> zlen tci = 2 -> 2 <= zlen rest -> skb_data skb = dst ++ src ++ be16 ETH_P_8021Q ++ tci ++ rest ->
  retrieve_vlan (KPacket skb dev None proto network) =
    Some (Z.land (val16 (byte_at tci 0) (byte_at tci 1)) VLAN_VID_MASK, dst ++ src ++ rest, shifted dst).
Proof.
  intros Hd Hs Ht Hrest Hdata.
  destruct dst as [|d0 [|d1 [|d2 [|d3 [|d4 [|d5 [|]]]]]]]; cbn [length] in Hd; try lia.
  destruct src as [|s0 [|s1 [|s2 [|s3 [|s4 [|s5 [|]]]]]]]; cbn [length] in Hs; try lia.
  destruct tci as [|t0 [|t1 [|]]]; cbn [length] in Ht; try lia.
  unfold retrieve_vlan. cbn [pk_skb pk_vlan]. rewrite Hdata. unfold ETH_HLEN, VLAN_HLEN, ETH_ALEN, shifted, slice, write_at, byte_at.
  change (be16 ETH_P_8021Q) with [129; 0]. cbn [app length].
  rewrite !(proj2 (Z.ltb_ge _ _)) by lia. reflexivity.
Qed.

(** C35: frames with a tag in their data are lost. The header of a frame whose VLAN
    tag is still in front of its type is moved over the tag, but the destination is
    read from where the header was: its last two bytes are the first two of the
    address. So a frame from an interface, tagged with the VLAN of its destination,
    is dropped unless a station has that other address. *)
Theorem kmod_tagged_frame_lost {I : Indeterminate} {E : KernelEnv} {L : Linux80211} (k : kmod)
    (skb : sk_buff) (dev : nat) (proto : Z) (network dst src tci rest : list Z)
    (Hflags : cb_flags (skb_cb skb) = SKB_CAPWAP_FLAG_FROM_AC_TAP)
    (Hdst : zlen dst = 6) (Hsrc : zlen src = 6) (Htci : zlen tci = 2) (Hrest : 2 <= zlen rest)
    (Hdata : skb_data skb = dst ++ src ++ be16 ETH_P_8021Q ++ tci ++ rest)
    (Huni : is_multicast_ether_addr dst = false)
    (Hnone : sc_stations_search (shifted dst) k = Some (None, k)) :
  sc_capwap_thread_recvpacket (KPacket skb dev None proto network) k = Some (- EINVAL, k).
Proof.
  unfold sc_capwap_thread_recvpacket. cbn [pk_skb]. rewrite Hflags.
  change (has_flag SKB_CAPWAP_FLAG_FROM_AC_TAP SKB_CAPWAP_FLAG_FROM_USER_SPACE) with false.
  change (has_flag SKB_CAPWAP_FLAG_FROM_AC_TAP SKB_CAPWAP_FLAG_FROM_DATA_CHANNEL) with false.
  change (has_flag SKB_CAPWAP_FLAG_FROM_AC_TAP SKB_CAPWAP_FLAG_FROM_AC_TAP) with true. cbv iota.
  unfold must, mbind, km_bind. rewrite (retrieve_vlan_tagged _ _ _ _ dst src tci rest) by done. obind.
  assert (Hm : is_multicast_ether_addr (shifted dst) = false).
  { rewrite <- Huni. destruct dst as [|d dst]; [cbn in Hdst; lia|]. done. }
  rewrite Hm, Hnone. done.
Qed.

(** The second station of the sample is on VLAN 5: a frame whose tag was taken off
    by the kernel reaches it, one with the tag in its data does not. *)
Example kmod_tagged_frame_lost_witness :
  let k := after sample_stations in
  let cb := Cb SKB_CAPWAP_FLAG_FROM_AC_TAP (zeros 16) 0 0 0 0 0 0 0 in
  sc_stations_search second_mac k = Some (Some 5%nat, k) /\
  (fst <$> sc_capwap_thread_recvpacket
    (KPacket (Skb (ethernet second_mac [4; 4; 4; 4; 4; 4] 2048 [1; 2; 3]) 0 cb) 0 (Some 5) 0 []) k) = Some 1 /\
  sc_capwap_thread_recvpacket
    (KPacket (Skb (second_mac ++ [4; 4; 4; 4; 4; 4] ++ be16 ETH_P_8021Q ++ [0; 5] ++ [8; 0; 1; 2; 3]) 0 cb) 0 None 0 []) k =
    Some (- EINVAL, k).
Proof.
  intros k cb. split; [by vm_compute|]. split; [by vm_compute|].
  apply (@kmod_tagged_frame_lost zero_memory sample_kernel sample_80211 k _ 0 0 [] second_mac [4; 4; 4; 4; 4; 4] [0; 5]
    [8; 0; 1; 2; 3]); try by vm_compute.
Defined.

(** ** Stations *)

(** What an operation on the table of stations leaves of the lists. *)
Lemma address_links : written by_address (fun k k' => km_links k' = km_links k).
Proof.
  split; [done|]. split; [congruence|]. split; [|done].
  intros k p x k' H. by apply bind_Some in H as (s & _ & [= <-]).
Qed.

(** [list_del] writes to the neighbours. *)
Lemma list_del_frame e l l' p x n :
  list_del e l = Some l' -> l !! e = Some (p, x) -> n <> p -> n <> x -> l' !! n = l !! n.
Proof.
  intros H He Hp Hx. apply bind_Some in H as ([p' x'] & He' & H). rewrite He in He'. injection He' as <- <-.
  apply bind_Some in H as (l1 & H1 & H2). apply bind_Some in H1 as ([] & _ & [= <-]).
  apply bind_Some in H2 as ([] & _ & [= <-]). by rewrite !lookup_insert_ne.
Qed.

Lemma list_add_freed (new head prev next : node) (l : links) :
  l !! head = Some (prev, next) -> l !! next = None -> list_add new head l = None.
Proof. intros Hl Hn. unfold list_add. rewrite Hl. obind. unfold set_prev. by rewrite Hn. Qed.

(** C34: the station that was added last leaves a hole when it goes. The list of
    all stations still starts with it after its memory was given back, since
    freeing a station takes it out of the lists of its session and its interface
    and out of the hash table, but not out of that list; adding a station that
    exists then writes to the memory of the one that is gone. *)
Theorem kmod_freed_station_touched {I : Indeterminate} {E : KernelEnv} {L : Linux80211} (k k' : kmod)
    (station other : nat) (prev d1 d2 s1 s2 : node)
    (Hfirst : km_links k !! (StationList, 0%nat) = Some (prev, (StationNode, station)))
    (Hdev : km_links k !! (StationDev, station) = Some (d1, d2)) (Hd : d1.1 = DevStations \/ d1.1 = StationDev)
    (Hd' : d2.1 = DevStations \/ d2.1 = StationDev)
    (Hses : km_links k !! (StationSession, station) = Some (s1, s2)) (Hs : s1.1 = SessionStations \/ s1.1 = StationSession)
    (Hs' : s2.1 = SessionStations \/ s2.1 = StationSession)
    (Hfree : sc_stations_free station k = Some (tt, k')) (Hother : is_Some (km_stations k' !! other)) :
  km_links k' !! (StationList, 0%nat) = Some (prev, (StationNode, station)) /\
  km_links k' !! (StationNode, station) = None /\ sc_stations_add other k' = None.
Proof.
  apply bind_Some in Hfree as ([st k0] & H0 & Hfree). apply bind_Some in H0 as (st' & Hst & [= <- <-]).
  apply bind_Some in Hfree as ([[] k1] & H1 & Hfree). apply (chain_unlink_written _ _ _ _ _ _ _ address_links) in H1.
  apply bind_Some in Hfree as ([[] k2] & H2 & Hfree). apply bind_Some in H2 as (l2 & H2 & [= <-]). rewrite H1 in H2.
  apply bind_Some in Hfree as ([[] k3] & H3 & Hfree). apply bind_Some in H3 as (l3 & H3 & [= <-]). cbn in H3.
  apply bind_Some in Hfree as ([[] k4] & [= <-] & [= <-]).
  assert (Hhead : l3 !! (StationList, 0%nat) = Some (prev, (StationNode, station))).
  { assert (Hses2 : l2 !! (StationSession, station) = Some (s1, s2)).
    { etrans; [|exact Hses]. apply (list_del_frame _ _ _ _ _ _ H2 Hdev); intros <-; naive_solver. }
    etrans; [apply (list_del_frame _ _ _ _ _ _ H3 Hses2); intros <-; naive_solver|].
    etrans; [|exact Hfirst]. apply (list_del_frame _ _ _ _ _ _ H2 Hdev); intros <-; naive_solver. }
  cbn [km_links km_stations set_stations set_links] in *.
  split; [by rewrite !lookup_delete_ne|]. split; [apply lookup_delete_eq|].
  unfold sc_stations_add, get_station, must, mbind, km_bind, on_links. cbn.
  destruct Hother as [so ->]. obind. cbn [km_links set_stations set_links].
  rewrite (list_add_freed _ _ prev (StationNode, station)); [done|by rewrite !lookup_delete_ne|apply lookup_delete_eq].
Qed.

(** The second station of the sample came last. *)
Example kmod_freed_station_touched_witness :
  let k := after sample_stations in
  exists k', sc_stations_free 5 k = Some (tt, k') /\ is_Some (km_stations k' !! 3%nat) /\ sc_stations_add 3 k' = None.
Proof.
  intros k. destruct (sc_stations_free 5 k) as [[[] k']|] eqn:Hf; [|by vm_compute in Hf].
  exists k'. split; [done|].
  assert (Hother : is_Some (km_stations k' !! 3%nat)).
  { assert (H3 : (fun r => bool_decide (is_Some (km_stations r.2 !! 3%nat))) <$> sc_stations_free 5 (after sample_stations) =
      Some true) by by vm_compute.
    fold k in H3. rewrite Hf in H3. injection H3 as H3. by apply bool_decide_eq_true in H3. }
  split; [exact Hother|].
  apply (@kmod_freed_station_touched zero_memory sample_kernel sample_80211 k k' 5 3 (StationNode, 3%nat)
    (DevStations, 0%nat) (StationDev, 3%nat) (SessionStations, 2%nat) (SessionStations, 2%nat)); try exact Hf; try exact Hother; clear Hf Hother.
  all: try by vm_compute.
  all: first [by left | by right].
Defined.
